(* ===== verification/_CoqProject ===== *)
-Q . S2P
Prelude.v
PyText.v
PyFloat.v
PyValue.v
PyNumber.v
Xml.v
Effects.v
IpAddress.v
Base64.v
Json.v
Paths.v
Context.v
Conditions.v
Transforms.v
Regex.v
Redaction.v
Urls.v
Graph.v
Engine.v
EngineFacts.v
EngineRuns.v
Sync.v
Events.v
MappingResolver.v
ProfileRegistry.v
Flow.v
CircuitBreaker.v
Registry.v
RateLimiter.v
Dispatcher.v
AllowList.v
AuditTrail.v
Vault.v
CredentialsApi.v
Scheduler.v
OAuth.v
OAuthRefresher.v
Webhooks.v
Auth.v
WorkflowsApi.v
Kafka.v
HttpLimiter.v
Tenants.v
Accounts.v
OfflineQueue.v
Health.v
Schema.v
Instances.v
CredentialValidator.v
Actions.v
FlowsApi.v
ExecutionsApi.v
KsefXml.v
WmsPoller.v
WmsClient.v
EmailPoller.v
Scrapers.v
SdkApp.v
SdkOAuth.v
Legacy.v
HttpRoutes.v
AllegroMapper.v
AllegroAuth.v
AllegroIntegration.v
AllegroRoutes.v
GatewayRoutes.v
WebhooksApi.v
AiApi.v
GatewayEndpoints.v
BaseMapper.v
PosixPath.v
FilePollers.v
FtpSftp.v
S3.v
Slack.v
VerificationChecks.v
VerificationSuites.v
VerificationAgent.v
