(* ===== verification/Prelude.v ===== *)
(** * Open Integration Platform: verification development

    The platform runs integrations between shops, ERPs, couriers and warehouses.
    Connectors are small services described by manifests; the core routes events
    of one connector to actions of others, by simple flows (one source, one
    destination) or by workflows (graphs of nodes).  This development models the
    core of [src/platform/core/], the endpoints of [src/platform/api/] for tenants,
    connectors, credentials, flows, events, workflows and executions with their
    authentication, the HTTP rate limit, the resilience and mapping code of the shared
    library, the connector SDK (its application, accounts, tokens and HTTP client), the
    queue of the on-premise agent, the verification agent, and the connectors whose logic
    is the platform's own (Allegro, the shop scrapers, the WMS, e-mail, FTP and SFTP, S3,
    Slack, the invoices of KSeF), as executable functions, and proves what they guarantee;
    where the code does not do what it means to, a theorem states what it does.

    ** How the parts interact

    An event reaches the platform by a webhook, checked and deduplicated, or by the
    Kafka bridge, for every active tenant, or a job of the scheduler starts a
    workflow.  The flow engine maps it with the mapping resolver and calls an action,
    or the workflow engine checks the trigger filters, asks the synchronisation
    ledger whether the event is new, and runs the graph: nodes read and write a
    context by dotted paths, conditions choose edges, transforms and field mappings
    build payloads, actions are dispatched to connectors found in the registry, with
    credentials of the vault, under the rate limiter and the circuit breakers;
    results are logged with personal data masked.  The gateway authenticates a
    request, which gives the database the tenant whose rows it may see, limits it,
    and changes workflows: every change is versioned by the audit trail and followed
    by the scheduler.  Health checks, the schema registry and the refresher of OAuth
    tokens run beside.  A connector answers the dispatcher on its routes, with an account
    it was given, and its pollers watch the outside and publish what is new; the
    verification agent calls every deployed connector as the platform would, and reports.

    ** The files

    - [Prelude] (this file): the exceptions of Python and the monad [res] of code
      that can raise ([Ok], [Raise]; [catch] is [try]/[except]), insertion-ordered
      dictionaries with text keys, list and text helpers.
    - [PyText], [PyFloat], [PyValue], [PyNumber], [Json]: the Python the sources use:
      [str] methods, binary64 floats (on the Standard Library's [SpecFloat], with correctly
      rounded reading and shortest [repr]), fixed-point formatting and [sum], JSON-like
      values with their equality, truth, order, membership and conversions, [json.dumps]
      and [json.loads].  Theorem: what is dumped is read back.
    - [Xml], [PosixPath]: the trees and texts of [xml.etree.ElementTree]; paths of
      [pathlib] and patterns of [fnmatch].
    - [Effects]: code that changes a state and can raise (the monad [EM]), with
      [preserves] and its automation; tables as lists of rows with a unique key; the
      class [KeyValue] of a store whose keys expire, with an instance.
    - [IpAddress], [Base64]: addresses and networks as Python's [ipaddress] reads and
      writes them, with the properties of special ranges, and URL-safe Base64.  Theorems:
      what is written is read back; what no property excludes is public.
    - [Paths]: [_get_nested], [_set_nested] and their array forms
      ([platform/core/workflow_engine.py]).  Theorems: what is written is read
      back, for dotted and for array paths, and other paths are untouched.
    - [Context]: [WorkflowContext], [_resolve_value] and the interpolation of
      placeholders.  Theorem: interpolation replaces the placeholders one by one.
    - [Conditions]: condition operators and trigger filters.  Theorems: paired
      operators are complementary, and the order operators are Python's order on
      values of one type.
    - [Transforms]: every transform, [_apply_field_mapping], mock outputs and
      aggregation.  Theorems: renaming rules build exactly the renamed object,
      [min_price] picks a cheapest product.
    - [Regex], [Redaction]: a matcher for the fixed regular expressions, the
      redaction of what is sent to AI agents and of execution logs
      ([platform/core/pii_redactor.py], Module [Log]).  Theorems: redaction leaves
      no text its detector recognises; logs do not depend on the masked values.
    - [Graph]: [WorkflowGraph].  Theorem: the indexed successors are the edges of
      the list, in order.
    - [Engine]: the engine itself: [_execute_single_node] with every node type,
      retries, error handlers, executions, sub-workflows, re-runs and comparisons.
      [EngineFacts]: termination within the depth limit, the silence of dry runs,
      and what merge nodes and self-entering parallel nodes do.  [EngineRuns]:
      routing, filters, retries with back-off, failures, re-runs.
    - [Sync]: the ledger ([platform/core/sync_state.py]) and a specification of
      [_execute_with_sync].
      Theorems: one row per entity under any sequence of operations, a
      synchronised event is not run again; what [reset_failed] and the retry limit
      really do.
    - [Events]: [process_event], on the engine and the ledger.  Theorem: a
      redelivered event runs nothing and changes nothing.
    - [MappingResolver], [Flow]: [platform/core/mapping_resolver.py] with its defaults
      and the cache of [platform/core/redis_client.py], and
      [platform/core/flow_engine.py].  Theorems: agreement of the resolver's
      transforms with the engine's, the last override decides its field, the defaults
      follow the files, the number of attempts of a flow and their waits.
    - [ProfileRegistry]: the registry of mapping profiles and the translation of
      statuses of the shared library.  Theorem: the profile a use gets.
    - [CircuitBreaker]: Modules [Shared]
      ([shared/python/pinquark_common/resilience/circuit_breaker.py]) and [Sdk]
      ([sdk/python/pinquark_connector_sdk/http.py]).  Theorems: over the events
      callers see, in any interleaving, the breaker is closed below the threshold and
      admits as many test calls as it may; tripping at the threshold, the bound on the
      exchanges of a request; two ways in which a breaker misses its purpose.
    - [Registry], [RateLimiter]: [platform/core/connector_registry.py] and
      [platform/core/connector_rate_limiter.py].  Theorems: the version a look-up
      gives; sequential checks never exceed the bucket and its refill, overlapping
      checks do.
    - [Dispatcher]: [platform/core/action_dispatcher.py]: the URL of an action, the
      credentials and the coercion of its payload, files, and the exchange with the
      connector under the rate limiter.  Theorems: the limit holds for what is
      sent, payload values cannot change the shape of a URL, the retries after a 429
      are bounded in number and in time.
    - [AuditTrail]: [platform/core/audit_trail.py].  Theorems: a rollback restores
      the recorded content and keeps the history; version numbers stay distinct.
    - [AllowList]: the trigger of a workflow and the addresses that may start it
      ([platform/api/gateway.py]).  Theorem: a client is let in exactly when an entry
      covers it.
    - [Scheduler]: [platform/core/workflow_scheduler.py].
    - [Vault], [CredentialsApi]: [platform/core/credential_vault.py], the encryption of
      the shared library and the credential endpoints of the gateway.  Theorems: what is
      stored is retrieved, what is encrypted is decrypted, rows stay unique, masked values
      keep what they mask, a renaming moves a set whole.
    - [OAuth], [OAuthRefresher]: [platform/core/oauth2_manager.py] and its refresher.
      Theorems: a state is good until the first callback deletes it, so overlapping ones
      may all be accepted; due tokens are renewed at every pass; what failures do.
    - [Webhooks]: [platform/core/webhook_ingestion.py].  Theorems: accepted events carry
      the HMAC their configuration asks for, duplicates are found for a day.
    - [Auth]: [platform/api/auth.py] and the row-level security of the migrations.
      Theorems: an authenticated request sees the rows of its tenant; credential
      tokens never authenticate under the policies.
    - [WorkflowsApi]: the workflow endpoints, on [AuditTrail], [Scheduler],
      [AllowList], [Vault] and [Auth].  Theorems: over requests, refused transactions and
      restarts ([gateway_step]) the jobs follow the workflows, but after rollbacks
      and refused deletions; whom rollbacks let in.
    - [Tenants]: tenants, their keys and the demo workspaces, on [Auth] and
      [HttpLimiter].  Theorems: the tables stay well formed, an issued key
      authenticates its tenant, the slugs made are valid, the limit on registrations.
    - [Instances]: the connectors a tenant activated, the catalogue and its health,
      the distribution of credentials to connectors.  Theorems: which version is
      used; a connector gets exactly its own credentials of active tenants.
    - [Urls], [CredentialValidator]: Python's [urllib.parse], and
      [platform/api/credential_validator.py].  Theorems: what validation may contact;
      which addresses pass although they are private.
    - [Actions]: the executors both engines are given, on [Vault], [OAuth],
      [Instances] and [Dispatcher], and the flow engine run with them in one world.
      Theorem: which attempts a flow makes and what it returns.
    - [FlowsApi]: flows and the event endpoints.  Theorems: an event runs only bound
      and enabled flows of its tenants; how one tenant can block the others.
    - [ExecutionsApi]: listings, details, re-runs and comparisons of executions, the
      ledger endpoints, the answer of [call].  Theorems: pages are a partition,
      details mask personal data, internal fields are stripped, calls fetch a URL
      only right after its host resolved to public addresses, ledger requests are isolated.
    - [Kafka]: [shared/python/pinquark_common/kafka/consumer.py] and
      [platform/core/kafka_event_consumer.py].  Theorems: which messages are delivered
      again after a restart; an event reaches both engines for every tenant.
    - [HttpLimiter]: [platform/middleware/rate_limiter.py].  Theorem: an exact sliding
      window, equal to its reference definition.
    - [Accounts]: [sdk/python/pinquark_connector_sdk/accounts.py], run against the
      provisioning of [Dispatcher].  Theorem: what provisioning leaves in the store.
    - [OfflineQueue]: the queue and the synchronisation of the agent
      ([onpremise/nexo-agent/src/sync/]).  Theorems: the queue drains while the cloud
      answers, in order; what an outage loses.
    - [Health]: [platform/core/connector_health.py].  Theorem: an instance is disabled
      exactly after the threshold of failures in a row.
    - [Schema]: [platform/core/schema_registry.py].  Theorems: schemas are well typed,
      changes are reported exactly; the bounds of the refresh back-off.
    - [HttpRoutes]: which route answers a request, and what declared parameters accept,
      for every file below that has routes.
    - [GatewayRoutes], [WebhooksApi], [AiApi], [GatewayEndpoints]: the table of the
      endpoints of [platform/api/gateway.py] with who may call them, the webhook and AI
      endpoints, those that stand alone, and the handler of exceptions.  Theorems: no
      endpoint but the public ones runs without an active key; webhooks reach the engines
      at most once; production hides failures.
    - [BaseMapper]: [shared/python/pinquark_common/mapping/base.py], on a heap of objects.
      Theorem: when no target nests in another, a batch changes nothing it was given.
    - [SdkApp], [SdkOAuth], [Legacy]: the application of the connector SDK, its OAuth2
      tokens and the bridge for existing connectors.  Theorem: actions stay within their
      limits.
    - [Scrapers], [WmsPoller], [WmsClient], [EmailPoller]: what the shop connectors, the
      WMS connector and the e-mail connector poll and publish.  Theorems: marks move only
      over what was published; a subscriber to the WMS events keeps up, under the
      conditions it states; no mail is delivered again by a later cycle.
    - [KsefXml]: the invoices of KSeF.  Theorems: structured invoices have their
      elements in the sequences of the XSD; values add no markup.
    - [AllegroMapper], [AllegroAuth], [AllegroIntegration], [AllegroRoutes]: the Allegro
      connector.  Theorems: a restart restores the tokens; the paths sent to Allegro are
      made of identifiers, but for three routes.
    - [FilePollers], [FtpSftp], [S3], [Slack]: the connectors of file stores and of Slack.
      Theorems: calls stay below the base of the account, names are checked, a poll
      announces exactly what is due.
    - [VerificationChecks], [VerificationSuites], [VerificationAgent]: the verification
      agent ([platform/verification-agent/src]): the checks of every tier, the scripts per
      connector, and discovery, runs, reports, the scheduler and the routes.  Theorems:
      which targets a run has; but for the script of KSeF a run completes whatever connectors
      answer, unless a report quotes what the JSON columns refuse ([jsonb], a parameter); test objects are removed; every run promised is accounted for.

    ** Reading the model

    Functions keep the names of the source without the leading underscore.  Code
    that can raise returns [res]; the workflow engine runs in the monad [M] of
    [Engine], over a state made of the context and of a world (the log of what
    was asked of the outside, the store of result entries, the executions), with
    three outcomes: [Returned], [Hangs] (a semaphore of size zero) and [NoFuel].
    Database tables are lists of rows, their statements the list operations they
    denote; row locks and unique constraints are as the code declares them.

    Fuel.  [_execute_single_node] recurses without a bound of Python's; its model
    takes fuel, one unit per nested call.  The engine raises an error beyond 200
    levels, so 202 units are enough for every workflow whose nodes re-enter only
    through the depth check and whose batch nodes have a concurrency: [EngineFacts.execute_workflow_terminates] proves it,
    and [EngineFacts.parallel_self_branch_diverges] shows a workflow outside that
    class for which no fuel is enough.  [collect_field_paths] and [redact_go] carry
    the depth limits (20) of the code.  The other fuels (array paths, placeholders,
    splitting, patterns, [json.loads]) are lengths of the texts they consume, and lemmas
    such as [Paths.get_nested_go_fuel] and [Context.sub_placeholders_fuel] show that more
    of it changes nothing.  The device flow of Allegro waits 300 seconds at intervals of
    at least one, so 301 rounds are enough ([AllegroAuth.device_flow_ends]).  A value of
    the heap of [BaseMapper] is read to the depth of the number of its objects, and the
    accounts in the environment are at most as many as its variables.

    Parameters, with what is relied on: [TextLib] (the regular expressions given
    by users, [str.format], date formats), [Env] (connectors, AI agents, HTTP,
    other workflows, the schema of mocks), the oracles of [Flow] and
    [CircuitBreaker], SHA-256 in [Sync], JMESPath in [Flow], the services of [Dispatcher] (an
    answer to every request, given the history), the class [Redis] of
    [RateLimiter] with the laws of [GET] and [SET ... EX], [KeyValue] for the other
    uses of Redis, [Cipher] for AES-GCM and random draws, [JobScheduler] for
    APScheduler and the reading of cron expressions, the answers of OAuth providers,
    probes, schema requests and the cloud, HMAC and the JSON reader in [Webhooks],
    name resolution and the answers of web and mail servers in [CredentialValidator] and
    [ExecutionsApi], the order a database gives rows that its query leaves unordered,
    [ImapServer] and the reading of mails, the services the connectors and endpoints call
    (shops, WMS, Allegro, Slack, file and object stores, Kafka, language models, connectors
    under verification), each a function of what was asked before, the methods of a
    connector built with the SDK, the application a [Legacy] bridge stands before, what
    pydantic reads as a date, the mapping files, and the endpoints behind the routes of
    [GatewayRoutes].
    Each class has an instance, with which the witnesses evaluate.

    ** Simplifications

    Texts are ASCII.  Keys of dictionaries are texts.  A container that occurs
    twice in a value is two values: the aliasing the engine depends on (the result
    entries mutated after they were recorded) is modelled by a store, other sharing
    is not; identity tests before equality are left out, so a NaN in a list is
    equal to nothing.  Clocks are integers, or rationals in the rate limiter, whose
    float rounding is left out.  Time limits ([asyncio.wait_for]) and durations are
    not modelled.  Branches of a parallel node and items of a batch run in the
    order of their creation.  In [BaseMapper] objects have identity; there the values of
    dates and decimals are those its parameters give, and functions registered for
    transforms change nothing and return new values.  The text fields of a manifest hold
    texts in [VerificationAgent].  Services are functions of a trace, so what happens
    while a request is out is modelled only where a file has a step relation
    ([CircuitBreaker], [RateLimiter], [WebhooksApi], [VerificationAgent]).

    Row-level security is modelled in [Auth] and [WorkflowsApi]; [CredentialsApi] is
    for a database role the policies do not bind.

    ** Not modelled, and the plan

    Of the gateway, its start-up and the middlewares of headers and metrics; the database
    declarations and migrations; the reading of YAML manifests by the registry; the
    services of the on-premise agent, which drive a .NET library; the couriers, the ERPs
    and the clients of the shops other than Allegro, which translate to formats of their
    vendors; the sending of mails; Kafka and Prometheus themselves; the dashboard and the
    deployment files.  These are input/output, declarations or vendors' formats.  The next
    to model would be the routes of WooCommerce, whose table has the shape of [AllegroRoutes],
    the REST connector, and the statuses and labels of the couriers. *)

From Stdlib Require Export ZArith Lia Bool Ascii String.
From Stdlib Require Export Sorted.
From stdpp Require Export base list strings gmap numbers option.

#[export] Set Default Goal Selector "!".

#[global] Arguments String.append !s1 s2 / : simpl nomatch.

(** ** Exceptions and the error monad

    Python code that can raise is translated to a function returning [res A].
    An exception is a value: its class and, where the class carries one, the
    message [str(exc)] reports. *)

Inductive pyexn :=
  | TypeError (msg : string)
  | ValueError (msg : string)
  | KeyError (key : string)
  | IndexError (msg : string)
  | AttributeError (msg : string)
  | OverflowError (msg : string)
  | ZeroDivisionError (msg : string)
  | LookupError (msg : string)
  | WorkflowError (msg : string) (node_id : option string)
  | OtherError (msg : string).

Inductive res (A : Type) :=
  | Ok (a : A)
  | Raise (e : pyexn).
Arguments Ok {A} a.
Arguments Raise {A} e.

#[export] Instance res_ret : MRet res := fun A a => Ok a.
#[export] Instance res_bind : MBind res := fun A B f m =>
  match m with Ok a => f a | Raise e => Raise e end.
#[export] Instance res_fmap : FMap res := fun A B f m =>
  match m with Ok a => Ok (f a) | Raise e => Raise e end.

Definition is_ok {A} (m : res A) : bool :=
  match m with Ok _ => true | Raise _ => false end.

(** [try: m except (classes): h]. *)
Definition catch {A} (m : res A) (handles : pyexn -> bool) (h : res A) : res A :=
  match m with
  | Ok a => Ok a
  | Raise e => if handles e then h else Raise e
  end.

Definition is_value_or_type_error (e : pyexn) : bool :=
  match e with ValueError _ | TypeError _ => true | _ => false end.
Definition is_type_error (e : pyexn) : bool :=
  match e with TypeError _ => true | _ => false end.

Lemma bind_Ok_inv {A B} (m : res A) (f : A -> res B) b :
  (m ≫= f) = Ok b -> exists a, m = Ok a /\ f a = Ok b.
Proof. destruct m; cbn; [eauto | discriminate]. Qed.

(** Splits every hypothesis [(x <- m; k) = Ok r] into the success of [m] and of [k]. *)
Ltac bind_ok :=
  repeat match goal with
  | H : (_ ≫= _) = Ok _ |- _ =>
      let x := fresh "x" in let Hx := fresh "Hx" in
      apply bind_Ok_inv in H as (x & Hx & H)
  | H : Ok _ = Ok _ |- _ => injection H as H; subst
  | H : mret _ = Ok _ |- _ => unfold mret, res_ret in H
  | H : Raise _ = Ok _ |- _ => discriminate H
  | H : Ok _ = Raise _ |- _ => discriminate H
  end.

(** ** Ordered dictionaries

    A Python [dict] with string keys: insertion-ordered association list.
    Assignment keeps the position of an existing key and appends a new one. *)

Section dict.
Context {V : Type}.
Implicit Types (d : list (string * V)) (k : string) (v : V).

Fixpoint dget k d : option V :=
  match d with
  | [] => None
  | (k', v) :: d' => if String.eqb k k' then Some v else dget k d'
  end.

Fixpoint dset k v d : list (string * V) :=
  match d with
  | [] => [(k, v)]
  | (k', v') :: d' =>
      if String.eqb k k' then (k', v) :: d' else (k', v') :: dset k v d'
  end.

Fixpoint ddel k d : list (string * V) :=
  match d with
  | [] => []
  | (k', v') :: d' => if String.eqb k k' then d' else (k', v') :: ddel k d'
  end.

Definition dhas k d : bool := match dget k d with Some _ => true | None => false end.

Definition dkeys d : list string := map fst d.

(** [{**a, **b}]. *)
Definition dmerge (a b : list (string * V)) : list (string * V) :=
  fold_left (fun acc kv => dset kv.1 kv.2 acc) b a.

(** The dict a sequence of key/value pairs builds (last assignment wins). *)
Definition dict_of (l : list (string * V)) : list (string * V) := dmerge [] l.

Lemma dget_dset k k' v d :
  dget k (dset k' v d) = if String.eqb k k' then Some v else dget k d.
Proof.
  induction d as [|[k0 v0] d IH]; cbn.
  - done.
  - destruct (String.eqb_spec k' k0) as [->|Hne]; cbn.
    + by destruct (String.eqb_spec k k0).
    + destruct (String.eqb_spec k k0) as [->|].
      * by destruct (String.eqb_spec k0 k') as [->|].
      * done.
Qed.

Lemma dget_dset_eq k v d : dget k (dset k v d) = Some v.
Proof. by rewrite dget_dset, String.eqb_refl. Qed.

Lemma dget_dset_ne k k' v d : k <> k' -> dget k (dset k' v d) = dget k d.
Proof. intros H. rewrite dget_dset. by destruct (String.eqb_spec k k'). Qed.

Lemma dget_None k d : dget k d = None <-> k ∉ dkeys d.
Proof.
  induction d as [|[k0 v0] d IH]; cbn.
  - split; [intros _; apply not_elem_of_nil | done].
  - rewrite not_elem_of_cons. destruct (String.eqb_spec k k0) as [->|Hne].
    + split; [done | by intros [? _]].
    + rewrite IH. tauto.
Qed.

Lemma dget_Some_in k v d : dget k d = Some v -> (k, v) ∈ d.
Proof.
  induction d as [|[k0 v0] d IH]; cbn; [done|].
  destruct (String.eqb_spec k k0) as [->|]; intros H.
  - injection H as ->. left.
  - right. auto.
Qed.

Lemma dkeys_dset k v d :
  dkeys (dset k v d) = if dhas k d then dkeys d else dkeys d ++ [k].
Proof.
  unfold dhas, dkeys. induction d as [|[k0 v0] d IH]; cbn; [done|].
  destruct (String.eqb_spec k k0) as [->|]; cbn; [done|].
  rewrite IH. by destruct (dget k d).
Qed.

Lemma NoDup_dkeys_dset k v d : NoDup (dkeys d) -> NoDup (dkeys (dset k v d)).
Proof.
  intros H. rewrite dkeys_dset. unfold dhas. destruct (dget k d) eqn:E; [done|].
  apply dget_None in E. apply list.NoDup_app. split_and!; [done| |apply NoDup_singleton].
  intros x Hx ->%list_elem_of_singleton. done.
Qed.

Lemma dget_dmerge k a b :
  NoDup (dkeys b) ->
  dget k (dmerge a b) = match dget k b with Some v => Some v | None => dget k a end.
Proof.
  unfold dmerge. revert a. induction b as [|[k0 v0] b IH]; intros a Hnd; cbn; [done|].
  apply list.NoDup_cons in Hnd as [Hni Hnd]. rewrite IH by done. cbn.
  destruct (String.eqb_spec k k0) as [->|].
  - apply dget_None in Hni. cbn in Hni. rewrite Hni. by rewrite dget_dset_eq.
  - destruct (dget k b); [done|]. by rewrite dget_dset_ne.
Qed.

Lemma NoDup_dkeys_dmerge a b : NoDup (dkeys a) -> NoDup (dkeys (dmerge a b)).
Proof.
  unfold dmerge. revert a. induction b as [|[k v] b IH]; intros a Ha; cbn; [done|].
  apply IH. by apply NoDup_dkeys_dset.
Qed.

Lemma dget_ddel_ne k k' d : k <> k' -> dget k (ddel k' d) = dget k d.
Proof.
  intros H. induction d as [|[k0 v0] d IH]; cbn; [done|].
  destruct (String.eqb_spec k' k0) as [<-|]; cbn.
  - by destruct (String.eqb_spec k k').
  - by rewrite IH.
Qed.

Lemma dget_ddel_eq k d : NoDup (dkeys d) -> dget k (ddel k d) = None.
Proof.
  induction d as [|[k0 v0] d IH]; cbn; [done|]. intros [Hni Hnd]%list.NoDup_cons.
  destruct (String.eqb_spec k k0) as [->|]; cbn.
  - by apply dget_None.
  - destruct (String.eqb_spec k k0); [done|auto].
Qed.
Lemma NoDup_dkeys_ddel k d : NoDup (dkeys d) -> NoDup (dkeys (ddel k d)).
Proof.
  induction d as [|[k0 v0] d IH]; cbn; [done|]. intros [Hni Hnd]%list.NoDup_cons.
  destruct (String.eqb k k0); [done|]. cbn. apply list.NoDup_cons. split; [|by apply IH].
  intros Hin. apply Hni. clear -Hin. induction d as [|[k1 v1] d IH]; [done|]. cbn in *.
  destruct (String.eqb k k1); [by right|]. cbn in Hin. apply elem_of_cons in Hin as [->|Hin]; [by left|].
  right. by apply IH.
Qed.

Lemma elem_of_dset k v k' v' d : (k, v) ∈ dset k' v' d -> (k, v) = (k', v') \/ (k, v) ∈ d.
Proof.
  induction d as [|[k0 v0] d IH]; cbn.
  - intros H%list_elem_of_singleton. by left.
  - destruct (String.eqb_spec k' k0) as [<-|_]; rewrite !elem_of_cons; tauto.
Qed.

Lemma elem_of_dmerge k v a b : (k, v) ∈ dmerge a b -> (k, v) ∈ b \/ (k, v) ∈ a.
Proof.
  unfold dmerge. revert a. induction b as [|[k0 v0] b IH]; intros a; cbn; [by right|].
  intros [H|H]%IH; [left; by right|].
  apply elem_of_dset in H as [->|H]; [left; left|by right].
Qed.

Lemma elem_of_dict_of k v l : (k, v) ∈ dict_of l -> (k, v) ∈ l.
Proof. intros [?|H]%elem_of_dmerge; [done|by apply not_elem_of_nil in H]. Qed.

Lemma elem_of_dkeys k d : k ∈ dkeys d <-> exists v, (k, v) ∈ d.
Proof.
  unfold dkeys. rewrite list_elem_of_In, in_map_iff. split.
  - intros ([k' v] & <- & H). exists v. by apply list_elem_of_In.
  - intros [v H]. exists (k, v). split; [done|by apply list_elem_of_In].
Qed.
End dict.

Create HintDb pydict.
Create Rewrite HintDb pydict.
#[export] Hint Rewrite @dget_dset_eq : pydict.
#[export] Hint Resolve NoDup_dkeys_dset NoDup_dkeys_dmerge : pydict.

(** ** Strings

    A Python [str] is a Rocq [string]; the development's string operations are
    the ASCII ones. *)

(** [s.split(c)] for a one-character separator. *)
Fixpoint split_char (c : ascii) (s : string) : list string :=
  match s with
  | EmptyString => [EmptyString]
  | String a s' =>
      if Ascii.eqb a c then EmptyString :: split_char c s'
      else match split_char c s' with
           | [] => [String a EmptyString]
           | w :: ws => String a w :: ws
           end
  end.

(** [sep.join(parts)]. *)
Fixpoint str_join (sep : string) (l : list string) : string :=
  match l with
  | [] => EmptyString
  | [x] => x
  | x :: l' => (x ++ sep ++ str_join sep l')%string
  end.

(** [s.startswith(p)]. *)
Fixpoint starts_with (p s : string) : bool :=
  match p, s with
  | EmptyString, _ => true
  | String a p', String b s' => Ascii.eqb a b && starts_with p' s'
  | String _ _, EmptyString => false
  end.

Fixpoint str_drop (n : nat) (s : string) : string :=
  match n, s with
  | O, _ => s
  | S n', String _ s' => str_drop n' s'
  | S _, EmptyString => EmptyString
  end.

Fixpoint str_take (n : nat) (s : string) : string :=
  match n, s with
  | O, _ => EmptyString
  | S n', String a s' => String a (str_take n' s')
  | S _, EmptyString => EmptyString
  end.

(** [s.endswith(p)]. *)
Definition ends_with (p s : string) : bool :=
  (String.length p <=? String.length s)%nat
  && String.eqb (str_drop (String.length s - String.length p) s) p.

(** [s.find(p)] as an option: the first position where [p] occurs. *)
Fixpoint str_find (p s : string) : option nat :=
  if starts_with p s then Some O
  else match s with
       | EmptyString => None
       | String _ s' => S <$> str_find p s'
       end.

(** [p in s] on strings. *)
Definition str_contains (p s : string) : bool :=
  match str_find p s with Some _ => true | None => false end.

Lemma split_char_nonempty c s : split_char c s <> [].
Proof.
  destruct s as [|a s]; cbn; [done|].
  destruct (Ascii.eqb a c); [done|]. by destruct (split_char c s).
Qed.

Lemma join_split_char c s : str_join (String c EmptyString) (split_char c s) = s.
Proof.
  induction s as [|a s IH]; cbn; [done|].
  pose proof (split_char_nonempty c s) as Hne.
  destruct (Ascii.eqb_spec a c) as [->|Hac].
  - destruct (split_char c s) as [|w ws]; [done|]. cbn in *. by rewrite IH.
  - destruct (split_char c s) as [|w ws]; [done|].
    destruct ws; cbn in *; by rewrite <-IH.
Qed.

Lemma str_app_length s t :
  String.length (s ++ t) = (String.length s + String.length t)%nat.
Proof. induction s as [|a s IH]; simpl; [done|]. by f_equal. Qed.

Lemma str_app_assoc s t u : (s ++ t ++ u = (s ++ t) ++ u)%string.
Proof. induction s as [|a s IH]; simpl; [done|]. by rewrite IH. Qed.

Lemma str_app_nil_r s : (s ++ "" = s)%string.
Proof. induction s as [|a s IH]; simpl; [done|]. by rewrite IH. Qed.

Lemma str_drop_length n s : String.length (str_drop n s) = (String.length s - n)%nat.
Proof. revert s. induction n as [|n IH]; intros [|a s]; cbn; auto. Qed.

Lemma str_take_length n s : String.length (str_take n s) = Nat.min n (String.length s).
Proof. revert s. induction n as [|n IH]; intros [|a s]; cbn; auto. Qed.

Lemma str_take_app s t : str_take (String.length s) (s ++ t) = s.
Proof. induction s as [|a s IH]; simpl; [by destruct t|]. by rewrite IH. Qed.

Lemma str_drop_app s t : str_drop (String.length s) (s ++ t) = t.
Proof. induction s as [|a s IH]; simpl; [done|exact IH]. Qed.

Lemma starts_with_app p s : starts_with p (p ++ s) = true.
Proof. induction p as [|a p IH]; [by destruct s|]. simpl. by rewrite Ascii.eqb_refl. Qed.

Lemma starts_with_length p s :
  starts_with p s = true -> (String.length p <= String.length s)%nat.
Proof.
  revert s. induction p as [|a p IH]; intros [|b s]; simpl; try (done || lia).
  intros [_ H]%andb_true_iff. specialize (IH _ H). lia.
Qed.

Lemma str_find_length p s n :
  str_find p s = Some n -> (n + String.length p <= String.length s)%nat.
Proof.
  revert n. induction s as [|a s IH]; intros n; simpl.
  - destruct (starts_with p EmptyString) eqn:E; [|done].
    intros [= <-]. apply starts_with_length in E. done.
  - destruct (starts_with p (String a s)) eqn:E.
    + intros [= <-]. by apply starts_with_length in E.
    + destruct (str_find p s) as [m|]; [|done].
      intros [= <-]. specialize (IH m eq_refl). lia.
Qed.

(** ** Lists *)

(** Python indexing [l[i]]: negative indices count from the end. *)
Definition py_index {A} (l : list A) (i : Z) : option A :=
  let n := Z.of_nat (List.length l) in
  let j := if (i <? 0)%Z then (i + n)%Z else i in
  if (j <? 0)%Z then None else l !! Z.to_nat j.

(** First [Raise] wins, left to right: a list comprehension whose body can raise. *)
Fixpoint mapR {A B} (f : A -> res B) (l : list A) : res (list B) :=
  match l with
  | [] => Ok []
  | x :: l' => y ← f x; ys ← mapR f l'; Ok (y :: ys)
  end.

Fixpoint foldR {A B} (f : B -> A -> res B) (b : B) (l : list A) : res B :=
  match l with
  | [] => Ok b
  | x :: l' => b' ← f b x; foldR f b' l'
  end.

Lemma mapR_length {A B} (f : A -> res B) l ys :
  mapR f l = Ok ys -> List.length ys = List.length l.
Proof.
  revert ys. induction l as [|x l IH]; cbn; intros ys H; bind_ok; [done|].
  cbn. f_equal. auto.
Qed.

Lemma mapR_Ok {A B} (f : A -> res B) (g : A -> B) l :
  (forall x, x ∈ l -> f x = Ok (g x)) -> mapR f l = Ok (map g l).
Proof.
  induction l as [|x l IH]; intros H; cbn; [done|].
  rewrite (H x) by left. cbn. rewrite IH; [done|].
  intros y Hy. apply H. by right.
Qed.

Lemma find_app {A} (p : A -> bool) l1 l2 :
  List.find p (l1 ++ l2) = match List.find p l1 with Some x => Some x | None => List.find p l2 end.
Proof. induction l1 as [|x l1 IH]; cbn; [done|]. by destruct (p x). Qed.

Lemma foldR_app {A B} (f : B -> A -> res B) b l1 l2 :
  foldR f b (l1 ++ l2) = (b' ← foldR f b l1; foldR f b' l2).
Proof.
  revert b. induction l1 as [|x l1 IH]; intros b; cbn; [done|].
  destruct (f b x); cbn; [apply IH | done].
Qed.

(** Invariants carried by a fallible left fold. *)
Lemma foldR_inv {A B} (P : B -> Prop) (f : B -> A -> res B) b l b' :
  (forall x c c', x ∈ l -> P c -> f c x = Ok c' -> P c') ->
  P b -> foldR f b l = Ok b' -> P b'.
Proof.
  revert b. induction l as [|x l IH]; intros b Hf Hb H; cbn in H; bind_ok; [done|].
  eapply IH; [| |exact H].
  - intros y c c' Hy. apply Hf. by right.
  - eapply Hf; [left|exact Hb|exact Hx].
Qed.

(** [list.sort]: a stable insertion sort; [lt y x] says that [y] must come
    before [x]. *)
Fixpoint insert_by {A} (lt : A -> A -> bool) (x : A) (l : list A) : list A :=
  match l with
  | [] => [x]
  | y :: l' => if lt y x then y :: insert_by lt x l' else x :: l
  end.

Definition stable_sort {A} (lt : A -> A -> bool) (l : list A) : list A :=
  foldr (insert_by lt) [] l.

Lemma insert_by_perm {A} (lt : A -> A -> bool) x l : insert_by lt x l ≡ₚ x :: l.
Proof.
  induction l as [|y l IH]; cbn; [done|]. destruct (lt y x); [|done].
  rewrite IH. constructor.
Qed.

Lemma stable_sort_perm {A} (lt : A -> A -> bool) l : stable_sort lt l ≡ₚ l.
Proof.
  induction l as [|x l IH]; cbn; [done|]. by rewrite insert_by_perm, IH.
Qed.

Lemma insert_by_hd {A} (lt : A -> A -> bool) x l z m :
  insert_by lt x l = z :: m -> z = x \/ (exists l', l = z :: l' /\ lt z x = true).
Proof.
  destruct l as [|y l]; cbn; [intros [= <- <-]; by left|].
  destruct (lt y x) eqn:E; intros [= <- <-]; [right; eauto | by left].
Qed.

(** The head of a sorted list is beaten by nothing in it. *)
Lemma stable_sort_hd {A} (lt : A -> A -> bool) l x m :
  (forall a b, a ∈ l -> b ∈ l -> lt a b = true -> lt b a = false) ->
  (forall a b c, a ∈ l -> b ∈ l -> c ∈ l -> lt b a = false -> lt c b = false -> lt c a = false) ->
  stable_sort lt l = x :: m -> forall y, y ∈ l -> lt y x = false.
Proof.
  revert x m. induction l as [|a l IH]; intros x m Hasym Htr; [done|].
  change (insert_by lt a (stable_sort lt l) = x :: m -> forall y, y ∈ a :: l -> lt y x = false).
  intros H y Hy.
  assert (Hirr : lt a a = false).
  { destruct (lt a a) eqn:E; [|done]. rewrite <-E. apply Hasym; [left|left|done]. }
  destruct (stable_sort lt l) as [|z m'] eqn:E.
  { assert (Hl : l = []). { apply Permutation_nil. rewrite <-E. apply stable_sort_perm. }
    subst l. cbn in H. injection H as <- <-. apply list_elem_of_singleton in Hy as ->. done. }
  assert (Hz : z ∈ l). { rewrite <-(stable_sort_perm lt l), E. left. }
  assert (Hmin : forall y, y ∈ l -> lt y z = false).
  { apply (IH z m'); [| |done].
    - intros b c Hb Hc. apply Hasym; by right.
    - intros b c d Hb Hc Hd. apply Htr; by right. }
  cbn in H. destruct (lt z a) eqn:Eza; injection H as <- <-.
  - apply elem_of_cons in Hy as [->|Hy]; [|by apply Hmin].
    apply Hasym; [by right|left|done].
  - apply elem_of_cons in Hy as [->|Hy]; [done|].
    apply (Htr a z y); [left|by right|by right|done|by apply Hmin].
Qed.

(** A stable sort by a total order sorts. *)
Lemma insert_by_sorted {A} (lt : A -> A -> bool) (R : A -> A -> Prop) x l :
  (forall a b, lt a b = true -> R a b) -> (forall a b, lt a b = false -> R b a) ->
  (forall a b c, R a b -> R b c -> R a c) ->
  StronglySorted R l -> StronglySorted R (insert_by lt x l).
Proof.
  intros Ht Hf Htr. induction 1 as [|y l Hl IH Hy]; cbn; [by repeat constructor|].
  destruct (lt y x) eqn:E.
  - constructor; [done|]. rewrite insert_by_perm. constructor; [by apply Ht|done].
  - constructor; [by constructor|]. constructor; [by apply Hf|].
    eapply (List.Forall_impl _ (P := R y)); [|exact Hy]. intros z. apply Htr. by apply Hf.
Qed.
Lemma stable_sort_sorted {A} (lt : A -> A -> bool) (R : A -> A -> Prop) l :
  (forall a b, lt a b = true -> R a b) -> (forall a b, lt a b = false -> R b a) ->
  (forall a b c, R a b -> R b c -> R a c) -> StronglySorted R (stable_sort lt l).
Proof. intros Ht Hf Htr. induction l as [|x l IH]; [constructor|]. by apply insert_by_sorted. Qed.
