(* ===== verification/PyText.v ===== *)
(** Python's [str] methods and the [int]/[str] conversions the platform uses,
    on ASCII strings: [strip], [lower], [upper], [split], [replace], slices,
    [int(s)] and [str(n)]. *)

From stdpp Require Import pretty.
From S2P Require Import Prelude.

Local Open Scope Z_scope.

Definition code (c : ascii) : Z := Z.of_nat (nat_of_ascii c).
Definition chr (n : Z) : ascii := ascii_of_nat (Z.to_nat n).
Definition str1 (c : ascii) : string := String c EmptyString.

Definition in_range (lo hi : Z) (c : ascii) : bool := (lo <=? code c) && (code c <=? hi).
Definition is_digit (c : ascii) : bool := in_range 48 57 c.
Definition is_upper (c : ascii) : bool := in_range 65 90 c.
Definition is_lower (c : ascii) : bool := in_range 97 122 c.
Definition is_alpha (c : ascii) : bool := is_upper c || is_lower c.
Definition is_alnum (c : ascii) : bool := is_alpha c || is_digit c.
(** [str.isspace] on ASCII: blank, the controls 9-13 and 28-31. *)
Definition is_space (c : ascii) : bool :=
  (code c =? 32) || in_range 9 13 c || in_range 28 31 c.

Fixpoint str_map (f : ascii -> ascii) (s : string) : string :=
  match s with EmptyString => EmptyString | String c s' => String (f c) (str_map f s') end.
Fixpoint str_forall (p : ascii -> bool) (s : string) : bool :=
  match s with EmptyString => true | String c s' => p c && str_forall p s' end.
Fixpoint str_filter (p : ascii -> bool) (s : string) : string :=
  match s with
  | EmptyString => EmptyString
  | String c s' => if p c then String c (str_filter p s') else str_filter p s'
  end.
Fixpoint str_rev_app (s acc : string) : string :=
  match s with EmptyString => acc | String c s' => str_rev_app s' (String c acc) end.
Definition str_rev (s : string) : string := str_rev_app s EmptyString.

Definition lower_char (c : ascii) : ascii := if is_upper c then chr (code c + 32) else c.
Definition upper_char (c : ascii) : ascii := if is_lower c then chr (code c - 32) else c.
Definition py_lower : string -> string := str_map lower_char.
Definition py_upper : string -> string := str_map upper_char.

Fixpoint lstrip_by (p : ascii -> bool) (s : string) : string :=
  match s with
  | EmptyString => EmptyString
  | String c s' => if p c then lstrip_by p s' else s
  end.
Definition rstrip_by (p : ascii -> bool) (s : string) : string :=
  str_rev (lstrip_by p (str_rev s)).
(** [s.strip()]. *)
Definition py_strip (s : string) : string := rstrip_by is_space (lstrip_by is_space s).

(** [s.split(sep)] and [s.replace(old, new)] for a separator of any length; the
    fuel is the length of [s], one unit per character passed. *)
Fixpoint split_go (fuel : nat) (sep s cur : string) : list string :=
  match fuel with
  | O => [str_rev cur]
  | S fuel' =>
      match s with
      | EmptyString => [str_rev cur]
      | String c s' =>
          if starts_with sep s
          then str_rev cur :: split_go fuel' sep (str_drop (String.length sep) s) EmptyString
          else split_go fuel' sep s' (String c cur)
      end
  end.

(** [s.split(sep)]: an empty separator is a [ValueError]. *)
Definition py_split (s sep : string) : res (list string) :=
  if String.eqb sep EmptyString then Raise (ValueError "empty separator")
  else Ok (split_go (S (String.length s)) sep s EmptyString).

(** [s.replace(old, new)]; an empty [old] inserts [new] around every character. *)
Definition interleave (new s : string) : string :=
  (fix go (t : string) : string :=
     match t with
     | EmptyString => new
     | String c t' => (new ++ String c (go t'))%string
     end) s.
Definition py_replace (s old new : string) : string :=
  if String.eqb old EmptyString then interleave new s
  else str_join new (split_go (S (String.length s)) old s EmptyString).

(** [s.replace(old, new, 1)]. *)
Definition replace_first (s old new : string) : string :=
  match str_find old s with
  | Some i => (str_take i s ++ new ++ str_drop (i + String.length old) s)%string
  | None => s
  end.

(** [s[a:b]] with Python's clamping of negative and out-of-range bounds. *)
Definition clamp_index (n i : Z) : nat :=
  Z.to_nat (Z.max 0 (Z.min n (if i <? 0 then i + n else i))).
Definition str_slice (s : string) (a : Z) (b : option Z) : string :=
  let n := Z.of_nat (String.length s) in
  let lo := clamp_index n a in
  let hi := match b with Some e => clamp_index n e | None => Z.to_nat n end in
  str_take (hi - lo) (str_drop lo s).

(** [s.split()]: the words between blanks. *)
Fixpoint words (s cur : string) : list string :=
  match s with
  | EmptyString => if String.eqb cur "" then [] else [str_rev cur]
  | String c s' =>
      if is_space c then (if String.eqb cur "" then words s' "" else str_rev cur :: words s' "")
      else words s' (String c cur)
  end.

(** [str(n)] for an int. *)
Definition str_of_Z (n : Z) : string := pretty n.

(** [int(s)]: surrounding blanks, one sign, digits with single underscores
    between them. *)
Fixpoint digits_value (acc : Z) (after_digit : bool) (s : string) : option Z :=
  match s with
  | EmptyString => if after_digit then Some acc else None
  | String c s' =>
      if is_digit c then digits_value (acc * 10 + (code c - 48)) true s'
      else if Ascii.eqb c "_" && after_digit then digits_value acc false s'
      else None
  end.
Definition parse_int (s : string) : option Z :=
  match py_strip s with
  | String c s' =>
      if Ascii.eqb c "-" then Z.opp <$> digits_value 0 false s'
      else if Ascii.eqb c "+" then digits_value 0 false s'
      else digits_value 0 false (String c s')
  | EmptyString => None
  end.

(** ** Facts *)

(** [s.split(c, n)] for a one-character separator. *)
Fixpoint split_max (c : ascii) (n : nat) (s : string) : list string :=
  match n, s with
  | O, _ => [s]
  | S _, EmptyString => [EmptyString]
  | S m, String a s' =>
      if Ascii.eqb a c then EmptyString :: split_max c m s'
      else match split_max c n s' with
           | [] => [String a EmptyString]
           | w :: ws => String a w :: ws
           end
  end.

Definition has_no (c : ascii) (s : string) : bool := str_forall (fun a => negb (Ascii.eqb a c)) s.

(** [str(uuid.UUID(s))]: the thirty-two hexadecimal digits, regrouped, or nothing when
    the text is not a UUID. *)
Definition is_hex (c : ascii) : bool := is_digit c || in_range 65 70 c || in_range 97 102 c.
Definition strip_braces (s : string) : string :=
  let brace c := Ascii.eqb c "{" || Ascii.eqb c "}" in rstrip_by brace (lstrip_by brace s).
Definition uuid_digits (s : string) : string :=
  py_replace (strip_braces (py_replace (py_replace s "urn:" "") "uuid:" "")) "-" "".
Definition parse_uuid (s : string) : option string :=
  let h := py_lower (uuid_digits s) in
  if Nat.eqb (String.length h) 32 && str_forall is_hex h
  then Some (str_take 8 h ++ "-" ++ str_take 4 (str_drop 8 h) ++ "-" ++ str_take 4 (str_drop 12 h) ++ "-"
             ++ str_take 4 (str_drop 16 h) ++ "-" ++ str_drop 20 h)%string
  else None.

Lemma split_max_app c n s t :
  has_no c s = true -> split_max c (S n) (s ++ String c t) = s :: split_max c n t.
Proof.
  intros H. induction s as [|a s IH]; cbn in *; [by rewrite Ascii.eqb_refl|].
  apply andb_true_iff in H as [Ha H]. apply negb_true_iff in Ha. rewrite Ha, IH by done. done.
Qed.

Lemma split_go_nonempty n sep s cur : split_go n sep s cur <> [].
Proof.
  revert s cur. induction n as [|n IH]; intros [|a s] cur; cbn [split_go]; try done.
  destruct (starts_with _ _); [done|apply IH].
Qed.

Lemma str_join_cons sep x y l :
  str_join sep (x :: y :: l) = (x ++ sep ++ str_join sep (y :: l))%string.
Proof. done. Qed.

Lemma str_map_length f s : String.length (str_map f s) = String.length s.
Proof. induction s as [|c s IH]; simpl; [done|]. by f_equal. Qed.

Lemma str_map_idemp f s :
  (forall c, f (f c) = f c) -> str_map f (str_map f s) = str_map f s.
Proof. intros H. induction s as [|c s IH]; simpl; [done|]. by rewrite H, IH. Qed.

Lemma lower_char_idemp c : lower_char (lower_char c) = lower_char c.
Proof. by destruct c as [[] [] [] [] [] [] [] []]; vm_compute. Qed.

Lemma upper_char_idemp c : upper_char (upper_char c) = upper_char c.
Proof. by destruct c as [[] [] [] [] [] [] [] []]; vm_compute. Qed.

Lemma lstrip_by_idemp p s : lstrip_by p (lstrip_by p s) = lstrip_by p s.
Proof.
  induction s as [|c s IH]; simpl; [done|].
  destruct (p c) eqn:E; [done|]. simpl. by rewrite E.
Qed.

(** *** Printing and parsing integers *)

Lemma digits_value_digit acc b c s :
  is_digit c = true ->
  digits_value acc b (String c s) = digits_value (acc * 10 + (code c - 48)) true s.
Proof. intros H. cbn [digits_value]. by rewrite H. Qed.

Lemma pretty_char_digit (m : N) :
  (m < 10)%N ->
  is_digit (pretty_N_char m) = true /\ code (pretty_N_char m) = 48 + Z.of_N m.
Proof.
  intros Hm.
  assert (m = 0 \/ m = 1 \/ m = 2 \/ m = 3 \/ m = 4 \/ m = 5 \/ m = 6 \/ m = 7 \/ m = 8 \/ m = 9)%N
    as Hc by lia.
  repeat (destruct Hc as [->|Hc]; [by vm_compute|]). by subst; vm_compute.
Qed.

(** Reading the digits [pretty] writes continues with the number as accumulator. *)
Lemma digits_value_pretty_go (x : N) :
  (0 < x)%N ->
  forall s acc b, exists k,
    digits_value acc b (pretty_N_go x s) = digits_value (acc * k + Z.of_N x) true s.
Proof.
  induction (N.lt_wf_0 x) as [x _ IH]; intros Hx s acc b.
  rewrite pretty_N_go_step by done.
  destruct (pretty_char_digit (x `mod` 10)) as [Hd1 Hd2].
  { apply N.mod_upper_bound. lia. }
  pose proof (N.div_mod x 10 ltac:(lia)) as Hdm.
  destruct (decide (x `div` 10 = 0)%N) as [H0|Hn0].
  - rewrite H0, pretty_N_go_0, digits_value_digit by done. exists 10.
    f_equal. rewrite Hd2. rewrite H0 in Hdm. lia.
  - assert (Hq : (0 < x `div` 10)%N) by (by apply N.neq_0_lt_0).
    destruct (IH (x `div` 10)%N (N.div_lt x 10 Hx eq_refl) Hq
                 (String (pretty_N_char (x `mod` 10)) s) acc b) as (k & Heq).
    exists (k * 10). rewrite Heq, digits_value_digit by done. f_equal. rewrite Hd2. lia.
Qed.

Lemma pretty_N_go_app (x : N) t :
  pretty_N_go x t = (pretty_N_go x "" ++ t)%string.
Proof.
  revert t. induction (N.lt_wf_0 x) as [x _ IH]; intros t.
  destruct (decide (x = 0)%N) as [->|Hx]; [by rewrite !pretty_N_go_0|].
  rewrite !(pretty_N_go_step x) by lia.
  assert (Hlt : (x `div` 10 < x)%N) by (apply N.div_lt; lia).
  rewrite (IH _ Hlt), (IH _ Hlt (String _ "")).
  by rewrite <-str_app_assoc.
Qed.

Lemma str_forall_app p s t : str_forall p (s ++ t) = str_forall p s && str_forall p t.
Proof. induction s as [|c s IH]; simpl; [done|]. by rewrite IH, andb_assoc. Qed.

Lemma pretty_N_go_digits (x : N) s :
  str_forall is_digit s = true -> str_forall is_digit (pretty_N_go x s) = true.
Proof.
  revert s. induction (N.lt_wf_0 x) as [x _ IH]; intros s Hs.
  destruct (decide (x = 0)%N) as [->|Hx]; [by rewrite pretty_N_go_0|].
  rewrite pretty_N_go_step by lia. apply IH; [apply N.div_lt; lia|].
  simpl. rewrite Hs. destruct (pretty_char_digit (x `mod` 10)) as [-> _]; [|done].
  apply N.mod_upper_bound. lia.
Qed.

Lemma pretty_N_digits (x : N) : str_forall is_digit (pretty x) = true.
Proof.
  unfold pretty, pretty_N. case_decide; [done|]. by apply pretty_N_go_digits.
Qed.

Lemma digits_value_pretty (x : N) : digits_value 0 false (pretty x) = Some (Z.of_N x).
Proof.
  unfold pretty, pretty_N. case_decide as Hx; [by subst|].
  destruct (digits_value_pretty_go x ltac:(lia) "" 0 false) as (k & ->). done.
Qed.

Lemma is_digit_not_space c : is_digit c = true -> is_space c = false.
Proof. by destruct c as [[] [] [] [] [] [] [] []]; vm_compute. Qed.

Lemma str_rev_app_spec s acc : str_rev_app s acc = (str_rev s ++ acc)%string.
Proof.
  unfold str_rev. revert acc. induction s as [|c s IH]; intros acc; simpl; [done|].
  rewrite IH, (IH (String c "")). by rewrite <-str_app_assoc.
Qed.

Lemma str_rev_cons c s : str_rev (String c s) = (str_rev s ++ str1 c)%string.
Proof. unfold str_rev at 1. simpl. apply str_rev_app_spec. Qed.

Lemma str_rev_app_distr s t : str_rev (s ++ t) = (str_rev t ++ str_rev s)%string.
Proof.
  induction s as [|c s IH]; simpl.
  - by rewrite str_app_nil_r.
  - by rewrite !str_rev_cons, IH, str_app_assoc.
Qed.

Lemma str_rev_involutive s : str_rev (str_rev s) = s.
Proof.
  induction s as [|c s IH]; [done|].
  by rewrite str_rev_cons, str_rev_app_distr, IH.
Qed.

Lemma str_forall_rev p s : str_forall p (str_rev s) = str_forall p s.
Proof.
  induction s as [|c s IH]; [done|].
  rewrite str_rev_cons, str_forall_app, IH. simpl.
  by rewrite andb_true_r, andb_comm.
Qed.

(** Stripping does nothing to a text without blanks. *)
Lemma py_strip_no_space s :
  str_forall (fun c => negb (is_space c)) s = true -> py_strip s = s.
Proof.
  assert (Hl : forall t, str_forall (fun c => negb (is_space c)) t = true ->
                         lstrip_by is_space t = t).
  { intros [|c t]; [done|]. simpl. intros [Hc _]%andb_true_iff.
    by destruct (is_space c). }
  intros H. unfold py_strip, rstrip_by. rewrite (Hl s H), Hl.
  - apply str_rev_involutive.
  - by rewrite str_forall_rev.
Qed.

Lemma str_forall_impl (p q : ascii -> bool) s :
  (forall c, p c = true -> q c = true) -> str_forall p s = true -> str_forall q s = true.
Proof.
  intros Hpq. induction s as [|c s IH]; simpl; [done|].
  intros [Hc Hs]%andb_true_iff. by rewrite (Hpq _ Hc), IH.
Qed.

(** [int(str(n)) == n]. *)
Lemma parse_int_str_of_Z (n : Z) : parse_int (str_of_Z n) = Some n.
Proof.
  unfold str_of_Z, parse_int.
  assert (Hp : forall p : positive, exists c t, pretty (Npos p) = String c t /\ is_digit c = true).
  { intros p. pose proof (pretty_N_digits (Npos p)) as Hd.
    pose proof (digits_value_pretty (Npos p)) as Hv.
    destruct (pretty (Npos p)) as [|c t]; [done|]. simpl in Hd.
    apply andb_true_iff in Hd as [Hd _]. eauto. }
  assert (Hns : forall x : N, str_forall (fun c => negb (is_space c)) (pretty x) = true).
  { intros x. eapply str_forall_impl; [|apply pretty_N_digits].
    intros c Hc. by rewrite is_digit_not_space. }
  destruct n as [|p|p].
  - reflexivity.
  - change (pretty (Z.pos p)) with (pretty (Npos p)).
    rewrite py_strip_no_space by apply Hns.
    destruct (Hp p) as (c & t & Heq & Hc). pose proof (digits_value_pretty (Npos p)) as Hv.
    rewrite Heq in *. rewrite Hv.
    destruct (Ascii.eqb_spec c "-") as [->|]; [done|].
    destruct (Ascii.eqb_spec c "+") as [->|]; done.
  - change (pretty (Z.neg p)) with (String "-" (pretty (Npos p))).
    rewrite py_strip_no_space by (simpl; apply Hns).
    simpl. by rewrite digits_value_pretty.
Qed.

(** *** Splitting and joining at a character *)

Lemma has_no_app c s t : has_no c (s ++ t) = has_no c s && has_no c t.
Proof. apply str_forall_app. Qed.

Lemma split_char_app c s t :
  has_no c s = true -> split_char c (s ++ String c t) = s :: split_char c t.
Proof.
  intros Hs. induction s as [|a s IH]; cbn in *; [by rewrite Ascii.eqb_refl|].
  apply andb_true_iff in Hs as [Ha Hs]. apply negb_true_iff in Ha. by rewrite Ha, IH.
Qed.

Lemma split_char_alone c s : has_no c s = true -> split_char c s = [s].
Proof.
  intros Hs. induction s as [|a s IH]; cbn in *; [done|].
  apply andb_true_iff in Hs as [Ha Hs]. apply negb_true_iff in Ha. by rewrite Ha, IH.
Qed.

(** Joining and splitting. *)
Lemma split_join c l :
  l <> [] -> Forall (fun s => has_no c s = true) l -> split_char c (str_join (str1 c) l) = l.
Proof.
  intros Hl Hf. induction Hf as [|s l Hs Hf IH]; [done|]. destruct l as [|t l]; [by apply split_char_alone|].
  rewrite str_join_cons. change (str1 c ++ str_join (str1 c) (t :: l))%string
    with (String c (str_join (str1 c) (t :: l))). rewrite split_char_app by done. by rewrite IH.
Qed.

Lemma str_forall_join p sep l :
  str_forall p sep = true -> Forall (fun s => str_forall p s = true) l -> str_forall p (str_join sep l) = true.
Proof.
  intros Hsep Hf. induction Hf as [|s l Hs Hf IH]; [done|]. destruct l as [|t l]; [done|].
  by rewrite str_join_cons, !str_forall_app, Hs, Hsep, IH.
Qed.

Lemma str_contains_none c s : has_no c s = true -> str_contains (str1 c) s = false.
Proof.
  unfold str_contains. intros Hs. replace (str_find (str1 c) s) with (@None nat); [done|].
  induction s as [|a s IH]; [done|]. cbn in *. apply andb_true_iff in Hs as [Ha Hs].
  apply negb_true_iff in Ha. rewrite Ascii.eqb_sym, Ha. cbn. by rewrite <- IH.
Qed.

Lemma str_contains_char c s : str_contains (str1 c) s = negb (has_no c s).
Proof.
  destruct (has_no c s) eqn:Hs; [by apply str_contains_none|]. cbn. unfold str_contains.
  enough (is_Some (str_find (str1 c) s)) as [n ->] by done.
  induction s as [|a s IH]; [done|]. cbn in *.
  rewrite Ascii.eqb_sym. destruct (Ascii.eqb a c); [eauto|]. cbn in *. destruct (IH Hs) as [n ->]. eauto.
Qed.

Lemma split_char_parts c s : Forall (fun w => has_no c w = true) (split_char c s).
Proof.
  induction s as [|a s IH]; cbn; [by repeat constructor|].
  destruct (Ascii.eqb a c) eqn:E; [by constructor|].
  destruct (split_char c s) as [|w ws]; [by repeat constructor; cbn; rewrite E|].
  apply Forall_cons_1 in IH as [Hw Hws]. constructor; [|done]. unfold has_no in *. cbn. by rewrite E, Hw.
Qed.

Lemma split_max_1 c s :
  (split_max c 1 s = [s] /\ has_no c s = true)
  \/ exists a b, split_max c 1 s = [a; b] /\ s = (a ++ String c b)%string /\ has_no c a = true.
Proof.
  induction s as [|d s IH]; [by left|]. cbn [split_max].
  destruct (Ascii.eqb_spec d c) as [->|Hd]; [right; exists EmptyString, s; by destruct s|].
  destruct IH as [[-> Hn]|(a & b & -> & -> & Ha)]; [left|right].
  - split; [done|]. unfold has_no in *. cbn. rewrite Hn. by destruct (Ascii.eqb_spec d c).
  - exists (String d a), b. split; [done|]. split; [done|]. unfold has_no in *. cbn. rewrite Ha. by destruct (Ascii.eqb_spec d c).
Qed.
