(* ===== verification/PyFloat.v ===== *)
(** Python's [float]: IEEE-754 binary64, on the executable specification of the
    Standard Library ([SpecFloat]).  Arithmetic, exact comparison with ints,
    [float(n)], [float(s)] with correct rounding, and [repr] (the shortest
    decimal that reads back as the same double). *)

From Stdlib Require Import SpecFloat.
From S2P Require Import Prelude PyText.

Local Open Scope Z_scope.

Definition pyfloat := spec_float.

Definition f_prec : Z := 53.
Definition f_emax : Z := 1024.

Definition fadd : pyfloat -> pyfloat -> pyfloat := SFadd f_prec f_emax.
Definition fsub : pyfloat -> pyfloat -> pyfloat := SFsub f_prec f_emax.
Definition fmul : pyfloat -> pyfloat -> pyfloat := SFmul f_prec f_emax.
Definition fdiv : pyfloat -> pyfloat -> pyfloat := SFdiv f_prec f_emax.

(** The correctly rounded double of [n / d]. *)
Definition float_of_ratio (neg : bool) (n d : positive) : pyfloat :=
  let '(q, e, l) := SFdiv_core_binary f_prec f_emax (Zpos n) 0 (Zpos d) 0 in
  binary_round_aux f_prec f_emax neg q e l.

(** [float(n)]: an int too large for a double is an [OverflowError]. *)
Definition float_of_Z (n : Z) : res pyfloat :=
  match binary_normalize f_prec f_emax n 0 false with
  | S754_infinity _ => Raise (OverflowError "int too large to convert to float")
  | f => Ok f
  end.

(** A finite double as a fraction [n / d]. *)
Definition ratio_of_finite (neg : bool) (m : positive) (e : Z) : Z * positive :=
  let n := if neg then Zneg m else Zpos m in
  match e with
  | Z0 => (n, 1%positive)
  | Zpos p => (n * 2 ^ Zpos p, 1%positive)
  | Zneg p => (n, (2 ^ p)%positive)
  end.

(** ** Exact comparison

    Python compares numbers of different types by their exact values: an
    infinity or a fraction. *)

Inductive xnum :=
  | XNegInf
  | XFrac (n : Z) (d : positive)
  | XPosInf.

(** The exact value of a float; [None] for NaN. *)
Definition float_value (f : pyfloat) : option xnum :=
  match f with
  | S754_nan => None
  | S754_infinity neg => Some (if neg then XNegInf else XPosInf)
  | S754_zero _ => Some (XFrac 0 1)
  | S754_finite neg m e => let '(n, d) := ratio_of_finite neg m e in Some (XFrac n d)
  end.

Definition xcompare (x y : xnum) : comparison :=
  match x, y with
  | XNegInf, XNegInf | XPosInf, XPosInf => Eq
  | XNegInf, _ | _, XPosInf => Lt
  | _, XNegInf | XPosInf, _ => Gt
  | XFrac n d, XFrac m e => (n * Zpos e ?= m * Zpos d)
  end.

Lemma xcompare_refl x : xcompare x x = Eq.
Proof. destruct x; [done| |done]. apply Z.compare_refl. Qed.

Lemma xcompare_antisym x y : xcompare y x = CompOpp (xcompare x y).
Proof. destruct x, y; try done. apply Z.compare_antisym. Qed.

Lemma xcompare_lt_trans x y z :
  xcompare x y = Lt -> xcompare y z <> Gt -> xcompare x z = Lt.
Proof.
  destruct x as [|n d|], y as [|m e|], z as [|k f|]; simpl; try done.
  rewrite !Z.compare_lt_iff. intros H1 H2. change (m * Zpos f <= k * Zpos e) in H2. nia.
Qed.

(** [int(f)]: truncation towards zero. *)
Definition Z_of_float (f : pyfloat) : res Z :=
  match f with
  | S754_nan => Raise (ValueError "cannot convert float NaN to integer")
  | S754_infinity _ => Raise (OverflowError "cannot convert float infinity to integer")
  | S754_zero _ => Ok 0
  | S754_finite neg m e => let '(a, d) := ratio_of_finite neg m e in Ok (Z.quot a (Zpos d))
  end.

Definition float_is_zero (f : pyfloat) : bool :=
  match f with S754_zero _ => true | _ => false end.

(** ** Reading a decimal *)

(** The double of [(-1)^neg * m * 10^e].  Exponents outside the range where the
    result can be finite and nonzero are decided without computing the power. *)
Definition float_of_decimal (neg : bool) (m e : Z) : pyfloat :=
  match m with
  | Zpos p =>
      let nd := Z.of_nat (String.length (str_of_Z m)) in
      if 400 <? nd + e then S754_infinity neg
      else if nd + e <? -400 then S754_zero neg
      else match e with
           | Zneg q => float_of_ratio neg p (10 ^ q)
           | _ => match m * 10 ^ e with
                  | Zpos w => binary_round f_prec f_emax neg w 0
                  | _ => S754_zero neg
                  end
           end
  | _ => S754_zero neg
  end.

(** The longest prefix of digits (with single underscores between digits):
    value, number of digits, rest. *)
Fixpoint digits_prefix (acc : Z) (cnt : nat) (s : string) : Z * nat * string :=
  match s with
  | String c s' =>
      if is_digit c then digits_prefix (acc * 10 + (code c - 48)) (S cnt) s'
      else if Ascii.eqb c "_" then
        match cnt, s' with
        | S _, String d _ => if is_digit d then digits_prefix acc cnt s' else (acc, cnt, s)
        | _, _ => (acc, cnt, s)
        end
      else (acc, cnt, s)
  | EmptyString => (acc, cnt, s)
  end.

Definition take_sign (s : string) : bool * string :=
  match s with
  | String c s' =>
      if Ascii.eqb c "-" then (true, s') else if Ascii.eqb c "+" then (false, s') else (false, s)
  | EmptyString => (false, s)
  end.

Definition parse_exponent (s : string) : option Z :=
  match s with
  | EmptyString => Some 0
  | String c s' =>
      if Ascii.eqb (lower_char c) "e" then
        let '(neg, t) := take_sign s' in
        match digits_prefix 0 0 t with
        | (v, S _, EmptyString) => Some (if neg then - v else v)
        | _ => None
        end
      else None
  end.

(** [float(s)]; [None] is the [ValueError]. *)
Definition parse_float (s : string) : option pyfloat :=
  let '(neg, t) := take_sign (py_strip s) in
  let w := py_lower t in
  if String.eqb w "inf" || String.eqb w "infinity" then Some (S754_infinity neg)
  else if String.eqb w "nan" then Some S754_nan
  else
    let '(ip, ni, t1) := digits_prefix 0 0 t in
    let '(m, nf, t2) :=
      match t1 with
      | String "." t1' =>
          (* a fraction may not start with an underscore *)
          let '(fp, nf, t2) := digits_prefix ip 0 t1' in (fp, nf, t2)
      | _ => (ip, O, t1)
      end in
    match ni, nf with
    | O, O => None
    | _, _ =>
        match parse_exponent t2 with
        | Some e => Some (float_of_decimal neg m (e - Z.of_nat nf))
        | None => None
        end
    end.

(** ** Printing *)

(** [floor(log10(n/d))] for a positive fraction. *)
Definition pow10_le (k n d : Z) : bool :=
  if 0 <=? k then 10 ^ k * d <=? n else d <=? n * 10 ^ (- k).
Definition floor_log10 (n d : Z) : Z :=
  let guess := ((Z.log2 n - Z.log2 d) * 30103) / 100000 in
  if pow10_le (guess + 2) n d then guess + 2
  else if pow10_le (guess + 1) n d then guess + 1
  else if pow10_le guess n d then guess
  else if pow10_le (guess - 1) n d then guess - 1
  else guess - 2.

(** Decimals of [len] digits around [n/d], nearest first, as [(digits, exponent)]. *)
Definition candidates (n d k len : Z) : list (Z * Z) :=
  let sc := len - 1 - k in
  let '(a, b) := if 0 <=? sc then (n * 10 ^ sc, d) else (n, d * 10 ^ (- sc)) in
  let q := a / b in
  let r := a - q * b in
  match 2 * r ?= b with
  | Lt => [(q, - sc); (q + 1, - sc)]
  | Gt => [(q + 1, - sc); (q, - sc)]
  | Eq => if Z.even q then [(q, - sc); (q + 1, - sc)] else [(q + 1, - sc); (q, - sc)]
  end.

Fixpoint shortest (fuel : nat) (f : pyfloat) (n d k len : Z) : Z * Z :=
  match List.find (fun c => SFeqb (float_of_decimal false c.1 c.2) f) (candidates n d k len) with
  | Some c => c
  | None =>
      match fuel with
      | O => (0, 0)
      | S fuel' => shortest fuel' f n d k (len + 1)
      end
  end.

Fixpoint str_repeat (c : ascii) (n : nat) : string :=
  match n with O => EmptyString | S n' => String c (str_repeat c n') end.

Definition strip_zeros (s : string) : string := rstrip_by (Ascii.eqb "0") s.

Definition pad2 (n : Z) : string :=
  let s := str_of_Z n in if n <? 10 then ("0" ++ s)%string else s.

(** Layout of [repr]: exponent form when the decimal point falls before the
    fourth zero or after the sixteenth digit. *)
Definition layout_repr (ds : string) (decpt : Z) : string :=
  let n := Z.of_nat (String.length ds) in
  if (-4 <? decpt) && (decpt <=? 16) then
    if decpt <=? 0 then ("0." ++ str_repeat "0" (Z.to_nat (- decpt)) ++ ds)%string
    else if decpt <? n then
      (str_take (Z.to_nat decpt) ds ++ "." ++ str_drop (Z.to_nat decpt) ds)%string
    else (ds ++ str_repeat "0" (Z.to_nat (decpt - n)) ++ ".0")%string
  else
    let e := decpt - 1 in
    let mant := match str_drop 1 ds with
                | EmptyString => ds
                | t => (str_take 1 ds ++ "." ++ t)%string
                end in
    (mant ++ (if (e <? 0)%Z then "e-" else "e+") ++ pad2 (Z.abs e))%string.

Definition float_repr (f : pyfloat) : string :=
  match f with
  | S754_nan => "nan"
  | S754_infinity neg => if neg then "-inf" else "inf"
  | S754_zero neg => if neg then "-0.0" else "0.0"
  | S754_finite neg m e =>
      let '(n, d) := ratio_of_finite false m e in
      let '(dg, ex) := shortest 17 (S754_finite false m e) n (Zpos d) (floor_log10 n (Zpos d)) 1 in
      let ds := str_of_Z dg in
      let body := layout_repr (strip_zeros ds) (Z.of_nat (String.length ds) + ex) in
      if neg then ("-" ++ body)%string else body
  end.

(** ** A number is never written as an empty text *)

Lemma append_nonempty_r a b : b <> EmptyString -> (a ++ b)%string <> EmptyString.
Proof. by destruct a. Qed.

Lemma layout_repr_nonempty ds decpt : layout_repr ds decpt <> EmptyString.
Proof.
  unfold layout_repr. repeat case_match; try done; apply append_nonempty_r; try done;
    by apply append_nonempty_r.
Qed.

Lemma float_repr_nonempty f : float_repr f <> EmptyString.
Proof.
  destruct f as [neg|neg| |neg m e]; cbn [float_repr]; [by destruct neg|by destruct neg|done|].
  destruct (ratio_of_finite false m e) as [n d].
  destruct (shortest _ _ _ _ _ _) as [dg ex]. cbv zeta.
  destruct neg; [done|apply layout_repr_nonempty].
Qed.
