(* ===== verification/PyValue.v ===== *)
(** JSON-like Python values: the data that flows through workflows, flows and
    mappings.  Equality, truth, ordering, membership, [str]/[repr] and the
    [int]/[float] conversions, as Python computes them on these types. *)

From Stdlib Require Import SpecFloat.
From S2P Require Import Prelude PyText PyFloat.

Local Open Scope Z_scope.

#[warnings="-register-all"]
Inductive pyval :=
  | PNone
  | PBool (b : bool)
  | PInt (n : Z)
  | PFloat (f : pyfloat)
  | PStr (s : string)
  | PList (l : list pyval)
  | PDict (d : list (string * pyval)).

Abbreviation dict := (list (string * pyval)).

(** Structural induction through the nested lists. *)
Section pyval_ind.
Variable P : pyval -> Prop.
Hypothesis HNone : P PNone.
Hypothesis HBool : forall b, P (PBool b).
Hypothesis HInt : forall n, P (PInt n).
Hypothesis HFloat : forall f, P (PFloat f).
Hypothesis HStr : forall s, P (PStr s).
Hypothesis HList : forall l, Forall P l -> P (PList l).
Hypothesis HDict : forall d, Forall (fun kv => P kv.2) d -> P (PDict d).

Fixpoint pyval_nested_ind (v : pyval) : P v :=
  match v with
  | PNone => HNone
  | PBool b => HBool b
  | PInt n => HInt n
  | PFloat f => HFloat f
  | PStr s => HStr s
  | PList l =>
      HList l ((fix go (l : list pyval) : Forall P l :=
                  match l with
                  | [] => List.Forall_nil _
                  | x :: l' => List.Forall_cons _ _ _ (pyval_nested_ind x) (go l')
                  end) l)
  | PDict d =>
      HDict d ((fix go (d : dict) : Forall (fun kv => P kv.2) d :=
                  match d with
                  | [] => List.Forall_nil _
                  | kv :: d' => List.Forall_cons _ _ _ (pyval_nested_ind kv.2) (go d')
                  end) d)
  end.
End pyval_ind.

(** ** Type tests *)

Definition is_none (v : pyval) : bool := match v with PNone => true | _ => false end.
Definition is_list (v : pyval) : bool := match v with PList _ => true | _ => false end.
Definition is_dict (v : pyval) : bool := match v with PDict _ => true | _ => false end.
Definition is_str (v : pyval) : bool := match v with PStr _ => true | _ => false end.
(** [isinstance(v, (int, float))]: [bool] is a subclass of [int]. *)
Definition is_number (v : pyval) : bool :=
  match v with PBool _ | PInt _ | PFloat _ => true | _ => false end.

(** [type(v).__name__], as error messages name it. *)
Definition type_name (v : pyval) : string :=
  match v with
  | PNone => "NoneType" | PBool _ => "bool" | PInt _ => "int" | PFloat _ => "float"
  | PStr _ => "str" | PList _ => "list" | PDict _ => "dict"
  end.

Definition same_type (a b : pyval) : bool := String.eqb (type_name a) (type_name b).

(** [bool(v)]. *)
Definition truthy (v : pyval) : bool :=
  match v with
  | PNone => false
  | PBool b => b
  | PInt n => negb (n =? 0)
  | PFloat f => negb (float_is_zero f)
  | PStr s => negb (String.eqb s EmptyString)
  | PList l => negb (List.length l =? 0)%nat
  | PDict d => negb (List.length d =? 0)%nat
  end.

(** [a or b]. *)
Definition py_or (a b : pyval) : pyval := if truthy a then a else b.

Definition bool_Z (b : bool) : Z := if b then 1 else 0.

(** The int a bool or an int denotes. *)
Definition as_Z (v : pyval) : option Z :=
  match v with PBool b => Some (bool_Z b) | PInt n => Some n | _ => None end.

(** ** Comparison *)

(** The exact value of a number; [None] for NaN and for what is not a number. *)
Definition num_value (v : pyval) : option xnum :=
  match v with
  | PFloat f => float_value f
  | _ => (fun n => XFrac n 1) <$> as_Z v
  end.

(** Exact comparison of two numbers; [None] when one is NaN or is not a number. *)
Definition num_cmp (a b : pyval) : option comparison :=
  match num_value a, num_value b with
  | Some x, Some y => Some (xcompare x y)
  | _, _ => None
  end.

Definition num_eqb (a b : pyval) : bool :=
  match num_cmp a b with Some Eq => true | _ => false end.

(** [a == b]: numbers by value across types, containers element-wise, dicts
    regardless of order. *)
Fixpoint py_eqb (a b : pyval) : bool :=
  match a, b with
  | PNone, PNone => true
  | PStr s, PStr t => String.eqb s t
  | PList l, PList m =>
      (fix go (l m : list pyval) : bool :=
         match l, m with
         | [], [] => true
         | x :: l', y :: m' => py_eqb x y && go l' m'
         | _, _ => false
         end) l m
  | PDict d, PDict e =>
      (List.length d =? List.length e)%nat &&
      (fix go (d : dict) : bool :=
         match d with
         | [] => true
         | (k, x) :: d' => match dget k e with Some y => py_eqb x y && go d' | None => false end
         end) d
  | (PBool _ | PInt _ | PFloat _), (PBool _ | PInt _ | PFloat _) => num_eqb a b
  | _, _ => false
  end.

Definition py_neqb (a b : pyval) : bool := negb (py_eqb a b).

Inductive cmp_op := OpLt | OpLe | OpGt | OpGe.

Definition cmp_sym (o : cmp_op) : string :=
  match o with OpLt => "<" | OpLe => "<=" | OpGt => ">" | OpGe => ">=" end.

Definition cmp_holds (o : cmp_op) (c : option comparison) : bool :=
  match o, c with
  | OpLt, Some Lt | OpLe, Some (Lt | Eq) | OpGt, Some Gt | OpGe, Some (Gt | Eq) => true
  | _, _ => false
  end.

Definition str_cmp (s t : string) : comparison := String.compare s t.

(** [a < b] and the like: numbers, strings, and lists lexicographically; other
    operand types are a [TypeError]. *)
Fixpoint py_order (o : cmp_op) (a b : pyval) : res bool :=
  match a, b with
  | (PBool _ | PInt _ | PFloat _), (PBool _ | PInt _ | PFloat _) =>
      Ok (cmp_holds o (num_cmp a b))
  | PStr s, PStr t => Ok (cmp_holds o (Some (str_cmp s t)))
  | PList l, PList m =>
      (fix go (l m : list pyval) : res bool :=
         match l, m with
         | [], [] => Ok (cmp_holds o (Some Eq))
         | [], _ :: _ => Ok (cmp_holds o (Some Lt))
         | _ :: _, [] => Ok (cmp_holds o (Some Gt))
         | x :: l', y :: m' => if py_eqb x y then go l' m' else py_order o x y
         end) l m
  | _, _ => Raise (TypeError ("'" ++ cmp_sym o ++ "' not supported between instances of '"
                              ++ type_name a ++ "' and '" ++ type_name b ++ "'")%string)
  end.

(** [x in c]. *)
Definition py_in (x c : pyval) : res bool :=
  match c with
  | PStr t =>
      match x with
      | PStr s => Ok (str_contains s t)
      | _ => Raise (TypeError ("'in <string>' requires string as left operand, not "
                               ++ type_name x)%string)
      end
  | PList l => Ok (existsb (py_eqb x) l)
  | PDict d =>
      match x with
      | PStr s => Ok (dhas s d)
      | PList _ | PDict _ => Raise (TypeError ("unhashable type: '" ++ type_name x ++ "'")%string)
      | _ => Ok false
      end
  | _ => Raise (TypeError ("argument of type '" ++ type_name c ++ "' is not iterable")%string)
  end.

(** ** [str] and [repr] *)

Definition hex_digit (n : Z) : ascii := if n <? 10 then chr (48 + n) else chr (87 + n).
Definition hex2 (n : Z) : string := String (hex_digit (n / 16)) (str1 (hex_digit (n mod 16))).

Fixpoint escape_repr (quote : ascii) (s : string) : string :=
  match s with
  | EmptyString => EmptyString
  | String c s' =>
      let n := code c in
      let piece :=
        if Ascii.eqb c quote || Ascii.eqb c "\" then String "\" (str1 c)
        else if n =? 9 then "\t"%string
        else if n =? 10 then "\n"%string
        else if n =? 13 then "\r"%string
        else if (n <? 32) || (n =? 127) then ("\x" ++ hex2 n)%string
        else str1 c in
      (piece ++ escape_repr quote s')%string
  end.

Definition squote : ascii := "'".
Definition dquote : ascii := ascii_of_nat 34.

Fixpoint has_char (c : ascii) (s : string) : bool :=
  match s with EmptyString => false | String a s' => Ascii.eqb a c || has_char c s' end.

(** [repr] of a string: double quotes only when the text holds a single quote
    and no double quote. *)
Definition str_repr (s : string) : string :=
  let q := if has_char squote s && negb (has_char dquote s) then dquote else squote in
  (str1 q ++ escape_repr q s ++ str1 q)%string.

Fixpoint py_repr (v : pyval) : string :=
  match v with
  | PNone => "None"
  | PBool b => if b then "True" else "False"
  | PInt n => str_of_Z n
  | PFloat f => float_repr f
  | PStr s => str_repr s
  | PList l => ("[" ++ str_join ", " (map py_repr l) ++ "]")%string
  | PDict d =>
      ("{" ++ str_join ", " (map (fun kv => (str_repr kv.1 ++ ": " ++ py_repr kv.2)%string) d)
           ++ "}")%string
  end.

Definition py_str (v : pyval) : string :=
  match v with PStr s => s | _ => py_repr v end.

(** ** Conversions *)

(** [int(v)]. *)
Definition py_int (v : pyval) : res Z :=
  match v with
  | PBool b => Ok (bool_Z b)
  | PInt n => Ok n
  | PFloat f => Z_of_float f
  | PStr s =>
      match parse_int s with
      | Some n => Ok n
      | None => Raise (ValueError ("invalid literal for int() with base 10: " ++ str_repr s)%string)
      end
  | _ => Raise (TypeError ("int() argument must be a string, a bytes-like object or a real number, not '"
                           ++ type_name v ++ "'")%string)
  end.

(** [float(v)]. *)
Definition py_float (v : pyval) : res pyfloat :=
  match v with
  | PBool b => float_of_Z (bool_Z b)
  | PInt n => float_of_Z n
  | PFloat f => Ok f
  | PStr s =>
      match parse_float s with
      | Some f => Ok f
      | None => Raise (ValueError ("could not convert string to float: " ++ str_repr s)%string)
      end
  | _ => Raise (TypeError ("float() argument must be a string or a real number, not '"
                           ++ type_name v ++ "'")%string)
  end.

(** ** Dictionary access *)

(** [d.get(k, default)] on a dict known to be one. *)
Definition dget_or (k : string) (default : pyval) (d : dict) : pyval :=
  match dget k d with Some v => v | None => default end.

(** [v.get] on a value that may not be a dict. *)
Definition as_dict (v : pyval) : res dict :=
  match v with
  | PDict d => Ok d
  | _ => Raise (AttributeError ("'" ++ type_name v ++ "' object has no attribute 'get'")%string)
  end.

(** [v.meth] on a value without that attribute. *)
Definition no_attribute (meth : string) (v : pyval) : pyexn :=
  AttributeError ("'" ++ type_name v ++ "' object has no attribute '" ++ meth ++ "'")%string.

(** A [str] method called on [v]. *)
Definition str_method (meth : string) (v : pyval) : res string :=
  match v with PStr s => Ok s | _ => Raise (no_attribute meth v) end.

(** A [dict] method called on [v]. *)
Definition dict_method (meth : string) (v : pyval) : res dict :=
  match v with PDict d => Ok d | _ => Raise (no_attribute meth v) end.

Definition unhashable (v : pyval) : pyexn :=
  TypeError ("unhashable type: '" ++ type_name v ++ "'")%string.

(** [str(exc)]. *)
Definition exn_str (e : pyexn) : string :=
  match e with
  | KeyError key => str_repr key
  | TypeError m | ValueError m | IndexError m | AttributeError m | OverflowError m
  | ZeroDivisionError m | LookupError m | WorkflowError m _ | OtherError m => m
  end.

(** [min(v, k)] for an int [k]. *)
Definition py_min (v : pyval) (k : Z) : res pyval :=
  b ← py_order OpLt (PInt k) v; Ok (if (b : bool) then PInt k else v).

(** [l[:v]]. *)
Definition slice_prefix (l : list pyval) (v : pyval) : res (list pyval) :=
  match as_Z v with
  | Some n => Ok (take (clamp_index (Z.of_nat (List.length l)) n) l)
  | None => Raise (TypeError "slice indices must be integers or None or have an __index__ method")
  end.

(** [d.get(k, default)] for any key: the keys of [d] are strings. *)
Definition dict_get (k default : pyval) (d : dict) : res pyval :=
  match k with
  | PStr s => Ok (dget_or s default d)
  | PList _ | PDict _ => Raise (unhashable k)
  | _ => Ok default
  end.

(** The elements a [for] loop over [v] visits. *)
Definition as_iter (v : pyval) : res (list pyval) :=
  match v with
  | PList l => Ok l
  | PDict d => Ok (map (fun kv => PStr kv.1) d)
  | PStr s => Ok ((fix go (t : string) : list pyval :=
                     match t with EmptyString => [] | String c t' => PStr (str1 c) :: go t' end) s)
  | _ => Raise (TypeError ("'" ++ type_name v ++ "' object is not iterable")%string)
  end.

Definition as_str (v : pyval) : res string :=
  match v with
  | PStr s => Ok s
  | _ => Raise (TypeError ("expected str, got " ++ type_name v)%string)
  end.

(** ** Facts *)

Lemma num_cmp_int n m : num_cmp (PInt n) (PInt m) = Some (n ?= m).
Proof. unfold num_cmp. simpl. by rewrite !Z.mul_1_r. Qed.

Lemma num_eqb_refl_Z n : num_eqb (PInt n) (PInt n) = true.
Proof. unfold num_eqb. by rewrite num_cmp_int, Z.compare_refl. Qed.

Lemma py_eqb_str s t : py_eqb (PStr s) (PStr t) = String.eqb s t.
Proof. done. Qed.

Lemma py_eqb_int n m : py_eqb (PInt n) (PInt m) = (n =? m).
Proof. cbn [py_eqb]. unfold num_eqb. rewrite num_cmp_int. by rewrite Z.eqb_compare. Qed.

(** Values free of NaN: on them equality is reflexive. *)
Fixpoint no_nan (v : pyval) : bool :=
  match v with
  | PFloat S754_nan => false
  | PList l => forallb no_nan l
  | PDict d => forallb (fun kv => no_nan kv.2) d
  | _ => true
  end.

(** Dicts as Python builds them: no key twice, at every depth. *)
Fixpoint wf_val (v : pyval) : bool :=
  match v with
  | PList l => forallb wf_val l
  | PDict d => bool_decide (NoDup (dkeys d)) && forallb (fun kv => wf_val kv.2) d
  | _ => true
  end.

Lemma num_eqb_refl v : is_number v = true -> no_nan v = true -> num_eqb v v = true.
Proof.
  intros Hv Hn. unfold num_eqb, num_cmp.
  assert (Hx : exists x, num_value v = Some x).
  { destruct v as [|b|n|f| | |]; try done; simpl; eauto.
    destruct f as [| | |? m e]; try done; simpl; eauto. destruct (ratio_of_finite _ _ _); eauto. }
  destruct Hx as [x ->]. by rewrite xcompare_refl.
Qed.

Lemma dict_eq_self (d0 d : dict) :
  NoDup (dkeys d) ->
  (forall k v, (k, v) ∈ d -> dget k d0 = Some v) ->
  Forall (fun kv => py_eqb kv.2 kv.2 = true) d ->
  (fix go (d : dict) : bool :=
         match d with
         | [] => true
         | (k, x) :: d' => match dget k d0 with Some y => py_eqb x y && go d' | None => false end
         end) d = true.
Proof.
  induction d as [|[k v] d IH]; intros Hnd Hget Hall; [done|].
  rewrite (Hget k v) by left.
  apply list.Forall_cons in Hall as [Hv Hall]. simpl in Hv. rewrite Hv. simpl.
  apply IH; [by apply list.NoDup_cons in Hnd as [_ ?] | | done].
  intros k' v' Hin. apply Hget. by right.
Qed.

Lemma dget_in_NoDup {V} (d : list (string * V)) k v :
  NoDup (dkeys d) -> (k, v) ∈ d -> dget k d = Some v.
Proof.
  induction d as [|[k0 v0] d IH]; intros Hnd Hin; [by apply not_elem_of_nil in Hin|].
  apply list.NoDup_cons in Hnd as [Hni Hnd]. simpl.
  apply elem_of_cons in Hin as [Heq|Hin].
  { injection Heq as -> ->. by rewrite String.eqb_refl. }
  destruct (String.eqb_spec k k0) as [->|]; [|auto].
  exfalso. apply Hni. apply list_elem_of_In. apply list_elem_of_In in Hin.
  apply (in_map fst _ _ Hin).
Qed.

Lemma py_eqb_refl v : wf_val v = true -> no_nan v = true -> py_eqb v v = true.
Proof.
  induction v as [| | | |s|l IH|d IH] using pyval_nested_ind; intros Hwf Hnn.
  - done.
  - by apply num_eqb_refl.
  - by apply num_eqb_refl.
  - by apply num_eqb_refl.
  - apply String.eqb_refl.
  - simpl in *. induction IH as [|x l Hx _ IHl]; [done|]. simpl in *.
    apply andb_true_iff in Hwf as [Hw1 Hw2], Hnn as [Hn1 Hn2].
    rewrite Hx by done. by apply IHl.
  - simpl in *. rewrite Nat.eqb_refl. simpl.
    apply andb_true_iff in Hwf as [Hnd Hwf]. apply bool_decide_eq_true in Hnd.
    apply dict_eq_self; [done| |].
    + intros k v Hin. by apply dget_in_NoDup.
    + clear Hnd. induction IH as [|[k x] d Hx _ IHd]; [constructor|]. simpl in *.
      apply andb_true_iff in Hwf as [Hw1 Hw2], Hnn as [Hn1 Hn2].
      constructor; simpl; [by apply Hx | by apply IHd].
Qed.

(** A true value is not written as an empty text. *)
Lemma py_str_nonempty v : truthy v = true -> py_str v <> EmptyString.
Proof.
  destruct v as [|b|n|f|s|l|d]; try done.
  - by destruct b.
  - intros _ E. pose proof (parse_int_str_of_Z n) as Hp. change (str_of_Z n = EmptyString) in E.
    by rewrite E in Hp.
  - intros _. apply float_repr_nonempty.
  - by destruct s.
Qed.
