(* ===== verification/PyNumber.v ===== *)
(** More of Python's numbers: [format(x, ".nf")], the addition of values, and [sum] on floats
    (Python 3.12, with its compensation). *)

From Stdlib Require Import SpecFloat.
From S2P Require Import Prelude PyText PyFloat PyValue.

Local Open Scope Z_scope.

(** ** Fixed-point text *)

(** The integer nearest to [n / d], the even one in a tie. *)
Definition round_half_even (n d : Z) : Z :=
  let q := n / d in
  let r := n - q * d in
  match 2 * r ?= d with
  | Lt => q
  | Gt => q + 1
  | Eq => if Z.even q then q else q + 1
  end.

(** The digits of [q] with a point before the last [k]. *)
Definition point_text (k : nat) (q : Z) : string :=
  let ds := str_of_Z q in
  let ds := (str_repeat "0" (S k - String.length ds) ++ ds)%string in
  let n := (String.length ds - k)%nat in
  match k with O => ds | _ => (str_take n ds ++ "." ++ str_drop n ds)%string end.

(** The scaled and rounded magnitude of a finite float. *)
Definition scaled (k : nat) (m : positive) (e : Z) : Z :=
  let '(n, d) := ratio_of_finite false m e in round_half_even (n * 10 ^ Z.of_nat k) (Zpos d).

(** [f"{f:.kf}"]. *)
Definition fixed (k : nat) (f : pyfloat) : string :=
  match f with
  | S754_nan => "nan"
  | S754_infinity neg => if neg then "-inf" else "inf"
  | S754_zero neg => ((if neg then "-" else "") ++ point_text k 0)%string
  | S754_finite neg m e => ((if neg then "-" else "") ++ point_text k (scaled k m e))%string
  end.

(** [f"{v:.kf}"] on any value. *)
Definition format_fixed (k : nat) (v : pyval) : res string :=
  match v with
  | PFloat f => Ok (fixed k f)
  | PInt _ | PBool _ => f ← py_float v; Ok (fixed k f)
  | PStr _ => Raise (ValueError "Unknown format code 'f' for object of type 'str'")
  | _ => Raise (TypeError ("unsupported format string passed to " ++ type_name v ++ ".__format__")%string)
  end.

Example fixed_examples :
  map (fun f => fixed 2 f)
    [float_of_ratio false 5 1000; float_of_ratio false 15 1000; float_of_ratio true 1 1000; float_of_ratio false 12300 1;
     float_of_ratio false 335 1000; S754_zero true; S754_infinity true]
  = ["0.01"; "0.01"; "-0.00"; "12300.00"; "0.34"; "-0.00"; "-inf"]%string.
Proof. by vm_compute. Qed.

(** ** Addition *)

Definition add_error (a b : pyval) : pyexn :=
  match a with
  | PStr _ => TypeError ("can only concatenate str (not " ++ str1 dquote ++ type_name b ++ str1 dquote ++ ") to str")%string
  | PList _ => TypeError ("can only concatenate list (not " ++ str1 dquote ++ type_name b ++ str1 dquote ++ ") to list")%string
  | _ => TypeError ("unsupported operand type(s) for +: '" ++ type_name a ++ "' and '" ++ type_name b ++ "'")%string
  end.

(** [a + b]. *)
Definition py_add (a b : pyval) : res pyval :=
  match as_Z a, as_Z b with
  | Some n, Some m => Ok (PInt (n + m))
  | _, _ =>
      if is_number a && is_number b then
        x ← py_float a; y ← py_float b; Ok (PFloat (fadd x y))
      else match a, b with
           | PStr s, PStr t => Ok (PStr (s ++ t)%string)
           | PList l, PList m => Ok (PList (l ++ m)%list)
           | _, _ => Raise (add_error a b)
           end
  end.

(** ** [sum] *)

(** One step of Neumaier's summation: the sum and the compensation. *)
Definition sum_step (acc : pyfloat * pyfloat) (x : pyfloat) : pyfloat * pyfloat :=
  let '(s, c) := acc in
  let t := fadd s x in
  let c' := if SFleb (SFabs x) (SFabs s) then fadd c (fadd (fsub s t) x) else fadd c (fadd (fsub x t) s) in
  (t, c').

Definition is_finite (f : pyfloat) : bool :=
  match f with S754_zero _ | S754_finite _ _ _ => true | _ => false end.

(** [sum(xs)]: the start is the int 0, so the first addition is not compensated. *)
Definition float_sum (xs : list pyfloat) : pyval :=
  match xs with
  | [] => PInt 0
  | x :: xs' =>
      let '(s, c) := fold_left sum_step xs' (fadd (S754_zero false) x, S754_zero false) in
      PFloat (if negb (float_is_zero c) && is_finite c then fadd s c else s)
  end.

(** ** Facts *)

Lemma round_half_even_near n d : 0 < d -> 2 * Z.abs (round_half_even n d * d - n) <= d.
Proof.
  intros Hd. unfold round_half_even. pose proof (Z.div_mod n d ltac:(lia)) as Hn.
  pose proof (Z.mod_pos_bound n d Hd) as Hr. set (q := n / d) in *.
  destruct (Z.compare_spec (2 * (n - q * d)) d) as [H|H|H].
  - destruct (Z.even q); nia.
  - nia.
  - nia.
Qed.

(** The printed magnitude is within half a unit of its last digit. *)
Lemma scaled_near k m e :
  let '(n, d) := ratio_of_finite false m e in
  2 * Z.abs (scaled k m e * Zpos d - n * 10 ^ Z.of_nat k) <= Zpos d.
Proof.
  unfold scaled. destruct (ratio_of_finite false m e) as [n d]. by apply round_half_even_near.
Qed.
