(* ===== verification/Xml.v ===== *)
(** [xml.etree.ElementTree]: the trees a program builds and the text [tostring] writes; what a
    reader that only looks for brackets finds in it. *)

From S2P Require Import Prelude PyText PyValue.

Local Open Scope string_scope.

(** The text of an element may be any value; only texts can be written. *)
#[warnings="-register-all"]
Inductive element := Elem (tag : string) (attrs : list (string * string)) (text : pyval) (children : list element).

Definition e_tag (e : element) : string := let '(Elem tag _ _ _) := e in tag.
Definition e_children (e : element) : list element := let '(Elem _ _ _ children) := e in children.

Section induction.
Variable P : element -> Prop.
Hypothesis H : forall tag attrs text children, Forall P children -> P (Elem tag attrs text children).
Fixpoint element_nested_ind (e : element) : P e :=
  let '(Elem tag attrs text children) := e in
  H tag attrs text children
    ((fix go (l : list element) : Forall P l :=
        match l with
        | [] => List.Forall_nil _
        | x :: l' => List.Forall_cons _ _ _ (element_nested_ind x) (go l')
        end) children).
End induction.

(** ** Writing *)

Fixpoint str_flat_map (f : ascii -> string) (s : string) : string :=
  match s with EmptyString => EmptyString | String c s' => f c ++ str_flat_map f s' end.

(** [_escape_cdata] and [_escape_attrib]. *)
Definition escape_char (c : ascii) : string :=
  if Ascii.eqb c "&" then "&amp;" else if Ascii.eqb c "<" then "&lt;" else if Ascii.eqb c ">" then "&gt;" else str1 c.
Definition escape_cdata : string -> string := str_flat_map escape_char.
Definition escape_attrib_char (c : ascii) : string :=
  if Ascii.eqb c dquote then "&quot;"
  else if Ascii.eqb c "013" then "&#13;" else if Ascii.eqb c "010" then "&#10;" else if Ascii.eqb c "009" then "&#09;"
  else escape_char c.
Definition escape_attrib : string -> string := str_flat_map escape_attrib_char.

Definition attr_text (kv : string * string) : string :=
  " " ++ kv.1 ++ "=" ++ str1 dquote ++ escape_attrib kv.2 ++ str1 dquote.
Definition open_text (tag : string) (attrs : list (string * string)) : string :=
  tag ++ str_join "" (map attr_text attrs).

Definition cannot_serialize (v : pyval) : pyexn :=
  TypeError ("cannot serialize " ++ py_repr v ++ " (type " ++ type_name v ++ ")").
Definition text_of (text : pyval) : res string :=
  if truthy text then match text with PStr s => Ok (escape_cdata s) | v => Raise (cannot_serialize v) end
  else Ok "".

(** [tostring] with [encoding="unicode"]; names in braces, which it would qualify, are outside the model. *)
Fixpoint serialize (e : element) : res string :=
  let '(Elem tag attrs text children) := e in
  if starts_with "{" tag then Raise (OtherError "qualified names are not modelled") else
  t ← text_of text;
  body ← mapR serialize children;
  Ok (match truthy text, children with
      | false, [] => "<" ++ open_text tag attrs ++ " />"
      | _, _ => "<" ++ open_text tag attrs ++ ">" ++ t ++ str_join "" body ++ "</" ++ tag ++ ">"
      end).

(** ** Reading *)

Inductive token := Markup (s : string) | Chars (s : string).

Definition chars (s : string) : list token := match s with EmptyString => [] | _ => [Chars s] end.

(** What is between brackets is markup, the rest is text; [cur] is what was read since. *)
Fixpoint lex (inside : bool) (cur : string) (s : string) : list token :=
  match s with
  | EmptyString => if inside then [] else chars cur
  | String c s' =>
      if inside then if Ascii.eqb c ">" then Markup cur :: lex false "" s' else lex true (cur ++ str1 c) s'
      else if Ascii.eqb c "<" then (chars cur ++ lex true "" s')%list else lex false (cur ++ str1 c) s'
  end.

(** The tokens of a tree. *)
Definition shown_text (text : pyval) : string := match text with PStr s => escape_cdata s | _ => "" end.
Fixpoint tokens (e : element) : list token :=
  let '(Elem tag attrs text children) := e in
  match truthy text, children with
  | false, [] => [Markup (open_text tag attrs ++ " /")]
  | _, _ => (Markup (open_text tag attrs) :: chars (shown_text text) ++ flat_map tokens children ++ [Markup ("/" ++ tag)])%list
  end.

(** Names without brackets. *)
Definition plain_char (c : ascii) : bool := negb (Ascii.eqb c "<") && negb (Ascii.eqb c ">").
Definition plain_name (s : string) : bool := str_forall plain_char s.
Fixpoint plain_names (e : element) : bool :=
  let '(Elem tag attrs _ children) := e in
  plain_name tag && forallb (fun kv => plain_name kv.1) attrs && forallb plain_names children.

(** The text a character reference or a character stands for. *)
Fixpoint unescape (fuel : nat) (s : string) : string :=
  match fuel with
  | O => ""
  | S fuel' =>
      match s with
      | EmptyString => ""
      | String c s' =>
          if starts_with "&amp;" s then String "&" (unescape fuel' (str_drop 5 s))
          else if starts_with "&lt;" s then String "<" (unescape fuel' (str_drop 4 s))
          else if starts_with "&gt;" s then String ">" (unescape fuel' (str_drop 4 s))
          else String c (unescape fuel' s')
      end
  end.

(** ** Facts *)

Lemma str_flat_map_forall p f s : (forall c, str_forall p (f c) = true) -> str_forall p (str_flat_map f s) = true.
Proof. intros H. induction s as [|c s IH]; cbn; [done|]. by rewrite str_forall_app, H, IH. Qed.

Lemma escape_plain s : plain_name (escape_cdata s) = true.
Proof. apply str_flat_map_forall. by intros [[] [] [] [] [] [] [] []]. Qed.
Lemma escape_attrib_plain s : plain_name (escape_attrib s) = true.
Proof. apply str_flat_map_forall. by intros [[] [] [] [] [] [] [] []]. Qed.

(** What is escaped reads back. *)
Lemma unescape_escape s n : (String.length s <= n)%nat -> unescape n (escape_cdata s) = s.
Proof.
  revert n. induction s as [|c s IH]; intros [|n]; cbn [String.length]; intros Hn; try done; [lia|].
  unfold escape_cdata. cbn [str_flat_map]. fold escape_cdata. unfold escape_char.
  destruct (Ascii.eqb_spec c "&") as [->|Ha]; [cbn; by rewrite IH by lia|].
  destruct (Ascii.eqb_spec c "<") as [->|Hb]; [cbn; by rewrite IH by lia|].
  destruct (Ascii.eqb_spec c ">") as [->|Hc]; [cbn; by rewrite IH by lia|].
  cbn [append str1]. cbn [unescape starts_with]. destruct (Ascii.eqb_spec "&" c); [congruence|].
  cbn [andb]. by rewrite IH by lia.
Qed.

Lemma lex_outside t cur s : plain_name t = true -> lex false cur (t ++ s) = lex false (cur ++ t) s.
Proof.
  revert cur. induction t as [|c t IH]; intros cur; cbn [str_forall plain_name]; [by rewrite str_app_nil_r|].
  unfold plain_name. cbn [str_forall]. intros [Hc Ht]%andb_true_iff. cbn [append lex].
  apply andb_true_iff in Hc as [Hc%negb_true_iff _]. rewrite Hc, IH by done. by rewrite <- str_app_assoc.
Qed.
Lemma lex_inside t cur s : plain_name t = true -> lex true cur (t ++ s) = lex true (cur ++ t) s.
Proof.
  revert cur. induction t as [|c t IH]; intros cur; [by rewrite str_app_nil_r|].
  unfold plain_name. cbn [str_forall]. intros [Hc Ht]%andb_true_iff. cbn [append lex].
  apply andb_true_iff in Hc as [_ Hc%negb_true_iff]. rewrite Hc, IH by done. by rewrite <- str_app_assoc.
Qed.

Lemma plain_app s t : plain_name (s ++ t) = plain_name s && plain_name t.
Proof. apply str_forall_app. Qed.

Lemma open_text_plain tag attrs : plain_name tag = true -> forallb (fun kv => plain_name kv.1) attrs = true ->
  plain_name (open_text tag attrs) = true.
Proof.
  intros Ht Ha. unfold open_text. rewrite plain_app, Ht. cbn [andb].
  induction attrs as [|[k v] attrs IH]; [done|]. cbn [forallb fst] in Ha. apply andb_true_iff in Ha as [Hk Ha].
  cbn [map]. assert (Hone : plain_name (attr_text (k, v)) = true).
  { unfold attr_text. cbn [fst snd]. rewrite !plain_app, Hk, escape_attrib_plain. done. }
  destruct attrs as [|b attrs]; [by cbn|]. cbn [str_join map] in *. by rewrite !plain_app, Hone, (IH Ha).
Qed.

Lemma str_concat_cons a l : str_join "" (a :: l) = a ++ str_join "" l.
Proof. destruct l; cbn; [by rewrite str_app_nil_r|done]. Qed.

(** A tag that is read between brackets. *)
Lemma lex_tag t cur s : plain_name t = true ->
  lex false cur ("<" ++ t ++ ">" ++ s) = (chars cur ++ Markup t :: lex false "" s)%list.
Proof. intros Ht. cbn [append lex]. cbn. by rewrite lex_inside. Qed.

(** Whatever the texts of a tree hold, a reader finds the tags of the tree and nothing else. *)
Lemma lex_serialize e : forall x, plain_names e = true -> serialize e = Ok x ->
  forall cur s, lex false cur (x ++ s) = (chars cur ++ tokens e ++ lex false "" s)%list.
Proof.
  induction e as [tag attrs text children IH] using element_nested_ind.
  cbn [plain_names serialize tokens]. intros x [[Ht Ha]%andb_true_iff Hc]%andb_true_iff.
  destruct (starts_with "{" tag); [done|]. intros Hx.
  unfold mbind, res_bind in Hx. destruct (text_of text) as [t|] eqn:Et; [|done].
  destruct (mapR serialize children) as [parts|] eqn:Eb; [|done]. injection Hx as <-.
  set (body := str_join "" parts) in *.
  pose proof (open_text_plain tag attrs Ht Ha) as Ho.
  assert (Hbody : forall cur s, lex false cur (body ++ "<" ++ s) = (chars cur ++ flat_map tokens children ++ lex true "" s)%list).
  { subst body. revert parts Eb. clear -IH Hc. induction IH as [|c children Hcx _ IHl]; intros parts; cbn [mapR].
    - by intros [= <-].
    - cbn [forallb] in Hc. apply andb_true_iff in Hc as [Hc1 Hc2]. unfold mbind, res_bind.
      destruct (serialize c) as [a|] eqn:Ea; [|done]. destruct (mapR serialize children) as [b|]; [|done].
      intros [= <-] cur s. rewrite str_concat_cons, <- str_app_assoc, (Hcx _ Hc1 eq_refl), (IHl Hc2 _ eq_refl).
      cbn [flat_map chars app]. by rewrite <- app_assoc. }
  assert (Htext : t = shown_text text /\ (truthy text = false -> shown_text text = "")).
  { unfold text_of in Et. destruct (truthy text) eqn:E.
    - split; [|done]. destruct text; try done. by injection Et as <-.
    - injection Et as <-. assert (Hs : shown_text text = ""); [|by split].
      destruct text as [| | | |s| |]; try done. cbn in E. apply negb_false_iff, String.eqb_eq in E. by subst. }
  destruct Htext as [-> Hempty].
  assert (Hfull : forall cur s, lex false cur (("<" ++ open_text tag attrs ++ ">" ++ shown_text text ++ body ++ "</" ++ tag ++ ">") ++ s)
    = (chars cur ++ (Markup (open_text tag attrs) :: chars (shown_text text) ++ flat_map tokens children
         ++ [Markup ("/" ++ tag)]) ++ lex false "" s)%list).
  { intros cur s. rewrite <- !str_app_assoc, (lex_tag _ _ _ Ho). f_equal. cbn [app]. f_equal.
    assert (Hs : plain_name (shown_text text) = true) by (destruct text; try done; apply escape_plain).
    rewrite (lex_outside _ _ _ Hs). change ("" ++ shown_text text) with (shown_text text).
    change ("</" ++ tag ++ ">" ++ s) with ("<" ++ (("/" ++ tag) ++ ">" ++ s)).
    rewrite Hbody, <- app_assoc. f_equal. rewrite <- app_assoc. f_equal.
    rewrite lex_inside by (by rewrite plain_app, Ht). reflexivity. }
  destruct (truthy text) eqn:Etr; [apply Hfull|]. destruct children as [|c children]; [|apply Hfull].
  intros cur s.
  change (lex false cur ("<" ++ (open_text tag attrs ++ " />") ++ s)
          = (chars cur ++ [Markup (open_text tag attrs ++ " /")] ++ lex false "" s)%list).
  rewrite <- (str_app_assoc (open_text tag attrs)). change (" />" ++ s) with (" /" ++ ">" ++ s).
  rewrite (str_app_assoc (open_text tag attrs) " /"), lex_tag by (by rewrite plain_app, Ho). reflexivity.
Qed.
