(* ===== verification/Effects.v ===== *)
(** The effects the services of the platform share: a monad of code that changes a
    state and can raise, the preservation of an invariant through it, tables of a
    database as lists of rows, and the key/value store the services ask of Redis. *)

From S2P Require Import Prelude PyText PyValue.

Local Open Scope string_scope.

(** ** A state that survives exceptions

    An exception does not undo what was done before it: the objects of a session and
    the keys of Redis keep what was written to them. *)

Definition EM (S A : Type) : Type := S -> res A * S.

#[export] Instance EM_ret {S} : MRet (EM S) := fun A a s => (Ok a, s).
#[export] Instance EM_bind {S} : MBind (EM S) := fun A B f m s =>
  match m s with
  | (Ok a, s') => f a s'
  | (Raise e, s') => (Raise e, s')
  end.

(** ** Exceptions by name *)

Definition named (name message : string) : pyexn := OtherError (name ++ ": " ++ message).
Definition is_named (name : string) (e : pyexn) : bool :=
  match e with OtherError m => starts_with (name ++ ": ") m | _ => false end.
(** [str(exc)] of a named exception. *)
Definition named_text (name : string) (e : pyexn) : string :=
  match e with OtherError m => str_drop (String.length name + 2) m | _ => exn_str e end.

(** [hmac.compare_digest] and [secrets.compare_digest] on texts: they must be ASCII. *)
Definition is_ascii (s : string) : bool := str_forall (fun c => (code c <? 128)%Z) s.
Definition compare_digest (a b : string) : res bool :=
  if is_ascii a && is_ascii b then Ok (String.eqb a b)
  else Raise (TypeError "comparing strings with non-ASCII characters is not supported").
Lemma compare_digest_equal a b : compare_digest a b = Ok true -> a = b.
Proof. unfold compare_digest. destruct (is_ascii a && is_ascii b); [|done]. intros [= H]. by apply String.eqb_eq. Qed.

Section effects.
Context {S : Type}.

Definition get_st : EM S S := fun s => (Ok s, s).
Definition gets {A} (f : S -> A) : EM S A := fun s => (Ok (f s), s).
Definition modify (f : S -> S) : EM S unit := fun s => (Ok tt, f s).
Definition raise {A} (e : pyexn) : EM S A := fun s => (Raise e, s).
Definition lift {A} (m : res A) : EM S A := fun s => (m, s).

(** [try: m except Exception as e: h(e)]. *)
Definition try_catch {A} (m : EM S A) (h : pyexn -> EM S A) : EM S A := fun s =>
  match m s with
  | (Ok a, s') => (Ok a, s')
  | (Raise e, s') => h e s'
  end.

(** FastAPI's [HTTPException]. *)
Definition http_exception (status : Z) (detail : string) : pyexn :=
  OtherError ("HTTPException " ++ str_of_Z status ++ ": " ++ detail).
Definition http_error {A} (status : Z) (detail : string) : EM S A := raise (http_exception status detail).

(** [except ValueError as exc: raise HTTPException(status, detail=str(exc))]. *)
Definition value_error_as {A} (status : Z) (m : EM S A) : EM S A :=
  try_catch m (fun e => match e with ValueError d => http_error status d | _ => raise e end).

(** [for x in l: f(x)]. *)
Fixpoint for_each {A} (f : A -> EM S unit) (l : list A) : EM S unit :=
  match l with
  | [] => mret tt
  | x :: l' => f x ≫= fun _ => for_each f l'
  end.

(** A database transaction: an exception undoes the changes ([undo] of the state at the
    start and of the state reached). *)
Definition atomic {A} (undo : S -> S -> S) (m : EM S A) : EM S A := fun s =>
  match m s with
  | (Ok a, s') => (Ok a, s')
  | (Raise e, s') => (Raise e, undo s s')
  end.

(** The runs of a sequence. *)
Lemma bind_run {A B} (m : EM S A) (k : A -> EM S B) s a s' : m s = (Ok a, s') -> (m ≫= k) s = k a s'.
Proof. intros E. unfold mbind, EM_bind. by rewrite E. Qed.

Lemma bind_returned {A B} (m : EM S A) (k : A -> EM S B) s b s' :
  (m ≫= k) s = (Ok b, s') -> exists a s1, m s = (Ok a, s1) /\ k a s1 = (Ok b, s').
Proof. unfold mbind, EM_bind. destruct (m s) as [[a|e] s1]; [by exists a, s1|done]. Qed.

Lemma lift_returned {A} (m : res A) s a s' : lift m s = (Ok a, s') -> m = Ok a /\ s' = s.
Proof. by intros [= -> <-]. Qed.

Lemma try_returned {A} (m : EM S A) h s a s' :
  try_catch m h s = (Ok a, s') ->
  m s = (Ok a, s') \/ exists e s1, m s = (Raise e, s1) /\ h e s1 = (Ok a, s').
Proof. unfold try_catch. destruct (m s) as [[x|e] s1]; [by left|right; by exists e, s1]. Qed.

(** [m] leaves a state in [P] in [P], also when it raises. *)
Definition preserves {A} (P : S -> Prop) (m : EM S A) : Prop := forall s, P s -> P (m s).2.

Lemma preserves_ret {A} P (a : A) : preserves P (mret a).
Proof. intros s Hs. exact Hs. Qed.
Lemma preserves_gets {A} P (f : S -> A) : preserves P (gets f).
Proof. intros s Hs. exact Hs. Qed.
Lemma preserves_get P : preserves P get_st.
Proof. intros s Hs. exact Hs. Qed.
Lemma preserves_raise {A} P e : preserves P (raise (A := A) e).
Proof. intros s Hs. exact Hs. Qed.
Lemma preserves_http_error {A} P status detail : preserves P (http_error (A := A) status detail).
Proof. intros s Hs. exact Hs. Qed.
Lemma preserves_lift {A} P (m : res A) : preserves P (lift m).
Proof. intros s Hs. exact Hs. Qed.
Lemma preserves_modify P f : (forall s, P s -> P (f s)) -> preserves P (modify f).
Proof. intros Hf s Hs. by apply Hf. Qed.

Lemma preserves_bind {A B} P (m : EM S A) (k : A -> EM S B) :
  preserves P m -> (forall a, preserves P (k a)) -> preserves P (m ≫= k).
Proof.
  intros Hm Hk s Hs. specialize (Hm s Hs). unfold mbind, EM_bind.
  destruct (m s) as [[a|e] s']; [by apply Hk|done].
Qed.

(** What follows a pure step may use what the step returned. *)
Lemma preserves_lift_ok {A B} (P : S -> Prop) (m : res A) (k : A -> EM S B) :
  (forall a, m = Ok a -> preserves P (k a)) -> preserves P (lift m ≫= k).
Proof. intros Hk s Hs. unfold lift, mbind, EM_bind. destruct m as [a|]; [by apply (Hk a)|done]. Qed.

Lemma preserves_try {A} P (m : EM S A) h :
  preserves P m -> (forall e, preserves P (h e)) -> preserves P (try_catch m h).
Proof.
  intros Hm Hh s Hs. specialize (Hm s Hs). unfold try_catch.
  destruct (m s) as [[a|e] s']; [done|by apply Hh].
Qed.

Lemma preserves_for {A} P (f : A -> EM S unit) l :
  (forall x, x ∈ l -> preserves P (f x)) -> preserves P (for_each f l).
Proof.
  induction l as [|x l IH]; intros Hf; [apply preserves_ret|].
  apply preserves_bind; [apply Hf; left|]. intros _. apply IH. intros y Hy. apply Hf. by right.
Qed.

Lemma preserves_if {A} P (b : bool) (m1 m2 : EM S A) :
  preserves P m1 -> preserves P m2 -> preserves P (if b then m1 else m2).
Proof. by destruct b. Qed.
End effects.

(** Runs [m] on a part of the state. *)
Definition within {S T A} (view : S -> T) (put : T -> S -> S) (m : EM T A) : EM S A :=
  fun s => let '(r, t) := m (view s) in (r, put t s).

Lemma preserves_within {S T A} (view : S -> T) (put : T -> S -> S) P Q (m : EM T A) :
  (forall s, P s -> Q (view s)) -> (forall s t, P s -> Q t -> P (put t s)) ->
  preserves Q m -> preserves P (within view put m).
Proof.
  intros Hv Hp Hm s Hs. unfold within. specialize (Hm (view s) (Hv s Hs)).
  destruct (m (view s)) as [r t]. by apply Hp.
Qed.

(** Splits [(x ← m; k) s = (Ok b, s')] into the runs of [m] and of [k]. *)
Ltac em_ok :=
  repeat match goal with
  | H : (_ ≫= _) _ = (Ok _, _) |- _ =>
      let x := fresh "x" in let s := fresh "s" in let E := fresh "E" in
      apply bind_returned in H as (x & s & E & H)
  | H : lift _ _ = (Ok _, _) |- _ => apply lift_returned in H as [H ->]
  | H : get_st _ = (Ok _, _) |- _ => injection H as <- <-
  | H : modify _ _ = (Ok _, _) |- _ => injection H as <- <-
  | H : mret _ _ = (Ok _, _) |- _ => injection H as <- <-
  | H : raise _ _ = (Ok _, _) |- _ => discriminate H
  end.

Create HintDb effects.
#[export] Hint Resolve preserves_ret preserves_gets preserves_get preserves_raise preserves_http_error preserves_lift
  preserves_if : effects.

(** Decomposes [preserves P (x ← m; k)] down to the atomic operations. *)
Ltac preserve :=
  repeat match goal with
  | |- preserves _ (_ ≫= _) => apply preserves_bind; [|intros ?]
  | |- preserves _ (try_catch _ _) => apply preserves_try; [|intros ?]
  | |- preserves _ (for_each _ _) => apply preserves_for; intros ? ?
  | |- preserves _ (if _ then _ else _) => apply preserves_if
  | |- preserves _ (match ?x with _ => _ end) => destruct x eqn:?
  | |- preserves _ _ => progress auto with effects
  end.

(** ** Tables *)

(** A text of at most [n] characters in a column: the database refuses longer ones. *)
Definition varchar (n : nat) (s : string) : res unit :=
  if (String.length s <=? n)%nat then Ok tt else Raise (OtherError "DataError").

(** What a unique constraint or a foreign key refuses. *)
Definition IntegrityError : pyexn := OtherError "IntegrityError".

Section tables.
Context {R : Type}.

(** [scalar_one_or_none] on the rows a query selects. *)
Definition scalar_one_or_none (rows : list R) : res (option R) :=
  match rows with
  | [] => Ok None
  | [r] => Ok (Some r)
  | _ => Raise (OtherError "MultipleResultsFound")
  end.

(** The change of the attributes of the rows that satisfy [p]. *)
Definition update_rows (p : R -> bool) (f : R -> R) (rows : list R) : list R :=
  map (fun r => if p r then f r else r) rows.

Definition delete_rows (p : R -> bool) (rows : list R) : list R :=
  List.filter (fun r => negb (p r)) rows.

(** At most one row satisfies [p]. *)
Definition at_most_one (p : R -> bool) (rows : list R) : Prop :=
  (List.length (List.filter p rows) <= 1)%nat.

Lemma scalar_at_most_one p rows :
  at_most_one p rows -> scalar_one_or_none (List.filter p rows) = Ok (List.find p rows).
Proof.
  unfold at_most_one. intros H.
  assert (Hf : List.find p rows = hd_error (List.filter p rows)).
  { clear H. induction rows as [|r rows IH]; cbn; [done|]. by destruct (p r). }
  rewrite Hf. destruct (List.filter p rows) as [|x [|y l]]; cbn in *; [done|done|lia].
Qed.

Lemma update_rows_compose p f g rows :
  (forall r, p r = true -> p (f r) = true) ->
  update_rows p g (update_rows p f rows) = update_rows p (fun r => g (f r)) rows.
Proof.
  intros Hf. unfold update_rows. rewrite map_map. apply map_ext. intros r.
  destruct (p r) eqn:E; [by rewrite Hf|by rewrite E].
Qed.

Lemma filter_update_same p f rows :
  (forall r, p r = true -> p (f r) = true) ->
  List.filter p (update_rows p f rows) = map f (List.filter p rows).
Proof.
  intros Hf. unfold update_rows. induction rows as [|r rows IH]; cbn; [done|].
  destruct (p r) eqn:E; cbn; [rewrite Hf by done; cbn; by f_equal|by rewrite E].
Qed.

Lemma filter_update_other p q f rows :
  (forall r, q r = true -> p (f r) = p r) -> (forall r, q r = true -> p r = false) ->
  List.filter p (update_rows q f rows) = List.filter p rows.
Proof.
  intros Hf Hq. unfold update_rows. induction rows as [|r rows IH]; cbn; [done|].
  destruct (q r) eqn:E; cbn; [by rewrite Hf, Hq, IH|by rewrite IH].
Qed.

Lemma filter_map_length p f (rows : list R) :
  (forall r, p (f r) = p r) ->
  List.length (List.filter p (map f rows)) = List.length (List.filter p rows).
Proof.
  intros Hf. induction rows as [|r rows IH]; cbn; [done|]. rewrite Hf.
  destruct (p r); cbn; by rewrite IH.
Qed.

Lemma filter_length_le p q (rows : list R) :
  (List.length (List.filter p (List.filter q rows)) <= List.length (List.filter p rows))%nat.
Proof.
  induction rows as [|r rows IH]; cbn; [done|].
  destruct (q r); cbn; destruct (p r); cbn; lia.
Qed.

Lemma filter_filter p q (rows : list R) :
  List.filter q (List.filter p rows) = List.filter (fun r => p r && q r) rows.
Proof.
  induction rows as [|r rows IH]; cbn; [done|]. destruct (p r); cbn; [|done].
  destruct (q r); by rewrite IH.
Qed.

Lemma find_none_filter p (rows : list R) : List.find p rows = None -> List.filter p rows = [].
Proof.
  induction rows as [|r rows IH]; cbn; [done|]. destruct (p r); [done|apply IH].
Qed.
End tables.

(** ** Tables with a key *)

Section keyed.
Context {R K : Type} `{EqDecision K} (key : R -> K).

(** The rows with a key. *)
Definition has_key (k : K) (r : R) : bool := bool_decide (key r = k).

Definition unique_rows (rows : list R) : Prop := NoDup (map key rows).

Lemma has_key_true k r : has_key k r = true <-> key r = k.
Proof. unfold has_key. by rewrite bool_decide_eq_true. Qed.

Lemma find_key_None k rows : List.find (has_key k) rows = None <-> k ∉ map key rows.
Proof.
  induction rows as [|r rows IH]; cbn; [split; [intros _; apply not_elem_of_nil|done]|].
  rewrite not_elem_of_cons. destruct (has_key k r) eqn:E.
  - apply has_key_true in E. subst k. split; [done|tauto].
  - rewrite IH. split; [|tauto]. intros Hk. split; [|done]. intros ->.
    by rewrite (proj2 (has_key_true _ _)) in E.
Qed.

Lemma find_key_Some k rows r : List.find (has_key k) rows = Some r -> key r = k /\ r ∈ rows.
Proof.
  intros H. apply List.find_some in H as [H1 H2].
  split; [by apply has_key_true|by apply list_elem_of_In].
Qed.

Lemma unique_insert r rows :
  unique_rows rows -> List.find (has_key (key r)) rows = None -> unique_rows (rows ++ [r]).
Proof.
  unfold unique_rows. intros Hu Hn%find_key_None. rewrite map_app. apply list.NoDup_app.
  split_and!; [done| |apply NoDup_singleton]. by intros x Hx ->%list_elem_of_singleton.
Qed.

Lemma map_key_update p f rows :
  (forall r, p r = true -> key (f r) = key r) -> map key (update_rows p f rows) = map key rows.
Proof.
  intros Hf. unfold update_rows. rewrite map_map. apply map_ext. intros r.
  destruct (p r) eqn:E; auto.
Qed.

Lemma unique_update p f rows :
  (forall r, p r = true -> key (f r) = key r) -> unique_rows rows -> unique_rows (update_rows p f rows).
Proof.
  unfold unique_rows. intros Hf Hu. rewrite (map_key_update p f rows Hf). done.
Qed.

Lemma unique_delete p rows : unique_rows rows -> unique_rows (delete_rows p rows).
Proof.
  unfold unique_rows, delete_rows. induction rows as [|r rows IH]; cbn; [done|].
  intros [Hn Hu]%list.NoDup_cons. destruct (p r); cbn; [by apply IH|].
  apply list.NoDup_cons. split; [|by apply IH]. intros H. apply Hn.
  apply list_elem_of_In, in_map_iff in H as (x & <- & Hx%filter_In).
  apply list_elem_of_In, in_map_iff. exists x. tauto.
Qed.

Lemma unique_filter_key k rows :
  unique_rows rows -> List.filter (has_key k) rows = match List.find (has_key k) rows with
                                                     | Some r => [r] | None => [] end.
Proof.
  unfold unique_rows. induction rows as [|r rows IH]; cbn; [done|].
  intros [Hn Hu]%list.NoDup_cons. destruct (has_key k r) eqn:E; [|by apply IH].
  apply has_key_true in E. subst k. f_equal. apply find_none_filter. by apply find_key_None.
Qed.

Lemma scalar_unique k rows :
  unique_rows rows ->
  scalar_one_or_none (List.filter (has_key k) rows) = Ok (List.find (has_key k) rows).
Proof. intros H. rewrite unique_filter_key by done. by destruct (List.find _ rows). Qed.

Lemma unique_inj rows x y :
  unique_rows rows -> x ∈ rows -> y ∈ rows -> key x = key y -> x = y.
Proof.
  unfold unique_rows. induction rows as [|r rows IH]; cbn; [by intros _ ?%not_elem_of_nil|].
  intros [Hn Hu]%list.NoDup_cons Hx Hy Heq.
  assert (Hin : forall z, z ∈ rows -> key z ∈ map key rows).
  { intros z Hz. apply list_elem_of_In, in_map. by apply list_elem_of_In. }
  apply elem_of_cons in Hx as [->|Hx], Hy as [->|Hy]; [done| | |by apply IH].
  - destruct Hn. rewrite Heq. by apply Hin.
  - destruct Hn. rewrite <-Heq. by apply Hin.
Qed.

Lemma find_key_unique rows r :
  unique_rows rows -> r ∈ rows -> List.find (has_key (key r)) rows = Some r.
Proof.
  intros Hu Hr. destruct (List.find (has_key (key r)) rows) as [x|] eqn:E.
  - apply find_key_Some in E as [E Hx]. f_equal. by apply (unique_inj rows).
  - apply find_key_None in E. destruct E. apply list_elem_of_In, in_map. by apply list_elem_of_In.
Qed.

(** What a look-up by key gives once some rows, chosen by their key, are gone. *)
Lemma find_key_delete (b : bool) k p rows :
  (forall r, key r = k -> p r = b) ->
  List.find (has_key k) (delete_rows p rows) = if b then None else List.find (has_key k) rows.
Proof.
  intros Hp. unfold delete_rows. induction rows as [|r rows IH]; cbn; [by destruct b|].
  destruct (has_key k r) eqn:E.
  - pose proof E as E'. apply has_key_true in E'. rewrite (Hp r E').
    destruct b; cbn; [exact IH|by rewrite E].
  - destruct (p r); cbn; [exact IH|by rewrite E, IH].
Qed.

(** What a look-up by key gives after a change of the row of one key. *)
Lemma find_key_update k k' f rows :
  (forall r, key (f r) = key r) ->
  List.find (has_key k) (update_rows (has_key k') f rows) =
  if bool_decide (k = k') then f <$> List.find (has_key k) rows else List.find (has_key k) rows.
Proof.
  intros Hf. unfold update_rows. induction rows as [|r rows IH]; cbn; [by case_bool_decide|].
  destruct (has_key k' r) eqn:E'.
  - assert (E : has_key k (f r) = has_key k r) by (unfold has_key; by rewrite Hf).
    rewrite E. destruct (has_key k r) eqn:Ek; [|done].
    apply has_key_true in E', Ek. subst. by rewrite bool_decide_eq_true_2.
  - destruct (has_key k r) eqn:Ek; [|done]. apply has_key_true in Ek. subst k.
    rewrite bool_decide_eq_false_2; [done|]. intros Hk. apply has_key_true in Hk. congruence.
Qed.

Lemma find_key_insert k r rows :
  List.find (has_key (key r)) rows = None ->
  List.find (has_key k) (rows ++ [r]) =
  if bool_decide (k = key r) then Some r else List.find (has_key k) rows.
Proof.
  intros Hn. rewrite find_app. cbn. destruct (has_key k r) eqn:E;
    [apply has_key_true in E|apply not_true_iff_false in E; rewrite has_key_true in E].
  - subst k. by rewrite Hn, bool_decide_eq_true_2.
  - rewrite bool_decide_eq_false_2 by congruence. by destruct (List.find (has_key k) rows).
Qed.
End keyed.

(** Closed decidable goals, by evaluation. *)
Ltac by_deciding :=
  unfold unique_rows; match goal with |- ?P => apply (@bool_decide_unpack P _) end; vm_compute; exact I.

(** The row of one key gets another key that no other row has. *)
Section rekey.
Context {R K L : Type} `{EqDecision K} `{EqDecision L} (id : R -> K) (key : R -> L).

Lemma update_no_row k f rows :
  k ∉ map id rows -> update_rows (has_key id k) f rows = rows.
Proof.
  unfold update_rows. induction rows as [|r rows IH]; cbn; [done|].
  rewrite not_elem_of_cons. intros [Hne Hn]. rewrite IH by done.
  destruct (has_key id k r) eqn:E; [|done]. apply (has_key_true id) in E. congruence.
Qed.

Lemma unique_rekey k v f rows :
  unique_rows id rows -> unique_rows key rows ->
  (forall r, id r = k -> key (f r) = v) ->
  (forall r, r ∈ rows -> id r <> k -> key r <> v) ->
  unique_rows key (update_rows (has_key id k) f rows).
Proof.
  unfold unique_rows. intros Hid Hkey Hf Hv. induction rows as [|r rows IH]; [done|].
  cbn [update_rows map] in *. apply list.NoDup_cons in Hid as [Hni Hid], Hkey as [Hnk Hkey].
  destruct (has_key id k r) eqn:E.
  - apply (has_key_true id) in E. change (map (fun r => if has_key id k r then f r else r) rows)
      with (update_rows (has_key id k) f rows).
    rewrite update_no_row by (by rewrite <-E). apply list.NoDup_cons. split; [|done].
    rewrite Hf by done. intros Hin. apply list_elem_of_In, in_map_iff in Hin as (x & Hx & Hin).
    apply list_elem_of_In in Hin. apply (Hv x); [by right| |done].
    intros Ex. apply Hni. rewrite E, <-Ex. apply list_elem_of_In, in_map. by apply list_elem_of_In.
  - apply list.NoDup_cons. split.
    + intros Hin. apply list_elem_of_In in Hin. rewrite map_map in Hin.
      apply in_map_iff in Hin as (x & Hx & Hin).
      assert (Hr : id r <> k) by (intros Hr; by apply (has_key_true id) in Hr; congruence).
      destruct (has_key id k x) eqn:Ex.
      * apply (has_key_true id) in Ex. rewrite (Hf x Ex) in Hx. by apply (Hv r); [left| |].
      * apply Hnk. rewrite <-Hx. by apply list_elem_of_In, in_map.
    + apply IH; [done|done|]. intros x Hx. apply Hv. by right.
Qed.
End rekey.

(** ** Redis as a store of values

    What the services rely on: a value written with an expiry time is read until that
    time and not afterwards, [DEL] removes it, and neither touches other keys.  The
    values are texts, or what a service reads back from the JSON it wrote. *)

Class KeyValue (store V : Type) := {
  kv_get : Z -> string -> store -> option V;
  kv_set : string -> V -> Z -> store -> store;
  kv_del : string -> store -> store;
  kv_get_set_eq : forall now k v expires s,
    kv_get now k (kv_set k v expires s) = if (expires <=? now)%Z then None else Some v;
  kv_get_set_ne : forall now k k' v expires s,
    k <> k' -> kv_get now k (kv_set k' v expires s) = kv_get now k s;
  kv_get_del_eq : forall now k s, kv_get now k (kv_del k s) = None;
  kv_get_del_ne : forall now k k' s, k <> k' -> kv_get now k (kv_del k' s) = kv_get now k s
}.

(** [EXISTS]. *)
Definition kv_exists {store V} `{KeyValue store V} (now : Z) (k : string) (s : store) : bool :=
  match kv_get now k s with Some _ => true | None => false end.

(** A store that satisfies the laws: a map from keys to values with expiry times. *)
Definition map_get {V} (now : Z) (k : string) (s : gmap string (V * Z)) : option V :=
  match s !! k with
  | Some (v, expires) => if (expires <=? now)%Z then None else Some v
  | None => None
  end.

#[export] Program Instance map_store {V} : KeyValue (gmap string (V * Z)) V := {
  kv_get := map_get;
  kv_set k v expires s := <[k := (v, expires)]> s;
  kv_del k s := delete k s
}.
Next Obligation. intros. unfold map_get. by rewrite lookup_insert_eq. Qed.
Next Obligation. intros. unfold map_get. by rewrite lookup_insert_ne. Qed.
Next Obligation. intros. unfold map_get. by rewrite lookup_delete_eq. Qed.
Next Obligation. intros. unfold map_get. by rewrite lookup_delete_ne. Qed.
