(* ===== verification/IpAddress.v ===== *)
(** IP addresses and networks, as the [ipaddress] module of the Standard Library of
    Python (3.12) reads and writes them, and the properties it gives an address.  Theorems: what is
    written is read back; an address that is neither private, loopback, link-local nor
    reserved is one of the Internet. *)

From S2P Require Import Prelude PyText PyValue Effects.

Local Open Scope string_scope.

(** ** Digits in a base *)

Fixpoint to_digits (base : Z) (k : nat) (n : Z) : list Z :=
  match k with
  | O => []
  | S k' => (to_digits base k' (n / base) ++ [n mod base])%list%Z
  end.
Definition of_digits (base : Z) (l : list Z) : Z := fold_left (fun acc d => acc * base + d)%Z l 0%Z.

Definition v4_max : Z := 2 ^ 32.
Definition v6_max : Z := 2 ^ 128.

(** ** Addresses *)

Inductive ip_addr := V4 (n : Z) | V6 (n : Z) (scope : option string).

#[export] Instance ip_addr_eq_dec : EqDecision ip_addr.
Proof. solve_decision. Defined.

Definition parse_octet (s : string) : option Z :=
  if String.eqb s "" || negb (str_forall is_digit s) || (3 <? String.length s)%nat then None
  else if starts_with "0" s && negb (String.eqb s "0") then None
  else n ← digits_value 0 false s; if (255 <? n)%Z then None else Some n.

(** [IPv4Address(s)]. *)
Definition parse_v4 (s : string) : option Z :=
  let octets := split_char "." s in
  if (length octets =? 4)%nat then of_digits 256 <$> mapM parse_octet octets else None.

Definition v4_str (n : Z) : string := str_join "." (map str_of_Z (to_digits 256 4 n)).

Definition hex_value (c : ascii) : Z :=
  if is_digit c then code c - 48 else if is_upper c then code c - 55 else code c - 87.
Fixpoint chars (s : string) : list ascii :=
  match s with EmptyString => [] | String c s' => c :: chars s' end.

Definition parse_hextet (s : string) : option Z :=
  if negb (str_forall is_hex s) || (4 <? String.length s)%nat || String.eqb s "" then None
  else Some (of_digits 16 (map hex_value (chars s))).

(** ['%x' % n], for the sixteen bits of a hextet. *)
Fixpoint hex_text (l : list Z) : string :=
  match l with [] => "" | d :: l' => String (hex_digit d) (hex_text l') end.
Fixpoint strip_zero_digits (l : list Z) : list Z :=
  match l with
  | [] => []
  | [d] => [d]
  | d :: l' => if (d =? 0)%Z then strip_zero_digits l' else l
  end.
Definition hextet_str (n : Z) : string := hex_text (strip_zero_digits (to_digits 16 4 n)).

(** The positions of the empty parts, the first and the last left out. *)
Definition empty_inside (parts : list string) : list nat :=
  List.filter (fun i => String.eqb (nth i parts "") "") (seq 1 (length parts - 2)).

(** [IPv6Address._ip_int_from_string], once the parts are known. *)
Definition v6_of_parts (parts : list string) : option Z :=
  let n := length parts in
  let no_first := String.eqb (nth 0 parts "") "" in
  let no_last := String.eqb (nth (n - 1) parts "") "" in
  if (9 <? n)%nat then None
  else match empty_inside parts with
       | [] => if negb (n =? 8)%nat || no_first || no_last then None
               else of_digits 65536 <$> mapM parse_hextet parts
       | [i] =>
           let hi := if no_first then (i - 1)%nat else i in
           let lo := if no_last then (n - i - 2)%nat else (n - i - 1)%nat in
           if (no_first && negb (hi =? 0)%nat) || (no_last && negb (lo =? 0)%nat) then None
           else if (8 <=? hi + lo)%nat then None
           else xs ← mapM parse_hextet (take hi parts);
                ys ← mapM parse_hextet (drop (n - lo) parts);
                Some (of_digits 65536 (xs ++ repeat 0%Z (8 - (hi + lo)) ++ ys)%list)
       | _ => None
       end.

Definition parse_v6_int (s : string) : option Z :=
  let parts := split_char ":" s in
  if (length parts <? 3)%nat then None
  else
    let last := nth (length parts - 1) parts "" in
    if str_contains "." last then
      v ← parse_v4 last;
      v6_of_parts (take (length parts - 1) parts
        ++ [hextet_str (Z.land (Z.shiftr v 16) 65535); hextet_str (Z.land v 65535)])%list
    else v6_of_parts parts.

(** [IPv6Address(s)]. *)
Definition parse_v6 (s : string) : option ip_addr :=
  match split_max "%" 1 s with
  | [a; scope] => if String.eqb scope "" || negb (has_no "%" scope) then None
                  else n ← parse_v6_int a; Some (V6 n (Some scope))
  | _ => n ← parse_v6_int s; Some (V6 n None)
  end.

(** [ip_address(s)]; nothing is the [ValueError]. *)
Definition ip_address (s : string) : option ip_addr :=
  if str_contains "/" s then None
  else match parse_v4 s with Some n => Some (V4 n) | None => parse_v6 s end.

(** The loop of [_compress_hextets]: the best run so far (start, length), the run that
    ends here (start, length), the index. *)
Definition run_step (st : (nat * nat) * (nat * nat) * nat) (zero : bool) : (nat * nat) * (nat * nat) * nat :=
  let '((bs, bl), (s, l), i) := st in
  if zero then
    let s := if (l =? 0)%nat then i else s in
    let l := S l in
    (if (bl <? l)%nat then (s, l) else (bs, bl), (s, l), S i)
  else ((bs, bl), (0, 0)%nat, S i).
Definition best_run (zeros : list bool) : nat * nat :=
  (fold_left run_step zeros ((0, 0), (0, 0), 0)%nat).1.1.

Definition splice (start len : nat) (hextets : list string) : list string :=
  (if (start =? 0)%nat then [""] else []) ++ take start hextets ++ [""]
  ++ drop (start + len) hextets ++ (if (start + len =? length hextets)%nat then [""] else []).

Definition compress_hextets (hextets : list string) : list string :=
  let '(start, len) := best_run (map (fun h => String.eqb h "0") hextets) in
  if (1 <? len)%nat then splice start len hextets else hextets.

(** [str(address)]. *)
Definition v6_str (n : Z) : string := str_join ":" (compress_hextets (map hextet_str (to_digits 65536 8 n))).
Definition ip_str (a : ip_addr) : string :=
  match a with
  | V4 n => v4_str n
  | V6 n None => v6_str n
  | V6 n (Some scope) => v6_str n ++ "%" ++ scope
  end.

(** ** Networks *)

Inductive ip_net := Net4 (n prefix : Z) | Net6 (n : Z) (scope : option string) (prefix : Z).

(** The mask of a prefix, in [w] bits. *)
Definition netmask (w prefix : Z) : Z := (2 ^ w - 1) - (2 ^ (w - prefix) - 1).

Definition parse_prefix (w : Z) (s : string) : option Z :=
  if String.eqb s "" || negb (str_forall is_digit s) then None
  else p ← digits_value 0 false s; if (w <? p)%Z then None else Some p.

Fixpoint right_zeros (k : nat) (n : Z) : nat :=
  match k with O => O | S k' => if Z.even n then S (right_zeros k' (n / 2)%Z) else O end.

(** [_prefix_from_ip_int]. *)
Definition prefix_of_mask (n : Z) : option Z :=
  let zeros := Z.of_nat (right_zeros 32 n) in
  let p := (32 - zeros)%Z in
  if (Z.shiftr n zeros =? 2 ^ p - 1)%Z then Some p else None.

(** The text after the slash: a prefix, a mask, or the complement of a mask. *)
Definition parse_mask4 (s : string) : option Z :=
  match parse_prefix 32 s with
  | Some p => Some p
  | None => m ← parse_v4 s;
            match prefix_of_mask m with Some p => Some p | None => prefix_of_mask (Z.lxor m (v4_max - 1)) end
  end.

(** [ip_network(s, strict=False)]. *)
Definition network4 (addr mask : string) : option ip_net :=
  n ← parse_v4 addr; p ← parse_mask4 mask; Some (Net4 (Z.land n (netmask 32 p)) p).
Definition network6 (addr mask : string) : option ip_net :=
  a ← parse_v6 addr; p ← parse_prefix 128 mask;
  match a with
  | V6 n scope => let m := Z.land n (netmask 128 p) in Some (Net6 m (if (m =? n)%Z then scope else None) p)
  | V4 _ => None
  end.
Definition ip_network (s : string) : option ip_net :=
  match split_char "/" s with
  | [addr] => match network4 addr "32" with Some net => Some net | None => network6 addr "128" end
  | [addr; mask] => match network4 addr mask with Some net => Some net | None => network6 addr mask end
  | _ => None
  end.

Definition net_str (net : ip_net) : string :=
  match net with
  | Net4 n p => v4_str n ++ "/" ++ str_of_Z p
  | Net6 n scope p => ip_str (V6 n scope) ++ "/" ++ str_of_Z p
  end.

(** [address in network]. *)
Definition in_network (a : ip_addr) (net : ip_net) : bool :=
  match a, net with
  | V4 n, Net4 m p => (Z.land n (netmask 32 p) =? m)%Z
  | V6 n _, Net6 m _ p => (Z.land n (netmask 128 p) =? m)%Z
  | _, _ => false
  end.

(** ** Facts on digits *)

Lemma to_digits_length base k n : length (to_digits base k n) = k.
Proof. revert n. induction k as [|k IH]; intros n; [done|]. cbn [to_digits]. rewrite length_app, IH. cbn. lia. Qed.

Lemma to_digits_bound base k n : (0 < base)%Z -> Forall (fun d => 0 <= d < base)%Z (to_digits base k n).
Proof.
  intros Hb. revert n. induction k as [|k IH]; intros n; [constructor|]. cbn [to_digits].
  apply Forall_app. split; [apply IH|]. repeat constructor; apply Z.mod_pos_bound; lia.
Qed.

Lemma of_to_digits base k n :
  (0 < base)%Z -> (0 <= n < base ^ Z.of_nat k)%Z -> of_digits base (to_digits base k n) = n.
Proof.
  intros Hb. revert n. induction k as [|k IH]; intros n Hn.
  - cbn in Hn |- *. lia.
  - unfold of_digits in *. cbn [to_digits]. rewrite fold_left_app. cbn [fold_left].
    rewrite IH; [symmetry; rewrite Z.mul_comm; apply Z.div_mod; lia|].
    rewrite Nat2Z.inj_succ, Z.pow_succ_r in Hn by lia. split; [apply Z.div_pos; lia|].
    apply Z.div_lt_upper_bound; lia.
Qed.

Lemma of_digits_app base l m :
  of_digits base (l ++ m) = (of_digits base l * base ^ Z.of_nat (length m) + of_digits base m)%Z.
Proof.
  unfold of_digits. rewrite fold_left_app. generalize (fold_left (fun acc d => acc * base + d)%Z l 0%Z).
  intros a. assert (Hg : forall l a, fold_left (fun acc d => acc * base + d)%Z l a
                         = (a * base ^ Z.of_nat (length l) + fold_left (fun acc d => acc * base + d)%Z l 0)%Z).
  { clear. intros l. induction l as [|d l IH]; intros a; cbn [fold_left length]; [cbn; lia|].
    rewrite IH, (IH (0 * base + d)%Z). rewrite Nat2Z.inj_succ, Z.pow_succ_r by lia. ring. }
  by rewrite Hg.
Qed.

Lemma of_digits_bound base l :
  (0 < base)%Z -> Forall (fun d => 0 <= d < base)%Z l -> (0 <= of_digits base l < base ^ Z.of_nat (length l))%Z.
Proof.
  intros Hb. induction l as [|d l IH] using rev_ind; intros Hl; [cbn; lia|].
  apply Forall_app in Hl as [Hl Hd]. apply Forall_inv in Hd. specialize (IH Hl).
  rewrite of_digits_app, length_app. cbn [length of_digits fold_left]. rewrite Nat2Z.inj_add.
  rewrite Z.pow_add_r, !Z.pow_1_r by lia. nia.
Qed.

(** ** Octets and hextets: every value is checked *)

(** Every number of [k] bits, from [base] on. *)
Fixpoint all_bits (k : nat) (base : Z) (p : Z -> bool) : bool :=
  match k with
  | O => p base
  | S k' => all_bits k' base p && all_bits k' (base + 2 ^ Z.of_nat k')%Z p
  end.

Lemma all_bits_spec k base p n :
  all_bits k base p = true -> (base <= n < base + 2 ^ Z.of_nat k)%Z -> p n = true.
Proof.
  revert base. induction k as [|k IH]; intros base Hp Hn.
  - assert (n = base) as -> by (cbn in Hn; lia). exact Hp.
  - cbn [all_bits] in Hp. apply andb_true_iff in Hp as [H1 H2].
    rewrite Nat2Z.inj_succ, Z.pow_succ_r in Hn by lia.
    destruct (Z.lt_ge_cases n (base + 2 ^ Z.of_nat k)) as [Hlt|Hge].
    { apply (IH base); [exact H1|lia]. }
    apply (IH (base + 2 ^ Z.of_nat k)%Z); [done|lia].
Qed.

Definition octet_ok (n : Z) : bool :=
  bool_decide (parse_octet (str_of_Z n) = Some n) && str_forall is_digit (str_of_Z n).
Lemma octets_ok n : (0 <= n < 256)%Z -> octet_ok n = true.
Proof. apply (all_bits_spec 8 0). by vm_compute. Qed.

Definition hexdigit_ok (d : Z) : bool :=
  is_hex (hex_digit d) && (hex_value (hex_digit d) =? d)%Z && Bool.eqb (Ascii.eqb (hex_digit d) "0") (d =? 0)%Z.
Lemma hexdigits_ok d : (0 <= d < 16)%Z -> hexdigit_ok d = true.
Proof. apply (all_bits_spec 4 0). by vm_compute. Qed.

Lemma hex_text_digits l :
  Forall (fun d => 0 <= d < 16)%Z l ->
  map hex_value (chars (hex_text l)) = l /\ str_forall is_hex (hex_text l) = true
  /\ String.length (hex_text l) = length l.
Proof.
  induction 1 as [|d l Hd _ (IH1 & IH2 & IH3)]; [done|]. cbn.
  pose proof (hexdigits_ok d Hd) as Hok. apply andb_true_iff in Hok as [Hok _].
  apply andb_true_iff in Hok as [-> ->%Z.eqb_eq]. rewrite IH1, IH2, IH3. done.
Qed.

Lemma strip_zero_digits_spec l :
  of_digits 16 (strip_zero_digits l) = of_digits 16 l
  /\ (length (strip_zero_digits l) <= length l)%nat
  /\ (l <> [] -> strip_zero_digits l <> [])
  /\ (Forall (fun d => 0 <= d < 16)%Z l -> Forall (fun d => 0 <= d < 16)%Z (strip_zero_digits l))
  /\ (forall d e m, strip_zero_digits l = d :: e :: m -> d <> 0%Z).
Proof.
  induction l as [|d l (IH1 & IH2 & IH3 & IH4 & IH5)]; [done|].
  cbn [strip_zero_digits]. destruct l as [|e l]; [done|].
  destruct (Z.eqb_spec d 0) as [->|Hd].
  - split; [rewrite IH1; done|]. split; [cbn in *; lia|].
    split; [intros _; by apply IH3|]. split; [|done]. intros Hf. apply IH4. by apply Forall_inv_tail in Hf.
  - repeat split; auto. by intros ? ? ? [= <- <- <-].
Qed.

Record hextet_of (h : string) (n : Z) : Prop := HextetOf {
  ho_parse : parse_hextet h = Some n;
  ho_hex : str_forall is_hex h = true;
  ho_nonempty : String.eqb h "" = false;
  ho_zero : String.eqb h "0" = (n =? 0)%Z
}.

Lemma hextet_str_of n : (0 <= n < 65536)%Z -> hextet_of (hextet_str n) n.
Proof.
  intros Hn. unfold hextet_str. set (l := to_digits 16 4 n).
  pose proof (of_to_digits 16 4 n ltac:(lia) Hn) as Hv. fold l in Hv.
  pose proof (to_digits_length 16 4 n) as Hlen. fold l in Hlen.
  pose proof (to_digits_bound 16 4 n ltac:(lia)) as Hb. fold l in Hb.
  destruct (strip_zero_digits_spec l) as (H1 & H2 & H3 & H4 & H5). rewrite Hv in H1.
  assert (Hne : strip_zero_digits l <> []) by (apply H3; by destruct l).
  specialize (H4 Hb). clear Hb H3 Hv. revert H1 H2 Hne H4 H5. generalize (strip_zero_digits l).
  intros m Hm Hl Hne Hb Hhead.
  destruct (hex_text_digits m Hb) as (Hd & Hhex & Hlen').
  split.
  - unfold parse_hextet. rewrite Hhex, Hlen', Hd, Hm. destruct (Nat.ltb_spec 4 (length m)); [lia|].
    by destruct m.
  - done.
  - by destruct m.
  - destruct m as [|d m]; [done|]. cbn [hex_text]. pose proof (Forall_inv Hb) as Hd0. pose proof (Forall_inv_tail Hb) as Hb'.
    pose proof (hexdigits_ok d Hd0) as Hok. apply andb_true_iff in Hok as [_ Hok].
    apply Bool.eqb_prop in Hok. destruct m as [|e m].
    + cbn [String.eqb hex_text]. rewrite Hok, <- Hm. change (of_digits 16 [d]) with d. by destruct (d =? 0)%Z.
    + transitivity false; [cbn; by destruct (Ascii.eqb (hex_digit d) "0")|].
      symmetry. apply Z.eqb_neq. specialize (Hhead d e m eq_refl). rewrite <- Hm.
      change (d :: e :: m) with ([d] ++ e :: m)%list. cbv beta in Hd0. rewrite of_digits_app.
      pose proof (of_digits_bound 16 (e :: m) ltac:(lia) Hb') as Hbd.
      change (of_digits 16 [d]) with d. nia.
Qed.

(** ** IPv4 *)

Definition v4_char (c : ascii) : bool := is_digit c || Ascii.eqb c ".".

Lemma has_no_of (p : ascii -> bool) c s : p c = false -> str_forall p s = true -> has_no c s = true.
Proof.
  intros Hc. apply str_forall_impl. intros a Ha. apply negb_true_iff.
  destruct (Ascii.eqb_spec a c) as [->|]; [congruence|done].
Qed.

Lemma octets_parse l :
  Forall (fun d => 0 <= d < 256)%Z l ->
  mapM parse_octet (map str_of_Z l) = Some l /\ Forall (fun s => str_forall is_digit s = true) (map str_of_Z l).
Proof.
  induction 1 as [|d l Hd _ [IH1 IH2]]; [split; [done|constructor]|].
  pose proof (octets_ok d Hd) as Hok. apply andb_true_iff in Hok as [Ho Hdig].
  apply bool_decide_eq_true in Ho. split; [|by constructor].
  cbn [map mapM]. rewrite Ho. cbn. by rewrite IH1.
Qed.

Lemma v4_round_trip n : (0 <= n < v4_max)%Z -> parse_v4 (v4_str n) = Some n.
Proof.
  intros Hn. destruct (octets_parse (to_digits 256 4 n)) as [Hp Hd]; [apply to_digits_bound; lia|].
  unfold parse_v4, v4_str. change "." with (str1 "."). rewrite split_join.
  - rewrite length_map, to_digits_length, Hp. cbn [Nat.eqb fmap option_fmap option_map].
    by rewrite of_to_digits.
  - intros E. apply (f_equal length) in E. by rewrite length_map, to_digits_length in E.
  - eapply Forall_impl; [|exact Hd]. intros s. by apply has_no_of.
Qed.

Lemma digits_value_nonneg s acc b m :
  (0 <= acc)%Z -> str_forall is_digit s = true -> digits_value acc b s = Some m -> (0 <= m)%Z.
Proof.
  revert acc b. induction s as [|c s IH]; intros acc b Ha Hd; cbn [digits_value].
  - destruct b; [|done]. by intros [= <-].
  - cbn in Hd. apply andb_true_iff in Hd as [Hc Hd]. rewrite Hc. apply IH; [|done].
    unfold is_digit, in_range in Hc. apply andb_true_iff in Hc as [Hc _]. apply Z.leb_le in Hc. lia.
Qed.

Lemma parse_octet_spec s n :
  parse_octet s = Some n -> str_forall is_digit s = true /\ (0 <= n < 256)%Z.
Proof.
  unfold parse_octet. destruct (String.eqb s "") eqn:E1; [done|].
  destruct (str_forall is_digit s) eqn:Ed; [|done]. cbn [negb orb].
  destruct (3 <? String.length s)%nat; [done|]. destruct (starts_with "0" s && _); [done|].
  destruct (digits_value 0 false s) as [m|] eqn:Ev; [|done]. cbn.
  destruct (Z.ltb_spec 255 m) as [|Hm]; [done|]. intros [= <-]. split; [done|].
  enough (0 <= m)%Z by lia. by eapply digits_value_nonneg.
Qed.

Lemma parse_v4_spec s n : parse_v4 s = Some n -> str_forall v4_char s = true /\ (0 <= n < v4_max)%Z.
Proof.
  unfold parse_v4. destruct (Nat.eqb_spec (length (split_char "." s)) 4) as [Hlen|]; [|done].
  destruct (mapM parse_octet _) as [l|] eqn:Em; [|done]. cbn. intros [= <-].
  apply mapM_Some in Em. split.
  - rewrite <- (join_split_char "." s). apply str_forall_join; [done|].
    clear Hlen. induction Em as [|x y l1 l2 Hxy _ IH]; constructor; [|done].
    apply parse_octet_spec in Hxy as [Hx _]. revert Hx. apply str_forall_impl.
    intros c Hc. unfold v4_char. by rewrite Hc.
  - pose proof (Forall2_length Em) as Hl. rewrite Hlen in Hl.
    pose proof (of_digits_bound 256 l ltac:(lia)) as Hb. rewrite <- Hl in Hb. apply Hb.
    clear -Em. induction Em as [|x y l1 l2 Hxy _ IH]; constructor; [|done].
    by apply parse_octet_spec in Hxy as [_ Hy].
Qed.

(** ** IPv6 *)

(** The texts of eight hextets. *)
Definition hextets_of (hs : list string) (xs : list Z) : Prop := Forall2 hextet_of hs xs.

Lemma hextet_strs xs : Forall (fun x => 0 <= x < 65536)%Z xs -> hextets_of (map hextet_str xs) xs.
Proof. induction 1; constructor; [by apply hextet_str_of|done]. Qed.

Ltac eight l :=
  destruct l as [|?h1 [|?h2 [|?h3 [|?h4 [|?h5 [|?h6 [|?h7 [|?h8 [|]]]]]]]]]; try done.

Ltac run_parts :=
  repeat match goal with
  | Hx : hextet_of _ _ |- _ => destruct Hx
  end;
  unfold v6_of_parts, empty_inside, splice;
  repeat (progress cbn -[parse_hextet of_digits String.eqb] || match goal with
    | Hne : String.eqb ?h "" = false |- context [String.eqb ?h ""] => rewrite Hne
    | |- context [String.eqb "" ""] => rewrite String.eqb_refl
    | Hp : parse_hextet ?h = Some _ |- context [parse_hextet ?h] => rewrite Hp
    end).

Lemma parts_plain hs xs :
  hextets_of hs xs -> length xs = 8%nat -> v6_of_parts hs = Some (of_digits 65536 xs).
Proof.
  intros Hh Hl. eight xs. repeat (apply Forall2_cons_inv_r in Hh as (? & ? & ? & Hh & ->)).
  apply Forall2_nil_inv_r in Hh as ->. run_parts. done.
Qed.

(** A run of zeros, cut out. *)
Definition zero_run (start len : nat) (zeros : list bool) : bool :=
  (1 <? len)%nat && (start + len <=? 8)%nat && forallb (fun i => nth i zeros false) (seq start len).

Ltac zero_cases Hz :=
  cbn in Hz; repeat match type of Hz with
  | _ && _ = true => let Ha := fresh in apply andb_true_iff in Hz as [Ha Hz]; apply Z.eqb_eq in Ha; subst
  end.

Lemma parts_splice start len hs xs :
  hextets_of hs xs -> length xs = 8%nat -> zero_run start len (map (fun x => (x =? 0)%Z) xs) = true ->
  v6_of_parts (splice start len hs) = Some (of_digits 65536 xs).
Proof.
  intros Hh Hl Hz. apply andb_true_iff in Hz as [Hz1 Hz]. apply andb_true_iff in Hz1 as [H1 H2].
  apply Nat.ltb_lt in H1. apply Nat.leb_le in H2.
  eight xs. repeat (apply Forall2_cons_inv_r in Hh as (? & ? & ? & Hh & ->)).
  apply Forall2_nil_inv_r in Hh as ->.
  do 9 (destruct start as [|start]; [do 9 (destruct len as [|len];
    [try lia; zero_cases Hz; run_parts; done|]); lia|]). lia.
Qed.

Lemma best_run_zero zeros :
  length zeros = 8%nat -> let '(start, len) := best_run zeros in (1 < len)%nat -> zero_run start len zeros = true.
Proof.
  intros Hl. destruct zeros as [|b1 [|b2 [|b3 [|b4 [|b5 [|b6 [|b7 [|b8 [|]]]]]]]]]; try done.
  destruct b1, b2, b3, b4, b5, b6, b7, b8; vm_compute; intros; first [done|lia].
Qed.

Lemma compressed_parts hs xs :
  hextets_of hs xs -> length xs = 8%nat -> v6_of_parts (compress_hextets hs) = Some (of_digits 65536 xs).
Proof.
  intros Hh Hl. unfold compress_hextets.
  assert (Hz : map (fun h => String.eqb h "0") hs = map (fun x => (x =? 0)%Z) xs).
  { clear Hl. induction Hh as [|h x hs xs Hx _ IH]; [done|]. cbn. by rewrite (ho_zero _ _ Hx), IH. }
  rewrite Hz. pose proof (best_run_zero (map (fun x => (x =? 0)%Z) xs)) as Hb.
  destruct (best_run _) as [start len]. rewrite length_map in Hb. specialize (Hb Hl).
  destruct (Nat.ltb_spec 1 len) as [Hlt|]; [|by apply parts_plain]. by apply parts_splice, Hb.
Qed.

Lemma parts_count parts n : v6_of_parts parts = Some n -> (3 <= length parts)%nat.
Proof.
  intros Hp. destruct parts as [|a [|b [|c parts]]]; [done| | |cbn; lia].
  - unfold v6_of_parts in Hp. cbn -[parse_hextet String.eqb] in Hp. done.
  - unfold v6_of_parts in Hp. cbn -[parse_hextet String.eqb] in Hp. done.
Qed.

Definition hex_or_empty (s : string) : Prop := str_forall is_hex s = true.

Lemma compressed_hex hs : Forall hex_or_empty hs -> Forall hex_or_empty (compress_hextets hs).
Proof.
  intros Hf. unfold compress_hextets. destruct (best_run _) as [start len].
  destruct (1 <? len)%nat; [|done]. unfold splice.
  assert (He : forall b : bool, Forall hex_or_empty (if b then [""] else [])) by (intros []; repeat constructor).
  repeat apply Forall_app_2; auto using Forall_take, Forall_drop; try apply He. by repeat constructor.
Qed.

Lemma hextets_hex hs xs : hextets_of hs xs -> Forall hex_or_empty hs.
Proof. induction 1 as [|h x hs xs Hx _ IH]; constructor; [apply (ho_hex _ _ Hx)|done]. Qed.

Lemma v6_str_parts n :
  (0 <= n < v6_max)%Z ->
  split_char ":" (v6_str n) = compress_hextets (map hextet_str (to_digits 65536 8 n))
  /\ v6_of_parts (split_char ":" (v6_str n)) = Some n /\ Forall hex_or_empty (split_char ":" (v6_str n)).
Proof.
  intros Hn. pose proof (hextet_strs _ (to_digits_bound 65536 8 n ltac:(lia))) as Hh.
  pose proof (compressed_parts _ _ Hh (to_digits_length 65536 8 n)) as Hp.
  assert (Hhex : Forall hex_or_empty (compress_hextets (map hextet_str (to_digits 65536 8 n)))).
  { by apply compressed_hex, (hextets_hex _ (to_digits 65536 8 n)). }
  assert (Hs : split_char ":" (v6_str n) = compress_hextets (map hextet_str (to_digits 65536 8 n))).
  { unfold v6_str. change ":" with (str1 ":"). apply split_join.
    - intros E. apply parts_count in Hp. rewrite E in Hp. cbn in Hp. lia.
    - eapply Forall_impl; [|exact Hhex]. intros s. by apply has_no_of. }
  rewrite Hs. split; [done|]. split; [|done]. rewrite Hp, of_to_digits; done.
Qed.

Lemma v6_int_round_trip n : (0 <= n < v6_max)%Z -> parse_v6_int (v6_str n) = Some n.
Proof.
  intros Hn. destruct (v6_str_parts n Hn) as (_ & Hp & Hhex). unfold parse_v6_int.
  pose proof (parts_count _ _ Hp) as Hc. destruct (Nat.ltb_spec (length (split_char ":" (v6_str n))) 3); [lia|].
  replace (str_contains "." _) with false; [done|]. symmetry. apply (str_contains_none ".").
  apply (has_no_of is_hex); [done|].
  destruct (nth_in_or_default (length (split_char ":" (v6_str n)) - 1) (split_char ":" (v6_str n)) "") as [Hin| ->]; [|done].
  rewrite Forall_forall in Hhex. by apply Hhex.
Qed.

Definition v6_char (c : ascii) : bool := is_hex c || Ascii.eqb c ":".

Lemma v6_str_chars n : (0 <= n < v6_max)%Z -> str_forall v6_char (v6_str n) = true /\ has_no ":" (v6_str n) = false.
Proof.
  intros Hn. destruct (v6_str_parts n Hn) as (_ & Hp & Hhex). split.
  - rewrite <- (join_split_char ":" (v6_str n)). apply str_forall_join; [done|].
    eapply Forall_impl; [|exact Hhex]. intros s. apply str_forall_impl. intros c Hc. unfold v6_char. by rewrite Hc.
  - apply not_true_iff_false. intros Hno. apply parts_count in Hp. rewrite split_char_alone in Hp by done.
    cbn in Hp. lia.
Qed.

(** ** What is read is valid *)

Definition valid_scope (scope : option string) : Prop :=
  match scope with
  | None => True
  | Some s => s <> "" /\ has_no "%" s = true /\ has_no "/" s = true
  end.
Definition valid_ip (a : ip_addr) : Prop :=
  match a with
  | V4 n => (0 <= n < v4_max)%Z
  | V6 n scope => (0 <= n < v6_max)%Z /\ valid_scope scope
  end.

Lemma hex_value_bound c : is_hex c = true -> (0 <= hex_value c < 16)%Z.
Proof. destruct c as [[] [] [] [] [] [] [] []]; vm_compute; intros; first [done|split; congruence]. Qed.

Lemma parse_hextet_bound s n : parse_hextet s = Some n -> (0 <= n < 65536)%Z.
Proof.
  unfold parse_hextet. destruct (str_forall is_hex s) eqn:Hx; [|done]. cbn [negb orb].
  destruct (Nat.ltb_spec 4 (String.length s)) as [|Hl]; [done|]. cbn [orb].
  destruct (String.eqb s ""); [done|]. intros [= <-].
  assert (Hf : Forall (fun d => 0 <= d < 16)%Z (map hex_value (chars s)) /\ length (chars s) = String.length s).
  { clear Hl. induction s as [|c s IH]; [split; [constructor|done]|]. cbn in *.
    apply andb_true_iff in Hx as [Hc Hx]. destruct (IH Hx) as [IH1 IH2].
    split; [|by rewrite IH2]. constructor; [by apply hex_value_bound|done]. }
  destruct Hf as [Hf Hlen]. apply (of_digits_bound 16) in Hf; [|lia]. rewrite length_map, Hlen in Hf.
  assert (16 ^ Z.of_nat (String.length s) <= 16 ^ 4)%Z by (apply Z.pow_le_mono_r; lia). lia.
Qed.

Lemma parse_hextets_bound parts xs :
  mapM parse_hextet parts = Some xs -> Forall (fun d => 0 <= d < 65536)%Z xs /\ length xs = length parts.
Proof.
  intros Hm%mapM_Some. split; [|by symmetry; apply (Forall2_length Hm)].
  induction Hm as [|s x parts xs Hx _ IH]; constructor; [by apply parse_hextet_bound in Hx|done].
Qed.

Lemma v6_of_digits_bound xs :
  Forall (fun d => 0 <= d < 65536)%Z xs -> (length xs <= 8)%nat -> (0 <= of_digits 65536 xs < v6_max)%Z.
Proof.
  intros Hf Hl. apply (of_digits_bound 65536) in Hf; [|lia].
  assert (65536 ^ Z.of_nat (length xs) <= 65536 ^ 8)%Z by (apply Z.pow_le_mono_r; lia).
  change v6_max with (65536 ^ 8)%Z. lia.
Qed.

Lemma v6_of_parts_bound parts n : v6_of_parts parts = Some n -> (0 <= n < v6_max)%Z.
Proof.
  unfold v6_of_parts. destruct (9 <? length parts)%nat; [done|].
  destruct (empty_inside parts) as [|i [|]]; [| |done].
  - destruct (Nat.eqb_spec (length parts) 8) as [Hl|]; [|done]. cbn [negb orb].
    destruct (_ || _); [done|]. destruct (mapM _ _) as [xs|] eqn:Em; [|done]. intros [= <-].
    apply parse_hextets_bound in Em as [Hf Hlen]. apply v6_of_digits_bound; [done|lia].
  - set (hi := if String.eqb (nth 0 parts "") "" then _ else _).
    set (lo := if String.eqb (nth (length parts - 1) parts "") "" then _ else _). cbv zeta.
    destruct (_ || _); [done|]. destruct (Nat.leb_spec 8 (hi + lo)) as [|Hlt]; [done|].
    destruct (mapM parse_hextet (take hi parts)) as [xs|] eqn:Ex; [|done]. cbn [mbind option_bind].
    destruct (mapM parse_hextet (drop _ parts)) as [ys|] eqn:Ey; [|done]. cbn [mbind option_bind]. intros [= <-].
    apply parse_hextets_bound in Ex as [Hx Hlx], Ey as [Hy Hly].
    rewrite length_take in Hlx. rewrite length_drop in Hly. apply v6_of_digits_bound.
    + apply Forall_app. split; [done|]. apply Forall_app. split; [|done]. apply Forall_forall.
      intros d Hd%repeat_spec. lia.
    + rewrite !length_app, repeat_length. lia.
Qed.

Lemma parse_v6_int_bound s n : parse_v6_int s = Some n -> (0 <= n < v6_max)%Z.
Proof.
  unfold parse_v6_int. destruct (_ <? 3)%nat; [done|]. cbv zeta. destruct (str_contains _ _).
  - destruct (parse_v4 _); [|done]. apply v6_of_parts_bound.
  - apply v6_of_parts_bound.
Qed.

Lemma parse_v6_valid s a : has_no "/" s = true -> parse_v6 s = Some a -> valid_ip a.
Proof.
  intros Hs. unfold parse_v6. destruct (split_max_1 "%" s) as [[-> Hp]|(b & sc & -> & -> & Hb)].
  - destruct (parse_v6_int s) as [n|] eqn:E; [|done]. intros [= <-]. split; [by apply parse_v6_int_bound in E|done].
  - destruct (String.eqb_spec sc "") as [|Hne]; [done|]. destruct (has_no "%" sc) eqn:Hn; [|done]. cbn [negb orb].
    destruct (parse_v6_int b) as [n|] eqn:E; [|done]. intros [= <-]. split; [by apply parse_v6_int_bound in E|].
    rewrite has_no_app in Hs. apply andb_true_iff in Hs as [_ Hs]. done.
Qed.

Lemma ip_address_valid s a : ip_address s = Some a -> valid_ip a.
Proof.
  unfold ip_address. change "/" with (str1 "/"). rewrite str_contains_char.
  destruct (has_no "/" s) eqn:Hs; [|done]. cbn [negb].
  destruct (parse_v4 s) as [n|] eqn:E; [|by apply parse_v6_valid]. intros [= <-]. by apply parse_v4_spec in E as [_ E].
Qed.

(** ** Round trips *)

Lemma v4_str_chars n : (0 <= n < v4_max)%Z -> str_forall v4_char (v4_str n) = true.
Proof. intros Hn. by apply v4_round_trip, parse_v4_spec in Hn as [Hn _]. Qed.

(** The text of an IPv6 address is not one of IPv4. *)
Lemma v6_text_not_v4 n scope : valid_ip (V6 n scope) -> parse_v4 (ip_str (V6 n scope)) = None.
Proof.
  intros [Hn _]. destruct (parse_v4 _) as [m|] eqn:E; [|done]. apply parse_v4_spec in E as [E _].
  apply (has_no_of v4_char ":") in E; [|done]. destruct (v6_str_chars n Hn) as [_ Hc].
  cbn [ip_str] in E. destruct scope; [rewrite has_no_app in E|]; by rewrite Hc in E.
Qed.

Lemma v6_round_trip n scope : valid_ip (V6 n scope) -> parse_v6 (ip_str (V6 n scope)) = Some (V6 n scope).
Proof.
  intros [Hn Hs]. destruct (v6_str_chars n Hn) as [Hc _].
  assert (Hp : has_no "%" (v6_str n) = true) by (by apply (has_no_of v6_char)).
  unfold parse_v6, ip_str. destruct scope as [sc|].
  - destruct Hs as (Hne & Hsp & _). change ("%" ++ sc) with (String "%" sc).
    rewrite split_max_app by done. replace (split_max "%" 0 sc) with [sc] by (by destruct sc).
    destruct (String.eqb_spec sc ""); [done|]. rewrite Hsp. cbn [negb orb]. by rewrite v6_int_round_trip.
  - destruct (split_max_1 "%" (v6_str n)) as [[-> _]|(a & b & _ & He & _)].
    + by rewrite v6_int_round_trip.
    + rewrite He, has_no_app in Hp. cbn in Hp. by rewrite andb_false_r in Hp.
Qed.

Lemma ip_str_no_slash a : valid_ip a -> has_no "/" (ip_str a) = true.
Proof.
  destruct a as [n|n scope].
  - intros Hn. apply (has_no_of v4_char); [done|by apply v4_str_chars].
  - intros [Hn Hs]. destruct (v6_str_chars n Hn) as [Hc _]. apply (has_no_of _ "/") in Hc; [|done].
    cbn [ip_str]. destruct scope as [sc|]; [|done]. destruct Hs as (_ & _ & Hs).
    rewrite has_no_app, Hc. exact Hs.
Qed.

(** What [str] writes for an address, [ip_address] reads back: IPv4 in dotted form, IPv6 with
    the longest run of zero groups cut out, wherever it is, and with its scope. *)
Theorem ip_round_trip a : valid_ip a -> ip_address (ip_str a) = Some a.
Proof.
  intros Ha. unfold ip_address. change "/" with (str1 "/").
  rewrite str_contains_char, ip_str_no_slash by done. cbn [negb].
  destruct a as [n|n scope]; [by cbn [ip_str]; rewrite v4_round_trip|].
  rewrite v6_text_not_v4 by done. by apply v6_round_trip.
Qed.

Lemma ip_round_trip_witness :
  ip_str (V6 (2 ^ 125 + 1) (Some "eth0")) = "2000::1%eth0"
  /\ ip_address (ip_str (V6 (2 ^ 125 + 1) (Some "eth0"))) = Some (V6 (2 ^ 125 + 1) (Some "eth0")).
Proof. split; [by vm_compute|]. apply ip_round_trip. by vm_compute. Defined.

Definition valid_net (net : ip_net) : Prop :=
  match net with
  | Net4 n p => valid_ip (V4 n) /\ (0 <= p <= 32)%Z /\ Z.land n (netmask 32 p) = n
  | Net6 n scope p => valid_ip (V6 n scope) /\ (0 <= p <= 128)%Z /\ Z.land n (netmask 128 p) = n
  end.

Definition prefix_ok (p : Z) : bool :=
  bool_decide (digits_value 0 false (str_of_Z p) = Some p) && str_forall is_digit (str_of_Z p)
  && negb (String.eqb (str_of_Z p) "").
Lemma parse_prefix_str w p : (0 <= p <= w)%Z -> (w <= 128)%Z -> parse_prefix w (str_of_Z p) = Some p.
Proof.
  intros Hp Hw. assert (Hok : prefix_ok p = true) by (apply (all_bits_spec 8 0); [by vm_compute|cbn; lia]).
  apply andb_true_iff in Hok as [Hok Hne]. apply andb_true_iff in Hok as [Hv Hd].
  apply bool_decide_eq_true in Hv. apply negb_true_iff in Hne.
  unfold parse_prefix. rewrite Hd, Hne, Hv. cbn. destruct (Z.ltb_spec w p); [lia|done].
Qed.

Lemma str_of_prefix_no_slash p : (0 <= p <= 128)%Z -> has_no "/" (str_of_Z p) = true.
Proof.
  intros Hp. assert (Hok : prefix_ok p = true) by (apply (all_bits_spec 8 0); [by vm_compute|cbn; lia]).
  apply andb_true_iff in Hok as [Hok _]. apply andb_true_iff in Hok as [_ Hd]. by apply (has_no_of is_digit).
Qed.

Lemma net_text_parts a p :
  valid_ip a -> (0 <= p <= 128)%Z -> split_char "/" (ip_str a ++ "/" ++ str_of_Z p) = [ip_str a; str_of_Z p].
Proof.
  intros Ha Hp. change ("/" ++ str_of_Z p) with (String "/" (str_of_Z p)).
  rewrite split_char_app by (by apply ip_str_no_slash). by rewrite split_char_alone by (by apply str_of_prefix_no_slash).
Qed.

Lemma net_round_trip net : valid_net net -> ip_network (net_str net) = Some net.
Proof.
  unfold ip_network. destruct net as [n p|n sc p]; intros (Ha & Hp & Hm); cbn [net_str].
  - change (v4_str n) with (ip_str (V4 n)). rewrite net_text_parts by (done || lia).
    unfold network4, parse_mask4. cbn [ip_str]. rewrite v4_round_trip, parse_prefix_str by (done || lia).
    cbn [mbind option_bind]. by rewrite Hm.
  - rewrite net_text_parts by (done || lia). unfold network4, network6.
    rewrite v6_text_not_v4, v6_round_trip, parse_prefix_str by (done || lia).
    cbn [mbind option_bind]. by rewrite Hm, Z.eqb_refl.
Qed.

Lemma netmask_nonneg w p : (0 <= p <= w)%Z -> (0 <= netmask w p)%Z.
Proof.
  intros Hp. unfold netmask. enough (2 ^ (w - p) <= 2 ^ w)%Z by lia. apply Z.pow_le_mono_r; lia.
Qed.

Lemma masked_range n w p :
  (0 <= p <= w)%Z -> (0 <= n < 2 ^ w)%Z -> (0 <= Z.land n (netmask w p) < 2 ^ w)%Z.
Proof.
  intros Hp Hn. pose proof (netmask_nonneg w p Hp) as Hm.
  assert (H0 : (0 <= Z.land n (netmask w p))%Z) by (apply Z.land_nonneg; lia). split; [done|].
  destruct (Z.eq_dec (Z.land n (netmask w p)) 0%Z) as [->|Hne]; [apply Z.pow_pos_nonneg; lia|].
  assert (Hn0 : (0 < n)%Z) by (destruct (Z.eq_dec n 0%Z) as [->|]; [done|lia]).
  pose proof (Z.log2_land n (netmask w p) ltac:(lia) Hm) as Hl.
  apply Z.log2_lt_pow2; [lia|]. destruct Hn as [_ Hn]. apply Z.log2_lt_pow2 in Hn; lia.
Qed.

Lemma masked_again n w p : Z.land (Z.land n (netmask w p)) (netmask w p) = Z.land n (netmask w p).
Proof. by rewrite <- Z.land_assoc, Z.land_diag. Qed.

Lemma parse_prefix_bound w s p : parse_prefix w s = Some p -> (0 <= p <= w)%Z.
Proof.
  unfold parse_prefix. destruct (_ || _) eqn:E; [done|]. apply orb_false_iff in E as [_ Hd%negb_false_iff].
  destruct (digits_value 0 false s) as [m|] eqn:Ev; [|done]. cbn.
  destruct (Z.ltb_spec w m); [done|]. intros [= <-]. split; [|done]. by eapply digits_value_nonneg.
Qed.

Lemma right_zeros_bound k n : (right_zeros k n <= k)%nat.
Proof.
  revert n. induction k as [|k IH]; intros n; cbn; [lia|]. destruct (Z.even n); [|lia].
  specialize (IH (n / 2)%Z). lia.
Qed.

Lemma prefix_of_mask_bound n p : prefix_of_mask n = Some p -> (0 <= p <= 32)%Z.
Proof.
  unfold prefix_of_mask. cbv zeta. set (k := right_zeros 32 n). assert (Hk : (k <= 32)%nat).
  { apply right_zeros_bound. }
  clearbody k. destruct (_ =? _)%Z; [|done]. intros [= <-]. lia.
Qed.

Lemma parse_mask4_bound s p : parse_mask4 s = Some p -> (0 <= p <= 32)%Z.
Proof.
  unfold parse_mask4. destruct (parse_prefix 32 s) as [q|] eqn:E.
  - intros [= <-]. by apply parse_prefix_bound in E.
  - destruct (parse_v4 s) as [m|]; [|done]. cbn. destruct (prefix_of_mask m) eqn:Em.
    + intros [= <-]. by apply prefix_of_mask_bound in Em.
    + apply prefix_of_mask_bound.
Qed.

Lemma network4_valid a m net : network4 a m = Some net -> valid_net net.
Proof.
  unfold network4. destruct (parse_v4 a) as [n|] eqn:En; [|done]. cbn.
  destruct (parse_mask4 m) as [p|] eqn:Ep; [|done]. cbn. intros [= <-].
  apply parse_v4_spec in En as [_ Hn]. apply parse_mask4_bound in Ep.
  split; [by apply masked_range|]. split; [done|apply masked_again].
Qed.

Lemma network6_valid a m net : has_no "/" a = true -> network6 a m = Some net -> valid_net net.
Proof.
  intros Ha. unfold network6. destruct (parse_v6 a) as [addr|] eqn:En; [|done]. cbn [mbind option_bind].
  destruct (parse_prefix 128 m) as [p|] eqn:Ep; [|done]. cbn [mbind option_bind].
  apply parse_v6_valid in En; [|done]. apply parse_prefix_bound in Ep.
  destruct addr as [|n scope]; [done|]. cbv zeta. intros [= <-]. destruct En as [Hn Hs].
  split; [|split; [done|apply masked_again]]. split; [by apply masked_range|]. by destruct (_ =? n)%Z.
Qed.

Lemma ip_network_valid s net : ip_network s = Some net -> valid_net net.
Proof.
  unfold ip_network. pose proof (split_char_parts "/" s) as Hp.
  destruct (split_char "/" s) as [|a [|m [|]]]; try done; apply Forall_inv in Hp.
  - destruct (network4 a "32") eqn:E; [|by apply network6_valid].
    intros [= <-]. by apply network4_valid in E.
  - destruct (network4 a m) eqn:E; [|by apply network6_valid].
    intros [= <-]. by apply network4_valid in E.
Qed.

(** ** Special ranges

    The properties of an address the gateway asks for, with the tables of CPython 3.12 (since
    3.12.6, where an address mapped into IPv6 has the properties of the address it maps). *)

Definition nets (l : list string) : list ip_net := omap (M := list) ip_network l.
Definition PRIVATE4 : list ip_net :=
  nets ["0.0.0.0/8"; "10.0.0.0/8"; "127.0.0.0/8"; "169.254.0.0/16"; "172.16.0.0/12"; "192.0.0.0/24"; "192.0.0.170/31";
        "192.0.2.0/24"; "192.168.0.0/16"; "198.18.0.0/15"; "198.51.100.0/24"; "203.0.113.0/24"; "240.0.0.0/4";
        "255.255.255.255/32"].
Definition PRIVATE4_EXCEPTIONS : list ip_net := nets ["192.0.0.9/32"; "192.0.0.10/32"].
Definition PRIVATE6 : list ip_net :=
  nets ["::1/128"; "::/128"; "::ffff:0:0/96"; "64:ff9b:1::/48"; "100::/64"; "2001::/23"; "2001:db8::/32"; "2002::/16";
        "3fff::/20"; "fc00::/7"; "fe80::/10"].
Definition PRIVATE6_EXCEPTIONS : list ip_net :=
  nets ["2001:1::1/128"; "2001:1::2/128"; "2001:3::/32"; "2001:4:112::/48"; "2001:20::/28"; "2001:30::/28"].
Definition RESERVED6 : list ip_net :=
  nets ["::/8"; "100::/8"; "200::/7"; "400::/6"; "800::/5"; "1000::/4"; "4000::/3"; "6000::/3"; "8000::/3"; "a000::/3";
        "c000::/3"; "e000::/4"; "f000::/5"; "f800::/6"; "fe00::/9"].

Definition in_some (l : list ip_net) (a : ip_addr) : bool := existsb (in_network a) l.

(** [ipv4_mapped]. *)
Definition unmapped (a : ip_addr) : ip_addr :=
  match a with
  | V6 n _ => if (n / 2 ^ 32 =? 65535)%Z then V4 (n mod 2 ^ 32) else a
  | V4 _ => a
  end.
Definition is_private (a : ip_addr) : bool :=
  match unmapped a with
  | V4 n => in_some PRIVATE4 (V4 n) && negb (in_some PRIVATE4_EXCEPTIONS (V4 n))
  | b => in_some PRIVATE6 b && negb (in_some PRIVATE6_EXCEPTIONS b)
  end.
Definition is_loopback (a : ip_addr) : bool :=
  match unmapped a with V4 n => in_some (nets ["127.0.0.0/8"]) (V4 n) | V6 n _ => (n =? 1)%Z end.
Definition is_link_local (a : ip_addr) : bool :=
  match unmapped a with V4 n => in_some (nets ["169.254.0.0/16"]) (V4 n) | b => in_some (nets ["fe80::/10"]) b end.
Definition is_reserved (a : ip_addr) : bool :=
  match unmapped a with V4 n => in_some (nets ["240.0.0.0/4"]) (V4 n) | b => in_some RESERVED6 b end.

(** The part of an address its mask keeps. *)
Lemma masked n w p :
  (0 <= p <= w)%Z -> (0 <= n < 2 ^ w)%Z -> Z.land n (netmask w p) = (n / 2 ^ (w - p) * 2 ^ (w - p))%Z.
Proof.
  intros Hp Hn. unfold netmask.
  replace (2 ^ w - 1 - (2 ^ (w - p) - 1))%Z with (Z.shiftl (Z.ones p) (w - p)).
  2: { rewrite Z.shiftl_mul_pow2, Z.ones_equiv by lia.
       replace w with (p + (w - p))%Z at 2 by lia. rewrite Z.pow_add_r by lia. lia. }
  rewrite <- Z.shiftl_mul_pow2, <- Z.shiftr_div_pow2 by lia. apply Z.bits_inj'. intros i Hi.
  rewrite Z.land_spec, !Z.shiftl_spec by lia. destruct (Z.ltb_spec i (w - p)).
  - rewrite !(Z.testbit_neg_r _ (i - (w - p))) by lia. apply andb_false_r.
  - rewrite Z.shiftr_spec, Z.testbit_ones_nonneg by lia. replace (i - (w - p) + (w - p))%Z with i by lia.
    destruct (Z.ltb_spec (i - (w - p)) p); [apply andb_true_r|]. rewrite andb_false_r. symmetry.
    destruct (Z.eq_dec n 0%Z) as [->|]; [apply Z.bits_0|]. apply Z.bits_above_log2; [lia|].
    apply Z.lt_le_trans with w; [|lia]. apply Z.log2_lt_pow2; lia.
Qed.

(** An address of the Internet: its first octets are none of "this" network (0), the private
    networks (10, 172.16 to 172.31, 192.168), loopback (127), link-local (169.254), benchmarks
    (198.18 and 198.19), or the reserved ones from 240 on. *)
Definition public_v4 (n : Z) : Prop :=
  let a := (n / 2 ^ 24)%Z in
  let b := (n / 2 ^ 16 mod 256)%Z in
  (a <> 0 /\ a <> 10 /\ a <> 127 /\ a < 240 /\ ~ (a = 169 /\ b = 254) /\ ~ (a = 172 /\ 16 <= b <= 31)
   /\ ~ (a = 192 /\ b = 168) /\ ~ (a = 198 /\ 18 <= b <= 19))%Z.

(** In IPv6: an address of the Internet mapped, or one outside [::/8] (with the loopback and the
    embedded addresses of the old Internet), [fc00::/7] (unique local) and [fe80::/10] (link-local). *)
Definition public_address (a : ip_addr) : Prop :=
  match a with
  | V4 n => public_v4 n
  | V6 n _ =>
      if (n / 2 ^ 32 =? 65535)%Z then public_v4 (n mod 2 ^ 32)
      else (n / 2 ^ 120 <> 0 /\ n / 2 ^ 121 <> 126 /\ n / 2 ^ 118 <> 1018)%Z
  end.

Lemma public_v4_of n : (0 <= n < v4_max)%Z ->
  in_some PRIVATE4 (V4 n) && negb (in_some PRIVATE4_EXCEPTIONS (V4 n)) = false -> public_v4 n.
Proof.
  intros Hn. unfold v4_max in Hn. unfold in_some.
  let l := eval vm_compute in PRIVATE4 in change PRIVATE4 with l.
  let l := eval vm_compute in PRIVATE4_EXCEPTIONS in change PRIVATE4_EXCEPTIONS with l.
  cbn [existsb in_network]. rewrite !(masked n 32) by lia.
  intros [H|H%negb_false_iff]%andb_false_iff.
  - rewrite !orb_false_iff, !Z.eqb_neq in H.
    destruct H as (H0 & H10 & H127 & H169 & H172 & _ & _ & _ & H192 & H198 & _ & _ & H240 & _).
    change (2 ^ (32 - 8))%Z with 16777216%Z in *. change (2 ^ (32 - 16))%Z with 65536%Z in *.
    change (2 ^ (32 - 12))%Z with 1048576%Z in *. change (2 ^ (32 - 15))%Z with 131072%Z in *.
    change (2 ^ (32 - 4))%Z with 268435456%Z in *. unfold public_v4.
    change (2 ^ 24)%Z with 16777216%Z. change (2 ^ 16)%Z with 65536%Z. change (2 ^ 32)%Z with 4294967296%Z in Hn.
    replace (n / 16777216)%Z with (n / 65536 / 256)%Z in * by (by rewrite Z.div_div by lia).
    replace (n / 1048576)%Z with (n / 65536 / 16)%Z in * by (by rewrite Z.div_div by lia).
    replace (n / 131072)%Z with (n / 65536 / 2)%Z in * by (by rewrite Z.div_div by lia).
    replace (n / 268435456)%Z with (n / 65536 / 4096)%Z in * by (by rewrite Z.div_div by lia).
    assert (Hc : (0 <= n / 65536 < 65536)%Z) by (split; [apply Z.div_pos|apply Z.div_lt_upper_bound]; lia).
    revert Hc H0 H10 H127 H169 H172 H192 H198 H240. generalize (n / 65536)%Z. clear. intros c. intros. Z.to_euclidean_division_equations. lia.
  - rewrite !orb_true_iff, !Z.eqb_eq in H. assert (Hn' : n = 3221225481%Z \/ n = 3221225482%Z).
    { change (2 ^ (32 - 32))%Z with 1%Z in H. rewrite !Z.div_1_r, !Z.mul_1_r in H. destruct H as [H|[H|H]]; [lia|lia|done]. }
    destruct Hn' as [-> | ->]; vm_compute; intuition discriminate.
Qed.

Lemma div_range n k c : (0 < k)%Z -> (n / k * k = c)%Z -> (c <= n < c + k)%Z.
Proof. intros Hk H. pose proof (Z.div_mod n k ltac:(lia)). pose proof (Z.mod_pos_bound n k Hk). lia. Qed.

Lemma public_v6_of n scope : (0 <= n < v6_max)%Z ->
  in_some PRIVATE6 (V6 n scope) && negb (in_some PRIVATE6_EXCEPTIONS (V6 n scope)) = false ->
  in_some RESERVED6 (V6 n scope) = false ->
  (n / 2 ^ 120 <> 0 /\ n / 2 ^ 121 <> 126 /\ n / 2 ^ 118 <> 1018)%Z.
Proof.
  intros Hn. unfold v6_max in Hn. unfold in_some.
  let l := eval vm_compute in PRIVATE6 in change PRIVATE6 with l.
  let l := eval vm_compute in PRIVATE6_EXCEPTIONS in change PRIVATE6_EXCEPTIONS with l.
  let l := eval vm_compute in RESERVED6 in change RESERVED6 with l.
  cbn [existsb in_network]. rewrite !(masked n 128) by lia.
  intros H Hr. rewrite !orb_false_iff, !Z.eqb_neq in Hr. destruct Hr as [H0 _].
  change (128 - 8)%Z with 120%Z in *. change (128 - 7)%Z with 121%Z in *. change (128 - 10)%Z with 118%Z in *.
  split; [intros E; apply H0; by rewrite E|].
  apply andb_false_iff in H as [H|H%negb_false_iff].
  - rewrite !orb_false_iff, !Z.eqb_neq in H. destruct H as (_ & _ & _ & _ & _ & _ & _ & _ & _ & Hu & Hl & _).
    split; intros E; [apply Hu|apply Hl]; by rewrite E.
  - rewrite !orb_true_iff, !Z.eqb_eq in H.
    assert (Hb : (8193 * 2 ^ 112 <= n < 8194 * 2 ^ 112)%Z).
    { destruct H as [H|[H|[H|[H|[H|[H|H]]]]]]; try done; apply div_range in H; lia. }
    clear H H0 Hn. split; intros E; [apply (f_equal (fun z => z * 2 ^ 121)%Z) in E|apply (f_equal (fun z => z * 2 ^ 118)%Z) in E];
      apply div_range in E; lia.
Qed.

(** An address that is neither private, loopback, link-local nor reserved is one of the Internet. *)
Lemma public_of_properties a :
  valid_ip a -> is_private a || is_loopback a || is_link_local a || is_reserved a = false -> public_address a.
Proof.
  unfold is_private, is_reserved. intros Hv [[[Hp _]%orb_false_iff _]%orb_false_iff Hr]%orb_false_iff.
  destruct a as [n|n scope]; cbn [unmapped public_address] in *; [by apply public_v4_of|].
  destruct Hv as [Hn _]. destruct (n / 2 ^ 32 =? 65535)%Z.
  - apply public_v4_of; [|done]. unfold v4_max. apply Z.mod_pos_bound. by apply Z.pow_pos_nonneg.
  - by apply (public_v6_of n scope).
Qed.

Example properties_of_addresses :
  map (fun s => default (true, true, true, true)
         ((fun a => (is_private a, is_loopback a, is_link_local a, is_reserved a)) <$> ip_address s))
    ["8.8.8.8"; "169.254.169.254"; "::ffff:127.0.0.1"; "::ffff:8.8.8.8"; "fe80::1%eth0"; "64:ff9b::a00:1"; "100.64.0.1";
     "192.0.0.9"; "224.0.0.1"]
  = [(false, false, false, false); (true, false, true, false); (true, true, false, false); (false, false, false, false);
     (true, false, true, false); (false, false, false, true); (false, false, false, false); (false, false, false, false);
     (false, false, false, false)].
Proof. by vm_compute. Qed.
