(* ===== verification/Base64.v ===== *)
(** Base 64 as the module [base64] of the Standard Library reads and writes it, and
    the round trip of its URL-safe form. *)

From S2P Require Import Prelude PyText PyValue.

Local Open Scope string_scope.

(** ** Decoding *)

Definition base64_value (c : ascii) : option Z :=
  if is_upper c then Some (code c - 65)%Z
  else if is_lower c then Some (code c - 71)%Z
  else if is_digit c then Some (code c + 4)%Z
  else if Ascii.eqb c "+" then Some 62%Z
  else if Ascii.eqb c "/" then Some 63%Z
  else None.

Definition is_base64 (c : ascii) : bool :=
  match base64_value c with Some _ => true | None => false end.

(** The decoder reads groups of four digits, skips other characters, and stops at the
    padding that completes a group: [quad] digits of the group read, worth [left],
    [pads] padding characters in a row; the text has [total] digits. *)
Section Base64.
Variable total : nat.

Fixpoint b64_go (s : string) (quad : nat) (left : Z) (pads : nat) : res string :=
  match s with
  | EmptyString =>
      match quad with
      | O => Ok ""
      | S O => Raise (ValueError ("Invalid base64-encoded string: number of data characters ("
                        ++ str_of_Z (Z.of_nat total) ++ ") cannot be 1 more than a multiple of 4"))
      | _ => Raise (ValueError "Incorrect padding")
      end
  | String c s' =>
      if Ascii.eqb c "=" then
        if (2 <=? quad)%nat && (4 <=? quad + S pads)%nat then Ok ""
        else b64_go s' quad left (if (2 <=? quad)%nat then S pads else pads)
      else match base64_value c with
           | None => b64_go s' quad left pads
           | Some v =>
               match quad with
               | O => b64_go s' 1 v 0
               | S O => rest ← b64_go s' 2 (Z.land v 15) 0;
                        Ok (String (chr (Z.lor (Z.shiftl left 2) (Z.shiftr v 4))) rest)
               | S (S O) => rest ← b64_go s' 3 (Z.land v 3) 0;
                            Ok (String (chr (Z.lor (Z.shiftl left 4) (Z.shiftr v 2))) rest)
               | _ => rest ← b64_go s' 0 0 0;
                      Ok (String (chr (Z.lor (Z.shiftl left 6) v)) rest)
               end
           end
  end.
End Base64.

Definition b64decode (s : string) : res string :=
  b64_go (String.length (str_filter is_base64 s)) s 0 0 0.

(** ** Encoding *)

Definition base64_digit (plus slash : ascii) (n : Z) : ascii :=
  if (n <? 26)%Z then chr (n + 65)
  else if (n <? 52)%Z then chr (n + 71)
  else if (n <? 62)%Z then chr (n - 4)
  else if (n =? 62)%Z then plus else slash.

Section Encode.
Variables plus slash : ascii.
Abbreviation digit := (base64_digit plus slash).

Definition digit1 (a : Z) : ascii := digit (a / 4).
Definition digit2 (a b : Z) : ascii := digit (a mod 4 * 16 + b / 16).
Definition digit3 (b c : Z) : ascii := digit (b mod 16 * 4 + c / 64).
Definition digit4 (c : Z) : ascii := digit (c mod 64).

Fixpoint b64encode_with (s : string) : string :=
  match s with
  | EmptyString => EmptyString
  | String a EmptyString =>
      String (digit1 (code a)) (String (digit2 (code a) 0) "==")
  | String a (String b EmptyString) =>
      String (digit1 (code a)) (String (digit2 (code a) (code b)) (String (digit3 (code b) 0) "="))
  | String a (String b (String c s')) =>
      String (digit1 (code a)) (String (digit2 (code a) (code b))
        (String (digit3 (code b) (code c)) (String (digit4 (code c)) (b64encode_with s'))))
  end.
End Encode.

(** [base64.b64encode] and [base64.urlsafe_b64encode]. *)
Definition b64encode : string -> string := b64encode_with "+" "/".
Definition urlsafe_b64encode : string -> string := b64encode_with "-" "_".

(** [base64.urlsafe_b64decode]: [-] and [_] are read as [+] and [/]. *)
Definition urlsafe_char (c : ascii) : ascii :=
  if Ascii.eqb c "-" then "+"%char else if Ascii.eqb c "_" then "/"%char else c.
Definition urlsafe_b64decode (s : string) : res string := b64decode (str_map urlsafe_char s).

(** ** The round trip *)

(** What holds of the numbers below [n], by enumeration. *)
Lemma below_forallb (n : nat) (p : Z -> bool) :
  forallb p (map Z.of_nat (seq 0 n)) = true -> forall z, (0 <= z < Z.of_nat n)%Z -> p z = true.
Proof.
  intros H z Hz. rewrite forallb_forall in H. apply H, in_map_iff.
  exists (Z.to_nat z). split; [lia|]. apply in_seq. lia.
Qed.

Lemma code_bounds c : (0 <= code c < 256)%Z.
Proof. unfold code. pose proof (nat_ascii_bounded c). lia. Qed.

Lemma chr_code c : chr (code c) = c.
Proof. unfold chr, code. rewrite Nat2Z.id. apply ascii_nat_embedding. Qed.

Definition digit_ok (n : Z) : bool :=
  let d := urlsafe_char (base64_digit "-" "_" n) in
  negb (Ascii.eqb d "=") && match base64_value d with Some m => (m =? n)%Z | None => false end.

Lemma digit_read n :
  (0 <= n < 64)%Z ->
  Ascii.eqb (urlsafe_char (base64_digit "-" "_" n)) "=" = false
  /\ base64_value (urlsafe_char (base64_digit "-" "_" n)) = Some n.
Proof.
  intros Hn. assert (H : digit_ok n = true) by (apply (below_forallb 64); [by vm_compute|lia]).
  unfold digit_ok in H. apply andb_true_iff in H as [H1 H2].
  split; [by apply negb_true_iff|].
  destruct (base64_value _) as [m|]; [by apply Z.eqb_eq in H2 as ->|done].
Qed.

(** The bytes put together from their digits. *)
Lemma byte1 a b : (0 <= a < 256)%Z -> (0 <= b < 256)%Z ->
  Z.lor (Z.shiftl (a / 4) 2) (Z.shiftr (a mod 4 * 16 + b / 16) 4) = a.
Proof.
  intros Ha Hb. rewrite Z.shiftr_div_pow2 by lia.
  replace ((a mod 4 * 16 + b / 16) / 2 ^ 4)%Z with (a mod 4)%Z.
  - apply Z.eqb_eq. revert a Ha. apply (below_forallb 256). by vm_compute.
  - change (2 ^ 4)%Z with 16%Z. rewrite Z.div_add_l by lia.
    rewrite (Z.div_small (b / 16) 16); [lia|]. split; [apply Z.div_pos; lia|].
    apply Z.div_lt_upper_bound; lia.
Qed.

Lemma land_15_digit2 a b : (0 <= a < 256)%Z -> (0 <= b < 256)%Z ->
  Z.land (a mod 4 * 16 + b / 16) 15 = (b / 16)%Z.
Proof.
  intros Ha Hb. change 15%Z with (Z.ones 4). rewrite Z.land_ones by lia.
  change (2 ^ 4)%Z with 16%Z. rewrite Z.add_comm, Z.mod_add by lia. apply Z.mod_small.
  split; [apply Z.div_pos; lia|]. apply Z.div_lt_upper_bound; lia.
Qed.

Lemma byte2 b c : (0 <= b < 256)%Z -> (0 <= c < 256)%Z ->
  Z.lor (Z.shiftl (b / 16) 4) (Z.shiftr (b mod 16 * 4 + c / 64) 2) = b.
Proof.
  intros Hb Hc. rewrite Z.shiftr_div_pow2 by lia.
  replace ((b mod 16 * 4 + c / 64) / 2 ^ 2)%Z with (b mod 16)%Z.
  - apply Z.eqb_eq. revert b Hb. apply (below_forallb 256). by vm_compute.
  - change (2 ^ 2)%Z with 4%Z. rewrite Z.div_add_l by lia.
    rewrite (Z.div_small (c / 64) 4); [lia|]. split; [apply Z.div_pos; lia|].
    apply Z.div_lt_upper_bound; lia.
Qed.

Lemma land_3_digit3 b c : (0 <= b < 256)%Z -> (0 <= c < 256)%Z ->
  Z.land (b mod 16 * 4 + c / 64) 3 = (c / 64)%Z.
Proof.
  intros Hb Hc. change 3%Z with (Z.ones 2). rewrite Z.land_ones by lia.
  change (2 ^ 2)%Z with 4%Z. rewrite Z.add_comm, Z.mod_add by lia. apply Z.mod_small.
  split; [apply Z.div_pos; lia|]. apply Z.div_lt_upper_bound; lia.
Qed.

Lemma byte3 c : (0 <= c < 256)%Z -> Z.lor (Z.shiftl (c / 64) 6) (c mod 64) = c.
Proof. intros Hc. apply Z.eqb_eq. revert c Hc. apply (below_forallb 256). by vm_compute. Qed.

Lemma digits_bound a b :
  (0 <= a < 256)%Z -> (0 <= b < 256)%Z ->
  (0 <= a / 4 < 64)%Z /\ (0 <= a mod 4 * 16 + b / 16 < 64)%Z
  /\ (0 <= a mod 16 * 4 + b / 64 < 64)%Z /\ (0 <= a mod 64 < 64)%Z.
Proof.
  intros Ha Hb. pose proof (Z.mod_pos_bound a 4). pose proof (Z.mod_pos_bound a 16).
  pose proof (Z.mod_pos_bound a 64).
  pose proof (Z.div_pos b 16). pose proof (Z.div_pos b 64). pose proof (Z.div_pos a 4).
  pose proof (Z.div_lt_upper_bound b 16 16). pose proof (Z.div_lt_upper_bound b 64 4).
  pose proof (Z.div_lt_upper_bound a 4 64). lia.
Qed.

(** Reading one digit. *)
Lemma b64_go_digit total n s quad left pads :
  (0 <= n < 64)%Z ->
  b64_go total (String (urlsafe_char (base64_digit "-" "_" n)) s) quad left pads =
  match quad with
  | O => b64_go total s 1 n 0
  | S O => rest ← b64_go total s 2 (Z.land n 15) 0;
           Ok (String (chr (Z.lor (Z.shiftl left 2) (Z.shiftr n 4))) rest)
  | S (S O) => rest ← b64_go total s 3 (Z.land n 3) 0;
               Ok (String (chr (Z.lor (Z.shiftl left 4) (Z.shiftr n 2))) rest)
  | _ => rest ← b64_go total s 0 0 0;
         Ok (String (chr (Z.lor (Z.shiftl left 6) n)) rest)
  end.
Proof. intros [E1 E2]%digit_read. cbn [b64_go]. rewrite E1, E2. done. Qed.

Lemma b64_go_encode total n s :
  (String.length s <= n)%nat ->
  b64_go total (str_map urlsafe_char (urlsafe_b64encode s)) 0 0 0 = Ok s.
Proof.
  unfold urlsafe_b64encode. revert s. induction n as [|n IH]; intros [|a [|b [|c s]]] Hn; cbn in Hn; try lia;
    try reflexivity; cbn [b64encode_with str_map]; unfold digit1, digit2, digit3, digit4;
    pose proof (code_bounds a) as Ha.
  - destruct (digits_bound (code a) 0) as (?&?&_&_); [lia..|].
    rewrite !b64_go_digit by done. rewrite (land_15_digit2 (code a) 0) by lia. cbn.
    by rewrite (byte1 (code a) 0), chr_code by lia.
  - pose proof (code_bounds b) as Hb.
    destruct (digits_bound (code a) (code b)) as (?&?&_&_); [lia..|].
    destruct (digits_bound (code b) 0) as (_&_&?&_); [lia..|].
    rewrite !b64_go_digit by done. rewrite land_15_digit2, (land_3_digit3 (code b) 0) by lia.
    cbn [b64_go str_map]. cbn -[Z.lor Z.shiftl Z.shiftr Z.div Z.modulo].
    by rewrite byte1, (byte2 (code b) 0), !chr_code by lia.
  - pose proof (code_bounds b) as Hb. pose proof (code_bounds c) as Hc.
    destruct (digits_bound (code a) (code b)) as (?&?&_&_); [lia..|].
    destruct (digits_bound (code b) (code c)) as (_&_&?&_); [lia..|].
    destruct (digits_bound (code c) 0) as (_&_&_&?); [lia..|].
    rewrite !b64_go_digit by done. rewrite land_15_digit2, land_3_digit3 by lia.
    rewrite IH by lia. unfold mbind, res_bind. by rewrite byte1, byte2, byte3, !chr_code by lia.
Qed.

Lemma urlsafe_b64_roundtrip s : urlsafe_b64decode (urlsafe_b64encode s) = Ok s.
Proof.
  unfold urlsafe_b64decode, b64decode. by apply (b64_go_encode _ (String.length s)).
Qed.
