(* ===== verification/Json.v ===== *)
(** JSON, as [json.dumps] of the Standard Library writes it (the options [ensure_ascii] and
    [sort_keys], default separators) and [json.loads] reads it, with their round trip. *)

From stdpp Require Import pretty.

From S2P Require Import Prelude PyText PyFloat PyValue.

Local Open Scope string_scope.

Definition json_char (ensure_ascii : bool) (c : ascii) : string :=
  let n := code c in
  if Ascii.eqb c dquote then String "\" (str1 dquote)
  else if Ascii.eqb c "\" then "\\"
  else if (n =? 8)%Z then "\b" else if (n =? 9)%Z then "\t" else if (n =? 10)%Z then "\n"
  else if (n =? 12)%Z then "\f" else if (n =? 13)%Z then "\r"
  else if (n <? 32)%Z || (ensure_ascii && (126 <? n)%Z) then "\u00" ++ hex2 n
  else str1 c.

Fixpoint json_escape (ensure_ascii : bool) (s : string) : string :=
  match s with
  | EmptyString => EmptyString
  | String c s' => json_char ensure_ascii c ++ json_escape ensure_ascii s'
  end.

Definition json_string (ensure_ascii : bool) (s : string) : string :=
  str1 dquote ++ json_escape ensure_ascii s ++ str1 dquote.

Definition json_float (f : pyfloat) : string :=
  match f with
  | SpecFloat.S754_nan => "NaN"
  | SpecFloat.S754_infinity neg => if neg then "-Infinity" else "Infinity"
  | _ => float_repr f
  end.

Definition key_lt {A} (x y : string * A) : bool :=
  match String.compare x.1 y.1 with Lt => true | _ => false end.

Section Dumps.
Variables ensure_ascii sort_keys : bool.

Fixpoint json_text (v : pyval) : string :=
  match v with
  | PNone => "null"
  | PBool b => if b then "true" else "false"
  | PInt n => str_of_Z n
  | PFloat f => json_float f
  | PStr s => json_string ensure_ascii s
  | PList l => "[" ++ str_join ", " (map json_text l) ++ "]"
  | PDict d =>
      let fields := map (fun kv => (kv.1, json_text kv.2)) d in
      "{" ++ str_join ", " (map (fun kv => json_string ensure_ascii kv.1 ++ ": " ++ kv.2)
                              (if sort_keys then stable_sort key_lt fields else fields)) ++ "}"
  end.
End Dumps.

(** ** [json.loads]

    Texts are of characters below 256, so an escape of another character is an error here.
    An error is a [ValueError] without the position; the limits on nesting and on the
    length of integers are not modelled.  The fuel of the parser is the length of the text. *)

(** ** Reading *)

Definition decode_error {A} (msg : string) : res A := Raise (ValueError msg).

Definition is_json_space (c : ascii) : bool := existsb (Ascii.eqb c) [" "; "009"; "010"; "013"]%char.
Definition skip_space (s : string) : string := lstrip_by is_json_space s.

Definition hex_value (c : ascii) : option Z :=
  if is_digit c then Some (code c - 48)%Z
  else if in_range 97 102 c then Some (code c - 87)%Z
  else if in_range 65 70 c then Some (code c - 55)%Z else None.
(** The character of [\u] and four hexadecimal digits. *)
Definition unicode_escape (s : string) : res (ascii * string) :=
  match s with
  | String a (String b (String c (String d rest))) =>
      match hex_value a, hex_value b, hex_value c, hex_value d with
      | Some 0%Z, Some 0%Z, Some hi, Some lo => Ok (chr (hi * 16 + lo), rest)
      | Some _, Some _, Some _, Some _ => decode_error "character outside the model"
      | _, _, _, _ => decode_error "Invalid \uXXXX escape"
      end
  | _ => decode_error "Invalid \uXXXX escape"
  end.
Definition simple_escape (c : ascii) : option ascii :=
  if Ascii.eqb c dquote then Some dquote
  else if Ascii.eqb c "\" then Some "\"%char
  else if Ascii.eqb c "/" then Some "/"%char
  else if Ascii.eqb c "b" then Some "008"%char
  else if Ascii.eqb c "f" then Some "012"%char
  else if Ascii.eqb c "n" then Some "010"%char
  else if Ascii.eqb c "r" then Some "013"%char
  else if Ascii.eqb c "t" then Some "009"%char else None.

(** A text after its opening quote. *)
Fixpoint scan_string (fuel : nat) (s : string) : res (string * string) :=
  match fuel with
  | O => decode_error "out of fuel"
  | S fuel =>
      match s with
      | EmptyString => decode_error "Unterminated string"
      | String c rest =>
          if Ascii.eqb c dquote then Ok ("", rest)
          else if Ascii.eqb c "\" then
            match rest with
            | EmptyString => decode_error "Unterminated string"
            | String e rest' =>
                if Ascii.eqb e "u" then
                  cr ← unicode_escape rest';
                  tr ← scan_string fuel (cr : ascii * string).2;
                  Ok (String cr.1 (tr : string * string).1, tr.2)
                else match simple_escape e with
                     | None => decode_error "Invalid \escape"
                     | Some x => tr ← scan_string fuel rest'; Ok (String x (tr : string * string).1, tr.2)
                     end
            end
          else if (code c <? 32)%Z then decode_error "Invalid control character at"
          else tr ← scan_string fuel rest; Ok (String c (tr : string * string).1, tr.2)
      end
  end.

Fixpoint span (p : ascii -> bool) (s : string) : string * string :=
  match s with
  | String c s' => if p c then let '(a, b) := span p s' in (String c a, b) else ("", s)
  | EmptyString => ("", "")
  end.

(** A number: an integer part without leading zeros, a fraction, an exponent. *)
Definition scan_fraction (s : string) : string * string :=
  match s with
  | String "." rest => match span is_digit rest with ("", _) => ("", s) | (d, r) => ("." ++ d, r) end
  | _ => ("", s)
  end.
Definition scan_exponent (s : string) : string * string :=
  match s with
  | String e rest =>
      if Ascii.eqb (lower_char e) "e" then
        let '(sign, rest') := match rest with
                              | String c r => if Ascii.eqb c "+" || Ascii.eqb c "-" then (str1 c, r) else ("", rest)
                              | EmptyString => ("", rest)
                              end in
        match span is_digit rest' with ("", _) => ("", s) | (d, r) => (String e (sign ++ d), r) end
      else ("", s)
  | EmptyString => ("", s)
  end.
Definition scan_number (s : string) : res (pyval * string) :=
  let '(sign, t) := match s with String "-" t => ("-", t) | _ => ("", s) end in
  let '(digits, rest) := match t with
                         | String "0" r => ("0", r)
                         | _ => span is_digit t
                         end in
  if String.eqb digits "" then decode_error "Expecting value"
  else
    let '(fraction, rest) := scan_fraction rest in
    let '(exponent, rest) := scan_exponent rest in
    match fraction, exponent with
    | "", "" => match parse_int (sign ++ digits) with Some n => Ok (PInt n, rest) | None => decode_error "Expecting value" end
    | _, _ => match parse_float (sign ++ digits ++ fraction ++ exponent) with
              | Some f => Ok (PFloat f, rest)
              | None => decode_error "Expecting value"
              end
    end.

Definition constants : list (string * pyval) :=
  [("null", PNone); ("true", PBool true); ("false", PBool false); ("NaN", PFloat SpecFloat.S754_nan);
   ("Infinity", PFloat (SpecFloat.S754_infinity false)); ("-Infinity", PFloat (SpecFloat.S754_infinity true))].
Definition scan_atom (s : string) : res (pyval * string) :=
  match List.find (fun kv => starts_with kv.1 s) constants with
  | Some (k, v) => Ok (v, str_drop (String.length k) s)
  | None => scan_number s
  end.

Fixpoint scan_value (fuel : nat) (s : string) : res (pyval * string) :=
  match fuel with
  | O => decode_error "out of fuel"
  | S fuel =>
      match s with
      | EmptyString => decode_error "Expecting value"
      | String c rest =>
          if Ascii.eqb c dquote then tr ← scan_string (S (String.length rest)) rest; Ok (PStr (tr : string * string).1, tr.2)
          else if Ascii.eqb c "{" then
            match skip_space rest with
            | String "}" r => Ok (PDict [], r)
            | r => dr ← scan_fields fuel r; Ok (PDict (dict_of (dr : dict * string).1), dr.2)
            end
          else if Ascii.eqb c "[" then
            match skip_space rest with
            | String "]" r => Ok (PList [], r)
            | r => lr ← scan_items fuel r; Ok (PList (lr : list pyval * string).1, lr.2)
            end
          else scan_atom s
      end
  end
with scan_fields (fuel : nat) (s : string) : res (dict * string) :=
  match fuel with
  | O => decode_error "out of fuel"
  | S fuel =>
      match s with
      | String c rest =>
          if Ascii.eqb c dquote then
            kr ← scan_string (S (String.length rest)) rest;
            match skip_space (kr : string * string).2 with
            | String ":" r =>
                vr ← scan_value fuel (skip_space r);
                match skip_space (vr : pyval * string).2 with
                | String "}" r' => Ok ([(kr.1, vr.1)], r')
                | String "," r' => dr ← scan_fields fuel (skip_space r'); Ok ((kr.1, vr.1) :: (dr : dict * string).1, dr.2)
                | _ => decode_error "Expecting ',' delimiter"
                end
            | _ => decode_error "Expecting ':' delimiter"
            end
          else decode_error "Expecting property name enclosed in double quotes"
      | EmptyString => decode_error "Expecting property name enclosed in double quotes"
      end
  end
with scan_items (fuel : nat) (s : string) : res (list pyval * string) :=
  match fuel with
  | O => decode_error "out of fuel"
  | S fuel =>
      vr ← scan_value fuel s;
      match skip_space (vr : pyval * string).2 with
      | String "]" r => Ok ([vr.1], r)
      | String "," r => lr ← scan_items fuel (skip_space r); Ok (vr.1 :: (lr : list pyval * string).1, lr.2)
      | _ => decode_error "Expecting ',' delimiter"
      end
  end.

(** [json.loads]. *)
Definition json_loads (s : string) : res pyval :=
  vr ← scan_value (S (String.length s)) (skip_space s);
  match skip_space (vr : pyval * string).2 with
  | EmptyString => Ok vr.1
  | _ => decode_error "Extra data"
  end.


(** ** The round trip *)

(** Values without floats, of which the text alone tells. *)
Fixpoint no_float (v : pyval) : bool :=
  match v with
  | PFloat _ => false
  | PList l => forallb no_float l
  | PDict d => forallb (fun kv => no_float kv.2) d
  | _ => true
  end.

(** What follows a value in a text. *)
Definition ends_value (rest : string) : bool :=
  match rest with EmptyString => true | String c _ => existsb (Ascii.eqb c) [","; "]"; "}"]%char end.

Lemma scan_json_char ea c fuel t :
  scan_string (S fuel) (json_char ea c ++ t) = tr ← scan_string fuel t; Ok (String c (tr : string * string).1, tr.2).
Proof. destruct ea; by destruct c as [[] [] [] [] [] [] [] []]. Qed.

Lemma scan_escaped ea s : forall fuel rest,
  (String.length s < fuel)%nat -> scan_string fuel (json_escape ea s ++ String dquote rest) = Ok (s, rest).
Proof.
  induction s as [|c s IH]; intros [|fuel] rest Hf; cbn in Hf; try lia; [done|].
  cbn [json_escape]. rewrite <-str_app_assoc, scan_json_char, IH by lia. done.
Qed.

Lemma escape_length ea s : (String.length s <= String.length (json_escape ea s))%nat.
Proof.
  induction s as [|c s IH]; cbn; [lia|]. rewrite str_app_length.
  assert (1 <= String.length (json_char ea c))%nat by (destruct ea; destruct c as [[] [] [] [] [] [] [] []]; vm_compute; lia). cbn [String.length]. lia.
Qed.

(** A text with its quotes, read from its opening quote. *)
Lemma scan_json_string ea s rest :
  scan_string (S (String.length (json_escape ea s ++ String dquote rest))) (json_escape ea s ++ String dquote rest) = Ok (s, rest).
Proof. apply scan_escaped. rewrite str_app_length. pose proof (escape_length ea s). lia. Qed.

Lemma json_string_app ea s rest : (json_string ea s ++ rest)%string = String dquote (json_escape ea s ++ String dquote rest).
Proof. unfold json_string. cbn. by rewrite <-str_app_assoc. Qed.

Lemma span_digits d rest : str_forall is_digit d = true -> ends_value rest = true -> span is_digit (d ++ rest) = (d, rest).
Proof.
  intros Hd Hr. induction d as [|c d IH]; cbn.
  - destruct rest as [|c rest]; [done|]. cbn in *.
    destruct (Ascii.eqb_spec c ","); [by subst|]. destruct (Ascii.eqb_spec c "]"); [by subst|].
    by destruct (Ascii.eqb_spec c "}"); [subst|].
  - cbn in Hd. apply andb_prop in Hd as [-> Hd]. by rewrite IH.
Qed.

Lemma no_fraction rest : ends_value rest = true -> scan_fraction rest = ("", rest) /\ scan_exponent rest = ("", rest).
Proof.
  destruct rest as [|c rest]; [done|]. cbn [ends_value existsb]. intros H.
  destruct (Ascii.eqb_spec c ","); [by subst|]. destruct (Ascii.eqb_spec c "]"); [by subst|].
  by destruct (Ascii.eqb_spec c "}"); [subst|].
Qed.

(** The digits of a positive number do not start with a zero. *)
Lemma pretty_go_head (x : N) : (0 < x)%N -> forall s, exists c t, pretty_N_go x s = String c t /\ is_digit c = true /\ c <> "0"%char.
Proof.
  induction (N.lt_wf_0 x) as [x _ IH]; intros Hx s. rewrite pretty_N_go_step by done.
  pose proof (N.div_mod x 10 ltac:(lia)) as Hdm. pose proof (N.mod_upper_bound x 10 ltac:(lia)) as Hm.
  destruct (decide (x `div` 10 = 0)%N) as [H0|Hn0].
  - rewrite H0, pretty_N_go_0. destruct (pretty_char_digit (x `mod` 10) Hm) as [Hd Hc].
    eexists _, _. split_and!; [done|done|]. intros E. rewrite E in Hc. change (code "0"%char) with 48%Z in Hc. lia.
  - apply IH; [apply N.div_lt; lia|lia].
Qed.

Lemma pretty_head (x : N) : exists c t, pretty x = String c t /\ is_digit c = true.
Proof.
  unfold pretty, pretty_N. case_decide; [by exists "0"%char, ""|].
  destruct (pretty_go_head x ltac:(lia) "") as (c & t & E & Hc & _). eauto.
Qed.

Lemma scan_natural (sign : string) (x : N) rest :
  ends_value rest = true -> (sign = "" \/ sign = "-") -> (sign = "-" -> x <> 0%N) ->
  scan_number (sign ++ pretty x ++ rest) = Ok (PInt (if String.eqb sign "-" then - Z.of_N x else Z.of_N x), rest).
Proof.
  intros Hr Hs Hz. pose proof (no_fraction rest Hr) as [Hf He].
  assert (Hdigits : (match (pretty x ++ rest)%string with String "0" r => ("0", r) | _ => span is_digit (pretty x ++ rest) end)
                    = (pretty x, rest)).
  { destruct (decide (x = 0)%N) as [->|Hx]; [done|].
    pose proof (span_digits (pretty x) rest (pretty_N_digits x) Hr) as Hspan.
    assert (Hhead : exists c t, pretty x = String c t /\ c <> "0"%char).
    { unfold pretty, pretty_N. rewrite decide_False by done. destruct (pretty_go_head x ltac:(lia) "") as (c & t & E & _ & Hc). eauto. }
    destruct Hhead as (c & t & E & Hc). rewrite E in *. cbn [String.append] in *.
    destruct c as [[] [] [] [] [] [] [] []]; try exact Hspan. done. }
  assert (Hne : String.eqb (pretty x) "" = false).
  { destruct (String.eqb_spec (pretty x) "") as [E|]; [|done]. pose proof (digits_value_pretty x) as H. by rewrite E in H. }
  assert (Hint : forall sign', sign' = sign -> parse_int (sign' ++ pretty x) = Some (if String.eqb sign "-" then - Z.of_N x else Z.of_N x)%Z).
  { intros sign' ->. rewrite <-(parse_int_str_of_Z (if String.eqb sign "-" then - Z.of_N x else Z.of_N x)).
    f_equal. unfold str_of_Z. destruct Hs as [->| ->]; cbn.
    - unfold pretty at 2, pretty_Z. by destruct x.
    - specialize (Hz eq_refl). by destruct x. }
  assert (Hsign : (match (sign ++ pretty x ++ rest)%string with String "-" t => ("-", t) | _ => ("", (sign ++ pretty x ++ rest)%string) end)
                  = (sign, (pretty x ++ rest)%string)).
  { destruct Hs as [->| ->]; [|done]. destruct (pretty_head x) as (c & t & -> & Hc). cbn [String.append].
    by destruct c as [[] [] [] [] [] [] [] []]. }
  unfold scan_number. rewrite Hsign, Hdigits, Hne, Hf, He. by rewrite (Hint sign eq_refl).
Qed.

Lemma scan_int n rest : ends_value rest = true -> scan_number (str_of_Z n ++ rest) = Ok (PInt n, rest).
Proof.
  intros Hr. unfold str_of_Z. destruct n as [|p|p].
  - exact (scan_natural "" 0 rest Hr (or_introl eq_refl) ltac:(discriminate)).
  - exact (scan_natural "" (Npos p) rest Hr (or_introl eq_refl) ltac:(discriminate)).
  - exact (scan_natural "-" (Npos p) rest Hr (or_intror eq_refl) ltac:(discriminate)).
Qed.

Section texts.
Variable ea : bool.
Abbreviation text := (json_text ea false).
Abbreviation field_text := (fun kv : string * pyval => (json_string ea kv.1 ++ ": " ++ text kv.2)%string).

Lemma json_text_dict d : text (PDict d) = ("{" ++ str_join ", " (map field_text d) ++ "}")%string.
Proof. cbn. by rewrite map_map. Qed.

Lemma int_head n : exists c t, str_of_Z n = String c t /\ (is_digit c = true \/ c = "-"%char).
Proof.
  unfold str_of_Z. destruct n as [|p|p].
  - exists "0"%char, "". eauto.
  - destruct (pretty_head (Npos p)) as (c & t & E & Hc). exists c, t. eauto.
  - exists "-"%char, (pretty (Npos p)). eauto.
Qed.

(** The first character of a value. *)
Lemma json_text_head v :
  no_float v = true -> exists c t, text v = String c t /\ is_json_space c = false /\ c <> "]"%char /\ c <> "}"%char.
Proof.
  destruct v as [|[]|n|f|s|l|d]; intros Hv; try done; try by (eexists _, _; split_and!; [reflexivity|done..]).
  destruct (int_head n) as (c & t & E & Hc). exists c, t. split_and!; [done|..].
  all: destruct Hc as [Hc| ->]; [|done]. all: by destruct c as [[] [] [] [] [] [] [] []].
Qed.

Lemma skip_space_text v rest :
  no_float v = true -> skip_space (text v ++ rest) = (text v ++ rest)%string.
Proof.
  intros (c & t & -> & Hc & _)%json_text_head. unfold skip_space. cbn [String.append lstrip_by]. by rewrite Hc.
Qed.

Lemma scan_atom_int n rest : ends_value rest = true -> scan_atom (str_of_Z n ++ rest) = Ok (PInt n, rest).
Proof.
  intros Hr. unfold scan_atom.
  assert (E : List.find (fun kv => starts_with kv.1 (str_of_Z n ++ rest)) constants = None).
  { unfold str_of_Z. destruct n as [|p|p]; [done| |].
    - destruct (pretty_head (Npos p)) as (c & t & E & Hc). change (pretty (Zpos p)) with (pretty (Npos p)). rewrite E. cbn [String.append].
      by destruct c as [[] [] [] [] [] [] [] []].
    - destruct (pretty_head (Npos p)) as (c & t & E & Hc). change (pretty (Zneg p)) with ("-" ++ pretty (Npos p))%string. rewrite E. cbn [String.append].
      by destruct c as [[] [] [] [] [] [] [] []]. }
  rewrite E. by apply scan_int.
Qed.

(** A value is read back, whatever follows it. *)
Definition reads_back (v : pyval) : Prop := forall fuel rest,
  (String.length (text v) < fuel)%nat -> ends_value rest = true -> scan_value fuel (text v ++ rest) = Ok (v, rest).

Lemma skip_space_items v l rest :
  no_float v = true -> skip_space (str_join ", " (map text (v :: l)) ++ rest) = (str_join ", " (map text (v :: l)) ++ rest)%string.
Proof.
  intros Hv. destruct l as [|w l]; [by apply skip_space_text|].
  change (str_join ", " (map text (v :: w :: l))) with (text v ++ ", " ++ str_join ", " (map text (w :: l)))%string.
  rewrite <-str_app_assoc. by apply skip_space_text.
Qed.

Lemma scan_items_text l : Forall reads_back l -> forallb no_float l = true -> l <> [] -> forall fuel rest,
  (String.length (str_join ", " (map text l)) + 1 < fuel)%nat ->
  scan_items fuel (str_join ", " (map text l) ++ String "]" rest) = Ok (l, rest).
Proof.
  induction l as [|v l IH]; [done|]. intros [Hv Hl]%Forall_cons_iff [Hn Hnl]%andb_prop _ fuel rest Hf.
  destruct fuel as [|fuel]; [lia|]. destruct l as [|w l].
  - cbn [map str_join] in *. cbn [scan_items]. by rewrite Hv by (done || lia).
  - assert (Hj : str_join ", " (map text (v :: w :: l)) = (text v ++ String "," (String " " (str_join ", " (map text (w :: l)))))%string) by done.
    rewrite Hj in *. rewrite str_app_length in Hf. cbn [String.length] in Hf.
    rewrite <-str_app_assoc. cbn [String.append scan_items]. rewrite Hv by (done || lia).
    cbn [mbind res_bind fst snd]. change (skip_space (String "," ?r)) with (String "," r). cbv iota.
    change (skip_space (String " " ?r)) with (skip_space r).
    pose proof Hnl as [Hw _]%andb_prop. rewrite skip_space_items by done. by rewrite IH by (done || lia).
Qed.

Lemma scan_fields_text d : Forall (fun kv => reads_back kv.2) d -> forallb (fun kv => no_float kv.2) d = true -> d <> [] -> forall fuel rest,
  (String.length (str_join ", " (map field_text d)) + 1 < fuel)%nat ->
  scan_fields fuel (str_join ", " (map field_text d) ++ String "}" rest) = Ok (d, rest).
Proof.
  induction d as [|[k v] d IH]; [done|]. intros [Hv Hl]%Forall_cons_iff [Hn Hnl]%andb_prop _ fuel rest Hf.
  cbn [snd] in *. destruct fuel as [|fuel]; [lia|].
  assert (Hstep : forall tail, ends_value tail = true -> (String.length (text v) < fuel)%nat ->
    scan_fields (S fuel) ((json_string ea k ++ ": " ++ text v) ++ tail)
    = match skip_space tail with
      | String "}" r' => Ok ([(k, v)], r')
      | String "," r' => dr ← scan_fields fuel (skip_space r'); Ok ((k, v) :: (dr : dict * string).1, dr.2)
      | _ => decode_error "Expecting ',' delimiter"
      end).
  { intros tail Ht Hlen. rewrite <-!str_app_assoc, json_string_app. cbn [scan_fields]. rewrite Ascii.eqb_refl, scan_json_string.
    cbn [mbind res_bind fst snd String.append].
    change (skip_space (String ":" ?r)) with (String ":" r). cbv iota.
    change (skip_space (String " " ?r)) with (skip_space r). rewrite skip_space_text by done. by rewrite Hv. }
  destruct d as [|[k' v'] d].
  - cbn [map str_join fst snd] in *. rewrite !str_app_length in Hf. cbn [String.length] in Hf. rewrite Hstep by (done || lia). done.
  - assert (Hj : str_join ", " (map field_text ((k, v) :: (k', v') :: d))
                 = ((json_string ea k ++ ": " ++ text v) ++ String "," (String " " (str_join ", " (map field_text ((k', v') :: d)))))%string) by done.
    rewrite Hj in *. rewrite !str_app_length in Hf. cbn [String.length] in Hf.
    rewrite <-str_app_assoc. rewrite Hstep by (done || lia).
    change (String "," (String " " ?a) ++ ?b)%string with (String "," (String " " (a ++ b)%string)).
    change (skip_space (String "," ?r)) with (String "," r).
    cbv iota. change (skip_space (String " " ?r)) with (skip_space r).
    assert (Hskip : skip_space (str_join ", " (map field_text ((k', v') :: d)) ++ String "}" rest)
                    = (str_join ", " (map field_text ((k', v') :: d)) ++ String "}" rest)%string).
    { destruct d; cbn [map str_join fst snd]; rewrite <-!str_app_assoc, json_string_app; done. }
        rewrite Hskip. by rewrite IH by (done || lia).
Qed.

Lemma dict_of_distinct (d : dict) : NoDup (dkeys d) -> dict_of d = d.
Proof.
  intros Hnd. unfold dict_of. change d with ([] ++ d)%list at 2. assert (H : NoDup (dkeys ([] ++ d)%list)) by done. revert H.
  clear Hnd. generalize (@nil (string * pyval)) as acc. induction d as [|[k v] d IH]; intros acc H; cbn; [by rewrite app_nil_r|].
  assert (Hset : dset k v acc = (acc ++ [(k, v)])%list).
  { assert (Hk : k ∉ dkeys acc).
    { unfold dkeys in *. rewrite map_app in H. cbn in H. apply list.NoDup_app in H as (_ & H & _). intros Hin. apply (H k Hin). left. }
    clear -Hk. induction acc as [|[k' v'] acc IH]; cbn; [done|]. cbn in Hk. apply not_elem_of_cons in Hk as [Hne Hk].
    destruct (String.eqb_spec k k'); [done|]. by rewrite IH. }
  unfold dmerge in *. cbn. rewrite Hset, IH; [by rewrite <-app_assoc|]. by rewrite <-app_assoc.
Qed.

Lemma text_reads_back v : wf_val v = true -> no_float v = true -> reads_back v.
Proof.
  induction v as [|b|n|f|s|l IHl|d IHd] using pyval_nested_ind; intros Hwf Hnf fuel rest Hlen Hr; try done.
  all: destruct fuel as [|fuel]; [lia|].
  - done.
  - by destruct b.
  - destruct (int_head n) as (c & t & E & Hc).
    assert (E' : scan_value (S fuel) (text (PInt n) ++ rest) = scan_atom (str_of_Z n ++ rest)).
    { change (text (PInt n)) with (str_of_Z n). rewrite E. cbn [String.append]. destruct Hc as [Hc| ->]; [|done].
      by destruct c as [[] [] [] [] [] [] [] []]. }
    rewrite E'. by apply scan_atom_int.
  - change (text (PStr s)) with (json_string ea s). rewrite json_string_app. cbn [scan_value]. rewrite Ascii.eqb_refl. by rewrite scan_json_string.
  - destruct l as [|v l]; [done|]. cbn [wf_val no_float] in Hwf, Hnf.
    assert (Hall : Forall reads_back (v :: l)).
    { apply Forall_forall. intros x Hx. apply (proj1 (Forall_forall _ _) IHl x Hx).
      - exact (proj1 (forallb_forall _ _) Hwf x Hx).
      - exact (proj1 (forallb_forall _ _) Hnf x Hx). }
    assert (Ht : text (PList (v :: l)) = String "[" (str_join ", " (map text (v :: l)) ++ "]")) by done.
    rewrite Ht in *. cbn [String.length] in Hlen. rewrite str_app_length in Hlen. cbn [String.length] in Hlen.
    cbn [String.append]. rewrite <-str_app_assoc. cbn [String.append scan_value Ascii.eqb Bool.eqb].
    pose proof Hnf as [Hv _]%andb_prop. rewrite skip_space_items by done.
    destruct (json_text_head v Hv) as (c & t & Ehead & _ & Hne & _).
    assert (Hshape : exists t', (str_join ", " (map text (v :: l)) ++ String "]" rest)%string = String c t').
    { destruct l; cbn [map str_join]; rewrite Ehead; cbn [String.append]; eauto. }
    destruct Hshape as [t' Hshape]. rewrite <-Hshape || idtac.
    pose proof (scan_items_text (v :: l) Hall Hnf ltac:(done) fuel rest ltac:(lia)) as Hscan. rewrite Hshape in *.
    destruct c as [[] [] [] [] [] [] [] []]; try (by rewrite Hscan). done.
  - destruct d as [|[k v] d]; [done|]. cbn [wf_val no_float] in Hwf, Hnf. apply andb_prop in Hwf as [Hnd Hwf].
    apply bool_decide_eq_true in Hnd.
    assert (Hall : Forall (fun kv => reads_back kv.2) ((k, v) :: d)).
    { apply Forall_forall. intros x Hx. apply (proj1 (Forall_forall _ _) IHd x Hx).
      - exact (proj1 (forallb_forall _ _) Hwf x Hx).
      - exact (proj1 (forallb_forall _ _) Hnf x Hx). }
    pose proof (scan_fields_text ((k, v) :: d) Hall Hnf ltac:(done)) as Hscan.
    assert (Hshape : exists t', (str_join ", " (map field_text ((k, v) :: d)) ++ String "}" rest)%string = String dquote t').
    { destruct d; cbn [map str_join fst snd]; rewrite <-!str_app_assoc, json_string_app; eauto. }
    rewrite json_text_dict in *. revert Hlen Hscan Hshape. generalize (str_join ", " (map field_text ((k, v) :: d))).
    intros body Hlen Hscan [t' Hshape].
    cbn [String.append String.length] in Hlen. rewrite str_app_length in Hlen. cbn [String.length] in Hlen.
    specialize (Hscan fuel rest ltac:(lia)). rewrite Hshape in Hscan.
    cbn [String.append]. rewrite <-str_app_assoc. cbn [String.append]. rewrite Hshape.
    change (scan_value (S fuel) (String "{" (String dquote t')))
      with (dr ← scan_fields fuel (String dquote t'); Ok (PDict (dict_of (dr : dict * string).1), dr.2)).
    rewrite Hscan.
    cbn [mbind res_bind fst snd]. by rewrite dict_of_distinct.
Qed.

(** What [json.dumps] writes of a value without floats, [json.loads] reads as that value. *)
Theorem loads_dumps v : wf_val v = true -> no_float v = true -> json_loads (text v) = Ok v.
Proof.
  intros Hwf Hnf. unfold json_loads.
  pose proof (skip_space_text v "" Hnf) as Hs. rewrite !str_app_nil_r in Hs. rewrite Hs.
  pose proof (text_reads_back v Hwf Hnf (S (String.length (text v))) "" ltac:(lia) eq_refl) as Hr. rewrite str_app_nil_r in Hr.
  by rewrite Hr.
Qed.
End texts.

Example loads_values : json_loads " [1, -2.5e1, null ,true, {} ]" =
  Ok (PList [PInt 1; PFloat (SpecFloat.S754_finite true 7036874417766400 (-48)); PNone; PBool true; PDict []]).
Proof. by vm_compute. Qed.
Example loads_errors : map json_loads [""; "[1,]"; "01"; "nul"] =
  [decode_error "Expecting value"; decode_error "Expecting value"; decode_error "Extra data"; decode_error "Expecting value"].
Proof. by vm_compute. Qed.
