(* ===== verification/Paths.v ===== *)
(** Dotted field paths of the workflow engine: [_get_nested],
    [_get_nested_array], [_set_nested] and [_set_nested_array] of
    [platform/core/workflow_engine.py]. *)

From S2P Require Import Prelude PyText PyValue.

Local Open Scope string_scope.

(** ** Reading *)

(** The loop of [_get_nested] over the parts of a key. *)
Fixpoint walk_parts (current : pyval) (parts : list string) : pyval :=
  match parts with
  | [] => current
  | part :: parts' =>
      match current with
      | PDict d => walk_parts (dget_or part PNone d) parts'
      | PList l =>
          match parse_int part with
          | Some i =>
              match py_index l i with
              | Some v => walk_parts v parts'
              | None => PNone
              end
          | None => PNone
          end
      | _ => PNone
      end
  end.

Definition strip_dot (s : string) : string :=
  match s with String "." s' => s' | _ => s end.

(** [(array_path, rest)] when the key holds ["[]"]. *)
Definition split_brackets (key : string) : option (string * string) :=
  match str_find "[]" key with
  | Some pos => Some (str_take pos key, strip_dot (str_drop (pos + 2) key))
  | None => None
  end.

(** [_get_nested] together with [_get_nested_array]; the keys of the recursive
    calls are shorter, so the length of the key is enough fuel. *)
Fixpoint get_nested_go (fuel : nat) (data : pyval) (key : string) : pyval :=
  match split_brackets key with
  | None => walk_parts data (split_char "." key)
  | Some (array_path, rest) =>
      match fuel with
      | O => PNone
      | S fuel' =>
          let arr := if String.eqb array_path "" then data
                     else get_nested_go fuel' data array_path in
          match arr with
          | PList items =>
              if String.eqb rest "" then arr
              else PList (map (fun item => get_nested_go fuel' item rest) items)
          | _ => PNone
          end
      end
  end.

Definition get_nested (data : pyval) (key : string) : pyval :=
  get_nested_go (String.length key) data key.

(** ** Writing *)

(** [part in current] followed by a subscript, on something that is not a dict. *)
Definition not_a_dict (part : string) (current : pyval) : pyexn :=
  TypeError
    match current with
    | PStr s => if str_contains part s then "string indices must be integers, not 'str'"
                else "'str' object does not support item assignment"
    | PList _ => "list indices must be integers or slices, not str"
    | _ => "argument of type '" ++ type_name current ++ "' is not iterable"
    end.

(** [current[key] = value] on something that is not a dict. *)
Definition no_item_assignment (current : pyval) : pyexn :=
  TypeError
    match current with
    | PList _ => "list indices must be integers or slices, not str"
    | _ => "'" ++ type_name current ++ "' object does not support item assignment"
    end.

(** The descent through [parts[:-1]], creating missing dicts, then [f] on the
    container reached. *)
Fixpoint at_path (parts : list string) (f : pyval -> res pyval) (current : pyval) : res pyval :=
  match parts with
  | [] => f current
  | part :: parts' =>
      match current with
      | PDict d =>
          sub ← at_path parts' f (dget_or part (PDict []) d);
          Ok (PDict (dset part sub d))
      | _ => Raise (not_a_dict part current)
      end
  end.

(** What [concat] does with a value already at the final key. *)
Definition concat_value (existing value : pyval) : pyval :=
  match existing with
  | PList l => PList (l ++ match value with PList m => m | _ => [value] end)
  | _ => PStr (py_str value ++ " " ++ py_str existing)
  end.

Definition set_final (concat : bool) (final_key : string) (value : pyval) (current : pyval)
  : res pyval :=
  match current with
  | PDict d =>
      let v := match dget final_key d with
               | Some existing => if concat then concat_value existing value else value
               | None => value
               end in
      Ok (PDict (dset final_key v d))
  | _ => Raise (if concat then not_a_dict final_key current else no_item_assignment current)
  end.

Definition as_values (value : pyval) : list pyval :=
  match value with PList l => l | _ => [value] end.

(** [for i, v in enumerate(value): ...] over an array already padded. *)
Fixpoint fill_array (elem : pyval -> pyval -> res pyval) (arr vals : list pyval)
  : res (list pyval) :=
  match vals, arr with
  | v :: vals', a :: arr' =>
      a' ← elem a v; rest ← fill_array elem arr' vals'; Ok (a' :: rest)
  | _, _ => Ok arr
  end.

Definition pad_array (arr : list pyval) (n : nat) : list pyval :=
  (arr ++ repeat (PDict []) (n - List.length arr))%list.

(** The array stored under [arr_key], or a new one. *)
Definition existing_array (arr_key : string) (d : dict) : list pyval :=
  match dget arr_key d with Some (PList l) => l | _ => [] end.

Definition set_array_at (elem : pyval -> pyval -> res pyval) (arr_key : string)
    (value : pyval) (current : pyval) : res pyval :=
  if String.eqb arr_key "" then Ok current
  else match current with
       | PDict d =>
           let vals := as_values value in
           arr ← fill_array elem
                   (pad_array (existing_array arr_key d) (List.length vals)) vals;
           Ok (PDict (dset arr_key (PList arr) d))
       | _ => Raise (not_a_dict arr_key current)
       end.

(** [_set_nested] together with [_set_nested_array]. *)
Fixpoint set_nested_go (fuel : nat) (data : pyval) (key : string) (value : pyval)
    (concat : bool) : res pyval :=
  match split_brackets key with
  | None =>
      let parts := split_char "." key in
      at_path (removelast parts) (set_final concat (List.last parts "") value) data
  | Some (array_path, rest) =>
      let parts := if String.eqb array_path "" then [] else split_char "." array_path in
      let elem := fun a v =>
        if String.eqb rest "" then Ok v
        else match fuel with
             | O => Ok a
             | S fuel' =>
                 set_nested_go fuel' (match a with PDict _ => a | _ => PDict [] end) rest v false
             end in
      at_path (removelast parts) (set_array_at elem (List.last parts "") value) data
  end.

Definition set_nested (data : dict) (key : string) (value : pyval) (concat : bool) : res dict :=
  match set_nested_go (String.length key) (PDict data) key value concat with
  | Ok (PDict d) => Ok d
  | Ok _ => Ok data
  | Raise e => Raise e
  end.

(** ** Splitting a key *)

Lemma strip_dot_length s : (String.length (strip_dot s) <= String.length s)%nat.
Proof.
  unfold strip_dot. destruct s as [|a s]; [done|]. simpl.
  destruct a as [[] [] [] [] [] [] [] []]; simpl; lia.
Qed.

Lemma split_brackets_shorter key p r :
  split_brackets key = Some (p, r) ->
  (String.length p < String.length key /\ String.length r < String.length key)%nat.
Proof.
  unfold split_brackets. destruct (str_find "[]" key) as [pos|] eqn:E; [|done].
  intros [= <- <-]. apply str_find_length in E. simpl in E.
  pose proof (str_take_length pos key).
  pose proof (strip_dot_length (str_drop (pos + 2) key)) as Hs.
  rewrite str_drop_length in Hs. lia.
Qed.

(** Any fuel at least the length of the key gives the same result. *)
Lemma get_nested_go_fuel key : forall n m data,
  (String.length key <= n)%nat -> (String.length key <= m)%nat ->
  get_nested_go n data key = get_nested_go m data key.
Proof.
  remember (String.length key) as len eqn:Hlen.
  revert key Hlen. induction (lt_wf len) as [len _ IH]; intros key Hlen n m data Hn Hm.
  destruct n as [|n], m as [|m]; simpl;
    destruct (split_brackets key) as [[p r]|] eqn:E; try done;
    apply split_brackets_shorter in E as [Hp Hr]; try lia.
  rewrite (IH (String.length p) ltac:(lia) p eq_refl n m data) by lia.
  destruct (if String.eqb p "" then data else get_nested_go m data p); try done.
  destruct (String.eqb r ""); [done|]. f_equal. apply map_ext. intros item.
  by apply (IH (String.length r) ltac:(lia) r eq_refl); lia.
Qed.

Lemma get_nested_plain data key :
  split_brackets key = None -> get_nested data key = walk_parts data (split_char "." key).
Proof. intros H. unfold get_nested. destruct (String.length key); simpl; by rewrite H. Qed.

Lemma get_nested_brackets data key p r :
  split_brackets key = Some (p, r) ->
  get_nested data key =
    match (if String.eqb p "" then data else get_nested data p) with
    | PList items => if String.eqb r "" then PList items
                     else PList (map (fun item => get_nested item r) items)
    | _ => PNone
    end.
Proof.
  intros H. pose proof (split_brackets_shorter _ _ _ H) as [Hp Hr]. unfold get_nested at 1.
  destruct (String.length key) as [|n] eqn:El; [lia|]. simpl. rewrite H.
  assert (Hf : get_nested_go n data p = get_nested data p)
    by (apply get_nested_go_fuel; lia).
  rewrite Hf.
  destruct (if String.eqb p "" then data else get_nested data p); try done.
  destruct (String.eqb r ""); [done|]. f_equal. apply map_ext.
  intros item. apply get_nested_go_fuel; lia.
Qed.

(** ** Reading back what was written *)

Lemma at_path_walk parts f c c' rest :
  at_path parts f c = Ok c' ->
  exists k k', f k = Ok k' /\ walk_parts c' (parts ++ rest) = walk_parts k' rest.
Proof.
  revert c c'. induction parts as [|p ps IH]; intros c c' H; simpl in H.
  - exists c, c'. done.
  - destruct c as [| | | | | |d]; try discriminate. bind_ok.
    apply IH in Hx as (k & k' & Hf & Hw). exists k, k'. split; [done|].
    simpl. unfold dget_or. by rewrite dget_dset_eq.
Qed.

Lemma removelast_last_split (key : string) :
  split_char "." key = (removelast (split_char "." key) ++ [List.last (split_char "." key) ""])%list.
Proof. apply app_removelast_last. apply split_char_nonempty. Qed.

Lemma set_nested_Ok d key v c d' :
  set_nested d key v c = Ok d' ->
  set_nested_go (String.length key) (PDict d) key v c = Ok (PDict d') \/
  (exists x, set_nested_go (String.length key) (PDict d) key v c = Ok x /\ is_dict x = false).
Proof.
  unfold set_nested. destruct (set_nested_go _ _ _ _ _) as [[]|] eqn:E; intros [= ->]; eauto.
Qed.

Lemma at_path_dict parts f d c' :
  (forall k k', f k = Ok k' -> is_dict k = true -> is_dict k' = true) ->
  at_path parts f (PDict d) = Ok c' -> is_dict c' = true.
Proof.
  intros Hf. destruct parts as [|p ps]; simpl; intros H; [by eapply Hf|]. by bind_ok.
Qed.

Lemma set_final_dict c k v x y : set_final c k v x = Ok y -> is_dict y = true.
Proof. destruct x; simpl; try discriminate. by intros [= <-]. Qed.

Lemma set_array_at_dict e k v x y :
  set_array_at e k v x = Ok y -> is_dict x = true -> is_dict y = true.
Proof.
  unfold set_array_at. destruct (String.eqb k ""); [by intros [= <-]|].
  destruct x; try done. intros H _. by bind_ok.
Qed.

(** Writing into a dict gives a dict, so [set_nested] is the recursive function. *)
Lemma set_nested_go_spec d key v c d' :
  set_nested d key v c = Ok d' ->
  set_nested_go (String.length key) (PDict d) key v c = Ok (PDict d').
Proof.
  intros H. destruct (set_nested_Ok _ _ _ _ _ H) as [?|(x & Hx & Hnd)]; [done|].
  exfalso. enough (is_dict x = true) by congruence.
  destruct (String.length key); simpl in Hx;
    destruct (split_brackets key) as [[p r]|];
    (eapply at_path_dict; [|exact Hx]); intros k k' Hk Hd;
    by eauto using set_final_dict, set_array_at_dict.
Qed.

Lemma walk_none parts : walk_parts PNone parts = PNone.
Proof. by destruct parts. Qed.

Lemma walk_empty_dict p parts : walk_parts (PDict []) (p :: parts) = PNone.
Proof. apply walk_none. Qed.

(** The container a descent reaches, seen from the value before and after it. *)
Lemma at_path_container parts f c c' :
  at_path parts f c = Ok c' ->
  exists k k', f k = Ok k'
    /\ (forall rest, walk_parts c' (parts ++ rest) = walk_parts k' rest)
    /\ (forall a rest, walk_parts c (parts ++ a :: rest) = walk_parts k (a :: rest)).
Proof.
  revert c c'. induction parts as [|p ps IH]; intros c c' H; simpl in H.
  - exists c, c'. done.
  - destruct c as [| | | | | |d]; try discriminate. bind_ok.
    apply IH in Hx as (k & k' & Hf & Hnew & Hold). exists k, k'.
    split_and!; [done| |].
    + intros rest. cbn [walk_parts app]. unfold dget_or. by rewrite dget_dset_eq.
    + intros a rest. rewrite <-Hold. cbn [walk_parts app]. unfold dget_or.
      destruct (dget p d); [done|]. rewrite walk_none.
      destruct ps; symmetry; apply walk_empty_dict.
Qed.

(** The value already stored where a plain key writes. *)
Fixpoint final_slot (parts : list string) (current : pyval) : option pyval :=
  match parts, current with
  | [k], PDict d => dget k d
  | p :: ps, PDict d => match dget p d with Some v => final_slot ps v | None => None end
  | _, _ => None
  end.

Lemma final_slot_cons p q ps d :
  final_slot (p :: q :: ps) (PDict d) =
    match dget p d with Some v => final_slot (q :: ps) v | None => None end.
Proof. done. Qed.

Lemma at_path_set_final parts fk v c cur cur' :
  at_path parts (set_final c fk v) cur = Ok cur' ->
  walk_parts cur' (parts ++ [fk]) =
    match final_slot (parts ++ [fk]) cur with
    | Some e => if c then concat_value e v else v
    | None => v
    end.
Proof.
  revert cur cur'. induction parts as [|p ps IH]; intros cur cur' H; simpl in H.
  - destruct cur as [| | | | | |d]; try discriminate. injection H as <-. simpl.
    unfold dget_or. by rewrite dget_dset_eq.
  - destruct cur as [| | | | | |d]; try discriminate. bind_ok. apply IH in Hx.
    cbn [walk_parts app]. unfold dget_or at 1. rewrite dget_dset_eq, Hx.
    destruct ps as [|q ps]; cbn [app]; rewrite final_slot_cons; unfold dget_or;
      destruct (dget p d); try done. by destruct ps.
Qed.

Section Roundtrip.
Variables (d d' : dict) (key : string) (v : pyval) (c : bool).
Hypothesis Hset : set_nested d key v c = Ok d'.

Lemma set_nested_plain_run :
  split_brackets key = None ->
  at_path (removelast (split_char "." key))
    (set_final c (List.last (split_char "." key) "") v) (PDict d) = Ok (PDict d').
Proof.
  intros Hb. apply set_nested_go_spec in Hset.
  by destruct (String.length key); simpl in Hset; rewrite Hb in Hset.
Qed.
End Roundtrip.

(** Two paths that part ways: neither is a prefix of the other. *)
Fixpoint diverge (p q : list string) : bool :=
  match p, q with
  | x :: p', y :: q' => if String.eqb x y then diverge p' q' else true
  | _, _ => false
  end.

(** A step that only touches the key [fk] of its container. *)
Definition touches_only (fk : string) (f : pyval -> res pyval) : Prop :=
  forall cur cur' y ys, f cur = Ok cur' -> y <> fk ->
    walk_parts cur' (y :: ys) = walk_parts cur (y :: ys).

Lemma dict_set_touches_only fk v d y ys :
  y <> fk -> walk_parts (PDict (dset fk v d)) (y :: ys) = walk_parts (PDict d) (y :: ys).
Proof. intros H. cbn [walk_parts]. unfold dget_or. by rewrite dget_dset_ne. Qed.

Lemma set_final_touches_only c fk v : touches_only fk (set_final c fk v).
Proof.
  intros cur cur' y ys H Hy. destruct cur; try discriminate. injection H as <-.
  by apply dict_set_touches_only.
Qed.

Lemma set_array_at_touches_only e fk v : touches_only fk (set_array_at e fk v).
Proof.
  intros cur cur' y ys H Hy. unfold set_array_at in H.
  destruct (String.eqb fk ""); [by injection H as <-|].
  destruct cur; try discriminate. bind_ok. by apply dict_set_touches_only.
Qed.

Lemma at_path_frame parts fk f cur cur' other :
  touches_only fk f -> at_path parts f cur = Ok cur' ->
  diverge (parts ++ [fk]) other = true ->
  walk_parts cur' other = walk_parts cur other.
Proof.
  intros Hf. revert cur cur' other.
  induction parts as [|p ps IH]; intros cur cur' [|y ys] H Hdiv; try done; simpl in *.
  - destruct (String.eqb_spec fk y) as [->|Hne]; [by destruct ys|].
    eapply (Hf cur cur' y ys); [done|congruence].
  - destruct cur as [| | | | | |d]; try discriminate. bind_ok.
    destruct (String.eqb_spec p y) as [->|Hne].
    + cbn [walk_parts]. unfold dget_or at 1. rewrite dget_dset_eq.
      rewrite (IH _ _ _ Hx Hdiv). unfold dget_or. destruct (dget y d); [done|].
      rewrite walk_none. destruct ys; [by destruct (ps ++ [fk])%list|]. apply walk_empty_dict.
    + apply dict_set_touches_only. congruence.
Qed.

(** The dotted path a key writes to: all of a plain key, the array of one with ["[]"]. *)
Definition written_path (key : string) : list string :=
  match split_brackets key with
  | None => split_char "." key
  | Some (p, _) => if String.eqb p "" then [] else split_char "." p
  end.

Lemma removelast_last_app (l : list string) : l <> [] -> (removelast l ++ [List.last l ""])%list = l.
Proof. intros H. symmetry. by apply app_removelast_last. Qed.

(** Arrays *)

Lemma fill_array_spec elem arr vals res :
  fill_array elem arr vals = Ok res -> List.length vals = List.length arr ->
  Forall2 (fun av r => elem av.1 av.2 = Ok r) (combine arr vals) res.
Proof.
  revert vals res. induction arr as [|a arr IH]; intros [|v vals] res H Hl; try done; simpl in *.
  - injection H as <-. constructor.
  - bind_ok. constructor; [done|]. apply IH; [done|lia].
Qed.

Lemma pad_array_length arr n :
  (List.length arr <= n)%nat -> List.length (pad_array arr n) = n.
Proof. intros H. unfold pad_array. rewrite length_app, repeat_length. lia. Qed.

Lemma str_find_take pat n s i : str_find pat (str_take n s) = Some i -> str_find pat s = Some i.
Proof.
  assert (Hpre : forall p m t, starts_with p (str_take m t) = true -> starts_with p t = true).
  { induction p as [|a p IHp]; intros m t; [by destruct t|].
    destruct m as [|m], t as [|b t]; simpl; try done.
    intros [-> H]%andb_true_iff. simpl. eauto. }
  revert s i. induction n as [|n IH]; intros s i H.
  - destruct s; simpl in H; destruct pat; try done; injection H as <-; done.
  - destruct s as [|a s]; [done|]. simpl in H |- *.
    destruct (starts_with pat (String a (str_take n s))) eqn:E.
    + injection H as <-. by rewrite (Hpre pat (S n) (String a s)).
    + destruct (starts_with pat (String a s)) eqn:E2.
      * destruct (str_find pat (str_take n s)) as [j|] eqn:Ej; [|done]. exfalso.
        pose proof (str_find_length _ _ _ Ej) as Hl. pose proof (str_take_length n s) as Hl2.
        assert (Hshort : forall p m t, starts_with p t = true ->
                   (String.length p <= String.length (str_take m t))%nat ->
                   starts_with p (str_take m t) = true).
        { clear. induction p as [|b p IHp]; intros m t; [by destruct (str_take m t)|].
          destruct m as [|m], t as [|c t]; simpl; try (done || lia).
          intros [-> H]%andb_true_iff Hlen. simpl. apply IHp; [done|lia]. }
        specialize (Hshort pat (S n) (String a s) E2). simpl in Hshort.
        rewrite Hshort in E by lia. done.
      * destruct (str_find pat (str_take n s)) as [j|] eqn:Ej; [|done].
        injection H as <-. by rewrite (IH _ _ Ej).
Qed.

(** The array part of a key holds no brackets itself. *)
Lemma split_brackets_path key p r :
  split_brackets key = Some (p, r) -> split_brackets p = None.
Proof.
  unfold split_brackets. destruct (str_find "[]" key) as [pos|] eqn:E; [|done].
  intros [= <- <-]. destruct (str_find "[]" (str_take pos key)) as [i|] eqn:Ei; [|done].
  exfalso. pose proof (str_find_length _ _ _ Ei) as Hl. apply str_find_take in Ei.
  rewrite E in Ei. injection Ei as ->. pose proof (str_take_length i key). simpl in Hl. lia.
Qed.

Lemma set_nested_go_plain n data key v c :
  split_brackets key = None ->
  set_nested_go n data key v c =
    at_path (removelast (split_char "." key))
      (set_final c (List.last (split_char "." key) "") v) data.
Proof. intros H. destruct n; simpl; by rewrite H. Qed.

(** Writing an element of an array and reading the same field back. *)
Lemma elem_roundtrip n r a v y :
  split_brackets r = None -> r <> "" ->
  set_nested_go n (match a with PDict _ => a | _ => PDict [] end) r v false = Ok y ->
  get_nested y r = v.
Proof.
  intros Hb Hr. rewrite set_nested_go_plain by done. intros H.
  rewrite get_nested_plain by done.
  apply at_path_set_final in H.
  rewrite removelast_last_app in H by apply split_char_nonempty.
  rewrite H. by destruct (final_slot _ _).
Qed.

Lemma fill_array_roundtrip n r arr vals out :
  split_brackets r = None ->
  List.length arr = List.length vals ->
  fill_array (fun a v => if String.eqb r "" then Ok v
                         else set_nested_go n (match a with PDict _ => a | _ => PDict [] end) r v false)
    arr vals = Ok out ->
  (if String.eqb r "" then out else map (fun item => get_nested item r) out) = vals.
Proof.
  intros Hb. revert vals out. induction arr as [|a arr IH]; intros [|v vals] out Hl H; try done.
  - simpl in H. injection H as <-. by destruct (String.eqb r "").
  - simpl in H, Hl. bind_ok. injection Hl as Hl. specialize (IH vals _ Hl Hx0).
    destruct (String.eqb_spec r "") as [->|Hr].
    + injection Hx as <-. simpl in IH |- *. by f_equal.
    + simpl. f_equal; [|exact IH]. by eapply elem_roundtrip.
Qed.

(** The array a bracketed key would extend, as a read of its path sees it. *)
Definition array_at (d : dict) (path : string) : list pyval :=
  match get_nested (PDict d) path with PList l => l | _ => [] end.

(** ** Properties *)

(** A plain dotted key reads back what [_set_nested] wrote there; with
    [concat] set and a value already in place, it reads back the concatenation
    of the two. *)
Theorem get_set_nested d key v c d' :
  split_brackets key = None ->
  set_nested d key v c = Ok d' ->
  get_nested (PDict d') key =
    match final_slot (split_char "." key) (PDict d) with
    | Some e => if c then concat_value e v else v
    | None => v
    end.
Proof.
  intros Hb H. rewrite get_nested_plain by done.
  apply (set_nested_plain_run _ _ _ _ _ H), at_path_set_final in Hb.
  by rewrite removelast_last_app in Hb by apply split_char_nonempty.
Qed.

Lemma get_set_nested_witness :
  let d := [("order", PDict [("id", PInt 7)])] in
  set_nested d "order.ref" (PStr "A") true = Ok [("order", PDict [("id", PInt 7); ("ref", PStr "A")])]
  /\ get_nested (PDict [("order", PDict [("id", PInt 7); ("ref", PStr "A")])]) "order.ref" = PStr "A".
Proof.
  split; [reflexivity|].
  exact (get_set_nested [("order", PDict [("id", PInt 7)])] "order.ref" (PStr "A") true
           _ eq_refl eq_refl).
Defined.

(** A list written through an array key such as [items[].sku] (or [items[]])
    reads back element for element through the same key, whatever objects the
    array held before, provided it was not longer than the list. *)
Theorem get_set_nested_array d key p r vs c d' :
  split_brackets key = Some (p, r) -> split_brackets r = None ->
  List.last (split_char "." p) "" <> "" ->
  (List.length (array_at d p) <= List.length vs)%nat ->
  set_nested d key (PList vs) c = Ok d' ->
  get_nested (PDict d') key = PList vs.
Proof.
  intros Hs Hb Hp Hlen H. pose proof (split_brackets_path _ _ _ Hs) as Hpp.
  pose proof (split_brackets_shorter _ _ _ Hs) as [_ Hr].
  rewrite (get_nested_brackets _ _ _ _ Hs).
  apply set_nested_go_spec in H.
  destruct (String.length key) as [|n]; [lia|]. simpl in H. rewrite Hs in H.
  assert (Hpe : String.eqb p "" = false) by (destruct (String.eqb_spec p "") as [->|]; done).
  rewrite Hpe in *. rewrite get_nested_plain by done.
  apply at_path_container in H as (k & k' & Hk & Hnew & Hold).
  unfold array_at in Hlen. rewrite get_nested_plain in Hlen by done.
  rewrite <-(removelast_last_app (split_char "." p)) in Hlen by apply split_char_nonempty.
  rewrite Hold in Hlen.
  rewrite <-(removelast_last_app (split_char "." p)) by apply split_char_nonempty.
  rewrite Hnew. unfold set_array_at in Hk. apply String.eqb_neq in Hp. rewrite Hp in Hk.
  destruct k as [| | | | | |dk]; try discriminate. bind_ok. cbn [walk_parts].
  unfold dget_or. rewrite dget_dset_eq.
  apply fill_array_roundtrip in Hx; [|done|].
  - by destruct (String.eqb r ""); rewrite Hx.
  - cbn [as_values]. apply pad_array_length. clear -Hlen. cbn [walk_parts] in Hlen.
    unfold existing_array, dget_or in *. by destruct (dget _ dk).
Qed.

Lemma get_set_nested_array_witness :
  let d := [("items", PList [PDict [("qty", PInt 2)]])] in
  let d' := [("items", PList [PDict [("qty", PInt 2); ("sku", PStr "A")];
                              PDict [("sku", PStr "B")]])] in
  set_nested d "items[].sku" (PList [PStr "A"; PStr "B"]) true = Ok d'
  /\ get_nested (PDict d') "items[].sku" = PList [PStr "A"; PStr "B"].
Proof.
  split; [reflexivity|].
  apply (get_set_nested_array [("items", PList [PDict [("qty", PInt 2)]])]
           "items[].sku" "items" "sku" [PStr "A"; PStr "B"] true);
    try reflexivity; [done | vm_compute; lia].
Defined.

(** A write changes nothing at any other path: reading a path that parts ways
    with the path written (the array's path, for an array key) gives what it
    gave before. *)
Theorem set_nested_frame d key v c d' other :
  set_nested d key v c = Ok d' ->
  diverge (written_path key) other = true ->
  walk_parts (PDict d') other = walk_parts (PDict d) other.
Proof.
  intros H Hdiv. apply set_nested_go_spec in H. unfold written_path in Hdiv.
  destruct (split_brackets key) as [[p r]|] eqn:Hs.
  - pose proof (split_brackets_shorter _ _ _ Hs) as [_ Hr].
    destruct (String.length key) as [|n]; [lia|]. simpl in H. rewrite Hs in H.
    destruct (String.eqb p ""); [by destruct other|].
    eapply at_path_frame; [apply set_array_at_touches_only | exact H |].
    by rewrite removelast_last_app by apply split_char_nonempty.
  - rewrite set_nested_go_plain in H by done.
    eapply at_path_frame; [apply set_final_touches_only | exact H |].
    by rewrite removelast_last_app by apply split_char_nonempty.
Qed.

Lemma set_nested_frame_witness :
  let d := [("order", PDict [("id", PInt 7)]); ("lines", PList [PInt 1])] in
  set_nested d "order.ref" (PStr "A") false
    = Ok [("order", PDict [("id", PInt 7); ("ref", PStr "A")]); ("lines", PList [PInt 1])]
  /\ walk_parts (PDict [("order", PDict [("id", PInt 7); ("ref", PStr "A")]); ("lines", PList [PInt 1])])
       ["lines"; "0"] = PInt 1.
Proof.
  split; [reflexivity|].
  exact (set_nested_frame [("order", PDict [("id", PInt 7)]); ("lines", PList [PInt 1])]
           "order.ref" (PStr "A") false _ ["lines"; "0"] eq_refl eq_refl).
Defined.
