(* ===== verification/Context.v ===== *)
(** The execution context of a workflow run ([WorkflowContext]), value
    resolution ([_resolve_value]) and placeholder interpolation
    ([_interpolate_string], [_interpolate_dict]) of
    [platform/core/workflow_engine.py]. *)

From S2P Require Import Prelude PyText PyValue Paths.

Local Open Scope string_scope.

(** [WorkflowContext].  [node_results] holds references (positions in the store
    of result entries kept by the engine), because the code appends, and later
    mutates, shared dict objects; the lock and the deep copies have no
    counterpart in a pure model. *)
Record WorkflowContext := Ctx {
  data : dict;
  trigger_data : dict;
  variables : dict;
  node_outputs : dict;
  node_results : list nat;
  dry_run : bool;
  workflow_chain : list string;
  merge_hits : list (string * Z);
  visited_merges : list string;
  completed_nodes : list string
}.

(** [WorkflowContext.__init__]. *)
Definition new_context (td : dict) : WorkflowContext :=
  Ctx td td [] [] [] false [] [] [] [].

Definition with_data (d : dict) (c : WorkflowContext) : WorkflowContext :=
  Ctx d (trigger_data c) (variables c) (node_outputs c) (node_results c) (dry_run c)
      (workflow_chain c) (merge_hits c) (visited_merges c) (completed_nodes c).
Definition with_variables (d : dict) (c : WorkflowContext) : WorkflowContext :=
  Ctx (data c) (trigger_data c) d (node_outputs c) (node_results c) (dry_run c)
      (workflow_chain c) (merge_hits c) (visited_merges c) (completed_nodes c).
Definition with_outputs (d : dict) (c : WorkflowContext) : WorkflowContext :=
  Ctx (data c) (trigger_data c) (variables c) d (node_results c) (dry_run c)
      (workflow_chain c) (merge_hits c) (visited_merges c) (completed_nodes c).
Definition with_results (l : list nat) (c : WorkflowContext) : WorkflowContext :=
  Ctx (data c) (trigger_data c) (variables c) (node_outputs c) l (dry_run c)
      (workflow_chain c) (merge_hits c) (visited_merges c) (completed_nodes c).
Definition with_merges (h : list (string * Z)) (v : list string) (c : WorkflowContext)
  : WorkflowContext :=
  Ctx (data c) (trigger_data c) (variables c) (node_outputs c) (node_results c) (dry_run c)
      (workflow_chain c) h v (completed_nodes c).
Definition with_completed (l : list string) (c : WorkflowContext) : WorkflowContext :=
  Ctx (data c) (trigger_data c) (variables c) (node_outputs c) (node_results c) (dry_run c)
      (workflow_chain c) (merge_hits c) (visited_merges c) l.

(** [set_node_output], [get_node_output], [ctx.variables[k] = v]. *)
Definition set_node_output (node_id : string) (output : pyval) (c : WorkflowContext)
  : WorkflowContext := with_outputs (dset node_id output (node_outputs c)) c.
Definition get_node_output (node_id : string) (c : WorkflowContext) : pyval :=
  dget_or node_id PNone (node_outputs c).
Definition set_variable (name : string) (v : pyval) (c : WorkflowContext) : WorkflowContext :=
  with_variables (dset name v (variables c)) c.

(** [snapshot]. *)
Definition snapshot (c : WorkflowContext) : dict :=
  [("data", PDict (data c)); ("variables", PDict (variables c))].

(** ** Resolving a path *)

(** [s.split(".", 1)] as the first part and the remainder, if there is a dot. *)
Fixpoint split_first_dot (s : string) : string * option string :=
  match s with
  | EmptyString => (EmptyString, None)
  | String "." s' => (EmptyString, Some s')
  | String c s' => let '(a, b) := split_first_dot s' in (String c a, b)
  end.

(** [_resolve_value] on a string path. *)
Definition resolve_value (path : string) (c : WorkflowContext) : pyval :=
  if String.eqb path "" then PNone
  else if starts_with "vars." path then get_nested (PDict (variables c)) (str_drop 5 path)
  else if starts_with "nodes." path then
    let '(node_id, rest) := split_first_dot (str_drop 6 path) in
    let node_output := get_node_output node_id c in
    match rest, node_output with
    | Some r, PDict _ => get_nested node_output r
    | _, _ => node_output
    end
  else if starts_with "trigger." path then get_nested (PDict (trigger_data c)) (str_drop 8 path)
  else if starts_with "item." path then
    match dget_or "batch_item" PNone (variables c) with
    | PDict b => get_nested (PDict b) (str_drop 5 path)
    | _ => PNone
    end
  else if starts_with "data." path then get_nested (PDict (data c)) (str_drop 5 path)
  else get_nested (PDict (data c)) path.

(** [_resolve_value] on a configuration value: falsy gives [None], anything else
    must be a string. *)
Definition resolve_config (path : pyval) (c : WorkflowContext) : res pyval :=
  if negb (truthy path) then Ok PNone
  else match path with
       | PStr s => Ok (resolve_value s c)
       | v => Raise (AttributeError ("'" ++ type_name v ++ "' object has no attribute 'startswith'"))
       end.

(** [str(v) if v is not None else ""]. *)
Definition str_or_empty (v : pyval) : string :=
  match v with PNone => "" | _ => py_str v end.

(** ** Interpolation *)

Definition newline : ascii := ascii_of_nat 10.

(** The lazy group of [\{\{(.+?)\}\}]: at least one character, none of them a
    newline, up to the first closing braces; gives the group and what follows. *)
Fixpoint lazy_group (s : string) (nonempty : bool) : option (string * string) :=
  match s with
  | EmptyString => None
  | String a s' =>
      if nonempty && starts_with "}}" s then Some (EmptyString, str_drop 2 s)
      else if Ascii.eqb a newline then None
      else match lazy_group s' true with
           | Some (g, rest) => Some (String a g, rest)
           | None => None
           end
  end.

(** [re.sub(r"\{\{(.+?)\}\}", replacer, template)]: leftmost matches first, the
    replaced text is not scanned again. *)
Fixpoint sub_placeholders (fuel : nat) (replacer : string -> string) (s : string) : string :=
  match fuel with
  | O => s
  | S fuel' =>
      match s with
      | EmptyString => EmptyString
      | String a s' =>
          match (if starts_with "{{" s then lazy_group (str_drop 2 s) false else None) with
          | Some (g, rest) => replacer g ++ sub_placeholders fuel' replacer rest
          | None => String a (sub_placeholders fuel' replacer s')
          end
      end
  end.

(** [_interpolate_string]. *)
Definition interpolate_string (template : string) (c : WorkflowContext) : string :=
  sub_placeholders (S (String.length template))
    (fun g => str_or_empty (resolve_value (py_strip g) c)) template.

(** [template[2:-2].strip()]. *)
Definition unwrap_braces (template : string) : string :=
  py_strip (str_slice template 2 (Some (-2)%Z)).

Definition is_braced (s : string) : bool := starts_with "{{" s && ends_with "}}" s.

(** [_interpolate_dict]. *)
Fixpoint interpolate_dict (template : pyval) (c : WorkflowContext) : pyval :=
  match template with
  | PDict d => PDict (map (fun kv => (kv.1, interpolate_dict kv.2 c)) d)
  | PList l => PList (map (fun item => interpolate_dict item c) l)
  | PStr s =>
      if is_braced s then resolve_value (unwrap_braces s) c
      else if str_contains "{{" s then PStr (interpolate_string s c)
      else template
  | _ => template
  end.

(** [_evaluate_expression]. *)
Definition evaluate_expression (expr : pyval) (c : WorkflowContext) : pyval :=
  match expr with PStr s => PStr (interpolate_string s c) | _ => expr end.

(** ** Facts *)

Lemma lazy_group_length s b g rest :
  lazy_group s b = Some (g, rest) -> (String.length rest < String.length s)%nat.
Proof.
  revert b g. induction s as [|a s IH]; intros b g H; [done|]. cbn [lazy_group] in H.
  destruct (b && starts_with "}}" (String a s)).
  - assert (Hr : str_drop 2 (String a s) = rest) by congruence.
    rewrite <-Hr, str_drop_length. simpl. lia.
  - destruct (Ascii.eqb a newline); [done|].
    destruct (lazy_group s true) as [[g' r']|] eqn:E; [|done].
    injection H as _ <-. apply IH in E. simpl. lia.
Qed.

Lemma sub_placeholders_fuel f s : forall n m,
  (String.length s <= n)%nat -> (String.length s <= m)%nat ->
  sub_placeholders n f s = sub_placeholders m f s.
Proof.
  remember (String.length s) as len eqn:Hl. revert s Hl.
  induction (lt_wf len) as [len _ IH]; intros s Hl n m Hn Hm.
  destruct s as [|a s]; [by destruct n, m|]. simpl in Hl.
  destruct n as [|n], m as [|m]; try lia. cbn [sub_placeholders].
  destruct (if starts_with "{{" (String a s) then lazy_group (str_drop 2 (String a s)) false else None)
    as [[g rest]|] eqn:E.
  - f_equal. destruct (starts_with "{{" (String a s)); [|done].
    apply lazy_group_length in E. rewrite str_drop_length in E. simpl in E.
    by apply (IH (String.length rest) ltac:(lia) rest eq_refl); lia.
  - f_equal. by apply (IH (String.length s) ltac:(lia) s eq_refl); lia.
Qed.

Lemma sub_placeholders_cons n f a s :
  sub_placeholders (S n) f (String a s) =
    match (if starts_with "{{" (String a s) then lazy_group (str_drop 2 (String a s)) false
           else None) with
    | Some (g, rest) => f g ++ sub_placeholders n f rest
    | None => String a (sub_placeholders n f s)
    end.
Proof. done. Qed.

Definition no_char (c : ascii) (s : string) : bool := str_forall (fun a => negb (Ascii.eqb a c)) s.

Lemma no_char_starts c p s : no_char c s = true -> starts_with (String c p) s = false.
Proof.
  unfold no_char. destruct s as [|a s]; [done|]. simpl.
  rewrite (Ascii.eqb_sym c a). by destruct (Ascii.eqb a c).
Qed.

(** Text without an opening brace is copied. *)
Lemma sub_placeholders_prefix f pre s n :
  no_char "{" pre = true -> (String.length (pre ++ s) <= n)%nat ->
  sub_placeholders n f (pre ++ s) = (pre ++ sub_placeholders n f s).
Proof.
  revert n. induction pre as [|a pre IH]; intros n Hp Hn; [done|].
  simpl in Hn, Hp. apply andb_true_iff in Hp as [Ha Hp]. destruct n as [|n]; [lia|].
  change (String a pre ++ s) with (String a (pre ++ s)). rewrite sub_placeholders_cons.
  assert (Hb : starts_with "{{" (String a (pre ++ s)) = false).
  { cbn [starts_with]. rewrite Ascii.eqb_sym. by destruct (Ascii.eqb a "{"). }
  rewrite Hb, IH by (done || lia). cbn [String.append]. do 2 f_equal.
  rewrite str_app_length in Hn. apply sub_placeholders_fuel; lia.
Qed.

Lemma lazy_group_cons a s b :
  lazy_group (String a s) b =
    if b && starts_with "}}" (String a s) then Some (EmptyString, str_drop 2 (String a s))
    else if Ascii.eqb a newline then None
    else match lazy_group s true with
         | Some (g, rest) => Some (String a g, rest)
         | None => None
         end.
Proof. done. Qed.

Lemma lazy_group_spec p post b :
  no_char "}" p = true -> no_char newline p = true -> (b = true \/ p <> "") ->
  lazy_group (p ++ "}}" ++ post) b = Some (p, post).
Proof.
  revert b. induction p as [|a p IH]; intros b Hc Hn Hb.
  - destruct Hb as [->|]; [|done]. done.
  - simpl in Hc, Hn. apply andb_true_iff in Hc as [Ha Hc], Hn as [Hna Hn].
    change (String a p ++ "}}" ++ post) with (String a (p ++ "}}" ++ post)).
    rewrite lazy_group_cons.
    assert (Hs : starts_with "}}" (String a (p ++ "}}" ++ post)) = false).
    { cbn [starts_with]. rewrite Ascii.eqb_sym. by destruct (Ascii.eqb a "}"). }
    rewrite Hs, andb_false_r. destruct (Ascii.eqb a newline); [done|].
    rewrite IH by auto. done.
Qed.

(** ** Properties *)

(** [_interpolate_string] replaces the first placeholder of a template by the
    text of the value its (stripped) path resolves to, keeps the text before it
    and goes on with the text after it. *)
Theorem interpolate_string_step pre p post c :
  no_char "{" pre = true ->
  no_char "}" p = true -> no_char newline p = true -> p <> "" ->
  interpolate_string (pre ++ "{{" ++ p ++ "}}" ++ post) c =
    pre ++ str_or_empty (resolve_value (py_strip p) c) ++ interpolate_string post c.
Proof.
  intros Hpre Hp Hn Hne. unfold interpolate_string.
  rewrite sub_placeholders_prefix by (done || (simpl; lia)). f_equal.
  cbn [String.append]. rewrite sub_placeholders_fuel with (m := S (String.length (p ++ "}}" ++ post) + 1)%nat)
    by (rewrite ?str_app_length; simpl; rewrite ?str_app_length; simpl; lia).
  rewrite sub_placeholders_cons. cbn [starts_with Ascii.eqb Bool.eqb andb str_drop].
  pose proof (lazy_group_spec p post false) as Hg. cbn [String.append] in Hg.
  rewrite Hg by auto. f_equal.
  apply sub_placeholders_fuel; rewrite ?str_app_length; simpl; rewrite ?str_app_length; simpl; lia.
Qed.

Lemma interpolate_string_step_witness :
  let c := new_context [("order", PDict [("id", PInt 7)])] in
  interpolate_string "Order {{ order.id }}: {{missing}}." c
    = "Order 7" ++ interpolate_string ": {{missing}}." c
  /\ interpolate_string "Order {{ order.id }}: {{missing}}." c = "Order 7: .".
Proof.
  split; [|reflexivity].
  exact (interpolate_string_step "Order " " order.id " ": {{missing}}."
           (new_context [("order", PDict [("id", PInt 7)])])
           eq_refl eq_refl eq_refl ltac:(discriminate)).
Defined.

(** Inside a body template, a string that begins with one placeholder and ends
    with another is taken for a single placeholder: the two paths and the text
    between them are looked up as one path of the context. *)
Theorem interpolate_dict_two_placeholders p q mid c :
  interpolate_dict (PStr ("{{" ++ p ++ "}}" ++ mid ++ "{{" ++ q ++ "}}")) c =
    resolve_value (py_strip (p ++ "}}" ++ mid ++ "{{" ++ q)) c.
Proof.
  set (w := p ++ "}}" ++ mid ++ "{{" ++ q).
  assert (Hw : "{{" ++ p ++ "}}" ++ mid ++ "{{" ++ q ++ "}}" = "{{" ++ w ++ "}}").
  { unfold w. rewrite <-!str_app_assoc. done. }
  rewrite Hw. clearbody w. cbn [interpolate_dict].
  assert (Hend : ends_with "}}" ("{{" ++ w ++ "}}") = true).
  { unfold ends_with. rewrite !str_app_length. simpl String.length.
    apply andb_true_iff. split; [apply Nat.leb_le; lia|].
    replace (2 + (String.length w + 2) - 2)%nat with (2 + String.length w)%nat by lia.
    apply String.eqb_eq. simpl. clear Hw. induction w as [|a w IH]; [done|]. exact IH. }
  unfold is_braced. rewrite Hend, starts_with_app. simpl andb. cbv iota.
  f_equal. unfold unwrap_braces. f_equal. unfold str_slice, clamp_index.
  rewrite !str_app_length. simpl String.length.
  replace (Z.to_nat (Z.max 0 (Z.min _ (if 2 <? 0 then _ else 2))))%Z with 2%nat by (simpl; lia).
  replace (Z.to_nat _ - 2)%nat with (String.length w) by (simpl; lia).
  simpl str_drop. clear. induction w as [|a w IH]; [done|]. simpl. by f_equal.
Qed.
