(* ===== verification/Conditions.v ===== *)
(** Conditions of the workflow engine: [_coerce_types], [_safe_regex_search],
    [_evaluate_condition] (condition and filter nodes) and the trigger filters
    [_evaluate_trigger_filter], [_passes_trigger_filters] of
    [platform/core/workflow_engine.py]. *)

From Stdlib Require Import SpecFloat.
From S2P Require Import Prelude PyText PyFloat PyValue Paths Context.

Local Open Scope string_scope.

(** [bool(s)], [int(s)], [float(s)] for [type(a)(s)] with [a] a number. *)
Definition convert_like (a : pyval) (s : string) : res pyval :=
  match a with
  | PBool _ => Ok (PBool (truthy (PStr s)))
  | PInt _ => n ← py_int (PStr s); Ok (PInt n)
  | _ => f ← py_float (PStr s); Ok (PFloat f)
  end.

(** [_coerce_types]. *)
Definition coerce_types (a b : pyval) : res (pyval * pyval) :=
  if same_type a b then Ok (a, b)
  else if is_number a && is_str b then
    catch (b' ← convert_like a (py_str b); Ok (a, b')) is_value_or_type_error
          (Ok (PStr (py_str a), b))
  else if is_number b && is_str a then
    catch (a' ← convert_like b (py_str a); Ok (a', b)) is_value_or_type_error
          (Ok (a, PStr (py_str b)))
  else Ok (PStr (py_str a), PStr (py_str b)).

(** [OPERATOR_MAP]. *)
Definition operator_map (op : string) : option (pyval -> pyval -> res bool) :=
  if String.eqb op "eq" then Some (fun a b => Ok (py_eqb a b))
  else if String.eqb op "neq" then Some (fun a b => Ok (py_neqb a b))
  else if String.eqb op "gt" then Some (py_order OpGt)
  else if String.eqb op "lt" then Some (py_order OpLt)
  else if String.eqb op "gte" then Some (py_order OpGe)
  else if String.eqb op "lte" then Some (py_order OpLe)
  else None.

Definition REGEX_MAX_PATTERN_LEN : nat := 1000.

Section Conditions.
(** [re.compile(pattern).search(text) is not None] within the time limit;
    [None] when the pattern does not compile or the search times out. *)
Variable regex_search : string -> string -> option bool.

(** [_safe_regex_search]. *)
Definition safe_regex_search (pattern text : string) : bool :=
  if (REGEX_MAX_PATTERN_LEN <? String.length pattern)%nat then false
  else match regex_search pattern text with Some b => b | None => false end.

(** The values an [in]/[not_in] test compares with. *)
Definition listed (expected : pyval) : list pyval :=
  match expected with PList l => l | v => [v] end.

(** The operator tests shared by both evaluators: everything outside the
    comparison operators. *)
Definition test_other (op : string) (actual expected : pyval) : res bool :=
  if String.eqb op "contains" then
    if truthy actual then py_in expected actual else Ok false
  else if String.eqb op "not_contains" then
    if truthy actual then negb <$> py_in expected actual else Ok true
  else if String.eqb op "starts_with" then
    Ok (truthy actual && starts_with (py_str expected) (py_str actual))
  else if String.eqb op "ends_with" then
    Ok (truthy actual && ends_with (py_str expected) (py_str actual))
  else if String.eqb op "exists" then Ok (negb (is_none actual))
  else if String.eqb op "not_exists" then Ok (is_none actual)
  else if String.eqb op "in" then Ok (existsb (py_eqb actual) (listed expected))
  else if String.eqb op "not_in" then Ok (negb (existsb (py_eqb actual) (listed expected)))
  else if String.eqb op "regex" then
    Ok (if is_none actual then false else safe_regex_search (py_str expected) (py_str actual))
  else if String.eqb op "is_empty" then Ok (negb (truthy actual))
  else if String.eqb op "is_not_empty" then Ok (truthy actual)
  else Ok false.

(** The comparison branch of [_evaluate_condition]: first on the values as they
    are, then, unless that holds, on the coerced ones. *)
Definition compare_coerced (cmp : pyval -> pyval -> res bool) (actual expected : pyval)
  : res bool :=
  raw ← catch (cmp actual expected) is_type_error (Ok false);
  if (raw : bool) then Ok true
  else '(a, b) ← coerce_types actual expected;
       catch (cmp a b) is_type_error (Ok false).

(** [_evaluate_condition] once the two sides are known. *)
Definition test_condition (op : pyval) (actual expected : pyval) : res bool :=
  match op with
  | PStr o =>
      match operator_map o with
      | Some cmp => compare_coerced cmp actual expected
      | None => test_other o actual expected
      end
  | PList _ | PDict _ => Raise (TypeError ("unhashable type: '" ++ type_name op ++ "'"))
  | _ => Ok false
  end.

(** [_evaluate_condition]. *)
Definition evaluate_condition (condition : pyval) (c : WorkflowContext) : res bool :=
  cond ← as_dict condition;
  let expected :=
    match dget_or "value" PNone cond with
    | PStr s => if str_contains "{{" s then PStr (interpolate_string s c) else PStr s
    | v => v
    end in
  actual ← resolve_config (dget_or "field" (PStr "") cond) c;
  test_condition (dget_or "operator" (PStr "eq") cond) actual expected.

(** [_evaluate_trigger_filter] once the two sides are known; [listed_values] is
    [condition.get("values", expected as a list)]. *)
Definition test_trigger (op : string) (actual expected : pyval) (listed_values : pyval)
  : res bool :=
  let coerced o :=
    '(a, b) ← coerce_types actual expected;
    catch (py_order o a b) is_type_error (Ok false) in
  let member := match listed_values with
                | PList l => Ok (existsb (py_eqb actual) l)
                | v => py_in actual v
                end in
  if String.eqb op "equals" || String.eqb op "eq" then
    if py_eqb actual expected then Ok true
    else '(a, b) ← coerce_types actual expected; Ok (py_eqb a b)
  else if String.eqb op "not_equals" || String.eqb op "neq" then Ok (py_neqb actual expected)
  else if String.eqb op "gt" then coerced OpGt
  else if String.eqb op "lt" then coerced OpLt
  else if String.eqb op "gte" then coerced OpGe
  else if String.eqb op "lte" then coerced OpLe
  else if String.eqb op "in" then member
  else if String.eqb op "not_in" then negb <$> member
  else test_other op actual expected.

(** [_evaluate_trigger_filter]. *)
Definition evaluate_trigger_filter (condition : pyval) (event : dict) : res bool :=
  cond ← as_dict condition;
  let field := dget_or "field" (PStr "") cond in
  if negb (truthy field) then Ok true
  else
    key ← as_str field;
    let expected := dget_or "value" PNone cond in
    let actual := get_nested (PDict event) key in
    match dget_or "operator" (PStr "eq") cond with
    | PStr op =>
        test_trigger op actual expected
          (dget_or "values" (PList (listed expected)) cond)
    | _ => Ok false
    end.

(** [all(results) if ... else any(results)], the results computed first. *)
Definition combine_results (conjunctive : bool) (results : list bool) : bool :=
  if conjunctive then forallb id results else existsb id results.

(** [_passes_trigger_filters]. *)
Definition passes_trigger_filters (filters : dict) (event : dict) : res bool :=
  let conditions := dget_or "conditions" (PList []) filters in
  if negb (truthy conditions) then Ok true
  else
    cs ← as_iter conditions;
    results ← mapR (fun cnd => evaluate_trigger_filter cnd event) cs;
    Ok (combine_results (py_eqb (dget_or "logic" (PStr "and") filters) (PStr "and")) results).
End Conditions.

(** ** Facts *)

Lemma same_type_refl a : same_type a a = true.
Proof. unfold same_type. apply String.eqb_refl. Qed.

Lemma coerce_same_type a b : same_type a b = true -> coerce_types a b = Ok (a, b).
Proof. unfold coerce_types. by intros ->. Qed.

(** On operands of one type the coercion changes nothing: the comparison is the
    operator itself, a type error counting as false. *)
Lemma compare_coerced_same_type cmp a b :
  same_type a b = true ->
  (forall e, cmp a b = Raise e -> is_type_error e = true) ->
  compare_coerced cmp a b = Ok (match cmp a b with Ok r => r | Raise _ => false end).
Proof.
  intros Ht Hc. unfold compare_coerced. rewrite (coerce_same_type _ _ Ht).
  destruct (cmp a b) as [[]|e] eqn:E; cbn; rewrite ?E; cbn; try done.
  rewrite (Hc e eq_refl). cbn. rewrite ?E. cbn. by rewrite ?(Hc e eq_refl).
Qed.

Lemma operator_map_order rs o op a b :
  operator_map op = Some (py_order o) ->
  test_condition rs (PStr op) a b = compare_coerced (py_order o) a b.
Proof. intros H. unfold test_condition. by rewrite H. Qed.

Definition order_name (o : cmp_op) : string :=
  match o with OpGt => "gt" | OpLt => "lt" | OpGe => "gte" | OpLe => "lte" end.

Lemma operator_map_order_name o : operator_map (order_name o) = Some (py_order o).
Proof. by destruct o. Qed.

(** A comparison raises nothing but [TypeError]. *)
Lemma py_order_type_error o a : forall b e, py_order o a b = Raise e -> is_type_error e = true.
Proof.
  induction a as [| | | | |l IH|d _] using pyval_nested_ind; intros [] e; cbn [py_order];
    try (by intros [= <-]); try discriminate.
  intros H. revert l0 H. induction IH as [|x l Hx _ IHl]; intros [|y m]; try discriminate.
  destruct (py_eqb x y); [apply IHl | apply Hx].
Qed.

Definition op_pair (pos neg : string) : Prop :=
  (pos, neg) ∈ [("contains", "not_contains"); ("exists", "not_exists");
                ("in", "not_in"); ("is_not_empty", "is_empty")].

(** ** Properties *)

(** The paired operators of a condition node ([contains]/[not_contains],
    [exists]/[not_exists], [in]/[not_in], [is_not_empty]/[is_empty]) are
    complementary on every pair of values: both raise the same exception or
    exactly one of them holds. *)
Theorem condition_operators_complementary rs pos neg actual expected :
  op_pair pos neg ->
  test_condition rs (PStr neg) actual expected =
    negb <$> test_condition rs (PStr pos) actual expected.
Proof.
  unfold op_pair. rewrite list_elem_of_In. cbn [In].
  intros [H|[H|[H|[H|[]]]]]; injection H as <- <-; cbn.
  - destruct (truthy actual); done.
  - by rewrite negb_involutive.
  - done.
  - done.
Qed.

Lemma condition_operators_complementary_witness :
  op_pair "contains" "not_contains"
  /\ test_condition (fun _ _ => None) (PStr "not_contains") (PStr "abc") (PStr "b") = Ok false.
Proof.
  assert (H : op_pair "contains" "not_contains") by left. split; [exact H|].
  rewrite (condition_operators_complementary (fun _ _ => None) "contains" "not_contains"
             (PStr "abc") (PStr "b") H). reflexivity.
Defined.

(** On two values of one type an ordering condition ([gt], [lt], [gte], [lte])
    decides exactly the Python comparison of the values, and an unordered pair
    (two dicts, say) makes it false instead of raising. *)
Theorem order_condition_same_type rs o actual expected :
  same_type actual expected = true ->
  test_condition rs (PStr (order_name o)) actual expected =
    Ok (match py_order o actual expected with Ok r => r | Raise _ => false end).
Proof.
  intros Ht. rewrite (operator_map_order rs o) by apply operator_map_order_name.
  apply compare_coerced_same_type; [done|]. apply py_order_type_error.
Qed.

Lemma order_condition_same_type_witness :
  same_type (PInt 10) (PInt 9) = true
  /\ test_condition (fun _ _ => None) (PStr "gt") (PInt 10) (PInt 9) = Ok true.
Proof.
  split; [reflexivity|].
  exact (order_condition_same_type (fun _ _ => None) OpGt (PInt 10) (PInt 9) eq_refl).
Defined.

(** An int field and the text of the same int satisfy [eq] and [neq] at the
    same time: [eq] succeeds on the coerced values, [neq] on the raw ones. *)
Theorem eq_and_neq_both_hold rs n :
  test_condition rs (PStr "eq") (PInt n) (PStr (str_of_Z n)) = Ok true
  /\ test_condition rs (PStr "neq") (PInt n) (PStr (str_of_Z n)) = Ok true.
Proof.
  split; [|reflexivity]. cbn -[str_of_Z py_eqb parse_int].
  unfold compare_coerced, coerce_types. cbn -[str_of_Z py_eqb parse_int].
  rewrite parse_int_str_of_Z. cbn -[py_eqb]. by rewrite py_eqb_int, Z.eqb_refl.
Qed.

(** A comparison of an int with a float is also made on their texts: the
    condition node finds 10 both greater and less than 9.5, and the trigger
    filter finds 10 not greater than 9.5. *)
Theorem int_float_order_inconsistent rs :
  let f := match parse_float "9.5" with Some f => PFloat f | None => PNone end in
  test_condition rs (PStr "gt") (PInt 10) f = Ok true
  /\ test_condition rs (PStr "lt") (PInt 10) f = Ok true
  /\ test_trigger rs "gt" (PInt 10) f PNone = Ok false.
Proof. vm_compute. done. Qed.

(** The operators other than the comparisons and the membership tests give the
    same verdict in a trigger filter as in a condition node. *)
Theorem trigger_filter_agrees rs op actual expected lv :
  operator_map op = None -> op <> "equals" -> op <> "not_equals" -> op <> "in" ->
  op <> "not_in" ->
  test_trigger rs op actual expected lv = test_condition rs (PStr op) actual expected.
Proof.
  intros Hm H1 H2 H3 H4. unfold test_condition. rewrite Hm. unfold test_trigger.
  unfold operator_map in Hm.
  destruct (String.eqb op "eq"), (String.eqb op "neq"), (String.eqb op "gt"),
    (String.eqb op "lt"), (String.eqb op "gte"), (String.eqb op "lte"); try discriminate.
  apply String.eqb_neq in H1, H2, H3, H4. by rewrite H1, H2, H3, H4.
Qed.

Lemma trigger_filter_agrees_witness :
  test_trigger (fun _ _ => None) "starts_with" (PStr "abc") (PStr "ab") PNone = Ok true.
Proof.
  rewrite (trigger_filter_agrees (fun _ _ => None) "starts_with" (PStr "abc") (PStr "ab") PNone
             eq_refl ltac:(done) ltac:(done) ltac:(done) ltac:(done)).
  reflexivity.
Defined.
