(* ===== verification/Transforms.v ===== *)
(** Field mappings and transforms of the workflow engine: [_resolve_sources],
    [_apply_field_mapping], [_apply_transform], the dry-run mock outputs, the
    truncation of logged values, and the executors built on them
    ([_exec_set_variable], [_exec_response], [_exec_transform],
    [_exec_aggregate]) of [platform/core/workflow_engine.py]. *)

From Stdlib Require Import SpecFloat.
From S2P Require Import Prelude PyText PyFloat PyValue Paths Context.

Local Open Scope string_scope.

(** What matching a user-supplied pattern can give: an error (the pattern does
    not compile, or the time limit passes), no match, or a match with its groups
    ([None]: no such group). *)
Inductive regex_outcome :=
  | RxError
  | RxNoMatch
  | RxMatch (group : pyval -> option pyval).

(** The text library the transforms call with patterns and formats the user
    supplies: [re], [str.format] and [datetime.strptime]/[strftime] ([None] when
    the text does not follow the input format). *)
Record TextLib := {
  rx_search : string -> string -> option bool;
  rx_match : string -> string -> regex_outcome;
  rx_sub : string -> pyval -> string -> res (option string);
  str_format : string -> pyval -> res string;
  reformat_date : string -> pyval -> pyval -> res string
}.

(** ** Mock outputs and helpers *)

(** [_safe_truncate] with its default limit. *)
Definition TRUNCATE_LEN : nat := 2000.
Definition safe_truncate (value : pyval) : pyval :=
  match value with
  | PStr s => if (TRUNCATE_LEN <? String.length s)%nat
              then PStr (str_take TRUNCATE_LEN s ++ "...") else value
  | PDict _ =>
      let s := py_str value in
      if (TRUNCATE_LEN <? String.length s)%nat
      then PDict [("truncated", PBool true); ("preview", PStr (str_take TRUNCATE_LEN s))]
      else value
  | _ => value
  end.

(** [_html_escape]. *)
Definition html_escape (s : string) : string :=
  py_replace (py_replace (py_replace s "&" "&amp;") "<" "&lt;") ">" "&gt;".

Definition is_one_of (s : string) (l : list string) : bool := existsb (String.eqb s) l.

(** [_mock_value_for_type]; every level drops two characters. *)
Fixpoint mock_value_go (fuel : nat) (field_type : string) : pyval :=
  let normalized := py_lower (py_strip field_type) in
  if ends_with "[]" normalized then
    match fuel with
    | O => PList []
    | S fuel' => PList [mock_value_go fuel' (str_slice normalized 0 (Some (-2)%Z))]
    end
  else if is_one_of normalized ["integer"; "int"] then PInt 1
  else if is_one_of normalized ["number"; "float"; "decimal"] then
    PFloat (S754_finite false 4503599627370496 (-52))
  else if is_one_of normalized ["boolean"; "bool"] then PBool true
  else if is_one_of normalized ["object"; "dict"] then PDict []
  else if is_one_of normalized ["string"; "text"; "date"; "datetime"; "uuid"] then
    PStr ("mock_" ++ normalized)
  else PStr "mock_value".

Definition mock_value_for_type (field_type : string) : pyval :=
  mock_value_go (String.length field_type) field_type.

(** The key of [_set_nested] when it is read from a configuration:
    ["[]" in key] needs a string. *)
Definition path_key (v : pyval) : res string :=
  match v with
  | PStr s => Ok s
  | PList _ | PDict _ => Raise (unhashable v)
  | _ => Raise (TypeError ("argument of type '" ++ type_name v ++ "' is not iterable"))
  end.

(** [_build_mock_output]. *)
Definition mock_field (result : dict) (field_def : pyval) : res dict :=
  fd ← as_dict field_def;
  let field_name := dget_or "field" PNone fd in
  let field_type := py_str (dget_or "type" (PStr "string") fd) in
  if negb (truthy field_name) then Ok result
  else key ← path_key field_name;
       set_nested result key (mock_value_for_type field_type) false.

Definition build_mock_output (fields : list pyval) : res dict := foldR mock_field [] fields.

(** ** Single transforms *)

Section Transforms.
Variable lib : TextLib.

(** [f(str(val)) if val is not None else None]. *)
Definition on_text (val : pyval) (f : string -> string) : pyval :=
  match val with PNone => PNone | _ => PStr (f (py_str val)) end.

(** [template]: [{i}] becomes the text of the i-th value. *)
Fixpoint fill_template (tpl : string) (i : nat) (values : list pyval) : string :=
  match values with
  | [] => tpl
  | v :: values' =>
      fill_template (py_replace tpl ("{" ++ str_of_Z (Z.of_nat i) ++ "}") (str_or_empty v))
                    (S i) values'
  end.

Definition transform_template (transform : dict) (values : list pyval) : res pyval :=
  let tpl := dget_or "template" (PStr "") transform in
  match values with
  | [] => Ok tpl
  | _ => t ← str_method "replace" tpl; Ok (PStr (fill_template t 0 values))
  end.

Definition not_none (l : list pyval) : list pyval := List.filter (fun v => negb (is_none v)) l.

Definition transform_join (transform : dict) (values : list pyval) : res pyval :=
  sep ← str_method "join" (dget_or "separator" (PStr " ") transform);
  Ok (PStr (str_join sep (map py_str (not_none values)))).

Definition transform_coalesce (transform : dict) (values : list pyval) : pyval :=
  match not_none values with
  | v :: _ => v
  | [] => dget_or "default_value" PNone transform
  end.

(** [map] and [lookup]. *)
Definition transform_lookup (transform : dict) (val : pyval) : res pyval :=
  table ← dict_method "get"
            (py_or (dget_or "values" PNone transform) (dget_or "table" (PDict []) transform));
  Ok (dget_or (py_str val) (dget_or "default" val transform) table).

Definition is_key_or_index_error (e : pyexn) : bool :=
  match e with KeyError _ | IndexError _ => true | _ => false end.

Definition transform_format (transform : dict) (val : pyval) : res pyval :=
  tpl ← str_method "format" (dget_or "template" (PStr "{0}") transform);
  catch (s ← str_format lib tpl val; Ok (PStr s)) is_key_or_index_error
    (Ok (match val with PNone => PNone | _ => PStr (py_str val) end)).

Definition transform_concat (transform : dict) : res pyval :=
  let separator := dget_or "separator" (PStr "") transform in
  sep ← str_method "join" separator;
  parts ← as_iter (dget_or "parts" (PList []) transform);
  Ok (PStr (str_join sep (map py_str parts))).

Definition transform_split (transform : dict) (val : pyval) : res pyval :=
  match val with
  | PNone => Ok (PList [])
  | _ =>
      match dget_or "separator" (PStr ",") transform with
      | PStr sep => ws ← py_split (py_str val) sep; Ok (PList (map PStr ws))
      | PNone => Ok (PList (map PStr (words (py_str val) "")))
      | v => Raise (TypeError ("must be str or None, not " ++ type_name v))
      end
  end.

Definition replace_arg (n : string) (v : pyval) : res string :=
  match v with
  | PStr s => Ok s
  | _ => Raise (TypeError ("replace() argument " ++ n ++ " must be str, not " ++ type_name v))
  end.

Definition transform_replace (transform : dict) (val : pyval) : res pyval :=
  match val with
  | PNone => Ok PNone
  | _ =>
      old ← replace_arg "1" (dget_or "old" (PStr "") transform);
      new ← replace_arg "2" (dget_or "new" (PStr "") transform);
      Ok (PStr (py_replace (py_str val) old new))
  end.

(** The guards shared by [regex_extract] and [regex_replace]: [None] when the
    value is returned as it is. *)
Definition usable_pattern (transform : dict) (val : pyval) : res (option string) :=
  let pattern := dget_or "pattern" (PStr "") transform in
  if is_none val || negb (truthy pattern) then Ok None
  else match pattern with
       | PStr p => Ok (if (1000 <? String.length p)%nat then None else Some p)
       | PList l => if (1000 <? List.length l)%nat then Ok None else Raise (unhashable pattern)
       | PDict d => if (1000 <? List.length d)%nat then Ok None else Raise (unhashable pattern)
       | _ => Raise (TypeError ("object of type '" ++ type_name pattern ++ "' has no len()"))
       end.

Definition transform_regex_extract (transform : dict) (val : pyval) : res pyval :=
  usable ← usable_pattern transform val;
  match usable with
  | None => Ok val
  | Some p =>
      match rx_match lib p (py_str val) with
      | RxError => Ok val
      | RxNoMatch => Ok PNone
      | RxMatch group =>
          match group (dget_or "group" (PInt 0) transform) with
          | Some g => Ok g
          | None => Ok (default PNone (group (PInt 0)))
          end
      end
  end.

Definition transform_regex_replace (transform : dict) (val : pyval) : res pyval :=
  usable ← usable_pattern transform val;
  match usable with
  | None => Ok val
  | Some p =>
      r ← rx_sub lib p (dget_or "replacement" (PStr "") transform) (py_str val);
      Ok (match r with Some s => PStr s | None => val end)
  end.

Definition fallback_value (transform : dict) (val : pyval) (oc : option WorkflowContext)
  : res pyval :=
  let fallback_field := dget_or "fallback_field" PNone transform in
  match oc with
  | Some c => if truthy fallback_field then resolve_config fallback_field c
              else Ok (dget_or "default" val transform)
  | None => Ok (dget_or "default" val transform)
  end.

Definition transform_field_resolve (transform : dict) (val : pyval)
    (oc : option WorkflowContext) : res pyval :=
  if is_none val || py_eqb val (PStr "") then fallback_value transform val oc
  else match oc with
       | Some c =>
           match resolve_value (py_str val) c with
           | PNone => fallback_value transform val oc
           | v => Ok v
           end
       | None => fallback_value transform val oc
       end.

Definition slice_bound (v : pyval) : res Z :=
  match v with
  | PInt n => Ok n
  | PBool b => Ok (bool_Z b)
  | _ => Raise (TypeError "slice indices must be integers or None or have an __index__ method")
  end.

Definition transform_substring (transform : dict) (val : pyval) : res pyval :=
  let s := str_or_empty val in
  start ← match dget_or "start" (PInt 0) transform with PNone => Ok 0%Z | v => slice_bound v end;
  match dget_or "end" PNone transform with
  | PNone => Ok (PStr (str_slice s start None))
  | e => hi ← slice_bound e; Ok (PStr (str_slice s start (Some hi)))
  end.

Definition transform_date_format (transform : dict) (val : pyval) : res pyval :=
  catch (s ← reformat_date lib (py_str val)
               (dget_or "input_format" (PStr "%Y-%m-%d") transform)
               (dget_or "output_format" (PStr "%d.%m.%Y") transform);
         Ok (PStr s))
    is_value_or_type_error (Ok val).

(** A float combined with an operand that may not be a number. *)
Definition float_op (sym : string) (f : pyfloat -> pyfloat -> pyfloat) (n : pyfloat)
    (operand : pyval) : res pyval :=
  if is_number operand then g ← py_float operand; Ok (PFloat (f n g))
  else match operand with
       | PStr _ | PList _ =>
           if String.eqb sym "*" then Raise (TypeError "can't multiply sequence by non-int of type 'float'")
           else Raise (TypeError ("unsupported operand type(s) for " ++ sym ++ ": 'float' and '"
                                  ++ type_name operand ++ "'"))
       | _ => Raise (TypeError ("unsupported operand type(s) for " ++ sym ++ ": 'float' and '"
                                ++ type_name operand ++ "'"))
       end.

Definition math_op (op : pyval) (n : pyfloat) (operand val : pyval) : res pyval :=
  match op with
  | PStr o =>
      if String.eqb o "add" then float_op "+" fadd n operand
      else if String.eqb o "sub" then float_op "-" fsub n operand
      else if String.eqb o "mul" then float_op "*" fmul n operand
      else if String.eqb o "div" then
        if py_eqb operand (PInt 0) then Ok val else float_op "/" fdiv n operand
      else Ok val
  | _ => Ok val
  end.

(** [float(v)] with [None] for the [ValueError]/[TypeError] the callers catch. *)
Definition try_float (v : pyval) : res (option pyfloat) :=
  catch (f ← py_float v; Ok (Some f)) is_value_or_type_error (Ok None).

Definition transform_math (transform : dict) (val : pyval) (oc : option WorkflowContext)
  : res pyval :=
  let op := dget_or "operation" (PStr "add") transform in
  let operand_field := dget_or "operand_field" PNone transform in
  let with_operand operand :=
    on ← try_float val;
    match on with None => Ok val | Some n => math_op op n operand val end in
  match oc with
  | Some c =>
      if truthy operand_field then
        resolved ← resolve_config operand_field c;
        og ← try_float resolved;
        match og with None => Ok val | Some g => with_operand (PFloat g) end
      else with_operand (dget_or "operand" (PInt 0) transform)
  | None => with_operand (dget_or "operand" (PInt 0) transform)
  end.

Definition try_int (val : pyval) : res pyval :=
  catch (n ← py_int val; Ok (PInt n)) is_value_or_type_error (Ok val).

(** The transforms of one value [val]. *)
Definition transform_single (t : string) (transform : dict) (val : pyval)
    (oc : option WorkflowContext) : res pyval :=
  if is_one_of t ["map"; "lookup"] then transform_lookup transform val
  else if String.eqb t "format" then transform_format transform val
  else if String.eqb t "uppercase" then Ok (on_text val py_upper)
  else if String.eqb t "lowercase" then Ok (on_text val py_lower)
  else if String.eqb t "to_int" then try_int val
  else if String.eqb t "to_float" then
    on ← try_float val; Ok (match on with Some f => PFloat f | None => val end)
  else if String.eqb t "to_string" then Ok (on_text val id)
  else if String.eqb t "default" then
    Ok (match val with PNone => dget_or "default_value" PNone transform | _ => val end)
  else if String.eqb t "concat" then transform_concat transform
  else if String.eqb t "split" then transform_split transform val
  else if String.eqb t "trim" then Ok (on_text val py_strip)
  else if String.eqb t "replace" then transform_replace transform val
  else if String.eqb t "regex_extract" then transform_regex_extract transform val
  else if String.eqb t "field_resolve" then transform_field_resolve transform val oc
  else if String.eqb t "regex_replace" then transform_regex_replace transform val
  else if String.eqb t "substring" then transform_substring transform val
  else if String.eqb t "date_format" then transform_date_format transform val
  else if String.eqb t "math" then transform_math transform val oc
  else if String.eqb t "prepend" then
    Ok (on_text val (fun s => py_str (dget_or "value" (PStr "") transform) ++ s))
  else if String.eqb t "append" then
    Ok (on_text val (fun s => s ++ py_str (dget_or "value" (PStr "") transform)))
  else Ok val.

(** [_apply_transform]. *)
Definition apply_transform (values : list pyval) (transform : pyval)
    (oc : option WorkflowContext) : res pyval :=
  tr ← as_dict transform;
  let val := match values with v :: _ => v | [] => PNone end in
  match dget_or "type" (PStr "") tr with
  | PStr t =>
      if String.eqb t "template" then transform_template tr values
      else if String.eqb t "join" then transform_join tr values
      else if String.eqb t "coalesce" then Ok (transform_coalesce tr values)
      else transform_single t tr val oc
  | _ => Ok val
  end.

(** ** Field mappings *)

(** [_resolve_sources]. *)
Definition resolve_sources (m : dict) (c : WorkflowContext) : res (list pyval) :=
  let sources := dget_or "sources" (PList []) m in
  let from_field := dget_or "from" (PStr "") m in
  if truthy sources then
    ss ← as_iter sources; mapR (fun s => resolve_config s c) ss
  else if negb (truthy from_field) then Ok []
  else if py_eqb from_field (PStr "__custom__") then Ok [dget_or "from_custom" (PStr "") m]
  else v ← resolve_config from_field c; Ok [v].

(** The target of a rule: [to], or [to_custom]. *)
Definition target_field (m : dict) : pyval :=
  let to_field := dget_or "to" (PStr "") m in
  if py_eqb to_field (PStr "__custom__") then dget_or "to_custom" (PStr "") m else to_field.

(** The transform pipeline of a rule. *)
Definition run_pipeline (steps : list pyval) (resolved : list pyval) (c : WorkflowContext)
  : res (list pyval) :=
  foldR (fun pipe step => v ← apply_transform pipe step (Some c); Ok [v]) resolved steps.

Definition mapped_value (m : dict) (resolved : list pyval) (c : WorkflowContext) : res pyval :=
  let raw_transform := dget_or "transform" PNone m in
  if truthy raw_transform then
    let steps := match raw_transform with PList l => l | v => [v] end in
    pipe ← run_pipeline steps resolved c;
    Ok (match pipe with v :: _ => v | [] => PNone end)
  else match resolved with
       | [v] => Ok v
       | _ => Ok (PStr (str_join " " (map py_str (not_none resolved))))
       end.

(** The state of the mapping loop: the result, and the texts concatenated to
    [body_text] and to [subject]. *)
Record mapping_state := Mapping {
  ms_result : dict;
  ms_body_extras : list string;
  ms_subject_extras : list string
}.

Definition note_extra (is_concat : bool) (to_field : string) (value : pyval)
    (st : mapping_state) : mapping_state :=
  if is_concat && (is_str value || is_number value) then
    if String.eqb to_field "body_text" then
      Mapping (ms_result st) (ms_body_extras st ++ [py_str value]) (ms_subject_extras st)
    else if String.eqb to_field "subject" then
      Mapping (ms_result st) (ms_body_extras st) (ms_subject_extras st ++ [py_str value])
    else st
  else st.

(** One rule of [_apply_field_mapping]. *)
Definition apply_rule (c : WorkflowContext) (st : mapping_state) (rule : pyval)
  : res mapping_state :=
  m ← as_dict rule;
  let to_field := target_field m in
  if negb (truthy to_field) then Ok st
  else
    resolved ← resolve_sources m c;
    if negb (truthy (PList resolved)) && negb (truthy (dget_or "from" (PStr "") m))
       && negb (truthy (dget_or "sources" PNone m)) then Ok st
    else
      value ← mapped_value m resolved c;
      match value with
      | PNone => Ok st
      | _ =>
          key ← path_key to_field;
          result ← set_nested (ms_result st) key value true;
          Ok (note_extra (dhas key (ms_result st)) key value
                (Mapping result (ms_body_extras st) (ms_subject_extras st)))
      end.

Definition newlines (n : nat) : string := string_of_list_ascii (repeat newline n).

(** [for e in extras: original = original.replace(f"{e} ", "", 1)]. *)
Definition drop_extras (extras : list string) (original : string) : string :=
  fold_left (fun o e => replace_first o (e ++ " ") "") extras original.

Definition place_body_text (extras : list string) (result : dict) : res dict :=
  match extras, dget "body_text" result with
  | _ :: _, Some original =>
      o ← str_method "replace" original;
      Ok (dset "body_text"
            (PStr (str_join (newlines 2) extras ++ newlines 2 ++ "---" ++ newlines 2
                   ++ drop_extras extras o)) result)
  | _, _ => Ok result
  end.

Definition html_extra (e : string) : string :=
  "<div style=" ++ str1 dquote
  ++ "background:#f0f4ff;border-left:4px solid #1565c0;padding:12px;margin-bottom:16px;font-family:sans-serif;"
  ++ str1 dquote ++ "><strong>AI:</strong> " ++ html_escape e ++ "</div>".

Definition place_body_html (extras : list string) (result : dict) : res dict :=
  match extras, dget "body_html" result with
  | _ :: _, Some html =>
      if truthy html then
        match html with
        | PStr h => Ok (dset "body_html" (PStr (str_join "" (map html_extra extras) ++ h)) result)
        | v => Raise (TypeError ("can only concatenate str (not " ++ str1 dquote ++ type_name v
                                 ++ str1 dquote ++ ") to str"))
        end
      else Ok result
  | _, _ => Ok result
  end.

Definition place_subject (extras : list string) (result : dict) : res dict :=
  match extras, dget "subject" result with
  | _ :: _, Some subject =>
      s ← str_method "replace" subject;
      Ok (dset "subject"
            (PStr ("[" ++ str_join " | " extras ++ "] " ++ py_strip (drop_extras extras s))) result)
  | _, _ => Ok result
  end.

(** [_apply_field_mapping]. *)
Definition apply_field_mapping (mappings : pyval) (c : WorkflowContext) : res dict :=
  rules ← as_iter mappings;
  st ← foldR (apply_rule c) (Mapping [] [] []) rules;
  r1 ← place_body_text (ms_body_extras st) (ms_result st);
  r2 ← place_body_html (ms_body_extras st) r1;
  place_subject (ms_subject_extras st) r2.

(** ** Executors of data nodes *)

(** [_exec_transform]. *)
Definition exec_transform (config : dict) (c : WorkflowContext) : res dict :=
  result ← apply_field_mapping (dget_or "mappings" (PList []) config) c;
  expressions ← dict_method "items" (dget_or "expressions" (PDict []) config);
  Ok (fold_left (fun r kv => dset kv.1 (evaluate_expression kv.2 c) r) expressions result).

End Transforms.

(** A value written as a whole placeholder ([set_variable], sub-workflow inputs,
    batch sources). *)
Definition braced_path (v : pyval) : option string :=
  match v with PStr s => if is_braced s then Some (unwrap_braces s) else None | _ => None end.

(** The value of [_exec_set_variable]. *)
Definition variable_value (value_expr : pyval) (c : WorkflowContext) : pyval :=
  match braced_path value_expr with
  | Some p => resolve_value p c
  | None => match value_expr with
            | PDict _ | PList _ => interpolate_dict value_expr c
            | v => v
            end
  end.

(** [_exec_set_variable]; variable names are strings (a key of another hashable
    type is one no path reads). *)
Definition exec_set_variable (config : dict) (c : WorkflowContext)
  : res (dict * WorkflowContext) :=
  let resolved := variable_value (dget_or "value" (PStr "") config) c in
  match dget_or "variable_name" (PStr "") config with
  | PStr n => Ok ([("variable", PStr n); ("value", resolved)], set_variable n resolved c)
  | (PList _ | PDict _) as v => Raise (unhashable v)
  | v => Ok ([("variable", v); ("value", resolved)], c)
  end.

(** [_exec_response]. *)
Definition exec_response (config : dict) (c : WorkflowContext) : pyval :=
  let body_template := dget_or "body" (PDict []) config in
  if truthy body_template then interpolate_dict body_template c else PDict (data c).

(** ** Aggregation of branch results *)

(** [p.get(price_field)] as a number greater than zero. *)
Definition positive_price (price_field : pyval) (p : dict) : res bool :=
  v ← dict_get price_field PNone p;
  if is_number v then py_order OpGt v (PInt 0) else Ok false.

Definition price_of (price_field : string) (p : dict) : pyval := dget_or price_field PNone p.

(** [a < b] on prices already known to be numbers. *)
Definition price_lt (price_field : string) (p q : dict) : bool :=
  match py_order OpLt (price_of price_field p) (price_of price_field q) with
  | Ok b => b
  | Raise _ => false
  end.

(** [p["_branch_id"] = ...; p["_source"] = p.get("attributes", {}).get("source", ...)]:
    the product as mutated so far, and the exception if the second raises. *)
Definition mark_product (branch_id : string) (p : dict) : dict * option pyexn :=
  let p1 := dset "_branch_id" (PStr branch_id) p in
  match dget_or "attributes" (PDict []) p1 with
  | PDict attributes => (dset "_source" (dget_or "source" (PStr branch_id) attributes) p1, None)
  | v => (p1, Some (no_attribute "get" v))
  end.

(** The products of one branch, marked in place, and those collected. *)
Fixpoint mark_products (branch_id : string) (products : list pyval)
  : list pyval * list dict * option pyexn :=
  match products with
  | [] => ([], [], None)
  | PDict p :: rest =>
      match mark_product branch_id p with
      | (p', Some e) => (PDict p' :: rest, [], Some e)
      | (p', None) =>
          let '(rest', flat, err) := mark_products branch_id rest in
          (PDict p' :: rest', p' :: flat, err)
      end
  | v :: rest =>
      let '(rest', flat, err) := mark_products branch_id rest in (v :: rest', flat, err)
  end.

Definition mark_branch (branch_id : string) (branch_output : pyval)
  : pyval * list dict * option pyexn :=
  match branch_output with
  | PDict o =>
      match dget "products" o with
      | Some (PList products) =>
          let '(products', flat, err) := mark_products branch_id products in
          (PDict (dset "products" (PList products') o), flat, err)
      | _ => (branch_output, [], None)
      end
  | _ => (branch_output, [], None)
  end.

Fixpoint mark_branches (parallel_results : dict) : dict * list dict * option pyexn :=
  match parallel_results with
  | [] => ([], [], None)
  | (branch_id, o) :: rest =>
      match mark_branch branch_id o with
      | (o', flat, Some e) => ((branch_id, o') :: rest, flat, Some e)
      | (o', flat, None) =>
          let '(rest', flat', err) := mark_branches rest in
          ((branch_id, o') :: rest', (flat ++ flat')%list, err)
      end
  end.

Definition products_value (l : list dict) : pyval := PList (map PDict l).

(** The dict [min_price] and [max_price] return on a non-empty list [valid]. *)
Definition price_winner (prefix : string) (with_name : bool) (price_field : string)
    (name_field : pyval) (valid : list dict) (winner : dict) : res dict :=
  names ← (if with_name then
             name ← dict_get name_field (PStr "") winner; Ok [((prefix ++ "_name")%string, name)]
           else Ok []);
  Ok (([("aggregated", products_value valid); ("winner", PDict winner);
        ((prefix ++ "_price")%string, price_of price_field winner);
        ((prefix ++ "_source")%string, dget_or "_source" (PStr "") winner)] : dict)
      ++ names
      ++ [("total_results", PInt (Z.of_nat (List.length valid)))])%list.

Definition first_product (flat : list dict) : dict :=
  [("aggregated", products_value flat);
   ("winner", match flat with p :: _ => PDict p | [] => PNone end);
   ("total_results", PInt (Z.of_nat (List.length flat)))].

Definition no_products : dict := [("aggregated", PList []); ("winner", PNone)].

(** The products with a positive price. *)
Fixpoint with_positive_price (price_field : pyval) (flat : list dict) : res (list dict) :=
  match flat with
  | [] => Ok []
  | p :: flat' =>
      keep ← positive_price price_field p;
      rest ← with_positive_price price_field flat';
      Ok (if (keep : bool) then p :: rest else rest)
  end.

(** The strategies, on the products collected. *)
Definition pick_product (strategy : pyval) (price_field name_field : pyval) (flat : list dict)
  : res dict :=
  let sorted prefix with_name lt :=
    valid ← with_positive_price price_field flat;
    match price_field, stable_sort (lt (match price_field with PStr s => s | _ => "" end)) valid with
    | PStr f, winner :: _ as sorted =>
        price_winner prefix with_name f name_field sorted winner
    | _, _ => Ok (first_product flat)
    end in
  if py_eqb strategy (PStr "min_price") then sorted "cheapest" true price_lt
  else if py_eqb strategy (PStr "max_price") then
    sorted "highest" false (fun f p q => price_lt f q p)
  else if py_eqb strategy (PStr "concat") then
    Ok [("aggregated", products_value flat); ("winner", PNone);
        ("total_results", PInt (Z.of_nat (List.length flat)))]
  else Ok (first_product flat).

(** [_exec_aggregate]: the result, and the context whose [source_var] holds the
    products as they were marked. *)
Definition exec_aggregate (config : dict) (c : WorkflowContext) : res dict * WorkflowContext :=
  let strategy := dget_or "strategy" (PStr "min_price") config in
  let price_field := dget_or "price_field" (PStr "price") config in
  let name_field := dget_or "name_field" (PStr "name") config in
  match dget_or "source_variable" (PStr "parallel_results") config with
  | (PList _ | PDict _) as v => (Raise (unhashable v), c)
  | PStr source_var =>
      let parallel_results := dget_or source_var (PDict []) (variables c) in
      if negb (truthy parallel_results) then (Ok no_products, c)
      else match parallel_results with
           | PDict branches =>
               let '(branches', flat, err) := mark_branches branches in
               let c' := set_variable source_var (PDict branches') c in
               match err, flat with
               | Some e, _ => (Raise e, c')
               | None, [] => (Ok no_products, c')
               | None, _ => (pick_product strategy price_field name_field flat, c')
               end
           | v => (Raise (no_attribute "items" v), c)
           end
  | _ => (Ok no_products, c)
  end.

(** ** Facts *)

(** Replacing one character rewrites the string character by character. *)
Fixpoint subst_char (c : ascii) (new s : string) : string :=
  match s with
  | EmptyString => EmptyString
  | String a s' => (if Ascii.eqb a c then new else str1 a) ++ subst_char c new s'
  end.

Lemma split_go_char n c new s cur :
  (String.length s < n)%nat ->
  str_join new (split_go n (str1 c) s cur) = str_rev cur ++ subst_char c new s.
Proof.
  revert s cur. induction n as [|n IH]; intros s cur Hn; [lia|].
  destruct s as [|a s]; cbn [split_go subst_char].
  { cbn [str_join]. by rewrite str_app_nil_r. }
  cbn [String.length] in Hn. cbn [str1 starts_with]. rewrite andb_true_r, Ascii.eqb_sym.
  destruct (Ascii.eqb a c).
  - change (str_drop (String.length (str1 c)) (String a s)) with s.
    pose proof (split_go_nonempty n (str1 c) s "") as Hne. specialize (IH s "" ltac:(lia)).
    destruct (split_go n (str1 c) s "") as [|w ws]; [by destruct Hne|].
    by rewrite str_join_cons, IH.
  - fold (str1 c). rewrite IH by lia. rewrite str_rev_cons, <-str_app_assoc. done.
Qed.

Lemma py_replace_char c new s : py_replace s (str1 c) new = subst_char c new s.
Proof. unfold py_replace. cbn [String.eqb str1]. fold (str1 c). rewrite split_go_char by lia. done. Qed.

(** The reference escaping: one pass, each character on its own. *)
Definition escape_char (a : ascii) : string :=
  if Ascii.eqb a "&" then "&amp;"
  else if Ascii.eqb a "<" then "&lt;"
  else if Ascii.eqb a ">" then "&gt;"
  else str1 a.

Fixpoint escape_text (s : string) : string :=
  match s with
  | EmptyString => EmptyString
  | String a s' => escape_char a ++ escape_text s'
  end.

Lemma escape_char_safe a : no_char "<" (escape_char a) = true /\ no_char ">" (escape_char a) = true.
Proof. by destruct a as [[] [] [] [] [] [] [] []]; vm_compute. Qed.

Lemma subst_char_app c new s t : subst_char c new (s ++ t) = subst_char c new s ++ subst_char c new t.
Proof. induction s as [|a s IH]; cbn; [done|]. by rewrite IH, str_app_assoc. Qed.

(** [add] and friends never see the price of a value that is not a number. *)
Lemma positive_price_str f p : is_ok (positive_price (PStr f) p) = true.
Proof.
  unfold positive_price. cbn [dict_get mbind res_bind].
  by destruct (dget_or f PNone p).
Qed.

Lemma with_positive_price_spec f flat :
  exists valid, with_positive_price (PStr f) flat = Ok valid
    /\ forall p, p ∈ valid <-> p ∈ flat /\ positive_price (PStr f) p = Ok true.
Proof.
  induction flat as [|p flat (valid & Hv & IH)].
  { exists []. split; [done|]. intros p. split; [by intros ?%not_elem_of_nil | by intros [?%not_elem_of_nil ?]]. }
  pose proof (positive_price_str f p) as Hok. cbn [with_positive_price]. rewrite Hv.
  destruct (positive_price (PStr f) p) as [[]|] eqn:E; [| |done].
  - exists (p :: valid). split; [done|]. intros q. rewrite !elem_of_cons, IH.
    split; [intros [->|]; tauto | tauto].
  - exists valid. split; [done|]. intros q. rewrite elem_of_cons, IH.
    split; [tauto|]. intros [[->|] ?]; [congruence|tauto].
Qed.

Lemma positive_price_value f p :
  positive_price (PStr f) p = Ok true -> exists x, num_value (price_of f p) = Some x.
Proof.
  unfold positive_price, price_of. cbn [dict_get mbind res_bind].
  destruct (dget_or f PNone p) as [|b|n|g| | |]; try discriminate; simpl; eauto.
  unfold num_cmp. simpl. destruct (float_value g); [eauto|discriminate].
Qed.

Lemma price_lt_value f p q x y :
  num_value (price_of f p) = Some x -> num_value (price_of f q) = Some y ->
  price_lt f p q = match xcompare x y with Lt => true | _ => false end.
Proof.
  intros Hx Hy. unfold price_lt.
  assert (Hn : forall v z, num_value v = Some z -> is_number v = true) by (intros []; done).
  pose proof (Hn _ _ Hx) as Hnx. pose proof (Hn _ _ Hy) as Hny.
  assert (Ho : py_order OpLt (price_of f p) (price_of f q)
               = Ok (cmp_holds OpLt (num_cmp (price_of f p) (price_of f q)))).
  { destruct (price_of f p), (price_of f q); done. }
  rewrite Ho. unfold num_cmp. rewrite Hx, Hy. by destruct (xcompare x y).
Qed.

Lemma price_lt_asym f a b :
  (exists x, num_value (price_of f a) = Some x) -> (exists y, num_value (price_of f b) = Some y) ->
  price_lt f a b = true -> price_lt f b a = false.
Proof.
  intros [x Hx] [y Hy]. rewrite (price_lt_value f a b x y), (price_lt_value f b a y x) by done.
  rewrite (xcompare_antisym x y). by destruct (xcompare x y).
Qed.

Lemma price_ge_trans f a b c :
  (exists x, num_value (price_of f a) = Some x) -> (exists y, num_value (price_of f b) = Some y) ->
  (exists z, num_value (price_of f c) = Some z) ->
  price_lt f b a = false -> price_lt f c b = false -> price_lt f c a = false.
Proof.
  intros [x Hx] [y Hy] [z Hz].
  rewrite (price_lt_value f b a y x), (price_lt_value f c b z y), (price_lt_value f c a z x) by done.
  intros H1 H2. destruct (xcompare z x) eqn:E; try done.
  assert (Hxy : xcompare x y <> Gt).
  { rewrite xcompare_antisym. destruct (xcompare y x); done. }
  by rewrite (xcompare_lt_trans z x y E Hxy) in H2.
Qed.

(** ** Renaming rules *)

(** A target written at the top level of the result. *)
Definition plain_target (k : string) : bool :=
  no_char "." k && match split_brackets k with None => true | Some _ => false end
  && negb (String.eqb k "") && negb (String.eqb k "__custom__").

Definition rename_rule (r : string * string) : pyval :=
  PDict [("from", PStr r.1); ("to", PStr r.2)].

(** The dict a list of renaming rules is meant to build. *)
Definition renamed (c : WorkflowContext) (rules : list (string * string)) : dict :=
  List.filter (fun kv => negb (is_none kv.2)) (map (fun r => (r.2, resolve_value r.1 c)) rules).

Lemma split_char_none ch s : no_char ch s = true -> split_char ch s = [s].
Proof.
  unfold no_char. induction s as [|a s IH]; [done|]. cbn.
  intros [Ha Hs]%andb_true_iff. destruct (Ascii.eqb a ch); [done|]. by rewrite IH.
Qed.

Lemma plain_target_split k :
  plain_target k = true ->
  split_brackets k = None /\ split_char "." k = [k] /\ k <> "" /\ String.eqb k "__custom__" = false.
Proof.
  unfold plain_target. rewrite !andb_true_iff. intros [[[H1 H2] H3] H4].
  destruct (split_brackets k); [done|]. split; [done|]. split; [by apply split_char_none|].
  split; [by intros ->|]. by destruct (String.eqb k "__custom__").
Qed.

Lemma set_nested_top d k v :
  plain_target k = true -> dhas k d = false ->
  set_nested d k v true = Ok (d ++ [(k, v)])%list.
Proof.
  intros Hk Hd. apply plain_target_split in Hk as (Hb & Hs & _).
  unfold set_nested. rewrite set_nested_go_plain by done. rewrite Hs. cbn.
  unfold dhas in Hd. destruct (dget k d) as [|] eqn:E; [done|]. do 2 f_equal.
  clear Hd. induction d as [|[k' v'] d IH]; [done|]. cbn in *.
  destruct (String.eqb k k'); [done|]. by rewrite IH.
Qed.

Lemma apply_rename_rule lib c r st :
  plain_target r.2 = true -> r.1 <> "" -> r.1 <> "__custom__" ->
  dhas r.2 (ms_result st) = false ->
  apply_rule lib c st (rename_rule r) =
    Ok (Mapping (ms_result st ++ renamed c [r]) (ms_body_extras st) (ms_subject_extras st))%list.
Proof.
  destruct r as [from to], st as [d be se]. cbn [fst snd ms_result]. intros Hp Hf Hc Hd.
  pose proof (plain_target_split _ Hp) as (_ & _ & Hne & Hcu).
  apply String.eqb_neq in Hf, Hc, Hne.
  assert (Ht : target_field [("from", PStr from); ("to", PStr to)] = PStr to).
  { unfold target_field, dget_or. cbn -[String.eqb]. cbn. by rewrite Hcu. }
  assert (Hs : resolve_sources [("from", PStr from); ("to", PStr to)] c = Ok [resolve_value from c]).
  { unfold resolve_sources, dget_or. cbn. rewrite Hf. cbn.
    rewrite Hc. unfold resolve_config. cbn. by rewrite Hf. }
  unfold apply_rule. cbn [rename_rule as_dict fst snd mbind res_bind]. rewrite Ht, Hs.
  cbn [truthy mbind res_bind]. rewrite Hne. cbn [negb List.length Nat.eqb andb].
  unfold mapped_value, dget_or. cbn [dget String.eqb Ascii.eqb Bool.eqb truthy mbind res_bind].
  unfold renamed. cbn [map fst snd List.filter].
  destruct (resolve_value from c) eqn:E; cbn [is_none negb path_key mbind res_bind ms_result];
    [by rewrite app_nil_r|..];
    rewrite set_nested_top by done; cbn [mbind res_bind ms_body_extras ms_subject_extras];
    unfold note_extra; by rewrite Hd.
Qed.

Lemma renamed_keys c rules k : k ∈ dkeys (renamed c rules) -> k ∈ map snd rules.
Proof.
  unfold renamed, dkeys. rewrite !list_elem_of_In, !in_map_iff.
  intros ([k' v] & <- & [Hin _]%filter_In). apply in_map_iff in Hin as (r & [= <- <-] & Hr). eauto.
Qed.

Lemma dhas_dkeys {V} k (d : list (string * V)) : k ∉ dkeys d -> dhas k d = false.
Proof. intros H%dget_None. unfold dhas. by rewrite H. Qed.

Lemma rename_rules_fold lib c rules : forall st,
  NoDup (map snd rules) ->
  (forall r, r ∈ rules -> plain_target r.2 = true /\ r.1 <> "" /\ r.1 <> "__custom__"
                          /\ r.2 ∉ dkeys (ms_result st)) ->
  foldR (apply_rule lib c) st (map rename_rule rules) =
    Ok (Mapping (ms_result st ++ renamed c rules) (ms_body_extras st) (ms_subject_extras st))%list.
Proof.
  induction rules as [|r rules IH]; intros st Hnd H; cbn [map foldR].
  - destruct st. cbn. by rewrite app_nil_r.
  - cbn in Hnd. apply list.NoDup_cons in Hnd as [Hni Hnd].
    destruct (H r) as (Hp & Hf & Hc & Hk); [left|].
    rewrite apply_rename_rule by (done || by apply dhas_dkeys). cbn [mbind res_bind].
    rewrite IH; [|done|].
    + cbn [ms_result ms_body_extras ms_subject_extras]. rewrite <-app_assoc. do 3 f_equal.
      unfold renamed. cbn [map List.filter]. by destruct (negb _).
    + intros r' Hr'. destruct (H r') as (Hp' & Hf' & Hc' & Hk'); [by right|].
      split_and!; try done. cbn [ms_result]. unfold dkeys. rewrite map_app. rewrite elem_of_app.
      intros [?|Hin]; [done|]. apply renamed_keys in Hin. cbn in Hin.
      apply list_elem_of_singleton in Hin. apply Hni. rewrite <-Hin.
      apply list_elem_of_In, in_map, list_elem_of_In. done.
Qed.

(** ** Properties *)

(** Escaping text for the HTML body rewrites each character on its own (no
    character is escaped twice), and the result holds no angle bracket: a text an
    AI step produced cannot open a tag in the mail. *)
Theorem html_escape_safe s :
  html_escape s = escape_text s
  /\ no_char "<" (html_escape s) = true /\ no_char ">" (html_escape s) = true.
Proof.
  assert (H : html_escape s = escape_text s).
  { unfold html_escape. change "&" with (str1 "&"). change "<" with (str1 "<"). change ">" with (str1 ">").
    rewrite !py_replace_char. induction s as [|a s IH]; [done|].
    cbn [subst_char escape_text]. rewrite !subst_char_app, IH. f_equal. unfold escape_char.
    destruct (Ascii.eqb_spec a "&") as [->|]; [done|]. cbn.
    destruct (Ascii.eqb_spec a "<") as [->|]; [done|]. cbn.
    by destruct (Ascii.eqb_spec a ">") as [->|]. }
  split; [done|]. rewrite H. unfold no_char. clear H.
  split; induction s as [|a s IH]; try done; cbn [escape_text]; rewrite str_forall_app, IH, andb_true_r;
    apply escape_char_safe.
Qed.

(** A field mapping made of plain renaming rules with distinct targets builds
    exactly the dict that sends each target to the value of its source, in the
    order of the rules, leaving out the sources that are missing or null. *)
Theorem field_mapping_renames lib c rules :
  NoDup (map snd rules) ->
  (forall r, r ∈ rules -> plain_target r.2 = true /\ r.1 <> "" /\ r.1 <> "__custom__") ->
  apply_field_mapping lib (PList (map rename_rule rules)) c = Ok (renamed c rules).
Proof.
  intros Hnd H. unfold apply_field_mapping. cbn [as_iter mbind res_bind].
  rewrite rename_rules_fold; [|done|].
  - done.
  - intros r Hr. destruct (H r Hr) as (? & ? & ?). split_and!; try done. apply not_elem_of_nil.
Qed.

Definition no_lib : TextLib :=
  {| rx_search := fun _ _ => None; rx_match := fun _ _ => RxError; rx_sub := fun _ _ _ => Ok None;
     str_format := fun _ _ => Raise (KeyError ""); reformat_date := fun _ _ _ => Raise (ValueError "") |}.

Lemma field_mapping_renames_witness :
  let c := new_context [("order", PDict [("id", PInt 7); ("note", PNone)])] in
  let rules := [("order.id", "ref"); ("order.note", "note"); ("order.missing", "x")] in
  apply_field_mapping no_lib (PList (map rename_rule rules)) c = Ok [("ref", PInt 7)].
Proof.
  intros c rules. rewrite (field_mapping_renames no_lib c rules); [reflexivity| |].
  - refine (bool_decide_eq_true_1 (NoDup (map snd rules)) _). reflexivity.
  - intros r Hr. unfold rules in Hr. rewrite !elem_of_cons in Hr.
    destruct Hr as [->|[->|[->|Hr]]]; [split_and!; done|split_and!; done|split_and!; done|].
    by apply not_elem_of_nil in Hr.
Defined.

(** The [min_price] aggregation over products of which one has a positive price
    returns as winner a collected product with a positive price that no other
    such product beats, int and float prices being compared exactly. *)
Theorem aggregate_min_price f name flat p0 :
  p0 ∈ flat -> positive_price (PStr f) p0 = Ok true ->
  exists w r,
    pick_product (PStr "min_price") (PStr f) (PStr name) flat = Ok r
    /\ dget "winner" r = Some (PDict w)
    /\ w ∈ flat /\ positive_price (PStr f) w = Ok true
    /\ (forall p, p ∈ flat -> positive_price (PStr f) p = Ok true -> price_lt f p w = false).
Proof.
  intros Hin Hpos. destruct (with_positive_price_spec f flat) as (valid & Hv & Hspec).
  unfold pick_product. cbn -[with_positive_price price_winner stable_sort price_lt].
  rewrite Hv. cbn -[price_winner stable_sort price_lt].
  destruct (stable_sort (price_lt f) valid) as [|w sorted] eqn:Es.
  { exfalso. assert (Hp0 : p0 ∈ valid) by by apply Hspec.
    rewrite <-(stable_sort_perm (price_lt f) valid), Es in Hp0. by apply not_elem_of_nil in Hp0. }
  assert (Hw : w ∈ valid). { rewrite <-(stable_sort_perm (price_lt f) valid), Es. left. }
  pose proof (proj1 (Hspec w) Hw) as [Hwf Hwp].
  exists w. eexists. split; [reflexivity|]. split; [done|]. split; [done|]. split; [done|].
  intros p Hp1 Hp2. eapply stable_sort_hd; [| |exact Es|by apply Hspec].
  - intros a b Ha Hb. apply price_lt_asym; eapply positive_price_value; by apply Hspec.
  - intros a b d Ha Hb Hd. apply price_ge_trans; eapply positive_price_value; by apply Hspec.
Qed.

Lemma aggregate_min_price_witness :
  let p := [("name", PStr "a"); ("price", PInt 12)] in
  let q := [("name", PStr "b"); ("price", PInt 9)] in
  positive_price (PStr "price") p = Ok true
  /\ exists w r, pick_product (PStr "min_price") (PStr "price") (PStr "name") [p; q] = Ok r
       /\ dget "winner" r = Some (PDict w)
       /\ w ∈ [p; q] /\ positive_price (PStr "price") w = Ok true
       /\ (forall x, x ∈ [p; q] -> positive_price (PStr "price") x = Ok true
           -> price_lt "price" x w = false).
Proof.
  intros p q. split; [reflexivity|].
  exact (aggregate_min_price "price" "name" [p; q] p (list_elem_of_here p [q]) eq_refl).
Defined.
