(* ===== verification/Regex.v ===== *)
(** The fixed regular expressions of the platform ([re] of the Standard
    Library): an abstract syntax, a backtracking matcher that lists the matches
    in the order Python prefers them, and [search], [fullmatch], [findall] and
    [sub] on it. *)

From S2P Require Import Prelude PyText.

Local Open Scope string_scope.

Inductive re :=
  | RChar (p : ascii -> bool)
  | RSeq (a b : re)
  | RAlt (a b : re)
  | RRep (r : re) (lo : nat) (hi : option nat) (greedy : bool)
  | RWordBoundary
  | RNotBehind (p : ascii -> bool)
  | RNotAhead (p : ascii -> bool)
  | REnd
  | REmpty.

(** A position: the character before it, and the text after it. *)
Definition position : Type := option ascii * string.

Definition is_word (c : ascii) : bool := is_alnum c || Ascii.eqb c "_".

Definition char_after (s : string) : option ascii :=
  match s with String c _ => Some c | EmptyString => None end.

Definition holds_at (p : ascii -> bool) (o : option ascii) : bool :=
  match o with Some c => p c | None => false end.

(** The repetitions of [one], [lo] to [hi] times; the fuel bounds the number of
    repetitions by the length of the text, every repeated expression of the
    platform consuming at least one character. *)
Fixpoint repeat_ends (fuel : nat) (one : position -> list position) (lo : nat)
    (hi : option nat) (greedy : bool) (st : position) : list position :=
  match fuel with
  | O => match lo with O => [st] | S _ => [] end
  | S fuel' =>
      let more :=
        match hi with
        | Some O => []
        | _ => flat_map (repeat_ends fuel' one (Nat.pred lo) (Nat.pred <$> hi) greedy) (one st)
        end in
      match lo with
      | O => if greedy then (more ++ [st])%list else st :: more
      | S _ => more
      end
  end.

(** The ends of the matches of [r] that start at a position, preferred first. *)
Fixpoint match_ends (r : re) (st : position) : list position :=
  match r with
  | RChar p =>
      match st.2 with
      | String c s => if p c then [(Some c, s)] else []
      | EmptyString => []
      end
  | RSeq a b => flat_map (match_ends b) (match_ends a st)
  | RAlt a b => (match_ends a st ++ match_ends b st)%list
  | RRep r' lo hi greedy =>
      repeat_ends (S (String.length st.2)) (match_ends r') lo hi greedy st
  | RWordBoundary =>
      if xorb (holds_at is_word st.1) (holds_at is_word (char_after st.2)) then [st] else []
  | RNotBehind p => if holds_at p st.1 then [] else [st]
  | RNotAhead p => if holds_at p (char_after st.2) then [] else [st]
  | REnd => if String.eqb st.2 "" || String.eqb st.2 (str1 (ascii_of_nat 10)) then [st] else []
  | REmpty => [st]
  end.

(** The first match at or after a position: the text skipped, the text matched,
    and the position after it. *)
Definition match_here (r : re) (st : position) : option (string * position) :=
  match match_ends r st with
  | [] => None
  | e :: _ => Some (str_take (String.length st.2 - String.length e.2) st.2, e)
  end.

Fixpoint search_from (r : re) (prev : option ascii) (s : string)
  : option (string * string * position) :=
  match match_here r (prev, s) with
  | Some (m, e) => Some ("", m, e)
  | None =>
      match s with
      | EmptyString => None
      | String c s' =>
          match search_from r (Some c) s' with
          | Some (skipped, m, e) => Some (String c skipped, m, e)
          | None => None
          end
      end
  end.

(** [pattern.search(s) is not None], [pattern.fullmatch(s) is not None],
    [pattern.match(s) is not None]. *)
Definition re_search (r : re) (s : string) : bool :=
  match search_from r None s with Some _ => true | None => false end.
Definition re_fullmatch (r : re) (s : string) : bool :=
  existsb (fun e => String.eqb e.2 "") (match_ends r (None, s)).
Definition re_match (r : re) (s : string) : bool :=
  match match_ends r (None, s) with [] => false | _ => true end.

(** [pattern.findall(s)] (no group in the pattern): the non-overlapping matches,
    left to right; an empty match moves on by one character. *)
Fixpoint findall_from (fuel : nat) (r : re) (prev : option ascii) (s : string) : list string :=
  match fuel with
  | O => []
  | S fuel' =>
      match search_from r prev s with
      | None => []
      | Some (_, m, (p, rest)) =>
          m :: (if String.eqb m "" then
                  match rest with
                  | EmptyString => []
                  | String c rest' => findall_from fuel' r (Some c) rest'
                  end
                else findall_from fuel' r p rest)
      end
  end.
Definition re_findall (r : re) (s : string) : list string :=
  findall_from (S (String.length s)) r None s.

(** [re.sub(class, "", s)] for a one-character class. *)
Definition remove_chars (p : ascii -> bool) (s : string) : string :=
  str_filter (fun c => negb (p c)) s.

(** ** Building expressions *)

Fixpoint one_of (s : string) (c : ascii) : bool :=
  match s with EmptyString => false | String a s' => Ascii.eqb a c || one_of s' c end.

Definition any_of (l : list (ascii -> bool)) (c : ascii) : bool := existsb (fun p => p c) l.

Definition lit (c : ascii) : re := RChar (Ascii.eqb c).
Fixpoint seq (l : list re) : re :=
  match l with [] => REmpty | [r] => r | r :: l' => RSeq r (seq l') end.
Definition plus (p : ascii -> bool) : re := RRep (RChar p) 1 None true.
Definition opt (r : re) : re := RRep r 0 (Some 1) true.
Definition times (n : nat) (p : ascii -> bool) : re := RRep (RChar p) n (Some n) true.
Definition between (lo hi : nat) (p : ascii -> bool) : re := RRep (RChar p) lo (Some hi) true.
