(* ===== verification/Redaction.v ===== *)
(** Personal data.  First the redaction of what the workflow engine sends to an
    AI agent ([_collect_field_paths], [_is_pii_value], [_redact_by_paths],
    [_classify_pii_fields], [_redact_pii] of [platform/core/workflow_engine.py]),
    then the masking of execution logs ([platform/core/pii_redactor.py]). *)

From S2P Require Import Prelude PyText PyValue Regex Context.

Local Open Scope string_scope.

(** ** Value patterns of the workflow engine *)

Definition PII_PLACEHOLDER : string := "[RODO_REDACTED]".

Definition EMAIL_RE : re :=
  seq [plus (any_of [is_alnum; one_of "._%+-"]); lit "@"; plus (any_of [is_alnum; one_of ".-"]);
       lit "."; RRep (RChar is_alpha) 2 None true].
Definition PESEL_RE : re := seq [RWordBoundary; times 11 is_digit; RWordBoundary].
Definition NIP_RE : re :=
  seq [RWordBoundary; times 3 is_digit; opt (lit "-"); times 3 is_digit; opt (lit "-");
       times 2 is_digit; opt (lit "-"); times 2 is_digit; RWordBoundary].
Definition IBAN_RE : re :=
  let group := RSeq (opt (RChar is_space)) (times 4 is_digit) in
  seq [RWordBoundary; times 2 is_upper; times 2 is_digit; group; group; group; group; group; group;
       RWordBoundary].
Definition CREDIT_CARD_RE : re :=
  seq [RWordBoundary;
       RRep (RSeq (RChar is_digit) (RRep (RChar (one_of " -")) 0 None false)) 13 (Some 19) true;
       RWordBoundary].
Definition IP_RE : re :=
  let octet := between 1 3 is_digit in
  seq [RWordBoundary; octet; lit "."; octet; lit "."; octet; lit "."; octet; RWordBoundary].

Definition is_space_or_dash (c : ascii) : bool := is_space c || Ascii.eqb c "-".

(** [_is_pii_value] on a string. *)
Definition is_pii_text (value : string) : bool :=
  let n := String.length value in
  if (n <? 5)%nat || (500 <? n)%nat then false
  else if re_search EMAIL_RE value then true
  else if re_fullmatch PESEL_RE (py_strip value) then true
  else if re_fullmatch NIP_RE (py_replace (py_strip value) " " "") then true
  else if re_search IBAN_RE value then true
  else if re_fullmatch IP_RE (py_strip value) then true
  else let v := remove_chars is_space_or_dash value in
       re_fullmatch CREDIT_CARD_RE v && (13 <=? String.length v)%nat.

Definition is_pii_value (value : pyval) : bool :=
  match value with PStr s => is_pii_text s | _ => false end.

(** [f"{prefix}.{key}" if prefix else key]. *)
Definition join_path (prefix key : string) : string :=
  if String.eqb prefix "" then key else prefix ++ "." ++ key.

(** [_collect_field_paths]; [fuel] counts the levels down to the depth limit. *)
Fixpoint collect_paths_go (fuel : nat) (data : pyval) (prefix : string) : list string :=
  match fuel with
  | O => []
  | S fuel' =>
      match data with
      | PDict d =>
          flat_map (fun kv =>
            let p := join_path prefix kv.1 in
            match kv.2 with
            | PDict _ | PList _ => collect_paths_go fuel' kv.2 p
            | _ => [p]
            end) d
      | PList (x :: _) => collect_paths_go fuel' x (prefix ++ "[]")
      | _ => []
      end
  end.
Definition collect_field_paths (data : pyval) : list string := collect_paths_go 16 data "".

Definition placeholder : pyval := PStr PII_PLACEHOLDER.

Definition listed_path (p : string) (pii_paths : list string) : bool :=
  existsb (String.eqb p) pii_paths.

(** [_redact_by_paths]; beyond depth 20 the placeholder replaces everything. *)
Fixpoint redact_go (fuel : nat) (pii_paths : list string) (data : pyval) (current : string)
  : pyval :=
  match fuel with
  | O => placeholder
  | S fuel' =>
      match data with
      | PDict d =>
          PDict (map (fun kv =>
            let p := join_path current kv.1 in
            (kv.1,
             if listed_path p pii_paths then
               match kv.2 with
               | PList items =>
                   PList (map (fun item => if is_dict item then redact_go fuel' pii_paths item p
                                           else placeholder) items)
               | _ => placeholder
               end
             else if is_pii_value kv.2 then placeholder
             else redact_go fuel' pii_paths kv.2 p)) d)
      | PList items =>
          if listed_path (current ++ "[]") pii_paths
          then PList (map (fun _ => placeholder) items)
          else PList (map (fun item => redact_go fuel' pii_paths item current) items)
      | PStr s => if is_pii_text s then placeholder else data
      | _ => data
      end
  end.
Definition redact_by_paths (data : pyval) (pii_paths : list string) : pyval :=
  redact_go 21 pii_paths data "".

(** ** Asking the AI agent which fields are personal

    [json_loads] and [json_dumps] of the Standard Library on text. *)

Section Classify.
Variable json_loads : string -> option pyval.
Variable json_dumps : pyval -> string.

Definition PII_CLASSIFY_HEAD : string :=
  "You are a GDPR/RODO compliance classifier. Given the following JSON field paths, return ONLY a JSON array of paths that may contain personal data (PII). PII includes: names, surnames, emails, phones, addresses, national IDs, bank accounts, birth dates, IP addresses, login credentials, biometric data, health data. Work in ANY language. Return [] if none found. Respond with ONLY the JSON array, no explanation."
  ++ str1 newline ++ str1 newline ++ "Field paths:" ++ str1 newline.

(** The payload of the classification request: the paths, never the values. *)
Definition classify_payload (field_paths : list string) : dict :=
  [("prompt", PStr (PII_CLASSIFY_HEAD ++ json_dumps (PList (map PStr field_paths))));
   ("data", PDict [("_task", PStr "field_classification");
                   ("field_count", PInt (Z.of_nat (List.length field_paths)))]);
   ("temperature", PFloat (SpecFloat.S754_zero false));
   ("output_schema", PDict [("pii_fields", PStr "string[]")])].

Definition unwrap_result (out : pyval) : pyval :=
  match out with
  | PDict d => match dget "result" d with Some r => r | None => out end
  | _ => out
  end.

(** The answer as the list of paths it names; the [except Exception] of the
    caller turns every failure into the empty set. *)
Definition answered_paths (answer : res pyval) : list pyval :=
  match answer with
  | Raise _ => []
  | Ok out =>
      match unwrap_result out with
      | PDict d => match as_iter (dget_or "pii_fields" (PList []) d) with Ok l => l | Raise _ => [] end
      | PList l => l
      | PStr s => match json_loads s with
                  | Some v => match as_iter v with Ok l => l | Raise _ => [] end
                  | None => []
                  end
      | _ => []
      end
  end.

(** [_classify_pii_fields] once the agent has answered. *)
Definition classified (field_paths : list string) (answer : res pyval) : list string :=
  omap (fun p => match p with
                 | PStr s => if listed_path s field_paths then Some s else None
                 | _ => None
                 end) (answered_paths answer).
End Classify.

(** ** Masking of execution logs: [platform/core/pii_redactor.py] *)

Module Log.

Definition EMAIL_RE : re :=
  seq [plus (any_of [is_alnum; one_of "_.+-"]); lit "@"; plus (any_of [is_alnum; one_of "-"]);
       lit "."; plus (any_of [is_alnum; one_of "-."])].
Definition PHONE_RE : re :=
  seq [opt (lit "+"); RChar is_digit; between 7 14 (any_of [is_digit; is_space; one_of "-"]);
       RChar is_digit].

Definition PII_KEY_PATTERNS : list string :=
  ["email"; "e_mail"; "email_address"; "mail"; "recipient"; "recipients"; "to"; "cc"; "bcc";
   "from"; "sender"; "reply_to"; "name"; "first_name"; "last_name"; "full_name"; "phone";
   "phone_number"; "telephone"; "mobile"; "address"; "street"; "city"; "zip"; "zip_code";
   "postal_code"; "pesel"; "nip"; "regon"; "ssn"; "id_number"; "passport"; "password"; "secret";
   "token"; "api_key"; "access_token"; "refresh_token"; "authorization"; "cookie"; "set-cookie";
   "proxy-authorization"; "x-api-key"; "x-admin-secret"; "x-internal-secret"].

Definition SAFE_KEYS : list string :=
  ["imap_host"; "smtp_host"; "connector"; "connector_name"; "action"; "event"; "status";
   "message_id"; "account_name"; "node_id"; "node_type"; "label"; "duration_ms"; "error"; "type";
   "handle"; "condition_result"; "switch_value"; "matched_case"; "variable"; "status_code";
   "_truncated"; "_preview"; "dispatched"].

Definition PII_SEGMENT_PATTERNS : list string :=
  ["email"; "phone"; "name"; "address"; "pesel"; "password"; "secret"; "token"].

Definition REDACTION_MARKER : string := "[REDACTED-PII]".

(** [email.partition("@")]. *)
Definition partition_at (email : string) : string * string :=
  match str_find "@" email with
  | Some i => (str_take i email, str_drop (i + 1) email)
  | None => (email, "")
  end.

Definition mask_email (email : string) : string :=
  let '(local, domain) := partition_at email in
  if String.eqb domain "" then REDACTION_MARKER
  else match local with
       | String c _ => str1 c ++ "***@" ++ domain
       | EmptyString => "***@" ++ domain
       end.

Definition only_digits (s : string) : string := str_filter is_digit s.

Definition stars (n : nat) : string := string_of_list_ascii (repeat ("*"%char) n).

Definition mask_phone (phone : string) : string :=
  let digits := only_digits phone in
  let n := String.length digits in
  if (n <? 4)%nat then REDACTION_MARKER
  else str_take 2 digits ++ stars (n - 4) ++ str_drop (n - 2) digits.

Definition is_pii_key (key : string) : bool :=
  let normalized := py_strip (py_lower key) in
  if existsb (String.eqb normalized) SAFE_KEYS then false
  else if existsb (String.eqb normalized) PII_KEY_PATTERNS then true
  else existsb (fun seg => existsb (String.eqb seg) PII_SEGMENT_PATTERNS)
               (split_char "_" (py_replace normalized "-" "_")).

Definition replace_all (mask : string -> string) (found : list string) (s : string) : string :=
  fold_left (fun r m => py_replace r m (mask m)) found s.

Definition redact_string_value (value : string) : string :=
  let result := replace_all mask_email (re_findall EMAIL_RE value) value in
  replace_all mask_phone (re_findall PHONE_RE result) result.

(** The value written for a key that names personal data. *)
Definition masked_value (value : pyval) : pyval :=
  match value with
  | PStr s =>
      match re_findall EMAIL_RE s with
      | [] => if re_fullmatch PHONE_RE (py_strip s) then PStr (mask_phone s)
              else PStr REDACTION_MARKER
      | emails => PStr (replace_all mask_email emails s)
      end
  | PList l =>
      PList (map (fun v => match v with
                           | PStr s => if re_fullmatch EMAIL_RE s then PStr (mask_email s)
                                       else PStr REDACTION_MARKER
                           | _ => PStr REDACTION_MARKER
                           end) l)
  | _ => PStr REDACTION_MARKER
  end.

(** [redact], by levels down to the depth limit. *)
Fixpoint redact_go (fuel : nat) (data : pyval) : pyval :=
  match fuel with
  | O => PStr REDACTION_MARKER
  | S fuel' =>
      match data with
      | PDict d =>
          PDict (fold_left (fun out kv =>
            if is_pii_key kv.1 then
              dset ("__" ++ kv.1 ++ "_redacted") (PBool true)
                   (dset kv.1 (masked_value kv.2) out)
            else dset kv.1 (redact_go fuel' kv.2) out) d [])
      | PList l => PList (map (redact_go fuel') l)
      | PStr s => PStr (redact_string_value s)
      | _ => data
      end
  end.
Definition redact (data : pyval) : pyval := redact_go 21 data.

(** [redact_execution_detail]. *)
Definition redact_execution_detail (execution_data : dict) (include_raw : bool) : pyval :=
  match redact (PDict execution_data) with
  | PDict redacted =>
      PDict (dset "_gdpr"
        (PDict [("redacted", PBool true);
                ("policy", PStr "RODO/GDPR — personally identifiable information has been masked");
                ("include_raw", PBool include_raw)]) redacted)
  | v => v
  end.

(** A value of which a personal-data field shows nothing. *)
Definition opaque (v : pyval) : Prop :=
  match v with
  | PStr s => re_findall EMAIL_RE s = [] /\ re_fullmatch PHONE_RE (py_strip s) = false
  | PList _ => False
  | _ => True
  end.

(** Records that differ only in opaque values under personal-data keys. *)
#[warnings="-register-all"]
Inductive same_but_pii : pyval -> pyval -> Prop :=
  | sbp_refl v : same_but_pii v v
  | sbp_list l m : Forall2 same_but_pii l m -> same_but_pii (PList l) (PList m)
  | sbp_dict d e :
      Forall2 (fun x y => x.1 = y.1 /\
                 ((is_pii_key x.1 = true /\ (opaque x.2 /\ opaque y.2 \/ x.2 = y.2))
                  \/ (is_pii_key x.1 = false /\ same_but_pii x.2 y.2))) d e ->
      same_but_pii (PDict d) (PDict e).

Lemma masked_opaque v : opaque v -> masked_value v = PStr REDACTION_MARKER.
Proof. destruct v; try done. intros [H1 H2]. cbn [masked_value]. by rewrite H1, H2. Qed.

End Log.

(** ** Facts *)

(** Every text of a value, at any depth, satisfies [p]. *)
Fixpoint all_texts (p : string -> bool) (v : pyval) : bool :=
  match v with
  | PStr s => p s
  | PList l => forallb (all_texts p) l
  | PDict d => forallb (fun kv => all_texts p kv.2) d
  | _ => true
  end.

Lemma forallb_map {A B} (f : A -> B) p l : forallb p (map f l) = forallb (fun x => p (f x)) l.
Proof. induction l as [|x l IH]; cbn; [done|]. by rewrite IH. Qed.

Lemma forallb_all {A} (p : A -> bool) l : (forall x, p x = true) -> forallb p l = true.
Proof. intros H. induction l as [|x l IH]; cbn; [done|]. by rewrite H, IH. Qed.

Lemma placeholder_not_pii : is_pii_text PII_PLACEHOLDER = false.
Proof. vm_compute. reflexivity. Qed.

(** ** Properties *)

(** Whatever paths the AI agent classified, the data it is sent after redaction holds no text,
    at any depth, that the detector [is_pii_text] recognises. *)
Theorem redact_by_paths_clean data pii_paths :
  all_texts (fun s => negb (is_pii_text s)) (redact_by_paths data pii_paths) = true.
Proof.
  unfold redact_by_paths. generalize 21%nat, "". intros fuel. revert data.
  assert (Hp : all_texts (fun s => negb (is_pii_text s)) placeholder = true).
  { cbn [all_texts placeholder]. by rewrite placeholder_not_pii. }
  induction fuel as [|fuel IH]; intros data current; [done|].
  destruct data as [| | | |s|l|d]; cbn [redact_go]; try done.
  - destruct (is_pii_text s) eqn:E; [done|]. cbn [all_texts]. by rewrite E.
  - destruct (listed_path _ _); cbn [all_texts]; rewrite forallb_map; by apply forallb_all.
  - cbn [all_texts]. rewrite forallb_map. apply forallb_all. intros [k v]. cbn [fst snd].
    destruct (listed_path _ _).
    + destruct v as [| | | | |items|]; try done. cbn [all_texts]. rewrite forallb_map.
      apply forallb_all. intros x. by destruct (is_dict x).
    + by destruct (is_pii_value v).
Qed.

Lemma redact_go_masks fuel : forall v w, Log.same_but_pii v w -> Log.redact_go fuel v = Log.redact_go fuel w.
Proof.
  induction fuel as [|fuel IH]; intros v w H; [done|].
  destruct H as [v|l m H|d e H]; cbn [Log.redact_go]; [done| |].
  - f_equal. induction H as [|x y l m Hxy _ IHl]; [done|]. cbn. by rewrite IHl, (IH _ _ Hxy).
  - f_equal. generalize (@nil (string * pyval)).
    induction H as [|[k x] [k' y] d e [Hk Hxy] _ IHd]; intros out; [done|].
    cbn [fst snd] in *. subst k'. cbn [fold_left fst snd].
    destruct Hxy as [[-> Hxy]|[-> Hxy]].
    + destruct Hxy as [[Hx Hy]|<-]; [rewrite !Log.masked_opaque by done|]; apply IHd.
    + rewrite (IH _ _ Hxy). apply IHd.
Qed.

(** Redacting execution logs is a masking: two records that differ only under
    personal-data keys, in values with no email address and no phone number, give
    the same redacted record, so nothing of these values reaches the consumer. *)
Theorem redact_hides_pii v w : Log.same_but_pii v w -> Log.redact v = Log.redact w.
Proof. apply redact_go_masks. Qed.

Lemma redact_hides_pii_witness :
  let a := PDict [("id", PInt 1); ("customer_name", PStr "Anna Nowak")] in
  let b := PDict [("id", PInt 1); ("customer_name", PStr "Jan Kowalski")] in
  Log.same_but_pii a b /\ Log.redact a = Log.redact b
  /\ Log.redact a = PDict [("id", PInt 1); ("customer_name", PStr "[REDACTED-PII]");
                           ("__customer_name_redacted", PBool true)].
Proof.
  intros a b. assert (H : Log.same_but_pii a b).
  { constructor. constructor; [split; [done|]; right; split; [done|apply Log.sbp_refl]|].
    constructor; [|constructor]. split; [done|]. left. split; [reflexivity|]. left. split; split; reflexivity. }
  split; [exact H|]. split; [exact (redact_hides_pii a b H)|]. reflexivity.
Defined.
