(* ===== verification/Urls.v ===== *)
(** URLs as Python 3.12's [urllib.parse] reads and writes them, as far as the sources use it:
    [urlparse], [urlunparse] and the host name of a result. *)

From S2P Require Import Prelude PyText PyValue IpAddress Regex.

Local Open Scope string_scope.

(** [s.partition(c)]: what is before the first [c], whether there is one, and what is after. *)
Fixpoint partition_char (c : ascii) (s : string) : string * bool * string :=
  match s with
  | EmptyString => (EmptyString, false, EmptyString)
  | String a s' =>
      if Ascii.eqb a c then (EmptyString, true, s')
      else let '(x, found, y) := partition_char c s' in (String a x, found, y)
  end.
(** [s.rpartition(c)[2]]. *)
Definition after_last (c : ascii) (s : string) : string := List.last (split_char c s) "".

Record ParseResult := UrlParts {
  u_scheme : string;
  u_netloc : string;
  u_path : string;
  u_params : string;
  u_query : string;
  u_fragment : string
}.
Definition set_path (path : string) (u : ParseResult) : ParseResult :=
  UrlParts (u_scheme u) (u_netloc u) path (u_params u) (u_query u) (u_fragment u).

(** Control characters and spaces before the URL are dropped, and tabs and ends of lines in it. *)
Definition clean_url (s : string) : string :=
  str_filter (fun c => negb (Ascii.eqb c "009" || Ascii.eqb c "010" || Ascii.eqb c "013"))
    (lstrip_by (fun c => (code c <=? 32)%Z) s).

Definition is_scheme_char (c : ascii) : bool := is_alnum c || existsb (Ascii.eqb c) ["+"; "-"; "."]%char.

(** The scheme, in lower case, and what follows its colon. *)
Definition split_scheme (url : string) : string * string :=
  match partition_char ":" url with
  | (String c s' as before, true, after) =>
      if is_alpha c && str_forall is_scheme_char before then (py_lower before, after) else ("", url)
  | _ => ("", url)
  end.

(** [_splitnetloc]: up to the first of the three delimiters. *)
Fixpoint split_netloc (url : string) : string * string :=
  match url with
  | EmptyString => (EmptyString, EmptyString)
  | String c s' =>
      if existsb (Ascii.eqb c) ["/"; "?"; "#"]%char then (EmptyString, url)
      else let '(netloc, rest) := split_netloc s' in (String c netloc, rest)
  end.

Definition IPVFUTURE_RE : re :=
  seq [RChar (Ascii.eqb "v"); plus is_hex; RChar (Ascii.eqb "."); plus (fun c => negb (Ascii.eqb c "010"))].

(** [_check_bracketed_netloc]. *)
Definition check_bracketed_host (host : string) : res unit :=
  if starts_with "v" host then
    if re_fullmatch IPVFUTURE_RE host then Ok tt else Raise (ValueError "IPvFuture address is invalid")
  else match ip_address host with
       | Some (V6 _ _) => Ok tt
       | Some (V4 _) => Raise (ValueError "An IPv4 address cannot be in brackets")
       | None => Raise (ValueError (str_repr host ++ " does not appear to be an IPv4 or IPv6 address"))
       end.
Definition check_bracketed_netloc (netloc : string) : res unit :=
  let '(before_bracket, have_open_br, bracketed) := partition_char "[" (after_last "@" netloc) in
  if have_open_br : bool then
    let '(host, _, port) := partition_char "]" bracketed in
    if negb (String.eqb before_bracket "") || (negb (String.eqb port "") && negb (starts_with ":" port))
    then Raise (ValueError "Invalid IPv6 URL")
    else check_bracketed_host host
  else check_bracketed_host (partition_char ":" (after_last "@" netloc)).1.1.

Definition check_netloc (netloc : string) : res unit :=
  match str_contains "[" netloc, str_contains "]" netloc with
  | true, true => check_bracketed_netloc netloc
  | false, false => Ok tt
  | _, _ => Raise (ValueError "Invalid IPv6 URL")
  end.

Definition uses_params : list string :=
  [""; "ftp"; "hdl"; "prospero"; "http"; "https"; "shttp"; "rtsp"; "rtsps"; "rtspu"; "sip"; "sips"; "mms"; "sftp"; "tel"].
Definition uses_netloc : list string :=
  [""; "ftp"; "http"; "gopher"; "nntp"; "telnet"; "imap"; "wais"; "file"; "mms"; "https"; "shttp"; "snews"; "prospero";
   "rtsp"; "rtsps"; "rtspu"; "rsync"; "svn"; "svn+ssh"; "sftp"; "nfs"; "git"; "git+ssh"; "ws"; "wss"; "itms-services"].

(** [_splitparams]: the parameters of the last segment. *)
Definition split_params (path : string) : string * string :=
  let segments := split_char "/" path in
  let '(last, _, params) := partition_char ";" (List.last segments "") in
  (str_join "/" (List.removelast segments ++ [last]), params).

(** [urlparse]. *)
Definition urlparse (url : string) : res ParseResult :=
  let '(scheme, rest) := split_scheme (clean_url url) in
  let '(netloc, rest) := if starts_with "//" rest then split_netloc (str_drop 2 rest) else ("", rest) in
  _ ← check_netloc netloc;
  let '(rest, _, fragment) := partition_char "#" rest in
  let '(path, _, query) := partition_char "?" rest in
  let '(path, params) := if existsb (String.eqb scheme) uses_params then split_params path else (path, "") in
  Ok (UrlParts scheme netloc path params query fragment).

(** [urlunparse]. *)
Definition urlunparse (u : ParseResult) : string :=
  let url := if String.eqb (u_params u) "" then u_path u else u_path u ++ ";" ++ u_params u in
  let rooted := starts_with "/" url in
  let url :=
    if negb (String.eqb (u_netloc u) "") then
      "//" ++ u_netloc u ++ (if negb (String.eqb url "") && negb rooted then "/" ++ url else url)
    else if starts_with "//" url then "//" ++ url
    else if negb (String.eqb (u_scheme u) "") && existsb (String.eqb (u_scheme u)) uses_netloc && (String.eqb url "" || rooted)
    then "//" ++ url else url in
  let url := if String.eqb (u_scheme u) "" then url else u_scheme u ++ ":" ++ url in
  let url := if String.eqb (u_query u) "" then url else url ++ "?" ++ u_query u in
  if String.eqb (u_fragment u) "" then url else url ++ "#" ++ u_fragment u.

(** [parsed.hostname]: without the user, the port and the brackets, in lower case up to a zone. *)
Definition hostname (u : ParseResult) : option string :=
  let hostinfo := after_last "@" (u_netloc u) in
  let '(_, have_open_br, bracketed) := partition_char "[" hostinfo in
  let host := if have_open_br : bool then (partition_char "]" bracketed).1.1 else (partition_char ":" hostinfo).1.1 in
  if String.eqb host "" then None
  else let '(name, percent, zone) := partition_char "%" host in
       Some (py_lower name ++ (if percent : bool then "%" else "") ++ zone).

Example parse_url :
  urlparse "  HTTPS://Me:pw@Shop.Example:8080/a/b;x?q=1#f"
  = Ok (UrlParts "https" "Me:pw@Shop.Example:8080" "/a/b" "x" "q=1" "f").
Proof. by vm_compute. Qed.

Example host_of_urls :
  map (fun s => u ← urlparse s; Ok (hostname u))
    ["https://me@Shop.Example:80/"; "http://[::1]:80/"; "http://[::1"; "http://[10.0.0.1]/"; "tcp://imap.x"; "a b"]
  = [Ok (Some "shop.example"); Ok (Some "::1"); Raise (ValueError "Invalid IPv6 URL");
     Raise (ValueError "An IPv4 address cannot be in brackets"); Ok (Some "imap.x"); Ok None].
Proof. by vm_compute. Qed.

Example unparse_url :
  map (fun s => u ← urlparse s; Ok (urlunparse u)) ["https://h/a;b?c#d"; "h/a"; "file:///x"]
  = [Ok "https://h/a;b?c#d"; Ok "h/a"; Ok "file:///x"].
Proof. by vm_compute. Qed.
