(* ===== verification/Graph.v ===== *)
(** The workflow graph ([WorkflowGraph]), the search for error handlers and the
    trigger configuration of [platform/core/workflow_engine.py].  Nodes and edges
    are typed as the API schemas that store them ([WorkflowNode], [WorkflowEdge]
    of [platform/api/schemas.py]) guarantee. *)

From S2P Require Import Prelude PyText PyValue.

Local Open Scope string_scope.

Record WNode := Node {
  n_id : string;
  n_type : string;
  n_label : string;
  n_config : dict
}.

Record WEdge := Edge {
  e_source : string;
  e_target : string;
  e_handle : string
}.

(** [WorkflowGraph.__init__]: nodes by id (a later node with the same id replaces
    the earlier one in place), edges by source and by target, in order. *)
Record WorkflowGraph := Graph {
  g_nodes : list (string * WNode);
  g_adjacency : list (string * list WEdge);
  g_incoming : list (string * list WEdge)
}.

Definition append_edge (key : string) (e : WEdge) (m : list (string * list WEdge))
  : list (string * list WEdge) :=
  dset key (default [] (dget key m) ++ [e])%list m.

Definition index_edges (key : WEdge -> string) (edges : list WEdge) : list (string * list WEdge) :=
  fold_left (fun m e => append_edge (key e) e m) edges [].

Definition make_graph (nodes : list WNode) (edges : list WEdge) : WorkflowGraph :=
  Graph (dict_of (map (fun n => (n_id n, n)) nodes))
        (index_edges e_source edges) (index_edges e_target edges).

Definition find_trigger (g : WorkflowGraph) : option WNode :=
  List.find (fun n => String.eqb (n_type n) "trigger") (map snd (g_nodes g)).

Definition get_node (g : WorkflowGraph) (node_id : string) : option WNode :=
  dget node_id (g_nodes g).

Definition edge_matches (handle : option string) (e : WEdge) : bool :=
  match handle with Some h => String.eqb (e_handle e) h | None => true end.

(** [get_successors]. *)
Definition get_successors (g : WorkflowGraph) (node_id : string) (handle : option string)
  : list WNode :=
  omap (fun e => if edge_matches handle e then get_node g (e_target e) else None)
       (default [] (dget node_id (g_adjacency g))).

Definition incoming (g : WorkflowGraph) (node_id : string) : list WEdge :=
  default [] (dget node_id (g_incoming g)).

Definition get_predecessor_count (g : WorkflowGraph) (node_id : string) : nat :=
  List.length (incoming g node_id).

(** [failed_node_id in catch_from]. *)
Definition catches (failed_node_id : string) (n : WNode) : res bool :=
  if String.eqb (n_type n) "error_handler"
  then py_in (PStr failed_node_id) (dget_or "catch_from" (PList []) (n_config n))
  else Ok false.

(** [_find_error_handler]. *)
Fixpoint first_catching (failed_node_id : string) (nodes : list WNode) : res (option WNode) :=
  match nodes with
  | [] => Ok None
  | n :: nodes' =>
      b ← catches failed_node_id n;
      if (b : bool) then Ok (Some n) else first_catching failed_node_id nodes'
  end.

Definition find_error_handler (g : WorkflowGraph) (failed_node_id : string)
  : res (option WNode) :=
  first_catching failed_node_id (map snd (g_nodes g)).

(** [_get_trigger_credential]: the first trigger node with a credential other than
    the default one. *)
Definition trigger_credential_of (n : WNode) : option pyval :=
  if String.eqb (n_type n) "trigger" then
    let cred := dget_or "credential_name" PNone (n_config n) in
    if truthy cred && py_neqb cred (PStr "default") then Some cred else None
  else None.

Fixpoint get_trigger_credential (nodes : list WNode) : option pyval :=
  match nodes with
  | [] => None
  | n :: nodes' =>
      match trigger_credential_of n with
      | Some cred => Some cred
      | None => get_trigger_credential nodes'
      end
  end.

(** [_get_trigger_filters]: of the first trigger node, [filters] or its alias
    [filter]. *)
Fixpoint get_trigger_filters (nodes : list WNode) : pyval :=
  match nodes with
  | [] => PNone
  | n :: nodes' =>
      if String.eqb (n_type n) "trigger" then
        py_or (dget_or "filters" PNone (n_config n)) (dget_or "filter" PNone (n_config n))
      else get_trigger_filters nodes'
  end.

(** ** Facts *)

Lemma dget_append_edge k e m k' :
  default [] (dget k' (append_edge k e m)) =
    (default [] (dget k' m) ++ if String.eqb k' k then [e] else [])%list.
Proof.
  unfold append_edge. rewrite dget_dset. destruct (String.eqb_spec k' k) as [->|]; cbn; [done|].
  by rewrite app_nil_r.
Qed.

Lemma index_edges_filter key edges k :
  default [] (dget k (index_edges key edges)) = List.filter (fun e => String.eqb k (key e)) edges.
Proof.
  unfold index_edges.
  assert (H : forall m, default [] (dget k (fold_left (fun m e => append_edge (key e) e m) edges m))
              = (default [] (dget k m) ++ List.filter (fun e => String.eqb k (key e)) edges)%list).
  { induction edges as [|e edges IH]; intros m; cbn; [by rewrite app_nil_r|].
    rewrite IH, dget_append_edge, <-app_assoc. by destruct (String.eqb k (key e)). }
  apply H.
Qed.

Lemma dget_dict_of_nodes nodes k :
  dget k (dict_of (map (fun n => (n_id n, n)) nodes)) =
    List.find (fun n => String.eqb k (n_id n)) (rev nodes).
Proof.
  unfold dict_of, dmerge.
  assert (H : forall m, dget k (fold_left (fun acc kv => dset kv.1 kv.2 acc)
                                 (map (fun n => (n_id n, n)) nodes) m)
              = match List.find (fun n => String.eqb k (n_id n)) (rev nodes) with
                | Some n => Some n | None => dget k m end).
  { induction nodes as [|n nodes IH]; intros m; cbn; [done|].
    rewrite IH. clear IH. induction (rev nodes) as [|a l IHl]; cbn.
    - rewrite dget_dset. by destruct (String.eqb k (n_id n)).
    - by destruct (String.eqb k (n_id a)). }
  rewrite H. by destruct (List.find _ _).
Qed.

(** The node a graph holds under an id. *)
Definition node_at (nodes : list WNode) (k : string) : option WNode :=
  List.find (fun n => String.eqb k (n_id n)) (rev nodes).

Lemma get_node_make nodes edges k : get_node (make_graph nodes edges) k = node_at nodes k.
Proof. apply dget_dict_of_nodes. Qed.

Lemma omap_ext {A B} (f g : A -> option B) (l : list A) :
  (forall x, f x = g x) -> omap f l = omap g l.
Proof.
  intros H. induction l as [|x l IH]; [done|]. unfold omap in *. cbn. by rewrite H, IH.
Qed.

Lemma omap_filter {A B} (p q : A -> bool) (f : A -> option B) (l : list A) :
  omap (fun x => if q x then f x else None) (List.filter p l) =
    omap f (List.filter (fun x => p x && q x) l).
Proof.
  unfold omap. induction l as [|x l IH]; [done|]. cbn.
  destruct (p x); cbn; [|done]. destruct (q x); cbn; [by rewrite IH|done].
Qed.

(** ** Properties *)

(** The successors of a node for a handle are the existing targets of the edges
    that leave it under this handle, one per edge, in the order of the edge list:
    neither the index of the graph nor dangling edges change what is run. *)
Theorem get_successors_spec nodes edges node_id handle :
  get_successors (make_graph nodes edges) node_id handle =
    omap (fun e => node_at nodes (e_target e))
         (List.filter (fun e => String.eqb node_id (e_source e) && edge_matches handle e) edges).
Proof.
  unfold get_successors. cbn [g_adjacency make_graph].
  rewrite (index_edges_filter e_source edges node_id), <-omap_filter.
  apply omap_ext. intros e. by rewrite get_node_make.
Qed.
