(* ===== verification/Engine.v ===== *)
(** The workflow engine: [WorkflowEngine] of [platform/core/workflow_engine.py].

    A run threads a state: the context of the run and a world.  The world is the
    log of what the engine asked of the outside (connector calls, HTTP requests,
    waits), the store of the result entries (the code appends these dicts to
    [node_results] and mutates them later, so the context holds positions in the
    store) and the executions written to the database.  Connectors, HTTP
    services and the database answer through the environment [Env].

    Python's unbounded recursion is a fixpoint on fuel; a computation returns (a
    value or an exception, with the state), hangs (a semaphore of size zero) or
    runs out of fuel. *)

From S2P Require Import Prelude PyText PyValue Paths Context Conditions Transforms Redaction Graph PyFloat.

Local Open Scope string_scope.

(** ** Requests, workflows, executions *)

Record action_request := ActionRequest {
  ar_connector : pyval;
  ar_action : pyval;
  ar_payload : pyval;
  ar_credential : pyval;
  ar_version : pyval
}.

Record http_request := HttpRequest {
  hr_method : string;
  hr_url : string;
  hr_headers : list (string * string);
  hr_params : list (string * string);
  hr_body : pyval
}.

Record http_response := HttpResponse {
  hs_status : Z;
  hs_body : pyval;
  hs_headers : list (string * string)
}.

Inductive event :=
  | ECall (r : action_request)
  | ECredentials (connector credential : pyval)
  | EHttp (r : http_request)
  | ESleep (seconds : pyval)
  | EThrottle (ms : pyval)
  | ERetryDelay (node_id : string) (attempt seconds : Z).

(** A request that leaves the platform. *)
Definition external (e : event) : bool :=
  match e with ECall _ | ECredentials _ _ | EHttp _ => true | _ => false end.

Record replay_state := Replay { rp_data : dict; rp_variables : dict; rp_outputs : dict }.

(** A result entry; the durations are left out. *)
Record entry := Entry {
  en_node_id : string;
  en_node_type : string;
  en_label : string;
  en_status : string;
  en_input : option pyval;
  en_output : option pyval;
  en_raw_output : option pyval;
  en_error : option string;
  en_retries : option Z;
  en_replay : replay_state
}.

Record Workflow := Wf {
  wf_id : string;
  wf_name : string;
  wf_nodes : list WNode;
  wf_edges : list WEdge;
  wf_variables : dict;
  wf_on_error : string;
  wf_max_retries : Z;
  wf_trigger_connector : string;
  wf_trigger_event : string;
  wf_sync_config : pyval
}.

Record WorkflowExecution := Execution {
  ex_id : string;
  ex_workflow_id : string;
  ex_workflow_name : string;
  ex_status : string;
  ex_trigger_data : dict;
  ex_nodes_snapshot : list WNode;
  ex_edges_snapshot : list WEdge;
  ex_error : option string;
  ex_error_node_id : option string;
  ex_node_results : list entry;
  ex_context_snapshot : dict
}.

(** ** State and effects *)

Record World := MkWorld {
  w_log : list event;
  w_entries : list entry;
  w_executions : list WorkflowExecution
}.

Record St := MkSt { st_world : World; st_ctx : WorkflowContext }.

Inductive outcome (A : Type) :=
  | Returned (r : res A) (s : St)
  | Hangs
  | NoFuel.
Arguments Returned {A} r s.
Arguments Hangs {A}.
Arguments NoFuel {A}.

Definition M (A : Type) : Type := St -> outcome A.

#[export] Instance M_ret : MRet M := fun A a s => Returned (Ok a) s.
#[export] Instance M_bind : MBind M := fun A B f m s =>
  match m s with
  | Returned (Ok a) s' => f a s'
  | Returned (Raise e) s' => Returned (Raise e) s'
  | Hangs => Hangs
  | NoFuel => NoFuel
  end.

Definition ret {A} (a : A) : M A := fun s => Returned (Ok a) s.
Definition raise {A} (e : pyexn) : M A := fun s => Returned (Raise e) s.
Definition lift {A} (r : res A) : M A := fun s => Returned r s.

(** [try: m except Exception as exc: h exc]; what [m] changed stays. *)
Definition try_catch {A} (m : M A) (h : pyexn -> M A) : M A := fun s =>
  match m s with
  | Returned (Raise e) s' => h e s'
  | o => o
  end.

Definition get_ctx : M WorkflowContext := fun s => Returned (Ok (st_ctx s)) s.
Definition modify_ctx (f : WorkflowContext -> WorkflowContext) : M unit := fun s =>
  Returned (Ok tt) (MkSt (st_world s) (f (st_ctx s))).
Definition modify_world (f : World -> World) : M unit := fun s =>
  Returned (Ok tt) (MkSt (f (st_world s)) (st_ctx s)).

Definition log_event (e : event) : M unit :=
  modify_world (fun w => MkWorld (w_log w ++ [e])%list (w_entries w) (w_executions w)).

(** Runs [m] in another context and comes back to the caller's: the result, and
    the context [m] ended with. *)
Definition in_context {A} (c : WorkflowContext) (m : M A) : M (res A * WorkflowContext) := fun s =>
  match m (MkSt (st_world s) c) with
  | Returned r s' => Returned (Ok (r, st_ctx s')) (MkSt (st_world s') (st_ctx s))
  | Hangs => Hangs
  | NoFuel => NoFuel
  end.

(** The result entries. *)
Definition alloc_entry (e : entry) : M nat := fun s =>
  let w := st_world s in
  Returned (Ok (List.length (w_entries w)))
           (MkSt (MkWorld (w_log w) (w_entries w ++ [e])%list (w_executions w)) (st_ctx s)).

Definition update_entry (i : nat) (f : entry -> entry) : M unit :=
  modify_world (fun w => MkWorld (w_log w) (alter f i (w_entries w)) (w_executions w)).

(** [ctx.node_results.append(result_entry)]. *)
Definition push_result (i : nat) : M unit :=
  modify_ctx (fun c => with_results (node_results c ++ [i])%list c).

Definition extend_results (l : list nat) : M unit :=
  modify_ctx (fun c => with_results (node_results c ++ l)%list c).

Definition set_output (node_id : string) (output : pyval) : M unit :=
  modify_ctx (set_node_output node_id output).

(** [ctx._completed_nodes.add(node_id)]. *)
Definition set_add (x : string) (l : list string) : list string :=
  if existsb (String.eqb x) l then l else (l ++ [x])%list.
Definition mark_completed (node_id : string) : M unit :=
  modify_ctx (fun c => with_completed (set_add node_id (completed_nodes c)) c).

(** [if isinstance(output, dict): ctx.data = {**ctx.data, **output}]. *)
Definition merge_output (output : pyval) : M unit :=
  match output with
  | PDict o => modify_ctx (fun c => with_data (dmerge (data c) o) c)
  | _ => ret tt
  end.

(** [ctx.variables[k] = v] for a key read from a configuration. *)
Definition set_var (k v : pyval) : M unit :=
  match k with
  | PStr n => modify_ctx (set_variable n v)
  | PList _ | PDict _ => raise (unhashable k)
  | _ => ret tt
  end.

(** [self._interpolate_string(v, ctx)] on a configuration value. *)
Definition interpolate_config (v : pyval) (c : WorkflowContext) : res string :=
  match v with
  | PStr s => Ok (interpolate_string s c)
  | _ => Raise (TypeError ("expected string or bytes-like object, got '" ++ type_name v ++ "'"))
  end.

Fixpoint iterM {A} (f : A -> M unit) (l : list A) : M unit :=
  match l with
  | [] => ret tt
  | x :: l' => _ ← f x; iterM f l'
  end.

(** The status an entry ends with. *)
Definition finish_success (output : pyval) (retries : option Z) (e : entry) : entry :=
  Entry (en_node_id e) (en_node_type e) (en_label e) "success" (en_input e)
        (Some (safe_truncate output)) (Some output) (en_error e)
        (match retries with Some _ => retries | None => en_retries e end) (en_replay e).
Definition finish_filtered (e : entry) : entry :=
  Entry (en_node_id e) (en_node_type e) (en_label e) "filtered" (en_input e)
        (en_output e) (en_raw_output e) (en_error e) (en_retries e) (en_replay e).
Definition finish_failed (exc : pyexn) (e : entry) : entry :=
  Entry (en_node_id e) (en_node_type e) (en_label e) "failed" (en_input e)
        (en_output e) (en_raw_output e) (Some (exn_str exc)) (en_retries e) (en_replay e).

Definition replay_of (c : WorkflowContext) : replay_state :=
  Replay (data c) (variables c) (node_outputs c).

(** [result_entry] as created before the node runs. *)
Definition running_entry (node : WNode) (c : WorkflowContext) : entry :=
  Entry (n_id node) (n_type node) (n_label node) "running" (Some (safe_truncate (PDict (data c))))
        None None None None (replay_of c).

(** ** The environment

    What the engine calls: the action executor and the credential resolver (unset
    in some deployments), the resolver of mock output schemas, the HTTP client,
    the workflows of the tenant in the database, the ids the database gives to
    executions, and the text library.  Answers depend on the number of events
    logged before the call. *)

Record Env := MkEnv {
  env_lib : TextLib;
  env_json_loads : string -> option pyval;
  env_json_dumps : pyval -> string;
  env_action : option (nat -> action_request -> res pyval);
  env_credentials : option (nat -> pyval -> pyval -> res (option dict * string));
  env_mock_schema : option (pyval -> pyval -> pyval -> option (list pyval));
  env_http : nat -> http_request -> res http_response;
  env_workflow : pyval -> option Workflow;
  env_execution_id : nat -> string
}.

Section Engine.
Variable E : Env.

Definition log_length : M nat := fun s => Returned (Ok (List.length (w_log (st_world s)))) s.

(** [await self._action_executor(...)]. *)
Definition call_action (f : nat -> action_request -> res pyval) (r : action_request) : M pyval :=
  n ← log_length; _ ← log_event (ECall r); lift (f n r).

(** ** Node executors *)

(** [_exec_action]. *)
Definition exec_action (config : dict) : M pyval :=
  let connector_name := dget_or "connector_name" (PStr "") config in
  let action := dget_or "action" (PStr "") config in
  let credential_name := dget_or "credential_name" (PStr "default") config in
  let connector_version := dget_or "connector_version" PNone config in
  if negb (truthy connector_name) || negb (truthy action) then
    raise (WorkflowError "Action node missing connector_name or action" None)
  else
    c ← get_ctx;
    payload ← lift (apply_field_mapping (env_lib E) (dget_or "field_mapping" (PList []) config) c);
    if dry_run c then
      let schema_fields :=
        match env_mock_schema E with
        | Some f => default [] (f connector_name connector_version action)
        | None => []
        end in
      mock ← lift (build_mock_output schema_fields);
      ret (PDict (dmerge [("dry_run", PBool true); ("connector", connector_name);
                          ("action", action); ("would_send", PDict payload)] mock))
    else match env_action E with
      | Some f => call_action f (ActionRequest connector_name action (PDict payload)
                                   credential_name connector_version)
      | None => ret (PDict [("dispatched", PBool true); ("connector", connector_name);
                            ("action", action); ("payload", PDict payload)])
      end.

(** [_redact_pii]: the classification by the agent, any failure of which counts as
    no path, then the redaction. *)
Definition redact_pii (data : pyval) (credential_name : pyval) : M pyval :=
  match env_action E with
  | None => ret (redact_by_paths data [])
  | Some f =>
      let field_paths := collect_field_paths data in
      match field_paths with
      | [] => ret (redact_by_paths data [])
      | _ =>
          answer ← try_catch
            (r ← call_action f (ActionRequest (PStr "ai-agent") (PStr "agent.analyze")
                (PDict (classify_payload (env_json_dumps E) field_paths)) credential_name PNone);
             ret (Ok r))
            (fun e => ret (Raise e));
          ret (redact_by_paths data (classified (env_json_loads E) field_paths answer))
      end
  end.

(** [_json.loads(output_schema_json)], invalid JSON being ignored. *)
Definition parse_output_schema (v : pyval) : res pyval :=
  if negb (truthy v) then Ok PNone
  else match v with
       | PStr s => Ok (default PNone (env_json_loads E s))
       | _ => Raise (TypeError ("the JSON object must be str, bytes or bytearray, not " ++ type_name v))
       end.

(** What a think node returns of the agent's answer. *)
Definition think_output (result : pyval) : pyval :=
  match result with
  | PDict r =>
      match dget "result" r with
      | Some (PDict ai_output) =>
          PDict (dset "_model_used" (dget_or "model_used" PNone r)
                (dset "_analysis_id" (dget_or "analysis_id" PNone r)
                (dset "_confidence" (dget_or "confidence" PNone r) ai_output)))
      | _ => result
      end
  | _ => result
  end.

(** [_exec_think]. *)
Definition exec_think (config : dict) : M pyval :=
  let action := dget_or "action" (PStr "agent.analyze") config in
  let credential_name := dget_or "credential_name" (PStr "default") config in
  let prompt := dget_or "prompt" (PStr "") config in
  output_schema ← lift (parse_output_schema (dget_or "output_schema_json" (PStr "") config));
  if negb (truthy prompt) then raise (WorkflowError "Think node requires a prompt" None)
  else
    c ← get_ctx;
    text ← lift (interpolate_config prompt c);
    if dry_run c then
      ret (PDict [("dry_run", PBool true); ("connector", PStr "ai-agent"); ("action", action);
                  ("prompt", PStr text)])
    else
      send_data ← (if truthy (dget_or "redact_pii" (PBool true) config)
                   then redact_pii (PDict (data c)) credential_name
                   else ret (PDict (data c)));
      let payload :=
        ([("prompt", PStr text); ("data", send_data);
          ("temperature", dget_or "temperature"
             (match parse_float "0.1" with Some f => PFloat f | None => PNone end) config)]
         ++ if truthy output_schema then [("output_schema", output_schema)] else [])%list in
      match env_action E with
      | Some f =>
          result ← call_action f (ActionRequest (PStr "ai-agent") action (PDict payload)
                                    credential_name PNone);
          ret (think_output result)
      | None => ret (PDict [("dispatched", PBool true); ("connector", PStr "ai-agent");
                            ("action", action); ("prompt", PStr text)])
      end.

(** The results of the conditions of a node, all of them evaluated. *)
Definition condition_results (config : dict) (c : WorkflowContext) : res (list bool) :=
  conditions ← as_iter (dget_or "conditions" (PList []) config);
  mapR (fun cnd => evaluate_condition (rx_search (env_lib E)) cnd c) conditions.

(** [_exec_condition]. *)
Definition exec_condition (config : dict) (c : WorkflowContext) : res (pyval * pyval) :=
  results ← condition_results config c;
  let passed := combine_results
    (negb (py_eqb (dget_or "logic" (PStr "and") config) (PStr "or"))) results in
  let handle := PStr (if passed then "true" else "false") in
  Ok (PDict [("condition_result", PBool passed); ("handle", handle)], handle).

(** [_exec_filter]. *)
Definition exec_filter (config : dict) (c : WorkflowContext) : res bool :=
  results ← condition_results config c;
  Ok (combine_results (py_eqb (dget_or "logic" (PStr "and") config) (PStr "and")) results).

(** The handle of the first case with the text of the value. *)
Fixpoint match_case (value : pyval) (cases : list pyval) : res (option pyval) :=
  match cases with
  | [] => Ok None
  | case :: cases' =>
      cs ← as_dict case;
      let v := PStr (py_str (dget_or "value" (PStr "") cs)) in
      if py_eqb (PStr (py_str value)) v then Ok (Some (dget_or "handle" v cs))
      else match_case value cases'
  end.

(** [_exec_switch]. *)
Definition exec_switch (config : dict) (c : WorkflowContext) : res (pyval * pyval) :=
  value ← resolve_config (dget_or "field" (PStr "") config) c;
  cases ← as_iter (dget_or "cases" (PList []) config);
  matched ← match_case value cases;
  let handle := match matched with
                | Some h => h
                | None => dget_or "default_handle" (PStr "default") config
                end in
  Ok (PDict [("switch_value", value); ("matched_case", handle)], handle).

(** The [delay] branch: only waits above 0 and up to 60 seconds are made. *)
Definition exec_delay (config : dict) : M pyval :=
  let seconds := dget_or "seconds" (PInt 0) config in
  positive ← lift (py_order OpLt (PInt 0) seconds);
  small ← lift (if (positive : bool) then py_order OpLe seconds (PInt 60) else Ok false);
  _ ← (if (small : bool) then log_event (ESleep seconds) else ret tt);
  c ← get_ctx; ret (PDict (data c)).

(** [base_url.rstrip("/") + "/" + path.lstrip("/")]. *)
Definition join_url (base_url path : string) : string :=
  rstrip_by (Ascii.eqb "/") base_url ++ "/" ++ lstrip_by (Ascii.eqb "/") path.

Definition SENSITIVE_HEADERS : list string :=
  ["authorization"; "cookie"; "set-cookie"; "x-api-key"; "x-admin-secret"; "x-internal-secret";
   "proxy-authorization"].

Definition safe_header (kv : string * string) : string * pyval :=
  (kv.1, PStr (if existsb (String.eqb (py_lower kv.1)) SENSITIVE_HEADERS then "***" else kv.2)).

(** One entry of [query_params]. *)
Definition query_param (c : WorkflowContext) (params : list (string * string)) (qp : pyval)
  : res (list (string * string)) :=
  q ← as_dict qp;
  let key := dget_or "key" (PStr "") q in
  val ← interpolate_config (dget_or "value" (PStr "") q) c;
  if negb (truthy key) then Ok params
  else match key with
       | PList _ | PDict _ => Raise (unhashable key)
       | _ => Ok (dset (py_str key) val params)
       end.

Definition with_account_name (creds : option dict) (params : list (string * string))
  : list (string * string) :=
  match creds with
  | Some cr =>
      match dget "account_name" cr with
      | Some a => if dhas "account_name" params then params else dset "account_name" (py_str a) params
      | None => params
      end
  | None => params
  end.

(** [_exec_http_request]. *)
Definition exec_http_request (config : dict) : M pyval :=
  let connector_name := dget_or "connector_name" (PStr "") config in
  let credential_name := dget_or "credential_name" (PStr "default") config in
  if negb (truthy connector_name) then
    raise (WorkflowError "HTTP Request node requires connector_name" None)
  else
    c ← get_ctx;
    if dry_run c then
      url ← lift (interpolate_config (dget_or "url" (PStr "") config) c);
      ret (PDict [("dry_run", PBool true); ("connector", connector_name);
                  ("method", dget_or "method" (PStr "GET") config); ("url", PStr url);
                  ("status_code", PInt 200); ("body", PDict [])])
    else
      resolved ← match env_credentials E with
                 | Some f => n ← log_length;
                             _ ← log_event (ECredentials connector_name credential_name);
                             lift (f n connector_name credential_name)
                 | None => ret (None, "http://connector-" ++ py_str connector_name ++ ":8000")
                 end;
      path ← lift (interpolate_config (dget_or "url" (PStr "") config) c);
      method ← lift (str_method "upper" (dget_or "method" (PStr "GET") config));
      headers ← lift (dict_method "items" (dget_or "headers" (PDict []) config));
      headers' ← lift (mapR (fun kv => v ← interpolate_config kv.2 c; Ok (kv.1, v)) headers);
      qps ← lift (as_iter (dget_or "query_params" (PList []) config));
      params ← lift (foldR (query_param c) [] qps);
      let body_template := dget_or "body" PNone config in
      let body := if truthy body_template then interpolate_dict body_template c else PNone in
      _ ← lift (py_min (dget_or "timeout_seconds" (PInt 30) config) 60);
      let request := HttpRequest (py_upper method) (join_url resolved.2 path) headers'
                       (with_account_name resolved.1 params) body in
      n ← log_length; _ ← log_event (EHttp request);
      response ← lift (env_http E n request);
      ret (PDict [("status_code", PInt (hs_status response)); ("body", hs_body response);
                  ("headers", PDict (map safe_header (hs_headers response)))]).

(** ** The error handler node *)

(** The payload of a [notify] action. *)
Definition notify_payload (a : dict) (error_info : pyval) (channel message : string)
    (connector_name : pyval) (c : WorkflowContext) : res pyval :=
  match dget_or "payload" PNone a with
  | PDict p => Ok (interpolate_dict (PDict p) c)
  | _ =>
      if py_eqb connector_name (PStr "email-client") then
        info ← as_dict error_info;
        Ok (PDict [("subject", dget_or "subject"
                      (PStr ("Workflow error: " ++ py_str (dget_or "failed_node_id" (PStr "") info))) a);
                   ("body_text", PStr message)])
      else if py_eqb connector_name (PStr "slack") then Ok (PDict [("text", PStr message)])
      else Ok (PDict [("message", PStr message); ("channel", PStr channel)])
  end.

(** [connector_name in {"slack", "email-client"}]. *)
Definition in_notify_set (connector_name : pyval) : res bool :=
  match connector_name with
  | PList _ | PDict _ => Raise (unhashable connector_name)
  | v => Ok (py_eqb v (PStr "slack") || py_eqb v (PStr "email-client"))
  end.

Definition exec_notify (a : dict) (error_info : pyval) : M pyval :=
  c ← get_ctx;
  let message := interpolate_string (py_str (dget_or "message" (PStr "") a)) c in
  let ch := py_lower (py_strip (py_str (dget_or "channel" (PStr "slack") a))) in
  let channel := if String.eqb ch "" then "slack" else ch in
  let connector_name := dget_or "connector_name"
    (PStr (if String.eqb channel "email" || String.eqb channel "email-client"
           then "email-client" else channel)) a in
  known ← lift (in_notify_set connector_name);
  let action_name := dget_or "action"
    (PStr (if (known : bool) then "message.send" else "notify.send")) a in
  payload ← lift (notify_payload a error_info channel message connector_name c);
  let report status detail :=
    PDict [("type", PStr "notify"); ("channel", PStr channel); ("connector_name", connector_name);
           ("action", action_name); ("status", PStr status); detail] in
  match env_action E with
  | Some f =>
      if dry_run c then ret (report "simulated" ("message", PStr message))
      else
        r ← call_action f (ActionRequest connector_name action_name payload
              (dget_or "credential_name" (PStr "default") a) PNone);
        ret (report "sent" ("result", safe_truncate r))
  | None => ret (report "simulated" ("message", PStr message))
  end.

(** One action of an error handler; [None] when nothing is reported. *)
Definition handler_action (error_info : pyval) (action_cfg : pyval) : M (option pyval) :=
  a ← lift (as_dict action_cfg);
  let action_type := dget_or "type" (PStr "") a in
  if py_eqb action_type (PStr "set_variable") then
    let var_name := dget_or "name" (PStr "") a in
    if truthy var_name then
      _ ← set_var var_name (dget_or "value" PNone a);
      ret (Some (PDict [("type", PStr "set_variable"); ("name", var_name)]))
    else ret None
  else if py_eqb action_type (PStr "transform") then
    mappings ← lift (dict_method "items" (dget_or "mappings" (PDict []) a));
    _ ← iterM (fun kv => modify_ctx (fun c =>
           with_data (dset kv.1 (evaluate_expression kv.2 c) (data c)) c)) mappings;
    ret (Some (PDict [("type", PStr "transform")]))
  else if py_eqb action_type (PStr "notify") then
    r ← exec_notify a error_info; ret (Some r)
  else ret None.

Fixpoint handler_actions (error_info : pyval) (actions : list pyval) : M (list pyval) :=
  match actions with
  | [] => ret []
  | a :: actions' =>
      r ← handler_action error_info a;
      rs ← handler_actions error_info actions';
      ret (match r with Some v => v :: rs | None => rs end)
  end.

(** [_exec_error_handler]. *)
Definition exec_error_handler (config : dict) : M pyval :=
  c ← get_ctx;
  let error_info := dget_or "_error" (PDict []) (variables c) in
  actions ← lift (as_iter (dget_or "actions" (PList []) config));
  results ← handler_actions error_info actions;
  info ← lift (as_dict error_info);
  ret (PDict [("error_handled", PBool true); ("error", dget_or "error" (PStr "") info);
              ("failed_node_id", dget_or "failed_node_id" (PStr "") info);
              ("handler_actions", PList results)]).

(** ** Running nodes

    [single wf depth node] stands for [_execute_single_node] one level down. *)

Section Step.
Variable single : Workflow -> nat -> WNode -> M unit.

Definition graph_of (wf : Workflow) : WorkflowGraph := make_graph (wf_nodes wf) (wf_edges wf).

(** [_execute_nodes]. *)
Definition execute_nodes (wf : Workflow) (depth : nat) (nodes : list WNode) : M unit :=
  if (200 <? depth)%nat then
    raise (WorkflowError "Maximum workflow depth exceeded (possible cycle)" None)
  else iterM (single wf depth) nodes.

(** The entries of [after] that are new or changed with respect to [before]. *)
Definition changed_items (before after : dict) : dict :=
  List.filter (fun kv => match dget kv.1 before with
                         | Some v => py_neqb v kv.2
                         | None => true
                         end) after.

Definition item_or_wrapped (item : pyval) : pyval :=
  match item with PDict _ => item | _ => PDict [("value", item)] end.

(** What an iteration produced. *)
Definition iteration_output (before after : dict) (item : pyval) : pyval :=
  match changed_items before after with
  | [] => item_or_wrapped item
  | changed => PDict changed
  end.

Fixpoint loop_items (wf : Workflow) (depth : nat) (body : list WNode) (item_var index_var : pyval)
    (i : Z) (items : list pyval) : M (list pyval) :=
  match items with
  | [] => ret []
  | item :: items' =>
      _ ← set_var item_var item;
      _ ← set_var index_var (PInt i);
      c ← get_ctx;
      _ ← (match body with [] => ret tt | _ => execute_nodes wf (S depth) body end);
      c' ← get_ctx;
      rest ← loop_items wf depth body item_var index_var (i + 1) items';
      ret (iteration_output (data c) (data c') item :: rest)
  end.

(** [_exec_loop]. *)
Definition exec_loop (wf : Workflow) (node : WNode) (depth : nat) : M pyval :=
  let config := n_config node in
  let item_var := dget_or "item_variable" (PStr "item") config in
  let index_var := py_or (dget_or "index_variable" PNone config)
                         (PStr (py_str item_var ++ ".$index")) in
  max_iterations ← lift (py_min (dget_or "max_iterations" (PInt 100) config) 1000);
  c ← get_ctx;
  array_data ← lift (resolve_config (dget_or "array_field" (PStr "") config) c);
  match array_data with
  | PList items =>
      items' ← lift (slice_prefix items max_iterations);
      results ← loop_items wf depth (get_successors (graph_of wf) (n_id node) (Some "default"))
                  item_var index_var 0 items';
      _ ← set_var (PStr (py_str item_var ++ "_results")) (PList results);
      ret (PDict [("loop_iterations", PInt (Z.of_nat (List.length results)));
                  ("loop_results", PList results)])
  | _ => ret (PDict [("loop_iterations", PInt 0); ("loop_results", PList [])])
  end.

Definition error_dict (e : pyexn) : pyval := PDict [("error", PStr (exn_str e))].

(** One branch of [_exec_parallel]: a context of its own, except for the merge
    bookkeeping, which it shares with its siblings. *)
Definition run_branch (wf : Workflow) (depth : nat) (branch_node : WNode)
  : M (string * pyval * list nat) :=
  c ← get_ctx;
  let branch_ctx := Ctx (data c) (trigger_data c) (variables c) (node_outputs c) [] (dry_run c)
                        (workflow_chain c) (merge_hits c) (visited_merges c) (completed_nodes c) in
  '(r, b) ← in_context branch_ctx (single wf (S depth) branch_node);
  _ ← modify_ctx (fun c => with_completed (completed_nodes b)
                             (with_merges (merge_hits b) (visited_merges b) c));
  ret (n_id branch_node,
       match r with Ok _ => get_node_output (n_id branch_node) b | Raise e => error_dict e end,
       node_results b).

Fixpoint run_branches (wf : Workflow) (depth : nat) (branches : list WNode)
  : M (list (string * pyval * list nat)) :=
  match branches with
  | [] => ret []
  | b :: branches' =>
      r ← run_branch wf depth b;
      rs ← run_branches wf depth branches';
      ret (r :: rs)
  end.

Definition gather_branch (item : string * pyval * list nat) : M unit :=
  let '(node_id, output, branch_results) := item in
  _ ← set_output node_id output; extend_results branch_results.

(** [_exec_parallel], the branches one after the other in the order of their edges
    (one of the schedules of [asyncio.gather]); the time limit is not modelled. *)
Definition exec_parallel (wf : Workflow) (node : WNode) (depth : nat) : M pyval :=
  let successors := get_successors (graph_of wf) (n_id node) (Some "branch") in
  match successors with
  | [] => ret (PDict [("parallel_branches", PInt 0); ("results", PDict [])])
  | _ =>
      _ ← lift (py_min (dget_or "timeout_seconds" (PInt 60) (n_config node)) 120);
      gathered ← run_branches wf depth successors;
      _ ← iterM gather_branch gathered;
      let results := dict_of (map (fun r => (r.1.1, r.1.2)) gathered) in
      _ ← modify_ctx (set_variable "parallel_results" (PDict results));
      ret (PDict [("parallel_branches", PInt (Z.of_nat (List.length successors)));
                  ("results", PDict results)])
  end.

(** ** Batches *)

Definition batch_failure (idx : Z) (e : pyexn) : pyval :=
  PDict [("index", PInt idx); ("status", PStr "failed"); ("error", PStr (exn_str e))].

(** [_process_item]: the output, or the exception, with the index reported. *)
Definition process_item (wf : Workflow) (depth : nat) (body : list WNode) (throttle_ms : pyval)
    (idx : Z) (item : pyval) : M (Z * res pyval) :=
  throttled ← lift (py_order OpGt throttle_ms (PInt 0));
  _ ← (if (throttled : bool) && (0 <? idx)%Z then log_event (EThrottle throttle_ms) else ret tt);
  c ← get_ctx;
  let item_ctx := Ctx (data c) (trigger_data c)
        (dset "batch_index" (PInt idx) (dset "batch_item" item (variables c)))
        (node_outputs c) [] (dry_run c) (workflow_chain c) (merge_hits c) (visited_merges c) [] in
  '(r, b) ← in_context item_ctx
              (match body with [] => ret tt | _ => execute_nodes wf (S depth) body end);
  _ ← extend_results (node_results b);
  ret (idx, match r with
            | Ok _ => Ok (iteration_output (data c) (data b) item)
            | Raise e => Raise e
            end).

(** With [stop] the items in order, up to the first failure; otherwise all of
    them, an exception outside the item's own [try] being collected by [gather]
    under the index -1. *)
Fixpoint process_items (wf : Workflow) (depth : nat) (body : list WNode) (throttle_ms : pyval)
    (stop : bool) (idx : Z) (items : list pyval) : M (list (Z * res pyval)) :=
  match items with
  | [] => ret []
  | item :: items' =>
      let run := process_item wf depth body throttle_ms idx item in
      r ← (if stop then run else try_catch run (fun e => ret ((-1)%Z, Raise e)));
      if stop && negb (is_ok r.2) then ret [r]
      else rs ← process_items wf depth body throttle_ms stop (idx + 1) items'; ret (r :: rs)
  end.

Definition batch_outputs (rs : list (Z * res pyval)) : list pyval :=
  omap (M:=list) (fun r : Z * res pyval => match r.2 with Ok o => Some o | Raise _ => None end) rs.
Definition batch_errors (rs : list (Z * res pyval)) : list pyval :=
  omap (M:=list) (fun r : Z * res pyval => match r.2 with Ok _ => None | Raise e => Some (batch_failure r.1 e) end) rs.

Definition batch_report (total : nat) (outputs errors : list pyval) : pyval :=
  PDict [("batch_total", PInt (Z.of_nat total));
         ("batch_succeeded", PInt (Z.of_nat (List.length outputs)));
         ("batch_failed", PInt (Z.of_nat (List.length errors)));
         ("batch_results", PList outputs); ("batch_errors", PList (take 20 errors))].

(** The body of a batch: the nodes listed, or the successors of handle [body]. *)
Definition body_node (wf : Workflow) (i : pyval) : res (option WNode) :=
  match i with
  | PStr s => Ok (get_node (graph_of wf) s)
  | PList _ | PDict _ => Raise (unhashable i)
  | _ => Ok None
  end.

Definition batch_body (wf : Workflow) (node : WNode) : res (list WNode) :=
  let ids := dget_or "body_nodes" (PList []) (n_config node) in
  if truthy ids then
    l ← as_iter ids;
    nodes ← mapR (body_node wf) l;
    Ok (omap (M:=list) id nodes)
  else Ok (get_successors (graph_of wf) (n_id node) (Some "body")).

(** [asyncio.Semaphore(concurrency)]: a negative value raises, and with zero the
    first item waits for ever. *)
Definition acquire_semaphore (concurrency : pyval) (items : list pyval) : M unit := fun s =>
  match py_order OpLt concurrency (PInt 0), py_order OpLe concurrency (PInt 0), items with
  | Raise e, _, _ | _, Raise e, _ => Returned (Raise e) s
  | Ok true, _, _ => Returned (Raise (ValueError "Semaphore initial value must be >= 0")) s
  | _, Ok true, _ :: _ => Hangs
  | _, _, _ => Returned (Ok tt) s
  end.

(** [_exec_batch], the items one after the other (one of the schedules of
    [asyncio.gather]; every item has a context of its own). *)
Definition exec_batch (wf : Workflow) (node : WNode) (depth : nat) : M pyval :=
  let config := n_config node in
  let source_expr := dget_or "source" (PStr "") config in
  let throttle_ms := dget_or "throttle_ms" (PInt 0) config in
  let stop := py_eqb (dget_or "on_item_error" (PStr "continue") config) (PStr "stop") in
  concurrency ← lift (py_min (dget_or "concurrency" (PInt 5) config) 50);
  max_items ← lift (py_min (dget_or "max_items" (PInt 1000) config) 10000);
  c ← get_ctx;
  source ← lift (match braced_path source_expr with
                 | Some p => Ok (resolve_value p c)
                 | None => resolve_config source_expr c
                 end);
  match source with
  | PList all =>
      items ← lift (slice_prefix all max_items);
      body ← lift (batch_body wf node);
      _ ← acquire_semaphore concurrency items;
      rs ← process_items wf depth body throttle_ms stop 0 items;
      let outputs := batch_outputs rs in
      _ ← modify_ctx (set_variable "batch_results" (PList outputs));
      ret (batch_report (List.length items) outputs (batch_errors rs))
  | _ => ret (batch_report 0 [] [])
  end.

(** ** Executions *)

Definition add_execution (x : WorkflowExecution) : M unit :=
  modify_world (fun w => MkWorld (w_log w) (w_entries w) (w_executions w ++ [x])%list).
Definition replace_execution (i : nat) (x : WorkflowExecution) : M unit :=
  modify_world (fun w => MkWorld (w_log w) (w_entries w) (<[i := x]> (w_executions w))).
Definition execution_count : M nat := fun s =>
  Returned (Ok (List.length (w_executions (st_world s)))) s.

(** The entries [ctx.node_results] holds, as they are at this moment. *)
Definition read_results (l : list nat) : M (list entry) := fun s =>
  Returned (Ok (omap (fun i => w_entries (st_world s) !! i) l)) s.

(** [var_def.get("default") if isinstance(var_def, dict) else var_def]. *)
Definition variable_default (var_def : pyval) : pyval :=
  match var_def with PDict d => dget_or "default" PNone d | v => v end.

Definition initial_variables (wf : Workflow) : dict :=
  fold_left (fun vs kv => dset kv.1 (variable_default kv.2) vs) (wf_variables wf) [].

Definition new_execution (wf : Workflow) (i : nat) (trigger_data : dict) : WorkflowExecution :=
  Execution (env_execution_id E i) (wf_id wf) (wf_name wf) "running" trigger_data
            (wf_nodes wf) (wf_edges wf) None None [] [].

(** The end of [execute_workflow] and [rerun_from_node]. *)
Definition finished_execution (x : WorkflowExecution) (r : res unit) (results : list entry)
    (c : WorkflowContext) : WorkflowExecution :=
  let done status error node :=
    Execution (ex_id x) (ex_workflow_id x) (ex_workflow_name x) status (ex_trigger_data x)
              (ex_nodes_snapshot x) (ex_edges_snapshot x) error node results (snapshot c) in
  match r with
  | Ok _ => done "success" None None
  | Raise (WorkflowError m node) => done "failed" (Some m) node
  | Raise e => done "failed" (Some (exn_str e)) None
  end.

(** Runs [body] in the context of a new execution and records how it ended.  The
    global time limit is not modelled. *)
Definition run_execution (wf : Workflow) (trigger_data : dict) (c0 : WorkflowContext)
    (body : M unit) : M WorkflowExecution :=
  i ← execution_count;
  let x := new_execution wf i trigger_data in
  _ ← add_execution x;
  '(r, c) ← in_context c0 body;
  results ← read_results (node_results c);
  let x' := finished_execution x r results c in
  _ ← replace_execution i x';
  ret x'.

(** The [try] block of [execute_workflow]. *)
Definition trigger_entry (t : WNode) (trigger_data : dict) (c : WorkflowContext) : entry :=
  Entry (n_id t) "trigger" (n_label t) "success" None (Some (safe_truncate (PDict trigger_data)))
        (Some (PDict trigger_data)) None None (replay_of c).

Definition run_from_trigger (wf : Workflow) (trigger_data : dict) : M unit :=
  match find_trigger (graph_of wf) with
  | None => raise (WorkflowError "No trigger node found in workflow" None)
  | Some t =>
      _ ← set_output (n_id t) (PDict trigger_data);
      _ ← modify_ctx (with_data trigger_data);
      c ← get_ctx;
      i ← alloc_entry (trigger_entry t trigger_data c);
      _ ← push_result i;
      execute_nodes wf 0 (get_successors (graph_of wf) (n_id t) None)
  end.

Definition with_run (dry : bool) (chain : list string) (vars : dict) (c : WorkflowContext)
  : WorkflowContext :=
  Ctx (data c) (trigger_data c) vars (node_outputs c) (node_results c) dry chain
      (merge_hits c) (visited_merges c) (completed_nodes c).

(** [execute_workflow]. *)
Definition execute_workflow_with (wf : Workflow) (trigger_data : dict) (dry : bool)
    (parent_chain : list string) : M WorkflowExecution :=
  run_execution wf trigger_data
    (with_run dry (parent_chain ++ [wf_id wf])%list (initial_variables wf) (new_context trigger_data))
    (run_from_trigger wf trigger_data).

(** ** Sub-workflows *)

Definition input_value (source_expr : pyval) (c : WorkflowContext) : pyval :=
  match braced_path source_expr, source_expr with
  | Some p, _ => resolve_value p c
  | None, PStr s => if str_contains "{{" s then PStr (interpolate_string s c) else source_expr
  | None, v => v
  end.

(** [max(int(config.get("max_depth", 5) or 5), 1)]. *)
Definition sub_max_depth (config : dict) : res Z :=
  n ← py_int (py_or (dget_or "max_depth" (PInt 5) config) (PInt 5)); Ok (Z.max n 1).

Definition opt_str (o : option string) : pyval :=
  match o with Some s => PStr s | None => PNone end.

(** [_exec_sub_workflow]; its time limit is not modelled. *)
Definition exec_sub_workflow (config : dict) : M pyval :=
  let sub_workflow_id := dget_or "workflow_id" (PStr "") config in
  if negb (truthy sub_workflow_id) then
    raise (WorkflowError "Sub-workflow node missing workflow_id" None)
  else
    _ ← lift (py_min (dget_or "timeout_seconds" (PInt 60) config) 300);
    input_mapping ← lift (dict_method "items" (dget_or "input_mapping" (PDict []) config));
    c ← get_ctx;
    let mapped := map (fun kv => (kv.1, input_value kv.2 c)) input_mapping in
    let sub_trigger_data := match mapped with [] => data c | _ => mapped end in
    match env_workflow E sub_workflow_id with
    | None => raise (WorkflowError ("Sub-workflow " ++ py_str sub_workflow_id ++ " not found") None)
    | Some child =>
        max_depth ← lift (sub_max_depth config);
        let chain := workflow_chain c in
        if existsb (String.eqb (wf_id child)) chain then
          raise (WorkflowError ("Circular sub-workflow reference detected: "
                                ++ str_join " -> " chain ++ " -> " ++ wf_id child) None)
        else if (max_depth <=? Z.of_nat (List.length chain))%Z then
          raise (WorkflowError ("Maximum sub-workflow nesting depth (" ++ str_of_Z max_depth
                                ++ ") exceeded") None)
        else
          x ← execute_workflow_with child sub_trigger_data (dry_run c) chain;
          let child_output := match dget_or "data" (PDict []) (ex_context_snapshot x) with
                              | PDict d => d | _ => [] end in
          if String.eqb (ex_status x) "failed" then
            raise (WorkflowError ("Sub-workflow '" ++ wf_name child ++ "' failed: "
                                  ++ py_str (opt_str (ex_error x))) None)
          else
            ret (PDict (dmerge [("sub_workflow_id", PStr (wf_id child));
                                ("sub_workflow_name", PStr (wf_name child));
                                ("sub_execution_id", PStr (ex_id x));
                                ("sub_execution_status", PStr (ex_status x))] child_output))
    end.

(** ** One node *)

(** The check of [_execute_single_node] on merge nodes: true when the node is not
    to run now.  [_incoming] holds edges, which are dicts: testing one for
    membership in a set of ids hashes it. *)
Definition merge_gate (wf : Workflow) (node : WNode) : M bool :=
  if String.eqb (n_type node) "merge" then
    c ← get_ctx;
    if existsb (String.eqb (n_id node)) (visited_merges c) then ret true
    else
      executed_predecessors ← lift
        match incoming (graph_of wf) (n_id node) with
        | [] => Ok 0%Z
        | _ => Raise (TypeError "unhashable type: 'dict'")
        end;
      let expected_hits := Z.max executed_predecessors 1 in
      let current_hits := (default 0%Z (dget (n_id node) (merge_hits c)) + 1)%Z in
      _ ← modify_ctx (fun c => with_merges (dset (n_id node) current_hits (merge_hits c))
                                           (visited_merges c) c);
      ret (current_hits <? expected_hits)%Z
  else ret false.

(** How a node went on: its output and the handle to follow ([None]: every
    edge), or an end of the branch. *)
Inductive step_result :=
  | Proceed (output : pyval) (next_handle : pyval)
  | Filtered
  | Responded (output : pyval).

Definition proceed_data : M step_result := c ← get_ctx; ret (Proceed (PDict (data c)) PNone).

(** [_exec_aggregate] with the marks it leaves on the branch results. *)
Definition exec_aggregate_node (config : dict) : M pyval :=
  c ← get_ctx;
  let '(r, c') := exec_aggregate config c in
  _ ← modify_ctx (fun _ => c');
  d ← lift r; ret (PDict d).

Definition exec_set_variable_node (config : dict) : M pyval :=
  c ← get_ctx;
  '(d, c') ← lift (exec_set_variable config c);
  _ ← modify_ctx (fun _ => c'); ret (PDict d).

(** The dispatch on the node type. *)
Definition node_output (wf : Workflow) (depth : nat) (node : WNode) : M step_result :=
  let config := n_config node in
  let is_type t := String.eqb (n_type node) t in
  let simple m := o ← m; ret (Proceed o PNone) in
  let then_done m := o ← m; ret (Proceed o (PStr "done")) in
  let routed f := c ← get_ctx; '(o, h) ← lift (f config c); ret (Proceed o h) in
  if is_type "action" then simple (exec_action config)
  else if is_type "think" then simple (exec_think config)
  else if is_type "condition" then routed exec_condition
  else if is_type "switch" then routed exec_switch
  else if is_type "transform" then
    c ← get_ctx; d ← lift (exec_transform (env_lib E) config c); ret (Proceed (PDict d) PNone)
  else if is_type "filter" then
    c ← get_ctx; passed ← lift (exec_filter config c);
    if (passed : bool) then proceed_data else ret Filtered
  else if is_type "delay" then simple (exec_delay config)
  else if is_type "loop" then then_done (exec_loop wf node depth)
  else if is_type "http_request" then simple (exec_http_request config)
  else if is_type "set_variable" then simple (exec_set_variable_node config)
  else if is_type "merge" then
    _ ← modify_ctx (fun c => with_merges (merge_hits c) (set_add (n_id node) (visited_merges c)) c);
    proceed_data
  else if is_type "parallel" then then_done (exec_parallel wf node depth)
  else if is_type "aggregate" then simple (exec_aggregate_node config)
  else if is_type "sub_workflow" then simple (exec_sub_workflow config)
  else if is_type "error_handler" then simple (exec_error_handler config)
  else if is_type "batch" then then_done (exec_batch wf node depth)
  else if is_type "response" then c ← get_ctx; ret (Responded (exec_response config c))
  else ret (Proceed PNone PNone).

(** [get_successors(node_id, handle=next_handle)]: a handle that is not a string
    equals no edge handle, [None] follows every edge. *)
Definition next_nodes (wf : Workflow) (node : WNode) (next_handle : pyval) : list WNode :=
  match next_handle with
  | PNone => get_successors (graph_of wf) (n_id node) None
  | PStr h => get_successors (graph_of wf) (n_id node) (Some h)
  | _ => []
  end.

(** [if successors: await self._execute_nodes(..., depth + 1)]. *)
Definition follow (wf : Workflow) (depth : nat) (successors : list WNode) : M unit :=
  match successors with [] => ret tt | _ => execute_nodes wf (S depth) successors end.

(** The [try] block of [_execute_single_node]; [i] is the node's result entry. *)
Definition run_node (wf : Workflow) (depth : nat) (node : WNode) (i : nat) : M unit :=
  step ← node_output wf depth node;
  match step with
  | Filtered => _ ← update_entry i finish_filtered; push_result i
  | Responded output =>
      _ ← set_output (n_id node) output;
      _ ← mark_completed (n_id node);
      _ ← update_entry i (finish_success output None);
      push_result i
  | Proceed output next_handle =>
      _ ← set_output (n_id node) output;
      _ ← mark_completed (n_id node);
      _ ← merge_output output;
      _ ← update_entry i (finish_success output None);
      _ ← push_result i;
      follow wf depth (next_nodes wf node next_handle)
  end.

(** ** Failures *)

Definition retryable (node_type : string) : bool :=
  existsb (String.eqb node_type) ["action"; "http_request"; "think"].

(** One more run of the node in the retry loop. *)
Definition redo_node (node : WNode) : M pyval :=
  if String.eqb (n_type node) "action" then exec_action (n_config node)
  else if String.eqb (n_type node) "http_request" then exec_http_request (n_config node)
  else exec_think (n_config node).

(** [min(1.0 * (2 ** (attempt - 1)), 30.0)], an integral number of seconds. *)
Definition retry_delay (attempt : Z) : Z := Z.min (2 ^ (attempt - 1)) 30.

Definition retry_attempt (wf : Workflow) (depth : nat) (node : WNode) (i : nat) (attempt : Z)
  : M unit :=
  output ← redo_node node;
  _ ← set_output (n_id node) output;
  _ ← merge_output output;
  _ ← update_entry i (finish_success output (Some attempt));
  _ ← push_result i;
  follow wf depth (get_successors (graph_of wf) (n_id node) None).

(** The retry loop: true when an attempt went through. *)
Fixpoint retry_loop (wf : Workflow) (depth : nat) (node : WNode) (i : nat) (attempt : Z)
    (remaining : nat) : M bool :=
  match remaining with
  | O => ret false
  | S remaining' =>
      _ ← log_event (ERetryDelay (n_id node) attempt (retry_delay attempt));
      ok ← try_catch (_ ← retry_attempt wf depth node i attempt; ret true) (fun _ => ret false);
      if (ok : bool) then ret true
      else retry_loop wf depth node i (attempt + 1) remaining'
  end.

(** [max_retries > 0] and [range(1, max_retries + 1)]. *)
Definition retry_count (max_retries : pyval) : res nat :=
  positive ← py_order OpGt max_retries (PInt 0);
  if (positive : bool) then
    match as_Z max_retries with
    | Some n => Ok (Z.to_nat n)
    | None => Raise (TypeError "'float' object cannot be interpreted as an integer")
    end
  else Ok 0%nat.

Definition error_info (node : WNode) (exc : pyexn) (c : WorkflowContext) : pyval :=
  PDict [("error", PStr (exn_str exc)); ("failed_node_id", PStr (n_id node));
         ("failed_node_type", PStr (n_type node)); ("failed_node_label", PStr (n_label node));
         ("failed_node_output", get_node_output (n_id node) c)].

Definition node_failed (node : WNode) (exc : pyexn) : pyexn :=
  WorkflowError ("Node '" ++ n_label node ++ "' failed: " ++ exn_str exc) (Some (n_id node)).

(** What is done with a failure the retries did not repair. *)
Definition fail_node (wf : Workflow) (depth : nat) (node : WNode) (i : nat) (on_error : pyval)
    (exc : pyexn) : M unit :=
  _ ← update_entry i (finish_failed exc);
  _ ← push_result i;
  handler ← lift (find_error_handler (graph_of wf) (n_id node));
  match handler with
  | Some h =>
      c ← get_ctx;
      _ ← modify_ctx (set_variable "_error" (error_info node exc c));
      single wf (S depth) h
  | None =>
      if py_eqb on_error (PStr "continue")
      then follow wf depth (get_successors (graph_of wf) (n_id node) None)
      else if py_eqb on_error (PStr "ignore") then ret tt
      else raise (node_failed node exc)
  end.

(** The [except] block of [_execute_single_node]. *)
Definition handle_failure (wf : Workflow) (depth : nat) (node : WNode) (i : nat) (exc : pyexn)
  : M unit :=
  let on_error := dget_or "on_error" (PStr (wf_on_error wf)) (n_config node) in
  let max_retries := dget_or "max_retries" (PInt (wf_max_retries wf)) (n_config node) in
  if py_eqb on_error (PStr "retry") then
    positive ← lift (py_order OpGt max_retries (PInt 0));
    if (positive : bool) && retryable (n_type node) then
      n ← lift (retry_count max_retries);
      ok ← retry_loop wf depth node i 1 n;
      if (ok : bool) then ret tt else fail_node wf depth node i on_error exc
    else fail_node wf depth node i on_error exc
  else fail_node wf depth node i on_error exc.

(** [_execute_single_node]. *)
Definition execute_single_body (wf : Workflow) (depth : nat) (node : WNode) : M unit :=
  skip ← merge_gate wf node;
  if (skip : bool) then ret tt
  else
    c ← get_ctx;
    i ← alloc_entry (running_entry node c);
    try_catch (run_node wf depth node i) (handle_failure wf depth node i).

End Step.

(** The recursion: [fuel] bounds the nesting of calls of [_execute_single_node]. *)
Fixpoint execute_single_node (fuel : nat) (wf : Workflow) (depth : nat) (node : WNode) : M unit :=
  match fuel with
  | O => fun _ => NoFuel
  | S fuel' => execute_single_body (execute_single_node fuel') wf depth node
  end.

Definition execute_workflow (fuel : nat) : Workflow -> dict -> bool -> list string
    -> M WorkflowExecution :=
  execute_workflow_with (execute_single_node fuel).

(** ** Re-running from a node *)

Definition restored_context (wf : Workflow) (original : WorkflowExecution) (from_node_id : string)
    (override_data : dict) : WorkflowContext :=
  let c := with_run false [wf_id wf] [] (new_context (ex_trigger_data original)) in
  let restored :=
    match List.find (fun e => String.eqb (en_node_id e) from_node_id) (ex_node_results original) with
    | Some e =>
        with_outputs (rp_outputs (en_replay e))
          (with_variables (rp_variables (en_replay e)) (with_data (rp_data (en_replay e)) c))
    | None =>
        let part k := match dget_or k (PDict []) (ex_context_snapshot original) with
                      | PDict d => d | _ => [] end in
        match ex_context_snapshot original with
        | [] => c
        | _ => with_variables (part "variables") (with_data (part "data") c)
        end
    end in
  let overridden := with_data (dmerge (data restored) override_data) restored in
  with_variables
    (fold_left (fun vs kv => if dhas kv.1 vs then vs else dset kv.1 (variable_default kv.2) vs)
               (wf_variables wf) (variables overridden)) overridden.

(** [rerun_from_node]. *)
Definition rerun_from_node (fuel : nat) (wf : Workflow) (original : WorkflowExecution)
    (from_node_id : string) (override_data : dict) : M WorkflowExecution :=
  run_execution wf (ex_trigger_data original)
    (restored_context wf original from_node_id override_data)
    match get_node (graph_of wf) from_node_id with
    | None => raise (WorkflowError ("Node '" ++ from_node_id ++ "' not found in workflow") None)
    | Some n => execute_single_node fuel wf 0 n
    end.

End Engine.

(** ** Comparing executions *)

(** [{nr["node_id"]: nr for nr in node_results}]. *)
Definition results_by_node (x : WorkflowExecution) : list (string * entry) :=
  dict_of (map (fun e => (en_node_id e, e)) (ex_node_results x)).

(** The compared output: the raw one, or the truncated one. *)
Definition compared_output (e : entry) : pyval :=
  match en_raw_output e with Some v => v | None => default PNone (en_output e) end.

Record node_diff := NodeDiff {
  df_node_id : string;
  df_only_in : option string;
  df_status_a : option string;
  df_status_b : option string;
  df_status_changed : bool;
  df_input_changed : bool;
  df_output_changed : bool
}.

Definition diff_node (a b : list (string * entry)) (nid : string) : node_diff :=
  match dget nid a, dget nid b with
  | Some x, Some y =>
      NodeDiff nid None (Some (en_status x)) (Some (en_status y))
        (negb (String.eqb (en_status x) (en_status y)))
        (py_neqb (PDict (rp_data (en_replay x))) (PDict (rp_data (en_replay y))))
        (py_neqb (compared_output x) (compared_output y))
  | Some x, None => NodeDiff nid (Some "a") (Some (en_status x)) None false false false
  | None, oy => NodeDiff nid (Some "b") None (en_status <$> oy) false false false
  end.

(** [sorted(set(a) | set(b))]. *)
Definition all_node_ids (a b : list (string * entry)) : list string :=
  stable_sort (fun x y => match String.compare x y with Lt => true | _ => false end)
    (dkeys (dmerge (map (fun k => (k, tt)) (dkeys a)) (map (fun k => (k, tt)) (dkeys b)))).

(** [diff_executions], its per-node part. *)
Definition diff_executions (exec_a exec_b : WorkflowExecution) : list node_diff :=
  let a := results_by_node exec_a in
  let b := results_by_node exec_b in
  map (diff_node a b) (all_node_ids a b).
