(* ===== verification/EngineFacts.v ===== *)
(** Theorems on the workflow engine: termination within the depth limit (and
    where the limit does not reach), dry runs, routing, failures, retries and
    merge nodes. *)

From S2P Require Import Prelude PyText PyValue Paths Context Conditions.
From S2P Require Import Transforms Redaction Graph Engine.

Local Open Scope string_scope.

(** ** Runs that return *)

Section Total.

Definition total {A} (m : M A) : Prop := forall s, exists r s', m s = Returned r s'.

Lemma total_ret {A} (a : A) : total (ret a).
Proof. intros s. by eexists _, _. Qed.

Lemma total_raise {A} e : total (raise e : M A).
Proof. intros s. by eexists _, _. Qed.

Lemma total_lift {A} (r : res A) : total (lift r).
Proof. intros s. by eexists _, _. Qed.

Lemma total_bind {A B} (m : M A) (k : A -> M B) :
  total m -> (forall a, total (k a)) -> total (m ≫= k).
Proof.
  intros Hm Hk s. unfold mbind, M_bind. destruct (Hm s) as ([a|e] & s' & ->); [apply Hk|by eexists _, _].
Qed.

Lemma total_try {A} (m : M A) h : total m -> (forall e, total (h e)) -> total (try_catch m h).
Proof.
  intros Hm Hh s. unfold try_catch. destruct (Hm s) as ([a|e] & s' & ->); [by eexists _, _|apply Hh].
Qed.

Lemma total_get : total get_ctx.
Proof. intros s. by eexists _, _. Qed.

Lemma total_modify f : total (modify_ctx f).
Proof. intros s. by eexists _, _. Qed.

Lemma total_world f : total (modify_world f).
Proof. intros s. by eexists _, _. Qed.

Lemma total_in_context {A} c (m : M A) : total m -> total (in_context c m).
Proof.
  intros Hm s. unfold in_context. destruct (Hm (MkSt (st_world s) c)) as (r & s' & ->). by eexists _, _.
Qed.

Lemma total_iterM {A} (f : A -> M unit) l : (forall x, x ∈ l -> total (f x)) -> total (iterM f l).
Proof.
  induction l as [|x l IH]; intros H; cbn [iterM]; [apply total_ret|].
  apply total_bind; [apply H; left|]. intros _. apply IH. intros y Hy. apply H. by right.
Qed.

Lemma total_alloc e : total (alloc_entry e).
Proof. intros s. by eexists _, _. Qed.

Lemma total_log_length : total log_length.
Proof. intros s. by eexists _, _. Qed.

Lemma total_count : total execution_count.
Proof. intros s. by eexists _, _. Qed.

Lemma total_read l : total (read_results l).
Proof. intros s. by eexists _, _. Qed.

(** A semaphore of size zero: whoever acquires it waits for ever. *)
Definition waits_for_ever (concurrency : pyval) : bool :=
  match py_order OpLt concurrency (PInt 0), py_order OpLe concurrency (PInt 0) with
  | Ok false, Ok true => true
  | _, _ => false
  end.

Lemma total_semaphore v l : waits_for_ever v = false -> total (acquire_semaphore v l).
Proof.
  unfold waits_for_ever. intros H s. unfold acquire_semaphore.
  destruct (py_order OpLt v (PInt 0)) as [[]|], (py_order OpLe v (PInt 0)) as [[]|], l; try discriminate H; by eexists _, _.
Qed.
End Total.

Create HintDb engine_total.
#[export] Hint Resolve total_ret total_raise total_lift total_get total_modify total_world
  total_alloc total_log_length total_count total_read : engine_total.

(** Walks through a computation. *)
Ltac total_step :=
  match goal with
  | |- total (mbind _ _) => apply total_bind; [|intros ?]
  | |- total (try_catch _ _) => apply total_try; [|intros ?]
  | |- total (in_context _ _) => apply total_in_context
  | |- total (log_event _) => apply total_world
  | |- total (update_entry _ _) => apply total_world
  | |- total (add_execution _) => apply total_world
  | |- total (replace_execution _ _) => apply total_world
  | |- total (push_result _) => apply total_modify
  | |- total (extend_results _) => apply total_modify
  | |- total (set_output _ _) => apply total_modify
  | |- total (mark_completed _) => apply total_modify
  | |- total (match ?x with _ => _ end) => destruct x
  | |- total (let '(_, _) := ?x in _) => destruct x
  | |- total _ => solve [eauto with engine_total]
  end.
Ltac total := repeat (cbv zeta; total_step).

Section TotalExec.
Variable E : Env.

Lemma total_call f r : total (call_action f r).
Proof. unfold call_action. total. Qed.

Lemma total_merge_output v : total (merge_output v).
Proof. unfold merge_output. total. Qed.

Lemma total_set_var k v : total (set_var k v).
Proof. unfold set_var. total. Qed.
#[local] Hint Resolve total_call total_merge_output total_set_var : engine_total.

Lemma total_action config : total (exec_action E config).
Proof. unfold exec_action. total. Qed.

Lemma total_redact d c : total (redact_pii E d c).
Proof. unfold redact_pii. total. Qed.
#[local] Hint Resolve total_redact : engine_total.

Lemma total_think config : total (exec_think E config).
Proof. unfold exec_think. total. Qed.

Lemma total_http config : total (exec_http_request E config).
Proof. unfold exec_http_request. total. Qed.

Lemma total_delay config : total (exec_delay config).
Proof. unfold exec_delay. total. Qed.

Lemma total_notify a i : total (exec_notify E a i).
Proof. unfold exec_notify. total. Qed.
#[local] Hint Resolve total_notify : engine_total.

Lemma total_handler_action i a : total (handler_action E i a).
Proof.
  unfold handler_action. total. apply total_iterM. intros kv _. apply total_modify.
Qed.
#[local] Hint Resolve total_handler_action : engine_total.

Lemma total_handler_actions i l : total (handler_actions E i l).
Proof. induction l as [|a l IH]; cbn [handler_actions]; total. Qed.
#[local] Hint Resolve total_handler_actions : engine_total.

Lemma total_error_handler config : total (exec_error_handler E config).
Proof. unfold exec_error_handler. total. Qed.

Lemma total_merge_gate wf node : total (merge_gate wf node).
Proof. unfold merge_gate. total. Qed.
End TotalExec.

#[export] Hint Resolve total_call total_merge_output total_set_var total_action total_think total_http
  total_delay total_error_handler total_merge_gate : engine_total.

(** ** Termination within the depth limit *)

(** A batch node whose semaphore has size zero. *)
Definition stuck_batch (n : WNode) : bool :=
  String.eqb (n_type n) "batch"
  && match py_min (dget_or "concurrency" (PInt 5) (n_config n)) 50 with Ok c => waits_for_ever c | Raise _ => false end.

(** No node re-enters the engine outside the depth check: no error handler, no
    sub-workflow, and no parallel node that is a branch of a parallel node; and no
    batch node has a semaphore of size zero. *)
Definition bounded_node (wf : Workflow) (n : WNode) : bool :=
  negb (is_one_of (n_type n) ["error_handler"; "sub_workflow"]) && negb (stuck_batch n)
  && (negb (String.eqb (n_type n) "parallel")
      || forallb (fun b => negb (String.eqb (n_type b) "parallel"))
           (get_successors (graph_of wf) (n_id n) (Some "branch"))).
Definition bounded_workflow (wf : Workflow) : bool := forallb (bounded_node wf) (wf_nodes wf).

Lemma node_at_in nodes k n : node_at nodes k = Some n -> n ∈ nodes.
Proof.
  unfold node_at. intros H%find_some. apply list_elem_of_In. apply in_rev. tauto.
Qed.

Lemma elem_of_omap_nodes {A} (f : A -> option WNode) (l : list A) n :
  n ∈ omap f l -> exists x, f x = Some n.
Proof. intros (x & _ & Hx)%list_elem_of_omap. eauto. Qed.

Lemma successors_in wf k h n : n ∈ get_successors (graph_of wf) k h -> n ∈ wf_nodes wf.
Proof.
  unfold get_successors. intros (e & He)%elem_of_omap_nodes.
  destruct (edge_matches h e); [|done]. unfold graph_of in He. rewrite get_node_make in He.
  by eapply node_at_in.
Qed.

Lemma first_catching_type k nodes n :
  first_catching k nodes = Ok (Some n) -> n_type n = "error_handler" /\ n ∈ nodes.
Proof.
  induction nodes as [|m nodes IH]; cbn [first_catching]; intros H; [discriminate|].
  bind_ok. destruct x.
  - injection H as <-. split; [|left]. unfold catches in Hx.
    by destruct (String.eqb_spec (n_type m) "error_handler").
  - destruct (IH H). split; [done|by right].
Qed.

Lemma graph_nodes_in wf n : n ∈ map snd (g_nodes (graph_of wf)) -> n ∈ wf_nodes wf.
Proof.
  rewrite list_elem_of_In, in_map_iff. intros ([k m] & <- & Hin).
  apply list_elem_of_In, elem_of_dict_of, list_elem_of_In, in_map_iff in Hin as (x & [= _ ->] & Hx).
  by apply list_elem_of_In.
Qed.

Lemma find_error_handler_in wf k n :
  find_error_handler (graph_of wf) k = Ok (Some n) ->
  n ∈ wf_nodes wf /\ n_type n = "error_handler".
Proof.
  unfold find_error_handler. intros [Ht Hin]%first_catching_type. split; [|done].
  by apply graph_nodes_in.
Qed.

Section Bounded.
Variable E : Env.
Variable single : Workflow -> nat -> WNode -> M unit.
Variable wf : Workflow.
Variable depth : nat.
Variable node : WNode.

Hypothesis Hbounded : bounded_workflow wf = true.
Hypothesis Hnode : node ∈ wf_nodes wf.
Hypothesis Hnodes : (S depth <= 200)%nat -> forall n, n ∈ wf_nodes wf -> total (single wf (S depth) n).
Hypothesis Hbranches : n_type node = "parallel" ->
  forall n, n ∈ wf_nodes wf -> n_type n <> "parallel" -> total (single wf (S depth) n).

Lemma bounded_in n : n ∈ wf_nodes wf -> bounded_node wf n = true.
Proof.
  intros Hn. unfold bounded_workflow in Hbounded. rewrite forallb_forall in Hbounded.
  apply Hbounded. by apply list_elem_of_In.
Qed.

Lemma total_execute_nodes nodes :
  (forall n, n ∈ nodes -> n ∈ wf_nodes wf) -> total (execute_nodes single wf (S depth) nodes).
Proof.
  intros Hin. unfold execute_nodes. destruct (Nat.ltb_spec 200 (S depth)); [apply total_raise|].
  apply total_iterM. intros n Hn. apply Hnodes; [lia|auto].
Qed.

Lemma total_follow nodes :
  (forall n, n ∈ nodes -> n ∈ wf_nodes wf) -> total (follow single wf depth nodes).
Proof.
  intros Hin. unfold follow. destruct nodes; [apply total_ret|]. by apply total_execute_nodes.
Qed.

Lemma total_loop_items body iv xv items : forall i,
  (forall n, n ∈ body -> n ∈ wf_nodes wf) ->
  total (loop_items single wf depth body iv xv i items).
Proof.
  induction items as [|x items IH]; intros i Hb; cbn [loop_items]; [apply total_ret|].
  repeat (apply total_bind; [solve [auto with engine_total]|intros ?]).
  apply total_bind; [destruct body; [apply total_ret|by apply total_execute_nodes]|intros _].
  apply total_bind; [apply total_get|intros ?].
  apply total_bind; [by apply IH|intros ?; apply total_ret].
Qed.

Lemma total_loop : total (exec_loop single wf node depth).
Proof. unfold exec_loop. total. apply total_loop_items, successors_in. Qed.

Lemma total_run_branches bs :
  n_type node = "parallel" ->
  (forall b, b ∈ bs -> b ∈ wf_nodes wf /\ n_type b <> "parallel") ->
  total (run_branches single wf depth bs).
Proof.
  intros Hp. induction bs as [|b bs IH]; intros H; cbn [run_branches]; [apply total_ret|].
  destruct (H b) as [Hb Ht]; [left|].
  apply total_bind; [|intros ?; total; apply IH; intros c Hc; apply H; by right].
  unfold run_branch. total.
Qed.

Lemma parallel_branches_bounded b :
  n_type node = "parallel" ->
  b ∈ get_successors (graph_of wf) (n_id node) (Some "branch") ->
  b ∈ wf_nodes wf /\ n_type b <> "parallel".
Proof.
  intros Hp Hb. split; [by eapply successors_in|].
  pose proof (bounded_in node Hnode) as Hbn. unfold bounded_node in Hbn. rewrite Hp in Hbn.
  apply andb_true_iff in Hbn as [_ Hbn]. change (String.eqb "parallel" "parallel") with true in Hbn.
  cbn [negb orb] in Hbn.
  rewrite forallb_forall in Hbn. apply list_elem_of_In, Hbn in Hb.
  intros He. by rewrite He in Hb.
Qed.

Lemma total_parallel :
  n_type node = "parallel" -> total (exec_parallel single wf node depth).
Proof.
  intros Hp. unfold exec_parallel.
  pose proof (fun b => parallel_branches_bounded b Hp) as Hbs.
  destruct (get_successors (graph_of wf) (n_id node) (Some "branch")) as [|b bs]; total.
  - by apply total_run_branches.
  - apply total_iterM. intros [[? ?] ?] _. unfold gather_branch. total.
Qed.

Lemma total_process_items body ms stop items : forall i,
  (forall n, n ∈ body -> n ∈ wf_nodes wf) ->
  total (process_items single wf depth body ms stop i items).
Proof.
  induction items as [|x items IH]; intros i Hb; cbn [process_items]; [apply total_ret|].
  assert (Hi : total (process_item single wf depth body ms i x)).
  { unfold process_item. repeat (cbv zeta; match goal with
      | |- total (match body with _ => _ end) => fail 1
      | _ => total_step end).
    destruct body; [apply total_ret|by apply total_execute_nodes]. }
  cbv zeta. apply total_bind; [destruct stop; [done|apply total_try; [done|intros; apply total_ret]]|].
  intros r. destruct (_ && _); [apply total_ret|]. apply total_bind; [by apply IH|].
  intros ?. apply total_ret.
Qed.

Lemma batch_body_in l : batch_body wf node = Ok l -> forall n, n ∈ l -> n ∈ wf_nodes wf.
Proof.
  unfold batch_body. destruct (truthy _); intros H n Hn; bind_ok; [|by eapply successors_in].
  apply list_elem_of_omap in Hn as (o & Ho & Hn). unfold id in Hn. subst o.
  clear Hx. revert x0 Hx0 Ho. induction x as [|i x IH]; intros ys Hys Ho; cbn [mapR] in Hys; bind_ok.
  - by apply not_elem_of_nil in Ho.
  - apply elem_of_cons in Ho as [<-|Ho]; [|by eapply IH].
    unfold body_node in Hx. destruct i; try discriminate.
    injection Hx as Hg. unfold graph_of in Hg. rewrite get_node_make in Hg. by eapply node_at_in.
Qed.

Lemma total_lift_bind {A B} (r : res A) (k : A -> M B) :
  (forall a, r = Ok a -> total (k a)) -> total (lift r ≫= k).
Proof. intros H s. destruct r as [a|e]; [by apply H|by eexists _, _]. Qed.

Lemma total_batch : n_type node = "batch" -> total (exec_batch single wf node depth).
Proof.
  intros Ht. pose proof (bounded_in node Hnode) as Hb. unfold bounded_node, stuck_batch in Hb.
  rewrite Ht in Hb. apply andb_true_iff in Hb as [[_ Hb]%andb_true_iff _].
  unfold exec_batch. cbv zeta. apply total_lift_bind. intros c Hc. rewrite Hc in Hb. apply negb_true_iff in Hb.
  do 3 (apply total_bind; [solve [auto with engine_total]|intros ?]).
  destruct a1; try apply total_ret.
  apply total_bind; [apply total_lift|intros items]. apply total_lift_bind. intros body Hbody.
  apply total_bind; [by apply total_semaphore|intros _]. total.
  apply total_process_items. by eapply batch_body_in.
Qed.
End Bounded.

Section Body.
Variable E : Env.
Variable single : Workflow -> nat -> WNode -> M unit.
Variable wf : Workflow.
Variable depth : nat.
Variable node : WNode.
Hypothesis Hbounded : bounded_workflow wf = true.
Hypothesis Hnode : node ∈ wf_nodes wf.
Hypothesis Hnodes : (S depth <= 200)%nat -> forall n, n ∈ wf_nodes wf -> total (single wf (S depth) n).
Hypothesis Hbranches : n_type node = "parallel" ->
  forall n, n ∈ wf_nodes wf -> n_type n <> "parallel" -> total (single wf (S depth) n).

#[local] Hint Resolve total_loop total_parallel total_batch : engine_total.

Lemma bounded_type t :
  is_one_of t ["error_handler"; "sub_workflow"] = true -> n_type node <> t.
Proof.
  intros Ht He. pose proof (bounded_in wf Hbounded node Hnode) as Hb. unfold bounded_node in Hb.
  by rewrite He, Ht in Hb.
Qed.

Lemma total_node_output : total (node_output E single wf depth node).
Proof.
  unfold node_output, exec_aggregate_node, exec_set_variable_node, proceed_data. cbv zeta.
  assert (H1 : String.eqb (n_type node) "error_handler" = false).
  { apply String.eqb_neq. by apply bounded_type. }
  assert (H2 : String.eqb (n_type node) "sub_workflow" = false).
  { apply String.eqb_neq. by apply bounded_type. }
  rewrite H1, H2.
  destruct (String.eqb_spec (n_type node) "parallel") as [Hp|_], (String.eqb_spec (n_type node) "batch") as [Hb|_]; total.
Qed.

Lemma total_next h : total (follow single wf depth (next_nodes wf node h)).
Proof.
  apply total_follow; [done|]. intros n. unfold next_nodes.
  destruct h; try apply successors_in; intros H; by apply not_elem_of_nil in H.
Qed.

Lemma total_follow_all : total (follow single wf depth (get_successors (graph_of wf) (n_id node) None)).
Proof. apply total_follow; [done|]. apply successors_in. Qed.

Lemma total_run_node i : total (run_node E single wf depth node i).
Proof.
  unfold run_node. apply total_bind; [apply total_node_output|]. intros step.
  destruct step; total. apply total_next.
Qed.

Lemma total_retry_loop i n : forall a, total (retry_loop E single wf depth node i a n).
Proof.
  induction n as [|n IH]; intros a; cbn [retry_loop]; [apply total_ret|].
  unfold retry_attempt, redo_node. total; try apply total_follow_all.
Qed.

Lemma total_fail_node i on_error exc : total (fail_node single wf depth node i on_error exc).
Proof.
  unfold fail_node. do 2 (apply total_bind; [total|intros _]).
  apply total_lift_bind. intros [h|] Hh.
  - apply find_error_handler_in in Hh as [Hin Ht]. exfalso.
    pose proof (bounded_in wf Hbounded h Hin) as Hb. unfold bounded_node in Hb. by rewrite Ht in Hb.
  - total. apply total_follow_all.
Qed.

Lemma total_body : total (execute_single_body E single wf depth node).
Proof.
  unfold execute_single_body, handle_failure. total;
    try apply total_run_node; try apply total_fail_node; try apply total_retry_loop.
Qed.
End Body.

Lemma execute_single_total E wf fuel : forall depth node,
  bounded_workflow wf = true -> node ∈ wf_nodes wf ->
  (202 - depth <= fuel)%nat -> (depth <= 200 \/ (depth = 201 /\ n_type node <> "parallel"))%nat ->
  total (execute_single_node E fuel wf depth node).
Proof.
  induction fuel as [|fuel IH]; intros depth node Hb Hn Hf Hd; [lia|].
  cbn [execute_single_node]. apply total_body; [done|done| |].
  - intros Hle n Hin. apply IH; [done|done|lia|by left].
  - intros Hp n Hin Hnp. destruct Hd as [Hd|[_ Hd]]; [|done].
    apply IH; [done|done|lia|]. destruct (decide (S depth <= 200)%nat); [by left|right]. split; [lia|done].
Qed.

(** ** Properties *)

(** C22: the depth limit makes the engine return: on a workflow without error
    handlers, without sub-workflows, without parallel nodes that are branches
    of parallel nodes and without batch nodes of concurrency zero - cycles of
    every other kind included - 202 nested calls are enough to return an
    execution or an exception, whatever the connectors answer. *)
Theorem execute_workflow_terminates E wf trigger_data dry chain s :
  bounded_workflow wf = true ->
  exists r s', execute_workflow E 202 wf trigger_data dry chain s = Returned r s'.
Proof.
  intros Hb. unfold execute_workflow, execute_workflow_with, run_execution.
  revert s. change (total (i ← execution_count;
      let x := new_execution E wf i trigger_data in
      _ ← add_execution x;
      '(r, c) ← in_context (with_run dry (chain ++ [wf_id wf])%list (initial_variables wf)
                              (new_context trigger_data))
                  (run_from_trigger (execute_single_node E 202) wf trigger_data);
      results ← read_results (node_results c);
      let x' := finished_execution x r results c in
      _ ← replace_execution i x'; ret x')).
  assert (Hr : total (run_from_trigger (execute_single_node E 202) wf trigger_data)).
  { unfold run_from_trigger. destruct (find_trigger (graph_of wf)) as [t|]; [|apply total_raise].
    repeat (apply total_bind; [total|intros ?]). unfold execute_nodes. cbn [Nat.ltb Nat.leb].
    apply total_iterM. intros n Hn. apply execute_single_total; [done| |lia|left; lia].
    by eapply successors_in. }
  total.
Qed.

Lemma execute_workflow_terminates_witness :
  let node i ty := Node i ty i [] in
  let wf := Wf "w" "w" [node "t" "trigger"; node "a" "transform"; node "b" "set_variable"]
              [Edge "t" "a" "default"; Edge "a" "b" "default"; Edge "b" "a" "default"]
              [] "stop" 0 "" "" PNone in
  let E := MkEnv no_lib (fun _ => None) py_str None None None
             (fun _ _ => Raise (OtherError "")) (fun _ => None) (fun i => str_of_Z (Z.of_nat i)) in
  bounded_workflow wf = true
  /\ exists r s', execute_workflow E 202 wf [] false [] (MkSt (MkWorld [] [] []) (new_context [])) = Returned r s'.
Proof.
  intros node wf E. split; [reflexivity|].
  apply (execute_workflow_terminates E wf [] false [] (MkSt (MkWorld [] [] []) (new_context []))).
  reflexivity.
Defined.

(** ** Where the depth limit does not reach *)

(** A batch node of concurrency zero waits for ever. *)
Example batch_of_zero_hangs :
  let wf := Wf "w" "w" [Node "t" "trigger" "t" [];
                        Node "b" "batch" "b" [("source", PStr "{{trigger.items}}"); ("concurrency", PInt 0)]]
              [Edge "t" "b" "default"] [] "stop" 0 "" "" PNone in
  let E := MkEnv no_lib (fun _ => None) py_str None None None
             (fun _ _ => Raise (OtherError "")) (fun _ => None) (fun i => str_of_Z (Z.of_nat i)) in
  execute_workflow E 202 wf [("items", PList [PInt 1])] false [] (MkSt (MkWorld [] [] []) (new_context [])) = Hangs.
Proof. by vm_compute. Qed.

Lemma execute_single_S E fuel wf depth node s :
  execute_single_node E (S fuel) wf depth node s =
    execute_single_body E (execute_single_node E fuel) wf depth node s.
Proof. done. Qed.

(** A parallel node that is its own first branch recurses without any bound:
    branches are run by [_execute_single_node] directly, past the check of the
    maximum depth, so no fuel is enough and no "possible cycle" error is raised. *)
Theorem parallel_self_branch_diverges E wf p rest fuel depth s :
  n_type p = "parallel" ->
  get_successors (graph_of wf) (n_id p) (Some "branch") = p :: rest ->
  is_ok (py_min (dget_or "timeout_seconds" (PInt 60) (n_config p)) 120) = true ->
  execute_single_node E fuel wf depth p s = NoFuel.
Proof.
  intros Hp Hsucc Hmin. revert depth s. induction fuel as [|fuel IH]; intros depth s; [done|].
  rewrite execute_single_S. unfold execute_single_body, merge_gate. rewrite Hp. cbn.
  unfold try_catch, run_node, node_output. rewrite Hp. cbn.
  unfold exec_parallel. rewrite Hsucc. destruct (py_min _ _) as [v|]; [|done].
  unfold mbind, M_bind, lift, run_branches, run_branch. cbn. unfold mbind, M_bind, in_context. cbn.
  by rewrite IH.
Qed.

Lemma parallel_self_branch_diverges_witness :
  let p := Node "p" "parallel" "p" [] in
  let wf := Wf "w" "w" [Node "t" "trigger" "t" []; p]
              [Edge "t" "p" "default"; Edge "p" "p" "branch"] [] "stop" 0 "" "" PNone in
  let E := MkEnv no_lib (fun _ => None) py_str None None None
             (fun _ _ => Raise (OtherError "")) (fun _ => None) (fun i => str_of_Z (Z.of_nat i)) in
  execute_single_node E 1000 wf 1 p (MkSt (MkWorld [] [] []) (new_context [])) = NoFuel.
Proof.
  intros p wf E.
  exact (parallel_self_branch_diverges E wf p [] 1000 1 (MkSt (MkWorld [] [] []) (new_context []))
           eq_refl eq_refl eq_refl).
Defined.

(** ** Merge nodes *)

Lemma incoming_edge wf e : e ∈ wf_edges wf -> incoming (graph_of wf) (e_target e) <> [].
Proof.
  intros He. unfold incoming, graph_of, make_graph. cbn [g_incoming].
  rewrite index_edges_filter. intros Hnil.
  assert (Hin : In e (List.filter (fun e0 => String.eqb (e_target e) (e_target e0)) (wf_edges wf))).
  { apply filter_In. split; [by apply list_elem_of_In|apply String.eqb_refl]. }
  by rewrite Hnil in Hin.
Qed.

(** A merge node that is the target of an edge never runs: counting its executed
    predecessors tests edge dicts for membership in a set of node ids and raises
    [TypeError], before the node gets a result entry and outside its [on_error]
    policy. *)
Theorem merge_node_raises E fuel wf depth node e s :
  n_type node = "merge" -> e ∈ wf_edges wf -> e_target e = n_id node ->
  existsb (String.eqb (n_id node)) (visited_merges (st_ctx s)) = false ->
  execute_single_node E (S fuel) wf depth node s =
    Returned (Raise (TypeError "unhashable type: 'dict'")) s.
Proof.
  intros Ht He Hid Hv. rewrite execute_single_S. unfold execute_single_body, merge_gate. rewrite Ht.
  cbn -[incoming graph_of existsb]. unfold mbind, M_bind. cbn -[incoming graph_of existsb]. rewrite Hv.
  pose proof (incoming_edge wf e He) as Hin. rewrite Hid in Hin.
  by destruct (incoming (graph_of wf) (n_id node)).
Qed.

Lemma merge_node_raises_witness :
  let m := Node "m" "merge" "m" [] in
  let wf := Wf "w" "w" [Node "t" "trigger" "t" []; m] [Edge "t" "m" "default"]
              [] "stop" 0 "" "" PNone in
  let E := MkEnv no_lib (fun _ => None) py_str None None None
             (fun _ _ => Raise (OtherError "")) (fun _ => None) (fun i => str_of_Z (Z.of_nat i)) in
  let s := MkSt (MkWorld [] [] []) (new_context []) in
  execute_single_node E 1 wf 1 m s = Returned (Raise (TypeError "unhashable type: 'dict'")) s.
Proof.
  intros m wf E s.
  exact (merge_node_raises E 0 wf 1 m (Edge "t" "m" "default") s eq_refl
           (list_elem_of_here _ _) eq_refl eq_refl).
Defined.

(** ** Dry runs *)

Section Dry.

(** The requests that left the platform. *)
Definition calls (s : St) : list event := List.filter external (w_log (st_world s)).

(** Started in a dry context, [m] makes no external request and stays dry. *)
Definition dry_safe {A} (m : M A) : Prop := forall s,
  dry_run (st_ctx s) = true ->
  match m s with
  | Returned _ s' => dry_run (st_ctx s') = true /\ calls s' = calls s
  | _ => True
  end.

Lemma dry_ret {A} (a : A) : dry_safe (ret a).
Proof. by intros s Hs. Qed.

Lemma dry_raise {A} e : dry_safe (raise e : M A).
Proof. by intros s Hs. Qed.

Lemma dry_lift {A} (r : res A) : dry_safe (lift r).
Proof. by intros s Hs. Qed.

Lemma dry_bind {A B} (m : M A) (k : A -> M B) :
  dry_safe m -> (forall a, dry_safe (k a)) -> dry_safe (m ≫= k).
Proof.
  intros Hm Hk s Hs. unfold mbind, M_bind. specialize (Hm s Hs).
  destruct (m s) as [[a|e] s'| |]; try done. destruct Hm as [Hd Hc]. specialize (Hk a s' Hd).
  destruct (k a s') as [r s''| |]; try done. destruct Hk as [? Hc']. split; [done|congruence].
Qed.

(** What is read from a dry context is a dry context. *)
Lemma dry_get {B} (k : WorkflowContext -> M B) :
  (forall c, dry_run c = true -> dry_safe (k c)) -> dry_safe (get_ctx ≫= k).
Proof. intros Hk s Hs. apply (Hk (st_ctx s) Hs s Hs). Qed.

Lemma dry_try {A} (m : M A) h : dry_safe m -> (forall e, dry_safe (h e)) -> dry_safe (try_catch m h).
Proof.
  intros Hm Hh s Hs. unfold try_catch. specialize (Hm s Hs).
  destruct (m s) as [[a|e] s'| |]; try done. destruct Hm as [Hd Hc]. specialize (Hh e s' Hd).
  destruct (h e s') as [r s''| |]; try done. destruct Hh as [? Hc']. split; [done|congruence].
Qed.

Lemma dry_modify f : (forall c, dry_run (f c) = dry_run c) -> dry_safe (modify_ctx f).
Proof. intros Hf s Hs. cbn. by rewrite Hf. Qed.

Lemma dry_log e : external e = false -> dry_safe (log_event e).
Proof.
  intros He s Hs. split; [done|]. unfold calls. cbn. rewrite List.filter_app. cbn. rewrite He.
  apply app_nil_r.
Qed.

Lemma dry_world f : (forall w, w_log (f w) = w_log w) -> dry_safe (modify_world f).
Proof. intros Hf s Hs. split; [done|]. unfold calls. cbn. by rewrite Hf. Qed.

Lemma dry_alloc e : dry_safe (alloc_entry e).
Proof. by intros s Hs. Qed.

Lemma dry_semaphore v l : dry_safe (acquire_semaphore v l).
Proof.
  intros s Hs. unfold acquire_semaphore.
  by destruct (py_order OpLt v (PInt 0)) as [[]|], (py_order OpLe v (PInt 0)) as [[]|], l.
Qed.

Lemma dry_in_context {A} c (m : M A) :
  dry_run c = true -> dry_safe m -> dry_safe (in_context c m).
Proof.
  intros Hc Hm s Hs. unfold in_context. specialize (Hm (MkSt (st_world s) c) Hc).
  destruct (m _) as [r s'| |]; try done. destruct Hm as [_ Hcalls]. split; [done|]. exact Hcalls.
Qed.

Lemma dry_iterM {A} (f : A -> M unit) l : (forall x, dry_safe (f x)) -> dry_safe (iterM f l).
Proof.
  intros H. induction l as [|x l IH]; cbn [iterM]; [apply dry_ret|].
  apply dry_bind; [apply H|intros _; done].
Qed.

Lemma dry_count : dry_safe execution_count.
Proof. by intros s Hs. Qed.

Lemma dry_read l : dry_safe (read_results l).
Proof. by intros s Hs. Qed.
End Dry.

Create HintDb engine_dry.
#[export] Hint Resolve dry_ret dry_raise dry_lift dry_alloc dry_semaphore dry_count dry_read : engine_dry.

Ltac dry_step :=
  match goal with
  | |- dry_safe (mbind _ get_ctx) => apply dry_get; intros ? ?
  | |- dry_safe get_ctx => intros ? ?; done
  | |- dry_safe (mbind _ _) => apply dry_bind; [|intros ?]
  | |- dry_safe (try_catch _ _) => apply dry_try; [|intros ?]
  | |- dry_safe (in_context _ _) => apply dry_in_context; [try done|]
  | |- dry_safe (log_event _) => apply dry_log; reflexivity
  | |- dry_safe (update_entry _ _) => apply dry_world; intros ?; reflexivity
  | |- dry_safe (add_execution _) => apply dry_world; intros ?; reflexivity
  | |- dry_safe (replace_execution _ _) => apply dry_world; intros ?; reflexivity
  | |- dry_safe (push_result _) => apply dry_modify; intros ?; reflexivity
  | |- dry_safe (extend_results _) => apply dry_modify; intros ?; reflexivity
  | |- dry_safe (set_output _ _) => apply dry_modify; intros ?; reflexivity
  | |- dry_safe (mark_completed _) => apply dry_modify; intros ?; reflexivity
  | |- dry_safe (modify_ctx _) => apply dry_modify; intros ?; reflexivity
  | H : dry_run ?c = true |- context [dry_run ?c] => rewrite H
  | |- dry_safe (match ?x with _ => _ end) => destruct x
  | |- dry_safe (let '(_, _) := ?x in _) => destruct x
  | |- dry_safe _ => solve [eauto with engine_dry]
  end.
Ltac dry := repeat (cbv zeta; dry_step).

Section DryExec.
Variable E : Env.

Lemma dry_merge_output v : dry_safe (merge_output v).
Proof. unfold merge_output. dry. Qed.

Lemma dry_set_var k v : dry_safe (set_var k v).
Proof. unfold set_var. dry. Qed.
#[local] Hint Resolve dry_merge_output dry_set_var : engine_dry.

Lemma dry_action config : dry_safe (exec_action E config).
Proof. unfold exec_action. dry. Qed.

Lemma dry_think config : dry_safe (exec_think E config).
Proof. unfold exec_think. dry. Qed.

Lemma dry_http config : dry_safe (exec_http_request E config).
Proof. unfold exec_http_request. dry. Qed.

Lemma dry_delay config : dry_safe (exec_delay config).
Proof. unfold exec_delay. dry. Qed.

Lemma dry_notify a i : dry_safe (exec_notify E a i).
Proof. unfold exec_notify. dry. Qed.
#[local] Hint Resolve dry_notify : engine_dry.

Lemma dry_handler_action i a : dry_safe (handler_action E i a).
Proof. unfold handler_action. dry. apply dry_iterM. intros kv. dry. Qed.
#[local] Hint Resolve dry_handler_action : engine_dry.

Lemma dry_handler_actions i l : dry_safe (handler_actions E i l).
Proof. induction l as [|a l IH]; cbn [handler_actions]; dry. Qed.
#[local] Hint Resolve dry_handler_actions : engine_dry.

Lemma dry_error_handler config : dry_safe (exec_error_handler E config).
Proof. unfold exec_error_handler. dry. Qed.

Lemma dry_merge_gate wf node : dry_safe (merge_gate wf node).
Proof. unfold merge_gate. dry. Qed.

Lemma exec_aggregate_dry config c : dry_run (exec_aggregate config c).2 = dry_run c.
Proof.
  unfold exec_aggregate. repeat (case_match; try reflexivity).
Qed.

Lemma dry_aggregate config : dry_safe (exec_aggregate_node config).
Proof.
  intros s Hs. unfold exec_aggregate_node, mbind, M_bind. cbn.
  pose proof (exec_aggregate_dry config (st_ctx s)) as Hd.
  destruct (exec_aggregate config (st_ctx s)) as [[d|e] c']; cbn in *; by rewrite Hd.
Qed.

Lemma exec_set_variable_dry config c d c' :
  exec_set_variable config c = Ok (d, c') -> dry_run c' = dry_run c.
Proof. unfold exec_set_variable. case_match; intros [= <- <-]; done. Qed.

Lemma dry_set_variable config : dry_safe (exec_set_variable_node config).
Proof.
  intros s Hs. unfold exec_set_variable_node, mbind, M_bind. cbn.
  destruct (exec_set_variable config (st_ctx s)) as [[d c']|e] eqn:Hd; cbn; [|done].
  apply exec_set_variable_dry in Hd. by rewrite Hd.
Qed.
End DryExec.

#[export] Hint Resolve dry_merge_output dry_set_var dry_action dry_think dry_http dry_delay
  dry_error_handler dry_merge_gate dry_aggregate dry_set_variable : engine_dry.

Section DrySingle.
Variable E : Env.
Variable single : Workflow -> nat -> WNode -> M unit.
Hypothesis Hsingle : forall wf depth node, dry_safe (single wf depth node).

Lemma dry_execute_nodes wf depth nodes : dry_safe (execute_nodes single wf depth nodes).
Proof. unfold execute_nodes. dry. by apply dry_iterM. Qed.
#[local] Hint Resolve dry_execute_nodes : engine_dry.

Lemma dry_follow wf depth nodes : dry_safe (follow single wf depth nodes).
Proof. unfold follow. dry. Qed.
#[local] Hint Resolve dry_follow : engine_dry.

Lemma dry_loop_items wf depth body iv xv items : forall i,
  dry_safe (loop_items single wf depth body iv xv i items).
Proof. induction items as [|x items IH]; intros i; cbn [loop_items]; dry. Qed.
#[local] Hint Resolve dry_loop_items : engine_dry.

Lemma dry_run_branch wf depth b : dry_safe (run_branch single wf depth b).
Proof. unfold run_branch. dry. Qed.
#[local] Hint Resolve dry_run_branch : engine_dry.

Lemma dry_run_branches wf depth bs : dry_safe (run_branches single wf depth bs).
Proof. induction bs as [|b bs IH]; cbn [run_branches]; dry. Qed.
#[local] Hint Resolve dry_run_branches : engine_dry.

Lemma dry_gather b : dry_safe (gather_branch b).
Proof. destruct b as [[? ?] ?]. unfold gather_branch. dry. Qed.
#[local] Hint Resolve dry_gather dry_iterM : engine_dry.

Lemma dry_process_items wf depth body ms stop items : forall i,
  dry_safe (process_items single wf depth body ms stop i items).
Proof.
  induction items as [|x items IH]; intros i; cbn [process_items]; [dry|].
  assert (Hi : dry_safe (process_item single wf depth body ms i x)).
  { unfold process_item. dry. }
  dry.
Qed.
#[local] Hint Resolve dry_process_items : engine_dry.

Lemma dry_run_execution wf td c0 body :
  dry_run c0 = true -> dry_safe body -> dry_safe (run_execution E wf td c0 body).
Proof. intros Hc Hb. unfold run_execution. dry. Qed.

Lemma dry_run_from_trigger wf td : dry_safe (run_from_trigger single wf td).
Proof. unfold run_from_trigger. dry. Qed.

Lemma dry_sub_workflow config : dry_safe (exec_sub_workflow E single config).
Proof.
  unfold exec_sub_workflow, execute_workflow_with. dry.
  all: apply dry_run_execution; [done|apply dry_run_from_trigger].
Qed.
#[local] Hint Resolve dry_sub_workflow : engine_dry.

Lemma dry_node_output wf depth node : dry_safe (node_output E single wf depth node).
Proof. unfold node_output, proceed_data, exec_loop, exec_parallel, exec_batch. dry. Qed.
#[local] Hint Resolve dry_node_output : engine_dry.

Lemma dry_retry_loop wf depth node i n : forall a,
  dry_safe (retry_loop E single wf depth node i a n).
Proof.
  induction n as [|n IH]; intros a; cbn [retry_loop]; [dry|]. unfold retry_attempt, redo_node. dry.
Qed.
#[local] Hint Resolve dry_retry_loop : engine_dry.

Lemma dry_body wf depth node : dry_safe (execute_single_body E single wf depth node).
Proof. unfold execute_single_body, run_node, handle_failure, fail_node. dry. Qed.
End DrySingle.

Lemma dry_execute_single E fuel : forall wf depth node,
  dry_safe (execute_single_node E fuel wf depth node).
Proof.
  induction fuel as [|fuel IH]; intros wf depth node; [by intros s Hs|].
  cbn [execute_single_node]. by apply dry_body.
Qed.

(** An execution runs in a context of its own: the caller's does not matter. *)
Lemma run_execution_calls E wf td c0 body s r s' :
  dry_run c0 = true -> dry_safe body ->
  run_execution E wf td c0 body s = Returned r s' -> calls s' = calls s.
Proof.
  intros Hc Hb. unfold run_execution, mbind, M_bind, in_context. cbn.
  match goal with |- context [body ?s1] => specialize (Hb s1 Hc); destruct (body s1) as [r0 s1'| |] end;
    try discriminate.
  destruct Hb as [_ Hb]. cbn. intros [= _ <-]. exact Hb.
Qed.

(** C26: a dry run reaches nothing outside the platform: whatever the nodes, error
    handlers, branches, batches and sub-workflows included, no connector is
    called, no credential is resolved and no HTTP request is sent. *)
Theorem dry_run_is_silent E fuel wf trigger_data chain s r s' :
  execute_workflow E fuel wf trigger_data true chain s = Returned r s' ->
  calls s' = calls s.
Proof.
  apply run_execution_calls; [done|]. apply dry_run_from_trigger. intros. apply dry_execute_single.
Qed.

Lemma dry_run_is_silent_witness :
  let call := Node "a" "action" "a" [("connector_name", PStr "erp"); ("action", PStr "order.create")] in
  let wf := Wf "w" "w" [Node "t" "trigger" "t" []; call] [Edge "t" "a" "default"]
              [] "stop" 0 "" "" PNone in
  let E := MkEnv no_lib (fun _ => None) py_str (Some (fun _ _ => Ok PNone)) None None
             (fun _ _ => Raise (OtherError "")) (fun _ => None) (fun i => str_of_Z (Z.of_nat i)) in
  let s := MkSt (MkWorld [] [] []) (new_context []) in
  match execute_workflow E 5 wf [] true [] s with
  | Returned r s' => calls s' = []
  | _ => False
  end.
Proof.
  intros call wf E s. destruct (execute_workflow E 5 wf [] true [] s) as [r s'| |] eqn:H.
  - exact (dry_run_is_silent E 5 wf [] [] s r s' H).
  - vm_compute in H. discriminate.
  - vm_compute in H. discriminate.
Defined.
