(* ===== verification/EngineRuns.v ===== *)
(** Theorems on single runs of the workflow engine: routing by conditions, filters,
    failures and retries, re-runs and the comparison of executions. *)

From S2P Require Import Prelude PyText PyValue Paths Context Conditions.
From S2P Require Import Transforms Redaction Graph Engine EngineFacts.

Local Open Scope string_scope.

(** An environment where nothing is configured, for the witnesses. *)
Definition no_env : Env :=
  MkEnv no_lib (fun _ => None) py_str None None None (fun _ _ => Raise (OtherError ""))
        (fun _ => None) (fun i => str_of_Z (Z.of_nat i)).

Definition start (c : WorkflowContext) : St := MkSt (MkWorld [] [] []) c.

(** ** Routing *)

Section Routing.
Variable E : Env.
Variable single : Workflow -> nat -> WNode -> M unit.

(** The verdict of a condition node. *)
Definition verdict (config : dict) (results : list bool) : bool :=
  combine_results (negb (py_eqb (dget_or "logic" (PStr "and") config) (PStr "or"))) results.

(** A condition node whose conditions evaluate continues with exactly the edges
    of the handle that carries its verdict, after adding the verdict to the data
    and without any other request or change of the data. *)
Theorem condition_routes wf depth node i s results :
  n_type node = "condition" ->
  condition_results E (n_config node) (st_ctx s) = Ok results ->
  let v := verdict (n_config node) results in
  let handle := if v then "true" else "false" in
  exists s',
    run_node E single wf depth node i s =
      follow single wf depth (get_successors (graph_of wf) (n_id node) (Some handle)) s'
    /\ data (st_ctx s') =
         dmerge (data (st_ctx s)) [("condition_result", PBool v); ("handle", PStr handle)]
    /\ variables (st_ctx s') = variables (st_ctx s)
    /\ w_log (st_world s') = w_log (st_world s).
Proof.
  intros Ht Hr v handle. unfold run_node, node_output. rewrite Ht.
  cbn -[exec_condition get_successors graph_of dmerge safe_truncate].
  unfold exec_condition. unfold mbind, M_bind, lift, get_ctx. cbn -[condition_results get_successors graph_of dmerge safe_truncate combine_results py_eqb].
  rewrite Hr. cbn -[condition_results get_successors graph_of dmerge safe_truncate combine_results py_eqb].
  fold (verdict (n_config node) results). fold v. fold handle.
  eexists. split; [reflexivity|]. done.
Qed.

(** A filter node whose conditions do not hold ends its branch without an error:
    its entry is marked [filtered], no successor runs, and neither the data nor
    the log changes. *)
Theorem filter_stops wf depth node s results :
  n_type node = "filter" ->
  condition_results E (n_config node) (st_ctx s) = Ok results ->
  combine_results (py_eqb (dget_or "logic" (PStr "and") (n_config node)) (PStr "and")) results = false ->
  exists s' e,
    execute_single_body E single wf depth node s = Returned (Ok tt) s'
    /\ data (st_ctx s') = data (st_ctx s) /\ w_log (st_world s') = w_log (st_world s)
    /\ node_results (st_ctx s') = (node_results (st_ctx s) ++ [List.length (w_entries (st_world s))])%list
    /\ w_entries (st_world s') = (w_entries (st_world s) ++ [e])%list
    /\ en_status e = "filtered" /\ en_node_id e = n_id node.
Proof.
  intros Ht Hr Hf. unfold execute_single_body, merge_gate. rewrite Ht.
  unfold run_node, node_output. rewrite Ht. unfold exec_filter, try_catch.
  unfold mbind, M_bind, lift, get_ctx, alloc_entry.
  cbn -[condition_results combine_results py_eqb safe_truncate alter].
  rewrite Hr. cbn -[condition_results combine_results py_eqb safe_truncate alter].
  rewrite Hf. cbn -[safe_truncate alter].
  eexists _, _. split; [reflexivity|]. split; [done|]. split; [done|]. split; [done|].
  split.
  { cbn -[safe_truncate alter]. rewrite alter_app_r_alt by done. rewrite Nat.sub_diag. reflexivity. }
  split; reflexivity.
Qed.
End Routing.

Lemma condition_routes_witness :
  let node := Node "c" "condition" "c"
    [("conditions", PList [PDict [("field", PStr "qty"); ("operator", PStr "gt"); ("value", PInt 3)]])] in
  let wf := Wf "w" "w" [node; Node "y" "response" "" []; Node "n" "response" "" []]
              [Edge "c" "y" "true"; Edge "c" "n" "false"] [] "stop" 0 "" "" PNone in
  let s := start (new_context [("qty", PInt 5)]) in
  let single := fun _ _ n => log_event (ESleep (PStr (n_id n))) in
  condition_results no_env (n_config node) (st_ctx s) = Ok [true]
  /\ exists s', run_node no_env single wf 0 node 0 s = follow single wf 0
       (get_successors (graph_of wf) "c" (Some "true")) s'
     /\ data (st_ctx s') = dmerge (data (st_ctx s)) [("condition_result", PBool true); ("handle", PStr "true")]
     /\ variables (st_ctx s') = variables (st_ctx s)
     /\ w_log (st_world s') = w_log (st_world s).
Proof.
  intros node wf s single. split; [reflexivity|].
  exact (condition_routes no_env single wf 0 node 0 s [true] eq_refl eq_refl).
Defined.

Lemma filter_stops_witness :
  let node := Node "f" "filter" "f"
    [("conditions", PList [PDict [("field", PStr "qty"); ("operator", PStr "gt"); ("value", PInt 9)]])] in
  let wf := Wf "w" "w" [node] [] [] "stop" 0 "" "" PNone in
  let s := start (new_context [("qty", PInt 5)]) in
  condition_results no_env (n_config node) (st_ctx s) = Ok [false]
  /\ exists s' e, execute_single_body no_env (fun _ _ _ => ret tt) wf 0 node s = Returned (Ok tt) s'
    /\ data (st_ctx s') = data (st_ctx s) /\ w_log (st_world s') = w_log (st_world s)
    /\ node_results (st_ctx s') = (node_results (st_ctx s) ++ [List.length (w_entries (st_world s))])%list
    /\ w_entries (st_world s') = (w_entries (st_world s) ++ [e])%list
    /\ en_status e = "filtered" /\ en_node_id e = n_id node.
Proof.
  intros node wf s. split; [reflexivity|].
  exact (filter_stops no_env (fun _ _ _ => ret tt) wf 0 node s [false] eq_refl eq_refl eq_refl).
Defined.

(** ** Retries *)

Section Retry.
Variable E : Env.
Variable single : Workflow -> nat -> WNode -> M unit.

(** The events of the attempts [a], [a + 1], ... of a node that keeps failing. *)
Fixpoint backoff_events (node_id : string) (r : action_request) (a : Z) (n : nat) : list event :=
  match n with
  | O => []
  | S n' => ERetryDelay node_id a (retry_delay a) :: ECall r :: backoff_events node_id r (a + 1) n'
  end.

Lemma retry_delay_bounds a : (1 <= a)%Z -> (1 <= retry_delay a <= 30)%Z.
Proof.
  intros Ha. unfold retry_delay. assert (1 <= 2 ^ (a - 1))%Z; [|lia].
  change 1%Z with (2 ^ 0)%Z at 1. apply Z.pow_le_mono_r; lia.
Qed.

(** The request an action node sends from a context. *)
Definition action_of (config : dict) (payload : dict) : action_request :=
  ActionRequest (dget_or "connector_name" (PStr "") config) (dget_or "action" (PStr "") config)
    (PDict payload) (dget_or "credential_name" (PStr "default") config)
    (dget_or "connector_version" PNone config).

Lemma exec_action_fails f config payload s :
  env_action E = Some f -> (forall n r, exists e, f n r = Raise e) ->
  truthy (dget_or "connector_name" (PStr "") config) = true ->
  truthy (dget_or "action" (PStr "") config) = true ->
  dry_run (st_ctx s) = false ->
  apply_field_mapping (env_lib E) (dget_or "field_mapping" (PList []) config) (st_ctx s) = Ok payload ->
  exists e, exec_action E config s =
    Returned (Raise e)
      (MkSt (MkWorld (w_log (st_world s) ++ [ECall (action_of config payload)])%list
                     (w_entries (st_world s)) (w_executions (st_world s))) (st_ctx s)).
Proof.
  intros Hf Hfail Hc Ha Hd Hp. unfold exec_action. rewrite Hc, Ha. cbn [negb orb].
  unfold mbind, M_bind, get_ctx, lift. rewrite Hp, Hd, Hf. unfold call_action.
  unfold mbind, M_bind, log_length, log_event, modify_world, lift. cbn.
  destruct (Hfail (List.length (w_log (st_world s)))
    (ActionRequest (dget_or "connector_name" (PStr "") config) (dget_or "action" (PStr "") config)
       (PDict payload) (dget_or "credential_name" (PStr "default") config)
       (dget_or "connector_version" PNone config))) as [e He].
  exists e. by rewrite He.
Qed.

Definition logged (l : list event) (s : St) : St :=
  MkSt (MkWorld (w_log (st_world s) ++ l)%list (w_entries (st_world s)) (w_executions (st_world s)))
       (st_ctx s).

Lemma retry_loop_step wf depth node i a m s e s' :
  redo_node E node (logged [ERetryDelay (n_id node) a (retry_delay a)] s) = Returned (Raise e) s' ->
  retry_loop E single wf depth node i a (S m) s = retry_loop E single wf depth node i (a + 1) m s'.
Proof.
  intros H. cbn [retry_loop]. unfold mbind, M_bind.
  change (log_event ?ev s) with (Returned (Ok tt) (logged [ev] s)). cbn match.
  unfold try_catch, retry_attempt. unfold mbind, M_bind. by rewrite H.
Qed.

Lemma retry_loop_fails f wf depth node payload n : forall a s i,
  n_type node = "action" ->
  env_action E = Some f -> (forall k r, exists e, f k r = Raise e) ->
  truthy (dget_or "connector_name" (PStr "") (n_config node)) = true ->
  truthy (dget_or "action" (PStr "") (n_config node)) = true ->
  dry_run (st_ctx s) = false ->
  apply_field_mapping (env_lib E) (dget_or "field_mapping" (PList []) (n_config node)) (st_ctx s)
    = Ok payload ->
  retry_loop E single wf depth node i a n s =
    Returned (Ok false)
      (logged (backoff_events (n_id node) (action_of (n_config node) payload) a n) s).
Proof.
  induction n as [|n IH]; intros a s i Ht Hf Hfail Hc Ha Hd Hp.
  { cbn [retry_loop backoff_events]. unfold logged, ret. destruct s as [[] ?]. cbn.
    by rewrite app_nil_r. }
  destruct (exec_action_fails f (n_config node) payload
              (logged [ERetryDelay (n_id node) a (retry_delay a)] s)) as [e He]; try done.
  rewrite (retry_loop_step _ _ _ _ _ _ _ e
             (logged [ECall (action_of (n_config node) payload)]
                (logged [ERetryDelay (n_id node) a (retry_delay a)] s))).
  - rewrite IH by done. f_equal. unfold logged. cbn [st_world st_ctx w_log w_entries w_executions].
    cbn [backoff_events]. by rewrite <-!app_assoc.
  - unfold redo_node. rewrite Ht. exact He.
Qed.

Lemma backoff_delays node_id r id k d n : forall a,
  (1 <= a)%Z -> ERetryDelay id k d ∈ backoff_events node_id r a n ->
  (a <= k < a + Z.of_nat n /\ d = retry_delay k)%Z.
Proof.
  induction n as [|n IH]; intros a Ha Hin; cbn [backoff_events] in Hin.
  - by apply not_elem_of_nil in Hin.
  - rewrite !elem_of_cons in Hin. destruct Hin as [Heq|[?|Hin]]; [|done|].
    + injection Heq as _ -> ->. split; [lia|done].
    + apply IH in Hin as [Hk ->]; [|lia]. split; [lia|done].
Qed.

(** An action whose connector keeps failing is retried exactly [max_retries]
    times with the same request, each attempt after a wait of
    [min(2^(k-1), 30)] seconds, that is of 1 to 30 seconds; then the loop gives up
    and the context is as before. *)
Theorem retries_back_off f wf depth node i payload s n :
  n_type node = "action" ->
  env_action E = Some f -> (forall k r, exists e, f k r = Raise e) ->
  truthy (dget_or "connector_name" (PStr "") (n_config node)) = true ->
  truthy (dget_or "action" (PStr "") (n_config node)) = true ->
  dry_run (st_ctx s) = false ->
  apply_field_mapping (env_lib E) (dget_or "field_mapping" (PList []) (n_config node)) (st_ctx s)
    = Ok payload ->
  exists w,
    retry_loop E single wf depth node i 1 n s = Returned (Ok false) (MkSt w (st_ctx s))
    /\ w_log w = (w_log (st_world s)
                  ++ backoff_events (n_id node) (action_of (n_config node) payload) 1 n)%list
    /\ (forall id k d, ERetryDelay id k d ∈ backoff_events (n_id node) (action_of (n_config node) payload) 1 n
          -> 1 <= k <= Z.of_nat n /\ d = Z.min (2 ^ (k - 1)) 30 /\ 1 <= d <= 30)%Z.
Proof.
  intros Ht Hf Hfail Hc Ha Hd Hp. eexists. split; [|split].
  - rewrite (retry_loop_fails f wf depth node payload n) by done. reflexivity.
  - reflexivity.
  - intros id k d [Hk ->]%backoff_delays; [|lia]. split; [lia|]. split; [done|].
    apply retry_delay_bounds. lia.
Qed.
End Retry.

Definition failing_env (e : pyexn) : Env :=
  MkEnv no_lib (fun _ => None) py_str (Some (fun _ _ => Raise e)) None None
        (fun _ _ => Raise (OtherError "")) (fun _ => None) (fun i => str_of_Z (Z.of_nat i)).

Lemma retries_back_off_witness :
  let node := Node "a" "action" "a" [("connector_name", PStr "wms"); ("action", PStr "push")] in
  let wf := Wf "w" "w" [node] [] [] "retry" 3 "" "" PNone in
  let s := start (new_context []) in
  let r := action_of (n_config node) [] in
  exists w,
    retry_loop (failing_env (OtherError "down")) (fun _ _ _ => ret tt) wf 0 node 0 1 3 s
      = Returned (Ok false) (MkSt w (st_ctx s))
    /\ w_log w = [ERetryDelay "a" 1 1; ECall r; ERetryDelay "a" 2 2; ECall r;
                  ERetryDelay "a" 3 4; ECall r].
Proof.
  intros node wf s r.
  destruct (retries_back_off (failing_env (OtherError "down")) (fun _ _ _ => ret tt)
              (fun _ _ => Raise (OtherError "down")) wf 0 node 0 [] s 3 eq_refl eq_refl
              (fun _ _ => ex_intro _ (OtherError "down") eq_refl) eq_refl eq_refl eq_refl eq_refl)
    as (w & H1 & H2 & _).
  exists w. split; [exact H1|exact H2].
Defined.

(** ** Failures *)

Section Failure.
Variable E : Env.
Variable single : Workflow -> nat -> WNode -> M unit.

(** When a node fails under the policy [stop], the error that leaves it is a
    [WorkflowError] that carries this node's label and id, its entry is marked
    [failed], and the rest of its list of siblings is not run. *)
Theorem stop_aborts_siblings wf depth node siblings s s1 exc :
  (depth <= 200)%nat ->
  dget_or "on_error" (PStr (wf_on_error wf)) (n_config node) = PStr "stop" ->
  find_error_handler (graph_of wf) (n_id node) = Ok None ->
  merge_gate wf node s = Returned (Ok false) s ->
  let i := List.length (w_entries (st_world s)) in
  run_node E single wf depth node i
    (MkSt (MkWorld (w_log (st_world s)) (w_entries (st_world s) ++ [running_entry node (st_ctx s)])%list
                   (w_executions (st_world s))) (st_ctx s)) = Returned (Raise exc) s1 ->
  execute_nodes (execute_single_body E single) wf depth (node :: siblings) s =
    Returned (Raise (WorkflowError ("Node '" ++ n_label node ++ "' failed: " ++ exn_str exc)
                                   (Some (n_id node))))
      (MkSt (MkWorld (w_log (st_world s1)) (alter (finish_failed exc) i (w_entries (st_world s1)))
                     (w_executions (st_world s1)))
            (with_results (node_results (st_ctx s1) ++ [i])%list (st_ctx s1))).
Proof.
  intros Hd Ho Hh Hm i Hr. unfold execute_nodes. replace (200 <? depth)%nat with false
    by (symmetry; apply Nat.ltb_ge; lia).
  cbn [iterM]. unfold mbind, M_bind, execute_single_body. unfold mbind, M_bind. rewrite Hm.
  cbn [get_ctx alloc_entry st_ctx st_world]. fold i. unfold try_catch. rewrite Hr.
  unfold handle_failure. rewrite Ho. cbn [py_eqb String.eqb Ascii.eqb Bool.eqb].
  unfold fail_node, mbind, M_bind, update_entry, modify_world, push_result, modify_ctx, lift.
  cbn [st_world st_ctx w_log w_entries w_executions]. rewrite Hh. reflexivity.
Qed.
End Failure.

Lemma stop_aborts_siblings_witness :
  let node := Node "a" "action" "Push" [] in
  let wf := Wf "w" "w" [node; Node "b" "delay" "" []] [] [] "stop" 0 "" "" PNone in
  let s := start (new_context []) in
  execute_nodes (execute_single_body no_env (fun _ _ _ => ret tt)) wf 1 (wf_nodes wf) s =
    Returned (Raise (WorkflowError
        "Node 'Push' failed: Action node missing connector_name or action" (Some "a")))
      (MkSt (MkWorld [] [finish_failed
               (WorkflowError "Action node missing connector_name or action" None)
               (running_entry node (new_context []))] [])
            (with_results [0%nat] (new_context []))).
Proof.
  intros node wf s.
  exact (stop_aborts_siblings no_env (fun _ _ _ => ret tt) wf 1 node [Node "b" "delay" "" []] s
    (MkSt (MkWorld [] [running_entry node (new_context [])] []) (new_context []))
    (WorkflowError "Action node missing connector_name or action" None)
    ltac:(repeat constructor) eq_refl eq_refl eq_refl eq_refl).
Defined.

(** A linear workflow trigger - first - second whose second node fails. *)
Definition chain_workflow (on_error : string) (max_retries : Z) : Workflow :=
  Wf "w" "w"
    [Node "t" "trigger" "start" [];
     Node "first" "action" "First" [("connector_name", PStr "erp"); ("action", PStr "order.create")];
     Node "second" "action" "Second" []]
    [Edge "t" "first" "default"; Edge "first" "second" "default"]
    [] on_error max_retries "" "" PNone.

(** An environment whose connectors always succeed. *)
Definition working_env (answer : pyval) : Env :=
  MkEnv no_lib (fun _ => None) py_str (Some (fun _ _ => Ok answer)) None None
        (fun _ _ => Raise (OtherError "")) (fun _ => None) (fun i => str_of_Z (Z.of_nat i)).

(** What a run left: status, error node, the statuses of the entries and the
    number of external requests. *)
Definition run_summary (o : outcome WorkflowExecution)
  : option (string * option string * list (string * string) * nat) :=
  match o with
  | Returned (Ok x) s =>
      Some (ex_status x, ex_error_node_id x,
            map (fun e => (en_node_id e, en_status e)) (ex_node_results x),
            List.length (calls s))
  | _ => None
  end.

(** A failure is reported on the wrong node: the successors run inside the
    [try] block of the node before them, so when the second node of a chain fails
    the first one, which succeeded, is marked failed (in both of its entries) and
    becomes the execution's [error_node_id]. *)
Theorem failure_blames_ancestor answer :
  run_summary (execute_workflow (working_env answer) 10 (chain_workflow "stop" 0) [] false []
                 (start (new_context []))) =
    Some ("failed", Some "first",
          [("t", "success"); ("first", "failed"); ("second", "failed"); ("first", "failed")], 1%nat).
Proof. by destruct answer. Qed.

(** ** Retries after a success *)

Section RetrySuccess.
Variable E : Env.
Variable single : Workflow -> nat -> WNode -> M unit.

(** Outside dry runs, [m] returns a result in [P] after [k] external requests. *)
Definition spends {A} (P : res A -> Prop) (k : nat) (m : M A) : Prop := forall s,
  dry_run (st_ctx s) = false ->
  exists r s', m s = Returned r s' /\ P r /\ dry_run (st_ctx s') = false
               /\ List.length (calls s') = (List.length (calls s) + k)%nat.

Definition succeeds {A} (k : nat) (m : M A) : Prop := spends (fun r => is_ok r = true) k m.
Definition raises {A} (k : nat) (m : M A) : Prop := spends (fun r => is_ok r = false) k m.

Lemma spends_bind {A B} P k j (m : M A) (f : A -> M B) :
  succeeds k m -> (forall a, spends P j (f a)) -> spends P (k + j) (m ≫= f).
Proof.
  intros Hm Hf s Hs. destruct (Hm s Hs) as (r & s1 & E1 & Hr & Hs1 & Hc1).
  destruct r as [a|]; [|done]. destruct (Hf a s1 Hs1) as (r2 & s2 & E2 & Hr2 & Hs2 & Hc2).
  exists r2, s2. unfold mbind, M_bind. rewrite E1. repeat split; try done; lia.
Qed.

Lemma raises_bind {A B} k (m : M A) (f : A -> M B) : raises k m -> raises k (m ≫= f).
Proof.
  intros Hm s Hs. destruct (Hm s Hs) as (r & s1 & E1 & Hr & Hs1 & Hc1).
  destruct r as [a|e]; [done|]. exists (Raise e), s1. unfold mbind, M_bind. by rewrite E1.
Qed.

Lemma spends_ret {A} (a : A) : succeeds 0 (ret a).
Proof. intros s Hs. exists (Ok a), s. repeat split; try done; lia. Qed.

Lemma raises_raise {A} e : raises 0 (raise e : M A).
Proof. intros s Hs. exists (Raise e), s. repeat split; try done; lia. Qed.

Lemma spends_modify_ctx f : (forall c, dry_run (f c) = dry_run c) -> succeeds 0 (modify_ctx f).
Proof.
  intros Hf s Hs. eexists _, _. split; [reflexivity|]. cbn [st_ctx]. rewrite Hf.
  change (calls (MkSt (st_world s) (f (st_ctx s)))) with (calls s). repeat split; try done; lia.
Qed.

Lemma spends_update_entry i f : succeeds 0 (update_entry i f).
Proof.
  intros s Hs. eexists _, _. split; [reflexivity|]. split; [done|]. split; [done|].
  unfold calls. cbn [st_world w_log]. lia.
Qed.

Lemma spends_merge_output output : succeeds 0 (merge_output output).
Proof. destruct output; cbn [merge_output]; try apply spends_ret. by apply spends_modify_ctx. Qed.

(** A node whose connector always answers and whose successors always fail. *)
Variables (f : nat -> action_request -> res pyval) (answer : pyval).
Variables (wf : Workflow) (depth : nat) (node : WNode).
Hypothesis Htype : n_type node = "action".
Hypothesis Haction : env_action E = Some f.
Hypothesis Hanswer : forall k r, f k r = Ok answer.
Hypothesis Hconnector : truthy (dget_or "connector_name" (PStr "") (n_config node)) = true.
Hypothesis Hname : truthy (dget_or "action" (PStr "") (n_config node)) = true.
Hypothesis Hmapping : forall c, exists payload,
  apply_field_mapping (env_lib E) (dget_or "field_mapping" (PList []) (n_config node)) c = Ok payload.
Hypothesis Hdepth : (depth < 200)%nat.
Hypothesis Hsucc : get_successors (graph_of wf) (n_id node) None <> [].
Hypothesis Hsingle : forall d m, raises 0 (single wf d m).

Lemma exec_action_spends : succeeds 1 (exec_action E (n_config node)).
Proof.
  intros s Hs. destruct (Hmapping (st_ctx s)) as [payload Hp].
  exists (Ok answer), (logged [ECall (action_of (n_config node) payload)] s).
  split; [|split; [done|split; [done|]]].
  - unfold exec_action. rewrite Hconnector, Hname. cbn [negb orb].
    unfold mbind, M_bind, get_ctx, lift. rewrite Hp, Hs, Haction. unfold call_action.
    unfold mbind, M_bind, log_length, log_event, modify_world, lift. cbn. by rewrite Hanswer.
  - unfold calls, logged. cbn [st_world w_log]. by rewrite List.filter_app, length_app.
Qed.

Lemma follow_raises : raises 0 (follow single wf depth (get_successors (graph_of wf) (n_id node) None)).
Proof.
  destruct (get_successors _ _ _) as [|m ms]; [done|]. cbn [follow]. unfold execute_nodes.
  replace (200 <? S depth)%nat with false by (symmetry; apply Nat.ltb_ge; lia).
  cbn [iterM]. by apply raises_bind.
Qed.

Lemma run_node_repeats i : raises 1 (run_node E single wf depth node i).
Proof.
  unfold run_node, node_output. rewrite Htype. cbn [String.eqb Ascii.eqb Bool.eqb].
  change (raises 1) with (spends (fun r : res unit => is_ok r = false) 1).
  intros s Hs. destruct (exec_action_spends s Hs) as (r & s1 & E1 & Hr & Hs1 & Hc1).
  destruct r as [o|]; [|done].
  assert (Hrest : raises 0
    (_ ← set_output (n_id node) o; _ ← mark_completed (n_id node); _ ← merge_output o;
     _ ← update_entry i (finish_success o None); _ ← push_result i;
     follow single wf depth (next_nodes wf node PNone))).
  { do 5 (apply (spends_bind _ 0 0); [first [apply spends_merge_output | apply spends_update_entry
      | by apply spends_modify_ctx]|intros _]). exact follow_raises. }
  destruct (Hrest s1 Hs1) as (r2 & s2 & E2 & Hr2 & Hs2 & Hc2). exists r2, s2.
  unfold mbind at 1, M_bind at 1. unfold mbind at 1, M_bind at 1. rewrite E1. cbn [ret].
  split; [exact E2|]. repeat split; try done; lia.
Qed.

Lemma retry_attempt_repeats i a : raises 1 (retry_attempt E single wf depth node i a).
Proof.
  unfold retry_attempt, redo_node. rewrite Htype. cbn [String.eqb Ascii.eqb Bool.eqb].
  apply (spends_bind _ 1 0); [apply exec_action_spends|intros o].
  do 4 (apply (spends_bind _ 0 0); [first [apply spends_merge_output | apply spends_update_entry
    | by apply spends_modify_ctx]|intros _]). exact follow_raises.
Qed.

Lemma retry_loop_repeats i n : forall a s, dry_run (st_ctx s) = false ->
  exists s', retry_loop E single wf depth node i a n s = Returned (Ok false) s'
    /\ dry_run (st_ctx s') = false /\ List.length (calls s') = (List.length (calls s) + n)%nat.
Proof.
  induction n as [|n IH]; intros a s Hs; cbn [retry_loop].
  { exists s. split; [done|]. split; [done|]. lia. }
  unfold mbind at 1, M_bind at 1.
  change (log_event ?ev s) with (Returned (Ok tt) (logged [ev] s)). cbn match.
  set (s0 := logged _ s). assert (Hc0 : calls s0 = calls s).
  { unfold calls, s0, logged. cbn [st_world w_log]. rewrite List.filter_app. cbn. apply app_nil_r. }
  destruct (retry_attempt_repeats i a s0 Hs) as (r & s1 & E1 & Hr & Hs1 & Hc1).
  destruct r as [[]|e]; [done|]. destruct (IH (a + 1)%Z s1 Hs1) as (s2 & E2 & Hs2 & Hc2).
  exists s2. unfold mbind at 1, M_bind at 1, try_catch. unfold mbind at 1, M_bind at 1. rewrite E1.
  split; [exact E2|]. split; [done|]. rewrite Hc2, Hc1, Hc0. lia.
Qed.
End RetrySuccess.

Lemma fail_node_raises single wf depth node i exc s :
  find_error_handler (graph_of wf) (n_id node) = Ok None ->
  exists s', fail_node single wf depth node i (PStr "retry") exc s
               = Returned (Raise (node_failed node exc)) s' /\ calls s' = calls s.
Proof.
  intros Hh. unfold fail_node, mbind, M_bind, update_entry, modify_world, push_result, modify_ctx, lift.
  rewrite Hh. eexists. split; reflexivity.
Qed.

(** The retries of a positive or zero count. *)
Lemma retry_count_nat n :
  py_order OpGt (PInt (Z.of_nat n)) (PInt 0) = Ok (negb (Nat.eqb n 0))
  /\ retry_count (PInt (Z.of_nat n)) = Ok n.
Proof.
  assert (H : py_order OpGt (PInt (Z.of_nat n)) (PInt 0) = Ok (negb (Nat.eqb n 0))).
  { cbn [py_order]. rewrite num_cmp_int. by destruct n. }
  split; [done|]. unfold retry_count. rewrite H. destruct n as [|n]; [done|].
  cbn [mbind res_bind negb Nat.eqb as_Z]. by rewrite Nat2Z.id.
Qed.

(** Under [on_error = retry] an action that succeeded is repeated whenever what
    comes after it fails: if the connector answers every call and the successors
    fail every time, the connector is called once and then once more for each of
    the [max_retries] retries, and the node is reported as failed. *)
Theorem retry_repeats_successful_action E single f answer wf depth node n s :
  n_type node = "action" -> env_action E = Some f -> (forall k r, f k r = Ok answer) ->
  truthy (dget_or "connector_name" (PStr "") (n_config node)) = true ->
  truthy (dget_or "action" (PStr "") (n_config node)) = true ->
  (forall c, exists payload,
     apply_field_mapping (env_lib E) (dget_or "field_mapping" (PList []) (n_config node)) c = Ok payload) ->
  (depth < 200)%nat -> get_successors (graph_of wf) (n_id node) None <> [] ->
  (forall d m, raises 0 (single wf d m)) ->
  dget_or "on_error" (PStr (wf_on_error wf)) (n_config node) = PStr "retry" ->
  dget_or "max_retries" (PInt (wf_max_retries wf)) (n_config node) = PInt (Z.of_nat n) ->
  find_error_handler (graph_of wf) (n_id node) = Ok None -> dry_run (st_ctx s) = false ->
  exists e s', execute_single_body E single wf depth node s = Returned (Raise (node_failed node e)) s'
    /\ List.length (calls s') = (List.length (calls s) + S n)%nat.
Proof.
  intros Ht Hf Ha Hc Hn Hm Hd Hs Hsg Ho Hr Hh Hdry.
  unfold execute_single_body, merge_gate. rewrite Ht. cbn [String.eqb Ascii.eqb Bool.eqb].
  unfold mbind at 1, M_bind at 1, ret at 1. cbn [get_ctx]. unfold mbind at 1, M_bind at 1.
  cbn [get_ctx]. unfold mbind at 1, M_bind at 1. cbn [alloc_entry].
  set (i := List.length _). set (s0 := MkSt _ _).
  destruct (run_node_repeats E single f answer wf depth node Ht Hf Ha Hc Hn Hm Hd Hs Hsg i s0 Hdry)
    as (r & s1 & E1 & Hr1 & Hs1 & Hc1).
  destruct r as [[]|e]; [done|]. exists e. unfold try_catch. rewrite E1.
  unfold handle_failure. rewrite Ho, Hr. cbn [py_eqb String.eqb Ascii.eqb Bool.eqb].
  destruct (retry_count_nat n) as [Hpos Hcount]. rewrite Hpos, Hcount, Ht.
  assert (Hend : forall s2, List.length (calls s2) = (List.length (calls s) + S n)%nat ->
    exists s', fail_node single wf depth node i (PStr "retry") e s2 = Returned (Raise (node_failed node e)) s'
      /\ List.length (calls s') = (List.length (calls s) + S n)%nat).
  { intros s2 H2. destruct (fail_node_raises single wf depth node i e s2 Hh) as (s' & E' & Hc').
    exists s'. by rewrite Hc'. }
  change (calls s0) with (calls s) in Hc1.
  destruct n as [|n]; [by apply (Hend s1)|].
  destruct (retry_loop_repeats E single f answer wf depth node Ht Hf Ha Hc Hn Hm Hd Hs Hsg i (S n) 1 s1 Hs1)
    as (s2 & E2 & _ & Hc2).
  cbn [Nat.eqb negb andb retryable existsb]. unfold lift, mbind, M_bind. cbn -[retry_loop fail_node].
  rewrite E2. apply Hend. rewrite Hc2, Hc1. lia.
Qed.

Lemma retry_repeats_successful_action_witness :
  let node := Node "first" "action" "First" [("connector_name", PStr "erp"); ("action", PStr "order.create")] in
  let wf := Wf "w" "w" [node; Node "second" "action" "Second" []] [Edge "first" "second" "default"]
              [] "retry" 3 "" "" PNone in
  let single := fun _ _ _ => raise (OtherError "label printer offline") in
  exists e s', execute_single_body (working_env (PDict [("id", PInt 7)])) single wf 1 node
                 (start (new_context [])) = Returned (Raise (node_failed node e)) s'
    /\ List.length (calls s') = 4%nat.
Proof.
  intros node wf single.
  apply (retry_repeats_successful_action (working_env (PDict [("id", PInt 7)])) single
           (fun _ _ => Ok (PDict [("id", PInt 7)])) (PDict [("id", PInt 7)]) wf 1 node 3 (start (new_context [])));
    try reflexivity.
  - intros c. exists []. reflexivity.
  - lia.
  - discriminate.
  - intros d m. apply raises_raise.
Defined.

(** ** Re-runs and comparisons *)

Lemma keep_variables defs (vars : dict) :
  (forall k v, (k, v) ∈ defs -> dhas k vars = true) ->
  fold_left (fun vs kv => if dhas kv.1 vs then vs else dset kv.1 (variable_default kv.2) vs)
            defs vars = vars.
Proof.
  induction defs as [|[k v] defs IH]; intros H; cbn; [done|].
  rewrite (H k v) by left. apply IH. intros k' v' Hin. apply (H k' v'). by right.
Qed.

(** A re-run starts where the node started: from the first entry a node left in
    the original execution, and without override data, the data, the variables and
    the node outputs are those the node saw in the original run. *)
Theorem rerun_restores_context wf original node c i results :
  ex_node_results original = (results ++ [running_entry node c] ++ i)%list ->
  (forall e, e ∈ results -> en_node_id e <> n_id node) ->
  (forall k v, (k, v) ∈ wf_variables wf -> dhas k (variables c) = true) ->
  let c' := restored_context wf original (n_id node) [] in
  data c' = data c /\ variables c' = variables c /\ node_outputs c' = node_outputs c.
Proof.
  intros Hr Hne Hv. unfold restored_context.
  assert (Hfind : List.find (fun e => String.eqb (en_node_id e) (n_id node)) (ex_node_results original)
                  = Some (running_entry node c)).
  { rewrite Hr. clear Hr. induction results as [|e results IH]; cbn.
    - by rewrite String.eqb_refl.
    - destruct (String.eqb_spec (en_node_id e) (n_id node)) as [He|_].
      + by destruct (Hne e (list_elem_of_here _ _)).
      + apply IH. intros e' He'. apply Hne. by right. }
  rewrite Hfind. cbn -[dhas]. by rewrite keep_variables.
Qed.

Lemma rerun_restores_context_witness :
  let node := Node "b" "action" "" [] in
  let c := with_variables [("v", PInt 1)] (with_data [("x", PInt 5)] (new_context [])) in
  let wf := Wf "w" "w" [node] [] [("v", PInt 0)] "stop" 0 "" "" PNone in
  let original := Execution "1" "w" "w" "failed" [] [] [] None None [running_entry node c] [] in
  data (restored_context wf original "b" []) = [("x", PInt 5)].
Proof.
  intros node c wf original.
  destruct (rerun_restores_context wf original node c [] [] eq_refl) as (H & _ & _).
  - intros e He. by apply not_elem_of_nil in He.
  - intros k v Hkv. apply list_elem_of_singleton in Hkv. by injection Hkv as -> ->.
  - exact H.
Defined.

Lemma all_node_ids_self (a : list (string * entry)) nid : nid ∈ all_node_ids a a -> nid ∈ dkeys a.
Proof.
  unfold all_node_ids. rewrite stable_sort_perm.
  assert (H : dkeys (map (fun k => (k, tt)) (dkeys a)) = dkeys a).
  { unfold dkeys. rewrite map_map. apply map_id. }
  intros (u & [Hu|Hu]%elem_of_dmerge)%elem_of_dkeys; rewrite <-H; apply elem_of_dkeys; eauto.
Qed.

(** Entries whose data Python can compare with themselves. *)
Definition comparable_entry (e : entry) : bool :=
  wf_val (PDict (rp_data (en_replay e))) && no_nan (PDict (rp_data (en_replay e)))
  && wf_val (compared_output e) && no_nan (compared_output e).

(** Comparing an execution with itself reports a row for every node and no
    difference in status, input or output. *)
Theorem diff_with_itself x :
  forallb comparable_entry (ex_node_results x) = true ->
  forall d, d ∈ diff_executions x x ->
    df_only_in d = None /\ df_status_a d = df_status_b d
    /\ df_status_changed d = false /\ df_input_changed d = false /\ df_output_changed d = false.
Proof.
  intros Hc d Hd. unfold diff_executions in Hd.
  apply list_elem_of_In, in_map_iff in Hd as (nid & <- & Hnid). apply list_elem_of_In in Hnid.
  assert (Hin : exists e, dget nid (results_by_node x) = Some e).
  { destruct (dget nid (results_by_node x)) as [e|] eqn:He; [eauto|]. apply dget_None in He.
    by destruct (He (all_node_ids_self _ _ Hnid)). }
  destruct Hin as [e He]. unfold diff_node. rewrite He.
  apply dget_Some_in, elem_of_dict_of, list_elem_of_In, in_map_iff in He as (e' & [= _ ->] & He').
  rewrite forallb_forall in Hc. specialize (Hc e He').
  unfold comparable_entry in Hc. rewrite !andb_true_iff in Hc. destruct Hc as [[[H1 H2] H3] H4].
  cbn [df_only_in df_status_a df_status_b df_status_changed df_input_changed df_output_changed].
  unfold py_neqb. rewrite String.eqb_refl, !py_eqb_refl by done. done.
Qed.

Lemma diff_with_itself_witness :
  let c := new_context [("x", PInt 1)] in
  let x := Execution "1" "w" "w" "success" [] [] [] None None
             [finish_success (PStr "ok") None (running_entry (Node "a" "delay" "" []) c)] [] in
  forall d, d ∈ diff_executions x x -> df_status_changed d = false.
Proof.
  intros c x d Hd. exact (proj1 (proj2 (proj2 (diff_with_itself x eq_refl d Hd)))).
Defined.
