(* ===== verification/Sync.v ===== *)
(** Incremental synchronisation: the ledger of [platform/core/sync_state.py]
    ([SyncStateManager]) and its use by [_execute_with_sync] and
    [record_execution_sync] of [platform/core/workflow_engine.py].

    The ledger table is a list of rows of one database.  A row is found by its
    workflow and entity key, which the table declares unique; the row lock makes
    the operations of one entity sequential.  Times are integers. *)

From S2P Require Import Prelude PyText PyFloat PyValue Json.

Local Open Scope string_scope.

(** The canonical text of a value: [json.dumps(v, sort_keys=True)]. *)
Definition json_dumps (v : pyval) : string := json_text true true v.

(** ** Keys and hashes *)

(** [_get_nested] of this module: dicts only. *)
Fixpoint dict_path (current : pyval) (parts : list string) : pyval :=
  match parts with
  | [] => current
  | part :: parts' =>
      match current with PDict d => dict_path (dget_or part PNone d) parts' | _ => PNone end
  end.

(** [str(_get_nested(data, f) or "")]. *)
Definition key_part (data : dict) (f : pyval) : res string :=
  p ← str_method "split" f;
  Ok (py_str (py_or (dict_path (PDict data) (split_char "." p)) (PStr ""))).

(** [resolve_entity_key]. *)
Definition resolve_entity_key (data : dict) (key_field : pyval) : res string :=
  match key_field with
  | PList fields => parts ← mapR (key_part data) fields; Ok (str_join ":" parts)
  | f => key_part data f
  end.

Definition ignored_key (k : string) : bool :=
  starts_with "_" k || existsb (String.eqb k) ["account_name"; "polled_at"].

Section Hash.
(** [hashlib.sha256(text.encode()).hexdigest()]. *)
Variable sha256 : string -> string.

Definition hashed_fields (data : dict) (fields : list pyval) : res dict :=
  foldR (fun acc k => match k with
                      | PStr s => Ok (dset s (dget_or s PNone data) acc)
                      | PList _ | PDict _ => Raise (unhashable k)
                      | _ => Raise (TypeError "keys must be comparable")
                      end) [] fields.

(** [compute_content_hash]; the fields are names (a list that mixes names and other
    values cannot be sorted by [json.dumps]). *)
Definition hashed_part (data : dict) (hash_fields : pyval) : res dict :=
  if truthy hash_fields && py_neqb hash_fields (PList [PStr "*"]) then
    fields ← as_iter hash_fields; hashed_fields data fields
  else Ok (List.filter (fun kv => negb (ignored_key kv.1)) data).

Definition compute_content_hash (data : dict) (hash_fields : pyval) : res string :=
  subset ← hashed_part data hash_fields; Ok (sha256 (json_dumps (PDict subset))).
End Hash.

(** ** The ledger *)

Inductive sync_decision := SYNC | UPDATE | SKIP | RETRY.

Inductive sync_status := Pending | Synced | Failed | Stale.

#[export] Instance sync_status_dec : EqDecision sync_status.
Proof. solve_decision. Defined.
#[export] Instance sync_decision_dec : EqDecision sync_decision.
Proof. solve_decision. Defined.

Record ledger_row := Row {
  l_id : nat;
  l_tenant : string;
  l_workflow : string;
  l_entity_key : string;
  l_content_hash : string;
  l_status : sync_status;
  l_attempts : Z;
  l_error : option string;
  l_updated_at : Z
}.

(** The rows, and the next id the database hands out. *)
Record Ledger := MkLedger { rows : list ledger_row; next_id : nat }.

Record check_result := Check {
  ck_decision : sync_decision;
  ck_existing_hash : option string;
  ck_attempts : Z;
  ck_ledger_id : option nat
}.

Definition is_row (wf key : string) (r : ledger_row) : bool :=
  String.eqb (l_workflow r) wf && String.eqb (l_entity_key r) key.

Definition find_row (l : Ledger) (wf key : string) : option ledger_row :=
  List.find (is_row wf key) (rows l).

(** The decision on an existing row; [max_retries] is only looked at on a failed
    row, and comparing with a value that is not a number raises. *)
Definition decide_row (r : ledger_row) (content_hash : string) (max_retries : pyval)
  : res check_result :=
  let same := String.eqb (l_content_hash r) content_hash in
  let found d attempts := Check d (Some (l_content_hash r)) attempts (Some (l_id r)) in
  if bool_decide (l_status r = Pending) then Ok (found SKIP 0%Z)
  else
    retry ← (if bool_decide (l_status r = Failed)
             then py_order OpLt (PInt (l_attempts r)) max_retries else Ok false);
    if (retry : bool) then Ok (found RETRY (l_attempts r))
    else if same && bool_decide (l_status r = Synced) then Ok (found SKIP 0%Z)
    else if negb same then Ok (found UPDATE (l_attempts r))
    else Ok (found SYNC 0%Z).

(** The row [should_sync] inserts for an entity it has not seen. *)
Definition pending_row (tenant wf key content_hash : string) (now : Z) (l : Ledger) : ledger_row :=
  Row (next_id l) tenant wf key content_hash Pending 0 None now.

(** [should_sync] for a caller that gives its tenant.  [raced]: another transaction
    inserts the row between the [SELECT] and the [INSERT], which then fails. *)
Definition should_sync (tenant wf key content_hash : string) (max_retries : pyval) (now : Z)
    (raced : bool) (l : Ledger) : res (check_result * Ledger) :=
  match find_row l wf key with
  | Some r => ck ← decide_row r content_hash max_retries; Ok (ck, l)
  | None =>
      if raced then Ok (Check SKIP None 0 None, l)
      else Ok (Check SYNC None 0 (Some (next_id l)),
               MkLedger (rows l ++ [pending_row tenant wf key content_hash now l])%list
                        (S (next_id l)))
  end.

Definition update_rows (p : ledger_row -> bool) (f : ledger_row -> ledger_row) (l : Ledger) : Ledger :=
  MkLedger (map (fun r => if p r then f r else r) (rows l)) (next_id l).

Definition has_id (i : nat) (r : ledger_row) : bool := Nat.eqb (l_id r) i.

Definition set_synced (content_hash : string) (now : Z) (r : ledger_row) : ledger_row :=
  Row (l_id r) (l_tenant r) (l_workflow r) (l_entity_key r) content_hash Synced (l_attempts r) None now.
Definition set_failed (content_hash : string) (error : string) (now : Z) (r : ledger_row) : ledger_row :=
  Row (l_id r) (l_tenant r) (l_workflow r) (l_entity_key r) content_hash Failed (l_attempts r + 1)
      (Some (str_take 2000 error)) now.
Definition set_status (st : sync_status) (now : Z) (r : ledger_row) : ledger_row :=
  Row (l_id r) (l_tenant r) (l_workflow r) (l_entity_key r) (l_content_hash r) st (l_attempts r)
      (l_error r) now.
Definition set_reset (now : Z) (r : ledger_row) : ledger_row :=
  Row (l_id r) (l_tenant r) (l_workflow r) (l_entity_key r) (l_content_hash r) Pending 0 None now.

(** [INSERT]: the unique constraint refuses a second row of an entity. *)
Definition insert_row (r : ledger_row) (l : Ledger) : res Ledger :=
  match find_row l (l_workflow r) (l_entity_key r) with
  | Some _ => Raise (OtherError "IntegrityError")
  | None => Ok (MkLedger (rows l ++ [r])%list (S (next_id l)))
  end.

(** [record_success] and [record_failure]. *)
Definition record_success (tenant wf key content_hash : string) (ledger_id : option nat) (now : Z)
    (l : Ledger) : res Ledger :=
  match ledger_id with
  | Some i => Ok (update_rows (has_id i) (set_synced content_hash now) l)
  | None => insert_row (Row (next_id l) tenant wf key content_hash Synced 0 None now) l
  end.
Definition record_failure (tenant wf key content_hash error : string) (ledger_id : option nat)
    (now : Z) (l : Ledger) : res Ledger :=
  match ledger_id with
  | Some i => Ok (update_rows (has_id i) (set_failed content_hash error now) l)
  | None => insert_row (Row (next_id l) tenant wf key content_hash Failed 1
                          (Some (str_take 2000 error)) now) l
  end.

(** The rows a maintenance operation selects. *)
Definition selects (wf : string) (tenant : option string) (st : option sync_status) (r : ledger_row)
  : bool :=
  String.eqb (l_workflow r) wf
  && match tenant with Some t => String.eqb (l_tenant r) t | None => true end
  && match st with Some s => bool_decide (l_status r = s) | None => true end.

(** [mark_stale], [reset_failed], [clear_ledger]: the number of rows and the ledger. *)
Definition count_rows (p : ledger_row -> bool) (l : Ledger) : nat :=
  List.length (List.filter p (rows l)).
Definition mark_stale (wf : string) (tenant : option string) (now : Z) (l : Ledger) : nat * Ledger :=
  let p := selects wf tenant (Some Synced) in (count_rows p l, update_rows p (set_status Stale now) l).
Definition reset_failed (wf : string) (tenant : option string) (now : Z) (l : Ledger) : nat * Ledger :=
  let p := selects wf tenant (Some Failed) in (count_rows p l, update_rows p (set_reset now) l).
Definition clear_ledger (wf : string) (tenant : option string) (l : Ledger) : nat * Ledger :=
  let p := selects wf tenant None in
  (count_rows p l, MkLedger (List.filter (fun r => negb (p r)) (rows l)) (next_id l)).

(** [get_stats]: synced, failed, pending, stale and their total. *)
Definition get_stats (wf : string) (tenant : option string) (l : Ledger) : list (string * nat) :=
  let c st := count_rows (selects wf tenant (Some st)) l in
  [("synced", c Synced); ("failed", c Failed); ("pending", c Pending); ("stale", c Stale);
   ("total", c Synced + c Failed + c Pending + c Stale)%nat].

(** [get_failed_entries]: most recently updated first. *)
Definition get_failed_entries (wf : string) (limit : nat) (tenant : option string) (l : Ledger)
  : list ledger_row :=
  take limit (stable_sort (fun a b => (l_updated_at b <? l_updated_at a)%Z)
                (List.filter (selects wf tenant (Some Failed)) (rows l))).

(** ** Synchronised executions *)

(** What a run of the workflow gave: success, or its error text. *)
Definition run_result : Type := option string.

Definition record_outcome (tenant wf key content_hash : string) (ck : check_result)
    (outcome : run_result) (now : Z) (l : Ledger) : res Ledger :=
  match outcome with
  | None => record_success tenant wf key content_hash (ck_ledger_id ck) now l
  | Some e => record_failure tenant wf key content_hash
                (if String.eqb e "" then "unknown error" else e) (ck_ledger_id ck) now l
  end.

(** What [_execute_with_sync] did: ran the workflow or not, and the ledger. *)
Inductive sync_run :=
  | Ran (l : Ledger)
  | NotRun (l : Ledger).

Definition ledger_of (r : sync_run) : Ledger := match r with Ran l | NotRun l => l end.

Section Sync.
Variable sha256 : string -> string.

(** The entity key and the content hash of an event; [None] when the workflow runs
    without synchronisation. *)
Definition sync_identity (sync_config : pyval) (event_data : dict)
  : res (option (string * string * dict)) :=
  if negb (truthy sync_config) then Ok None
  else
    cfg ← dict_method "get" sync_config;
    if negb (truthy (dget_or "enabled" PNone cfg)) then Ok None
    else
      let key_field := dget_or "entity_key_field" PNone cfg in
      if negb (truthy key_field) then Ok None
      else
        entity_key ← resolve_entity_key event_data key_field;
        if String.eqb entity_key "" then Ok None
        else
          h ← compute_content_hash sha256 event_data (dget_or "content_hash_fields" PNone cfg);
          Ok (Some (entity_key, h, cfg)).

(** The specification of the synchronised execution (the code's [_execute_with_sync] is
    [execute_event] of [Events]); [outcome] is what the workflow gives if it is run. *)
Definition execute_with_sync (tenant wf : string) (sync_config : pyval) (event_data : dict)
    (outcome : run_result) (now : Z) (raced : bool) (l : Ledger) : res sync_run :=
  ident ← sync_identity sync_config event_data;
  match ident with
  | None => Ok (Ran l)
  | Some (key, h, cfg) =>
      '(ck, l1) ← should_sync tenant wf key h (dget_or "max_retries" (PInt 3) cfg) now raced l;
      let run := l2 ← record_outcome tenant wf key h ck outcome now l1; Ok (Ran l2) in
      if py_eqb (dget_or "mode" (PStr "incremental") cfg) (PStr "force") then run
      else if bool_decide (ck_decision ck = SKIP) then Ok (NotRun l1)
      else if bool_decide (ck_decision ck = UPDATE)
              && py_eqb (dget_or "on_duplicate" (PStr "skip") cfg) (PStr "skip") then Ok (NotRun l1)
      else run
  end.

(** [record_execution_sync], after a workflow run directly. *)
Definition record_execution_sync (tenant wf : string) (sync_config : pyval) (trigger_data : dict)
    (outcome : run_result) (now : Z) (raced : bool) (l : Ledger) : res Ledger :=
  ident ← sync_identity sync_config trigger_data;
  match ident with
  | None => Ok l
  | Some (key, h, _) =>
      '(ck, l1) ← should_sync tenant wf key h (PInt 3) now raced l;
      record_outcome tenant wf key h ck outcome now l1
  end.
End Sync.

(** ** Facts *)

Record ledger_ok (l : Ledger) : Prop := {
  ok_ids : NoDup (map l_id (rows l));
  ok_next : forall r, r ∈ rows l -> (l_id r < next_id l)%nat;
  ok_entities : NoDup (map (fun r => (l_workflow r, l_entity_key r)) (rows l))
}.

(** An update that leaves the identity of a row alone. *)
Definition same_identity (f : ledger_row -> ledger_row) : Prop := forall r,
  l_id (f r) = l_id r /\ l_workflow (f r) = l_workflow r /\ l_entity_key (f r) = l_entity_key r.

Lemma map_update {B} (g : ledger_row -> B) p f l :
  (forall r, g (f r) = g r) -> map g (rows (update_rows p f l)) = map g (rows l).
Proof.
  intros H. unfold update_rows. cbn [rows]. rewrite map_map. apply map_ext. intros r.
  destruct (p r); [apply H|done].
Qed.

Lemma update_rows_ok p f l : same_identity f -> ledger_ok l -> ledger_ok (update_rows p f l).
Proof.
  intros Hf [H1 H2 H3]. constructor.
  - rewrite map_update; [done|]. intros r. apply Hf.
  - intros r Hr. apply list_elem_of_In, in_map_iff in Hr as (r' & <- & Hr').
    apply list_elem_of_In in Hr'. specialize (H2 r' Hr').
    cbn [next_id update_rows]. destruct (p r'); [|exact H2]. rewrite (proj1 (Hf r')). exact H2.
  - rewrite map_update; [done|]. intros r. destruct (Hf r) as (_ & -> & ->). done.
Qed.

Lemma same_identity_setters :
  (forall h now, same_identity (set_synced h now)) /\ (forall h e now, same_identity (set_failed h e now))
  /\ (forall st now, same_identity (set_status st now)) /\ (forall now, same_identity (set_reset now)).
Proof. by repeat split. Qed.

Lemma find_row_None l wf key :
  find_row l wf key = None -> (wf, key) ∉ map (fun r => (l_workflow r, l_entity_key r)) (rows l).
Proof.
  intros H Hin. apply list_elem_of_In, in_map_iff in Hin as (r & [= <- <-] & Hr).
  apply (find_none _ _ H) in Hr. unfold is_row in Hr. by rewrite !String.eqb_refl in Hr.
Qed.

Lemma insert_ok r l :
  l_id r = next_id l -> find_row l (l_workflow r) (l_entity_key r) = None ->
  ledger_ok l -> ledger_ok (MkLedger (rows l ++ [r])%list (S (next_id l))).
Proof.
  intros Hid Hnone [H1 H2 H3]. constructor; cbn [rows next_id].
  - rewrite map_app. apply list.NoDup_app. split_and!; [done| |apply NoDup_singleton].
    intros i Hi Hi'. apply list_elem_of_singleton in Hi' as ->.
    apply list_elem_of_In, in_map_iff in Hi as (r' & Hr' & Hin).
    apply list_elem_of_In, H2 in Hin. lia.
  - intros r' [Hr'|Hr']%elem_of_app; [apply H2 in Hr'; lia|].
    apply list_elem_of_singleton in Hr' as ->. lia.
  - rewrite map_app. apply list.NoDup_app. split_and!; [done| |apply NoDup_singleton].
    intros x Hx Hx'. apply list_elem_of_singleton in Hx' as ->. by apply find_row_None in Hnone.
Qed.

Lemma insert_row_ok r l l' :
  l_id r = next_id l -> insert_row r l = Ok l' -> ledger_ok l -> ledger_ok l'.
Proof.
  unfold insert_row. intros Hid. destruct (find_row _ _ _) eqn:E; [discriminate|].
  intros [= <-]. by apply insert_ok.
Qed.

Lemma record_ok tenant wf key h ck outcome now l l' :
  record_outcome tenant wf key h ck outcome now l = Ok l' -> ledger_ok l -> ledger_ok l'.
Proof.
  destruct same_identity_setters as (Hs & Hf & _).
  unfold record_outcome, record_success, record_failure.
  destruct outcome, (ck_ledger_id ck); intros H Hok;
    try (injection H as <-; by apply update_rows_ok);
    (eapply insert_row_ok; [|exact H|exact Hok]; done).
Qed.

Lemma should_sync_ok tenant wf key h mr now raced l ck l' :
  should_sync tenant wf key h mr now raced l = Ok (ck, l') -> ledger_ok l -> ledger_ok l'.
Proof.
  unfold should_sync. destruct (find_row l wf key) eqn:E; intros H Hok; bind_ok; [done|].
  destruct raced; injection H as _ <-; [done|]. by apply insert_ok.
Qed.

Lemma filter_ok p l : ledger_ok l -> ledger_ok (MkLedger (List.filter p (rows l)) (next_id l)).
Proof.
  assert (Hsub : forall {B} (g : ledger_row -> B) rs, NoDup (map g rs) -> NoDup (map g (List.filter p rs))).
  { intros B g rs H. induction rs as [|r rs IH]; cbn; [done|]. apply list.NoDup_cons in H as [Hn H].
    destruct (p r); [|by apply IH]. cbn. apply list.NoDup_cons. split; [|by apply IH].
    intros Hin. apply Hn. apply list_elem_of_In, in_map_iff in Hin as (r' & <- & Hr').
    apply filter_In in Hr' as [Hr' _]. apply list_elem_of_In, in_map, Hr'. }
  intros [H1 H2 H3]. constructor; cbn [rows next_id]; [by apply Hsub| |by apply Hsub].
  intros r Hr. apply H2. apply list_elem_of_In in Hr. apply filter_In in Hr as [Hr _].
  by apply list_elem_of_In.
Qed.

Lemma find_row_in l wf key r :
  find_row l wf key = Some r -> r ∈ rows l /\ l_workflow r = wf /\ l_entity_key r = key.
Proof.
  intros [Hin Hr]%find_some. unfold is_row in Hr. apply andb_true_iff in Hr as [Hw Hk].
  apply String.eqb_eq in Hw, Hk. split_and!; [by apply list_elem_of_In|done|done].
Qed.

Lemma NoDup_map_inj_in {A B} (g : A -> B) (l : list A) x y :
  NoDup (map g l) -> x ∈ l -> y ∈ l -> g x = g y -> x = y.
Proof.
  induction l as [|z l IH]; intros Hd Hx Hy E; [by apply not_elem_of_nil in Hx|].
  cbn [map] in Hd. apply list.NoDup_cons in Hd as [Hn Hd].
  assert (Hin : forall u, u ∈ l -> g u ∈ map g l) by (intros u Hu; by apply list_elem_of_In, in_map, list_elem_of_In).
  apply elem_of_cons in Hx as [->|Hx]; apply elem_of_cons in Hy as [->|Hy]; try done.
  - destruct Hn. rewrite E. by apply Hin.
  - destruct Hn. rewrite <-E. by apply Hin.
  - by apply IH.
Qed.

(** Updating the row found by its id changes what the entity is found at. *)
Lemma find_updated l wf key r f :
  ledger_ok l -> same_identity f -> find_row l wf key = Some r ->
  find_row (update_rows (has_id (l_id r)) f l) wf key = Some (f r).
Proof.
  intros [H1 _ _] Hf Hr. unfold find_row, update_rows in *. cbn [rows].
  induction (rows l) as [|r0 rs IH]; [done|]. cbn in *. apply list.NoDup_cons in H1 as [Hn H1].
  assert (Hrow : forall x, is_row wf key (if has_id (l_id r) x then f x else x) = is_row wf key x).
  { intros x. destruct (has_id (l_id r) x); [|done]. unfold is_row.
    destruct (Hf x) as (_ & -> & ->). done. }
  rewrite Hrow. destruct (is_row wf key r0) eqn:E.
  - injection Hr as <-. unfold has_id. by rewrite Nat.eqb_refl.
  - by apply IH.
Qed.

(** The row an update leaves for an entity, whatever selects the rows. *)
Lemma find_row_update l wf key r p f :
  ledger_ok l -> same_identity f -> find_row l wf key = Some r ->
  find_row (update_rows p f l) wf key = Some (if p r then f r else r).
Proof.
  intros _ Hf Hr. unfold find_row, update_rows in *. cbn [rows].
  induction (rows l) as [|r0 rs IH]; [done|]. cbn in *.
  assert (Hrow : is_row wf key (if p r0 then f r0 else r0) = is_row wf key r0).
  { destruct (p r0); [|done]. unfold is_row. destruct (Hf r0) as (_ & -> & ->). done. }
  rewrite Hrow. destruct (is_row wf key r0); [by injection Hr as <-|by apply IH].
Qed.

Lemma decide_row_id r h mr ck : decide_row r h mr = Ok ck -> ck_ledger_id ck = Some (l_id r).
Proof.
  unfold decide_row. destruct (bool_decide (l_status r = Pending)); [by intros [= <-]|].
  intros H. bind_ok. destruct x; [by injection H as <-|].
  destruct (_ && _); [by injection H as <-|]. by destruct (negb _); injection H as <-.
Qed.

(** ** Reachable ledgers *)

(** The operations the platform performs on the ledger. *)
Inductive ledger_step (sha256 : string -> string) : Ledger -> Ledger -> Prop :=
  | step_sync tenant wf cfg ev outcome now raced l r :
      execute_with_sync sha256 tenant wf cfg ev outcome now raced l = Ok r ->
      ledger_step sha256 l (ledger_of r)
  | step_record tenant wf cfg ev outcome now raced l l' :
      record_execution_sync sha256 tenant wf cfg ev outcome now raced l = Ok l' ->
      ledger_step sha256 l l'
  | step_stale wf tenant now l : ledger_step sha256 l (mark_stale wf tenant now l).2
  | step_reset wf tenant now l : ledger_step sha256 l (reset_failed wf tenant now l).2
  | step_clear wf tenant l : ledger_step sha256 l (clear_ledger wf tenant l).2.

Definition empty_ledger : Ledger := MkLedger [] 0.

Lemma empty_ledger_ok : ledger_ok empty_ledger.
Proof.
  constructor; [apply NoDup_nil_2| |apply NoDup_nil_2]. intros r Hr. by apply not_elem_of_nil in Hr.
Qed.

Lemma one_row_ok r : l_id r = 0%nat -> ledger_ok (MkLedger [r] 1).
Proof.
  intros Hr. constructor; [apply NoDup_singleton| |apply NoDup_singleton].
  intros r' Hr'. apply list_elem_of_singleton in Hr' as ->. cbn. lia.
Qed.

Lemma ledger_step_ok sha256 l l' : ledger_step sha256 l l' -> ledger_ok l -> ledger_ok l'.
Proof.
  destruct same_identity_setters as (_ & _ & Hst & Hre).
  intros H Hok. destruct H as [tenant wf cfg ev outcome now raced l r H|tenant wf cfg ev outcome now raced l l' H| | |].
  - unfold execute_with_sync in H. bind_ok. destruct x as [[[key h] c]|]; [|by injection H as <-].
    bind_ok. destruct x as [ck l1]. pose proof (should_sync_ok _ _ _ _ _ _ _ _ _ _ Hx0 Hok) as Hok1.
    cbv zeta in H.
    destruct (py_eqb _ _); [|destruct (bool_decide _); [|destruct (_ && _)]]; bind_ok; cbn [ledger_of];
      solve [exact Hok1 | by eapply record_ok].
  - unfold record_execution_sync in H. bind_ok. destruct x as [[[key h] c]|]; [|by injection H as <-].
    bind_ok. destruct x as [ck l1]. pose proof (should_sync_ok _ _ _ _ _ _ _ _ _ _ Hx0 Hok) as Hok1.
    by eapply record_ok.
  - by apply update_rows_ok.
  - by apply update_rows_ok.
  - by apply filter_ok.
Qed.

(** ** Properties *)

(** In every state the ledger can reach, an entity of a workflow has at most one
    row and row ids are distinct: no operation of the synchronisation, recorded
    successes and failures, resets and clearings included, duplicates a row. *)
Theorem ledger_unique_rows sha256 l :
  rtc (ledger_step sha256) empty_ledger l -> ledger_ok l.
Proof.
  intros H. pose proof empty_ledger_ok as Hok. revert Hok.
  induction H as [l|l1 l2 l3 H _ IH]; intros Hok; [done|]. apply IH. by eapply ledger_step_ok.
Qed.

(** The configuration of the witnesses: incremental, keyed by [id]. *)
Definition incremental_config : pyval :=
  PDict [("enabled", PBool true); ("entity_key_field", PStr "id"); ("on_duplicate", PStr "update")].

Lemma ledger_unique_rows_witness :
  let ev := [("id", PInt 7)] in
  exists l, execute_with_sync id "t" "w" incremental_config ev (Some "boom") 1 false empty_ledger = Ok (Ran l)
            /\ ledger_ok l /\ List.length (rows l) = 1%nat.
Proof.
  intros ev. eexists. split; [vm_compute; reflexivity|]. split; [|reflexivity].
  apply (ledger_unique_rows id). apply rtc_once.
  refine (step_sync id "t" "w" incremental_config ev (Some "boom") 1 false empty_ledger (Ran _) _).
  vm_compute. reflexivity.
Defined.

(** The entity of an event is recorded as synchronised with its content. *)
Definition settled (wf key h : string) (l : Ledger) : Prop :=
  exists r, find_row l wf key = Some r /\ l_status r = Synced /\ l_content_hash r = h.

Lemma should_sync_row tenant wf key h mr now l ck l' :
  should_sync tenant wf key h mr now false l = Ok (ck, l') ->
  exists r, find_row l' wf key = Some r /\ ck_ledger_id ck = Some (l_id r).
Proof.
  unfold should_sync. destruct (find_row l wf key) as [r|] eqn:Hr; cbn; intros Hs.
  - bind_ok. exists r. split; [done|]. by eapply decide_row_id.
  - injection Hs as <- <-. exists (pending_row tenant wf key h now l). split; [|reflexivity].
    unfold find_row in *. cbn [rows]. rewrite find_app, Hr. cbn. unfold is_row. cbn.
    by rewrite !String.eqb_refl.
Qed.

(** A successful run settles its entity. *)
Lemma success_settles sha256 tenant wf cfg ev now key h c l l' :
  ledger_ok l -> sync_identity sha256 cfg ev = Ok (Some (key, h, c)) ->
  execute_with_sync sha256 tenant wf cfg ev None now false l = Ok (Ran l') -> settled wf key h l'.
Proof.
  intros Hok Hid Hrun. unfold execute_with_sync in Hrun. rewrite Hid in Hrun.
  cbn [mbind res_bind] in Hrun.
  destruct (should_sync tenant wf key h _ now false l) as [[ck l1]|] eqn:Hs; [|discriminate].
  cbn in Hrun. pose proof (should_sync_ok _ _ _ _ _ _ _ _ _ _ Hs Hok) as Hok1.
  destruct (should_sync_row _ _ _ _ _ _ _ _ _ Hs) as (r & Hr & Hck). exists (set_synced h now r).
  unfold record_outcome, record_success in Hrun. rewrite Hck in Hrun. cbn in Hrun.
  repeat case_match; simplify_eq; (split; [|done]);
    (apply find_updated; [done| |done]); apply same_identity_setters.
Qed.

(** A settled entity is not run again in incremental mode. *)
Lemma settled_not_run sha256 tenant wf cfg ev outcome now raced key h c l :
  sync_identity sha256 cfg ev = Ok (Some (key, h, c)) ->
  dget_or "mode" (PStr "incremental") c = PStr "incremental" -> settled wf key h l ->
  execute_with_sync sha256 tenant wf cfg ev outcome now raced l = Ok (NotRun l).
Proof.
  intros Hid Hmode (r & Hr & Hst & Hh). unfold execute_with_sync. rewrite Hid. cbn [mbind res_bind].
  rewrite Hmode. unfold should_sync. rewrite Hr. unfold decide_row. rewrite Hst, Hh, String.eqb_refl.
  reflexivity.
Qed.

(** Running another workflow leaves the entities of this one alone. *)
Lemma settled_frame sha256 tenant wf wf' cfg ev outcome now key h l r :
  wf <> wf' -> ledger_ok l -> settled wf key h l ->
  execute_with_sync sha256 tenant wf' cfg ev outcome now false l = Ok r -> settled wf key h (ledger_of r).
Proof.
  intros Hne Hok (x & Hx & Hst & Hh) Hrun. unfold execute_with_sync in Hrun.
  destruct (sync_identity sha256 cfg ev) as [[[[key' h'] c]|]|]; cbn [mbind res_bind] in Hrun; try done.
  2:{ injection Hrun as <-. by exists x. }
  destruct (should_sync tenant wf' key' h' _ now false l) as [[ck l1]|] eqn:Hs; [|done].
  cbn [mbind res_bind] in Hrun.
  pose proof (should_sync_ok _ _ _ _ _ _ _ _ _ _ Hs Hok) as Hok1.
  destruct (should_sync_row _ _ _ _ _ _ _ _ _ Hs) as (y & Hy & Hck).
  assert (Hx1 : find_row l1 wf key = Some x).
  { unfold should_sync in Hs. destruct (find_row l wf' key') eqn:E; cbn in Hs; [by bind_ok|].
    injection Hs as _ <-. unfold find_row in *. cbn [rows]. by rewrite find_app, Hx. }
  assert (Hid : has_id (l_id y) x = false).
  { destruct (find_row_in _ _ _ _ Hx1) as (Hinx & Hwx & _). destruct (find_row_in _ _ _ _ Hy) as (Hiny & Hwy & _).
    unfold has_id. apply Nat.eqb_neq. intros E.
    enough (x = y) by congruence. eapply (NoDup_map_inj_in l_id (rows l1)); [apply Hok1|done..]. }
  assert (Hrec : forall l2, record_outcome tenant wf' key' h' ck outcome now l1 = Ok l2 -> settled wf key h l2).
  { intros l2. unfold record_outcome, record_success, record_failure. rewrite Hck.
    destruct same_identity_setters as (Hset & Hfail & _).
    destruct outcome; intros [= <-]; exists x;
      (split; [rewrite (find_row_update l1 wf key x) by done; by rewrite Hid|done]). }
  destruct (record_outcome tenant wf' key' h' ck outcome now l1) as [l2|] eqn:Er; cbn [mbind res_bind] in Hrun;
    repeat case_match; simplify_eq; cbn [ledger_of]; first [by apply Hrec | by exists x].
Qed.

(** Synchronisation is idempotent: once an entity was synced successfully in
    incremental mode, the same event again does not run the workflow and leaves
    the ledger as it is. *)
Theorem synced_event_is_not_repeated sha256 tenant wf cfg ev now now' key h c l l' :
  ledger_ok l ->
  sync_identity sha256 cfg ev = Ok (Some (key, h, c)) ->
  dget_or "mode" (PStr "incremental") c = PStr "incremental" ->
  execute_with_sync sha256 tenant wf cfg ev None now false l = Ok (Ran l') ->
  forall outcome raced, execute_with_sync sha256 tenant wf cfg ev outcome now' raced l' = Ok (NotRun l').
Proof.
  intros Hok Hid Hmode Hrun outcome raced.
  apply (settled_not_run _ _ _ _ _ _ _ _ key h c); [done..|]. by eapply success_settles.
Qed.

Lemma synced_event_is_not_repeated_witness :
  let ev := [("id", PInt 7); ("qty", PInt 2)] in
  exists l, execute_with_sync id "t" "w" incremental_config ev None 1 false empty_ledger = Ok (Ran l)
    /\ execute_with_sync id "t" "w" incremental_config ev None 2 false l = Ok (NotRun l).
Proof.
  intros ev. eexists. split; [vm_compute; reflexivity|].
  eapply (synced_event_is_not_repeated id "t" "w" incremental_config ev 1 2 "7");
    [exact empty_ledger_ok|vm_compute; reflexivity|reflexivity|vm_compute; reflexivity].
Defined.

(** [reset_failed], documented to reset failed entries so that they are retried,
    has the opposite effect: their rows become [pending], which [should_sync]
    skips whatever the hash and the retry limit, leaving them as they are. *)
Theorem reset_rows_are_skipped tenant wf key h max_retries now now' raced l r :
  ledger_ok l -> find_row l wf key = Some r -> l_status r = Failed ->
  let l' := (reset_failed wf None now l).2 in
  should_sync tenant wf key h max_retries now' raced l' =
    Ok (Check SKIP (Some (l_content_hash r)) 0 (Some (l_id r)), l').
Proof.
  intros Hok Hr Hst l'. unfold l', reset_failed. cbn [snd].
  pose proof (find_row_in _ _ _ _ Hr) as (_ & Hw & _). unfold should_sync.
  rewrite (find_row_update l wf key r) by (done || apply same_identity_setters).
  unfold selects. rewrite Hw, String.eqb_refl, Hst. cbn. reflexivity.
Qed.

Lemma reset_rows_are_skipped_witness :
  let ev := [("id", PInt 7)] in
  exists l r, execute_with_sync id "t" "w" incremental_config ev (Some "boom") 1 false empty_ledger = Ok (Ran l)
    /\ find_row l "w" "7" = Some r /\ l_status r = Failed
    /\ exists ck l', should_sync "t" "w" "7" "h" (PInt 3) 3 false (reset_failed "w" None 2 l).2 = Ok (ck, l')
         /\ ck_decision ck = SKIP.
Proof.
  intros ev. eexists _, _. split; [vm_compute; reflexivity|]. split; [vm_compute; reflexivity|].
  split; [reflexivity|]. eexists _, _. split.
  - apply (reset_rows_are_skipped "t" "w" "7" "h" (PInt 3) 2 3 false); [|reflexivity|reflexivity].
    by apply one_row_ok.
  - reflexivity.
Defined.

(** The retry limit does not stop an entity that keeps failing: a failed row with
    its attempts exhausted and the same content is decided [SYNC], so the workflow
    runs again and the attempt count grows past [max_retries]. *)
Theorem exhausted_retries_run_again sha256 tenant wf cfg ev e now raced key h c n l r :
  ledger_ok l ->
  sync_identity sha256 cfg ev = Ok (Some (key, h, c)) ->
  dget_or "max_retries" (PInt 3) c = PInt n -> (n <= l_attempts r)%Z ->
  find_row l wf key = Some r -> l_status r = Failed -> l_content_hash r = h ->
  exists l', execute_with_sync sha256 tenant wf cfg ev (Some e) now raced l = Ok (Ran l')
    /\ exists r', find_row l' wf key = Some r' /\ l_attempts r' = (l_attempts r + 1)%Z
                  /\ l_status r' = Failed.
Proof.
  intros Hok Hid Hn Hle Hr Hst Hh. unfold execute_with_sync, should_sync. rewrite Hid. cbn [mbind res_bind].
  rewrite Hn, Hr. unfold decide_row. rewrite Hst, Hh, String.eqb_refl. cbn [py_order num_cmp].
  change (bool_decide (Failed = Pending)) with false. change (bool_decide (Failed = Failed)) with true.
  cbn [mbind res_bind]. rewrite num_cmp_int.
  assert (Hlt : cmp_holds OpLt (Some (l_attempts r ?= n)%Z) = false).
  { destruct (Z.compare_spec (l_attempts r) n); [done|lia|done]. }
  rewrite Hlt. change (bool_decide (Failed = Synced)) with false. cbn [negb andb mbind res_bind].
  set (row' := set_failed h (if String.eqb e "" then "unknown error" else e) now r).
  exists (update_rows (has_id (l_id r)) (set_failed h (if String.eqb e "" then "unknown error" else e) now) l).
  split; [destruct (py_eqb (dget_or "mode" _ c) _); reflexivity|]. exists row'. split; [|done].
  apply find_updated; [done| |done]. apply same_identity_setters.
Qed.

Lemma exhausted_retries_run_again_witness :
  let cfg := PDict [("enabled", PBool true); ("entity_key_field", PStr "id"); ("max_retries", PInt 1)] in
  let ev := [("id", PInt 7)] in
  exists l l', execute_with_sync id "t" "w" cfg ev (Some "boom") 1 false empty_ledger = Ok (Ran l)
    /\ execute_with_sync id "t" "w" cfg ev (Some "boom") 2 false l = Ok (Ran l')
    /\ exists r', find_row l' "w" "7" = Some r' /\ l_attempts r' = 2%Z /\ l_status r' = Failed.
Proof.
  intros cfg ev.
  set (l := MkLedger [Row 0 "t" "w" "7" (json_dumps (PDict [("id", PInt 7)])) Failed 1 (Some "boom") 1] 1).
  destruct (exhausted_retries_run_again id "t" "w" cfg ev "boom" 2 false "7"
              (json_dumps (PDict [("id", PInt 7)]))
              [("enabled", PBool true); ("entity_key_field", PStr "id"); ("max_retries", PInt 1)] 1 l
              (Row 0 "t" "w" "7" (json_dumps (PDict [("id", PInt 7)])) Failed 1 (Some "boom") 1))
    as (l' & H1 & H2); try reflexivity.
  - by apply one_row_ok.
  - exists l, l'. split; [reflexivity|]. split; [exact H1|exact H2].
Defined.
