(* ===== verification/Events.v ===== *)
(** The events of the workflow engine: [get_workflows_for_event], [process_event]
    and [_execute_with_sync] of [platform/core/workflow_engine.py], on the engine of
    [Engine] and the ledger of [Sync].  The operations on the ledger of one event are
    sequential; each workflow is executed at the time [now]. *)

From S2P Require Import Prelude PyText PyValue Context Conditions Transforms Graph Engine EngineRuns Sync.

Local Open Scope string_scope.

(** A workflow of the database. *)
Record stored_workflow := Stored {
  sw_tenant : string;
  sw_enabled : bool;
  sw_workflow : Workflow
}.

(** [get_workflows_for_event]. *)
Definition get_workflows_for_event (table : list stored_workflow) (tenant connector event : string)
  : list stored_workflow :=
  List.filter (fun w => String.eqb (sw_tenant w) tenant
      && String.eqb (wf_trigger_connector (sw_workflow w)) connector
      && String.eqb (wf_trigger_event (sw_workflow w)) event && sw_enabled w) table.

(** What the ledger records of an execution. *)
Definition outcome_of (x : WorkflowExecution) : run_result :=
  if String.eqb (ex_status x) "success" then None else Some (default "" (ex_error x)).

Section Events.
Variable E : Env.
Variable sha256 : string -> string.
(** [execute_workflow] on a workflow and an event. *)
Variable exec : Workflow -> dict -> M WorkflowExecution.

(** The two tests of the loop over the workflows: the account of the trigger node
    and its filters. *)
Definition trigger_accepts (event_data : dict) (w : stored_workflow) : res bool :=
  let nodes := wf_nodes (sw_workflow w) in
  let event_account := dget_or "account_name" PNone event_data in
  let other_account :=
    match get_trigger_credential nodes with
    | Some cred => truthy event_account && py_neqb cred event_account
    | None => false
    end in
  if other_account then Ok false
  else
    let trigger_filters := get_trigger_filters nodes in
    if truthy trigger_filters then
      filters ← dict_method "get" trigger_filters;
      passes_trigger_filters (rx_search (env_lib E)) filters event_data
    else Ok true.

(** The workflows that match, before any of them is executed. *)
Fixpoint matched_workflows (event_data : dict) (ws : list stored_workflow) : res (list stored_workflow) :=
  match ws with
  | [] => Ok []
  | w :: ws' =>
      accepted ← trigger_accepts event_data w;
      rest ← matched_workflows event_data ws';
      Ok (if (accepted : bool) then w :: rest else rest)
  end.

(** [_execute_with_sync]: the execution, unless it is skipped, and the ledger. *)
Definition execute_event (w : stored_workflow) (event_data : dict) (now : Z) (l : Ledger)
  : M (option WorkflowExecution * Ledger) :=
  let wf := sw_workflow w in
  ident ← lift (sync_identity sha256 (wf_sync_config wf) event_data);
  match ident with
  | None => x ← exec wf event_data; ret (Some x, l)
  | Some (key, h, cfg) =>
      '(ck, l1) ← lift (should_sync (sw_tenant w) (wf_id wf) key h
                          (dget_or "max_retries" (PInt 3) cfg) now false l);
      let run :=
        x ← exec wf event_data;
        l2 ← lift (record_outcome (sw_tenant w) (wf_id wf) key h ck (outcome_of x) now l1);
        ret (Some x, l2) in
      if py_eqb (dget_or "mode" (PStr "incremental") cfg) (PStr "force") then run
      else if bool_decide (ck_decision ck = SKIP) then ret (None, l1)
      else if bool_decide (ck_decision ck = UPDATE)
              && py_eqb (dget_or "on_duplicate" (PStr "skip") cfg) (PStr "skip") then ret (None, l1)
      else run
  end.

(** The executions of the matched workflows, in order, the skipped ones left out. *)
Fixpoint execute_matched (ws : list stored_workflow) (event_data : dict) (now : Z) (l : Ledger)
  : M (list WorkflowExecution * Ledger) :=
  match ws with
  | [] => ret ([], l)
  | w :: ws' =>
      '(x, l1) ← execute_event w event_data now l;
      '(xs, l2) ← execute_matched ws' event_data now l1;
      ret (match x with Some e => e :: xs | None => xs end, l2)
  end.

(** [process_event]. *)
Definition process_event (table : list stored_workflow) (tenant connector event : string)
    (event_data : dict) (now : Z) (l : Ledger) : M (list WorkflowExecution * Ledger) :=
  matched ← lift (matched_workflows event_data (get_workflows_for_event table tenant connector event));
  execute_matched matched event_data now l.

(** ** Facts *)

(** The execution of an event is the abstract one of [Sync], with the outcome of the
    engine, whenever the engine returns. *)
Lemma execute_event_refines w event_data now l s x s' :
  exec (sw_workflow w) event_data s = Returned (Ok x) s' ->
  match execute_with_sync sha256 (sw_tenant w) (wf_id (sw_workflow w)) (wf_sync_config (sw_workflow w))
          event_data (outcome_of x) now false l with
  | Ok (Ran l') => execute_event w event_data now l s = Returned (Ok (Some x, l')) s'
  | Ok (NotRun l') => execute_event w event_data now l s = Returned (Ok (None, l')) s
  | Raise e => exists s'', execute_event w event_data now l s = Returned (Raise e) s''
  end.
Proof.
  intros Hx. unfold execute_with_sync, execute_event, mbind, M_bind, res_bind, lift, ret.
  destruct (sync_identity _ _ _) as [[[[key h] cfg]|]|e]; [| |by eauto].
  2:{ by rewrite Hx. }
  destruct (should_sync _ _ _ _ _ _ _ _) as [[ck l1]|e]; [|by eauto].
  destruct (py_eqb _ _).
  { rewrite Hx. destruct (record_outcome _ _ _ _ _ _ _ _); by eauto. }
  destruct (bool_decide _); [done|]. destruct (_ && _); [done|].
  rewrite Hx. destruct (record_outcome _ _ _ _ _ _ _ _); by eauto.
Qed.

Lemma execute_event_inv w event_data now l s x l' s' :
  execute_event w event_data now l s = Returned (Ok (x, l')) s' ->
  exists outcome r,
    execute_with_sync sha256 (sw_tenant w) (wf_id (sw_workflow w)) (wf_sync_config (sw_workflow w))
      event_data outcome now false l = Ok r
    /\ l' = ledger_of r
    /\ match x with Some e => r = Ran l' /\ outcome = outcome_of e | None => True end.
Proof.
  unfold execute_with_sync, execute_event, mbind, M_bind, res_bind, lift, ret.
  destruct (sync_identity _ _ _) as [[[[key h] cfg]|]|e]; [| |done].
  2:{ destruct (exec _ _ s) as [[e|]| |]; intros [= <- <- <-]. by exists (outcome_of e), (Ran l). }
  destruct (should_sync _ _ _ _ _ _ _ _) as [[ck l1]|]; [|done].
  assert (Hran :
    (match exec (sw_workflow w) event_data s with
     | Returned (Ok a) s1 =>
         match record_outcome (sw_tenant w) (wf_id (sw_workflow w)) key h ck (outcome_of a) now l1 with
         | Ok l2 => Returned (Ok (Some a, l2)) s1
         | Raise e => Returned (Raise e) s1
         end
     | Returned (Raise e) s1 => Returned (Raise e) s1
     | Hangs => Hangs
     | NoFuel => NoFuel
     end = Returned (Ok (x, l')) s') ->
    exists e, x = Some e
      /\ record_outcome (sw_tenant w) (wf_id (sw_workflow w)) key h ck (outcome_of e) now l1 = Ok l').
  { intros H. destruct (exec _ _ s) as [[e|]| |]; try done.
    destruct (record_outcome _ _ _ _ _ (outcome_of e) _ _) eqn:Er; [|done].
    injection H as <- <- <-. by exists e. }
  destruct (py_eqb _ _).
  { intros (e & -> & Hr)%Hran. exists (outcome_of e), (Ran l'). by rewrite Hr. }
  destruct (bool_decide _).
  { intros [= <- <- <-]. by exists None, (NotRun l1). }
  destruct (_ && _).
  { intros [= <- <- <-]. by exists None, (NotRun l1). }
  intros (e & -> & Hr)%Hran. exists (outcome_of e), (Ran l'). by rewrite Hr.
Qed.

(** The event identifies an entity of the workflow, in incremental mode. *)
Definition incremental (event_data : dict) (w : stored_workflow) : Prop :=
  exists key h cfg, sync_identity sha256 (wf_sync_config (sw_workflow w)) event_data = Ok (Some (key, h, cfg))
    /\ dget_or "mode" (PStr "incremental") cfg = PStr "incremental".

(** The ledger has this event as synchronised for the workflow. *)
Definition settled_event (event_data : dict) (l : Ledger) (w : stored_workflow) : Prop :=
  exists key h cfg, sync_identity sha256 (wf_sync_config (sw_workflow w)) event_data = Ok (Some (key, h, cfg))
    /\ dget_or "mode" (PStr "incremental") cfg = PStr "incremental"
    /\ settled (wf_id (sw_workflow w)) key h l.

Lemma execute_event_settled w event_data now l s :
  settled_event event_data l w -> execute_event w event_data now l s = Returned (Ok (None, l)) s.
Proof.
  intros (key & h & cfg & Hid & Hmode & r & Hr & Hst & Hh).
  unfold execute_event, mbind, M_bind, lift, ret. rewrite Hid. unfold should_sync. rewrite Hr.
  unfold decide_row. rewrite Hst, Hh, String.eqb_refl. cbn [mbind res_bind bool_decide decide_rel].
  rewrite Hmode. reflexivity.
Qed.

Lemma execute_matched_settled event_data now l s ws :
  (forall w, w ∈ ws -> settled_event event_data l w) ->
  execute_matched ws event_data now l s = Returned (Ok ([], l)) s.
Proof.
  induction ws as [|w ws IH]; intros H; cbn [execute_matched]; [done|].
  unfold mbind, M_bind. rewrite execute_event_settled by (apply H; left).
  rewrite IH by (intros w' Hw'; apply H; by right). reflexivity.
Qed.

Lemma execute_event_ok w event_data now l s x l' s' :
  execute_event w event_data now l s = Returned (Ok (x, l')) s' -> ledger_ok l -> ledger_ok l'.
Proof.
  intros (outcome & r & Hr & -> & _)%execute_event_inv Hok.
  eapply (ledger_step_ok sha256); [exact (step_sync sha256 _ _ _ _ _ _ _ _ _ Hr)|exact Hok].
Qed.

(** A successful execution settles the event, and other executions leave it so. *)
Lemma execute_event_settles w event_data now l s e l' s' :
  ledger_ok l -> incremental event_data w -> ex_status e = "success" ->
  execute_event w event_data now l s = Returned (Ok (Some e, l')) s' -> settled_event event_data l' w.
Proof.
  intros Hok (key & h & cfg & Hid & Hmode) Hs H.
  apply execute_event_inv in H as (outcome & r & Hr & _ & -> & ->).
  unfold outcome_of in Hr. rewrite Hs in Hr. exists key, h, cfg. split; [done|]. split; [done|].
  by eapply success_settles.
Qed.

Lemma execute_event_frame w w' event_data event_data' now l s x l' s' :
  wf_id (sw_workflow w) <> wf_id (sw_workflow w') -> ledger_ok l -> settled_event event_data l w ->
  execute_event w' event_data' now l s = Returned (Ok (x, l')) s' -> settled_event event_data l' w.
Proof.
  intros Hne Hok (key & h & cfg & Hid & Hmode & Hset) H.
  apply execute_event_inv in H as (outcome & r & Hr & -> & _).
  exists key, h, cfg. split; [done|]. split; [done|]. by eapply settled_frame.
Qed.

Lemma execute_matched_spec event_data now ws : forall l s xs l' s',
  execute_matched ws event_data now l s = Returned (Ok (xs, l')) s' ->
  ledger_ok l -> NoDup (map (fun w => wf_id (sw_workflow w)) ws) ->
  (forall w, w ∈ ws -> incremental event_data w) ->
  (List.length xs <= List.length ws)%nat
  /\ (forall w, wf_id (sw_workflow w) ∉ map (fun w => wf_id (sw_workflow w)) ws ->
        settled_event event_data l w -> settled_event event_data l' w)
  /\ (List.length xs = List.length ws -> (forall x, x ∈ xs -> ex_status x = "success") ->
      forall w, w ∈ ws -> settled_event event_data l' w).
Proof.
  induction ws as [|w ws IH]; intros l s xs l' s' H Hok Hd Hinc; cbn [execute_matched] in H.
  { injection H as <- <- _. split; [done|]. split; [done|]. intros _ _ w Hw. by apply not_elem_of_nil in Hw. }
  unfold mbind, M_bind in H. cbn [map] in Hd. apply list.NoDup_cons in Hd as [Hn Hd].
  destruct (execute_event w event_data now l s) as [[[x l1]|]| |] eqn:Ee; try done.
  destruct (execute_matched ws event_data now l1 s0) as [[[ys l2]|]| |] eqn:Em; try done.
  injection H as <- <- <-. pose proof (execute_event_ok _ _ _ _ _ _ _ _ Ee Hok) as Hok1.
  destruct (IH l1 s0 ys l2 s1 Em Hok1 Hd (fun w' Hw' => Hinc w' (list_elem_of_further _ _ _ Hw')))
    as (Hlen & Hframe & Hall).
  split; [destruct x; cbn; lia|]. split.
  - intros w' Hw' Hset. cbn [map] in Hw'. apply not_elem_of_cons in Hw' as [Hne Hw'].
    apply Hframe; [done|]. eapply (execute_event_frame w' w); [exact Hne|exact Hok|exact Hset|exact Ee].
  - destruct x as [e|]; cbn [List.length]; [|lia]. intros [= Hl] Hsucc w' [->|Hw']%elem_of_cons.
    + apply Hframe; [done|]. apply (execute_event_settles w event_data now l s e l1 s0);
        [exact Hok|apply Hinc; left|apply Hsucc; left|exact Ee].
    + apply Hall; [done| |done]. intros y Hy. apply Hsucc. by right.
Qed.
End Events.

(** ** Properties *)


(** Two workflows of one tenant for the same event; the second one only accepts
    orders above 100. *)
Definition demo_workflow (id : string) (config : dict) : stored_workflow :=
  Stored "t" true (Wf id id [Node "n" "trigger" "" config] [] [] "stop" 0 "shop" "order.created"
                      incremental_config).
Definition demo_table : list stored_workflow :=
  [demo_workflow "w1" [];
   demo_workflow "w2" [("filters", PDict [("conditions", PList
     [PDict [("field", PStr "total"); ("operator", PStr "gt"); ("value", PInt 100)]])])];
   demo_workflow "w3" []].
Definition demo_exec (wf : Workflow) (ev : dict) : M WorkflowExecution :=
  execute_workflow no_env 202 wf ev false [].

