(* ===== verification/MappingResolver.v ===== *)
(** The mapping resolver of flows: [platform/core/mapping_resolver.py].  Defaults
    (files, cached) and tenant overrides (database rows, by priority) are arguments of
    [resolve]; the second part models where they come from. *)

From S2P Require Import Prelude PyText PyValue Json Paths Context Transforms Effects.

Local Open Scope string_scope.

Section Resolver.
Variable lib : TextLib.

(** [_get_nested] with [_get_nested_array]: the elements of an array that are not
    dicts give [None]. *)
Fixpoint resolver_get_go (fuel : nat) (data : pyval) (key : string) : pyval :=
  match split_brackets key with
  | None => walk_parts data (split_char "." key)
  | Some (array_path, rest) =>
      match fuel with
      | O => PNone
      | S fuel' =>
          let arr := if String.eqb array_path "" then data
                     else resolver_get_go fuel' data array_path in
          match arr with
          | PList items =>
              if String.eqb rest "" then arr
              else PList (map (fun item => match item with
                                           | PDict _ => resolver_get_go fuel' item rest
                                           | _ => PNone
                                           end) items)
          | _ => PNone
          end
      end
  end.

Definition resolver_get (data : pyval) (key : string) : pyval :=
  resolver_get_go (String.length key) data key.

(** The key as [_get_nested] uses it: [in], then [split]. *)
Definition source_key (v : pyval) : res string :=
  match v with
  | PStr s => Ok s
  | PList _ | PDict _ => Raise (no_attribute "split" v)
  | _ => Raise (TypeError ("argument of type '" ++ type_name v ++ "' is not iterable"))
  end.

Definition source_value (source_data : dict) (key : pyval) : res pyval :=
  k ← source_key key; Ok (resolver_get (PDict source_data) k).

(** [_resolve_sources]. *)
Definition resolver_sources (m : dict) (source_data : dict) : res (list pyval) :=
  let sources := dget_or "sources" (PList []) m in
  let from_field := dget_or "from" (PStr "") m in
  if truthy sources then ss ← as_iter sources; mapR (source_value source_data) ss
  else if negb (truthy from_field) then Ok []
  else if py_eqb from_field (PStr "__custom__") then Ok [dget_or "from_custom" (PStr "") m]
  else v ← source_value source_data from_field; Ok [v].

(** [_apply_transform]: the transforms of the workflow engine without a context,
    [field_resolve] and [operand_field] being unknown here. *)
Definition resolver_transform (values : list pyval) (transform : pyval) : res pyval :=
  tr ← as_dict transform;
  if py_eqb (dget_or "type" (PStr "") tr) (PStr "field_resolve")
  then Ok (match values with v :: _ => v | [] => PNone end)
  else apply_transform lib values transform None.

Definition resolver_pipeline (steps : list pyval) (resolved : list pyval) : res (list pyval) :=
  foldR (fun pipe step => v ← resolver_transform pipe step; Ok [v]) resolved steps.

Definition resolver_value (m : dict) (resolved : list pyval) : res pyval :=
  let raw_transform := dget_or "transform" PNone m in
  if truthy raw_transform then
    let steps := match raw_transform with PList l => l | v => [v] end in
    pipe ← resolver_pipeline steps resolved;
    Ok (match pipe with v :: _ => v | [] => PNone end)
  else match resolved with
       | [v] => Ok v
       | _ => Ok (PStr (str_join " " (map py_str (not_none resolved))))
       end.

(** One entry of the flow's field mapping. *)
Definition apply_entry (source_data : dict) (mapped : dict) (mapping_entry : pyval) : res dict :=
  m ← as_dict mapping_entry;
  let to_field := target_field m in
  if negb (truthy to_field) then Ok mapped
  else
    resolved ← resolver_sources m source_data;
    if negb (truthy (PList resolved)) && negb (truthy (dget_or "from" PNone m))
       && negb (truthy (dget_or "sources" PNone m)) then Ok mapped
    else
      value ← resolver_value m resolved;
      match value with
      | PNone => Ok mapped
      | _ => key ← source_key to_field; set_nested mapped key value false
      end.

(** A row of the [field_mappings] table. *)
Record FieldMapping := FM { source_field : string; target_field_of : string; fm_transform : pyval }.

(** One tenant override. *)
Definition apply_override (source_data : dict) (mapped : dict) (o : FieldMapping) : res dict :=
  match resolver_get (PDict source_data) (source_field o) with
  | PNone => Ok mapped
  | v =>
      value ← (if truthy (fm_transform o) then resolver_transform [v] (fm_transform o) else Ok v);
      set_nested mapped (target_field_of o) value false
  end.

(** [resolve]: defaults, then the flow's mapping, then the overrides. *)
Definition resolve (defaults : dict) (flow_field_mapping : pyval) (overrides : list FieldMapping)
    (source_data : dict) : res dict :=
  mapped ← foldR (fun m kv => set_nested m kv.1 kv.2 false) [] defaults;
  mapped' ← (if truthy flow_field_mapping then
               entries ← as_iter flow_field_mapping;
               foldR (apply_entry source_data) mapped entries
             else Ok mapped);
  foldR (apply_override source_data) mapped' overrides.
End Resolver.

(** ** Facts *)

Lemma set_nested_replace d k v :
  plain_target k = true -> set_nested d k v false = Ok (dset k v d).
Proof.
  intros Hk. apply plain_target_split in Hk as (Hb & Hs & _).
  unfold set_nested. rewrite set_nested_go_plain by done. rewrite Hs. cbn.
  by destruct (dget k d).
Qed.

(** Outside [operand_field] and [field_resolve] a transform never looks at the
    context. *)
Lemma transform_single_no_context lib t tr val oc1 oc2 :
  t <> "field_resolve" -> dget_or "operand_field" PNone tr = PNone ->
  transform_single lib t tr val oc1 = transform_single lib t tr val oc2.
Proof.
  intros Ht Ho. apply String.eqb_neq in Ht. unfold transform_single. rewrite Ht.
  unfold transform_math. rewrite Ho. cbn [truthy]. by destruct oc1, oc2.
Qed.

(** ** Properties *)

(** The two copies of the transform interpreter agree: a transform that is not
    [field_resolve] and names no [operand_field] gives the same value, or the same
    exception, in a flow mapping and in a workflow node, whatever the context. *)
Theorem resolver_agrees_with_engine lib values tr c :
  py_eqb (dget_or "type" (PStr "") tr) (PStr "field_resolve") = false ->
  dget_or "operand_field" PNone tr = PNone ->
  resolver_transform lib values (PDict tr) = apply_transform lib values (PDict tr) (Some c).
Proof.
  intros Ht Ho. unfold resolver_transform, apply_transform. cbn [as_dict mbind res_bind].
  rewrite Ht. destruct (dget_or "type" (PStr "") tr) as [| | | |t| |];
    [reflexivity|reflexivity|reflexivity|reflexivity| |reflexivity|reflexivity].
  destruct (String.eqb t "template"); [reflexivity|]. destruct (String.eqb t "join"); [reflexivity|].
  destruct (String.eqb t "coalesce"); [reflexivity|].
  apply transform_single_no_context; [|done]. intros ->. by rewrite py_eqb_str in Ht.
Qed.

Lemma resolver_agrees_with_engine_witness :
  let tr := [("type", PStr "prepend"); ("value", PStr "PL")] in
  resolver_transform no_lib [PStr "123"] (PDict tr) = Ok (PStr "PL123")
  /\ resolver_transform no_lib [PStr "123"] (PDict tr)
     = apply_transform no_lib [PStr "123"] (PDict tr) (Some (new_context [])).
Proof.
  intros tr. split; [reflexivity|].
  exact (resolver_agrees_with_engine no_lib [PStr "123"] tr (new_context []) eq_refl eq_refl).
Defined.

(** Tenant overrides take priority: when the last override maps a source value
    that is present to a top-level field, the result holds this value there,
    whatever the defaults, the flow mapping and the other overrides put. *)
Theorem last_override_wins lib defaults mapping overrides o source_data out :
  plain_target (target_field_of o) = true -> fm_transform o = PNone ->
  resolver_get (PDict source_data) (source_field o) <> PNone ->
  resolve lib defaults mapping (overrides ++ [o]) source_data = Ok out ->
  dget (target_field_of o) out = Some (resolver_get (PDict source_data) (source_field o)).
Proof.
  intros Hp Ht Hne H. unfold resolve in H. bind_ok. rewrite foldR_app in H. bind_ok.
  cbn [foldR] in H. bind_ok. unfold apply_override in Hx2. rewrite Ht in Hx2. cbn [truthy] in Hx2.
  assert (Hset : set_nested x1 (target_field_of o)
                   (resolver_get (PDict source_data) (source_field o)) false = Ok out).
  { destruct (resolver_get (PDict source_data) (source_field o)); first [by destruct Hne | exact Hx2]. }
  rewrite set_nested_replace in Hset by done. injection Hset as <-. apply dget_dset_eq.
Qed.

Lemma last_override_wins_witness :
  let o := FM "sku" "code" PNone in
  let mapping := PList [PDict [("from", PStr "name"); ("to", PStr "code")]] in
  exists out, resolve no_lib [("code", PStr "default")] mapping [o]
                [("name", PStr "Lamp"); ("sku", PStr "L-1")] = Ok out
              /\ dget "code" out = Some (PStr "L-1").
Proof.
  intros o mapping. eexists. split; [vm_compute; reflexivity|].
  apply (last_override_wins no_lib [("code", PStr "default")] mapping [] o
           [("name", PStr "Lamp"); ("sku", PStr "L-1")] [("code", PStr "L-1")]
           eq_refl eq_refl); [discriminate|vm_compute; reflexivity].
Defined.

(** ** The defaults and the cache

    [load_defaults], [get_tenant_overrides], [invalidate_cache] of [platform/core/mapping_resolver.py] and
    the functions of [platform/core/redis_client.py].

    Redis is a store of texts in the sense of [Effects.KeyValue]; it may refuse any command.  The mapping
    files, as the YAML and JSON parsers read them, are a parameter; their values are JSON. *)

(** ** [redis_client] *)

Section client.
Context {store : Type} `{KeyValue store string}.
(** The keys [SCAN] returns for a pattern, in its batches; what [DEL] answers is their number. *)
Variable scan : Z -> string -> store -> list (list string).

Record cache_state := MkCacheState {
  cs_redis : store;
  cs_now : Z;
  (** Commands sent so far. *)
  cs_sent : nat;
  (** [_local_fallback] *)
  cs_fallback : list (string * pyval)
}.
(** The exception of the [n]-th command, when it fails. *)
Variable refused : nat -> option pyexn.
Abbreviation CM := (EM cache_state).

Definition on_redis (f : Z -> store -> store) (s : cache_state) : cache_state :=
  MkCacheState (f (cs_now s) (cs_redis s)) (cs_now s) (cs_sent s) (cs_fallback s).
Definition set_fallback (f : list (string * pyval) -> list (string * pyval)) (s : cache_state) : cache_state :=
  MkCacheState (cs_redis s) (cs_now s) (cs_sent s) (f (cs_fallback s)).
Definition command : CM unit := fun s =>
  (match refused (cs_sent s) with Some e => Raise e | None => Ok tt end,
   MkCacheState (cs_redis s) (cs_now s) (S (cs_sent s)) (cs_fallback s)).

(** An invalid text counts as no value, like [null]. *)
Definition parsed (text : string) : option pyval :=
  match json_loads text with Ok PNone | Raise _ => None | Ok v => Some v end.
Definition cache_get (key : string) : CM (option pyval) :=
  _ ← command;
  raw ← gets (fun s => kv_get (cs_now s) key (cs_redis s));
  mret (raw ≫= parsed).

Definition redis_cache_ttl : Z := 300.
Definition cache_set (key : string) (value : pyval) (ttl : option Z) : CM unit :=
  let ttl := match ttl with None | Some 0%Z => redis_cache_ttl | Some t => t end in
  _ ← command; modify (on_redis (fun now => kv_set key (json_text true false value) (now + ttl))).

Fixpoint delete_batches (batches : list (list string)) : CM nat :=
  match batches with
  | [] => mret 0
  | [] :: rest => _ ← command; delete_batches rest
  | keys :: rest =>
      _ ← command; _ ← command;
      _ ← modify (on_redis (fun _ s => fold_left (fun s k => kv_del k s) keys s));
      n ← delete_batches rest; mret (List.length keys + n)
  end.
Definition cache_delete (pattern : string) : CM nat := fun s => delete_batches (scan (cs_now s) pattern (cs_redis s)) s.

Definition redis_health : CM bool := try_catch (_ ← command; mret true) (fun _ => mret false).

(** ** The defaults of a connector *)

(** What the files of [mappings/] hold, YAML files first; nothing when there is no such directory. *)
Variable files : string -> option (list (res pyval) * list (res pyval)).

Definition CACHE_PREFIX : string := "mapping:".
Definition DEFAULTS_TTL : Z := 600.

(** [defaults.update(data)], of objects; the files of the connectors are no lists of pairs. *)
Definition updated (defaults : dict) (data : pyval) : res dict := d ← as_dict data; Ok (dmerge defaults d).
Definition read_defaults (connector_path : string) : res dict :=
  match files connector_path with
  | None => Ok []
  | Some (yaml, json) =>
      defaults ← foldR (fun defaults file => data ← file; updated defaults (if truthy data then data else PDict [])) [] yaml;
      foldR (fun defaults file => data ← file; updated defaults data) defaults json
  end.
Definition defaults_key (connector_name : string) : string := CACHE_PREFIX ++ "defaults:" ++ connector_name.

Definition load_defaults (connector_name connector_path : string) : CM pyval :=
  cached ← cache_get (defaults_key connector_name);
  match cached with
  | None =>
      local ← gets (fun s => dget connector_name (cs_fallback s));
      match local with
      | Some defaults => mret defaults
      | None =>
          defaults ← lift (read_defaults connector_path);
          _ ← try_catch (cache_set (defaults_key connector_name) (PDict defaults) (Some DEFAULTS_TTL))
                (fun _ => modify (set_fallback (dset connector_name (PDict defaults))));
          mret (PDict defaults)
      end
  | Some v => mret v
  end.

Definition invalidate_cache (connector_name : option string) : CM unit :=
  match connector_name with
  | None | Some "" =>
      _ ← cache_delete (CACHE_PREFIX ++ "*"); modify (set_fallback (fun _ => []))
  | Some name =>
      _ ← cache_delete (CACHE_PREFIX ++ "*:" ++ name); modify (set_fallback (ddel name))
  end.

(** ** The overrides of a tenant *)

Record override_row := MkOverride {
  or_tenant : string;
  or_connector : string;
  or_type : string;
  or_priority : Z;
  or_active : bool;
  or_mapping : FieldMapping
}.
(** Rows of one priority come as they are stored. *)
Definition get_tenant_overrides (rows : list override_row) (tenant_id connector_name mapping_type : string) : list override_row :=
  stable_sort (fun a b => (or_priority a <? or_priority b)%Z)
    (List.filter (fun r => String.eqb (or_tenant r) tenant_id && String.eqb (or_connector r) connector_name
                           && String.eqb (or_type r) mapping_type && or_active r) rows).

(** [resolve], with what it reads. *)
Definition resolve_mapping (lib : TextLib) (rows : list override_row) (tenant_id connector_name mapping_type : string)
    (source_data : dict) (flow_field_mapping : pyval) (connector_path : option string) : CM dict :=
  defaults ← match connector_path with
             | None | Some "" => mret []
             | Some path => v ← load_defaults connector_name path; if truthy v then lift (as_dict v) else mret []
             end;
  lift (resolve lib defaults flow_field_mapping
          (map or_mapping (get_tenant_overrides rows tenant_id connector_name mapping_type)) source_data).
End client.
#[global] Arguments cache_state : clear implicits.

(** ** What [load_defaults] answers *)

Inductive cache_op := LoadDefaults (connector_name : string) | InvalidateCache (connector_name : option string) | Elapse (seconds : Z).

Section facts.
Context {store : Type} `{KeyValue store string}.
Context (scan : Z -> string -> store -> list (list string)) (refused : nat -> option pyexn).
Context (files : string -> option (list (res pyval) * list (res pyval))) (path : string -> string).
Abbreviation state := (cache_state store).

Definition run_op (op : cache_op) : EM state (option pyval) :=
  match op with
  | LoadDefaults name => v ← load_defaults refused files name (path name); mret (Some v)
  | InvalidateCache name => _ ← invalidate_cache scan refused name; mret None
  | Elapse seconds => _ ← modify (fun s => MkCacheState (cs_redis s) (cs_now s + seconds)%Z (cs_sent s) (cs_fallback s)); mret None
  end.
Definition run_ops (ops : list cache_op) : EM state unit :=
  for_each (fun op => try_catch (_ ← run_op op; mret tt) (fun _ => mret tt)) ops.

Lemma elem_of_ddel {V} k kv (d : list (string * V)) : kv ∈ ddel k d -> kv ∈ d.
Proof.
  induction d as [|[k' v'] d IH]; cbn; [done|]. destruct (String.eqb k k'); [by right|].
  intros [->|Hin]%elem_of_cons; [left|right; auto].
Qed.

(** Everything cached was read from the files of its connector. *)
Record faithful (s : state) : Prop := {
  redis_of_files : forall now name text, kv_get now (defaults_key name) (cs_redis s) = Some text ->
    exists d, read_defaults files (path name) = Ok d /\ text = json_text true false (PDict d);
  fallback_of_files : forall name v, (name, v) ∈ cs_fallback s ->
    exists d, read_defaults files (path name) = Ok d /\ v = PDict d }.

Lemma defaults_key_inj a b : defaults_key a = defaults_key b -> a = b.
Proof. by intros [=]. Qed.

Lemma command_faithful : preserves faithful (command refused).
Proof. intros s [Hr Hf]. by split. Qed.
Lemma delete_batches_faithful batches : preserves faithful (delete_batches refused batches).
Proof.
  induction batches as [|[|k keys] rest IH]; cbn [delete_batches]; preserve; try apply command_faithful; try exact IH.
  apply preserves_modify. intros s [Hr Hf]. split; [|done]. cbn [on_redis cs_redis].
  revert Hr. generalize (k :: keys) as l, (cs_redis s) as r. induction l as [|x l IHl]; intros r Hr; [exact Hr|].
  cbn [fold_left]. apply IHl. intros now name text E.
  destruct (decide (defaults_key name = x)) as [<-|]; [by rewrite kv_get_del_eq in E|].
  rewrite kv_get_del_ne in E by done. eauto.
Qed.

Lemma cache_set_faithful name d :
  read_defaults files (path name) = Ok d -> preserves faithful (cache_set refused (defaults_key name) (PDict d) (Some DEFAULTS_TTL)).
Proof.
  intros Hd. unfold cache_set. cbn. preserve; [apply command_faithful|].
  apply preserves_modify. intros s [Hr Hf]. split; [|done]. cbn [on_redis cs_redis].
  intros now n text. destruct (decide (defaults_key n = defaults_key name)) as [->%defaults_key_inj|].
  - rewrite kv_get_set_eq. destruct (_ <=? now)%Z; [done|]. intros [= <-]. eauto.
  - rewrite kv_get_set_ne by done. eauto.
Qed.
Lemma fallback_faithful name d :
  read_defaults files (path name) = Ok d -> preserves faithful (modify (set_fallback (dset name (PDict d)))).
Proof.
  intros Hd. apply preserves_modify. intros s [Hr Hf]. split; [done|]. cbn [set_fallback cs_fallback].
  intros n v [[= -> ->]|Hin]%elem_of_dset; eauto.
Qed.

Lemma load_faithful name : preserves faithful (load_defaults refused files name (path name)).
Proof.
  unfold load_defaults, cache_get.
  apply preserves_bind; [preserve; apply command_faithful|]. intros [v|]; [auto with effects|].
  apply preserves_bind; [auto with effects|]. intros [v|]; [auto with effects|].
  apply preserves_lift_ok. intros d Hd.
  apply preserves_bind; [|auto with effects].
  apply preserves_try; [by apply cache_set_faithful|]. intros _. by apply fallback_faithful.
Qed.

Lemma invalidate_faithful name : preserves faithful (invalidate_cache scan refused name).
Proof.
  assert (forall p, preserves faithful (cache_delete scan refused p)) as Hd.
  { intros p s Hs. by apply delete_batches_faithful. }
  destruct name as [[|c n]|]; cbn [invalidate_cache]; apply preserves_bind; try apply Hd; intros _;
    apply preserves_modify; intros s [Hr Hf]; (split; [done|]); cbn [set_fallback cs_fallback].
  - by intros m v Hn%not_elem_of_nil.
  - intros m v Hin%elem_of_ddel. eauto.
  - by intros m v Hn%not_elem_of_nil.
Qed.

Lemma run_faithful ops : preserves faithful (run_ops ops).
Proof.
  unfold run_ops. apply preserves_for. intros op _. preserve. unfold run_op. destruct op; preserve.
  - apply load_faithful.
  - apply invalidate_faithful.
  - apply preserves_modify. intros s [Hr Hf]. by split.
Qed.

Lemma cache_get_returned key s c s' :
  cache_get refused key s = (Ok c, s') ->
  c = kv_get (cs_now s) key (cs_redis s) ≫= parsed /\ cs_redis s' = cs_redis s /\ cs_fallback s' = cs_fallback s.
Proof.
  unfold cache_get, command, gets, mbind, EM_bind. destruct (refused (cs_sent s)); [done|]. by intros [= <- <-].
Qed.

Lemma load_answers name s v s' :
  (forall n d, read_defaults files (path n) = Ok d -> wf_val (PDict d) = true /\ no_float (PDict d) = true) ->
  faithful s -> load_defaults refused files name (path name) s = (Ok v, s') ->
  exists d, read_defaults files (path name) = Ok d /\ v = PDict d.
Proof.
  intros Hplain [Hr Hf] E. unfold load_defaults in E.
  apply bind_returned in E as (cached & s1 & [-> [Ek Ef]]%cache_get_returned & E).
  destruct (kv_get (cs_now s) (defaults_key name) (cs_redis s)) as [text|] eqn:Et; cbn [mbind option_bind] in E.
  - destruct (Hr _ _ _ Et) as (d & Hd & ->). destruct (Hplain _ _ Hd) as [Hwf Hnf].
    unfold parsed in E. rewrite (loads_dumps true (PDict d) Hwf Hnf) in E. injection E as <- _. eauto.
  - apply bind_returned in E as (local & s2 & E2 & E). unfold gets in E2. rewrite Ef in E2. injection E2 as <- <-.
    destruct (dget name (cs_fallback s)) as [v'|] eqn:El.
    + injection E as <- _. apply (Hf name), dget_Some_in, El.
    + em_ok. eauto.
Qed.

(** Whatever was asked before, whenever Redis refused and however much time passed, the defaults a
    connector gets are those of its files, read afresh or from a cache. *)
Theorem defaults_follow_files ops name now r v s' :
  (forall n d, read_defaults files (path n) = Ok d -> wf_val (PDict d) = true /\ no_float (PDict d) = true) ->
  (forall t n, kv_get t (defaults_key n) r = None) ->
  load_defaults refused files name (path name) (run_ops ops (MkCacheState r now 0 [])).2 = (Ok v, s') ->
  PDict <$> read_defaults files (path name) = Ok v.
Proof.
  intros Hplain Hempty E. apply load_answers in E as (d & -> & ->); [done|done|].
  apply run_faithful. split; [|by intros n w Hn%not_elem_of_nil]. intros t n text Ht. by rewrite Hempty in Ht.
Qed.
End facts.

(** ** Demonstrations *)

(** A pattern with one star, as Redis matches it. *)
Definition star_match (pattern key : string) : bool :=
  match split_char "*" pattern with
  | [prefix; suffix] =>
      starts_with prefix key && ends_with suffix key && (String.length prefix + String.length suffix <=? String.length key)%nat
  | _ => false
  end.
Definition scan_map (now : Z) (pattern : string) (s : gmap string (string * Z)) : list (list string) :=
  [List.filter (star_match pattern) (map fst (map_to_list s))].
Definition demo_files (path : string) : option (list (res pyval) * list (res pyval)) :=
  if String.eqb path "dhl/1.0.0" then Some ([Ok (PDict [("order.id", PStr "id")]); Ok PNone], [Ok (PDict [("source", PStr "ERP")])])
  else if String.eqb path "dhl/2.0.0" then Some ([Ok (PDict [("order.id", PStr "number")])], [])
  else None.
Definition no_redis : cache_state (gmap string (string * Z)) := MkCacheState ∅ 0 0 [].
Definition answers_all (n : nat) : option pyexn := None.
Definition load_dhl (refused : nat -> option pyexn) (path : string) : EM (cache_state (gmap string (string * Z))) pyval :=
  load_defaults refused demo_files "dhl" path.
Definition dhl_1 : pyval := PDict [("order.id", PStr "id"); ("source", PStr "ERP")].

(** The key names the connector, not its version: the other version gets the defaults cached for ten minutes. *)
Example versions_share_defaults :
  ((_ ← load_dhl answers_all "dhl/1.0.0"; load_dhl answers_all "dhl/2.0.0") no_redis).1 = Ok dhl_1.
Proof. vm_compute. reflexivity. Qed.
Example invalidation_reads_again :
  ((_ ← load_dhl answers_all "dhl/1.0.0"; _ ← invalidate_cache scan_map answers_all (Some "dhl");
    load_dhl answers_all "dhl/2.0.0") no_redis).1 = Ok (PDict [("order.id", PStr "number")]).
Proof. vm_compute. reflexivity. Qed.

(** The fallback is for a Redis that does not answer, but is only looked at once Redis has answered: with
    Redis gone the load fails, also when the fallback has the defaults. *)
Definition redis_full (n : nat) : option pyexn := if Nat.eqb n 1 then Some (OtherError "OutOfMemoryError") else None.
Definition redis_down (n : nat) : option pyexn := Some (OtherError "ConnectionError").
Example fallback_unreachable :
  let '(loaded, s) := load_dhl redis_full "dhl/1.0.0" no_redis in
  loaded = Ok dhl_1 /\ dget "dhl" (cs_fallback s) = Some dhl_1 /\
  (load_dhl redis_down "dhl/1.0.0" s).1 = Raise (OtherError "ConnectionError") /\
  (load_dhl answers_all "dhl/1.0.0" s).1 = Ok dhl_1.
Proof. vm_compute. auto. Qed.

(** What was kept in the fallback does not expire: a week later the files of the other version are not read. *)
Example fallback_never_expires :
  let s := (load_dhl redis_full "dhl/1.0.0" no_redis).2 in
  (load_dhl answers_all "dhl/2.0.0" (MkCacheState (cs_redis s) 604800 2 (cs_fallback s))).1 = Ok dhl_1.
Proof. vm_compute. reflexivity. Qed.

Example overrides_by_priority :
  let o p a f t := MkOverride "t" "dhl" "field" p a (FM f t PNone) in
  map or_priority (get_tenant_overrides [o 5%Z true "a" "x"; o 1%Z true "b" "x"; o 0%Z false "c" "x"] "t" "dhl" "field") = [1; 5]%Z
  /\ (resolve_mapping answers_all demo_files no_lib [o 5%Z true "a" "x"; o 1%Z true "b" "x"] "t" "dhl" "field"
        [("a", PInt 1); ("b", PInt 2)] PNone (Some "dhl/1.0.0") no_redis).1
     = Ok [("order", PDict [("id", PStr "id")]); ("source", PStr "ERP"); ("x", PInt 1)].
Proof. split; vm_compute; reflexivity. Qed.

Lemma map_get_empty {V} t k : map_get t k (∅ : gmap string (V * Z)) = None.
Proof. unfold map_get. by rewrite lookup_empty. Qed.

Lemma run_fst {S A} (m : EM S A) s v : (m s).1 = Ok v -> m s = (Ok v, (m s).2).
Proof. destruct (m s) as [r s']. by intros [= ->]. Qed.

Lemma defaults_follow_files_witness :
  let path := fun name => if String.eqb name "dhl" then "dhl/1.0.0" else "" in
  let ops := [LoadDefaults "dhl"; Elapse 601; LoadDefaults "ups"; InvalidateCache None] in
  PDict <$> read_defaults demo_files (path "dhl") = Ok dhl_1.
Proof.
  intros path ops.
  refine (defaults_follow_files scan_map answers_all demo_files path ops "dhl" 0 ∅ dhl_1 _ _ _ (run_fst _ _ _ _)).
  - intros n d. unfold path. destruct (String.eqb n "dhl"); vm_compute; by intros [= <-].
  - intros t n. apply map_get_empty.
  - vm_compute. reflexivity.
Defined.
