(* ===== verification/ProfileRegistry.v ===== *)
(** The shared mapping library ([shared/python/pinquark_common/mapping/]): the registry of
    the mapping profiles of clients ([registry.py]) and the translation of statuses
    ([status_mapper.py]). *)

From S2P Require Import Prelude PyText PyValue Effects.

Local Open Scope string_scope.

(** ** Profiles *)

Inductive MappingDirection := INBOUND | OUTBOUND.
#[export] Instance direction_eq_dec : EqDecision MappingDirection.
Proof. solve_decision. Defined.
Definition direction_value (d : MappingDirection) : string :=
  match d with INBOUND => "inbound" | OUTBOUND => "outbound" end.

Section registry.
(** The rules of a profile and its other fields, which the registry does not read. *)
Context {rules : Type}.

Record MappingProfile := MkMappingProfile {
  mp_id : string;
  mp_client : string;
  mp_system : string;
  mp_category : string;
  mp_entity : string;
  mp_direction : MappingDirection;
  mp_rules : rules
}.

Definition DEFAULT_CLIENT : string := "__default__".

Definition make_key (client system category entity : string) (direction : MappingDirection) : string :=
  client ++ "::" ++ system ++ "::" ++ category ++ "::" ++ entity ++ "::" ++ direction_value direction.

Definition profiles : Type := list (string * MappingProfile).

Definition profile_key (p : MappingProfile) : string :=
  make_key (mp_client p) (mp_system p) (mp_category p) (mp_entity p) (mp_direction p).
Definition register (p : MappingProfile) (r : profiles) : profiles := dset (profile_key p) p r.

(** The profile of the client, or else the default one. *)
Definition get_profile (client system category entity : string) (direction : MappingDirection) (r : profiles)
  : option MappingProfile :=
  match dget (make_key client system category entity direction) r with
  | Some p => Some p
  | None => dget (make_key DEFAULT_CLIENT system category entity direction) r
  end.

Definition list_profiles (r : profiles) : list MappingProfile := map snd r.
Definition list_for_client (client : string) (r : profiles) : list MappingProfile :=
  List.filter (fun p => String.eqb (mp_client p) client) (list_profiles r).

(** [load_from_directory]: the files in order; one that does not parse is logged and left
    out. *)
Definition load_from_directory (files : list (res MappingProfile)) (r : profiles) : list MappingProfile * profiles :=
  let loaded := omap (M := list) (fun f => match f with Ok p => Some p | Raise _ => None end) files in
  (loaded, fold_left (fun r p => register p r) loaded r).

(** Two profiles are for the same use. *)
Definition same_use (p q : MappingProfile) : Prop :=
  mp_client p = mp_client q /\ mp_system p = mp_system q /\ mp_category p = mp_category q
  /\ mp_entity p = mp_entity q /\ mp_direction p = mp_direction q.

#[export] Instance same_use_dec p q : Decision (same_use p q).
Proof. unfold same_use. apply _. Defined.

(** A part without a colon does not blend into the separator. *)
Definition plain (p : MappingProfile) : Prop :=
  has_no ":" (mp_client p) = true /\ has_no ":" (mp_system p) = true /\ has_no ":" (mp_category p) = true
  /\ has_no ":" (mp_entity p) = true.

Lemma plain_cut a b s t :
  has_no ":" a = true -> has_no ":" b = true -> a ++ "::" ++ s = b ++ "::" ++ t -> a = b /\ s = t.
Proof.
  intros Ha Hb He.
  assert (Hc : split_max ":" 1 (a ++ String ":" (String ":" s)) = split_max ":" 1 (b ++ String ":" (String ":" t)))
    by (f_equal; exact He).
  rewrite !split_max_app in Hc by done. cbn [split_max] in Hc. by injection Hc as -> ->.
Qed.

Lemma profile_key_inj p q : plain p -> plain q -> profile_key p = profile_key q -> same_use p q.
Proof.
  intros (P1 & P2 & P3 & P4) (Q1 & Q2 & Q3 & Q4) He. unfold profile_key, make_key in He.
  apply plain_cut in He as [H1 He]; [|done..]. apply plain_cut in He as [H2 He]; [|done..].
  apply plain_cut in He as [H3 He]; [|done..]. apply plain_cut in He as [H4 He]; [|done..].
  repeat (split; [done|]). by destruct (mp_direction p), (mp_direction q).
Qed.

Lemma last_registered ps u :
  Forall plain ps -> plain u ->
  dget (profile_key u) (fold_left (fun r p => register p r) ps [])
  = List.find (fun p => bool_decide (same_use p u)) (rev ps).
Proof.
  intros Hps Hu. induction ps as [|p ps IH] using rev_ind; [done|].
  apply Forall_app in Hps as [Hps Hp]. apply Forall_inv in Hp.
  rewrite fold_left_app, rev_app_distr. cbn [fold_left rev app List.find]. unfold register at 1. rewrite dget_dset.
  destruct (String.eqb_spec (profile_key u) (profile_key p)) as [He|Hne].
  - rewrite bool_decide_eq_true_2; [done|]. by apply profile_key_inj.
  - rewrite bool_decide_eq_false_2; [by apply IH|]. intros (E1 & E2 & E3 & E4 & E5). apply Hne.
    unfold profile_key. by rewrite E1, E2, E3, E4, E5.
Qed.

(** The registry answers as documented: after any registrations of profiles without colons, a
    use gets the last profile registered for exactly it, or else the last default one of its
    system, category, entity and direction, or else nothing. *)
Theorem get_profile_exact ps client system category entity direction rule0 :
  let use c := MkMappingProfile "" c system category entity direction rule0 in
  Forall plain ps -> plain (use client) ->
  let last_for c := List.find (fun p => bool_decide (same_use p (use c))) (rev ps) in
  get_profile client system category entity direction (fold_left (fun r p => register p r) ps [])
  = match last_for client with Some p => Some p | None => last_for DEFAULT_CLIENT end.
Proof.
  cbv zeta. intros Hps Hu. unfold get_profile.
  set (use c := MkMappingProfile "" c system category entity direction rule0).
  change (make_key client system category entity direction) with (profile_key (use client)).
  change (make_key DEFAULT_CLIENT system category entity direction) with (profile_key (use DEFAULT_CLIENT)).
  rewrite !last_registered; [done|done| |done|done]. destruct Hu as (_ & Hu). by split.
Qed.

(** With colons two uses can share a key: a client then gets the profile of another. *)
Lemma profiles_can_collide rule :
  let p := MkMappingProfile "p" "acme::shop" "erp" "ecommerce" "order" INBOUND rule in
  get_profile "acme" "shop::erp" "ecommerce" "order" INBOUND (register p []) = Some p.
Proof. done. Qed.
End registry.

Lemma get_profile_exact_witness :
  let p c := MkMappingProfile ("p-" ++ c) c "allegro" "ecommerce" "order" INBOUND tt in
  let r := fold_left (fun r p => register p r) [p "acme"; p DEFAULT_CLIENT] [] in
  get_profile "acme" "allegro" "ecommerce" "order" INBOUND r = Some (p "acme")
  /\ get_profile "other" "allegro" "ecommerce" "order" INBOUND r = Some (p DEFAULT_CLIENT).
Proof.
  cbv zeta.
  split; rewrite (get_profile_exact _ _ _ _ _ _ tt); try (by vm_compute); by repeat constructor.
Defined.

(** ** Statuses *)

(** [_find_by_name]: the first item of that name; an item that is no object has no [get]. *)
Fixpoint find_by_name (items : list pyval) (name : string) : res dict :=
  match items with
  | [] => Raise (KeyError ("Mapping does not contain entity: " ++ name))
  | item :: items' =>
      d ← dict_method "get" item;
      if py_eqb (dget_or "name" PNone d) (PStr name) then Ok d else find_by_name items' name
  end.

Section status_mapper.
(** The mapping file, the target and the entity. *)
Variables (mappings : dict) (target entity : string).

Definition extract (source : string) : res dict :=
  m ← dict_method "get" (dget_or "mappings" (PDict []) mappings);
  sources ← as_iter (dget_or "sources" (PList []) m);
  source_entry ← find_by_name sources source;
  targets ← as_iter (dget_or "targets" (PList []) source_entry);
  target_entry ← find_by_name targets target;
  entities ← as_iter (dget_or "entities" (PList []) target_entry);
  entity_entry ← find_by_name entities entity;
  dict_method "get" (dget_or "map" (PDict []) entity_entry).

(** [_extract_source_mapping]: what is not found is an empty mapping. *)
Definition extract_source_mapping (source : string) : res dict :=
  match extract source with
  | Raise (KeyError _) => Ok []
  | r => r
  end.

Definition DEFAULT_TRANSLATION_ENTITY : dict := [("translation", PStr ""); ("activated", PBool false)].

(** [map_status]. *)
Definition map_status (source status : string) : res pyval :=
  source_mappings ← extract_source_mapping source;
  entry ← dict_method "get" (dget_or status (PDict DEFAULT_TRANSLATION_ENTITY) source_mappings);
  Ok (if truthy (dget_or "activated" (PBool false) entry) then dget_or "translation" (PStr status) entry
      else PStr status).

(** A status without an activated entry is left as it is. *)
Lemma map_status_unchanged source status m entry :
  extract_source_mapping source = Ok m -> dget_or status (PDict DEFAULT_TRANSLATION_ENTITY) m = PDict entry ->
  truthy (dget_or "activated" (PBool false) entry) = false -> map_status source status = Ok (PStr status).
Proof. intros Hm He Ha. unfold map_status. rewrite Hm. cbn [mbind res_bind]. rewrite He. cbn. by rewrite Ha. Qed.
End status_mapper.

