(* ===== verification/Flow.v ===== *)
(** The flow engine: [platform/core/flow_engine.py].  A flow connects an event of a
    source connector to an action of a destination connector, with a filter, a
    mapping, an optional JMESPath transform and retries.  The parts of the engine are
    here; [execute_flow] is its specification for an action whose answers are a function
    of the attempt, and [Actions] has the engine itself, whose attempts change the
    world. *)

From S2P Require Import Prelude PyText PyValue Paths Context Transforms MappingResolver.

Local Open Scope string_scope.

Record Flow := MkFlow {
  fl_name : string;
  fl_source_connector : string;
  fl_source_event : string;
  fl_source_filter : dict;
  fl_destination_connector : string;
  fl_destination_action : string;
  fl_field_mapping : pyval;
  fl_transform : string;
  fl_on_error : string;
  fl_max_retries : Z;
  fl_enabled : bool
}.

Record FlowExecution := MkFlowExecution {
  fe_status : string;
  fe_retry_count : Z;
  fe_action_data : option dict;
  fe_result : option dict;
  fe_error : option string
}.

(** [_matches_filter]. *)
Definition matches_filter (event_data : dict) (source_filter : dict) : bool :=
  forallb (fun kv => negb (py_neqb (walk_parts (PDict event_data) (split_char "." kv.1)) kv.2))
          source_filter.

(** [min(_RETRY_BASE_DELAY * (2 ** attempt), _RETRY_MAX_DELAY)], in seconds. *)
Definition flow_retry_delay (attempt : Z) : Z := Z.min (2 ^ attempt) 30.

Definition max_attempts (f : Flow) : nat :=
  if String.eqb (fl_on_error f) "retry" then Z.to_nat (fl_max_retries f + 1) else 1.

(** How the attempts went: the retry count, the waits, and the answer of the last
    attempt ([None] when there was none). *)
Record attempts_result := Attempts {
  at_count : Z;
  at_calls : nat;
  at_delays : list Z;
  at_answer : option (res pyval)
}.

(** The retry loop, on answers that are a function of the attempt: [n] attempts are left, [a] is the next one. *)
Fixpoint try_attempts (answer : Z -> res pyval) (a : Z) (n : nat) : attempts_result :=
  match n with
  | O => Attempts 0 0 [] None
  | S n' =>
      match answer a with
      | Ok r => Attempts a 1 [] (Some (Ok r))
      | Raise e =>
          match n' with
          | O => Attempts a 1 [] (Some (Raise e))
          | S _ =>
              let rest := try_attempts answer (a + 1) n' in
              Attempts (at_count rest) (S (at_calls rest)) (flow_retry_delay a :: at_delays rest)
                       (at_answer rest)
          end
      end
  end.

Section Flow.
Variable lib : TextLib.
(** [jmespath.search]; [None] when the package is not installed. *)
Variable jmespath : option (string -> dict -> res pyval).

(** [_apply_transform]: whatever goes wrong leaves the data as it is. *)
Definition flow_transform (data : dict) (transform : string) : dict :=
  match jmespath with
  | None => data
  | Some search =>
      match search transform data with
      | Ok (PDict d) => d
      | Ok v => [("result", v)]
      | Raise _ => data
      end
  end.

Definition action_result (v : pyval) : dict :=
  match v with PDict d => d | _ => [("result", PStr (py_str v))] end.

Definition failed (count : Z) (data : option dict) (e : pyexn) : FlowExecution :=
  MkFlowExecution "failed" count data None (Some (exn_str e)).

(** The specification of [execute_flow] (the code's is [run_flow] of [Actions]): the execution,
    with the number of calls and the waits. *)
Definition execute_flow (f : Flow) (overrides : list FieldMapping) (event_data : dict)
    (answer : dict -> Z -> res pyval) : FlowExecution * nat * list Z :=
  if negb (matches_filter event_data (fl_source_filter f))
  then (MkFlowExecution "skipped" 0 None None None, 0%nat, [])
  else
    match resolve lib [] (fl_field_mapping f) overrides event_data with
    | Raise e => (failed 0 None e, 0%nat, [])
    | Ok mapped =>
        let mapped_data := if String.eqb (fl_transform f) "" then mapped
                           else flow_transform mapped (fl_transform f) in
        let r := try_attempts (answer mapped_data) 0 (max_attempts f) in
        (match at_answer r with
         | Some (Ok v) => MkFlowExecution "success" (at_count r) (Some mapped_data)
                            (Some (action_result v)) None
         | Some (Raise e) => failed (at_count r) (Some mapped_data) e
         | None => MkFlowExecution "running" 0 (Some mapped_data) None None
         end, at_calls r, at_delays r)
    end.

(** The flows of a tenant for an event, under the specification. *)
Definition flows_for_event (flows : list Flow) (connector event : string) : list Flow :=
  List.filter (fun f => String.eqb (fl_source_connector f) connector
                        && String.eqb (fl_source_event f) event && fl_enabled f) flows.

Definition process_event (flows : list Flow) (overrides : Flow -> list FieldMapping)
    (connector event : string) (event_data : dict) (answer : Flow -> dict -> Z -> res pyval)
  : list FlowExecution :=
  map (fun f => (execute_flow f (overrides f) event_data (answer f)).1.1)
      (flows_for_event flows connector event).
End Flow.

(** ** Facts *)

(** The waits of [n] attempts from [a] on. *)
Fixpoint flow_delays (a : Z) (n : nat) : list Z :=
  match n with O => [] | S n' => flow_retry_delay a :: flow_delays (a + 1) n' end.

Lemma try_attempts_success answer r k : forall a n,
  (k < n)%nat -> (forall i, (i < k)%nat -> exists e, answer (a + Z.of_nat i)%Z = Raise e) ->
  answer (a + Z.of_nat k)%Z = Ok r ->
  try_attempts answer a n = Attempts (a + Z.of_nat k) (S k) (flow_delays a k) (Some (Ok r)).
Proof.
  induction k as [|k IH]; intros a n Hn Hf Hok; (destruct n as [|n]; [lia|]); cbn [try_attempts].
  - rewrite Z.add_0_r in *. by rewrite Hok.
  - destruct (Hf 0%nat) as [e He]; [lia|]. rewrite Z.add_0_r in He. rewrite He.
    destruct n as [|n]; [lia|]. rewrite (IH (a + 1)%Z (S n)).
    + cbn. f_equal; [lia].
    + lia.
    + intros i Hi. destruct (Hf (S i)) as [e' He']; [lia|]. exists e'. rewrite <-He'. f_equal. lia.
    + rewrite <-Hok. f_equal. lia.
Qed.

Lemma try_attempts_failure answer n : forall a,
  (forall i, (i <= n)%nat -> exists e, answer (a + Z.of_nat i)%Z = Raise e) ->
  exists e, answer (a + Z.of_nat n)%Z = Raise e
    /\ try_attempts answer a (S n) = Attempts (a + Z.of_nat n) (S n) (flow_delays a n) (Some (Raise e)).
Proof.
  induction n as [|n IH]; intros a Hf.
  - destruct (Hf 0%nat) as [e He]; [lia|]. exists e. split; [done|]. cbn [try_attempts].
    rewrite Z.add_0_r in *. by rewrite He.
  - destruct (Hf 0%nat) as [e0 He0]; [lia|]. rewrite Z.add_0_r in He0.
    destruct (IH (a + 1)%Z) as (e & He & Ht).
    { intros i Hi. destruct (Hf (S i)) as [e' He']; [lia|]. exists e'. rewrite <-He'. f_equal. lia. }
    exists e. split; [rewrite <-He; f_equal; lia|]. cbn [try_attempts] in Ht |- *. rewrite He0, Ht.
    cbn. f_equal; lia.
Qed.

Lemma flow_delays_spec a n d :
  (0 <= a)%Z -> d ∈ flow_delays a n -> (1 <= d <= 30)%Z.
Proof.
  revert a. induction n as [|n IH]; intros a Ha; cbn; [by intros ?%not_elem_of_nil|].
  intros [->|H]%elem_of_cons; [|apply (IH (a + 1)%Z); [lia|done]].
  unfold flow_retry_delay. assert (1 <= 2 ^ a)%Z; [|lia].
  change 1%Z with (2 ^ 0)%Z at 1. apply Z.pow_le_mono_r; lia.
Qed.

(** ** Properties *)

(** A flow whose event passes the filter and whose destination fails [k] times
    before it answers, [k] being at most [max_retries] under the retry policy,
    succeeds with the answer after exactly [k + 1] calls and [k] waits of 1 to 30
    seconds that double. *)
Theorem flow_succeeds_after_failures lib jmespath f overrides event_data answer mapped k v :
  matches_filter event_data (fl_source_filter f) = true ->
  resolve lib [] (fl_field_mapping f) overrides event_data = Ok mapped ->
  fl_transform f = "" -> (k < max_attempts f)%nat ->
  (forall i, (i < k)%nat -> exists e, answer mapped (Z.of_nat i) = Raise e) ->
  answer mapped (Z.of_nat k) = Ok v ->
  execute_flow lib jmespath f overrides event_data answer =
    (MkFlowExecution "success" (Z.of_nat k) (Some mapped) (Some (action_result v)) None,
     S k, flow_delays 0 k)
  /\ (forall d, d ∈ flow_delays 0 k -> 1 <= d <= 30)%Z.
Proof.
  intros Hm Hr Ht Hk Hf Hok. split; [|intros d; by apply flow_delays_spec].
  unfold execute_flow. rewrite Hm, Hr, Ht. cbn [negb String.eqb].
  by rewrite (try_attempts_success (answer mapped) v k).
Qed.

Definition demo_flow : Flow :=
  MkFlow "f" "shop" "order.created" [("order.status", PStr "paid")] "wms" "order.create"
    (PList [PDict [("from", PStr "order.id"); ("to", PStr "ref")]]) "" "retry" 3 true.

Lemma flow_succeeds_after_failures_witness :
  let ev := [("order", PDict [("id", PInt 5); ("status", PStr "paid")])] in
  let answer := fun (_ : dict) a => if (a <? 2)%Z then Raise (OtherError "busy") else Ok (PStr "done") in
  execute_flow no_lib None demo_flow [] ev answer =
    (MkFlowExecution "success" 2 (Some [("ref", PInt 5)]) (Some [("result", PStr "done")]) None,
     3%nat, [1; 2]%Z).
Proof.
  intros ev answer.
  apply (flow_succeeds_after_failures no_lib None demo_flow [] ev answer [("ref", PInt 5)] 2 (PStr "done"));
    try reflexivity.
  - cbn. lia.
  - intros i Hi. exists (OtherError "busy"). unfold answer. destruct (Z.ltb_spec (Z.of_nat i) 2); [done|lia].
Defined.

(** A flow whose destination always fails makes exactly one call more than
    [max_retries] under the retry policy, one otherwise, and ends [failed] with the
    error of the last call. *)
Theorem flow_fails_after_max_attempts lib jmespath f overrides event_data answer mapped n :
  matches_filter event_data (fl_source_filter f) = true ->
  resolve lib [] (fl_field_mapping f) overrides event_data = Ok mapped ->
  fl_transform f = "" -> max_attempts f = S n ->
  (forall i, exists e, answer mapped i = Raise e) ->
  exists e, answer mapped (Z.of_nat n) = Raise e
    /\ execute_flow lib jmespath f overrides event_data answer =
         (MkFlowExecution "failed" (Z.of_nat n) (Some mapped) None (Some (exn_str e)),
          S n, flow_delays 0 n).
Proof.
  intros Hm Hr Ht Hn Hf. destruct (try_attempts_failure (answer mapped) n 0) as (e & He & Hta).
  { intros i _. apply Hf. }
  exists e. split; [done|]. unfold execute_flow. rewrite Hm, Hr, Ht, Hn. cbn [negb String.eqb].
  by rewrite Hta.
Qed.

Lemma flow_fails_after_max_attempts_witness :
  let ev := [("order", PDict [("id", PInt 5); ("status", PStr "paid")])] in
  exists e, (fun (_ : dict) (_ : Z) => Raise (OtherError "down") : res pyval) [("ref", PInt 5)] 3%Z = Raise e
    /\ execute_flow no_lib None demo_flow [] ev (fun _ _ => Raise (OtherError "down")) =
    (MkFlowExecution "failed" 3 (Some [("ref", PInt 5)]) None (Some (exn_str e)), 4%nat, [1; 2; 4]%Z).
Proof.
  intros ev.
  exact (flow_fails_after_max_attempts no_lib None demo_flow [] ev (fun _ _ => Raise (OtherError "down"))
           [("ref", PInt 5)] 3 eq_refl eq_refl eq_refl eq_refl
           (fun _ => ex_intro _ (OtherError "down") eq_refl)).
Defined.
