(* ===== verification/CircuitBreaker.v ===== *)
(** Circuit breakers: the shared one of
    [shared/python/pinquark_common/resilience/circuit_breaker.py] and the per-host
    one, with the retrying HTTP client, of [sdk/python/pinquark_connector_sdk/http.py].
    Clock readings are integers (ticks of [time.monotonic]); the lock makes each
    operation atomic, so concurrent calls are sequences of their beginnings and
    ends. *)

From S2P Require Import Prelude.

Local Open Scope Z_scope.

Inductive cb_state := CLOSED | OPEN | HALF_OPEN.

#[export] Instance cb_state_dec : EqDecision cb_state.
Proof. solve_decision. Defined.

(** ** The shared breaker *)

Module Shared.

Record config := Config {
  failure_threshold : Z;
  reset_timeout : Z;
  half_open_max_calls : Z
}.

Record breaker := Breaker {
  state : cb_state;
  failure_count : Z;
  last_failure_time : Z;
  half_open_calls : Z
}.

(** [__init__]. *)
Definition new_breaker : breaker := Breaker CLOSED 0 0 0.

(** [_maybe_transition_to_half_open]. *)
Definition maybe_transition_to_half_open (c : config) (now : Z) (b : breaker) : breaker :=
  match state b with
  | OPEN => if reset_timeout c <=? now - last_failure_time b
            then Breaker HALF_OPEN (failure_count b) (last_failure_time b) 0 else b
  | _ => b
  end.

(** [_check_state]: the breaker, or the seconds remaining of [CircuitBreakerOpen]. *)
Definition check_state (c : config) (now : Z) (b : breaker) : breaker + Z :=
  let remaining := Z.max 0 (reset_timeout c - (now - last_failure_time b)) in
  match state b with
  | OPEN => inr remaining
  | HALF_OPEN =>
      if half_open_max_calls c <=? half_open_calls b then inr remaining
      else inl (Breaker HALF_OPEN (failure_count b) (last_failure_time b) (half_open_calls b + 1))
  | CLOSED => inl b
  end.

(** The locked part of [call] before the function runs: admitted or rejected, and
    the breaker. *)
Definition begin_call (c : config) (now : Z) (b : breaker) : bool * breaker :=
  let b' := maybe_transition_to_half_open c now b in
  match check_state c now b' with
  | inl b'' => (true, b'')
  | inr _ => (false, b')
  end.

(** [_on_success] and [_on_failure]. *)
Definition on_success (b : breaker) : breaker :=
  Breaker CLOSED 0 (last_failure_time b) (half_open_calls b).
Definition on_failure (c : config) (now : Z) (b : breaker) : breaker :=
  let count := failure_count b + 1 in
  let state' :=
    match state b with
    | HALF_OPEN => OPEN
    | CLOSED => if failure_threshold c <=? count then OPEN else CLOSED
    | OPEN => OPEN
    end in
  Breaker state' count now (half_open_calls b).

(** [reset]. *)
Definition reset (b : breaker) : breaker :=
  Breaker CLOSED 0 (last_failure_time b) (half_open_calls b).

(** How the protected function ends: normally, with an exception that counts, or
    with an excluded one, which is raised again without touching the breaker. *)
Inductive ending := Succeeds | Fails | Excluded.

Definition end_call (c : config) (now : Z) (e : ending) (b : breaker) : breaker :=
  match e with
  | Succeeds => on_success b
  | Fails => on_failure c now b
  | Excluded => b
  end.

(** [call] without other calls in between: the breaker, and whether the function ran. *)
Definition call (c : config) (now : Z) (e : ending) (b : breaker) : bool * breaker :=
  let '(admitted, b') := begin_call c now b in
  (admitted, if admitted then end_call c now e b' else b').

(** *** What callers see of a breaker they share *)

(** Calls that begin at a time, admitted or rejected, calls that end, and resets. *)
Inductive event := Began (now : Z) (admitted : bool) | Ended (now : Z) (e : ending) | WasReset.

(** An event with the public [state] after it; the newest first. *)
Abbreviation log := (list (event * cb_state)).

(** The interleavings of concurrent calls, by a clock that does not go back.  Calls may end
    that never began. *)
Inductive trace (c : config) : Z -> log -> breaker -> Prop :=
  | trace_new start : trace c start [] new_breaker
  | trace_begin t l b now : trace c t l b -> t <= now ->
      trace c now ((Began now (begin_call c now b).1, state (begin_call c now b).2) :: l) (begin_call c now b).2
  | trace_end t l b now e : trace c t l b -> t <= now ->
      trace c now ((Ended now e, state (end_call c now e b)) :: l) (end_call c now e b)
  | trace_reset t l b : trace c t l b -> trace c t ((WasReset, state (reset b)) :: l) (reset b).

(** What the events say, without the breaker: the failures since the last success or reset,
    the time of the last failure, and the calls admitted since the breaker was last seen
    in another state than half open. *)
Fixpoint failures_seen (l : log) : Z :=
  match l with
  | [] => 0
  | (Ended _ Fails, _) :: l' => failures_seen l' + 1
  | (Ended _ Succeeds, _) :: _ | (WasReset, _) :: _ => 0
  | _ :: l' => failures_seen l'
  end.
Fixpoint last_failure (l : log) : Z :=
  match l with
  | [] => 0
  | (Ended now Fails, _) :: _ => now
  | _ :: l' => last_failure l'
  end.
Fixpoint tests_admitted (l : log) : Z :=
  match l with
  | (Began _ true, HALF_OPEN) :: l' => tests_admitted l' + 1
  | (_, HALF_OPEN) :: l' => tests_admitted l'
  | _ => 0
  end.

(** A call that began, by the state it was answered in: a closed breaker admits it, an open
    one rejects it within [reset_timeout] of the last failure, and a half-open one is
    that long after it. *)
Definition paced (c : config) (l : log) (entry : event * cb_state) : Prop :=
  match entry with
  | (Began now admitted, CLOSED) => admitted = true
  | (Began now admitted, OPEN) => admitted = false /\ now < last_failure l + reset_timeout c
  | (Began now admitted, HALF_OPEN) =>
      last_failure l + reset_timeout c <= now
      /\ (admitted = false -> tests_admitted l = half_open_max_calls c)
  | _ => True
  end.

(** The counters of the breaker are what the events say. *)
Record counted (c : config) (t : Z) (l : log) (b : breaker) : Prop := {
  counts_failures : failure_count b = failures_seen l;
  counts_time : last_failure_time b = last_failure l;
  counts_tests : tests_admitted l = match state b with HALF_OPEN => half_open_calls b | _ => 0 end;
  tests_limited : 0 <= tests_admitted l <= half_open_max_calls c;
  closed_below : state b = CLOSED <-> failures_seen l < failure_threshold c;
  half_open_late : state b = HALF_OPEN -> last_failure l + reset_timeout c <= t
}.

Ltac counts :=
  cbn in *; first [done | lia
  | match goal with H : ?P -> _ <= _ |- ?P -> _ => let E := fresh in intros E; specialize (H E); lia end
  | split; intros; first [done | lia | exfalso;
    match goal with H : ?s = CLOSED <-> _ |- _ => cut (s = CLOSED); [discriminate|apply H; lia] end]].

Lemma counted_begin c t now l b :
  0 <= half_open_max_calls c -> t <= now -> counted c t l b ->
  let '(admitted, b') := begin_call c now b in
  counted c now ((Began now admitted, state b') :: l) b' /\ paced c l (Began now admitted, state b').
Proof.
  intros Hm Ht [Hf Hl Hn Hb Hc Hh]. destruct b as [s n last h]. cbn in *. subst last.
  unfold begin_call, maybe_transition_to_half_open, check_state. cbn [state last_failure_time half_open_calls failure_count].
  destruct s; cbn.
  - split; [|done]. split; counts.
  - destruct (Z.leb_spec (reset_timeout c) (now - last_failure l)); cbn.
    + destruct (Z.leb_spec (half_open_max_calls c) 0); cbn; (split; [split; counts|split; intros; first [done|lia]]).
    + split; [split; counts|]. split; [done|lia].
  - specialize (Hh eq_refl). destruct (Z.leb_spec (half_open_max_calls c) h); cbn; (split; [split; counts|split; intros; first [done|lia]]).
Qed.

Lemma counted_end c t now e l b :
  0 < failure_threshold c -> 0 <= half_open_max_calls c -> t <= now -> counted c t l b ->
  counted c now ((Ended now e, state (end_call c now e b)) :: l) (end_call c now e b).
Proof.
  intros Hp Hm Ht [Hf Hl Hn Hb Hc Hh]. destruct b as [s n last h]. cbn in *. subst last n.
  destruct e; cbn; [split; counts| |destruct s; split; counts]. unfold on_failure.
  destruct s; cbn; [|split; counts..].
  destruct (Z.leb_spec (failure_threshold c) (failures_seen l + 1)); split; counts.
Qed.

Lemma trace_counted c t l b :
  0 < failure_threshold c -> 0 <= half_open_max_calls c -> trace c t l b ->
  counted c t l b /\ forall newer entry older, l = (newer ++ entry :: older)%list -> paced c older entry.
Proof.
  intros Hp Hm.
  assert (Hsnoc : forall x l0, paced c l0 x -> (forall newer entry older, l0 = (newer ++ entry :: older)%list -> paced c older entry) ->
            forall newer entry older, x :: l0 = (newer ++ entry :: older)%list -> paced c older entry).
  { intros x l0 Hx Hl [|y newer] entry older; [by intros [= <- <-]|]. intros [= _ E]. exact (Hl _ _ _ E). }
  induction 1 as [start|t l b now _ [IH Hl] Ht|t l b now e _ [IH Hl] Ht|t l b _ [IH Hl]].
  - split; [split; counts|]. by intros [].
  - pose proof (counted_begin c t now l b Hm Ht IH) as H. destruct (begin_call c now b) as [admitted b'].
    destruct H as [H Hx]. split; [done|by apply Hsnoc].
  - split; [by apply counted_end with t|]. by apply Hsnoc.
  - split; [|by apply Hsnoc]. destruct IH. split; counts.
Qed.

(** A run of calls one after the other, all failing at the given times. *)
Definition fail_all (c : config) (times : list Z) (b : breaker) : breaker :=
  fold_left (fun b now => (call c now Fails b).2) times b.

Lemma fail_all_closed c times : forall b,
  state b = CLOSED -> failure_count b + Z.of_nat (List.length times) < failure_threshold c ->
  state (fail_all c times b) = CLOSED
  /\ failure_count (fail_all c times b) = failure_count b + Z.of_nat (List.length times).
Proof.
  induction times as [|t times IH]; intros b Hs Hn; [cbn; split; [done|lia]|].
  change (fail_all c (t :: times) b) with (fail_all c times (call c t Fails b).2).
  cbn [List.length] in *. rewrite Nat2Z.inj_succ in *.
  assert (Hc : (call c t Fails b).2 = on_failure c t b).
  { unfold call, begin_call, maybe_transition_to_half_open, check_state. by rewrite !Hs. }
  rewrite Hc.
  assert (Hs' : state (on_failure c t b) = CLOSED).
  { cbn. rewrite Hs. destruct (Z.leb_spec (failure_threshold c) (failure_count b + 1)); [lia|done]. }
  destruct (IH (on_failure c t b) Hs') as [H1 H2]; cbn [failure_count on_failure] in *; [lia|].
  split; [done|]. rewrite H2. lia.
Qed.

End Shared.

(** ** The per-host breaker and the HTTP client of the SDK *)

Module Sdk.

Record breaker := Breaker { state : cb_state; failure_count : Z; last_failure : Z }.

Definition new_breaker : breaker := Breaker CLOSED 0 0.

Record settings := Settings { failure_threshold : Z; reset_timeout : Z; max_retries : nat }.

(** The defaults of [ConnectorHttpClient]; times in seconds. *)
Definition default_settings : settings := Settings 5 30 3.

(** [pre_check]; false when [CircuitBreakerOpen] is raised. *)
Definition pre_check (s : settings) (now : Z) (b : breaker) : bool * breaker :=
  match state b with
  | OPEN => if reset_timeout s <=? now - last_failure b
            then (true, Breaker HALF_OPEN (failure_count b) (last_failure b)) else (false, b)
  | _ => (true, b)
  end.

Definition on_success (b : breaker) : breaker := Breaker CLOSED 0 (last_failure b).
Definition on_failure (s : settings) (now : Z) (b : breaker) : breaker :=
  let count := failure_count b + 1 in
  let state' :=
    match state b with
    | HALF_OPEN => OPEN
    | st => if failure_threshold s <=? count then OPEN else st
    end in
  Breaker state' count now.

(** What one HTTP exchange gives: a status, a transport error that is retried
    ([ConnectError], [ReadTimeout], ...), or another exception. *)
Inductive exchange := Status (code : Z) | Transport | OtherFailure.

(** How [request] ends. *)
Inductive request_result :=
  | Response (code : Z)
  | BreakerOpen
  | TransportError
  | RaisedOther.

(** [request] from attempt [a] on, [n] more attempts being allowed after it:
    [clock a] is the time at which attempt [a] is checked and recorded.  The
    result, the exchanges made and the breaker. *)
Fixpoint attempts (s : settings) (clock : nat -> Z) (exch : nat -> exchange) (a n : nat) (b : breaker)
  : request_result * nat * breaker :=
  let '(admitted, b1) := pre_check s (clock a) b in
  if negb admitted then (BreakerOpen, 0%nat, b1)
  else
    let retry b2 :=
      match n with
      | O => None
      | S n' => let '(r, k, b3) := attempts s clock exch (S a) n' b2 in Some (r, S k, b3)
      end in
    match exch a with
    | Status code =>
        if (500 <=? code) then
          match retry (on_failure s (clock a) b1) with
          | Some r => r
          | None => (Response code, 1%nat, on_success b1)
          end
        else (Response code, 1%nat, on_success b1)
    | Transport =>
        let b2 := on_failure s (clock a) b1 in
        match retry b2 with Some r => r | None => (TransportError, 1%nat, b2) end
    | OtherFailure => (RaisedOther, 1%nat, b1)
    end.

Definition request (s : settings) (clock : nat -> Z) (exch : nat -> exchange) (b : breaker)
  : request_result * nat * breaker := attempts s clock exch 0 (max_retries s) b.

(** [_backoff]: half seconds waited before the next attempt. *)
Definition backoff_half_seconds (attempt : nat) : Z := 2 ^ Z.of_nat attempt.

End Sdk.

(** ** Properties *)

(** C32: whatever the interleaving of concurrent calls, their ends and resets: the breaker
    is closed exactly when the failures since the last success or reset are fewer than the
    threshold; the calls admitted while it stays half open are at most
    [half_open_max_calls]; and every call that began was admitted by a closed breaker,
    rejected by an open one within [reset_timeout] of the last failure, or came to a
    half-open one at least that long after it, which rejects only when its test
    calls are used up. *)
Theorem breaker_invariant c t l b :
  0 < Shared.failure_threshold c -> 0 <= Shared.half_open_max_calls c -> Shared.trace c t l b ->
  (Shared.state b = CLOSED <-> Shared.failures_seen l < Shared.failure_threshold c)
  /\ Shared.tests_admitted l <= Shared.half_open_max_calls c
  /\ forall newer entry older, l = (newer ++ entry :: older)%list -> Shared.paced c older entry.
Proof.
  intros Ht Hm H. destruct (Shared.trace_counted c t l b Ht Hm H) as [[] Hl]. split_and!; [done|lia|done].
Qed.

Definition demo_config : Shared.config := Shared.Config 5 30 1.
Definition eager_config : Shared.config := Shared.Config 1 30 1.

(** One failure opens the breaker; of two calls after the timeout, the second is rejected. *)
Definition demo_log : Shared.log :=
  [(Shared.Began 32 false, HALF_OPEN); (Shared.Began 31 true, HALF_OPEN); (Shared.Began 30 false, OPEN);
   (Shared.Ended 1 Shared.Fails, OPEN); (Shared.Began 0 true, CLOSED)].

Lemma breaker_invariant_witness :
  let b := Shared.Breaker HALF_OPEN 1 1 1 in
  Shared.trace eager_config 32 demo_log b /\ Shared.tests_admitted demo_log <= 1.
Proof.
  intros b. assert (Ht : Shared.trace eager_config 32 demo_log b).
  { apply (Shared.trace_begin eager_config 31 (tail demo_log) b 32); [|discriminate].
    apply (Shared.trace_begin eager_config 30 (tail (tail demo_log)) (Shared.Breaker OPEN 1 1 0) 31); [|discriminate].
    apply (Shared.trace_begin eager_config 1 (tail (tail (tail demo_log))) (Shared.Breaker OPEN 1 1 0) 30); [|discriminate].
    apply (Shared.trace_end eager_config 0 [(Shared.Began 0 true, CLOSED)] Shared.new_breaker 1 Shared.Fails); [|discriminate].
    apply (Shared.trace_begin eager_config 0 [] Shared.new_breaker 0); [|discriminate]. constructor. }
  split; [exact Ht|]. apply (breaker_invariant eager_config 32 demo_log b); [reflexivity|discriminate|exact Ht].
Defined.

(** Consecutive failures trip the breaker exactly at the threshold: after fewer
    the next call is still admitted, and the failure that reaches the threshold
    opens it, after which every call within [reset_timeout] of it is rejected
    without reaching the protected service. *)
Theorem breaker_trips_at_threshold c times last now e :
  0 < Shared.failure_threshold c -> 0 < Shared.reset_timeout c ->
  Z.of_nat (List.length times) = Shared.failure_threshold c - 1 ->
  now - last < Shared.reset_timeout c ->
  let before := Shared.fail_all c times Shared.new_breaker in
  let tripped := (Shared.call c last Shared.Fails before).2 in
  (Shared.begin_call c last before).1 = true
  /\ Shared.state tripped = OPEN
  /\ Shared.call c now e tripped = (false, tripped).
Proof.
  intros Ht Hr Hn Hnow before tripped.
  destruct (Shared.fail_all_closed c times Shared.new_breaker eq_refl) as [Hs Hc]; [cbn; lia|].
  fold before in Hs, Hc. cbn in Hc.
  assert (Hcall : tripped = Shared.on_failure c last before).
  { unfold tripped, Shared.call, Shared.begin_call, Shared.maybe_transition_to_half_open,
      Shared.check_state. by rewrite !Hs. }
  assert (Hopen : Shared.state tripped = OPEN).
  { rewrite Hcall. cbn. rewrite Hs, Hc. by replace (_ <=? _) with true by (symmetry; apply Z.leb_le; lia). }
  split; [|split; [done|]].
  - unfold Shared.begin_call, Shared.maybe_transition_to_half_open, Shared.check_state. by rewrite !Hs.
  - assert (Hl : Shared.last_failure_time tripped = last) by (by rewrite Hcall).
    unfold Shared.call, Shared.begin_call, Shared.maybe_transition_to_half_open, Shared.check_state.
    rewrite !Hopen, Hl. replace (_ <=? _) with false by (symmetry; apply Z.leb_gt; lia).
    by rewrite Hopen.
Qed.

Lemma breaker_trips_at_threshold_witness :
  let before := Shared.fail_all demo_config [1; 2; 3; 4] Shared.new_breaker in
  let tripped := (Shared.call demo_config 5 Shared.Fails before).2 in
  (Shared.begin_call demo_config 5 before).1 = true /\ Shared.state tripped = OPEN
  /\ Shared.call demo_config 20 Shared.Succeeds tripped = (false, tripped).
Proof.
  exact (breaker_trips_at_threshold demo_config [1; 2; 3; 4] 5 20 Shared.Succeeds
           eq_refl eq_refl eq_refl eq_refl).
Defined.

(** An excluded exception raised by the test call of a half-open breaker blocks it
    for good: the admission is spent, neither a success nor a failure is recorded,
    and every later call is rejected, however long one waits. *)
Theorem excluded_exception_blocks c now b :
  Shared.half_open_max_calls c = 1 -> Shared.state b = OPEN ->
  Shared.reset_timeout c <= now - Shared.last_failure_time b ->
  let b' := (Shared.call c now Shared.Excluded b).2 in
  (Shared.call c now Shared.Excluded b).1 = true
  /\ forall later e, Shared.call c later e b' = (false, b').
Proof.
  intros Hm Hs Hr b'. unfold b', Shared.call, Shared.begin_call, Shared.maybe_transition_to_half_open,
    Shared.check_state. rewrite Hs. replace (_ <=? _) with true by (symmetry; apply Z.leb_le; lia).
  cbn. rewrite Hm. cbn. split; [done|]. done.
Qed.

Lemma excluded_exception_blocks_witness :
  let b := Shared.Breaker OPEN 5 0 0 in
  let b' := (Shared.call demo_config 31 Shared.Excluded b).2 in
  (Shared.call demo_config 31 Shared.Excluded b).1 = true
  /\ forall later e, Shared.call demo_config later e b' = (false, b').
Proof.
  apply (excluded_exception_blocks demo_config 31 (Shared.Breaker OPEN 5 0 0)); [reflexivity|reflexivity|].
  cbn. lia.
Defined.

(** The HTTP client of the SDK makes at least one and at most [max_retries + 1]
    exchanges per request unless the breaker is open, and what it returns is the
    response of the last exchange, a 5xx one included. *)
Theorem request_attempts_bounded s clock exch b :
  let '(r, k, _) := Sdk.request s clock exch b in
  (k <= S (Sdk.max_retries s))%nat
  /\ match r with
     | Sdk.Response code => (0 < k)%nat /\ exch (Nat.pred k) = Sdk.Status code
     | Sdk.TransportError => (0 < k)%nat /\ exch (Nat.pred k) = Sdk.Transport
     | Sdk.RaisedOther => (0 < k)%nat /\ exch (Nat.pred k) = Sdk.OtherFailure
     | Sdk.BreakerOpen => True
     end.
Proof.
  unfold Sdk.request.
  assert (H : forall n a b0, let '(r, k, _) := Sdk.attempts s clock exch a n b0 in
    (k <= S n)%nat /\ match r with
     | Sdk.Response code => (0 < k)%nat /\ exch (a + Nat.pred k)%nat = Sdk.Status code
     | Sdk.TransportError => (0 < k)%nat /\ exch (a + Nat.pred k)%nat = Sdk.Transport
     | Sdk.RaisedOther => (0 < k)%nat /\ exch (a + Nat.pred k)%nat = Sdk.OtherFailure
     | Sdk.BreakerOpen => True
     end).
  { induction n as [|n IH]; intros a b0; cbn [Sdk.attempts];
      destruct (Sdk.pre_check s (clock a) b0) as [[] b1]; cbn [negb]; try (split; [lia|done]);
      destruct (exch a) as [code| |] eqn:Ea; try (destruct (500 <=? code));
      try (split; [lia|]; split; [lia|]; by rewrite Nat.add_0_r);
      match goal with |- context [Sdk.attempts s clock exch (S a) n ?b2] =>
        specialize (IH (S a) b2); destruct (Sdk.attempts s clock exch (S a) n b2) as [[r k] b3] end;
      destruct IH as [Hk Hr]; (split; [lia|]); destruct r; try done;
      destruct Hr as [Hpos Hr]; (split; [lia|]); rewrite <-Hr; f_equal; lia. }
  exact (H (Sdk.max_retries s) 0%nat b).
Qed.

(** With its default settings the breaker of the SDK never opens on a host that
    answers every request with a server error: the last 5xx response of a request
    is recorded as a success, which resets the count before it reaches the
    threshold. *)
Theorem server_errors_never_open clock exch b :
  (forall a, exists code, exch a = Sdk.Status code /\ 500 <= code) ->
  Sdk.state b = CLOSED -> Sdk.failure_count b = 0 ->
  let '(r, k, b') := Sdk.request Sdk.default_settings clock exch b in
  (exists code, r = Sdk.Response code /\ 500 <= code) /\ k = 4%nat
  /\ Sdk.state b' = CLOSED /\ Sdk.failure_count b' = 0.
Proof.
  intros He Hs Hc. destruct b as [st n l]. cbn in Hs, Hc. subst st n.
  assert (H5 : forall a, exists code, exch a = Sdk.Status code /\ (500 <=? code) = true).
  { intros a. destruct (He a) as (code & H & Hle). exists code. split; [done|]. by apply Z.leb_le. }
  unfold Sdk.request. cbn.
  destruct (H5 0%nat) as (c0 & -> & ->). cbn. destruct (H5 1%nat) as (c1 & -> & ->). cbn.
  destruct (H5 2%nat) as (c2 & -> & ->). cbn. destruct (H5 3%nat) as (c3 & -> & E). rewrite E. cbn.
  split; [|done]. exists c3. split; [done|]. by apply Z.leb_le.
Qed.

Lemma server_errors_never_open_witness :
  let '(r, k, b') := Sdk.request Sdk.default_settings Z.of_nat (fun _ => Sdk.Status 503) Sdk.new_breaker in
  (exists code, r = Sdk.Response code /\ 500 <= code) /\ k = 4%nat
  /\ Sdk.state b' = CLOSED /\ Sdk.failure_count b' = 0.
Proof.
  apply (server_errors_never_open Z.of_nat (fun _ => Sdk.Status 503) Sdk.new_breaker);
    [|reflexivity|reflexivity].
  intros a. exists 503. split; [reflexivity|lia].
Defined.
