(* ===== verification/Registry.v ===== *)
(** The connector registry: [platform/core/connector_registry.py].  Manifests are
    typed by the fields of [ConnectorManifest] (the lists and dicts the registry
    looks into: [config_schema] gives [m_config_required] and [m_config_optional],
    [credential_validation] gives [m_validation] and [m_required_fields]); reading
    the YAML files is not modelled. *)

From S2P Require Import Prelude PyText PyValue.

Local Open Scope string_scope.

(** ** Versions *)

(** The leading digits of a segment. *)
Fixpoint leading_digits (s : string) : string :=
  match s with
  | String c s' => if is_digit c then String c (leading_digits s') else EmptyString
  | EmptyString => EmptyString
  end.

Definition segment_number (s : string) : Z := default 0%Z (parse_int (leading_digits s)).

(** [_parse_semver]. *)
Definition parse_semver (version : string) : list Z := map segment_number (split_char "." version).

(** Comparison of tuples of ints. *)
Fixpoint tuple_lt (a b : list Z) : bool :=
  match a, b with
  | _, [] => false
  | [], _ :: _ => true
  | x :: a', y :: b' => (x <? y)%Z || ((x =? y)%Z && tuple_lt a' b')
  end.

(** An entry of [action_routes]. *)
Record Route := MkRoute {
  rt_method : string;
  rt_path : string;
  rt_query_from_payload : list string;
  rt_header_from_payload : list string;
  rt_multipart : bool
}.

(** A value of [credential_mapping]: the name of a credential, or a table with its
    source, type and default, each of them optional. *)
Inductive source_spec :=
  | SpecField (field : string)
  | SpecTable (source : option string) (field_type : option string) (field_default : option pyval).

(** [credential_provisioning]; keys that are missing have the defaults of [no_provisioning]. *)
Record Provisioning := MkProvisioning {
  pv_mode : string;
  pv_mapping : list (string * source_spec);
  pv_account_endpoint : string;
  pv_payload_field : string;
  pv_inject_key : string
}.

(** [{}]: every key at the default the code gives it. *)
Definition no_provisioning : Provisioning :=
  MkProvisioning "none" [] "/accounts" "account_name" "credentials".

(** [payload_hints]: the fields to split into lists and the enumerations (the values
    and the default), by action. *)
Record enum_config := EnumConfig { enum_values : dict; enum_default : option pyval }.
Record Hints := MkHints {
  list_fields : list (string * list string);
  enum_fields : list (string * list (string * enum_config))
}.

Record ConnectorManifest := Manifest {
  m_name : string;
  m_category : string;
  m_version : string;
  m_display_name : string;
  m_description : string;
  m_interface : string;
  m_country : string;
  m_capabilities : list string;
  m_events : list string;
  m_actions : list string;
  m_config_required : list string;
  m_config_optional : list string;
  m_required_fields : list string;
  m_validation : dict;
  m_oauth2 : dict;
  m_webhooks : dict;
  m_rate_limits : pyval;
  m_service_name : string;
  m_status : string;
  m_action_routes : list (string * Route);
  m_provisioning : Provisioning;
  m_hints : Hints
}.

Definition connector_id (m : ConnectorManifest) : string :=
  m_category m ++ "/" ++ m_name m ++ "/" ++ m_version m.

Definition resolved_service_name (m : ConnectorManifest) : string :=
  if String.eqb (m_service_name m) "" then "connector-" ++ m_name m else m_service_name m.

Definition base_url (m : ConnectorManifest) : string :=
  "http://" ++ resolved_service_name m ++ ":8000".

Definition supports_oauth2 (m : ConnectorManifest) : bool :=
  truthy (PDict (m_oauth2 m)) || truthy (dget_or "oauth2" PNone (m_validation m)).

Definition has_webhooks (m : ConnectorManifest) : bool := truthy (PDict (m_webhooks m)).

Definition sandbox_available (m : ConnectorManifest) : bool :=
  let defaults := match dget_or "defaults" (PDict []) (m_validation m) with PDict d => d | _ => [] end in
  dhas "sandbox" (m_validation m) || truthy (dget_or "sandbox" PNone defaults)
  || truthy (dget_or "sandbox" PNone (m_oauth2 m))
  || existsb (String.eqb "sandbox_mode") (m_config_required m ++ m_config_optional m).

(** [auth_type]. *)
Definition auth_fields (m : ConnectorManifest) : list string :=
  map py_lower (m_required_fields m ++ m_config_required m ++ m_config_optional m).

Definition auth_type (m : ConnectorManifest) : string :=
  let has f := existsb (String.eqb f) (auth_fields m) in
  let equals k v := py_eqb (dget_or k PNone (m_validation m)) (PStr v) in
  if supports_oauth2 m then "oauth2"
  else if equals "validate_mode" "email_imap_smtp" then "email"
  else if equals "auth" "basic" || (has "username" && has "password") || (has "login" && has "password")
    then "basic"
  else if has "client_id" && has "client_secret" then "client_credentials"
  else if (has "username" || has "password") && has "access_token" then "hybrid"
  else if has "token" || has "api_key" || has "api_token" || has "access_token" || has "bot_token"
    then "token"
  else if has "consumer_key" && has "consumer_secret" then "api_key"
  else if has "sql_server" && has "sql_database" then "onpremise"
  else "custom".

(** ** The registry: manifests by connector id, in discovery order *)

Definition registry : Type := list (string * ConnectorManifest).

(** [discover] on the manifests found. *)
Definition discover (found : list ConnectorManifest) : registry :=
  dict_of (map (fun m => (connector_id m, m)) found).

Definition get_all (r : registry) : list ConnectorManifest := map snd r.
Definition get_by_category (r : registry) (category : string) : list ConnectorManifest :=
  List.filter (fun c => String.eqb (m_category c) category) (get_all r).
Definition get_by_name (r : registry) (name : string) : list ConnectorManifest :=
  List.filter (fun c => String.eqb (m_name c) name) (get_all r).
Definition get (r : registry) (id : string) : option ConnectorManifest := dget id r.

(** [max(candidates, key=_parse_semver)]: the first of the greatest. *)
Definition version_lt (a b : ConnectorManifest) : bool :=
  tuple_lt (parse_semver (m_version a)) (parse_semver (m_version b)).
Definition max_version (c : ConnectorManifest) (cs : list ConnectorManifest) : ConnectorManifest :=
  fold_left (fun best x => if version_lt best x then x else best) cs c.
Definition latest_of (cs : list ConnectorManifest) : option ConnectorManifest :=
  match cs with [] => None | c :: cs' => Some (max_version c cs') end.

(** [get_by_name_version]; an empty version asks for the latest. *)
Definition get_by_name_version (r : registry) (name : string) (version : option string)
  : option ConnectorManifest :=
  let candidates := get_by_name r name in
  match version with
  | None | Some EmptyString => latest_of candidates
  | Some v =>
      match List.find (fun c => String.eqb (m_version c) v) candidates with
      | Some c => Some c
      | None => latest_of candidates
      end
  end.

Definition get_latest (r : registry) (category name : string) : option ConnectorManifest :=
  latest_of (List.filter (fun c => String.eqb (m_category c) category && String.eqb (m_name c) name)
                         (get_all r)).

(** [search]: each criterion given narrows the result. *)
Record criteria := Criteria {
  q_category : string; q_interface : string; q_capability : string; q_event : string;
  q_action : string; q_country : string; q_text : string; q_auth_type : string; q_status : string;
  q_oauth2 : option bool; q_webhooks : option bool; q_sandbox : option bool
}.

Definition if_given (s : string) (p : ConnectorManifest -> bool) (c : ConnectorManifest) : bool :=
  String.eqb s "" || p c.
Definition if_some (o : option bool) (p : ConnectorManifest -> bool) (c : ConnectorManifest) : bool :=
  match o with Some b => Bool.eqb (p c) b | None => true end.

Definition matches_text (needle : string) (c : ConnectorManifest) : bool :=
  existsb (fun s => str_contains needle (py_lower s))
    ([m_name c; m_display_name c; m_description c; m_category c; m_interface c; m_country c]
     ++ m_capabilities c ++ m_events c ++ m_actions c).

Definition search (r : registry) (q : criteria) : list ConnectorManifest :=
  let narrow p l := List.filter p l in
  narrow (fun c => let needle := py_lower (py_strip (q_text q)) in
                   String.eqb (q_text q) "" || String.eqb needle "" || matches_text needle c)
  (narrow (if_some (q_sandbox q) sandbox_available)
  (narrow (if_some (q_webhooks q) has_webhooks)
  (narrow (if_some (q_oauth2 q) supports_oauth2)
  (narrow (if_given (q_status q) (fun c => String.eqb (m_status c) (q_status q)))
  (narrow (if_given (q_auth_type q) (fun c => String.eqb (auth_type c) (q_auth_type q)))
  (narrow (if_given (q_country q) (fun c => String.eqb (m_country c) (q_country q)))
  (narrow (if_given (q_action q) (fun c => existsb (String.eqb (q_action q)) (m_actions c)))
  (narrow (if_given (q_event q) (fun c => existsb (String.eqb (q_event q)) (m_events c)))
  (narrow (if_given (q_capability q) (fun c => existsb (String.eqb (q_capability q)) (m_capabilities c)))
  (narrow (if_given (q_interface q) (fun c => String.eqb (m_interface c) (q_interface q)))
  (narrow (if_given (q_category q) (fun c => String.eqb (m_category c) (q_category q)))
    (get_all r)))))))))))).

(** ** Facts *)

Lemma tuple_lt_irrefl a : tuple_lt a a = false.
Proof. induction a as [|x a IH]; cbn; [done|]. by rewrite Z.ltb_irrefl, Z.eqb_refl, IH. Qed.

Lemma tuple_lt_cons x a y b :
  tuple_lt (x :: a) (y :: b) = true <-> (x < y)%Z \/ (x = y /\ tuple_lt a b = true).
Proof.
  cbn [tuple_lt]. rewrite orb_true_iff, andb_true_iff, Z.ltb_lt, Z.eqb_eq. done.
Qed.

(** [>=] on tuples is transitive. *)
Lemma tuple_ge_trans a b c : tuple_lt b a = false -> tuple_lt c b = false -> tuple_lt c a = false.
Proof.
  revert b c. induction a as [|x a IH]; intros b c H1 H2; [by destruct c|].
  destruct b as [|y b]; [done|]. destruct c as [|z c]; [done|].
  apply not_true_iff_false in H1, H2. apply not_true_iff_false.
  rewrite tuple_lt_cons in *. intros [Hzx|[-> Hca]].
  - destruct (Z.lt_trichotomy z y) as [?|[->|?]]; [tauto| |lia].
    destruct (Z.lt_trichotomy y x) as [?|[->|?]]; [tauto|lia|lia].
  - destruct (Z.lt_trichotomy x y) as [?|[->|?]]; [tauto| |tauto].
    enough (tuple_lt c a = false) by congruence.
    apply (IH b c); apply not_true_iff_false; tauto.
Qed.

Lemma max_version_spec c cs :
  (max_version c cs = c \/ max_version c cs ∈ cs)
  /\ version_lt (max_version c cs) c = false
  /\ (forall x, x ∈ cs -> version_lt (max_version c cs) x = false).
Proof.
  unfold max_version, version_lt. revert c. induction cs as [|y cs IH]; intros c; cbn [fold_left].
  - split; [by left|]. split; [apply tuple_lt_irrefl|]. intros x Hx. by apply not_elem_of_nil in Hx.
  - set (best := if tuple_lt _ _ then y else c).
    destruct (IH best) as (Hin & Hb & Hall). split; [|split].
    + destruct Hin as [->|Hin]; [|right; by right]. unfold best.
      destruct (tuple_lt _ _); [right; left|by left].
    + assert (Hbc : tuple_lt (parse_semver (m_version best)) (parse_semver (m_version c)) = false).
      { unfold best. destruct (tuple_lt (parse_semver (m_version c)) (parse_semver (m_version y))) eqn:E;
          [|apply tuple_lt_irrefl]. apply not_true_iff_false. intros H.
        enough (tuple_lt (parse_semver (m_version c)) (parse_semver (m_version c)) = true)
          by (by rewrite tuple_lt_irrefl in *).
        revert E H. generalize (parse_semver (m_version c)) (parse_semver (m_version y)). clear.
        induction l as [|x l IH]; intros [|y m]; try done. rewrite !tuple_lt_cons.
        intros [?|[-> ?]] [?|[? ?]]; try (left; lia); try lia. right. split; [done|]. by apply (IH m). }
      eapply tuple_ge_trans; [exact Hbc|exact Hb].
    + intros x [->|Hx]%elem_of_cons; [|by apply Hall].
      assert (Hby : tuple_lt (parse_semver (m_version best)) (parse_semver (m_version y)) = false).
      { unfold best. destruct (tuple_lt (parse_semver (m_version c)) (parse_semver (m_version y))) eqn:E;
          [apply tuple_lt_irrefl|done]. }
      eapply tuple_ge_trans; [exact Hby|exact Hb].
Qed.

Lemma latest_of_spec cs m :
  latest_of cs = Some m -> m ∈ cs /\ forall x, x ∈ cs -> version_lt m x = false.
Proof.
  destruct cs as [|c cs]; [done|]. intros [= <-].
  destruct (max_version_spec c cs) as (Hin & Hc & Hall). split.
  - destruct Hin as [->|Hin]; [left|by right].
  - intros x [->|Hx]%elem_of_cons; [done|by apply Hall].
Qed.

(** ** Properties *)

(** Asking for a connector by name and version gives a connector of that name:
    the requested version when it is installed, and otherwise - also when another
    version was asked for - one that no installed version of the connector exceeds
    in the numeric order of versions. *)
Theorem get_by_name_version_spec r name version m :
  get_by_name_version r name version = Some m ->
  m ∈ get_by_name r name
  /\ ((exists v, version = Some v /\ m_version m = v)
      \/ forall x, x ∈ get_by_name r name -> version_lt m x = false).
Proof.
  unfold get_by_name_version. intros H.
  assert (Hl : latest_of (get_by_name r name) = Some m ->
    m ∈ get_by_name r name /\ ((exists v, version = Some v /\ m_version m = v)
      \/ forall x, x ∈ get_by_name r name -> version_lt m x = false)).
  { intros [Hin Hmax]%latest_of_spec. split; [done|by right]. }
  destruct version as [[|a v]|]; [by apply Hl| |by apply Hl].
  destruct (List.find _ _) as [c|] eqn:E; [|by apply Hl].
  injection H as <-. apply find_some in E as [Hin Hv]. apply String.eqb_eq in Hv.
  split; [by apply list_elem_of_In|]. left. eauto.
Qed.

Definition demo_manifest (version : string) : ConnectorManifest :=
  Manifest "dhl" "courier" version "DHL" "" "courier" "PL" [] [] [] [] [] [] [] [] [] (PDict []) "" "stable" [] no_provisioning (MkHints [] []).

Lemma get_by_name_version_spec_witness :
  let r := discover [demo_manifest "2.0.0"; demo_manifest "10.1.0"; demo_manifest "9.9.9"] in
  exists m, get_by_name_version r "dhl" (Some "3.0.0") = Some m /\ m_version m = "10.1.0"
    /\ m ∈ get_by_name r "dhl".
Proof.
  intros r. eexists. split; [vm_compute; reflexivity|]. split; [reflexivity|].
  exact (proj1 (get_by_name_version_spec r "dhl" (Some "3.0.0") (demo_manifest "10.1.0") eq_refl)).
Defined.
