(* ===== verification/RateLimiter.v ===== *)
(** The per-connector token bucket: [platform/core/connector_rate_limiter.py].  Redis
    is an interface, the class [Redis]; times and tokens are rational numbers, so
    the rounding of floats is not modelled.  A check reads the bucket and writes it
    back in two separate exchanges with Redis. *)

From Stdlib Require Import QArith Qround Qminmax Lqa Sorted.
From S2P Require Import Prelude PyText PyValue Registry.

Local Open Scope string_scope.

Record RateLimitConfig := RateConfig { requests : Z; window_seconds : Z }.

Record RateLimitResult := RateResult {
  allowed : bool;
  remaining : Z;
  retry_after : option Q;
  limit : Z;
  result_window : Z
}.

(** ** Rates such as [100/min] *)

(** [_UNIT_SECONDS]. *)
Definition UNIT_SECONDS (unit : string) : option Z :=
  dget unit [("s", 1%Z); ("sec", 1%Z); ("min", 60%Z); ("h", 3600%Z); ("hour", 3600%Z)].

(** [_RATE_PATTERN] on a stripped text: digits, a slash between blanks, a unit. *)
Definition match_rate (text : string) : option (string * string) :=
  let count := leading_digits text in
  match lstrip_by is_space (str_drop (String.length count) text) with
  | String c rest =>
      let unit := py_lower (lstrip_by is_space rest) in
      if negb (String.eqb count "") && Ascii.eqb c "/"
         && match UNIT_SECONDS unit with Some _ => true | None => false end
      then Some (count, unit) else None
  | EmptyString => None
  end.

(** [_parse_rate]. *)
Definition parse_rate (rate : pyval) : res RateLimitConfig :=
  rate_str ← str_method "strip" rate;
  match match_rate (py_strip rate_str) with
  | None => Raise (ValueError ("Invalid rate format '" ++ rate_str
                     ++ "', expected e.g. '100/min', '30/s', '5000/h'"))
  | Some (count, unit) =>
      Ok (RateConfig (default 0%Z (parse_int count)) (default 0%Z (UNIT_SECONDS unit)))
  end.

Definition is_value_error (e : pyexn) : bool :=
  match e with ValueError _ => true | _ => false end.

(** ** The limiter *)

Record limiter := Limiter {
  l_registry : option registry;
  l_enabled : bool;
  l_default : RateLimitConfig
}.

(** One configured rate; an invalid one is passed over. *)
Definition configured_rate (rate : pyval) (otherwise : res RateLimitConfig) : res RateLimitConfig :=
  if truthy rate then catch (parse_rate rate) is_value_error otherwise else otherwise.

(** [_get_limits]. *)
Definition get_limits (l : limiter) (name : string) (action version : option string)
  : res RateLimitConfig :=
  match l_registry l with
  | None => Ok (l_default l)
  | Some reg =>
      match get_by_name_version reg name version with
      | None => Ok (l_default l)
      | Some manifest =>
          let rate_limits := m_rate_limits manifest in
          if negb (truthy rate_limits) then Ok (l_default l)
          else
            let global :=
              limits ← dict_method "get" rate_limits;
              configured_rate (dget_or "global" PNone limits) (Ok (l_default l)) in
            match action with
            | None | Some EmptyString => global
            | Some act =>
                limits ← dict_method "get" rate_limits;
                per_action ← dict_method "get" (dget_or "per_action" (PDict []) limits);
                configured_rate (dget_or act PNone per_action) global
            end
      end
  end.

(** What the limiter relies on of Redis: [SET key v EX] makes [GET key] give [v]
    until the expiry time and nothing afterwards, and touches no other key. *)
Class Redis (store : Type) := {
  redis_get : Q -> string -> store -> option Q;
  redis_set : string -> Q -> Q -> store -> store;
  redis_get_set_eq : forall now k v expires s,
    redis_get now k (redis_set k v expires s) = if Qle_bool expires now then None else Some v;
  redis_get_set_ne : forall now k k' v expires s,
    k <> k' -> redis_get now k (redis_set k' v expires s) = redis_get now k s
}.

Section limiter.
Context {store : Type} `{Redis store}.

Definition or_default (o : option string) (s : string) : string :=
  match o with None | Some EmptyString => s | Some x => x end.

(** [bucket_key]. *)
Definition bucket_key (name : string) (action tenant version : option string) : string :=
  "rate_limit:" ++ name ++ ":" ++ or_default version "latest" ++ ":" ++ or_default action "global"
  ++ ":" ++ or_default tenant "shared".
Definition tokens_key (bucket : string) : string := bucket ++ ":tokens".
Definition last_key (bucket : string) : string := bucket ++ ":last".

(** [redis.mget(tokens_key, last_key)]. *)
Definition read_bucket (now : Q) (bucket : string) (redis : store) : option Q * option Q :=
  (redis_get now (tokens_key bucket) redis, redis_get now (last_key bucket) redis).

Definition refill_rate (cfg : RateLimitConfig) : Q :=
  (inject_Z (requests cfg) / inject_Z (window_seconds cfg))%Q.

(** The tokens of a bucket once refilled. *)
Definition refilled (cfg : RateLimitConfig) (now : Q) (read : option Q * option Q) : Q :=
  let tokens := default (inject_Z (requests cfg)) read.1 in
  let last_refill := default now read.2 in
  Qmin (inject_Z (requests cfg)) (tokens + Qmax 0 (now - last_refill) * refill_rate cfg)%Q.

(** [round(x, 2)], ties to even. *)
Definition round2 (x : Q) : Q :=
  let y := (x * 100)%Q in
  let down := Qfloor y in
  let n := match Qcompare (y - inject_Z down)%Q (1 # 2) with
           | Lt => down
           | Gt => (down + 1)%Z
           | Eq => if Z.even down then down else (down + 1)%Z
           end in
  (inject_Z n / 100)%Q.

(** The verdict and the tokens left. *)
Definition decide_tokens (cfg : RateLimitConfig) (now : Q) (read : option Q * option Q)
  : res (RateLimitResult * Q) :=
  if Z.eqb (window_seconds cfg) 0 then Raise (ZeroDivisionError "division by zero")
  else
    let tokens := refilled cfg now read in
    if Qle_bool 1 tokens then
      Ok (RateResult true (Z.max 0 (Qfloor (tokens - 1))) None (requests cfg) (window_seconds cfg),
          (tokens - 1)%Q)
    else if Z.eqb (requests cfg) 0 then Raise (ZeroDivisionError "float division by zero")
    else
      Ok (RateResult false 0 (Some (Qmax (round2 ((1 - tokens) / refill_rate cfg)) (1 # 10)))
            (requests cfg) (window_seconds cfg), tokens).

(** The pipeline of two [set]s with [ex=window_seconds * 2]. *)
Definition write_bucket (cfg : RateLimitConfig) (now tokens : Q) (bucket : string) (redis : store) : store :=
  let expires := (now + inject_Z (window_seconds cfg * 2))%Q in
  redis_set (last_key bucket) now expires (redis_set (tokens_key bucket) tokens expires redis).

(** [check] with no other check in between. *)
Definition check (l : limiter) (name : string) (action tenant version : option string)
    (now : Q) (redis : store) : res (RateLimitResult * store) :=
  cfg ← get_limits l name action version;
  if negb (l_enabled l) then
    Ok (RateResult true (requests cfg) None (requests cfg) (window_seconds cfg), redis)
  else
    let bucket := bucket_key name action tenant version in
    '(result, tokens) ← decide_tokens cfg now (read_bucket now bucket redis);
    Ok (result, write_bucket cfg now tokens bucket redis).

(** [wait_if_needed]: the result, the seconds slept and Redis. *)
Definition wait_if_needed (l : limiter) (name : string) (action tenant version : option string)
    (now : Q) (redis : store) : res (RateLimitResult * Q * store) :=
  '(result, redis1) ← check l name action tenant version now redis;
  if allowed result then Ok (result, 0%Q, redis1)
  else
    let wait := Qmin (match retry_after result with
                      | Some r => if Qeq_bool r 0 then 1 else r
                      | None => 1
                      end) 30 in
    '(result2, redis2) ← check l name action tenant version (now + wait)%Q redis1;
    Ok (result2, wait, redis2).

(** The checks of one caller, at the given times: how many were allowed. *)
Fixpoint run_checks (l : limiter) (name : string) (action tenant version : option string)
    (times : list Q) (redis : store) : res (Z * store) :=
  match times with
  | [] => Ok (0%Z, redis)
  | now :: times' =>
      '(result, redis1) ← check l name action tenant version now redis;
      '(n, redis2) ← run_checks l name action tenant version times' redis1;
      Ok (((if allowed result then 1 else 0) + n)%Z, redis2)
  end.

(** Checks that overlap: all of them read before any of them writes. *)
Definition overlapping_checks (cfg : RateLimitConfig) (now : Q) (bucket : string) (n : nat)
    (redis : store) : res (list bool * store) :=
  let reads := repeat (read_bucket now bucket redis) n in
  decisions ← mapR (decide_tokens cfg now) reads;
  Ok (map (fun d => allowed d.1) decisions,
      fold_left (fun r d => write_bucket cfg now d.2 bucket r) decisions redis).

(** ** The bucket's bookkeeping *)

Definition fresh (bucket : string) (redis : store) : Prop :=
  forall now, read_bucket now bucket redis = (None, None).

(** The bucket was last written at [t] with [x] tokens, or never. *)
Definition bucket_at (cfg : RateLimitConfig) (bucket : string) (t x : Q) (redis : store) : Prop :=
  (0 <= x)%Q /\ forall now, read_bucket now bucket redis =
    if Qle_bool (t + inject_Z (window_seconds cfg * 2))%Q now then (None, None) else (Some x, Some t).

Definition cfg_ok (cfg : RateLimitConfig) : Prop :=
  (0 < requests cfg)%Z /\ (0 < window_seconds cfg)%Z.

Lemma tokens_last_ne bucket : tokens_key bucket <> last_key bucket.
Proof.
  unfold tokens_key, last_key. induction bucket as [|c b IH]; [discriminate|].
  intros [= E]. by apply IH.
Qed.

Lemma write_bucket_at cfg now x bucket redis :
  (0 <= x)%Q -> bucket_at cfg bucket now x (write_bucket cfg now x bucket redis).
Proof.
  intros Hx. split; [done|]. intros later. unfold read_bucket, write_bucket.
  rewrite redis_get_set_ne by apply tokens_last_ne. rewrite !redis_get_set_eq.
  by destruct (Qle_bool _ _).
Qed.

Lemma refill_rate_pos cfg : cfg_ok cfg -> (0 < refill_rate cfg)%Q.
Proof.
  intros [H1 H2]. unfold refill_rate. apply Qlt_shift_div_l.
  - change 0%Q with (inject_Z 0). by rewrite <-Zlt_Qlt.
  - rewrite Qmult_0_l. change 0%Q with (inject_Z 0). by rewrite <-Zlt_Qlt.
Qed.

Lemma requests_pos cfg : cfg_ok cfg -> (0 < inject_Z (requests cfg))%Q.
Proof. intros [H1 H2]. change 0%Q with (inject_Z 0). by rewrite <-Zlt_Qlt. Qed.

(** Two windows refill a bucket twice over. *)
Lemma refill_two_windows cfg :
  cfg_ok cfg -> (refill_rate cfg * inject_Z (window_seconds cfg * 2) == 2 * inject_Z (requests cfg))%Q.
Proof.
  intros [H1 H2]. unfold refill_rate. rewrite inject_Z_mult.
  change (inject_Z 2) with 2%Q. field.
  intros E. change 0%Q with (inject_Z 0) in E. apply (proj1 (inject_Z_injective _ _)) in E. lia.
Qed.

Lemma refilled_bounds cfg now read :
  cfg_ok cfg -> (forall x, read.1 = Some x -> 0 <= x)%Q ->
  (0 <= refilled cfg now read <= inject_Z (requests cfg))%Q.
Proof.
  intros Hc Hx. pose proof (requests_pos cfg Hc). pose proof (refill_rate_pos cfg Hc).
  unfold refilled. split; [|apply Q.le_min_l].
  apply Q.min_glb; [lra|].
  assert (0 <= Qmax 0 (now - default now read.2))%Q by apply Q.le_max_l.
  assert (0 <= default (inject_Z (requests cfg)) read.1)%Q.
  { destruct (read.1) as [x|] eqn:E; cbn; [by apply Hx|lra]. }
  nra.
Qed.

Lemma refilled_growth cfg bucket t x now redis :
  cfg_ok cfg -> bucket_at cfg bucket t x redis -> (t <= now)%Q ->
  (refilled cfg now (read_bucket now bucket redis) <= x + refill_rate cfg * (now - t))%Q.
Proof.
  intros Hc [Hx Hread] Ht. rewrite Hread.
  pose proof (refill_rate_pos cfg Hc) as Hr. pose proof (refill_two_windows cfg Hc) as H2.
  pose proof (requests_pos cfg Hc) as HR.
  destruct (Qle_bool _ _) eqn:E; unfold refilled; cbn [fst snd default from_option id].
  - apply Qle_bool_iff in E. eapply Qle_trans; [apply Q.le_min_l|].
    assert (refill_rate cfg * inject_Z (window_seconds cfg * 2) <= refill_rate cfg * (now - t))%Q
      by (apply Qmult_le_l; lra).
    lra.
  - eapply Qle_trans; [apply Q.le_min_r|]. rewrite Q.max_r by lra. lra.
Qed.

Lemma bucket_read_nonneg cfg bucket t x redis now y :
  bucket_at cfg bucket t x redis -> (read_bucket now bucket redis).1 = Some y -> (0 <= y)%Q.
Proof. intros [Hx ->]. destruct (Qle_bool _ _); [done|]. by intros [= <-]. Qed.

(** One check spends what it allows. *)
Lemma check_spends l name action tenant version cfg now redis :
  l_enabled l = true -> get_limits l name action version = Ok cfg -> cfg_ok cfg ->
  let bucket := bucket_key name action tenant version in
  (forall y, (read_bucket now bucket redis).1 = Some y -> 0 <= y)%Q ->
  exists result x redis', check l name action tenant version now redis = Ok (result, redis')
    /\ bucket_at cfg bucket now x redis'
    /\ (inject_Z (if allowed result then 1 else 0) + x
        == refilled cfg now (read_bucket now bucket redis))%Q.
Proof.
  intros He Hl Hc bucket Hy.
  destruct (refilled_bounds cfg now (read_bucket now bucket redis) Hc Hy) as [Hlo _].
  unfold check. rewrite Hl, He. cbn [mbind res_bind negb]. fold bucket.
  unfold decide_tokens. destruct Hc as [Hq Hw].
  destruct (Z.eqb_spec (window_seconds cfg) 0) as [|_]; [lia|].
  destruct (Z.eqb_spec (requests cfg) 0) as [|_]; [lia|].
  set (v := refilled _ _ _) in *. destruct (Qle_bool 1 v) eqn:E; cbn [mbind res_bind].
  - apply Qle_bool_iff in E. eexists _, (v - 1)%Q, _. split; [reflexivity|]. split.
    + apply write_bucket_at. lra.
    + cbn [allowed]. change (inject_Z 1) with 1%Q. lra.
  - eexists _, v, _. split; [reflexivity|]. split; [by apply write_bucket_at|].
    cbn [allowed]. change (inject_Z 0) with 0%Q. lra.
Qed.

Lemma run_checks_cons l name action tenant version now times redis :
  run_checks l name action tenant version (now :: times) redis =
  ('(result, redis1) ← check l name action tenant version now redis;
   '(n, redis2) ← run_checks l name action tenant version times redis1;
   Ok (((if allowed result then 1 else 0) + n)%Z, redis2)).
Proof. done. Qed.

Lemma last_cons_default {A} (l : list A) (x y : A) : List.last (x :: l) y = List.last l x.
Proof.
  revert x y. induction l as [|z l IH]; intros x y; [done|].
  change (List.last (x :: z :: l) y) with (List.last (z :: l) y). by rewrite !IH.
Qed.

(** A run of checks allows no more than the bucket holds and gains meanwhile. *)
Lemma run_checks_bound l name action tenant version cfg times : forall now redis,
  l_enabled l = true -> get_limits l name action version = Ok cfg -> cfg_ok cfg ->
  let bucket := bucket_key name action tenant version in
  (forall y, (read_bucket now bucket redis).1 = Some y -> 0 <= y)%Q ->
  Sorted Qle (now :: times) ->
  exists n redis', run_checks l name action tenant version (now :: times) redis = Ok (n, redis')
    /\ (inject_Z n <= refilled cfg now (read_bucket now bucket redis)
                      + refill_rate cfg * (List.last times now - now))%Q.
Proof.
  induction times as [|next times IH]; intros now redis He Hl Hc bucket Hy Hs;
    destruct (check_spends l name action tenant version cfg now redis He Hl Hc Hy)
      as (result & x & redis' & Hcheck & Hb & Hspend); fold bucket in Hb, Hspend;
    rewrite run_checks_cons, Hcheck; cbn [mbind res_bind].
  - eexists _, _. split; [reflexivity|]. destruct Hb as [Hx _]. cbn [List.last].
    rewrite inject_Z_plus. change (inject_Z 0) with 0%Q in *. lra.
  - inversion Hs as [|? ? Hs' Hhd]; subst. inversion Hhd as [|? ? Hle]; subst.
    destruct (IH next redis' He Hl Hc (fun y => bucket_read_nonneg _ _ _ _ _ _ y Hb) Hs')
      as (n & redis2 & Hrun & Hn). fold bucket in Hn.
    rewrite Hrun. cbn [mbind res_bind]. eexists _, _. split; [reflexivity|].
    pose proof (refilled_growth cfg bucket now x next redis' Hc Hb Hle) as Hg.
    rewrite inject_Z_plus. rewrite last_cons_default. lra.
Qed.

Lemma overlapping_all_allowed cfg now bucket n redis :
  cfg_ok cfg -> fresh bucket redis ->
  exists r, mapR (decide_tokens cfg now) (repeat (read_bucket now bucket redis) n)
              = Ok (repeat r n) /\ allowed r.1 = true.
Proof.
  intros [Hq Hw] Hf. rewrite Hf.
  assert (Hd : exists r, decide_tokens cfg now (None, None) = Ok r /\ allowed r.1 = true).
  { unfold decide_tokens, refilled. cbn [fst snd default from_option id].
    destruct (Z.eqb_spec (window_seconds cfg) 0) as [|_]; [lia|].
    replace (Qle_bool 1 _) with true; [eauto|].
    symmetry. apply Qle_bool_iff. assert (1 <= inject_Z (requests cfg))%Q.
    { change 1%Q with (inject_Z 1). rewrite <-Zle_Qle. lia. }
    apply Q.min_glb; [done|]. pose proof (refill_rate_pos cfg (conj Hq Hw)).
    assert (0 <= Qmax 0 (now - now))%Q by apply Q.le_max_l. nra. }
  destruct Hd as (r & Hr & Ha). exists r. split; [|done].
  induction n as [|n IH]; [done|]. cbn [repeat mapR]. rewrite Hr. cbn [mbind res_bind]. by rewrite IH.
Qed.

Lemma run_checks_fresh l name action tenant version cfg now times redis :
  l_enabled l = true -> get_limits l name action version = Ok cfg -> cfg_ok cfg ->
  fresh (bucket_key name action tenant version) redis -> Sorted Qle (now :: times) ->
  exists n redis', run_checks l name action tenant version (now :: times) redis = Ok (n, redis')
    /\ (inject_Z n <= inject_Z (requests cfg) + refill_rate cfg * (List.last times now - now))%Q.
Proof.
  intros He Hl Hc Hf Hs.
  assert (Hy : forall y, (read_bucket now (bucket_key name action tenant version) redis).1 = Some y
                         -> (0 <= y)%Q) by (by rewrite Hf).
  destruct (run_checks_bound l name action tenant version cfg times now redis He Hl Hc Hy Hs)
    as (n & redis' & Hrun & Hn).
  exists n, redis'. split; [done|].
  destruct (refilled_bounds cfg now (read_bucket now (bucket_key name action tenant version) redis) Hc Hy).
  lra.
Qed.

(** ** Properties *)

(** Checks made one after the other on a fresh bucket allow at most [requests]
    calls plus those the elapsed time refills, whatever their times; the expiry of
    the keys after two windows never makes room for more, and no check raises. *)
Theorem rate_limit_respected l name action tenant version cfg now times redis :
  l_enabled l = true -> get_limits l name action version = Ok cfg -> cfg_ok cfg ->
  fresh (bucket_key name action tenant version) redis -> Sorted Qle (now :: times) ->
  exists n redis', run_checks l name action tenant version (now :: times) redis = Ok (n, redis')
    /\ (inject_Z n <= inject_Z (requests cfg) + refill_rate cfg * (List.last times now - now))%Q.
Proof. apply run_checks_fresh. Qed.

(** Checks that overlap are not limited: any number of them that read the bucket
    before one of them writes it back are all allowed, although the limit may be a
    single request. *)
Theorem overlapping_checks_unlimited cfg now bucket n redis :
  cfg_ok cfg -> fresh bucket redis ->
  exists redis', overlapping_checks cfg now bucket n redis = Ok (repeat true n, redis').
Proof.
  intros Hc Hf. destruct (overlapping_all_allowed cfg now bucket n redis Hc Hf) as (r & Hr & Ha).
  unfold overlapping_checks. rewrite Hr. cbn [mbind res_bind]. eexists. f_equal. f_equal.
  rewrite map_repeat. by rewrite Ha.
Qed.

End limiter.

(** ** A Redis for the examples: a list of keys *)

Definition demo_store : Type := list (string * (Q * Q)).

#[export] Program Instance demo_redis : Redis demo_store := {
  redis_get now key s :=
    match dget key s with
    | Some (v, expires) => if Qle_bool expires now then None else Some v
    | None => None
    end;
  redis_set key v expires s := dset key (v, expires) s
}.
Next Obligation. intros. cbn. by rewrite dget_dset_eq. Qed.
Next Obligation. intros. cbn. by rewrite dget_dset_ne. Qed.

Definition demo_limiter : limiter :=
  Limiter (Some (discover [
    Manifest "dhl" "courier" "1.0.0" "DHL" "" "courier" "PL" [] [] [] [] [] [] [] [] []
      (PDict [("global", PStr "2/min"); ("per_action", PDict [("track", PStr " 3 / Sec ")])]) "" "stable"
      [] no_provisioning (MkHints [] [])]))
    true (RateConfig 600 60).

Lemma rate_limit_respected_witness :
  let times := [1; 2; 3; 40]%Q in
  exists n redis', run_checks demo_limiter "dhl" None None None (0%Q :: times) ([] : demo_store) = Ok (n, redis')
    /\ n = 3%Z /\ (inject_Z n <= 2 + (2 / 60) * (40 - 0))%Q.
Proof.
  intros times.
  destruct (rate_limit_respected demo_limiter "dhl" None None None (RateConfig 2 60) 0 times
              ([] : demo_store)) as (n & redis' & Hrun & Hn).
  - reflexivity.
  - vm_compute. reflexivity.
  - split; reflexivity.
  - intros now. reflexivity.
  - repeat constructor; discriminate.
  - exists n, redis'. split; [exact Hrun|]. split; [|exact Hn].
    assert (E : (fst <$> run_checks demo_limiter "dhl" None None None (0%Q :: times) ([] : demo_store)) = Ok n)
      by (rewrite Hrun; reflexivity).
    vm_compute in E. by injection E as <-.
Defined.

Lemma overlapping_checks_unlimited_witness :
  exists redis', overlapping_checks (RateConfig 1 60) 5 "rate_limit:dhl" 3 ([] : demo_store)
    = Ok ([true; true; true], redis').
Proof.
  apply (overlapping_checks_unlimited (RateConfig 1 60) 5 "rate_limit:dhl" 3 ([] : demo_store)).
  - split; reflexivity.
  - intros now. reflexivity.
Defined.

(** A limit of zero requests makes every check raise. *)
Example zero_rate_raises :
  decide_tokens (RateConfig 0 60) 5 (None, None) = Raise (ZeroDivisionError "float division by zero").
Proof. reflexivity. Qed.

Example parse_rate_examples :
  parse_rate (PStr " 100 /min ") = Ok (RateConfig 100 60)
  /\ parse_rate (PStr "30/S") = Ok (RateConfig 30 1)
  /\ parse_rate (PStr "5000/Hour") = Ok (RateConfig 5000 3600)
  /\ parse_rate (PStr "10/day")
     = Raise (ValueError "Invalid rate format '10/day', expected e.g. '100/min', '30/s', '5000/h'").
Proof. repeat split. Qed.
