(* ===== verification/Dispatcher.v ===== *)
(** The action dispatcher: [platform/core/action_dispatcher.py].  Everything it does
    is driven by the manifest of the connector: the URL of an action, the
    provisioning of credentials, the coercion of the payload.  The HTTP services
    answer through an oracle on the history of the requests; manifests are typed
    as in [Registry]. *)

From Stdlib Require Import QArith.
From S2P Require Import Prelude PyText PyFloat PyValue Base64 Json Regex Registry RateLimiter.

Local Open Scope string_scope.

(** ** URLs *)

(** [_CONNECTOR_NAME_RE]. *)
Definition name_char (c : ascii) : bool := is_lower c || is_digit c.
Definition CONNECTOR_NAME_RE : re :=
  RSeq (RChar name_char)
       (RSeq (RRep (RChar (fun c => name_char c || Ascii.eqb c "-")) 0 (Some 62%nat) true) REnd).

(** [_resolve_service_url]. *)
Definition resolve_service_url (name : string) (reg : option registry) (version : option string)
  : res string :=
  if negb (re_match CONNECTOR_NAME_RE name) then
    Raise (ValueError ("Invalid connector_name: " ++ str_repr name))
  else
    match mbind (fun r => get_by_name_version r name version) reg with
    | Some manifest => Ok (base_url manifest)
    | None => Ok ("http://connector-" ++ name ++ ":8000")
    end.

(** [str.capitalize]. *)
Definition capitalize (s : string) : string :=
  match s with EmptyString => EmptyString | String c s' => String (upper_char c) (py_lower s') end.

(** [_field_to_header_name]. *)
Definition field_to_header_name (field : string) : string :=
  "X-" ++ str_join "-" (map capitalize (split_char "_" field)).

(** [urllib.parse.quote(s, safe='')]. *)
Definition unreserved (c : ascii) : bool :=
  is_alnum c || existsb (Ascii.eqb c) ["_"; "."; "-"; "~"]%char.
Definition quote_char (c : ascii) : string :=
  if unreserved c then str1 c else String "%" (py_upper (hex2 (code c))).
Fixpoint quote (s : string) : string :=
  match s with EmptyString => EmptyString | String c s' => quote_char c ++ quote s' end.

Definition placeholder_of (key : string) : string := "{" ++ key ++ "}".

(** The loop over the keys of the payload: path and remaining body. *)
Definition fill_path_key (st : string * dict) (key : string) : string * dict :=
  let '(path, body) := st in
  if str_contains (placeholder_of key) path
  then (py_replace path (placeholder_of key) (quote (py_str (dget_or key PNone body))), ddel key body)
  else st.
Definition fill_path (path : string) (payload : dict) : string * dict :=
  fold_left fill_path_key (dkeys payload) (path, payload).

(** The fields moved from the body to the query or to the headers: [None] is dropped. *)
Fixpoint move_fields (fields : list string) (body : dict) : list (string * pyval) * dict :=
  match fields with
  | [] => ([], body)
  | f :: fields' =>
      match dget f body with
      | None => move_fields fields' body
      | Some v =>
          let '(moved, rest) := move_fields fields' (ddel f body) in
          ((if is_none v then moved else (f, v) :: moved), rest)
      end
  end.

(** [_build_url]: URL, query parameters, extra headers and body. *)
Definition build_url (route : Route) (base : string) (payload : dict)
  : string * dict * list (string * string) * dict :=
  let '(path, body) := fill_path (rt_path route) payload in
  let '(query, body) := move_fields (rt_query_from_payload route) body in
  let '(headers, body) := move_fields (rt_header_from_payload route) body in
  (base ++ path, dict_of query,
   dict_of (map (fun kv => (field_to_header_name kv.1, py_str kv.2)) headers), body).

(** ** Payload coercion *)

Definition split_list_field (payload : dict) (field : string) : dict :=
  match dget field payload with
  | Some (PStr s) =>
      let value := py_strip s in
      let items :=
        if has_char "," value
        then map PStr (List.filter (fun v => negb (String.eqb v "")) (map py_strip (split_char "," value)))
        else if String.eqb value "" then [] else [PStr value] in
      dset field (PList items) payload
  | _ => payload
  end.

Definition map_enum_field (payload : dict) (fc : string * enum_config) : dict :=
  match dget fc.1 payload with
  | Some v =>
      let raw := py_lower (py_strip (py_str v)) in
      dset fc.1 (dget_or raw (default v (enum_default fc.2)) (enum_values fc.2)) payload
  | None => payload
  end.

(** [_coerce_payload]. *)
Definition coerce_payload (manifest : option ConnectorManifest) (action : string) (payload : dict) : dict :=
  match manifest with
  | None => payload
  | Some m =>
      let hints := m_hints m in
      fold_left map_enum_field (default [] (dget action (enum_fields hints)))
        (fold_left split_list_field (default [] (dget action (list_fields hints))) payload)
  end.

(** ** Credentials *)

Definition credentials_t : Type := list (string * string).
Definition credential (k : string) (creds : credentials_t) : string := default "" (dget k creds).

(** One entry of [_apply_credential_mapping]. *)
Definition account_value (creds : credentials_t) (target : string) (spec : source_spec) : pyval :=
  match spec with
  | SpecField field => PStr (credential field creds)
  | SpecTable source field_type field_default =>
      let raw := credential (default target source) creds in
      let dflt := default PNone field_default in
      if String.eqb raw "" && negb (is_none dflt) then dflt
      else if String.eqb (default "string" field_type) "integer" then
        if String.eqb raw "" then PNone
        else match parse_int raw with Some n => PInt n | None => dflt end
      else if String.eqb (default "string" field_type) "boolean" then
        PBool (existsb (String.eqb (py_lower raw)) ["true"; "1"; "yes"])
      else PStr raw
  end.

(** [_apply_credential_mapping]. *)
Definition apply_credential_mapping (creds : credentials_t) (mapping : list (string * source_spec)) : dict :=
  dict_of (map (fun kv => (kv.1, account_value creds kv.1 kv.2)) mapping).

(** [source_spec if isinstance(source_spec, str) else source_spec.get("source", key)]. *)
Definition source_field_of (target : string) (spec : source_spec) : string :=
  match spec with SpecField f => f | SpecTable source _ _ => default target source end.

(** The mode [inject]: the credentials present, under their targets, and all of them
    under [credentials] unless the payload has this key. *)
Definition inject_field (creds : credentials_t) (payload : dict) (kv : string * source_spec) : dict :=
  match dget (source_field_of kv.1 kv.2) creds with
  | Some v => dset kv.1 (PStr v) payload
  | None => payload
  end.
Definition inject_credentials (creds : credentials_t) (mapping : list (string * source_spec))
    (payload : dict) : dict :=
  let payload := fold_left (inject_field creds) mapping payload in
  if dhas "credentials" payload then payload
  else dset "credentials"
         (PDict (dict_of (map (fun kv => (kv.1, PStr (credential (source_field_of kv.1 kv.2) creds))) mapping)))
         payload.

(** The mode [inject_nested]. *)
Definition nested_value (creds : credentials_t) (target : string) (spec : source_spec) : pyval :=
  match spec with
  | SpecField f => PStr (credential f creds)
  | SpecTable source _ field_default =>
      let raw := credential (default target source) creds in
      if String.eqb raw "" then default (PStr "") field_default else PStr raw
  end.
Definition inject_nested (creds : credentials_t) (p : Provisioning) (payload : dict) : dict :=
  dset (pv_inject_key p)
    (PDict (dict_of (map (fun kv => (kv.1, nested_value creds kv.1 kv.2)) (pv_mapping p)))) payload.

(** ** Files: [_extract_file_from_payload] *)

(** The content and the name of the file, if one is found, and the body without it. *)
Definition extract_file (body : dict) : res (option (string * pyval) * dict) :=
  let rest := ddel "file" body in
  let file_data :=
    match dget "file" body with
    | Some (PList (x :: _)) => x
    | Some v => v
    | None => PNone
    end in
  match file_data with
  | PDict d =>
      let content := dget_or "content_base64" (PStr "") d in
      if truthy content then
        match content with
        | PStr s => bytes ← b64decode s;
                    Ok (Some (bytes, dget_or "filename" (PStr "document.pdf") d), rest)
        | _ => Raise (TypeError ("argument should be a bytes-like object or ASCII string, not '"
                                 ++ type_name content ++ "'"))
        end
      else Ok (None, rest)
  | PStr s =>
      match (if String.eqb s "" then Raise (ValueError "") else b64decode s) with
      | Ok bytes => Ok (Some (bytes, PStr "document.pdf"), rest)
      | Raise _ => Ok (None, rest)
      end
  | _ => Ok (None, rest)
  end.

(** The form fields sent with a file. *)
Definition form_field (kv : string * pyval) : option (string * string) :=
  if String.eqb kv.1 "file" || is_none kv.2 then None
  else Some (kv.1, match kv.2 with
                   | PList _ | PDict _ => json_text true false kv.2
                   | v => py_str v
                   end).
Definition form_fields (body : dict) : list (string * string) := omap (M:=list) form_field body.

(** ** Exchanges with the services *)

Record Request := MkRequest {
  rq_method : string;
  rq_url : string;
  rq_json : option pyval;
  rq_params : dict;
  rq_headers : list (string * string);
  rq_file : option (string * pyval);
  rq_form : list (string * string)
}.

(** What the dispatcher reads of a response; [rs_message] is the text of the
    [HTTPStatusError] that [raise_for_status] makes of it. *)
Record Response := MkResponse {
  rs_status : Z;
  rs_retry_after : string;
  rs_json : res pyval;
  rs_text : string;
  rs_message : string
}.

Inductive event := Sent (r : Request) | Slept (seconds : pyfloat).

Inductive failure :=
  | Raised (e : pyexn)
  | HTTPStatusError (message : string)
  | HTTPException429 (result : RateLimitResult).

(** The answer to a request, given everything that happened before it. *)
Definition server_t : Type := list event -> Request -> Response + failure.

Definition D (A : Type) : Type := list event -> (A + failure) * list event.
#[export] Instance D_ret : MRet D := fun A a log => (inl a, log).
#[export] Instance D_bind : MBind D := fun A B f m log =>
  match m log with
  | (inl a, log') => f a log'
  | (inr e, log') => (inr e, log')
  end.
Definition fail {A} (e : failure) : D A := fun log => (inr e, log).
Definition lift_res {A} (m : res A) : D A :=
  match m with Ok a => mret a | Raise e => fail (Raised e) end.
Definition sleep (seconds : pyfloat) : D unit := fun log => (inl tt, (log ++ [Slept seconds])%list).

(** [max] and [min] of floats: the first argument unless the second one is strictly
    beyond it. *)
Definition flt (a b : pyfloat) : bool := cmp_holds OpLt (num_cmp (PFloat a) (PFloat b)).
Definition py_fmax (a b : pyfloat) : pyfloat := if flt a b then b else a.
Definition py_fmin (a b : pyfloat) : pyfloat := if flt b a then b else a.

Definition seconds (n d : positive) : pyfloat := float_of_ratio false n d.

(** [_DEFAULT_RETRY_AFTER] and [_parse_retry_after]. *)
Definition DEFAULT_RETRY_AFTER : pyfloat := seconds 2 1.
Definition parse_retry_after (response : Response) : pyfloat :=
  let raw := rs_retry_after response in
  if String.eqb raw "" then DEFAULT_RETRY_AFTER
  else match py_float (PStr raw) with
       | Ok f => py_fmax (seconds 1 2) (py_fmin f (seconds 120 1))
       | Raise _ => DEFAULT_RETRY_AFTER
       end.

(** [_raise_for_status_with_body]. *)
Definition error_body (response : Response) : option string :=
  match rs_json response with
  | Ok parsed =>
      let detail := match parsed with PDict d => dget_or "detail" PNone d | _ => PNone end in
      Some (json_text false false (if is_none detail then parsed else detail))
  | Raise _ =>
      let text := py_strip (rs_text response) in
      if String.eqb text "" then None else Some (str_take 1000 text)
  end.
Definition raise_for_status_with_body (response : Response) : D unit :=
  if (200 <=? rs_status response)%Z && (rs_status response <=? 299)%Z then mret tt
  else fail (HTTPStatusError
    match error_body response with
    | Some body => rs_message response ++ ": " ++ body
    | None => rs_message response
    end).

Section Dispatcher.
Variable server : server_t.

Definition send (r : Request) : D Response := fun log =>
  match server log r with
  | inl response => (inl response, (log ++ [Sent r])%list)
  | inr e => (inr e, (log ++ [Sent r])%list)
  end.

(** [_execute_with_429_retry]: the request, then at most [n] repetitions. *)
Fixpoint attempts_429 (n : nat) (r : Request) : D Response :=
  response ← send r;
  match n with
  | O => mret response
  | S n' =>
      if negb (rs_status response =? 429)%Z then mret response
      else _ ← sleep (parse_retry_after response); attempts_429 n' r
  end.
Definition MAX_429_RETRIES : nat := 3.
Definition execute_with_429_retry : Request -> D Response := attempts_429 MAX_429_RETRIES.

(** The request of a method: GET and DELETE have no body, an unknown method is sent
    with POST. *)
Definition request_of (method url : string) (body : pyval) (params : dict)
    (headers : list (string * string)) : Request :=
  if String.eqb method "GET" || String.eqb method "DELETE"
  then MkRequest method url None params headers None []
  else if String.eqb method "PUT" || String.eqb method "PATCH"
  then MkRequest method url (Some body) params headers None []
  else MkRequest "POST" url (Some body) params headers None [].

Definition simple_request (method url : string) (body : option pyval) : Request :=
  MkRequest method url body [] [] None [].

(** The accounts a connector already knows. *)
Definition known_accounts (response : Response) : res (list pyval) :=
  if negb (rs_status response =? 200)%Z then Ok []
  else data ← rs_json response;
       Ok match data with
          | PList l => l
          | PDict d => match dget "accounts" d with Some (PList l) => l | _ => [] end
          | _ => []
          end.
Fixpoint any_account (name : string) (accounts : list pyval) : res bool :=
  match accounts with
  | [] => Ok false
  | acc :: accounts' =>
      d ← dict_method "get" acc;
      if py_eqb (dget_or "name" PNone d) (PStr name) then Ok true else any_account name accounts'
  end.

(** [_ensure_account_generic]. *)
Definition ensure_account_generic (base : string) (creds : credentials_t) (p : Provisioning)
    (force_update : bool) : D string :=
  let account_name := default "default" (dget "account_name" creds) in
  let account_payload := PDict (apply_credential_mapping creds (pv_mapping p)) in
  let url := base ++ pv_account_endpoint p in
  resp ← send (simple_request "GET" url None);
  existing ← lift_res (known_accounts resp);
  already_exists ← lift_res (any_account account_name existing);
  if (already_exists : bool) then
    if force_update then
      _ ← send (simple_request "PUT" (url ++ "/" ++ account_name) (Some account_payload));
      mret account_name
    else mret account_name
  else _ ← send (simple_request "POST" url (Some account_payload)); mret account_name.

(** [_provision_credentials]. *)
Definition provision_credentials (base : string) (payload : dict) (creds : credentials_t)
    (manifest : option ConnectorManifest) : D dict :=
  let p := match manifest with Some m => m_provisioning m | None => no_provisioning end in
  if String.eqb (pv_mode p) "account" then
    account_name ← ensure_account_generic base creds p false;
    mret (dset (pv_payload_field p) (PStr account_name) payload)
  else if String.eqb (pv_mode p) "inject" then mret (inject_credentials creds (pv_mapping p) payload)
  else if String.eqb (pv_mode p) "inject_nested" then mret (inject_nested creds p payload)
  else mret (if dhas "account_name" payload then payload
             else dset "account_name" (PStr (default "default" (dget "account_name" creds))) payload).

(** The request of a route that takes a file. *)
Definition multipart_request (connector action url : string) (query : dict)
    (headers : list (string * string)) (body : dict) : res Request :=
  '(file, rest) ← extract_file body;
  match file with
  | Some (bytes, filename) =>
      Ok (MkRequest "POST" url None query headers (Some (bytes, filename)) (form_fields rest))
  | None =>
      Raise (ValueError ("Action '" ++ action ++ "' on connector '" ++ connector ++ "' requires a "
        ++ "file attachment, but the provided 'file' field could not be "
        ++ "decoded. Expected a base64-encoded string or an object with "
        ++ "'content_base64' and 'filename' keys."))
  end.

(** The action of a connector without a route for it. *)
Definition dispatch_generic (base action : string) (payload : dict) : D pyval :=
  response ← execute_with_429_retry
               (simple_request "POST" (base ++ "/actions/" ++ action) (Some (PDict payload)));
  _ ← raise_for_status_with_body response;
  lift_res (rs_json response).

(** The action of a route. *)
Definition dispatch_route (connector action base : string) (route : Route) (payload : dict) : D pyval :=
  let '(url, query, headers, body) := build_url route base payload in
  if rt_multipart route && negb (dhas "file" body) then
    fail (Raised (ValueError ("Action '" ++ action ++ "' on connector '" ++ connector
      ++ "' requires a file attachment, but no 'file' field was found in the payload. "
      ++ "Ensure that the source node provides a file (e.g. an email "
      ++ "attachment) and that the field mapping maps it to the 'file' field.")))
  else
    request ← lift_res (if rt_multipart route
                        then multipart_request connector action url query headers body
                        else Ok (request_of (rt_method route) url (PDict body) query headers));
    response ← execute_with_429_retry request;
    _ ← raise_for_status_with_body response;
    match rs_json response with
    | Ok v => mret v
    | Raise _ => mret (PDict [("status", PStr "ok"); ("raw_response", PBool true);
                              ("status_code", PInt (rs_status response))])
    end.

(** [dispatch_action] after the limiter. *)
Definition dispatch_admitted (connector action : string) (payload : dict) (creds : credentials_t)
    (manifest : option ConnectorManifest) (base : string) : D pyval :=
  let route := mbind (fun m => dget action (m_action_routes m)) manifest in
  payload ← (match creds with [] => mret payload
             | _ => provision_credentials base payload creds manifest end);
  let payload := coerce_payload manifest action payload in
  match route with
  | None => dispatch_generic base action payload
  | Some r => dispatch_route connector action base r payload
  end.

(** [dispatch_action], with the limiter of [set_rate_limiter] and Redis at time
    [now]: the result, the exchanges and Redis. *)
Definition dispatch_action {store} `{Redis store} (limiter_ : option limiter) (now : Q) (redis : store)
    (connector action : string) (payload : dict) (tenant : string) (creds : credentials_t)
    (reg : option registry) (version : option string) (log : list event)
  : (pyval + failure) * list event * store :=
  let manifest := mbind (fun r => get_by_name_version r connector version) reg in
  match (match manifest with
         | Some m => Ok (base_url m)
         | None => resolve_service_url connector reg version
         end) with
  | Raise e => (inr (Raised e), log, redis)
  | Ok base =>
      match limiter_ with
      | None => (dispatch_admitted connector action payload creds manifest base log, redis)
      | Some l =>
          match check l connector (Some action) (Some tenant) version now redis with
          | Raise e => (inr (Raised e), log, redis)
          | Ok (result, redis') =>
              if allowed result
              then (dispatch_admitted connector action payload creds manifest base log, redis')
              else (inr (HTTPException429 result), log, redis')
          end
      end
  end.
End Dispatcher.

(** ** Facts *)

(** The occurrences of a character. *)
Fixpoint count_char (c : ascii) (s : string) : nat :=
  match s with
  | EmptyString => 0
  | String a s' => (if Ascii.eqb a c then 1 else 0) + count_char c s'
  end.

Lemma count_char_app c s t : count_char c (s ++ t) = (count_char c s + count_char c t)%nat.
Proof. induction s as [|a s IH]; [done|]. cbn. rewrite IH. lia. Qed.

Lemma count_char_rev c s acc :
  count_char c (str_rev_app s acc) = (count_char c s + count_char c acc)%nat.
Proof. revert acc. induction s as [|a s IH]; intros acc; [done|]. cbn. rewrite IH. cbn. lia. Qed.

Lemma starts_with_split p s : starts_with p s = true -> s = p ++ str_drop (String.length p) s.
Proof.
  revert s. induction p as [|a p IH]; intros [|b s]; cbn; try done.
  intros [->%Ascii.eqb_eq H]%andb_true_iff. f_equal. by apply IH.
Qed.

Lemma count_split_go c sep new : count_char c sep = 0%nat -> count_char c new = 0%nat ->
  sep <> "" -> forall n s cur, (String.length s < n)%nat ->
  count_char c (str_join new (split_go n sep s cur)) = (count_char c s + count_char c cur)%nat.
Proof.
  intros Hsep Hnew Hne. induction n as [|n IH]; intros s cur Hn; [lia|].
  destruct s as [|a s]; cbn [split_go].
  { cbn [str_join]. unfold str_rev. rewrite count_char_rev. cbn. lia. }
  destruct (starts_with sep (String a s)) eqn:E.
  - apply starts_with_split in E. set (rest := str_drop (String.length sep) (String a s)) in *.
    clearbody rest.
    assert (Hl : (String.length rest < n)%nat).
    { pose proof (f_equal String.length E) as Hlen. rewrite str_app_length in Hlen.
      destruct sep as [|b sep]; [done|]. cbn in Hlen, Hn. lia. }
    specialize (IH rest "" Hl). pose proof (split_go_nonempty n sep rest "") as Hnil.
    destruct (split_go n sep rest "") as [|y l]; [done|].
    rewrite str_join_cons, !count_char_app, IH, E, count_char_app. unfold str_rev.
    rewrite count_char_rev. cbn. lia.
  - rewrite IH by (cbn in Hn; lia). cbn. lia.
Qed.

Lemma count_py_replace c s old new :
  count_char c old = 0%nat -> count_char c new = 0%nat -> old <> "" ->
  count_char c (py_replace s old new) = count_char c s.
Proof.
  intros Ho Hn Hne. unfold py_replace. destruct (String.eqb_spec old ""); [done|].
  rewrite count_split_go; [cbn; lia|done..|lia].
Qed.

Lemma quote_char_safe a : str_forall (fun x => unreserved x || Ascii.eqb x "%") (quote_char a) = true.
Proof. by destruct a as [[] [] [] [] [] [] [] []]; vm_compute. Qed.

Lemma count_safe c s :
  unreserved c = false -> c <> "%"%char ->
  str_forall (fun x => unreserved x || Ascii.eqb x "%") s = true -> count_char c s = 0%nat.
Proof.
  intros Hc Hp. induction s as [|a s IH]; [done|]. cbn [str_forall count_char].
  intros [Ha Hs]%andb_true_iff. rewrite IH by done.
  destruct (Ascii.eqb_spec a c) as [->|]; [|done].
  rewrite Hc in Ha. by apply Ascii.eqb_eq in Ha.
Qed.

Lemma count_quote c s : unreserved c = false -> c <> "%"%char -> count_char c (quote s) = 0%nat.
Proof.
  intros Hc Hp. induction s as [|a s IH]; [done|]. cbn [quote].
  rewrite count_char_app, IH, (count_safe c (quote_char a)); auto using quote_char_safe.
Qed.

(** A character that a value cannot bring into a path: reserved, not the escape
    itself, not a brace and in none of the names of the payload. *)
Definition structural (c : ascii) (payload : dict) : Prop :=
  unreserved c = false /\ c <> "%"%char /\ c <> "{"%char /\ c <> "}"%char
  /\ forall k, k ∈ dkeys payload -> count_char c k = 0%nat.

Lemma fill_path_count c payload keys path body :
  structural c payload -> (forall k, k ∈ keys -> k ∈ dkeys payload) ->
  count_char c (fold_left fill_path_key keys (path, body)).1 = count_char c path.
Proof.
  intros (Hu & Hp & Hl & Hr & Hk). revert path body.
  induction keys as [|k keys IH]; intros path body Hin; [done|]. cbn [fold_left fill_path_key].
  assert (Hin' : forall k', k' ∈ keys -> k' ∈ dkeys payload) by (intros k' H'; apply Hin; by right).
  destruct (str_contains _ _); rewrite IH by done; [|done].
  apply count_py_replace.
  - unfold placeholder_of. rewrite !count_char_app, (Hk k) by (apply Hin; left). cbn [count_char].
    destruct (Ascii.eqb_spec "{" c) as [<-|]; [done|]. by destruct (Ascii.eqb_spec "}" c) as [<-|].
  - by apply count_quote.
  - by destruct k.
Qed.

(** The bound of the waits, on floats. *)
Definition wait_ok (w : pyfloat) : Prop :=
  cmp_holds OpGe (num_cmp (PFloat w) (PFloat (seconds 1 2))) = true
  /\ cmp_holds OpLe (num_cmp (PFloat w) (PFloat (seconds 120 1))) = true.

Lemma clamp_ok f : wait_ok (py_fmax (seconds 1 2) (py_fmin f (seconds 120 1))).
Proof.
  unfold py_fmin. destruct (flt (seconds 120 1) f) eqn:E120; [by vm_compute|].
  unfold py_fmax. destruct (flt (seconds 1 2) f) eqn:E; [|by vm_compute].
  unfold wait_ok, flt, num_cmp in *. cbn [num_value] in *.
  destruct (float_value f) as [x|].
  - destruct (float_value (seconds 1 2)) as [a|]; [|done].
    destruct (float_value (seconds 120 1)) as [b|] eqn:Eb; [|done].
    rewrite (xcompare_antisym a x), (xcompare_antisym b x). cbn in *.
    destruct (xcompare a x); try done. by destruct (xcompare b x).
  - by destruct (float_value (seconds 1 2)).
Qed.

Lemma parse_retry_after_ok response : wait_ok (parse_retry_after response).
Proof.
  unfold parse_retry_after. destruct (String.eqb _ _); [by vm_compute|].
  destruct (py_float _); [apply clamp_ok|by vm_compute].
Qed.

(** What a request repeated after some waits leaves in the log. *)
Fixpoint trace (r : Request) (waits : list pyfloat) : list event :=
  match waits with
  | [] => [Sent r]
  | w :: waits' => Sent r :: Slept w :: trace r waits'
  end.

Section Facts.
Variable server : server_t.

Lemma attempts_429_spec r n : forall log,
  let '(res, log') := attempts_429 server n r log in
  exists waits, log' = (log ++ trace r waits)%list /\ (List.length waits <= n)%nat /\ Forall wait_ok waits
    /\ server (removelast log') r = res
    /\ match res with
       | inl response => rs_status response = 429%Z -> List.length waits = n
       | inr _ => True
       end.
Proof.
  assert (Hstop : forall log res m, server log r = res ->
    match res with inl response => rs_status response = 429%Z -> 0%nat = m | inr _ => True end ->
    exists waits, (log ++ [Sent r])%list = (log ++ trace r waits)%list /\ (List.length waits <= m)%nat
      /\ Forall wait_ok waits /\ server (removelast (log ++ [Sent r])%list) r = res
      /\ match res with inl response => rs_status response = 429%Z -> List.length waits = m | inr _ => True end).
  { intros log res m Hs Hm. exists []. rewrite removelast_last.
    split; [done|]. split; [cbn; lia|]. split; [constructor|]. by split. }
  induction n as [|n IH]; intros log; cbn [attempts_429]; unfold mbind, D_bind, send;
    destruct (server log r) as [response|e] eqn:Es; try by apply Hstop.
  destruct (Z.eqb_spec (rs_status response) 429) as [H429|Hne]; cbn [negb];
    [|by apply Hstop].
  unfold sleep. specialize (IH (((log ++ [Sent r]) ++ [Slept (parse_retry_after response)]))%list).
  destruct (attempts_429 server n r _) as [res log'].
  destruct IH as (waits & -> & Hl & Hw & Hs & Hend).
  exists (parse_retry_after response :: waits). repeat split.
  - by rewrite <-!app_assoc.
  - cbn. lia.
  - constructor; [apply parse_retry_after_ok|done].
  - done.
  - destruct res; [|done]. intros H. cbn. by rewrite Hend.
Qed.

Context {store : Type} `{Redis store}.
Variables (l : limiter) (connector action tenant : string) (creds : credentials_t).
Variables (reg : option registry) (version : option string).

(** A series of dispatches of one action, each at its time and with its payload: how
    many of them sent anything to the connector. *)
Fixpoint dispatch_all (calls : list (Q * dict)) (redis : store) (log : list event) : Z :=
  match calls with
  | [] => 0
  | (now, payload) :: calls' =>
      let '(_, log', redis') :=
        dispatch_action server (Some l) now redis connector action payload tenant creds reg version log in
      ((if Nat.eqb (List.length log') (List.length log) then 0 else 1) + dispatch_all calls' redis' log')%Z
  end.

Lemma run_checks_nonneg name act ten ver times : forall redis n redis',
  run_checks l name act ten ver times redis = Ok (n, redis') -> (0 <= n)%Z.
Proof.
  induction times as [|t times IH]; intros redis n redis'; cbn [run_checks].
  - intros [= <- _]. lia.
  - destruct (check l name act ten ver t redis) as [[result redis1]|]; cbn [mbind res_bind]; [|done].
    destruct (run_checks l name act ten ver times redis1) as [[m redis2]|] eqn:E; cbn [mbind res_bind]; [|done].
    intros [= <- _]. specialize (IH _ _ _ E). destruct (allowed result); lia.
Qed.

(** A dispatch sends something only when its check is allowed. *)
Lemma dispatch_le_checks calls : forall redis log n redis',
  run_checks l connector (Some action) (Some tenant) version (map fst calls) redis = Ok (n, redis') ->
  (dispatch_all calls redis log <= n)%Z.
Proof.
  destruct (match mbind (fun r => get_by_name_version r connector version) reg with
            | Some m => Ok (base_url m)
            | None => resolve_service_url connector reg version
            end) as [base|e] eqn:Eb.
  - induction calls as [|[now payload] calls IH]; intros redis log n redis'; cbn [map fst run_checks dispatch_all].
    { intros [= <- _]. lia. }
    unfold dispatch_action. rewrite Eb.
    destruct (check l connector _ _ version now redis) as [[result redis1]|]; cbn [mbind res_bind]; [|done].
    destruct (run_checks _ _ _ _ _ _ redis1) as [[m redis2]|] eqn:E; cbn [mbind res_bind]; [|done].
    intros [= <- _]. destruct (allowed result).
    + destruct (dispatch_admitted _ _ _ _ _ _ _ log) as [out log'].
      specialize (IH redis1 log' _ _ E). destruct (Nat.eqb _ _); lia.
    + specialize (IH redis1 log _ _ E). rewrite Nat.eqb_refl. lia.
  - intros redis log n redis' Hr. apply run_checks_nonneg in Hr.
    enough (dispatch_all calls redis log = 0)%Z by lia. clear Hr.
    induction calls as [|[now payload] calls IH]; cbn [dispatch_all]; [done|].
    unfold dispatch_action. rewrite Eb, Nat.eqb_refl. by rewrite IH.
Qed.

(** ** Properties *)

(** However many actions of a connector are dispatched one after the other, the
    number of them that send anything to it stays within the limit of the manifest
    and what the elapsed time refills; a refused action sends nothing, neither for
    credentials nor for the action. *)
Theorem dispatch_respects_limit cfg now payload calls redis log :
  l_enabled l = true -> get_limits l connector (Some action) version = Ok cfg -> cfg_ok cfg ->
  fresh (bucket_key connector (Some action) (Some tenant) version) redis ->
  Sorted.Sorted Qle (now :: map fst calls) ->
  (inject_Z (dispatch_all ((now, payload) :: calls) redis log)
   <= inject_Z (requests cfg) + refill_rate cfg * (List.last (map fst calls) now - now))%Q.
Proof.
  intros He Hl Hc Hf Hs.
  destruct (run_checks_fresh l connector (Some action) (Some tenant) version cfg now (map fst calls)
              redis He Hl Hc Hf Hs) as (n & redis' & Hrun & Hn).
  eapply Qle_trans; [|exact Hn]. rewrite <-Zle_Qle.
  exact (dispatch_le_checks ((now, payload) :: calls) redis log n redis' Hrun).
Qed.
End Facts.

(** A request answered with 429 is repeated at most three times, each time after a
    wait between half a second and two minutes whatever the service puts in its
    [Retry-After] header; the response used is the last one, and it is a 429 only
    when all four attempts were answered so. *)
Theorem retry_429_bounded server r log :
  let '(res, log') := execute_with_429_retry server r log in
  exists waits, log' = (log ++ trace r waits)%list /\ (List.length waits <= 3)%nat /\ Forall wait_ok waits
    /\ server (removelast log') r = res
    /\ match res with
       | inl response => rs_status response = 429%Z -> List.length waits = 3%nat
       | inr _ => True
       end.
Proof. exact (attempts_429_spec server r 3 log). Qed.

(** The values of a payload cannot change the shape of an action's URL: whatever
    is substituted for the placeholders of a route, every reserved character - a
    slash, a question mark, an ampersand, a space - occurs in the URL exactly as
    often as in the base URL and the route of the manifest. *)
Theorem path_values_are_contained route base payload c :
  structural c payload ->
  let '(url, _, _, _) := build_url route base payload in
  count_char c url = (count_char c base + count_char c (rt_path route))%nat.
Proof.
  intros Hc. pose proof (fill_path_count c payload (dkeys payload) (rt_path route) payload Hc
                           (fun k H => H)) as Hcount.
  unfold build_url, fill_path. destruct (fold_left _ _ _) as [path body]. cbn [fst] in Hcount.
  destruct (move_fields _ body) as [query body1]. destruct (move_fields _ body1) as [headers body2].
  by rewrite count_char_app, Hcount.
Qed.

(** ** Examples *)

Definition demo_server : server_t := fun _ _ => inl (MkResponse 200 "" (Ok (PDict [("ok", PBool true)])) "" "").

Lemma dispatch_respects_limit_witness :
  let calls := [(0, []); (0, []); (0, [])]%Q in
  (inject_Z (dispatch_all demo_server demo_limiter "dhl" "track" "t1" [] (l_registry demo_limiter) None
               ((0%Q, []) :: calls) ([] : demo_store) []) <= 3)%Q
  /\ dispatch_all demo_server demo_limiter "dhl" "track" "t1" [] (l_registry demo_limiter) None
       ((0%Q, []) :: calls) ([] : demo_store) [] = 3%Z.
Proof.
  intros calls. split; [|vm_compute; reflexivity].
  eapply Qle_trans.
  - apply (dispatch_respects_limit demo_server demo_limiter "dhl" "track" "t1" []
             (l_registry demo_limiter) None (RateConfig 3 1) 0 [] calls ([] : demo_store) []).
    + reflexivity.
    + vm_compute. reflexivity.
    + split; reflexivity.
    + intros now. reflexivity.
    + repeat constructor; discriminate.
  - discriminate.
Defined.

Definition demo_route : Route := MkRoute "GET" "/shipments/{id}/label" ["format"] [] false.

Lemma path_values_are_contained_witness :
  let '(url, query, _, _) :=
    build_url demo_route "http://dhl:8000" [("id", PStr "../admin?x=1"); ("format", PStr "pdf")] in
  count_char "/" url = 5%nat /\ url = "http://dhl:8000/shipments/..%2Fadmin%3Fx%3D1/label"
  /\ query = [("format", PStr "pdf")].
Proof.
  pose proof (path_values_are_contained demo_route "http://dhl:8000"
                [("id", PStr "../admin?x=1"); ("format", PStr "pdf")] "/"%char) as H.
  split; [|split; reflexivity]. apply H. repeat split; try discriminate.
  intros k Hk. cbn in Hk. apply list_elem_of_In in Hk. by destruct Hk as [<-|[<-|[]]].
Defined.

Example retry_after_is_clamped :
  parse_retry_after (MkResponse 429 "3600" (Ok PNone) "" "") = seconds 120 1
  /\ parse_retry_after (MkResponse 429 "-5" (Ok PNone) "" "") = seconds 1 2
  /\ parse_retry_after (MkResponse 429 "nan" (Ok PNone) "" "") = seconds 1 2
  /\ parse_retry_after (MkResponse 429 "Wed, 21 Oct 2026 07:28:00 GMT" (Ok PNone) "" "") = seconds 2 1.
Proof. vm_compute. repeat split. Qed.
