(* ===== verification/AllowList.v ===== *)
(** The trigger of a workflow as the gateway reads it, and the addresses allowed to start
    a workflow by a request ([platform/api/gateway.py]: [_extract_trigger_info] to
    [_enforce_workflow_request_ip_allowlist]). *)

From S2P Require Import Prelude PyText PyValue Effects IpAddress Graph.

Local Open Scope string_scope.

(** The configuration of the first trigger node. *)
Fixpoint trigger_config (nodes : list WNode) : option dict :=
  match nodes with
  | [] => None
  | n :: nodes' => if String.eqb (n_type n) "trigger" then Some (n_config n) else trigger_config nodes'
  end.

Definition extract_trigger_info (nodes : list WNode) : pyval * pyval :=
  match trigger_config nodes with
  | Some config => (dget_or "connector_name" PNone config, dget_or "event" PNone config)
  | None => (PNone, PNone)
  end.
Definition extract_trigger_credential (nodes : list WNode) : pyval :=
  match trigger_config nodes with
  | Some config => dget_or "credential_name" (PStr "default") config
  | None => PStr "default"
  end.
Definition extract_trigger_allowed_ips (nodes : list WNode) : pyval :=
  match trigger_config nodes with
  | Some config => dget_or "allowed_ips" PNone config
  | None => PNone
  end.

(** [re.split(r"[\n,]+", s)]; [in_run]: the last character was a separator. *)
Fixpoint split_entries (in_run : bool) (s : string) : list string :=
  match s with
  | EmptyString => [""]
  | String c s' =>
      if Ascii.eqb c "," || (code c =? 10)%Z then
        if in_run then split_entries true s' else "" :: split_entries true s'
      else match split_entries false s' with
           | [] => [str1 c]
           | w :: ws => String c w :: ws
           end
  end.

(** The entries a user gave, without the empty ones. *)
Definition user_entries (raw_value : pyval) : res (list string) :=
  entries ← match raw_value with
            | PNone => Ok []
            | PStr s => Ok (map py_strip (split_entries false s))
            | PList l => Ok (map (fun v => py_strip (py_str v)) l)
            | _ => Raise (http_exception 400 "Trigger allowed IPs must be a string or list of strings")
            end;
  Ok (List.filter (fun e => negb (String.eqb e "")) entries).

Definition normalize_entry (e : string) : res string :=
  let text := if str_contains "/" e then net_str <$> ip_network e else ip_str <$> ip_address e in
  match text with
  | Some t => Ok t
  | None => Raise (http_exception 400 ("Invalid trigger allowed IP or CIDR entry: " ++ e))
  end.

(** [_normalize_trigger_allowed_ips]. *)
Definition normalize_trigger_allowed_ips (raw_value : pyval) : res (list string) :=
  entries ← user_entries raw_value; mapM normalize_entry entries.

Definition validate_trigger_request_access (nodes : list WNode) : res unit :=
  _ ← normalize_trigger_allowed_ips (extract_trigger_allowed_ips nodes); Ok tt.

(** Where a request comes from: the address of its connection and its [X-Forwarded-For] header. *)
Record Origin := MkOrigin { rq_client : option string; rq_forwarded_for : option string }.

Section allow_list.
(** [is_private], [is_loopback] or [is_link_local]: tables of the [ipaddress] module that
    change with its releases. *)
Variable is_internal : ip_addr -> bool.

(** [_get_request_client_ip]: behind proxies, the last address that is not internal. *)
Definition get_request_client_ip (request : Origin) : option string :=
  match rq_client request with
  | Some ((String _ _) as host) => Some host
  | _ =>
      match rq_forwarded_for request with
      | Some ((String _ _) as forwarded_for) =>
          let parts := List.filter (fun p => negb (String.eqb p ""))
                         (map py_strip (split_char "," forwarded_for)) in
          let external p := match ip_address p with Some a => negb (is_internal a) | None => false end in
          match List.find external (rev parts) with
          | Some p => Some p
          | None => head (rev parts)
          end
      | _ => None
      end
  end.

(** The loop over the allowed entries. *)
Fixpoint client_allowed (client_addr : ip_addr) (allowed : list string) : res bool :=
  match allowed with
  | [] => Ok false
  | entry :: allowed' =>
      found ← (if str_contains "/" entry then
                 match ip_network entry with
                 | Some net => Ok (in_network client_addr net)
                 | None => Raise (ValueError (str_repr entry ++ " does not appear to be an IPv4 or IPv6 network"))
                 end
               else
                 match ip_address entry with
                 | Some a => Ok (bool_decide (client_addr = a))
                 | None => Raise (ValueError (str_repr entry ++ " does not appear to be an IPv4 or IPv6 address"))
                 end);
      if found : bool then Ok true else client_allowed client_addr allowed'
  end.

(** [_enforce_workflow_request_ip_allowlist]. *)
Definition enforce_workflow_request_ip_allowlist (nodes : list WNode) (request : Origin) : res unit :=
  allowed ← normalize_trigger_allowed_ips (extract_trigger_allowed_ips nodes);
  match allowed with
  | [] => Ok tt
  | _ =>
      match get_request_client_ip request with
      | None | Some EmptyString =>
          Raise (http_exception 403 "Unable to determine client IP for workflow request")
      | Some client_ip =>
          match ip_address client_ip with
          | None => Raise (http_exception 403 "Invalid client IP address")
          | Some client_addr =>
              ok ← client_allowed client_addr allowed;
              if ok : bool then Ok tt else Raise (http_exception 403 "Client IP is not allowed for this workflow")
          end
      end
  end.

(** An entry, as the user wrote it, covers an address. *)
Definition entry_covers (client : ip_addr) (e : string) : bool :=
  if str_contains "/" e then
    match ip_network e with Some net => in_network client net | None => false end
  else bool_decide (ip_address e = Some client).

Lemma has_slash_net net : str_contains "/" (net_str net) = true.
Proof.
  change "/" with (str1 "/"). rewrite str_contains_char. apply negb_true_iff, not_true_iff_false.
  destruct net; cbn [net_str]; rewrite !has_no_app; cbn; by rewrite andb_false_r.
Qed.

Lemma has_slash_ip a : valid_ip a -> str_contains "/" (ip_str a) = false.
Proof. intros Ha. change "/" with (str1 "/"). by rewrite str_contains_char, ip_str_no_slash. Qed.

Lemma client_allowed_normal client entries allowed :
  mapM normalize_entry entries = Ok allowed ->
  client_allowed client allowed = Ok (existsb (entry_covers client) entries).
Proof.
  revert allowed. induction entries as [|e entries IH]; intros allowed; cbn [mapM].
  { by intros [= <-]. }
  destruct (normalize_entry e) as [t|] eqn:Et; cbn [mbind res_bind]; [|done].
  destruct (mapM normalize_entry entries) as [ts|] eqn:Ets; cbn [mbind res_bind]; [|done]. intros [= <-].
  cbn [client_allowed existsb]. specialize (IH ts eq_refl). unfold normalize_entry in Et. unfold entry_covers at 1.
  destruct (str_contains "/" e).
  - destruct (ip_network e) as [net|] eqn:En; [|done]. cbn in Et. injection Et as <-.
    rewrite has_slash_net, net_round_trip by (by eapply ip_network_valid). cbn [mbind res_bind].
    by destruct (in_network client net).
  - destruct (ip_address e) as [a|] eqn:Ea; [|done]. cbn in Et. injection Et as <-.
    pose proof (ip_address_valid e a Ea) as Ha. rewrite has_slash_ip, ip_round_trip by done. cbn [mbind res_bind].
    destruct (decide (client = a)) as [->|Hne].
    + by rewrite !bool_decide_eq_true_2.
    + rewrite !bool_decide_eq_false_2 by congruence. exact IH.
Qed.

(** C7: A client starts a workflow whose trigger has a list of addresses exactly when an entry,
    as the user wrote it (an address, a network with a prefix or a mask), covers its address:
    the normal form the entries are put through loses nothing.  Otherwise it is refused with 403,
    and never for another reason. *)
Theorem allow_list_exact nodes request ip client entries allowed :
  user_entries (extract_trigger_allowed_ips nodes) = Ok entries ->
  mapM normalize_entry entries = Ok allowed ->
  get_request_client_ip request = Some ip -> ip_address ip = Some client ->
  enforce_workflow_request_ip_allowlist nodes request =
  if (length entries =? 0)%nat || existsb (entry_covers client) entries then Ok tt
  else Raise (http_exception 403 "Client IP is not allowed for this workflow").
Proof.
  intros He Hn Hip Ha. unfold enforce_workflow_request_ip_allowlist, normalize_trigger_allowed_ips.
  rewrite He. cbn [mbind res_bind]. rewrite Hn, Hip. cbn [mbind res_bind].
  pose proof (client_allowed_normal client entries allowed Hn) as Hc.
  destruct entries as [|e entries]; [by injection Hn as <-|].
  destruct allowed as [|t allowed].
  { cbn [mapM] in Hn. destruct (normalize_entry e); [|done]. cbn [mbind res_bind] in Hn.
    by destruct (mapM normalize_entry entries). }
  destruct ip as [|c ip]; [done|]. rewrite Ha, Hc. cbn [length Nat.eqb orb mbind res_bind]. by destruct (existsb _ _).
Qed.
End allow_list.

Lemma allow_list_exact_witness :
  let nodes := [Node "n1" "trigger" "" [("allowed_ips", PStr "10.0.0.0/8, 2001:DB8:0::0/33")]] in
  let from host := MkOrigin (Some host) None in
  let internal := fun _ => false in
  enforce_workflow_request_ip_allowlist internal nodes (from "2001:db8::7") = Ok tt
  /\ enforce_workflow_request_ip_allowlist internal nodes (from "11.0.0.1")
     = Raise (http_exception 403 "Client IP is not allowed for this workflow").
Proof.
  cbv zeta. split.
  - rewrite (allow_list_exact _ _ _ "2001:db8::7" (V6 (0x20010db8 * 2 ^ 96 + 7) None)
      ["10.0.0.0/8"; "2001:DB8:0::0/33"] ["10.0.0.0/8"; "2001:db8::/33"]); by vm_compute.
  - rewrite (allow_list_exact _ _ _ "11.0.0.1" (V4 (11 * 2 ^ 24 + 1))
      ["10.0.0.0/8"; "2001:DB8:0::0/33"] ["10.0.0.0/8"; "2001:db8::/33"]); by vm_compute.
Defined.
