(* ===== verification/AuditTrail.v ===== *)
(** Workflow versions and the audit log: [platform/core/audit_trail.py].  The
    database is the workflow row, its version snapshots and the audit entries; the
    row lock makes the operations on a workflow sequential. *)

From S2P Require Import Prelude PyText PyValue Graph.

Local Open Scope string_scope.

(** What a snapshot captures. *)
Record content := Content { c_nodes : list WNode; c_edges : list WEdge; c_variables : dict }.

Record WorkflowVersion := Version {
  v_tenant : string;
  v_workflow : string;
  v_number : Z;
  v_content : content;
  v_created_by : option string
}.

(** A row of [workflows]; [w_settings]: the columns no operation here reads
    ([description], [sync_config], [on_error], [max_retries], [timeout_seconds]). *)
Record workflow_row := WorkflowRow {
  w_tenant : string;
  w_id : string;
  w_content : content;
  w_version : Z;
  w_name : string;
  w_enabled : bool;
  w_trigger : pyval * pyval;
  w_settings : dict
}.
Definition with_content (c : content) (w : workflow_row) : workflow_row :=
  WorkflowRow (w_tenant w) (w_id w) c (w_version w) (w_name w) (w_enabled w) (w_trigger w) (w_settings w).
Definition with_version (n : Z) (w : workflow_row) : workflow_row :=
  WorkflowRow (w_tenant w) (w_id w) (w_content w) n (w_name w) (w_enabled w) (w_trigger w) (w_settings w).

(** The fields a request changes ([WorkflowUpdate]); a field that is not sent is [None], and
    an explicit [null] is left out. *)
Record WorkflowUpdate := MkWorkflowUpdate {
  u_name : option string;
  u_nodes : option (list WNode);
  u_edges : option (list WEdge);
  u_variables : option dict;
  u_enabled : option bool;
  u_settings : dict
}.

(** What an audit entry records of a state: a content and its version (and the version a
    rollback restored), some fields, or the fields of an update. *)
Inductive audit_value :=
  | AuditState (c : content) (version : Z) (rolled_back_from : option Z)
  | AuditFields (d : dict)
  | AuditUpdate (u : WorkflowUpdate).

Record AuditLog := AuditEntry {
  a_tenant : string;
  a_user : option string;
  a_entity_type : string;
  a_entity : string;
  a_action : string;
  a_old : option audit_value;
  a_new : option audit_value;
  a_ip : option string;
  a_time : Z
}.

(** The tables. *)
Record Db := MkDb {
  workflows : list workflow_row;
  versions : list WorkflowVersion;
  audit : list AuditLog
}.

(** [record_audit]; the column default stamps the entry with the time. *)
Definition record_audit (e : AuditLog) (db : Db) : Db :=
  MkDb (workflows db) (versions db) (audit db ++ [e]).

Definition versions_of (id : string) (db : Db) : list WorkflowVersion :=
  List.filter (fun v => String.eqb (v_workflow v) id) (versions db).

(** [coalesce(max(version), 0)]. *)
Definition max_number (l : list WorkflowVersion) : Z :=
  match l with
  | [] => 0
  | v :: l' => fold_left Z.max (map v_number l') (v_number v)
  end.

Definition set_workflow (w : workflow_row) (db : Db) : Db :=
  MkDb (map (fun x => if String.eqb (w_id x) (w_id w) then w else x) (workflows db))
       (versions db) (audit db).

(** [snapshot_workflow_version]. *)
Definition snapshot_workflow_version (w : workflow_row) (created_by : option string) (db : Db)
  : WorkflowVersion * Db :=
  let v := Version (w_tenant w) (w_id w) (max_number (versions_of (w_id w) db) + 1) (w_content w) created_by in
  (v, set_workflow (with_version (v_number v) w)
        (MkDb (workflows db) (versions db ++ [v]) (audit db))).

Definition find_workflow (id : string) (db : Db) : option workflow_row :=
  List.find (fun w => String.eqb (w_id w) id) (workflows db).

(** [get_workflow_versions]: most recent first. *)
Definition get_workflow_versions (id : string) (limit offset : nat) (db : Db) : list WorkflowVersion :=
  take limit (drop offset (stable_sort (fun a b => (v_number b <? v_number a)%Z) (versions_of id db))).

(** [get_workflow_version]. *)
Definition get_workflow_version (id : string) (number : Z) (db : Db) : option WorkflowVersion :=
  List.find (fun v => (v_number v =? number)%Z) (versions_of id db).

(** [rollback_workflow]. *)
Definition rollback_workflow (id : string) (target_version : Z) (user ip : option string)
    (now : Z) (db : Db) : option workflow_row * Db :=
  match find_workflow id db with
  | None => (None, db)
  | Some w =>
      match get_workflow_version id target_version db with
      | None => (None, db)
      | Some v =>
          let w' := with_content (v_content v) w in
          let '(snap, db1) := snapshot_workflow_version w' user (set_workflow w' db) in
          (Some (with_version (v_number snap) w'),
           record_audit (AuditEntry (w_tenant w) user "workflow" id "rollback"
             (Some (AuditState (w_content w) (w_version w) None))
             (Some (AuditState (v_content v) (v_number snap) (Some target_version))) ip now)
             db1)
      end
  end.

(** [get_audit_log]: an empty filter is no filter. *)
Definition get_audit_log (tenant : string) (entity_type entity action : option string)
    (limit offset : nat) (db : Db) : list AuditLog :=
  let matches o f := match o with Some s => String.eqb s "" || String.eqb (f : string) s | None => true end in
  let selected := List.filter (fun e => String.eqb (a_tenant e) tenant
        && matches entity_type (a_entity_type e) && matches entity (a_entity e) && matches action (a_action e))
      (audit db) in
  take limit (drop offset (stable_sort (fun a b => (a_time b <? a_time a)%Z) selected)).

(** ** Facts *)

Lemma fold_max_ge l : forall a, (a <= fold_left Z.max l a)%Z /\ (forall x, x ∈ l -> (x <= fold_left Z.max l a)%Z).
Proof.
  induction l as [|y l IH]; intros a; cbn.
  - split; [lia|]. intros x Hx. by apply not_elem_of_nil in Hx.
  - destruct (IH (Z.max a y)) as [H1 H2]. split; [lia|].
    intros x [->|Hx]%elem_of_cons; [lia|by apply H2].
Qed.

Lemma max_number_ge l v : v ∈ l -> (v_number v <= max_number l)%Z.
Proof.
  destruct l as [|v0 l]; [by intros ?%not_elem_of_nil|]. cbn.
  destruct (fold_max_ge (map v_number l) (v_number v0)) as [H1 H2].
  intros [->|Hv]%elem_of_cons; [done|]. apply H2. by apply list_elem_of_In, in_map, list_elem_of_In.
Qed.

Lemma versions_of_set id w db : versions_of id (set_workflow w db) = versions_of id db.
Proof. done. Qed.

Lemma find_set_workflow id w w0 db :
  find_workflow id db = Some w0 -> w_id w = id -> find_workflow id (set_workflow w db) = Some w.
Proof.
  unfold find_workflow, set_workflow. cbn [workflows]. intros H Hid.
  induction (workflows db) as [|x l IH]; [done|]. cbn in *. rewrite Hid.
  destruct (String.eqb (w_id x) id) eqn:E; cbn.
  - rewrite Hid, String.eqb_refl. done.
  - rewrite E. rewrite Hid in IH. by apply IH.
Qed.

Lemma find_workflow_id id db w : find_workflow id db = Some w -> w_id w = id.
Proof. intros Hf. apply find_some in Hf as [_ Hf]. by apply String.eqb_eq. Qed.

(** Every snapshot of a workflow has its own number. *)
Definition numbers_distinct (db : Db) : Prop :=
  forall id, NoDup (map v_number (versions_of id db)).

Lemma snapshot_distinct w by_ db :
  numbers_distinct db -> numbers_distinct (snapshot_workflow_version w by_ db).2.
Proof.
  intros H id. unfold snapshot_workflow_version, versions_of. cbn [versions snd set_workflow].
  rewrite List.filter_app. cbn [List.filter v_workflow].
  destruct (String.eqb_spec (w_id w) id) as [<-|_]; [|rewrite app_nil_r; apply H].
  rewrite map_app. apply list.NoDup_app. split_and!; [apply H| |apply NoDup_singleton].
  intros n Hn Hn'. apply list_elem_of_singleton in Hn' as ->.
  apply list_elem_of_In, in_map_iff in Hn as (v & Hv & Hin).
  apply list_elem_of_In in Hin. pose proof (max_number_ge _ _ Hin) as Hle.
  cbn in Hv. unfold versions_of in *. lia.
Qed.

(** ** Properties *)

(** C35: rolling back to a recorded version restores its nodes, edges and variables in
    the workflow row, under a version number above every earlier one, keeps the
    whole history, and leaves one audit entry with the state before. *)
Theorem rollback_restores id n user ip now db w v :
  find_workflow id db = Some w -> get_workflow_version id n db = Some v ->
  let '(result, db') := rollback_workflow id n user ip now db in
  exists w' snap,
    result = Some w' /\ find_workflow id db' = Some w'
    /\ w_content w' = v_content v /\ w_version w' = v_number snap
    /\ versions db' = (versions db ++ [snap])%list /\ v_content snap = v_content v
    /\ (forall u, u ∈ versions_of id db -> v_number u < v_number snap)%Z
    /\ exists e, audit db' = (audit db ++ [e])%list /\ a_old e = Some (AuditState (w_content w) (w_version w) None).
Proof.
  intros Hw Hv. unfold rollback_workflow. rewrite Hw, Hv. cbn [snapshot_workflow_version].
  pose proof (find_workflow_id id db w Hw) as Hid. set (w' := with_content (v_content v) w).
  set (snap := Version (w_tenant w) (w_id w) (max_number (versions_of (w_id w) db) + 1) (v_content v) user).
  exists (with_version (v_number snap) w'), snap.
  split; [done|]. split.
  { apply (find_set_workflow id _ w'); [|done]. exact (find_set_workflow id w' w db Hw Hid). }
  split; [done|]. split; [done|]. split; [done|]. split; [done|]. split.
  - intros u Hu. rewrite <- Hid in Hu. pose proof (max_number_ge _ _ Hu). cbn. lia.
  - eexists. split; [reflexivity|done].
Qed.

Definition demo_row (c : content) (n : Z) : workflow_row :=
  WorkflowRow "t" "w" c n "demo" false (PNone, PNone) [].

Lemma rollback_restores_witness :
  let c1 := Content [] [] [("a", PInt 1)] in
  let c2 := Content [] [] [("a", PInt 2)] in
  let db := MkDb [demo_row c2 2] [Version "t" "w" 1 c1 None; Version "t" "w" 2 c2 None] [] in
  exists w', (rollback_workflow "w" 1 None None 9 db).1 = Some w' /\ w_content w' = c1 /\ w_version w' = 3%Z.
Proof.
  intros c1 c2 db.
  pose proof (rollback_restores "w" 1 None None 9 db (demo_row c2 2) (Version "t" "w" 1 c1 None)
                eq_refl eq_refl) as H.
  destruct (rollback_workflow "w" 1 None None 9 db) as [result db'] eqn:E.
  destruct H as (w' & snap & Hr & _ & Hc & Hn & Hvs & _).
  exists w'. split; [exact Hr|]. split; [exact Hc|]. rewrite Hn.
  assert (Hdb : versions db' = (versions (rollback_workflow "w" 1 None None 9 db).2)) by (by rewrite E).
  rewrite Hdb in Hvs. vm_compute in Hvs. injection Hvs as <-. reflexivity.
Defined.

(** No two snapshots of a workflow ever carry the same version number: taking a
    snapshot and rolling back keep the numbers of every workflow distinct. *)
Theorem version_numbers_distinct db w by_ id n user ip now :
  numbers_distinct db ->
  numbers_distinct (snapshot_workflow_version w by_ db).2
  /\ numbers_distinct (rollback_workflow id n user ip now db).2.
Proof.
  intros H. split; [by apply snapshot_distinct|]. unfold rollback_workflow.
  destruct (find_workflow id db) as [w0|]; [|done].
  destruct (get_workflow_version id n db) as [v|]; [|done].
  pose proof (snapshot_distinct (with_content (v_content v) w0) user
                (set_workflow (with_content (v_content v) w0) db)) as Hs.
  destruct (snapshot_workflow_version _ _ _) as [snap db1]. cbn in *. by apply Hs.
Qed.

Lemma version_numbers_distinct_witness :
  numbers_distinct (snapshot_workflow_version (demo_row (Content [] [] []) 0) None
                      (MkDb [demo_row (Content [] [] []) 0] [] [])).2.
Proof.
  apply (version_numbers_distinct (MkDb [demo_row (Content [] [] []) 0] [] [])
           (demo_row (Content [] [] []) 0) None "w" 1 None None 0).
  intros id. apply NoDup_nil_2.
Defined.
