(* ===== verification/Vault.v ===== *)
(** The credential vault: [platform/core/credential_vault.py].  AES-GCM, the random
    bytes of the operating system and [secrets.token_urlsafe] are the class [Cipher];
    the tables [credentials] and [credential_tokens] are lists of rows, with the
    unique constraints the models declare.  A text is the sequence of its UTF-8
    bytes. *)

From S2P Require Import Prelude PyText PyValue Effects Base64.

Local Open Scope string_scope.

(** What the vault relies on: random draws, numbered, of the sizes asked for; a cipher
    that decrypts what it encrypted and refuses a nonce of less than eight bytes. *)
Class Cipher := {
  urandom : nat -> string;
  token_urlsafe : nat -> string;
  aes_encrypt : string -> string -> string -> string;
  aes_decrypt : string -> string -> string -> res string;
  urandom_size : forall n, String.length (urandom n) = 12%nat;
  decrypt_encrypt : forall key nonce text,
    String.length nonce = 12%nat -> aes_decrypt key nonce (aes_encrypt key nonce text) = Ok text;
  decrypt_short_nonce : forall key nonce text,
    (String.length nonce < 8)%nat -> is_ok (aes_decrypt key nonce text) = false
}.

(** ** Data *)

Record Credential := MkCredential {
  cr_tenant : string;
  cr_connector : string;
  cr_name : string;
  cr_key : string;
  cr_value : string
}.

Record CredentialToken := MkToken {
  ct_tenant : string;
  ct_connector : string;
  ct_name : string;
  ct_token : string;
  ct_active : bool
}.

(** The tables, and how many random draws were made. *)
Record VaultDB := MkVaultDB {
  credentials : list Credential;
  credential_tokens : list CredentialToken;
  draws : nat
}.

Definition set_credentials (l : list Credential) (db : VaultDB) : VaultDB :=
  MkVaultDB l (credential_tokens db) (draws db).
Definition set_tokens (l : list CredentialToken) (db : VaultDB) : VaultDB :=
  MkVaultDB (credentials db) l (draws db).

(** The unique constraints of the two tables. *)
Definition credential_id (c : Credential) : string * string * string * string :=
  (cr_tenant c, cr_connector c, cr_name c, cr_key c).
Definition token_id (t : CredentialToken) : string * string * string :=
  (ct_tenant t, ct_connector t, ct_name t).

Definition CREDENTIAL_MASK : string := "••••••••".

(** [submitted_credential_values]. *)
Definition submitted_credential_values (creds : list (string * string)) : list (string * string) :=
  List.filter (fun kv => negb (String.eqb kv.2 "") && negb (String.eqb kv.2 CREDENTIAL_MASK)) creds.

(** [CredentialVault.__init__]: the raw key. *)
Definition vault_init (encryption_key : string) : res string :=
  if String.eqb encryption_key "" then Raise (ValueError "ENCRYPTION_KEY must be set")
  else
    raw_key ← urlsafe_b64decode encryption_key;
    if Nat.eqb (String.length raw_key) 32 then Ok raw_key
    else Raise (ValueError "ENCRYPTION_KEY must be a base64-encoded 32-byte key for AES-256-GCM").

Section vault.
Context `{Cipher} (raw_key : string).

Definition draw : EM VaultDB nat := fun db =>
  (Ok (draws db), MkVaultDB (credentials db) (credential_tokens db) (S (draws db))).

(** [_generate_credential_token]. *)
Definition generate_credential_token : EM VaultDB string :=
  n ← draw; mret ("ctok_" ++ token_urlsafe n).

(** [_encrypt] and [_decrypt]. *)
Definition encrypt (plaintext : string) : EM VaultDB string :=
  n ← draw;
  let nonce := urandom n in
  mret (urlsafe_b64encode (nonce ++ aes_encrypt raw_key nonce plaintext)).

Definition decrypt (ciphertext : string) : res string :=
  catch
    (raw ← urlsafe_b64decode ciphertext;
     aes_decrypt raw_key (str_take 12 raw) (str_drop 12 raw))
    (fun _ => true)
    (Raise (ValueError "Failed to decrypt credential — key mismatch or corrupted data")).

(** ** Credentials *)

(** The row a query by the four columns gives. *)
Definition select_credential (tenant connector name key : string) : EM VaultDB (option Credential) :=
  db ← get_st;
  lift (scalar_one_or_none
          (List.filter (has_key credential_id (tenant, connector, name, key)) (credentials db))).

Definition set_value (encrypted : string) (c : Credential) : Credential :=
  MkCredential (cr_tenant c) (cr_connector c) (cr_name c) (cr_key c) encrypted.

Definition store (tenant connector key value name : string) : EM VaultDB Credential :=
  encrypted ← encrypt value;
  cred ← select_credential tenant connector name key;
  match cred with
  | Some c =>
      _ ← modify (fun db => set_credentials
            (update_rows (has_key credential_id (credential_id c)) (set_value encrypted)
               (credentials db)) db);
      mret (set_value encrypted c)
  | None =>
      let c := MkCredential tenant connector name key encrypted in
      _ ← modify (fun db => set_credentials (credentials db ++ [c])%list db);
      mret c
  end.

Definition retrieve (tenant connector key name : string) : EM VaultDB (option string) :=
  cred ← select_credential tenant connector name key;
  match cred with
  | None => mret None
  | Some c => value ← lift (decrypt (cr_value c)); mret (Some value)
  end.

Definition in_set (tenant connector name : string) (c : Credential) : bool :=
  String.eqb (cr_tenant c) tenant && String.eqb (cr_connector c) connector
  && String.eqb (cr_name c) name.

Definition retrieve_all (tenant connector name : string) : EM VaultDB (list (string * string)) :=
  db ← get_st;
  let creds := List.filter (in_set tenant connector name) (credentials db) in
  values ← lift (mapR (fun c => value ← decrypt (cr_value c); Ok (cr_key c, value)) creds);
  mret (dict_of values).

Definition text_lt (a b : string) : bool :=
  match String.compare a b with Lt => true | _ => false end.

Definition list_credential_names (tenant connector : string) : EM VaultDB (list string) :=
  gets (fun db =>
    stable_sort text_lt
      (remove_dups (map cr_name
        (List.filter (fun c => String.eqb (cr_tenant c) tenant && String.eqb (cr_connector c) connector)
           (credentials db))))).

(** An empty or missing filter selects everything. *)
Definition matches_opt (filter : option string) (value : string) : bool :=
  match filter with
  | None | Some EmptyString => true
  | Some f => String.eqb value f
  end.

Definition delete (tenant connector : string) (key name : option string) : EM VaultDB nat :=
  let selected c := String.eqb (cr_tenant c) tenant && String.eqb (cr_connector c) connector
                    && matches_opt name (cr_name c) && matches_opt key (cr_key c) in
  db ← get_st;
  _ ← modify (fun db => set_credentials (delete_rows selected (credentials db)) db);
  mret (List.length (List.filter selected (credentials db))).

(** ** Tokens *)

Definition select_token (tenant connector name : string) : EM VaultDB (option CredentialToken) :=
  db ← get_st;
  lift (scalar_one_or_none (List.filter (has_key token_id (tenant, connector, name)) (credential_tokens db))).

Definition integrity_error {A} : EM VaultDB A := raise (OtherError "IntegrityError").

(** The flush of a new row, under the constraints of the table: one row for a set of
    credentials, and no token twice. *)
Definition insert_token (t : CredentialToken) : EM VaultDB unit :=
  db ← get_st;
  if existsb (fun r => has_key token_id (token_id t) r || String.eqb (ct_token r) (ct_token t))
       (credential_tokens db)
  then integrity_error
  else modify (fun db => set_tokens (credential_tokens db ++ [t])%list db).

Definition get_or_create_token (tenant connector name : string) : EM VaultDB CredentialToken :=
  row ← select_token tenant connector name;
  match row with
  | Some t => mret t
  | None =>
      token ← generate_credential_token;
      let t := MkToken tenant connector name token true in
      _ ← insert_token t;
      mret t
  end.

Definition set_token (token : string) (t : CredentialToken) : CredentialToken :=
  MkToken (ct_tenant t) (ct_connector t) (ct_name t) token (ct_active t).

Definition regenerate_token (tenant connector name : string) : EM VaultDB CredentialToken :=
  row ← select_token tenant connector name;
  match row with
  | Some t =>
      token ← generate_credential_token;
      db ← get_st;
      if existsb (fun r => negb (has_key token_id (token_id t) r) && String.eqb (ct_token r) token)
           (credential_tokens db)
      then integrity_error
      else
        _ ← modify (fun db => set_tokens
              (update_rows (has_key token_id (token_id t)) (set_token token) (credential_tokens db)) db);
        mret (set_token token t)
  | None => get_or_create_token tenant connector name
  end.

Definition resolve_token (token : string) : EM VaultDB (option (list (string * string))) :=
  db ← get_st;
  row ← lift (scalar_one_or_none
          (List.filter (fun t => String.eqb (ct_token t) token && ct_active t) (credential_tokens db)));
  match row with
  | None => mret None
  | Some t => creds ← retrieve_all (ct_tenant t) (ct_connector t) (ct_name t); mret (Some creds)
  end.

Definition get_token (tenant connector name : string) : EM VaultDB (option string) :=
  row ← select_token tenant connector name; mret (ct_token <$> row).

Definition delete_token (tenant connector : string) (name : option string) : EM VaultDB nat :=
  let selected t := String.eqb (ct_tenant t) tenant && String.eqb (ct_connector t) connector
                    && matches_opt name (ct_name t) in
  db ← get_st;
  _ ← modify (fun db => set_tokens (delete_rows selected (credential_tokens db)) db);
  mret (List.length (List.filter selected (credential_tokens db))).

Definition set_name (name : string) (t : CredentialToken) : CredentialToken :=
  MkToken (ct_tenant t) (ct_connector t) name (ct_token t) (ct_active t).

Definition rename_token (tenant connector old_name new_name : string) : EM VaultDB unit :=
  row ← select_token tenant connector old_name;
  match row with
  | Some t =>
      db ← get_st;
      if negb (String.eqb old_name new_name)
         && existsb (has_key token_id (tenant, connector, new_name)) (credential_tokens db)
      then integrity_error
      else modify (fun db => set_tokens
             (update_rows (has_key token_id (token_id t)) (set_name new_name) (credential_tokens db)) db)
  | None => mret tt
  end.

(** ** What is stored is retrieved *)

Lemma decrypt_encrypted n value :
  decrypt (urlsafe_b64encode (urandom n ++ aes_encrypt raw_key (urandom n) value)) = Ok value.
Proof.
  unfold decrypt. rewrite urlsafe_b64_roundtrip. unfold mbind, res_bind.
  rewrite <-(urandom_size n) at 1 2. rewrite str_take_app, str_drop_app.
  by rewrite decrypt_encrypt by apply urandom_size.
Qed.

(** The ciphertext of the next draw. *)
Definition sealed (db : VaultDB) (value : string) : string :=
  urlsafe_b64encode (urandom (draws db) ++ aes_encrypt raw_key (urandom (draws db)) value).

Definition drawn (db : VaultDB) : VaultDB :=
  MkVaultDB (credentials db) (credential_tokens db) (S (draws db)).

(** The table after [store]. *)
Definition stored_rows (tenant connector key name encrypted : string) (rows : list Credential)
  : list Credential :=
  match List.find (has_key credential_id (tenant, connector, name, key)) rows with
  | Some _ => update_rows (has_key credential_id (tenant, connector, name, key)) (set_value encrypted) rows
  | None => (rows ++ [MkCredential tenant connector name key encrypted])%list
  end.

Lemma store_eq tenant connector key value name db :
  unique_rows credential_id (credentials db) ->
  exists c, store tenant connector key value name db =
    (Ok c, set_credentials (stored_rows tenant connector key name (sealed db value) (credentials db))
             (drawn db)).
Proof.
  intros Hu. unfold store, select_credential, encrypt, draw, get_st, lift, modify, mbind, EM_bind, mret, EM_ret.
  cbn -[has_key scalar_one_or_none]. rewrite scalar_unique by done. unfold stored_rows.
  destruct (List.find _ (credentials db)) as [c|] eqn:E; [|by eexists].
  apply find_key_Some in E as [E _]. rewrite E. by eexists.
Qed.

Lemma retrieve_eq tenant connector key name db :
  unique_rows credential_id (credentials db) ->
  retrieve tenant connector key name db =
  (match List.find (has_key credential_id (tenant, connector, name, key)) (credentials db) with
   | None => Ok None
   | Some c => value ← decrypt (cr_value c); Ok (Some value)
   end, db).
Proof.
  intros Hu. unfold retrieve, select_credential, get_st, lift, mbind, EM_bind, mret, EM_ret.
  cbn -[has_key scalar_one_or_none]. rewrite scalar_unique by done.
  destruct (List.find _ (credentials db)) as [c|]; [|done]. by destruct (decrypt (cr_value c)).
Qed.

Lemma stored_rows_unique tenant connector key name encrypted rows :
  unique_rows credential_id rows ->
  unique_rows credential_id (stored_rows tenant connector key name encrypted rows).
Proof.
  intros Hu. unfold stored_rows. destruct (List.find _ rows) eqn:E.
  - by apply unique_update.
  - by apply unique_insert.
Qed.

Lemma find_stored_rows k tenant connector key name encrypted rows :
  List.find (has_key credential_id k) (stored_rows tenant connector key name encrypted rows) =
  if bool_decide (k = (tenant, connector, name, key))
  then set_value encrypted <$> match List.find (has_key credential_id k) rows with
                               | Some c => Some c
                               | None => Some (MkCredential tenant connector name key encrypted)
                               end
  else List.find (has_key credential_id k) rows.
Proof.
  unfold stored_rows.
  destruct (List.find (has_key credential_id (tenant, connector, name, key)) rows) as [c|] eqn:E.
  - rewrite find_key_update by done. case_bool_decide; [subst k; by rewrite E|done].
  - rewrite (find_key_insert credential_id k (MkCredential tenant connector name key encrypted)) by done.
    change (credential_id (MkCredential tenant connector name key encrypted))
      with (tenant, connector, name, key).
    case_bool_decide; [subst k; by rewrite E|done].
Qed.

(** The value of a credential, by its key. *)
Definition value_of (id : string * string * string * string) (db : VaultDB) : res (option string) :=
  match List.find (has_key credential_id id) (credentials db) with
  | None => Ok None
  | Some c => value ← decrypt (cr_value c); Ok (Some value)
  end.

Lemma store_lookup tenant connector key value name db :
  unique_rows credential_id (credentials db) ->
  exists c db', store tenant connector key value name db = (Ok c, db')
    /\ unique_rows credential_id (credentials db')
    /\ credential_tokens db' = credential_tokens db
    /\ forall id, value_of id db' = if bool_decide (id = (tenant, connector, name, key))
                                    then Ok (Some value) else value_of id db.
Proof.
  intros Hu. destruct (store_eq tenant connector key value name db Hu) as [c Hc].
  eexists c, _. split_and!; [exact Hc|by apply stored_rows_unique|done|].
  intros id. unfold value_of. cbn [credentials set_credentials]. rewrite find_stored_rows.
  case_bool_decide as E; [|done].
  destruct (List.find _ (credentials db)); cbn [fmap option_fmap option_map set_value cr_value];
    unfold sealed; by rewrite decrypt_encrypted.
Qed.

(** C33: Storing a credential succeeds and keeps the table free of duplicates; it makes
    retrieval give the stored value for its tenant, connector, set and key, and
    changes the answer for no other. *)
Theorem store_retrieve tenant connector key value name db
    (Hu : unique_rows credential_id (credentials db)) :
  let db' := (store tenant connector key value name db).2 in
  is_ok (store tenant connector key value name db).1 = true
  /\ unique_rows credential_id (credentials db')
  /\ (retrieve tenant connector key name db').1 = Ok (Some value)
  /\ forall tenant' connector' key' name',
       (tenant', connector', key', name') <> (tenant, connector, key, name) ->
       (retrieve tenant' connector' key' name' db').1 = (retrieve tenant' connector' key' name' db).1.
Proof.
  destruct (store_lookup tenant connector key value name db Hu) as (c & db' & -> & Hu' & _ & Hv).
  cbn [fst snd]. split_and!; [done|done| |].
  - rewrite retrieve_eq by done. change (value_of (tenant, connector, name, key) db' = Ok (Some value)).
    by rewrite Hv, bool_decide_eq_true_2.
  - intros t' c' k' n' Hne. rewrite !retrieve_eq by done.
    change (value_of (t', c', n', k') db' = value_of (t', c', n', k') db).
    rewrite Hv, bool_decide_eq_false_2 by congruence. done.
Qed.

(** ** Sets of credentials *)

Lemma in_set_id tenant connector name c :
  in_set tenant connector name c = true <-> credential_id c = (tenant, connector, name, cr_key c).
Proof.
  unfold in_set, credential_id. rewrite !andb_true_iff, !String.eqb_eq.
  split; [by intros [[-> ->] ->]|by intros [= -> -> ->]].
Qed.

Lemma dmerge_fresh {V} (a b : list (string * V)) :
  NoDup (dkeys (a ++ b)) -> dmerge a b = (a ++ b)%list.
Proof.
  unfold dmerge. revert a. induction b as [|[k v] b IH]; intros a Hnd; cbn; [by rewrite app_nil_r|].
  assert (Hs : dset k v a = (a ++ [(k, v)])%list).
  { unfold dkeys in Hnd. rewrite map_app in Hnd. apply list.NoDup_app in Hnd as (_ & Hd & _). revert Hd.
    clear. induction a as [|[k' v'] a IH]; cbn; [done|]. intros Hd.
    destruct (String.eqb_spec k k') as [->|Hne].
    - destruct (Hd k'); [left|left].
    - rewrite IH; [done|]. intros x Hx. apply Hd. by right. }
  rewrite Hs, IH.
  - by rewrite <-app_assoc.
  - by rewrite <-app_assoc.
Qed.

(** [retrieve_all] gives, under its key, what [retrieve] gives for each key. *)
Lemma retrieve_all_lookup tenant connector name db creds :
  unique_rows credential_id (credentials db) ->
  (retrieve_all tenant connector name db).1 = Ok creds ->
  NoDup (dkeys creds) /\ forall key, value_of (tenant, connector, name, key) db = Ok (dget key creds).
Proof.
  unfold retrieve_all, get_st, lift, mbind, EM_bind, mret, EM_ret, value_of, unique_rows. intros Hu Hr.
  destruct (mapR _ (List.filter _ _)) as [vs|e] eqn:E; [|done]. injection Hr as <-.
  assert (Hl : NoDup (dkeys vs) /\ (forall k, k ∈ dkeys vs ->
              exists c, c ∈ credentials db /\ credential_id c = (tenant, connector, name, k))
            /\ forall key, (match List.find (has_key credential_id (tenant, connector, name, key)) (credentials db) with
                | None => Ok None | Some c => value ← decrypt (cr_value c); Ok (Some value) end) = Ok (dget key vs)).
  { revert vs Hu E. induction (credentials db) as [|c l IH]; cbn -[has_key]; intros vs Hu E.
    - injection E as <-. split_and!; [constructor| |done]. intros k Hk. by apply not_elem_of_nil in Hk.
    - apply list.NoDup_cons in Hu as [Hn Hu]. destruct (in_set tenant connector name c) eqn:Es.
      + apply in_set_id in Es. cbn -[has_key] in E. bind_ok.
        destruct (decrypt (cr_value c)) as [value|] eqn:Hv; [|discriminate Hx]. injection Hx as <-.
        destruct (IH _ Hu Hx0) as (H1 & H2 & H3). split_and!.
        * cbn. apply list.NoDup_cons. split; [|done]. intros Hk. apply H2 in Hk as (c' & Hc' & Hid).
          apply Hn. rewrite Es, <-Hid. apply list_elem_of_In, in_map. by apply list_elem_of_In.
        * intros k [->|Hk]%elem_of_cons; [exists c; split; [left|done]|].
          destruct (H2 k Hk) as (c' & ? & ?). exists c'. split; [by right|done].
        * intros key. destruct (has_key credential_id (tenant, connector, name, key) c) eqn:Ek.
          -- apply (has_key_true credential_id) in Ek. rewrite Es in Ek. injection Ek as Ek.
             rewrite Ek. cbn. by rewrite Hv, String.eqb_refl.
          -- rewrite H3. cbn. destruct (String.eqb_spec key (cr_key c)) as [->|]; [|done].
             by rewrite (proj2 (has_key_true credential_id _ _)) in Ek.
      + destruct (IH _ Hu E) as (H1 & H2 & H3). split_and!; [done| |].
        * intros k Hk. destruct (H2 k Hk) as (c' & ? & ?). exists c'. split; [by right|done].
        * intros key. destruct (has_key credential_id (tenant, connector, name, key) c) eqn:Ek; [|apply H3].
          apply (has_key_true credential_id) in Ek. apply not_true_iff_false in Es. destruct Es.
          apply in_set_id. rewrite Ek. unfold credential_id in Ek. congruence. }
  destruct Hl as (H1 & _ & H3). unfold dict_of. rewrite dmerge_fresh by done. by split.
Qed.

(** ** Invariant of the tables *)

Definition wf_vault (db : VaultDB) : Prop :=
  unique_rows credential_id (credentials db)
  /\ unique_rows token_id (credential_tokens db)
  /\ unique_rows ct_token (credential_tokens db).

Lemma wf_draw : preserves wf_vault draw.
Proof. intros db Hdb. exact Hdb. Qed.
#[local] Hint Resolve wf_draw : effects.

Lemma wf_select_credential t c n k : preserves wf_vault (select_credential t c n k).
Proof. unfold select_credential. preserve. Qed.
Lemma wf_select_token t c n : preserves wf_vault (select_token t c n).
Proof. unfold select_token. preserve. Qed.
Lemma wf_generate : preserves wf_vault generate_credential_token.
Proof. unfold generate_credential_token. preserve. Qed.
#[local] Hint Resolve wf_select_credential wf_select_token wf_generate : effects.

Lemma wf_store t c k v n : preserves wf_vault (store t c k v n).
Proof.
  intros db (Hc & Hi & Ht). destruct (store_eq t c k v n db Hc) as [r ->].
  split_and!; [by apply stored_rows_unique|done|done].
Qed.

Lemma wf_delete t c k n : preserves wf_vault (delete t c k n).
Proof.
  unfold delete. preserve. apply preserves_modify. intros db (Hc & Hi & Ht).
  split_and!; [by apply unique_delete|done|done].
Qed.

Lemma wf_delete_token t c n : preserves wf_vault (delete_token t c n).
Proof.
  unfold delete_token. preserve. apply preserves_modify. intros db (Hc & Hi & Ht).
  split_and!; [done|by apply unique_delete|by apply unique_delete].
Qed.

Lemma wf_insert_token t : preserves wf_vault (insert_token t).
Proof.
  intros db (Hc & Hi & Ht). unfold insert_token, get_st, mbind, EM_bind.
  destruct (existsb _ (credential_tokens db)) eqn:E; [done|]. cbn.
  assert (Hno : forall r, r ∈ credential_tokens db ->
            token_id r <> token_id t /\ ct_token r <> ct_token t).
  { intros r Hr. apply list_elem_of_In in Hr. rewrite <-not_true_iff_false, existsb_exists in E.
    split; intros Hx; apply E; exists r; (split; [done|]); apply orb_true_iff.
    - left. by apply (has_key_true token_id).
    - right. by apply String.eqb_eq. }
  split_and!; [done| |]; (apply unique_insert; [done|]); apply find_key_None;
    intros Hin; apply list_elem_of_In, in_map_iff in Hin as (x & Hx & Hin);
    apply list_elem_of_In, Hno in Hin; tauto.
Qed.
#[local] Hint Resolve wf_insert_token : effects.

Lemma wf_get_or_create_token t c n : preserves wf_vault (get_or_create_token t c n).
Proof. unfold get_or_create_token. preserve. Qed.
#[local] Hint Resolve wf_get_or_create_token : effects.

Lemma wf_regenerate_token t c n : preserves wf_vault (regenerate_token t c n).
Proof.
  unfold regenerate_token. apply preserves_bind; [auto with effects|]. intros [r|]; [|auto with effects].
  apply preserves_bind; [auto with effects|]. intros token db (Hc & Hi & Ht).
  unfold get_st, mbind, EM_bind. destruct (existsb _ (credential_tokens db)) eqn:E; [done|].
  split_and!; [done|by apply unique_update|]. cbn.
  apply (unique_rekey token_id ct_token _ token); [done|done|done|].
  intros x Hx Hne Heq. apply list_elem_of_In in Hx. rewrite <-not_true_iff_false, existsb_exists in E.
  apply E. exists x. split; [done|]. apply andb_true_iff. split; [|by apply String.eqb_eq].
  apply negb_true_iff, not_true_iff_false. by rewrite has_key_true.
Qed.

Lemma wf_rename_token t c old new : preserves wf_vault (rename_token t c old new).
Proof.
  unfold rename_token. intros db (Hc & Hi & Ht).
  unfold select_token, get_st, lift, mbind, EM_bind. rewrite scalar_unique by done.
  destruct (List.find _ (credential_tokens db)) as [r|] eqn:Er; [|done].
  apply find_key_Some in Er as [Er Hr]. destruct (negb _ && _) eqn:E; [done|]. cbn.
  split_and!; [done| |by apply unique_update].
  rewrite Er. apply (unique_rekey token_id token_id _ (t, c, new)); [done|done| |].
  - intros x Hx. unfold token_id, set_name in *. cbn. by injection Hx as <- <- _.
  - intros x Hx Hne Heq. apply andb_false_iff in E as [E|E].
    + apply negb_false_iff, String.eqb_eq in E. congruence.
    + rewrite <-not_true_iff_false, existsb_exists in E. apply E. exists x.
      split; [by apply list_elem_of_In|by apply (has_key_true token_id)].
Qed.

(** The operations that change the tables. *)
Inductive vault_op :=
  | OpStore (tenant connector key value name : string)
  | OpDelete (tenant connector : string) (key name : option string)
  | OpGetOrCreateToken (tenant connector name : string)
  | OpRegenerateToken (tenant connector name : string)
  | OpDeleteToken (tenant connector : string) (name : option string)
  | OpRenameToken (tenant connector old_name new_name : string).

Definition run_op (op : vault_op) : EM VaultDB unit :=
  match op with
  | OpStore t c k v n => _ ← store t c k v n; mret tt
  | OpDelete t c k n => _ ← delete t c k n; mret tt
  | OpGetOrCreateToken t c n => _ ← get_or_create_token t c n; mret tt
  | OpRegenerateToken t c n => _ ← regenerate_token t c n; mret tt
  | OpDeleteToken t c n => _ ← delete_token t c n; mret tt
  | OpRenameToken t c o n => rename_token t c o n
  end.

(** One after the other; an operation that raises ends its request only. *)
Definition run_ops (ops : list vault_op) (db : VaultDB) : VaultDB :=
  fold_left (fun db op => (run_op op db).2) ops db.

#[local] Hint Resolve wf_store wf_delete wf_delete_token wf_regenerate_token wf_rename_token : effects.

Lemma wf_run_op op : preserves wf_vault (run_op op).
Proof. destruct op; unfold run_op; preserve. Qed.

(** Starting from empty tables, after any sequence of operations no two
    credentials share tenant, connector, set and key, no set of credentials has two
    tokens, and no token stands for two sets. *)
Theorem vault_rows_unique ops n : wf_vault (run_ops ops (MkVaultDB [] [] n)).
Proof.
  assert (H0 : wf_vault (MkVaultDB [] [] n)) by (split_and!; constructor).
  unfold run_ops. revert H0. generalize (MkVaultDB [] [] n).
  induction ops as [|op ops IH]; intros db Hdb; cbn; [done|]. by apply IH, wf_run_op.
Qed.

(** ** Tokens *)

(** What a token resolves to, once tokens are unique. *)
Lemma resolve_token_eq token db :
  unique_rows ct_token (credential_tokens db) ->
  (resolve_token token db).1 =
  match List.find (has_key ct_token token) (credential_tokens db) with
  | Some t => if ct_active t
              then Some <$> (retrieve_all (ct_tenant t) (ct_connector t) (ct_name t) db).1
              else Ok None
  | None => Ok None
  end.
Proof.
  intros Hu. unfold resolve_token, get_st, lift, mbind, EM_bind, mret, EM_ret.
  assert (Hf : List.filter (fun t => String.eqb (ct_token t) token && ct_active t) (credential_tokens db)
             = List.filter ct_active (List.filter (has_key ct_token token) (credential_tokens db))).
  { clear. induction (credential_tokens db) as [|t l IH]; cbn; [done|].
    assert (E : has_key ct_token token t = String.eqb (ct_token t) token).
    { unfold has_key. case_bool_decide as E.
      - symmetry. by apply String.eqb_eq.
      - symmetry. by apply String.eqb_neq. }
    rewrite E. destruct (String.eqb (ct_token t) token); cbn; [|done].
    destruct (ct_active t); by rewrite IH. }
  rewrite Hf, unique_filter_key by done.
  destruct (List.find (has_key ct_token token) (credential_tokens db)) as [t|]; cbn; [|done].
  destruct (ct_active t); cbn; [|done].
  unfold mbind, EM_bind, mret, EM_ret. by destruct (retrieve_all _ _ _ db) as [[x|e] db'].
Qed.

(** Regenerating the token of a set of credentials revokes the old token, and the
    new one, when the set is active, gives the credentials of the set. *)
Theorem regenerate_revokes tenant connector name db row row' db'
    (Hdb : wf_vault db)
    (Hrow : List.find (has_key token_id (tenant, connector, name)) (credential_tokens db) = Some row)
    (Hrun : regenerate_token tenant connector name db = (Ok row', db'))
    (Hfresh : ct_token row' <> ct_token row) :
  (resolve_token (ct_token row) db').1 = Ok None
  /\ (resolve_token (ct_token row') db').1 =
     if ct_active row then Some <$> (retrieve_all tenant connector name db').1 else Ok None.
Proof.
  pose proof (wf_regenerate_token tenant connector name db Hdb) as (_ & _ & Ht').
  rewrite Hrun in Ht'. cbn in Ht'. destruct Hdb as (Hc & Hi & Ht).
  unfold regenerate_token, select_token, get_st, lift, mbind, EM_bind in Hrun.
  rewrite scalar_unique, Hrow in Hrun by done.
  apply find_key_Some in Hrow as [Hk Hin]. unfold generate_credential_token, draw, mbind, EM_bind, mret, EM_ret in Hrun.
  cbn -[has_key set_token] in Hrun.
  destruct (existsb _ (credential_tokens db)); [done|]. injection Hrun as <- <-.
  rewrite !resolve_token_eq by exact Ht'. cbn -[has_key]. split.
  - rewrite (proj2 (find_key_None ct_token _ _)); [done|].
    intros H1. apply list_elem_of_In in H1. unfold update_rows in H1. rewrite map_map in H1.
    apply in_map_iff in H1 as (x & Hx & H1). apply list_elem_of_In in H1.
    destruct (has_key token_id (token_id row) x) eqn:Ex; cbn in Hx, Hfresh; [congruence|].
    assert (x = row) as -> by by apply (unique_inj ct_token (credential_tokens db)).
    by rewrite (proj2 (has_key_true token_id _ _)) in Ex.
  - assert (H1 : set_token ("ctok_" ++ token_urlsafe (draws db)) row ∈
             update_rows (has_key token_id (token_id row)) (set_token ("ctok_" ++ token_urlsafe (draws db)))
               (credential_tokens db)).
    { unfold update_rows. apply list_elem_of_In, in_map_iff. exists row.
      rewrite (proj2 (has_key_true token_id _ _)) by done. split; [done|by apply list_elem_of_In]. }
    apply (find_key_unique ct_token) in H1; [|exact Ht']. cbn -[has_key] in H1. rewrite H1. cbn.
    unfold token_id in Hk. by injection Hk as -> -> ->.
Qed.
End vault.

(** ** A cipher that satisfies the laws, and examples *)

#[export] Program Instance demo_cipher : Cipher := {
  urandom n := str_take 12 (str_of_Z (Z.of_nat n) ++ "------------");
  token_urlsafe n := "token" ++ str_of_Z (Z.of_nat n);
  aes_encrypt key nonce text := "sealed:" ++ text;
  aes_decrypt key nonce text :=
    if (String.length nonce <? 8)%nat then Raise (ValueError "Nonce must be between 8 and 128 bytes")
    else if starts_with "sealed:" text then Ok (str_drop 7 text) else Raise (OtherError "InvalidTag")
}.
Next Obligation. intros n. cbv beta. rewrite str_take_length, str_app_length. change (String.length "------------") with 12%nat. lia. Qed.
Next Obligation. intros key nonce text Hn. cbv beta. rewrite Hn. done. Qed.
Next Obligation. intros key nonce text Hn. cbv beta. apply Nat.ltb_lt in Hn. by rewrite Hn. Qed.

Definition demo_vault : VaultDB := (store "key" "t1" "allegro" "client_id" "abc" "default"
  (MkVaultDB [] [] 0)).2.

Lemma store_retrieve_witness :
  (retrieve "key" "t1" "allegro" "client_id" "default" demo_vault).1 = Ok (Some "abc")
  /\ (retrieve "key" "t2" "allegro" "client_id" "default" demo_vault).1 = Ok None.
Proof.
  destruct (store_retrieve "key" "t1" "allegro" "client_id" "abc" "default" (MkVaultDB [] [] 0))
    as (_ & _ & H1 & H2); [constructor|].
  split; [exact H1|].
  etransitivity; [apply (H2 "t2" "allegro" "client_id" "default"); done|by vm_compute].
Defined.

Definition demo_tokens : VaultDB := (get_or_create_token "t1" "allegro" "default" demo_vault).2.

Lemma regenerate_revokes_witness :
  let '(_, db') := regenerate_token "t1" "allegro" "default" demo_tokens in
  (resolve_token "key" "ctok_token1" db').1 = Ok None
  /\ (resolve_token "key" "ctok_token2" db').1 = Ok (Some [("client_id", "abc")]).
Proof.
  destruct (regenerate_revokes "key" "t1" "allegro" "default" demo_tokens
    (MkToken "t1" "allegro" "default" "ctok_token1" true) (MkToken "t1" "allegro" "default" "ctok_token2" true)
    (regenerate_token "t1" "allegro" "default" demo_tokens).2) as [H1 H2].
  - split_and!; by_deciding.
  - reflexivity.
  - reflexivity.
  - done.
  - split; [exact H1|]. etransitivity; [exact H2|]. by vm_compute.
Defined.

(** A set of credentials cannot take the name of a set that has a token. *)
Example rename_token_over_a_token_fails :
  let db := (get_or_create_token "t1" "allegro" "sandbox" demo_tokens).2 in
  (rename_token "t1" "allegro" "default" "sandbox" db).1 = Raise (OtherError "IntegrityError").
Proof. by vm_compute. Qed.

(** ** What the connectors encrypt

    [shared/python/pinquark_common/security/encryption.py]: AES-256-GCM with a random nonce in
    front of the ciphertext, all of it in URL-safe base 64. *)

Section encryption.
Context `{Cipher}.

(** The URL-safe decoding, or else the standard one. *)
Definition decode_either (text : string) : res string :=
  match urlsafe_b64decode text with Ok b => Ok b | Raise _ => b64decode text end.

Definition get_key (key_b64 : string) : res string :=
  key ← decode_either key_b64;
  if Nat.eqb (String.length key) 32 then Ok key
  else Raise (ValueError "Encryption key must be exactly 32 bytes (256 bits)").

(** [encrypt_value] with the [n]-th nonce the system draws. *)
Definition encrypt_value (n : nat) (plaintext key_b64 : string) : res string :=
  key ← get_key key_b64;
  Ok (urlsafe_b64encode (urandom n ++ aes_encrypt key (urandom n) plaintext)).

Definition decrypt_value (encrypted_b64 key_b64 : string) : res string :=
  key ← get_key key_b64;
  raw ← decode_either encrypted_b64;
  aes_decrypt key (str_take 12 raw) (str_drop 12 raw).

(** What is encrypted is decrypted with the same key, whatever the nonce. *)
Theorem decrypt_encrypt_value n plaintext key_b64 text :
  encrypt_value n plaintext key_b64 = Ok text -> decrypt_value text key_b64 = Ok plaintext.
Proof.
  unfold encrypt_value, decrypt_value. intros (key & Hk & [= <-])%bind_Ok_inv. rewrite Hk.
  assert (E : forall x, decode_either (urlsafe_b64encode x) = Ok x)
    by (intros x; unfold decode_either; by rewrite urlsafe_b64_roundtrip).
  cbn [mbind res_bind]. rewrite E. cbn [mbind res_bind].
  rewrite <-!(urandom_size n), str_take_app, str_drop_app. apply decrypt_encrypt, urandom_size.
Qed.
End encryption.
