(* ===== verification/CredentialsApi.v ===== *)
(** The credential endpoints of the gateway ([platform/api/gateway.py]) on the vault:
    storing and renaming a set of credentials, reading it masked, deleting it, its
    tokens.  The tenant of a request is authenticated before; the gateway commits at
    the end of a handler and an exception before that undoes its changes.  The role of
    the database is one the row-level security of [Auth] does not bind. *)

From S2P Require Import Prelude PyText PyValue Effects Base64 Graph Registry Dispatcher Vault.

Local Open Scope string_scope.

(** The columns of a workflow these endpoints use. *)
Record workflow_ref := WorkflowRef {
  wr_tenant : string;
  wr_id : string;
  wr_name : string;
  wr_nodes : list WNode
}.

(** An entry of the audit log. *)
Record audit_entry := CredentialAudit {
  ae_tenant : string;
  ae_entity : string;
  ae_action : string;
  ae_connector : string;
  ae_name : option string;
  ae_keys : list string
}.

(** The database, and the requests sent to connectors. *)
Record api_state := ApiState {
  as_vault : VaultDB;
  as_workflows : list workflow_ref;
  as_audit : list audit_entry;
  as_sent : list event
}.

Definition set_vault (v : VaultDB) (s : api_state) : api_state :=
  ApiState v (as_workflows s) (as_audit s) (as_sent s).

(** The database as it was; the random draws and the requests are not undone. *)
Definition undo (s0 s1 : api_state) : api_state :=
  ApiState (MkVaultDB (credentials (as_vault s0)) (credential_tokens (as_vault s0)) (draws (as_vault s1)))
    (as_workflows s0) (as_audit s0) (as_sent s1).

(** The body of the request, [CredentialStore]. *)
Record CredentialStore := MkCredentialStore {
  connector_name : string;
  credential_name : string;
  old_credential_name : option string;
  body_credentials : list (string * string)
}.

Record StoreResponse := Stored {
  sr_connector : string;
  sr_name : string;
  sr_keys : list string;
  sr_token : string;
  sr_workflows_updated : nat;
  sr_account_provisioned : bool
}.

(** ** [_propagate_credential_rename] *)

(** A node that uses the renamed set, with the new name; [None] for the others. *)
Definition renamed_node (connector old_name new_name : string) (n : WNode) : option WNode :=
  let cfg := n_config n in
  if py_eqb (dget_or "credential_name" PNone cfg) (PStr old_name)
     && (py_eqb (dget_or "connector_name" (PStr "") cfg) (PStr connector)
         || (String.eqb (n_type n) "think" && String.eqb connector "ai-agent"))
  then Some (Node (n_id n) (n_type n) (n_label n) (dset "credential_name" (PStr new_name) cfg))
  else None.

Definition rename_in_node (connector old_name new_name : string) (n : WNode) : WNode :=
  default n (renamed_node connector old_name new_name n).

Definition uses_credential (connector name : string) (n : WNode) : bool :=
  match renamed_node connector name name n with Some _ => true | None => false end.

Definition rename_in_workflow (connector old_name new_name : string) (w : workflow_ref) : workflow_ref :=
  WorkflowRef (wr_tenant w) (wr_id w) (wr_name w)
    (map (rename_in_node connector old_name new_name) (wr_nodes w)).

(** The workflows of the tenant, and how many changed. *)
Definition propagate_credential_rename (tenant connector old_name new_name : string)
  : EM api_state nat := fun s =>
  let own w := String.eqb (wr_tenant w) tenant in
  let changed w := own w && existsb (uses_credential connector old_name) (wr_nodes w) in
  (Ok (List.length (List.filter changed (as_workflows s))),
   ApiState (as_vault s)
     (map (fun w => if own w then rename_in_workflow connector old_name new_name w else w) (as_workflows s))
     (as_audit s) (as_sent s)).

Section api.
Context `{Cipher} (raw_key : string) (uuid5 : string -> string).
Variable server : server_t.
Variable reg : registry.

Definition in_vault {A} (m : EM VaultDB A) : EM api_state A := within as_vault set_vault m.

(** [for key, value in items: await vault.store(...)]. *)
Definition store_all (tenant connector name : string) (items : list (string * string)) : EM VaultDB unit :=
  for_each (fun kv => _ ← store raw_key tenant connector kv.1 kv.2 name; mret tt) items.

Definition log_credential_audit (e : audit_entry) : EM api_state unit :=
  modify (fun s => ApiState (as_vault s) (as_workflows s) (as_audit s ++ [e])%list (as_sent s)).

Definition credential_entity (tenant connector name : string) : string :=
  uuid5 ("credential:" ++ tenant ++ ":" ++ connector ++ ":" ++ name).

(** Whether the request renames a set, and the set's old name. *)
Definition rename_from (body : CredentialStore) : option string :=
  match old_credential_name body with
  | None | Some EmptyString => None
  | Some old => if String.eqb old (credential_name body) then None else Some old
  end.

(** The account of the connector is brought up to date after the commit; a failure is
    logged only. *)
Definition reprovision (tenant : string) (body : CredentialStore) : EM api_state bool :=
  match get_by_name reg (connector_name body) with
  | [] => mret false
  | manifest :: _ =>
      if String.eqb (pv_mode (m_provisioning manifest)) "account" then
        try_catch
          (creds ← in_vault (retrieve_all raw_key tenant (connector_name body) (credential_name body));
           match creds with
           | [] => mret false
           | _ =>
               let creds := if dhas "account_name" creds then creds
                            else dset "account_name" (credential_name body) creds in
               fun s =>
                 let '(r, sent) := ensure_account_generic server (base_url manifest) creds
                                     (m_provisioning manifest) true (as_sent s) in
                 let s' := ApiState (as_vault s) (as_workflows s) (as_audit s) sent in
                 match r with inl _ => (Ok true, s') | inr _ => (Raise (OtherError "provisioning"), s') end
           end)
          (fun _ => mret false)
      else mret false
  end.

(** [store_credentials] up to its commit: the token and the number of workflows
    updated. *)
Definition store_credentials_tx (tenant : string) (body : CredentialStore) : EM api_state (string * nat) :=
  let connector := connector_name body in
  let name := credential_name body in
  let submitted := submitted_credential_values (body_credentials body) in
  workflows_updated ←
    match rename_from body with
    | Some old =>
        old_creds ← in_vault (retrieve_all raw_key tenant connector old);
        _ ← in_vault (store_all tenant connector name (dmerge old_creds submitted));
        _ ← in_vault (delete tenant connector None (Some old));
        updated ← propagate_credential_rename tenant connector old name;
        _ ← in_vault (rename_token tenant connector old name);
        mret updated
    | None => _ ← in_vault (store_all tenant connector name submitted); mret O
    end;
  token_row ← in_vault (get_or_create_token tenant connector name);
  _ ← log_credential_audit (CredentialAudit tenant (credential_entity tenant connector name)
        (match rename_from body with None => "update" | Some _ => "rename" end)
        connector (Some name) (dkeys (body_credentials body)));
  mret (ct_token token_row, workflows_updated).

Definition store_credentials (tenant : string) (body : CredentialStore) : EM api_state StoreResponse :=
  '(token, workflows_updated) ← atomic undo (store_credentials_tx tenant body);
  account_provisioned ← reprovision tenant body;
  mret (Stored (connector_name body) (credential_name body) (dkeys (body_credentials body)) token
          workflows_updated account_provisioned).

(** ** Reading *)

Record MaskedCredentials := Masked {
  mc_keys : list string;
  mc_values : list (string * string);
  mc_has_credentials : bool;
  mc_token : option string
}.

(** [get_credentials]: the values are masked. *)
Definition get_credentials (tenant connector name : string) : EM api_state MaskedCredentials :=
  creds ← in_vault (retrieve_all raw_key tenant connector name);
  token ← match creds with
          | [] => mret None
          | _ => row ← atomic undo (in_vault (get_or_create_token tenant connector name));
                 mret (Some (ct_token row))
          end;
  mret (Masked (dkeys creds) (map (fun kv => (kv.1, CREDENTIAL_MASK)) creds)
          (match creds with [] => false | _ => true end) token).

(** [regenerate_credential_token]. *)
Definition regenerate_credential_token (tenant connector name : string) : EM api_state string :=
  creds ← in_vault (retrieve_all raw_key tenant connector name);
  match creds with
  | [] => http_error 404 "No credentials found for this connector"
  | _ => row ← atomic undo (in_vault (regenerate_token tenant connector name)); mret (ct_token row)
  end.

(** [resolve_credential_token]: the connector, the set and its credentials. *)
Definition resolve_credential_token (tenant token : string)
  : EM api_state (string * string * list (string * string)) :=
  s ← get_st;
  row ← lift (scalar_one_or_none
          (List.filter (fun t => String.eqb (ct_token t) token && String.eqb (ct_tenant t) tenant && ct_active t)
             (credential_tokens (as_vault s))));
  match row with
  | None => http_error 404 "Invalid or inactive token"
  | Some t =>
      creds ← in_vault (retrieve_all raw_key (ct_tenant t) (ct_connector t) (ct_name t));
      mret (ct_connector t, ct_name t, creds)
  end.

(** ** Deleting *)

(** [delete_credentials]: the number of keys deleted and the workflows affected. *)
Definition delete_credentials (tenant connector : string) (name : option string)
  : EM api_state (nat * list string) :=
  s ← get_st;
  let affected := match name with
    | None | Some EmptyString => []
    | Some n => map wr_name (List.filter (fun w => String.eqb (wr_tenant w) tenant
                    && existsb (uses_credential connector n) (wr_nodes w)) (as_workflows s))
    end in
  deleted ← in_vault (delete tenant connector None name);
  _ ← in_vault (delete_token tenant connector name);
  _ ← log_credential_audit (CredentialAudit tenant
        (credential_entity tenant connector (match name with None | Some EmptyString => "all" | Some n => n end))
        "delete" connector name []);
  mret (deleted, affected).

(** ** What the operations on the vault do to a set *)

(** The vault's functions, with the key of this vault. *)
#[local] Abbreviation value_of := (Vault.value_of raw_key).

Lemma store_all_spec tenant connector name items v :
  wf_vault v -> NoDup (dkeys items) ->
  exists v', store_all tenant connector name items v = (Ok tt, v')
    /\ wf_vault v' /\ credential_tokens v' = credential_tokens v
    /\ (forall k, value_of (tenant, connector, name, k) v' =
          match dget k items with Some x => Ok (Some x)
                                | None => value_of (tenant, connector, name, k) v end)
    /\ (forall t c n k, (t, c, n) <> (tenant, connector, name) ->
          value_of (t, c, n, k) v' = value_of (t, c, n, k) v).
Proof.
  revert v. induction items as [|[k0 x0] items IH]; intros v Hv Hnd.
  - exists v. by split_and!.
  - cbn in Hnd. apply list.NoDup_cons in Hnd as [Hn Hnd].
    destruct (store_lookup raw_key tenant connector k0 x0 name v) as (c & v1 & E1 & _ & Ht1 & Hv1); [apply Hv|].
    assert (Hw : wf_vault v1).
    { pose proof (wf_store raw_key tenant connector k0 x0 name v Hv) as Hw. by rewrite E1 in Hw. }
    destruct (IH v1 Hw Hnd) as (v' & E2 & Hw' & Ht2 & H1 & H2). exists v'. split_and!.
    + unfold store_all. cbn [for_each fst snd].
      unfold store_all in E2. unfold mbind at 1, EM_bind at 1. unfold mbind at 1, EM_bind at 1.
      rewrite E1. exact E2.
    + done.
    + by rewrite Ht2.
    + intros k. rewrite H1. cbn [dget]. destruct (String.eqb_spec k k0) as [->|Hk].
      * rewrite (proj2 (dget_None k0 items)) by done. by rewrite Hv1, bool_decide_eq_true_2.
      * destruct (dget k items); [done|]. rewrite Hv1, bool_decide_eq_false_2; [done|congruence].
    + intros t c' n k Hne. rewrite H2 by done. rewrite Hv1, bool_decide_eq_false_2; [done|congruence].
Qed.

Lemma delete_set_spec tenant connector name v :
  name <> "" ->
  exists n v', delete tenant connector None (Some name) v = (Ok n, v')
    /\ credential_tokens v' = credential_tokens v
    /\ (forall k, value_of (tenant, connector, name, k) v' = Ok None)
    /\ (forall t c n k, (t, c, n) <> (tenant, connector, name) ->
          value_of (t, c, n, k) v' = value_of (t, c, n, k) v).
Proof.
  intros Hname. eexists _, _. split; [reflexivity|]. cbn [credential_tokens set_credentials].
  unfold Vault.value_of. cbn [credentials set_credentials]. split_and!; [done| |].
  - intros k. rewrite (find_key_delete credential_id true); [done|]. intros r [= -> -> -> _].
    unfold matches_opt. rewrite !String.eqb_refl. by destruct name.
  - intros t c n k Hne. rewrite (find_key_delete credential_id false); [done|]. intros r [= -> -> -> _].
    unfold matches_opt. destruct name as [|a name]; [done|].
    destruct (String.eqb_spec t tenant) as [->|]; [|done].
    destruct (String.eqb_spec c connector) as [->|]; [|done].
    destruct (String.eqb_spec n (String a name)) as [->|]; [|done]. by destruct Hne.
Qed.

Lemma rename_token_spec tenant connector old name v :
  wf_vault v -> old <> name ->
  List.find (has_key token_id (tenant, connector, name)) (credential_tokens v) = None ->
  exists v', rename_token tenant connector old name v = (Ok tt, v')
    /\ credentials v' = credentials v
    /\ List.find (has_key token_id (tenant, connector, name)) (credential_tokens v') =
       set_name name <$> List.find (has_key token_id (tenant, connector, old)) (credential_tokens v)
    /\ forall t, t ∈ credential_tokens v' -> exists t0, t0 ∈ credential_tokens v /\ ct_token t0 = ct_token t.
Proof.
  intros (_ & Hi & _) Hne Hnone.
  unfold rename_token, select_token, get_st, lift, mbind, EM_bind. rewrite scalar_unique by done.
  destruct (List.find (has_key token_id (tenant, connector, old)) (credential_tokens v)) as [row|] eqn:E.
  - apply find_key_Some in E as [Hk Hin]. rewrite (proj2 (String.eqb_neq old name)) by done. cbn [negb andb].
    destruct (existsb _ (credential_tokens v)) eqn:Ex.
    { apply existsb_exists in Ex as (x & Hx & Hkx). apply (List.find_none _ _ Hnone) in Hx. congruence. }
    eexists. split; [reflexivity|]. cbn [credentials credential_tokens set_tokens]. split_and!; [done| |].
    + rewrite Hk. clear Ex. revert Hnone Hi Hin. unfold unique_rows.
      induction (credential_tokens v) as [|x l IH]; [by intros _ _ ?%not_elem_of_nil|].
      cbn -[has_key]. destruct (has_key token_id (tenant, connector, name) x) eqn:Ex; [done|].
      intros Hn [Hni Hu]%list.NoDup_cons [->|Hin]%elem_of_cons.
      * assert (Eo : has_key token_id (tenant, connector, old) x = true)
          by by apply (has_key_true token_id).
        assert (En : has_key token_id (tenant, connector, name) (set_name name x) = true).
        { apply (has_key_true token_id). unfold token_id in *. cbn. by injection Hk as -> -> _. }
        by rewrite Eo, En.
      * destruct (has_key token_id (tenant, connector, old) x) eqn:Eo.
        -- apply (has_key_true token_id) in Eo. destruct Hni. rewrite Eo, <-Hk.
           apply list_elem_of_In, in_map. by apply list_elem_of_In.
        -- rewrite Ex. by apply IH.
    + intros t Ht. unfold update_rows in Ht. apply list_elem_of_In, in_map_iff in Ht as (x & <- & Hx).
      exists x. split; [by apply list_elem_of_In|]. by destruct (has_key token_id (token_id row) x).
  - exists v. rewrite Hnone. split_and!; eauto.
Qed.

(** The token of a set: the one it has, or a fresh one. *)
Lemma get_or_create_token_spec tenant connector name v :
  wf_vault v ->
  (forall t, t ∈ credential_tokens v -> ct_token t <> "ctok_" ++ token_urlsafe (draws v)) ->
  exists t v', get_or_create_token tenant connector name v = (Ok t, v')
    /\ credentials v' = credentials v
    /\ (forall t0, List.find (has_key token_id (tenant, connector, name)) (credential_tokens v) = Some t0 -> t = t0).
Proof.
  intros (_ & Hi & _) Hfresh.
  unfold get_or_create_token, select_token, generate_credential_token, draw, insert_token, get_st, lift,
    mbind, EM_bind, mret, EM_ret. rewrite scalar_unique by done.
  destruct (List.find (has_key token_id (tenant, connector, name)) (credential_tokens v)) as [row|] eqn:E.
  - exists row, v. split_and!; [done|done|congruence].
  - cbn -[has_key token_id]. destruct (existsb _ (credential_tokens v)) eqn:Ex.
    + apply existsb_exists in Ex as (x & Hx & Hkx). apply orb_true_iff in Hkx as [Hkx|Hkx].
      * apply (List.find_none _ _ E) in Hx. unfold token_id in Hkx at 2. cbn -[has_key] in Hkx. congruence.
      * apply String.eqb_eq in Hkx. apply list_elem_of_In in Hx. by apply Hfresh in Hx.
    + eexists _, _. split; [reflexivity|]. by split.
Qed.

(** ** The endpoints *)

Lemma reprovision_ok tenant body s :
  exists b s', reprovision tenant body s = (Ok b, s')
    /\ as_vault s' = as_vault s /\ as_workflows s' = as_workflows s.
Proof.
  unfold reprovision. destruct (get_by_name reg (connector_name body)) as [|m ms]; [by exists false, s|].
  destruct (String.eqb _ "account"); [|by exists false, s].
  unfold try_catch, in_vault, within, retrieve_all, get_st, lift, mbind, EM_bind, mret, EM_ret.
  destruct (mapR _ _) as [creds|e]; cbn -[ensure_account_generic dict_of]; [|by eexists _, _].
  destruct (dict_of creds); [by eexists _, _|].
  destruct (ensure_account_generic _ _ _ _ _ _) as [[x|f] sent]; by eexists _, _.
Qed.

Lemma draws_store n tenant connector key value name :
  preserves (fun v => (n <= draws v)%nat) (store raw_key tenant connector key value name).
Proof.
  unfold store, encrypt, select_credential. preserve; try (apply preserves_modify; done).
  intros v Hv. cbn. lia.
Qed.

Lemma draws_store_all n tenant connector name items :
  preserves (fun v => (n <= draws v)%nat) (store_all tenant connector name items).
Proof. unfold store_all. preserve. apply draws_store. Qed.

Lemma draws_delete n tenant connector key name :
  preserves (fun v => (n <= draws v)%nat) (delete tenant connector key name).
Proof. unfold delete. preserve. by apply preserves_modify. Qed.

Lemma draws_rename n tenant connector old name :
  preserves (fun v => (n <= draws v)%nat) (rename_token tenant connector old name).
Proof.
  unfold rename_token, select_token, integrity_error. preserve. by apply preserves_modify.
Qed.

(** Future tokens are new. *)
Definition tokens_fresh (v : VaultDB) : Prop :=
  forall t m, t ∈ credential_tokens v -> (draws v <= m)%nat -> ct_token t <> "ctok_" ++ token_urlsafe m.

(** The values the caller asks to change: neither empty nor the mask. *)
Definition is_submitted (value : string) : bool :=
  negb (String.eqb value "") && negb (String.eqb value CREDENTIAL_MASK).

Lemma dget_submitted k creds :
  NoDup (dkeys creds) ->
  dget k (submitted_credential_values creds) =
  match dget k creds with Some x => if is_submitted x then Some x else None | None => None end.
Proof.
  unfold submitted_credential_values. induction creds as [|[k0 x0] creds IH]; cbn; [done|].
  intros [Hn Hnd]%list.NoDup_cons. change (negb (String.eqb x0 "") && negb (String.eqb x0 CREDENTIAL_MASK))
    with (is_submitted x0).
  destruct (String.eqb_spec k k0) as [->|Hk].
  - destruct (is_submitted x0); cbn; [by rewrite String.eqb_refl|].
    rewrite IH by done. by rewrite (proj2 (dget_None k0 creds)).
  - destruct (is_submitted x0); cbn; [rewrite (proj2 (String.eqb_neq k k0)) by done|]; by apply IH.
Qed.

Lemma NoDup_submitted creds : NoDup (dkeys creds) -> NoDup (dkeys (submitted_credential_values creds)).
Proof.
  unfold submitted_credential_values. induction creds as [|[k0 x0] creds IH]; cbn; [done|].
  intros [Hn Hnd]%list.NoDup_cons. destruct (_ && _); cbn; [|by apply IH].
  apply list.NoDup_cons. split; [|by apply IH]. intros Hk. apply Hn.
  apply elem_of_dkeys in Hk as [v Hv]. apply elem_of_dkeys. exists v.
  apply list_elem_of_In in Hv. apply filter_In in Hv as [Hv _]. by apply list_elem_of_In.
Qed.

(** Storing credentials without renaming always succeeds (tokens drawn are new): a
    submitted value replaces the stored one unless it is empty or the mask the
    interface shows in place of secrets, every other value of the set and every other
    set keep theirs. *)
Theorem store_credentials_keeps_masked tenant body s
    (Hwf : wf_vault (as_vault s)) (Hfresh : tokens_fresh (as_vault s))
    (Hnd : NoDup (dkeys (body_credentials body))) (Hren : rename_from body = None) :
  exists resp s', store_credentials tenant body s = (Ok resp, s')
    /\ as_workflows s' = as_workflows s
    /\ (forall k, value_of (tenant, connector_name body, credential_name body, k) (as_vault s') =
         match dget k (body_credentials body) with
         | Some x => if is_submitted x then Ok (Some x)
                     else value_of (tenant, connector_name body, credential_name body, k) (as_vault s)
         | None => value_of (tenant, connector_name body, credential_name body, k) (as_vault s)
         end)
    /\ forall t c n k, (t, c, n) <> (tenant, connector_name body, credential_name body) ->
         value_of (t, c, n, k) (as_vault s') = value_of (t, c, n, k) (as_vault s).
Proof.
  pose proof (NoDup_submitted _ Hnd) as Hnd'.
  destruct (store_all_spec tenant (connector_name body) (credential_name body) _ _ Hwf Hnd')
    as (v1 & E1 & Hwf1 & Ht1 & H1 & H2).
  destruct (get_or_create_token_spec tenant (connector_name body) (credential_name body) v1 Hwf1)
    as (t & v2 & E2 & Hc2 & _).
  { rewrite Ht1. intros t Ht. apply Hfresh; [done|].
    pose proof (draws_store_all (draws (as_vault s)) tenant (connector_name body) (credential_name body)
                  (submitted_credential_values (body_credentials body)) (as_vault s)) as Hd.
    rewrite E1 in Hd. by apply Hd. }
  unfold store_credentials, atomic, store_credentials_tx, in_vault, within, log_credential_audit, modify.
  unfold mbind, EM_bind, mret, EM_ret. rewrite Hren. rewrite E1. cbn [as_vault set_vault].
  rewrite E2. cbn [as_vault set_vault as_workflows as_audit as_sent].
  match goal with |- context [reprovision tenant body ?s2] =>
    destruct (reprovision_ok tenant body s2) as (b & s' & E3 & Hv & Hw) end.
  rewrite E3. eexists _, _. split; [reflexivity|]. split; [exact Hw|]. rewrite Hv. cbn [as_vault].
  assert (Hval : forall id, value_of id v2 = value_of id v1)
    by (intros id; unfold Vault.value_of; by rewrite Hc2).
  split.
  - intros k. rewrite Hval, H1, dget_submitted by done.
    destruct (dget k _) as [x|]; [by destruct (is_submitted x)|done].
  - intros t' c n k Hne. rewrite Hval. by apply H2.
Qed.

Lemma retrieve_all_state tenant connector name v creds :
  (retrieve_all raw_key tenant connector name v).1 = Ok creds ->
  retrieve_all raw_key tenant connector name v = (Ok creds, v).
Proof.
  unfold retrieve_all, get_st, lift, mbind, EM_bind, mret, EM_ret.
  destruct (mapR _ _); cbn; [by intros [= ->]|done].
Qed.

Lemma rename_from_ne body old :
  rename_from body = Some old -> old <> "" /\ old <> credential_name body.
Proof.
  unfold rename_from. destruct (old_credential_name body) as [[|a o]|]; try done.
  destruct (String.eqb_spec (String a o) (credential_name body)); [done|]. by intros [= <-].
Qed.

Lemma renamed_not_old connector old new n :
  old <> new -> uses_credential connector old (rename_in_node connector old new n) = false.
Proof.
  intros Hne. unfold uses_credential, rename_in_node.
  destruct (renamed_node connector old new n) as [n'|] eqn:E; cbn [default];
    unfold renamed_node in *; cbv zeta in *; destruct (_ && _) eqn:Ec in E; try discriminate E.
  - injection E as <-. cbn [id n_config n_type].
    assert (Eg : dget_or "credential_name" PNone (dset "credential_name" (PStr new) (n_config n)) = PStr new)
      by (unfold dget_or; by rewrite dget_dset_eq).
    rewrite Eg. cbn [py_eqb]. by rewrite (proj2 (String.eqb_neq new old)) by congruence.
  - cbn [id]. by rewrite Ec.
Qed.

(** Renaming a set of credentials, to a name that has no token yet, always succeeds
    when the old set can be read (tokens drawn are new): the new set holds the old
    values, overridden by the submitted ones; the old name holds nothing; the token of
    the old set is kept; no node of a workflow of the tenant refers to the old name. *)
Theorem rename_moves_credentials tenant body old old_creds s
    (Hwf : wf_vault (as_vault s)) (Hfresh : tokens_fresh (as_vault s))
    (Hnd : NoDup (dkeys (body_credentials body))) (Hren : rename_from body = Some old)
    (Hold : (retrieve_all raw_key tenant (connector_name body) old (as_vault s)).1 = Ok old_creds)
    (Hno : List.find (has_key token_id (tenant, connector_name body, credential_name body))
             (credential_tokens (as_vault s)) = None) :
  exists resp s', store_credentials tenant body s = (Ok resp, s')
    /\ (forall k, value_of (tenant, connector_name body, credential_name body, k) (as_vault s') =
         match dget k (submitted_credential_values (body_credentials body)) with
         | Some x => Ok (Some x)
         | None => match dget k old_creds with
                   | Some x => Ok (Some x)
                   | None => value_of (tenant, connector_name body, credential_name body, k) (as_vault s)
                   end
         end)
    /\ (forall k, value_of (tenant, connector_name body, old, k) (as_vault s') = Ok None)
    /\ (forall t, List.find (has_key token_id (tenant, connector_name body, old))
                    (credential_tokens (as_vault s)) = Some t -> sr_token resp = ct_token t)
    /\ forall w n, w ∈ as_workflows s' -> wr_tenant w = tenant -> n ∈ wr_nodes w ->
         uses_credential (connector_name body) old n = false.
Proof.
  destruct (rename_from_ne body old Hren) as [Hne Hne'].
  destruct (retrieve_all_lookup raw_key _ _ _ _ _ (proj1 Hwf) Hold) as [Hndo Hlook].
  pose proof (NoDup_submitted _ Hnd) as Hnd'.
  destruct (store_all_spec tenant (connector_name body) (credential_name body) _ _ Hwf
              (NoDup_dkeys_dmerge old_creds (submitted_credential_values (body_credentials body)) Hndo))
    as (v1 & E1 & Hwf1 & Ht1 & H1 & H2).
  destruct (delete_set_spec tenant (connector_name body) old v1 Hne) as (cnt & v2 & E2 & Ht2 & H3 & H4).
  pose proof (wf_delete tenant (connector_name body) None (Some old) v1 Hwf1) as Hwf2.
  rewrite E2 in Hwf2. cbn [snd] in Hwf2.
  destruct (rename_token_spec tenant (connector_name body) old (credential_name body) v2 Hwf2 Hne')
    as (v3 & E3 & Hc3 & Hf3 & Htok3); [by rewrite Ht2, Ht1|].
  pose proof (wf_rename_token tenant (connector_name body) old (credential_name body) v2 Hwf2) as Hwf3.
  rewrite E3 in Hwf3. cbn [snd] in Hwf3.
  destruct (get_or_create_token_spec tenant (connector_name body) (credential_name body) v3 Hwf3)
    as (t & v4 & E4 & Hc4 & Hrow).
  { intros t Ht. destruct (Htok3 t Ht) as (t0 & Ht0 & <-). apply Hfresh; [by rewrite <-Ht1, <-Ht2|].
    pose proof (draws_store_all (draws (as_vault s)) tenant (connector_name body) (credential_name body)
      (dmerge old_creds (submitted_credential_values (body_credentials body))) (as_vault s) (le_n _)) as D1.
    rewrite E1 in D1. pose proof (draws_delete _ tenant (connector_name body) None (Some old) v1 D1) as D2.
    rewrite E2 in D2. pose proof (draws_rename _ tenant (connector_name body) old (credential_name body) v2 D2) as D3.
    by rewrite E3 in D3. }
  unfold store_credentials, atomic, store_credentials_tx, in_vault, within, log_credential_audit, modify,
    propagate_credential_rename. unfold mbind, EM_bind, mret, EM_ret.
  rewrite Hren, (retrieve_all_state _ _ _ _ _ Hold). cbn [as_vault set_vault].
  rewrite E1. cbn [as_vault set_vault]. rewrite E2. cbn [as_vault set_vault as_workflows as_audit as_sent].
  rewrite E3. cbn [as_vault set_vault as_workflows as_audit as_sent]. rewrite E4.
  cbn [as_vault set_vault as_workflows as_audit as_sent].
  match goal with |- context [reprovision tenant body ?s2] =>
    destruct (reprovision_ok tenant body s2) as (b & s' & E5 & Hv & Hw) end.
  rewrite E5. eexists _, _. split; [reflexivity|]. rewrite Hv, Hw. cbn [as_vault as_workflows sr_token].
  assert (Hval : forall id, value_of id v4 = value_of id v2)
    by (intros id; unfold Vault.value_of; by rewrite Hc4, Hc3).
  split_and!.
  - intros k. rewrite Hval, H4 by congruence. rewrite H1, dget_dmerge by done. by destruct (dget k _).
  - intros k. by rewrite Hval, H3.
  - intros t0 Ht0. rewrite Ht2, Ht1, Ht0 in Hf3. by rewrite (Hrow _ Hf3).
  - intros w n Hin Hten Hn. apply list_elem_of_In, in_map_iff in Hin as (w0 & <- & _).
    destruct (String.eqb_spec (wr_tenant w0) tenant); [|done]. cbn in Hn.
    apply list_elem_of_In, in_map_iff in Hn as (n0 & <- & _). by apply renamed_not_old.
Qed.

(** Renaming a set over a name that already has a token always fails, and undoes
    everything. *)
Theorem rename_over_a_set_fails tenant body old old_creds row s
    (Hwf : wf_vault (as_vault s)) (Hnd : NoDup (dkeys (body_credentials body)))
    (Hren : rename_from body = Some old)
    (Hold : (retrieve_all raw_key tenant (connector_name body) old (as_vault s)).1 = Ok old_creds)
    (Htok : List.find (has_key token_id (tenant, connector_name body, old))
              (credential_tokens (as_vault s)) = Some row)
    (Hyes : is_Some (List.find (has_key token_id (tenant, connector_name body, credential_name body))
              (credential_tokens (as_vault s)))) :
  let '(r, s') := store_credentials tenant body s in
  r = Raise (OtherError "IntegrityError") /\ s' = undo s s'.
Proof.
  destruct (rename_from_ne body old Hren) as [Hne Hne'].
  destruct (retrieve_all_lookup raw_key _ _ _ _ _ (proj1 Hwf) Hold) as [Hndo _].
  destruct (store_all_spec tenant (connector_name body) (credential_name body) _ _ Hwf
              (NoDup_dkeys_dmerge old_creds (submitted_credential_values (body_credentials body)) Hndo))
    as (v1 & E1 & Hwf1 & Ht1 & _ & _).
  destruct (delete_set_spec tenant (connector_name body) old v1 Hne) as (cnt & v2 & E2 & Ht2 & _ & _).
  assert (E3 : rename_token tenant (connector_name body) old (credential_name body) v2
             = (Raise (OtherError "IntegrityError"), v2)).
  { unfold rename_token, select_token, get_st, lift, mbind, EM_bind.
    rewrite scalar_unique by (rewrite Ht2, Ht1; apply Hwf). rewrite Ht2, Ht1, Htok.
    rewrite (proj2 (String.eqb_neq old (credential_name body))) by done.
    destruct Hyes as [x Hx]. destruct (find_key_Some token_id _ _ _ Hx) as [Hk Hin].
    assert (Hex : existsb (has_key token_id (tenant, connector_name body, credential_name body))
                    (credential_tokens (as_vault s)) = true).
    { apply existsb_exists. exists x. split; [by apply list_elem_of_In|by apply (has_key_true token_id)]. }
    cbv beta iota. by rewrite Ht2, Ht1, Hex. }
  unfold store_credentials, atomic, store_credentials_tx, in_vault, within, propagate_credential_rename.
  unfold mbind, EM_bind, mret, EM_ret.
  rewrite Hren, (retrieve_all_state _ _ _ _ _ Hold). cbn [as_vault set_vault].
  rewrite E1. cbn [as_vault set_vault]. rewrite E2. cbn [as_vault set_vault as_workflows as_audit as_sent].
  rewrite E3. by split.
Qed.
End api.

(** ** Examples *)

Definition no_server : server_t := fun _ _ => inr (Raised (OtherError "ConnectError")).
Definition demo_uuid5 (name : string) : string := "uuid5:" ++ name.

Definition api_store := store_credentials "key" demo_uuid5 no_server [].

Definition demo_node : WNode :=
  Node "n1" "action" "Action"
    [("connector_name", PStr "allegro"); ("credential_name", PStr "default")].
Definition demo_api : api_state :=
  ApiState demo_vault [WorkflowRef "t1" "w1" "Orders" [demo_node]] [] [].

Lemma demo_vault_wf : wf_vault demo_vault.
Proof. split_and!; by_deciding. Qed.
Lemma demo_vault_fresh : tokens_fresh demo_vault.
Proof. intros t m Ht. by apply not_elem_of_nil in Ht. Qed.

Definition masked_body : CredentialStore :=
  MkCredentialStore "allegro" "default" None [("client_id", CREDENTIAL_MASK); ("client_secret", "s3")].

Lemma store_credentials_keeps_masked_witness :
  exists resp s', api_store "t1" masked_body demo_api = (Ok resp, s')
    /\ value_of "key" ("t1", "allegro", "default", "client_id") (as_vault s') = Ok (Some "abc")
    /\ value_of "key" ("t1", "allegro", "default", "client_secret") (as_vault s') = Ok (Some "s3").
Proof.
  destruct (store_credentials_keeps_masked "key" demo_uuid5 no_server [] "t1" masked_body demo_api)
    as (resp & s' & E & _ & H & _).
  - exact demo_vault_wf.
  - exact demo_vault_fresh.
  - by_deciding.
  - reflexivity.
  - exists resp, s'. split_and!; [exact E| |].
    + etransitivity; [exact (H "client_id")|by vm_compute].
    + etransitivity; [exact (H "client_secret")|by vm_compute].
Defined.

Definition renaming_body : CredentialStore :=
  MkCredentialStore "allegro" "production" (Some "default") [("client_secret", "s3")].

Lemma rename_moves_credentials_witness :
  exists resp s', api_store "t1" renaming_body demo_api = (Ok resp, s')
    /\ value_of "key" ("t1", "allegro", "production", "client_id") (as_vault s') = Ok (Some "abc")
    /\ value_of "key" ("t1", "allegro", "default", "client_id") (as_vault s') = Ok None.
Proof.
  destruct (rename_moves_credentials "key" demo_uuid5 no_server [] "t1" renaming_body "default"
              [("client_id", "abc")] demo_api) as (resp & s' & E & H1 & H2 & _).
  - exact demo_vault_wf.
  - exact demo_vault_fresh.
  - by_deciding.
  - reflexivity.
  - by vm_compute.
  - reflexivity.
  - exists resp, s'. split_and!; [exact E| |exact (H2 "client_id")].
    etransitivity; [exact (H1 "client_id")|by vm_compute].
Defined.

Definition two_sets : api_state :=
  set_vault (get_or_create_token "t1" "allegro" "production"
    (get_or_create_token "t1" "allegro" "default" demo_vault).2).2 demo_api.

Lemma rename_over_a_set_fails_witness :
  (api_store "t1" renaming_body two_sets).1 = Raise (OtherError "IntegrityError").
Proof.
  pose proof (rename_over_a_set_fails "key" demo_uuid5 no_server [] "t1" renaming_body "default"
    [("client_id", "abc")] (MkToken "t1" "allegro" "default" "ctok_token1" true) two_sets) as H.
  unfold api_store. destruct (store_credentials _ _ _ _ _ _ _) as [r s'].
  apply H.
  - split_and!; by_deciding.
  - by_deciding.
  - reflexivity.
  - by vm_compute.
  - by vm_compute.
  - vm_compute. by eexists.
Defined.
