(* ===== verification/Scheduler.v ===== *)
(** The scheduler of workflows: [platform/core/workflow_scheduler.py].  APScheduler is the
    class [JobScheduler], with its documented behaviour; the reading of a cron
    expression is a parameter. *)

From S2P Require Import Prelude PyText PyValue Effects Graph AuditTrail AllowList.

Local Open Scope string_scope.

(** Jobs by identifier; removing a job that does not exist is an error. *)
Class JobScheduler (store job : Type) := {
  add_job : string -> job -> store -> store;
  remove_job : string -> store -> option store;
  get_job : string -> store -> option job;
  get_add_job_eq : forall k j s, get_job k (add_job k j s) = Some j;
  get_add_job_ne : forall k k' j s, k <> k' -> get_job k (add_job k' j s) = get_job k s;
  remove_job_some : forall k s s', remove_job k s = Some s' ->
    get_job k s' = None /\ forall k', k' <> k -> get_job k' s' = get_job k' s;
  remove_job_none : forall k s, remove_job k s = None -> get_job k s = None
}.

(** A table that behaves so. *)
#[export] Program Instance map_scheduler {job} : JobScheduler (gmap string job) job := {
  add_job k j s := <[k := j]> s;
  remove_job k s := match s !! k with Some _ => Some (delete k s) | None => None end;
  get_job k s := s !! k
}.
Next Obligation. intros. apply lookup_insert_eq. Qed.
Next Obligation. intros. by apply lookup_insert_ne. Qed.
Next Obligation.
  intros job k s s'. cbv beta. destruct (s !! k); [|done]. intros [= <-].
  split; [apply lookup_delete_eq|]. intros k' Hk. by apply lookup_delete_ne.
Qed.
Next Obligation. intros job k s. cbv beta. by destruct (s !! k). Qed.

Section scheduler.
Context {trigger : Type}.

(** A job runs [_run_scheduled_workflow] on a workflow of a tenant. *)
Record scheduled_job := ScheduledJob { j_trigger : trigger; j_workflow : string; j_tenant : string }.

Context {store : Type} `{JobScheduler store scheduled_job}.

(** [CronTrigger(minute, hour, day, month, day_of_week, timezone)] of five fields, and
    [CronTrigger.from_crontab]; nothing is an exception. *)
Variables cron_trigger from_crontab : list string -> pyval -> option trigger.

Record sched := MkSched { jobs : list (string * string); aps : store }.

Definition job_id (workflow_id : string) : string := "wf_schedule_" ++ workflow_id.

(** [_get_schedule_config]. *)
Fixpoint get_schedule_config (nodes : list WNode) : option dict :=
  match nodes with
  | [] => None
  | n :: nodes' =>
      if String.eqb (n_type n) "trigger"
         && py_eqb (dget_or "trigger_type" PNone (n_config n)) (PStr "schedule")
      then Some (n_config n) else get_schedule_config nodes'
  end.

(** The trigger of a cron expression; what is not a text has no [split]. *)
Definition trigger_of (cron_expr tz : pyval) : option trigger :=
  match cron_expr with
  | PStr s => let parts := words s "" in
              if (length parts =? 5)%nat then cron_trigger parts tz else from_crontab parts tz
  | _ => None
  end.

(** The job the schedule of a workflow asks for. *)
Definition scheduled (w : workflow_row) : option scheduled_job :=
  config ← get_schedule_config (c_nodes (w_content w));
  let cron_expr := dget_or "cron" (PStr "") config in
  if truthy cron_expr then
    t ← trigger_of cron_expr (dget_or "timezone" (PStr "UTC") config);
    Some (ScheduledJob t (w_id w) (w_tenant w))
  else None.

(** [_register_if_scheduled]; a failure is logged. *)
Definition register_if_scheduled (w : workflow_row) (s : sched) : sched :=
  match scheduled w with
  | Some j => MkSched (dset (w_id w) (job_id (w_id w)) (jobs s)) (add_job (job_id (w_id w)) j (aps s))
  | None => s
  end.

(** [unregister_workflow]. *)
Definition unregister_workflow (workflow_id : string) (s : sched) : sched :=
  match dget workflow_id (jobs s) with
  | None => s
  | Some jid =>
      MkSched (ddel workflow_id (jobs s))
        (if String.eqb jid "" then aps s
         else match remove_job jid (aps s) with Some st => st | None => aps s end)
  end.

(** [register_workflow]. *)
Definition register_workflow (w : workflow_row) (s : sched) : sched :=
  let s := unregister_workflow (w_id w) s in
  if w_enabled w then register_if_scheduled w s else s.

(** [start]: the enabled workflows of every tenant. *)
Definition start (rows : list workflow_row) (s : sched) : sched :=
  fold_left (fun s w => register_if_scheduled w s) (List.filter w_enabled rows) s.

(** [list_scheduled]: the workflow, its job, and the tenant of the job while it is known;
    an empty tenant selects every job. *)
Definition list_scheduled (tenant_id : string) (s : sched) : list (string * string * option string) :=
  let listed (e : string * string) :=
    let job := get_job e.2 (aps s) in
    if negb (String.eqb tenant_id "")
       && match job with Some j => negb (String.eqb (j_tenant j) tenant_id) | None => true end
    then None else Some (e.1, e.2, j_tenant <$> job) in
  omap (M := list) listed (jobs s).

(** [_run_scheduled_workflow]: the workflow that is executed, with its trigger data. *)
Definition run_scheduled_workflow (rows : list workflow_row) (workflow_id now : string)
  : option (workflow_row * dict) :=
  w ← List.find (fun w => String.eqb (w_id w) workflow_id && w_enabled w) rows;
  config ← get_schedule_config (c_nodes (w_content w));
  Some (w, [("trigger_type", PStr "schedule"); ("scheduled_at", PStr now);
            ("cron_expression", dget_or "cron" (PStr "") config); ("workflow_id", PStr workflow_id)]).

(** ** The invariant *)

(** What a workflow should have: a job when it is enabled and scheduled. *)
Definition wanted_job (w : workflow_row) : option scheduled_job := if w_enabled w then scheduled w else None.

(** The table of jobs and APScheduler hold the same jobs. *)
Definition consistent (s : sched) : Prop :=
  NoDup (dkeys (jobs s))
  /\ (forall id jid, dget id (jobs s) = Some jid -> jid = job_id id)
  /\ (forall id, is_Some (get_job (job_id id) (aps s)) -> is_Some (dget id (jobs s))).

Lemma job_id_inj a b : job_id a = job_id b -> a = b.
Proof. unfold job_id. cbn. by intros [= ->]. Qed.

Lemma unregister_spec id s :
  consistent s ->
  consistent (unregister_workflow id s)
  /\ get_job (job_id id) (aps (unregister_workflow id s)) = None
  /\ dget id (jobs (unregister_workflow id s)) = None
  /\ (forall id', id' <> id ->
      get_job (job_id id') (aps (unregister_workflow id s)) = get_job (job_id id') (aps s)).
Proof.
  intros (Hnd & Hid & Hj). unfold unregister_workflow. destruct (dget id (jobs s)) as [jid|] eqn:E.
  - pose proof (Hid id jid E) as ->. change (String.eqb (job_id id) "") with false. cbv iota.
    set (st := match remove_job (job_id id) (aps s) with Some st => st | None => aps s end).
    assert (Hst : get_job (job_id id) st = None
              /\ forall id', id' <> id -> get_job (job_id id') st = get_job (job_id id') (aps s)).
    { subst st. destruct (remove_job (job_id id) (aps s)) as [st|] eqn:Er.
      - apply remove_job_some in Er as [H1 H2]. split; [done|]. intros id' Hne. apply H2. by intros ?%job_id_inj.
      - split; [by apply remove_job_none|done]. }
    destruct Hst as [Hn Ho]. clearbody st.
    cbn [jobs aps]. split; [|split; [done|split; [by apply dget_ddel_eq|done]]].
    split; [by apply NoDup_dkeys_ddel|]. split.
    + intros id' jid. cbn [jobs]. destruct (decide (id' = id)) as [->|Hne]; [by rewrite dget_ddel_eq|].
      rewrite dget_ddel_ne by done. apply Hid.
    + intros id' Hs. cbn [jobs aps] in *. destruct (decide (id' = id)) as [->|Hne]; [by rewrite Hn in Hs; destruct Hs|].
      rewrite dget_ddel_ne by done. apply Hj. by rewrite <- Ho.
  - split; [done|]. split; [|done]. destruct (get_job (job_id id) (aps s)) eqn:Eg; [|done].
    destruct (Hj id) as [x Hx]; [by rewrite Eg|]. congruence.
Qed.
Lemma register_if_scheduled_spec w s :
  consistent s -> get_job (job_id (w_id w)) (aps s) = None ->
  consistent (register_if_scheduled w s)
  /\ get_job (job_id (w_id w)) (aps (register_if_scheduled w s)) = scheduled w
  /\ (forall id, id <> w_id w ->
      get_job (job_id id) (aps (register_if_scheduled w s)) = get_job (job_id id) (aps s)).
Proof.
  intros (Hnd & Hid & Hj) Hn. unfold register_if_scheduled. destruct (scheduled w) as [j|]; [|done].
  cbn [jobs aps]. split; [|split; [apply get_add_job_eq|]].
  - split; [by apply NoDup_dkeys_dset|]. split; cbn [jobs aps].
    + intros id jid. rewrite dget_dset. destruct (String.eqb_spec id (w_id w)) as [->|]; [by intros [= <-]|apply Hid].
    + intros id Hs. rewrite dget_dset. destruct (String.eqb_spec id (w_id w)) as [->|Hne]; [done|].
      apply Hj. rewrite get_add_job_ne in Hs; [done|]. by intros ?%job_id_inj.
  - intros id Hne. apply get_add_job_ne. by intros ?%job_id_inj.
Qed.

Lemma register_workflow_spec w s :
  consistent s ->
  consistent (register_workflow w s)
  /\ get_job (job_id (w_id w)) (aps (register_workflow w s)) = wanted_job w
  /\ (forall id, id <> w_id w ->
      get_job (job_id id) (aps (register_workflow w s)) = get_job (job_id id) (aps s)).
Proof.
  intros Hc. destruct (unregister_spec (w_id w) s Hc) as (Hc1 & Hn & _ & Ho).
  unfold register_workflow, wanted_job. destruct (w_enabled w); [|done].
  destruct (register_if_scheduled_spec w _ Hc1 Hn) as (Hc2 & Hg & Ho2).
  split; [done|]. split; [done|]. intros id Hne. by rewrite Ho2, Ho.
Qed.

(** The jobs of a scheduler are those its workflows should have. *)
Definition follows (rows : list workflow_row) (s : sched) : Prop :=
  consistent s /\ forall id, get_job (job_id id) (aps s) =
    (List.find (fun w => String.eqb (w_id w) id) rows ≫= wanted_job).

Lemma start_follows rows s :
  NoDup (map w_id rows) -> consistent s -> (forall id, get_job (job_id id) (aps s) = None) ->
  follows rows (start rows s).
Proof.
  unfold start, follows. intros Hnd Hc Hn. cut (forall id, get_job (job_id id) (aps s) = None \/ id ∉ map w_id rows);
    [|by left; apply Hn].
  assert (Hbase : forall id, get_job (job_id id) (aps s) = (None : option scheduled_job)) by done.
  intros Hfree. cut (consistent (fold_left (fun s w => register_if_scheduled w s) (List.filter w_enabled rows) s)
    /\ forall id, get_job (job_id id) (aps (fold_left (fun s w => register_if_scheduled w s) (List.filter w_enabled rows) s))
       = match List.find (fun w => String.eqb (w_id w) id) rows ≫= wanted_job with
         | Some j => Some j | None => get_job (job_id id) (aps s) end).
  { intros [Hc' Hg]. split; [done|]. intros id. rewrite Hg, Hbase. by destruct (_ ≫= _). }
  clear Hn Hbase. revert s Hc Hfree. induction rows as [|w rows IH]; intros s Hc Hfree; [done|].
  cbn [map] in Hnd. apply list.NoDup_cons in Hnd as [Hni Hnd]. cbn [List.filter List.find].
  assert (Hw : get_job (job_id (w_id w)) (aps s) = None)
    by (destruct (Hfree (w_id w)) as [|Hx]; [done|]; exfalso; apply Hx; by left).
  assert (Hnone : List.find (fun x => String.eqb (w_id x) (w_id w)) rows = None).
  { destruct (List.find _ rows) as [x|] eqn:Ef; [|done]. apply find_some in Ef as [Hin Hx%String.eqb_eq].
    exfalso. apply Hni. rewrite <- Hx. by apply list_elem_of_In, in_map. }
  destruct (w_enabled w) eqn:Ew; cbn [fold_left].
  - destruct (register_if_scheduled_spec w s Hc Hw) as (Hc1 & Hg1 & Ho1).
    destruct (IH Hnd (register_if_scheduled w s) Hc1) as [Hc2 Hg2].
    { intros id. destruct (decide (id = w_id w)) as [->|Hne]; [by right|]. rewrite Ho1 by done.
      destruct (Hfree id) as [|Hx]; [by left|right]. intros Hin. apply Hx. by right. }
    split; [done|]. intros id. rewrite Hg2. destruct (String.eqb_spec (w_id w) id) as [<-|Hne].
    + rewrite Hnone, Hg1. cbn [mbind option_bind]. unfold wanted_job. rewrite Ew, Hw. by destruct (scheduled w).
    + by rewrite Ho1.
  - destruct (IH Hnd s Hc) as [Hc2 Hg2].
    { intros id. destruct (Hfree id) as [|Hx]; [by left|right]. intros Hin. apply Hx. by right. }
    split; [done|]. intros id. rewrite Hg2. destruct (String.eqb_spec (w_id w) id) as [<-|Hne]; [|done].
    rewrite Hnone. cbn [mbind option_bind]. unfold wanted_job. by rewrite Ew.
Qed.
End scheduler.
