(* ===== verification/OAuth.v ===== *)
(** OAuth2 tokens: [platform/core/oauth2_manager.py] on the vault and Redis, and the
    endpoints of [platform/api/gateway.py] that start and end an authorization.  The
    provider is a function from the requests sent so far and the new one to a response
    or an exception; SHA-256 and the formatting of replacement fields with
    conversions, format specifications, attributes or indices are parameters. *)

From S2P Require Import Prelude PyText PyValue Effects Base64 Registry Dispatcher Vault.

Local Open Scope string_scope.

(** ** Templates: [string.Formatter.parse] and [str.format_map] *)

Inductive format_item :=
  | Literal (text : string)
  | Placeholder (name : string) (rest : string).

(** The text up to the brace that closes a field, [depth] braces being open. *)
Fixpoint field_text (depth : nat) (s : string) : option (string * string) :=
  match s with
  | EmptyString => None
  | String c s' =>
      if Ascii.eqb c "}" then
        match depth with
        | O => Some ("", s')
        | S d => '(f, r) ← field_text d s'; Some (String c f, r)
        end
      else '(f, r) ← field_text (if Ascii.eqb c "{" then S depth else depth) s'; Some (String c f, r)
  end.

(** The name of a field ends at a conversion or a format specification. *)
Fixpoint field_name (s : string) : string * string :=
  match s with
  | EmptyString => ("", "")
  | String c s' =>
      if Ascii.eqb c "!" || Ascii.eqb c ":" then ("", s)
      else let '(n, r) := field_name s' in (String c n, r)
  end.

Fixpoint parse_format_go (fuel : nat) (s : string) : res (list format_item) :=
  match fuel, s with
  | O, _ | _, EmptyString => Ok []
  | S n, String c s' =>
      if Ascii.eqb c "{" then
        match s' with
        | EmptyString => Raise (ValueError "Single '{' encountered in format string")
        | String d s'' =>
            if Ascii.eqb d "{" then items ← parse_format_go n s''; Ok (Literal "{" :: items)
            else match field_text 0 s' with
                 | None => Raise (ValueError "expected '}' before end of string")
                 | Some (f, r) =>
                     items ← parse_format_go n r;
                     let '(name, rest) := field_name f in
                     if has_char "{" name then Raise (ValueError "unexpected '{' in field name")
                     else Ok (Placeholder name rest :: items)
                 end
        end
      else if Ascii.eqb c "}" then
        match s' with
        | String d s'' =>
            if Ascii.eqb d "}" then items ← parse_format_go n s''; Ok (Literal "}" :: items)
            else Raise (ValueError "Single '}' encountered in format string")
        | EmptyString => Raise (ValueError "Single '}' encountered in format string")
        end
      else items ← parse_format_go n s'; Ok (Literal (str1 c) :: items)
  end.
Definition parse_format (s : string) : res (list format_item) := parse_format_go (String.length s) s.

Definition field_names (items : list format_item) : list string :=
  omap (M := list) (fun i => match i with Placeholder (String _ _ as n) _ => Some n | _ => None end) items.

Class FormatLib := { format_field : dict -> string -> string -> res string }.

Section oauth2_config.
Context `{FormatLib}.

Definition format_item_text (context : dict) (i : format_item) : res string :=
  match i with
  | Literal t => Ok t
  | Placeholder name rest =>
      if str_forall is_digit name then Raise (ValueError "Format string contains positional fields")
      else if String.eqb rest "" && negb (has_char "." name) && negb (has_char "[" name)
      then match dget name context with Some v => Ok (py_str v) | None => Raise (KeyError name) end
      else format_field context name rest
  end.

Definition is_scalar (v : pyval) : bool :=
  match v with PStr _ | PInt _ | PFloat _ | PBool _ => true | _ => false end.

Definition resolve_text (context : dict) (value : string) : res pyval :=
  items ← parse_format value;
  match field_names items with
  | [] => Ok (PStr value)
  | fields =>
      match List.filter (fun f => negb (dhas f context)) fields with
      | [] => texts ← mapR (format_item_text context) items; Ok (PStr (str_join "" texts))
      | missing => Raise (ValueError ("Missing OAuth2 config values for: "
                                      ++ str_join ", " (stable_sort text_lt missing)))
      end
  end.

(** [_resolve]. *)
Fixpoint resolve_template (context : dict) (v : pyval) : res pyval :=
  match v with
  | PStr s => resolve_text context s
  | PDict d =>
      fields ← (fix go (d : dict) : res dict :=
                  match d with
                  | [] => Ok []
                  | (k, x) :: d' => y ← resolve_template context x; ys ← go d'; Ok ((k, y) :: ys)
                  end) d;
      Ok (PDict fields)
  | PList l => items ← mapR (resolve_template context) l; Ok (PList items)
  | _ => Ok v
  end.

(** [resolve_oauth2_config]. *)
Definition resolve_oauth2_config (config : dict) : res dict :=
  let context := List.filter (fun kv => is_scalar kv.2) config in
  mapR (fun kv => v ← resolve_template context kv.2; Ok (kv.1, v)) config.
End oauth2_config.

(** [urlencode]. *)
Definition plus_char (c : ascii) : string := if Ascii.eqb c " " then "+" else quote_char c.
Fixpoint quote_plus (s : string) : string :=
  match s with EmptyString => EmptyString | String c s' => plus_char c ++ quote_plus s' end.
Definition urlencode (params : list (string * pyval)) : string :=
  str_join "&" (map (fun kv => quote_plus kv.1 ++ "=" ++ quote_plus (py_str kv.2)) params).

(** ** Data *)

Record OAuthToken := MkOAuthToken {
  o_id : nat;
  o_tenant : string;
  o_connector : string;
  o_name : string;
  o_provider : string;
  o_access : string;
  o_refresh : option string;
  o_type : pyval;
  o_scope : pyval;
  o_expires_at : option Z;
  o_last_refreshed_at : option Z;
  o_refresh_count : Z;
  o_status : string;
  o_last_error : option string;
  o_created_at : Z
}.

(** A response of a provider: its status and its body as JSON. *)
Record TokenResponse := MkTokenResponse { tr_status : Z; tr_json : res pyval }.
Definition token_request : Type := string * dict.

(** The database, Redis, the time, and the requests sent to providers. *)
Record OAuthState (store : Type) := MkOAuthState {
  oa_vault : VaultDB;
  oa_tokens : list OAuthToken;
  oa_next : nat;
  oa_redis : store;
  oa_now : Z;
  oa_sent : list token_request
}.
Arguments MkOAuthState {store}.
Arguments oa_vault {store}. Arguments oa_tokens {store}. Arguments oa_next {store}.
Arguments oa_redis {store}. Arguments oa_now {store}. Arguments oa_sent {store}.

Definition PKCE_REDIS_PREFIX : string := "oauth2:pkce:".
Definition STATE_REDIS_PREFIX : string := "oauth2:state:".
Definition PKCE_TTL : Z := 600.
Definition STATE_TTL : Z := 600.

Section manager.
Context `{Cipher} `{FormatLib} {store : Type} `{KeyValue store string}.
Variables (raw_key : string) (has_redis : bool).
Variable sha256_digest : string -> string.
Variable provider : list token_request -> token_request -> res TokenResponse.
Abbreviation OA := (EM (OAuthState store)).

Definition set_oa_vault (v : VaultDB) (s : OAuthState store) : OAuthState store :=
  MkOAuthState v (oa_tokens s) (oa_next s) (oa_redis s) (oa_now s) (oa_sent s).
Definition set_oa_tokens (l : list OAuthToken) (s : OAuthState store) : OAuthState store :=
  MkOAuthState (oa_vault s) l (oa_next s) (oa_redis s) (oa_now s) (oa_sent s).
Definition set_oa_redis (r : store) (s : OAuthState store) : OAuthState store :=
  MkOAuthState (oa_vault s) (oa_tokens s) (oa_next s) r (oa_now s) (oa_sent s).

Definition with_vault {A} (m : EM VaultDB A) : OA A := within oa_vault set_oa_vault m.

(** ** The start and the end of an authorization *)

Definition redis_set_ex (key value : string) (ttl : Z) : OA unit :=
  modify (fun s => set_oa_redis (kv_set key value (oa_now s + ttl) (oa_redis s)) s).

Definition join_scopes (scopes : pyval) : res string :=
  items ← as_iter scopes;
  texts ← mapR (fun i => match i with
                        | PStr t => Ok t
                        | _ => Raise (TypeError "sequence item: expected str instance")
                        end) items;
  Ok (str_join " " texts).

(** The right-hand padding of base 64 is stripped. *)
Definition code_challenge_of (verifier : string) : string :=
  rstrip_by (fun c => Ascii.eqb c "=") (urlsafe_b64encode (sha256_digest verifier)).

Definition generate_authorization_url (oauth2_config : dict)
    (tenant connector callback_url name : string) : OA (string * string) :=
  resolved_config ← lift (resolve_oauth2_config oauth2_config);
  authorization_url ← lift (match dget "authorization_url" resolved_config with
                            | Some v => Ok v | None => Raise (KeyError "authorization_url") end);
  let client_id := dget_or "client_id" (PStr "") resolved_config in
  let scopes := dget_or "scopes" (PList []) resolved_config in
  if negb has_redis then raise (OtherError "OAuth2 state storage requires Redis to be configured")
  else
    n ← with_vault draw;
    let state := tenant ++ ":" ++ connector ++ ":" ++ name ++ ":" ++ token_urlsafe n in
    let params := [("response_type", PStr "code"); ("client_id", client_id);
                   ("redirect_uri", PStr callback_url); ("state", PStr state)] in
    params ← (if truthy scopes
              then (t ← lift (join_scopes scopes); mret (params ++ [("scope", PStr t)])%list)
              else mret params);
    params ← (if truthy (dget_or "pkce" PNone resolved_config) then
                m ← with_vault draw;
                let code_verifier := token_urlsafe m in
                _ ← redis_set_ex (PKCE_REDIS_PREFIX ++ state) code_verifier PKCE_TTL;
                mret (params ++ [("code_challenge", PStr (code_challenge_of code_verifier));
                                 ("code_challenge_method", PStr "S256")])%list
              else mret params);
    _ ← redis_set_ex (STATE_REDIS_PREFIX ++ state) "1" STATE_TTL;
    mret (py_str authorization_url ++ "?" ++ urlencode params, state).

(** The two exchanges of [validate_and_consume_state] with Redis. *)
Definition read_state (state : string) : OA (option string) :=
  gets (fun s => kv_get (oa_now s) (STATE_REDIS_PREFIX ++ state) (oa_redis s)).
Definition delete_state (state : string) : OA unit :=
  modify (fun s => set_oa_redis (kv_del (STATE_REDIS_PREFIX ++ state) (oa_redis s)) s).
Definition state_found (val : option string) : bool :=
  match val with Some v => negb (String.eqb v "") | None => false end.

Definition validate_and_consume_state (state : string) : OA bool :=
  if negb has_redis then raise (OtherError "OAuth2 state validation requires Redis to be configured")
  else
    val ← read_state state;
    if state_found val then (_ ← delete_state state; mret true) else mret false.

Definition retrieve_code_verifier (state : string) : OA (option string) :=
  if negb has_redis then mret None
  else
    verifier ← gets (fun s => kv_get (oa_now s) (PKCE_REDIS_PREFIX ++ state) (oa_redis s));
    _ ← (if state_found verifier
         then modify (fun s => set_oa_redis (kv_del (PKCE_REDIS_PREFIX ++ state) (oa_redis s)) s)
         else mret tt);
    mret verifier.

(** ** Requests to the provider *)

Definition post (url : string) (body : dict) : OA TokenResponse := fun s =>
  let r := (url, body) in
  (provider (oa_sent s) r,
   MkOAuthState (oa_vault s) (oa_tokens s) (oa_next s) (oa_redis s) (oa_now s) (oa_sent s ++ [r])%list).

Definition optional_field (k : string) (v : pyval) : dict := if truthy v then [(k, v)] else [].
Definition required (k : string) (v : pyval) : res pyval :=
  match v with
  | PDict d => match dget k d with Some x => Ok x | None => Raise (KeyError k) end
  | _ => Raise (TypeError "list indices must be integers or slices, not str")
  end.

(** The token endpoint and the identity of the client. *)
Definition endpoint (config : dict) : res (string * pyval * pyval) :=
  url ← required "token_url" (PDict config);
  Ok (py_str url, dget_or "client_id" (PStr "") config, dget_or "client_secret" (PStr "") config).

(** ** Tokens *)

Definition encrypt_value (v : pyval) : OA string :=
  match v with
  | PStr t => with_vault (encrypt raw_key t)
  | _ => raise (no_attribute "encode" v)
  end.

Definition decrypt_opt (c : option string) : res string := decrypt raw_key (default "" c).

(** [expires_at], for a truthy [expires_in]. *)
Definition expiry (now : Z) (expires_in : pyval) : res (option Z) :=
  if truthy expires_in then n ← py_int expires_in; Ok (Some (now + n)%Z) else Ok None.

(** [self._vault.store(...)] of an access or refresh token. *)
Definition store_secret (tenant connector key : string) (v : pyval) (name : string) : OA unit :=
  match v with
  | PStr t => _ ← with_vault (Vault.store raw_key tenant connector key t name); mret tt
  | _ => raise (no_attribute "encode" v)
  end.

(** [_store_token]. *)
Definition store_token (tenant connector name provider_name : string) (token_data : pyval) : OA OAuthToken :=
  access_token ← lift (required "access_token" token_data);
  data ← lift (dict_method "get" token_data);
  let refresh_token := dget_or "refresh_token" PNone data in
  s ← get_st;
  expires_at ← lift (expiry (oa_now s) (dget_or "expires_in" PNone data));
  access ← encrypt_value access_token;
  refresh ← (if truthy refresh_token then (r ← encrypt_value refresh_token; mret (Some r)) else mret None);
  let token := MkOAuthToken (oa_next s) tenant connector name provider_name access refresh
    (dget_or "token_type" (PStr "bearer") data) (dget_or "scope" PNone data) expires_at None 0 "active" None
    (oa_now s) in
  _ ← modify (fun s => MkOAuthState (oa_vault s) (oa_tokens s ++ [token])%list (S (oa_next s)) (oa_redis s)
                (oa_now s) (oa_sent s));
  _ ← store_secret tenant connector "access_token" access_token name;
  _ ← (if truthy refresh_token
       then store_secret tenant connector "refresh_token" refresh_token name else mret tt);
  mret token.

(** A change of the attributes of one row. *)
Definition on_token (id : nat) (f : OAuthToken -> OAuthToken) : OA unit :=
  modify (fun s => set_oa_tokens (update_rows (has_key o_id id) f (oa_tokens s)) s).

Definition set_access (c : string) (t : OAuthToken) : OAuthToken :=
  MkOAuthToken (o_id t) (o_tenant t) (o_connector t) (o_name t) (o_provider t) c (o_refresh t) (o_type t)
    (o_scope t) (o_expires_at t) (o_last_refreshed_at t) (o_refresh_count t) (o_status t) (o_last_error t)
    (o_created_at t).
Definition set_refresh (c : string) (t : OAuthToken) : OAuthToken :=
  MkOAuthToken (o_id t) (o_tenant t) (o_connector t) (o_name t) (o_provider t) (o_access t) (Some c) (o_type t)
    (o_scope t) (o_expires_at t) (o_last_refreshed_at t) (o_refresh_count t) (o_status t) (o_last_error t)
    (o_created_at t).
Definition set_expires (e : option Z) (t : OAuthToken) : OAuthToken :=
  MkOAuthToken (o_id t) (o_tenant t) (o_connector t) (o_name t) (o_provider t) (o_access t) (o_refresh t)
    (o_type t) (o_scope t) e (o_last_refreshed_at t) (o_refresh_count t) (o_status t) (o_last_error t)
    (o_created_at t).
Definition set_refreshed (now : Z) (t : OAuthToken) : OAuthToken :=
  MkOAuthToken (o_id t) (o_tenant t) (o_connector t) (o_name t) (o_provider t) (o_access t) (o_refresh t)
    (o_type t) (o_scope t) (o_expires_at t) (Some now) (o_refresh_count t + 1) "active" None (o_created_at t).
Definition set_state (status : string) (error : option string) (t : OAuthToken) : OAuthToken :=
  MkOAuthToken (o_id t) (o_tenant t) (o_connector t) (o_name t) (o_provider t) (o_access t) (o_refresh t)
    (o_type t) (o_scope t) (o_expires_at t) (o_last_refreshed_at t) (o_refresh_count t) status error
    (o_created_at t).
Definition set_oauth_status (status : string) (t : OAuthToken) : OAuthToken :=
  set_state status (o_last_error t) t.

(** [_update_token]: the attributes change one after the other; an exception leaves the
    earlier changes. *)
Definition update_token (t : OAuthToken) (token_data : pyval) : OA unit :=
  access_token ← lift (required "access_token" token_data);
  data ← lift (dict_method "get" token_data);
  let refresh_token := dget_or "refresh_token" PNone data in
  now ← gets oa_now;
  access ← encrypt_value access_token;
  _ ← on_token (o_id t) (set_access access);
  _ ← (if truthy refresh_token
       then (r ← encrypt_value refresh_token; on_token (o_id t) (set_refresh r)) else mret tt);
  _ ← (if truthy (dget_or "expires_in" PNone data)
       then (e ← lift (expiry now (dget_or "expires_in" PNone data)); on_token (o_id t) (set_expires e))
       else mret tt);
  _ ← on_token (o_id t) (set_refreshed now);
  _ ← store_secret (o_tenant t) (o_connector t) "access_token" access_token (o_name t);
  if truthy refresh_token
  then store_secret (o_tenant t) (o_connector t) "refresh_token" refresh_token (o_name t) else mret tt.

(** The row of an object, as the session sees it now. *)
Definition reload (t : OAuthToken) : OA OAuthToken :=
  gets (fun s => default t (List.find (has_key o_id (o_id t)) (oa_tokens s))).

Definition exchange_code (oauth2_config : dict) (tenant connector code callback_url name : string)
    (code_verifier : option string) : OA OAuthToken :=
  resolved_config ← lift (resolve_oauth2_config oauth2_config);
  '(token_url, client_id, client_secret) ← lift (endpoint resolved_config);
  let body := ([("grant_type", PStr "authorization_code"); ("code", PStr code);
                ("redirect_uri", PStr callback_url); ("client_id", client_id)]
               ++ optional_field "client_secret" client_secret
               ++ optional_field "code_verifier" (match code_verifier with Some v => PStr v | None => PNone end))%list in
  resp ← post token_url body;
  if (200 <=? tr_status resp)%Z && (tr_status resp <=? 299)%Z then
    token_data ← lift (tr_json resp);
    store_token tenant connector name connector token_data
  else raise (OtherError "HTTPStatusError").

Definition refresh_body (refresh : string) (client_id client_secret : pyval) : dict :=
  ([("grant_type", PStr "refresh_token"); ("refresh_token", PStr refresh); ("client_id", client_id)]
   ++ optional_field "client_secret" client_secret)%list.

Definition refresh_token (t : OAuthToken) (oauth2_config : dict) : OA OAuthToken :=
  refresh ← lift (decrypt_opt (o_refresh t));
  if String.eqb refresh "" then
    _ ← on_token (o_id t) (set_state "error" (Some "No refresh token available"));
    raise (ValueError "No refresh token available for refresh")
  else
    resolved_config ← lift (resolve_oauth2_config oauth2_config);
    '(token_url, client_id, client_secret) ← lift (endpoint resolved_config);
    resp ← post token_url (refresh_body refresh client_id client_secret);
    if (400 <=? tr_status resp)%Z then
      _ ← on_token (o_id t)
            (set_state "error" (Some ("Refresh failed: HTTP " ++ str_of_Z (tr_status resp))));
      raise (OtherError ("Token refresh failed with " ++ str_of_Z (tr_status resp)))
    else
      token_data ← lift (tr_json resp);
      _ ← update_token t token_data;
      reload t.

(** [_get_token]: the latest row of a set. *)
Definition find_token (tenant connector name : string) : OA (option OAuthToken) :=
  gets (fun s => hd_error (stable_sort (fun a b => (o_created_at b <? o_created_at a)%Z)
    (List.filter (fun t => String.eqb (o_tenant t) tenant && String.eqb (o_connector t) connector
                           && String.eqb (o_name t) name) (oa_tokens s)))).

Definition expired (now : Z) (t : OAuthToken) : bool :=
  match o_expires_at t with Some e => (e <=? now)%Z | None => false end.

Definition get_valid_access_token (tenant connector name : string) : OA (option string) :=
  token ← find_token tenant connector name;
  now ← gets oa_now;
  match token with
  | None => mret None
  | Some t =>
      if negb (String.eqb (o_status t) "active") || expired now t then mret None
      else v ← lift (decrypt raw_key (o_access t)); mret (Some v)
  end.

Definition get_or_refresh_access_token (tenant connector name : string) (oauth2_config : option dict)
  : OA (option string) :=
  token ← find_token tenant connector name;
  now ← gets oa_now;
  match token with
  | None => mret None
  | Some t =>
      if negb (String.eqb (o_status t) "active") then mret None
      else if negb (expired now t) then v ← lift (decrypt raw_key (o_access t)); mret (Some v)
      else
        match oauth2_config, o_refresh t with
        | Some ((_ :: _) as config), Some (String _ _) =>
            try_catch
              (refreshed ← refresh_token t config;
               v ← lift (decrypt raw_key (o_access refreshed)); mret (Some v))
              (fun _ => _ ← on_token (o_id t) (set_oauth_status "expired"); mret None)
        | _, _ => _ ← on_token (o_id t) (set_oauth_status "expired"); mret None
        end
  end.

Definition expiring_soon (now within_seconds : Z) (t : OAuthToken) : bool :=
  String.eqb (o_status t) "active"
  && match o_expires_at t with Some e => (e <=? now + within_seconds)%Z | None => false end
  && match o_refresh t with Some _ => true | None => false end.

Definition get_tokens_expiring_soon (within_seconds : Z) : OA (list OAuthToken) :=
  gets (fun s => List.filter (expiring_soon (oa_now s) within_seconds) (oa_tokens s)).

(** [get_token_status]: the status and the seconds left, if there is a token. *)
Definition get_token_status (tenant connector name : string)
  : OA (option (string * option Z * Z * option string)) :=
  token ← find_token tenant connector name;
  now ← gets oa_now;
  mret ((fun t => (o_status t, (fun e => Z.max 0 (e - now)) <$> o_expires_at t, o_refresh_count t,
                   o_last_error t)) <$> token).

Definition revoke_token (tenant connector name : string) : OA bool :=
  token ← find_token tenant connector name;
  match token with
  | None => mret false
  | Some t => _ ← on_token (o_id t) (set_oauth_status "revoked"); mret true
  end.

(** ** The endpoints of the gateway *)

Section endpoints.
Variables (reg : registry) (settings_base_url : string).

Definition manifest_oauth2 (m : ConnectorManifest) : dict :=
  match m_oauth2 m with
  | [] => match dget "oauth2" (m_validation m) with Some (PDict d) => d | _ => [] end
  | d => d
  end.

Definition callback_url : string := settings_base_url ++ "/api/v1/oauth2/callback".

(** [{**oauth2_config, **credentials}]. *)
Definition merged_config (config : dict) (creds : list (string * string)) : dict :=
  dmerge config (map (fun kv => (kv.1, PStr kv.2)) creds).

(** [except RuntimeError]. *)
Definition need_redis {A} (m : OA A) : OA A :=
  if has_redis then m else http_error 503 "OAuth2 state storage requires Redis to be configured".

(** [oauth2_authorize]: the URL and the state. *)
Definition oauth2_authorize (tenant connector name : string) : OA (string * string) :=
  match get_by_name reg connector with
  | [] => http_error 404 ("Connector '" ++ connector ++ "' not found")
  | manifest :: _ =>
      match manifest_oauth2 manifest with
      | [] => http_error 400 ("Connector '" ++ connector ++ "' does not support OAuth2")
      | config =>
          creds ← with_vault (retrieve_all raw_key tenant connector name);
          value_error_as 400 (need_redis
            (generate_authorization_url (merged_config config creds) tenant connector callback_url name))
      end
  end.

(** [oauth2_callback]: the connector and the id of the token. *)
Definition oauth2_callback (code state : string) : OA (string * nat) :=
  match split_max ":" 3 state with
  | tenant_id_str :: connector :: name :: _ =>
      match parse_uuid tenant_id_str with
      | None => http_error 400 "Invalid tenant in state"
      | Some tenant =>
          state_valid ← need_redis (validate_and_consume_state state);
          if negb state_valid then http_error 403 "Invalid or expired OAuth2 state"
          else
            match get_by_name reg connector with
            | [] => http_error 404 ("Connector '" ++ connector ++ "' not found")
            | manifest :: _ =>
                match manifest_oauth2 manifest with
                | [] => http_error 400 "Connector does not support OAuth2"
                | config =>
                    creds ← with_vault (retrieve_all raw_key tenant connector name);
                    code_verifier ← retrieve_code_verifier state;
                    token ← value_error_as 400
                      (exchange_code (merged_config config creds) tenant connector code callback_url name
                         code_verifier);
                    mret (connector, o_id token)
                end
            end
      end
  | _ => http_error 400 "Invalid state parameter"
  end.
End endpoints.

(** ** States are accepted once *)

(** The same database and Redis at another time. *)
Definition at_time (n : Z) (s : OAuthState store) : OAuthState store :=
  MkOAuthState (oa_vault s) (oa_tokens s) (oa_next s) (oa_redis s) n (oa_sent s).

Lemma generate_writes_state config tenant connector url name s link state s' :
  generate_authorization_url config tenant connector url name s = (Ok (link, state), s') ->
  exists r, oa_redis s' = kv_set (STATE_REDIS_PREFIX ++ state) "1" (oa_now s + STATE_TTL) r.
Proof.
  unfold generate_authorization_url, with_vault, within, draw, redis_set_ex, modify, lift, raise,
    mbind, EM_bind, mret, EM_ret. intros Hg.
  destruct (resolve_oauth2_config config) as [cfg|]; [|discriminate Hg].
  destruct (dget "authorization_url" cfg); [|discriminate Hg].
  destruct (negb has_redis); [discriminate Hg|].
  destruct (truthy (dget_or "scopes" (PList []) cfg)); [destruct (join_scopes _); [|discriminate Hg]|];
    (destruct (truthy (dget_or "pkce" PNone cfg)); injection Hg as <- <- <-;
     cbn [oa_redis oa_now set_oa_redis set_oa_vault]; eexists; reflexivity).
Qed.

(** What callbacks with the same state do to Redis, in any interleaving: each reads the state, and
    one that found it deletes it later. *)
Inductive state_exchange := ReadsAt (t : Z) | Deletes.
Definition perform_exchange (state : string) (s : OAuthState store) (x : state_exchange) : OAuthState store :=
  match x with
  | ReadsAt t => (read_state state (at_time t s)).2
  | Deletes => (delete_state state s).2
  end.
Definition is_deletion (x : state_exchange) : bool := match x with Deletes => true | _ => false end.

Lemma exchanges_keep state xs s n r (expires : Z) :
  oa_redis s = kv_set (STATE_REDIS_PREFIX ++ state) "1" expires r \/ (exists r', oa_redis s = kv_del (STATE_REDIS_PREFIX ++ state) r') ->
  let s' := fold_left (perform_exchange state) xs s in
  kv_get n (STATE_REDIS_PREFIX ++ state) (oa_redis s')
  = if existsb is_deletion xs then None else kv_get n (STATE_REDIS_PREFIX ++ state) (oa_redis s).
Proof.
  revert s. induction xs as [|x xs IH]; intros s Hs; [done|]. cbn [fold_left existsb]. cbv zeta in IH.
  destruct x as [t|]; cbn [is_deletion orb].
  - rewrite IH by exact Hs. done.
  - rewrite IH by (right; by eexists). cbn. rewrite kv_get_del_eq. by destruct (existsb _ xs).
Qed.

(** C34: The state of an authorization is good for ten minutes and for the callbacks that read it before one of them
    has deleted it: whatever was read and deleted before, it is found exactly during ten minutes and before
    the first deletion.  Of validations that do not overlap, the first in this time
    is accepted, and every later one is refused. *)
Theorem state_accepted_once config tenant connector url name s link state s' n
    (Hredis : has_redis = true)
    (Hgen : generate_authorization_url config tenant connector url name s = (Ok (link, state), s')) :
  (forall before, exists val,
     (read_state state (at_time n (fold_left (perform_exchange state) before s'))).1 = Ok val
     /\ state_found val = (n <? oa_now s + STATE_TTL)%Z && negb (existsb is_deletion before))
  /\ let '(valid, s2) := validate_and_consume_state state (at_time n s') in
     valid = Ok (n <? oa_now s + STATE_TTL)%Z
     /\ forall m, (n <= m)%Z -> (validate_and_consume_state state (at_time m s2)).1 = Ok false.
Proof.
  apply generate_writes_state in Hgen as [r Hr]. split.
  - intros before. eexists. split; [reflexivity|]. cbn [oa_redis oa_now at_time].
    rewrite (exchanges_keep state before s' n r (oa_now s + STATE_TTL)) by (by left).
    destruct (existsb is_deletion before); [by rewrite andb_false_r|]. rewrite Hr, kv_get_set_eq, Z.leb_antisym.
    by destruct (n <? oa_now s + STATE_TTL)%Z.
  - unfold validate_and_consume_state, read_state, delete_state, gets, modify, at_time, mbind, EM_bind, mret, EM_ret.
    rewrite Hredis. cbn [negb oa_redis oa_now]. rewrite Hr, kv_get_set_eq, Z.leb_antisym.
    destruct (n <? oa_now s + STATE_TTL)%Z eqn:E; cbn [negb state_found].
    + split; [done|]. intros m _. cbn [oa_redis oa_now set_oa_redis]. by rewrite kv_get_del_eq.
    + split; [done|]. intros m Hm. cbn [oa_redis oa_now]. rewrite kv_get_set_eq.
      replace (oa_now s + STATE_TTL <=? m)%Z with true by (symmetry; apply Z.leb_le; lia). done.
Qed.

(** Two callbacks that read the state before either deletes it are both accepted. *)
Theorem overlapping_callbacks_accepted config tenant connector url name s link state s'
    (Hgen : generate_authorization_url config tenant connector url name s = (Ok (link, state), s')) :
  exists v1 v2 s2, (v1 ← read_state state; v2 ← read_state state; _ ← delete_state state;
                    _ ← delete_state state; mret (v1, v2)) (at_time (oa_now s) s') = (Ok (v1, v2), s2)
    /\ state_found v1 = true /\ state_found v2 = true.
Proof.
  apply generate_writes_state in Hgen as [r Hr].
  unfold read_state, delete_state, gets, modify, at_time, mbind, EM_bind, mret, EM_ret.
  cbn [oa_redis oa_now]. rewrite Hr, kv_get_set_eq.
  replace (oa_now s + STATE_TTL <=? oa_now s)%Z with false by (symmetry; apply Z.leb_gt; unfold STATE_TTL; lia).
  eexists _, _, _. split; [reflexivity|by split].
Qed.

(** ** The callback recovers what the state was made of *)

Lemma generate_state_text config tenant connector url name s link state s' :
  generate_authorization_url config tenant connector url name s = (Ok (link, state), s') ->
  state = tenant ++ ":" ++ connector ++ ":" ++ name ++ ":" ++ token_urlsafe (draws (oa_vault s)).
Proof.
  unfold generate_authorization_url, with_vault, within, draw, redis_set_ex, modify, lift, raise,
    mbind, EM_bind, mret, EM_ret. intros Hg.
  destruct (resolve_oauth2_config config) as [cfg|]; [|discriminate Hg].
  destruct (dget "authorization_url" cfg); [|discriminate Hg].
  destruct (negb has_redis); [discriminate Hg|].
  destruct (truthy (dget_or "scopes" (PList []) cfg)); [destruct (join_scopes _); [|discriminate Hg]|];
    (destruct (truthy (dget_or "pkce" PNone cfg)); by injection Hg as <- <- <-).
Qed.

(** The callback finds in the state the tenant, the connector and the set of
    credentials the authorization was started for, when none of them contains a colon. *)
Theorem callback_recovers_state config tenant connector url name s link state s'
    (Hgen : generate_authorization_url config tenant connector url name s = (Ok (link, state), s'))
    (Ht : has_no ":" tenant = true) (Hc : has_no ":" connector = true) (Hn : has_no ":" name = true) :
  exists rand, split_max ":" 3 state = [tenant; connector; name; rand].
Proof.
  apply generate_state_text in Hgen as ->.
  exists (token_urlsafe (draws (oa_vault s))). cbn [String.append].
  rewrite !split_max_app by done. by destruct (token_urlsafe (draws (oa_vault s))).
Qed.

(** ** Refreshing *)

(** A refresh of a token that has no refresh token raises while decrypting the empty
    text: nothing is written, so the row keeps its status and no error is recorded. *)
Theorem refresh_without_token_records_nothing t config s (Hnone : o_refresh t = None) :
  refresh_token t config s =
    (Raise (ValueError "Failed to decrypt credential — key mismatch or corrupted data"), s).
Proof.
  unfold refresh_token, decrypt_opt, lift, mbind, EM_bind. rewrite Hnone. unfold decrypt.
  cbn [default id]. change (urlsafe_b64decode "") with (Ok (A := string) "").
  unfold mbind, res_bind. cbn [str_take str_drop].
  pose proof (decrypt_short_nonce raw_key "" "" ltac:(cbn; lia)) as Hd.
  by destruct (aes_decrypt raw_key "" "").
Qed.

(** A row renewed at a time for some seconds, with an access token. *)
Definition renewed (now n : Z) (a : string) (x y : OAuthToken) : Prop :=
  o_id y = o_id x /\ o_status y = "active" /\ o_last_error y = None
  /\ o_refresh_count y = (o_refresh_count x + 1)%Z /\ o_expires_at y = Some (now + n)%Z
  /\ decrypt raw_key (o_access y) = Ok a.

Lemma encrypt_value_eq a s :
  encrypt_value (PStr a) s = (Ok (sealed raw_key (oa_vault s) a), set_oa_vault (drawn (oa_vault s)) s).
Proof. done. Qed.

(** A refresh changes the access and the refresh token of the vault only. *)
Definition keeps_other_keys (v v' : VaultDB) : Prop :=
  forall tenant connector name key, key <> "access_token" -> key <> "refresh_token" ->
    value_of raw_key (tenant, connector, name, key) v' = value_of raw_key (tenant, connector, name, key) v.

(** What is relied on of the answer to a refresh: an access token, a lifetime, and a new
    refresh token or none. *)
Definition good_answer (d : dict) (a : string) (n : Z) (new_refresh : option string) : Prop :=
  dget "access_token" d = Some (PStr a) /\ dget "expires_in" d = Some (PInt n) /\ n <> 0%Z
  /\ dget_or "refresh_token" PNone d = match new_refresh with Some r => PStr r | None => PNone end
  /\ new_refresh <> Some "".

Lemma store_secret_ok tenant connector key v name s :
  unique_rows credential_id (credentials (oa_vault s)) ->
  exists w, store_secret tenant connector key (PStr v) name s = (Ok tt, set_oa_vault w s)
    /\ unique_rows credential_id (credentials w)
    /\ forall id, value_of raw_key id w = if bool_decide (id = (tenant, connector, name, key))
                                          then Ok (Some v) else value_of raw_key id (oa_vault s).
Proof.
  intros Hu. destruct (store_lookup raw_key tenant connector key v name _ Hu) as (c & w & E & Hw & _ & Hv).
  exists w. split_and!; [|done|done].
  unfold store_secret, with_vault, within, mbind, EM_bind, mret, EM_ret. by rewrite E.
Qed.

Lemma update_token_ok t d a n new_refresh s :
  good_answer d a n new_refresh -> unique_rows credential_id (credentials (oa_vault s)) ->
  exists s' g, update_token t (PDict d) s = (Ok tt, s')
    /\ oa_tokens s' = update_rows (has_key o_id (o_id t)) g (oa_tokens s)
    /\ (forall x, renewed (oa_now s) n a x (g x))
    /\ value_of raw_key (o_tenant t, o_connector t, o_name t, "access_token") (oa_vault s') = Ok (Some a)
    /\ oa_now s' = oa_now s /\ unique_rows credential_id (credentials (oa_vault s'))
    /\ keeps_other_keys (oa_vault s) (oa_vault s').
Proof.
  intros (Ha & Hn & Hn0 & Hr & Hne) Hu.
  assert (Htn : truthy (PInt n) = true) by (cbn; by destruct n).
  assert (Hk : forall f, (forall x, o_id (f x) = o_id x) -> forall x,
            has_key o_id (o_id t) x = true -> has_key o_id (o_id t) (f x) = true).
  { intros f Hf x Hx. apply (has_key_true o_id) in Hx. apply (has_key_true o_id). by rewrite Hf. }
  unfold update_token, required, dict_method, lift, gets, expiry, on_token, modify. rewrite Ha.
  unfold mbind, EM_bind, mret, EM_ret. rewrite encrypt_value_eq. cbn [set_oa_vault set_oa_tokens oa_tokens oa_vault oa_now].
  assert (Hn' : dget_or "expires_in" PNone d = PInt n) by (unfold dget_or; by rewrite Hn).
  rewrite Hn', Htn, Hr. cbn [py_int res_bind]. destruct new_refresh as [r|].
  - assert (Htr : truthy (PStr r) = true) by (destruct r; [by destruct Hne|done]). rewrite Htr.
    cbv beta iota. rewrite encrypt_value_eq. cbn [set_oa_vault set_oa_tokens oa_tokens oa_vault oa_now].
    match goal with |- context [store_secret _ _ "access_token" _ _ ?s1] =>
      destruct (store_secret_ok (o_tenant t) (o_connector t) "access_token" a (o_name t) s1) as (w & E & Hw & Hv);
        [exact Hu|] end.
    rewrite E. cbn [set_oa_vault set_oa_tokens oa_tokens oa_vault oa_now].
    match goal with |- context [store_secret _ _ "refresh_token" _ _ ?s1] =>
      destruct (store_secret_ok (o_tenant t) (o_connector t) "refresh_token" r (o_name t) s1) as (w' & E' & Hw' & Hv');
        [exact Hw|] end.
    rewrite E'. eexists _, _. split; [reflexivity|]. cbn [set_oa_vault set_oa_tokens oa_tokens oa_vault oa_now].
    split; [rewrite !update_rows_compose by (by apply Hk); reflexivity|]. split; [|split; [|split; [done|split; [done|]]]].
    + intros x. split_and!; try done. unfold sealed. apply decrypt_encrypted.
    + rewrite Hv', bool_decide_eq_false_2 by congruence. cbn [oa_vault set_oa_vault].
      by rewrite Hv, bool_decide_eq_true_2.
    + intros t0 c0 n0 k0 Ka Kr. cbn [oa_vault set_oa_vault]. rewrite Hv', bool_decide_eq_false_2 by congruence.
      cbn [oa_vault set_oa_vault]. by rewrite Hv, bool_decide_eq_false_2 by congruence.
  - cbn [truthy].
    match goal with |- context [store_secret _ _ "access_token" _ _ ?s1] =>
      destruct (store_secret_ok (o_tenant t) (o_connector t) "access_token" a (o_name t) s1) as (w & E & Hw & Hv);
        [exact Hu|] end.
    rewrite E. eexists _, _. split; [reflexivity|]. cbn [set_oa_vault set_oa_tokens oa_tokens oa_vault oa_now].
    split; [rewrite !update_rows_compose by (by apply Hk); reflexivity|]. split; [|split; [|split; [done|split; [done|]]]].
    + intros x. split_and!; try done. unfold sealed. apply decrypt_encrypted.
    + by rewrite Hv, bool_decide_eq_true_2.
    + intros t0 c0 n0 k0 Ka Kr. cbn [oa_vault set_oa_vault]. by rewrite Hv, bool_decide_eq_false_2 by congruence.
Qed.

(** The configuration of a refresh, once resolved. *)
Definition refresh_endpoint (config : dict) : res (string * pyval * pyval) :=
  cfg ← resolve_oauth2_config config; endpoint cfg.

(** The request of a refresh: everything before the answer. *)
Lemma refresh_token_asks t config r url client_id client_secret s :
  decrypt_opt (o_refresh t) = Ok r -> r <> "" ->
  refresh_endpoint config = Ok (url, client_id, client_secret) ->
  refresh_token t config s =
    (resp ← post url (refresh_body r client_id client_secret);
     if (400 <=? tr_status resp)%Z then
       _ ← on_token (o_id t)
             (set_state "error" (Some ("Refresh failed: HTTP " ++ str_of_Z (tr_status resp))));
       raise (OtherError ("Token refresh failed with " ++ str_of_Z (tr_status resp)))
     else token_data ← lift (tr_json resp); _ ← update_token t token_data; reload t) s.
Proof.
  intros Hd Hne Hep. unfold refresh_token, lift, mbind at 1, EM_bind at 1. rewrite Hd.
  rewrite (proj2 (String.eqb_neq r "")) by done.
  unfold refresh_endpoint in Hep. apply bind_Ok_inv in Hep as (cfg & E1 & E2).
  rewrite E1. unfold mbind at 1, EM_bind at 1. unfold mbind at 1, EM_bind at 1. by rewrite E2.
Qed.

Lemma post_eq url body s resp :
  provider (oa_sent s) (url, body) = Ok resp ->
  exists s', post url body s = (Ok resp, s') /\ oa_tokens s' = oa_tokens s /\ oa_vault s' = oa_vault s
    /\ oa_now s' = oa_now s.
Proof. intros H2. eexists. unfold post. rewrite H2. by split_and!. Qed.

Lemma refresh_token_ok t config r url client_id client_secret d a n new_refresh s :
  unique_rows o_id (oa_tokens s) -> t ∈ oa_tokens s ->
  unique_rows credential_id (credentials (oa_vault s)) ->
  decrypt_opt (o_refresh t) = Ok r -> r <> "" ->
  refresh_endpoint config = Ok (url, client_id, client_secret) ->
  provider (oa_sent s) (url, refresh_body r client_id client_secret) = Ok (MkTokenResponse 200 (Ok (PDict d))) ->
  good_answer d a n new_refresh ->
  exists g s', refresh_token t config s = (Ok (g t), s')
    /\ oa_tokens s' = update_rows (has_key o_id (o_id t)) g (oa_tokens s)
    /\ (forall x, renewed (oa_now s) n a x (g x))
    /\ value_of raw_key (o_tenant t, o_connector t, o_name t, "access_token") (oa_vault s') = Ok (Some a)
    /\ oa_now s' = oa_now s /\ unique_rows credential_id (credentials (oa_vault s'))
    /\ keeps_other_keys (oa_vault s) (oa_vault s').
Proof.
  intros Hu Hin Hv Hd Hne Hep Hresp Hgood.
  rewrite (refresh_token_asks t config r url client_id client_secret s) by done.
  destruct (post_eq _ _ _ _ Hresp) as (s1 & E1 & Ht1 & Hv1 & Hn1).
  destruct (update_token_ok t d a n new_refresh s1 Hgood ltac:(by rewrite Hv1))
    as (s2 & g & E2 & Ht2 & Hg & Hval & Hn2 & Hu2 & Hk2).
  unfold mbind, EM_bind. rewrite E1. cbn [tr_status tr_json]. change (400 <=? 200)%Z with false.
  unfold lift. cbv beta iota. rewrite E2. rewrite Ht1, Hn1 in *.
  assert (Hf : List.find (has_key o_id (o_id t)) (oa_tokens s2) = Some (g t)).
  { rewrite Ht2, find_key_update by (intros x; apply (Hg x)). rewrite bool_decide_eq_true_2 by done.
    by rewrite (find_key_unique o_id (oa_tokens s) t). }
  exists g, s2. unfold reload, gets. rewrite Hf, <-Hv1. by split_and!.
Qed.

(** A refresh the provider answers with a new access token succeeds: the row becomes
    active, expires after the lifetime given, holds the new access token and counts one
    more refresh; the vault gives the new access token; no other row changes. *)
Theorem refresh_renews t config r url client_id client_secret d a n new_refresh s
    (Hu : unique_rows o_id (oa_tokens s)) (Hin : t ∈ oa_tokens s)
    (Hv : unique_rows credential_id (credentials (oa_vault s)))
    (Hd : decrypt_opt (o_refresh t) = Ok r) (Hne : r <> "")
    (Hep : refresh_endpoint config = Ok (url, client_id, client_secret))
    (Hresp : provider (oa_sent s) (url, refresh_body r client_id client_secret)
             = Ok (MkTokenResponse 200 (Ok (PDict d))))
    (Hgood : good_answer d a n new_refresh) :
  exists t' s', refresh_token t config s = (Ok t', s')
    /\ renewed (oa_now s) n a t t'
    /\ List.find (has_key o_id (o_id t)) (oa_tokens s') = Some t'
    /\ (forall i, i <> o_id t ->
         List.find (has_key o_id i) (oa_tokens s') = List.find (has_key o_id i) (oa_tokens s))
    /\ value_of raw_key (o_tenant t, o_connector t, o_name t, "access_token") (oa_vault s') = Ok (Some a).
Proof.
  destruct (refresh_token_ok t config r url client_id client_secret d a n new_refresh s)
    as (g & s' & E & Ht & Hg & Hval & _); [done..|].
  exists (g t), s'. split_and!; [done|apply Hg| | |done].
  - rewrite Ht, find_key_update by (intros x; apply (Hg x)). rewrite bool_decide_eq_true_2 by done.
    by rewrite (find_key_unique o_id (oa_tokens s) t).
  - intros i Hi. rewrite Ht, find_key_update by (intros x; apply (Hg x)).
    by rewrite bool_decide_eq_false_2.
Qed.

(** Any HTTP error of one refresh, a temporary one included, takes the token out of
    use for good: the row is marked as failed, the background refresher never selects
    it again, and asking for an access token gives nothing, without a request. *)
Theorem failed_refresh_is_final t config r url client_id client_secret code body s
    (Hu : unique_rows o_id (oa_tokens s)) (Hin : t ∈ oa_tokens s)
    (Hd : decrypt_opt (o_refresh t) = Ok r) (Hne : r <> "")
    (Hep : refresh_endpoint config = Ok (url, client_id, client_secret))
    (Hcode : (400 <= code)%Z)
    (Hresp : provider (oa_sent s) (url, refresh_body r client_id client_secret)
             = Ok (MkTokenResponse code body)) :
  exists e s' t', refresh_token t config s = (Raise e, s')
    /\ List.find (has_key o_id (o_id t)) (oa_tokens s') = Some t' /\ o_status t' = "error"
    /\ (forall now within, expiring_soon now within t' = false)
    /\ forall name cfg s2, (find_token (o_tenant t) (o_connector t) name s2).1 = Ok (Some t') ->
         get_or_refresh_access_token (o_tenant t) (o_connector t) name cfg s2 = (Ok None, s2).
Proof.
  rewrite (refresh_token_asks t config r url client_id client_secret s) by done.
  destruct (post_eq _ _ _ _ Hresp) as (s1 & E1 & Ht1 & _ & _).
  unfold mbind, EM_bind. rewrite E1. cbn [tr_status tr_json].
  replace (400 <=? code)%Z with true by (symmetry; by apply Z.leb_le).
  unfold on_token, modify, raise. eexists _, _, _. split; [reflexivity|]. cbn [oa_tokens set_oa_tokens].
  rewrite Ht1, find_key_update by done. rewrite bool_decide_eq_true_2 by done.
  rewrite (find_key_unique o_id (oa_tokens s) t) by done. split; [reflexivity|]. split; [done|]. split; [done|].
  intros name cfg s2 Hf. unfold get_or_refresh_access_token, find_token, gets, mbind, EM_bind, mret, EM_ret in *.
  cbn [fst] in Hf. injection Hf as Hf. by rewrite Hf.
Qed.
End manager.

(** ** Examples *)

#[export] Instance demo_format : FormatLib := {
  format_field context name rest := Raise (KeyError name)
}.

Definition demo_config : dict :=
  [("authorization_url", PStr "https://{shop}/authorize"); ("token_url", PStr "https://{shop}/token");
   ("shop", PStr "a.example"); ("client_id", PStr "me"); ("scopes", PList [PStr "read"; PStr "write"])].

Definition demo_oauth : OAuthState (gmap string (string * Z)) :=
  MkOAuthState (MkVaultDB [] [] 0) [] 0 ∅ 1000 [].

Example resolve_demo :
  resolve_oauth2_config demo_config =
  Ok [("authorization_url", PStr "https://a.example/authorize"); ("token_url", PStr "https://a.example/token");
      ("shop", PStr "a.example"); ("client_id", PStr "me"); ("scopes", PList [PStr "read"; PStr "write"])].
Proof. by vm_compute. Qed.

Example resolve_missing :
  resolve_oauth2_config [("token_url", PStr "https://{shop_url}/token")] =
  Raise (ValueError "Missing OAuth2 config values for: shop_url").
Proof. by vm_compute. Qed.

(** The credentials of a tenant are read as templates: a brace in a secret makes every
    authorization and refresh fail. *)
Example brace_in_secret :
  resolve_oauth2_config (dmerge demo_config [("client_secret", PStr "p{d")]) =
  Raise (ValueError "expected '}' before end of string").
Proof. by vm_compute. Qed.

Definition demo_authorize (name : string) :=
  generate_authorization_url true (fun _ => "digest") demo_config "t1" "shopify" "http://p/callback" name demo_oauth.

Example authorize_demo :
  (demo_authorize "default").1 =
  Ok ("https://a.example/authorize?response_type=code&client_id=me&redirect_uri=http%3A%2F%2Fp%2Fcallback&state=t1%3Ashopify%3Adefault%3Atoken0&scope=read+write",
      "t1:shopify:default:token0").
Proof. by vm_compute. Qed.

(** A set whose name holds a colon is taken for another one. *)
Example colon_in_name :
  split_max ":" 3 (match (demo_authorize "shop:pl").1 with Ok (_, st) => st | _ => "" end)
  = ["t1"; "shopify"; "shop"; "pl:token0"].
Proof. by vm_compute. Qed.

Lemma state_accepted_once_witness :
  let s' := (demo_authorize "default").2 in
  let '(valid, s2) := validate_and_consume_state true "t1:shopify:default:token0" (at_time 1599 s') in
  valid = Ok true
  /\ forall m, (1599 <= m)%Z ->
       (validate_and_consume_state true "t1:shopify:default:token0" (at_time m s2)).1 = Ok false.
Proof.
  exact (proj2 (state_accepted_once true (fun _ => "digest") demo_config "t1" "shopify" "http://p/callback" "default"
    demo_oauth _ "t1:shopify:default:token0" (demo_authorize "default").2 1599 eq_refl eq_refl)).
Defined.

Lemma overlapping_callbacks_accepted_witness :
  exists v1 v2 s2, (v1 ← read_state "t1:shopify:default:token0"; v2 ← read_state "t1:shopify:default:token0";
                    _ ← delete_state "t1:shopify:default:token0"; _ ← delete_state "t1:shopify:default:token0";
                    mret (v1, v2)) (at_time 1000 (demo_authorize "default").2) = (Ok (v1, v2), s2)
    /\ state_found v1 = true /\ state_found v2 = true.
Proof.
  exact (overlapping_callbacks_accepted true (fun _ => "digest") demo_config "t1" "shopify" "http://p/callback"
    "default" demo_oauth _ "t1:shopify:default:token0" (demo_authorize "default").2 eq_refl).
Defined.

Lemma callback_recovers_state_witness :
  exists rand, split_max ":" 3 "t1:shopify:default:token0" = ["t1"; "shopify"; "default"; rand].
Proof.
  exact (callback_recovers_state true (fun _ => "digest") demo_config "t1" "shopify" "http://p/callback" "default"
    demo_oauth _ "t1:shopify:default:token0" (demo_authorize "default").2 eq_refl eq_refl eq_refl eq_refl).
Defined.

Definition demo_token : OAuthToken :=
  MkOAuthToken 0 "t1" "shopify" "default" "shopify" (sealed "key" (MkVaultDB [] [] 0) "old")
    (Some (sealed "key" (MkVaultDB [] [] 0) "r1")) (PStr "bearer") PNone (Some 900%Z) None 0 "active" None 0.
Definition demo_tokens_state : OAuthState (gmap string (string * Z)) :=
  MkOAuthState (MkVaultDB [] [] 1) [demo_token] 1 ∅ 1000 [].
Definition demo_answer : dict := [("access_token", PStr "new"); ("expires_in", PInt 3600)].
Definition demo_provider (code : Z) : list token_request -> token_request -> res TokenResponse :=
  fun _ _ => Ok (MkTokenResponse code (Ok (PDict demo_answer))).

Lemma refresh_renews_witness :
  exists t' s', refresh_token "key" (demo_provider 200) demo_token demo_config demo_tokens_state = (Ok t', s')
    /\ o_expires_at t' = Some 4600%Z
    /\ value_of "key" ("t1", "shopify", "default", "access_token") (oa_vault s') = Ok (Some "new").
Proof.
  destruct (refresh_renews "key" (demo_provider 200) demo_token demo_config "r1" "https://a.example/token"
    (PStr "me") (PStr "") demo_answer "new" 3600 None demo_tokens_state) as (t' & s' & E & Hr & _ & _ & Hv).
  - by_deciding.
  - left.
  - by_deciding.
  - by vm_compute.
  - done.
  - by vm_compute.
  - reflexivity.
  - by split_and!.
  - exists t', s'. split_and!; [exact E|apply Hr|exact Hv].
Defined.

Lemma failed_refresh_is_final_witness :
  exists e s' t', refresh_token "key" (demo_provider 503) demo_token demo_config demo_tokens_state = (Raise e, s')
    /\ List.find (has_key o_id 0%nat) (oa_tokens s') = Some t'
    /\ forall now within, expiring_soon now within t' = false.
Proof.
  destruct (failed_refresh_is_final "key" (demo_provider 503) demo_token demo_config "r1" "https://a.example/token"
    (PStr "me") (PStr "") 503 (Ok (PDict demo_answer)) demo_tokens_state) as (e & s' & t' & E & Hf & _ & Hx & _).
  - by_deciding.
  - left.
  - by vm_compute.
  - done.
  - by vm_compute.
  - done.
  - reflexivity.
  - exists e, s', t'. by split_and!.
Defined.

Definition no_refresh_token : OAuthToken :=
  MkOAuthToken 0 "t1" "shopify" "default" "shopify" "" None (PStr "bearer") PNone (Some 900%Z) None 0 "active" None 0.

Lemma refresh_without_token_records_nothing_witness :
  refresh_token "key" (demo_provider 200) no_refresh_token demo_config demo_tokens_state =
    (Raise (ValueError "Failed to decrypt credential — key mismatch or corrupted data"), demo_tokens_state).
Proof.
  exact (refresh_without_token_records_nothing "key" (demo_provider 200) no_refresh_token demo_config
           demo_tokens_state eq_refl).
Defined.
