(* ===== verification/OAuthRefresher.v ===== *)
(** The background refresher of OAuth2 tokens: [platform/core/oauth2_refresher.py].
    One pass is modelled; the loop repeats it at an interval and logs its exceptions. *)

From S2P Require Import Prelude PyText PyValue Effects Base64 Registry Vault OAuth.

Local Open Scope string_scope.

Section refresher.
Context `{Cipher} `{FormatLib} {store : Type} `{KeyValue store string}.
Variable raw_key : string.
Variable provider : list token_request -> token_request -> res TokenResponse.
Variables (reg : registry) (has_vault : bool) (refresh_before : Z).
Abbreviation OA := (EM (OAuthState store)).

(** [_get_oauth2_config]; an empty block is no configuration. *)
Definition get_oauth2_config (connector : string) : option dict :=
  match get_by_name reg connector with
  | [] => None
  | manifest :: _ => match manifest_oauth2 manifest with [] => None | d => Some d end
  end.

(** A configured window: a positive [int]. *)
Definition configured_window (oauth2 : dict) : option Z :=
  match as_Z (dget_or "refresh_before_expiry_seconds" PNone oauth2) with
  | Some n => if (0 <? n)%Z then Some n else None
  | None => None
  end.

(** [_get_refresh_window]. *)
Definition get_refresh_window (connector : string) : Z :=
  match get_oauth2_config connector with
  | Some oauth2 => default refresh_before (configured_window oauth2)
  | None => refresh_before
  end.

Definition max_window : Z :=
  fold_left (fun w m => match configured_window (m_oauth2 m) with Some n => Z.max w n | None => w end)
    (get_all reg) refresh_before.

(** The configuration with the tenant's client. *)
Definition override_client (config : dict) (creds : list (string * string)) : dict :=
  let config := match dget "client_id" creds with Some v => dset "client_id" (PStr v) config | None => config end in
  match dget "client_secret" creds with Some v => dset "client_secret" (PStr v) config | None => config end.

Definition client_config (t : OAuthToken) (config : dict) : OA dict :=
  if has_vault then
    try_catch
      (creds ← with_vault (retrieve_all raw_key (o_tenant t) (o_connector t) (o_name t));
       mret (override_client config creds))
      (fun _ => mret config)
  else mret config.

(** The body of the loop: a failure is logged, and the next token is taken. *)
Definition refresh_one (t : OAuthToken) : OA unit :=
  match get_oauth2_config (o_connector t) with
  | None => mret tt
  | Some config =>
      merged ← client_config t config;
      try_catch (_ ← refresh_token raw_key provider t merged; mret tt) (fun _ => mret tt)
  end.

Definition due (now : Z) (t : OAuthToken) : bool :=
  expiring_soon now max_window t
  && match o_expires_at t with Some e => (e <=? now + get_refresh_window (o_connector t))%Z | None => false end.

(** [_refresh_expiring_tokens]. *)
Definition refresh_expiring_tokens : OA unit :=
  now ← gets oa_now;
  tokens ← get_tokens_expiring_soon max_window;
  for_each refresh_one
    (List.filter (fun t => match o_expires_at t with
                           | Some e => (e <=? now + get_refresh_window (o_connector t))%Z
                           | None => false end) tokens).

(** ** Every due token is renewed *)

(** What is relied on of the providers: each refresh is answered with a new access
    token that lasts. *)
Definition provider_answers : Prop :=
  forall log req, exists d a n new_refresh,
    provider log req = Ok (MkTokenResponse 200 (Ok (PDict d))) /\ good_answer d a n new_refresh /\ (0 < n)%Z.

(** The client of a token, as the vault holds it (or none, when the vault cannot be
    read). *)
Definition client_of (v : VaultDB) (t : OAuthToken) (creds : list (string * string)) : Prop :=
  creds = [] \/ forall key, key = "client_id" \/ key = "client_secret" ->
    value_of raw_key (o_tenant t, o_connector t, o_name t, key) v = Ok (dget key creds).

(** A token that can be refreshed: its refresh token is readable, and the configuration
    of its connector is complete for its client. *)
Definition refreshable (v : VaultDB) (t : OAuthToken) : Prop :=
  (exists r, decrypt_opt raw_key (o_refresh t) = Ok r /\ r <> "")
  /\ exists config, get_oauth2_config (o_connector t) = Some config
     /\ forall creds, client_of v t creds -> is_ok (refresh_endpoint (override_client config creds)) = true.

Lemma refreshable_kept v v' t :
  keeps_other_keys raw_key v v' -> refreshable v t -> refreshable v' t.
Proof.
  intros Hk (Hr & config & Hcfg & Hep). split; [done|]. exists config. split; [done|].
  intros creds [->|Hc]; apply Hep; [by left|right]. intros key Hkey. rewrite <-Hc by done. symmetry.
  apply Hk; by destruct Hkey as [->| ->].
Qed.

Lemma client_config_spec t config s :
  unique_rows credential_id (credentials (oa_vault s)) ->
  exists creds, client_config t config s = (Ok (override_client config creds), s)
    /\ client_of (oa_vault s) t creds.
Proof.
  intros Hu. unfold client_config. destruct has_vault; [|exists []; split; [done|by left]].
  unfold try_catch, with_vault, within, mbind, EM_bind, mret, EM_ret.
  assert (Hs : forall v, v = oa_vault s -> set_oa_vault v s = s) by (intros v ->; by destruct s).
  pose proof (retrieve_all_lookup raw_key (o_tenant t) (o_connector t) (o_name t) (oa_vault s)) as Hl.
  assert (H2 : (retrieve_all raw_key (o_tenant t) (o_connector t) (o_name t) (oa_vault s)).2 = oa_vault s).
  { unfold retrieve_all, get_st, lift, mbind, EM_bind, mret, EM_ret. by destruct (mapR _ _). }
  destruct (retrieve_all raw_key _ _ _ (oa_vault s)) as [[creds|e] v]; cbn [fst snd] in *; rewrite Hs by done.
  - exists creds. split; [done|]. right. intros key _. by apply Hl.
  - exists []. split; [done|by left].
Qed.

Definition sound_state (s : OAuthState store) : Prop :=
  unique_rows o_id (oa_tokens s) /\ unique_rows credential_id (credentials (oa_vault s)).

Lemma refresh_one_renews t s :
  provider_answers -> refreshable (oa_vault s) t -> sound_state s ->
  List.find (has_key o_id (o_id t)) (oa_tokens s) = Some t ->
  exists s' t' n a, refresh_one t s = (Ok tt, s') /\ sound_state s' /\ oa_now s' = oa_now s
    /\ keeps_other_keys raw_key (oa_vault s) (oa_vault s')
    /\ (0 < n)%Z /\ renewed raw_key (oa_now s) n a t t'
    /\ List.find (has_key o_id (o_id t)) (oa_tokens s') = Some t'
    /\ forall i, i <> o_id t ->
         List.find (has_key o_id i) (oa_tokens s') = List.find (has_key o_id i) (oa_tokens s).
Proof.
  intros Hp ((r & Hr & Hne) & config & Hcfg & Hep) [Hu Hv] Hf.
  unfold refresh_one. rewrite Hcfg. destruct (client_config_spec t config s Hv) as (creds & E & Hc).
  specialize (Hep creds Hc). destruct (refresh_endpoint (override_client config creds)) as [[[url cid] sec]|] eqn:Ee;
    [|done].
  destruct (Hp (oa_sent s) (url, refresh_body r cid sec)) as (d & a & n & nr & Hresp & Hgood & Hn).
  pose proof (find_key_Some o_id _ _ _ Hf) as [_ Hin].
  destruct (refresh_token_ok raw_key provider t (override_client config creds) r url cid sec d a n nr s)
    as (g & s' & Er & Ht & Hg & _ & Hnow & Hv' & Hk); [done..|].
  exists s', (g t), n, a. unfold try_catch, mbind, EM_bind, mret, EM_ret. rewrite E, Er.
  assert (Hid : forall x, o_id (g x) = o_id x) by (intros x; apply (Hg x)).
  split; [done|]. split.
  { split; [|done]. rewrite Ht. apply unique_update; [intros x _; apply Hid|done]. }
  split; [done|]. split; [done|]. split; [done|]. split; [apply Hg|]. split.
  - rewrite Ht, find_key_update by done. by rewrite bool_decide_eq_true_2, Hf.
  - intros i Hi. rewrite Ht, find_key_update by done. by rewrite bool_decide_eq_false_2.
Qed.

(** A renewed row: active for some time to come. *)
Definition renewed_in (s' : OAuthState store) (now : Z) (t : OAuthToken) : Prop :=
  exists t' e, List.find (has_key o_id (o_id t)) (oa_tokens s') = Some t'
    /\ o_status t' = "active" /\ o_expires_at t' = Some e /\ (now < e)%Z
    /\ o_refresh_count t' = (o_refresh_count t + 1)%Z.

Lemma refresh_all_renews ts s :
  provider_answers -> sound_state s -> NoDup (map o_id ts) ->
  (forall t, t ∈ ts -> refreshable (oa_vault s) t /\ List.find (has_key o_id (o_id t)) (oa_tokens s) = Some t) ->
  exists s', for_each refresh_one ts s = (Ok tt, s')
    /\ (forall t, t ∈ ts -> renewed_in s' (oa_now s) t)
    /\ forall i, i ∉ map o_id ts ->
         List.find (has_key o_id i) (oa_tokens s') = List.find (has_key o_id i) (oa_tokens s).
Proof.
  intros Hp. revert s. induction ts as [|t ts IH]; intros s Hs Hnd Hts.
  { exists s. split_and!; [done|by intros t Ht%not_elem_of_nil|done]. }
  cbn [map] in Hnd. apply list.NoDup_cons in Hnd as [Hni Hnd].
  destruct (Hts t) as [Hr Hf]; [left|].
  destruct (refresh_one_renews t s Hp Hr Hs Hf) as (s1 & t' & n & a & E1 & Hs1 & Hnow & Hk & Hn & Hren & Hf1 & Ho).
  destruct (IH s1 Hs1 Hnd) as (s2 & E2 & K1 & K2).
  { intros x Hx. destruct (Hts x) as [Hrx Hfx]; [by right|].
    split; [by apply (refreshable_kept (oa_vault s))|]. rewrite Ho; [done|].
    intros Hid. apply Hni. rewrite <-Hid. apply list_elem_of_In, in_map. by apply list_elem_of_In. }
  exists s2. cbn [for_each]. unfold mbind, EM_bind. rewrite E1. split_and!; [done| |].
  - intros x [->|Hx]%elem_of_cons; [|rewrite <-Hnow; by apply K1].
    destruct Hren as (_ & Hst & _ & Hc & He & _).
    exists t', (oa_now s + n)%Z. rewrite K2 by done. split_and!; [done|done|done|lia|done].
  - intros i Hi. cbn [map] in Hi. apply not_elem_of_cons in Hi as [Hi1 Hi2]. rewrite K2, Ho by done. done.
Qed.

(** C28: When every provider answers with a new token, and every token that is due (active and
    expiring within the window of its connector) can be refreshed, that is, its refresh token
    is readable and not empty, and its connector's configuration with the client of the
    tenant gives a refresh endpoint without placeholders: one pass of the refresher renews
    every due token, which is active again and expires later, and leaves the rows that are
    not due unchanged.  A connector whose token URL has a placeholder, as Shopify's, is not
    in the statement: the refresher never resolves it. *)
Theorem refresher_renews_due_tokens s
    (Hp : provider_answers) (Hs : sound_state s)
    (Hr : forall t, t ∈ oa_tokens s -> due (oa_now s) t = true -> refreshable (oa_vault s) t) :
  exists s', refresh_expiring_tokens s = (Ok tt, s')
    /\ (forall t, t ∈ oa_tokens s -> due (oa_now s) t = true -> renewed_in s' (oa_now s) t)
    /\ forall t, t ∈ oa_tokens s -> due (oa_now s) t = false ->
         List.find (has_key o_id (o_id t)) (oa_tokens s') = Some t.
Proof.
  set (ts := List.filter (due (oa_now s)) (oa_tokens s)).
  assert (Hrun : refresh_expiring_tokens s = for_each refresh_one ts s).
  { unfold refresh_expiring_tokens, get_tokens_expiring_soon, gets, mbind, EM_bind, ts.
    by rewrite filter_filter. }
  destruct Hs as [Hu Hv].
  assert (Hin : forall t, t ∈ ts <-> t ∈ oa_tokens s /\ due (oa_now s) t = true)
    by (intros t; unfold ts; by rewrite !list_elem_of_In, filter_In).
  destruct (refresh_all_renews ts s Hp (conj Hu Hv)) as (s' & E & K1 & K2).
  - unfold ts. clear -Hu. unfold unique_rows in Hu. induction (oa_tokens s) as [|t l IH]; cbn in *; [constructor|].
    apply list.NoDup_cons in Hu as [Hn Hu]. destruct (due (oa_now s) t); cbn; [|by apply IH].
    apply list.NoDup_cons. split; [|by apply IH]. intros Hx. apply Hn.
    apply list_elem_of_In, in_map_iff in Hx as (x & <- & Hx%filter_In).
    apply list_elem_of_In, in_map. tauto.
  - intros t [Ht Hd]%Hin. split; [by apply Hr|]. by apply (find_key_unique o_id).
  - exists s'. split_and!; [by rewrite Hrun| |].
    + intros t Ht Hd. apply K1, Hin. by split.
    + intros t Ht Hd. rewrite K2; [by apply (find_key_unique o_id)|].
      intros Hx. apply list_elem_of_In, in_map_iff in Hx as (x & Hid & Hx). apply list_elem_of_In, Hin in Hx as [Hx Hdx].
      assert (x = t) as -> by by apply (unique_inj o_id (oa_tokens s)). congruence.
Qed.
End refresher.

(** ** Examples *)

Definition shopify : ConnectorManifest :=
  Manifest "shopify" "ecommerce" "1.0.0" "Shopify" "" "" "" [] [] [] [] [] [] [] demo_config [] PNone "" "" []
    no_provisioning (MkHints [] []).
Definition demo_registry : registry := discover [shopify].

Lemma refresher_renews_due_tokens_witness :
  exists s', refresh_expiring_tokens "key" (demo_provider 200) demo_registry true 300 demo_tokens_state = (Ok tt, s')
    /\ renewed_in s' 1000 demo_token.
Proof.
  destruct (refresher_renews_due_tokens "key" (demo_provider 200) demo_registry true 300 demo_tokens_state)
    as (s' & E & Hren & _).
  - intros log req. exists demo_answer, "new", 3600%Z, None. by split_and!.
  - split; by_deciding.
  - intros t ->%list_elem_of_singleton _. split; [by exists "r1"; split; [vm_compute|]|].
    exists demo_config. split; [by vm_compute|]. intros creds Hc.
    assert (Hn : override_client demo_config creds = demo_config).
    { destruct Hc as [->|Hc]; [done|]. unfold override_client.
      assert (Hnone : forall key, key = "client_id" \/ key = "client_secret" -> dget key creds = None).
      { intros key Hkey. specialize (Hc key Hkey).
        change (Ok (A := option string) None = Ok (dget key creds)) in Hc. congruence. }
      by rewrite !Hnone by auto. }
    rewrite Hn. by vm_compute.
  - exists s'. split; [exact E|]. apply Hren; [left|by vm_compute].
Defined.
