(* ===== verification/Webhooks.v ===== *)
(** Webhook ingestion: [platform/core/webhook_ingestion.py] on the registry, the vault
    and Redis, and the tenant of a webhook ([platform/api/gateway.py]).  The JSON
    reader, HMAC in hexadecimal and the hash of API keys are parameters, and so is the
    processing of an event, which may depend on the calls made before. *)

From S2P Require Import Prelude PyText PyValue Effects Base64 Registry Vault.

Local Open Scope string_scope.

Record WebhookEvent := MkWebhookEvent {
  we_id : nat;
  we_tenant : string;
  we_connector : string;
  we_type : string;
  we_external_id : option string;
  we_payload : pyval;
  we_headers : list (string * string);
  we_signature_valid : option bool;
  we_status : string;
  we_error : option string;
  we_retry_count : Z;
  we_processed_at : option Z
}.

Definition set_we_status (status : string) (e : WebhookEvent) : WebhookEvent :=
  MkWebhookEvent (we_id e) (we_tenant e) (we_connector e) (we_type e) (we_external_id e) (we_payload e)
    (we_headers e) (we_signature_valid e) status (we_error e) (we_retry_count e) (we_processed_at e).
Definition set_we_processed (now : Z) (retries : Z) (e : WebhookEvent) : WebhookEvent :=
  MkWebhookEvent (we_id e) (we_tenant e) (we_connector e) (we_type e) (we_external_id e) (we_payload e)
    (we_headers e) (we_signature_valid e) "processed" None (we_retry_count e + retries) (Some now).
Definition set_we_failed (status error : string) (e : WebhookEvent) : WebhookEvent :=
  MkWebhookEvent (we_id e) (we_tenant e) (we_connector e) (we_type e) (we_external_id e) (we_payload e)
    (we_headers e) (we_signature_valid e) status (Some error) (we_retry_count e + 1) (we_processed_at e).

(** The database, Redis, the time, and the events given to the engines so far. *)
Record WebhookState (store : Type) := MkWebhookState {
  ws_vault : VaultDB;
  ws_events : list WebhookEvent;
  ws_next : nat;
  ws_redis : store;
  ws_now : Z;
  ws_calls : list WebhookEvent
}.
Arguments MkWebhookState {store}.
Arguments ws_vault {store}. Arguments ws_events {store}. Arguments ws_next {store}.
Arguments ws_redis {store}. Arguments ws_now {store}. Arguments ws_calls {store}.

(** What [ingest_webhook] answers. *)
Inductive ingest_result :=
  | Rejected (reason : string)
  | Duplicate (external_id : string)
  | Accepted (webhook_id : nat) (external_id : option string).

Definition DEDUP_TTL : Z := 86400.
Definition DEDUP_PREFIX : string := "webhook:dedup:".
Definition MAX_RETRIES_BEFORE_DLQ : Z := 3.

(** ** Signatures *)

Section signatures.
Variable hmac_hex : string -> string -> string -> string.

(** [_ALGORITHMS]: the hexadecimal HMAC of a key and a body, by the hash of the algorithm. *)
Definition ALGORITHMS : list (string * (string -> string -> string)) :=
  [("hmac-sha256", hmac_hex "sha256"); ("hmac-sha1", hmac_hex "sha1"); ("hmac-sha512", hmac_hex "sha512")].

(** The first of the three prefixes is dropped. *)
Definition clean_signature (signature : string) : string :=
  if starts_with "sha256=" signature then str_drop 7 signature
  else if starts_with "sha1=" signature then str_drop 5 signature
  else if starts_with "sha512=" signature then str_drop 7 signature
  else signature.

Definition verify_signature (body signature secret algorithm : string) : res bool :=
  match dget (py_lower algorithm) ALGORITHMS with
  | None => Ok false
  | Some algo_fn => compare_digest (algo_fn secret body) (clean_signature signature)
  end.

(** What a signature is: the hexadecimal HMAC of the body under the secret, by the hash the
    algorithm names, plain or after a prefix. *)
Definition signed_with (body signature secret algorithm : string) : Prop :=
  exists hash prefix, (py_lower algorithm, hash) ∈ [("hmac-sha256", "sha256"); ("hmac-sha1", "sha1"); ("hmac-sha512", "sha512")]
    /\ prefix ∈ [""; "sha256="; "sha1="; "sha512="] /\ signature = prefix ++ hmac_hex hash secret body.

Lemma starts_with_drop p s : starts_with p s = true -> s = p ++ str_drop (String.length p) s.
Proof.
  revert s. induction p as [|a p IH]; intros [|b s]; cbn; try done.
  intros [->%Ascii.eqb_eq E]%andb_true_iff. by rewrite <- (IH s E).
Qed.

Lemma cleaned signature : exists prefix, prefix ∈ [""; "sha256="; "sha1="; "sha512="]
  /\ signature = prefix ++ clean_signature signature.
Proof.
  pose proof (fun p => starts_with_drop p signature) as Hs.
  unfold clean_signature. destruct (starts_with "sha256=" signature) eqn:E1;
    [|destruct (starts_with "sha1=" signature) eqn:E2; [|destruct (starts_with "sha512=" signature) eqn:E3]].
  - exists "sha256=". split; [by_deciding|by apply (Hs "sha256=")].
  - exists "sha1=". split; [by_deciding|by apply (Hs "sha1=")].
  - exists "sha512=". split; [by_deciding|by apply (Hs "sha512=")].
  - exists "". split; [by_deciding|done].
Qed.

Lemma verified_is_signed body signature secret algorithm :
  verify_signature body signature secret algorithm = Ok true -> signed_with body signature secret algorithm.
Proof.
  unfold verify_signature, signed_with. destruct (cleaned signature) as (prefix & Hp & Hs).
  unfold ALGORITHMS. cbn [dget].
  destruct (String.eqb_spec (py_lower algorithm) "hmac-sha256") as [->|_];
    [|destruct (String.eqb_spec (py_lower algorithm) "hmac-sha1") as [->|_];
      [|destruct (String.eqb_spec (py_lower algorithm) "hmac-sha512") as [->|_]; [|done]]];
    intros H%compare_digest_equal; rewrite <- H in Hs.
  - exists "sha256", prefix. split; [by_deciding|done].
  - exists "sha1", prefix. split; [by_deciding|done].
  - exists "sha512", prefix. split; [by_deciding|done].
Qed.
End signatures.

(** ** The identity of an event *)

(** [isinstance(v, (str, int))]. *)
Definition is_str_or_int (v : pyval) : bool :=
  match v with PStr _ | PInt _ | PBool _ => true | _ => false end.

(** [payload[field]] on a value where [field in payload] holds. *)
Definition subscript (field : string) (payload : pyval) : res pyval :=
  match payload with
  | PDict d => match dget field d with Some v => Ok v | None => Raise (KeyError field) end
  | PStr _ => Raise (TypeError "string indices must be integers, not 'str'")
  | _ => Raise (TypeError "list indices must be integers or slices, not str")
  end.

Fixpoint payload_id (fields : list string) (payload : pyval) : res (option string) :=
  match fields with
  | [] => Ok None
  | field :: fields' =>
      present ← py_in (PStr field) payload;
      if (present : bool) then
        v ← subscript field payload;
        if is_str_or_int v then Ok (Some (py_str v)) else payload_id fields' payload
      else payload_id fields' payload
  end.

Definition ID_HEADERS : list string :=
  ["X-Webhook-Id"; "X-Request-Id"; "X-Event-Id"; "x-webhook-id"; "x-request-id"].
Definition ID_FIELDS : list string := ["id"; "event_id"; "message_id"; "webhook_id"].

(** [_extract_external_id]. *)
Definition extract_external_id (headers : list (string * string)) (payload : pyval) : res (option string) :=
  match List.find (fun k => dhas k headers) ID_HEADERS with
  | Some k => Ok (dget k headers)
  | None => payload_id ID_FIELDS payload
  end.

Definition dedup_key (connector event external_id : string) : string :=
  DEDUP_PREFIX ++ connector ++ ":" ++ event ++ ":" ++ external_id.

Section service.
Context `{Cipher} {store : Type} `{KeyValue store string}.
Variables (raw_key : string) (reg : registry).
Variable hmac_hex : string -> string -> string -> string.
Variable json_loads : string -> res pyval.
Variable process_event_fn : list WebhookEvent -> WebhookEvent -> res (Z * Z).
Abbreviation WH := (EM (WebhookState store)).

Definition set_ws_vault (v : VaultDB) (s : WebhookState store) : WebhookState store :=
  MkWebhookState v (ws_events s) (ws_next s) (ws_redis s) (ws_now s) (ws_calls s).
Definition set_ws_events (l : list WebhookEvent) (s : WebhookState store) : WebhookState store :=
  MkWebhookState (ws_vault s) l (ws_next s) (ws_redis s) (ws_now s) (ws_calls s).
Definition set_ws_redis (r : store) (s : WebhookState store) : WebhookState store :=
  MkWebhookState (ws_vault s) (ws_events s) (ws_next s) r (ws_now s) (ws_calls s).

(** [_get_manifest] and [_get_webhook_config]: an empty configuration is none. *)
Definition get_webhook_config (connector event : string) : option dict :=
  match get_by_name reg connector with
  | [] => None
  | manifest :: _ =>
      match dget event (m_webhooks manifest) with
      | Some (PDict ((_ :: _) as d)) => Some d
      | _ => None
      end
  end.

(** A header by its name or by its lower-case name; an empty one is missing. *)
Definition get_header (name : string) (headers : list (string * string)) : option string :=
  match dget name headers with
  | Some (String _ _ as v) => Some v
  | _ => match dget (py_lower name) headers with Some (String _ _ as v) => Some v | _ => None end
  end.

Definition config_text (key fallback : string) (config : dict) : string :=
  match dget key config with Some v => py_str v | None => fallback end.

(** [_verify]: [None] when the configuration asks for no signature. *)
Definition verify (config : dict) (body : string) (headers : list (string * string))
    (tenant connector : string) : WH (option bool) :=
  let sig_header := dget_or "signature_header" PNone config in
  if negb (truthy sig_header) then mret None
  else
    match get_header (py_str sig_header) headers with
    | None => mret (Some false)
    | Some signature =>
        secret ← within ws_vault set_ws_vault
                   (retrieve raw_key tenant connector (config_text "signature_key_field" "webhook_secret" config)
                      "default");
        match secret with
        | None | Some EmptyString => mret (Some false)
        | Some s =>
            valid ← lift (verify_signature hmac_hex body signature s
                            (config_text "signature_algorithm" "hmac-sha256" config));
            mret (Some valid)
        end
    end.

(** [_check_dedup] and [_mark_dedup]. *)
Definition check_dedup (connector event external_id : string) : WH bool :=
  gets (fun s => kv_exists (ws_now s) (dedup_key connector event external_id) (ws_redis s)).
Definition mark_dedup (connector event external_id : string) : WH unit :=
  modify (fun s => set_ws_redis
    (kv_set (dedup_key connector event external_id) "1" (ws_now s + DEDUP_TTL) (ws_redis s)) s).

Definition add_event (tenant connector event : string) (external_id : option string) (payload : pyval)
    (headers : list (string * string)) (sig_valid : option bool) : WH nat := fun s =>
  (Ok (ws_next s),
   MkWebhookState (ws_vault s)
     (ws_events s ++ [MkWebhookEvent (ws_next s) tenant connector event external_id payload headers sig_valid
                        "received" None 0 None])%list
     (S (ws_next s)) (ws_redis s) (ws_now s) (ws_calls s)).

(** An external id that counts: not empty. *)
Definition given_id (external_id : option string) : option string :=
  match external_id with Some (String _ _ as x) => Some x | _ => None end.

(** The signature check, or the reason of a rejection. *)
Definition check_signature (connector event body : string) (headers : list (string * string))
    (tenant : string) (require_signature : bool) : WH (option bool + string) :=
  match get_webhook_config connector event with
  | Some config =>
      sig_valid ← verify config body headers tenant connector;
      match sig_valid with
      | Some false => mret (inr "Invalid signature")
      | v => mret (inl v)
      end
  | None =>
      if require_signature
      then mret (inr "Webhook signature verification required but not configured for this event")
      else mret (inl None)
  end.

Definition ingest_webhook (connector event body : string) (headers : list (string * string))
    (tenant : string) (require_signature : bool) : WH ingest_result :=
  match json_loads body with
  | Raise _ => mret (Rejected "Invalid JSON payload")
  | Ok payload =>
      checked ← check_signature connector event body headers tenant require_signature;
      match checked with
      | inr reason => mret (Rejected reason)
      | inl sig_valid =>
          external_id ← lift (extract_external_id headers payload);
          match given_id external_id with
          | Some x =>
              is_dup ← check_dedup connector event x;
              if (is_dup : bool) then mret (Duplicate x)
              else
                id ← add_event tenant connector event external_id payload headers sig_valid;
                _ ← mark_dedup connector event x;
                mret (Accepted id external_id)
          | None =>
              id ← add_event tenant connector event external_id payload headers sig_valid;
              mret (Accepted id external_id)
          end
      end
  end.

(** ** Processing *)

Definition find_event (id : nat) : WH (option WebhookEvent) :=
  gets (fun s => List.find (has_key we_id id) (ws_events s)).

Definition on_event (id : nat) (f : WebhookEvent -> WebhookEvent) : WH unit :=
  modify (fun s => set_ws_events (update_rows (has_key we_id id) f (ws_events s)) s).

(** The call of the engines; the event is seen by later calls. *)
Definition call_engines (e : WebhookEvent) : WH (Z * Z) := fun s =>
  (process_event_fn (ws_calls s) e,
   MkWebhookState (ws_vault s) (ws_events s) (ws_next s) (ws_redis s) (ws_now s) (ws_calls s ++ [e])%list).

(** The status of an event after a failure, by the failures counted before. *)
Definition failure_status (e : WebhookEvent) : string :=
  if (MAX_RETRIES_BEFORE_DLQ <=? we_retry_count e + 1)%Z then "dead_letter" else "failed".

Definition process_webhook_async (id : nat) : WH unit :=
  event ← find_event id;
  match event with
  | None => mret tt
  | Some e =>
      try_catch
        (_ ← on_event id (set_we_status "processing");
         _ ← call_engines e;
         now ← gets ws_now;
         on_event id (set_we_processed now 0))
        (fun exc => on_event id (set_we_failed (failure_status e) (str_take 2000 (exn_str exc))))
  end.

Inductive replay_result := NotFound | Replayed (result : Z * Z) | ReplayFailed (error : string).

Definition replay_webhook (id : nat) : WH replay_result :=
  event ← find_event id;
  match event with
  | None => mret NotFound
  | Some e =>
      try_catch
        (_ ← on_event id (set_we_status "processing");
         result ← call_engines e;
         now ← gets ws_now;
         _ ← on_event id (set_we_processed now 1);
         mret (Replayed result))
        (fun exc =>
           _ ← on_event id (set_we_failed "failed" (str_take 2000 (exn_str exc)));
           mret (ReplayFailed (exn_str exc)))
  end.
End service.

(** ** The tenant of a webhook *)

Record ApiKey := MkApiKey { ak_hash : string; ak_tenant : string; ak_active : bool }.

(** The rows of connector instances this query reads. *)
Record instance_ref := InstanceRef { ir_tenant : string; ir_connector : string; ir_enabled : bool }.

(** [_resolve_webhook_tenant]: the tenant, and whether an API key gave it. *)
Definition resolve_webhook_tenant (hash_api_key : string -> string) (keys : list ApiKey)
    (instances : list instance_ref) (connector : string) (headers : list (string * string))
  : res (option (string * bool)) :=
  let inferred :=
    match remove_dups (map ir_tenant (List.filter (fun i => String.eqb (ir_connector i) connector && ir_enabled i)
                                        instances)) with
    | [t] => Ok (Some (t, false))
    | _ => Ok None
    end in
  match get_header "x-api-key" headers, get_header "X-API-Key" headers with
  | Some k, _ | None, Some k =>
      key ← scalar_one_or_none
              (List.filter (fun a => String.eqb (ak_hash a) (hash_api_key k) && ak_active a) keys);
      match key with Some a => Ok (Some (ak_tenant a, true)) | None => inferred end
  | None, None => inferred
  end.

Section facts.
Context `{Cipher} {store : Type} `{KeyValue store string}.
Variables (raw_key : string) (reg : registry).
Variable hmac_hex : string -> string -> string -> string.
Variable json_loads : string -> res pyval.
Variable process_event_fn : list WebhookEvent -> WebhookEvent -> res (Z * Z).
Abbreviation ingest := (ingest_webhook raw_key reg hmac_hex json_loads).
Abbreviation check := (check_signature raw_key reg hmac_hex).

Definition at_time (n : Z) (s : WebhookState store) : WebhookState store :=
  MkWebhookState (ws_vault s) (ws_events s) (ws_next s) (ws_redis s) n (ws_calls s).

(** The signature check reads only. *)
Lemma retrieve_state tenant connector key name v :
  (retrieve raw_key tenant connector key name v).2 = v.
Proof.
  unfold retrieve, select_credential, get_st, lift, mbind, EM_bind, mret, EM_ret.
  destruct (scalar_one_or_none _) as [[c|]|]; [by destruct (decrypt raw_key (cr_value c))|done|done].
Qed.

Lemma verify_state config body headers tenant connector (s : WebhookState store) :
  (verify raw_key hmac_hex config body headers tenant connector s).2 = s.
Proof.
  unfold verify. destruct (negb (truthy _)); [done|]. destruct (get_header _ headers); [|done].
  unfold within, mbind, EM_bind, mret, EM_ret.
  pose proof (retrieve_state tenant connector (config_text "signature_key_field" "webhook_secret" config)
                "default" (ws_vault s)) as E.
  destruct (retrieve _ _ _ _ _ (ws_vault s)) as [[x|e] v]; cbn in E; subst v.
  - destruct x as [[|a x]|]; [by destruct s| |by destruct s]. unfold lift.
    destruct (verify_signature _ _ _ _ _); by destruct s.
  - by destruct s.
Qed.

Lemma check_state connector event body headers tenant req (s : WebhookState store) :
  (check connector event body headers tenant req s).2 = s.
Proof.
  unfold check_signature. destruct (get_webhook_config reg connector event) as [config|]; [|by destruct req].
  pose proof (verify_state config body headers tenant connector s) as E.
  unfold mbind, EM_bind, mret, EM_ret.
  destruct (verify _ _ _ _ _ _ _ s) as [[[[]|]|e] s']; by cbn in E; subst.
Qed.

(** The course of [ingest_webhook] once the body is read and the signature checked. *)
Lemma ingest_checked connector event body headers tenant req (s : WebhookState store) payload sig :
  json_loads body = Ok payload ->
  (check connector event body headers tenant req s).1 = Ok (inl sig) ->
  ingest connector event body headers tenant req s =
    (external_id ← lift (extract_external_id headers payload);
     match given_id external_id with
     | Some x =>
         is_dup ← check_dedup connector event x;
         if (is_dup : bool) then mret (Duplicate x)
         else
           id ← add_event tenant connector event external_id payload headers sig;
           _ ← mark_dedup connector event x;
           mret (Accepted id external_id)
     | None =>
         id ← add_event tenant connector event external_id payload headers sig;
         mret (Accepted id external_id)
     end) s.
Proof.
  intros Hj Hc. unfold ingest_webhook. rewrite Hj. unfold mbind at 1, EM_bind at 1.
  pose proof (check_state connector event body headers tenant req s) as Hs.
  destruct (check connector event body headers tenant req s) as [r s']. cbn in Hc, Hs. by subst.
Qed.

(** A webhook whose signature check passes, with its external id. *)
Definition passes (connector event body : string) (headers : list (string * string)) (tenant : string)
    (req : bool) (x : string) (s : WebhookState store) : Prop :=
  exists payload sig, json_loads body = Ok payload
    /\ (check connector event body headers tenant req s).1 = Ok (inl sig)
    /\ extract_external_id headers payload = Ok (Some x).

Lemma ingest_passes connector event body headers tenant req x (s : WebhookState store) :
  passes connector event body headers tenant req x s -> x <> "" ->
  (kv_exists (ws_now s) (dedup_key connector event x) (ws_redis s) = true ->
   ingest connector event body headers tenant req s = (Ok (Duplicate x), s))
  /\ (kv_exists (ws_now s) (dedup_key connector event x) (ws_redis s) = false ->
      exists s', ingest connector event body headers tenant req s = (Ok (Accepted (ws_next s) (Some x)), s')
        /\ ws_redis s' = kv_set (dedup_key connector event x) "1" (ws_now s + DEDUP_TTL) (ws_redis s)).
Proof.
  intros (payload & sig & Hj & Hc & Hx) Hne. rewrite (ingest_checked _ _ _ _ _ _ _ payload sig) by done.
  unfold lift, check_dedup, gets, add_event, mark_dedup, modify, mbind, EM_bind, mret, EM_ret. rewrite Hx.
  destruct x as [|a x]; [done|]. cbn [given_id]. split; intros E; rewrite E; [done|].
  eexists. split; reflexivity.
Qed.

(** Within a day, a webhook with the external id of an accepted one, for the same
    connector and event, is answered as a duplicate and changes nothing, whichever
    tenant it is for; afterwards it is accepted again. *)
Theorem duplicates_within_a_day connector event x s id s1
    body1 headers1 tenant1 req1 body2 headers2 tenant2 req2 now
    (Hne : x <> "") (H1 : passes connector event body1 headers1 tenant1 req1 x s)
    (Hfirst : ingest connector event body1 headers1 tenant1 req1 s = (Ok (Accepted id (Some x)), s1))
    (H2 : passes connector event body2 headers2 tenant2 req2 x (at_time now s1)) :
  let second := ingest connector event body2 headers2 tenant2 req2 (at_time now s1) in
  if (now <? ws_now s + DEDUP_TTL)%Z
  then second = (Ok (Duplicate x), at_time now s1)
  else second.1 = Ok (Accepted (ws_next s1) (Some x)).
Proof.
  destruct (ingest_passes _ _ _ _ _ _ _ _ H1 Hne) as [Hdup Hacc].
  destruct (kv_exists (ws_now s) (dedup_key connector event x) (ws_redis s)) eqn:E.
  { rewrite (Hdup eq_refl) in Hfirst. discriminate Hfirst. }
  destruct (Hacc eq_refl) as (s' & Hs' & Hr). rewrite Hfirst in Hs'. injection Hs' as _ <-.
  destruct (ingest_passes _ _ _ _ _ _ _ _ H2 Hne) as [Hdup2 Hacc2]. unfold kv_exists in Hdup2, Hacc2.
  cbn [at_time ws_now ws_redis ws_next] in *. rewrite Hr, kv_get_set_eq, Z.leb_antisym in Hdup2, Hacc2.
  destruct (now <? ws_now s + DEDUP_TTL)%Z; cbn [negb] in *.
  - by apply Hdup2.
  - destruct (Hacc2 eq_refl) as (s2 & -> & _). done.
Qed.


(** A webhook for which a signature is required, because its tenant was only
    inferred, is accepted unsigned when the event has a configuration that names no
    signature header. *)
Theorem required_signature_skipped connector event body headers tenant (s : WebhookState store) payload x config
    (Hcfg : get_webhook_config reg connector event = Some config)
    (Hsig : truthy (dget_or "signature_header" PNone config) = false)
    (Hj : json_loads body = Ok payload) (Hx : extract_external_id headers payload = Ok (Some x)) (Hne : x <> "")
    (Hnew : kv_exists (ws_now s) (dedup_key connector event x) (ws_redis s) = false) :
  (ingest connector event body headers tenant true s).1 = Ok (Accepted (ws_next s) (Some x)).
Proof.
  assert (Hp : passes connector event body headers tenant true x s).
  { exists payload, None. split_and!; [done| |done]. unfold check_signature. rewrite Hcfg.
    unfold verify. by rewrite Hsig. }
  destruct (ingest_passes _ _ _ _ _ _ _ _ Hp Hne) as [_ Ha]. by destruct (Ha Hnew) as (s' & -> & _).
Qed.

(** Header names arrive in lower case, and the list of id headers has no lower-case
    form of [X-Event-Id]: this header is never read. *)
Theorem event_id_header_ignored headers payload v
    (Hlower : forall k, k ∈ dkeys headers -> py_lower k = k)
    (Hno : dhas "x-webhook-id" headers = false /\ dhas "x-request-id" headers = false) :
  extract_external_id (dset "x-event-id" v headers) payload = payload_id ID_FIELDS payload.
Proof.
  destruct Hno as [Hw Hr].
  assert (Hcase : forall k, py_lower k <> k -> dhas k headers = false).
  { intros k Hk. unfold dhas. destruct (dget k headers) eqn:E; [|done]. destruct Hk. apply Hlower.
    apply dget_Some_in in E. apply elem_of_dkeys. by eexists. }
  assert (Hset : forall k, k <> "x-event-id" -> dhas k (dset "x-event-id" v headers) = dhas k headers).
  { intros k Hk. unfold dhas. by rewrite dget_dset_ne. }
  unfold extract_external_id, ID_HEADERS. cbn [List.find].
  rewrite !Hset by done. rewrite Hw, Hr. by rewrite !Hcase by done.
Qed.

(** The end of one processing: an event the engines accept is processed, its error
    cleared and its failures kept; an event they refuse counts one more failure, and is
    a dead letter from the third on; other events are unchanged. *)
Theorem processing_ends id e (s : WebhookState store)
    (Hf : List.find (has_key we_id id) (ws_events s) = Some e) :
  let '(r, s') := process_webhook_async process_event_fn id s in
  let e' := List.find (has_key we_id id) (ws_events s') in
  r = Ok tt
  /\ match process_event_fn (ws_calls s) e with
     | Ok _ => e' = Some (set_we_processed (ws_now s) 0 e)
     | Raise exc => e' = Some (set_we_failed (if (2 <=? we_retry_count e)%Z then "dead_letter" else "failed")
                                 (str_take 2000 (exn_str exc)) e)
     end
  /\ forall i, i <> id -> List.find (has_key we_id i) (ws_events s') = List.find (has_key we_id i) (ws_events s).
Proof.
  assert (Hkeep : forall f rows i, (forall x, we_id (f x) = we_id x) ->
            List.find (has_key we_id i) (update_rows (has_key we_id id) f rows) =
            if bool_decide (i = id) then f <$> List.find (has_key we_id i) rows
            else List.find (has_key we_id i) rows) by (intros; by apply find_key_update).
  unfold process_webhook_async, find_event, on_event, call_engines, try_catch, gets, modify, mbind, EM_bind, mret, EM_ret.
  rewrite Hf. cbn [ws_calls set_ws_events]. destruct (process_event_fn (ws_calls s) e) as [r|exc].
  - cbn [ws_events set_ws_events ws_now]. split; [done|]. split.
    + rewrite !Hkeep, bool_decide_eq_true_2, Hf by done. done.
    + intros i Hi. by rewrite !Hkeep, bool_decide_eq_false_2 by done.
  - cbn [ws_events set_ws_events ws_now]. split; [done|]. split.
    + rewrite !Hkeep, bool_decide_eq_true_2, Hf by done. unfold failure_status, MAX_RETRIES_BEFORE_DLQ.
      replace (3 <=? we_retry_count e + 1)%Z with (2 <=? we_retry_count e)%Z
        by (destruct (Z.leb_spec 2 (we_retry_count e)), (Z.leb_spec 3 (we_retry_count e + 1)); lia).
      done.
    + intros i Hi. by rewrite !Hkeep, bool_decide_eq_false_2 by done.
Qed.
End facts.

(** ** Examples *)

Definition demo_manifest (webhooks : dict) : ConnectorManifest :=
  Manifest "allegro" "ecommerce" "1.0.0" "Allegro" "" "" "" [] [] [] [] [] [] [] [] webhooks PNone "" "" []
    no_provisioning (MkHints [] []).
Definition signed_registry : registry :=
  discover [demo_manifest [("order.bought", PDict [("signature_header", PStr "X-Allegro-Signature")])]].
Definition unsigned_registry : registry :=
  discover [demo_manifest [("order.bought", PDict [("description", PStr "a new order")])]].

(** A reader of one body, and a digest. *)
Definition demo_loads (body : string) : res pyval :=
  if String.eqb body "not json" then Raise (ValueError "Expecting value")
  else Ok (PDict [("id", PInt 7)]).
Definition demo_hmac (algorithm key body : string) : string := key ++ "/" ++ body.

Definition demo_webhooks : WebhookState (gmap string (string * Z)) :=
  MkWebhookState
    (Vault.store "key" "t2" "allegro" "webhook_secret" "s3" "default"
      (Vault.store "key" "t1" "allegro" "webhook_secret" "s3" "default" (MkVaultDB [] [] 0)).2).2 [] 0 ∅ 1000 [].
Definition demo_headers : list (string * string) := [("x-allegro-signature", "sha256=s3/{}")].
Definition demo_ingest := ingest_webhook "key" signed_registry demo_hmac demo_loads "allegro" "order.bought" "{}".

(** Another tenant, at some later time: the same secret, the same answer. *)
Lemma duplicates_within_a_day_witness :
  (demo_ingest demo_headers "t2" false (at_time 2000 (demo_ingest demo_headers "t1" true demo_webhooks).2)).1
  = Ok (Duplicate "7").
Proof.
  pose proof (duplicates_within_a_day "key" signed_registry demo_hmac demo_loads "allegro" "order.bought" "7"
    demo_webhooks 0 (demo_ingest demo_headers "t1" true demo_webhooks).2 "{}" demo_headers "t1" true
    "{}" demo_headers "t2" false 2000) as Hw. cbv zeta in Hw.
  change (ingest_webhook "key" signed_registry demo_hmac demo_loads "allegro" "order.bought" "{}") with demo_ingest in Hw.
  change (2000 <? ws_now demo_webhooks + DEDUP_TTL)%Z with true in Hw. cbv iota in Hw.
  rewrite Hw; [done|done| |reflexivity|].
  - exists (PDict [("id", PInt 7)]), (Some true). split_and!; by vm_compute.
  - exists (PDict [("id", PInt 7)]), (Some true). split_and!; by vm_compute.
Defined.


Lemma required_signature_skipped_witness :
  (ingest_webhook "key" unsigned_registry demo_hmac demo_loads "allegro" "order.bought" "{}" [] "t1" true
     demo_webhooks).1 = Ok (Accepted 0 (Some "7")).
Proof.
  exact (required_signature_skipped "key" unsigned_registry demo_hmac demo_loads "allegro" "order.bought" "{}" [] "t1"
    demo_webhooks (PDict [("id", PInt 7)]) "7" [("description", PStr "a new order")] eq_refl eq_refl eq_refl eq_refl
    ltac:(discriminate) eq_refl).
Defined.

Lemma event_id_header_ignored_witness :
  extract_external_id [("content-type", "json"); ("x-event-id", "e1")] (PDict [("id", PInt 7)])
  = payload_id ID_FIELDS (PDict [("id", PInt 7)]).
Proof.
  apply (event_id_header_ignored [("content-type", "json")] (PDict [("id", PInt 7)]) "e1").
  - intros k ->%list_elem_of_singleton. by vm_compute.
  - by vm_compute.
Defined.

Definition demo_event (retries : Z) : WebhookEvent :=
  MkWebhookEvent 0 "t1" "allegro" "order.bought" (Some "7") (PDict []) [] None "failed" None retries None.
Definition failing_engines : list WebhookEvent -> WebhookEvent -> res (Z * Z) :=
  fun _ _ => Raise (OtherError "ConnectError").
Definition failing_state (retries : Z) : WebhookState (gmap string (string * Z)) :=
  set_ws_events [demo_event retries] demo_webhooks.

Lemma processing_ends_witness :
  (process_webhook_async failing_engines 0 (failing_state 2)).1 = Ok tt
  /\ List.find (has_key we_id 0%nat) (ws_events (process_webhook_async failing_engines 0 (failing_state 2)).2)
     = Some (set_we_failed "dead_letter" "ConnectError" (demo_event 2)).
Proof.
  pose proof (processing_ends failing_engines 0 (demo_event 2) (failing_state 2) eq_refl) as Hw.
  destruct (process_webhook_async failing_engines 0 (failing_state 2)) as [r s'].
  destruct Hw as (Hr & He & _). split; [exact Hr|exact He].
Defined.
