(* ===== verification/Auth.v ===== *)
(** Who a request is from ([platform/api/auth.py]) and the rows it then sees: the row-level
    security of the migrations ([platform/db/migrations/versions/007_...], [017_...],
    [platform/db/base.py]).  The policies bind the role of the application, when it has one of its
    own ([enforced]), and not the owner of the database, which the compose files use;
    [tenants] and [api_keys] have none (migration 016). *)

From S2P Require Import Prelude PyText PyValue Effects Vault Webhooks.

Local Open Scope string_scope.

(** ** Row-level security *)

(** The settings of a transaction: [app.current_tenant_id] and [app.rls_bypass]; both
    are local to it. *)
Record session := Session { se_tenant : option string; se_bypass : bool }.
Definition new_transaction : session := Session None false.
Definition set_rls_tenant (tenant : string) (s : session) : session := Session (Some tenant) (se_bypass s).
Definition set_rls_bypass (s : session) : session := Session (se_tenant s) true.
(** The settings of the [n]-th transaction after this one: they are local to a transaction. *)
Definition after_commits (n : nat) (s : session) : session := match n with O => s | S _ => new_transaction end.

(** The policies [tenant_isolation] and [admin_bypass] on a row of a tenant. *)
Definition rls_visible (enforced : bool) (s : session) (row_tenant : string) : bool :=
  negb enforced || se_bypass s || match se_tenant s with
                 | None | Some EmptyString => false
                 | Some t => String.eqb row_tenant t
                 end.

(** What a statement reads of a table under the policies. *)
Definition visible {R} (enforced : bool) (tenant_of : R -> string) (s : session) (rows : list R) : list R :=
  List.filter (fun r => rls_visible enforced s (tenant_of r)) rows.

(** ** Authentication *)

Record Tenant := MkTenant { tn_id : string; tn_slug : string; tn_active : bool }.

Record auth_state := AuthState {
  as_session : session;
  as_tenants : list Tenant;
  as_keys : list ApiKey;
  as_tokens : list CredentialToken
}.
Definition with_session (f : session -> session) (s : auth_state) : auth_state :=
  AuthState (f (as_session s)) (as_tenants s) (as_keys s) (as_tokens s).

Section auth.
(** SHA-256, in hexadecimal. *)
Variable hash_api_key : string -> string.
Variable enforced : bool.

Definition active_tenant (id : string) (s : auth_state) : res (option Tenant) :=
  scalar_one_or_none (List.filter (fun t => String.eqb (tn_id t) id && tn_active t) (as_tenants s)).

(** The tenant of an identifier, whose rows the transaction will see. *)
Definition enter_tenant (id : string) : EM auth_state Tenant :=
  s ← get_st;
  tenant ← lift (active_tenant id s);
  match tenant with
  | None => http_error 403 "Tenant is disabled"
  | Some t => _ ← modify (with_session (set_rls_tenant (tn_id t))); mret t
  end.

(** [_resolve_tenant]. *)
Definition resolve_tenant (api_key : option string) : EM auth_state Tenant :=
  match api_key with
  | None | Some EmptyString => http_error 401 "Missing API key"
  | Some key =>
      s ← get_st;
      record ← lift (scalar_one_or_none
        (List.filter (fun k => String.eqb (ak_hash k) (hash_api_key key) && ak_active k) (as_keys s)));
      match record with
      | None => http_error 401 "Invalid API key"
      | Some k => enter_tenant (ak_tenant k)
      end
  end.

(** [_resolve_tenant_by_token]; the table of the tokens is under the policies. *)
Definition resolve_tenant_by_token (token : string) : EM auth_state Tenant :=
  s ← get_st;
  row ← lift (scalar_one_or_none
    (List.filter (fun t => String.eqb (ct_token t) token && ct_active t)
       (visible enforced ct_tenant (as_session s) (as_tokens s))));
  match row with
  | None => http_error 401 "Invalid or inactive credential token"
  | Some t => enter_tenant (ct_tenant t)
  end.

(** [get_current_tenant_or_token]: the key, the header, the query parameter. *)
Definition get_current_tenant_or_token (api_key token_header token_query : option string) : EM auth_state Tenant :=
  match api_key with
  | Some (String _ _) => resolve_tenant api_key
  | _ =>
      let header := py_strip (default "" token_header) in
      let token := if String.eqb header "" then py_strip (default "" token_query) else header in
      if String.eqb token "" then
        http_error 401 "Provide X-API-Key header, X-Credential-Token header, or ?token= query parameter"
      else resolve_tenant_by_token token
  end.

Lemma enter_tenant_spec id s t s' :
  enter_tenant id s = (Ok t, s') ->
  tn_id t = id /\ tn_active t = true /\ t ∈ as_tenants s /\ s' = with_session (set_rls_tenant id) s.
Proof.
  unfold enter_tenant, get_st, lift, modify, mbind, EM_bind, mret, EM_ret, active_tenant.
  destruct (List.filter _ (as_tenants s)) as [|u [|]] eqn:Ef; cbn; try done.
  intros [= <- <-]. assert (Hin : In u (List.filter (fun t => String.eqb (tn_id t) id && tn_active t) (as_tenants s)))
    by (rewrite Ef; by left).
  apply filter_In in Hin as [Hin Hp]. apply andb_true_iff in Hp as [Hid Ha]. apply String.eqb_eq in Hid as <-.
  split; [done|]. split; [done|]. split; [by apply list_elem_of_In|done].
Qed.


(** Where the policies are enforced, no credential token ever authenticates a request: the table of the tokens is under the
    policies, and the tenant of the transaction is only set once the token has been found. *)
Theorem token_auth_always_fails token_header token_query s :
  enforced = true -> as_session s = new_transaction ->
  exists detail, (get_current_tenant_or_token None token_header token_query s).1 = Raise (http_exception 401 detail).
Proof.
  intros Henf Hs. unfold get_current_tenant_or_token. destruct (String.eqb _ ""); [by eexists|].
  unfold resolve_tenant_by_token, get_st, lift, mbind, EM_bind, visible. rewrite Hs, Henf.
  replace (List.filter (fun r => rls_visible true new_transaction (ct_tenant r)) (as_tokens s)) with (@nil CredentialToken);
    [by eexists|].
  symmetry. induction (as_tokens s) as [|r l IH]; [done|exact IH].
Qed.
End auth.


Lemma token_auth_always_fails_witness :
  exists detail,
    (get_current_tenant_or_token (fun k => k) true None (Some "ctok_1") None
       (AuthState new_transaction [MkTenant "t1" "acme" true] []
          [MkToken "t1" "s3" "default" "ctok_1" true])).1 = Raise (http_exception 401 detail).
Proof. by apply token_auth_always_fails. Defined.
