(* ===== verification/WorkflowsApi.v ===== *)
(** The workflow endpoints of the gateway ([platform/api/gateway.py]): creating, changing,
    toggling, deleting, rolling back and starting workflows, on the audit trail, the
    scheduler, the list of allowed addresses and the vault.  A handler runs in a
    transaction that authentication has given the tenant; its commit ends the settings
    of the row-level security, as [Auth] models them, and an exception before it undoes
    the changes of the database.  [commits] tells of a request whether the database
    accepts its transaction. *)

From stdpp Require Import relations.
From S2P Require Import Prelude PyText PyValue Effects Graph AuditTrail AllowList IpAddress Scheduler Base64 Registry Dispatcher Vault Webhooks Auth.

Local Open Scope string_scope.

(** The body of a creation, [WorkflowCreate]. *)
Record WorkflowCreate := MkWorkflowCreate {
  b_name : string;
  b_nodes : list WNode;
  b_edges : list WEdge;
  b_variables : dict;
  b_settings : dict
}.

(** A text column takes a text or nothing; the database refuses the rest. *)
Definition text_column (v : pyval) : res pyval :=
  match v with
  | PNone | PStr _ => Ok v
  | _ => Raise (OtherError "DataError")
  end.
Definition trigger_columns (nodes : list WNode) : res (pyval * pyval) :=
  let '(connector, event) := extract_trigger_info nodes in
  c ← text_column connector; e ← text_column event; Ok (c, e).

Section api.
Context `{Cipher} {trigger : Type} {store : Type} `{JobScheduler store (@scheduled_job trigger)}.
Variables cron_trigger from_crontab : list string -> pyval -> option trigger.
Variable is_internal : ip_addr -> bool.
(** Whether the role of the application is bound by the policies, and whether the
    scheduler is on. *)
Variables enforced workflow_scheduler_enabled : bool.
Variables (raw_key : string) (server : server_t) (reg : registry).

Record wf_state := WfState {
  wf_db : Db;
  wf_sched : @sched store;
  wf_session : session;
  wf_vault : VaultDB;
  wf_sent : list event
}.
Definition with_db (db : Db) (s : wf_state) : wf_state :=
  WfState db (wf_sched s) (wf_session s) (wf_vault s) (wf_sent s).
Definition with_sched (f : @sched store -> @sched store) (s : wf_state) : wf_state :=
  WfState (wf_db s) (f (wf_sched s)) (wf_session s) (wf_vault s) (wf_sent s).
Definition with_settings (x : session) (s : wf_state) : wf_state :=
  WfState (wf_db s) (wf_sched s) x (wf_vault s) (wf_sent s).

(** What a handler raises when the database refuses its changes or their commit. *)
Definition commit_failed : pyexn := OtherError "DBAPIError".

(** A transaction of a request of a tenant; [commits] tells whether the database accepts it. *)
Definition in_tx {A} (commits : bool) (tenant : Tenant) (f : session -> Db -> res (A * Db)) : EM wf_state A := fun s =>
  match f (set_rls_tenant (tn_id tenant) new_transaction) (wf_db s) with
  | Ok (a, db) =>
      if commits then (Ok a, with_settings new_transaction (with_db db s))
      else (Raise commit_failed, with_settings new_transaction s)
  | Raise e => (Raise e, with_settings new_transaction s)
  end.

(** [select(Workflow).where(id, tenant_id)], or 404. *)
Definition select_workflow (x : session) (tenant : Tenant) (id : string) (db : Db) : res workflow_row :=
  row ← scalar_one_or_none
    (List.filter (fun w => String.eqb (w_id w) id && String.eqb (w_tenant w) (tn_id tenant))
       (visible enforced w_tenant x (workflows db)));
  match row with
  | Some w => Ok w
  | None => Raise (http_exception 404 "Workflow not found")
  end.

(** [_provision_trigger_account]: it runs after the commit, so with the settings of a new
    transaction; what it raises is logged. *)
Definition provision_trigger_account (tenant : Tenant) (nodes : list WNode) : EM wf_state unit := fun s =>
  match (extract_trigger_info nodes).1, extract_trigger_credential nodes with
  | PStr connector, PStr cred_name =>
      match get_by_name reg connector with
      | [] => (Ok tt, s)
      | manifest :: _ =>
          if String.eqb (pv_mode (m_provisioning manifest)) "account" then
            let seen := MkVaultDB (visible enforced cr_tenant (wf_session s) (Vault.credentials (wf_vault s))) [] 0 in
            match (retrieve_all raw_key (tn_id tenant) connector cred_name seen).1 with
            | Ok ((_ :: _) as creds) =>
                let creds := if dhas "account_name" creds then creds else dset "account_name" cred_name creds in
                let '(_, sent) := ensure_account_generic server (base_url manifest) creds
                                    (m_provisioning manifest) false (wf_sent s) in
                (Ok tt, WfState (wf_db s) (wf_sched s) (wf_session s) (wf_vault s) sent)
            | _ => (Ok tt, s)
            end
          else (Ok tt, s)
      end
  | _, _ => (Ok tt, s)
  end.

Definition schedule (w : workflow_row) : EM wf_state unit :=
  if workflow_scheduler_enabled then modify (with_sched (register_workflow cron_trigger from_crontab w)) else mret tt.

Definition audit_of (tenant : Tenant) (w : workflow_row) (action : string) (old new : option audit_value)
    (ip : option string) (now : Z) : AuditLog :=
  AuditEntry (tn_id tenant) (Some (tn_slug tenant)) "workflow" (w_id w) action old new ip now.

(** [create_workflow]; [id] and [now] are drawn by the database. *)
Definition create_workflow (commits : bool) (tenant : Tenant) (body : WorkflowCreate) (id : string) (now : Z) : EM wf_state workflow_row :=
  w ← in_tx commits tenant (fun _ db =>
        _ ← validate_trigger_request_access (b_nodes body);
        columns ← trigger_columns (b_nodes body);
        let w := WorkflowRow (tn_id tenant) id (Content (b_nodes body) (b_edges body) (b_variables body)) 1
                   (b_name body) false columns (b_settings body) in
        let '(v, db1) := snapshot_workflow_version w (Some (tn_slug tenant))
                           (MkDb (workflows db ++ [w])%list (versions db) (audit db)) in
        Ok (with_version (v_number v) w,
            record_audit (audit_of tenant w "create" None
              (Some (AuditFields [("name", PStr (w_name w));
                 ("node_count", PInt (Z.of_nat (length (b_nodes body))));
                 ("edge_count", PInt (Z.of_nat (length (b_edges body))))])) None now) db1));
  _ ← provision_trigger_account tenant (b_nodes body);
  mret w.

(** [get_workflow]. *)
Definition get_workflow (tenant : Tenant) (id : string) : EM wf_state workflow_row :=
  in_tx true tenant (fun x db => w ← select_workflow x tenant id db; Ok (w, db)).

(** The row with the fields that were sent. *)
Definition apply_update (u : WorkflowUpdate) (columns : pyval * pyval) (w : workflow_row) : workflow_row :=
  WorkflowRow (w_tenant w) (w_id w)
    (Content (default (c_nodes (w_content w)) (u_nodes u)) (default (c_edges (w_content w)) (u_edges u))
       (default (c_variables (w_content w)) (u_variables u)))
    (w_version w) (default (w_name w) (u_name u)) (default (w_enabled w) (u_enabled u)) columns
    (dmerge (w_settings w) (u_settings u)).

Definition needs_provision (u : WorkflowUpdate) : bool :=
  match u_nodes u, u_enabled u with Some _, _ | _, Some true => true | _, _ => false end.

(** [update_workflow]. *)
Definition update_workflow (commits : bool) (tenant : Tenant) (id : string) (u : WorkflowUpdate) (now : Z) : EM wf_state workflow_row :=
  w ← in_tx commits tenant (fun x db =>
        w ← select_workflow x tenant id db;
        columns ← match u_nodes u with
                  | None => Ok (w_trigger w)
                  | Some nodes => _ ← validate_trigger_request_access nodes; trigger_columns nodes
                  end;
        let w' := apply_update u columns w in
        let '(v, db1) := snapshot_workflow_version w' (Some (tn_slug tenant)) db in
        Ok (with_version (v_number v) w',
            record_audit (audit_of tenant w "update" (Some (AuditState (w_content w) (w_version w) None))
              (Some (AuditUpdate (MkWorkflowUpdate (u_name u) (u_nodes u) (u_edges u) (u_variables u) (u_enabled u) [])))
              None now) db1));
  _ ← (if needs_provision u then provision_trigger_account tenant (c_nodes (w_content w)) else mret tt);
  _ ← schedule w;
  mret w.

Definition with_enabled (b : bool) (w : workflow_row) : workflow_row :=
  WorkflowRow (w_tenant w) (w_id w) (w_content w) (w_version w) (w_name w) b (w_trigger w) (w_settings w).

(** [toggle_workflow]. *)
Definition toggle_workflow (commits : bool) (tenant : Tenant) (id : string) : EM wf_state bool :=
  w ← in_tx commits tenant (fun x db =>
        w ← select_workflow x tenant id db;
        let w' := with_enabled (negb (w_enabled w)) w in
        Ok (w', set_workflow w' db));
  _ ← (if w_enabled w then provision_trigger_account tenant (c_nodes (w_content w)) else mret tt);
  _ ← schedule w;
  mret (w_enabled w).

(** [delete_workflow]; its versions go with it.  The job is removed before the row, so it is
    gone also when the database refuses to delete the row or to commit. *)
Definition delete_workflow (commits : bool) (tenant : Tenant) (id : string) (now : Z) : EM wf_state unit := fun s =>
  match select_workflow (set_rls_tenant (tn_id tenant) new_transaction) tenant id (wf_db s) with
  | Raise e => (Raise e, with_settings new_transaction s)
  | Ok w =>
      let s := if workflow_scheduler_enabled then with_sched (unregister_workflow (w_id w)) s else s in
      in_tx commits tenant (fun _ db =>
        let db1 := record_audit (audit_of tenant w "delete"
                     (Some (AuditFields [("name", PStr (w_name w)); ("version", PInt (w_version w))])) None None now) db in
        Ok (tt, MkDb (delete_rows (fun w' => String.eqb (w_id w') (w_id w)) (workflows db1))
                     (delete_rows (fun v => String.eqb (v_workflow v) (w_id w)) (versions db1)) (audit db1))) s
  end.

(** [rollback_workflow_version]: no tenant is asked for; only the policies restrict it. *)
Definition rollback_workflow_version (commits : bool) (tenant : Tenant) (id : string) (version : Z) (ip : option string)
    (now : Z) : EM wf_state workflow_row :=
  in_tx commits tenant (fun x db =>
    let seen := MkDb (visible enforced w_tenant x (workflows db)) (visible enforced v_tenant x (versions db)) (audit db) in
    match find_workflow id seen, get_workflow_version id version seen with
    | Some _, Some _ =>
        match rollback_workflow id version (Some (tn_slug tenant)) ip now db with
        | (Some w, db') => Ok (w, db')
        | (None, _) => Raise (http_exception 404 "Workflow or version not found")
        end
    | _, _ => Raise (http_exception 404 "Workflow or version not found")
    end).

(** [list_workflow_versions] and [get_workflow_version_detail]. *)
Definition list_workflow_versions (tenant : Tenant) (id : string) (limit offset : nat)
  : EM wf_state (list WorkflowVersion) :=
  in_tx true tenant (fun x db =>
    let seen := MkDb (visible enforced w_tenant x (workflows db)) (visible enforced v_tenant x (versions db)) (audit db) in
    match find_workflow id seen with
    | None => Raise (http_exception 404 "Workflow not found")
    | Some _ => Ok (get_workflow_versions id limit offset seen, db)
    end).
Definition get_workflow_version_detail (tenant : Tenant) (id : string) (version : Z) : EM wf_state WorkflowVersion :=
  in_tx true tenant (fun x db =>
    let seen := MkDb (workflows db) (visible enforced v_tenant x (versions db)) (audit db) in
    match get_workflow_version id version seen with
    | None => Raise (http_exception 404 ("Version " ++ str_of_Z version ++ " not found"))
    | Some v => Ok (v, db)
    end).

(** [list_workflow_schedules]. *)
Definition list_workflow_schedules (tenant : Tenant) : EM wf_state (list (string * string * option string)) :=
  gets (fun s => list_scheduled (tn_id tenant) (wf_sched s)).

(** The endpoints [execute_workflow] and [test_workflow]: the workflow of the tenant is executed, by the
    engine, if the client may start it. *)
Definition execute_workflow_request {A} (execute : workflow_row -> dict -> EM wf_state A) (tenant : Tenant)
    (id : string) (request : Origin) (trigger_data : dict) : EM wf_state A :=
  w ← in_tx true tenant (fun x db =>
        w ← select_workflow x tenant id db;
        _ ← enforce_workflow_request_ip_allowlist is_internal (c_nodes (w_content w)) request;
        Ok (w, db));
  execute w trigger_data.

(** [call_workflow_get] up to its answer: the query parameters are the trigger data. *)
Definition call_trigger_data (query_params : list (string * string)) : dict :=
  dict_of (map (fun kv => (kv.1, PStr kv.2)) (List.filter (fun kv => negb (String.eqb kv.1 "api_key")) query_params)).
Definition call_workflow_get {A} (execute : workflow_row -> dict -> EM wf_state A) (tenant : Tenant)
    (id : string) (request : Origin) (query_params : list (string * string)) : EM wf_state A :=
  execute_workflow_request execute tenant id request (call_trigger_data query_params).

(** ** Steps of the gateway *)

Abbreviation by_id id := (fun w => String.eqb (w_id w) id).

(** APScheduler has for each workflow the job it should have, but for the [stale] ones. *)
Definition follows_but (stale : gset string) (rows : list workflow_row) (sc : @sched store) : Prop :=
  consistent sc /\ forall id, id ∉ stale ->
    get_job (job_id id) (aps sc) = (List.find (by_id id) rows ≫= wanted_job cron_trigger from_crontab).

(** The gateway, and the workflows whose job is not known to be right. *)
Definition gateway : Type := wf_state * gset string.
Definition in_step (g : gateway) : Prop :=
  NoDup (map w_id (workflows (wf_db g.1))) /\ follows_but g.2 (workflows (wf_db g.1)) (wf_sched g.1).

(** What the outcome of a request about a workflow says of its job: a change or a deletion
    that is answered settles it, a rollback that is answered and a deletion the database
    refuses leave it open. *)
Definition settled {A} (id : string) (r : res A) (stale : gset string) : gset string :=
  match r with Ok _ => stale ∖ {[id]} | Raise _ => stale end.
Definition rolled_back {A} (id : string) (r : res A) (stale : gset string) : gset string :=
  match r with Ok _ => {[id]} ∪ stale | Raise _ => stale end.
Definition deletion {A} (commits : bool) (id : string) (r : res A) (stale : gset string) : gset string :=
  if commits then settled id r stale else {[id]} ∪ stale.

(** The gateway starts again: APScheduler has no jobs and [start] adds them. *)
Variable no_jobs : store.
Definition restarted (s : wf_state) : wf_state :=
  with_sched (fun _ => start cron_trigger from_crontab (workflows (wf_db s)) (MkSched [] no_jobs)) s.

(** A request that changes workflows, whatever its tenant and whether or not the database accepts
    it, or a restart; [create_workflow] draws a new identifier. *)
Inductive gateway_step : gateway -> gateway -> Prop :=
  | step_create commits tenant body id now s stale :
      id ∉ map w_id (workflows (wf_db s)) ->
      gateway_step (s, stale) ((create_workflow commits tenant body id now s).2, stale)
  | step_update commits tenant id u now s stale :
      let r := update_workflow commits tenant id u now s in
      gateway_step (s, stale) (r.2, settled id r.1 stale)
  | step_toggle commits tenant id s stale :
      let r := toggle_workflow commits tenant id s in
      gateway_step (s, stale) (r.2, settled id r.1 stale)
  | step_delete commits tenant id now s stale :
      let r := delete_workflow commits tenant id now s in
      gateway_step (s, stale) (r.2, deletion commits id r.1 stale)
  | step_rollback commits tenant id version ip now s stale :
      let r := rollback_workflow_version commits tenant id version ip now s in
      gateway_step (s, stale) (r.2, rolled_back id r.1 stale)
  | step_restart s stale : gateway_step (s, stale) (restarted s, ∅).

Lemma find_replaced id w rows :
  List.find (by_id id) (map (fun x => if String.eqb (w_id x) (w_id w) then w else x) rows)
  = if String.eqb (w_id w) id then (fun _ => w) <$> List.find (by_id id) rows else List.find (by_id id) rows.
Proof.
  induction rows as [|x rows IH]; cbn [map List.find]; [by destruct (String.eqb _ id)|].
  destruct (String.eqb_spec (w_id x) (w_id w)) as [Hx|Hx].
  - rewrite Hx. destruct (String.eqb_spec (w_id w) id); [done|exact IH].
  - rewrite IH. destruct (String.eqb_spec (w_id x) id), (String.eqb_spec (w_id w) id); try done. congruence.
Qed.

Lemma find_deleted id k rows :
  List.find (by_id id) (delete_rows (by_id k) rows) = if String.eqb id k then None else List.find (by_id id) rows.
Proof.
  unfold delete_rows. induction rows as [|x rows IH]; cbn [List.filter List.find]; [by destruct (String.eqb id k)|].
  destruct (String.eqb_spec (w_id x) k) as [Hx|Hx]; cbn [negb List.find]; rewrite IH.
  - destruct (String.eqb_spec (w_id x) id), (String.eqb_spec id k); try done. congruence.
  - destruct (String.eqb_spec (w_id x) id), (String.eqb_spec id k); try done. congruence.
Qed.

Lemma select_found x tenant id db w :
  select_workflow x tenant id db = Ok w ->
  w_id w = id /\ w_tenant w = tn_id tenant /\ w ∈ workflows db /\ is_Some (List.find (by_id id) (workflows db)).
Proof.
  unfold select_workflow.
  set (l := List.filter (fun w => String.eqb (w_id w) id && String.eqb (w_tenant w) (tn_id tenant)) _).
  destruct l as [|w0 [|]] eqn:El; cbn; try done. intros [= ->].
  assert (Hin : In w l) by (rewrite El; by left). apply filter_In in Hin as [Hin Hp].
  apply andb_true_iff in Hp as [Hid%String.eqb_eq Ht%String.eqb_eq]. apply filter_In in Hin as [Hin _].
  split; [done|]. split; [done|]. split; [by apply list_elem_of_In|].
  destruct (List.find (by_id id) (workflows db)) eqn:Ef; [done|].
  pose proof (find_none _ _ Ef w Hin) as Hn. cbn in Hn. by rewrite Hid, String.eqb_refl in Hn.
Qed.

Lemma provision_spec tenant nodes s :
  exists sent, provision_trigger_account tenant nodes s
    = (Ok tt, WfState (wf_db s) (wf_sched s) (wf_session s) (wf_vault s) sent).
Proof.
  unfold provision_trigger_account. destruct s as [db sc x v sent]. cbn [wf_db wf_sched wf_session wf_vault wf_sent].
  destruct (extract_trigger_info nodes).1; try (by exists sent).
  destruct (extract_trigger_credential nodes); try (by exists sent).
  destruct (get_by_name reg _); [by exists sent|]. destruct (String.eqb _ _); [|by exists sent].
  destruct (retrieve_all _ _ _ _ _).1 as [[|]|]; try (by exists sent).
  destruct (ensure_account_generic _ _ _ _ _ _) as [r sent']. by exists sent'.
Qed.

Lemma follows_grows stale stale' rows sc : stale ⊆ stale' -> follows_but stale rows sc -> follows_but stale' rows sc.
Proof. intros Hs [Hc Hf]. split; [done|]. intros id Hid. apply Hf. set_solver. Qed.

Lemma follows_register stale rows rows' w sc :
  follows_but stale rows sc -> List.find (by_id (w_id w)) rows' = Some w ->
  (forall id, id <> w_id w -> List.find (by_id id) rows' = List.find (by_id id) rows) ->
  follows_but (stale ∖ {[w_id w]}) rows' (register_workflow cron_trigger from_crontab w sc).
Proof.
  intros [Hc Hf] Hw Ho. destruct (register_workflow_spec cron_trigger from_crontab w sc Hc) as (Hc' & Hg & Hg').
  split; [done|]. intros id Hid. destruct (decide (id = w_id w)) as [->|Hne]; [by rewrite Hg, Hw|].
  rewrite Hg' by done. rewrite Hf by set_solver. by rewrite Ho.
Qed.

Lemma follows_unregister stale rows id sc :
  follows_but stale rows sc -> follows_but ({[id]} ∪ stale) rows (unregister_workflow id sc).
Proof.
  intros [Hc Hf]. destruct (unregister_spec id sc Hc) as (Hc' & _ & _ & Hg').
  split; [done|]. intros id' Hid. rewrite Hg' by set_solver. apply Hf. set_solver.
Qed.

Lemma follows_deleted stale rows id sc :
  follows_but stale rows sc ->
  follows_but (stale ∖ {[id]}) (delete_rows (by_id id) rows) (unregister_workflow id sc).
Proof.
  intros [Hc Hf]. destruct (unregister_spec id sc Hc) as (Hc' & Hg & _ & Hg').
  split; [done|]. intros id' Hid. rewrite find_deleted.
  destruct (String.eqb_spec id' id) as [->|Hne]; [by rewrite Hg|]. rewrite Hg' by done. apply Hf. set_solver.
Qed.

(** Setting a row keeps the identifiers. *)
Lemma replaced_ids w rows : map w_id (map (fun x => if String.eqb (w_id x) (w_id w) then w else x) rows) = map w_id rows.
Proof. rewrite map_map. apply map_ext. intros x. by destruct (String.eqb_spec (w_id x) (w_id w)). Qed.

Hypothesis scheduler_on : workflow_scheduler_enabled = true.
Hypothesis no_jobs_empty : forall id, get_job id no_jobs = (None : option (@scheduled_job trigger)).

(** Replacing the row of a workflow and registering it. *)
Lemma replaced_in_step w0 w s s' stale :
  in_step (s, stale) -> w_id w = w0 -> is_Some (List.find (by_id w0) (workflows (wf_db s))) ->
  workflows (wf_db s') = map (fun x => if String.eqb (w_id x) (w_id w) then w else x) (workflows (wf_db s)) ->
  wf_sched s' = register_workflow cron_trigger from_crontab w (wf_sched s) ->
  in_step (s', stale ∖ {[w0]}).
Proof.
  intros [Hnd Hf] <- [x Hx] Hrows Hsc. unfold in_step. cbn [fst snd] in *. rewrite Hrows, Hsc. split; [by rewrite replaced_ids|].
  apply (follows_register _ (workflows (wf_db s))); [done| |].
  - rewrite find_replaced, String.eqb_refl. by rewrite Hx.
  - intros id Hne. rewrite find_replaced. by destruct (String.eqb_spec (w_id w) id); [congruence|].
Qed.

Lemma schedules_same s s' stale :
  wf_db s' = wf_db s -> wf_sched s' = wf_sched s -> in_step (s, stale) -> in_step (s', stale).
Proof. unfold in_step. cbn [fst snd]. by intros -> ->. Qed.

Lemma create_in_step commits tenant body id now s stale :
  id ∉ map w_id (workflows (wf_db s)) -> in_step (s, stale) ->
  in_step ((create_workflow commits tenant body id now s).2, stale).
Proof.
  intros Hid Hs. unfold create_workflow, in_tx, mbind, EM_bind.
  destruct (validate_trigger_request_access _); [|by apply (schedules_same s)]. cbn [res_bind].
  destruct (trigger_columns _) as [columns|]; [|by apply (schedules_same s)]. cbn -[provision_trigger_account max_number].
  destruct commits; [|by apply (schedules_same s)].
  match goal with |- context [provision_trigger_account _ _ ?s0] => set (s1 := s0) end.
  destruct (provision_spec tenant (b_nodes body) s1) as [sent ->].
  destruct Hs as (Hnd & Hc & Hf). unfold in_step. cbn [fst snd] in *. subst s1. cbn -[max_number].
  rewrite map_app, map_cons. rewrite (map_ext_in _ (fun x => x) (workflows (wf_db s))), map_id.
  2: { intros x Hx. cbn. destruct (String.eqb_spec (w_id x) id) as [<-|]; [|done].
       exfalso. apply Hid. by apply list_elem_of_In, in_map. }
  cbn [w_id]. rewrite String.eqb_refl. cbn -[max_number]. split.
  - rewrite map_app. cbn. apply list.NoDup_app. split; [done|]. split; [|apply NoDup_singleton].
    intros k Hk ->%list_elem_of_singleton. done.
  - split; [done|]. intros id' Hid'. rewrite Hf by done. rewrite find_app.
    destruct (List.find (by_id id') (workflows (wf_db s))); [done|]. cbn. by destruct (String.eqb id id').
Qed.

Lemma update_in_step commits tenant id u now s stale :
  in_step (s, stale) ->
  in_step ((update_workflow commits tenant id u now s).2, settled id (update_workflow commits tenant id u now s).1 stale).
Proof.
  intros Hs. unfold update_workflow, in_tx, schedule, mbind, EM_bind.
  destruct (select_workflow _ _ _ _) as [w|] eqn:Ew; [|by apply (schedules_same s)]. cbn [res_bind].
  apply select_found in Ew as (<- & _ & _ & Hx).
  destruct (match u_nodes u with None => _ | Some _ => _ end) as [columns|]; [|by apply (schedules_same s)].
  cbn -[provision_trigger_account max_number needs_provision].
  destruct commits; [|by apply (schedules_same s)].
  match goal with |- context [provision_trigger_account ?t ?n] => set (nodes := n); set (s1 := with_settings _ _) end.
  assert (Hp : exists sent, (if needs_provision u then provision_trigger_account tenant nodes else mret tt) s1
            = (Ok tt, WfState (wf_db s1) (wf_sched s1) (wf_session s1) (wf_vault s1) sent)).
  { destruct (needs_provision u); [apply provision_spec|]. exists (wf_sent s1). by destruct s1. }
  destruct Hp as [sent ->]. rewrite scheduler_on.
  by apply (replaced_in_step (w_id w) (with_version (max_number (versions_of (w_id w) (wf_db s)) + 1) (apply_update u columns w)) s).
Qed.

Lemma toggle_in_step commits tenant id s stale :
  in_step (s, stale) ->
  in_step ((toggle_workflow commits tenant id s).2, settled id (toggle_workflow commits tenant id s).1 stale).
Proof.
  intros Hs. unfold toggle_workflow, in_tx, schedule, mbind, EM_bind.
  destruct (select_workflow _ _ _ _) as [w|] eqn:Ew; [|by apply (schedules_same s)]. cbn [res_bind].
  apply select_found in Ew as (<- & _ & _ & Hx).
  cbn -[provision_trigger_account]. destruct commits; [|by apply (schedules_same s)].
  set (w' := with_enabled _ w). set (s1 := with_settings _ _). set (nodes := c_nodes _).
  assert (Hp : exists sent, (if w_enabled w' then provision_trigger_account tenant nodes else mret tt) s1
            = (Ok tt, WfState (wf_db s1) (wf_sched s1) (wf_session s1) (wf_vault s1) sent)).
  { destruct (w_enabled w'); [apply provision_spec|]. exists (wf_sent s1). by destruct s1. }
   destruct Hp as [sent ->]. rewrite scheduler_on. by apply (replaced_in_step (w_id w) w' s).
Qed.

Lemma deleted_ids id rows : NoDup (map w_id rows) -> NoDup (map w_id (delete_rows (by_id id) rows)).
Proof.
  unfold delete_rows. induction rows as [|x rows IH]; [done|]. cbn [map List.filter].
  intros [Hx Hnd]%list.NoDup_cons. destruct (negb _); [|by apply IH]. cbn [map]. apply list.NoDup_cons.
  split; [|by apply IH]. intros Hin. apply Hx. apply list_elem_of_In, in_map_iff in Hin as (y & Hy & Hin).
  rewrite <- Hy. apply filter_In in Hin as [Hin _]. by apply list_elem_of_In, in_map.
Qed.

Lemma delete_in_step commits tenant id now s stale :
  in_step (s, stale) ->
  in_step ((delete_workflow commits tenant id now s).2, deletion commits id (delete_workflow commits tenant id now s).1 stale).
Proof.
  intros Hs. unfold delete_workflow, in_tx.
  destruct (select_workflow _ _ _ _) as [w|] eqn:Ew.
  - apply select_found in Ew as (<- & _ & _ & Hx). rewrite scheduler_on.
    destruct Hs as [Hnd Hf]. destruct commits; unfold in_step; cbn -[delete_rows] in *.
    + split; [by apply deleted_ids|by apply follows_deleted].
    + split; [done|by apply follows_unregister].
  - destruct commits; [by apply (schedules_same s)|]. destruct Hs as [Hnd Hf]. split; [done|]. cbn in *.
    apply (follows_grows stale); [set_solver|done].
Qed.

Lemma twice_replaced_in_step w w0 s s' stale :
  in_step (s, stale) -> w_id w = w_id w0 ->
  workflows (wf_db s') = map (fun x => if String.eqb (w_id x) (w_id w) then w else x)
    (map (fun x => if String.eqb (w_id x) (w_id w0) then w0 else x) (workflows (wf_db s))) ->
  wf_sched s' = wf_sched s -> in_step (s', {[w_id w]} ∪ stale).
Proof.
  intros (Hnd & Hc & Hf) Hw Hrows Hsc. unfold in_step. cbn [fst snd] in *. rewrite Hrows, Hsc, !replaced_ids.
  split; [done|]. split; [done|]. intros id Hid. rewrite !find_replaced, <- Hw.
  destruct (String.eqb_spec (w_id w) id) as [<-|_]; [set_solver|]. apply Hf. set_solver.
Qed.

Lemma rollback_in_step commits tenant id version ip now s stale :
  in_step (s, stale) ->
  in_step ((rollback_workflow_version commits tenant id version ip now s).2,
           rolled_back id (rollback_workflow_version commits tenant id version ip now s).1 stale).
Proof.
  intros Hs. unfold rollback_workflow_version, in_tx.
  destruct (find_workflow id _); [|by apply (schedules_same s)].
  destruct (get_workflow_version _ _ _); [|by apply (schedules_same s)].
  unfold rollback_workflow, find_workflow.
  destruct (List.find _ (workflows (wf_db s))) as [wf|] eqn:Ew; [|by apply (schedules_same s)].
  destruct (get_workflow_version id version (wf_db s)) as [v|]; [|by apply (schedules_same s)].
  destruct commits; [|by apply (schedules_same s)]. apply find_some in Ew as [_ <-%String.eqb_eq].
  pose (wr := with_content (v_content v) wf).
  pose (n := v_number (snapshot_workflow_version wr (Some (tn_slug tenant)) (set_workflow wr (wf_db s))).1).
  by apply (twice_replaced_in_step (with_version n wr) wr s).
Qed.

Lemma restart_in_step s stale : in_step (s, stale) -> in_step (restarted s, ∅).
Proof.
  intros [Hnd _]. split; [done|]. cbn. destruct (start_follows cron_trigger from_crontab (workflows (wf_db s)) (MkSched [] no_jobs))
    as [Hc Hf]; [done| |intros id; apply no_jobs_empty|by split].
  split; [apply NoDup_nil_2|]. split; [done|]. intros id [j Hj]. cbn in Hj. by rewrite no_jobs_empty in Hj.
Qed.

(** C10: The jobs of the scheduler follow the workflows.  After any sequence of requests that create,
    change, toggle, delete or roll back workflows and of restarts of the gateway, whatever their
    tenants and outcomes and whether or not the database accepts them, APScheduler has for every
    workflow exactly the job it should have, its own cron trigger if it is enabled and scheduled and
    none otherwise, and no job of a workflow that is gone; the only exceptions are the workflows
    whose last request was a rollback, or a deletion the database refused, until they are changed,
    toggled or deleted or the gateway restarts. *)
Theorem schedules_follow_workflows g g' :
  in_step g -> rtc gateway_step g g' -> in_step g'.
Proof.
  intros Hs. induction 1 as [|g1 g2 g3 Hstep _ IH]; [done|]. apply IH. destruct Hstep.
  - by apply create_in_step.
  - by apply update_in_step.
  - by apply toggle_in_step.
  - by apply delete_in_step.
  - by apply rollback_in_step.
  - by eapply restart_in_step.
Qed.

(** ** Rollbacks *)

(** A rollback leaves the scheduler and the columns of the trigger as they were, whatever
    the version it restores says. *)
Lemma rollback_leaves_trigger tenant id version ip now s :
  wf_sched (rollback_workflow_version true tenant id version ip now s).2 = wf_sched s
  /\ forall w0 w, List.find (by_id id) (workflows (wf_db s)) = Some w0 ->
     (rollback_workflow_version true tenant id version ip now s).1 = Ok w -> w_trigger w = w_trigger w0.
Proof.
  unfold rollback_workflow_version, in_tx, rollback_workflow, find_workflow.
  cbn [workflows]. destruct (List.find (by_id id) (visible _ _ _ _)); [|by split].
  destruct (get_workflow_version _ _ _); [|by split].
  destruct (List.find (by_id id) (workflows (wf_db s))) as [w1|]; [|by split].
  destruct (get_workflow_version id version (wf_db s)); [|by split].
  split; [done|]. by intros ? ? [= <-] [= <-].
Qed.

(** Where the policies are not enforced, a tenant can roll back the workflow of any other: the
    handler asks for no tenant, and the workflow takes the content of the version. *)
Theorem rollback_ignores_tenant tenant id version ip now s w v :
  enforced = false ->
  List.find (by_id id) (workflows (wf_db s)) = Some w -> get_workflow_version id version (wf_db s) = Some v ->
  exists w', (rollback_workflow_version true tenant id version ip now s).1 = Ok w'
    /\ w_tenant w' = w_tenant w /\ w_content w' = v_content v.
Proof.
  intros Henf Hw Hv. unfold rollback_workflow_version, in_tx, rollback_workflow, find_workflow, visible, rls_visible.
  rewrite Henf. cbn [negb orb workflows versions].
  assert (Ht : forall {A} (l : list A), List.filter (fun _ => true) l = l)
    by (induction l as [|x l IH]; cbn; [done|by rewrite IH]).
  rewrite !Ht.
  rewrite Hw. replace (get_workflow_version id version _) with (Some v) by (by rewrite <- Hv).
  rewrite Hv. eexists. split; [reflexivity|]. done.
Qed.

(** ** Accounts *)

(** Where the policies are enforced, no workflow ever gets its account on the connector of its
    trigger: creating, changing or enabling a workflow sends nothing, since the credentials are
    read after the commit has ended the tenant's settings. *)
Theorem accounts_never_provisioned tenant nodes s :
  enforced = true -> wf_session s = new_transaction -> provision_trigger_account tenant nodes s = (Ok tt, s).
Proof.
  intros Henf Hs. unfold provision_trigger_account. rewrite Hs, Henf.
  destruct (extract_trigger_info nodes).1; try done. destruct (extract_trigger_credential nodes); try done.
  destruct (get_by_name reg _); [done|]. destruct (String.eqb _ _); [|done].
  replace (visible true cr_tenant new_transaction _) with (@nil Credential); [done|].
  symmetry. unfold visible. induction (Vault.credentials (wf_vault s)) as [|? creds IH]; [done|exact IH].
Qed.
End api.

(** ** Witnesses *)

Definition demo_tenant : Tenant := MkTenant "t1" "acme" true.
Definition demo_cron (parts : list string) (_ : pyval) : option (list string) := Some parts.
Definition cron_node (cron : string) : WNode :=
  Node "n1" "trigger" "" [("trigger_type", PStr "schedule"); ("cron", PStr cron)].
Definition demo_wf : @wf_state (gmap string (@scheduled_job (list string))) :=
  WfState (MkDb [] [] []) (MkSched [] ∅) new_transaction (MkVaultDB [] [] 0) [].
Definition demo_body : WorkflowCreate := MkWorkflowCreate "nightly" [cron_node "0 2 * * *"] [] [] [].
Definition enable : WorkflowUpdate := MkWorkflowUpdate None None None None (Some true) [].
Definition change_cron (cron : string) : WorkflowUpdate :=
  MkWorkflowUpdate None (Some [cron_node cron]) None None None [].

Abbreviation created :=
  (create_workflow (store := gmap string (@scheduled_job (list string))) true "key" demo_server [] true demo_tenant demo_body "w1" 0).
Abbreviation updated u now :=
  (update_workflow demo_cron (fun _ _ => None) true true "key" demo_server [] true demo_tenant "w1" u now).
Abbreviation demo_jobs s := (get_job (job_id "w1") (aps (wf_sched s))).

(** A rollback to the first schedule of a workflow leaves the job of the second. *)
Lemma rollback_keeps_old_schedule :
  let s := (updated (change_cron "30 4 * * *") 2 (updated enable 1 (created demo_wf).2).2).2 in
  let s' := (rollback_workflow_version true true demo_tenant "w1" 1 None 3 s).2 in
  map (fun w => get_schedule_config (c_nodes (w_content w))) (workflows (wf_db s'))
    = [get_schedule_config [cron_node "0 2 * * *"]]
  /\ j_trigger <$> demo_jobs s' = Some ["30"; "4"; "*"; "*"; "*"].
Proof. split; by vm_compute. Qed.

(** A deletion the database refuses leaves the workflow, enabled, without its job. *)
Lemma refused_deletion_loses_job :
  let s := (updated enable 1 (created demo_wf).2).2 in
  let r := delete_workflow true true false demo_tenant "w1" 2 s in
  r.1 = Raise commit_failed /\ map w_enabled (workflows (wf_db r.2)) = [true]
  /\ j_trigger <$> demo_jobs s = Some ["0"; "2"; "*"; "*"; "*"] /\ demo_jobs r.2 = None.
Proof. by vm_compute. Qed.

Lemma schedules_follow_workflows_witness :
  let s := (updated enable 1 (created demo_wf).2).2 in
  let s' := (rollback_workflow_version true true demo_tenant "w1" 1 None 3
               (updated (change_cron "30 4 * * *") 2 s).2).2 in
  demo_jobs s = Some (ScheduledJob ["0"; "2"; "*"; "*"; "*"] "w1" "t1")
  /\ demo_jobs (restarted demo_cron (fun _ _ => None) ∅ s') = Some (ScheduledJob ["0"; "2"; "*"; "*"; "*"] "w1" "t1").
Proof.
  cbv zeta.
  assert (Hd : in_step demo_cron (fun _ _ => None) (demo_wf, ∅)).
  { split; [apply NoDup_nil_2|]. split; [|done]. split; [apply NoDup_nil_2|]. split; [done|].
    intros id [j Hj]. discriminate Hj. }
  assert (Hstep : forall g g', rtc (gateway_step demo_cron (fun _ _ => None) true true "key" demo_server [] ∅) g g' ->
            in_step demo_cron (fun _ _ => None) g -> in_step demo_cron (fun _ _ => None) g').
  { intros g g' Hr Hg.
    eapply schedules_follow_workflows; [done|intros id; apply lookup_empty|exact Hg|exact Hr]. }
  assert (Hs : in_step demo_cron (fun _ _ => None) ((updated enable 1 (created demo_wf).2).2, ∅ ∖ {["w1"]})).
  { apply (Hstep (demo_wf, ∅)); [|done].
    eapply rtc_l; [apply (step_create _ _ _ _ _ _ _ _ true demo_tenant demo_body "w1" 0); apply not_elem_of_nil|].
    eapply rtc_l; [apply (step_update _ _ _ _ _ _ _ _ true demo_tenant "w1" enable 1)|apply rtc_refl]. }
  split.
  - destruct Hs as (_ & _ & Hs). cbn [fst snd] in Hs. rewrite Hs; [by vm_compute|]. apply not_elem_of_difference; left; apply not_elem_of_empty.
  - match goal with |- context [restarted _ _ _ ?s1] => set (s' := s1) end.
    assert (Hr : exists stale, in_step demo_cron (fun _ _ => None) (restarted demo_cron (fun _ _ => None) ∅ s', stale) /\ stale = ∅).
    { exists ∅. split; [|done]. eapply Hstep; [|exact Hs].
      eapply rtc_l; [apply (step_update _ _ _ _ _ _ _ _ true demo_tenant "w1" (change_cron "30 4 * * *") 2)|].
      eapply rtc_l; [apply (step_rollback _ _ _ _ _ _ _ _ true demo_tenant "w1" 1 None 3)|].
      eapply rtc_l; [apply step_restart|apply rtc_refl]. }
    destruct Hr as (stale & (_ & _ & Hr) & ->). cbn [fst snd] in Hr. rewrite Hr by apply not_elem_of_empty. by vm_compute.
Defined.

Lemma rollback_ignores_tenant_witness :
  let s := (created demo_wf).2 in
  exists w', (rollback_workflow_version false true (MkTenant "t2" "other" true) "w1" 1 None 3 s).1 = Ok w'
    /\ w_tenant w' = "t1".
Proof.
  cbv zeta. destruct (rollback_ignores_tenant false (MkTenant "t2" "other" true) "w1" 1 None 3 (created demo_wf).2
    (default (demo_row (Content [] [] []) 0) (head (workflows (wf_db (created demo_wf).2))))
    (Version "t1" "w1" 1 (Content [cron_node "0 2 * * *"] [] []) (Some "acme")))
    as (w' & Hr & Ht & _); [done|by vm_compute|by vm_compute|].
  exists w'. split; [exact Hr|]. rewrite Ht. by vm_compute.
Defined.

Lemma accounts_never_provisioned_witness :
  provision_trigger_account true "key" demo_server [] demo_tenant [cron_node "0 2 * * *"] demo_wf = (Ok tt, demo_wf).
Proof. by apply accounts_never_provisioned. Defined.
