(* ===== verification/Kafka.v ===== *)
(** Events from Kafka: the consumer of the shared library
    ([shared/python/pinquark_common/kafka/consumer.py]) and the bridge to the engines
    ([platform/core/kafka_event_consumer.py]).  The broker keeps, for each partition, the
    position up to which the group has committed; after a restart it delivers from there. *)

From S2P Require Import Prelude PyText PyValue Effects Auth.

Local Open Scope string_scope.

(** ** The consumer *)

Definition partition : Type := string * Z.

(** A message; a value that is no JSON (or [null]) is [None]. *)
Record message := Message {
  k_partition : partition;
  k_offset : Z;
  k_value : option pyval;
  k_key : option string
}.

(** The next offset of each partition: read so far, and committed. *)
Record offsets := Offsets { position : gmap partition Z; committed : gmap partition Z }.

Definition deliver (m : message) (o : offsets) : offsets :=
  Offsets (<[k_partition m := (k_offset m + 1)%Z]> (position o)) (committed o).
(** [commit()]: the positions of all the partitions. *)
Definition commit (o : offsets) : offsets := Offsets (position o) (position o ∪ committed o).

Section consumer.
Context {W : Type}.
(** [_handlers], by topic. *)
Variable handlers : string -> option (pyval -> option string -> EM W unit).

(** Whether a message is committed, and the world after it. *)
Definition handle (m : message) (w : W) : bool * W :=
  match k_value m with
  | None => (true, w)
  | Some value =>
      match handlers (k_partition m).1 with
      | None => (false, w)
      | Some h => match h value (k_key m) w with
                  | (Ok _, w') => (true, w')
                  | (Raise _, w') => (false, w')
                  end
      end
  end.

(** One round of the loop: the message is taken, and committed unless it failed or had no handler. *)
Definition settle (m : message) (done_ : bool) (o : offsets) : offsets :=
  let o := deliver m o in if done_ then commit o else o.

(** [consume]: the messages in the order of their delivery. *)
Fixpoint consume (ms : list message) (w : W) (o : offsets) : W * offsets :=
  match ms with
  | [] => (w, o)
  | m :: ms' => let '(c, w') := handle m w in consume ms' w' (settle m c o)
  end.

(** Which messages were followed by a commit of their own. *)
Fixpoint outcomes (ms : list message) (w : W) : list bool :=
  match ms with
  | [] => []
  | m :: ms' => let '(c, w') := handle m w in c :: outcomes ms' w'
  end.

(** [consume_batches], on one batch (the messages of a partition together) when every
    partition has a handler of single messages: one commit, if nothing failed. *)
Definition consume_batch (batch : list message) (w : W) (o : offsets) : W * offsets :=
  let '(ok, w') := fold_left (fun '(ok, w) m => let '(c, w') := handle m w in (ok && c, w')) batch (true, w) in
  let o' := fold_left (fun o m => deliver m o) batch o in
  (w', if ok then commit o' else o').

(** After a restart a message is delivered again if its offset was not committed. *)
Definition redelivered (o : offsets) (m : message) : Prop :=
  (default 0 (committed o !! k_partition m) <= k_offset m)%Z.

(** Offsets of a partition grow, and nothing yet to come was read. *)
Fixpoint in_order (ms : list message) (o : offsets) : Prop :=
  match ms with
  | [] => True
  | m :: ms' =>
      (default 0 (position o !! k_partition m) <= k_offset m)%Z
      /\ (0 <= k_offset m)%Z /\ in_order ms' (deliver m o)
  end.

Lemma in_order_settle ms m c o : in_order ms (deliver m o) -> in_order ms (settle m c o).
Proof.
  unfold settle. destruct c; [|done]. generalize (deliver m o). clear o m. intros o.
  assert (Hg : forall o o', position o = position o' -> in_order ms o -> in_order ms o').
  { clear o. induction ms as [|m ms IH]; intros o o' Ho; [done|]. cbn. rewrite Ho.
    intros (H1 & H2 & H3). split; [done|]. split; [done|]. apply (IH (deliver m o)); [|done].
    unfold deliver. cbn. by rewrite Ho. }
  by apply Hg.
Qed.

(** What was read stays read, what was committed stays committed, and never more is
    committed than read. *)
Definition below (a b : gmap partition Z) : Prop := forall p, (default 0 (a !! p) <= default 0 (b !! p))%Z.
Definition sound (o : offsets) : Prop := below (committed o) (position o).

Lemma settle_sound m c o :
  in_order [m] o -> sound o ->
  sound (settle m c o) /\ below (position o) (position (settle m c o))
  /\ below (committed o) (committed (settle m c o)).
Proof.
  intros (Hm & H0 & _) Hs.
  assert (Hd : below (position o) (position (deliver m o))).
  { intros p. unfold deliver. cbn. destruct (decide (p = k_partition m)) as [->|Hne];
      [rewrite lookup_insert_eq; cbn; lia|by rewrite lookup_insert_ne]. }
  assert (Hc : below (committed o) (position (deliver m o))) by (intros p; specialize (Hs p); specialize (Hd p); lia).
  assert (Hu : forall p, default 0%Z ((position (deliver m o) ∪ committed o) !! p)
               = match position (deliver m o) !! p with Some x => x | None => default 0%Z (committed o !! p) end).
  { intros p. rewrite lookup_union. destruct (position (deliver m o) !! p), (committed o !! p); done. }
  unfold settle. destruct c; cbn [commit position committed].
  - split; [|split; [done|]]; intros p; unfold commit; cbn [position committed]; rewrite Hu; specialize (Hc p);
      destruct (position (deliver m o) !! p) eqn:E; cbn in *; rewrite ?E in *; cbn in *; lia.
  - split; [exact Hc|]. split; [exact Hd|]. intros p. cbn. lia.
Qed.

Lemma consume_sound ms w o :
  in_order ms o -> sound o ->
  sound (consume ms w o).2 /\ below (position o) (position (consume ms w o).2)
  /\ below (committed o) (committed (consume ms w o).2).
Proof.
  revert w o. induction ms as [|m ms IH]; intros w o Ho Hs; [split; [exact Hs|]; split; intros p; cbn; lia|].
  destruct Ho as (H1 & H2 & H3). cbn [consume]. destruct (handle m w) as [c w'].
  destruct (settle_sound m c o) as (Hs' & Hp & Hc); [by repeat split|done|].
  destruct (IH w' (settle m c o)) as (Hs2 & Hp2 & Hc2); [by apply in_order_settle|done|].
  split; [done|]. split; intros p; [specialize (Hp p); specialize (Hp2 p)|specialize (Hc p); specialize (Hc2 p)]; lia.
Qed.

(** Nothing is committed while nothing succeeds. *)
Lemma nothing_committed ms w o :
  existsb (fun c => c) (outcomes ms w) = false -> committed (consume ms w o).2 = committed o.
Proof.
  revert w o. induction ms as [|m ms IH]; intros w o Hn; [done|]. cbn [outcomes consume] in *.
  destruct (handle m w) as [c w']. cbn [existsb] in Hn. apply orb_false_iff in Hn as [-> Hn]. by rewrite IH.
Qed.

(** A commit at or after a message commits it. *)
Lemma commit_covers ms w o p n :
  in_order ms o -> sound o -> (0 < n <= default 0 (position o !! p))%Z ->
  existsb (fun c => c) (outcomes ms w) = true -> (n <= default 0 (committed (consume ms w o).2 !! p))%Z.
Proof.
  revert w o. induction ms as [|m ms IH]; intros w o Ho Hs Hn Hc; [done|].
  destruct Ho as (H1 & H2 & H3). cbn [outcomes consume] in *. destruct (handle m w) as [c w'].
  destruct (settle_sound m c o) as (Hs' & Hp & _); [by repeat split|done|].
  assert (Hn' : (0 < n <= default 0 (position (settle m c o) !! p))%Z) by (specialize (Hp p); lia).
  destruct c; [|apply IH; [by apply in_order_settle|done|lia|done]].
  destruct (consume_sound ms w' (settle m true o)) as (_ & _ & Hm); [by apply in_order_settle|done|].
  specialize (Hm p). enough (n <= default 0 (committed (settle m true o) !! p))%Z by lia.
  unfold settle, commit in *. cbn [position committed] in *. rewrite lookup_union.
  revert Hn'. destruct (position (deliver m o) !! p) eqn:E; cbn [default from_option id]; intros Hn'; [|lia].
  destruct (committed (deliver m o) !! p); cbn; lia.
Qed.

(** C18: A message is delivered again after a restart exactly when neither it nor any message
    delivered after it, of whatever partition, was committed: a message whose handler failed,
    which is meant not to be committed, is lost as soon as a later one succeeds. *)
Theorem redelivery_exact before m after w o :
  in_order (before ++ m :: after) o -> sound o ->
  let w' := (consume before w o).1 in
  redelivered (consume (before ++ m :: after) w o).2 m
  <-> existsb (fun c => c) (outcomes (m :: after) w') = false.
Proof.
  cbv zeta. revert w o. induction before as [|m0 before IH]; intros w o Ho Hs.
  - change (consume [] w o).1 with w. cbn [app]. unfold redelivered. split.
    + intros Hr. apply not_true_iff_false. intros Hc. destruct Ho as (H1 & H2 & H3).
      cbn [outcomes consume] in *. destruct (handle m w) as [c w'].
      destruct (settle_sound m c o) as (Hs' & _ & _); [by repeat split|done|].
      assert (Hp : (0 < k_offset m + 1 <= default 0 (position (settle m c o) !! k_partition m))%Z).
      { unfold settle, commit. destruct c; cbn; rewrite lookup_insert_eq; cbn; lia. }
      assert (Hcm : (k_offset m + 1 <= default 0 (committed (consume after w' (settle m c o)).2 !! k_partition m))%Z).
      { destruct c; cbn [existsb orb] in Hc.
        - destruct (consume_sound after w' (settle m true o)) as (_ & _ & Hm); [by apply in_order_settle|done|].
          specialize (Hm (k_partition m)). enough (k_offset m + 1 <= default 0 (committed (settle m true o) !! k_partition m))%Z by lia.
          unfold settle, commit, deliver. cbn. rewrite lookup_union, lookup_insert_eq.
          destruct (committed o !! k_partition m); cbn; lia.
        - apply commit_covers; [by apply in_order_settle|done|done|done]. }
      lia.
    + intros Hn. rewrite nothing_committed by done. destruct Ho as (H1 & _ & _). specialize (Hs (k_partition m)). lia.
  - destruct Ho as (H1 & H2 & H3). cbn [app consume]. destruct (handle m0 w) as [c w'] eqn:Eh.
    destruct (settle_sound m0 c o) as (Hs' & _ & _); [by repeat split|done|].
    apply (IH w' (settle m0 c o)); [by apply in_order_settle|done].
Qed.
End consumer.

Definition demo_message (offset : Z) (value : pyval) : message := Message ("orders", 0%Z) offset (Some value) None.
Definition demo_handlers (topic : string) : option (pyval -> option string -> EM (list pyval) unit) :=
  Some (fun v _ => if truthy v then modify (fun seen => seen ++ [v])%list else raise (ValueError "empty")).

Lemma redelivery_exact_witness :
  let o := Offsets ∅ ∅ in
  ~ redelivered (consume demo_handlers [demo_message 0 PNone; demo_message 1 (PInt 7)] [] o).2 (demo_message 0 PNone)
  /\ redelivered (consume demo_handlers [demo_message 0 PNone] [] o).2 (demo_message 0 PNone).
Proof.
  cbv zeta. split.
  - intros Hr. apply (redelivery_exact demo_handlers [] (demo_message 0 PNone) [demo_message 1 (PInt 7)]) in Hr.
    + by vm_compute in Hr.
    + by vm_compute.
    + intros p. cbn. lia.
  - apply (redelivery_exact demo_handlers [] (demo_message 0 PNone) []).
    + by vm_compute.
    + intros p. cbn. lia.
    + by vm_compute.
Defined.

(** ** The bridge *)

Section bridge.
Context {W : Type}.
(** [process_event] of the two engines, for a tenant. *)
Variables workflow_engine flow_engine : Tenant -> pyval -> pyval -> dict -> EM W unit.
(** The table of the tenants. *)
Variable tenants : list Tenant.

(** [_build_sasl_args]. *)
Definition build_sasl_args (security_protocol mechanism username password cafile : string) : list (string * string) :=
  if String.eqb security_protocol "PLAINTEXT" then []
  else (("sasl_mechanism", mechanism)
        :: (if String.eqb username "" then [] else [("sasl_username", username)])
        ++ (if String.eqb password "" then [] else [("sasl_password", password)])
        ++ (if String.eqb cafile "" then [] else [("ssl_cafile", cafile)]))%list.

Definition RECONNECT_BASE_DELAY : Z := 2.
Definition RECONNECT_MAX_DELAY : Z := 60.

(** [_consume_loop]: the delay after a crash whose reconnection succeeds or fails; the
    loop has slept [delay] before it. *)
Definition next_delay (reconnected : bool) (delay : Z) : Z :=
  if reconnected then RECONNECT_BASE_DELAY else Z.min (delay * 2) RECONNECT_MAX_DELAY.

Definition log_failure (m : EM W unit) : EM W unit := try_catch m (fun _ => mret tt).

(** [_process_for_tenant]. *)
Definition process_for_tenant (tenant : Tenant) (connector_name event : pyval) (data : dict) : EM W unit :=
  _ ← log_failure (workflow_engine tenant connector_name event data);
  log_failure (flow_engine tenant connector_name event data).

(** The active tenants an event is for; an identifier that is no UUID is for nobody. *)
Definition target_tenants (target : pyval) : list Tenant :=
  if truthy target then
    match parse_uuid (py_str target) with
    | None => []
    | Some tid => List.filter (fun t => tn_active t && String.eqb (tn_id t) tid) tenants
    end
  else List.filter tn_active tenants.

(** [_handle_message]. *)
Definition handle_message (message : pyval) (key : option string) : EM W unit :=
  d ← lift (dict_method "get" message);
  let connector_name := dget_or "connector_name" (PStr "") d in
  let event := dget_or "event" (PStr "") d in
  let data := dget_or "data" (PDict []) d in
  if negb (truthy connector_name) || negb (truthy event) then mret tt
  else
    data ← lift (dict_method "get" data);
    for_each (fun tenant => log_failure (process_for_tenant tenant connector_name event data))
      (target_tenants (dget_or "_tenant_id" PNone data)).

(** What both engines make of an event for one tenant, failures included. *)
Definition after_tenant (connector_name event : pyval) (data : dict) (w : W) (tenant : Tenant) : W :=
  (flow_engine tenant connector_name event data (workflow_engine tenant connector_name event data w).2).2.

Lemma process_for_tenant_spec tenant connector event data w :
  log_failure (process_for_tenant tenant connector event data) w = (Ok tt, after_tenant connector event data w tenant).
Proof.
  unfold process_for_tenant, log_failure, after_tenant, try_catch, mbind, EM_bind.
  destruct (workflow_engine tenant connector event data w) as [[[]|e] w1]; cbn;
    by destruct (flow_engine tenant connector event data w1) as [[[]|e2] w2].
Qed.

(** C20: An event reaches both engines for every active tenant it is for, in the order of the
    tenants, and whatever an engine raises for one tenant the others get theirs; the message is
    then handled, so that it is committed. *)
Theorem every_tenant_gets_the_event d data key w :
  truthy (dget_or "connector_name" (PStr "") d) = true -> truthy (dget_or "event" (PStr "") d) = true ->
  dget_or "data" (PDict []) d = PDict data ->
  handle_message (PDict d) key w
  = (Ok tt, fold_left (after_tenant (dget_or "connector_name" (PStr "") d) (dget_or "event" (PStr "") d) data)
              (target_tenants (dget_or "_tenant_id" PNone data)) w).
Proof.
  intros Hc He Hd. unfold handle_message, lift, mbind, EM_bind, dict_method. rewrite Hc, He, Hd. cbn [negb orb].
  generalize (target_tenants (dget_or "_tenant_id" PNone data)). intros l. revert w.
  induction l as [|t l IH]; intros w; [done|]. cbn [for_each fold_left]. unfold mbind, EM_bind.
  rewrite process_for_tenant_spec. apply IH.
Qed.

Lemma next_delay_bounds reconnected delay :
  (RECONNECT_BASE_DELAY <= delay <= RECONNECT_MAX_DELAY)%Z ->
  (RECONNECT_BASE_DELAY <= next_delay reconnected delay <= RECONNECT_MAX_DELAY)%Z.
Proof. unfold next_delay, RECONNECT_BASE_DELAY, RECONNECT_MAX_DELAY. destruct reconnected; lia. Qed.
End bridge.

Lemma every_tenant_gets_the_event_witness :
  let failing (t : Tenant) (_ _ : pyval) (_ : dict) : EM (list string) unit := raise (ValueError (tn_id t)) in
  let noting (t : Tenant) (_ _ : pyval) (_ : dict) : EM (list string) unit := modify (fun w => w ++ [tn_id t])%list in
  handle_message failing noting [MkTenant "t1" "a" true; MkTenant "t2" "b" false; MkTenant "t3" "c" true]
    (PDict [("connector_name", PStr "allegro"); ("event", PStr "order.created")]) None []
  = (Ok tt, ["t1"; "t3"]).
Proof.
  cbv zeta.
  rewrite (every_tenant_gets_the_event _ _ _ [("connector_name", PStr "allegro"); ("event", PStr "order.created")] []);
    by vm_compute.
Defined.
