(* ===== verification/HttpLimiter.v ===== *)
(** The rate limit of the HTTP API: [platform/middleware/rate_limiter.py], a sliding window
    in a sorted set of Redis for each client.  Times are integers (of one unit, the unit of
    the windows); the score of a member is the member. *)

From S2P Require Import Prelude PyText PyValue Effects.

Local Open Scope string_scope.

Definition BYPASS_PATHS : list string := ["/health"; "/readiness"; "/metrics"; "/docs"; "/openapi.json"].
Definition RATE_LIMIT_PREFIX : string := "ratelimit:".
Definition SENSITIVE_PATH_PREFIXES : list string :=
  ["/api/v1/tenants"; "/api/v1/webhooks/"; "/api/v1/demo/register"; "/api/v1/workflows/"].
Definition SENSITIVE_RATE_LIMIT_REQUESTS : Z := 30.
Definition SENSITIVE_RATE_LIMIT_WINDOW : Z := 60.

(** The sorted sets, with the time each expires. *)
Abbreviation zsets := (gmap string (list Z * Z)).
Definition zset (now : Z) (key : string) (s : zsets) : list Z :=
  match s !! key with
  | Some (l, expires) => if (expires <=? now)%Z then [] else l
  | None => []
  end.
Definition zremrangebyscore (lo hi : Z) (l : list Z) : list Z :=
  List.filter (fun x => negb ((lo <=? x)%Z && (x <=? hi)%Z)) l.
Definition zadd (x : Z) (l : list Z) : list Z := if existsb (Z.eqb x) l then l else (l ++ [x])%list.

Inductive answer :=
  | Bypassed
  | Forwarded (limit remaining : Z)
  | RateLimited (retry_after limit : Z)
  | Unavailable.

(** The pipeline of one request: the size of the window and the sets. *)
Definition record_request (key : string) (now window : Z) (s : zsets) : Z * zsets :=
  let l := zadd now (zremrangebyscore 0 (now - window) (zset now key s)) in
  (Z.of_nat (length l), <[key := (l, (now + window)%Z)]> s).

(** [float(await redis.zrange(key, 0, 0) or [str(now)])[0]]: [float] is applied to the list. *)
Definition oldest_request (l : list Z) : res Z :=
  Raise (TypeError "float() argument must be a string or a real number, not 'list'").
Definition retry_after (key : string) (now window : Z) (s : zsets) : res Z :=
  oldest ← oldest_request (zset now key s);
  Ok (let n := (window - (now - oldest))%Z in if (n =? 0)%Z then 1%Z else n).

(** The request is counted, and forwarded or refused; an exception refuses it. *)
Definition limit_request (key : string) (now window max_requests : Z) (s : zsets) : answer * zsets :=
  let '(current_count, s') := record_request key now window s in
  if (max_requests <? current_count)%Z then
    match retry_after key now window s' with
    | Ok n => (RateLimited n max_requests, s')
    | Raise _ => (Unavailable, s')
    end
  else (Forwarded max_requests (Z.max 0 (max_requests - current_count)), s').

Section middleware.
(** SHA-256 in hexadecimal, the limits of the settings, and whether Redis answers. *)
Variable sha256_hex : string -> string.
Variables rate_limit_requests rate_limit_window_seconds : Z.
Variable redis_answers : bool.

(** Who is counted: the key a request claims, or its address. *)
Definition identifier (api_key : string) (client_ip : option string) : string :=
  if String.eqb api_key "" then "ip:" ++ default "unknown" client_ip else str_take 32 (sha256_hex api_key).

Definition is_sensitive (path : string) : bool := existsb (fun p => starts_with p path) SENSITIVE_PATH_PREFIXES.

(** [RateLimiterMiddleware.dispatch] up to the call of the application. *)
Definition dispatch (path api_key : string) (client_ip : option string) (now : Z) (s : zsets) : answer * zsets :=
  if existsb (String.eqb path) BYPASS_PATHS then (Bypassed, s)
  else
    let sensitive := is_sensitive path in
    let window := if sensitive then SENSITIVE_RATE_LIMIT_WINDOW else rate_limit_window_seconds in
    let max_requests := if sensitive then SENSITIVE_RATE_LIMIT_REQUESTS else rate_limit_requests in
    let id := (if sensitive then "sensitive:" else "") ++ identifier api_key client_ip in
    if redis_answers then limit_request (RATE_LIMIT_PREFIX ++ id) now window max_requests s
    else (Unavailable, s).
End middleware.

(** ** The window *)

Definition in_window (now window x : Z) : bool := (now - window <? x)%Z.

(** The requests of a client one after the other: the answers and the sets. *)
Fixpoint limit_requests (key : string) (window max_requests : Z) (times : list Z) (s : zsets)
  : list answer * zsets :=
  match times with
  | [] => ([], s)
  | t :: times' =>
      let '(a, s1) := limit_request key t window max_requests s in
      let '(rest, s2) := limit_requests key window max_requests times' s1 in
      (a :: rest, s2)
  end.

(** The set of a client holds its requests of the last window, up to [last]. *)
Definition window_state (key : string) (window last : Z) (past : list Z) (s : zsets) : Prop :=
  Forall (fun x => 0 <= x <= last)%Z past
  /\ match s !! key with
     | Some (l, expires) => expires = (last + window)%Z /\ l = List.filter (in_window last window) past
     | None => past = []
     end.

Lemma filter_none {A} (p : A -> bool) l : (forall x, x ∈ l -> p x = false) -> List.filter p l = [].
Proof.
  induction l as [|x l IH]; intros Hp; [done|]. cbn. rewrite Hp by left. apply IH. intros y Hy. apply Hp. by right.
Qed.

Lemma trimmed key window last past s now :
  (0 < window)%Z -> (last <= now)%Z -> window_state key window last past s ->
  zremrangebyscore 0 (now - window) (zset now key s) = List.filter (in_window now window) past.
Proof.
  intros Hw Hlast [Hf Hs]. unfold zset. rewrite Forall_forall in Hf.
  destruct (s !! key) as [[l expires]|]; [|by subst]. destruct Hs as [-> ->].
  destruct (Z.leb_spec (last + window) now).
  - cbn. symmetry. apply filter_none. intros x Hx%list_elem_of_In%Hf. unfold in_window. apply Z.ltb_ge. lia.
  - unfold zremrangebyscore. rewrite filter_filter. apply filter_ext_in. intros x Hx%Hf. unfold in_window.
    destruct (Z.leb_spec 0 x), (Z.leb_spec x (now - window)), (Z.ltb_spec (now - window) x), (Z.ltb_spec (last - window) x);
      cbn; lia || done.
Qed.

(** A request is counted with those of its window, and the set then holds them. *)
Lemma record_request_spec key window last past s now :
  (0 < window)%Z -> (last < now)%Z -> (0 <= now)%Z -> window_state key window last past s ->
  (record_request key now window s).1 = Z.of_nat (length (List.filter (in_window now window) (past ++ [now])))
  /\ window_state key window now (past ++ [now]) (record_request key now window s).2.
Proof.
  intros Hw Hl H0 Hs. unfold record_request. rewrite (trimmed key window last past s now) by (done || lia).
  assert (Hadd : zadd now (List.filter (in_window now window) past) = List.filter (in_window now window) (past ++ [now])).
  { unfold zadd. rewrite List.filter_app. cbn [List.filter].
    replace (in_window now window now) with true by (symmetry; apply Z.ltb_lt; lia).
    destruct (existsb _ _) eqn:E; [|done]. apply existsb_exists in E as (x & Hx & ->%Z.eqb_eq).
    apply filter_In in Hx as [Hx _]. destruct Hs as [Hf _]. rewrite Forall_forall in Hf. specialize (Hf x Hx). lia. }
  rewrite Hadd. split; [done|]. split; [|by cbn; rewrite lookup_insert_eq].
  destruct Hs as [Hf _]. apply Forall_app.
  split; [eapply Forall_impl; [|exact Hf]; cbn; lia|repeat constructor; lia].
Qed.

(** The requests of other clients do not matter. *)
Lemma record_request_other key key' window last past s now :
  key <> key' -> window_state key window last past s ->
  window_state key window last past (record_request key' now window s).2.
Proof. intros Hk [Hf Hs]. split; [done|]. cbn. by rewrite lookup_insert_ne. Qed.

Lemma limit_request_spec key window max_requests last past s now :
  (0 < window)%Z -> (last < now)%Z -> (0 <= now)%Z -> window_state key window last past s ->
  let count := Z.of_nat (length (List.filter (in_window now window) (past ++ [now]))) in
  (limit_request key now window max_requests s).1
    = (if (max_requests <? count)%Z then Unavailable else Forwarded max_requests (max_requests - count))
  /\ window_state key window now (past ++ [now]) (limit_request key now window max_requests s).2.
Proof.
  intros Hw Hl H0 Hs. cbv zeta.
  destruct (record_request_spec key window last past s now) as [Hn Hst]; [done..|].
  unfold limit_request. destruct (record_request key now window s) as [count s']. cbn [fst snd] in *. subst count.
  set (count := Z.of_nat _). split; [|by destruct (_ <? _)%Z].
  destruct (Z.ltb_spec max_requests count); [done|]. cbn. f_equal. lia.
Qed.

(** The reference: a request is forwarded when its window, with the requests before it,
    refused or not, holds no more than the limit. *)
Fixpoint window_answers (window max_requests : Z) (past times : list Z) : list answer :=
  match times with
  | [] => []
  | t :: times' =>
      let count := Z.of_nat (length (List.filter (in_window t window) (past ++ [t]))) in
      (if (max_requests <? count)%Z then Unavailable else Forwarded max_requests (max_requests - count))
      :: window_answers window max_requests (past ++ [t]) times'
  end.

(** Times that grow from [last] on. *)
Fixpoint increasing (last : Z) (times : list Z) : Prop :=
  match times with [] => True | t :: times' => (last < t)%Z /\ increasing t times' end.

(** C13: The limiter is an exact sliding window: of the requests of a client, at increasing times,
    one is forwarded exactly when its window holds no more requests than the limit, refused ones
    included; so no window ever has more forwarded requests than the limit.  The others are
    refused with 503: the answer 429 the code builds is never given. *)
Theorem sliding_window_exact key window max_requests times s :
  (0 < window)%Z -> s !! key = None -> increasing (-1) times ->
  (limit_requests key window max_requests times s).1 = window_answers window max_requests [] times.
Proof.
  intros Hw Hs. assert (Hst : window_state key window (-1) [] s) by (split; [constructor|by rewrite Hs]).
  clear Hs. assert (Hl : (-1 <= -1)%Z) by lia. revert Hl Hst.
  generalize (-1)%Z at 2 3 4. generalize (@nil Z). revert s.
  induction times as [|t times IH]; intros s past last Hl Hst Hi; [done|].
  destruct Hi as [Hlt Hi]. cbn [limit_requests window_answers].
  destruct (limit_request_spec key window max_requests last past s t) as [Ha Hst']; [done|done|lia|done|].
  destruct (limit_request _ _ _ _ _) as [a s1]. cbn [fst snd] in Ha, Hst'.
  specialize (IH s1 (past ++ [t])%list t ltac:(lia) Hst' Hi).
  destruct (limit_requests _ _ _ _ s1) as [rest s2]. cbn [fst] in *. by rewrite Ha, IH.
Qed.

Lemma sliding_window_exact_witness :
  (limit_requests "k" 60 2 [0; 10; 20; 65; 125]%Z ∅).1
  = [Forwarded 2 1; Forwarded 2 0; Unavailable; Unavailable; Forwarded 2 1].
Proof. rewrite sliding_window_exact; [by vm_compute|done|by apply lookup_empty|cbn; lia]. Defined.
