(* ===== verification/Tenants.v ===== *)
(** Tenants, their API keys and the registration of demo workspaces
    ([platform/api/gateway.py], [platform/api/auth.py]), on the authentication of [Auth] and
    the sliding window of [HttpLimiter].  Random draws are functions of a counter. *)

From stdpp Require Import relations.
From S2P Require Import Prelude PyText PyValue Effects Regex Vault Webhooks Auth HttpLimiter.

Local Open Scope string_scope.

(** ** Slugs *)

Definition is_dash (c : ascii) : bool := Ascii.eqb c "-".

(** [re.sub(r"[p]+", "-", s)]; [inside]: the character before was replaced. *)
Fixpoint sub_runs (p : ascii -> bool) (inside : bool) (s : string) : string :=
  match s with
  | EmptyString => EmptyString
  | String c s' =>
      if p c then (if inside then sub_runs p true s' else String "-" (sub_runs p true s'))
      else String c (sub_runs p false s')
  end.

Definition strip_dashes (s : string) : string := rstrip_by is_dash (lstrip_by is_dash s).

(** [_slugify]. *)
Definition slugify (text : string) : string :=
  let slug := str_filter (fun c => is_word c || is_space c || is_dash c) (py_strip (py_lower text)) in
  let slug := sub_runs (fun c => is_space c || Ascii.eqb c "_") false slug in
  let slug := strip_dashes (sub_runs is_dash false slug) in
  if String.eqb slug "" then "workspace" else slug.

(** The pattern of [TenantCreate.slug]. *)
Definition valid_slug (s : string) : bool :=
  match s with
  | EmptyString => false
  | String c s' => (is_lower c || is_digit c)
                   && str_forall (fun a => is_lower a || is_digit a || Ascii.eqb a "_" || is_dash a) s'
  end.

(** ** The tables *)

Record tenant_row := TenantRow { tr_tenant : Tenant; tr_name : string; tr_plan : string; tr_created : Z }.
Record key_row := KeyRow { kr_id : string; kr_key : ApiKey; kr_prefix : string; kr_name : string }.
Record tables := Tables { tt_tenants : list tenant_row; tt_keys : list key_row }.

Definition tr_id (r : tenant_row) : string := tn_id (tr_tenant r).
Definition tr_slug (r : tenant_row) : string := tn_slug (tr_tenant r).
Definition kr_hash (k : key_row) : string := ak_hash (kr_key k).

Definition insert_tenant (r : tenant_row) (t : tables) : res tables :=
  _ ← varchar 200 (tr_name r);
  _ ← varchar 100 (tr_slug r);
  if existsb (fun r' => String.eqb (tr_id r') (tr_id r) || String.eqb (tr_slug r') (tr_slug r)) (tt_tenants t)
  then Raise IntegrityError
  else Ok (Tables (tt_tenants t ++ [r]) (tt_keys t)).

Definition insert_key (k : key_row) (t : tables) : res tables :=
  _ ← varchar 200 (kr_name k);
  if existsb (fun k' => String.eqb (kr_id k') (kr_id k) || String.eqb (kr_hash k') (kr_hash k)) (tt_keys t)
     || negb (existsb (fun r => String.eqb (tr_id r) (ak_tenant (kr_key k))) (tt_tenants t))
  then Raise IntegrityError
  else Ok (Tables (tt_tenants t) (tt_keys t ++ [k])).

(** What authentication reads of the tables, at the start of a transaction. *)
Definition auth_view (t : tables) : auth_state :=
  AuthState new_transaction (map tr_tenant (tt_tenants t)) (map kr_key (tt_keys t)) [].

(** The tables, the sliding windows of Redis and the number of random draws. *)
Record tenancy := Tenancy { ty_tables : tables; ty_limits : zsets; ty_draws : nat }.

Definition draw : EM tenancy nat := fun s =>
  (Ok (ty_draws s), Tenancy (ty_tables s) (ty_limits s) (S (ty_draws s))).

(** A transaction: its changes are kept when it returns. *)
Definition in_db {A} (f : tables -> res (A * tables)) : EM tenancy A := fun s =>
  match f (ty_tables s) with
  | Ok (a, t) => (Ok a, Tenancy t (ty_limits s) (ty_draws s))
  | Raise e => (Raise e, s)
  end.

Definition DEMO_RATE_LIMIT : Z := 10.
Definition DEMO_RATE_WINDOW : Z := 3600.

Section endpoints.
Variable hash_api_key : string -> string.
(** [uuid.uuid4().hex] and [secrets.token_hex(3)]. *)
Variables uuid4_hex token_hex : nat -> string.
Variables admin_secret internal_secret : string.
Variables demo_mode redis_answers : bool.

(** [_require_admin_secret] and [_require_internal_secret] on their headers. *)
Definition require_admin_secret {S} (provided : option string) : EM S unit :=
  if String.eqb admin_secret ""
  then http_error 403 "Tenant management is disabled — set ADMIN_SECRET to enable"
  else same ← lift (compare_digest (default "" provided) admin_secret);
       if (same : bool) then mret tt else http_error 403 "Invalid admin secret".
Definition require_internal_secret {S} (provided : option string) : EM S unit :=
  if String.eqb internal_secret ""
  then http_error 403 "Internal endpoints disabled — INTERNAL_SECRET not configured"
  else same ← lift (compare_digest (default "" provided) internal_secret);
       if (same : bool) then mret tt else http_error 403 "Invalid internal secret".

(** [generate_api_key]: the key and its hash. *)
Definition generate_api_key (prefix : string) : EM tenancy (string * string) :=
  n ← draw;
  let raw_key := prefix ++ "_" ++ uuid4_hex n in
  mret (raw_key, hash_api_key raw_key).

(** [list_tenants]: by their creation, with their keys. *)
Definition list_tenants (provided : option string) : EM tenancy (list (tenant_row * list key_row)) :=
  _ ← require_admin_secret provided;
  gets (fun s =>
    map (fun r => (r, List.filter (fun k => String.eqb (ak_tenant (kr_key k)) (tr_id r)) (tt_keys (ty_tables s))))
      (stable_sort (fun a b => (tr_created a <? tr_created b)%Z) (tt_tenants (ty_tables s)))).

(** [create_tenant]; [id] and [now] are drawn by the database. *)
Definition create_tenant (provided : option string) (name slug id : string) (now : Z) : EM tenancy tenant_row :=
  _ ← require_admin_secret provided;
  in_db (fun t =>
    existing ← scalar_one_or_none (List.filter (fun r => String.eqb (tr_slug r) slug) (tt_tenants t));
    match existing with
    | Some _ => Raise (http_exception 409 ("Tenant with slug '" ++ slug ++ "' already exists"))
    | None =>
        let r := TenantRow (MkTenant id slug true) name "free" now in
        t' ← insert_tenant r t; Ok (r, t')
    end).

(** [create_api_key]: the row and the key, which is shown once. *)
Definition create_api_key (provided : option string) (tenant_id name key_id : string)
  : EM tenancy (key_row * string) :=
  _ ← require_admin_secret provided;
  match parse_uuid tenant_id with
  | None => http_error 400 "Invalid tenant_id format"
  | Some tid =>
      s ← get_st;
      tenant ← lift (scalar_one_or_none
        (List.filter (fun r => String.eqb (tr_id r) tid) (tt_tenants (ty_tables s))));
      match tenant with
      | None => http_error 404 "Tenant not found"
      | Some _ =>
          '(raw_key, key_hash) ← generate_api_key "pk_live";
          let k := KeyRow key_id (MkApiKey key_hash tid true) (str_take 10 raw_key) name in
          in_db (fun t => t' ← insert_key k t; Ok ((k, raw_key), t'))
      end
  end.

(** [_demo_rate_check]: the request is counted, and refused when there are too many. *)
Definition demo_rate_check (client_ip : string) (now : Z) : EM tenancy unit := fun s =>
  if redis_answers then
    let '(count, limits) := record_request ("demo_register:" ++ client_ip) now DEMO_RATE_WINDOW (ty_limits s) in
    let s' := Tenancy (ty_tables s) limits (ty_draws s) in
    if (DEMO_RATE_LIMIT <? count)%Z
    then (Raise (http_exception 429 "Too many demo registrations. Try again later."), s')
    else (Ok tt, s')
  else (Raise (http_exception 503 "Rate limiting service unavailable"), s).

(** [demo_register]: the key, the name and the slug of a new workspace. *)
Definition demo_register (workspace_name : string) (client : option string) (id key_id : string) (now : Z)
  : EM tenancy (string * string * string) :=
  if negb demo_mode then http_error 404 "Not found"
  else
    _ ← demo_rate_check (default "unknown" client) now;
    n ← draw;
    let slug := slugify workspace_name ++ "-" ++ token_hex n in
    let r := TenantRow (MkTenant id slug true) workspace_name "demo" now in
    '(raw_key, key_hash) ← generate_api_key "pk_demo";
    let k := KeyRow key_id (MkApiKey key_hash id true) (str_take 10 raw_key) "demo-dashboard" in
    in_db (fun t => t1 ← insert_tenant r t; t2 ← insert_key k t1; Ok ((raw_key, workspace_name, slug), t2)).

(** [demo_validate_key]: the name of the tenant of a key. *)
Definition demo_validate_key (api_key : string) : EM tenancy (option string) :=
  if negb demo_mode then http_error 404 "Not found"
  else
    s ← get_st;
    k ← lift (scalar_one_or_none
      (List.filter (fun k => String.eqb (kr_hash k) (hash_api_key api_key) && ak_active (kr_key k))
         (tt_keys (ty_tables s))));
    match k with
    | None => mret None
    | Some k =>
        r ← lift (scalar_one_or_none
          (List.filter (fun r => String.eqb (tr_id r) (ak_tenant (kr_key k)) && tn_active (tr_tenant r))
             (tt_tenants (ty_tables s))));
        mret (tr_name <$> r)
    end.
End endpoints.

(** ** Facts about slugs *)

(** No two dashes in a row; [prev]: the character before was one. *)
Fixpoint single_dashes (prev : bool) (s : string) : bool :=
  match s with
  | EmptyString => true
  | String c s' => negb (prev && is_dash c) && single_dashes (is_dash c) s'
  end.

Lemma sub_runs_forall p q b s :
  q "-"%char = true -> str_forall (fun c => p c || q c) s = true -> str_forall q (sub_runs p b s) = true.
Proof.
  intros Hq. revert b. induction s as [|c s IH]; intros b; cbn; [done|]. intros [Hc Hs]%andb_true_iff.
  destruct (p c); [destruct b; cbn; by rewrite ?Hq, ?IH|]. cbn in *. by rewrite Hc, IH.
Qed.

Lemma sub_runs_id p b s : str_forall (fun c => negb (p c)) s = true -> sub_runs p b s = s.
Proof.
  revert b. induction s as [|c s IH]; intros b; cbn; [done|]. intros [Hc%negb_true_iff Hs]%andb_true_iff.
  by rewrite Hc, IH.
Qed.

Lemma sub_runs_single b s : single_dashes b (sub_runs is_dash b s) = true.
Proof.
  revert b. induction s as [|c s IH]; intros b; cbn; [done|].
  destruct (is_dash c) eqn:E; [destruct b; [apply IH|cbn; apply IH]|]. cbn. by rewrite E, andb_false_r, IH.
Qed.

Lemma sub_runs_dash_id b s : single_dashes b s = true -> sub_runs is_dash b s = s.
Proof.
  revert b. induction s as [|c s IH]; intros b; cbn; [done|].
  intros [Hc Hs]%andb_true_iff. destruct (is_dash c) eqn:E; [|by rewrite IH].
  apply Ascii.eqb_eq in E as ->. destruct b; [done|]. by rewrite IH.
Qed.

Lemma rstrip_prefix p s : exists u, s = (rstrip_by p s ++ u)%string.
Proof.
  unfold rstrip_by. assert (Hl : forall t, exists u, t = (u ++ lstrip_by p t)%string).
  { intros t. induction t as [|c t [u IH]]; [by exists ""|]. cbn. destruct (p c); [|by exists ""].
    exists (String c u). cbn. by rewrite <- IH. }
  destruct (Hl (str_rev s)) as [u Hu]. exists (str_rev u).
  rewrite <- (str_rev_involutive s) at 1. rewrite Hu at 1. by rewrite str_rev_app_distr.
Qed.

Lemma str_filter_id p s : str_forall p s = true -> str_filter p s = s.
Proof. induction s as [|c s IH]; cbn; [done|]. intros [Hc Hs]%andb_true_iff. by rewrite Hc, IH. Qed.

Lemma str_filter_forall p q s : str_forall q s = true -> str_forall (fun c => p c && q c) (str_filter p s) = true.
Proof.
  induction s as [|c s IH]; cbn; [done|]. intros [Hc Hs]%andb_true_iff.
  destruct (p c) eqn:E; cbn; [by rewrite E, Hc, IH|by apply IH].
Qed.

Lemma lstrip_forall p q s : str_forall q s = true -> str_forall q (lstrip_by p s) = true.
Proof. induction s as [|c s IH]; cbn; [done|]. intros H. pose proof H as [_ Hs]%andb_true_iff. destruct (p c); auto. Qed.
Lemma rstrip_forall p q s : str_forall q s = true -> str_forall q (rstrip_by p s) = true.
Proof. intros H. unfold rstrip_by. by rewrite str_forall_rev, lstrip_forall by (by rewrite str_forall_rev). Qed.

Lemma single_lstrip b s : single_dashes b s = true -> single_dashes false (lstrip_by is_dash s) = true.
Proof.
  revert b. induction s as [|c s IH]; intros b; cbn; [done|]. intros [_ Hs]%andb_true_iff.
  destruct (is_dash c) eqn:E; [by apply (IH true)|]. cbn. by rewrite E, Hs.
Qed.
Lemma single_prefix b s u : single_dashes b (s ++ u) = true -> single_dashes b s = true.
Proof.
  revert b. induction s as [|c s IH]; intros b; cbn; [done|]. intros [Hc Hs]%andb_true_iff.
  by rewrite Hc, (IH _ Hs).
Qed.

Lemma strip_dashes_idemp s : strip_dashes (strip_dashes s) = strip_dashes s.
Proof.
  unfold strip_dashes. set (x := lstrip_by is_dash s). assert (Hx : lstrip_by is_dash x = x) by apply lstrip_by_idemp.
  clearbody x. assert (Hl : lstrip_by is_dash (rstrip_by is_dash x) = rstrip_by is_dash x).
  { destruct (rstrip_prefix is_dash x) as [u Hu]. destruct (rstrip_by is_dash x) as [|c t]; [done|].
    rewrite Hu in Hx. cbn in *. destruct (is_dash c) eqn:E; [|done]. exfalso.
    assert (Hlen : forall y, (String.length (lstrip_by is_dash y) <= String.length y)%nat).
    { intros y. induction y as [|a y IH]; cbn; [lia|]. destruct (is_dash a); cbn; lia. }
    specialize (Hlen (t ++ u)%string). rewrite Hx in Hlen. cbn in Hlen. lia. }
  rewrite Hl. unfold rstrip_by. by rewrite str_rev_involutive, lstrip_by_idemp.
Qed.

(** The characters of a slug. *)
Definition slug_char (c : ascii) : bool := is_lower c || is_digit c || is_dash c.

Lemma slug_char_facts c : slug_char c = true ->
  lower_char c = c /\ is_space c = false /\ Ascii.eqb c "_" = false /\ is_word c || is_space c || is_dash c = true.
Proof. by destruct c as [[] [] [] [] [] [] [] []]; vm_compute. Qed.

Lemma lower_not_upper c : negb (is_upper (lower_char c)) = true.
Proof. by destruct c as [[] [] [] [] [] [] [] []]; vm_compute. Qed.

Lemma slug_chars_lower c : (is_word c || is_space c || is_dash c) && negb (is_upper c) = true ->
  (is_space c || Ascii.eqb c "_") || slug_char c = true.
Proof. by destruct c as [[] [] [] [] [] [] [] []]; vm_compute. Qed.

Lemma str_forall_map p f s : (forall c, p (f c) = true) -> str_forall p (str_map f s) = true.
Proof. intros Hp. induction s as [|c s IH]; cbn; [done|]. by rewrite Hp, IH. Qed.

(** What [_slugify] leaves: letters, digits and single dashes inside. *)
Definition slug_shape (s : string) : Prop :=
  s <> "" /\ str_forall slug_char s = true /\ single_dashes false s = true /\ strip_dashes s = s.

Lemma slugify_shape text : slug_shape (slugify text).
Proof.
  unfold slugify. cbv zeta. set (s0 := str_filter _ _).
  assert (H0 : str_forall (fun c => (is_word c || is_space c || is_dash c) && negb (is_upper c)) s0 = true).
  { apply str_filter_forall. unfold py_strip. apply rstrip_forall, lstrip_forall, str_forall_map, lower_not_upper. }
  set (s1 := sub_runs (fun c => is_space c || Ascii.eqb c "_") false s0).
  assert (H1 : str_forall slug_char s1 = true).
  { apply sub_runs_forall; [done|]. eapply str_forall_impl; [|exact H0]. apply slug_chars_lower. }
  set (s2 := sub_runs is_dash false s1).
  assert (H2 : str_forall slug_char s2 = true).
  { apply sub_runs_forall; [done|]. eapply str_forall_impl; [|exact H1]. intros c ->. apply orb_true_r. }
  assert (Hs2 : single_dashes false s2 = true) by apply sub_runs_single.
  clearbody s2. destruct (String.eqb_spec (strip_dashes s2) ""); [by repeat split|].
  split; [done|]. split; [by apply rstrip_forall, lstrip_forall|]. split; [|apply strip_dashes_idemp].
  apply single_lstrip in Hs2. unfold strip_dashes. destruct (rstrip_prefix is_dash (lstrip_by is_dash s2)) as [u Hu].
  rewrite Hu in Hs2. by apply single_prefix in Hs2.
Qed.

Lemma slug_shape_fixed s : slug_shape s -> slugify s = s.
Proof.
  intros (Hne & Hc & Hd & Hs). unfold slugify.
  assert (Hall : forall q, (forall c, slug_char c = true -> q c = true) -> str_forall q s = true).
  { intros q Hq. by apply (str_forall_impl slug_char). }
  assert (Hlow : py_lower s = s).
  { clear -Hc. induction s as [|c s IH]; cbn in *; [done|]. apply andb_true_iff in Hc as [Hc Hs].
    unfold py_lower in *. cbn. rewrite IH by done. f_equal. by apply slug_char_facts. }
  rewrite Hlow, py_strip_no_space by (apply Hall; intros c (_ & -> & _)%slug_char_facts; done).
  rewrite str_filter_id by (apply Hall; by intros c (_ & _ & _ & ->)%slug_char_facts).
  rewrite (sub_runs_id (fun c => is_space c || Ascii.eqb c "_")) by (apply Hall; by intros c (_ & -> & -> & _)%slug_char_facts).
  rewrite sub_runs_dash_id, Hs by done. by destruct (String.eqb_spec s "").
Qed.

(** The slug of a workspace is never empty, is a slug an administrator could have
    given to a tenant, and is its own slug. *)
Theorem slugify_valid text : valid_slug (slugify text) = true /\ slugify (slugify text) = slugify text.
Proof.
  pose proof (slugify_shape text) as Hs. split; [|by apply slug_shape_fixed].
  destruct Hs as (Hne & Hc & _ & Hs). destruct (slugify text) as [|c s]; [done|]. clear Hne.
  cbn [str_forall] in Hc. apply andb_true_iff in Hc as [Hc Hr]. cbn [valid_slug]. apply andb_true_iff. split.
  - unfold slug_char in Hc. destruct (is_dash c) eqn:E; [|by rewrite orb_false_r in Hc].
    exfalso. unfold strip_dashes in Hs. cbn [lstrip_by] in Hs. rewrite E in Hs.
    assert (Hlen : forall y, (String.length (rstrip_by is_dash (lstrip_by is_dash y)) <= String.length y)%nat).
    { intros y. destruct (rstrip_prefix is_dash (lstrip_by is_dash y)) as [u Hu].
      apply (f_equal String.length) in Hu. rewrite str_app_length in Hu.
      enough (String.length (lstrip_by is_dash y) <= String.length y)%nat by lia. clear.
      induction y as [|a y IH]; cbn; [lia|]. destruct (is_dash a); cbn; lia. }
    specialize (Hlen s). rewrite Hs in Hlen. cbn in Hlen. lia.
  - eapply str_forall_impl; [|exact Hr]. intros a [Ha|Ha]%orb_true_iff; rewrite Ha; [|by rewrite orb_true_r].
    done.
Qed.

(** ** Facts about the tables *)

Record tables_ok (t : tables) : Prop := {
  ok_ids : unique_rows tr_id (tt_tenants t);
  ok_slugs : unique_rows tr_slug (tt_tenants t);
  ok_hashes : unique_rows kr_hash (tt_keys t);
  ok_owners : Forall (fun k => ak_tenant (kr_key k) ∈ map tr_id (tt_tenants t)) (tt_keys t)
}.

(** A row is added; no endpoint changes or deletes one. *)
Inductive insertion (t t' : tables) : Prop :=
  | ins_tenant r : insert_tenant r t = Ok t' -> insertion t t'
  | ins_key k : insert_key k t = Ok t' -> insertion t t'.

Lemma no_row_has {R} (f g : R -> string) k l rows :
  existsb (fun x => String.eqb (f x) k || String.eqb (g x) l) rows = false -> (k ∉ map f rows) /\ (l ∉ map g rows).
Proof.
  induction rows as [|x rows IH]; cbn; [split; apply not_elem_of_nil|].
  intros [[Hf Hg]%orb_false_iff Hr]%orb_false_iff. apply String.eqb_neq in Hf, Hg.
  destruct (IH Hr). split; apply not_elem_of_cons; by split.
Qed.

Lemma insert_tenant_inv r t t' :
  insert_tenant r t = Ok t' ->
  t' = Tables (tt_tenants t ++ [r])%list (tt_keys t) /\ (tr_id r ∉ map tr_id (tt_tenants t)) /\ (tr_slug r ∉ map tr_slug (tt_tenants t)).
Proof.
  unfold insert_tenant. intros H. bind_ok. destruct (existsb _ _) eqn:E; [done|]. injection H as <-.
  by apply no_row_has in E.
Qed.

Lemma insert_key_inv k t t' :
  insert_key k t = Ok t' ->
  t' = Tables (tt_tenants t) (tt_keys t ++ [k])%list /\ (kr_hash k ∉ map kr_hash (tt_keys t))
  /\ ak_tenant (kr_key k) ∈ map tr_id (tt_tenants t).
Proof.
  unfold insert_key. intros H. bind_ok. destruct (_ || _) eqn:E; [done|]. injection H as <-.
  apply orb_false_iff in E as [E Hf]. apply no_row_has in E as [_ E]. split; [done|]. split; [done|].
  apply negb_false_iff, existsb_exists in Hf as (r & Hin & Hr%String.eqb_eq). rewrite <- Hr.
  by apply list_elem_of_In, in_map.
Qed.

Lemma unique_snoc {K} `{EqDecision K} {R} (f : R -> K) r rows :
  f r ∉ map f rows -> unique_rows f rows -> unique_rows f (rows ++ [r])%list.
Proof. intros Hn Hu. apply unique_insert; [done|]. by apply find_key_None. Qed.

Lemma insertion_ok t t' : insertion t t' -> tables_ok t -> tables_ok t'.
Proof.
  intros [r H|k H] [Hi Hs Hh Ho].
  - apply insert_tenant_inv in H as (-> & Hr & Hr'). split; cbn; [by apply unique_snoc..|done|].
    eapply Forall_impl; [|exact Ho]. cbn. intros k Hk. rewrite map_app. apply elem_of_app. by left.
  - apply insert_key_inv in H as (-> & Hr & Hr'). split; cbn; [done..|by apply unique_snoc|].
    apply Forall_app. by repeat constructor.
Qed.

Lemma insertions_ok t t' : rtc insertion t t' -> tables_ok t -> tables_ok t'.
Proof. induction 1; eauto using insertion_ok. Qed.

(** What is in the tables stays there. *)
Lemma insertions_keep t t' : rtc insertion t t' ->
  (forall r, r ∈ tt_tenants t -> r ∈ tt_tenants t') /\ (forall k, k ∈ tt_keys t -> k ∈ tt_keys t').
Proof.
  induction 1 as [|t t1 t' Hs _ [IH1 IH2]]; [done|].
  assert (H1 : (forall r, r ∈ tt_tenants t -> r ∈ tt_tenants t1) /\ (forall k, k ∈ tt_keys t -> k ∈ tt_keys t1)).
  { destruct Hs as [r Hs|k Hs]; [apply insert_tenant_inv in Hs as (-> & _)|apply insert_key_inv in Hs as (-> & _)];
      cbn; split; intros x Hx; rewrite ?elem_of_app; auto. }
  destruct H1 as [H1 H1']. split; intros x Hx; [apply IH1, H1, Hx|apply IH2, H1', Hx].
Qed.

(** The statement that finds a row by a unique column gives that row. *)
Lemma found_row {R A} (row : R -> A) (key : A -> string) (p : A -> bool) rows r :
  unique_rows (fun x => key (row x)) rows -> r ∈ rows -> p (row r) = true ->
  List.filter (fun a => String.eqb (key a) (key (row r)) && p a) (map row rows) = [row r].
Proof.
  intros Hu Hin Hp. rewrite <- (filter_filter (fun a => String.eqb (key a) (key (row r))) p).
  replace (List.filter (fun a => String.eqb (key a) (key (row r))) (map row rows))
    with (map row (List.filter (has_key (fun x => key (row x)) (key (row r))) rows)).
  - rewrite unique_filter_key, (find_key_unique (fun x => key (row x))) by done. cbn. by rewrite Hp.
  - generalize (key (row r)). clear. intros h. induction rows as [|x l IH]; [done|]. cbn. unfold has_key at 1.
    destruct (String.eqb_spec (key (row x)) h) as [E|E]; case_bool_decide; cbn; rewrite ?IH; done.
Qed.

Section facts.
Variable hash_api_key : string -> string.
Variables uuid4_hex token_hex : nat -> string.
Variable admin_secret : string.
Variables demo_mode redis_answers : bool.
Abbreviation create_tenant := (create_tenant admin_secret).
Abbreviation create_api_key := (create_api_key hash_api_key uuid4_hex admin_secret).
Abbreviation demo_register := (demo_register hash_api_key uuid4_hex token_hex demo_mode redis_answers).

(** The requests that change the tables. *)
Inductive tenancy_step (s : tenancy) : tenancy -> Prop :=
  | step_tenant provided name slug id now : tenancy_step s (create_tenant provided name slug id now s).2
  | step_key provided tenant_id name key_id : tenancy_step s (create_api_key provided tenant_id name key_id s).2
  | step_demo name client id key_id now : tenancy_step s (demo_register name client id key_id now s).2.

Definition inserted (t : tables) (s : tenancy) : Prop := rtc insertion t (ty_tables s).

Lemma preserves_in_db {A} t (f : tables -> res (A * tables)) :
  (forall t1 a t2, f t1 = Ok (a, t2) -> rtc insertion t1 t2) -> preserves (inserted t) (in_db f).
Proof.
  intros Hf s Hs. unfold in_db. destruct (f (ty_tables s)) as [[a t2]|] eqn:E; [|done].
  unfold inserted in *. cbn. etrans; [exact Hs|by apply (Hf _ a)].
Qed.

Lemma tenancy_step_inserts s s' : tenancy_step s s' -> rtc insertion (ty_tables s) (ty_tables s').
Proof.
  assert (Hdraw : forall t, preserves (inserted t) draw) by (intros t s0 Hs; exact Hs).
  assert (Hgen : forall t p, preserves (inserted t) (generate_api_key hash_api_key uuid4_hex p)).
  { intros t p. unfold generate_api_key. apply preserves_bind; [done|]. intros n. apply preserves_ret. }
  assert (Hone : forall t1 t2, insertion t1 t2 -> rtc insertion t1 t2) by (intros; by apply rtc_once).
  assert (Hrate : forall t ip n, preserves (inserted t) (demo_rate_check redis_answers ip n)).
  { intros t ip n s0 H0. unfold demo_rate_check. destruct redis_answers; [|done].
    destruct (record_request _ _ _ _) as [c l]. by destruct (_ <? _)%Z. }
  intros Hs. enough (inserted (ty_tables s) s') by done. destruct Hs.
  - enough (preserves (inserted (ty_tables s)) (create_tenant provided name slug id now)) as Hp by (apply Hp; constructor).
    unfold Tenants.create_tenant, require_admin_secret. preserve.
    apply preserves_in_db. intros t1 r t2 H. bind_ok. destruct x as [|]; [done|]. bind_ok. apply Hone. by eapply ins_tenant.
  - enough (preserves (inserted (ty_tables s)) (create_api_key provided tenant_id name key_id)) as Hp by (apply Hp; constructor).
    unfold Tenants.create_api_key, require_admin_secret. preserve.
    apply preserves_in_db. intros t1 r t2 H. bind_ok. apply Hone. by eapply ins_key.
  - enough (preserves (inserted (ty_tables s)) (demo_register name client id key_id now)) as Hp by (apply Hp; constructor).
    unfold Tenants.demo_register. preserve.
    apply preserves_in_db. intros t1 r t2 H. bind_ok. eapply rtc_l; [by eapply ins_tenant|]. apply Hone. by eapply ins_key.
Qed.

Lemma tenancy_steps_insert s s' : rtc tenancy_step s s' -> rtc insertion (ty_tables s) (ty_tables s').
Proof. induction 1 as [|s s1 s' H _ IH]; [done|]. etrans; [by apply tenancy_step_inserts|done]. Qed.

(** After any requests, in any order, every identifier and slug is that of one tenant, every
    hash that of one key, and every key belongs to a tenant. *)
Theorem tables_stay_ok s s' : rtc tenancy_step s s' -> tables_ok (ty_tables s) -> tables_ok (ty_tables s').
Proof. intros H. by apply insertions_ok, tenancy_steps_insert. Qed.

(** A key that was issued for an active tenant authenticates that tenant's requests, and goes
    on doing so whatever requests come after. *)
Theorem issued_key_authenticates provided tenant_id name key_id s k raw s1 s2 r :
  tables_ok (ty_tables s) ->
  create_api_key provided tenant_id name key_id s = (Ok (k, raw), s1) -> rtc tenancy_step s1 s2 ->
  r ∈ tt_tenants (ty_tables s) -> tn_active (tr_tenant r) = true -> parse_uuid tenant_id = Some (tr_id r) ->
  (resolve_tenant hash_api_key (Some raw) (auth_view (ty_tables s2))).1 = Ok (tr_tenant r).
Proof.
  intros Hok Hc Hsteps Hr Ha Hid.
  assert (Hs1 : rtc insertion (ty_tables s) (ty_tables s1)).
  { apply tenancy_step_inserts. change s1 with (Ok (k, raw), s1).2. rewrite <- Hc. constructor. }
  assert (Hk : k ∈ tt_keys (ty_tables s1) /\ kr_key k = MkApiKey (hash_api_key raw) (tr_id r) true /\ raw <> "").
  { clear Hsteps. unfold Tenants.create_api_key, require_admin_secret, get_st, lift, generate_api_key, draw, in_db, mbind, EM_bind, mret, EM_ret in Hc.
    destruct (String.eqb admin_secret ""); [done|]. destruct (compare_digest _ admin_secret) as [[]|]; [|done..]. rewrite Hid in Hc.
    destruct (scalar_one_or_none _) as [[r'|]|]; [|done..]. cbn [ty_tables] in Hc.
    destruct (insert_key _ _) as [t'|] eqn:Ei; [|done]. cbn in Hc. injection Hc as <- <- <-. cbn.
    apply insert_key_inv in Ei as (-> & _). split; [|done]. apply elem_of_app. right. apply list_elem_of_singleton. done. }
  destruct Hk as (Hk & Ek & Hraw).
  assert (Hs2 : rtc insertion (ty_tables s1) (ty_tables s2)) by by apply tenancy_steps_insert.
  assert (Hok2 : tables_ok (ty_tables s2)) by apply (insertions_ok _ _ Hs2), (insertions_ok _ _ Hs1), Hok.
  apply (insertions_keep _ _ Hs2) in Hk. apply (insertions_keep _ _ Hs1), (insertions_keep _ _ Hs2) in Hr.
  pose proof (found_row kr_key ak_hash ak_active _ k (ok_hashes _ Hok2) Hk) as Hfk.
  pose proof (found_row tr_tenant tn_id tn_active _ r (ok_ids _ Hok2) Hr Ha) as Hfr.
  rewrite Ek in Hfk. specialize (Hfk eq_refl). cbn [ak_hash] in Hfk. fold (tr_id r) in Hfr.
  unfold resolve_tenant. destruct raw as [|c raw]; [done|].
  unfold enter_tenant, active_tenant, get_st, lift, modify, mbind, EM_bind, mret, EM_ret, auth_view.
  cbn [as_keys as_tenants]. rewrite Hfk. cbn [scalar_one_or_none ak_tenant as_tenants]. by rewrite Hfr.
Qed.
End facts.

(** ** Demo registrations *)

Section demo.
Variable hash_api_key : string -> string.
Variables uuid4_hex token_hex : nat -> string.

(** The attempts of one client, one after the other: which of them the check lets through. *)
Fixpoint demo_checks (client_ip : string) (times : list Z) (s : tenancy) : list bool :=
  match times with
  | [] => []
  | t :: times' =>
      let '(r, s1) := demo_rate_check true client_ip t s in is_ok r :: demo_checks client_ip times' s1
  end.

(** The reference: an attempt is let through when the hour before it, itself included, holds no
    more than ten attempts, refused or not. *)
Fixpoint hourly (past times : list Z) : list bool :=
  match times with
  | [] => []
  | t :: times' =>
      (Z.of_nat (length (List.filter (in_window t DEMO_RATE_WINDOW) (past ++ [t]))) <=? DEMO_RATE_LIMIT)%Z
      :: hourly (past ++ [t])%list times'
  end.

(** The registrations of a client are limited exactly: an attempt is let through when there were
    at most ten in the hour up to it. *)
Theorem demo_rate_exact client_ip times s :
  ty_limits s !! ("demo_register:" ++ client_ip) = None -> increasing (-1) times ->
  demo_checks client_ip times s = hourly [] times.
Proof.
  set (key := "demo_register:" ++ client_ip). intros Hs.
  assert (Hst : window_state key DEMO_RATE_WINDOW (-1) [] (ty_limits s)) by (split; [constructor|by rewrite Hs]).
  clear Hs. assert (Hl : (-1 <= -1)%Z) by lia. revert Hl Hst. generalize (-1)%Z at 2 3 4. generalize (@nil Z). revert s.
  induction times as [|t times IH]; intros s past last Hl Hst Hi; [done|]. destruct Hi as [Hlt Hi].
  destruct (record_request_spec key DEMO_RATE_WINDOW last past (ty_limits s) t) as [Hn Hst']; [done|done|lia|done|].
  cbn [demo_checks hourly]. unfold demo_rate_check at 1. fold key.
  destruct (record_request key t DEMO_RATE_WINDOW (ty_limits s)) as [count limits]. cbn [fst snd] in Hn, Hst'. rewrite <- Hn.
  assert (IH' := IH (Tenancy (ty_tables s) limits (ty_draws s)) (past ++ [t])%list t ltac:(lia) Hst' Hi).
  destruct (Z.ltb_spec DEMO_RATE_LIMIT count) as [Hc|Hc]; cbn [is_ok]; rewrite IH'; f_equal; symmetry;
    [apply Z.leb_gt|apply Z.leb_le]; lia.
Qed.

(** A name the validation accepts, of up to 100 characters, can give a slug that is longer than
    its column: the registration then fails, and nothing is registered. *)
Theorem long_workspace_names_fail name client id key_id now s :
  (100 < String.length (slugify name ++ "-" ++ token_hex (ty_draws s)))%nat ->
  exists e s', demo_register hash_api_key uuid4_hex token_hex true true name client id key_id now s = (Raise e, s')
    /\ ty_tables s' = ty_tables s.
Proof.
  intros Hlen. unfold demo_register, demo_rate_check, generate_api_key, draw, in_db, mbind, EM_bind, mret, EM_ret.
  cbn [negb]. destruct (record_request _ _ _ _) as [count limits]. destruct (_ <? _)%Z; [by eexists _, _|].
  cbn [ty_draws ty_tables ty_limits].
  match goal with |- context [insert_tenant ?r ?t] => assert (H : exists e, insert_tenant r t = Raise e) end.
  { unfold insert_tenant, varchar, mbind, res_bind. destruct (_ <=? _)%nat; [|by eexists].
    unfold tr_slug. cbn [tr_tenant tn_slug]. apply Nat.leb_gt in Hlen. rewrite Hlen. by eexists. }
  destruct H as [e ->]. by eexists _, _.
Qed.
End demo.

(** ** Examples *)

Definition demo_hash (k : string) : string := "h:" ++ k.
Definition demo_hex (n : nat) : string := str_take 6 (str_of_Z (Z.of_nat n) ++ "abcdef").
Definition no_tables : tables := Tables [] [].
Definition demo_uuid : string := "12345678-1234-5678-1234-567812345678".
Definition acme : tenant_row := TenantRow (MkTenant demo_uuid "acme" true) "Acme" "free" 5.
Definition one_tenant : tenancy := Tenancy (Tables [acme] []) ∅ 0.

Example slugify_demo : slugify "  My -- Shop_& Co! " = "my-shop-co".
Proof. by vm_compute. Qed.

Lemma one_tenant_ok : tables_ok (ty_tables one_tenant).
Proof. split; by_deciding || constructor. Qed.

Lemma tables_stay_ok_witness :
  let s' := (create_tenant "root" (Some "root") "Shop" "shop" "id2" 6 one_tenant).2 in
  length (tt_tenants (ty_tables s')) = 2%nat /\ tables_ok (ty_tables s').
Proof.
  split; [by vm_compute|].
  apply (tables_stay_ok demo_hash demo_hex demo_hex "root" true true one_tenant); [|exact one_tenant_ok].
  apply rtc_once. constructor.
Defined.

Lemma issued_key_authenticates_witness :
  let '(r, s1) := create_api_key demo_hash demo_hex "root" (Some "root") demo_uuid "ci" "k1" one_tenant in
  let s2 := (demo_register demo_hash demo_hex demo_hex true true "My shop" None "id2" "k2" 7 s1).2 in
  is_ok r = true
  /\ (resolve_tenant demo_hash (Some "pk_live_0abcde") (auth_view (ty_tables s2))).1 = Ok (tr_tenant acme).
Proof.
  destruct (create_api_key _ _ _ _ _ _ _ _) as [r s1] eqn:E. pose proof E as E0. vm_compute in E0. injection E0 as <- Hs1.
  split; [done|].
  eapply (issued_key_authenticates demo_hash demo_hex demo_hex "root" true true _ _ _ _ one_tenant _ _ s1 _ acme
    one_tenant_ok E); [apply rtc_once; constructor|left|done|by vm_compute].
Defined.

Lemma demo_rate_exact_witness :
  demo_checks "1.2.3.4" [0; 1; 2; 3; 4; 5; 6; 7; 8; 9; 10; 3604; 3611]%Z one_tenant
  = [true; true; true; true; true; true; true; true; true; true; false; true; true].
Proof. rewrite demo_rate_exact; [by vm_compute|by apply lookup_empty|cbn; lia]. Defined.

Lemma long_workspace_names_fail_witness :
  let name := string_of_list_ascii (repeat ("a"%char) 100) in
  exists e s', demo_register demo_hash demo_hex demo_hex true true name None "id2" "k2" 7 one_tenant = (Raise e, s')
    /\ ty_tables s' = ty_tables one_tenant.
Proof. cbv zeta. apply long_workspace_names_fail. vm_compute. lia. Defined.
