(* ===== verification/Accounts.v ===== *)
(** The accounts of a connector built with the SDK
    ([sdk/python/pinquark_connector_sdk/accounts.py]), as the server the dispatcher talks to:
    what its provisioning ([Dispatcher.ensure_account_generic]) leaves in the store. *)

From S2P Require Import Prelude PyText PyValue Effects Registry Dispatcher.

Local Open Scope string_scope.

(** ** [AccountStore] *)

Definition account_store : Type := list (string * dict).

Definition list_accounts (s : account_store) : list string := dkeys s.
Definition get_account (name : string) (s : account_store) : option dict := dget name s.
Definition create_account (name : string) (credentials : dict) (s : account_store) : account_store :=
  dset name credentials s.
Definition update_account (name : string) (credentials : dict) (s : account_store) : res account_store :=
  if dhas name s then Ok (dset name credentials s) else Raise (KeyError name).
Definition delete_account (name : string) (s : account_store) : account_store := ddel name s.
Definition get_credentials_of (name : string) (s : account_store) : res dict :=
  match dget name s with Some c => Ok c | None => Raise (KeyError name) end.

(** ** The bodies *)

Definition without (keys : list string) (d : dict) : dict :=
  List.filter (fun kv => negb (existsb (String.eqb kv.1) keys)) d.

(** [credentials], an object, or else the extra fields. *)
Definition resolved_credentials (own : list string) (body : dict) : option dict :=
  match dget_or "credentials" (PDict []) body with
  | PDict [] => Some (without own body)
  | PDict d => Some d
  | _ => None
  end.
(** [AccountCreate]: the name and the resolved credentials; nothing is a validation error. *)
Definition account_create (body : pyval) : option (string * dict) :=
  match body with
  | PDict d => match dget "name" d with
               | Some (PStr name) => creds ← resolved_credentials ["name"; "credentials"] d; Some (name, creds)
               | _ => None
               end
  | _ => None
  end.
(** [AccountUpdate]: [name] is an extra field here. *)
Definition account_update (body : pyval) : option dict :=
  match body with PDict d => resolved_credentials ["credentials"] d | _ => None end.

(** ** The routes *)

Definition json_response (status : Z) (body : pyval) : Response := MkResponse status "" (Ok body) "" "".
Definition account_response (name : string) (creds : dict) : pyval :=
  PDict [("name", PStr name); ("credential_keys", PList (map PStr (dkeys creds)))].
Definition not_found (name : string) : Response :=
  json_response 404 (PDict [("detail", PStr ("Account '" ++ name ++ "' not found"))]).
Definition invalid_body : Response := json_response 422 (PDict [("detail", PStr "validation error")]).

(** [register_account_routes]: a method and a path without the base URL. *)
Definition account_routes (method path : string) (body : option pyval) (s : account_store)
  : Response * account_store :=
  if String.eqb path "/accounts" then
    if String.eqb method "GET" then
      (json_response 200 (PList (map (fun e => account_response e.1 e.2) s)), s)
    else if String.eqb method "POST" then
      match account_create (default PNone body) with
      | None => (invalid_body, s)
      | Some (name, creds) =>
          match get_account name s with
          | Some _ => (json_response 409 (PDict [("detail", PStr ("Account '" ++ name ++ "' already exists"))]), s)
          | None => (json_response 201 (account_response name creds), create_account name creds s)
          end
      end
    else (json_response 405 PNone, s)
  else if starts_with "/accounts/" path && has_no "/" (str_drop 10 path) && negb (String.eqb (str_drop 10 path) "") then
    let name := str_drop 10 path in
    if String.eqb method "GET" then
      match get_account name s with
      | Some creds => (json_response 200 (account_response name creds), s)
      | None => (not_found name, s)
      end
    else if String.eqb method "PUT" then
      match account_update (default PNone body) with
      | None => (invalid_body, s)
      | Some creds =>
          match update_account name creds s with
          | Ok s' => (json_response 200 (account_response name creds), s')
          | Raise _ => (not_found name, s)
          end
      end
    else if String.eqb method "DELETE" then (json_response 204 PNone, delete_account name s)
    else (json_response 405 PNone, s)
  else (json_response 404 PNone, s).

(** The status routes: what they say of an account, and its message. *)
Inductive connection_check := Checked (connected : bool) | CheckNotImplemented | CheckFailed (error : string).
Definition auth_status (account : string) (s : account_store) : bool * string :=
  match get_account account s with
  | None => (false, "Account not found")
  | Some _ => (true, "Credentials stored")
  end.
Definition connection_status (test_connection : connection_check) (account : string) (s : account_store)
  : bool * string :=
  match get_account account s with
  | None => (false, "Account not found")
  | Some _ => match test_connection with
              | Checked b => (b, if b then "Connection OK" else "Connection failed")
              | CheckNotImplemented => (true, "test_connection not implemented, assuming connected")
              | CheckFailed e => (false, "Connection check failed: " ++ e)
              end
  end.

(** ** The connector as a server *)

(** The names that stand for themselves in a URL. *)
Definition plain_name (name : string) : bool :=
  negb (String.eqb name "") && str_forall (fun c => is_alnum c || Ascii.eqb c "-" || Ascii.eqb c "_") name.

(** The part of a URL after the base. *)
Definition path_of (base url : string) : string := str_drop (String.length base) url.
Definition serve (base : string) (s : account_store) (e : event) : account_store :=
  match e with
  | Sent r => (account_routes (rq_method r) (path_of base (rq_url r)) (rq_json r) s).2
  | Slept _ => s
  end.
(** The store after a history, and the server that has it. *)
Definition store_after (base : string) (history : list event) : account_store :=
  fold_left (serve base) history [].
Definition sdk_server (base : string) : server_t := fun history r =>
  inl (account_routes (rq_method r) (path_of base (rq_url r)) (rq_json r) (store_after base history)).1.

Lemma store_after_snoc base history r :
  store_after base (history ++ [Sent r])
  = (account_routes (rq_method r) (path_of base (rq_url r)) (rq_json r) (store_after base history)).2.
Proof. unfold store_after. by rewrite fold_left_app. Qed.

Lemma any_account_known name s :
  any_account name (map (fun e => account_response e.1 e.2) s) = Ok (dhas name s).
Proof.
  induction s as [|[n creds] s IH]; [done|]. unfold dhas in *. cbn -[String.eqb account_response any_account].
  cbn [any_account account_response dict_method mbind res_bind]. cbn -[String.eqb any_account].
  unfold dget_or. cbn [dget]. change (String.eqb "name" "name") with true. cbv iota. cbn [default from_option id].
  rewrite py_eqb_str, (String.eqb_sym n). destruct (String.eqb name n); [done|exact IH].
Qed.

Lemma path_of_app base path : path_of base (base ++ path) = path.
Proof. apply str_drop_app. Qed.

Lemma plain_name_parts name : plain_name name = true -> has_no "/" name = true /\ String.eqb name "" = false.
Proof.
  unfold plain_name. intros [Hne%negb_true_iff Hp]%andb_true_iff. split; [|done].
  revert Hp. apply str_forall_impl. intros c Hc. destruct (Ascii.eqb_spec c "/") as [->|]; done.
Qed.

Lemma put_route name payload creds old s :
  plain_name name = true -> account_update payload = Some creds -> dget name s = Some old ->
  (account_routes "PUT" ("/accounts/" ++ name) (Some payload) s).2 = dset name creds s.
Proof.
  intros Hp Hu Hold. apply plain_name_parts in Hp as [Hslash Hne]. unfold account_routes.
  replace (String.eqb ("/accounts/" ++ name) "/accounts") with false by done.
  change (str_drop 10 ("/accounts/" ++ name)) with name. rewrite (starts_with_app "/accounts/"), Hslash, Hne.
  cbn -[account_update]. cbn [default from_option id]. rewrite Hu. unfold update_account, dhas. by rewrite Hold.
Qed.

Lemma post_route name payload creds s :
  account_create payload = Some (name, creds) -> dget name s = None ->
  (account_routes "POST" "/accounts" (Some payload) s).2 = dset name creds s.
Proof.
  intros Hc Hn. unfold account_routes. cbn -[account_create]. cbn [default from_option id]. rewrite Hc.
  unfold get_account. by rewrite Hn.
Qed.

(** C21: Provisioning an account on a connector built with the SDK, at the endpoint [/accounts], when the
    mapping names the account by the [account_name] of the credentials ("default" without one), a
    plain path segment: an account the store does not have gets exactly the mapped credentials; one
    it has keeps its old ones, unless the update is forced, and then gets the mapped ones with, when
    they are sent flat, the name among them.  No other account changes. *)
Theorem provisioning_reaches_store base creds p force history name :
  pv_account_endpoint p = "/accounts" -> name = default "default" (dget "account_name" creds) ->
  plain_name name = true ->
  let payload := PDict (apply_credential_mapping creds (pv_mapping p)) in
  forall on_create on_update,
  account_create payload = Some (name, on_create) -> account_update payload = Some on_update ->
  let '(result, history') := ensure_account_generic (sdk_server base) base creds p force history in
  result = inl name
  /\ get_account name (store_after base history')
     = Some (match get_account name (store_after base history) with
             | None => on_create
             | Some old => if force then on_update else old
             end)
  /\ forall other, other <> name ->
     get_account other (store_after base history') = get_account other (store_after base history).
Proof.
  intros Hep Hname Hplain payload on_create on_update Hc Hu. unfold ensure_account_generic.
  rewrite Hep, <- Hname. fold payload. cbv zeta. set (s := store_after base history).
  assert (Hlist : send (sdk_server base) (simple_request "GET" (base ++ "/accounts") None) history
    = (inl (json_response 200 (PList (map (fun e => account_response e.1 e.2) s))),
       (history ++ [Sent (simple_request "GET" (base ++ "/accounts") None)])%list)).
  { unfold send, sdk_server. cbn [rq_method rq_url rq_json simple_request]. by rewrite path_of_app. }
  assert (Hs1 : store_after base (history ++ [Sent (simple_request "GET" (base ++ "/accounts") None)]) = s).
  { rewrite store_after_snoc. cbn [rq_method rq_url rq_json simple_request]. by rewrite path_of_app. }
  unfold mbind, D_bind, mret, D_ret. rewrite Hlist.
  unfold lift_res, known_accounts, json_response. cbn [rs_status rs_json Z.eqb negb mbind res_bind Pos.eqb].
  unfold mret, D_ret. rewrite any_account_known. generalize dependent (history ++ [Sent (simple_request "GET" (base ++ "/accounts") None)])%list.
  intros history1 _ Hs1. unfold dhas, get_account. fold s.
  destruct (dget name s) as [old|] eqn:Eold.
  - destruct force; [|by rewrite Hs1].
    unfold send. cbn [sdk_server]. rewrite store_after_snoc, Hs1. cbn [simple_request rq_method rq_url rq_json].
    rewrite <- str_app_assoc, path_of_app. change ("/accounts" ++ "/" ++ name) with ("/accounts/" ++ name).
    rewrite (put_route name payload on_update old) by done. by split; [|split; [apply dget_dset_eq|intros; by apply dget_dset_ne]].
  - unfold send. cbn [sdk_server]. rewrite store_after_snoc, Hs1. cbn [simple_request rq_method rq_url rq_json].
    rewrite path_of_app, (post_route name payload on_create) by done.
    by split; [|split; [apply dget_dset_eq|intros; by apply dget_dset_ne]].
Qed.

Definition demo_provisioning : Provisioning :=
  MkProvisioning "account" [("name", SpecField "account_name"); ("token", SpecField "api_token")]
    "/accounts" "account_name" "credentials".

Lemma provisioning_reaches_store_witness :
  let base := "http://connector-dhl:8000" in
  let creds := [("account_name", "main"); ("api_token", "t-1")] in
  get_account "main" (store_after base (ensure_account_generic (sdk_server base) base creds demo_provisioning false []).2)
  = Some [("token", PStr "t-1")].
Proof.
  cbv zeta.
  pose proof (provisioning_reaches_store "http://connector-dhl:8000" [("account_name", "main"); ("api_token", "t-1")]
    demo_provisioning false [] "main" eq_refl eq_refl ltac:(by vm_compute) [("token", PStr "t-1")]
    [("name", PStr "main"); ("token", PStr "t-1")] eq_refl eq_refl) as Hp.
  destruct (ensure_account_generic _ _ _ _ _ _) as [r h]. destruct Hp as (_ & Hg & _). exact Hg.
Defined.
