(* ===== verification/OfflineQueue.v ===== *)
(** The on-premise agent: its queue of operations
    ([onpremise/nexo-agent/src/sync/offline_queue.py]), the synchronisation cycle that
    fills and flushes it ([sync_engine.py]) and the heartbeat's count of failures
    ([heartbeat.py]).  SQLite tables are lists of rows in the order of their ids; the
    cloud is a function from the operations sent so far to an answer. *)

From S2P Require Import Prelude PyText PyValue Effects.

Local Open Scope string_scope.

(** ** The queue *)

(** A row of [outbound_queue]; the payload is what reading the stored JSON back gives. *)
Record queue_row := QueueRow {
  q_id : Z;
  q_entity_type : string;
  q_operation : string;
  q_payload : pyval;
  q_status : string;
  q_attempts : Z;
  q_max_attempts : Z;
  q_processed_at : option string;
  q_error : option string
}.

(** A row of [sync_state], by entity type and direction. *)
Record sync_row := SyncRow { sy_last_sync_at : string; sy_last_id : string }.

Record queue_state := QueueState {
  qs_rows : list queue_row;
  qs_next : Z;
  qs_sync : list (string * sync_row);
  qs_now : string
}.

Definition set_rows (l : list queue_row) (s : queue_state) : queue_state :=
  QueueState l (qs_next s) (qs_sync s) (qs_now s).

(** [enqueue]: the id of the new row. *)
Definition enqueue (entity_type operation : string) (payload : pyval) (s : queue_state) : Z * queue_state :=
  (qs_next s,
   QueueState (qs_rows s ++ [QueueRow (qs_next s) entity_type operation payload "pending" 0 5 None None])%list
     (qs_next s + 1) (qs_sync s) (qs_now s)).

Definition is_pending (r : queue_row) : bool :=
  String.eqb (q_status r) "pending" && (q_attempts r <? q_max_attempts r)%Z.

(** [get_pending]; the rows are in the order of their ids. *)
Definition get_pending (limit : nat) (s : queue_state) : list queue_row :=
  take limit (List.filter is_pending (qs_rows s)).

Definition processed (now : string) (r : queue_row) : queue_row :=
  QueueRow (q_id r) (q_entity_type r) (q_operation r) (q_payload r) "processed" (q_attempts r)
    (q_max_attempts r) (Some now) (q_error r).
Definition failed_once (error : string) (r : queue_row) : queue_row :=
  QueueRow (q_id r) (q_entity_type r) (q_operation r) (q_payload r)
    (if (q_max_attempts r <=? q_attempts r + 1)%Z then "dead_letter" else "pending") (q_attempts r + 1)
    (q_max_attempts r) (q_processed_at r) (Some error).

Definition mark_processed (id : Z) (s : queue_state) : queue_state :=
  set_rows (update_rows (has_key q_id id) (processed (qs_now s)) (qs_rows s)) s.
Definition mark_failed (id : Z) (error : string) (s : queue_state) : queue_state :=
  set_rows (update_rows (has_key q_id id) (failed_once error) (qs_rows s)) s.

(** [get_queue_depth]: rows by status. *)
Definition get_queue_depth (s : queue_state) : list (string * Z) :=
  fold_left (fun d r => dset (q_status r) (default 0%Z (dget (q_status r) d) + 1)%Z d) (qs_rows s) [].

Definition sync_key (entity_type direction : string) : string := entity_type ++ "/" ++ direction.
Definition update_sync_state (entity_type direction last_id : string) (s : queue_state) : queue_state :=
  QueueState (qs_rows s) (qs_next s)
    (dset (sync_key entity_type direction) (SyncRow (qs_now s) last_id) (qs_sync s)) (qs_now s).
Definition get_sync_state (entity_type direction : string) (s : queue_state) : option sync_row :=
  dget (sync_key entity_type direction) (qs_sync s).

(** ** Filling the queue *)

(** An item of a page of the ERP, with its [updated_at], a [datetime] or [None]. *)
Record nexo_item := NexoItem { it_payload : pyval; it_updated_at : option Z }.

(** The test [last_sync and updated and updated <= last_sync]: the time kept in SQLite is
    a text, and a [datetime] does not compare with one. *)
Definition already_synced (last_sync : option sync_row) (item : nexo_item) : res bool :=
  match last_sync, it_updated_at item with
  | Some row, Some _ =>
      if String.eqb (sy_last_sync_at row) "" then Ok false
      else Raise (TypeError "'<=' not supported between instances of 'datetime.datetime' and 'str'")
  | _, _ => Ok false
  end.

Fixpoint queue_items (kind : string) (last_sync : option sync_row) (items : list nexo_item)
  : EM queue_state nat :=
  match items with
  | [] => mret O
  | item :: items' =>
      skip ← lift (already_synced last_sync item);
      if (skip : bool) then queue_items kind last_sync items'
      else
        _ ← (fun s => let '(_, s') := enqueue kind "sync" (it_payload item) s in (Ok tt, s'));
        n ← queue_items kind last_sync items';
        mret (S n)
  end.

(** [_sync_outbound_contractors] and [_sync_outbound_products]: [listed] is the first page
    of the ERP, or the exception it raised; every exception is swallowed. *)
Definition sync_outbound (kind state_name : string) (listed : res (list nexo_item)) : EM queue_state unit :=
  try_catch
    (items ← lift listed;
     last_state ← gets (get_sync_state state_name "outbound");
     synced_count ← queue_items kind last_state items;
     match synced_count with
     | O => mret tt
     | S _ => modify (update_sync_state state_name "outbound" "")
     end)
    (fun _ => mret tt).
Definition sync_outbound_contractors := sync_outbound "contractor" "contractors".
Definition sync_outbound_products := sync_outbound "product" "products".

(** [_sync_outbound_stock]: the levels of the first page, as one operation. *)
Definition sync_outbound_stock (levels : res (list pyval * pyval)) : EM queue_state unit :=
  try_catch
    ('(items, payload) ← lift levels;
     match items with
     | [] => mret tt
     | _ =>
         _ ← (fun s => let '(_, s') := enqueue "stock" "full_sync" payload s in (Ok tt, s'));
         modify (update_sync_state "stock" "outbound" "")
     end)
    (fun _ => mret tt).

(** ** Flushing the queue *)

(** The answer of the cloud: a response, or [httpx.RequestError]. *)
Inductive cloud_answer := Answer (status : Z) (text : string) | Unreachable (error : string).

Section flush.
Variable cloud : list queue_row -> queue_row -> cloud_answer.
Variable configured : bool.

(** The loop over the pending items: the state and the operations sent. *)
Fixpoint flush_items (items : list queue_row) (sent : list queue_row) (s : queue_state)
  : list queue_row * queue_state :=
  match items with
  | [] => (sent, s)
  | item :: items' =>
      match cloud sent item with
      | Answer status text =>
          flush_items items' (sent ++ [item])%list
            (if (status <? 300)%Z then mark_processed (q_id item) s
             else mark_failed (q_id item) ("HTTP " ++ str_of_Z status ++ ": " ++ str_take 200 text) s)
      | Unreachable error => ((sent ++ [item])%list, mark_failed (q_id item) error s)
      end
  end.

Definition FLUSH_LIMIT : nat := 50.

(** [_flush_queue]. *)
Definition flush_queue (ss : list queue_row * queue_state) : list queue_row * queue_state :=
  if negb configured then ss
  else flush_items (get_pending FLUSH_LIMIT ss.2) ss.1 ss.2.

(** [_run_sync_cycle]; nothing happens while the ERP is not connected. *)
Definition run_sync_cycle (connected : bool) (contractors products : res (list nexo_item))
    (levels : res (list pyval * pyval)) (ss : list queue_row * queue_state) : list queue_row * queue_state :=
  if negb connected then ss
  else
    let s1 := (sync_outbound_contractors contractors ss.2).2 in
    let s2 := (sync_outbound_products products s1).2 in
    let s3 := (sync_outbound_stock levels s2).2 in
    flush_queue (ss.1, s3).
End flush.

(** ** The heartbeat *)

(** [_send_heartbeat]: the consecutive failures after the answer. *)
Definition cloud_failures (failures : Z) (answer : cloud_answer) : Z :=
  match answer with
  | Answer status _ => if (status <? 300)%Z then 0 else failures + 1
  | Unreachable _ => failures + 1
  end.

(** ** Invariant *)

Definition wf_row (r : queue_row) : Prop :=
  (0 <= q_attempts r <= q_max_attempts r)%Z
  /\ ((q_status r = "pending" /\ (q_attempts r < q_max_attempts r)%Z) \/ q_status r = "processed"
      \/ (q_status r = "dead_letter" /\ q_attempts r = q_max_attempts r)).

(** Ids are distinct and below the next one. *)
Definition wf_queue (s : queue_state) : Prop :=
  unique_rows q_id (qs_rows s)
  /\ (forall r, r ∈ qs_rows s -> (q_id r < qs_next s)%Z /\ wf_row r).

Lemma wf_set_row id f (s : queue_state) :
  (forall r, q_id (f r) = q_id r) ->
  (forall r, r ∈ qs_rows s -> q_id r = id -> wf_row r -> wf_row (f r)) ->
  wf_queue s -> wf_queue (set_rows (update_rows (has_key q_id id) f (qs_rows s)) s).
Proof.
  intros Hid Hf [Hu Hr]. split; cbn [qs_rows qs_next set_rows]; [by apply unique_update|].
  intros r Hin. unfold update_rows in Hin. apply list_elem_of_In, in_map_iff in Hin as (x & <- & Hx).
  apply list_elem_of_In in Hx. destruct (Hr x Hx) as [Hlt Hwf].
  destruct (has_key q_id id x) eqn:E; [|done]. apply (has_key_true q_id) in E.
  rewrite Hid. split; [done|]. by apply Hf.
Qed.

Lemma processed_wf now r : wf_row r -> wf_row (processed now r).
Proof. intros [Ha _]. split; [done|]. right. by left. Qed.

Lemma failed_once_wf error r : is_pending r = true -> wf_row r -> wf_row (failed_once error r).
Proof.
  intros [_ Hlt%Z.ltb_lt]%andb_true_iff [Ha _]. unfold wf_row, failed_once. cbn.
  destruct (Z.leb_spec (q_max_attempts r) (q_attempts r + 1)); split; try lia.
  - right. right. split; [done|lia].
  - left. split; [done|lia].
Qed.

Lemma enqueue_wf entity operation payload s : wf_queue s -> wf_queue (enqueue entity operation payload s).2.
Proof.
  intros [Hu Hr]. split; cbn [enqueue snd qs_rows qs_next].
  - apply unique_insert; [done|]. apply find_key_None. intros Hin.
    apply list_elem_of_In, in_map_iff in Hin as (x & Hx & Hin). apply list_elem_of_In in Hin.
    destruct (Hr x Hin) as [Hlt _]. cbn in Hx. lia.
  - intros r [Hin|Hin]%elem_of_app.
    + destruct (Hr r Hin) as [Hlt Hwf]. split; [lia|done].
    + apply list_elem_of_singleton in Hin as ->. cbn. split; [lia|]. split; [cbn; lia|]. left. cbn. split; [done|lia].
Qed.

(** ** What is left to do *)

(** The attempts a pending row still has. *)
Definition weight (r : queue_row) : Z :=
  if is_pending r then (q_max_attempts r - q_attempts r)%Z else 0%Z.
Definition total_weight (rows : list queue_row) : Z := fold_right (fun r n => (weight r + n)%Z) 0%Z rows.

Lemma weight_nonneg r : (0 <= weight r)%Z.
Proof.
  unfold weight. destruct (is_pending r) eqn:E; [|lia].
  apply andb_true_iff in E as [_ E%Z.ltb_lt]. lia.
Qed.

Lemma total_weight_nonneg rows : (0 <= total_weight rows)%Z.
Proof.
  unfold total_weight. induction rows as [|r rows IH]; cbn [fold_right]; [lia|].
  pose proof (weight_nonneg r). lia.
Qed.

Lemma processed_lighter now r : is_pending r = true -> (weight (processed now r) <= weight r - 1)%Z.
Proof.
  intros H. unfold weight at 2. rewrite H. apply andb_true_iff in H as [_ H%Z.ltb_lt].
  unfold weight, is_pending. cbn. lia.
Qed.

Lemma failed_once_lighter error r : is_pending r = true -> (weight (failed_once error r) <= weight r - 1)%Z.
Proof.
  intros H. unfold weight at 2. rewrite H. apply andb_true_iff in H as [_ H%Z.ltb_lt].
  unfold weight, is_pending, failed_once. cbn.
  destruct (Z.leb_spec (q_max_attempts r) (q_attempts r + 1)); cbn; [lia|].
  destruct (q_attempts r + 1 <? q_max_attempts r)%Z; lia.
Qed.

Lemma update_lighter f rows r :
  unique_rows q_id rows -> r ∈ rows -> (weight (f r) <= weight r - 1)%Z ->
  (total_weight (update_rows (has_key q_id (q_id r)) f rows) <= total_weight rows - 1)%Z.
Proof.
  unfold unique_rows. intros Hu Hr Hf.
  induction rows as [|x rows IH]; [by apply not_elem_of_nil in Hr|].
  cbn [map] in Hu. apply list.NoDup_cons in Hu as [Hn Hu].
  cbn [update_rows map total_weight fold_right]. apply elem_of_cons in Hr as [->|Hr].
  - rewrite (proj2 (has_key_true q_id _ _)) by done.
    change (map (fun r => if has_key q_id (q_id x) r then f r else r) rows)
      with (update_rows (has_key q_id (q_id x)) f rows).
    rewrite update_no_row by done. unfold total_weight in *. lia.
  - destruct (has_key q_id (q_id r) x) eqn:E.
    + apply (has_key_true q_id) in E. destruct Hn. rewrite E. apply list_elem_of_In, in_map.
      by apply list_elem_of_In.
    + specialize (IH Hu Hr). unfold total_weight, update_rows in *. lia.
Qed.

Lemma no_weight_no_pending rows : total_weight rows = 0%Z -> List.filter is_pending rows = [].
Proof.
  induction rows as [|r rows IH]; cbn; [done|]. intros H.
  pose proof (weight_nonneg r). pose proof (total_weight_nonneg rows). unfold total_weight in *.
  destruct (is_pending r) eqn:E; [|apply IH; lia].
  unfold weight in *. rewrite E in *. apply andb_true_iff in E as [_ E%Z.ltb_lt]. lia.
Qed.

Section flush_facts.
Variable cloud : list queue_row -> queue_row -> cloud_answer.

(** What one item does to the state. *)
Definition flush_one (sent : list queue_row) (item : queue_row) (s : queue_state) : queue_state :=
  match cloud sent item with
  | Answer status text =>
      if (status <? 300)%Z then mark_processed (q_id item) s
      else mark_failed (q_id item) ("HTTP " ++ str_of_Z status ++ ": " ++ str_take 200 text) s
  | Unreachable error => mark_failed (q_id item) error s
  end.

Lemma flush_one_spec sent item s :
  wf_queue s -> item ∈ qs_rows s -> is_pending item = true ->
  wf_queue (flush_one sent item s)
  /\ (total_weight (qs_rows (flush_one sent item s)) <= total_weight (qs_rows s) - 1)%Z
  /\ forall x, x ∈ qs_rows s -> q_id x <> q_id item -> x ∈ qs_rows (flush_one sent item s).
Proof.
  intros Hwf Hin Hp. pose proof Hwf as [Hu Hr].
  assert (Hgen : forall f, (forall r, q_id (f r) = q_id r) ->
      (forall r, is_pending r = true -> wf_row r -> wf_row (f r)) ->
      (weight (f item) <= weight item - 1)%Z ->
      let s' := set_rows (update_rows (has_key q_id (q_id item)) f (qs_rows s)) s in
      wf_queue s' /\ (total_weight (qs_rows s') <= total_weight (qs_rows s) - 1)%Z
      /\ forall x, x ∈ qs_rows s -> q_id x <> q_id item -> x ∈ qs_rows s').
  { intros f Hid Hf Hw. split_and!.
    - apply wf_set_row; [done| |done]. intros r Hr' Heq Hwr. apply Hf; [|done].
      assert (r = item) as -> by by apply (unique_inj q_id (qs_rows s)). done.
    - by apply update_lighter.
    - intros x Hx Hne. cbn. apply list_elem_of_In, in_map_iff. exists x.
      split; [|by apply list_elem_of_In]. destruct (has_key q_id (q_id item) x) eqn:E; [|done].
      by apply (has_key_true q_id) in E. }
  unfold flush_one. destruct (cloud sent item) as [status text|error]; [destruct (status <? 300)%Z|];
    apply Hgen; auto using processed_wf, failed_once_wf, processed_lighter, failed_once_lighter.
Qed.

(** A flush leaves a sound queue with less to do. *)
Lemma flush_items_spec items : forall sent s,
  wf_queue s -> NoDup (map q_id items) ->
  (forall r, r ∈ items -> r ∈ qs_rows s /\ is_pending r = true) ->
  let s' := (flush_items cloud items sent s).2 in
  wf_queue s' /\ (total_weight (qs_rows s') <= total_weight (qs_rows s) - (if items is [] then 0 else 1))%Z.
Proof.
  induction items as [|item items IH]; intros sent s Hwf Hnd Hit; cbv zeta; cbn [flush_items];
    [split; [done|cbn [snd]; lia]|].
  cbn [map] in Hnd. apply list.NoDup_cons in Hnd as [Hn Hnd]. destruct (Hit item) as [Hin Hp]; [left|].
  destruct (flush_one_spec sent item s Hwf Hin Hp) as (Hwf1 & Hw1 & Hkeep).
  unfold flush_one in *. destruct (cloud sent item) as [status text|error]; [|by split].
  cbv zeta in IH.
  match goal with |- context [flush_items cloud items ?l ?s1] =>
    destruct (IH l s1 Hwf1 Hnd) as [H1 H2] end.
  - intros r Hr. destruct (Hit r) as [Hr1 Hr2]; [by right|]. split; [|done]. apply Hkeep; [done|].
    intros Heq. apply Hn. rewrite <-Heq. apply list_elem_of_In, in_map. by apply list_elem_of_In.
  - split; [exact H1|]. destruct items; lia.
Qed.
End flush_facts.

(** ** Repeated flushes *)

Fixpoint flushes (cloud : list queue_row -> queue_row -> cloud_answer) (n : nat)
    (ss : list queue_row * queue_state) : list queue_row * queue_state :=
  match n with O => ss | S m => flush_queue cloud true (flushes cloud m ss) end.

Lemma flushes_S cloud n ss : flushes cloud (S n) ss = flushes cloud n (flush_queue cloud true ss).
Proof. induction n as [|n IH]; [done|]. cbn [flushes] in *. by rewrite IH. Qed.

Definition pending (s : queue_state) : list queue_row := List.filter is_pending (qs_rows s).

Lemma take_pending_ok n s :
  wf_queue s ->
  NoDup (map q_id (take n (pending s))) /\ forall r, r ∈ take n (pending s) -> r ∈ qs_rows s /\ is_pending r = true.
Proof.
  intros [Hu _]. split.
  - assert (Hp : NoDup (map q_id (pending s))).
    { unfold pending, unique_rows in *. induction (qs_rows s) as [|r rows IH]; cbn in *; [constructor|].
      apply list.NoDup_cons in Hu as [Hn Hu]. destruct (is_pending r); cbn; [|by apply IH].
      apply list.NoDup_cons. split; [|by apply IH]. intros Hx. apply Hn.
      apply list_elem_of_In, in_map_iff in Hx as (x & <- & Hx%filter_In). apply list_elem_of_In, in_map. tauto. }
    rewrite <-(take_drop n (pending s)), map_app in Hp. by apply list.NoDup_app in Hp as (Hp & _ & _).
  - intros r Hr. apply elem_of_take in Hr as (i & Hi & _). apply list_elem_of_lookup_2, list_elem_of_In in Hi.
    unfold pending in Hi. apply filter_In in Hi as [Hi Hp]. split; [by apply list_elem_of_In|done].
Qed.

Lemma flush_queue_spec cloud sent s :
  wf_queue s ->
  let s' := (flush_queue cloud true (sent, s)).2 in
  wf_queue s'
  /\ (total_weight (qs_rows s') <= total_weight (qs_rows s) - (if pending s is [] then 0 else 1))%Z.
Proof.
  intros Hwf. cbv zeta. unfold flush_queue. cbn [negb fst snd]. unfold get_pending.
  change (List.filter is_pending (qs_rows s)) with (pending s).
  destruct (take_pending_ok FLUSH_LIMIT s Hwf) as [Hnd Hit].
  destruct (flush_items_spec cloud (take FLUSH_LIMIT (pending s)) sent s Hwf Hnd Hit) as [H1 H2].
  split; [exact H1|]. by destruct (pending s).
Qed.

Lemma flushes_weight cloud n : forall ss,
  wf_queue ss.2 ->
  wf_queue (flushes cloud n ss).2
  /\ (pending (flushes cloud n ss).2 = []
      \/ (total_weight (qs_rows (flushes cloud n ss).2) <= total_weight (qs_rows ss.2) - Z.of_nat n)%Z).
Proof.
  induction n as [|n IH]; intros [sent s] Hwf; [split; [done|right; cbn; lia]|].
  destruct (IH (sent, s) Hwf) as [Hwf' Hor]. cbn [snd flushes] in *.
  destruct (flushes cloud n (sent, s)) as [sent' s'] eqn:E. cbn [snd] in *.
  destruct (flush_queue_spec cloud sent' s' Hwf') as [H1 H2]. split; [exact H1|].
  destruct (pending s') eqn:Ep.
  - left. unfold flush_queue. cbn [negb fst snd]. unfold get_pending.
    change (List.filter is_pending (qs_rows s')) with (pending s'). by rewrite Ep, take_nil.
  - destruct Hor as [Hor|Hor]; [done|]. right. lia.
Qed.

(** C30: Whatever the cloud answers, or fails to, the queue drains: after as many flushes
    as there are attempts left on pending rows, every operation of the queue has been
    processed or is a dead letter. *)
Theorem queue_drains cloud sent s n
    (Hwf : wf_queue s) (Hn : (total_weight (qs_rows s) <= Z.of_nat n)%Z) :
  let s' := (flushes cloud n (sent, s)).2 in
  wf_queue s' /\ forall r, r ∈ qs_rows s' -> q_status r = "processed" \/ q_status r = "dead_letter".
Proof.
  destruct (flushes_weight cloud n (sent, s) Hwf) as [Hwf' Hor]. split; [done|]. cbn [snd] in Hor.
  assert (Hp : pending (flushes cloud n (sent, s)).2 = []).
  { destruct Hor as [Hor|Hor]; [done|]. apply no_weight_no_pending.
    pose proof (total_weight_nonneg (qs_rows (flushes cloud n (sent, s)).2)). lia. }
  intros r Hr. destruct (proj2 Hwf' r Hr) as [_ [_ [[Hst Hlt]|[Hst|[Hst _]]]]]; [|by left|by right].
  assert (Hin : r ∈ pending (flushes cloud n (sent, s)).2).
  { unfold pending. apply list_elem_of_In, filter_In. split; [by apply list_elem_of_In|].
    unfold is_pending. rewrite Hst. cbn [String.eqb andb]. by apply Z.ltb_lt. }
  rewrite Hp in Hin. by apply not_elem_of_nil in Hin.
Qed.

(** ** A cloud that accepts *)

Definition accepts (cloud : list queue_row -> queue_row -> cloud_answer) : Prop :=
  forall log r, exists status text, cloud log r = Answer status text /\ (status < 300)%Z.

Lemma pending_head_updated f r P rows :
  unique_rows q_id rows -> List.filter is_pending rows = r :: P ->
  List.filter is_pending (update_rows (has_key q_id (q_id r)) f rows)
  = ((if is_pending (f r) then [f r] else []) ++ P)%list.
Proof.
  unfold unique_rows. revert P. induction rows as [|x rows IH]; intros P; [done|].
  cbn [map update_rows List.filter]. intros [Hn Hu]%list.NoDup_cons Hf.
  destruct (is_pending x) eqn:Ex.
  - injection Hf as -> Hf. rewrite (proj2 (has_key_true q_id _ _)) by done.
    change (map (fun r0 => if has_key q_id (q_id r) r0 then f r0 else r0) rows)
      with (update_rows (has_key q_id (q_id r)) f rows).
    rewrite update_no_row by done. rewrite Hf. by destruct (is_pending (f r)).
  - destruct (has_key q_id (q_id r) x) eqn:E.
    + apply (has_key_true q_id) in E. destruct Hn. rewrite E. apply list_elem_of_In, in_map.
      assert (Hin : In r (List.filter is_pending rows)) by (rewrite Hf; by left).
      by apply filter_In in Hin as [Hin _].
    + cbn [List.filter]. rewrite Ex. by apply IH.
Qed.

Lemma flush_items_accepted cloud items : forall P sent s,
  accepts cloud -> wf_queue s -> pending s = (items ++ P)%list ->
  let r := flush_items cloud items sent s in
  r.1 = (sent ++ items)%list /\ wf_queue r.2 /\ pending r.2 = P.
Proof.
  induction items as [|item items IH]; intros P sent s Hc Hwf Hp; cbv zeta; cbn [flush_items].
  { split_and!; [by rewrite app_nil_r|done|done]. }
  destruct (Hc sent item) as (status & text & E & Hs). rewrite E.
  replace (status <? 300)%Z with true by (symmetry; by apply Z.ltb_lt).
  destruct (IH P (sent ++ [item])%list (mark_processed (q_id item) s)) as (H1 & H2 & H3); [done| | |].
  - apply wf_set_row; [done| |done]. intros r _ _. apply processed_wf.
  - unfold pending, mark_processed. cbn [qs_rows set_rows]. by rewrite (pending_head_updated _ _ _ _ (proj1 Hwf) Hp).
  - split_and!; [by rewrite H1, <-app_assoc|exact H2|exact H3].
Qed.

(** With a cloud that accepts, flushing delivers the pending operations fifty at a
    time, each of them once and in the order they were queued. *)
Theorem flushes_deliver_in_order cloud n sent s (Hc : accepts cloud) (Hwf : wf_queue s) :
  let '(sent', s') := flushes cloud n (sent, s) in
  sent' = (sent ++ take (n * FLUSH_LIMIT) (pending s))%list
  /\ pending s' = drop (n * FLUSH_LIMIT) (pending s) /\ wf_queue s'.
Proof.
  induction n as [|n IH]; [cbn [Nat.mul]; by rewrite take_0, drop_0, app_nil_r|].
  cbn [flushes].
  destruct (flushes cloud n (sent, s)) as [sent1 s1]. destruct IH as (-> & Hp & Hwf1).
  unfold flush_queue. cbn [negb fst snd]. unfold get_pending.
  change (List.filter is_pending (qs_rows s1)) with (pending s1).
  destruct (flush_items_accepted cloud (take FLUSH_LIMIT (pending s1)) (drop FLUSH_LIMIT (pending s1))
    (sent ++ take (n * FLUSH_LIMIT) (pending s))%list s1) as (H1 & H2 & H3); [done|done|by rewrite take_drop|].
  destruct (flush_items _ _ _ _) as [sent2 s2]. cbn [fst snd] in *. rewrite H1, H3, Hp. split_and!; [|by rewrite drop_drop; f_equal; lia|done].
  rewrite <-app_assoc. f_equal. replace (S n * FLUSH_LIMIT)%nat with (n * FLUSH_LIMIT + FLUSH_LIMIT)%nat by lia.
  by rewrite take_take_drop.
Qed.

(** ** An outage *)

Definition unreachable (cloud : list queue_row -> queue_row -> cloud_answer) : Prop :=
  forall log r, exists error, cloud log r = Unreachable error.

Lemma unreachable_flush cloud sent s r P :
  unreachable cloud -> pending s = r :: P ->
  exists sent' error, flush_queue cloud true (sent, s) = (sent', mark_failed (q_id r) error s).
Proof.
  intros Hc Hp. destruct (Hc sent r) as [error E]. eexists _, error.
  unfold flush_queue. cbn [negb fst snd]. unfold get_pending.
  change (List.filter is_pending (qs_rows s)) with (pending s). rewrite Hp. unfold FLUSH_LIMIT.
  cbn [firstn take flush_items]. by rewrite E.
Qed.

Lemma pending_row s r P : pending s = r :: P -> r ∈ qs_rows s /\ is_pending r = true.
Proof.
  intros Hp. assert (Hin : In r (List.filter is_pending (qs_rows s))) by (unfold pending in Hp; rewrite Hp; by left).
  apply filter_In in Hin as [Hin ?]. split; [by apply list_elem_of_In|done].
Qed.

(** While the cloud cannot be reached, every flush spends an attempt of the oldest
    pending operation: when its attempts are spent, it is a dead letter, though the
    cloud never refused it; the other pending operations wait. *)
Theorem outage_loses_oldest cloud k : forall sent s r P
    (Hc : unreachable cloud) (Hwf : wf_queue s) (Hp : pending s = r :: P)
    (Hk : (q_attempts r + Z.of_nat (S k) = q_max_attempts r)%Z),
  let s' := (flushes cloud (S k) (sent, s)).2 in
  pending s' = P
  /\ exists r', List.find (has_key q_id (q_id r)) (qs_rows s') = Some r' /\ q_status r' = "dead_letter"
     /\ q_payload r' = q_payload r.
Proof.
  induction k as [|k IH]; intros sent s r P Hc Hwf Hp Hk; cbv zeta; rewrite flushes_S;
    destruct (unreachable_flush cloud sent s r P Hc Hp) as (sent' & error & ->);
    destruct (pending_row s r P Hp) as [Hin Hpr];
    pose proof (pending_head_updated (failed_once error) r P (qs_rows s) (proj1 Hwf) Hp) as Hp1.
  - assert (Hmax : (q_max_attempts r <=? q_attempts r + 1)%Z = true) by (apply Z.leb_le; lia).
    cbn [flushes snd]. unfold mark_failed, pending. cbn [qs_rows set_rows]. split.
    + rewrite Hp1. unfold is_pending, failed_once. cbn. by rewrite Hmax.
    + rewrite find_key_update, bool_decide_eq_true_2 by done.
      rewrite (find_key_unique q_id (qs_rows s) r (proj1 Hwf) Hin).
      eexists. split; [reflexivity|]. split; [|done]. unfold failed_once. cbn. by rewrite Hmax.
  - assert (Hmax : (q_max_attempts r <=? q_attempts r + 1)%Z = false) by (apply Z.leb_gt; lia).
    assert (Hst : is_pending (failed_once error r) = true).
    { unfold is_pending, failed_once. cbn. rewrite Hmax. cbn. apply Z.ltb_lt. lia. }
    rewrite Hst in Hp1.
    apply (IH sent' (mark_failed (q_id r) error s) (failed_once error r) P); [done| |exact Hp1|cbn; lia].
    apply wf_set_row; [done| |done]. intros x Hx Heq. apply failed_once_wf.
    by rewrite (unique_inj q_id (qs_rows s) x r (proj1 Hwf) Hx Hin Heq).
Qed.

(** ** Change detection *)

(** Once a synchronisation is recorded, a page of items that all carry a modification
    time queues nothing, however recent they are: the comparison with the recorded text
    raises and the exception is swallowed. *)
Theorem changed_items_never_queued kind state_name item items row s
    (Hstate : get_sync_state state_name "outbound" s = Some row) (Hrow : sy_last_sync_at row <> "")
    (Hupd : is_Some (it_updated_at item)) :
  sync_outbound kind state_name (Ok (item :: items)) s = (Ok tt, s).
Proof.
  unfold sync_outbound, try_catch, lift, gets, mbind, EM_bind, mret, EM_ret. rewrite Hstate.
  cbn [queue_items]. unfold already_synced, lift, mbind, EM_bind. destruct Hupd as [u ->].
  by rewrite (proj2 (String.eqb_neq _ _) Hrow).
Qed.

(** Items without a modification time are queued again in every cycle, changed or
    not. *)
Theorem undated_items_always_queued kind state_name items s
    (Hnone : forall i, i ∈ items -> it_updated_at i = None) :
  let s' := (sync_outbound kind state_name (Ok items) s).2 in
  List.length (qs_rows s') = (List.length (qs_rows s) + List.length items)%nat
  /\ map q_payload (qs_rows s') = (map q_payload (qs_rows s) ++ map it_payload items)%list.
Proof.
  assert (Hq : forall last s0, exists s1, queue_items kind last items s0 = (Ok (List.length items), s1)
            /\ map q_payload (qs_rows s1) = (map q_payload (qs_rows s0) ++ map it_payload items)%list).
  { intros last. induction items as [|i items IH]; intros s0.
    - exists s0. split; [done|]. by rewrite app_nil_r.
    - cbn [queue_items]. unfold already_synced, lift, mbind, EM_bind, mret, EM_ret.
      rewrite (Hnone i) by left. destruct last as [row|]; cbn [enqueue];
        (destruct (IH (fun j Hj => Hnone j ltac:(by right)) (enqueue kind "sync" (it_payload i) s0).2) as (s1 & E & Hm);
         exists s1; unfold enqueue in E; cbn [snd] in E; rewrite E; split; [done|];
         rewrite Hm; unfold enqueue; cbn [snd qs_rows]; rewrite map_app, <-app_assoc; done). }
  assert (Hm : map q_payload (qs_rows (sync_outbound kind state_name (Ok items) s).2)
             = (map q_payload (qs_rows s) ++ map it_payload items)%list).
  { unfold sync_outbound, try_catch, lift, gets, mbind, EM_bind, mret, EM_ret.
    destruct (Hq (get_sync_state state_name "outbound" s) s) as (s1 & E & Hm1). rewrite E.
    by destruct (List.length items). }
  split; [|exact Hm].
  pose proof (f_equal (@List.length _) Hm) as Hl. by rewrite length_app, !length_map in Hl.
Qed.

(** ** The invariant over cycles *)


Lemma wf_enqueue kind operation payload :
  preserves wf_queue (fun s => let '(_, s') := enqueue kind operation payload s in (Ok tt, s')).
Proof. intros s Hs. by apply (enqueue_wf kind operation payload) in Hs. Qed.
#[local] Hint Resolve wf_enqueue : effects.

Lemma wf_update_sync entity direction last : preserves wf_queue (modify (update_sync_state entity direction last)).
Proof. by apply preserves_modify. Qed.
#[local] Hint Resolve wf_update_sync : effects.

Lemma wf_queue_items kind last items : preserves wf_queue (queue_items kind last items).
Proof. induction items as [|i items IH]; cbn [queue_items]; preserve. Qed.
#[local] Hint Resolve wf_queue_items : effects.

Lemma wf_sync_outbound kind state_name listed : preserves wf_queue (sync_outbound kind state_name listed).
Proof. unfold sync_outbound. preserve. Qed.

Lemma wf_sync_stock levels : preserves wf_queue (sync_outbound_stock levels).
Proof. unfold sync_outbound_stock. preserve. Qed.

(** A cycle: what the ERP gives, and the behaviour of the cloud. *)
Record cycle := Cycle {
  cy_connected : bool;
  cy_contractors : res (list nexo_item);
  cy_products : res (list nexo_item);
  cy_levels : res (list pyval * pyval);
  cy_cloud : list queue_row -> queue_row -> cloud_answer;
  cy_configured : bool
}.
Definition run_cycle (ss : list queue_row * queue_state) (c : cycle) : list queue_row * queue_state :=
  run_sync_cycle (cy_cloud c) (cy_configured c) (cy_connected c) (cy_contractors c) (cy_products c) (cy_levels c) ss.

Definition empty_queue (now : string) : queue_state := QueueState [] 1 [] now.

(** Whatever the ERP and the cloud do, after any number of cycles the rows of the
    queue have distinct ids and each is pending with attempts left, processed, or a dead
    letter with its attempts spent; no row is tried more often than allowed. *)
Theorem queue_invariant cycles now :
  let s := (fold_left run_cycle cycles ([], empty_queue now)).2 in wf_queue s.
Proof.
  assert (H0 : wf_queue (empty_queue now)).
  { split; [constructor|]. intros r Hr. by apply not_elem_of_nil in Hr. }
  cbv zeta. revert H0. change (empty_queue now) with (([] : list queue_row, empty_queue now)).2 at 1.
  generalize (([] : list queue_row, empty_queue now)).
  induction cycles as [|c cycles IH]; intros ss Hwf; cbn [fold_left]; [done|]. apply IH.
  unfold run_cycle, run_sync_cycle. destruct (cy_connected c); cbn [negb]; [|done].
  pose proof (wf_sync_outbound "contractor" "contractors" (cy_contractors c) ss.2 Hwf) as H1.
  pose proof (wf_sync_outbound "product" "products" (cy_products c) _ H1) as H2.
  pose proof (wf_sync_stock (cy_levels c) _ H2) as H3.
  unfold sync_outbound_contractors, sync_outbound_products, flush_queue.
  destruct (cy_configured c); cbn [negb fst snd]; [|done].
  by apply (flush_queue_spec (cy_cloud c) ss.1).
Qed.

(** ** Examples *)

Definition demo_row (id : Z) : queue_row :=
  QueueRow id "contractor" "sync" (PDict [("id", PInt id)]) "pending" 0 5 None None.
Definition demo_queue : queue_state := QueueState [demo_row 1; demo_row 2; demo_row 3] 4 [] "2025-01-01T00:00:00".

Lemma demo_queue_wf : wf_queue demo_queue.
Proof.
  split; [by_deciding|]. intros r Hr. cbn in Hr.
  repeat (apply elem_of_cons in Hr as [->|Hr]; [cbn; split; [lia|split; [cbn; lia|left; split; [done|cbn; lia]]]|]).
  by apply not_elem_of_nil in Hr.
Qed.

Definition refusing_cloud : list queue_row -> queue_row -> cloud_answer := fun _ _ => Answer 404 "Not Found".
Definition good_cloud : list queue_row -> queue_row -> cloud_answer := fun _ _ => Answer 200 "".
Definition no_cloud : list queue_row -> queue_row -> cloud_answer := fun _ _ => Unreachable "timeout".

Lemma queue_drains_witness :
  Forall (fun r => q_status r = "processed" \/ q_status r = "dead_letter")
    (qs_rows (flushes refusing_cloud 15 ([], demo_queue)).2).
Proof.
  apply list.Forall_forall. apply (queue_drains refusing_cloud [] demo_queue 15 demo_queue_wf). by vm_compute.
Defined.

Lemma flushes_deliver_in_order_witness :
  (flushes good_cloud 1 ([], demo_queue)).1 = [demo_row 1; demo_row 2; demo_row 3].
Proof.
  pose proof (flushes_deliver_in_order good_cloud 1 [] demo_queue
    (fun _ _ => ex_intro _ 200%Z (ex_intro _ "" (conj eq_refl eq_refl))) demo_queue_wf) as Hw.
  destruct (flushes good_cloud 1 ([], demo_queue)) as [sent s']. by destruct Hw as (-> & _).
Defined.

Lemma outage_loses_oldest_witness :
  pending (flushes no_cloud 5 ([], demo_queue)).2 = [demo_row 2; demo_row 3].
Proof.
  apply (outage_loses_oldest no_cloud 4 [] demo_queue (demo_row 1) [demo_row 2; demo_row 3]).
  - intros log r. by exists "timeout".
  - exact demo_queue_wf.
  - reflexivity.
  - reflexivity.
Defined.

Definition synced_queue : queue_state := update_sync_state "contractors" "outbound" "" demo_queue.

Lemma changed_items_never_queued_witness :
  sync_outbound "contractor" "contractors" (Ok [NexoItem (PDict []) (Some 2000000000%Z)]) synced_queue
  = (Ok tt, synced_queue).
Proof.
  apply (changed_items_never_queued _ _ _ _ (SyncRow "2025-01-01T00:00:00" "")); [done|done|by eexists].
Defined.

Lemma undated_items_always_queued_witness :
  List.length (qs_rows (sync_outbound "contractor" "contractors" (Ok [NexoItem (PDict []) None]) synced_queue).2)
  = 4%nat.
Proof.
  apply (undated_items_always_queued "contractor" "contractors" [NexoItem (PDict []) None] synced_queue).
  by intros i ->%list_elem_of_singleton.
Defined.
