(* ===== verification/Health.v ===== *)
(** The connector health monitor: [platform/core/connector_health.py].  A probe is the
    outcome of one request to a connector; statuses are kept as records with the time
    they expire, where the code writes them to Redis as JSON.  Times are integers,
    error rates rational numbers.  The checks of a round touch the state of their own
    instance only, so they are run one after the other. *)

From Stdlib Require Import QArith Qround Qminmax.
From S2P Require Import Prelude PyText PyValue Effects Registry RateLimiter.

Local Open Scope string_scope.
Local Open Scope nat_scope.

(** The outcome of the request: a response, [httpx.TimeoutException], another
    exception. *)
Inductive probe := Responded (code : Z) | TimedOut | ProbeError (message : string).

Definition is_healthy (p : probe) : bool := match p with Responded code => (code =? 200)%Z | _ => false end.

(** The status and the error message of a check. *)
Definition probe_status (p : probe) : string :=
  match p with
  | Responded code => if (code =? 200)%Z then "healthy" else "degraded"
  | TimedOut => "degraded"
  | ProbeError _ => "unhealthy"
  end.
Definition probe_error (p : probe) : option string :=
  match p with
  | Responded code => if (code =? 200)%Z then None else Some ("HTTP " ++ str_of_Z code)%string
  | TimedOut => Some "Health check timed out"
  | ProbeError m => Some m
  end.

(** The columns of [connector_instances] the monitor uses. *)
Record instance := Instance {
  in_id : string;
  in_connector : string;
  in_version : string;
  in_enabled : bool
}.

Record HealthTarget := Target {
  t_manifest : ConnectorManifest;
  t_instance_id : option string;
  t_instance_key : string
}.

(** [_HealthTarget.__post_init__] on an empty key. *)
Definition target_key (m : ConnectorManifest) (id : option string) : string :=
  match id with Some (String _ _ as i) => i | _ => m_name m end.

Record ConnectorHealthStatus := HealthStatus {
  h_connector : string;
  h_instance_key : string;
  h_status : string;
  h_last_check : Z;
  h_failures : Z;
  h_last_error : option string;
  h_error_rate_5m : Q;
  h_category : string
}.

Record monitor := Monitor {
  failure_counts : list (string * Z);
  error_timestamps : list (string * list Z);
  instances : list instance;
  statuses : list (string * (ConnectorHealthStatus * Z))
}.

Section monitor.
Variables (reg : registry) (has_sessions : bool) (check_interval auto_disable_threshold : Z).

Definition count_of (key : string) (s : monitor) : Z := default 0%Z (dget key (failure_counts s)).
Definition set_count (key : string) (n : Z) (s : monitor) : monitor :=
  Monitor (dset key n (failure_counts s)) (error_timestamps s) (instances s) (statuses s).

(** [_get_active_targets]. *)
Definition target_of (i : instance) : option HealthTarget :=
  let manifest := match get_by_name_version reg (in_connector i) (Some (in_version i)) with
                  | Some m => Some m
                  | None => hd_error (get_by_name reg (in_connector i))
                  end in
  (fun m => Target m (Some (in_id i)) (in_id i)) <$> manifest.
Definition get_active_targets (s : monitor) : list HealthTarget :=
  if has_sessions then omap (M := list) target_of (List.filter in_enabled (instances s))
  else map (fun m => Target m None (target_key m None)) (get_all reg).

(** [_compute_error_rate_5m]: the failures of the last five minutes are kept. *)
Definition recent (now : Z) (l : list Z) : list Z := List.filter (fun t => (now - 300 <? t)%Z) l.
Definition expected_checks : Q := Qmax 1 (300 / inject_Z check_interval).
Definition compute_error_rate_5m (key : string) (now : Z) (s : monitor) : Q * monitor :=
  match dget key (error_timestamps s) with
  | None => (0%Q, s)
  | Some l =>
      let kept := recent now l in
      ((inject_Z (Z.of_nat (List.length kept)) / expected_checks)%Q,
       Monitor (failure_counts s) (dset key kept (error_timestamps s)) (instances s) (statuses s))
  end.

Definition disable (id : string) (i : instance) : instance :=
  if String.eqb (in_id i) id then Instance (in_id i) (in_connector i) (in_version i) false else i.

(** [_auto_disable_instance]; an exception of the database is logged ([db_ok]). *)
Definition auto_disable_instance (db_ok : bool) (id key : string) (s : monitor) : monitor :=
  if negb has_sessions then s
  else if db_ok then
    set_count key 0
      (Monitor (failure_counts s) (error_timestamps s) (map (disable id) (instances s)) (statuses s))
  else s.

(** [_check_one]. *)
Definition check_one (db_ok : bool) (now : Z) (p : probe) (t : HealthTarget) (s : monitor) : monitor :=
  let key := t_instance_key t in
  let s1 := set_count key (if is_healthy p then 0 else count_of key s + 1)%Z s in
  let s2 := if is_healthy p then s1
            else Monitor (failure_counts s1)
                   (dset key (default [] (dget key (error_timestamps s1)) ++ [now])%list (error_timestamps s1))
                   (instances s1) (statuses s1) in
  let '(error_rate, s3) := compute_error_rate_5m key now s2 in
  let consecutive := count_of key s3 in
  let s4 := match t_instance_id t with
            | Some id => if (auto_disable_threshold <=? consecutive)%Z
                         then auto_disable_instance db_ok id key s3 else s3
            | None => s3
            end in
  let health := HealthStatus (m_name (t_manifest t)) key (probe_status p) now consecutive (probe_error p)
                  error_rate (m_category (t_manifest t)) in
  Monitor (failure_counts s4) (error_timestamps s4) (instances s4)
    (dset key (health, now + check_interval * 4)%Z (statuses s4)).

(** [_check_all_connectors]: a round of checks at a time. *)
Definition check_all (db_ok : bool) (now : Z) (probes : string -> probe) (s : monitor) : monitor :=
  fold_left (fun s t => check_one db_ok now (probes (t_instance_key t)) t s) (get_active_targets s) s.

(** [get_status_by_instance], [get_all_statuses] and [get_statuses_by_name]. *)
Definition get_status_by_instance (now : Z) (key : string) (s : monitor) : option ConnectorHealthStatus :=
  match dget key (statuses s) with
  | Some (h, expires) => if (expires <=? now)%Z then None else Some h
  | None => None
  end.
Definition get_all_statuses (now : Z) (s : monitor) : list ConnectorHealthStatus :=
  omap (M := list) (fun kv => get_status_by_instance now kv.1 s) (statuses s).
Definition get_statuses_by_name (now : Z) (name : string) (s : monitor) : list ConnectorHealthStatus :=
  List.filter (fun h => String.eqb (h_connector h) name) (get_all_statuses now s).

(** ** One check *)

(** What a check does to the count and to the row of an instance. *)
Definition is_enabled (id : string) (s : monitor) : bool :=
  existsb (fun i => String.eqb (in_id i) id && in_enabled i) (instances s).

Lemma compute_error_rate_frame key now s :
  let s' := (compute_error_rate_5m key now s).2 in
  failure_counts s' = failure_counts s /\ instances s' = instances s.
Proof. unfold compute_error_rate_5m. by destruct (dget key (error_timestamps s)). Qed.

Lemma check_one_spec db_ok now p m id s :
  let s' := check_one db_ok now p (Target m (Some id) id) s in
  let c := (if is_healthy p then 0 else count_of id s + 1)%Z in
  let off := (auto_disable_threshold <=? c)%Z && (has_sessions && db_ok) in
  count_of id s' = (if off then 0%Z else c)
  /\ (forall k, k <> id -> count_of k s' = count_of k s)
  /\ instances s' = if off then map (disable id) (instances s) else instances s.
Proof.
  cbv zeta. unfold check_one. cbn [t_instance_key t_instance_id t_manifest].
  set (c := (if is_healthy p then 0 else count_of id s + 1)%Z).
  set (s2 := if is_healthy p then set_count id c s else _).
  assert (H2 : failure_counts s2 = dset id c (failure_counts s) /\ instances s2 = instances s)
    by (unfold s2; by destruct (is_healthy p)).
  pose proof (compute_error_rate_frame id now s2) as [Hf Hi].
  destruct (compute_error_rate_5m id now s2) as [rate s3]. cbn [snd] in Hf, Hi.
  destruct H2 as [H2f H2i].
  assert (Hc : count_of id s3 = c) by (unfold count_of; by rewrite Hf, H2f, dget_dset_eq).
  assert (Hk : forall k, k <> id -> count_of k s3 = count_of k s)
    by (intros k Hk; unfold count_of; by rewrite Hf, H2f, dget_dset_ne).
  rewrite Hc. unfold auto_disable_instance.
  destruct (auto_disable_threshold <=? c)%Z, has_sessions, db_ok; cbn [negb andb];
    unfold count_of in *; cbn [failure_counts instances set_count];
    rewrite ?Hi, ?H2i, ?dget_dset_eq; split_and!; try done;
    intros k Hne; rewrite ?dget_dset_ne by done; by apply Hk.
Qed.

(** ** A round *)

Lemma is_enabled_disable id j l :
  existsb (fun i => String.eqb (in_id i) id && in_enabled i) (map (disable j) l) =
  negb (String.eqb j id) && existsb (fun i => String.eqb (in_id i) id && in_enabled i) l.
Proof.
  induction l as [|i l IH]; cbn; [by rewrite andb_false_r|]. rewrite IH. unfold disable.
  destruct (String.eqb_spec (in_id i) j) as [<-|Hne]; cbn.
  - rewrite andb_false_r. by destruct (String.eqb (in_id i) id).
  - destruct (String.eqb_spec (in_id i) id) as [Hid|]; cbn; [|done].
    rewrite (proj2 (String.eqb_neq j id)) by congruence. by destruct (in_enabled i).
Qed.

(** What a healthy probe or a failure makes of a count, and whether it disables. *)
Definition next_count (p : probe) (c : Z) : Z := if is_healthy p then 0%Z else (c + 1)%Z.
Definition trips (p : probe) (c : Z) : bool := (auto_disable_threshold <=? next_count p c)%Z.

Definition instance_target (t : HealthTarget) : Prop := t_instance_id t = Some (t_instance_key t).

Lemma round_spec now probes id ts : forall s,
  has_sessions = true -> (forall t, t ∈ ts -> instance_target t) -> NoDup (map t_instance_key ts) ->
  let s' := fold_left (fun s t => check_one true now (probes (t_instance_key t)) t s) ts s in
  if bool_decide (id ∈ map t_instance_key ts)
  then count_of id s' = (if trips (probes id) (count_of id s) then 0%Z else next_count (probes id) (count_of id s))
       /\ is_enabled id s' = negb (trips (probes id) (count_of id s)) && is_enabled id s
  else count_of id s' = count_of id s /\ is_enabled id s' = is_enabled id s.
Proof.
  induction ts as [|t ts IH]; intros s Hs Hts Hnd; cbv zeta; cbn [map fold_left] in *; [done|].
  apply list.NoDup_cons in Hnd as [Hn Hnd].
  assert (Ht : t = Target (t_manifest t) (Some (t_instance_key t)) (t_instance_key t)).
  { specialize (Hts t ltac:(left)). unfold instance_target in Hts. destruct t. cbn in *. by subst. }
  destruct (check_one_spec true now (probes (t_instance_key t)) (t_manifest t) (t_instance_key t) s) as (H1 & H2 & H3).
  rewrite <-Ht in H1, H2, H3. rewrite Hs in H1, H3. cbn [andb] in H1, H3. rewrite andb_true_r in H1, H3.
  set (s1 := check_one true now (probes (t_instance_key t)) t s) in *.
  specialize (IH s1 Hs (fun x Hx => Hts x ltac:(by right)) Hnd). cbv zeta in IH.
  destruct (String.eqb_spec (t_instance_key t) id) as [<-|Hne].
  - rewrite (bool_decide_eq_true_2 (_ ∈ _ :: _)) by left. rewrite bool_decide_eq_false_2 in IH by done.
    destruct IH as [-> ->]. split; [exact H1|]. unfold is_enabled. rewrite H3. unfold trips, next_count.
    destruct (auto_disable_threshold <=? _)%Z; cbn [negb andb]; [|done].
    by rewrite is_enabled_disable, String.eqb_refl.
  - assert (E : bool_decide (id ∈ t_instance_key t :: map t_instance_key ts) = bool_decide (id ∈ map t_instance_key ts)).
    { apply bool_decide_ext. rewrite elem_of_cons. split; [intros [->|?]; done|by right]. }
    rewrite E. assert (Hc : count_of id s1 = count_of id s) by (apply H2; congruence).
    assert (He : is_enabled id s1 = is_enabled id s).
    { unfold is_enabled. rewrite H3. destruct (auto_disable_threshold <=? _)%Z; [|done].
      rewrite is_enabled_disable. by rewrite (proj2 (String.eqb_neq _ _) Hne). }
    by rewrite Hc, He in IH.
Qed.

#[local] Arguments target_of : simpl never.

Lemma targets_of_instances l :
  (forall t, t ∈ omap (M := list) target_of (List.filter in_enabled l) -> instance_target t)
  /\ (unique_rows in_id l -> NoDup (map t_instance_key (omap (M := list) target_of (List.filter in_enabled l))))
  /\ (forall k, k ∈ map t_instance_key (omap (M := list) target_of (List.filter in_enabled l)) <->
        exists i, i ∈ l /\ in_enabled i = true /\ is_Some (target_of i) /\ in_id i = k).
Proof.
  assert (Hkey : forall i t, target_of i = Some t -> t_instance_key t = in_id i /\ instance_target t).
  { intros i t. unfold target_of. destruct (match _ with Some _ => _ | None => _ end); [|done]. by intros [= <-]. }
  assert (Hk : forall k, k ∈ map t_instance_key (omap (M := list) target_of (List.filter in_enabled l)) <->
        exists i, i ∈ l /\ in_enabled i = true /\ is_Some (target_of i) /\ in_id i = k).
  { intros k. rewrite list_elem_of_In, in_map_iff. split.
    - intros (t & <- & Ht). apply list_elem_of_In, list_elem_of_omap in Ht as (i & Hi & E).
      apply list_elem_of_In, filter_In in Hi as [Hi He]. exists i. destruct (Hkey i t E) as [-> _].
      split_and!; [by apply list_elem_of_In|done|by eexists|done].
    - intros (i & Hi & He & [t E] & <-). exists t. destruct (Hkey i t E) as [-> _]. split; [done|].
      apply list_elem_of_In, list_elem_of_omap. exists i. split; [|done].
      apply list_elem_of_In, filter_In. by split; [apply list_elem_of_In|]. }
  split_and!; [| |done].
  - intros t (i & _ & E)%list_elem_of_omap. by apply (Hkey i).
  - clear Hk. unfold unique_rows. induction l as [|i l IH]; cbn; [constructor|].
    intros [Hn Hu]%list.NoDup_cons. destruct (in_enabled i); [|by apply IH]. cbn.
    destruct (target_of i) as [t|] eqn:E; [|by apply IH]. cbn.
    apply list.NoDup_cons. split; [|by apply IH]. destruct (Hkey i t E) as [-> _].
    intros Hin. apply Hn. apply list_elem_of_In, in_map_iff in Hin as (t' & Ht' & Hin).
    apply list_elem_of_In, list_elem_of_omap in Hin as (j & Hj & Ej). apply list_elem_of_In, filter_In in Hj as [Hj _].
    destruct (Hkey j t' Ej) as [Hkj _]. rewrite <-Ht', Hkj. by apply list_elem_of_In, in_map.
Qed.

(** ** Rounds *)

(** A round: its time and the outcome of every instance's probe.  The rounds that follow each other here
    are those of a database that answers; [check_all] takes its failures as an argument. *)
Definition rounds_t : Type := list (Z * (string -> probe)).
Definition run_rounds (rounds : rounds_t) (s : monitor) : monitor :=
  fold_left (fun s r => check_all true r.1 r.2 s) rounds s.

(** The rows keep their ids and their connectors. *)
Definition row_of (id : string) (s : monitor) : option instance :=
  List.find (has_key in_id id) (instances s).

Definition known (id : string) (s : monitor) : Prop :=
  unique_rows in_id (instances s) /\ exists i, i ∈ instances s /\ in_id i = id /\ is_Some (target_of i).

Lemma disable_key j i : in_id (disable j i) = in_id i /\ (is_Some (target_of i) -> is_Some (target_of (disable j i))).
Proof.
  unfold disable. destruct (String.eqb (in_id i) j); [|done]. split; [done|].
  unfold target_of. cbn. by destruct (match _ with Some _ => _ | None => _ end).
Qed.

Lemma known_check_all db_ok now probes id s : known id s -> known id (check_all db_ok now probes s).
Proof.
  unfold check_all. generalize (get_active_targets s). intros ts. revert s.
  induction ts as [|t ts IH]; intros s Hk; cbn; [done|]. apply IH.
  assert (Hi : instances (check_one db_ok now (probes (t_instance_key t)) t s) = instances s
               \/ exists j, instances (check_one db_ok now (probes (t_instance_key t)) t s) = map (disable j) (instances s)).
  { unfold check_one. set (s2 := if is_healthy _ then _ else _).
    assert (H2 : instances s2 = instances s) by (unfold s2; by destruct (is_healthy _)).
    pose proof (compute_error_rate_frame (t_instance_key t) now s2) as [_ H3].
    destruct (compute_error_rate_5m _ now s2) as [rate s3]. cbn [snd] in H3. cbn [instances].
    destruct (t_instance_id t) as [j|]; [|left; congruence].
    destruct (auto_disable_threshold <=? _)%Z; [|left; congruence]. unfold auto_disable_instance.
    destruct (negb has_sessions); [left; congruence|]. destruct db_ok; [|left; congruence].
    right. exists j. cbn. congruence. }
  destruct Hk as [Hu (i & Hin & Hid & Ht)]. unfold known. destruct Hi as [->|[j ->]]; [by split; [|exists i]|].
  split.
  - unfold unique_rows. rewrite map_map. rewrite (map_ext _ in_id); [done|]. intros x. apply disable_key.
  - exists (disable j i). split; [by apply list_elem_of_In, in_map, list_elem_of_In|].
    destruct (disable_key j i) as [Hk Hk2]. rewrite Hk. split; [done|by apply Hk2].
Qed.

(** The course of one instance: its count and whether it is enabled. *)
Fixpoint scan (ps : list probe) (c : Z) : bool :=
  match ps with
  | [] => true
  | p :: ps' => if trips p c then false else scan ps' (next_count p c)
  end.

Lemma enabled_row id s :
  unique_rows in_id (instances s) -> is_enabled id s = true <->
  exists i, i ∈ instances s /\ in_id i = id /\ in_enabled i = true.
Proof.
  intros _. unfold is_enabled. rewrite existsb_exists. split.
  - intros (i & Hi & [He%String.eqb_eq He2]%andb_true_iff). exists i. by split; [apply list_elem_of_In|].
  - intros (i & Hi & <- & He). exists i. split; [by apply list_elem_of_In|]. by rewrite String.eqb_refl.
Qed.

Lemma rounds_scan id rounds : forall s,
  has_sessions = true -> known id s -> is_enabled id s = true ->
  is_enabled id (run_rounds rounds s) = scan (map (fun r => r.2 id) rounds) (count_of id s).
Proof.
  assert (Hoff : forall rounds s, has_sessions = true -> known id s -> is_enabled id s = false ->
            is_enabled id (run_rounds rounds s) = false).
  { clear rounds. induction rounds as [|[now probes] rounds IH]; intros s Hs Hk He; [done|]. cbn.
    apply IH; [done|by apply known_check_all|]. unfold check_all, get_active_targets. rewrite Hs.
    destruct (targets_of_instances (instances s)) as (Ht1 & Ht2 & Ht3).
    pose proof (round_spec now probes id _ s Hs Ht1 (Ht2 (proj1 Hk))) as Hr. cbv zeta in Hr.
    case_bool_decide as Hin; destruct Hr as [_ ->]; [|done]. rewrite He. by rewrite andb_false_r. }
  induction rounds as [|[now probes] rounds IH]; intros s Hs Hk He; [done|]. cbn [run_rounds fold_left map scan fst snd].
  destruct (targets_of_instances (instances s)) as (Ht1 & Ht2 & Ht3).
  pose proof (round_spec now probes id _ s Hs Ht1 (Ht2 (proj1 Hk))) as Hr. cbv zeta in Hr.
  rewrite bool_decide_eq_true_2 in Hr.
  - assert (Hca : check_all true now probes s = fold_left (fun s t => check_one true now (probes (t_instance_key t)) t s)
                    (omap (M := list) target_of (List.filter in_enabled (instances s))) s)
      by (unfold check_all, get_active_targets; by rewrite Hs).
    rewrite <-Hca in Hr. destruct Hr as [Hc He']. rewrite He in He'. rewrite andb_true_r in He'.
    change (fold_left (fun s0 r => check_all true r.1 r.2 s0) rounds (check_all true now probes s))
      with (run_rounds rounds (check_all true now probes s)).
    destruct (trips (probes id) (count_of id s)).
    + by apply Hoff; [|apply known_check_all|].
    + rewrite IH; [by rewrite Hc|done|by apply known_check_all|done].
  - apply Ht3. apply enabled_row in He as (i & Hi & Hid & He); [|apply Hk].
    destruct Hk as [Hu (j & Hj & Hjd & Htj)].
    assert (i = j) as -> by (apply (unique_inj in_id (instances s)); [done|done|done|congruence]).
    exists j. by split_and!.
Qed.

(** ** Failures in a row *)

Definition failing (ps : list probe) : list bool := map (fun p => negb (is_healthy p)) ps.

(** [t] failures in a row occur. *)
Definition in_a_row (t : nat) (l : list bool) : Prop := exists l1 l2, l = (l1 ++ repeat true t ++ l2)%list.

Lemma in_a_row_short t c : c < t -> ~ in_a_row t (repeat true c).
Proof.
  intros Hc (l1 & l2 & E). apply (f_equal (@List.length _)) in E.
  rewrite !length_app, !repeat_length in E. lia.
Qed.

(** A success separates: what is before it is too short. *)
Lemma in_a_row_reset t c l : c < t -> in_a_row t (repeat true c ++ false :: l) <-> in_a_row t l.
Proof.
  intros Hc. split.
  - intros (l1 & l2 & E). destruct (decide (List.length l1 <= c)) as [Hl|Hl].
    + assert (E1 : (repeat true c ++ false :: l)%list !! c = Some false).
      { rewrite lookup_app_r by (rewrite repeat_length; lia). by rewrite repeat_length, Nat.sub_diag. }
      rewrite E in E1. rewrite lookup_app_r in E1 by lia. rewrite lookup_app_l in E1 by (rewrite repeat_length; lia).
      apply list_elem_of_lookup_2, list_elem_of_In, repeat_spec in E1. done.
    + assert (Hd : drop (S c) (repeat true c ++ false :: l)%list = l).
      { rewrite drop_app_ge by (rewrite repeat_length; lia). rewrite repeat_length.
        replace (S c - c) with 1 by lia. done. }
      exists (drop (S c) l1), l2. rewrite <-Hd, E. by rewrite drop_app_le by lia.
  - intros (l1 & l2 & ->). exists (repeat true c ++ false :: l1)%list, l2. by rewrite <-app_assoc.
Qed.

Lemma scan_in_a_row t ps : forall c,
  (auto_disable_threshold = Z.of_nat t) -> c < t ->
  scan ps (Z.of_nat c) = false <-> in_a_row t (repeat true c ++ failing ps).
Proof.
  induction ps as [|p ps IH]; intros c Ht Hc; cbn [scan failing map].
  - rewrite app_nil_r. split; [done|]. by intros H%in_a_row_short.
  - unfold trips, next_count. rewrite Ht. destruct (is_healthy p); cbn [negb].
    + replace (Z.of_nat t <=? 0)%Z with false by (symmetry; apply Z.leb_gt; lia).
      rewrite in_a_row_reset by done. exact (IH 0 Ht ltac:(lia)).
    + assert (E : (repeat true c ++ true :: failing ps = repeat true (S c) ++ failing ps)%list).
      { clear. induction c as [|c IH]; [done|]. cbn [repeat app]. by rewrite IH. }
      change (map (fun p0 => negb (is_healthy p0)) ps) with (failing ps). rewrite E.
      destruct (Z.leb_spec (Z.of_nat t) (Z.of_nat c + 1)).
      * split; [|done]. intros _. assert (t = S c) as -> by lia. by exists [], (failing ps).
      * replace (Z.of_nat c + 1)%Z with (Z.of_nat (S c)) by lia. apply IH; [done|lia].
Qed.

(** C31: Whatever the other instances do, an enabled instance without earlier failures is
    disabled exactly when its own probes fail as often in a row as the threshold. *)
Theorem auto_disable_exact id rounds s t
    (Hs : has_sessions = true) (Ht : auto_disable_threshold = Z.of_nat t) (Hpos : 0 < t)
    (Hk : known id s) (He : is_enabled id s = true) (Hc : count_of id s = 0%Z) :
  is_enabled id (run_rounds rounds s) = false
  <-> in_a_row t (failing (map (fun r => r.2 id) rounds)).
Proof.
  rewrite rounds_scan by done. rewrite Hc. exact (scan_in_a_row t _ 0 Ht Hpos).
Qed.

(** A status is given until four intervals after its check. *)
Lemma status_expires db_ok now p tg s later :
  is_Some (get_status_by_instance later (t_instance_key tg) (check_one db_ok now p tg s))
  <-> (later < now + check_interval * 4)%Z.
Proof.
  unfold check_one. destruct (compute_error_rate_5m _ now _) as [rate s3].
  unfold get_status_by_instance. cbn [statuses]. rewrite dget_dset_eq.
  destruct (Z.leb_spec (now + check_interval * 4) later); split; try lia; try (by intros [? ?]).
  by intros _.
Qed.
End monitor.

(** ** Examples *)

Definition demo_manifest (name : string) : ConnectorManifest :=
  Manifest name "courier" "1.0.0" name "" "" "" [] [] [] [] [] [] [] [] [] PNone "" "" []
    no_provisioning (MkHints [] []).
Definition demo_reg : registry := discover [demo_manifest "dhl"; demo_manifest "ups"].
Definition demo_monitor : monitor :=
  Monitor [] [] [Instance "i1" "dhl" "1.0.0" true; Instance "i2" "ups" "1.0.0" true] [].

(** The first instance fails, recovers and fails twice; the second one always fails. *)
Definition demo_rounds : rounds_t :=
  map (fun k => (Z.of_nat k * 30, fun id => if String.eqb id "i2" then TimedOut
                                            else if Nat.eqb k 1 then Responded 200 else Responded 503)%Z) (seq 0 4).

Lemma auto_disable_exact_witness :
  is_enabled "i1" (run_rounds demo_reg true 30 3 demo_rounds demo_monitor) = true
  /\ is_enabled "i2" (run_rounds demo_reg true 30 3 demo_rounds demo_monitor) = false.
Proof.
  assert (Hk : forall id name, id = "i1" /\ name = "dhl" \/ id = "i2" /\ name = "ups" ->
            known demo_reg id demo_monitor).
  { intros id name H. split; [by_deciding|]. exists (Instance id name "1.0.0" true).
    destruct H as [[-> ->]|[-> ->]]; (split; [by (left || (right; left))|]); by split; [|vm_compute; eexists]. }
  split.
  - apply not_false_iff_true.
    rewrite (auto_disable_exact demo_reg true 30 3 "i1" demo_rounds demo_monitor 3 eq_refl eq_refl ltac:(lia)
               (Hk "i1" "dhl" ltac:(auto)) eq_refl eq_refl).
    intros (l1 & l2 & E). change (failing _) with [true; false; true; true] in E.
    destruct l1 as [|x [|y l1]]; [discriminate E|discriminate E|].
    apply (f_equal (@List.length _)) in E. cbn in E. rewrite length_app in E. cbn in E. lia.
  - apply (auto_disable_exact demo_reg true 30 3 "i2" demo_rounds demo_monitor 3 eq_refl eq_refl ltac:(lia)
             (Hk "i2" "ups" ltac:(auto)) eq_refl eq_refl).
    exists [], [true]. by vm_compute.
Defined.
