(* ===== verification/Schema.v ===== *)
(** The schema registry: [platform/core/schema_registry.py].  Redis holds the payloads
    (written and read back as JSON); the answer of a connector to a request for a schema
    is a function of the time and the URL; the field lists of a manifest
    ([action_fields], [output_fields]) are arguments. *)

From S2P Require Import Prelude PyText PyValue Effects Registry.

Local Open Scope string_scope.

(** ** Fields *)

(** A field after [_normalize_fields]. *)
Definition make_field (name label type : string) (required : bool) (description : pyval) : dict :=
  [("field", PStr name); ("label", PStr label); ("type", PStr type); ("required", PBool required);
   ("description", description)].

Definition normalize_field (field : pyval) : option dict :=
  match field with
  | PDict d =>
      let name := dget_or "field" PNone d in
      if truthy name then
        Some (make_field (py_str name) (py_str (py_or (dget_or "label" PNone d) name))
                (py_str (dget_or "type" (PStr "string") d)) (truthy (dget_or "required" (PBool false) d))
                (dget_or "description" PNone d))
      else None
  | _ => None
  end.

(** [_normalize_fields]: anything that can be iterated over. *)
Definition normalize_fields (fields : pyval) : res (list dict) :=
  items ← as_iter fields; Ok (omap (M := list) normalize_field items).

(** [field["field"]] of a normalised field. *)
Definition field_key (f : dict) : string := match dget "field" f with Some (PStr s) => s | _ => "" end.

(** [{field["field"]: field for field in fields}]. *)
Definition by_name (fields : list dict) : list (string * dict) := dict_of (map (fun f => (field_key f, f)) fields).

Definition merge_field (merged : list (string * dict)) (f : dict) : list (string * dict) :=
  dset (field_key f) (dmerge (default [] (dget (field_key f) merged)) f) merged.

(** [_merge_fields]. *)
Definition merge_fields (static_fields dynamic_fields : list dict) : list dict :=
  map snd (fold_left merge_field dynamic_fields (by_name static_fields)).

(** ** Differences *)

Record field_diff := FieldDiff {
  fd_added : list string;
  fd_removed : list string;
  fd_changed : list string;
  fd_any : bool
}.

Definition name_lt (a b : string) : bool := match String.compare a b with Lt => true | _ => false end.
Definition nonempty {A} (l : list A) : bool := match l with [] => false | _ => true end.

(** The fields with a name, by name. *)
Definition named (fields : list dict) : list (string * dict) :=
  by_name (List.filter (fun f => negb (String.eqb (field_key f) "")) fields).

Definition differs (previous current : list (string * dict)) (name : string) : bool :=
  match dget name previous, dget name current with
  | Some p, Some c => py_neqb (PDict c) (PDict p)
  | _, _ => false
  end.

(** [_diff_field_sets]. *)
Definition diff_field_sets (previous_fields current_fields : list dict) : field_diff :=
  let previous := named previous_fields in
  let current := named current_fields in
  let added := stable_sort name_lt (List.filter (fun n => negb (dhas n previous)) (dkeys current)) in
  let removed := stable_sort name_lt (List.filter (fun n => negb (dhas n current)) (dkeys previous)) in
  let changed := stable_sort name_lt (List.filter (differs previous current) (dkeys current)) in
  FieldDiff added removed changed (nonempty added || nonempty removed || nonempty changed).

Record SchemaPayload := MkSchemaPayload {
  sp_connector : string;
  sp_version : string;
  sp_tenant : option string;
  sp_action : string;
  sp_source : string;
  sp_cached : bool;
  sp_input : list dict;
  sp_output : list dict
}.

Record schema_diff := SchemaDiff { sd_input : field_diff; sd_output : field_diff; sd_changed : bool }.

(** [diff_schemas]; no payload is an empty one. *)
Definition diff_schemas (previous current : option SchemaPayload) : schema_diff :=
  let input := diff_field_sets (default [] (sp_input <$> previous)) (default [] (sp_input <$> current)) in
  let output := diff_field_sets (default [] (sp_output <$> previous)) (default [] (sp_output <$> current)) in
  SchemaDiff input output (fd_any input || fd_any output).

(** ** The registry *)

Record descriptor := Descriptor {
  de_connector : string;
  de_action : string;
  de_version : option string;
  de_tenant : option string
}.

Record SchemaState (store : Type) := MkSchemaState {
  ss_observed : list (string * descriptor);
  ss_redis : store;
  ss_now : Z;
  ss_events : list (descriptor * schema_diff);
  ss_invalidated : list string
}.
Arguments MkSchemaState {store}. Arguments ss_observed {store}. Arguments ss_redis {store}.
Arguments ss_now {store}. Arguments ss_events {store}. Arguments ss_invalidated {store}.

(** The answer to a request for a schema: a response, or an exception. *)
Inductive schema_answer := SchemaResponse (status : Z) (body : res pyval) | SchemaFailure.

Section registry.
(** A cached text that is not JSON is [None]. *)
Context {store : Type} `{KeyValue store (option SchemaPayload)}.
Variables (reg : registry) (ttl refresh_interval : Z).
Variables action_fields output_fields : ConnectorManifest -> list (string * pyval).
Variable fetch : Z -> string -> schema_answer.
Abbreviation SR := (EM (SchemaState store)).

Definition cache_key (connector action : string) (tenant : option string) : string :=
  "schema:" ++ connector ++ ":" ++ action ++ ":"
  ++ match tenant with None | Some EmptyString => "global" | Some t => t end.

(** [_fetch_dynamic_schema]: an object answered with 200, or nothing. *)
Definition fetch_dynamic_schema (now : Z) (base action : string) : option dict :=
  match fetch now (base ++ "/schema/" ++ str_map (fun c => if Ascii.eqb c "." then "/"%char else c) action) with
  | SchemaResponse status (Ok (PDict d)) => if (status =? 200)%Z then Some d else None
  | _ => None
  end.

Definition static_fields (lists : list (string * pyval)) (action : string) : res (list dict) :=
  normalize_fields (default (PList []) (dget action lists)).

(** [_build_schema_payload]. *)
Definition build_schema_payload (now : Z) (manifest : ConnectorManifest) (action : string)
    (tenant : option string) : res SchemaPayload :=
  static_input ← static_fields (action_fields manifest) action;
  static_output ← static_fields (output_fields manifest) action;
  '(dynamic_input, dynamic_output, source) ←
    match fetch_dynamic_schema now (base_url manifest) action with
    | Some ((_ :: _) as d) =>
        i ← normalize_fields (dget_or "input_fields" (PList []) d);
        o ← normalize_fields (dget_or "output_fields" (PList []) d);
        Ok (i, o, if nonempty static_input || nonempty static_output then "merged" else "dynamic")
    | _ => Ok ([], [], "static")
    end;
  Ok (MkSchemaPayload (m_name manifest) (m_version manifest) tenant action source false
        (merge_fields static_input dynamic_input) (merge_fields static_output dynamic_output)).

Definition set_ss_observed (k : string) (d : descriptor) (s : SchemaState store) : SchemaState store :=
  MkSchemaState (dset k d (ss_observed s)) (ss_redis s) (ss_now s) (ss_events s) (ss_invalidated s).
Definition set_ss_redis (r : store) (s : SchemaState store) : SchemaState store :=
  MkSchemaState (ss_observed s) r (ss_now s) (ss_events s) (ss_invalidated s).

Definition mark_cached (p : SchemaPayload) : SchemaPayload :=
  MkSchemaPayload (sp_connector p) (sp_version p) (sp_tenant p) (sp_action p) (sp_source p) true
    (sp_input p) (sp_output p).

Definition read_cache (key : string) : SR (option SchemaPayload) :=
  gets (fun s => mjoin (kv_get (ss_now s) key (ss_redis s))).

Definition get_action_schema (connector action : string) (version tenant : option string)
    (force_refresh : bool) : SR SchemaPayload :=
  match get_by_name_version reg connector version with
  | None => raise (LookupError ("Connector '" ++ connector ++ "' not found"))
  | Some manifest =>
      let key := cache_key connector action tenant in
      _ ← modify (set_ss_observed key (Descriptor connector action (Some (m_version manifest)) tenant));
      cached ← (if force_refresh then mret None else read_cache key);
      match cached with
      | Some payload => mret (mark_cached payload)
      | None =>
          now ← gets ss_now;
          payload ← lift (build_schema_payload now manifest action tenant);
          _ ← modify (fun s => set_ss_redis (kv_set key (Some payload) (ss_now s + ttl) (ss_redis s)) s);
          mret payload
      end
  end.

Definition is_lookup_error (e : pyexn) : bool :=
  match e with LookupError _ | KeyError _ | IndexError _ => true | _ => false end.

(** The endpoint [get_connector_action_schema] of [platform/api/gateway.py]. *)
Definition get_connector_action_schema (name action : string) (version : option string)
    (tenant : string) : SR SchemaPayload :=
  try_catch
    (get_action_schema name (str_map (fun c => if Ascii.eqb c "/" then "."%char else c) action)
       version (Some tenant) false)
    (fun e => if is_lookup_error e then http_error 404 (exn_str e) else raise e).

(** The body of the loop of [refresh_observed_schemas]; an exception other than a
    [LookupError] ends the loop. *)
Definition refresh_one (kd : string * descriptor) : SR unit :=
  let d := kd.2 in
  cached_payload ← read_cache kd.1;
  fresh_payload ← try_catch
    (p ← get_action_schema (de_connector d) (de_action d) (de_version d) (de_tenant d) true; mret (Some p))
    (fun e => if is_lookup_error e then mret None else raise e);
  match fresh_payload with
  | None => mret tt
  | Some p =>
      let diff := diff_schemas cached_payload (Some p) in
      if negb (sd_changed diff) then mret tt
      else modify (fun s => MkSchemaState (ss_observed s) (ss_redis s) (ss_now s)
                     (ss_events s ++ [(d, diff)])%list (ss_invalidated s ++ [de_connector d])%list)
  end.

Definition refresh_observed_schemas : SR unit :=
  observed ← gets ss_observed; for_each refresh_one observed.

(** [_refresh_loop]: the failures counted after a pass, and the seconds it then sleeps. *)
Definition after_pass (ok : bool) (consecutive_failures : Z) : Z * Z :=
  let n := if ok then 0%Z else (consecutive_failures + 1)%Z in
  (n, if (0 <? n)%Z then Z.min (refresh_interval * 2 ^ Z.min n 5) (refresh_interval * 32) else refresh_interval).

(** ** The type of a schema *)

(** A field has its five keys, with their types, and a name. *)
Inductive well_typed_field : dict -> Prop :=
  | wt_field name label type required description :
      name <> "" -> well_typed_field (make_field name label type required description).

Definition well_typed_fields (l : list dict) : Prop :=
  Forall well_typed_field l /\ NoDup (map field_key l).
Definition well_typed_payload (p : SchemaPayload) : Prop :=
  well_typed_fields (sp_input p) /\ well_typed_fields (sp_output p).

(** What the cache holds, now or later, is well typed. *)
Definition cache_sound (s : SchemaState store) : Prop :=
  forall now k p, kv_get now k (ss_redis s) = Some (Some p) -> well_typed_payload p.

End registry.

(** ** Lemmas on fields *)

Definition keyed_fields (l : list (string * dict)) : Prop :=
  NoDup (dkeys l) /\ forall k f, (k, f) ∈ l -> well_typed_field f /\ field_key f = k.

Lemma keyed_snd l : keyed_fields l -> well_typed_fields (map snd l).
Proof.
  intros [Hnd Hk]. split.
  - apply Forall_forall. intros f Hf. apply in_map_iff in Hf as ([k f'] & <- & Hin).
    by apply (Hk k), list_elem_of_In.
  - rewrite map_map. rewrite (map_ext_in _ fst); [done|].
    intros [k f] Hin. by apply Hk, list_elem_of_In.
Qed.

Lemma keyed_dset f l : well_typed_field f -> keyed_fields l -> keyed_fields (dset (field_key f) f l).
Proof.
  intros Hf [Hnd Hk]. split; [by apply NoDup_dkeys_dset|].
  intros k g [Heq|Hin]%elem_of_dset; [|by apply Hk]. by simplify_eq.
Qed.

Lemma keyed_dmerge fields l :
  Forall well_typed_field fields -> keyed_fields l ->
  keyed_fields (dmerge l (map (fun f => (field_key f, f)) fields)).
Proof.
  intros Hf. revert l. induction Hf as [|f fields Hf _ IH]; intros l Hl; cbn; [done|].
  by apply IH, keyed_dset.
Qed.

Lemma keyed_by_name fields : Forall well_typed_field fields -> keyed_fields (by_name fields).
Proof.
  intros Hf. apply keyed_dmerge; [done|]. split; [apply NoDup_nil_2|]. by intros k f Hin%elem_of_nil.
Qed.

Lemma normalize_field_typed v f : normalize_field v = Some f -> well_typed_field f.
Proof.
  destruct v; cbn [normalize_field]; try done. case_match; [|done].
  intros [= <-]. constructor. by apply py_str_nonempty.
Qed.

Lemma normalize_fields_typed v fields : normalize_fields v = Ok fields -> Forall well_typed_field fields.
Proof.
  unfold normalize_fields. destruct (as_iter v) as [items|e]; cbn; [|done]. intros [= <-].
  apply Forall_forall. intros f (v' & _ & Hv)%list_elem_of_In%list_elem_of_omap. by apply normalize_field_typed in Hv.
Qed.

(** Both fields have all the keys, so nothing of the first is left. *)
Lemma merge_field_replaces merged f :
  keyed_fields merged -> well_typed_field f -> merge_field merged f = dset (field_key f) f merged.
Proof.
  intros [_ Hk] Hf. unfold merge_field. f_equal.
  destruct (dget (field_key f) merged) as [g|] eqn:E; cbn [default from_option id].
  - apply dget_Some_in, Hk in E as [Hg _]. by destruct Hg, Hf.
  - by destruct Hf.
Qed.

Lemma merge_fields_replaces static dynamic :
  Forall well_typed_field static -> Forall well_typed_field dynamic ->
  merge_fields static dynamic = map snd (by_name (static ++ dynamic)).
Proof.
  intros Hs Hd. unfold merge_fields, by_name, dict_of, dmerge. f_equal.
  rewrite map_app, fold_left_app. pose proof (keyed_by_name static Hs) as Hl. revert Hl.
  unfold by_name, dict_of, dmerge. generalize (fold_left (fun acc kv => dset kv.1 kv.2 acc)
    (map (fun f => (field_key f, f)) static) []).
  induction Hd as [|f dynamic Hf _ IH]; intros l Hl; cbn; [done|].
  rewrite merge_field_replaces by done. by apply IH, keyed_dset.
Qed.

Lemma merge_fields_typed static dynamic :
  Forall well_typed_field static -> Forall well_typed_field dynamic ->
  well_typed_fields (merge_fields static dynamic).
Proof.
  intros Hs Hd. rewrite merge_fields_replaces by done. apply keyed_snd, keyed_by_name. by apply Forall_app.
Qed.

(** ** Lemmas on differences *)

Lemma nothing_selected {A} lt (p : A -> bool) (l : list A) :
  nonempty (stable_sort lt (List.filter p l)) = false <-> forall x, x ∈ l -> p x = false.
Proof.
  pose proof (stable_sort_perm lt (List.filter p l)) as Hp. split.
  - intros He x Hx. destruct (stable_sort lt _); [|done].
    apply Permutation_nil in Hp. destruct (p x) eqn:E; [|done].
    assert (Hin : In x (List.filter p l)) by (apply filter_In; split; [by apply list_elem_of_In|done]).
    by rewrite Hp in Hin.
  - intros Hall. replace (List.filter p l) with (@nil A); [done|]. symmetry. clear Hp.
    induction l as [|x l IH]; cbn; [done|]. rewrite (Hall x) by left. apply IH. intros y Hy.
    apply Hall. by right.
Qed.

(** A field before and after: absent from both, or equal in both. *)
Definition same_field (previous current : option dict) : Prop :=
  match previous, current with
  | None, None => True
  | Some p, Some c => py_eqb (PDict c) (PDict p) = true
  | _, _ => False
  end.

Lemma diff_field_sets_spec previous current :
  fd_any (diff_field_sets previous current) = false
  <-> forall n, same_field (dget n (named previous)) (dget n (named current)).
Proof.
  unfold diff_field_sets. cbn [fd_any]. rewrite !orb_false_iff, !nothing_selected.
  generalize (named previous) (named current). intros p c. split.
  - intros ((Ha & Hr) & Hc) n. unfold same_field.
    destruct (dget n p) as [a|] eqn:Ep, (dget n c) as [b|] eqn:Ec; try done.
    + specialize (Hc n). rewrite elem_of_dkeys in Hc. unfold differs, py_neqb in Hc. rewrite Ep, Ec in Hc.
      apply negb_false_iff, Hc. exists b. by apply dget_Some_in.
    + specialize (Hr n). rewrite elem_of_dkeys in Hr. unfold dhas in Hr. rewrite Ec in Hr.
      discriminate Hr. exists a. by apply dget_Some_in.
    + specialize (Ha n). rewrite elem_of_dkeys in Ha. unfold dhas in Ha. rewrite Ep in Ha.
      discriminate Ha. exists b. by apply dget_Some_in.
  - intros Hs. unfold dhas, differs, py_neqb.
    split; [split|]; intros n Hn; specialize (Hs n); unfold same_field in Hs;
      destruct (dget n p) eqn:Ep, (dget n c) eqn:Ec; try done.
    + by apply dget_None in Ec.
    + by apply dget_None in Ep.
    + by rewrite Hs.
Qed.

(** The fields of two payloads agree. *)
Definition same_schema (previous current : option SchemaPayload) : Prop :=
  forall fields n, fields = sp_input \/ fields = sp_output ->
    same_field (dget n (named (default [] (fields <$> previous)))) (dget n (named (default [] (fields <$> current)))).

Lemma diff_schemas_spec previous current :
  sd_changed (diff_schemas previous current) = false <-> same_schema previous current.
Proof.
  unfold diff_schemas. cbn [sd_changed]. rewrite orb_false_iff, !diff_field_sets_spec. unfold same_schema. split.
  - by intros [Hi Ho] fields n [->| ->].
  - intros Hs. split; intros n; apply Hs; auto.
Qed.

(** ** The operations of the registry *)

Section laws.
Context {store : Type} `{KeyValue store (option SchemaPayload)}.
Variables (reg : registry) (ttl refresh_interval : Z).
Variables action_fields output_fields : ConnectorManifest -> list (string * pyval).
Variable fetch : Z -> string -> schema_answer.
Abbreviation get_schema := (get_action_schema reg ttl action_fields output_fields fetch).
Abbreviation build := (build_schema_payload action_fields output_fields fetch).

Lemma build_typed now m action tenant p : build now m action tenant = Ok p -> well_typed_payload p.
Proof.
  unfold build_schema_payload, static_fields.
  destruct (normalize_fields (default _ (dget action (action_fields m)))) as [si|] eqn:Esi; cbn [mbind res_bind]; [|done].
  destruct (normalize_fields (default _ (dget action (output_fields m)))) as [so|] eqn:Eso; cbn [mbind res_bind]; [|done].
  apply normalize_fields_typed in Esi, Eso.
  destruct (fetch_dynamic_schema _ _ _ _) as [[|kv d]|]; cbn [mbind res_bind].
  - intros [= <-]. split; by apply merge_fields_typed.
  - destruct (normalize_fields (dget_or "input_fields" _ _)) as [di|] eqn:Edi; cbn [mbind res_bind]; [|done].
    destruct (normalize_fields (dget_or "output_fields" _ _)) as [do_|] eqn:Edo; cbn [mbind res_bind]; [|done].
    apply normalize_fields_typed in Edi, Edo. intros [= <-]. split; by apply merge_fields_typed.
  - intros [= <-]. split; by apply merge_fields_typed.
Qed.

Ltac step_em :=
  unfold mret, EM_ret, mbind, EM_bind, modify, gets, lift, raise, read_cache;
  cbn -[cache_key build_schema_payload diff_schemas get_action_schema mjoin].

Lemma get_schema_run c a v t force s :
  get_schema c a v t force s =
  match get_by_name_version reg c v with
  | None => (Raise (LookupError ("Connector '" ++ c ++ "' not found")), s)
  | Some m =>
      let s1 := set_ss_observed (cache_key c a t) (Descriptor c a (Some (m_version m)) t) s in
      match (if force : bool then None else mjoin (kv_get (ss_now s) (cache_key c a t) (ss_redis s))) with
      | Some p => (Ok (mark_cached p), s1)
      | None => match build (ss_now s) m a t with
                | Ok p => (Ok p, set_ss_redis (kv_set (cache_key c a t) (Some p) (ss_now s + ttl)%Z (ss_redis s)) s1)
                | Raise e => (Raise e, s1)
                end
      end
  end.
Proof.
  unfold get_action_schema. destruct (get_by_name_version reg c v) as [m|]; [|done].
  destruct force; cbv zeta.
  - step_em. by destruct (build _ _ _ _).
  - step_em. destruct (mjoin (kv_get _ _ _)); [done|]. step_em. by destruct (build _ _ _ _).
Qed.

(** C11: A schema is well typed: whatever a connector answers (or declares in its manifest), the
    schema that is returned, built or cached, has fields with exactly the five keys, with texts,
    a boolean and a name that is not empty, and no two fields of the same name; and the cache
    keeps this. *)
Theorem payload_well_typed c a v t force s :
  cache_sound s ->
  cache_sound (get_schema c a v t force s).2
  /\ forall p, (get_schema c a v t force s).1 = Ok p -> well_typed_payload p.
Proof.
  intros Hs. rewrite get_schema_run. destruct (get_by_name_version reg c v) as [m|]; [|by split; [exact Hs|]]. cbv zeta.
  destruct (if force then None else _) as [q|] eqn:Eq.
  - split; [exact Hs|]. intros p [= <-]. destruct force; [done|].
    destruct (kv_get _ _ _) as [[q'|]|] eqn:Ek; simplify_eq/=. by apply Hs in Ek.
  - destruct (build _ m a t) as [p|e] eqn:Eb; [|by split; [exact Hs|]]. apply build_typed in Eb.
    split; [|by intros p' [= <-]]. intros now k p'. cbn [set_ss_redis ss_redis snd].
    destruct (decide (k = cache_key c a t)) as [->|Hne].
    + rewrite kv_get_set_eq. destruct (_ <=? now)%Z; [done|]. by intros [= <-].
    + rewrite kv_get_set_ne by done. apply Hs.
Qed.

(** The version asked for is not part of the key: while a schema is cached, it is the answer for
    every version of the connector. *)
Theorem cache_ignores_version c a v1 v2 t p m2 s :
  (0 < ttl)%Z -> get_by_name_version reg c v2 = Some m2 ->
  (get_schema c a v1 t false s).1 = Ok p ->
  (get_schema c a v2 t false (get_schema c a v1 t false s).2).1 = Ok (mark_cached p).
Proof.
  intros Httl Hv2. rewrite (get_schema_run c a v1). destruct (get_by_name_version reg c v1) as [m1|]; [|done].
  cbv zeta. destruct (mjoin (kv_get _ _ _)) as [q|] eqn:Eq.
  - intros [= <-]. rewrite get_schema_run, Hv2. cbn [set_ss_observed ss_now ss_redis snd fst].
    by rewrite Eq.
  - destruct (build _ m1 a t) as [q|e]; [|done]. intros [= <-].
    rewrite get_schema_run, Hv2. cbn [set_ss_observed set_ss_redis ss_now ss_redis snd fst].
    rewrite kv_get_set_eq. destruct (Z.leb_spec (ss_now s + ttl) (ss_now s))%Z; [lia|done].
Qed.

(** A pass reports a change of an observed schema exactly when some field was added, removed or
    is different: comparing with what the cache held, the event is recorded and the mappings of
    the connector dropped when the fields differ, and nothing is recorded when they agree. *)
Theorem refresh_reports_changes k d p s :
  let cached := mjoin (kv_get (ss_now s) k (ss_redis s)) in
  let s' := (refresh_one reg ttl action_fields output_fields fetch (k, d) s).2 in
  (get_schema (de_connector d) (de_action d) (de_version d) (de_tenant d) true s).1 = Ok p ->
  (ss_events s' = ss_events s <-> same_schema cached (Some p))
  /\ (~ same_schema cached (Some p) ->
      ss_events s' = (ss_events s ++ [(d, diff_schemas cached (Some p))])%list
      /\ ss_invalidated s' = (ss_invalidated s ++ [de_connector d])%list).
Proof.
  cbv zeta. intros Hp. rewrite <- diff_schemas_spec. unfold refresh_one, try_catch. step_em. set (old := mjoin _) in *.
  pose proof (get_schema_run (de_connector d) (de_action d) (de_version d) (de_tenant d) true s) as Hrun.
  destruct (get_schema _ _ _ _ true s) as [r s1] eqn:Eg. cbn [fst] in Hp. subst r.
  assert (He : ss_events s1 = ss_events s /\ ss_invalidated s1 = ss_invalidated s).
  { clear Eg. destruct (get_by_name_version _ _ _); [|by simplify_eq]. cbv zeta iota in Hrun.
    by destruct (build _ _ _ _); simplify_eq. }
  destruct He as [He Hi]. step_em.
  destruct (sd_changed (diff_schemas old (Some p))) eqn:Ed; step_em; rewrite He, Hi.
  - split; [|done]. split; [|done]. intros Happ. exfalso.
    apply (f_equal length) in Happ. rewrite length_app in Happ. cbn in Happ. lia.
  - split; [done|]. by intros [].
Qed.

Lemma is_list_of_none m a d now :
  fetch_dynamic_schema fetch now (base_url m) a = Some d -> dget "input_fields" d = Some PNone ->
  forall si so t, static_fields (action_fields m) a = Ok si -> static_fields (output_fields m) a = Ok so ->
  build now m a t = Raise (TypeError "'NoneType' object is not iterable").
Proof.
  intros Hf Hd si so t Hi Ho. unfold build_schema_payload. rewrite Hi, Ho, Hf. cbn [mbind res_bind].
  destruct d as [|kv d]; [done|]. unfold dget_or. by rewrite Hd.
Qed.

(** A connector that answers [null] for the list of its fields ends the pass: the schemas observed
    after its own are not refreshed, and nothing is reported. *)
Theorem malformed_schema_stops_refresh k d rest m answer si so s :
  ss_observed s = (k, d) :: rest ->
  get_by_name_version reg (de_connector d) (de_version d) = Some m ->
  fetch_dynamic_schema fetch (ss_now s) (base_url m) (de_action d) = Some answer ->
  dget "input_fields" answer = Some PNone ->
  static_fields (action_fields m) (de_action d) = Ok si ->
  static_fields (output_fields m) (de_action d) = Ok so ->
  let r := refresh_observed_schemas reg ttl action_fields output_fields fetch s in
  r.1 = Raise (TypeError "'NoneType' object is not iterable")
  /\ ss_redis r.2 = ss_redis s /\ ss_events r.2 = ss_events s.
Proof.
  intros Hobs Hm Hf Hd Hi Ho. cbv zeta. unfold refresh_observed_schemas. step_em. rewrite Hobs.
  cbn [for_each]. step_em. unfold refresh_one, try_catch. step_em. rewrite get_schema_run, Hm. cbv zeta iota.
  by rewrite (is_list_of_none m (de_action d) answer (ss_now s) Hf Hd si so _ Hi Ho).
Qed.

(** The refresher sleeps at least its interval and at most 32 times it, however many passes
    fail, doubling up to the fifth failure; after a pass that succeeds it sleeps its interval. *)
Theorem backoff_bounds ok failures :
  (0 < refresh_interval)%Z -> (0 <= failures)%Z ->
  let '(failures', sleep) := after_pass refresh_interval ok failures in
  (0 <= failures')%Z /\ (refresh_interval <= sleep <= refresh_interval * 32)%Z
  /\ (ok = true -> failures' = 0%Z /\ sleep = refresh_interval)
  /\ (ok = false -> failures <= 4 -> sleep = refresh_interval * 2 ^ (failures + 1))%Z.
Proof.
  intros Hr Hf. unfold after_pass. destruct ok; cbv zeta.
  - cbn. repeat split; try lia; done.
  - destruct (Z.ltb_spec 0 (failures + 1))%Z as [_|]; [|lia].
    assert (Hp : (1 <= 2 ^ Z.min (failures + 1) 5 <= 32)%Z).
    { split; [apply (Z.pow_le_mono_r 2 0); lia|]. apply (Z.pow_le_mono_r 2 _ 5); lia. }
    split; [lia|]. split; [nia|]. split; [done|]. intros _ Hf4.
    rewrite (Z.min_l (failures + 1) 5) in * by lia. nia.
Qed.

End laws.

(** ** Witnesses *)

Definition demo_registry : registry := discover [demo_manifest "2.0.0"; demo_manifest "10.1.0"].
Definition demo_answer (now : Z) (url : string) : schema_answer :=
  SchemaResponse 200 (Ok (PDict [("input_fields",
    PList [PDict [("field", PStr "weight"); ("type", PStr (if (now <? 100)%Z then "number" else "string"))]])])).
Definition demo_schema_state (now : Z) : SchemaState (gmap string (option SchemaPayload * Z)) :=
  MkSchemaState [] ∅ now [] [].
Definition demo_fields (m : ConnectorManifest) : list (string * pyval) :=
  [("shipment.create", PList [PDict [("field", PStr "weight"); ("label", PStr "Weight (kg)")]; PStr "?"])].

Lemma payload_well_typed_witness :
  let r := get_action_schema demo_registry 3600 demo_fields (fun _ => []) demo_answer
             "dhl" "shipment.create" None None false (demo_schema_state 0) in
  map field_key (default [] (match r.1 with Ok p => Some (sp_input p) | Raise _ => None end)) = ["weight"]
  /\ cache_sound r.2.
Proof.
  split; [by vm_compute|].
  refine (proj1 (payload_well_typed demo_registry 3600 demo_fields (fun _ => []) demo_answer
           "dhl" "shipment.create" None None false (demo_schema_state 0) _)).
  intros now k p. cbn. unfold map_get. by rewrite lookup_empty.
Defined.

Definition demo_later : SchemaState (gmap string (option SchemaPayload * Z)) :=
  let s := (get_action_schema demo_registry 3600 demo_fields (fun _ => []) demo_answer
              "dhl" "shipment.create" None None false (demo_schema_state 0)).2 in
  MkSchemaState (ss_observed s) (ss_redis s) 200 [] [].
Definition demo_fresh : SchemaPayload :=
  MkSchemaPayload "dhl" "10.1.0" None "shipment.create" "merged" false
    [make_field "weight" "weight" "string" false PNone] [].

Lemma refresh_reports_changes_witness :
  let kd := ("schema:dhl:shipment.create:global",
             Descriptor "dhl" "shipment.create" (Some "10.1.0") None) in
  map (fun e => fd_changed (sd_input e.2))
    (ss_events (refresh_one demo_registry 3600 demo_fields (fun _ => []) demo_answer kd demo_later).2)
  = [["weight"]].
Proof.
  cbv zeta.
  destruct (refresh_reports_changes demo_registry 3600 demo_fields (fun _ => []) demo_answer
    "schema:dhl:shipment.create:global" (Descriptor "dhl" "shipment.create" (Some "10.1.0") None)
    demo_fresh demo_later) as [_ Hch].
  - by vm_compute.
  - destruct Hch as [-> _]; [|by vm_compute].
    intros Hs. apply diff_schemas_spec in Hs. by vm_compute in Hs.
Defined.

Lemma backoff_bounds_witness :
  after_pass 300 false 2 = (3, 2400)%Z /\ (300 <= 2400 <= 300 * 32)%Z.
Proof.
  split; [by vm_compute|]. pose proof (backoff_bounds 300 false 2 ltac:(lia) ltac:(lia)) as Hb.
  vm_compute after_pass in Hb. apply Hb.
Defined.
