(* ===== verification/Instances.v ===== *)
(** The connectors of a tenant ([platform/api/gateway.py]): activating and deactivating the
    versions of a connector, the version an action uses, the catalogue with its health, the
    distribution of credentials to the connectors, and the proxies to their pollers; on
    [Registry], [Health], [Vault] and [AuditTrail].  A statement that asks for the tenant reads
    the same rows under the policies and without them. *)

From stdpp Require Import relations.
From Stdlib Require Import QArith Qminmax.
From S2P Require Import Prelude PyText PyValue Effects Registry Dispatcher AuditTrail Vault Webhooks Auth Health Tenants.

Local Open Scope string_scope.

(** ** Activated versions *)

Record connector_instance := ConnectorInstance {
  ci_id : string;
  ci_tenant : string;
  ci_connector : string;
  ci_version : string;
  ci_category : string;
  ci_display : string;
  ci_enabled : bool;
  ci_config : dict;
  ci_created : Z
}.

(** The body of an activation. *)
Record ConnectorInstanceCreate := MkInstanceCreate {
  ic_connector : string;
  ic_version : string;
  ic_category : string;
  ic_display : string;
  ic_config : dict
}.

Record inst_db := InstDb { id_rows : list connector_instance; id_audit : list AuditLog }.

(** The columns of the unique constraint. *)
Definition ci_key (i : connector_instance) : string * string * string :=
  (ci_tenant i, ci_connector i, ci_version i).

(** [body.display_name or existing.display_name], and so for the configuration. *)
Definition reactivated (body : ConnectorInstanceCreate) (i : connector_instance) : connector_instance :=
  ConnectorInstance (ci_id i) (ci_tenant i) (ci_connector i) (ci_version i) (ci_category i)
    (if String.eqb (ic_display body) "" then ci_display i else ic_display body) true
    (match ic_config body with [] => ci_config i | config => config end) (ci_created i).

Definition created_instance (tenant : Tenant) (body : ConnectorInstanceCreate) (id : string) (now : Z)
  : connector_instance :=
  ConnectorInstance id (tn_id tenant) (ic_connector body) (ic_version body) (ic_category body)
    (if String.eqb (ic_display body) "" then ic_connector body else ic_display body) true (ic_config body) now.

Definition instance_audit (tenant : Tenant) (i : connector_instance) (action : string) (created : bool)
    (ip : option string) (now : Z) : AuditLog :=
  let value := Some (AuditFields [("connector_name", PStr (ci_connector i)); ("version", PStr (ci_version i))]) in
  AuditEntry (tn_id tenant) (Some (tn_slug tenant)) "connector_instance" (ci_id i) action
    (if created then None else value) (if created then value else None) ip now.

(** [activate_connector]; [id] and [now] are drawn by the database. *)
Definition activate_connector (tenant : Tenant) (body : ConnectorInstanceCreate) (ip : option string)
    (id : string) (now : Z) (db : inst_db) : res (connector_instance * inst_db) :=
  existing ← scalar_one_or_none
    (List.filter (has_key ci_key (tn_id tenant, ic_connector body, ic_version body)) (id_rows db));
  let '(instance, rows, audit_action) :=
    match existing with
    | Some i => (reactivated body i, update_rows (has_key ci_id (ci_id i)) (reactivated body) (id_rows db), "reactivate")
    | None => let i := created_instance tenant body id now in (i, (id_rows db ++ [i])%list, "create")
    end in
  Ok (instance, InstDb rows (id_audit db ++ [instance_audit tenant instance audit_action true ip now])).

(** [list_connector_instances]. *)
Definition list_connector_instances (tenant : Tenant) (db : inst_db) : list connector_instance :=
  List.filter (fun i => String.eqb (ci_tenant i) (tn_id tenant)) (id_rows db).

(** [deactivate_connector]. *)
Definition deactivate_connector (tenant : Tenant) (id : string) (ip : option string) (now : Z) (db : inst_db)
  : res inst_db :=
  row ← scalar_one_or_none
    (List.filter (fun i => String.eqb (ci_id i) id && String.eqb (ci_tenant i) (tn_id tenant)) (id_rows db));
  match row with
  | None => Raise (http_exception 404 "Connector instance not found")
  | Some i => Ok (InstDb (delete_rows (has_key ci_id (ci_id i)) (id_rows db))
                    (id_audit db ++ [instance_audit tenant i "delete" false ip now]))
  end.

(** [_resolve_connector_version]: the version of the enabled instance created last. *)
Definition usable (tenant connector : string) (i : connector_instance) : bool :=
  String.eqb (ci_tenant i) tenant && String.eqb (ci_connector i) connector && ci_enabled i.
Definition resolve_connector_version (tenant connector : string) (db : inst_db) : option string :=
  ci_version <$> hd_error (stable_sort (fun a b => (ci_created b <? ci_created a)%Z)
                             (List.filter (usable tenant connector) (id_rows db))).

(** What the health checks do to a row. *)
Definition disable_instance (id : string) (db : inst_db) : inst_db :=
  InstDb (update_rows (has_key ci_id id)
            (fun i => ConnectorInstance (ci_id i) (ci_tenant i) (ci_connector i) (ci_version i) (ci_category i)
                        (ci_display i) false (ci_config i) (ci_created i)) (id_rows db)) (id_audit db).
(** The columns they read. *)
Definition health_view (db : inst_db) : list instance :=
  map (fun i => Instance (ci_id i) (ci_connector i) (ci_version i) (ci_enabled i)) (id_rows db).

(** ** The catalogue *)

Record ConnectorHealthSummary := HealthSummary {
  hs_status : string;
  hs_last_check : Z;
  hs_failures : Z;
  hs_last_error : option string;
  hs_error_rate : Q
}.

(** [max(l, key=f)]: the first of the greatest. *)
Definition max_by {A} (f : A -> Z) (x : A) (l : list A) : A :=
  fold_left (fun best y => if (f best <? f y)%Z then y else best) l x.

Definition health_rank (h : ConnectorHealthStatus) : Z :=
  if String.eqb (h_status h) "healthy" then 3
  else if String.eqb (h_status h) "degraded" then 2
  else if String.eqb (h_status h) "unhealthy" then 1 else 0.

(** [_resolve_connector_health_summary] on the statuses of a connector: the status of the best
    instance with the worst counters. *)
Definition health_summary (l : list ConnectorHealthStatus) : option ConnectorHealthSummary :=
  match l with
  | [] => None
  | h :: l' =>
      let best := max_by health_rank h l' in
      Some (HealthSummary (h_status best) (h_last_check best)
              (fold_left Z.max (map h_failures l') (h_failures h)) (h_last_error best)
              (fold_left Qmax (map h_error_rate_5m l') (h_error_rate_5m h)))
  end.

Section catalogue.
Variable reg : registry.
Variable monitor_ : monitor.

Definition resolve_connector_health_summary (now : Z) (name : string) : option ConnectorHealthSummary :=
  health_summary (get_statuses_by_name now name monitor_).

(** [list_connectors] and [get_connector]: the manifests with their health. *)
Definition build_connector_response (now : Z) (m : ConnectorManifest)
  : ConnectorManifest * option ConnectorHealthSummary :=
  (m, resolve_connector_health_summary now (m_name m)).
Definition list_connectors (now : Z) (q : criteria) : list (ConnectorManifest * option ConnectorHealthSummary) :=
  map (build_connector_response now) (search reg q).
Definition get_connector (now : Z) (category name : string)
  : res (ConnectorManifest * option ConnectorHealthSummary) :=
  match get_latest reg category name with
  | None => Raise (http_exception 404 ("Connector " ++ category ++ "/" ++ name ++ " not found"))
  | Some m => Ok (build_connector_response now m)
  end.

(** [get_connector_health]. *)
Definition get_connector_health (now : Z) (name : string) : res (list ConnectorHealthStatus) :=
  match get_statuses_by_name now name monitor_ with
  | [] =>
      match get_by_name reg name with
      | [] => Raise (http_exception 404 ("Connector '" ++ name ++ "' not found"))
      | m :: _ => Ok [HealthStatus name name "unknown" 0 0 (Some "No health check data yet") 0 (m_category m)]
      end
  | l => Ok l
  end.
End catalogue.

(** ** Credentials for the connectors *)

Section distribution.
Context `{Cipher}.
Variables (raw_key internal_secret : string).

(** The accounts of one tenant; a set that cannot be read is logged and left out. *)
Definition tenant_accounts (connector : string) (v : VaultDB) (tenant : Tenant)
  : list (string * string * list (string * string)) :=
  match (list_credential_names (tn_id tenant) connector v).1 with
  | Raise _ => []
  | Ok names =>
      omap (M := list) (fun name =>
        match (retrieve_all raw_key (tn_id tenant) connector name v).1 with
        | Ok ((_ :: _) as creds) => Some (tn_id tenant, name, creds)
        | _ => None
        end) names
  end.

(** [internal_get_connector_credentials]: [caller] is the header [X-Connector-Name]. *)
Definition internal_get_connector_credentials (provided_secret caller : option string) (connector : string)
    (tenants : list Tenant) (v : VaultDB) : res (list (string * string * list (string * string))) :=
  match (require_internal_secret internal_secret provided_secret tt).1 with
  | Raise e => Raise e
  | Ok _ =>
      if String.eqb (default "" caller) "" then Raise (http_exception 400 "X-Connector-Name header is required")
      else if negb (String.eqb (default "" caller) connector)
      then Raise (http_exception 403 "Connector may only retrieve its own credentials")
      else Ok (List.concat (map (tenant_accounts connector v) (List.filter tn_active tenants)))
  end.
End distribution.

(** ** The proxies to the pollers *)

Section proxies.
Variable reg : registry.
(** The status and the JSON of a connector's response to a method and a URL. *)
Variable ask : string -> string -> res (Z * res pyval).

(** The first path that is answered below 400 with JSON. *)
Fixpoint first_answer (method base detail : string) (paths : list string) : res pyval :=
  match paths with
  | [] => Raise (http_exception 502 detail)
  | path :: paths' =>
      match ask method (base ++ path) with
      | Ok (code, Ok v) => if (code <? 400)%Z then Ok v else first_answer method base detail paths'
      | _ => first_answer method base detail paths'
      end
  end.

Definition internal_connector_poller_status (connector : string) : res pyval :=
  base ← resolve_service_url connector (Some reg) None;
  first_answer "GET" base "Cannot reach connector poller status" ["/debug/poller"; "/poller/status"].
Definition internal_connector_poller_reset (connector : string) : res pyval :=
  base ← resolve_service_url connector (Some reg) None;
  match ask "POST" (base ++ "/poller/reset") with
  | Ok (_, Ok v) => Ok v
  | _ => Raise (http_exception 502 "Cannot reach connector poller")
  end.
Definition internal_connector_poller_poll_now (connector : string) : res pyval :=
  base ← resolve_service_url connector (Some reg) None;
  first_answer "POST" base "Cannot reach connector poll-now" ["/debug/poll-now"; "/poller/poll-now"].
Definition internal_connector_poller_diagnose (connector : string) : res pyval :=
  base ← resolve_service_url connector (Some reg) None;
  first_answer "GET" base "Cannot reach connector diagnose" ["/poller/diagnose"; "/debug/diagnose"].
End proxies.

(** ** Facts *)

Record instances_ok (db : inst_db) : Prop := {
  io_ids : unique_rows ci_id (id_rows db);
  io_keys : unique_rows ci_key (id_rows db)
}.

(** The changes of the table; an activation draws a new identifier. *)
Inductive instances_step (db : inst_db) : inst_db -> Prop :=
  | step_activate tenant body ip id now i db' :
      id ∉ map ci_id (id_rows db) -> activate_connector tenant body ip id now db = Ok (i, db') -> instances_step db db'
  | step_deactivate tenant id ip now db' :
      deactivate_connector tenant id ip now db = Ok db' -> instances_step db db'
  | step_disable id : instances_step db (disable_instance id db).

(** What an activation gives: the row, and that it is the only one with its key. *)
Lemma activate_spec tenant body ip id now db i db' :
  instances_ok db -> id ∉ map ci_id (id_rows db) -> activate_connector tenant body ip id now db = Ok (i, db') ->
  instances_ok db' /\ i ∈ id_rows db' /\ ci_enabled i = true
  /\ ci_key i = (tn_id tenant, ic_connector body, ic_version body).
Proof.
  intros [Hi Hk] Hid. unfold activate_connector. set (key := (tn_id tenant, ic_connector body, ic_version body)).
  rewrite scalar_unique by done. destruct (List.find _ (id_rows db)) as [i0|] eqn:Ef; intros [= <- <-].
  - apply find_key_Some in Ef as [Ek Hin]. split; [|split; [|by split]].
    + split; cbn [id_rows]; by apply unique_update.
    + cbn [id_rows]. unfold update_rows. apply list_elem_of_In, in_map_iff. exists i0.
      rewrite (proj2 (has_key_true ci_id (ci_id i0) i0) eq_refl). split; [done|by apply list_elem_of_In].
  - apply find_key_None in Ef. split; [|split; [|done]].
    + split; cbn [id_rows]; by apply unique_snoc.
    + cbn [id_rows]. apply elem_of_app. right. by apply list_elem_of_singleton.
Qed.

(** Whatever is activated, deactivated or disabled, in any order, a version of a connector is
    activated at most once for a tenant, and identifiers stay distinct. *)
Theorem instances_stay_ok db db' : rtc instances_step db db' -> instances_ok db -> instances_ok db'.
Proof.
  induction 1 as [|db db1 db' Hs _ IH]; [done|]. intros Hok. apply IH.
  destruct Hs as [tenant body ip id now i db1 Hid H|tenant id ip now db1 H|id].
  - by apply (activate_spec tenant body ip id now db i db1).
  - unfold deactivate_connector in H. bind_ok. destruct x as [i|]; [|done]. injection H as <-.
    destruct Hok. split; by apply unique_delete.
  - destruct Hok. split; by apply unique_update.
Qed.

Lemma resolve_spec tenant connector db :
  match resolve_connector_version tenant connector db with
  | Some v => exists i, i ∈ id_rows db /\ usable tenant connector i = true /\ ci_version i = v
      /\ forall j, j ∈ id_rows db -> usable tenant connector j = true -> (ci_created j <= ci_created i)%Z
  | None => forall j, j ∈ id_rows db -> usable tenant connector j = false
  end.
Proof.
  unfold resolve_connector_version. set (l := List.filter _ _).
  assert (Hl : forall j, j ∈ l <-> j ∈ id_rows db /\ usable tenant connector j = true).
  { intros j. unfold l. by rewrite !list_elem_of_In, filter_In. }
  set (newer := fun a b => (ci_created b <? ci_created a)%Z).
  destruct (stable_sort newer l) as [|i m] eqn:E; cbn.
  - assert (l = []) as El. { apply Permutation_nil. rewrite <- E. apply stable_sort_perm. }
    intros j Hj. destruct (usable tenant connector j) eqn:Eu; [|done].
    assert (j ∈ l) as H by by apply Hl. rewrite El in H. by apply not_elem_of_nil in H.
  - exists i. assert (Hi : i ∈ l). { rewrite <- (stable_sort_perm newer l), E. left. }
    apply Hl in Hi as [Hi Hu]. repeat split; [done..|]. intros j Hj Hju.
    assert (newer j i = false) as Hn.
    { apply (stable_sort_hd newer l i m); [| |done|by apply Hl].
      - unfold newer. intros a b _ _ H. apply Z.ltb_lt in H. apply Z.ltb_ge. lia.
      - unfold newer. intros a b c _ _ _ H1%Z.ltb_ge H2%Z.ltb_ge. apply Z.ltb_ge. lia. }
    unfold newer in Hn. apply Z.ltb_ge in Hn. lia.
Qed.

(** An activated version is the one the actions of the tenant use exactly when no enabled
    version of the connector was created after it: activating an older version again does not
    bring it back while a newer one is enabled. *)
Theorem activated_version_used tenant body ip id now db i db' :
  instances_ok db -> id ∉ map ci_id (id_rows db) -> activate_connector tenant body ip id now db = Ok (i, db') ->
  (forall j, j ∈ id_rows db' -> ci_created j = ci_created i -> j = i) ->
  resolve_connector_version (tn_id tenant) (ic_connector body) db' = Some (ic_version body)
  <-> forall j, j ∈ id_rows db' -> usable (tn_id tenant) (ic_connector body) j = true -> (ci_created j <= ci_created i)%Z.
Proof.
  intros Hok Hid Ha Hties. apply activate_spec in Ha as ([_ Hkeys] & Hi & He & Hk); [|done..].
  injection Hk as Ht Hc Hv.
  assert (Hu : usable (tn_id tenant) (ic_connector body) i = true).
  { unfold usable. by rewrite Ht, Hc, He, !String.eqb_refl. }
  pose proof (resolve_spec (tn_id tenant) (ic_connector body) db') as Hr.
  destruct (resolve_connector_version _ _ _) as [v|]; [|by rewrite (Hr i Hi) in Hu].
  destruct Hr as (r & Hr & Hru & <- & Hmax). split.
  - intros [= Ever]. enough (r = i) as -> by done. apply (unique_inj ci_key (id_rows db')); [done..|].
    unfold usable in Hru. apply andb_true_iff in Hru as [[H1%String.eqb_eq H2%String.eqb_eq]%andb_true_iff _].
    unfold ci_key. congruence.
  - intros Hall. rewrite (Hties r Hr); [by rewrite Hv|]. specialize (Hall r Hr Hru). specialize (Hmax i Hi Hu). lia.
Qed.

(** The health checks disable a row as [Health] says, and a disabled row is used no more. *)
Lemma health_view_disable id db : health_view (disable_instance id db) = map (disable id) (health_view db).
Proof.
  unfold health_view, disable_instance, update_rows. cbn [id_rows]. rewrite !map_map. apply map_ext. intros i.
  unfold disable, has_key. cbn [in_id]. destruct (String.eqb_spec (ci_id i) id); by case_bool_decide.
Qed.

Lemma disabled_not_usable tenant connector id db i :
  i ∈ id_rows (disable_instance id db) -> ci_id i = id -> usable tenant connector i = false.
Proof.
  unfold disable_instance, update_rows. cbn [id_rows]. intros (x & <- & _)%list_elem_of_In%in_map_iff.
  destruct (has_key ci_id id x) eqn:E; cbn [ci_id ci_enabled]; intros Hid.
  - unfold usable. cbn [ci_tenant ci_connector ci_enabled]. apply andb_false_r.
  - apply (has_key_true ci_id) in Hid. congruence.
Qed.

Section distribution_facts.
Context `{Cipher}.
Variables (raw_key internal_secret : string).

Lemma credential_names_spec tenant connector name v names :
  (list_credential_names tenant connector v).1 = Ok names ->
  name ∈ names <-> exists c, c ∈ credentials v /\ cr_tenant c = tenant /\ cr_connector c = connector /\ cr_name c = name.
Proof.
  unfold list_credential_names, gets. cbn [fst]. intros [= <-]. rewrite stable_sort_perm, elem_of_remove_dups.
  rewrite list_elem_of_In, in_map_iff. split.
  - intros (c & <- & [Hin [Ht%String.eqb_eq Hc%String.eqb_eq]%andb_true_iff]%filter_In). exists c.
    split; [by apply list_elem_of_In|done].
  - intros (c & Hin & <- & <- & <-). exists c. split; [done|]. apply filter_In. rewrite !String.eqb_refl.
    split; [by apply list_elem_of_In|done].
Qed.

(** C24: With the secret, a connector gets the credential sets stored for itself and for active
    tenants that can be decrypted, all of them and no others; any other caller gets an error. *)
Theorem distribution_exact provided caller connector tenants v accounts :
  internal_get_connector_credentials raw_key internal_secret provided caller connector tenants v = Ok accounts ->
  provided = Some internal_secret /\ caller = Some connector
  /\ forall tid name creds,
      (tid, name, creds) ∈ accounts <->
      (exists t, t ∈ tenants /\ tn_active t = true /\ tn_id t = tid)
      /\ (exists c, c ∈ credentials v /\ cr_tenant c = tid /\ cr_connector c = connector /\ cr_name c = name)
      /\ (retrieve_all raw_key tid connector name v).1 = Ok creds /\ creds <> [].
Proof.
  unfold internal_get_connector_credentials, require_internal_secret. intros Hg.
  destruct (String.eqb_spec internal_secret "") as [|Hne]; [done|].
  unfold mbind, EM_bind, lift in Hg.
  destruct (compare_digest (default "" provided) internal_secret) as [[]|] eqn:Hp; [|done..].
  apply compare_digest_equal in Hp. cbn [fst mret EM_ret] in Hg.
  destruct (String.eqb_spec (default "" caller) "") as [|Hc]; [done|].
  destruct (String.eqb_spec (default "" caller) connector) as [Hcc|]; [|done]. injection Hg as <-.
  destruct provided as [p|]; [|done]. cbn in Hp. destruct caller as [c|]; [|done]. cbn in Hcc. subst.
  split; [done|]. split; [done|]. intros tid name creds. rewrite list_elem_of_In, in_concat. split.
  - intros (l & (t & <- & [Ht Ha]%filter_In)%in_map_iff & Hin). unfold tenant_accounts in Hin.
    destruct (list_credential_names _ _ v).1 as [names|] eqn:En; [|done].
    apply list_elem_of_In, list_elem_of_omap in Hin as (n & Hn & Hr).
    destruct (retrieve_all raw_key (tn_id t) connector n v).1 as [[|kv creds']|] eqn:Er; [done| |done].
    injection Hr as <- <- <-. split; [exists t; split; [by apply list_elem_of_In|done]|].
    split; [by apply (credential_names_spec _ _ _ _ _ En)|done].
  - intros ((t & Ht & Ha & <-) & Hcr & Hr & Hne'). eexists. split.
    { apply in_map_iff. exists t. split; [done|]. apply filter_In. split; [by apply list_elem_of_In|done]. }
    unfold tenant_accounts. destruct (list_credential_names _ _ v).1 as [names|] eqn:En; [|by unfold list_credential_names, gets in En].
    apply list_elem_of_In, list_elem_of_omap. exists name. split; [by apply (credential_names_spec _ _ _ _ _ En)|].
    rewrite Hr. by destruct creds.
Qed.
End distribution_facts.

(** ** Examples *)

Definition acme_tenant : Tenant := MkTenant "t1" "acme" true.
Definition dhl (version : string) : ConnectorInstanceCreate := MkInstanceCreate "dhl" version "courier" "" [].
Definition no_instances : inst_db := InstDb [] [].
Definition two_versions : inst_db :=
  match activate_connector acme_tenant (dhl "1.0.0") None "i1" 10 no_instances with
  | Ok (_, db) => match activate_connector acme_tenant (dhl "2.0.0") None "i2" 20 db with Ok (_, db') => db' | _ => db end
  | _ => no_instances
  end.

Lemma two_versions_ok : instances_ok two_versions.
Proof. split; by_deciding. Qed.

Lemma instances_stay_ok_witness :
  resolve_connector_version "t1" "dhl" (disable_instance "i2" two_versions) = Some "1.0.0"
  /\ instances_ok (disable_instance "i2" two_versions).
Proof.
  split; [by vm_compute|]. apply (instances_stay_ok two_versions); [|exact two_versions_ok].
  apply rtc_once. constructor.
Defined.

(** Version 1.0.0 is activated again, and version 2.0.0 goes on being used. *)
Lemma activated_version_used_witness :
  exists i db', activate_connector acme_tenant (dhl "1.0.0") None "i3" 30 two_versions = Ok (i, db')
    /\ resolve_connector_version "t1" "dhl" db' <> Some "1.0.0".
Proof.
  destruct (activate_connector acme_tenant (dhl "1.0.0") None "i3" 30 two_versions) as [[i db']|] eqn:E;
    [|by vm_compute in E].
  exists i, db'. split; [done|]. intros Hr.
  assert (Hid : "i3" ∉ map ci_id (id_rows two_versions)) by by_deciding.
  pose proof (activated_version_used acme_tenant (dhl "1.0.0") None "i3" 30 two_versions i db' two_versions_ok Hid E) as Ht.
  vm_compute in E. injection E as <- <-. destruct Ht as [Ht _].
  - intros j Hj. apply elem_of_cons in Hj as [->|Hj]; [done|]. by apply list_elem_of_singleton in Hj as ->.
  - specialize (Ht Hr (ConnectorInstance "i2" "t1" "dhl" "2.0.0" "courier" "dhl" true [] 20) ltac:(right; left) eq_refl).
    by vm_compute in Ht.
Defined.

Lemma distribution_exact_witness :
  match internal_get_connector_credentials "key" "secret" (Some "secret") (Some "allegro") "allegro"
          [MkTenant "t0" "off" false; MkTenant "t1" "acme" true] demo_vault with
  | Ok accounts => ("t1", "default", [("client_id", "abc")]) ∈ accounts
  | Raise _ => False
  end.
Proof.
  destruct (internal_get_connector_credentials _ _ _ _ _ _ _) as [accounts|] eqn:E; [|by vm_compute in E].
  apply (distribution_exact "key" "secret") in E as (_ & _ & Hd). apply Hd.
  split; [exists (MkTenant "t1" "acme" true); split; [right; left|done]|]. split; [|by vm_compute].
  eexists. split; [left|]. by vm_compute.
Defined.

Example poller_falls_back :
  internal_connector_poller_status [] (fun _ url =>
    if ends_with "/debug/poller" url then Ok (404%Z, Ok PNone) else Ok (200%Z, Ok (PStr url))) "dhl"
  = Ok (PStr "http://connector-dhl:8000/poller/status").
Proof. by vm_compute. Qed.
