(* ===== verification/CredentialValidator.v ===== *)
(** The validation of credentials ([platform/api/credential_validator.py] and the endpoint
    [validate_credentials] of [platform/api/gateway.py]), driven by the section
    [credential_validation] of a manifest.  The resolver of host names, the answers of HTTP
    requests and of mail servers are parameters; what is contacted is logged in the state. *)

From S2P Require Import Prelude PyText PyValue Effects IpAddress Urls Registry Vault CredentialsApi Auth Instances.

Local Open Scope string_scope.

Definition BLOCKED_NETWORKS : list ip_net :=
  omap (M := list) ip_network
    ["10.0.0.0/8"; "172.16.0.0/12"; "192.168.0.0/16"; "127.0.0.0/8"; "169.254.0.0/16"; "::1/128"; "fc00::/7"; "fe80::/10"].

(** What the validator answers: the time of the response is left out. *)
Record validation := Validation { vl_status : string; vl_message : string; vl_details : list (string * string) }.
Definition refused (message : string) : validation := Validation "failed" message [].
Definition success (message : string) : validation := Validation "success" message [].

Record http_request := HttpRequest {
  hr_method : pyval;
  hr_url : string;
  hr_headers : option dict;
  hr_data : option dict;
  hr_json : option dict;
  hr_auth : option (pyval * pyval);
  hr_params : option dict
}.
Inductive http_answer := Answered (code : Z) | ConnectError | TimeoutException | HttpFailure (message : string).

(** The outcome of a test of a mail server, by the classes of its [except] clauses. *)
Inductive mail_answer := MailOk | MailRefused (message : string) | MailUnreachable (message : string) | MailError (message : string).

(** What was contacted. *)
Inductive contact :=
  | Http (r : http_request)
  | Imap (host : string) (port : Z)
  | Smtp (host : string) (port : Z).

Definition credentials_t : Type := list (string * string).
Definition cred (k d : string) (creds : credentials_t) : string := default d (dget k creds).

(** ** Addresses *)

Section validator.
(** The addresses of a host name, in the order of [getaddrinfo]; it may raise [gaierror]. *)
Variable getaddrinfo : string -> res (list string).
Variable http : http_request -> http_answer.
(** The login on a mail server: host, port, TLS, login, password. *)
Variables imap smtp : string -> Z -> bool -> string -> string -> mail_answer.

Definition blocked (a : ip_addr) : bool := existsb (in_network a) BLOCKED_NETWORKS.

(** The loop over the addresses: the first blocked one ends it. *)
Fixpoint addresses_safe (infos : list string) : res bool :=
  match infos with
  | [] => Ok true
  | info :: infos' =>
      match ip_address info with
      | None => Raise (ValueError (str_repr info ++ " does not appear to be an IPv4 or IPv6 address"))
      | Some addr => if blocked addr then Ok false else addresses_safe infos'
      end
  end.

(** [_is_url_safe].  The module [socket] is imported in the [try], so that a [ValueError]
    raised before finds no [socket] in the [except] clause. *)
Definition is_url_safe (url : string) : res bool :=
  match urlparse url with
  | Raise (ValueError _) => Raise (OtherError "UnboundLocalError")
  | Raise e => Raise e
  | Ok parsed =>
      match hostname parsed with
      | None => Ok false
      | Some host =>
          if existsb (String.eqb host) ["localhost"; "metadata.google.internal"] then Ok false
          else match (infos ← getaddrinfo host; addresses_safe infos) with
               | Raise (ValueError _) => Ok false
               | Raise (OtherError m) => if String.eqb m "gaierror" then Ok false else Raise (OtherError m)
               | Raise e => Raise e
               | Ok b => Ok b
               end
      end
  end.

(** ** Templates *)

(** [_missing_fields]. *)
Definition missing_fields (creds : credentials_t) (fields : list string) (service_name : string) : option validation :=
  match List.filter (fun f => String.eqb (cred f "" creds) "") fields with
  | [] => None
  | missing => Some (refused ("Missing required " ++ service_name ++ " credentials: " ++ str_join ", " missing))
  end.

(** The values that are substituted: the defaults, then the credentials that are not empty. *)
Definition template_values (creds : credentials_t) (defaults : dict) : dict :=
  dmerge defaults (map (fun kv => (kv.1, PStr kv.2)) (List.filter (fun kv => negb (String.eqb kv.2 "")) creds)).

(** [_resolve_template]: one placeholder after the other. *)
Definition resolve_template (template : string) (creds : credentials_t) (defaults : dict) : res string :=
  foldR (fun result kv =>
    match kv.2 with
    | PStr v => Ok (py_replace result ("{" ++ kv.1 ++ "}") v)
    | v => Raise (TypeError ("replace() argument 2 must be str, not " ++ type_name v))
    end) template (template_values creds defaults).

(** [_resolve_dict_template], on a value of the template. *)
Fixpoint resolve_value (creds : credentials_t) (defaults : dict) (v : pyval) : res pyval :=
  match v with
  | PStr s => t ← resolve_template s creds defaults; Ok (PStr t)
  | PDict d =>
      d' ← (fix entries (l : dict) : res dict :=
              match l with
              | [] => Ok []
              | (k, x) :: l' => x' ← resolve_value creds defaults x; rest ← entries l'; Ok ((k, x') :: rest)
              end) d;
      Ok (PDict d')
  | _ => Ok v
  end.

(** [_deduplicate_url_path]: [n] is the number of segments, [length] the next length tried. *)
Fixpoint dedup_segments (k : nat) (length : nat) (segments : list string) : option (list string) :=
  match k with
  | O => None
  | S k' =>
      let n := List.length segments in
      if bool_decide (drop (n - length) segments = take length (drop (n - 2 * length) segments))
      then Some (take (n - length) segments)
      else dedup_segments k' (S length) segments
  end.
Definition deduplicate_url_path (url : string) : res string :=
  parsed ← urlparse url;
  if (String.length (u_path parsed) <? 2)%nat then Ok url
  else
    let segments := split_char "/" (u_path parsed) in
    match dedup_segments (List.length segments / 2) 1 segments with
    | Some deduped => Ok (urlunparse (set_path (str_join "/" deduped) parsed))
    | None => Ok url
    end.

Definition yes (s : string) : bool := existsb (String.eqb (py_lower s)) ["true"; "1"; "yes"].

(** [_resolve_sandbox_url]. *)
Definition resolve_sandbox_url (test_cfg : dict) (creds : credentials_t) (defaults : dict) : res dict :=
  let sandbox := dget_or "sandbox" PNone test_cfg in
  if negb (truthy sandbox) then Ok defaults
  else
    sandbox_cfg ← dict_method "get" sandbox;
    flag ← match dget_or "flag" (PStr "sandbox_mode") sandbox_cfg with
           | PStr f => Ok (cred f "false" creds)
           | (PList _ | PDict _) as v => Raise (unhashable v)
           | _ => Ok "false"
           end;
    let key := if yes flag then "base_url" else "production_url" in
    Ok (match dget key sandbox_cfg with Some v => dset "base_url" v defaults | None => defaults end).

(** ** Requests *)

Abbreviation VL := (EM (list contact)).
Definition contacted (c : contact) : VL unit := modify (fun log => log ++ [c])%list.

(** [_http_credential_check]; a status that is expected is the only success. *)
Definition http_credential_check (r : http_request) (service_name success_msg : string) (success_status : pyval)
  : VL validation :=
  let success_msg := if String.eqb success_msg "" then service_name ++ " authentication successful" else success_msg in
  _ ← contacted (Http r);
  mret match http r with
       | Answered code =>
           match success_status with
           | PNone =>
               if (code =? 401)%Z || (code =? 403)%Z then refused ("Invalid " ++ service_name ++ " credentials")
               else if (400 <=? code)%Z then refused (service_name ++ " API error: HTTP " ++ str_of_Z code)
               else success success_msg
           | expected =>
               if py_eqb (PInt code) expected then success success_msg
               else refused (service_name ++ " responded with HTTP " ++ str_of_Z code ++ " (expected " ++ py_str expected ++ ")")
           end
       | ConnectError => refused ("Cannot connect to " ++ service_name ++ " API")
       | TimeoutException => refused (service_name ++ " API connection timed out")
       | HttpFailure message => refused message
       end.

Definition template_of (key : string) (test_cfg : dict) (creds : credentials_t) (defaults : dict) : res (option dict) :=
  match dget key test_cfg with
  | None => Ok None
  | Some v =>
      d ← dict_method "items" v;
      v' ← resolve_value creds defaults (PDict d);
      Ok (match v' with PDict d' => Some d' | _ => None end)
  end.

(** The user and the password of [auth: basic]: the first two of the fields. *)
Definition two_fields (fields : pyval) : res (option (pyval * pyval)) :=
  match fields with
  | PList (user :: password :: _) => Ok (Some (user, password))
  | PStr (String a (String b _)) => Ok (Some (PStr (str1 a), PStr (str1 b)))
  | PList _ | PStr _ | PDict ([] | [_]) => Ok None
  | PDict _ => Raise (KeyError "0")
  | v => Raise (TypeError ("object of type '" ++ type_name v ++ "' has no len()"))
  end.
Definition basic_auth (test_cfg : dict) (creds : credentials_t) (defaults : dict) : res (option (pyval * pyval)) :=
  if negb (py_eqb (dget_or "auth" PNone test_cfg) (PStr "basic")) then Ok None
  else
    fields ← two_fields (dget_or "auth_fields" (PList []) test_cfg);
    match fields with
    | None => Ok None
    | Some (user, password) =>
        let merged := dmerge defaults (map (fun kv => (kv.1, PStr kv.2)) creds) in
        let get f := match f with
                     | PStr k => Ok (dget_or k (PStr "") merged)
                     | (PList _ | PDict _) as v => Raise (unhashable v)
                     | _ => Ok (PStr "")
                     end in
        u ← get user; p ← get password; Ok (Some (u, p))
    end.

(** The request of [_execute_test_request], and nothing when its URL is blocked. *)
Definition test_request (test_cfg : dict) (creds : credentials_t) : res (option http_request) :=
  defaults ← match dget_or "defaults" (PDict []) test_cfg with
             | PDict d => Ok d
             | v => Raise (TypeError ("'" ++ type_name v ++ "' object is not iterable"))
             end;
  defaults ← resolve_sandbox_url test_cfg creds defaults;
  template ← match dget "url_template" test_cfg with
             | Some (PStr t) => Ok t
             | Some v => Raise (no_attribute "replace" v)
             | None => Raise (KeyError "url_template")
             end;
  url ← resolve_template template creds defaults;
  url ← deduplicate_url_path url;
  safe ← is_url_safe url;
  if negb safe then Ok None
  else
    headers ← template_of "headers_template" test_cfg creds defaults;
    params ← template_of "params_template" test_cfg creds defaults;
    json_body ← template_of "json_body_template" test_cfg creds defaults;
    form_data ← template_of "form_data_template" test_cfg creds defaults;
    auth ← basic_auth test_cfg creds defaults;
    Ok (Some (HttpRequest (dget_or "method" (PStr "GET") test_cfg) url headers form_data json_body auth params)).

(** [_execute_test_request]. *)
Definition execute_test_request (test_cfg : dict) (creds : credentials_t) (display_name : string) : VL validation :=
  request ← lift (test_request test_cfg creds);
  match request with
  | None => mret (refused "Validation blocked: URL targets a private or internal address")
  | Some r => http_credential_check r display_name (display_name ++ " credentials valid")
                (dget_or "success_status" PNone test_cfg)
  end.

(** [_call_connector_validation]. *)
Definition call_connector_validation (manifest : ConnectorManifest) (creds : credentials_t) (endpoint_template : pyval)
  : VL validation :=
  match endpoint_template with
  | PStr template =>
      let endpoint := py_replace template "{account_name}" (cred "account_name" "default" creds) in
      http_credential_check (HttpRequest (PStr "GET") (base_url manifest ++ endpoint) None None None None None)
        (m_display_name manifest) (m_display_name manifest ++ " connection verified") PNone
  | v => raise (no_attribute "replace" v)
  end.

(** [_validate_email_imap_smtp]. *)
Definition mail_text (kind : bool) (a : mail_answer) : string :=
  match a with
  | MailOk => "ok"
  | MailRefused m => if kind then "auth_failed: " ++ m else "error: " ++ m
  | MailUnreachable m => if kind then "connection_failed: " ++ m else "error: " ++ m
  | MailError m => "error: " ++ m
  end.
Fixpoint mail_hosts_safe (hosts : list string) : res bool :=
  match hosts with
  | [] => Ok true
  | host :: hosts' =>
      if String.eqb host "" then mail_hosts_safe hosts'
      else safe ← is_url_safe ("tcp://" ++ host);
           if safe : bool then mail_hosts_safe hosts' else Ok false
  end.
Definition validate_email_imap_smtp (creds : credentials_t) (display_name : string) : VL validation :=
  let imap_host := cred "imap_host" "" creds in
  let smtp_host := cred "smtp_host" "" creds in
  let username := cred "username" "" creds in
  let login := if String.eqb username "" then cred "email_address" "" creds else username in
  let password := cred "password" "" creds in
  imap_port ← lift (py_int (PStr (cred "imap_port" "993" creds)));
  smtp_port ← lift (py_int (PStr (cred "smtp_port" "587" creds)));
  let use_ssl := yes (cred "use_ssl" "true" creds) in
  safe ← lift (mail_hosts_safe [imap_host; smtp_host]);
  if negb safe then mret (refused ("Connection to " ++ display_name ++ " blocked: private/internal host"))
  else
    _ ← contacted (Imap imap_host imap_port);
    let imap_result := imap imap_host imap_port use_ssl login password in
    _ ← contacted (Smtp smtp_host smtp_port);
    let smtp_result := smtp smtp_host smtp_port use_ssl login password in
    let results := [("imap", mail_text true imap_result); ("smtp", mail_text false smtp_result)] in
    mret match imap_result, smtp_result with
         | MailOk, MailOk => Validation "success" "IMAP and SMTP connection successful" results
         | _, _ => Validation "failed" "Connection test failed" results
         end.

(** ** The validator *)

(** [validate_credentials]. *)
Definition validate_credentials (reg : registry) (connector_name : string) (creds : credentials_t)
    (connector_version : option string) : VL validation :=
  match get_by_name_version reg connector_name connector_version with
  | None => mret (Validation "unsupported" ("Unknown connector: " ++ connector_name) [])
  | Some manifest =>
      let display_name := m_display_name manifest in
      match m_validation manifest with
      | [] =>
          mret match m_config_required manifest with
               | [] => success (display_name ++ " credentials accepted (no validation configured)")
               | required => default (success (display_name ++ " credentials present"))
                               (missing_fields creds required display_name)
               end
      | cfg =>
          match missing_fields creds (m_required_fields manifest) display_name with
          | Some fail => mret fail
          | None =>
              let test_cfg := dget_or "test_request" PNone cfg in
              let endpoint := dget_or "validate_endpoint" PNone cfg in
              if py_eqb (dget_or "validate_mode" PNone cfg) (PStr "email_imap_smtp")
              then validate_email_imap_smtp creds display_name
              else if truthy test_cfg then
                cfg' ← lift (dict_method "get" test_cfg);
                execute_test_request cfg' creds display_name
              else if truthy endpoint then call_connector_validation manifest creds endpoint
              else mret (success (display_name ++ " credentials present"))
          end
      end
  end.
End validator.

(** The endpoint: the stored credentials, replaced by the submitted ones that are no masks, are
    validated for the version of some enabled instance, which the database picks. *)
Section endpoint.
Context `{Cipher}.
Variables (raw_key : string) (reg : registry).
Variable getaddrinfo : string -> res (list string).
Variable http : http_request -> http_answer.
Variables imap smtp : string -> Z -> bool -> string -> string -> mail_answer.
Variable pick : list connector_instance -> option connector_instance.

Definition validate_credentials_request (tenant : Tenant) (connector credential_name : string)
    (body : option (string * credentials_t)) (v : VaultDB) (db : inst_db) : EM (list contact) validation :=
  let cred_name := match body with Some (String _ _ as n, _) => n | _ => credential_name end in
  stored ← lift (retrieve_all raw_key (tn_id tenant) connector cred_name v).1;
  let merged := match body with
                | Some (_, (_ :: _) as submitted) => dmerge stored (submitted_credential_values submitted)
                | _ => stored
                end in
  match merged with
  | [] => http_error 404 "No credentials found for this connector"
  | _ =>
      let version := ci_version <$> pick (List.filter (usable (tn_id tenant) connector) (id_rows db)) in
      validate_credentials getaddrinfo http imap smtp reg connector merged
        (match version with Some EmptyString => None | o => o end)
  end.
End endpoint.

(** ** What is contacted *)

Section facts.
Variable getaddrinfo : string -> res (list string).
Variable http : http_request -> http_answer.
Variables imap smtp : string -> Z -> bool -> string -> string -> mail_answer.

(** The host of a URL has only addresses outside the blocked networks. *)
Definition resolves_publicly (url : string) : Prop :=
  exists parsed host infos, urlparse url = Ok parsed /\ hostname parsed = Some host
    /\ host <> "localhost" /\ host <> "metadata.google.internal" /\ getaddrinfo host = Ok infos
    /\ Forall (fun info => exists a, ip_address info = Some a /\ blocked a = false) infos.

Lemma addresses_safe_exact infos :
  addresses_safe infos = Ok true <-> Forall (fun info => exists a, ip_address info = Some a /\ blocked a = false) infos.
Proof.
  induction infos as [|info infos IH]; cbn [addresses_safe]; [by split|]. rewrite Forall_cons_iff, <- IH.
  destruct (ip_address info) as [a|]; [|split; [done|by intros [(a & ? & _) _]]].
  destruct (blocked a) eqn:E; split.
  - done.
  - intros [(b & [= <-] & Hb) _]. congruence.
  - intros H. split; [by exists a|done].
  - by intros [_ H].
Qed.

Lemma is_url_safe_exact url : is_url_safe getaddrinfo url = Ok true <-> resolves_publicly url.
Proof.
  unfold is_url_safe, resolves_publicly. destruct (urlparse url) as [parsed|e];
    [|split; [by destruct e|by intros (? & ? & ? & ? & _)]].
  destruct (hostname parsed) as [host|] eqn:Eh; [|split; [done|by intros (p & h & i & [= <-] & ? & _); congruence]].
  cbn [existsb]. destruct (String.eqb_spec host "localhost") as [|H1]; [split; [done|by intros (p & h & ? & [= <-] & ? & ? & _); congruence]|].
  destruct (String.eqb_spec host "metadata.google.internal") as [|H2]; [split; [done|by intros (p & h & ? & [= <-] & ? & ? & ? & _); congruence]|]. cbn [orb].
  unfold mbind, res_bind. destruct (getaddrinfo host) as [infos|e] eqn:Eg.
  - transitivity (addresses_safe infos = Ok true); [|etransitivity; [apply addresses_safe_exact|]; split; [intros; by exists parsed, host, infos|];
      intros (p & h & i & [= <-] & Hh & _ & _ & Hi & Hf); rewrite Eh in Hh; injection Hh as <-; rewrite Eg in Hi; by injection Hi as <-].
    destruct (addresses_safe infos) as [|[]]; try (by split). by destruct (String.eqb _ _).
  - split; [|intros (p & h & i & [= <-] & Hh & _ & _ & Hi & _); rewrite Eh in Hh; injection Hh as <-; congruence]. destruct e; try done. by destruct (String.eqb _ _).
Qed.

(** What the validation of a manifest may contact. *)
Definition may_contact (manifest : ConnectorManifest) (c : contact) : Prop :=
  match c with
  | Http r => resolves_publicly (hr_url r)
              \/ exists endpoint, hr_url r = base_url manifest ++ endpoint
                                  /\ truthy (dget_or "validate_endpoint" PNone (m_validation manifest)) = true
  | Imap host _ | Smtp host _ => host = "" \/ resolves_publicly ("tcp://" ++ host)
  end.

(** [m] contacts only what satisfies [P]. *)
Definition contacts_only {A} (P : contact -> Prop) (m : EM (list contact) A) : Prop := preserves (Forall P) m.

Lemma contacted_only P c : P c -> contacts_only P (contacted c).
Proof. intros Hc log Hl. cbn. apply Forall_app. by repeat constructor. Qed.

Lemma http_check_only P r name msg status : P (Http r) -> contacts_only P (http_credential_check http r name msg status).
Proof.
  intros Hr. unfold http_credential_check. apply preserves_bind; [by apply contacted_only|]. intros _. apply preserves_ret.
Qed.

Lemma test_request_public cfg creds r :
  test_request getaddrinfo cfg creds = Ok (Some r) -> resolves_publicly (hr_url r).
Proof.
  unfold test_request. intros H. bind_ok. destruct x4; [|done]. cbn [negb] in H. bind_ok. by apply is_url_safe_exact.
Qed.

Lemma mail_hosts_public hosts : mail_hosts_safe getaddrinfo hosts = Ok true ->
  Forall (fun host => host = "" \/ resolves_publicly ("tcp://" ++ host)) hosts.
Proof.
  induction hosts as [|host hosts IH]; cbn [mail_hosts_safe]; [by constructor|].
  destruct (String.eqb_spec host ""); [intros H; constructor; auto|]. intros H. bind_ok. destruct x; [|done].
  constructor; [right; by apply is_url_safe_exact|by apply IH].
Qed.

Lemma email_only manifest creds name :
  contacts_only (may_contact manifest) (validate_email_imap_smtp getaddrinfo imap smtp creds name).
Proof.
  unfold validate_email_imap_smtp. apply preserves_lift_ok. intros iport _. apply preserves_lift_ok. intros sport _.
  apply preserves_lift_ok. intros [] Hsafe; cbn [negb]; [|apply preserves_ret].
  apply mail_hosts_public in Hsafe. rewrite !Forall_cons_iff in Hsafe. destruct Hsafe as (Hi & Hs & _).
  apply preserves_bind; [by apply contacted_only|]. intros _. apply preserves_bind; [by apply contacted_only|].
  intros _. apply preserves_ret.
Qed.

(** Whatever credentials a tenant submits, the platform contacts only hosts whose addresses,
    when it looked them up, were all outside the blocked networks, or the connector itself, at
    the endpoint of its manifest. *)
Theorem validation_contacts_public_hosts reg name creds version log :
  forall manifest, get_by_name_version reg name version = Some manifest -> Forall (may_contact manifest) log ->
  Forall (may_contact manifest) (validate_credentials getaddrinfo http imap smtp reg name creds version log).2.
Proof.
  intros manifest Hm. revert log. change (contacts_only (may_contact manifest)
    (validate_credentials getaddrinfo http imap smtp reg name creds version)).
  unfold validate_credentials. rewrite Hm. destruct (m_validation manifest) as [|kv cfg'] eqn:Ecfg; [apply preserves_ret|].
  set (cfg := kv :: cfg') in *. destruct (missing_fields _ _ _); [apply preserves_ret|].
  destruct (py_eqb _ _); [apply email_only|]. destruct (truthy (dget_or "test_request" PNone cfg)).
  - apply preserves_lift_ok. intros cfg1 _. unfold execute_test_request. apply preserves_lift_ok.
    intros [r|] Hr; [|apply preserves_ret]. apply http_check_only. left. by eapply test_request_public.
  - destruct (truthy (dget_or "validate_endpoint" PNone cfg)) eqn:Ee; [|apply preserves_ret].
    unfold call_connector_validation. destruct (dget_or "validate_endpoint" PNone cfg) as [| | | |s| |] eqn:Ed;
      try apply preserves_raise. apply http_check_only. right. eexists. split; [done|].
    by rewrite Ecfg, Ed.
Qed.

(** An address of IPv4 written as one of IPv6 (::ffff:a.b.c.d) is in none of the blocked networks:
    a host name that resolves to it is contacted, whatever the address of IPv4 is. *)
Theorem mapped_addresses_pass url parsed host n :
  (0 <= n < v4_max)%Z -> urlparse url = Ok parsed -> hostname parsed = Some host ->
  host <> "localhost" -> host <> "metadata.google.internal" ->
  getaddrinfo host = Ok [ip_str (V6 (65535 * 2 ^ 32 + n) None)] -> is_url_safe getaddrinfo url = Ok true.
Proof.
  intros Hn Hu Hh H1 H2 Hg. apply is_url_safe_exact. exists parsed, host, [ip_str (V6 (65535 * 2 ^ 32 + n) None)].
  split_and!; [done..|]. repeat constructor. eexists. split.
  { apply ip_round_trip. split; [|done]. unfold v4_max, v6_max in *. lia. }
  set (m := (65535 * 2 ^ 32 + n)%Z). assert (Hm : (2 ^ 32 < m < 2 ^ 48)%Z) by (unfold m, v4_max in *; lia).
  clearbody m. unfold blocked. let nets := eval vm_compute in BLOCKED_NETWORKS in change BLOCKED_NETWORKS with nets.
  cbn [existsb in_network]. rewrite !orb_false_r.
  assert (Hsmall : forall p, (0 < p <= 10)%Z -> Z.land m (netmask 128 p) = 0%Z).
  { intros p Hp. apply Z.bits_inj'. intros i Hi. rewrite Z.land_spec, Z.bits_0. apply andb_false_iff.
    destruct (Z.lt_ge_cases i 48) as [Hlt|Hge].
    - right. unfold netmask. replace (2 ^ 128 - 1 - (2 ^ (128 - p) - 1))%Z with ((2 ^ p - 1) * 2 ^ (128 - p))%Z.
      + rewrite Z.mul_pow2_bits_low by lia. done.
      + rewrite Z.mul_sub_distr_r, <- Z.pow_add_r by lia. replace (p + (128 - p))%Z with 128%Z by lia. lia.
    - left. apply Z.bits_above_log2; [lia|]. enough (Z.log2 m < 48)%Z by lia. apply Z.log2_lt_pow2; lia. }
  rewrite (Hsmall 7%Z), (Hsmall 10%Z) by lia. cbn [Z.eqb orb].
  replace (Z.land m (netmask 128 128)) with m; [apply orb_false_iff; split; [apply Z.eqb_neq; lia|done]|].
  unfold netmask. change (2 ^ 128 - 1 - (2 ^ (128 - 128) - 1))%Z with (Z.ones 128). rewrite Z.land_ones by lia.
  symmetry. apply Z.mod_small. lia.
Qed.
End facts.

(** ** Doubled paths *)

(** The last segments, [s], are there twice. *)
Definition ends_doubled (p s segments : list string) : Prop := s <> [] /\ segments = (p ++ s ++ s)%list.

Lemma ends_doubled_length p s segments :
  ends_doubled p s segments -> (1 <= length s)%nat /\ (length s <= length segments / 2)%nat.
Proof.
  intros [Hs ->]. rewrite !length_app. split; [destruct s; cbn; [done|lia]|].
  apply Nat.div_le_lower_bound; lia.
Qed.

Lemma doubled_at n segments : (1 <= n)%nat -> (2 * n <= length segments)%nat ->
  drop (length segments - n) segments = take n (drop (length segments - 2 * n) segments)
  <-> exists p s, ends_doubled p s segments /\ length s = n.
Proof.
  intros H1 H2. split.
  - intros E. set (l := length segments) in *. exists (take (l - 2 * n) segments), (drop (l - n) segments).
    assert (Hl : length (drop (l - n) segments) = n) by (rewrite length_drop; lia).
    split; [|done]. split; [intros H; rewrite H in Hl; cbn in Hl; lia|].
    rewrite E at 1. rewrite <- (take_drop (l - 2 * n) segments) at 1. f_equal.
    rewrite <- (take_drop n (drop (l - 2 * n) segments)) at 1. f_equal. rewrite drop_drop. f_equal. lia.
  - intros (p & s & [Hs ->] & Hn). assert (drop (length (p ++ s ++ s) - 2 * n) (p ++ s ++ s) = s ++ s)%list as ->
      by (apply drop_app_length'; rewrite !length_app; lia).
    rewrite take_app_length' by lia. rewrite (assoc_L (++)). apply drop_app_length'. rewrite !length_app. lia.
Qed.

Lemma dedup_segments_spec k : forall n segments, (1 <= n)%nat -> (2 * (n + k - 1) <= length segments)%nat ->
  match dedup_segments k n segments with
  | Some deduped => exists p s, ends_doubled p s segments /\ deduped = (p ++ s)%list /\ (n <= length s < n + k)%nat
      /\ forall p' s', ends_doubled p' s' segments -> (n <= length s')%nat -> (length s <= length s')%nat
  | None => forall p s, ends_doubled p s segments -> ~ (n <= length s < n + k)%nat
  end.
Proof.
  induction k as [|k IH]; intros n segments H1 H2; [intros p s _ ?; lia|]. cbn [dedup_segments].
  case_bool_decide as E; rewrite doubled_at in E by lia.
  - destruct E as (p & s & Hd & Hn). exists p, s. split; [done|]. split; [|split; [lia|intros; lia]].
    destruct Hd as [_ ->]. rewrite app_assoc. apply take_app_length'. rewrite !length_app. lia.
  - specialize (IH (S n) segments ltac:(lia) ltac:(lia)). destruct (dedup_segments k (S n) segments) as [d|].
    + destruct IH as (p & s & Hd & -> & Hn & Hmin). exists p, s. split; [done|]. split; [done|]. split; [lia|].
      intros p' s' Hd' Hn'. destruct (decide (length s' = n)) as [<-|]; [|apply (Hmin p'); [done|lia]].
      destruct E. by exists p', s'.
    + intros p s Hd Hn. destruct (decide (length s = n)) as [<-|].
      * destruct E. by exists p, s.
      * apply (IH p s Hd). lia.
Qed.

(** From a path whose last segments are there twice, the second copy of the shortest such
    segments is removed; any other path is left as it is. *)
Theorem doubled_suffix_removed segments :
  match dedup_segments (length segments / 2) 1 segments with
  | Some deduped => exists p s, ends_doubled p s segments /\ deduped = (p ++ s)%list
      /\ forall p' s', ends_doubled p' s' segments -> (length s <= length s')%nat
  | None => forall p s, ~ ends_doubled p s segments
  end.
Proof.
  assert (H2 : (2 * (1 + length segments / 2 - 1) <= length segments)%nat).
  { pose proof (Nat.Div0.mul_div_le (length segments) 2). lia. }
  pose proof (dedup_segments_spec (length segments / 2) 1 segments ltac:(lia) H2) as H.
  destruct (dedup_segments _ _ _).
  - destruct H as (p & s & Hd & -> & _ & Hmin). exists p, s. split; [done|]. split; [done|].
    intros p' s' Hd'. apply (Hmin p' s' Hd'). by apply ends_doubled_length in Hd' as [? _].
  - intros p s Hd. apply (H p s Hd). apply ends_doubled_length in Hd. lia.
Qed.

(** ** Examples *)

Definition demo_dns (host : string) : res (list string) :=
  if String.eqb host "shop.example" then Ok ["93.184.216.34"]
  else if String.eqb host "inside.example" then Ok ["93.184.216.34"; "10.1.2.3"]
  else if String.eqb host "mapped.example" then Ok [ip_str (V6 (65535 * 2 ^ 32 + 2130706433) None)]
  else if String.eqb host "zero.example" then Ok ["0.0.0.0"]
  else Raise (OtherError "gaierror").

Example safe_urls :
  map (is_url_safe demo_dns)
    ["https://shop.example/x"; "https://inside.example/"; "http://mapped.example"; "http://zero.example"; "http://localhost:80";
     "http://nowhere.example"; "tcp://[x"]
  = [Ok true; Ok false; Ok true; Ok true; Ok false; Ok false; Raise (OtherError "UnboundLocalError")].
Proof. by vm_compute. Qed.

Example deduplicated :
  deduplicate_url_path "https://host/api/auth/sign-in/auth/sign-in?x=1" = Ok "https://host/api/auth/sign-in?x=1".
Proof. by vm_compute. Qed.

(** A credential that holds a placeholder is expanded in its turn. *)
Example placeholders_in_values :
  resolve_template "https://{host}/{path}" [("host", "h.example"); ("path", "{token}"); ("token", "secret")] []
  = Ok "https://h.example/secret".
Proof. by vm_compute. Qed.

Definition validated_manifest : ConnectorManifest :=
  let m := Registry.demo_manifest "1.0.0" in
  Manifest (m_name m) (m_category m) (m_version m) (m_display_name m) (m_description m) (m_interface m) (m_country m)
    (m_capabilities m) (m_events m) (m_actions m) (m_config_required m) (m_config_optional m) ["api_url"]
    [("test_request", PDict [("url_template", PStr "{api_url}/ping"); ("success_status", PInt 204)])]
    (m_oauth2 m) (m_webhooks m) (m_rate_limits m) (m_service_name m) (m_status m) (m_action_routes m)
    (m_provisioning m) (m_hints m).
Definition validated_registry : registry := discover [validated_manifest].
Definition demo_mail (_ : string) (_ : Z) (_ : bool) (_ _ : string) : mail_answer := MailOk.

Lemma validation_contacts_public_hosts_witness :
  let name := m_name validated_manifest in
  let '(r, log) := validate_credentials demo_dns (fun _ => Answered 204) demo_mail demo_mail validated_registry name
                     [("api_url", "https://shop.example")] None [] in
  r = Ok (success (m_display_name validated_manifest ++ " credentials valid"))
  /\ length log = 1%nat /\ Forall (may_contact demo_dns validated_manifest) log.
Proof.
  cbv zeta. destruct (validate_credentials _ _ _ _ _ _ _ _ _) as [r log] eqn:E.
  pose proof (validation_contacts_public_hosts demo_dns (fun _ => Answered 204) demo_mail demo_mail validated_registry
    (m_name validated_manifest) [("api_url", "https://shop.example")] None [] validated_manifest
    ltac:(by vm_compute) ltac:(constructor)) as H.
  rewrite E in H. cbn [snd] in H. vm_compute in E. injection E as <- <-. by repeat split.
Defined.

Lemma mapped_addresses_pass_witness : is_url_safe demo_dns "http://mapped.example" = Ok true.
Proof.
  apply (mapped_addresses_pass demo_dns "http://mapped.example" (UrlParts "http" "mapped.example" "" "" "" "")
           "mapped.example" 2130706433); try done; by vm_compute.
Defined.
