(* ===== verification/Actions.v ===== *)
(** How an action is executed for a tenant ([platform/api/gateway.py]: the closures given to the
    flow and workflow engines, [_enrich_credentials_with_oauth2]), on the vault, the OAuth2
    manager, the activated versions and the dispatcher; and the flow engine run with them: its
    attempts share one world, which every attempt changes. *)

From Stdlib Require Import QArith.
From S2P Require Import Prelude PyText PyValue Effects Registry RateLimiter Dispatcher Vault OAuth OAuthRefresher.
From S2P Require Import AuditTrail Auth Instances Transforms MappingResolver Flow.

Local Open Scope string_scope.

Section actions.
Context `{Cipher} `{FormatLib} {store rstore : Type} `{KeyValue store string} `{Redis rstore}.
Variables (raw_key : string) (reg : registry).
Variable provider : list token_request -> token_request -> res TokenResponse.
(** The connectors' answers, and the limiter of the dispatcher. *)
Variable server : server_t.
Variable limiter_ : option limiter.

(** The vault with the OAuth2 tokens and the clock, the activated versions, what was sent to the
    connectors, and the buckets of the rate limiter. *)
Record world := MkWorld {
  wd_oauth : OAuthState store;
  wd_instances : inst_db;
  wd_log : list event;
  wd_limits : rstore
}.
Definition set_wd_oauth (o : OAuthState store) (w : world) : world :=
  MkWorld o (wd_instances w) (wd_log w) (wd_limits w).
Definition wd_now (w : world) : Z := oa_now (wd_oauth w).

Definition with_oauth {A} (m : EM (OAuthState store) A) : EM world A := within wd_oauth set_wd_oauth m.

(** [_enrich_credentials_with_oauth2]. *)
Definition enrich_credentials_with_oauth2 (creds : list (string * string)) (tenant connector name : string)
  : EM (OAuthState store) (list (string * string)) :=
  match (m ← get_by_name_version reg connector None; Some (manifest_oauth2 m)) with
  | None | Some [] => mret creds
  | Some oauth2_cfg =>
      token ← get_or_refresh_access_token raw_key provider tenant connector name
                (Some (override_client oauth2_cfg creds));
      mret match token with
           | Some (String _ _ as t) => dset "access_token" t creds
           | _ => ddel "access_token" creds
           end
  end.

(** The credentials of an action, and the version it is sent to. *)
Definition action_credentials (tenant connector name : string) : EM world (list (string * string)) :=
  creds ← with_oauth (with_vault (retrieve_all raw_key tenant connector name));
  match creds with
  | [] => mret []
  | _ => with_oauth (enrich_credentials_with_oauth2 creds tenant connector name)
  end.
Definition action_version (tenant connector : string) (version : option string) : EM world (option string) :=
  match version with
  | Some (String _ _) => mret version
  | _ => gets (fun w => resolve_connector_version tenant connector (wd_instances w))
  end.

(** What the engines see of a failed dispatch; the detail of a refusal of the limiter is shortened. *)
Definition failure_exn (f : failure) : pyexn :=
  match f with
  | Raised e => e
  | HTTPStatusError m => OtherError m
  | HTTPException429 _ => OtherError "429: CONNECTOR_RATE_LIMITED"
  end.

Definition dispatch (connector action : string) (payload : dict) (tenant : string)
    (creds : list (string * string)) (version : option string) : EM world pyval := fun w =>
  let '(result, log, limits) :=
    dispatch_action server limiter_ (inject_Z (wd_now w)) (wd_limits w) connector action payload tenant creds
      (Some reg) version (wd_log w) in
  let w' := MkWorld (wd_oauth w) (wd_instances w) log limits in
  match result with inl v => (Ok v, w') | inr f => (Raise (failure_exn f), w') end.

(** [execute_action_for_flow], the executor of the flow engine. *)
Definition execute_action_for_flow (connector action : string) (payload : dict) (tenant credential_name : string)
    (connector_version : option string) : EM world pyval :=
  creds ← action_credentials tenant connector credential_name;
  version ← action_version tenant connector connector_version;
  dispatch connector action payload tenant creds version.

(** [_execute_connector_action], the executor of the workflow engine: the account is the name of
    the credential set unless the set names one. *)
Definition execute_connector_action (connector action : string) (payload : dict) (tenant credential_name : string)
    (connector_version : option string) : EM world pyval :=
  creds ← action_credentials tenant connector credential_name;
  version ← action_version tenant connector connector_version;
  let creds := match creds with
               | [] => []
               | _ => if dhas "account_name" creds then creds else dset "account_name" credential_name creds
               end in
  dispatch connector action payload tenant creds version.

(** ** The flow engine with its executor *)

(** A row of [flows]. *)
Record flow_row := FlowRow { fr_tenant : string; fr_id : string; fr_flow : Flow; fr_version : option string }.

(** The wait between two attempts. *)
Definition wait (seconds : Z) (w : world) : world :=
  let o := wd_oauth w in
  set_wd_oauth (MkOAuthState (oa_vault o) (oa_tokens o) (oa_next o) (oa_redis o) (oa_now o + seconds) (oa_sent o)) w.

(** The loop of attempts: [n] are left, [a] is the next one. *)
Fixpoint run_attempts (action : EM world pyval) (a : Z) (n : nat) (w : world) : attempts_result * world :=
  match n with
  | O => (Attempts 0 0 [] None, w)
  | S n' =>
      match action w with
      | (Ok r, w1) => (Attempts a 1 [] (Some (Ok r)), w1)
      | (Raise e, w1) =>
          match n' with
          | O => (Attempts a 1 [] (Some (Raise e)), w1)
          | S _ =>
              let '(rest, w2) := run_attempts action (a + 1) n' (wait (flow_retry_delay a) w1) in
              (Attempts (at_count rest) (S (at_calls rest)) (flow_retry_delay a :: at_delays rest) (at_answer rest), w2)
          end
      end
  end.

Variable lib : TextLib.
Variable jmespath : option (string -> dict -> res pyval).

(** [execute_flow]. *)
Definition run_flow (row : flow_row) (overrides : list FieldMapping) (event_data : dict) (w : world)
  : FlowExecution * world :=
  let f := fr_flow row in
  if negb (matches_filter event_data (fl_source_filter f))
  then (MkFlowExecution "skipped" 0 None None None, w)
  else
    match resolve lib [] (fl_field_mapping f) overrides event_data with
    | Raise e => (failed 0 None e, w)
    | Ok mapped =>
        let mapped_data := if String.eqb (fl_transform f) "" then mapped
                           else flow_transform jmespath mapped (fl_transform f) in
        let action := execute_action_for_flow (fl_destination_connector f) (fl_destination_action f) mapped_data
                        (fr_tenant row) "default" (fr_version row) in
        let '(r, w') := run_attempts action 0 (max_attempts f) w in
        (match at_answer r with
         | Some (Ok v) => MkFlowExecution "success" (at_count r) (Some mapped_data) (Some (action_result v)) None
         | Some (Raise e) => failed (at_count r) (Some mapped_data) e
         | None => MkFlowExecution "running" 0 (Some mapped_data) None None
         end, w')
    end.

(** [get_flows_for_event] and [process_event]: the flows of the tenant one after the other. *)
Definition get_flows_for_event (flows : list flow_row) (tenant connector event : string) : list flow_row :=
  List.filter (fun r => String.eqb (fr_tenant r) tenant && String.eqb (fl_source_connector (fr_flow r)) connector
                        && String.eqb (fl_source_event (fr_flow r)) event && fl_enabled (fr_flow r)) flows.
Fixpoint run_flows (overrides : flow_row -> list FieldMapping) (event_data : dict) (rows : list flow_row) (w : world)
  : list (string * FlowExecution) * world :=
  match rows with
  | [] => ([], w)
  | row :: rows' =>
      let '(x, w1) := run_flow row (overrides row) event_data w in
      let '(xs, w2) := run_flows overrides event_data rows' w1 in
      ((fr_id row, x) :: xs, w2)
  end.
Definition process_flow_event (flows : list flow_row) (overrides : flow_row -> list FieldMapping)
    (tenant connector event : string) (event_data : dict) (w : world) : list (string * FlowExecution) * world :=
  run_flows overrides event_data (get_flows_for_event flows tenant connector event) w.

(** ** Facts *)

(** The world at the start of the [i]-th attempt, when the ones before failed: each is followed by
    a wait, of 1, 2, 4, 8, 16 and from then on 30 seconds. *)
Fixpoint world_at (action : EM world pyval) (a : Z) (i : nat) (w : world) : world :=
  match i with
  | O => w
  | S i' => world_at action (a + 1) i' (wait (Z.min (2 ^ a) 30) (action w).2)
  end.
(** The answers of the attempts in their worlds. *)
Definition answers_in (action : EM world pyval) (w : world) (n : Z) : res pyval :=
  (action (world_at action 0 (Z.to_nat n) w)).1.


(** The loop in the world is the loop of [Flow] on the answers of the attempts in their worlds. *)
Lemma run_attempts_refines action n : forall (answer : Z -> res pyval) a w,
  (forall i, answer (a + Z.of_nat i)%Z = (action (world_at action a i w)).1) ->
  (run_attempts action a n w).1 = try_attempts answer a n.
Proof.
  induction n as [|n IH]; intros answer a w Ha; [done|]. cbn [run_attempts try_attempts].
  specialize (Ha 0%nat) as Hz. cbn [world_at] in Hz. rewrite Z.add_0_r in Hz. rewrite Hz.
  destruct (action w) as [[r|e] w1] eqn:Ew; cbn [fst]; [done|]. destruct n as [|n]; [done|].
  assert (Hr := IH answer (a + 1)%Z (wait (flow_retry_delay a) w1)).
  destruct (run_attempts action (a + 1) (S n) _) as [rest w2]. cbn [fst] in Hr. rewrite Hr; [done|].
  intros i. replace (a + 1 + Z.of_nat i)%Z with (a + Z.of_nat (S i))%Z by lia. rewrite Ha.
  cbn [world_at]. by rewrite Ew.
Qed.

(** The flow engine run with its executor, whose attempts change the vault, the tokens, the
    connectors and the limits, is the engine of [Flow] on the answers these attempts get. *)
Theorem run_flow_refines row overrides event_data w :
  let f := fr_flow row in
  let action mapped := execute_action_for_flow (fl_destination_connector f) (fl_destination_action f) mapped
                         (fr_tenant row) "default" (fr_version row) in
  (run_flow row overrides event_data w).1
  = (execute_flow lib jmespath f overrides event_data (fun mapped => answers_in (action mapped) w)).1.1.
Proof.
  cbv zeta. unfold run_flow, execute_flow. destruct (negb _); [done|]. destruct (resolve _ _ _ _ _) as [mapped|]; [|done].
  set (data := if String.eqb _ _ then _ else _).
  set (action := execute_action_for_flow _ _ data _ _ _).
  pose proof (run_attempts_refines action (max_attempts (fr_flow row)) (answers_in action w) 0 w) as Hr.
  destruct (run_attempts action 0 (max_attempts (fr_flow row)) w) as [r w']. cbn [fst] in *. rewrite <- Hr; [done|].
  intros i. unfold answers_in. by rewrite Z.add_0_l, Nat2Z.id.
Qed.
Lemma run_attempts_spec action n : forall a w, (0 < n)%nat ->
  exists k, (k < n)%nat /\ (forall i, (i < k)%nat -> exists e, (action (world_at action a i w)).1 = Raise e)
    /\ let '(r, w') := run_attempts action a n w in
       w' = (action (world_at action a k w)).2 /\ at_count r = (a + Z.of_nat k)%Z
       /\ at_answer r = Some (action (world_at action a k w)).1
       /\ ((exists e, (action (world_at action a k w)).1 = Raise e) -> k = (n - 1)%nat).
Proof.
  induction n as [|n IH]; intros a w Hn; [lia|]. cbn [run_attempts].
  destruct (action w) as [[r|e] w1] eqn:Ew.
  { exists 0%nat. split; [lia|]. split; [lia|]. cbn [world_at]. rewrite Ew. cbn. rewrite Z.add_0_r.
    split_and!; try done. by intros [e ?]. }
  destruct n as [|n].
  { exists 0%nat. split; [lia|]. split; [lia|]. cbn [world_at]. rewrite Ew. cbn. by rewrite Z.add_0_r. }
  destruct (IH (a + 1)%Z (wait (flow_retry_delay a) w1) ltac:(lia)) as (k & Hk & Hfail & Hr).
  exists (S k). split; [lia|]. split.
  - intros [|i] Hi; cbn [world_at]; [rewrite Ew; by eexists|]. rewrite Ew. apply Hfail. lia.
  - destruct (run_attempts action (a + 1) (S n) _) as [rest w2]. cbn [world_at]. rewrite Ew. cbn [snd at_count at_answer].
    destruct Hr as (-> & -> & -> & Hlast). split_and!; [done|lia|done|]. intros He%Hlast. lia.
Qed.

End actions.

(** ** Stored tokens *)

Section tokens.
Context `{Cipher} `{FormatLib} {store : Type} `{KeyValue store string}.
Variables (raw_key : string) (reg : registry).
Variable provider : list token_request -> token_request -> res TokenResponse.

(** The access token a tenant stored by hand for a connector that supports OAuth2 is dropped from
    the credentials of every action, when the tenant has no OAuth2 token for the set. *)
Theorem stored_access_token_dropped creds tenant connector name manifest (s : OAuthState store) :
  NoDup (dkeys creds) ->
  get_by_name_version reg connector None = Some manifest -> manifest_oauth2 manifest <> [] ->
  (find_token tenant connector name s).1 = Ok None ->
  exists creds', (enrich_credentials_with_oauth2 raw_key reg provider creds tenant connector name s).1 = Ok creds'
    /\ dget "access_token" creds' = None
    /\ forall k, k <> "access_token" -> dget k creds' = dget k creds.
Proof.
  intros Hnd Hm Hc Hf. unfold enrich_credentials_with_oauth2. rewrite Hm. cbn [mbind option_bind].
  destruct (manifest_oauth2 manifest) as [|kv cfg]; [done|]. clear Hc.
  unfold get_or_refresh_access_token, mbind, EM_bind. destruct (find_token tenant connector name s) as [r s'].
  cbn [fst] in Hf. subst r. unfold gets. eexists. split; [reflexivity|]. split; [by apply dget_ddel_eq|].
  intros k Hk. by apply dget_ddel_ne.
Qed.
End tokens.

(** ** Examples *)

Definition with_oauth2 (config : dict) (m : ConnectorManifest) : ConnectorManifest :=
  Manifest (m_name m) (m_category m) (m_version m) (m_display_name m) (m_description m) (m_interface m) (m_country m)
    (m_capabilities m) (m_events m) (m_actions m) (m_config_required m) (m_config_optional m) (m_required_fields m)
    (m_validation m) config (m_webhooks m) (m_rate_limits m) (m_service_name m) (m_status m) (m_action_routes m)
    (m_provisioning m) (m_hints m).
Definition oauth_registry : registry := discover [with_oauth2 [("token_url", PStr "https://p/token")] (Registry.demo_manifest "1.0.0")].

Lemma stored_access_token_dropped_witness :
  let name := m_name (Registry.demo_manifest "1.0.0") in
  exists creds', (enrich_credentials_with_oauth2 "key" oauth_registry (fun _ _ => Raise (OtherError "down"))
                    [("access_token", "mine"); ("shop", "x")] "t1" name "default" demo_oauth).1 = Ok creds'
    /\ dget "access_token" creds' = None /\ dget "shop" creds' = Some "x".
Proof.
  cbv zeta. destruct (stored_access_token_dropped "key" oauth_registry (fun _ _ => Raise (OtherError "down"))
    [("access_token", "mine"); ("shop", "x")] "t1" (m_name (Registry.demo_manifest "1.0.0")) "default"
    (with_oauth2 [("token_url", PStr "https://p/token")] (Registry.demo_manifest "1.0.0")) demo_oauth)
    as (creds' & H1 & H2 & H3); [by_deciding|by vm_compute|done|by vm_compute|].
  exists creds'. split; [exact H1|]. split; [exact H2|]. by rewrite H3.
Defined.

Definition demo_world : world := MkWorld (MkOAuthState demo_vault [] 0 (∅ : gmap string (string * Z)) 1000 []) two_versions [] ([] : demo_store).

(** The first two requests are refused with 500; the third is answered. *)
Definition flaky_server : server_t := fun log r =>
  if (length log <? 2)%nat then inl (MkResponse 500 "" (Ok PNone) "down" "500 down")
  else inl (MkResponse 200 "" (Ok (PDict [("url", PStr (rq_url r))])) "" "").

Example flow_in_the_world :
  let '(x, w) := run_flow "key" [] (fun _ _ => Raise (OtherError "down")) flaky_server None no_lib None
                   (FlowRow "t1" "f1" (MkFlow "f" "shop" "order.created" [] "dhl" "ship" (PList []) "" "retry" 3 true) None)
                   [] [("id", PInt 5)] demo_world in
  (fe_status x, fe_retry_count x, length (wd_log w), wd_now w) = ("success", 2%Z, 3%nat, 1003%Z).
Proof. by vm_compute. Qed.

