(* ===== verification/FlowsApi.v ===== *)
(** The flow and event endpoints of the gateway ([platform/api/gateway.py]): creating, changing and
    deleting flows, and the events a tenant or a connector posts, which run the flows with
    [Actions] and the workflows with [Events]. *)

From S2P Require Import Prelude PyText PyValue Effects Registry RateLimiter Dispatcher Vault OAuth AuditTrail.
From S2P Require Import Auth Instances Transforms MappingResolver Flow Actions Graph Context Engine EngineRuns.
From S2P Require Import Sync Events Tenants Kafka.

Local Open Scope string_scope.

(** ** Flows *)

(** [FlowCreate]. *)
Record FlowCreate := MkFlowCreate {
  fc_name : string;
  fc_source_connector : string;
  fc_source_event : string;
  fc_source_filter : option dict;
  fc_destination_connector : string;
  fc_destination_connector_version : option string;
  fc_destination_action : string;
  fc_field_mapping : list dict;
  fc_transform : option string;
  fc_on_error : string;
  fc_max_retries : Z
}.

(** A field that an update sends; [None] is an explicit [null]. *)
Inductive flow_change :=
  | SetName (v : option string)
  | SetSourceConnector (v : option string)
  | SetSourceEvent (v : option string)
  | SetSourceFilter (v : option dict)
  | SetDestinationConnector (v : option string)
  | SetDestinationVersion (v : option string)
  | SetDestinationAction (v : option string)
  | SetFieldMapping (v : option (list dict))
  | SetTransform (v : option string)
  | SetOnError (v : option string)
  | SetMaxRetries (v : option Z)
  | SetEnabled (v : option bool).

Record flows_db := FlowsDb { fd_flows : list flow_row; fd_audit : list AuditLog }.

(** A column that takes no [NULL]. *)
Definition not_null {A} (v : option A) : res A :=
  match v with Some a => Ok a | None => Raise IntegrityError end.

(** The lengths of the columns. *)
Definition check_flow (r : flow_row) : res unit :=
  let f := fr_flow r in
  _ ← varchar 300 (fl_name f);
  _ ← varchar 100 (fl_source_connector f);
  _ ← varchar 100 (fl_source_event f);
  _ ← varchar 100 (fl_destination_connector f);
  _ ← varchar 20 (default "" (fr_version r));
  _ ← varchar 100 (fl_destination_action f);
  varchar 20 (fl_on_error f).

(** A list of objects as a value. *)
Definition mapping_value (l : list dict) : pyval := PList (map PDict l).

(** [setattr(flow, key, value)], as the flush takes it; a [null] mapping is stored as the [null] of JSON. *)
Definition set_flow (r : flow_row) (f : Flow) : flow_row := FlowRow (fr_tenant r) (fr_id r) f (fr_version r).
Definition apply_change (r : flow_row) (c : flow_change) : res flow_row :=
  let f := fr_flow r in
  let put name sc se sf dc da fm tr oe mr en := set_flow r (MkFlow name sc se sf dc da fm tr oe mr en) in
  match c with
  | SetName v =>
      x ← not_null v;
      Ok (put x (fl_source_connector f) (fl_source_event f) (fl_source_filter f) (fl_destination_connector f)
            (fl_destination_action f) (fl_field_mapping f) (fl_transform f) (fl_on_error f) (fl_max_retries f) (fl_enabled f))
  | SetSourceConnector v =>
      x ← not_null v;
      Ok (put (fl_name f) x (fl_source_event f) (fl_source_filter f) (fl_destination_connector f)
            (fl_destination_action f) (fl_field_mapping f) (fl_transform f) (fl_on_error f) (fl_max_retries f) (fl_enabled f))
  | SetSourceEvent v =>
      x ← not_null v;
      Ok (put (fl_name f) (fl_source_connector f) x (fl_source_filter f) (fl_destination_connector f)
            (fl_destination_action f) (fl_field_mapping f) (fl_transform f) (fl_on_error f) (fl_max_retries f) (fl_enabled f))
  | SetSourceFilter v =>
      Ok (put (fl_name f) (fl_source_connector f) (fl_source_event f) (default [] v) (fl_destination_connector f)
            (fl_destination_action f) (fl_field_mapping f) (fl_transform f) (fl_on_error f) (fl_max_retries f) (fl_enabled f))
  | SetDestinationConnector v =>
      x ← not_null v;
      Ok (put (fl_name f) (fl_source_connector f) (fl_source_event f) (fl_source_filter f) x
            (fl_destination_action f) (fl_field_mapping f) (fl_transform f) (fl_on_error f) (fl_max_retries f) (fl_enabled f))
  | SetDestinationVersion v => Ok (FlowRow (fr_tenant r) (fr_id r) f v)
  | SetDestinationAction v =>
      x ← not_null v;
      Ok (put (fl_name f) (fl_source_connector f) (fl_source_event f) (fl_source_filter f) (fl_destination_connector f)
            x (fl_field_mapping f) (fl_transform f) (fl_on_error f) (fl_max_retries f) (fl_enabled f))
  | SetFieldMapping v =>
      Ok (put (fl_name f) (fl_source_connector f) (fl_source_event f) (fl_source_filter f) (fl_destination_connector f)
            (fl_destination_action f) (match v with Some l => mapping_value l | None => PNone end) (fl_transform f)
            (fl_on_error f) (fl_max_retries f) (fl_enabled f))
  | SetTransform v =>
      Ok (put (fl_name f) (fl_source_connector f) (fl_source_event f) (fl_source_filter f) (fl_destination_connector f)
            (fl_destination_action f) (fl_field_mapping f) (default "" v) (fl_on_error f) (fl_max_retries f) (fl_enabled f))
  | SetOnError v =>
      x ← not_null v;
      Ok (put (fl_name f) (fl_source_connector f) (fl_source_event f) (fl_source_filter f) (fl_destination_connector f)
            (fl_destination_action f) (fl_field_mapping f) (fl_transform f) x (fl_max_retries f) (fl_enabled f))
  | SetMaxRetries v =>
      x ← not_null v;
      Ok (put (fl_name f) (fl_source_connector f) (fl_source_event f) (fl_source_filter f) (fl_destination_connector f)
            (fl_destination_action f) (fl_field_mapping f) (fl_transform f) (fl_on_error f) x (fl_enabled f))
  | SetEnabled v =>
      x ← not_null v;
      Ok (put (fl_name f) (fl_source_connector f) (fl_source_event f) (fl_source_filter f) (fl_destination_connector f)
            (fl_destination_action f) (fl_field_mapping f) (fl_transform f) (fl_on_error f) (fl_max_retries f) x)
  end.

(** The name of a changed field with its new value, and with the value of a row. *)
Definition opt_value {A} (f : A -> pyval) (v : option A) : pyval := match v with Some a => f a | None => PNone end.
Definition new_entry (c : flow_change) : string * pyval :=
  match c with
  | SetName v => ("name", opt_value PStr v)
  | SetSourceConnector v => ("source_connector", opt_value PStr v)
  | SetSourceEvent v => ("source_event", opt_value PStr v)
  | SetSourceFilter v => ("source_filter", opt_value PDict v)
  | SetDestinationConnector v => ("destination_connector", opt_value PStr v)
  | SetDestinationVersion v => ("destination_connector_version", opt_value PStr v)
  | SetDestinationAction v => ("destination_action", opt_value PStr v)
  | SetFieldMapping v => ("field_mapping", opt_value mapping_value v)
  | SetTransform v => ("transform", opt_value PStr v)
  | SetOnError v => ("on_error", opt_value PStr v)
  | SetMaxRetries v => ("max_retries", opt_value PInt v)
  | SetEnabled v => ("is_enabled", opt_value PBool v)
  end.
Definition old_entry (r : flow_row) (c : flow_change) : string * pyval :=
  let f := fr_flow r in
  ((new_entry c).1,
   match c with
   | SetName _ => PStr (fl_name f)
   | SetSourceConnector _ => PStr (fl_source_connector f)
   | SetSourceEvent _ => PStr (fl_source_event f)
   | SetSourceFilter _ => PDict (fl_source_filter f)
   | SetDestinationConnector _ => PStr (fl_destination_connector f)
   | SetDestinationVersion _ => opt_value PStr (fr_version r)
   | SetDestinationAction _ => PStr (fl_destination_action f)
   | SetFieldMapping _ => fl_field_mapping f
   | SetTransform _ => PStr (fl_transform f)
   | SetOnError _ => PStr (fl_on_error f)
   | SetMaxRetries _ => PInt (fl_max_retries f)
   | SetEnabled _ => PBool (fl_enabled f)
   end).

(** [FlowResponse.model_validate]: the mapping must be a list of objects. *)
Definition flow_response (r : flow_row) : res flow_row :=
  match fl_field_mapping (fr_flow r) with
  | PList l => if forallb is_dict l then Ok r else Raise (ValueError "validation error for FlowResponse")
  | _ => Raise (ValueError "validation error for FlowResponse")
  end.

Definition flow_audit (tenant : Tenant) (id action : string) (old new : option audit_value) (ip : option string)
    (now : Z) : AuditLog :=
  AuditEntry (tn_id tenant) (Some (tn_slug tenant)) "flow" id action old new ip now.

(** [create_flow]; [id] and [now] are drawn by the database. *)
Definition create_flow (tenant : Tenant) (body : FlowCreate) (ip : option string) (id : string) (now : Z)
  : EM flows_db flow_row :=
  let row := FlowRow (tn_id tenant) id
    (MkFlow (fc_name body) (fc_source_connector body) (fc_source_event body) (default [] (fc_source_filter body))
       (fc_destination_connector body) (fc_destination_action body) (mapping_value (fc_field_mapping body))
       (default "" (fc_transform body)) (fc_on_error body) (fc_max_retries body) true)
    (fc_destination_connector_version body) in
  _ ← Effects.lift (check_flow row);
  _ ← modify (fun db => FlowsDb (fd_flows db ++ [row])
        (fd_audit db ++ [flow_audit tenant id "create" None
           (Some (AuditFields [("name", PStr (fc_name body)); ("source", PStr (fc_source_connector body));
                               ("destination", PStr (fc_destination_connector body))])) ip now])%list);
  Effects.lift (flow_response row).

(** [list_flows]. *)
Definition list_flows (tenant : Tenant) : EM flows_db (list flow_row) :=
  db ← get_st;
  Effects.lift (mapR flow_response (List.filter (fun r => String.eqb (fr_tenant r) (tn_id tenant)) (fd_flows db))).

(** [select(Flow).where(id, tenant_id)], or 404. *)
Definition select_flow (tenant : Tenant) (id : string) : EM flows_db flow_row :=
  db ← get_st;
  row ← Effects.lift (scalar_one_or_none
    (List.filter (fun r => String.eqb (fr_id r) id && String.eqb (fr_tenant r) (tn_id tenant)) (fd_flows db)));
  match row with Some r => mret r | None => http_error 404 "Flow not found" end.

(** [delete_flow]. *)
Definition delete_flow (tenant : Tenant) (id : string) (ip : option string) (now : Z) : EM flows_db unit :=
  row ← select_flow tenant id;
  modify (fun db => FlowsDb (delete_rows (has_key fr_id (fr_id row)) (fd_flows db))
    (fd_audit db ++ [flow_audit tenant (fr_id row) "delete"
       (Some (AuditFields [("name", PStr (fl_name (fr_flow row)))])) None ip now])%list).

(** [update_flow]; the answer is built after the commit. *)
Definition update_flow (tenant : Tenant) (id : string) (changes : list flow_change) (ip : option string) (now : Z)
  : EM flows_db flow_row :=
  row ← select_flow tenant id;
  row' ← Effects.lift (foldR apply_change row changes);
  _ ← Effects.lift (check_flow row');
  _ ← modify (fun db => FlowsDb (Effects.update_rows (has_key fr_id (fr_id row)) (fun _ => row') (fd_flows db))
        (fd_audit db ++ [flow_audit tenant (fr_id row) "update"
           (Some (AuditFields (dict_of (map (old_entry row) changes))))
           (Some (AuditFields (dict_of (map new_entry changes)))) ip now])%list);
  Effects.lift (flow_response row').

(** ** Events *)

(** The executions an event started. *)
Record event_answer := EventAnswer {
  ea_flows : list (string * FlowExecution);
  ea_workflows : list WorkflowExecution
}.


Section events.
Context `{Cipher} `{FormatLib} {store rstore : Type} `{KeyValue store string} `{Redis rstore}.
Variables (raw_key internal_secret : string) (reg : registry).
Variable provider : list token_request -> token_request -> res TokenResponse.
Variable server : server_t.
Variable limiter_ : option limiter.
Variable lib : TextLib.
Variable jmespath : option (string -> dict -> res pyval).
(** The workflow engine: its environment, SHA-256 and the execution of a workflow. *)
Variable E : Env.
Variable sha256 : string -> string.
Variable exec : Workflow -> dict -> M WorkflowExecution.
(** The tables that an event only reads. *)
Variable flows : list flow_row.
Variable overrides : flow_row -> list FieldMapping.
Variable workflow_table : list stored_workflow.
Abbreviation world := (Actions.world (store := store) (rstore := rstore)).

(** Both engines on an event of a tenant: what the flows sent stays when the workflows raise. *)
Definition flows_of (tenant connector event : string) (data : dict) (w : world) : list (string * FlowExecution) * world :=
  process_flow_event raw_key reg provider server limiter_ lib jmespath flows overrides tenant connector event data w.
Definition workflows_of (tenant connector event : string) (data : dict) (now : Z) (l : Ledger)
  : M (res (list WorkflowExecution * Ledger)) :=
  Engine.try_catch (x ← Events.process_event E sha256 exec workflow_table tenant connector event data now l; ret (Ok x))
    (fun e => ret (Raise e)).

(** The tenants one after the other, until one raises: the ledger before the commit, and the world. *)
Fixpoint process_tenants (tenants : list string) (connector event : string) (data : dict) (l : Ledger) (w : world)
  : M (res event_answer * Ledger * world) :=
  match tenants with
  | [] => ret (Ok (EventAnswer [] []), l, w)
  | tenant :: tenants' =>
      let '(xs, w1) := flows_of tenant connector event data w in
      r ← workflows_of tenant connector event data (wd_now w1) l;
      match r with
      | Raise e => ret (Raise e, l, w1)
      | Ok (ys, l1) =>
          '(rest, l2, w2) ← process_tenants tenants' connector event data l1 w1;
          ret (match rest with
               | Ok a => Ok (EventAnswer (xs ++ ea_flows a) (ys ++ ea_workflows a))
               | Raise e => Raise e
               end, l2, w2)
      end
  end.

(** The request ends with a commit; an exception undoes what it wrote. *)
Definition committed (l : Ledger) (m : M (res event_answer * Ledger * world))
  : M (res event_answer * Ledger * world) :=
  '(r, l', w') ← m;
  ret (r, match r with Ok _ => l' | Raise _ => l end, w').

(** [trigger_event]. *)
Definition trigger_event (tenant : Tenant) (connector event : string) (data : dict) (l : Ledger) (w : world)
  : M (res event_answer * Ledger * world) :=
  committed l (process_tenants [tn_id tenant] connector event data l w).

(** [internal_trigger_event]: the tenants of [_tenant_id], or all the active ones. *)
Definition event_tenants (tenants : list Tenant) (data : dict) : res (list Tenant) :=
  let target := dget_or "_tenant_id" PNone data in
  let found := target_tenants tenants target in
  if truthy target && bool_decide (parse_uuid (py_str target) = None)
  then Raise (http_exception 400 "Invalid _tenant_id format")
  else match found with
       | [] => Raise (http_exception 404 "No active tenant found for the given identifier")
       | _ => Ok found
       end.
Definition internal_trigger_event (provided : option string) (tenants : list Tenant) (connector event : string)
    (data : dict) (l : Ledger) (w : world) : M (res event_answer * Ledger * world) :=
  match (_ ← (require_internal_secret internal_secret provided tt).1; event_tenants tenants data) with
  | Raise e => ret (Raise e, l, w)
  | Ok ts => committed l (process_tenants (map tn_id ts) connector event data l w)
  end.

(** ** Facts *)

Lemma run_flows_ids ov data rows (w : world) :
  map fst (run_flows raw_key reg provider server limiter_ lib jmespath ov data rows w).1 = map fr_id rows.
Proof.
  revert w. induction rows as [|row rows IH]; intros w; [done|]. cbn [run_flows].
  destruct (run_flow _ _ _ _ _ _ _ _ _ _ _) as [x w1]. specialize (IH w1).
  destruct (run_flows _ _ _ _ _ _ _ _ _ _ w1) as [xs w2]. cbn in *. by rewrite IH.
Qed.

(** A flow an event may run for a tenant. *)
Definition wanted (tenants : list string) (connector event : string) (id : string) : Prop :=
  exists row, row ∈ flows /\ fr_id row = id /\ fr_tenant row ∈ tenants /\ fl_enabled (fr_flow row) = true
    /\ fl_source_connector (fr_flow row) = connector /\ fl_source_event (fr_flow row) = event.

Lemma flows_of_wanted tenant connector event data (w : world) tenants :
  tenant ∈ tenants -> Forall (wanted tenants connector event) (map fst (flows_of tenant connector event data w).1).
Proof.
  intros Ht. unfold flows_of, process_flow_event. rewrite run_flows_ids. apply Forall_forall. intros id Hid.
  apply in_map_iff in Hid as (row & <- & Hin). unfold get_flows_for_event in Hin.
  apply filter_In in Hin as [Hin Hp]. exists row. split; [by apply list_elem_of_In|]. split; [done|].
  apply andb_true_iff in Hp as [[[Htn%String.eqb_eq Hcn%String.eqb_eq]%andb_true_iff Hev%String.eqb_eq]%andb_true_iff Hen].
  by rewrite Htn.
Qed.

(** C12: An event runs only enabled flows of the tenants it is for, that are bound to it. *)
Theorem event_runs_bound_flows tenants connector event data l w s a l' w' s' :
  process_tenants tenants connector event data l w s = Returned (Ok (Ok a, l', w')) s' ->
  Forall (wanted tenants connector event) (map fst (ea_flows a)).
Proof.
  intros Hp. enough (forall all, (forall t, t ∈ tenants -> t ∈ all) ->
    Forall (wanted all connector event) (map fst (ea_flows a))) as He by (by apply He).
  revert l w s a l' w' s' Hp. induction tenants as [|t tenants IH]; intros l w s a l' w' s' Hp all Hall.
  { cbn in Hp. injection Hp as <- _ _ _. constructor. }
  cbn [process_tenants] in Hp. pose proof (flows_of_wanted t connector event data w all ltac:(apply Hall; left)) as Hw.
  destruct (flows_of t connector event data w) as [xs w1]. cbn [fst] in Hw.
  unfold mbind, M_bind, ret in Hp. destruct (workflows_of _ _ _ _ _ _ s) as [[[[ys l1]|e]|e] s1| |]; try done.
  destruct (process_tenants tenants connector event data l1 w1 s1) as [[[[[a1|e] l2] w2]|e] s2| |] eqn:Er; try done.
  injection Hp as <- _ _ _. cbn [ea_flows]. rewrite map_app. apply Forall_app. split; [done|].
  apply (IH _ _ _ _ _ _ _ Er). intros u Hu. apply Hall. by right.
Qed.

Lemma process_tenants_app before : forall after connector event data l w s a l1 w1 s1,
  process_tenants before connector event data l w s = Returned (Ok (Ok a, l1, w1)) s1 ->
  forall e l2 w2 s2, process_tenants after connector event data l1 w1 s1 = Returned (Ok (Raise e, l2, w2)) s2 ->
  process_tenants (before ++ after) connector event data l w s = Returned (Ok (Raise e, l2, w2)) s2.
Proof.
  induction before as [|t before IH]; intros after connector event data l w s a l1 w1 s1 Hb e l2 w2 s2 Ha.
  { cbn in Hb. by injection Hb as _ -> -> ->. }
  cbn [process_tenants app] in *. destruct (flows_of t connector event data w) as [xs w0].
  unfold mbind, M_bind, ret in *. destruct (workflows_of _ _ _ _ _ _ s) as [[[[ys l0]|e0]|e0] s0| |]; try done.
  destruct (process_tenants before connector event data l0 w0 s0) as [[[[[a1|e0'] l3] w3]|e0'] s3| |] eqn:Er; try done.
  injection Hb as _ -> -> ->. by rewrite (IH _ _ _ _ _ _ _ _ _ _ _ Er _ _ _ _ Ha).
Qed.

(** When the trigger filters of one tenant raise, the tenants after it get nothing of an event
    posted by a connector, and nothing is recorded for the tenants before it, although their flows
    and its own have sent their actions. *)
Theorem one_tenant_blocks_the_others before t after connector event data l w s a l1 w1 s1 e :
  process_tenants before connector event data l w s = Returned (Ok (Ok a, l1, w1)) s1 ->
  matched_workflows E data (get_workflows_for_event workflow_table t connector event) = Raise e ->
  committed l (process_tenants (before ++ t :: after) connector event data l w) s
  = Returned (Ok (Raise e, l, (flows_of t connector event data w1).2)) s1.
Proof.
  intros Hb He. unfold committed. unfold mbind at 1, M_bind at 1.
  rewrite (process_tenants_app before (t :: after) connector event data l w s a l1 w1 s1 Hb e l1
             (flows_of t connector event data w1).2 s1); [done|].
  cbn [process_tenants]. destruct (flows_of t connector event data w1) as [xs w2]. cbn [snd].
  unfold workflows_of, Events.process_event, Engine.try_catch, Engine.lift, ret, mbind, M_bind. by rewrite He.
Qed.
End events.

(** An update that sends [null] for the mapping is answered with an error and kept, and from
    then on the tenant's flows cannot be listed. *)
Theorem null_mapping_breaks_listing tenant id ip now row db :
  unique_rows fr_id (fd_flows db) -> row ∈ fd_flows db -> fr_id row = id -> fr_tenant row = tn_id tenant ->
  check_flow row = Ok tt ->
  let '(r, db') := update_flow tenant id [SetFieldMapping None] ip now db in
  is_ok r = false /\ is_ok (list_flows tenant db').1 = false.
Proof.
  intros Hu Hin Hid Ht Hc. unfold update_flow, select_flow, get_st, Effects.lift, modify, mbind, EM_bind, mret, EM_ret.
  rewrite <- (filter_filter (fun r => String.eqb (fr_id r) id)).
  assert (Hf : List.filter (fun r => String.eqb (fr_id r) id) (fd_flows db) = [row]).
  { replace (List.filter _ _) with (List.filter (has_key fr_id (fr_id row)) (fd_flows db)).
    - by rewrite unique_filter_key, (find_key_unique fr_id).
    - apply filter_ext. intros r. unfold has_key. rewrite Hid. destruct (String.eqb_spec (fr_id r) id); by case_bool_decide. }
  rewrite Hf. cbn [List.filter]. rewrite Ht, String.eqb_refl. cbn [scalar_one_or_none foldR apply_change]. cbn [mbind res_bind].
  match goal with |- context [check_flow ?r] => set (row' := r) end.
  replace (check_flow row') with (check_flow row) by done. rewrite Hc. cbn [flow_response is_ok].
  split; [done|]. unfold list_flows, get_st, Effects.lift, mbind, EM_bind. cbn [fst fd_flows].
  assert (Hr : row' ∈ Effects.update_rows (has_key fr_id (fr_id row)) (fun _ => row') (fd_flows db)).
  { apply list_elem_of_In, in_map_iff. exists row. rewrite (proj2 (has_key_true fr_id (fr_id row) row) eq_refl).
    split; [done|by apply list_elem_of_In]. }
  destruct (mapR flow_response _) as [l|] eqn:Em; [|done]. exfalso.
  assert (Hl : row' ∈ List.filter (fun r => String.eqb (fr_tenant r) (tn_id tenant))
                        (Effects.update_rows (has_key fr_id (fr_id row)) (fun _ => row') (fd_flows db))).
  { apply list_elem_of_In, filter_In. split; [by apply list_elem_of_In|]. cbn. rewrite Ht. apply String.eqb_refl. }
  revert l Em. clear -Hl. induction (List.filter _ _) as [|x rows IH]; intros l Em; [by apply not_elem_of_nil in Hl|].
  cbn [mapR] in Em. bind_ok. apply elem_of_cons in Hl as [<-|Hl]; [done|]. by apply (IH Hl x1).
Qed.

(** An event whose name has more than a hundred characters passes the validation of a flow, which
    allows two hundred, and is refused by the database. *)
Theorem long_event_names_fail tenant body ip id now db :
  (100 < String.length (fc_source_event body))%nat ->
  exists e, create_flow tenant body ip id now db = (Raise e, db).
Proof.
  intros Hlen. unfold create_flow, Effects.lift, mbind, EM_bind.
  match goal with |- context [check_flow ?r] => assert (H : exists e, check_flow r = Raise e) end.
  { unfold check_flow, mbind, res_bind. cbn [fr_flow fl_name fl_source_connector fl_source_event].
    unfold varchar. destruct (_ <=? _)%nat; [|by eexists]. destruct (_ <=? _)%nat; [|by eexists].
    apply Nat.leb_gt in Hlen. rewrite Hlen. by eexists. }
  destruct H as [e ->]. by exists e.
Qed.

(** ** Examples *)

Definition shop_flow (tenant id : string) : flow_row :=
  FlowRow tenant id (MkFlow "f" "shop" "order.created" [] "dhl" "ship" (PList []) "" "stop" 0 true) None.
Definition shop_flows : list flow_row := [shop_flow "t1" "f1"; shop_flow "t2" "f2"; shop_flow "t3" "f3"].
Definition answering : server_t := fun _ _ => inl (MkResponse 200 "" (Ok PNone) "" "").
Definition no_provider : list token_request -> token_request -> res TokenResponse := fun _ _ => Raise (OtherError "down").
(** A workflow of the second tenant whose trigger filters are not an object. *)
Definition broken_table : list stored_workflow :=
  [Stored "t2" true (Wf "w" "w" [Node "n" "trigger" "" [("filters", PStr "all")]] [] [] "stop" 0 "shop" "order.created" PNone)].
Abbreviation demo_worlds := (world (store := gmap string (string * Z)) (rstore := demo_store)).
Definition demo_process (tenants : list string) : Ledger -> demo_worlds -> M (res event_answer * Ledger * demo_worlds) :=
  process_tenants "key" [] no_provider answering None no_lib None no_env id demo_exec shop_flows (fun _ => []) broken_table
    tenants "shop" "order.created" [("id", PInt 7)].

Lemma event_runs_bound_flows_witness :
  exists a l' w' s', demo_process ["t1"; "t3"] empty_ledger demo_world (start (new_context [])) = Returned (Ok (Ok a, l', w')) s'
    /\ map fst (ea_flows a) = ["f1"; "f3"] /\ length (wd_log w') = 2%nat
    /\ Forall (wanted shop_flows ["t1"; "t3"] "shop" "order.created") (map fst (ea_flows a)).
Proof.
  destruct (demo_process ["t1"; "t3"] empty_ledger demo_world (start (new_context []))) as [[[[[a|] l'] w']|] s'| |] eqn:E;
    [|by vm_compute in E..].
  exists a, l', w', s'. split; [done|].
  assert (H : map fst (ea_flows a) = ["f1"; "f3"] /\ length (wd_log w') = 2%nat).
  { pose proof E as E0. vm_compute in E0. injection E0 as <- _ <- _. by vm_compute. }
  destruct H as [H1 H2]. split; [exact H1|]. split; [exact H2|].
  exact (event_runs_bound_flows "key" [] no_provider answering None no_lib None no_env id demo_exec shop_flows (fun _ => [])
           broken_table ["t1"; "t3"] "shop" "order.created" [("id", PInt 7)] empty_ledger demo_world
           (start (new_context [])) a l' w' s' E).
Defined.

(** The third tenant's flow is not run; those of the first two have sent their actions. *)
Lemma one_tenant_blocks_the_others_witness :
  exists e w', committed empty_ledger (demo_process ["t1"; "t2"; "t3"] empty_ledger demo_world) (start (new_context []))
    = Returned (Ok (Raise e, empty_ledger, w')) (start (new_context [])) /\ length (wd_log w') = 2%nat.
Proof.
  destruct (demo_process ["t1"] empty_ledger demo_world (start (new_context []))) as [[[[[a|] l1] w1]|] s1| |] eqn:E;
    [|by vm_compute in E..].
  destruct (matched_workflows no_env [("id", PInt 7)] (get_workflows_for_event broken_table "t2" "shop" "order.created"))
    as [|e] eqn:Ee; [by vm_compute in Ee|].
  assert (Hs : s1 = start (new_context []) /\ length (wd_log w1) = 1%nat).
  { pose proof E as E0. vm_compute in E0. injection E0 as _ _ <- <-. by vm_compute. }
  destruct Hs as [Hs Hlog]. subst s1. eexists e, _. split.
  - exact (one_tenant_blocks_the_others "key" [] no_provider answering None no_lib None no_env id demo_exec shop_flows
             (fun _ => []) broken_table ["t1"] "t2" ["t3"] "shop" "order.created" [("id", PInt 7)] empty_ledger demo_world
             (start (new_context [])) a l1 w1 (start (new_context [])) e E Ee).
  - clear -E. vm_compute in E. injection E as _ _ <-. by vm_compute.
Defined.

Lemma null_mapping_breaks_listing_witness :
  let db := FlowsDb shop_flows [] in
  let '(r, db') := update_flow (MkTenant "t1" "acme" true) "f1" [SetFieldMapping None] None 5 db in
  is_ok r = false /\ is_ok (list_flows (MkTenant "t1" "acme" true) db').1 = false.
Proof.
  apply (null_mapping_breaks_listing (MkTenant "t1" "acme" true) "f1" None 5 (shop_flow "t1" "f1") (FlowsDb shop_flows []));
    [by_deciding|left|done..].
Defined.

Lemma long_event_names_fail_witness :
  let event := string_of_list_ascii (repeat ("e"%char) 150) in
  exists e, create_flow (MkTenant "t1" "acme" true)
    (MkFlowCreate "f" "shop" event None "dhl" None "ship" [] None "stop" 0) None "f1" 5 (FlowsDb [] [])
  = (Raise e, FlowsDb [] []).
Proof. cbv zeta. apply long_event_names_fail. vm_compute. lia. Defined.
