(* ===== verification/ExecutionsApi.v ===== *)
(** Executions, as the gateway shows them ([platform/api/gateway.py]): the listings of flow and
    workflow executions, their details with personal data masked, re-runs and comparisons, the
    ledger of a workflow, and the answer of [call_workflow_get]. *)

From stdpp Require Import sorting.
From S2P Require Import Prelude PyText PyValue Effects IpAddress Redaction Urls Graph Context Engine Sync.
From S2P Require Import Flow Actions Events Auth.

Local Open Scope string_scope.

(** ** Rows *)

Record flow_execution := FlowRun {
  fx_id : string;
  fx_flow : string;
  fx_tenant : string;
  fx_status : string;
  fx_source_event_data : dict;
  fx_destination_action_data : dict;
  fx_result : option dict;
  fx_error : option string;
  fx_retry_count : Z;
  fx_duration : option Z;
  fx_started : Z;
  fx_completed : option Z
}.

(** The engine's record of an execution, with the columns the engine does not compute;
    the workflow is unset once it is deleted. *)
Record workflow_execution := WorkflowRun {
  wx_tenant : string;
  wx_workflow : option string;
  wx_execution : WorkflowExecution;
  wx_duration : option Z;
  wx_started : Z;
  wx_completed : option Z
}.
Definition wx_id (x : workflow_execution) : string := ex_id (wx_execution x).

Record exec_db := ExecDb {
  xd_flow_runs : list flow_execution;
  xd_runs : list workflow_execution;
  xd_flows : list flow_row;
  xd_workflows : list stored_workflow;
  xd_ledger : Ledger
}.

(** ** Listings *)

(** The filters of a listing; an empty text is no filter, and identifiers are well formed. *)
Record run_query := RunQuery {
  q_owner : option string;
  q_status : option string;
  q_from : option Z;
  q_to : option Z
}.

Definition chosen (o : option string) (p : string -> bool) : bool :=
  match o with Some (String _ _ as s) => p s | _ => true end.
Definition bounded (o : option Z) (p : Z -> bool) : bool := match o with Some n => p n | None => true end.

Section listing.
Context {R : Type} (tenant_of status_of : R -> string) (owner_of : R -> option string) (started : R -> Z).

(** The rows of the tenant that the query selects. *)
Definition selected (tenant : string) (q : run_query) (rows : list R) : list R :=
  List.filter (fun r =>
    String.eqb (tenant_of r) tenant
    && chosen (q_owner q) (fun s => bool_decide (owner_of r = Some s))
    && chosen (q_status q) (String.eqb (status_of r))
    && bounded (q_from q) (fun t => t <=? started r)%Z
    && bounded (q_to q) (fun t => started r <=? t)%Z) rows.

(** [ORDER BY started_at DESC]: the database may give rows of one time in any order. *)
Definition later (a b : R) : Prop := (started b <= started a)%Z.
Definition newest_first (arrange : list R -> list R) : Prop :=
  forall l, arrange l ≡ₚ l /\ StronglySorted later (arrange l).

(** [.offset(offset).limit(limit)] with the limits of the parameters: FastAPI refuses a limit
    above 200 and a negative offset, the database a negative limit. *)
Definition window (limit offset : Z) (l : list R) : res (list R) :=
  if (200 <? limit)%Z || (offset <? 0)%Z then Raise (http_exception 422 "Unprocessable Entity")
  else if (limit <? 0)%Z then Raise (OtherError "DBAPIError")
  else Ok (take (Z.to_nat limit) (drop (Z.to_nat offset) l)).

Definition listing (arrange : list R -> list R) (tenant : string) (q : run_query) (limit offset : Z) (rows : list R)
  : res (list R) :=
  window limit offset (arrange (selected tenant q rows)).
End listing.

(** [list_flow_executions] and the rows of [list_workflow_executions]. *)
Definition list_flow_executions (arrange : list flow_execution -> list flow_execution) (tenant : Tenant)
    (q : run_query) (limit offset : Z) (db : exec_db) : res (list flow_execution) :=
  listing fx_tenant fx_status (fun x => Some (fx_flow x)) fx_started arrange (tn_id tenant) q limit offset (xd_flow_runs db).
Definition list_runs (arrange : list workflow_execution -> list workflow_execution) (tenant : Tenant)
    (q : run_query) (limit offset : Z) (db : exec_db) : res (list workflow_execution) :=
  listing wx_tenant (fun x => ex_status (wx_execution x)) wx_workflow wx_started arrange (tn_id tenant) q limit offset
    (xd_runs db).

(** ** What is shown of an execution *)

Definition shown_key (k : string) : bool := String.eqb k "_gdpr" || negb (starts_with "_" k).

(** [_strip_internal_execution_fields]. *)
Fixpoint strip_internal_execution_fields (value : pyval) : pyval :=
  match value with
  | PDict d =>
      PDict (omap (M := list)
        (fun kv => if shown_key kv.1 then Some (kv.1, strip_internal_execution_fields kv.2) else None) d)
  | PList l => PList (map strip_internal_execution_fields l)
  | _ => value
  end.
Definition stripped_dict (d : dict) : dict :=
  match strip_internal_execution_fields (PDict d) with PDict d' => d' | _ => [] end.

(** A result entry as it is stored, without its duration. *)
Definition optional_entry {A} (k : string) (f : A -> pyval) (v : option A) : dict :=
  match v with Some a => [(k, f a)] | None => [] end.
Definition entry_value (e : entry) : pyval :=
  PDict ([("node_id", PStr (en_node_id e)); ("node_type", PStr (en_node_type e)); ("label", PStr (en_label e));
          ("status", PStr (en_status e))]
         ++ optional_entry "input" id (en_input e)
         ++ [("_replay_state", PDict [("data", PDict (rp_data (en_replay e)));
                                      ("variables", PDict (rp_variables (en_replay e)));
                                      ("node_outputs", PDict (rp_outputs (en_replay e)))])]
         ++ optional_entry "output" id (en_output e) ++ optional_entry "_raw_output" id (en_raw_output e)
         ++ optional_entry "error" PStr (en_error e) ++ optional_entry "retries" PInt (en_retries e))%list.

(** [WorkflowExecutionResponse]; the times and the duration, which are copied, are left out. *)
Record execution_response := Response {
  xr_id : string;
  xr_workflow : option string;
  xr_name : string;
  xr_status : string;
  xr_trigger_data : dict;
  xr_node_results : list pyval;
  xr_context_snapshot : dict;
  xr_error : option string;
  xr_error_node_id : option string
}.

(** [_serialize_workflow_execution]. *)
Definition serialize_workflow_execution (workflow : option string) (x : WorkflowExecution) : execution_response :=
  Response (ex_id x) workflow (ex_workflow_name x) (ex_status x) (stripped_dict (ex_trigger_data x))
    (map (fun e => strip_internal_execution_fields (entry_value e)) (ex_node_results x))
    (stripped_dict (ex_context_snapshot x)) (ex_error x) (ex_error_node_id x).

(** [list_workflow_executions]. *)
Definition list_workflow_executions (arrange : list workflow_execution -> list workflow_execution) (tenant : Tenant)
    (q : run_query) (limit offset : Z) (db : exec_db) : res (list execution_response) :=
  xs ← list_runs arrange tenant q limit offset db;
  Ok (map (fun x => serialize_workflow_execution (wx_workflow x) (wx_execution x)) xs).

(** ** Details *)

Definition opt_int (o : option Z) : pyval := match o with Some n => PInt n | None => PNone end.

Definition owned {R} (id_of tenant_of : R -> string) (tenant : Tenant) (id : string) (detail : string) (rows : list R)
  : res R :=
  found ← scalar_one_or_none (List.filter (fun r => String.eqb (id_of r) id && String.eqb (tenant_of r) (tn_id tenant)) rows);
  match found with Some r => Ok r | None => Raise (http_exception 404 detail) end.

Section details.
(** [datetime.isoformat] on the times of the model. *)
Variable isoformat : Z -> string.

(** [FlowExecutionDetailResponse]; times, duration and retries are copied and left out. *)
Record flow_detail := FlowDetail {
  fd_id : string;
  fd_flow : string;
  fd_status : string;
  fd_source_event_data : pyval;
  fd_destination_action_data : pyval;
  fd_result : pyval;
  fd_error : option string;
  fd_flow_name : option string;
  fd_source_connector : option string;
  fd_destination_connector : option string;
  fd_gdpr_meta : pyval
}.

Definition raw_flow_execution (x : flow_execution) (flow : option flow_row) : dict :=
  [("id", PStr (fx_id x)); ("flow_id", PStr (fx_flow x)); ("status", PStr (fx_status x));
   ("source_event_data", PDict (fx_source_event_data x));
   ("destination_action_data", PDict (fx_destination_action_data x));
   ("result", match fx_result x with Some d => PDict d | None => PNone end);
   ("error", opt_str (fx_error x)); ("retry_count", PInt (fx_retry_count x)); ("duration_ms", opt_int (fx_duration x));
   ("started_at", PStr (isoformat (fx_started x))); ("completed_at", opt_str (isoformat <$> fx_completed x));
   ("flow_name", opt_str ((fun r => fl_name (fr_flow r)) <$> flow));
   ("source_connector", opt_str ((fun r => fl_source_connector (fr_flow r)) <$> flow));
   ("destination_connector", opt_str ((fun r => fl_destination_connector (fr_flow r)) <$> flow))].

(** The member of the redacted record, or the default. *)
Definition member_or (k : string) (default : pyval) (v : pyval) : pyval :=
  match v with PDict d => dget_or k default d | _ => default end.

(** [get_flow_execution_detail]. *)
Definition flow_detail_of (x : flow_execution) (flow : option flow_row) : flow_detail :=
  let redacted := Log.redact_execution_detail (raw_flow_execution x flow) false in
  FlowDetail (fx_id x) (fx_flow x) (fx_status x)
    (member_or "source_event_data" (PDict []) redacted) (member_or "destination_action_data" (PDict []) redacted)
    (member_or "result" PNone redacted) (fx_error x)
    ((fun r => fl_name (fr_flow r)) <$> flow) ((fun r => fl_source_connector (fr_flow r)) <$> flow)
    ((fun r => fl_destination_connector (fr_flow r)) <$> flow) (member_or "_gdpr" (PDict []) redacted).
Definition get_flow_execution_detail (tenant : Tenant) (id : string) (db : exec_db) : res flow_detail :=
  x ← owned fx_id fx_tenant tenant id "Flow execution not found" (xd_flow_runs db);
  flow ← scalar_one_or_none (List.filter (fun r => String.eqb (fr_id r) (fx_flow x)) (xd_flows db));
  Ok (flow_detail_of x flow).

(** [WorkflowExecutionDetailResponse]; times, duration and the description are left out. *)
Record run_detail := RunDetail {
  rd_id : string;
  rd_workflow : option string;
  rd_status : string;
  rd_trigger_data : pyval;
  rd_node_results : pyval;
  rd_context_snapshot : pyval;
  rd_nodes_snapshot : list WNode;
  rd_edges_snapshot : list WEdge;
  rd_error : option string;
  rd_error_node_id : option string;
  rd_workflow_name : string;
  rd_trigger : option (string * string);
  rd_gdpr_meta : pyval
}.

Definition raw_workflow_execution (x : workflow_execution) : dict :=
  let e := wx_execution x in
  [("id", PStr (ex_id e)); ("workflow_id", PStr (default "None" (wx_workflow x))); ("status", PStr (ex_status e));
   ("trigger_data", PDict (ex_trigger_data e)); ("node_results", PList (map entry_value (ex_node_results e)));
   ("context_snapshot", PDict (ex_context_snapshot e)); ("error", opt_str (ex_error e));
   ("error_node_id", opt_str (ex_error_node_id e)); ("duration_ms", opt_int (wx_duration x));
   ("started_at", PStr (isoformat (wx_started x))); ("completed_at", opt_str (isoformat <$> wx_completed x))].

(** [get_workflow_execution_detail]: the graph of the execution, or that of the workflow. *)
Definition or_list {A} (l : list A) (l' : option (list A)) : list A :=
  match l with [] => default [] l' | _ => l end.
Definition run_detail_of (x : workflow_execution) (workflow : option stored_workflow) : run_detail :=
  let e := wx_execution x in
  let wf := sw_workflow <$> workflow in
  let redacted := strip_internal_execution_fields (Log.redact_execution_detail (raw_workflow_execution x) false) in
  RunDetail (ex_id e) (wx_workflow x) (ex_status e)
    (member_or "trigger_data" (PDict []) redacted) (member_or "node_results" (PList []) redacted)
    (member_or "context_snapshot" (PDict []) redacted)
    (or_list (ex_nodes_snapshot e) (wf_nodes <$> wf)) (or_list (ex_edges_snapshot e) (wf_edges <$> wf))
    (ex_error e) (ex_error_node_id e)
    (match wf with
     | Some w => wf_name w
     | None => if String.eqb (ex_workflow_name e) "" then "(deleted)" else ex_workflow_name e
     end)
    ((fun w => (wf_trigger_connector w, wf_trigger_event w)) <$> wf) (member_or "_gdpr" (PDict []) redacted).
Definition get_workflow_execution_detail (tenant : Tenant) (id : string) (db : exec_db) : res run_detail :=
  x ← owned wx_id wx_tenant tenant id "Workflow execution not found" (xd_runs db);
  workflow ← scalar_one_or_none
    (List.filter (fun w => bool_decide (wx_workflow x = Some (wf_id (sw_workflow w)))) (xd_workflows db));
  Ok (run_detail_of x workflow).
End details.

(** ** Re-runs and comparisons *)

Definition owned_workflow (tenant : Tenant) (id : string) (db : exec_db) : res stored_workflow :=
  owned (fun w => wf_id (sw_workflow w)) sw_tenant tenant id "Workflow not found" (xd_workflows db).

(** The execution of the tenant, which must be one of the workflow. *)
Definition execution_of (tenant : Tenant) (w : stored_workflow) (id missing stranger : string) (db : exec_db)
  : res workflow_execution :=
  x ← owned wx_id wx_tenant tenant id missing (xd_runs db);
  if bool_decide (wx_workflow x = Some (wf_id (sw_workflow w))) then Ok x
  else Raise (http_exception 400 stranger).

(** [rerun_workflow_execution]. *)
Definition rerun_workflow_execution (E : Env) (fuel : nat) (tenant : Tenant) (workflow_id execution_id from_node_id : string)
    (override_data : dict) (db : exec_db) : M execution_response :=
  w ← Engine.lift (owned_workflow tenant workflow_id db);
  original ← Engine.lift (execution_of tenant w execution_id "Execution not found"
                            "Execution does not belong to the requested workflow" db);
  execution ← rerun_from_node E fuel (sw_workflow w) (wx_execution original) from_node_id override_data;
  ret (serialize_workflow_execution (Some (wf_id (sw_workflow w))) execution).

(** [diff_workflow_executions]. *)
Definition diff_workflow_executions (tenant : Tenant) (workflow_id exec_a exec_b : string) (db : exec_db)
  : res (list node_diff) :=
  let find_run id w := execution_of tenant w id ("Execution " ++ id ++ " not found")
                     ("Execution " ++ id ++ " does not belong to the requested workflow") db in
  w ← owned_workflow tenant workflow_id db;
  a ← find_run exec_a w;
  b ← find_run exec_b w;
  Ok (diff_executions (wx_execution a) (wx_execution b)).

(** ** The ledger of a workflow *)

Definition set_ledger (l : Ledger) (db : exec_db) : exec_db :=
  ExecDb (xd_flow_runs db) (xd_runs db) (xd_flows db) (xd_workflows db) l.
Definition workflow_of (tenant : Tenant) (id : string) : EM exec_db stored_workflow :=
  db ← get_st; Effects.lift (owned_workflow tenant id db).
Definition on_ledger {A} (f : Ledger -> A * Ledger) : EM exec_db A := fun db =>
  let '(a, l) := f (xd_ledger db) in (Ok a, set_ledger l db).

(** [get_sync_stats]. *)
Definition get_sync_stats (tenant : Tenant) (id : string) : EM exec_db (string * string * pyval * list (string * nat)) :=
  w ← workflow_of tenant id;
  gets (fun db => (wf_id (sw_workflow w), wf_name (sw_workflow w), wf_sync_config (sw_workflow w),
                   get_stats (wf_id (sw_workflow w)) (Some (tn_id tenant)) (xd_ledger db))).
(** [get_sync_failed]. *)
Definition get_sync_failed (tenant : Tenant) (id : string) (limit : Z) : EM exec_db (list ledger_row) :=
  if (200 <? limit)%Z then http_error 422 "Unprocessable Entity"
  else _ ← workflow_of tenant id;
       if (limit <? 0)%Z then Effects.raise (OtherError "DBAPIError")
       else gets (fun db => get_failed_entries id (Z.to_nat limit) (Some (tn_id tenant)) (xd_ledger db)).
(** [retry_failed_syncs] and [clear_sync_ledger]. *)
Definition retry_failed_syncs (tenant : Tenant) (id : string) (now : Z) : EM exec_db nat :=
  _ ← workflow_of tenant id; on_ledger (reset_failed id (Some (tn_id tenant)) now).
Definition clear_sync_ledger (tenant : Tenant) (id : string) : EM exec_db nat :=
  _ ← workflow_of tenant id; on_ledger (clear_ledger id (Some (tn_id tenant))).

(** ** The answer of a call *)

Record fetched := Fetched { ft_status : Z; ft_location : option string; ft_content : string }.
Inductive call_answer :=
  | Proxied (filename content : string)
  | RedirectResponse (url : string)
  | Json (data : dict).

(** [_sanitize_filename]. *)
Definition breaks_header (c : ascii) : bool := existsb (Ascii.eqb c) ["013"; "010"; "034"; "092"]%char.
Definition sanitize_filename (name : string) : string :=
  str_take 255 (str_map (fun c => if breaks_header c then "_"%char else c) (py_strip name)).

(** What a call does outside, oldest first: a host name is resolved, a URL is fetched. *)
Inductive call_entry :=
  | Resolved (host : string) (answer : res (list string))
  | Got (url : string).

Section call.
(** The resolver and the servers may answer differently each time they are asked. *)
Variable getaddrinfo : list call_entry -> string -> res (list string).
Variable fetch : list call_entry -> string -> res fetched.

Abbreviation CL := (EM (list call_entry)).

Definition is_blocked (a : ip_addr) : bool := is_private a || is_loopback a || is_link_local a || is_reserved a.

(** [_is_safe_url]: whatever it raises inside, it answers [False]. *)
Definition is_safe_url (url : string) : CL bool := fun log =>
  match urlparse url with
  | Raise _ => (Ok false, log)
  | Ok parsed =>
      if existsb (String.eqb (u_scheme parsed)) ["http"; "https"] then
        match hostname parsed with
        | None | Some EmptyString => (Ok false, log)
        | Some host =>
            let answer := getaddrinfo log host in
            (Ok match answer with
                | Raise _ => false
                | Ok resolved =>
                    forallb (fun a => match ip_address a with Some addr => negb (is_blocked addr) | None => false end) resolved
                end, (log ++ [Resolved host answer])%list)
        end
      else (Ok false, log)
  end.

Definition get_url (url : string) : CL fetched := fun log => (fetch log url, (log ++ [Got url])%list).

Definition fetch_file (url : string) : CL string :=
  resp ← get_url url;
  resp ← (if (300 <=? ft_status resp)%Z && (ft_status resp <=? 399)%Z then
            let redirect_url := default "" (ft_location resp) in
            safe ← is_safe_url redirect_url;
            if negb safe then http_error 400 "Redirect targets a blocked address range" else get_url redirect_url
          else mret resp);
  if (200 <=? ft_status resp)%Z && (ft_status resp <=? 299)%Z then mret (ft_content resp)
  else Effects.raise (OtherError "HTTPStatusError").

(** The end of [call_workflow_get]: what is done with the data of the execution. *)
Definition answer_call (trigger_data ctx_data : dict) (is_xhr : bool) : CL call_answer :=
  match dget "url" ctx_data with
  | Some (PStr url) =>
      if starts_with "http" url then
        safe ← is_safe_url url;
        if negb safe then http_error 400 "URL targets a blocked address range"
        else if is_xhr then
          key ← Effects.lift (match dget "key" trigger_data with
                              | None => Ok "file"
                              | Some (PStr s) => Ok s
                              | Some v => Raise (OtherError ("AttributeError: '" ++ type_name v ++ "' object has no attribute 'strip'"))
                              end);
          content ← fetch_file url;
          mret (Proxied (sanitize_filename key) content)
        else mret (RedirectResponse url)
      else mret (Json ctx_data)
  | _ => mret (Json ctx_data)
  end.
End call.

(** ** Facts on listings *)

Section listing_facts.
Context {R : Type} (started : R -> Z).

(** Rows with distinct times have one order. *)
Lemma newest_first_unique (l m : list R) :
  NoDup (map started l) -> l ≡ₚ m -> StronglySorted (later started) l -> StronglySorted (later started) m -> l = m.
Proof.
  intros Hnd Hp Hl Hm. revert m Hp Hm Hnd. induction Hl as [|x l Hl IH Hx]; intros m Hp Hm Hnd.
  { by apply Permutation_nil_l in Hp. }
  destruct Hm as [|y m Hm Hy]; [by apply Permutation_nil_r in Hp|].
  inversion Hnd as [|? ? Hn1 Hn2]; subst.
  assert (x = y) as ->.
  { assert (Hy' : y ∈ x :: l) by (rewrite Hp; left). apply elem_of_cons in Hy' as [->|Hyl]; [done|].
    assert (Hx' : x ∈ y :: m) by (rewrite <- Hp; left). apply elem_of_cons in Hx' as [->|Hxm]; [done|].
    exfalso. apply Hn1. rewrite Forall_forall in Hx, Hy.
    specialize (Hx y ltac:(by apply list_elem_of_In)). specialize (Hy x ltac:(by apply list_elem_of_In)).
    unfold later in *. assert (Heq : started x = started y) by lia. rewrite Heq.
    by apply list_elem_of_fmap_2. }
  f_equal. apply IH; [by apply (Permutation_cons_inv (a := y))|done|done].
Qed.

(** The pages from [offset] on, [n] of them, each answered by a query of its own. *)
Fixpoint pages {A} (query : nat -> Z -> res (list A)) (limit offset : Z) (i n : nat) : res (list A) :=
  match n with
  | O => Ok []
  | S n' => page ← query i offset; rest ← pages query limit (offset + limit) (S i) n'; Ok (page ++ rest)%list
  end.

Lemma window_ok (l : list R) (limit offset : Z) : (0 <= limit <= 200)%Z -> (0 <= offset)%Z ->
  window limit offset l = Ok (take (Z.to_nat limit) (drop (Z.to_nat offset) l)).
Proof.
  intros Hl Ho. unfold window.
  replace ((200 <? limit)%Z) with false by lia. replace ((offset <? 0)%Z) with false by lia.
  by replace ((limit <? 0)%Z) with false by lia.
Qed.

Lemma pages_window (l : list R) (limit : Z) (query : nat -> Z -> res (list R)) n : (0 <= limit <= 200)%Z ->
  (forall i offset, query i offset = window limit offset l) ->
  forall (offset : Z) i, (0 <= offset)%Z ->
  pages query limit offset i n = Ok (take (Z.to_nat limit * n) (drop (Z.to_nat offset) l)).
Proof.
  intros Hl Hq. induction n as [|n IH]; intros offset i Ho; [by rewrite Nat.mul_0_r|].
  cbn [pages]. rewrite Hq, window_ok by done. cbn [mbind res_bind]. rewrite IH by lia.
  unfold mbind, res_bind. f_equal. rewrite (Z2Nat.inj_add offset limit) by lia.
  rewrite <- drop_drop, take_take_drop. f_equal. lia.
Qed.
End listing_facts.

(** The pages of a listing, each ordered by the database on its own, are together the rows of
    the tenant that the filters select, newest first and each once, when no two of them started
    at the same time. *)
Theorem pages_partition arrange tenant q limit n db :
  let rows := selected wx_tenant (fun x => ex_status (wx_execution x)) wx_workflow wx_started (tn_id tenant) q (xd_runs db) in
  (forall i, newest_first wx_started (arrange i)) -> NoDup (map wx_started rows) ->
  (0 < limit <= 200)%Z -> (length rows <= Z.to_nat limit * n)%nat ->
  exists l, pages (fun i offset => list_runs (arrange i) tenant q limit offset db) limit 0 0 n = Ok l
    /\ l ≡ₚ rows /\ StronglySorted (later wx_started) l.
Proof.
  cbv zeta. intros Ha Hnd Hl Hn. set (rows := selected _ _ _ _ _ _ _) in *.
  destruct (Ha 0%nat rows) as [Hp Hs]. exists (arrange 0%nat rows). split; [|done].
  rewrite (pages_window (arrange 0%nat rows)); [| |intros i offset|]; [|lia| |done].
  - rewrite drop_0, take_ge; [done|]. rewrite Hp. lia.
  - unfold list_runs, listing. fold rows. f_equal. destruct (Ha i rows) as [Hpi Hsi].
    apply (newest_first_unique wx_started); [by rewrite Hpi| |done|done]. by rewrite Hpi, Hp.
Qed.

(** ** Facts on what is shown *)

(** No key of a value, at any depth, is an internal one. *)
Fixpoint no_internal_keys (v : pyval) : bool :=
  match v with
  | PDict d => forallb (fun kv => shown_key kv.1 && no_internal_keys kv.2) d
  | PList l => forallb no_internal_keys l
  | _ => true
  end.

Lemma strip_no_internal v : no_internal_keys (strip_internal_execution_fields v) = true.
Proof.
  induction v as [| | | |s|l IH|d IH] using pyval_nested_ind; try done; cbn [strip_internal_execution_fields no_internal_keys].
  - rewrite forallb_map. by apply forallb_forall; rewrite Forall_forall in IH.
  - induction IH as [|[k v] d Hv _ IHd]; [done|]. cbn [omap list_omap fst snd]. cbn [snd] in Hv.
    destruct (shown_key k) eqn:E; [|done]. cbn [forallb fst snd]. by rewrite E, Hv.
Qed.

Lemma stripped_dget k d :
  dget k (stripped_dict d) = if shown_key k then strip_internal_execution_fields <$> dget k d else None.
Proof.
  unfold stripped_dict. cbn [strip_internal_execution_fields].
  induction d as [|[k' v] d IH]; [by destruct (shown_key k)|]. cbn [omap list_omap fst snd dget].
  destruct (shown_key k') eqn:E; cbn [dget]; destruct (String.eqb_spec k k') as [->|Hne].
  - by rewrite E.
  - by rewrite IH.
  - rewrite IH. by rewrite E.
  - by rewrite IH.
Qed.

(** The answers of the executions show no internal field, whose name starts with an underscore, at
    any depth, and every other member of the trigger data and of the context. *)
Theorem internal_fields_stripped workflow x :
  let r := serialize_workflow_execution workflow x in
  no_internal_keys (PDict (xr_trigger_data r)) && no_internal_keys (PList (xr_node_results r))
    && no_internal_keys (PDict (xr_context_snapshot r)) = true
  /\ (forall k, dget k (xr_trigger_data r)
        = if shown_key k then strip_internal_execution_fields <$> dget k (ex_trigger_data x) else None)
  /\ (forall k, dget k (xr_context_snapshot r)
        = if shown_key k then strip_internal_execution_fields <$> dget k (ex_context_snapshot x) else None).
Proof.
  cbv zeta. cbn [serialize_workflow_execution xr_trigger_data xr_node_results xr_context_snapshot].
  split; [|split; intros k; apply stripped_dget].
  rewrite !andb_true_iff. split_and!; [apply (strip_no_internal (PDict _))| |apply (strip_no_internal (PDict _))].
  cbn [no_internal_keys]. rewrite forallb_map. apply forallb_forall. intros e _. apply strip_no_internal.
Qed.

(** ** Facts on details *)

(** Executions that differ only in personal data of their trigger data, results and contexts. *)
Record same_run (x y : workflow_execution) : Prop := SameRun {
  sr_trigger : Log.same_but_pii (PDict (ex_trigger_data (wx_execution x))) (PDict (ex_trigger_data (wx_execution y)));
  sr_results : Forall2 (fun e f => Log.same_but_pii (entry_value e) (entry_value f))
                 (ex_node_results (wx_execution x)) (ex_node_results (wx_execution y));
  sr_context : Log.same_but_pii (PDict (ex_context_snapshot (wx_execution x))) (PDict (ex_context_snapshot (wx_execution y)));
  sr_rest : exists results trigger context,
    y = WorkflowRun (wx_tenant x) (wx_workflow x)
          (let e := wx_execution x in
           Execution (ex_id e) (ex_workflow_id e) (ex_workflow_name e) (ex_status e) trigger (ex_nodes_snapshot e)
             (ex_edges_snapshot e) (ex_error e) (ex_error_node_id e) results context)
          (wx_duration x) (wx_started x) (wx_completed x)
}.

Lemma same_member k v w : Log.is_pii_key k = false -> Log.same_but_pii v w ->
  (k, v).1 = (k, w).1 /\ ((Log.is_pii_key (k, v).1 = true /\ (Log.opaque v /\ Log.opaque w \/ v = w))
                          \/ (Log.is_pii_key (k, v).1 = false /\ Log.same_but_pii v w)).
Proof. intros Hk H. split; [done|]. by right. Qed.

Lemma same_record d e : Log.same_but_pii (PDict d) (PDict e) ->
  Log.redact_execution_detail d false = Log.redact_execution_detail e false.
Proof. intros H. unfold Log.redact_execution_detail, Log.redact. by rewrite (redact_go_masks _ _ _ H). Qed.

(** The detail of a workflow execution shows nothing of the personal data in its trigger data,
    its results and its context: executions that differ there only have the same detail. *)
Theorem detail_hides_pii isoformat x y workflow :
  same_run x y -> run_detail_of isoformat x workflow = run_detail_of isoformat y workflow.
Proof.
  intros [Ht Hr Hc (results & trigger & context & ->)]. unfold run_detail_of. cbv zeta.
  cbn [wx_execution ex_trigger_data ex_node_results ex_context_snapshot] in *.
  rewrite (same_record (raw_workflow_execution isoformat x)
             (raw_workflow_execution isoformat (WorkflowRun (wx_tenant x) (wx_workflow x)
                (Execution (ex_id (wx_execution x)) (ex_workflow_id (wx_execution x)) (ex_workflow_name (wx_execution x))
                   (ex_status (wx_execution x)) trigger (ex_nodes_snapshot (wx_execution x))
                   (ex_edges_snapshot (wx_execution x)) (ex_error (wx_execution x)) (ex_error_node_id (wx_execution x))
                   results context) (wx_duration x) (wx_started x) (wx_completed x)))); [done|].
  unfold raw_workflow_execution. cbn [wx_execution wx_workflow wx_duration wx_started wx_completed ex_id ex_status
    ex_trigger_data ex_node_results ex_context_snapshot ex_error ex_error_node_id].
  apply Log.sbp_dict. repeat (apply List.Forall2_cons; [apply same_member; [by vm_compute|]|]); try apply Log.sbp_refl.
  - done.
  - apply Log.sbp_list. by apply Forall2_fmap.
  - done.
  - apply List.Forall2_nil.
Qed.

(** ** Facts on calls *)

Section call_facts.
Variable getaddrinfo : list call_entry -> string -> res (list string).
Variable fetch : list call_entry -> string -> res fetched.

(** The last thing that was done is to resolve the host of [url], an HTTP URL, and its addresses
    are all addresses of the Internet. *)
Definition just_checked (log : list call_entry) (url : string) : Prop :=
  exists log0 parsed host addrs, log = (log0 ++ [Resolved host (Ok addrs)])%list
    /\ urlparse url = Ok parsed /\ (u_scheme parsed = "http" \/ u_scheme parsed = "https")
    /\ hostname parsed = Some host /\ host <> ""
    /\ Forall (fun a => exists addr, ip_address a = Some addr /\ public_address addr) addrs.

(** Every URL that was fetched had just been checked. *)
Definition fetches_checked (log : list call_entry) : Prop :=
  forall before url after, log = (before ++ Got url :: after)%list -> just_checked before url.

Lemma fetches_checked_resolved log host answer :
  fetches_checked log -> fetches_checked (log ++ [Resolved host answer])%list.
Proof.
  intros Hl before url after E. destruct after as [|x after' _] using rev_ind.
  - by apply app_inj_tail in E as [_ ?].
  - rewrite app_comm_cons, app_assoc in E. apply app_inj_tail in E as [E _]. by apply Hl in E.
Qed.

Lemma fetches_checked_got log url :
  fetches_checked log -> just_checked log url -> fetches_checked (log ++ [Got url])%list.
Proof.
  intros Hl Hc before url' after E. destruct after as [|x after' _] using rev_ind.
  - by apply app_inj_tail in E as [-> [= ->]].
  - rewrite app_comm_cons, app_assoc in E. apply app_inj_tail in E as [E _]. by apply Hl in E.
Qed.

Lemma is_safe_url_checks url log :
  fetches_checked log ->
  fetches_checked (is_safe_url getaddrinfo url log).2
  /\ exists b, (is_safe_url getaddrinfo url log).1 = Ok b
     /\ (b = true -> just_checked (is_safe_url getaddrinfo url log).2 url).
Proof.
  intros Hl. unfold is_safe_url. destruct (urlparse url) as [parsed|] eqn:Eu; [|split; [done|by exists false]].
  destruct (existsb _ _) eqn:Es; [|split; [done|by exists false]].
  destruct (hostname parsed) as [[|c host]|] eqn:Eh; try (split; [done|by exists false]).
  split; [by apply fetches_checked_resolved|]. eexists. split; [reflexivity|]. cbn [snd].
  destruct (getaddrinfo log (String c host)) as [addrs|]; [|done]. intros H.
  exists log, parsed, (String c host), addrs. split_and!; try done.
  - cbn in Es. rewrite orb_false_r in Es. by apply orb_true_iff in Es as [->%String.eqb_eq| ->%String.eqb_eq]; [left|right].
  - apply Forall_forall. intros a Ha. rewrite forallb_forall in H. specialize (H a Ha).
    destruct (ip_address a) as [addr|] eqn:Ea; [|done]. exists addr. split; [done|].
    apply public_of_properties; [by eapply ip_address_valid|]. by apply negb_true_iff.
Qed.

Lemma fetch_file_checked url log : fetches_checked log -> just_checked log url ->
  fetches_checked (fetch_file getaddrinfo fetch url log).2.
Proof.
  intros Hl Hu. unfold fetch_file, get_url, mbind, EM_bind.
  pose proof (fetches_checked_got _ _ Hl Hu) as H1.
  destruct (fetch log url) as [resp|]; [|done].
  destruct ((300 <=? ft_status resp)%Z && (ft_status resp <=? 399)%Z); [|unfold mret, EM_ret; by destruct (_ && _)].
  cbv zeta. pose proof (is_safe_url_checks (default "" (ft_location resp)) _ H1) as (H2 & b & Hb & H3).
  destruct (is_safe_url _ _ _) as [r log2]. cbn [fst snd] in *. subst r. destruct b; [|done]. cbn [negb].
  pose proof (fetches_checked_got _ _ H2 (H3 eq_refl)) as H4.
  destruct (fetch log2 _) as [r|]; [|done]. by destruct (_ && _).
Qed.

Lemma safe_char c : negb (breaks_header (if breaks_header c then "_"%char else c)) = true.
Proof. destruct (breaks_header c) eqn:E; [done|]. by rewrite E. Qed.

Lemma sanitized_name name :
  str_forall (fun c => negb (breaks_header c)) (sanitize_filename name) = true
  /\ (String.length (sanitize_filename name) <= 255)%nat.
Proof.
  unfold sanitize_filename. rewrite str_take_length. split; [|lia].
  set (s := py_strip name). generalize 255%nat. induction s as [|c s IH]; intros [|n]; try done.
  cbn [str_map str_take str_forall]. by rewrite IH, safe_char.
Qed.

(** C15: Whatever an execution answers, whatever the resolver and the servers answer and however
    their answers change, a call fetches a URL, or answers a redirect to it, only as the next thing
    after it has resolved its host and found all the addresses to be addresses of the Internet: none
    private, loopback, link-local or reserved; a redirect of the server is checked like the URL
    itself.  The name it gives a file holds no quote, backslash or line break.  (What the HTTP client
    resolves itself when it connects is not checked: [rebinding_is_not_noticed].) *)
Theorem call_contacts_public_urls trigger_data ctx_data is_xhr :
  let '(r, log) := answer_call getaddrinfo fetch trigger_data ctx_data is_xhr [] in
  fetches_checked log
  /\ match r with
     | Ok (RedirectResponse url) => just_checked log url
     | Ok (Proxied filename _) =>
         str_forall (fun c => negb (breaks_header c)) filename = true /\ (String.length filename <= 255)%nat
     | _ => True
     end.
Proof.
  assert (H0 : fetches_checked []) by (intros [] ? ?; done).
  unfold answer_call. destruct (dget "url" ctx_data) as [[| | | |url| |]|]; try done.
  destruct (starts_with "http" url); [|done]. unfold mbind, EM_bind.
  pose proof (is_safe_url_checks url _ H0) as (H1 & b & Hb & H2).
  destruct (is_safe_url _ _ _) as [r log1]. cbn [fst snd] in *. subst r. destruct b; [|done]. cbn [negb].
  specialize (H2 eq_refl). destruct is_xhr; [|done].
  destruct (match dget "key" trigger_data with None => _ | Some _ => _ end) as [key|]; [|done]. cbn [Effects.lift].
  unfold Effects.lift.
  pose proof (fetch_file_checked url log1 H1 H2) as Hl.
  destruct (fetch_file _ _ _ _) as [[content|e] log]; cbn in *; split; try done. apply sanitized_name.
Qed.
End call_facts.

(** ** Facts on the ledger *)

Lemma rows_of_others p q f l : (forall r, q r = true -> p r = false) -> (forall r, q r = true -> p (f r) = p r) ->
  List.filter p (rows (Sync.update_rows q f l)) = List.filter p (rows l).
Proof. intros Hq Hf. unfold Sync.update_rows. cbn [rows]. by apply (filter_update_other p q f). Qed.

(** Retrying or clearing the ledger of a workflow changes no row of another tenant, and no row
    at all when the workflow is not one of the tenant. *)
Theorem ledger_requests_are_isolated tenant other id now db :
  other <> tn_id tenant ->
  let others d := List.filter (fun r => String.eqb (l_tenant r) other) (rows (xd_ledger d)) in
  others (retry_failed_syncs tenant id now db).2 = others db
  /\ others (clear_sync_ledger tenant id db).2 = others db
  /\ (List.find (fun w => String.eqb (wf_id (sw_workflow w)) id && String.eqb (sw_tenant w) (tn_id tenant)) (xd_workflows db) = None ->
      retry_failed_syncs tenant id now db = (Raise (http_exception 404 "Workflow not found"), db)
      /\ clear_sync_ledger tenant id db = (Raise (http_exception 404 "Workflow not found"), db)).
Proof.
  intros Ho others. unfold retry_failed_syncs, clear_sync_ledger, workflow_of, mbind, EM_bind, get_st, Effects.lift.
  assert (Hs : forall st r, selects id (Some (tn_id tenant)) st r = true -> String.eqb (l_tenant r) other = false).
  { intros st r [[_ Ht%String.eqb_eq]%andb_true_iff _]%andb_true_iff. rewrite Ht. by apply String.eqb_neq. }
  split_and!.
  - destruct (owned_workflow tenant id db); [|done]. unfold on_ledger, reset_failed, others. cbn [snd xd_ledger set_ledger].
    apply rows_of_others; [apply Hs|done].
  - destruct (owned_workflow tenant id db); [|done]. unfold on_ledger, clear_ledger, others. cbn [snd xd_ledger set_ledger rows].
    rewrite filter_filter. apply filter_ext. intros r. destruct (String.eqb (l_tenant r) other) eqn:E; [|by rewrite andb_false_r].
    rewrite andb_true_r. apply negb_true_iff. destruct (selects _ _ _ r) eqn:Er; [|done]. apply Hs in Er. congruence.
  - intros Hf%find_none_filter. unfold owned_workflow, owned. by rewrite Hf.
Qed.

(** ** Examples *)

Definition demo_run (id : string) (started : Z) (name : string) (error : option string) : workflow_execution :=
  WorkflowRun "t1" (Some "w1")
    (Execution id "w1" "nightly" "failed" [("customer_name", PStr name); ("_sync_key", PStr "k")] [] [] error None [] [])
    None started None.
Definition demo_runs : exec_db :=
  ExecDb [] [demo_run "e1" 10 "Anna" None; demo_run "e2" 20 "Jan" None; demo_run "e3" 30 "Ewa" None] [] []
    (MkLedger [] 0).
Definition no_query : run_query := RunQuery None None None None.
Definition by_time {R} (started : R -> Z) : list R -> list R := stable_sort (fun a b => (started b <? started a)%Z).

Lemma by_time_newest_first {R} (started : R -> Z) : newest_first started (by_time started).
Proof.
  intros l. split; [apply stable_sort_perm|]. apply stable_sort_sorted; unfold later; intros a b; [..|intros c]; lia.
Qed.

Lemma pages_partition_witness :
  exists l, pages (fun i offset => list_runs (by_time wx_started) (MkTenant "t1" "acme" true) no_query 2 offset demo_runs) 2 0 0 2 = Ok l
    /\ map wx_id l = ["e3"; "e2"; "e1"].
Proof.
  destruct (pages_partition (fun _ => by_time wx_started) (MkTenant "t1" "acme" true) no_query 2 2 demo_runs)
    as (l & Hl & _ & _); [intros _; apply by_time_newest_first|by_deciding|lia|vm_compute; lia|].
  exists l. split; [exact Hl|]. vm_compute in Hl. by injection Hl as <-.
Defined.

(** Runs that started at the same time may be listed twice, and others never. *)
Example ties_break_pages :
  let db := ExecDb [] [demo_run "e1" 10 "Anna" None; demo_run "e2" 10 "Jan" None] [] [] (MkLedger [] 0) in
  let arrange (i : nat) l := match i with O => by_time wx_started l | _ => by_time wx_started (rev l) end in
  (forall i, newest_first wx_started (arrange i))
  /\ map wx_id <$> (match pages (fun i offset => list_runs (arrange i) (MkTenant "t1" "acme" true) no_query 1 offset db) 1 0 0 2 with
                    | Ok l => Some l | Raise _ => None end) = Some ["e1"; "e1"].
Proof.
  split; [|by vm_compute]. intros [|i] l; [apply by_time_newest_first|].
  split; [|apply by_time_newest_first]. etransitivity; [apply by_time_newest_first|apply Permutation_sym, Permutation_rev].
Qed.

Lemma detail_hides_pii_witness :
  run_detail_of str_of_Z (demo_run "e1" 10 "Anna" None) None = run_detail_of str_of_Z (demo_run "e1" 10 "Jan" None) None.
Proof.
  apply (detail_hides_pii str_of_Z (demo_run "e1" 10 "Anna" None) (demo_run "e1" 10 "Jan" None) None). constructor.
  - apply Log.sbp_dict. apply List.Forall2_cons; [|apply List.Forall2_cons; [|apply List.Forall2_nil]].
    2:{ apply same_member; [by vm_compute|apply Log.sbp_refl]. }
    split; [done|]. left. split; [reflexivity|]. left. split; split; reflexivity.
  - constructor.
  - apply Log.sbp_refl.
  - by do 3 eexists.
Defined.

(** The detail shows the error unmasked, the listing all the data. *)
Example error_and_listing_unmasked :
  let x := demo_run "e1" 10 "Anna Nowak" (Some "no mailbox anna@example.pl") in
  rd_error (run_detail_of str_of_Z x None) = Some "no mailbox anna@example.pl"
  /\ rd_trigger_data (run_detail_of str_of_Z x None) = PDict [("customer_name", PStr "[REDACTED-PII]")]
  /\ xr_trigger_data (serialize_workflow_execution (wx_workflow x) (wx_execution x)) = [("customer_name", PStr "Anna Nowak")].
Proof. by vm_compute. Qed.

Lemma ledger_requests_are_isolated_witness :
  let others d := List.filter (fun r => String.eqb (l_tenant r) "t2") (rows (xd_ledger d)) in
  let db := ExecDb [] [] [] [Stored "t1" true (Wf "w1" "nightly" [] [] [] "stop" 0 "shop" "order" PNone)]
              (MkLedger [Row 0 "t1" "w1" "a" "h" Failed 3 None 5; Row 1 "t2" "w1" "b" "h" Failed 3 None 5] 2) in
  others (clear_sync_ledger (MkTenant "t1" "acme" true) "w1" db).2 = others db
  /\ length (rows (xd_ledger (clear_sync_ledger (MkTenant "t1" "acme" true) "w1" db).2)) = 1%nat.
Proof.
  split; [|by vm_compute].
  apply (ledger_requests_are_isolated (MkTenant "t1" "acme" true) "t2" "w1" 0
    (ExecDb [] [] [] [Stored "t1" true (Wf "w1" "nightly" [] [] [] "stop" 0 "shop" "order" PNone)]
       (MkLedger [Row 0 "t1" "w1" "a" "h" Failed 3 None 5; Row 1 "t2" "w1" "b" "h" Failed 3 None 5] 2))). done.
Defined.

(** Behind a redirect to a loopback address, nothing is fetched. *)
Example blocked_redirect :
  let resolve (_ : list call_entry) host := if String.eqb host "evil.example" then Ok ["8.8.8.8"] else Ok ["127.0.0.1"] in
  let fetch (_ : list call_entry) (_ : string) := Ok (Fetched 302 (Some "http://localhost/admin") "") in
  answer_call resolve fetch [] [("url", PStr "http://evil.example/f")] true []
  = (Raise (http_exception 400 "Redirect targets a blocked address range"),
     [Resolved "evil.example" (Ok ["8.8.8.8"]); Got "http://evil.example/f"; Resolved "localhost" (Ok ["127.0.0.1"])]).
Proof. by vm_compute. Qed.

(** A resolver that answers an address of the Internet when the gateway asks and another one when the
    HTTP client connects: the gateway fetches the URL all the same. *)
Example rebinding_is_not_noticed :
  let resolve (log : list call_entry) (_ : string) := Ok [match log with [] => "8.8.8.8" | _ => "127.0.0.1" end] in
  let fetch (_ : list call_entry) (_ : string) := Ok (Fetched 200 None "secret") in
  let '(r, log) := answer_call resolve fetch [] [("url", PStr "http://evil.example/f")] true [] in
  r = Ok (Proxied "file" "secret")
  /\ log = [Resolved "evil.example" (Ok ["8.8.8.8"]); Got "http://evil.example/f"]
  /\ resolve (take 1 log) "evil.example" = Ok ["127.0.0.1"].
Proof. by vm_compute. Qed.
