(* ===== verification/KsefXml.v ===== *)
(** The FA(3) invoices of KSeF ([integrators/other/ksef/v1.0.0/src/ksef/xml_builder.py]): both
    formats of their data, the tree of their XML and its text, on [Xml] and [PyNumber]. *)

From Stdlib Require Import SpecFloat.
From S2P Require Import Prelude PyText PyFloat PyValue PyNumber Xml.

Local Open Scope string_scope.

(** ** Tables *)

Definition FA3_NAMESPACE : string := "http://crd.gov.pl/wzor/2025/06/25/13775/".
Definition ETD_NAMESPACE : string := "http://crd.gov.pl/xml/schematy/dziedzinowe/mf/2022/01/05/eD/DefinicjeTypy/".
Definition XSI_NAMESPACE : string := "http://www.w3.org/2001/XMLSchema-instance".

Definition RAW_KSEF_KEY_MAP : list (string * string) :=
  [("fa", "Fa"); ("podmiot1", "Podmiot1"); ("podmiot2", "Podmiot2");
   ("daneIdentyfikacyjne", "DaneIdentyfikacyjne"); ("nip", "NIP"); ("nazwa", "Nazwa");
   ("prefiksPodatnika", "PrefiksPodatnika"); ("adres", "Adres"); ("kodKraju", "KodKraju"); ("adresL1", "AdresL1");
   ("adresL2", "AdresL2"); ("jST", "JST"); ("gV", "GV"); ("kodWaluty", "KodWaluty");
   ("rodzajFaktury", "RodzajFaktury"); ("faWiersz", "FaWiersz"); ("nrWierszaFa", "NrWierszaFa");
   ("uU_ID", "UU_ID"); ("uuID", "UU_ID"); ("uuid", "UU_ID"); ("p11vat", "P_11Vat"); ("p11Vat", "P_11Vat");
   ("p12XII", "P_12_XII"); ("p12_XII", "P_12_XII"); ("p12Zal15", "P_12_Zal_15"); ("p12_Zal_15", "P_12_Zal_15");
   ("kwotaAkcyzy", "KwotaAkcyzy"); ("gTU", "GTU"); ("gtu", "GTU"); ("procedura", "Procedura");
   ("kursWaluty", "KursWaluty"); ("indeks", "Indeks"); ("indeksF", "IndeksF"); ("gTIN", "GTIN"); ("gtin", "GTIN");
   ("pKWiU", "PKWiU"); ("pkwiu", "PKWiU"); ("cN", "CN"); ("cn", "CN"); ("pKOB", "PKOB"); ("pkob", "PKOB");
   ("adnotacje", "Adnotacje"); ("zwolnienie", "Zwolnienie"); ("noweSrodkiTransportu", "NoweSrodkiTransportu");
   ("nowySrodekTransportu", "NowySrodekTransportu"); ("pMarzy", "PMarzy"); ("ppMarzyN", "P_PMarzyN");
   ("pNrWierszaNST", "P_NrWierszaNST"); ("p22a", "P_22A"); ("p22b", "P_22B"); ("p22b1", "P_22B1");
   ("p22b2", "P_22B2"); ("p22b3", "P_22B3"); ("p22b4", "P_22B4"); ("p22bt", "P_22BT"); ("p22bmk", "P_22BMK");
   ("p22bmd", "P_22BMD"); ("p22bk", "P_22BK"); ("p22bnr", "P_22BNR"); ("p22brp", "P_22BRP"); ("p22c", "P_22C");
   ("p22c1", "P_22C1"); ("p22d", "P_22D"); ("p22d1", "P_22D1"); ("platnosc", "Platnosc");
   ("terminPlatnosci", "TerminPlatnosci"); ("termin", "Termin"); ("terminOpis", "TerminOpis"); ("ilosc", "Ilosc");
   ("jednostka", "Jednostka"); ("zdarzeniePoczatkowe", "ZdarzeniePoczatkowe");
   ("rachunekBankowy", "RachunekBankowy"); ("nrRb", "NrRB"); ("nazwaBanku", "NazwaBanku");
   ("formaPlatnosci", "FormaPlatnosci"); ("zaplacono", "Zaplacono"); ("dataZaplaty", "DataZaplaty");
   ("rachunekBankowyFakt662", "RachunekBankowyFakt662"); ("warunkiTransakcji", "WarunkiTransakcji");
   ("zamowienie", "Zamowienie"); ("dodatkowyOpis", "DodatkowyOpis"); ("klucz", "Klucz"); ("wartosc", "Wartosc");
   ("nrWiersza", "NrWiersza"); ("kursWalutyZ", "KursWalutyZ"); ("kursWalutyZK", "KursWalutyZK");
   ("faWierszCtrl", "FaWierszCtrl"); ("liczbaWierszyFaktury", "LiczbaWierszyFaktury");
   ("wartoscWierszyFaktury", "WartoscWierszyFaktury"); ("daneFaKorygowanej", "DaneFaKorygowanej");
   ("dataWystFaKorygowanej", "DataWystFaKorygowanej"); ("nrFaKorygowanej", "NrFaKorygowanej");
   ("nrKSeF", "NrKSeF"); ("nrKSeFN", "NrKSeFN"); ("nrKSeFFaKorygowanej", "NrKSeFFaKorygowanej");
   ("przyczynaKorekty", "PrzyczynaKorekty"); ("typKorekty", "TypKorekty");
   ("okresFaKorygowanej", "OkresFaKorygowanej"); ("nrFaKorygowany", "NrFaKorygowany"); ("stanPrzed", "StanPrzed");
   ("p15zk", "P_15ZK"); ("p15ZK", "P_15ZK"); ("podmiot1K", "Podmiot1K"); ("podmiot2K", "Podmiot2K");
   ("zaliczkaCzesciowa", "ZaliczkaCzesciowa"); ("zwrotAkcyzy", "ZwrotAkcyzy"); ("opisRachunku", "OpisRachunku")].

Definition ELEMENT_ORDER : list (string * list string) :=
  [("Faktura",
     ["Naglowek"; "Podmiot1"; "Podmiot2"; "Fa"]);
   ("Podmiot1",
     ["PrefiksPodatnika"; "DaneIdentyfikacyjne"; "Adres"]);
   ("Podmiot2",
     ["NrEORI"; "DaneIdentyfikacyjne"; "Adres"; "AdresKoresp"; "DaneKontaktowe"; "NrKlienta"; "IDNabywcy"; "JST";
      "GV"]);
   ("DaneIdentyfikacyjne",
     ["NIP"; "Nazwa"]);
   ("Adres",
     ["KodKraju"; "AdresL1"; "AdresL2"]);
   ("AdresKoresp",
     ["KodKraju"; "AdresL1"; "AdresL2"]);
   ("Fa",
     ["KodWaluty"; "P_1"; "P_1M"; "P_2"; "WZ"; "P_6"; "OkresFa"; "P_13_1"; "P_14_1"; "P_14_1W"; "P_13_2"; "P_14_2";
      "P_14_2W"; "P_13_3"; "P_14_3"; "P_14_3W"; "P_13_4"; "P_14_4"; "P_14_4W"; "P_13_5"; "P_14_5"; "P_13_6_1";
      "P_13_6_2"; "P_13_6_3"; "P_13_7"; "P_13_8"; "P_13_9"; "P_13_10"; "P_13_11"; "P_15"; "KursWalutyZ";
      "Adnotacje"; "RodzajFaktury"; "PrzyczynaKorekty"; "TypKorekty"; "DaneFaKorygowanej"; "OkresFaKorygowanej";
      "NrFaKorygowany"; "Podmiot1K"; "Podmiot2K"; "P_15ZK"; "KursWalutyZK"; "ZaliczkaCzesciowa"; "FP"; "TP";
      "DodatkowyOpis"; "FakturaZaliczkowa"; "ZwrotAkcyzy"; "FaWiersz"; "Rozliczenie"; "Platnosc";
      "WarunkiTransakcji"; "Zamowienie"]);
   ("Adnotacje",
     ["P_16"; "P_17"; "P_18"; "P_18A"; "Zwolnienie"; "NoweSrodkiTransportu"; "P_23"; "PMarzy"]);
   ("Zwolnienie",
     ["P_19N"; "P_19"; "P_19A"; "P_19B"; "P_19C"]);
   ("NoweSrodkiTransportu",
     ["P_22N"; "P_22"; "P_42_5"; "NowySrodekTransportu"]);
   ("NowySrodekTransportu",
     ["P_22A"; "P_NrWierszaNST"; "P_22BMK"; "P_22BMD"; "P_22BK"; "P_22BNR"; "P_22BRP"; "P_22B"; "P_22B1"; "P_22B2";
      "P_22B3"; "P_22B4"; "P_22BT"; "P_22C"; "P_22C1"; "P_22D"; "P_22D1"]);
   ("PMarzy",
     ["P_PMarzyN"]);
   ("DodatkowyOpis",
     ["NrWiersza"; "Klucz"; "Wartosc"]);
   ("DaneFaKorygowanej",
     ["DataWystFaKorygowanej"; "NrFaKorygowanej"; "NrKSeF"; "NrKSeFFaKorygowanej"; "NrKSeFN"]);
   ("FaWiersz",
     ["NrWierszaFa"; "UU_ID"; "P_7"; "IndeksF"; "CN"; "P_8A"; "P_8B"; "P_9A"; "P_9B"; "P_10"; "P_11"; "P_11A";
      "P_11Vat"; "P_12"; "P_12_XII"; "P_12_Zal_15"; "KwotaAkcyzy"; "GTU"; "Procedura"; "KursWaluty"; "StanPrzed"]);
   ("Platnosc",
     ["Zaplacono"; "DataZaplaty"; "TerminPlatnosci"; "FormaPlatnosci"; "RachunekBankowy"; "RachunekBankowyFakt662"]);
   ("TerminPlatnosci",
     ["Termin"; "TerminOpis"]);
   ("TerminOpis",
     ["Ilosc"; "Jednostka"; "ZdarzeniePoczatkowe"]);
   ("RachunekBankowy",
     ["NrRB"; "NazwaBanku"; "OpisRachunku"])].
Definition SIX_DECIMAL_TAGS : list string :=
  ["KursWaluty"; "KursWalutyZ"; "KursWalutyZK"; "KursWalutyZW"; "KursUmowny"; "P_8B"; "P_8BZ"].
Definition EIGHT_DECIMAL_TAGS : list string := ["P_9A"; "P_9B"; "P_10"; "P_9AZ"].

Definition listed (s : string) (l : list string) : bool := existsb (String.eqb s) l.

(** ** Elements *)

(** An element with a text, and one with children. *)
Definition leaf (tag : string) (text : pyval) : element := Elem tag [] text [].
Definition node (tag : string) (children : list element) : element := Elem tag [] PNone children.

(** ** Raw data *)

(** The longest prefix of characters that satisfy [p], and the rest. *)
Fixpoint span (p : ascii -> bool) (s : string) : string * string :=
  match s with
  | String c s' => if p c then let '(a, b) := span p s' in (String c a, b) else (EmptyString, s)
  | EmptyString => (EmptyString, EmptyString)
  end.

Definition upper_if_single (alpha : string) : string :=
  if (String.length alpha =? 1)%nat then py_upper alpha else alpha.

(** [_resolve_xml_tag]: [p], digits and letters and digits; [p], digits and letters. *)
Definition resolve_xml_tag (key : string) : string :=
  match dget key RAW_KSEF_KEY_MAP with
  | Some tag => tag
  | None =>
      let capital := match key with String c s => String (upper_char c) s | EmptyString => "" end in
      match key with
      | String "p" rest =>
          let '(digits, rest1) := span is_digit rest in
          let '(alpha, rest2) := span is_alpha rest1 in
          let '(digits2, rest3) := span is_digit rest2 in
          let n := String.length digits in
          match digits, alpha, digits2, rest3 with
          | EmptyString, _, _, _ | _, _, _, String _ _ => capital
          | _, String _ _, String _ _, EmptyString => "P_" ++ digits ++ py_upper (alpha ++ digits2)
          | _, _, _, EmptyString =>
              if (3 <=? n)%nat then
                "P_" ++ str_take (n - 1) digits ++ "_" ++ str_drop (n - 1) digits ++ upper_if_single alpha
              else "P_" ++ digits ++ upper_if_single alpha
          end
      | _ => capital
      end
  end.

(** The place of a tag in the order of its parent's children; unknown tags come last. *)
Fixpoint index_of (tag : string) (order : list string) : nat :=
  match order with
  | [] => 0
  | t :: order' => if String.eqb t tag then 0 else S (index_of tag order')
  end.
Definition rank (parent tag : string) : nat :=
  match dget parent ELEMENT_ORDER with Some order => index_of tag order | None => 0 end.

(** [_sorted_children]. *)
Definition key_lt {A} (parent : string) (a b : string * A) : bool :=
  (rank parent a.1 <? rank parent b.1)%nat
  || ((rank parent a.1 =? rank parent b.1)%nat && match String.compare a.1 b.1 with Lt => true | _ => false end).
Definition sorted_children {A} (parent : string) (children : list (string * A)) : list (string * A) :=
  match dget parent ELEMENT_ORDER with
  | None => children
  | Some _ => stable_sort (key_lt parent) children
  end.

(** [_format_amount]. *)
Definition format_amount (value : pyfloat) (max_fraction_digits : nat) : string :=
  let text := rstrip_by (Ascii.eqb ".") (rstrip_by (Ascii.eqb "0") (fixed max_fraction_digits value)) in
  if String.eqb text "" then "0" else text.

(** The text of a float under a tag. *)
Definition float_text (tag : string) (value : pyfloat) : string :=
  if listed tag SIX_DECIMAL_TAGS then format_amount value 6
  else if listed tag EIGHT_DECIMAL_TAGS then format_amount value 8
  else fixed 2 value.

(** [_raw_ksef_to_xml]: the elements of a value under a tag. *)
Fixpoint raw_ksef_to_xml (value : pyval) (tag : string) : list element :=
  match value with
  | PList l => flat_map (fun item => raw_ksef_to_xml item tag) l
  | PDict d =>
      let resolved := dict_of (map (fun kv => (resolve_xml_tag (py_strip kv.1), raw_ksef_to_xml kv.2)) d) in
      [node tag (flat_map (fun tv => tv.2 tv.1) (sorted_children tag resolved))]
  | PFloat f => [leaf tag (PStr (float_text tag f))]
  | _ => [leaf tag (PStr (py_str value))]
  end.

(** [key in v] for the tests of [_preprocess_raw_ksef], and the item of a dict. *)
Definition item (key : string) (v : pyval) : res pyval :=
  match v with
  | PDict d => match dget key d with Some x => Ok x | None => Raise (KeyError key) end
  | PStr _ => Raise (TypeError "string indices must be integers, not 'str'")
  | PList _ => Raise (TypeError "list indices must be integers or slices, not str")
  | _ => Raise (TypeError ("'" ++ type_name v ++ "' object is not subscriptable"))
  end.
Definition set_item (key : string) (x v : pyval) : res pyval :=
  match v with
  | PDict d => Ok (PDict (dset key x d))
  | PList _ => Raise (TypeError "list indices must be integers or slices, not str")
  | _ => Raise (TypeError ("'" ++ type_name v ++ "' object does not support item assignment"))
  end.

(** The loop over the fields of an exemption: they move into [zwolnienie], but ints are dropped. *)
Fixpoint move_exemptions (p19n_set : bool) (fields : list string) (adn : dict) : res dict :=
  match fields with
  | [] => Ok adn
  | k :: fields' =>
      match dget k adn with
      | None => move_exemptions p19n_set fields' adn
      | Some val =>
          let adn := ddel k adn in
          if p19n_set || match val with PInt _ | PBool _ => true | _ => false end
          then move_exemptions p19n_set fields' adn
          else
            zwol ← set_item k val (dget_or "zwolnienie" (PDict []) adn);
            move_exemptions p19n_set fields' (dset "zwolnienie" zwol adn)
      end
  end.
Fixpoint move_transport (keys : list string) (adn : dict) : res dict :=
  match keys with
  | [] => Ok adn
  | k :: keys' =>
      match dget k adn with
      | None => move_transport keys' adn
      | Some val =>
          let adn := ddel k adn in
          nst ← set_item k val (dget_or "noweSrodkiTransportu" (PDict []) adn);
          move_transport keys' (dset "noweSrodkiTransportu" nst adn)
      end
  end.

Definition preprocess_adnotacje (adn : pyval) : res pyval :=
  d ← dict_method "get" adn;
  zwol ← dict_method "get" (dget_or "zwolnienie" (PDict []) d);
  d ← move_exemptions (py_eqb (dget_or "p19N" PNone zwol) (PInt 1)) ["p19"; "p19A"; "p19B"; "p19C"] d;
  d ← move_transport ["p22"; "p22A"] d;
  Ok (PDict d).

(** [_preprocess_raw_ksef]. *)
Definition delete_item (key : string) (v : pyval) : res pyval :=
  match v with
  | PDict d => Ok (PDict (ddel key d))
  | PList _ => Raise (TypeError "list indices must be integers or slices, not str")
  | _ => Raise (TypeError ("'" ++ type_name v ++ "' object doesn't support item deletion"))
  end.
Definition preprocess_raw_ksef (data : dict) : res dict :=
  data ← match dget "podmiot2" data with
         | None => Ok data
         | Some v =>
             has ← py_in (PStr "prefiksPodatnika") v;
             if has : bool then v' ← delete_item "prefiksPodatnika" v; Ok (dset "podmiot2" v' data) else Ok data
         end;
  match dget "fa" data with
  | None => Ok data
  | Some fa =>
      has ← py_in (PStr "adnotacje") fa;
      if has : bool then
        adn ← item "adnotacje" fa;
        adn' ← preprocess_adnotacje adn;
        fa' ← set_item "adnotacje" adn' fa;
        Ok (dset "fa" fa' data)
      else Ok data
  end.

Definition is_raw_ksef_format (data : dict) : bool := dhas "fa" data || dhas "podmiot1" data || dhas "podmiot2" data.

Section builder.
(** The times written into an invoice: [datetime.utcnow()] as formatted, today's date, and the
    number an invoice without one gets. *)
Variables utcnow today stamp : string.

(** [_add_header]. *)
Definition header : element :=
  node "Naglowek"
    [Elem "KodFormularza" [("kodSystemowy", "FA (3)"); ("wersjaSchemy", "1-0E")] (PStr "FA") [];
     leaf "WariantFormularza" (PStr "3"); leaf "DataWytworzeniaFa" (PStr utcnow);
     leaf "SystemInfo" (PStr "Open Integration Platform v1.0")].

Definition root_attrs : list (string * string) :=
  [("xmlns", FA3_NAMESPACE); ("xmlns:etd", ETD_NAMESPACE); ("xmlns:xsi", XSI_NAMESPACE)].

Definition raw_party (tag key : string) (data : dict) : list element :=
  match dget key data with Some v => raw_ksef_to_xml v tag | None => [] end.
Definition raw_tree (data : dict) : res element :=
  data ← preprocess_raw_ksef data;
  Ok (Elem "Faktura" root_attrs PNone
        (header :: raw_party "Podmiot1" "podmiot1" data ++ raw_party "Podmiot2" "podmiot2" data
           ++ raw_party "Fa" "fa" data)%list).

Definition xml_declaration : string :=
  "<?xml version=" ++ str1 dquote ++ "1.0" ++ str1 dquote ++ " encoding=" ++ str1 dquote ++ "UTF-8" ++ str1 dquote
  ++ "?>" ++ str1 "010".

(** [build_invoice_xml_from_raw_ksef]. *)
Definition build_invoice_xml_from_raw_ksef (data : dict) : res string :=
  root ← raw_tree data; body ← serialize root; Ok (xml_declaration ++ body).

(** ** Structured data *)

Definition optional (present : bool) (e : element) : list element := if present then [e] else [].

(** [_add_address]: the lines of an address, from its parts or as they are. *)
Definition address_lines (entity : dict) : pyval * pyval :=
  let '(line1, line2) :=
    match dget_or "address" (PDict []) entity with
    | PDict addr =>
        let line1 := py_or (dget_or "street" (PStr "") addr) (dget_or "address_line1" (PStr "") addr) in
        let line2 := dget_or "postal_code" (PStr "") addr in
        let city := dget_or "city" PNone addr in
        let line2 := if truthy city then PStr (py_strip (py_str line2 ++ " " ++ py_str city)) else line2 in
        (line1, if truthy line2 then line2 else dget_or "address_line2" (PStr "") addr)
    | _ => (dget_or "address_line1" (PStr "") entity, dget_or "address_line2" (PStr "") entity)
    end in
  (py_or line1 (dget_or "address_line1" (PStr "") entity), py_or line2 (dget_or "address_line2" (PStr "") entity)).
Definition address (entity : dict) : element :=
  let '(line1, line2) := address_lines entity in
  node "Adres" [leaf "KodKraju" (dget_or "country" (PStr "PL") entity);
                leaf "AdresL1" (py_or line1 (PStr "-")); leaf "AdresL2" (py_or line2 (PStr "-"))].

(** [_add_seller] and [_add_buyer]. *)
Definition seller_element (seller : pyval) : res element :=
  s ← dict_method "get" seller;
  Ok (node "Podmiot1"
        [node "DaneIdentyfikacyjne" [leaf "NIP" (dget_or "nip" (PStr "") s); leaf "Nazwa" (dget_or "name" (PStr "") s)];
         address s]).
Definition buyer_element (buyer : pyval) : res element :=
  b ← dict_method "get" buyer;
  let nip := dget_or "nip" (PStr "") b in
  Ok (node "Podmiot2"
        [node "DaneIdentyfikacyjne" (optional (truthy nip) (leaf "NIP" nip) ++ [leaf "Nazwa" (dget_or "name" (PStr "") b)])%list;
         address b; leaf "JST" (PStr (py_str (dget_or "jst" (PInt 2) b))); leaf "GV" (PStr (py_str (dget_or "gv" (PInt 2) b)))]).

(** [_vat_rate_decimal]. *)
Definition vat_rate_decimal (rate : pyval) : res pyfloat :=
  catch (r ← py_float rate;
         Ok (if match num_cmp (PFloat r) (PInt 1) with Some Gt => true | _ => false end
             then fdiv r (float_of_ratio false 100 1) else r))
    is_value_or_type_error (Ok (S754_zero false)).

(** [_item_net]. *)
Definition unit_price_of (i : dict) : pyval :=
  py_or (dget_or "unit_price_net" PNone i) (dget_or "unit_price" PNone i).
Definition item_net (i : pyval) : res pyfloat :=
  d ← dict_method "get" i;
  match dget_or "net_amount" PNone d with
  | PNone =>
      match unit_price_of d, dget_or "quantity" PNone d with
      | PNone, _ | _, PNone => Ok (S754_zero false)
      | up, qty => x ← py_float up; y ← py_float qty; Ok (fmul x y)
      end
  | na => py_float na
  end.
Definition item_vat (i : pyval) : res pyfloat :=
  net ← item_net i;
  d ← dict_method "get" i;
  rate ← vat_rate_decimal (dget_or "vat_rate" (PInt 0) d);
  Ok (fmul net rate).

(** [_add_totals]: the totals that are given, or those of the items. *)
Definition computed_total (of_item : pyval -> res pyfloat) (given : pyval) (items : pyval) : res pyval :=
  match given with
  | PNone => if truthy items then l ← as_iter items; xs ← mapR of_item l; Ok (float_sum xs) else Ok PNone
  | _ => Ok given
  end.
Definition totals (data : dict) : res (pyval * pyval * pyval) :=
  let items := dget_or "items" (PList []) data in
  net ← computed_total item_net (dget_or "total_net" PNone data) items;
  vat ← computed_total item_vat (dget_or "total_vat" PNone data) items;
  gross ← match dget_or "total_gross" PNone data, net, vat with
          | PNone, PNone, _ | PNone, _, PNone => Ok PNone
          | PNone, _, _ => py_add net vat
          | gross, _, _ => Ok gross
          end;
  Ok (net, vat, gross).
Definition amount_element (tag : string) (v : pyval) : res (list element) :=
  match v with PNone => Ok [] | _ => t ← format_fixed 2 v; Ok [leaf tag (PStr t)] end.
Definition total_elements (data : dict) : res (list (list element)) :=
  '(net, vat, gross) ← totals data;
  a ← amount_element "P_13_1" net; b ← amount_element "P_14_1" vat; c ← amount_element "P_15" gross;
  Ok [a; b; c].

(** [_add_adnotacje]. *)
Definition flag (tag key : string) (default : Z) (data : dict) : element :=
  leaf tag (PStr (py_str (dget_or key (PInt default) data))).
Definition adnotacje (data : dict) : element :=
  node "Adnotacje"
    [flag "P_16" "p_16" 2 data; flag "P_17" "p_17" 2 data; flag "P_18" "p_18" 2 data; flag "P_18A" "p_18a" 2 data;
     node "Zwolnienie" [flag "P_19N" "p_19n" 1 data]; node "NoweSrodkiTransportu" [flag "P_22N" "p_22n" 1 data];
     flag "P_23" "p_23" 2 data; node "PMarzy" [flag "P_PMarzyN" "p_pmarzy_n" 1 data]].

(** [_add_line_items]: one line, numbered from 1. *)
Definition line_item (idx : nat) (item : pyval) : res element :=
  d ← dict_method "get" item;
  let desc := py_or (dget_or "description" PNone d) (dget_or "name" (PStr "") d) in
  let unit := dget_or "unit" PNone d in
  let quantity := dget_or "quantity" PNone d in
  let unit_price := unit_price_of d in
  price ← match unit_price with PNone => Ok [] | p => f ← py_float p; Ok [leaf "P_9A" (PStr (fixed 2 f))] end;
  net ← match dget_or "net_amount" PNone d, unit_price, quantity with
        | PNone, PNone, _ | PNone, _, PNone => Ok []
        | PNone, p, q => x ← py_float p; y ← py_float q; Ok [leaf "P_11" (PStr (fixed 2 (fmul x y)))]
        | na, _, _ => f ← py_float na; Ok [leaf "P_11" (PStr (fixed 2 f))]
        end;
  let rate := dget_or "vat_rate" PNone d in
  Ok (node "FaWiersz"
        (leaf "NrWierszaFa" (PStr (str_of_Z (Z.of_nat idx)))
         :: optional (truthy desc) (leaf "P_7" desc) ++ optional (truthy unit) (leaf "P_8A" unit)
         ++ optional (negb (is_none quantity)) (leaf "P_8B" (PStr (py_str quantity)))
         ++ price ++ net ++ optional (negb (is_none rate)) (leaf "P_12" (PStr (py_str rate))))%list).
Fixpoint line_items (idx : nat) (items : list pyval) : res (list element) :=
  match items with
  | [] => Ok []
  | i :: items' => e ← line_item idx i; es ← line_items (S idx) items'; Ok (e :: es)
  end.

(** [_add_payment]. *)
Definition payment_elements (payment : pyval) : res (list element) :=
  if negb (truthy payment) then Ok []
  else
    d ← dict_method "get" payment;
    let field k := dget_or k PNone d in
    Ok [node "Platnosc"
         (optional (truthy (field "paid")) (leaf "Zaplacono" (PStr "1"))
          ++ optional (truthy (field "paid") && truthy (field "payment_date")) (leaf "DataZaplaty" (field "payment_date"))
          ++ optional (truthy (field "due_date")) (node "TerminPlatnosci" [leaf "Termin" (field "due_date")])
          ++ optional (truthy (field "method")) (leaf "FormaPlatnosci" (PStr (py_str (field "method"))))
          ++ optional (truthy (field "bank_account")) (node "RachunekBankowy" [leaf "NrRB" (field "bank_account")]))%list].

(** [_add_invoice_body]. *)
Definition invoice_body (data : dict) : res element :=
  let number := dget_or "invoice_number" (PStr "") data in
  let sale_date := dget_or "sale_date" PNone data in
  totals ← total_elements data;
  items ← as_iter (dget_or "items" (PList []) data);
  lines ← line_items 1 items;
  payment ← payment_elements (dget_or "payment" (PDict []) data);
  Ok (node "Fa"
        ([leaf "KodWaluty" (dget_or "currency" (PStr "PLN") data); leaf "P_1" (dget_or "issue_date" (PStr today) data);
          leaf "P_1M" (dget_or "issue_place" (PStr "Polska") data);
          leaf "P_2" (if truthy number then number else PStr ("FV/" ++ stamp))]
         ++ optional (truthy sale_date) (leaf "P_6" sale_date) ++ List.concat totals
         ++ [adnotacje data; leaf "RodzajFaktury" (dget_or "invoice_type" (PStr "VAT") data)] ++ lines ++ payment)%list).

Definition invoice_tree (data : dict) : res element :=
  seller ← seller_element (dget_or "seller" (PDict []) data);
  buyer ← buyer_element (dget_or "buyer" (PDict []) data);
  body ← invoice_body data;
  Ok (Elem "Faktura" root_attrs PNone [header; seller; buyer; body]).

(** [build_invoice_xml]. *)
Definition build_invoice_xml (data : dict) : res string :=
  root ← invoice_tree data; body ← serialize root; Ok (xml_declaration ++ body).
End builder.

(** ** The order of raw data *)

Definition child_ranks (parent : string) (children : list element) : list nat :=
  map (fun c => rank parent (e_tag c)) children.

(** The children of every element are in the order of the builder's table. *)
#[warnings="-register-all"]
Inductive ordered : element -> Prop :=
  | Ordered tag attrs text children :
      StronglySorted le (child_ranks tag children) -> Forall ordered children -> ordered (Elem tag attrs text children).

(** Groups of elements, each under one tag. *)
Definition tagged (g : string * list element) : Prop := Forall (fun e => e_tag e = g.1) g.2.

Lemma tagged_ranks parent t es : tagged (t, es) -> child_ranks parent es = repeat (rank parent t) (length es).
Proof. unfold tagged, child_ranks. cbn. induction 1 as [|e es He _ IH]; [done|]. cbn. by rewrite He, IH. Qed.

Lemma sorted_repeat r n l : Forall (le r) l -> StronglySorted le l -> StronglySorted le (repeat r n ++ l).
Proof.
  intros Hl Hs. induction n as [|n IH]; [done|]. cbn. constructor; [done|].
  apply Forall_app. split; [|done]. apply Forall_forall. intros x Hx%repeat_spec. by subst.
Qed.

Lemma groups_ranks_above parent r gs : Forall (le r) (map (fun g => rank parent g.1) gs) -> Forall tagged gs ->
  Forall (le r) (child_ranks parent (List.concat (map snd gs))).
Proof.
  induction gs as [|[t es] gs IH]; [constructor|]. cbn [map List.concat fst snd].
  intros [Hr Hrs]%Forall_cons_iff [Ht Hts]%Forall_cons_iff. unfold child_ranks. rewrite map_app. apply Forall_app.
  split; [|by apply IH]. fold (child_ranks parent es). rewrite (tagged_ranks _ _ _ Ht).
  apply Forall_forall. intros x Hx%repeat_spec. by subst.
Qed.

Lemma groups_sorted parent gs :
  StronglySorted le (map (fun g => rank parent g.1) gs) -> Forall tagged gs ->
  StronglySorted le (child_ranks parent (List.concat (map snd gs))).
Proof.
  induction gs as [|[t es] gs IH]; [constructor|]. cbn [map List.concat fst snd].
  intros [Hs Hr]%StronglySorted_inv [Ht Hts]%Forall_cons_iff. unfold child_ranks. rewrite map_app.
  fold (child_ranks parent es). rewrite (tagged_ranks _ _ _ Ht).
  apply sorted_repeat; [by apply groups_ranks_above|by apply IH].
Qed.

Lemma ordered_leaf tag text : ordered (leaf tag text).
Proof. constructor; constructor. Qed.
Create HintDb ordered.
#[export] Hint Resolve ordered_leaf : ordered.

Lemma key_lt_rank {A} parent (a b : string * A) : key_lt parent a b = true -> (rank parent a.1 <= rank parent b.1)%nat.
Proof. unfold key_lt. intros [H%Nat.ltb_lt|[H%Nat.eqb_eq _]%andb_true_iff]%orb_true_iff; lia. Qed.
Lemma key_lt_rank_false {A} parent (a b : string * A) : key_lt parent a b = false -> (rank parent b.1 <= rank parent a.1)%nat.
Proof. unfold key_lt. intros [H%Nat.ltb_ge _]%orb_false_iff. done. Qed.

Lemma sorted_children_ranks {A} parent (l : list (string * A)) :
  StronglySorted le (map (fun g => rank parent g.1) (sorted_children parent l)).
Proof.
  unfold sorted_children. destruct (dget parent ELEMENT_ORDER) as [order|] eqn:E.
  - assert (H : StronglySorted (fun a b => (rank parent a.1 <= rank parent b.1)%nat) (stable_sort (key_lt parent) l)).
    { apply stable_sort_sorted; [apply key_lt_rank|apply key_lt_rank_false|]. intros a b c. lia. }
    induction H as [|a m Hm IH Ha]; cbn; constructor; [done|]. by apply Forall_map.
  - replace (map _ l) with (repeat 0%nat (length l)).
    + rewrite <- (app_nil_r (repeat _ _)). apply sorted_repeat; constructor.
    + induction l as [|a l IH]; [done|]. cbn. rewrite IH. unfold rank. by rewrite E.
Qed.

Lemma sorted_children_perm {A} parent (l : list (string * A)) : sorted_children parent l ≡ₚ l.
Proof. unfold sorted_children. destruct (dget parent ELEMENT_ORDER); [apply stable_sort_perm|done]. Qed.

Lemma raw_ordered v : forall tag, Forall (fun e => e_tag e = tag /\ ordered e) (raw_ksef_to_xml v tag).
Proof.
  induction v as [| | | |s|l IH|d IH] using pyval_nested_ind; intros tag; cbn [raw_ksef_to_xml];
    try (by repeat constructor; auto with ordered).
  - induction IH as [|v l Hv _ IHl]; [constructor|]. cbn. apply Forall_app. by split.
  - constructor; [|constructor]. split; [done|]. set (m := map _ d).
    assert (Hm : forall t f, (t, f) ∈ m -> forall tag, Forall (fun e => e_tag e = tag /\ ordered e) (f tag)).
    { intros t f Hin. apply list_elem_of_In, in_map_iff in Hin as ([k v] & [= <- <-] & Hkv).
      rewrite Forall_forall in IH. apply (IH _ Hkv). }
    assert (Hg : Forall (fun tf => Forall (fun e => e_tag e = tf.1 /\ ordered e) (tf.2 tf.1)) (sorted_children tag (dict_of m))).
    { rewrite sorted_children_perm. apply Forall_forall. intros [t f] Hin. cbn. apply (Hm t).
      by apply elem_of_dict_of, list_elem_of_In. }
    set (gs := map (fun tf => (tf.1, tf.2 tf.1)) (sorted_children tag (dict_of m))).
    replace (flat_map _ _) with (List.concat (map snd gs)).
    2:{ unfold gs. rewrite map_map. cbn. by rewrite flat_map_concat_map. }
    constructor.
    + apply groups_sorted.
      * unfold gs. rewrite map_map. cbn. apply sorted_children_ranks.
      * unfold gs. apply Forall_map. eapply List.Forall_impl; [|exact Hg]. intros [t f] H.
        eapply List.Forall_impl; [|exact H]. by intros e [He _].
    + unfold gs. rewrite map_map. cbn. clear -Hg. induction Hg as [|[t f] l H _ IH]; cbn; [constructor|].
      apply Forall_app. split; [|done]. eapply List.Forall_impl; [|exact H]. by intros e [_ He].
Qed.

(** ** The order of the schema

    The sequences of FA(3), [integrators/other/ksef/v1.0.0/xsd/schemat.xsd], where the builder
    writes elements: the names in their order, whether a name may be repeated, and what it may hold.
    Names the builder never writes from structured data are listed without what they may hold. *)

#[warnings="-register-all"]
Inductive schema := Schema (parts : list (string * (bool * schema))).

Definition text_only : schema := Schema [].
Definition once (tags : list string) : list (string * (bool * schema)) := map (fun t => (t, (false, text_only))) tags.
Definition many (tag : string) (s : schema) : list (string * (bool * schema)) := [(tag, (true, s))].
Definition one (tag : string) (s : schema) : list (string * (bool * schema)) := [(tag, (false, s))].

Definition XSD_ADRES : schema := Schema (once ["KodKraju"; "AdresL1"; "AdresL2"; "GLN"]).
Definition XSD_PODMIOT1 : schema :=
  Schema (once ["PrefiksPodatnika"; "NrEORI"] ++ one "DaneIdentyfikacyjne" (Schema (once ["NIP"; "Nazwa"])) ++ one "Adres" XSD_ADRES
          ++ once ["AdresKoresp"] ++ many "DaneKontaktowe" text_only ++ once ["StatusInfoPodatnika"]).
Definition XSD_PODMIOT2 : schema :=
  Schema (once ["NrEORI"]
          ++ one "DaneIdentyfikacyjne" (Schema (once ["NIP"; "KodUE"; "NrVatUE"; "KodKraju"; "NrID"; "BrakID"; "Nazwa"]))
          ++ one "Adres" XSD_ADRES ++ once ["AdresKoresp"] ++ many "DaneKontaktowe" text_only
          ++ once ["NrKlienta"; "IDNabywcy"; "JST"; "GV"]).
Definition XSD_ADNOTACJE : schema :=
  Schema (once ["P_16"; "P_17"; "P_18"; "P_18A"]
          ++ one "Zwolnienie" (Schema (once ["P_19"; "P_19A"; "P_19B"; "P_19C"; "P_19N"]))
          ++ one "NoweSrodkiTransportu" (Schema (once ["P_22"; "P_42_5"] ++ many "NowySrodekTransportu" text_only ++ once ["P_22N"]))
          ++ once ["P_23"]
          ++ one "PMarzy" (Schema (once ["P_PMarzy"; "P_PMarzy_2"; "P_PMarzy_3_1"; "P_PMarzy_3_2"; "P_PMarzy_3_3"; "P_PMarzyN"]))).
Definition XSD_FAWIERSZ : schema :=
  Schema (once ["NrWierszaFa"; "UU_ID"; "P_6A"; "P_7"; "Indeks"; "GTIN"; "PKWiU"; "CN"; "PKOB"; "P_8A"; "P_8B"; "P_9A"; "P_9B"; "P_10";
                "P_11"; "P_11A"; "P_11Vat"; "P_12"; "P_12_XII"; "P_12_Zal_15"; "KwotaAkcyzy"; "GTU"; "Procedura"; "KursWaluty";
                "StanPrzed"]).
Definition XSD_PLATNOSC : schema :=
  Schema (once ["Zaplacono"; "DataZaplaty"; "ZnacznikZaplatyCzesciowej"] ++ many "ZaplataCzesciowa" text_only
          ++ many "TerminPlatnosci" (Schema (once ["Termin"; "TerminOpis"]))
          ++ once ["FormaPlatnosci"; "PlatnoscInna"; "OpisPlatnosci"]
          ++ many "RachunekBankowy" (Schema (once ["NrRB"; "SWIFT"; "RachunekWlasnyBanku"; "NazwaBanku"; "OpisRachunku"]))
          ++ many "RachunekBankowyFaktora" text_only ++ once ["Skonto"; "LinkDoPlatnosci"; "IPKSeF"]).
Definition XSD_FA : schema :=
  Schema (once ["KodWaluty"; "P_1"; "P_1M"; "P_2"] ++ many "WZ" text_only
          ++ once ["P_6"; "OkresFa"; "P_13_1"; "P_14_1"; "P_14_1W"; "P_13_2"; "P_14_2"; "P_14_2W"; "P_13_3"; "P_14_3"; "P_14_3W";
                   "P_13_4"; "P_14_4"; "P_14_4W"; "P_13_5"; "P_14_5"; "P_13_6_1"; "P_13_6_2"; "P_13_6_3"; "P_13_7"; "P_13_8";
                   "P_13_9"; "P_13_10"; "P_13_11"; "P_15"; "KursWalutyZ"]
          ++ one "Adnotacje" XSD_ADNOTACJE ++ once ["RodzajFaktury"; "PrzyczynaKorekty"; "TypKorekty"]
          ++ many "DaneFaKorygowanej" text_only ++ once ["OkresFaKorygowanej"; "NrFaKorygowany"; "Podmiot1K"]
          ++ many "Podmiot2K" text_only ++ once ["P_15ZK"; "KursWalutyZK"] ++ many "ZaliczkaCzesciowa" text_only
          ++ once ["FP"; "TP"] ++ many "DodatkowyOpis" text_only ++ many "FakturaZaliczkowa" text_only ++ once ["ZwrotAkcyzy"]
          ++ many "FaWiersz" XSD_FAWIERSZ ++ once ["Rozliczenie"] ++ one "Platnosc" XSD_PLATNOSC
          ++ once ["WarunkiTransakcji"; "Zamowienie"]).
Definition XSD_FAKTURA : schema :=
  Schema (one "Naglowek" (Schema (once ["KodFormularza"; "WariantFormularza"; "DataWytworzeniaFa"; "SystemInfo"]))
          ++ one "Podmiot1" XSD_PODMIOT1 ++ one "Podmiot2" XSD_PODMIOT2 ++ many "Podmiot3" text_only ++ once ["PodmiotUpowazniony"]
          ++ one "Fa" XSD_FA ++ once ["Stopka"; "Zalacznik"]).

Definition parts_of (s : schema) : list (string * (bool * schema)) := let '(Schema parts) := s in parts.
Definition place (s : schema) (tag : string) : nat := index_of tag (dkeys (parts_of s)).
(** What may come after a child: a later name, or the same one if it may be repeated. *)
Definition follows_in (s : schema) (a b : string) : Prop :=
  (place s a < place s b)%nat \/ a = b /\ exists s', dget a (parts_of s) = Some (true, s').

(** The children of an element have names the schema lists, in its order, repeated only where it
    allows it, and so on at every depth. *)
#[warnings="-register-all"]
Inductive conforms : schema -> element -> Prop :=
  | Conforms s tag attrs text children :
      StronglySorted (follows_in s) (map e_tag children) ->
      Forall (fun c => exists may_repeat s', dget (e_tag c) (parts_of s) = Some (may_repeat, s') /\ conforms s' c) children ->
      conforms s (Elem tag attrs text children).

(** Elements under one name of a sequence. *)
Definition fits (s : schema) (g : string * list element) : Prop :=
  exists may_repeat s', dget g.1 (parts_of s) = Some (may_repeat, s')
    /\ Forall (fun e => e_tag e = g.1 /\ conforms s' e) g.2 /\ (may_repeat = true \/ (length g.2 <= 1)%nat).

Fixpoint increasing (l : list nat) : bool :=
  match l with
  | a :: ((b :: _) as l') => (a <? b)%nat && increasing l'
  | _ => true
  end.
Lemma increasing_sorted l : increasing l = true -> StronglySorted lt l.
Proof.
  intros H. apply Sorted_StronglySorted; [intros a b c; lia|].
  induction l as [|a [|b l] IH]; [constructor|by repeat constructor|].
  cbn in H. apply andb_true_iff in H as [Hab%Nat.ltb_lt H]. constructor; [by apply IH|by constructor].
Qed.

Lemma fits_tags s g : fits s g -> map e_tag g.2 = repeat g.1 (length g.2).
Proof. intros (m & s' & _ & H & _). induction H as [|e es [He _] _ IH]; [done|]. cbn. by rewrite He, IH. Qed.

Lemma groups_above s tag gs :
  Forall (fun g => (place s tag < place s g.1)%nat) gs -> Forall (fits s) gs ->
  Forall (follows_in s tag) (map e_tag (List.concat (map snd gs))).
Proof.
  induction gs as [|g gs IH]; [constructor|]. intros [Hp Hps]%Forall_cons_iff [Hf Hfs]%Forall_cons_iff.
  cbn [map List.concat]. rewrite map_app. apply Forall_app. split; [|by apply IH].
  rewrite (fits_tags _ _ Hf). apply Forall_forall. intros x Hx%repeat_spec. left. by subst.
Qed.

Lemma conforms_groups s tag attrs text gs :
  increasing (map (fun g => place s g.1) gs) = true -> Forall (fits s) gs ->
  conforms s (Elem tag attrs text (List.concat (map snd gs))).
Proof.
  intros Hi%increasing_sorted Hf. constructor.
  - induction gs as [|g gs IH]; [constructor|]. cbn [map List.concat] in *.
    apply StronglySorted_inv in Hi as [Hi Hg]. apply Forall_cons_iff in Hf as [Hf Hfs]. rewrite map_app, (fits_tags _ _ Hf).
    assert (Hab : Forall (follows_in s g.1) (map e_tag (List.concat (map snd gs)))).
    { apply groups_above; [|done]. by rewrite Forall_map in Hg. }
    destruct Hf as (may_repeat & s' & Hd & _ & Hn).
    destruct Hn as [->|Hn].
    + induction (length g.2) as [|n IHn]; [by apply IH|]. cbn. constructor; [done|]. apply Forall_app. split; [|done].
      apply Forall_forall. intros x Hx%repeat_spec. right. split; [done|]. by exists s'.
    + destruct (length g.2) as [|[|n]]; cbn; [by apply IH| |lia]. constructor; [by apply IH|done].
  - clear Hi. induction Hf as [|g gs (may_repeat & s' & Hd & Hes & _) _ IH]; cbn; [constructor|].
    apply Forall_app. split; [|done]. eapply List.Forall_impl; [|exact Hes]. intros e [-> He]. by exists may_repeat, s'.
Qed.

Lemma conforms_leaf s tag text : conforms s (leaf tag text).
Proof. constructor; constructor. Qed.

Lemma fits_one s tag e may_repeat s' :
  dget tag (parts_of s) = Some (may_repeat, s') -> e_tag e = tag -> conforms s' e -> fits s (tag, [e]).
Proof. intros Hd Ht He. exists may_repeat, s'. split; [done|]. split; [by repeat constructor|right; cbn; lia]. Qed.
Lemma fits_optional s tag b e may_repeat s' :
  dget tag (parts_of s) = Some (may_repeat, s') -> e_tag e = tag -> conforms s' e -> fits s (tag, optional b e).
Proof.
  intros Hd Ht He. destruct b; [by apply (fits_one s tag e may_repeat s')|]. exists may_repeat, s'.
  split; [done|]. split; [constructor|right; cbn; lia].
Qed.
Lemma fits_nil s tag may_repeat s' : dget tag (parts_of s) = Some (may_repeat, s') -> fits s (tag, []).
Proof. intros Hd. exists may_repeat, s'. split; [done|]. split; [constructor|right; cbn; lia]. Qed.

Create HintDb fits.
#[export] Hint Resolve conforms_leaf : fits.
#[export] Hint Extern 2 (fits _ (_, [_])) => eapply fits_one; [reflexivity|reflexivity|] : fits.
#[export] Hint Extern 2 (fits _ (_, optional _ _)) => eapply fits_optional; [reflexivity|reflexivity|] : fits.
#[export] Hint Extern 2 (fits _ (_, [])) => eapply fits_nil; reflexivity : fits.

(** The groups of a list of children, as it is written. *)
Ltac tag_of e :=
  match e with
  | leaf ?t _ => t | node ?t _ => t | Elem ?t _ _ _ => t | flag ?t _ _ _ => t
  | address _ => constr:("Adres") | adnotacje _ => constr:("Adnotacje") | header _ => constr:("Naglowek")
  end.
Ltac groups_of children :=
  match children with
  | [] => constr:(@nil (string * list element))
  | ?e :: ?l => let t := tag_of e in let gs := groups_of l in constr:((t, [e]) :: gs)
  | (optional ?b ?e ++ ?l)%list => let t := tag_of e in let gs := groups_of l in constr:((t, optional b e) :: gs)
  | optional ?b ?e => let t := tag_of e in constr:([(t, optional b e)])
  | (?v ++ ?l)%list => match goal with _ : fits _ (?t, v) |- _ => let gs := groups_of l in constr:((t, v) :: gs) end
  | ?v => match goal with _ : fits _ (?t, v) |- _ => constr:([(t, v)]) end
  end.
Ltac as_elem :=
  match goal with
  | |- conforms ?s (node ?tag ?children) => change (conforms s (Elem tag [] PNone children))
  | |- conforms _ (Elem _ _ _ _) => idtac
  end.
Ltac in_groups :=
  as_elem; match goal with |- conforms _ (Elem _ _ _ ?children) =>
    let gs := groups_of children in
    replace children with (List.concat (map (snd (A := string)) gs)) by (cbn; by rewrite ?app_nil_r, <- ?app_assoc);
    apply conforms_groups; [cbn [map fst]; by vm_compute|repeat (constructor; [auto 10 with fits|]); try constructor]
  end.

Section facts.
Variables utcnow today stamp : string.

Hint Extern 3 (conforms _ (node _ _)) => in_groups : fits.
Hint Extern 3 (conforms _ (flag _ _ _ _)) => apply conforms_leaf : fits.

Lemma address_conforms entity : e_tag (address entity) = "Adres" /\ conforms XSD_ADRES (address entity).
Proof. unfold address. destruct (address_lines entity) as [l1 l2]. split; [done|]. in_groups. Qed.
Lemma address_fits s entity : dget "Adres" (parts_of s) = Some (false, XSD_ADRES) -> fits s ("Adres", [address entity]).
Proof. intros Hd. destruct (address_conforms entity). by eapply fits_one. Qed.
Hint Extern 1 (fits _ (_, [address _])) => apply address_fits; reflexivity : fits.

Lemma header_fits : fits XSD_FAKTURA ("Naglowek", [header utcnow]).
Proof.
  eapply fits_one; [reflexivity|reflexivity|]. unfold header. as_elem.
  match goal with |- conforms _ (Elem _ _ _ [?a; ?b; ?c; ?d]) =>
    apply (conforms_groups _ _ _ _ [("KodFormularza", [a]); ("WariantFormularza", [b]); ("DataWytworzeniaFa", [c]); ("SystemInfo", [d])])
  end; [by vm_compute|].
  constructor; [eapply fits_one; [reflexivity|reflexivity|constructor; constructor]|].
  repeat (constructor; [auto 10 with fits|]). constructor.
Qed.

Lemma seller_fits seller e : seller_element seller = Ok e -> fits XSD_FAKTURA ("Podmiot1", [e]).
Proof. unfold seller_element. intros H. bind_ok. eapply fits_one; [reflexivity|reflexivity|]. in_groups. Qed.

Lemma buyer_fits buyer e : buyer_element buyer = Ok e -> fits XSD_FAKTURA ("Podmiot2", [e]).
Proof. unfold buyer_element. intros H. bind_ok. eapply fits_one; [reflexivity|reflexivity|]. cbv zeta. in_groups. Qed.

Lemma adnotacje_fits data : fits XSD_FA ("Adnotacje", [adnotacje data]).
Proof. eapply fits_one; [reflexivity|reflexivity|]. unfold adnotacje. in_groups. Qed.
Hint Resolve adnotacje_fits header_fits : fits.

Lemma line_item_conforms idx item e : line_item idx item = Ok e -> e_tag e = "FaWiersz" /\ conforms XSD_FAWIERSZ e.
Proof.
  unfold line_item. intros H. bind_ok. split; [done|].
  assert (fits XSD_FAWIERSZ ("P_9A", x0)) by (destruct (unit_price_of x); bind_ok; auto with fits).
  assert (fits XSD_FAWIERSZ ("P_11", x1)).
  { destruct (dget_or "net_amount" PNone x), (unit_price_of x), (dget_or "quantity" PNone x); bind_ok; auto with fits. }
  in_groups.
Qed.

Lemma line_items_fit items idx es : line_items idx items = Ok es -> fits XSD_FA ("FaWiersz", es).
Proof.
  intros H. exists true, XSD_FAWIERSZ. split; [reflexivity|]. cbn [fst snd]. split; [|by left]. revert idx es H.
  induction items as [|i items IH]; intros idx es; cbn [line_items]; intros H; bind_ok; [constructor|].
  constructor; [by apply line_item_conforms in Hx|by eapply IH].
Qed.

Lemma payment_fits payment es : payment_elements payment = Ok es -> fits XSD_FA ("Platnosc", es).
Proof.
  unfold payment_elements. destruct (negb (truthy payment)); intros H; bind_ok; [auto with fits|].
  eapply fits_one; [reflexivity|reflexivity|]. in_groups.
Qed.

Lemma amount_fits tag v es s may_repeat s' :
  dget tag (parts_of s) = Some (may_repeat, s') -> amount_element tag v = Ok es -> fits s (tag, es).
Proof.
  intros Hd. unfold amount_element. destruct v; intros H; bind_ok;
    first [by eapply fits_nil|eapply fits_one; [exact Hd|reflexivity|apply conforms_leaf]].
Qed.

Lemma total_elements_fit data l : total_elements data = Ok l ->
  exists a b c, l = [a; b; c] /\ fits XSD_FA ("P_13_1", a) /\ fits XSD_FA ("P_14_1", b) /\ fits XSD_FA ("P_15", c).
Proof.
  unfold total_elements. intros H. bind_ok. destruct x as [[net vat] gross]. bind_ok.
  exists x, x0, x1. split; [done|]. split_and!; by eapply amount_fits; [reflexivity|].
Qed.

Lemma body_fits data e : invoice_body today stamp data = Ok e -> fits XSD_FAKTURA ("Fa", [e]).
Proof.
  unfold invoice_body. intros H. bind_ok. eapply fits_one; [reflexivity|reflexivity|].
  apply total_elements_fit in Hx as (a & b & c & -> & ? & ? & ?).
  apply line_items_fit in Hx1. apply payment_fits in Hx2. cbn [List.concat]. rewrite app_nil_r, <- !app_assoc. cbn [app].
  in_groups.
Qed.

(** C19: The XML of an invoice from structured data is a [Faktura] in which every element has, at every
    depth, only children FA(3) lists for it, in the order of its sequences, and repeats only those it
    lets be repeated, whatever the fields hold.  (Which of them must be present, and their texts, are
    not in the statement; for data in KSeF's own JSON names it is false: [index_after_quantity].) *)
Theorem invoices_in_schema_order data root :
  invoice_tree utcnow today stamp data = Ok root -> e_tag root = "Faktura" /\ conforms XSD_FAKTURA root.
Proof.
  intros H. unfold invoice_tree in H. bind_ok. split; [done|].
  apply seller_fits in Hx. apply buyer_fits in Hx0. apply body_fits in Hx1.
  apply (conforms_groups XSD_FAKTURA "Faktura" root_attrs PNone [("Naglowek", [header utcnow]); ("Podmiot1", [x]); ("Podmiot2", [x0]); ("Fa", [x1])]);
    [by vm_compute|]. repeat (constructor; [auto with fits|]). constructor.
Qed.

(** ** Markup *)

(** The tags of an invoice from structured data. *)
Definition FA_TAGS : list string :=
  ["Faktura"; "Naglowek"; "KodFormularza"; "WariantFormularza"; "DataWytworzeniaFa"; "SystemInfo"; "Podmiot1"; "Podmiot2";
   "DaneIdentyfikacyjne"; "NIP"; "Nazwa"; "Adres"; "KodKraju"; "AdresL1"; "AdresL2"; "JST"; "GV"; "Fa"; "KodWaluty"; "P_1";
   "P_1M"; "P_2"; "P_6"; "P_13_1"; "P_14_1"; "P_15"; "Adnotacje"; "P_16"; "P_17"; "P_18"; "P_18A"; "Zwolnienie"; "P_19N";
   "NoweSrodkiTransportu"; "P_22N"; "P_23"; "PMarzy"; "P_PMarzyN"; "RodzajFaktury"; "FaWiersz"; "NrWierszaFa"; "P_7"; "P_8A";
   "P_8B"; "P_9A"; "P_11"; "P_12"; "Platnosc"; "Zaplacono"; "DataZaplaty"; "TerminPlatnosci"; "Termin"; "FormaPlatnosci";
   "RachunekBankowy"; "NrRB"].

(** A tree of these tags; only the root and the form code have attributes. *)
Fixpoint fa_tree (e : element) : bool :=
  let '(Elem tag attrs _ children) := e in
  listed tag FA_TAGS && forallb (fun kv => plain_name kv.1) attrs && forallb fa_tree children.

Lemma fa_plain e : fa_tree e = true -> plain_names e = true.
Proof.
  induction e as [tag attrs text children IH] using element_nested_ind. cbn [fa_tree plain_names].
  intros [[Ht Ha]%andb_true_iff Hc]%andb_true_iff. rewrite Ha, andb_true_r. apply andb_true_iff. split.
  - unfold listed in Ht. apply existsb_exists in Ht as (t & Hin & ->%String.eqb_eq). clear -Hin.
    assert (H : forallb plain_name FA_TAGS = true) by by vm_compute. rewrite forallb_forall in H. by apply H.
  - apply forallb_forall. intros c Hin. rewrite forallb_forall in Hc. rewrite Forall_forall in IH. auto.
Qed.

Lemma fa_optional b e : fa_tree e = true -> forallb fa_tree (optional b e) = true.
Proof. intros H. destruct b; cbn; by rewrite ?H. Qed.
Lemma fa_leaf tag text : fa_tree (leaf tag text) = listed tag FA_TAGS.
Proof. cbn. by rewrite !andb_true_r. Qed.
Lemma fa_node tag children : fa_tree (node tag children) = listed tag FA_TAGS && forallb fa_tree children.
Proof. cbn. by rewrite !andb_true_r. Qed.
Lemma fa_flag tag key n data : fa_tree (flag tag key n data) = listed tag FA_TAGS.
Proof. apply fa_leaf. Qed.
Lemma fa_address entity : fa_tree (address entity) = true.
Proof. unfold address. destruct (address_lines entity). by rewrite fa_node. Qed.
Create Rewrite HintDb fa_tree.
Hint Rewrite fa_leaf fa_node fa_flag fa_address forallb_app : fa_tree.
Hint Rewrite fa_optional using (cbn [forallb]; autorewrite with fa_tree; reflexivity) : fa_tree.

(** Trees of the builder: their tags are literals. *)
Ltac by_literals := repeat (cbn [forallb]; autorewrite with fa_tree); by cbn.

Lemma amount_fa tag v es : listed tag FA_TAGS = true -> amount_element tag v = Ok es -> forallb fa_tree es = true.
Proof. intros Ht. unfold amount_element. destruct v; intros H; bind_ok; cbn [forallb]; by rewrite ?fa_leaf, ?Ht. Qed.
Lemma line_item_fa idx item e : line_item idx item = Ok e -> fa_tree e = true.
Proof.
  unfold line_item. intros H. bind_ok.
  assert (Hp : forallb fa_tree x0 = true) by (destruct (unit_price_of x); bind_ok; done).
  assert (Hn : forallb fa_tree x1 = true).
  { destruct (dget_or "net_amount" PNone x), (unit_price_of x), (dget_or "quantity" PNone x); bind_ok; done. }
  rewrite fa_node. cbn [forallb]. rewrite !forallb_app, Hp, Hn. by_literals.
Qed.
Lemma line_items_fa items : forall idx es, line_items idx items = Ok es -> forallb fa_tree es = true.
Proof.
  induction items as [|i items IH]; intros idx es; cbn [line_items]; intros H; bind_ok; [done|].
  cbn [forallb]. by rewrite (line_item_fa _ _ _ Hx), (IH _ _ Hx0).
Qed.
Lemma seller_fa seller e : seller_element seller = Ok e -> fa_tree e = true.
Proof. unfold seller_element. intros H. bind_ok. by_literals. Qed.
Lemma buyer_fa buyer e : buyer_element buyer = Ok e -> fa_tree e = true.
Proof. unfold buyer_element. intros H. bind_ok. by_literals. Qed.
Lemma payment_fa payment es : payment_elements payment = Ok es -> forallb fa_tree es = true.
Proof. unfold payment_elements. destruct (negb _); intros H; bind_ok; [done|]. by_literals. Qed.
Lemma adnotacje_fa data : fa_tree (adnotacje data) = true.
Proof. unfold adnotacje. by_literals. Qed.
Lemma total_elements_fa data l : total_elements data = Ok l -> forallb fa_tree (List.concat l) = true.
Proof.
  unfold total_elements. intros H. bind_ok. destruct x as [[net vat] gross]. bind_ok. cbn [List.concat].
  rewrite !forallb_app. by rewrite (amount_fa "P_13_1" _ _ eq_refl Hx0), (amount_fa "P_14_1" _ _ eq_refl Hx1), (amount_fa "P_15" _ _ eq_refl Hx2).
Qed.
Lemma body_fa data e : invoice_body today stamp data = Ok e -> fa_tree e = true.
Proof.
  unfold invoice_body. intros H. bind_ok. apply total_elements_fa in Hx. apply line_items_fa in Hx1. apply payment_fa in Hx2.
  rewrite fa_node. cbn [forallb]. rewrite !forallb_app. cbn [forallb]. rewrite forallb_app, Hx, Hx1, Hx2, adnotacje_fa. by_literals.
Qed.
Lemma invoice_fa data root : invoice_tree utcnow today stamp data = Ok root -> fa_tree root = true.
Proof.
  unfold invoice_tree. intros H. bind_ok. apply seller_fa in Hx. apply buyer_fa in Hx0. apply body_fa in Hx1.
  cbn [fa_tree forallb]. by rewrite Hx, Hx0, Hx1.
Qed.

(** C25: Whatever the fields of a structured invoice hold, a reader of its XML finds exactly the tags of
    the tree, which are tags of the schema, and the texts read back as they were given. *)
Theorem values_add_no_markup data xml :
  build_invoice_xml utcnow today stamp data = Ok xml ->
  exists root declaration, invoice_tree utcnow today stamp data = Ok root /\ fa_tree root = true
    /\ lex false "" xml = (Markup declaration :: Chars (str1 "010") :: tokens root)%list
    /\ forall s, unescape (String.length s) (escape_cdata s) = s.
Proof.
  unfold build_invoice_xml. intros H. bind_ok. pose proof (invoice_fa _ _ Hx) as Hfa.
  do 2 eexists. split; [exact Hx|]. split; [exact Hfa|]. split; [|intros s; by apply unescape_escape].
  set (d := "?xml version=" ++ str1 dquote ++ "1.0" ++ str1 dquote ++ " encoding=" ++ str1 dquote ++ "UTF-8" ++ str1 dquote ++ "?").
  transitivity (lex false "" ("<" ++ d ++ ">" ++ str1 "010" ++ x0)); [reflexivity|].
  rewrite (lex_tag d "" (str1 "010" ++ x0)) by by vm_compute. cbn [chars app]. f_equal.
  rewrite (lex_outside (str1 "010") "" x0) by done. rewrite <- (str_app_nil_r x0).
  rewrite (lex_serialize _ _ (fa_plain _ Hfa) Hx0). cbn [lex chars append str1 app]. by rewrite app_nil_r.
Qed.
End facts.

(** ** Examples *)

Definition demo_invoice : dict :=
  [("invoice_number", PStr "FV/1"); ("issue_date", PStr "2026-03-29");
   ("seller", PDict [("nip", PStr "123"); ("name", PStr "A & B"); ("address_line1", PStr "x</AdresL1>")]);
   ("buyer", PDict [("name", PStr "C"); ("address", PDict [("street", PStr "s 1"); ("postal_code", PStr "00-001"); ("city", PStr "W")])]);
   ("items", PList [PDict [("description", PStr "d"); ("quantity", PInt 1); ("unit_price_net", PFloat (float_of_ratio false 335 1000));
                           ("vat_rate", PInt 23)]])].

Lemma invoices_in_schema_order_witness :
  exists root, invoice_tree "T" "2026-01-01" "S" demo_invoice = Ok root /\ conforms XSD_FAKTURA root.
Proof.
  eexists. split; [reflexivity|]. eapply (invoices_in_schema_order "T" "2026-01-01" "S" demo_invoice). reflexivity.
Defined.

(** The builder's table has no [Indeks], [GTIN] or [PKWiU]: in a line of raw data they come after the
    quantity and the tax rate, and the schema has them before. *)
Example index_after_quantity :
  let line := PDict [("nrWierszaFa", PInt 1); ("p7", PStr "d"); ("indeks", PStr "A1"); ("p8B", PInt 2); ("p12", PStr "23")] in
  map (map e_tag) (map (fun e => let '(Elem _ _ _ children) := e in children) (raw_ksef_to_xml line "FaWiersz"))
    = [["NrWierszaFa"; "P_7"; "P_8B"; "P_12"; "Indeks"]]
  /\ (place XSD_FAWIERSZ "Indeks" < place XSD_FAWIERSZ "P_8B")%nat.
Proof. split; vm_compute; [done|lia]. Qed.

Lemma values_add_no_markup_witness :
  exists xml root, build_invoice_xml "T" "2026-01-01" "S" demo_invoice = Ok xml
    /\ invoice_tree "T" "2026-01-01" "S" demo_invoice = Ok root /\ fa_tree root = true.
Proof.
  destruct (build_invoice_xml "T" "2026-01-01" "S" demo_invoice) as [xml|e] eqn:E; [|by vm_compute in E].
  destruct (values_add_no_markup "T" "2026-01-01" "S" demo_invoice xml E) as (root & d & H1 & H2 & _ & _).
  exists xml, root. by split_and!.
Defined.

(** One line of net 0.335 at 23%: the printed gross is not the sum of the printed net and tax. *)
Example printed_totals_disagree :
  (fun l => flat_map (map (fun e => let '(Elem tag _ text _) := e in (tag, text))) l) <$> (match total_elements demo_invoice with Ok l => Some l | _ => None end)
  = Some [("P_13_1", PStr "0.34"); ("P_14_1", PStr "0.08"); ("P_15", PStr "0.41")].
Proof. by vm_compute. Qed.

(** The tags of the exempt and reverse-charge amounts cannot be reached by their JSON names. *)
Example unreachable_tags :
  map resolve_xml_tag ["p131"; "p1361"; "p136_1"; "p13_6_1"; "p1310"; "p1311"]
  = ["P_13_1"; "P_136_1"; "P136_1"; "P13_6_1"; "P_131_0"; "P_131_1"].
Proof. by vm_compute. Qed.

(** An exemption flag given as an int is dropped, a text is moved. *)
Example int_exemption_dropped :
  preprocess_adnotacje (PDict [("p19", PInt 1); ("p19A", PStr "art. 43")])
  = Ok (PDict [("zwolnienie", PDict [("p19A", PStr "art. 43")])]).
Proof. by vm_compute. Qed.

(** Names of raw data go into the markup as they are, and null values become the text None. *)
Example raw_names_are_markup :
  (e ← (match raw_ksef_to_xml (PDict [("x><y", PNone)]) "Fa" with e :: _ => Ok e | [] => Raise (KeyError "") end); serialize e)
  = Ok "<Fa><X><y>None</X><y></Fa>".
Proof. by vm_compute. Qed.
