(* ===== verification/WmsPoller.v ===== *)
(** The event poller of the WMS connector
    ([integrators/wms/pinquark-wms/v1.0.0/src/event_poller.py], its endpoints in
    [app.py]).  It fetches the entities of every account, compares them with what it saw
    last, and emits an event for what is new or changed.

    The world keeps the poller and a trace, newest entry first, of what was fetched and
    sent; the WMS, Kafka and the platform are functions of the trace.  The five polls
    [asyncio.gather] starts for an account use five entries of the state, so they run one
    after the other here. *)

From S2P Require Import Prelude PyText PyValue Json Sync Effects.

Local Open Scope string_scope.

(** ** The poller *)

Record WmsCredentials := Creds {
  api_url : string;
  username : string;
  password : string;
  polling_interval_seconds : option Z
}.

(** The part of [config.py] the poller reads. *)
Record Settings := MkSettings {
  event_polling_enabled : bool;
  event_polling_interval_seconds : Z;
  platform_api_url : string;
  platform_event_notify : bool;
  kafka_topic_documents : string;
  kafka_topic_articles : string;
  kafka_topic_contractors : string;
  kafka_topic_positions : string;
  kafka_topic_feedbacks : string
}.

Definition default_settings : Settings :=
  MkSettings true 120 "http://platform:8080" true "wms.output.wms.documents.synced"
    "wms.output.wms.articles.synced" "wms.output.wms.contractors.synced"
    "wms.output.wms.positions.synced" "wms.output.wms.feedbacks.received".

(** [EventPoller]: [state] maps an account and entity type to the keys and hashes seen
    last. *)
Record EventPoller := MkPoller {
  state : list (string * list (string * string));
  initialized : list string;
  credential_store : list (string * WmsCredentials);
  last_poll : list (string * Z);
  kafka_producer : bool;
  http_client : bool;
  running : bool
}.

Definition new_poller (kafka : bool) : EventPoller := MkPoller [] [] [] [] kafka false false.

Inductive entry :=
  | Fetched (account entity : string) (answer : res (pyval * Z))
  | Published (topic : string) (envelope key : pyval) (ok : bool)
  | Notified (url : string) (payload : dict) (accepted : bool).

Record World := MkWorld { poller : EventPoller; trace : list entry }.

Definition on_poller (f : EventPoller -> EventPoller) (w : World) : World :=
  MkWorld (f (poller w)) (trace w).
Definition log (e : entry) (w : World) : World := MkWorld (poller w) (e :: trace w).

(** [str(d.get(k, default))], in an f-string. *)
Definition field_text (k : string) (default : pyval) (d : dict) : string := py_str (dget_or k default d).

Definition erp_key (d : dict) : string :=
  field_text "source" (PStr "ERP") d ++ ":" ++ field_text "erpId" (dget_or "wmsId" (PStr "") d) d.

(** [_entity_key]. *)
Definition entity_key (entity : pyval) (entity_type : string) : res string :=
  if existsb (String.eqb entity_type) ["document"; "article"; "contractor"] then
    d ← dict_method "get" entity; Ok (erp_key d)
  else if String.eqb entity_type "position" then
    d ← dict_method "get" entity;
    Ok (field_text "documentSource" (PStr "") d ++ ":" ++ field_text "documentId" (PStr "") d)
  else if String.eqb entity_type "feedback" then
    d ← dict_method "get" entity; Ok (field_text "id" (PStr "") d)
  else Ok (json_dumps entity).

Definition state_key (account entity_type : string) : string := account ++ ":" ++ entity_type.

(** The items of an answer, after the early returns for failures. *)
Definition answered (answer : res (pyval * Z)) : option (list pyval) :=
  match answer with
  | Ok (PList items, status) => if (400 <=? status)%Z then None else Some items
  | _ => None
  end.

Section poller.
Variable settings : Settings.
(** [hashlib.md5(text.encode()).hexdigest()]. *)
Variable md5 : string -> string.
(** The clock, the WMS client's [get_...], whether Kafka takes a message, and the status
    the platform answers a notification with. *)
Variable now_iso : list entry -> string.
Variable fetch : list entry -> WmsCredentials -> string -> res (pyval * Z).
Variable publish : list entry -> string -> pyval -> bool.
Variable post : list entry -> string -> dict -> res Z.

(** [_content_hash]. *)
Definition content_hash (entity : pyval) : string := md5 (json_dumps entity).

Definition EVENT_TOPIC_MAP : list (string * string) :=
  [("document.synced", kafka_topic_documents settings);
   ("article.synced", kafka_topic_articles settings);
   ("contractor.synced", kafka_topic_contractors settings);
   ("position.synced", kafka_topic_positions settings);
   ("feedback.received", kafka_topic_feedbacks settings)].

(** [wrap_event] of [pinquark_common/kafka/envelope.py]. *)
Definition wrap_event (connector_name event : string) (data account_name : pyval) (timestamp : string) : pyval :=
  PDict [("connector_name", PStr connector_name); ("event", PStr event); ("timestamp", PStr timestamp);
         ("account_name", account_name); ("data", data)].

(** *** Events *)

Definition publish_event (event_name : string) (data : dict) : EM World unit :=
  w ← get_st;
  let account := dget_or "account_name" (PStr "") data in
  let topic := default ("wms.output.wms." ++ event_name) (dget event_name EVENT_TOPIC_MAP) in
  let envelope := wrap_event "pinquark-wms" event_name (PDict data) account (now_iso (trace w)) in
  modify (log (Published topic envelope (py_or account PNone) (publish (trace w) topic envelope))).

(** The body of a notification. *)
Definition event_payload (event_name : string) (data : dict) : dict :=
  [("connector_name", PStr "pinquark-wms"); ("event", PStr event_name); ("data", PDict data)].

Definition notify_platform (event_name : string) (data : dict) : EM World unit :=
  w ← get_st;
  let url := platform_api_url settings ++ "/internal/events" in
  let payload := event_payload event_name data in
  let accepted := match post (trace w) url payload with Ok status => (status <? 300)%Z | Raise _ => false end in
  modify (log (Notified url payload accepted)).

(** [_emit_event]: failures are logged and nothing more. *)
Definition emit_event (event_name : string) (data : dict) : EM World unit :=
  w ← get_st;
  _ ← (if kafka_producer (poller w) then publish_event event_name data else mret tt);
  if platform_event_notify settings && negb (String.eqb (platform_api_url settings) "")
     && http_client (poller w)
  then notify_platform event_name data else mret tt.

(** *** One entity type of one account *)

(** The call of the WMS, and the early returns on what it answers. *)
Definition fetched (account : string) (creds : WmsCredentials) (entity : string)
  : EM World (option (list pyval)) :=
  w ← get_st;
  let answer := fetch (trace w) creds entity in
  _ ← modify (log (Fetched account entity answer));
  mret (answered answer).

(** [item["account_name"] = ...; item["_change_type"] = ...]. *)
Definition tagged (account change : string) (d : dict) : dict :=
  dset "_change_type" (PStr change) (dset "account_name" (PStr account) d).

(** The turn of the loop for one item; [seen] is the state that grows. *)
Definition poll_item (account entity_type event_name : string) (current : list (string * string))
    (first_run : bool) (seen : list (string * string)) (item : pyval) : EM World (list (string * string)) :=
  key ← lift (entity_key item entity_type);
  let content := content_hash item in
  let seen' := dset key content seen in
  if first_run then mret seen' else
  let prev := dget key current in
  if bool_decide (prev = Some content) then mret seen' else
  d ← lift (dict_method "__setitem__" item);
  _ ← emit_event event_name (tagged account match prev with Some _ => "updated" | None => "new" end d);
  mret seen'.

Fixpoint fold_items {A} (f : A -> pyval -> EM World A) (a : A) (items : list pyval) : EM World A :=
  match items with
  | [] => mret a
  | item :: items' => a' ← f a item; fold_items f a' items'
  end.

(** [self._state[k] = new_state; self._initialized.add(k)]. *)
Definition record_state (k : string) (new_state : list (string * string)) (p : EventPoller) : EventPoller :=
  MkPoller (dset k new_state (state p))
    (if existsb (String.eqb k) (initialized p) then initialized p else k :: initialized p)
    (credential_store p) (last_poll p) (kafka_producer p) (http_client p) (running p).

(** [self._state.get(k, {})] and [k not in self._initialized]. *)
Definition current_state (k : string) (p : EventPoller) : list (string * string) :=
  default [] (dget k (state p)).
Definition is_first_run (k : string) (p : EventPoller) : bool :=
  negb (existsb (String.eqb k) (initialized p)).

Definition poll_changes (account entity_type event_name : string) (items : list pyval) : EM World unit :=
  w ← get_st;
  let k := state_key account entity_type in
  new_state ← fold_items (poll_item account entity_type event_name (current_state k (poller w))
                            (is_first_run k (poller w))) [] items;
  modify (on_poller (record_state k new_state)).

(** [_poll_entity]. *)
Definition poll_entity (account : string) (creds : WmsCredentials) (entity_type event_name : string)
  : EM World unit :=
  if existsb (String.eqb entity_type) ["document"; "article"; "contractor"] then
    o ← fetched account creds entity_type;
    match o with Some items => poll_changes account entity_type event_name items | None => mret tt end
  else mret tt.

(** [_poll_positions]. *)
Definition poll_positions (account : string) (creds : WmsCredentials) : EM World unit :=
  o ← fetched account creds "position";
  match o with Some items => poll_changes account "position" "position.synced" items | None => mret tt end.

(** The loop of [_poll_feedbacks]: only ids are kept. *)
Definition poll_feedback (account : string) (known : list (string * string)) (first_run : bool)
    (seen : list (string * string)) (item : pyval) : EM World (list (string * string)) :=
  d ← lift (dict_method "get" item);
  let fb_id := field_text "id" (PStr "") d in
  let seen' := dset fb_id "1" seen in
  if first_run then mret seen' else
  if dhas fb_id known then mret seen' else
  _ ← emit_event "feedback.received" (dset "account_name" (PStr account) d);
  mret seen'.

Definition poll_feedbacks (account : string) (creds : WmsCredentials) : EM World unit :=
  o ← fetched account creds "feedback";
  match o with
  | None => mret tt
  | Some items =>
      w ← get_st;
      let k := state_key account "feedback" in
      new_ids ← fold_items (poll_feedback account (current_state k (poller w)) (is_first_run k (poller w)))
                  [] items;
      modify (on_poller (record_state k new_ids))
  end.

(** *** Cycles *)

(** A member of [asyncio.gather(..., return_exceptions=True)]. *)
Definition gathered (m : EM World unit) : EM World unit := try_catch m (fun _ => mret tt).

(** [_poll_account]. *)
Definition poll_account (account : string) (creds : WmsCredentials) : EM World unit :=
  for_each gathered
    [poll_entity account creds "document" "document.synced";
     poll_entity account creds "article" "article.synced";
     poll_entity account creds "contractor" "contractor.synced";
     poll_positions account creds;
     poll_feedbacks account creds].

(** [_account_interval]; an interval of 0 is none. *)
Definition account_interval (creds : WmsCredentials) : Z :=
  match polling_interval_seconds creds with
  | Some n => if (n =? 0)%Z then event_polling_interval_seconds settings else n
  | None => event_polling_interval_seconds settings
  end.

(** [_tick_interval]. *)
Definition tick_interval (p : EventPoller) : Z :=
  match map (fun nc => account_interval nc.2) (credential_store p) with
  | [] => event_polling_interval_seconds settings
  | i :: l => fold_left Z.min l i
  end.

Definition set_last_poll (account : string) (now : Z) (p : EventPoller) : EventPoller :=
  MkPoller (state p) (initialized p) (credential_store p) (dset account now (last_poll p))
    (kafka_producer p) (http_client p) (running p).

Definition is_due (now : Z) (p : EventPoller) (nc : string * WmsCredentials) : bool :=
  (account_interval nc.2 <=? now - default 0 (dget nc.1 (last_poll p)))%Z.

(** [_poll_cycle]. *)
Definition poll_cycle (now : Z) : EM World unit :=
  w ← get_st;
  for_each (fun nc : string * WmsCredentials =>
      try_catch (_ ← poll_account nc.1 nc.2; modify (on_poller (set_last_poll nc.1 now)))
        (fun _ => mret tt))
    (List.filter (is_due now (poller w)) (credential_store (poller w))).

(** [register_credentials]. *)
Definition register_credentials (account : string) (creds : WmsCredentials) (p : EventPoller) : EventPoller :=
  MkPoller (state p) (initialized p) (dset account creds (credential_store p)) (last_poll p)
    (kafka_producer p) (http_client p) (running p).

(** [start] and [stop], without the task of the loop. *)
Definition start (p : EventPoller) : EventPoller :=
  if event_polling_enabled settings then
    MkPoller (state p) (initialized p) (credential_store p) (last_poll p) (kafka_producer p) true true
  else p.
Definition stop (p : EventPoller) : EventPoller :=
  MkPoller (state p) (initialized p) (credential_store p) (last_poll p) (kafka_producer p)
    (http_client p) false.

(** [reset_state]. *)
Definition reset_state (p : EventPoller) : EventPoller :=
  MkPoller [] [] (credential_store p) [] (kafka_producer p) (http_client p) (running p).

(** *** The endpoints of [app.py] *)

Definition register_polling_account (account : string) (creds : WmsCredentials) : EM World dict :=
  _ ← modify (on_poller (register_credentials account creds));
  mret [("status", PStr "registered"); ("account_name", PStr account);
        ("polling_interval", PInt (event_polling_interval_seconds settings));
        ("polling_enabled", PBool (event_polling_enabled settings))].

Definition poller_status (p : EventPoller) : dict :=
  [("running", PBool (running p)); ("enabled", PBool (event_polling_enabled settings));
   ("default_interval_seconds", PInt (event_polling_interval_seconds settings));
   ("registered_accounts", PDict (map (fun nc =>
      (nc.1, PDict [("interval_seconds", PInt (account_interval nc.2));
                    ("custom", PBool (bool_decide (polling_interval_seconds nc.2 <> None)))]))
      (credential_store p)));
   ("tracked_entities", PDict (map (fun kd => (kd.1, PInt (Z.of_nat (List.length kd.2)))) (state p)));
   ("initialized_entities", PList (map PStr (initialized p)));
   ("platform_url", PStr (platform_api_url settings))].

Definition poller_reset : EM World dict :=
  _ ← modify (on_poller reset_state);
  mret [("status", PStr "reset"); ("message", PStr "Next poll cycle will emit events for all entities")].

Definition poller_poll_now (now : Z) : EM World dict :=
  w ← get_st;
  if negb (running (poller w)) then http_error 400 "Poller is not running"
  else (* the cycle runs in a task of its own *)
       _ ← poll_cycle now;
       mret [("status", PStr "triggered"); ("message", PStr "Poll cycle started")].
End poller.

(** ** A subscriber of the events

    What the platform can know: for each account and entity type it starts from the first
    snapshot the poller took, and applies the events it accepted. *)

Definition CONTENT_EVENTS : list (string * string) :=
  [("document", "document.synced"); ("article", "article.synced");
   ("contractor", "contractor.synced"); ("position", "position.synced")].

Definition is_fetch (account entity a e : string) : bool := String.eqb account a && String.eqb entity e.

(** What the poller saw last of an entity type. *)
Fixpoint last_items (account entity : string) (t : list entry) : option (list pyval) :=
  match t with
  | [] => None
  | Fetched a e answer :: t' =>
      match (if is_fetch account entity a e then answered answer else None) with
      | Some items => Some items
      | None => last_items account entity t'
      end
  | _ :: t' => last_items account entity t'
  end.

Definition untagged (d : dict) : dict := ddel "_change_type" (ddel "account_name" d).

Definition key_of (entity : string) (v : pyval) : string :=
  match entity_key v entity with Ok k => k | Raise _ => "" end.

(** The data of a notification that is about the account and of the event. *)
Definition event_data (account event : string) (payload : dict) : option dict :=
  match dget "event" payload, dget "data" payload with
  | Some (PStr e), Some (PDict d) =>
      if String.eqb e event && py_eqb (dget_or "account_name" PNone d) (PStr account) then Some d else None
  | _, _ => None
  end.

Definition snapshot (entity : string) (items : list pyval) : list (string * pyval) :=
  map (fun v => (key_of entity v, v)) items.

(** What the subscriber holds. *)
Fixpoint replica (account entity event : string) (t : list entry) : list (string * pyval) :=
  match t with
  | [] => []
  | Fetched a e answer :: t' =>
      match (if is_fetch account entity a e then answered answer else None), last_items account entity t' with
      | Some items, None => snapshot entity items
      | _, _ => replica account entity event t'
      end
  | Notified _ payload true :: t' =>
      match event_data account event payload with
      | Some d => let v := PDict (untagged d) in dset (key_of entity v) v (replica account entity event t')
      | None => replica account entity event t'
      end
  | _ :: t' => replica account entity event t'
  end.

(** ** Lemmas *)

Lemma existsb_eqb (k : string) l : existsb (String.eqb k) l = true <-> k ∈ l.
Proof.
  rewrite existsb_exists. split.
  - intros (x & Hx & ->%String.eqb_eq). by apply list_elem_of_In.
  - intros H. exists k. split; [by apply list_elem_of_In|apply String.eqb_refl].
Qed.

(** *** Keys of the state *)

Lemma last_colon (s t s' t' : string) :
  has_no ":" t = true -> has_no ":" t' = true -> s ++ ":" ++ t = s' ++ ":" ++ t' -> s = s' /\ t = t'.
Proof.
  intros Ht Ht'. revert s'. induction s as [|c s IH]; intros [|c' s'] E; simpl in E.
  - by injection E as ->.
  - injection E as <- ->. rewrite has_no_app in Ht. by apply andb_prop in Ht as [_ ?].
  - injection E as -> E. rewrite <-E, has_no_app in Ht'. by apply andb_prop in Ht' as [_ ?].
  - injection E as <- E. by destruct (IH _ E) as [-> ->].
Qed.

Lemma state_key_inj a e a' e' :
  has_no ":" e = true -> has_no ":" e' = true -> state_key a e = state_key a' e' -> a = a' /\ e = e'.
Proof. apply last_colon. Qed.

(** *** Tags *)

Lemma ddel_dset_fresh {V} k (v : V) d : dget k d = None -> ddel k (dset k v d) = d.
Proof.
  induction d as [|[k0 v0] d IH]; cbn.
  - by rewrite String.eqb_refl.
  - destruct (String.eqb k k0) eqn:E; [done|]. intros H. cbn. rewrite E. by rewrite IH.
Qed.

Lemma ddel_dset_ne {V} k k' (v : V) d : k <> k' -> ddel k (dset k' v d) = dset k' v (ddel k d).
Proof.
  intros Hne. induction d as [|[k0 v0] d IH]; cbn.
  - by destruct (String.eqb_spec k k').
  - destruct (String.eqb_spec k' k0) as [->|]; cbn.
    + destruct (String.eqb_spec k k0); [done|]. cbn. by rewrite String.eqb_refl.
    + destruct (String.eqb_spec k k0) as [->|]; cbn; [done|].
      destruct (String.eqb_spec k' k0); [done|]. by rewrite IH.
Qed.

Definition plain (v : pyval) : Prop :=
  exists d, v = PDict d /\ dget "account_name" d = None /\ dget "_change_type" d = None.

Lemma untagged_tagged account change d :
  dget "account_name" d = None -> dget "_change_type" d = None -> untagged (tagged account change d) = d.
Proof.
  intros Ha Hc. unfold untagged, tagged. rewrite ddel_dset_ne by done.
  rewrite (ddel_dset_fresh "account_name") by done. by apply ddel_dset_fresh.
Qed.

Lemma event_data_tagged account event a ev change d :
  event_data account event (event_payload ev (tagged a change d)) =
  if String.eqb ev event && String.eqb a account then Some (tagged a change d) else None.
Proof.
  assert (E : dget_or "account_name" PNone (tagged a change d) = PStr a)
    by (unfold dget_or, tagged; by rewrite dget_dset_ne, dget_dset_eq by done).
  unfold event_data, event_payload. cbn. by rewrite E, py_eqb_str.
Qed.

Lemma event_data_other account event ev d : ev <> event -> event_data account event (event_payload ev d) = None.
Proof. intros Hne. unfold event_data, event_payload. cbn. by destruct (String.eqb_spec ev event). Qed.

(** ** What the poller does to the subscriber *)

Section keeping_up.
Context (settings : Settings) (md5 : string -> string) (now_iso : list entry -> string).
Context (fetch : list entry -> WmsCredentials -> string -> res (pyval * Z)).
Context (publish : list entry -> string -> pyval -> bool) (post : list entry -> string -> dict -> res Z).

Abbreviation emit_event := (emit_event settings now_iso publish post).
Abbreviation poll_item := (poll_item settings md5 now_iso publish post).
Abbreviation poll_changes := (poll_changes settings md5 now_iso publish post).
Abbreviation poll_entity := (poll_entity settings md5 now_iso fetch publish post).
Abbreviation poll_positions := (poll_positions settings md5 now_iso fetch publish post).
Abbreviation poll_feedbacks := (poll_feedbacks settings now_iso fetch publish post).
Abbreviation content_hash := (content_hash md5).

(** *** Other accounts and entity types *)

Definition unchanged (a e ev : string) (w w' : World) : Prop :=
  http_client (poller w') = http_client (poller w) /\
  last_items a e (trace w') = last_items a e (trace w) /\
  replica a e ev (trace w') = replica a e ev (trace w) /\
  current_state (state_key a e) (poller w') = current_state (state_key a e) (poller w) /\
  is_first_run (state_key a e) (poller w') = is_first_run (state_key a e) (poller w).

Lemma unchanged_refl a e ev w : unchanged a e ev w w.
Proof. by repeat split. Qed.

Lemma unchanged_emit a e ev w ev0 d :
  event_data a ev (event_payload ev0 d) = None -> preserves (unchanged a e ev w) (emit_event ev0 d).
Proof.
  intros Hd. unfold WmsPoller.emit_event, publish_event, notify_platform. preserve.
  - apply preserves_modify. intros w' (? & ? & ? & ? & ?). by repeat split.
  - apply preserves_modify. intros w' (? & ? & Hr & ? & ?). repeat split; try done.
    cbn -[event_data event_payload]. rewrite Hd. by destruct (match post _ _ _ with Ok _ => _ | _ => _ end).
Qed.

Lemma content_types e ev :
  (e, ev) ∈ CONTENT_EVENTS ->
  has_no ":" e = true /\ ev <> "feedback.received" /\
  forall e' ev', (e', ev') ∈ CONTENT_EVENTS -> ev = ev' -> e = e'.
Proof.
  unfold CONTENT_EVENTS. rewrite !elem_of_cons, elem_of_nil. intros H.
  destruct_or! H; simplify_eq; (split; [done|]; split; [done|]);
    intros e' ev'; rewrite !elem_of_cons, elem_of_nil; intros H; destruct_or! H; by simplify_eq.
Qed.

Lemma unchanged_record a e ev w a0 e0 new :
  has_no ":" e = true -> has_no ":" e0 = true -> (a, e) <> (a0, e0) ->
  preserves (unchanged a e ev w) (modify (on_poller (record_state (state_key a0 e0) new))).
Proof.
  intros He He0 Hne. apply preserves_modify. intros w' (? & ? & ? & Hc & Hf).
  assert (Hk : state_key a e <> state_key a0 e0).
  { intros [-> ->]%state_key_inj; [by apply Hne|done|done]. }
  repeat split; try done.
  - rewrite <-Hc. unfold current_state. cbn. by rewrite dget_dset_ne.
  - rewrite <-Hf. unfold is_first_run. f_equal. cbn.
    destruct (existsb (String.eqb (state_key a0 e0)) (initialized (poller w'))); [done|]. cbn.
    by destruct (String.eqb_spec (state_key a e) (state_key a0 e0)).
Qed.

Lemma unchanged_fetched a e ev w a0 creds e0 :
  (a, e) <> (a0, e0) -> preserves (unchanged a e ev w) (fetched fetch a0 creds e0).
Proof.
  intros Hne. unfold fetched. preserve. apply preserves_modify. intros w' (? & ? & ? & ? & ?).
  assert (Hf : is_fetch a e a0 e0 = false).
  { unfold is_fetch. destruct (String.eqb_spec a a0) as [->|], (String.eqb_spec e e0) as [->|]; naive_solver. }
  repeat split; try done; cbn -[answered]; by rewrite Hf.
Qed.

Lemma preserves_fold_items P {A} (f : A -> pyval -> EM World A) items a :
  (forall a item, preserves P (f a item)) -> preserves P (fold_items f a items).
Proof.
  intros Hf. revert a. induction items as [|item items IH]; intros a; cbn [fold_items]; [apply preserves_ret|].
  apply preserves_bind; [apply Hf|]. intros ?. apply IH.
Qed.

Lemma unchanged_item a e ev w a0 e0 ev0 current first seen item :
  (e, ev) ∈ CONTENT_EVENTS -> (e0, ev0) ∈ CONTENT_EVENTS -> (a, e) <> (a0, e0) ->
  preserves (unchanged a e ev w) (poll_item a0 e0 ev0 current first seen item).
Proof.
  intros H H0 Hne. unfold WmsPoller.poll_item. preserve. apply unchanged_emit.
  rewrite event_data_tagged. destruct (String.eqb_spec ev0 ev) as [Hev|]; [|done].
  destruct (String.eqb_spec a0 a) as [->|]; [|done].
  destruct (content_types _ _ H0) as (_ & _ & Hinj). by rewrite (Hinj _ _ H Hev) in Hne.
Qed.

Lemma unchanged_changes a e ev w a0 e0 ev0 items :
  (e, ev) ∈ CONTENT_EVENTS -> (e0, ev0) ∈ CONTENT_EVENTS -> (a, e) <> (a0, e0) ->
  preserves (unchanged a e ev w) (poll_changes a0 e0 ev0 items).
Proof.
  intros H H0 Hne. destruct (content_types _ _ H) as (He & _ & _), (content_types _ _ H0) as (He0 & _ & _).
  unfold WmsPoller.poll_changes. preserve.
  - apply preserves_fold_items. intros ? ?. by apply unchanged_item.
  - by apply unchanged_record.
Qed.

Lemma unchanged_feedbacks a e ev w a0 creds :
  (e, ev) ∈ CONTENT_EVENTS -> preserves (unchanged a e ev w) (poll_feedbacks a0 creds).
Proof.
  intros H. destruct (content_types _ _ H) as (He & Hev & _).
  assert (Hne : (a, e) <> (a0, "feedback")).
  { intros [= _ ->]. unfold CONTENT_EVENTS in H. rewrite !elem_of_cons, elem_of_nil in H. by destruct_or! H. }
  unfold WmsPoller.poll_feedbacks. preserve.
  - by apply unchanged_fetched.
  - apply preserves_fold_items. intros ? ?. unfold poll_feedback. preserve. apply unchanged_emit.
    by apply event_data_other.
  - by apply unchanged_record.
Qed.

(** *** The entity type that is polled *)

(** Items without the tags of the poller, with distinct keys. *)
Definition well_formed (entity : string) (items : list pyval) : Prop :=
  Forall plain items /\ NoDup (map (key_of entity) items).

(** [v] is an item the WMS may answer. *)
Definition polled (entity : string) (v : pyval) : Prop :=
  exists t creds items, answered (fetch t creds entity) = Some items /\ v ∈ items.

(** What is relied on: the platform is told and takes every notification, the WMS answers
    items of distinct keys, and no two of its items have one hash. *)
Record Assumptions : Prop := {
  notifies : platform_event_notify settings = true;
  has_url : platform_api_url settings <> "";
  accepts : forall t url payload, exists status, post t url payload = Ok status /\ (status < 300)%Z;
  answers : forall t creds e ev items,
    (e, ev) ∈ CONTENT_EVENTS -> answered (fetch t creds e) = Some items -> well_formed e items;
  no_collision : forall e x y,
    polled e x -> polled e y -> content_hash x = content_hash y -> json_dumps x = json_dumps y
}.
Context (assumptions : Assumptions).

Definition hashes (entity : string) (items : list pyval) (init : list (string * string)) : list (string * string) :=
  fold_left (fun seen v => dset (key_of entity v) (content_hash v) seen) items init.

(** The subscriber after the events of the changed items. *)
Definition apply_changes (entity : string) (current : list (string * string)) (items : list pyval)
    (r : list (string * pyval)) : list (string * pyval) :=
  fold_left (fun r v => if bool_decide (dget (key_of entity v) current = Some (content_hash v)) then r
                        else dset (key_of entity v) v r) items r.

Definition agrees (entity : string) (items : list pyval) (r : list (string * pyval)) : Prop :=
  Forall (fun v => exists v', dget (key_of entity v) r = Some v' /\ json_dumps v' = json_dumps v) items.

Lemma entity_key_plain e ev v : (e, ev) ∈ CONTENT_EVENTS -> plain v -> entity_key v e = Ok (key_of e v).
Proof.
  unfold CONTENT_EVENTS. rewrite !elem_of_cons, elem_of_nil. intros H (d & -> & _).
  destruct_or! H; simplify_eq; reflexivity.
Qed.

Lemma emit_event_spec a e ev w change d :
  http_client (poller w) = true -> dget "account_name" d = None -> dget "_change_type" d = None ->
  exists t, emit_event ev (tagged a change d) w = (Ok tt, MkWorld (poller w) t) /\
    last_items a e t = last_items a e (trace w) /\
    replica a e ev t = dset (key_of e (PDict d)) (PDict d) (replica a e ev (trace w)).
Proof.
  intros Hh Ha Hc. unfold WmsPoller.emit_event.
  set (m := if kafka_producer (poller w) then publish_event settings now_iso publish ev (tagged a change d)
            else mret tt).
  assert (E : exists t1, m w = (Ok tt, MkWorld (poller w) t1) /\ last_items a e t1 = last_items a e (trace w) /\
                replica a e ev t1 = replica a e ev (trace w)).
  { subst m. destruct (kafka_producer (poller w)); [|].
    { unfold publish_event. cbv zeta. rewrite (bind_run get_st _ w w w eq_refl). eexists. by split; [reflexivity|]. }
    exists (trace w). by destruct w. }
  destruct E as (t1 & E & Hl & Hr).
  rewrite (bind_run get_st _ w w w eq_refl), (bind_run m _ w tt _ E), (notifies assumptions), Hh. destruct (String.eqb_spec (platform_api_url settings) "") as [He|_].
  { by destruct (has_url assumptions). }
  cbn [negb andb]. unfold notify_platform. cbv zeta. rewrite (bind_run get_st _ (MkWorld (poller w) t1) _ _ eq_refl).
  eexists. split; [reflexivity|]. cbn [trace].
  destruct (accepts assumptions t1 (platform_api_url settings ++ "/internal/events")
              (event_payload ev (tagged a change d))) as (status & -> & Hs).
  apply Z.ltb_lt in Hs. rewrite Hs. cbn -[event_data event_payload].
  rewrite event_data_tagged, !String.eqb_refl. cbn [andb]. by rewrite untagged_tagged, Hr.
Qed.

Lemma fold_items_first a e ev current items seen w :
  (e, ev) ∈ CONTENT_EVENTS -> Forall plain items ->
  fold_items (poll_item a e ev current true) seen items w = (Ok (hashes e items seen), w).
Proof.
  intros He Hp. revert seen. induction Hp as [|v items Hv _ IH]; intros seen; [done|]. cbn [fold_items].
  erewrite bind_run; [apply IH|]. unfold WmsPoller.poll_item. by rewrite (entity_key_plain _ _ _ He Hv).
Qed.

Lemma poll_item_spec a e ev current v seen w :
  (e, ev) ∈ CONTENT_EVENTS -> http_client (poller w) = true -> plain v ->
  exists t, poll_item a e ev current false seen v w =
      (Ok (dset (key_of e v) (content_hash v) seen), MkWorld (poller w) t) /\
    last_items a e t = last_items a e (trace w) /\
    replica a e ev t = if bool_decide (dget (key_of e v) current = Some (content_hash v))
                       then replica a e ev (trace w)
                       else dset (key_of e v) v (replica a e ev (trace w)).
Proof.
  intros He Hh Hv. unfold WmsPoller.poll_item. rewrite (entity_key_plain _ _ _ He Hv).
  destruct Hv as (d & -> & Ha & Hc). erewrite bind_run by reflexivity. cbv zeta.
  case_bool_decide as Hsame; [exists (trace w); by destruct w|].
  erewrite bind_run by reflexivity.
  destruct (emit_event_spec a e ev w (match dget (key_of e (PDict d)) current with
    Some _ => "updated" | None => "new" end) d Hh Ha Hc) as (t & E & Hl & Hr).
  exists t. by rewrite (bind_run _ _ _ _ _ E).
Qed.

Lemma fold_items_next a e ev current items seen w :
  (e, ev) ∈ CONTENT_EVENTS -> http_client (poller w) = true -> Forall plain items ->
  exists t, fold_items (poll_item a e ev current false) seen items w =
      (Ok (hashes e items seen), MkWorld (poller w) t) /\
    last_items a e t = last_items a e (trace w) /\
    replica a e ev t = apply_changes e current items (replica a e ev (trace w)).
Proof.
  intros He Hh Hp. revert seen w Hh. induction Hp as [|v items Hv _ IH]; intros seen w Hh.
  { exists (trace w). by destruct w. }
  destruct (poll_item_spec a e ev current v seen w He Hh Hv) as (t1 & E1 & Hl1 & Hr1).
  destruct (IH (dset (key_of e v) (content_hash v) seen) (MkWorld (poller w) t1) Hh) as (t & E & Hl & Hr).
  exists t. cbn [fold_items]. rewrite (bind_run _ _ _ _ _ E1). split; [exact E|].
  split; [by rewrite Hl|]. rewrite Hr. cbn [trace apply_changes fold_left]. by rewrite Hr1.
Qed.

Lemma hashes_lookup e items init k h :
  dget k (hashes e items init) = Some h ->
  dget k init = Some h \/ exists v, v ∈ items /\ key_of e v = k /\ content_hash v = h.
Proof.
  revert init. induction items as [|v items IH]; intros init; cbn [hashes fold_left]; [by left|].
  intros [H|(u & Hu & ? & ?)]%IH; [|right; exists u; split; [by right|done]].
  rewrite dget_dset in H. destruct (String.eqb_spec k (key_of e v)) as [->|]; [|by left].
  injection H as <-. right. exists v. split; [by left|done].
Qed.

Lemma apply_changes_other e current items r k :
  k ∉ map (key_of e) items -> dget k (apply_changes e current items r) = dget k r.
Proof.
  revert r. induction items as [|v items IH]; intros r; cbn [apply_changes fold_left map]; [done|].
  rewrite not_elem_of_cons. intros [Hne Hni]. unfold apply_changes in IH. rewrite IH by done.
  case_bool_decide; [done|]. by rewrite dget_dset_ne.
Qed.

Lemma apply_changes_lookup e current items r v :
  NoDup (map (key_of e) items) -> v ∈ items ->
  dget (key_of e v) (apply_changes e current items r) =
    if bool_decide (dget (key_of e v) current = Some (content_hash v)) then dget (key_of e v) r else Some v.
Proof.
  revert r. induction items as [|u items IH]; intros r Hnd Hv; [by apply elem_of_nil in Hv|].
  cbn [map] in Hnd. apply list.NoDup_cons in Hnd as [Hni Hnd].
  apply elem_of_cons in Hv as [->|Hv].
  - change (apply_changes e current (u :: items) r) with (apply_changes e current items
      (if bool_decide (dget (key_of e u) current = Some (content_hash u)) then r else dset (key_of e u) u r)).
    rewrite apply_changes_other by done. case_bool_decide; [done|]. by rewrite dget_dset_eq.
  - cbn [apply_changes fold_left]. unfold apply_changes in IH. rewrite IH by done.
    case_bool_decide as Hs; [|done]. case_bool_decide; [done|]. apply dget_dset_ne. intros E. apply Hni.
    rewrite <-E. by apply list_elem_of_In, in_map, list_elem_of_In.
Qed.

Lemma agrees_snapshot e items : NoDup (map (key_of e) items) -> agrees e items (snapshot e items).
Proof.
  intros Hnd. apply Forall_forall. intros v Hv%list_elem_of_In. exists v. split; [|done].
  apply dget_in_NoDup.
  - unfold dkeys, snapshot. by rewrite map_map.
  - by apply list_elem_of_In, (in_map (fun v => (key_of e v, v))), list_elem_of_In.
Qed.

(** Events bring the subscriber from one snapshot to the next. *)
Lemma agrees_changes e old new r :
  NoDup (map (key_of e) new) -> Forall (polled e) old -> Forall (polled e) new -> agrees e old r ->
  agrees e new (apply_changes e (hashes e old []) new r).
Proof.
  intros Hnd Hold Hnew Hag. apply Forall_forall. intros v Hv. pose proof (proj1 (Forall_forall _ _) Hnew v Hv) as Hpv.
  apply list_elem_of_In in Hv. rewrite apply_changes_lookup by done. case_bool_decide as Hs; [|by exists v].
  apply hashes_lookup in Hs as [?|(u & Hu%list_elem_of_In & Hk & Hh)]; [done|].
  destruct (proj1 (Forall_forall _ _) Hag u Hu) as (v' & Hv' & Hj). exists v'. rewrite <-Hk. split; [done|].
  rewrite Hj. apply (no_collision assumptions e); [|done|done].
  by apply (proj1 (Forall_forall _ _) Hold).
Qed.

(** *** The invariant *)

Definition ok_at (a e ev : string) (w : World) : Prop :=
  match last_items a e (trace w) with
  | None => is_first_run (state_key a e) (poller w) = true
  | Some items =>
      is_first_run (state_key a e) (poller w) = false /\
      current_state (state_key a e) (poller w) = hashes e items [] /\
      Forall (polled e) items /\ agrees e items (replica a e ev (trace w))
  end.

Definition keeps_up (w : World) : Prop :=
  http_client (poller w) = true /\ forall a e ev, (e, ev) ∈ CONTENT_EVENTS -> ok_at a e ev w.

Lemma ok_at_unchanged a e ev w w' : unchanged a e ev w w' -> ok_at a e ev w -> ok_at a e ev w'.
Proof. intros (_ & Hl & Hr & Hc & Hf). unfold ok_at. by rewrite Hl, Hr, Hc, Hf. Qed.

Lemma recorded k new p :
  is_first_run k (record_state k new p) = false /\ current_state k (record_state k new p) = new.
Proof.
  unfold is_first_run, current_state. cbn. rewrite dget_dset_eq. split; [|done].
  destruct (existsb (String.eqb k) (initialized p)) eqn:E; [by rewrite E|]. cbn. by rewrite String.eqb_refl.
Qed.

(** One poll of an entity type, in the words of [_poll_entity] and [_poll_positions]. *)
Definition poll_one (a : string) (creds : WmsCredentials) (e ev : string) : EM World unit :=
  o ← fetched fetch a creds e;
  match o with Some items => poll_changes a e ev items | None => mret tt end.

Lemma poll_changes_spec a e ev items w :
  (e, ev) ∈ CONTENT_EVENTS -> http_client (poller w) = true -> Forall plain items ->
  let k := state_key a e in
  let first := is_first_run k (poller w) in
  exists t, poll_changes a e ev items w = (Ok tt, MkWorld (record_state k (hashes e items []) (poller w)) t) /\
    last_items a e t = last_items a e (trace w) /\
    replica a e ev t = if first then replica a e ev (trace w)
                       else apply_changes e (current_state k (poller w)) items (replica a e ev (trace w)).
Proof.
  intros He Hh Hp k first. unfold WmsPoller.poll_changes. erewrite bind_run by reflexivity. cbv zeta.
  fold k first. destruct first.
  - exists (trace w). rewrite (bind_run _ _ _ _ _ (fold_items_first a e ev _ items [] w He Hp)). by destruct w.
  - destruct (fold_items_next a e ev (current_state k (poller w)) items [] w He Hh Hp) as (t & E & Hl & Hr).
    exists t. rewrite (bind_run _ _ _ _ _ E). done.
Qed.

Lemma is_fetch_same a e : is_fetch a e a e = true.
Proof. unfold is_fetch. by rewrite !String.eqb_refl. Qed.

Lemma poll_one_own a creds e ev w :
  (e, ev) ∈ CONTENT_EVENTS -> http_client (poller w) = true -> ok_at a e ev w ->
  ok_at a e ev (poll_one a creds e ev w).2 /\ http_client (poller (poll_one a creds e ev w).2) = true.
Proof.
  intros He Hh Hok. unfold poll_one, fetched. set (answer := fetch (trace w) creds e).
  set (w1 := log (Fetched a e answer) w).
  assert (E1 : (x ← get_st; _ ← modify (log (Fetched a e (fetch (trace x) creds e)));
                mret (answered (fetch (trace x) creds e))) w = (Ok (answered answer), w1)) by done.
  rewrite (bind_run _ _ _ _ _ E1). destruct (answered answer) as [items|] eqn:Ea.
  2:{ split; [|done]. unfold ok_at in *. subst w1. cbn -[answered]. by rewrite is_fetch_same, Ea. }
  destruct (answers assumptions _ _ _ _ _ He Ea) as [Hplain Hnd].
  assert (Hpolled : Forall (polled e) items).
  { apply Forall_forall. intros v Hv%list_elem_of_In. by exists (trace w), creds, items. }
  destruct (poll_changes_spec a e ev items w1 He Hh Hplain) as (t & E & Hl & Hr).
  rewrite E. split; [|done]. cbn [snd]. unfold ok_at. cbn [trace poller]. rewrite Hl.
  destruct (recorded (state_key a e) (hashes e items []) (poller w1)) as [Hf Hc].
  subst w1. cbn -[answered] in Hl, Hr |- *. rewrite is_fetch_same, Ea in Hl, Hr |- *.
  split; [exact Hf|]. split; [exact Hc|]. split; [done|]. rewrite Hr. unfold ok_at in Hok.
  destruct (last_items a e (trace w)) as [old|].
  - destruct Hok as (-> & -> & Hold & Hag). by apply agrees_changes.
  - rewrite Hok. by apply agrees_snapshot.
Qed.

Lemma keeps_up_poll_one a creds e ev : (e, ev) ∈ CONTENT_EVENTS -> preserves keeps_up (poll_one a creds e ev).
Proof.
  intros He w [Hh Hall]. destruct (poll_one_own a creds e ev w He Hh (Hall a e ev He)) as [Hok Hh'].
  split; [done|]. intros a' e' ev' He'. destruct (decide ((a', e') = (a, e))) as [[= -> ->]|Hne].
  - destruct (content_types _ _ He) as (_ & _ & _).
    assert (ev' = ev) as ->; [|done].
    unfold CONTENT_EVENTS in He, He'. rewrite !elem_of_cons, elem_of_nil in He, He'.
    destruct_or! He; destruct_or! He'; by simplify_eq.
  - assert (Hun : preserves (unchanged a' e' ev' w) (poll_one a creds e ev)).
    { unfold poll_one. preserve; [by apply unchanged_fetched|by apply unchanged_changes]. }
    apply (ok_at_unchanged _ _ _ w); [apply Hun, unchanged_refl|by apply Hall].
Qed.

Lemma keeps_up_feedbacks a creds : preserves keeps_up (poll_feedbacks a creds).
Proof.
  intros w [Hh Hall].
  assert (Hun : forall a' e' ev', (e', ev') ∈ CONTENT_EVENTS -> unchanged a' e' ev' w (poll_feedbacks a creds w).2).
  { intros a' e' ev' He'. apply (unchanged_feedbacks a' e' ev' w); [done|apply unchanged_refl]. }
  split.
  - destruct (Hun a "document" "document.synced") as [-> _]; [by left|done].
  - intros a' e' ev' He'. apply (ok_at_unchanged _ _ _ w); [by apply Hun|by apply Hall].
Qed.

Lemma keeps_up_account a creds :
  preserves keeps_up (poll_account settings md5 now_iso fetch publish post a creds).
Proof.
  unfold poll_account. apply preserves_for. intros m Hm. unfold gathered. preserve.
  rewrite !elem_of_cons, elem_of_nil in Hm. destruct_or! Hm; subst m.
  - apply (keeps_up_poll_one a creds "document" "document.synced"). by left.
  - apply (keeps_up_poll_one a creds "article" "article.synced"). by right; left.
  - apply (keeps_up_poll_one a creds "contractor" "contractor.synced"). by right; right; left.
  - apply (keeps_up_poll_one a creds "position" "position.synced"). by right; right; right; left.
  - apply keeps_up_feedbacks.
Qed.

Lemma keeps_up_on_poller f :
  (forall p, http_client (f p) = http_client p /\ state (f p) = state p /\ initialized (f p) = initialized p) ->
  preserves keeps_up (modify (on_poller f)).
Proof.
  intros Hf. apply preserves_modify. intros w [Hh Hall]. destruct (Hf (poller w)) as (H1 & H2 & H3).
  split; [by cbn; rewrite H1|]. intros a e ev He. apply (ok_at_unchanged _ _ _ w); [|by apply Hall].
  repeat split; try done; cbn; unfold current_state, is_first_run; by rewrite ?H2, ?H3.
Qed.

(** What happens to a poller between its start and its stop: cycles, by its clock or on
    request, and registrations. *)
Inductive happening := Cycle (now : Z) | Register (account : string) (creds : WmsCredentials).

Definition happen (h : happening) : EM World unit :=
  match h with
  | Cycle now => poll_cycle settings md5 now_iso fetch publish post now
  | Register account creds => modify (on_poller (register_credentials account creds))
  end.

Lemma keeps_up_happen h : preserves keeps_up (happen h).
Proof.
  destruct h as [now|account creds]; [|by apply keeps_up_on_poller].
  cbn [happen]. unfold poll_cycle. preserve; [apply keeps_up_account|by apply keeps_up_on_poller].
Qed.
End keeping_up.

(** ** The properties *)

(** A poller that was started, and what happened to it. *)
Definition history (settings : Settings) (md5 : string -> string) (now_iso : list entry -> string)
    (fetch : list entry -> WmsCredentials -> string -> res (pyval * Z))
    (publish : list entry -> string -> pyval -> bool) (post : list entry -> string -> dict -> res Z)
    (kafka : bool) (hs : list happening) : World :=
  (for_each (happen settings md5 now_iso fetch publish post) hs
     (MkWorld (start settings (new_poller kafka)) [])).2.

(** C14: as long as the poller's state is not reset, the platform takes every notification, the
    WMS answers objects without the tags of the poller, no two of one answer sharing their key, and
    the hashes of their texts do not collide, a subscriber that starts from the poller's first snapshot of an
    entity type and applies the events it is sent holds, after every cycle, the content the WMS
    answered last of every entity, for every account, whatever accounts are registered, whichever
    fetches fail or answer something else, and however the cycles are timed.  What happens outside
    these conditions is shown by [refused_events_are_lost], [reset_is_silent] and
    [null_ids_collide]. *)
Theorem subscriber_keeps_up settings md5 now_iso fetch publish post kafka hs a e ev items v :
  Assumptions settings md5 fetch post -> event_polling_enabled settings = true -> (e, ev) ∈ CONTENT_EVENTS ->
  let w := history settings md5 now_iso fetch publish post kafka hs in
  last_items a e (trace w) = Some items -> v ∈ items ->
  exists v', dget (key_of e v) (replica a e ev (trace w)) = Some v' /\ json_dumps v' = json_dumps v.
Proof.
  intros Ha Hen He w Hl Hv.
  assert (Hw : keeps_up md5 fetch w).
  { apply (preserves_for (keeps_up md5 fetch)); [intros h _; by apply keeps_up_happen|].
    unfold start. rewrite Hen. by split. }
  destruct Hw as [_ Hok]. specialize (Hok a e ev He). unfold ok_at in Hok. rewrite Hl in Hok.
  destruct Hok as (_ & _ & _ & Hag). apply (proj1 (Forall_forall _ _) Hag). by apply list_elem_of_In.
Qed.

(** *** Concrete worlds *)

Definition a_creds : WmsCredentials := Creds "https://wms.example" "u" "p" None.
Definition a_document (status : string) : pyval := PDict [("erpId", PInt 7); ("status", PStr status)].
(** The WMS changes a document after the first time it was asked. *)
Definition changing_wms (t : list entry) (_ : WmsCredentials) (e : string) : res (pyval * Z) :=
  if String.eqb e "document" then
    Ok (PList [a_document (match t with [] => "open" | _ => "closed" end)], 200%Z)
  else Raise (OtherError "unreachable").
Definition taken (_ : list entry) (_ : string) (_ : dict) : res Z := Ok 200%Z.
Definition a_history := history default_settings id (fun _ => "2026-01-01") changing_wms (fun _ _ _ => true).

Lemma changing_wms_assumptions : Assumptions default_settings id changing_wms taken.
Proof.
  constructor; [done|done| | |done].
  - intros. exists 200%Z. by split.
  - intros t creds e ev items _. unfold changing_wms. destruct (String.eqb e "document") eqn:E; [|done].
    apply String.eqb_eq in E as ->. intros [= <-]. split; [|apply NoDup_singleton].
    apply Forall_cons_iff. split; [by eexists|constructor].
Qed.

Lemma subscriber_keeps_up_witness :
  exists v', dget "ERP:7" (replica "a" "document" "document.synced"
      (trace (a_history taken false [Register "a" a_creds; Cycle 1000; Cycle 2000]))) = Some v' /\
    json_dumps v' = json_dumps (a_document "closed").
Proof.
  apply (subscriber_keeps_up default_settings id (fun _ => "2026-01-01") changing_wms (fun _ _ _ => true) taken false
           [Register "a" a_creds; Cycle 1000; Cycle 2000] "a" "document" "document.synced"
           [a_document "closed"] (a_document "closed")).
  - exact changing_wms_assumptions.
  - reflexivity.
  - left.
  - vm_compute. reflexivity.
  - left.
Defined.

Definition notifications (w : World) : list (string * bool) :=
  flat_map (fun e => match e with
                     | Notified _ payload ok =>
                         match dget "data" payload with
                         | Some (PDict d) => [(field_text "_change_type" PNone d, ok)]
                         | _ => []
                         end
                     | _ => []
                     end) (trace w).

(** A notification the platform did not take is not sent again: the change is lost. *)
Example refused_events_are_lost :
  notifications (a_history (fun _ _ _ => Ok 503%Z) false
    [Register "a" a_creds; Cycle 1000; Cycle 2000; Cycle 3000; Cycle 4000]) = [("updated", false)].
Proof. by vm_compute. Qed.

(** A reset makes the next cycle a silent snapshot: the change in between is lost, and
    no event is sent for what is there, which is what the answer of the endpoint says. *)
Example reset_is_silent :
  let w := a_history taken false [Register "a" a_creds; Cycle 1000] in
  notifications (happen default_settings id (fun _ => "") changing_wms (fun _ _ _ => true) taken (Cycle 2000)
    (poller_reset w).2).2 = [] /\
  (poller_reset w).1 = Ok [("status", PStr "reset");
    ("message", PStr "Next poll cycle will emit events for all entities")].
Proof. by vm_compute. Qed.

(** Entities the ERP does not know have a null [erpId]: they share the key [ERP:None], and
    each cycle reports all but the last of them as updated although nothing changed. *)
Example null_ids_collide :
  let wms := fun (_ : list entry) (_ : WmsCredentials) (e : string) =>
    if String.eqb e "article" then
      Ok (PList [PDict [("erpId", PNone); ("wmsId", PInt 1)]; PDict [("erpId", PNone); ("wmsId", PInt 2)]], 200%Z)
    else Raise (OtherError "unreachable") in
  notifications (history default_settings id (fun _ => "") wms (fun _ _ _ => true) taken false
    [Register "a" a_creds; Cycle 1000; Cycle 2000; Cycle 3000]) = [("updated", true); ("updated", true)].
Proof. by vm_compute. Qed.
