(* ===== verification/WmsClient.v ===== *)
(** The client of the WMS and the endpoints of its connector
    ([integrators/wms/pinquark-wms/v1.0.0/src/client.py] and [app.py]): tokens, writes
    that wait for the feedback of the WMS, and the requests each endpoint makes.

    The world keeps the tokens and a history, newest entry first, of the requests sent and
    the times slept; the WMS and the clock are functions of the history.  The models of
    [schemas.py] are pydantic's: an endpoint is given the body they dump. *)

From Stdlib Require Import QArith Qminmax Lqa.
From S2P Require Import Prelude PyText PyValue Effects WmsPoller.

Local Open Scope string_scope.

(** ** State *)

Record TokenCache := MkCache { access_token : pyval; refresh_token : pyval; expires_at : Z }.

Record Request := MkRequest {
  rq_method : string;
  rq_url : string;
  rq_headers : list (string * string);
  rq_json : option pyval
}.

(** [json] is the result of [resp.json()], which raises on what is not JSON. *)
Record Response := MkResponse { status_code : Z; json : res pyval }.

Inductive happened := Sent (request : Request) (answer : res Response) | Slept (seconds : Q).

Record Client := MkClient { tokens : list (string * TokenCache); history : list happened }.

Definition add_history (h : happened) (c : Client) : Client := MkClient (tokens c) (h :: history c).
Definition set_cache (key : string) (cache : TokenCache) (c : Client) : Client :=
  MkClient (dset key cache (tokens c)) (history c).

(** [WriteResult]; [feedback_errors] and [feedback_messages] as the WMS sent them. *)
Record WriteResult := MkResult {
  accepted : bool;
  http_status : Z;
  api_response : pyval;
  confirmed : pyval;
  feedback_id : pyval;
  feedback_success : pyval;
  feedback_errors : pyval;
  feedback_messages : pyval;
  timed_out : bool
}.

Definition unconfirmed (acc : bool) (status : Z) (api : pyval) (late : bool) : WriteResult :=
  MkResult acc status api PNone PNone PNone (PDict []) (PDict []) late.

(** The property [ok]. *)
Definition ok (r : WriteResult) : pyval :=
  if negb (accepted r) then PBool false
  else if negb (is_none (confirmed r)) then confirmed r else PBool (accepted r).

(** [_normalize_base_url]. *)
Definition strip_suffix (suffix s : string) : string :=
  str_take (String.length s - String.length suffix) s.
Definition normalize_base_url (raw : string) : string :=
  let url := str_rev (lstrip_by (Ascii.eqb "/") (str_rev raw)) in
  match List.find (fun suffix => ends_with suffix url) ["/auth/sign-in"; "/auth/refresh-token"; "/auth"] with
  | Some suffix => strip_suffix suffix url
  | None => url
  end.

Definition base_url (creds : WmsCredentials) : string := normalize_base_url (api_url creds).
Definition cache_key (creds : WmsCredentials) : string := base_url creds ++ "|" ++ username creds.

(** [data[k]] on a value read from JSON. *)
Definition json_item (k : string) (data : pyval) : res pyval :=
  match data with
  | PDict d => match dget k d with Some v => Ok v | None => Raise (KeyError k) end
  | PList _ => Raise (TypeError "list indices must be integers or slices, not str")
  | PStr _ => Raise (TypeError "string indices must be integers, not 'str'")
  | v => Raise (TypeError ("'" ++ type_name v ++ "' object is not subscriptable"))
  end.

(** [config.py]. *)
Record FeedbackSettings := MkFeedback { poll_interval : Q; max_attempts : nat; backoff : Q }.
Definition default_feedback : FeedbackSettings := MkFeedback 2 15 1.3.

Section client.
Variable settings : FeedbackSettings.
Variable http : list happened -> Request -> res Response.
(** [time.time()], and [datetime.fromisoformat] of a text as a time stamp. *)
Variable time : list happened -> Z.
Variable fromisoformat : pyval -> option Z.

Definition send (r : Request) : EM Client Response :=
  c ← get_st;
  let answer := http (history c) r in
  _ ← modify (add_history (Sent r answer));
  lift answer.

Definition sleep (seconds : Q) : EM Client unit := modify (add_history (Slept seconds)).

(** ** Tokens *)

(** [resp.raise_for_status()] of httpx: anything but a success raises. *)
Definition raise_for_status (resp : Response) : EM Client unit :=
  if (200 <=? status_code resp)%Z && (status_code resp <=? 299)%Z then mret tt
  else raise (OtherError ("httpx.HTTPStatusError " ++ str_of_Z (status_code resp))).

(** [_parse_expiry]. *)
Definition parse_expiry (raw : pyval) : EM Client Z :=
  c ← get_st; mret (default (time (history c) + 23 * 3600)%Z (fromisoformat raw)).

Definition expiry_of (data : pyval) : EM Client Z :=
  d ← lift (dict_method "get" data); parse_expiry (dget_or "accessTokenExpirationDate" (PStr "") d).

(** [_login]. *)
Definition login (creds : WmsCredentials) : EM Client pyval :=
  resp ← send (MkRequest "POST" (base_url creds ++ "/auth/sign-in") []
    (Some (PDict [("username", PStr (username creds)); ("password", PStr (password creds))])));
  _ ← raise_for_status resp;
  data ← lift (json resp);
  access ← lift (json_item "accessToken" data);
  refresh ← lift (json_item "refreshToken" data);
  expires ← expiry_of data;
  _ ← modify (set_cache (cache_key creds) (MkCache access refresh expires));
  mret access.

(** [_refresh]: the fields of the cache are assigned one by one. *)
Definition refresh (creds : WmsCredentials) (cache : TokenCache) : EM Client pyval :=
  let key := cache_key creds in
  resp ← send (MkRequest "POST" (base_url creds ++ "/auth/refresh-token") []
    (Some (PDict [("refreshToken", refresh_token cache)])));
  _ ← raise_for_status resp;
  data ← lift (json resp);
  access ← lift (json_item "accessToken" data);
  _ ← modify (set_cache key (MkCache access (refresh_token cache) (expires_at cache)));
  fresh ← lift (json_item "refreshToken" data);
  _ ← modify (set_cache key (MkCache access fresh (expires_at cache)));
  expires ← expiry_of data;
  _ ← modify (set_cache key (MkCache access fresh expires));
  mret access.

(** [_ensure_token]. *)
Definition is_usable (now : Z) (cache : TokenCache) : bool :=
  truthy (access_token cache) && (now <? expires_at cache - 60)%Z.

Definition ensure_token (creds : WmsCredentials) : EM Client pyval :=
  c ← get_st;
  match dget (cache_key creds) (tokens c) with
  | Some cache =>
      if is_usable (time (history c)) cache then mret (access_token cache)
      else if truthy (refresh_token cache) then try_catch (refresh creds cache) (fun _ => login creds)
      else login creds
  | None => login creds
  end.

(** [_headers]. *)
Definition headers (creds : WmsCredentials) : EM Client (list (string * string)) :=
  token ← ensure_token creds;
  mret [("Authorization", "Bearer " ++ py_str token); ("Content-Type", "application/json");
        ("Accept", "application/json")].

(** [_get] and [_post]. *)
Definition exchange (method : string) (creds : WmsCredentials) (path : string) (body : option pyval)
  : EM Client (pyval * Z) :=
  hs ← headers creds;
  resp ← send (MkRequest method (base_url creds ++ path) hs body);
  data ← lift (json resp);
  mret (data, status_code resp).

Definition get (creds : WmsCredentials) (path : string) : EM Client (pyval * Z) :=
  exchange "GET" creds path None.
Definition post (creds : WmsCredentials) (path : string) (body : pyval) : EM Client (pyval * Z) :=
  exchange "POST" creds path (Some body).

Definition get_feedbacks (creds : WmsCredentials) : EM Client (pyval * Z) := get creds "/feedbacks".

(** ** Writes *)

Definition hashable (v : pyval) : bool := negb (is_list v || is_dict v).
Definition hashed (v : pyval) : res pyval := if hashable v then Ok v else Raise (unhashable v).

(** [_snapshot_feedback_ids]. *)
Definition feedback_ids (data : list pyval) : res (list pyval) :=
  mapR hashed (flat_map (fun f => match f with
                                  | PDict d => match dget "id" d with Some i => [i] | None => [] end
                                  | _ => []
                                  end) data).

Definition snapshot_feedback_ids (creds : WmsCredentials) : EM Client (list pyval) :=
  try_catch
    (answer ← get_feedbacks creds;
     match answer with
     | (PList data, status) => if (status <? 400)%Z then lift (feedback_ids data) else mret []
     | _ => mret []
     end)
    (fun _ => mret []).

(** [(fb.get(k) or "").upper()]. *)
Definition upper_field (k : string) (d : dict) : res string :=
  s ← str_method "upper" (py_or (dget_or k PNone d) (PStr "")); Ok (py_upper s).

(** The loop over one answer: the first feedback that is not known, of the entity and
    the action. *)
Fixpoint find_feedback (entity action : string) (known : list pyval) (data : list pyval) : res (option dict) :=
  match data with
  | [] => Ok None
  | PDict d :: data' =>
      fb_id ← hashed (dget_or "id" PNone d);
      seen ← py_in fb_id (PList known);
      if (seen : bool) then find_feedback entity action known data' else
      e ← upper_field "entity" d;
      a ← upper_field "action" d;
      if String.eqb e (py_upper entity) && String.eqb a (py_upper action) then Ok (Some d)
      else find_feedback entity action known data'
  | _ :: data' => find_feedback entity action known data'
  end.

(** [_poll_feedback]: the attempts left and the interval. *)
Fixpoint poll_feedback (attempts : nat) (interval : Q) (creds : WmsCredentials) (entity action : string)
    (known : list pyval) : EM Client (option dict) :=
  match attempts with
  | O => mret None
  | S n =>
      _ ← sleep interval;
      answer ← try_catch (a ← get_feedbacks creds; mret (Some a)) (fun _ => mret None);
      match answer with
      | Some (PList data, status) =>
          if (400 <=? status)%Z then poll_feedback n (interval * backoff settings) creds entity action known
          else
            found ← lift (find_feedback entity action known data);
            match found with
            | Some fb => mret (Some fb)
            | None => poll_feedback n (Qmin (interval * backoff settings) 10) creds entity action known
            end
      | _ => poll_feedback n (interval * backoff settings) creds entity action known
      end
  end.

Definition feedback_result (status : Z) (api : pyval) (fb : dict) : WriteResult :=
  let success := dget_or "success" (PBool false) fb in
  MkResult true status api success (dget_or "id" PNone fb) success
    (py_or (dget_or "errors" PNone fb) (PDict [])) (py_or (dget_or "responseMessages" PNone fb) (PDict [])) false.

(** [write_with_feedback]. *)
Definition write_with_feedback (creds : WmsCredentials) (entity action path : string) (body : pyval)
  : EM Client WriteResult :=
  known ← snapshot_feedback_ids creds;
  answer ← post creds path body;
  let (api, status) := (answer : pyval * Z) in
  if (400 <=? status)%Z then mret (unconfirmed false status api false)
  else
    fb ← poll_feedback (max_attempts settings) (poll_interval settings) creds entity action known;
    match fb with
    | None => mret (unconfirmed true status api true)
    | Some d => mret (feedback_result status api d)
    end.

(** ** Endpoints *)

(** [except httpx.HTTPError]. *)
Variable is_http_error : pyexn -> bool.

Definition as_bad_gateway {A} (label : string) (m : EM Client A) : EM Client A :=
  try_catch m (fun e => if is_http_error e then http_error 502 (label ++ " request failed: " ++ exn_str e)
                        else raise e).

Definition returned (label : string) (status : Z) (data : pyval) : string :=
  label ++ " returned HTTP " ++ str_of_Z status ++ ": " ++ py_str data.

(** [_forward_get] and [_forward_post], given the call of the client. *)
Definition forward (label : string) (call : EM Client (pyval * Z)) : EM Client pyval :=
  as_bad_gateway label
    (answer ← call;
     if (400 <=? answer.2)%Z then http_error answer.2 (returned label answer.2 answer.1) else mret answer.1).

(** [_write_result_to_response]. *)
Definition feedback_part (r : WriteResult) : dict :=
  if timed_out r then
    [("feedback", PDict [("status", PStr "timeout"); ("message", PStr "No feedback received within polling window")])]
  else if negb (is_none (confirmed r)) then
    [("feedback", PDict ([("status", PStr (if truthy (feedback_success r) then "confirmed" else "failed"));
        ("id", feedback_id r); ("success", feedback_success r); ("errors", feedback_errors r);
        ("messages", feedback_messages r)]
        ++ if truthy (feedback_success r) then [] else [("message", PStr "WMS reported processing failure")])%list)]
  else [].

Definition write_result_to_response (r : WriteResult) (label : string) : EM Client dict :=
  if negb (accepted r) then http_error (http_status r) (returned label (http_status r) (api_response r))
  else mret ([("accepted", PBool true); ("api_response", api_response r)] ++ feedback_part r)%list.

(** [_forward_write]. *)
Definition forward_write (creds : WmsCredentials) (body : pyval) (entity action path label : string)
  : EM Client dict :=
  as_bad_gateway label
    (result ← write_with_feedback creds entity action path body; write_result_to_response result label).

(** [login] of [app.py]. *)
Definition sign_in (creds : WmsCredentials) : EM Client dict :=
  try_catch (token ← login creds; mret [("status", PStr "authenticated"); ("accessToken", token)])
    (fun e => http_error 401 ("Login failed: " ++ exn_str e)).

(** What an endpoint asks of the WMS, and where its body comes from: the field of the
    request with the item or the list of items, and other names of the field. *)
Inductive endpoint :=
  | Reads (path : string)
  | Writes (entity action path field : string) (flat : bool) (aliases : list string).

Definition ARTICLE_ENDPOINTS : list (string * endpoint) :=
  [("/articles/get", Reads "/articles");
   ("/articles/get-delete-commands", Reads "/articles/delete-commands");
   ("/articles/create", Writes "ARTICLE" "SAVE" "/articles" "article" true []);
   ("/articles/create-list", Writes "ARTICLE" "SAVE" "/articles/list" "articles" false []);
   ("/articles/delete", Writes "ARTICLE" "DELETE" "/articles/delete-commands" "command" true []);
   ("/articles/delete-list", Writes "ARTICLE" "DELETE" "/articles/delete-commands/list" "commands" true ["deletions"])].
Definition BATCH_ENDPOINTS : list (string * endpoint) :=
  [("/article-batches/get", Reads "/article-batches");
   ("/article-batches/create", Writes "ARTICLE_BATCH" "SAVE" "/article-batches" "batch" true []);
   ("/article-batches/create-list", Writes "ARTICLE_BATCH" "SAVE" "/article-batches/list" "batches" false [])].
Definition DOCUMENT_ENDPOINTS : list (string * endpoint) :=
  [("/documents/get", Reads "/documents");
   ("/documents/get-delete-commands", Reads "/documents/delete-commands");
   ("/documents/create", Writes "DOCUMENT" "SAVE" "/documents" "document" true []);
   ("/documents/create-list", Writes "DOCUMENT" "SAVE" "/documents/wrappers" "wrapper" true []);
   ("/documents/delete", Writes "DOCUMENT" "DELETE" "/documents/delete-commands" "command" true []);
   ("/documents/delete-list", Writes "DOCUMENT" "DELETE" "/documents/delete-commands/list" "commands" true ["deletions"])].
Definition POSITION_ENDPOINTS : list (string * endpoint) :=
  [("/positions/get", Reads "/positions");
   ("/positions/get-delete-commands", Reads "/positions/delete-commands");
   ("/positions/create", Writes "POSITION" "SAVE" "/positions" "position" true []);
   ("/positions/create-list", Writes "POSITION" "SAVE" "/positions/list" "positions" true ["positionWrappers"]);
   ("/positions/delete", Writes "POSITION" "DELETE" "/positions/delete-commands" "command" true []);
   ("/positions/delete-list", Writes "POSITION" "DELETE" "/positions/delete-commands/list" "commands" true ["deletions"])].
Definition CONTRACTOR_ENDPOINTS : list (string * endpoint) :=
  [("/contractors/get", Reads "/contractors");
   ("/contractors/get-delete-commands", Reads "/contractors/delete-commands");
   ("/contractors/create", Writes "CONTRACTOR" "SAVE" "/contractors" "contractor" true []);
   ("/contractors/create-list", Writes "CONTRACTOR" "SAVE" "/contractors/list" "contractors" false []);
   ("/contractors/delete", Writes "CONTRACTOR" "DELETE" "/contractors/delete-commands" "command" true []);
   ("/contractors/delete-list", Writes "CONTRACTOR" "DELETE" "/contractors/delete-commands/list" "commands" true ["deletions"])].
Definition FEEDBACK_ENDPOINTS : list (string * endpoint) :=
  [("/feedbacks/get", Reads "/feedbacks"); ("/errors/get", Reads "/errors")].

Definition ENDPOINTS : list (string * endpoint) :=
  (ARTICLE_ENDPOINTS ++ BATCH_ENDPOINTS ++ DOCUMENT_ENDPOINTS ++ POSITION_ENDPOINTS
   ++ CONTRACTOR_ENDPOINTS ++ FEEDBACK_ENDPOINTS)%list.

(** [_nest_flat_fields]. *)
Definition nest_flat_fields (data : dict) (nested_key : string) (aliases : list string) : dict :=
  if dhas nested_key data then data
  else match List.find (fun alias => dhas alias data) aliases with
       | Some alias => dset nested_key (dget_or alias PNone data) (ddel alias data)
       | None => [("credentials", dget_or "credentials" (PDict []) data);
                  (nested_key, PDict (List.filter (fun kv => negb (String.eqb kv.1 "credentials")) data))]
       end.

(** The validators [_accept_flat] of the request models. *)
Definition accept_flat (e : endpoint) (data : pyval) : pyval :=
  match e, data with
  | Writes _ _ _ field true aliases, PDict d => PDict (nest_flat_fields d field aliases)
  | _, _ => data
  end.

(** The validation of the request by its model, given the path: the credentials, and the
    dump of the field. *)
Variable validate : string -> pyval -> res (WmsCredentials * pyval).

Definition answer (route : string) (data : pyval) : EM Client pyval :=
  match dget route ENDPOINTS with
  | None => http_error 404 "Not Found"
  | Some e =>
      request ← lift (validate route (accept_flat e data));
      let (creds, body) := (request : WmsCredentials * pyval) in
      match e with
      | Reads path => forward ("GET " ++ path) (get creds path)
      | Writes entity action path _ _ _ =>
          d ← forward_write creds body entity action path ("POST " ++ path); mret (PDict d)
      end
  end.
End client.

(** ** Lemmas *)

Local Open Scope Q_scope.

(** The time slept. *)
Fixpoint slept (h : list happened) : Q :=
  match h with
  | [] => 0
  | Slept q :: h' => q + slept h'
  | _ :: h' => slept h'
  end.

(** The intervals of [n] attempts whose interval grows unchecked. *)
Fixpoint waits (b : Q) (n : nat) (interval : Q) : Q :=
  match n with O => 0 | S n' => interval + waits b n' (interval * b) end.

Lemma waits_nonneg b n i : 0 <= b -> 0 <= i -> 0 <= waits b n i.
Proof.
  intros Hb. revert i. induction n as [|n IH]; intros i Hi; cbn [waits]; [apply Qle_refl|].
  rewrite <-(Qplus_0_l 0). apply Qplus_le_compat; [done|]. apply IH. by apply Qmult_le_0_compat.
Qed.

Lemma waits_mono b n i j : 0 <= b -> i <= j -> waits b n i <= waits b n j.
Proof.
  intros Hb. revert i j. induction n as [|n IH]; intros i j Hij; cbn [waits]; [apply Qle_refl|].
  apply Qplus_le_compat; [done|]. apply IH. by apply Qmult_le_compat_r.
Qed.

Section facts.
Context (settings : FeedbackSettings) (http : list happened -> Request -> res Response).
Context (time : list happened -> Z) (fromisoformat : pyval -> option Z).

Abbreviation get_feedbacks := (get_feedbacks http time fromisoformat).
Abbreviation exchange := (exchange http time fromisoformat).
Abbreviation poll_feedback := (poll_feedback settings http time fromisoformat).
Abbreviation snapshot_feedback_ids := (snapshot_feedback_ids http time fromisoformat).
Abbreviation write_with_feedback := (write_with_feedback settings http time fromisoformat).

Definition grows (c c' : Client) (new : list happened) : Prop := history c' = (new ++ history c)%list.

(** Requests do not sleep, and history only grows. *)
Definition goes_on (c c' : Client) : Prop :=
  slept (history c') = slept (history c) /\ exists new, grows c c' new.

Lemma goes_on_refl c : goes_on c c.
Proof. split; [done|by exists []]. Qed.

Lemma goes_on_send c r : preserves (goes_on c) (send http r).
Proof.
  unfold send. preserve. apply preserves_modify. intros c' [Hs (new & Hn)]. split; [done|].
  eexists (_ :: new). unfold grows in *. cbn. by rewrite Hn.
Qed.

Lemma goes_on_cache c key cache : preserves (goes_on c) (modify (set_cache key cache)).
Proof. by apply preserves_modify. Qed.
Hint Resolve goes_on_send goes_on_cache : effects.

Lemma goes_on_expiry c data : preserves (goes_on c) (expiry_of time fromisoformat data).
Proof. unfold expiry_of, parse_expiry. preserve. Qed.
Lemma goes_on_success c resp : preserves (goes_on c) (raise_for_status resp).
Proof. unfold raise_for_status. preserve. Qed.
Hint Resolve goes_on_expiry goes_on_success : effects.

Lemma goes_on_login c creds : preserves (goes_on c) (login http time fromisoformat creds).
Proof. unfold login. preserve. Qed.
Lemma goes_on_refresh c creds cache : preserves (goes_on c) (refresh http time fromisoformat creds cache).
Proof. unfold refresh. cbv zeta. preserve. Qed.
Hint Resolve goes_on_login goes_on_refresh : effects.

Lemma goes_on_headers c creds : preserves (goes_on c) (headers http time fromisoformat creds).
Proof. unfold headers, ensure_token. preserve. Qed.
Hint Resolve goes_on_headers : effects.

Lemma goes_on_exchange c method creds path body : preserves (goes_on c) (exchange method creds path body).
Proof. unfold WmsClient.exchange. preserve. Qed.

(** What an exchange returns is the answer it was sent last. *)
Lemma exchange_answer method creds path body c data status c' :
  exchange method creds path body c = (Ok (data, status), c') ->
  exists hs resp new, grows c c' (Sent (MkRequest method (base_url creds ++ path) hs body) (Ok resp) :: new) /\
    json resp = Ok data /\ status_code resp = status.
Proof.
  intros H. unfold WmsClient.exchange, send in H. em_ok. subst c'.
  destruct (goes_on_headers c creds c (goes_on_refl c)) as [_ (new & Hn)]. rewrite E in Hn.
  exists x, x0, new. split; [|done]. unfold grows. cbn. by rewrite E0, <-Hn.
Qed.

(** A feedback that [find_feedback] finds. *)
Definition matches (entity action : string) (known : list pyval) (fb : dict) : Prop :=
  py_in (dget_or "id" PNone fb) (PList known) = Ok false /\
  upper_field "entity" fb = Ok (py_upper entity) /\ upper_field "action" fb = Ok (py_upper action).

Lemma find_feedback_matches entity action known data fb :
  find_feedback entity action known data = Ok (Some fb) -> PDict fb ∈ data /\ matches entity action known fb.
Proof.
  induction data as [|v data IH]; cbn [find_feedback]; [done|].
  assert (Hlater : find_feedback entity action known data = Ok (Some fb) ->
                   PDict fb ∈ v :: data /\ matches entity action known fb).
  { intros [? ?]%IH. split; [by right|done]. }
  destruct v as [| | | | | |d]; try exact Hlater. unfold hashed.
  destruct (hashable _); [|done]. cbn [mbind res_bind].
  destruct (py_in _ _) as [seen|] eqn:Hin; [|done]. cbn [mbind res_bind]. destruct seen; [exact Hlater|].
  destruct (upper_field "entity" d) as [e|] eqn:He; [|done]. cbn [mbind res_bind].
  destruct (upper_field "action" d) as [a|] eqn:Ha; [|done]. cbn [mbind res_bind].
  destruct (String.eqb_spec e (py_upper entity)) as [->|]; [|exact Hlater].
  destruct (String.eqb_spec a (py_upper action)) as [->|]; [|exact Hlater].
  intros [= <-]. split; [left|done].
Qed.

(** The WMS sent a list with the feedback in answer to one of the requests. *)
Definition feedback_answered (creds : WmsCredentials) (fb : dict) (requests : list happened) : Prop :=
  exists hs resp items,
    Sent (MkRequest "GET" (base_url creds ++ "/feedbacks") hs None) (Ok resp) ∈ requests /\
    json resp = Ok (PList items) /\ (status_code resp < 400)%Z /\ PDict fb ∈ items.

Lemma feedback_answered_mono creds fb new old :
  feedback_answered creds fb new -> feedback_answered creds fb (new ++ old).
Proof.
  intros (hs & resp & items & H & ?). exists hs, resp, items. split; [|done]. apply elem_of_app. by left.
Qed.

Lemma get_feedbacks_grows creds c :
  exists new, grows c (get_feedbacks creds c).2 new /\ slept (history (get_feedbacks creds c).2) = slept (history c).
Proof.
  destruct (goes_on_exchange c "GET" creds "/feedbacks" None c (goes_on_refl c)) as [Hs (new & Hn)].
  by exists new.
Qed.

(** One attempt at the feedbacks, whose failure is not an error. *)
Lemma attempt_spec creds c :
  exists o c2 new, try_catch (a ← get_feedbacks creds; mret (Some a)) (fun _ => mret None) c = (Ok o, c2) /\
    grows c c2 new /\ slept (history c2) = slept (history c) /\
    forall data status fb, o = Some (PList data, status) -> (status < 400)%Z -> PDict fb ∈ data ->
      feedback_answered creds fb new.
Proof.
  destruct (get_feedbacks_grows creds c) as (new & Hn & Hs). unfold try_catch, mbind, EM_bind.
  destruct (get_feedbacks creds c) as [[[data status]|e] c2] eqn:E; cbn [snd] in Hn, Hs.
  2:{ exists None, c2, new. by repeat split. }
  apply exchange_answer in E as (hs & resp & before & Hgrow & Hj & Hc).
  exists (Some (data, status)), c2. eexists. split; [done|]. split; [exact Hgrow|]. split; [done|].
  intros items status' fb [= -> ->] Hst Hfb. exists hs, resp, items. split; [left|by rewrite Hc].
Qed.

(** What a run that started at [c] slept and may have found. *)
Definition polled_from (creds : WmsCredentials) (entity action : string) (known : list pyval) (c : Client) (wait : Q)
    (run : res (option dict) * Client) : Prop :=
  slept (history run.2) <= slept (history c) + wait /\
  exists new, grows c run.2 new /\
    forall fb, run.1 = Ok (Some fb) -> matches entity action known fb /\ feedback_answered creds fb new.

Lemma polled_from_later creds entity action known c c2 new w wait run :
  grows c c2 new -> slept (history c2) == slept (history c) + w ->
  polled_from creds entity action known c2 wait run ->
  polled_from creds entity action known c (w + wait) run.
Proof.
  intros Hg Hw [Hs (more & Hmore & Hfb)]. split.
  - rewrite Qplus_assoc, <-Hw. exact Hs.
  - exists (more ++ new)%list. split; [unfold grows in *; by rewrite Hmore, Hg, app_assoc|].
    intros fb Hr. destruct (Hfb fb Hr) as [? ?]. split; [done|]. by apply feedback_answered_mono.
Qed.

Lemma poll_feedback_spec n interval creds entity action known c :
  0 <= backoff settings -> 0 <= interval ->
  polled_from creds entity action known c (waits (backoff settings) n interval)
    (poll_feedback n interval creds entity action known c).
Proof.
  intros Hb. revert interval c. induction n as [|n IH]; intros interval c Hi; cbn [WmsClient.poll_feedback waits].
  { split; [rewrite Qplus_0_r; apply Qle_refl|]. by exists []. }
  set (c1 := add_history (Slept interval) c).
  destruct (attempt_spec creds c1) as (o & c2 & new & E & Hg & Hs & Hfb).
  rewrite (bind_run _ _ c tt c1) by done. rewrite (bind_run _ _ _ _ _ E).
  assert (Hg' : grows c c2 (new ++ [Slept interval])) by (unfold grows; by rewrite Hg, <-app_assoc).
  assert (Hw : slept (history c2) == slept (history c) + interval) by (rewrite Hs; cbn; ring).
  assert (Hnext : forall i, 0 <= i -> i <= interval * backoff settings ->
    polled_from creds entity action known c (interval + waits (backoff settings) n (interval * backoff settings))
      (poll_feedback n i creds entity action known c2)).
  { intros i Hi' Hle. apply (polled_from_later _ _ _ _ _ c2 _ _ _ _ Hg' Hw). destruct (IH i c2 Hi') as [Hs' ?].
    split; [|done]. apply (Qle_trans _ _ _ Hs'). apply Qplus_le_r. by apply waits_mono. }
  assert (Hgrown : 0 <= interval * backoff settings) by by apply Qmult_le_0_compat.
  destruct o as [[[] status]|]; try (apply Hnext; [done|apply Qle_refl]).
  destruct (400 <=? status)%Z eqn:Est; [apply Hnext; [done|apply Qle_refl]|].
  destruct (find_feedback entity action known l) as [[fb|]|e] eqn:Ef.
  - rewrite (bind_run _ _ c2 (Some fb) c2) by done.
    apply find_feedback_matches in Ef as [Hin Hm]. split.
    + unfold mret, EM_ret. cbn [snd]. pose proof (waits_nonneg _ n _ Hb Hgrown). lra.
    + exists (new ++ [Slept interval])%list. split; [done|]. intros ? [= <-]. split; [done|].
      apply feedback_answered_mono. apply (Hfb _ _ _ eq_refl); [lia|done].
  - rewrite (bind_run _ _ c2 None c2) by done.
    apply Hnext; [apply Q.min_glb; [done|by compute]|apply Q.le_min_l].
  - unfold mbind, EM_bind, lift. split.
    + unfold mret, EM_ret. cbn [snd]. pose proof (waits_nonneg _ n _ Hb Hgrown). lra.
    + by exists (new ++ [Slept interval])%list.
Qed.

Lemma snapshot_grows creds c :
  slept (history (snapshot_feedback_ids creds c).2) = slept (history c) /\
  exists new, grows c (snapshot_feedback_ids creds c).2 new.
Proof.
  assert (H : preserves (goes_on c) (snapshot_feedback_ids creds)).
  { unfold WmsClient.snapshot_feedback_ids, WmsClient.get_feedbacks, get. preserve; apply goes_on_exchange. }
  apply H, goes_on_refl.
Qed.

Lemma post_grows creds path body c :
  goes_on c (post http time fromisoformat creds path body c).2.
Proof. apply goes_on_exchange, goes_on_refl. Qed.
End facts.

(** ** The properties *)

(** A write that is reported as processed or as failed is reported so on the word of
    the WMS: after the write was posted the WMS answered a list with a feedback of that
    entity and action, whose id was not among those known before the write, and the
    result is what that feedback says. *)
Theorem reports_come_from_feedback settings http time fromisoformat creds entity action path body c r c' :
  0 <= backoff settings -> 0 <= poll_interval settings ->
  write_with_feedback settings http time fromisoformat creds entity action path body c = (Ok r, c') ->
  accepted r = true -> timed_out r = false ->
  exists known c0 api c1 new fb,
    snapshot_feedback_ids http time fromisoformat creds c = (Ok known, c0) /\
    post http time fromisoformat creds path body c0 = (Ok (api, http_status r), c1) /\ grows c1 c' new /\
    feedback_answered creds fb new /\ matches entity action known fb /\
    r = feedback_result (http_status r) api fb.
Proof.
  intros Hb Hi H Hacc Hlate. unfold write_with_feedback in H. em_ok. destruct x0 as [api status].
  destruct (400 <=? status)%Z; [em_ok; by subst|]. em_ok.
  pose proof (poll_feedback_spec settings http time fromisoformat (max_attempts settings) (poll_interval settings)
                creds entity action x s0 Hb Hi) as [_ (new & Hg & Hfb)].
  rewrite E1 in Hg, Hfb. destruct x0 as [fb|]; em_ok; subst; [|done].
  destruct (Hfb fb eq_refl) as [Hm Ha].
  by exists x, s, api, s0, new, fb.
Qed.

(** The waits of a write for its feedback are bounded whatever the WMS answers: they
    are at most those of intervals that grow by the factor of the settings from attempt to
    attempt. *)
Theorem feedback_wait_bounded settings http time fromisoformat creds entity action path body c :
  0 <= backoff settings -> 0 <= poll_interval settings ->
  slept (history (write_with_feedback settings http time fromisoformat creds entity action path body c).2) <=
    slept (history c) + waits (backoff settings) (max_attempts settings) (poll_interval settings).
Proof.
  intros Hb Hi. unfold write_with_feedback.
  pose proof (waits_nonneg _ (max_attempts settings) _ Hb Hi).
  destruct (snapshot_grows http time fromisoformat creds c) as [Hs _]. unfold mbind, EM_bind.
  destruct (snapshot_feedback_ids http time fromisoformat creds c) as [[known|e] c0]; cbn [snd] in *;
    [|rewrite Hs; lra].
  destruct (post_grows http time fromisoformat creds path body c0) as [Hp _].
  destruct (post http time fromisoformat creds path body c0) as [[[api status]|e] c1]; cbn [snd] in *;
    [|rewrite Hp, Hs; lra].
  destruct (400 <=? status)%Z; [cbn; rewrite Hp, Hs; lra|].
  destruct (poll_feedback_spec settings http time fromisoformat (max_attempts settings) (poll_interval settings)
    creds entity action known c1 Hb Hi) as [Hw _].
  destruct (poll_feedback _ _ _ _ _ _ _ _ _ _ c1) as [[[fb|]|e] c2]; cbn [snd] in *; cbn; rewrite <-Hs, <-Hp; exact Hw.
Qed.

(** *** Concrete runs *)

Definition is_url (suffix : string) (r : Request) : bool := ends_with suffix (rq_url r).
Definition count_requests (suffix : string) (h : list happened) : nat :=
  List.length (List.filter (fun e => match e with Sent r _ => is_url suffix r | _ => false end) h).

Definition json_answer (status : Z) (v : pyval) : res Response := Ok (MkResponse status (Ok v)).
Definition a_token : pyval := PDict [("accessToken", PStr "T"); ("refreshToken", PStr "R")].
Definition a_feedback (id : Z) : pyval :=
  PDict [("id", PInt id); ("entity", PStr "Article"); ("action", PStr "save"); ("success", PBool true)].

(** A WMS that knows one password, has an old feedback and processes a write at once;
    [first] is its answer to the first request for feedbacks. *)
Definition a_wms (first : res Response) (h : list happened) (r : Request) : res Response :=
  if is_url "/auth/sign-in" r then
    match rq_json r with
    | Some (PDict d) =>
        if py_eqb (dget_or "password" PNone d) (PStr "right") then json_answer 200 a_token
        else json_answer 401 (PDict [])
    | _ => json_answer 400 (PDict [])
    end
  else if is_url "/feedbacks" r then
    match count_requests "/feedbacks" h with
    | O => first
    | _ => json_answer 200 (PList [a_feedback 1; a_feedback 2])
    end
  else json_answer 200 (PDict []).

Definition my_creds (password : string) : WmsCredentials := Creds "https://wms.example/auth/" "u" password None.
Definition a_write (first : res Response) : res WriteResult * Client :=
  write_with_feedback default_feedback (a_wms first) (fun _ => 1000%Z) (fun _ => None) (my_creds "right")
    "ARTICLE" "SAVE" "/articles" (PDict []) (MkClient [] []).

Definition reported (r : res WriteResult) : option (pyval * pyval) :=
  match r with Ok w => Some (confirmed w, feedback_id w) | Raise _ => None end.

Lemma reports_come_from_feedback_witness :
  exists r c' known c0 api c1 new fb,
    a_write (json_answer 200 (PList [a_feedback 1])) = (Ok r, c') /\ reported (Ok r) = Some (PBool true, PInt 2) /\
    snapshot_feedback_ids (a_wms (json_answer 200 (PList [a_feedback 1]))) (fun _ => 1000%Z) (fun _ => None)
      (my_creds "right") (MkClient [] []) = (Ok known, c0) /\
    post (a_wms (json_answer 200 (PList [a_feedback 1]))) (fun _ => 1000%Z) (fun _ => None) (my_creds "right")
      "/articles" (PDict []) c0 = (Ok (api, http_status r), c1) /\ grows c1 c' new /\
    feedback_answered (my_creds "right") fb new /\ matches "ARTICLE" "SAVE" known fb /\
    r = feedback_result (http_status r) api fb.
Proof.
  destruct (a_write (json_answer 200 (PList [a_feedback 1]))) as [[r|e] c'] eqn:E; [|by vm_compute in E].
  exists r, c'.
  destruct (reports_come_from_feedback default_feedback (a_wms (json_answer 200 (PList [a_feedback 1])))
    (fun _ => 1000%Z) (fun _ => None) (my_creds "right") "ARTICLE" "SAVE" "/articles" (PDict []) (MkClient [] []) r c')
    as (known & c0 & api & c1 & new & fb & H).
  - by compute.
  - by compute.
  - exact E.
  - vm_compute in E. by injection E as <- _.
  - vm_compute in E. by injection E as <- _.
  - exists known, c0, api, c1, new, fb. split; [done|]. split; [|exact H].
    vm_compute in E. by injection E as <- _.
Defined.

Lemma feedback_wait_bounded_witness :
  slept (history (a_write (json_answer 200 (PList []))).2) <= 0 + waits 1.3 15 2 /\ waits 1.3 15 2 <= 335.
Proof.
  split; [|by vm_compute].
  apply (feedback_wait_bounded default_feedback (a_wms (json_answer 200 (PList []))) (fun _ => 1000%Z) (fun _ => None)
           (my_creds "right") "ARTICLE" "SAVE" "/articles" (PDict []) (MkClient [] [])); by compute.
Defined.

(** When the request for the known feedbacks fails, none is known: an old feedback of the
    same kind is taken for that of this write. *)
Example old_feedback_confirms :
  reported (a_write (json_answer 500 (PDict []))).1 = Some (PBool true, PInt 1).
Proof. by vm_compute. Qed.

(** The key of a token is the address and the user name: once a caller has signed in, the
    same user name with a wrong password is served. *)
Example wrong_password_is_served :
  let read := fun password c => get (a_wms (json_answer 200 (PList []))) (fun _ => 1000%Z)
                (fun _ => None) (my_creds password) "/articles" c in
  (read "wrong" (MkClient [] [])).1 = Raise (OtherError "httpx.HTTPStatusError 401") /\
  (read "wrong" (read "right" (MkClient [] [])).2).1 = Ok (PDict [], 200%Z).
Proof. by vm_compute. Qed.

(** A feedback without a verdict counts as a success of the write. *)
Example null_verdict_is_ok :
  ok (feedback_result 200 PNone [("id", PInt 3); ("success", PNone)]) = PBool true.
Proof. done. Qed.
