(* ===== verification/EmailPoller.v ===== *)
(** The poller of the e-mail connector
    ([integrators/other/email-client/v1.0.0/src/email_client/poller.py]), with the store of
    its state ([models/database.py]), the accounts ([services/account_manager.py], the
    registration of credentials of [main.py]) and the retrieval of mails
    ([imap_client.py]).

    An IMAP server is an instance of the class [ImapServer]; the reading of a raw mail,
    which is Python's [email] package, is a parameter.  The world keeps a trace, newest
    entry first, of what was sent; Kafka and the platform are functions of it. *)

From S2P Require Import Prelude PyText PyValue Effects.

Local Open Scope string_scope.

(** ** Accounts *)

Record EmailAccountConfig := Account {
  ac_name : string;
  ac_tenant_id : string;
  ac_email_address : string;
  ac_username : string;
  ac_password : string;
  ac_imap_host : string;
  ac_imap_port : Z;
  ac_smtp_host : string;
  ac_smtp_port : Z;
  ac_use_ssl : bool;
  ac_polling_folder : string;
  ac_polling_interval : option Z
}.

#[export] Instance account_dec : EqDecision EmailAccountConfig.
Proof. solve_decision. Defined.

(** The property [login]. *)
Definition ac_login (a : EmailAccountConfig) : string :=
  if String.eqb (ac_username a) "" then ac_email_address a else ac_username a.

(** [AccountManager]: a dict by name. *)
Abbreviation Accounts := (list (string * EmailAccountConfig)).
Definition get_account (name : string) (l : Accounts) : option EmailAccountConfig := dget name l.
Definition list_accounts (l : Accounts) : list EmailAccountConfig := map snd l.
Definition add_account (a : EmailAccountConfig) (l : Accounts) : Accounts := dset (ac_name a) a l.
Definition remove_account (name : string) (l : Accounts) : bool * Accounts := (dhas name l, ddel name l).

(** ** Mails *)

(** The fields of [EmailMessage] the poller looks at; [em_rest] dumps the others. *)
Record EmailMessage := Mail {
  em_message_id : string;
  em_subject : string;
  em_sender : option (string * string);
  em_date : option string;
  em_rest : dict
}.

Definition model_dump (m : EmailMessage) : dict :=
  dmerge [("message_id", PStr (em_message_id m)); ("subject", PStr (em_subject m));
     ("sender", match em_sender m with
                | Some (name, address) => PDict [("name", PStr name); ("address", PStr address)]
                | None => PNone end);
     ("date", match em_date m with Some d => PStr d | None => PNone end)] (em_rest m).

(** [_parse_priority], given the header [X-Priority]. *)
Inductive EmailPriority := LOW | NORMAL | HIGH.

Definition parse_priority (header : option string) : EmailPriority :=
  match py_strip (default "3" header) with
  | EmptyString => NORMAL
  | String c _ => match parse_int (str1 c) with
                  | None => NORMAL
                  | Some level => if (level <=? 2)%Z then HIGH else if (4 <=? level)%Z then LOW else NORMAL
                  end
  end.

(** A member of the [join] of [_derive_message_key]: a value that is not [None] and not a
    text raises. *)
Definition join_text {A} (i : Z) (type : string) (v : option A) : res string :=
  match v with
  | None => Ok ""
  | Some _ => Raise (TypeError ("sequence item " ++ str_of_Z i ++ ": expected str instance, " ++ type ++ " found"))
  end.

Section keys.
(** [hashlib.sha256(text.encode()).hexdigest()]. *)
Variable sha256 : string -> string.

(** [_derive_message_key]. *)
Definition derive_message_key (m : EmailMessage) : res string :=
  if negb (String.eqb (em_message_id m) "") then Ok (em_message_id m)
  else
    sender ← join_text 1 "EmailAddress" (em_sender m);
    date ← join_text 2 "datetime.datetime" (em_date m);
    Ok ("sha256:" ++ sha256 (str_join "|" [em_subject m; sender; date])).
End keys.

(** ** The store of the state *)

(** [poller_state] and [seen_message_ids], the latter with the newest row first. *)
Record StateStore := MkStore {
  poller_state : list ((string * string) * string);
  seen_message_ids : list (string * string)
}.

Fixpoint upsert (k : string * string) (v : string) (rows : list ((string * string) * string))
  : list ((string * string) * string) :=
  match rows with
  | [] => [(k, v)]
  | (k', v') :: rows' => if bool_decide (k = k') then (k', v) :: rows' else (k', v') :: upsert k v rows'
  end.

Definition store_timestamp (account entity timestamp : string) (s : StateStore) : StateStore :=
  MkStore (upsert (account, entity) timestamp (poller_state s)) (seen_message_ids s).

Definition load_all_timestamps (s : StateStore) : list (string * list (string * string)) :=
  fold_left (fun acc row => dset row.1.1 (dset row.1.2 row.2 (default [] (dget row.1.1 acc))) acc)
    (poller_state s) [].

Definition is_seen (account message_id : string) (s : StateStore) : bool :=
  bool_decide ((account, message_id) ∈ seen_message_ids s).
Definition mark_seen (account message_id : string) (s : StateStore) : StateStore :=
  if is_seen account message_id s then s
  else MkStore (poller_state s) ((account, message_id) :: seen_message_ids s).

Definition of_account (account : string) (row : string * string) : bool := String.eqb row.1 account.
Definition load_seen_ids (account : string) (limit : nat) (s : StateStore) : list string :=
  map snd (take limit (List.filter (of_account account) (seen_message_ids s))).
Definition prune_seen_ids (account : string) (keep : nat) (s : StateStore) : StateStore :=
  let kept := take keep (List.filter (of_account account) (seen_message_ids s)) in
  MkStore (poller_state s)
    (List.filter (fun row => negb (of_account account row) || bool_decide (row ∈ kept)) (seen_message_ids s)).

(** ** IMAP *)

(** What the client asks of a server: a failed command raises, or answers a status.  A
    search gives the numbers of the messages, in order; a fetch the raw mail. *)
Class ImapServer (server : Type) := {
  imap_connect : EmailAccountConfig -> EM server unit;
  imap_select : EmailAccountConfig -> string -> EM server unit;
  imap_search : EmailAccountConfig -> string -> EM server (string * list string);
  imap_fetch : EmailAccountConfig -> string -> EM server (string * option string)
}.

(** [ImapClient]: the account it was made for, and whether it is connected. *)
Record ImapClient := MkImap { im_account : EmailAccountConfig; im_connected : bool }.

Record EmailsPage := Page { pg_emails : list EmailMessage; pg_total : Z; pg_folder : string }.

Definition month_name (mm : string) : string :=
  default "" (dget mm [("01", "Jan"); ("02", "Feb"); ("03", "Mar"); ("04", "Apr"); ("05", "May"); ("06", "Jun");
    ("07", "Jul"); ("08", "Aug"); ("09", "Sep"); ("10", "Oct"); ("11", "Nov"); ("12", "Dec")]).

(** [datetime.strptime(s, "%Y-%m-%d %H:%M:%S").strftime("%d-%b-%Y")]. *)
Definition imap_date (s : string) : string :=
  str_take 2 (str_drop 8 s) ++ "-" ++ month_name (str_take 2 (str_drop 5 s)) ++ "-" ++ str_take 4 s.

Definition search_criteria (since : option string) (unseen_only : bool) : string :=
  match since with
  | Some s => "(SINCE " ++ imap_date s ++ (if unseen_only then " UNSEEN" else "") ++ ")"
  | None => if unseen_only then "UNSEEN" else "ALL"
  end.

(** The part of [config.py] the poller reads. *)
Record Settings := MkSettings {
  polling_folder : string;
  polling_max_emails : nat;
  kafka_topic_emails_received : string;
  platform_api_url : string;
  platform_api_key : string;
  platform_internal_secret : string;
  platform_event_notify : bool
}.

Definition default_settings : Settings :=
  MkSettings "INBOX" 50 "email.output.other.emails.received" "http://platform:8080" "" "" true.

(** What was sent, with the account and key it was sent for. *)
Inductive sending :=
  | KafkaSend (account key topic : string) (envelope : pyval) (ok : bool)
  | PlatformPost (account key : string) (headers : list (string * string)) (payload : dict) (ok : bool).

Section poller.
Context {server : Type} {imap : ImapServer server}.

(** [EmailPoller], its store, the accounts, the mail servers and the trace. *)
Record World := MkWorld {
  accounts : Accounts;
  last_timestamps : list (string * list (string * string));
  imap_clients : list (string * ImapClient);
  seen_cache : list (string * list string);
  kafka : bool;
  http_client : bool;
  store : StateStore;
  mail_server : server;
  trace : list sending
}.

Definition set_clients (l : list (string * ImapClient)) (w : World) : World :=
  MkWorld (accounts w) (last_timestamps w) l (seen_cache w) (kafka w) (http_client w) (store w) (mail_server w) (trace w).
Definition set_server (s : server) (w : World) : World :=
  MkWorld (accounts w) (last_timestamps w) (imap_clients w) (seen_cache w) (kafka w) (http_client w) (store w) s (trace w).
Definition set_accounts (l : Accounts) (w : World) : World :=
  MkWorld l (last_timestamps w) (imap_clients w) (seen_cache w) (kafka w) (http_client w) (store w) (mail_server w) (trace w).
Definition record (s : sending) (w : World) : World :=
  MkWorld (accounts w) (last_timestamps w) (imap_clients w) (seen_cache w) (kafka w) (http_client w) (store w)
    (mail_server w) (s :: trace w).

Variable settings : Settings.
Variable sha256 : string -> string.
Variable parse_email_message : string -> res EmailMessage.
(** The clock, in the format of the time stamps and in ISO format. *)
Variable now_str : list sending -> string.
Variable now_iso : list sending -> string.
Variable kafka_send : list sending -> string -> pyval -> string -> bool.
Variable post : list sending -> list (string * string) -> dict -> res Z.

Definition on_server {A} (m : EM server A) : EM World A := within mail_server set_server m.

(** *** Retrieval *)

(** [_get_imap_client]: a cached client keeps the account it was made for. *)
Definition get_imap_client (a : EmailAccountConfig) : EM World ImapClient :=
  w ← get_st;
  match dget (ac_name a) (imap_clients w) with
  | Some c => mret c
  | None => let c := MkImap a false in
            _ ← modify (set_clients (dset (ac_name a) c (imap_clients w))); mret c
  end.

(** [_ensure_connected] of the client cached under a name. *)
Definition ensure_connected (name : string) (c : ImapClient) : EM World unit :=
  if im_connected c then mret tt
  else
    _ ← on_server (imap_connect (im_account c));
    modify (fun w => set_clients (dset name (MkImap (im_account c) true) (imap_clients w)) w).

(** The last [n] elements of a list, [l[-n:]]: all of them for [n = 0]. *)
Definition last_n {A} (n : nat) (l : list A) : list A :=
  match n with O => l | _ => drop (List.length l - n) l end.

(** The loop of [fetch_emails]: a mail that cannot be fetched or read is left out. *)
Definition fetch_one (a : EmailAccountConfig) (id : string) : EM World (list EmailMessage) :=
  try_catch
    (answer ← on_server (imap_fetch a id);
     match answer with
     | (status, Some raw) =>
         if String.eqb status "OK" then m ← lift (parse_email_message raw); mret [m] else mret []
     | _ => mret []
     end)
    (fun _ => mret []).

Fixpoint fetch_all (a : EmailAccountConfig) (ids : list string) : EM World (list EmailMessage) :=
  match ids with
  | [] => mret []
  | id :: ids' => m ← fetch_one a id; ms ← fetch_all a ids'; mret (m ++ ms)%list
  end.

(** [fetch_emails]. *)
Definition fetch_emails (name : string) (c : ImapClient) (folder : string) (since : option string) (max_count : nat)
    (unseen_only : bool) : EM World EmailsPage :=
  let a := im_account c in
  _ ← ensure_connected name c;
  _ ← on_server (imap_select a folder);
  found ← on_server (imap_search a (search_criteria since unseen_only));
  let (status, ids) := (found : string * list string) in
  if negb (String.eqb status "OK") || bool_decide (ids = []) then mret (Page [] 0 folder)
  else
    emails ← fetch_all a (last_n max_count ids);
    mret (Page emails (Z.of_nat (List.length ids)) folder).

(** [reset_imap_client]. *)
Definition reset_imap_client (name : string) : EM World unit :=
  modify (fun w => set_clients (ddel name (imap_clients w)) w).

(** *** Delivery *)

(** [_notify_platform]. *)
Definition notify_headers : list (string * string) :=
  if negb (String.eqb (platform_internal_secret settings) "") then
    [("X-Internal-Secret", platform_internal_secret settings)]
  else if negb (String.eqb (platform_api_key settings) "") then [("X-API-Key", platform_api_key settings)]
  else [].

Definition notify_platform (account key event : string) (data : dict) : EM World bool :=
  w ← get_st;
  if negb (http_client w) then mret true
  else
    let payload := [("connector_name", PStr "email-client"); ("event", PStr event); ("data", PDict data)] in
    let ok := match post (trace w) notify_headers payload with Ok status => (status <? 300)%Z | Raise _ => false end in
    _ ← modify (record (PlatformPost account key notify_headers payload ok));
    mret ok.

Definition seen_of (name : string) (w : World) : list string := default [] (dget name (seen_cache w)).

(** [seen.add(key)] and [mark_seen]. *)
Definition add_seen (name key : string) (w : World) : World :=
  MkWorld (accounts w) (last_timestamps w) (imap_clients w) (dset name (key :: seen_of name w) (seen_cache w)) (kafka w)
    (http_client w) (mark_seen name key (store w)) (mail_server w) (trace w).

(** [account.name.split(":", 1)[1] if ":" in account.name else account.name]. *)
Definition cred_name (name : string) : string :=
  match str_find ":" name with Some i => str_drop (i + 1) name | None => name end.

Definition email_data (a : EmailAccountConfig) (m : EmailMessage) : dict :=
  let d := dset "account_name" (PStr (cred_name (ac_name a))) (model_dump m) in
  if String.eqb (ac_tenant_id a) "" then d else dset "_tenant_id" (PStr (ac_tenant_id a)) d.

Definition publish (a : EmailAccountConfig) (key : string) (data : dict) : EM World bool :=
  w ← get_st;
  let envelope := PDict [("connector_name", PStr "email-client"); ("event", PStr "email.received");
    ("timestamp", PStr (now_iso (trace w))); ("account_name", PStr (cred_name (ac_name a))); ("data", PDict data)] in
  let ok := kafka_send (trace w) (kafka_topic_emails_received settings) envelope key in
  _ ← modify (record (KafkaSend (ac_name a) key (kafka_topic_emails_received settings) envelope ok));
  mret ok.

(** One turn of the delivery loop: whether the mail was delivered. *)
Definition deliver (a : EmailAccountConfig) (m : EmailMessage) : EM World bool :=
  key ← lift (derive_message_key sha256 m);
  let data := email_data a m in
  w ← get_st;
  if kafka w then
    delivered ← publish a key data;
    if (delivered : bool) then
      _ ← modify (add_seen (ac_name a) key);
      _ ← notify_platform (ac_name a) key "email.received" data;
      mret true
    else mret false
  else
    notified ← notify_platform (ac_name a) key "email.received" data;
    if (notified : bool) then _ ← modify (add_seen (ac_name a) key); mret true
    else mret false.

Fixpoint deliver_all (a : EmailAccountConfig) (ms : list EmailMessage) : EM World bool :=
  match ms with
  | [] => mret true
  | m :: ms' => ok ← deliver a m; oks ← deliver_all a ms'; mret (ok && oks)
  end.

(** *** Polls *)

(** [_get_last_timestamp] and [_save_timestamp]. *)
Definition get_last_timestamp (name entity : string) (w : World) : option string :=
  dget entity (default [] (dget name (last_timestamps w))).
Definition save_timestamp (name entity timestamp : string) (w : World) : World :=
  MkWorld (accounts w)
    (dset name (dset entity timestamp (default [] (dget name (last_timestamps w)))) (last_timestamps w))
    (imap_clients w) (seen_cache w) (kafka w) (http_client w) (store_timestamp name entity timestamp (store w))
    (mail_server w) (trace w).

(** The mails of a page whose key is not in [seen]. *)
Definition new_emails (seen : list string) (emails : list EmailMessage) : res (list EmailMessage) :=
  foldR (fun acc m => key ← derive_message_key sha256 m;
                      Ok (if existsb (String.eqb key) seen then acc else acc ++ [m])%list) [] emails.

(** [_poll_account]. *)
Definition poll_account (a : EmailAccountConfig) : EM World unit :=
  let name := ac_name a in
  c ← get_imap_client a;
  w ← get_st;
  let now := now_str (trace w) in
  let folder := if String.eqb (ac_polling_folder a) "" then polling_folder settings else ac_polling_folder a in
  page ← fetch_emails name c folder (get_last_timestamp name "emails" w) (polling_max_emails settings) true;
  w ← get_st;
  fresh ← lift (new_emails (seen_of name w) (pg_emails page));
  all_notified ← deliver_all a fresh;
  if (all_notified : bool) then modify (save_timestamp name "emails" now) else mret tt.

(** [_poll_all_accounts]. *)
Definition poll_all_accounts : EM World unit :=
  w ← get_st;
  for_each (fun a => try_catch (poll_account a) (fun _ => reset_imap_client (ac_name a)))
    (list_accounts (accounts w)).

Definition seen_cache_limit : nat := 1000.

(** [start], without the loop, and [stop]. *)
Definition start (w : World) : World :=
  MkWorld (accounts w) (load_all_timestamps (store w)) (imap_clients w)
    (fold_left (fun acc a => dset (ac_name a) (load_seen_ids (ac_name a) seen_cache_limit (store w)) acc)
       (list_accounts (accounts w)) (seen_cache w))
    (kafka w) (platform_event_notify settings) (store w) (mail_server w) (trace w).
Definition stop (w : World) : World :=
  MkWorld (accounts w) (last_timestamps w) [] (seen_cache w) (kafka w) false (store w) (mail_server w) (trace w).

(** *** Registration of credentials ([_fetch_credentials_once] of [main.py]) *)

Definition creds_changed (old new : EmailAccountConfig) : bool :=
  negb (String.eqb (ac_login old) (ac_login new) && String.eqb (ac_password old) (ac_password new)
        && String.eqb (ac_imap_host old) (ac_imap_host new) && (ac_imap_port old =? ac_imap_port new)%Z
        && String.eqb (ac_smtp_host old) (ac_smtp_host new) && (ac_smtp_port old =? ac_smtp_port new)%Z
        && Bool.eqb (ac_use_ssl old) (ac_use_ssl new)).

Definition account_key (tenant_id cred_name : string) : string :=
  if String.eqb tenant_id "" then cred_name else tenant_id ++ ":" ++ cred_name.

(** One account of the answer, whose texts were read from the credentials. *)
Definition register_account (a : EmailAccountConfig) : EM World unit :=
  if String.eqb (ac_email_address a) "" || String.eqb (ac_imap_host a) "" then mret tt
  else
    w ← get_st;
    _ ← modify (set_accounts (add_account a (accounts w)));
    match get_account (ac_name a) (accounts w) with
    | Some old => if creds_changed old a then reset_imap_client (ac_name a) else mret tt
    | None => mret tt
    end.

Definition register_accounts (l : list EmailAccountConfig) : EM World unit := for_each register_account l.
End poller.

(** ** Lemmas *)

(** The mails delivered: by Kafka where there is Kafka, by the platform otherwise. *)
Definition delivery (by_kafka : bool) (s : sending) : list (string * string) :=
  match s with
  | KafkaSend account key _ _ true => if by_kafka then [(account, key)] else []
  | PlatformPost account key _ _ true => if by_kafka then [] else [(account, key)]
  | _ => []
  end.
Definition deliveries (by_kafka : bool) (t : list sending) : list (string * string) :=
  flat_map (delivery by_kafka) t.

Section facts.
Context {server : Type} {imap : ImapServer server}.
Context (settings : Settings) (sha256 : string -> string) (parse_email_message : string -> res EmailMessage).
Context (now_str now_iso : list sending -> string).
Context (kafka_send : list sending -> string -> pyval -> string -> bool).
Context (post : list sending -> list (string * string) -> dict -> res Z).

Abbreviation Poller := (World (server := server)).
Abbreviation derive_message_key := (derive_message_key sha256).
Abbreviation notify_platform := (notify_platform settings post).
Abbreviation publish := (publish settings now_iso kafka_send).
Abbreviation deliver := (deliver settings sha256 now_iso kafka_send post).
Abbreviation deliver_all := (deliver_all settings sha256 now_iso kafka_send post).
Abbreviation poll_account := (poll_account settings sha256 parse_email_message now_str now_iso kafka_send post).
Abbreviation poll_all_accounts := (poll_all_accounts settings sha256 parse_email_message now_str now_iso kafka_send post).

Definition key_text (m : EmailMessage) : string :=
  match derive_message_key m with Ok k => k | Raise _ => "" end.
Definition has_key (m : EmailMessage) : Prop := exists k, derive_message_key m = Ok k.

Lemma new_emails_spec seen emails fresh :
  new_emails sha256 seen emails = Ok fresh ->
  fresh = delete_rows (fun m => existsb (String.eqb (key_text m)) seen) emails /\ Forall has_key emails.
Proof.
  unfold new_emails, delete_rows. enough (Hacc : forall acc, foldR (fun acc m => key ← derive_message_key m;
      Ok (if existsb (String.eqb key) seen then acc else acc ++ [m])%list) acc emails = Ok fresh ->
    fresh = (acc ++ List.filter (fun m => negb (existsb (String.eqb (key_text m)) seen)) emails)%list /\
    Forall has_key emails) by apply (Hacc []).
  induction emails as [|m emails IH]; intros acc Hf; cbn [foldR] in Hf.
  - injection Hf as <-. cbn. by rewrite app_nil_r.
  - destruct (derive_message_key m) as [k|] eqn:Ek; [|done]. cbn [mbind res_bind] in Hf.
    apply IH in Hf as [-> Hall]. cbn [List.filter]. unfold key_text at 2. rewrite Ek. split.
    + destruct (existsb (String.eqb k) seen); cbn; [done|by rewrite <-app_assoc].
    + apply Forall_cons_iff. split; [by exists k|done].
Qed.

(** What deliveries, the cache and the store agree on; and since a moment when [past] had been
    delivered, nothing of it was delivered again. *)
Definition in_step (by_kafka : bool) (past : list (string * string)) (w : Poller) : Prop :=
  kafka w = by_kafka /\ http_client w = true
  /\ (exists new, deliveries by_kafka (trace w) = (new ++ past)%list /\ forall d, d ∈ new -> d ∉ past)
  /\ forall a k, ((a, k) ∈ deliveries by_kafka (trace w) <-> k ∈ seen_of a w) /\
                 (k ∈ seen_of a w <-> (a, k) ∈ seen_message_ids (store w)).

Lemma in_step_same by_kafka past (w w' : Poller) :
  kafka w' = kafka w -> http_client w' = http_client w ->
  deliveries by_kafka (trace w') = deliveries by_kafka (trace w) -> seen_cache w' = seen_cache w ->
  seen_message_ids (store w') = seen_message_ids (store w) -> in_step by_kafka past w -> in_step by_kafka past w'.
Proof. unfold in_step, seen_of. by intros -> -> -> -> ->. Qed.

Lemma in_step_modify by_kafka past (f : Poller -> Poller) :
  (forall w, kafka (f w) = kafka w /\ http_client (f w) = http_client w /\ trace (f w) = trace w /\
     seen_cache (f w) = seen_cache w /\ seen_message_ids (store (f w)) = seen_message_ids (store w)) ->
  preserves (in_step by_kafka past) (modify f).
Proof.
  intros Hf. apply preserves_modify. intros w. destruct (Hf w) as (? & ? & Ht & ? & ?).
  apply in_step_same; try done. by rewrite Ht.
Qed.

(** What was delivered before a moment can be taken for the past. *)
Lemma in_step_now by_kafka past w : in_step by_kafka past w -> in_step by_kafka (deliveries by_kafka (trace w)) w.
Proof. intros (? & ? & _ & ?). split_and!; try done. exists []. split; [done|]. intros d Hd. by apply elem_of_nil in Hd. Qed.

Lemma in_step_server {A} by_kafka past (m : EM server A) : preserves (in_step by_kafka past) (on_server m).
Proof. intros w Hw. unfold on_server, within. destruct (m (mail_server w)) as [r s]. exact Hw. Qed.
Hint Resolve in_step_server : effects.

Lemma in_step_fetch by_kafka past name c folder since n unseen :
  preserves (in_step by_kafka past) (fetch_emails parse_email_message name c folder since n unseen).
Proof.
  unfold fetch_emails, ensure_connected. preserve.
  - by apply in_step_modify.
  - assert (Hall : forall ids, preserves (in_step by_kafka past) (fetch_all parse_email_message (im_account c) ids)).
    { intros ids. induction ids; cbn [fetch_all]; [apply preserves_ret|]. unfold fetch_one. preserve; apply IHids. }
    apply Hall.
Qed.

(** A notification changes nothing but the trace, and delivers nothing under Kafka. *)
Lemma notify_spec account key event data (w : Poller) :
  exists ok t, notify_platform account key event data w =
      (Ok ok, MkWorld (accounts w) (last_timestamps w) (imap_clients w) (seen_cache w) (kafka w) (http_client w)
                (store w) (mail_server w) t) /\
    deliveries true t = deliveries true (trace w) /\
    (http_client w = true ->
     deliveries false t = if ok then (account, key) :: deliveries false (trace w) else deliveries false (trace w)).
Proof.
  unfold EmailPoller.notify_platform. rewrite (bind_run get_st _ w w w eq_refl).
  destruct (http_client w) eqn:Eh; cbn [negb].
  - cbv zeta. set (ok := match post _ _ _ with Ok _ => _ | Raise _ => false end).
    exists ok. eexists. split; [rewrite <-Eh; reflexivity|]. cbn. by destruct ok.
  - exists true, (trace w). split; [by destruct w; cbn in *; subst|]. by rewrite ?Eh.
Qed.

Lemma publish_spec a key data (w : Poller) :
  exists env ok, publish a key data w =
    (Ok ok, record (KafkaSend (ac_name a) key (kafka_topic_emails_received settings) env ok) w).
Proof. unfold EmailPoller.publish. rewrite (bind_run get_st _ w w w eq_refl). cbv zeta. by do 2 eexists. Qed.

Lemma in_step_add by_kafka past (w : Poller) a k t :
  in_step by_kafka past w -> (a, k) ∉ past -> deliveries by_kafka t = (a, k) :: deliveries by_kafka (trace w) ->
  in_step by_kafka past (add_seen a k (MkWorld (accounts w) (last_timestamps w) (imap_clients w) (seen_cache w) (kafka w)
                      (http_client w) (store w) (mail_server w) t)).
Proof.
  intros (Hk & Hh & (new & Hn & Hnew) & Hiff) Hni Ht.
  split; [done|]. split; [done|]. cbn [trace add_seen]. rewrite Ht. split.
  { exists ((a, k) :: new). rewrite Hn. split; [done|]. intros d [->|Hd]%elem_of_cons; [done|by apply Hnew]. }
  intros a' k'. unfold seen_of, add_seen. cbn. unfold mark_seen, is_seen.
  destruct (Hiff a' k') as [H1 H2], (Hiff a k) as [_ H3]. unfold seen_of in *.
  rewrite dget_dset, elem_of_cons.
  assert (Hstore : (a', k') ∈ seen_message_ids (if bool_decide ((a, k) ∈ seen_message_ids (store w)) then store w
                     else MkStore (poller_state (store w)) ((a, k) :: seen_message_ids (store w)))
                   <-> (a', k') = (a, k) \/ (a', k') ∈ seen_message_ids (store w)).
  { case_bool_decide; cbn; [|by rewrite elem_of_cons]. split; [by right|]. by intros [->|]. }
  rewrite Hstore. destruct (String.eqb_spec a' a) as [->|Hne].
  - cbn. rewrite elem_of_cons, <-H2, H1. split; split; intros [Heq|?]; try (by right); left; congruence.
  - rewrite <-H2, H1. split; split; try (intros [[= -> ->]|?]; done); by right.
Qed.

(** One delivery: the state stays in step. *)
Lemma deliver_spec by_kafka past a m k (w : Poller) :
  in_step by_kafka past w -> derive_message_key m = Ok k -> (ac_name a, k) ∉ past ->
  exists ok w', deliver a m w = (Ok ok, w') /\ in_step by_kafka past w'.
Proof.
  intros Hw Hk Hni. pose proof Hw as (Hkf & Hh & _). unfold EmailPoller.deliver. rewrite Hk.
  erewrite bind_run by reflexivity. cbv zeta. rewrite (bind_run get_st _ w w w eq_refl), Hkf.
  set (data := email_data a m). destruct by_kafka.
  - (* Kafka first *)
    destruct (publish_spec a k data w) as (env & ok & E).
    set (w1 := record _ w) in E. rewrite (bind_run _ _ _ _ _ E). destruct ok eqn:Eok.
    + assert (Hw1 : in_step true past (add_seen (ac_name a) k w1)) by by apply (in_step_add true past w (ac_name a) k (trace w1)).
      rewrite (bind_run _ _ w1 tt (add_seen (ac_name a) k w1)) by done.
      destruct (notify_spec (ac_name a) k "email.received" data (add_seen (ac_name a) k w1)) as (ok' & t & E' & Ht & _).
      rewrite (bind_run _ _ _ _ _ E'). eexists true, _. split; [reflexivity|]. by apply (in_step_same true past (add_seen (ac_name a) k w1)).
    + eexists false, w1. split; [reflexivity|]. by apply (in_step_same true past w).
  - destruct (notify_spec (ac_name a) k "email.received" data w) as (ok & t & E & _ & Ht).
    rewrite (bind_run _ _ _ _ _ E). specialize (Ht Hh). destruct ok.
    + eexists true, _. split; [reflexivity|]. by apply in_step_add.
    + eexists false, _. split; [reflexivity|]. by apply (in_step_same false past w).
Qed.

Lemma deliver_all_spec by_kafka past a ms (w : Poller) :
  in_step by_kafka past w -> Forall (fun m => has_key m /\ (ac_name a, key_text m) ∉ past) ms ->
  in_step by_kafka past (deliver_all a ms w).2.
Proof.
  revert w. induction ms as [|m ms IH]; intros w Hw Hall; [done|]. cbn [EmailPoller.deliver_all].
  apply Forall_cons_iff in Hall as [[[k Hk] Hni] Hall]. unfold key_text in Hni. rewrite Hk in Hni.
  destruct (deliver_spec by_kafka past a m k w Hw Hk Hni) as (ok & w' & E & Hw').
  rewrite (bind_run _ _ _ _ _ E). unfold mbind, EM_bind. specialize (IH w' Hw' Hall).
  by destruct (deliver_all a ms w') as [[oks|e] w''].
Qed.

Lemma in_step_account by_kafka past a : preserves (in_step by_kafka past) (poll_account a).
Proof.
  intros w Hw. unfold EmailPoller.poll_account.
  assert (Hc : preserves (in_step by_kafka past) (get_imap_client a)).
  { unfold get_imap_client. preserve. by apply in_step_modify. }
  specialize (Hc w Hw). unfold mbind at 1, EM_bind at 1.
  destruct (get_imap_client a w) as [[c|e] w1]; cbn [snd] in Hc; [|done].
  rewrite (bind_run get_st _ w1 w1 w1 eq_refl). cbv zeta. set (folder := if String.eqb _ _ then _ else _).
  set (since := get_last_timestamp _ _ _).
  pose proof (in_step_fetch by_kafka past (ac_name a) c folder since (polling_max_emails settings) true w1 Hc) as Hf.
  unfold mbind at 1, EM_bind at 1.
  destruct (fetch_emails _ _ _ _ _ _ _ w1) as [[page|e] w2] eqn:Ep; cbn [snd] in Hf; [|done].
  rewrite (bind_run get_st _ w2 w2 w2 eq_refl). unfold mbind at 1, EM_bind at 1, lift.
  destruct (new_emails sha256 (seen_of (ac_name a) w2) (pg_emails page)) as [fresh|e] eqn:En; [|done].
  apply new_emails_spec in En as [-> Hkeys].
  set (ms := delete_rows _ _).
  assert (Hd : in_step by_kafka past (deliver_all a ms w2).2).
  { apply deliver_all_spec; [done|]. apply Forall_forall. intros m [Hm Hs]%filter_In. split.
    - by apply (proj1 (Forall_forall _ _) Hkeys).
    - destruct Hf as (_ & _ & (new & Hn & _) & Hiff). intros Hin.
      apply negb_true_iff in Hs. apply not_true_iff_false in Hs. apply Hs.
      apply existsb_exists. exists (key_text m). split; [|apply String.eqb_refl].
      apply list_elem_of_In. apply (proj1 (proj1 (Hiff _ _))). rewrite Hn. apply elem_of_app. by right. }
  unfold mbind, EM_bind. destruct (deliver_all a ms w2) as [[[]|e] w3]; cbn [snd] in Hd; [|done|done].
  by apply (in_step_modify by_kafka past (save_timestamp (ac_name a) "emails" _)).
Qed.

Lemma in_step_reset by_kafka past name : preserves (in_step by_kafka past) (reset_imap_client name).
Proof. unfold reset_imap_client. by apply in_step_modify. Qed.

Lemma in_step_all by_kafka past : preserves (in_step by_kafka past) poll_all_accounts.
Proof.
  unfold EmailPoller.poll_all_accounts. preserve; [apply in_step_account|apply in_step_reset].
Qed.

Lemma in_step_register by_kafka past l : preserves (in_step by_kafka past) (register_accounts l).
Proof.
  unfold register_accounts, register_account. preserve; (apply in_step_reset || by apply in_step_modify).
Qed.
End facts.

(** ** The properties *)

Lemma for_each_snoc {S A} (f : A -> EM S unit) l x s :
  for_each f (l ++ [x]) s = match for_each f l s with (Ok _, s') => f x s' | (Raise e, s') => (Raise e, s') end.
Proof.
  revert s. induction l as [|y l IH]; intros s; cbn [app for_each]; unfold mbind, EM_bind.
  - cbn. by destruct (f x s) as [[[]|e] s'].
  - destruct (f y s) as [[[]|e] s']; [apply IH|done].
Qed.

(** What happens to a poller: cycles, and registrations of credentials. *)
Inductive happening := Cycle | Register (l : list EmailAccountConfig).

Section properties.
Context {server : Type} {imap : ImapServer server}.

Definition happen settings sha256 parse now_str now_iso kafka_send post (h : happening)
  : EM (World (server := server)) unit :=
  match h with
  | Cycle => poll_all_accounts settings sha256 parse now_str now_iso kafka_send post
  | Register l => register_accounts l
  end.

(** A poller without a past, started: with Kafka or without, for a server. *)
Definition fresh_world (settings : Settings) (by_kafka : bool) (s : server) : World :=
  start settings (MkWorld [] [] [] [] by_kafka false (MkStore [] []) s []).

Definition history settings sha256 parse now_str now_iso kafka_send post by_kafka s hs : World (server := server) :=
  (for_each (happen settings sha256 parse now_str now_iso kafka_send post) hs (fresh_world settings by_kafka s)).2.
End properties.

(** C23: with notifications of the platform enabled, for every account, whatever the mail servers, Kafka and the platform do, whichever polls
    fail and however accounts are registered: a mail that was delivered is never delivered by a
    later cycle, and a mail is remembered as seen, in memory and in the store, exactly when it was
    delivered.  (A mail that stands twice in one page of the server is delivered twice by its
    cycle: [duplicates_in_a_page].) *)
Theorem delivered_once {server} {imap : ImapServer server} settings sha256 parse now_str now_iso kafka_send post
    by_kafka s hs h account key :
  platform_event_notify settings = true ->
  let w := history settings sha256 parse now_str now_iso kafka_send post by_kafka s hs in
  let w' := history settings sha256 parse now_str now_iso kafka_send post by_kafka s (hs ++ [h]) in
  (exists new, deliveries by_kafka (trace w') = (new ++ deliveries by_kafka (trace w))%list
     /\ forall d, d ∈ new -> d ∉ deliveries by_kafka (trace w)) /\
  ((account, key) ∈ deliveries by_kafka (trace w) <-> key ∈ seen_of account w) /\
  ((account, key) ∈ deliveries by_kafka (trace w) <-> is_seen account key (store w) = true).
Proof.
  intros Hn w w'.
  set (step := happen settings sha256 parse now_str now_iso kafka_send post).
  assert (Hstep : forall past hs w0, in_step by_kafka past w0 -> in_step by_kafka past (for_each step hs w0).2).
  { intros past hs0 w0. apply (preserves_for (in_step by_kafka past)). intros x _.
    destruct x; [by apply in_step_all|by apply in_step_register]. }
  assert (Hw : in_step by_kafka [] w).
  { apply Hstep. unfold fresh_world, start, in_step, seen_of. cbn. rewrite Hn. split_and!; try done.
    - exists []. split; [done|]. intros d Hd. by apply elem_of_nil in Hd.
    - intros a k. split; (split; intros Hin; by apply elem_of_nil in Hin). }
  split.
  - apply in_step_now in Hw. unfold w', history in *. fold step in w |- *. rewrite for_each_snoc.
    assert (Hh : in_step by_kafka (deliveries by_kafka (trace w)) (step h w).2).
    { pose proof (Hstep _ [h] _ Hw) as Hh. cbn [for_each] in Hh. unfold mbind, EM_bind in Hh. by destruct (step h w) as [[[]|e] w2]. }
    unfold w in *. destruct (for_each step hs _) as [[[]|e] w0]; cbn [snd] in *; [apply Hh|apply Hw].
  - destruct Hw as (_ & _ & _ & Hiff). destruct (Hiff account key) as [H1 H2]. split; [done|].
    unfold is_seen. by rewrite bool_decide_eq_true, H1, H2.
Qed.

(** *** Concrete worlds *)

(** A mailbox: raw mails with their flag [\Seen].  As RFC 3501 says, fetching a mail by
    [RFC822] sets the flag, and a search for [UNSEEN] finds the mails without it. *)
Abbreviation mailbox := (list (string * bool)).

Fixpoint numbered (i : Z) (box : mailbox) : list (string * (string * bool)) :=
  match box with [] => [] | m :: box' => (str_of_Z i, m) :: numbered (i + 1) box' end.

Definition unseen_ids (box : mailbox) : list string :=
  map fst (List.filter (fun e => negb e.2.2) (numbered 1 box)).

Definition fetch_mail (id : string) (box : mailbox) : res (string * option string) * mailbox :=
  match dget id (numbered 1 box) with
  | Some (raw, _) => (Ok ("OK", Some raw),
      map (fun e => (e.2.1, e.2.2 || String.eqb e.1 id)) (numbered 1 box))
  | None => (Ok ("NO", None), box)
  end.

#[export] Instance mailbox_server : ImapServer mailbox := {
  imap_connect _ := mret tt;
  imap_select _ _ := mret tt;
  imap_search _ _ := gets (fun box => ("OK", unseen_ids box));
  imap_fetch _ id := fetch_mail id
}.

(** Raw mails are their Message-ID here; an empty one has a sender and a date. *)
Definition read_mail (raw : string) : res EmailMessage :=
  Ok (if String.eqb raw "" then Mail "" "Hello" (Some ("Ann", "ann@example.org")) (Some "2026-01-01T00:00:00Z") []
      else Mail raw "Hello" None None []).

Definition an_account : EmailAccountConfig :=
  Account "t1:info" "t1" "info@example.org" "" "secret" "imap.example.org" 993 "smtp.example.org" 587 true "INBOX" None.

Definition a_history := history (server := mailbox) default_settings id read_mail (fun _ => "2026-01-01 10:00:00")
  (fun _ => "2026-01-01T10:00:00Z").

(** A server that always has one mail. *)
#[export] Instance one_mail : ImapServer unit := {
  imap_connect _ := mret tt;
  imap_select _ _ := mret tt;
  imap_search _ _ := mret ("OK", ["1"]);
  imap_fetch _ _ := mret ("OK", Some "m1")
}.

Lemma delivered_once_witness :
  let run hs := history (imap := one_mail) default_settings id read_mail (fun _ => "2026-01-01 10:00:00") (fun _ => "")
                  (fun _ _ _ _ => true) (fun _ _ _ => Ok 200%Z) false tt hs in
  let w := run [Register [an_account]; Cycle] in
  let w' := run ([Register [an_account]; Cycle] ++ [Cycle])%list in
  deliveries false (trace w) = [("t1:info", "m1")] /\
  (exists new, deliveries false (trace w') = (new ++ deliveries false (trace w))%list
     /\ forall d, d ∈ new -> d ∉ deliveries false (trace w)) /\
  (("t1:info", "m1") ∈ deliveries false (trace w) <-> "m1" ∈ seen_of "t1:info" w) /\
  (("t1:info", "m1") ∈ deliveries false (trace w) <-> is_seen "t1:info" "m1" (store w) = true).
Proof.
  split; [vm_compute; reflexivity|].
  apply (delivered_once (imap := one_mail) default_settings id read_mail (fun _ => "2026-01-01 10:00:00") (fun _ => "")
    (fun _ _ _ _ => true) (fun _ _ _ => Ok 200%Z) false tt [Register [an_account]; Cycle] Cycle "t1:info" "m1").
  reflexivity.
Defined.

(** A mail without a Message-ID has no key when it has a sender or a date: the poll fails,
    and the mails fetched with it, flagged as seen by the fetch, are never found again. *)
Example mail_without_id_loses_the_page :
  let w := a_history (fun _ _ _ _ => true) (fun _ _ _ => Ok 200%Z) false [("m1", false); ("", false)]
             [Register [an_account]; Cycle; Cycle; Cycle] in
  deliveries false (trace w) = [] /\ mail_server w = [("m1", true); ("", true)].
Proof. by vm_compute. Qed.

(** A mail the platform refused is flagged as seen on the server, so the next poll does
    not find it: it is not retried. *)
Example refused_mail_is_not_retried :
  let w := a_history (fun _ _ _ _ => true) (fun t _ _ => Ok match t with [] => 503%Z | _ => 200%Z end) false [("m1", false)]
             [Register [an_account]; Cycle; Cycle; Cycle] in
  deliveries false (trace w) = [] /\ List.length (trace w) = 1 /\ seen_of "t1:info" w = [].
Proof. by vm_compute. Qed.

(** Two mails of one key in a page are both delivered. *)
Example duplicates_in_a_page :
  deliveries false (trace (a_history (fun _ _ _ _ => true) (fun _ _ _ => Ok 200%Z) false [("m1", false); ("m1", false)]
    [Register [an_account]; Cycle])) = [("t1:info", "m1"); ("t1:info", "m1")].
Proof. by vm_compute. Qed.
