(* ===== verification/Scrapers.v ===== *)
(** The scrapers of the shop connectors
    ([integrators/ecommerce/*/v1.0.0/src/*/scraper.py]): Allegro, Shopify, WooCommerce,
    IdoSell, Shoper, BaseLinker, Amazon and Apilo.  A scraper asks the shop for what
    changed since a mark, publishes it to Kafka, and moves the mark.

    The world keeps the marks (in memory and in the store of the connector, which agree)
    and a trace, newest entry first; the shop (the connector's client), Kafka and the clock
    are functions of the trace.  What the mappers and the pydantic models make of an item
    is a parameter: they may raise. *)

From S2P Require Import Prelude PyText PyValue Effects.

Local Open Scope string_scope.

(** ** The world *)

Inductive connector := Allegro | Shopify | WooCommerce | IdoSell | Shoper | BaseLinker | Amazon | Apilo.

#[export] Instance connector_dec : EqDecision connector.
Proof. solve_decision. Defined.

Inductive entry :=
  | Began (c : connector) (account : string)
  | Asked (account operation : string) (params : dict) (answer : res pyval)
  | Published (topic : string) (value : pyval) (key : string) (ok : bool)
  | Marked (c : connector) (account entity value : string).

(** [marks] by account and entity; [scrape_times] is Shopify's [_last_scrape_times], which
    is not stored, and [statuses] BaseLinker's [_status_cache]. *)
Record World := MkWorld {
  marks : list ((string * string) * string);
  scrape_times : list (string * Z);
  statuses : list (string * list (pyval * pyval));
  kafka : bool;
  trace : list entry
}.

Definition log (e : entry) (w : World) : World :=
  MkWorld (marks w) (scrape_times w) (statuses w) (kafka w) (e :: trace w).

Fixpoint find_mark (k : string * string) (l : list ((string * string) * string)) : option string :=
  match l with
  | [] => None
  | (k', v) :: l' => if bool_decide (k = k') then Some v else find_mark k l'
  end.
(** [_get_last_timestamp]. *)
Definition last_mark (account entity : string) (w : World) : option string := find_mark (account, entity) (marks w).

(** [_save_timestamp]: in memory and in the store. *)
Definition set_mark (c : connector) (account entity value : string) (w : World) : World :=
  MkWorld (((account, entity), value) :: List.filter (fun kv => negb (bool_decide (kv.1 = (account, entity)))) (marks w))
    (scrape_times w) (statuses w) (kafka w) (Marked c account entity value :: trace w).
Definition save_mark (c : connector) (account entity value : string) : EM World unit :=
  modify (set_mark c account entity value).

(** An order or a product in the shared schema: its [external_id] and its dump. *)
Record item := Item { it_external_id : string; it_dump : pyval }.

(** An event of Allegro: [ev_checkout] has the id of the checkout form, its value, and the
    offers of its lines. *)
Record checkout_form := Checkout { ck_id : string; ck_value : pyval; ck_offers : list (string * string) }.
Record order_event := OrderEvent { ev_id : string; ev_type : string; ev_checkout : option checkout_form }.

(** What the models and mappers of the connectors do. *)
Record Mappers := MkMappers {
  allegro_events : pyval -> res (list order_event);
  map_checkout : checkout_form -> string -> list (string * pyval) -> res item;
  shopify_orders : pyval -> res (list (string * pyval));
  map_shopify : pyval -> string -> res item;
  woo_order : pyval -> res (option Z * pyval);
  map_woo : pyval -> string -> res item;
  iso_time : Z -> string;
  map_idosell_order : pyval -> string -> res item;
  map_idosell_product : pyval -> res item;
  map_shoper_order : pyval -> list pyval -> string -> res item;
  map_shoper_product : pyval -> res item;
  map_baselinker : pyval -> string -> list (pyval * pyval) -> res item;
  map_amazon : pyval -> pyval -> string -> res item;
  map_apilo : pyval -> string -> res item
}.

Record Settings := MkSettings {
  kafka_topic_orders_out : string;
  kafka_topic_products_out : string;
  kafka_topic_users_out : string;
  scraping_interval_seconds : Z;
  default_per_page : Z;
  results_limit : Z;
  scrape_orders : bool;
  scrape_products : bool;
  scrape_users : bool
}.

(** The pages a scrape of IdoSell may ask for: the code has no bound. *)
Definition out_of_fuel : pyexn := OtherError "out of fuel".

Section scrapers.
Variable settings : Settings.
Variable mappers : Mappers.
(** The shop; Kafka; the time, and its text after an offset in seconds, in the format the
    connector uses. *)
Variable shop : list entry -> string -> string -> dict -> res pyval.
Variable broker : list entry -> string -> pyval -> string -> bool.
Variable now : list entry -> Z.
Variable time_text : list entry -> Z -> string.

Definition ask (account operation : string) (params : dict) : EM World pyval :=
  w ← get_st;
  let answer := shop (trace w) account operation params in
  _ ← modify (log (Asked account operation params answer));
  lift answer.

(** [await self._kafka.send(...)], which raises when the broker does not take the message;
    without Kafka nothing is sent. *)
Definition publish (topic : string) (value : pyval) (key : string) : EM World unit :=
  w ← get_st;
  if kafka w then
    let ok := broker (trace w) topic value key in
    _ ← modify (log (Published topic value key ok));
    if ok then mret tt else raise (OtherError "KafkaError")
  else mret tt.

(** [wrap_event]. *)
Definition envelope (connector_name event account : string) (data : pyval) : EM World pyval :=
  w ← get_st;
  mret (PDict [("connector_name", PStr connector_name); ("event", PStr event);
    ("timestamp", PStr (time_text (trace w) 0)); ("account_name", PStr account); ("data", data)]).

Definition publish_event (connector_name event topic account : string) (i : item) : EM World unit :=
  w ← get_st;
  if kafka w then e ← envelope connector_name event account (it_dump i); publish topic e (it_external_id i)
  else mret tt.

(** [resp.get(k, [])], iterated. *)
Definition items_of (k : string) (answer : pyval) : res (list pyval) :=
  d ← dict_method "get" answer; as_iter (dget_or k (PList []) d).

Definition orders_topic : string := kafka_topic_orders_out settings.

(** ** Allegro *)

Definition PROCESSABLE_EVENT_TYPES : list string :=
  ["READY_FOR_PROCESSING"; "BUYER_CANCELLED"; "AUTO_CANCELLED"; "BUYER_MODIFIED"].

Definition ALLEGRO_EVENT_TYPE_MAP : list (string * string) :=
  [("READY_FOR_PROCESSING", "order.ready_for_processing"); ("BUYER_CANCELLED", "order.buyer_cancelled");
   ("AUTO_CANCELLED", "order.auto_cancelled"); ("BUYER_MODIFIED", "order.buyer_modified");
   ("BOUGHT", "order.bought"); ("FILLED_IN", "order.filled_in");
   ("FULFILLMENT_STATUS_CHANGED", "order.status_changed")].

(** [_deduplicate_events]: a dict by checkout form, whose values are replaced in place. *)
Definition deduplicate_events (events : list order_event) : list order_event :=
  map snd (fold_left (fun seen e => match ev_checkout e with
                                    | Some ck => if String.eqb (ck_id ck) "" then seen else dset (ck_id ck) e seen
                                    | None => seen
                                    end) events []).

(** [_fetch_product_details], for one line. *)
Definition plain_details (offer_id name : string) : pyval :=
  PDict [("ean", PStr ""); ("sku", PStr offer_id); ("name", PStr name); ("product_id", PStr "")].

(** [extract_ean_from_parameters] of [mapper.py]. *)
Definition EAN_PARAMETER_ID : string := "225693".

(** [values[0]] when there are values. *)
Definition first_of (k : string) (param : dict) : res (option pyval) :=
  let values := dget_or k (PList []) param in
  if truthy values then
    match values with
    | PList (v :: _) => Ok (Some v)
    | PStr (String c _) => Ok (Some (PStr (str1 c)))
    | PDict _ => Raise (KeyError "0")
    | v => Raise (TypeError ("'" ++ type_name v ++ "' object is not subscriptable"))
    end
  else Ok None.

Fixpoint extract_ean_from_parameters (parameters : list pyval) : res pyval :=
  match parameters with
  | [] => Ok (PStr "")
  | p :: ps =>
      param ← dict_method "get" p;
      if py_eqb (dget_or "id" PNone param) (PStr EAN_PARAMETER_ID) then
        v ← first_of "values" param;
        match v with
        | Some e => Ok e
        | None => l ← first_of "valuesLabels" param;
                  match l with Some e => Ok e | None => extract_ean_from_parameters ps end
        end
      else extract_ean_from_parameters ps
  end.

Definition ean_in (v : pyval) : res pyval :=
  d ← dict_method "get" v;
  parameters ← as_iter (dget_or "parameters" (PList []) d);
  extract_ean_from_parameters parameters.

(** The product's id and the EAN, which a failure to fetch the product leaves as it is. *)
Definition product_ean (account : string) (ean : pyval) (offer : dict) : EM World (pyval * pyval) :=
  let product := dget_or "product" PNone offer in
  if truthy product then
    d ← lift (dict_method "get" product);
    let product_id := dget_or "id" PNone d in
    if truthy product_id then
      ean' ← try_catch
               (data ← ask account "getProduct" [("id", product_id)];
                if truthy ean then mret ean else lift (ean_in data))
               (fun _ => mret ean);
      mret (product_id, ean')
    else mret (PStr "", ean)
  else mret (PStr "", ean).

Definition offer_sku (offer_id : string) (offer : dict) : res pyval :=
  let external := dget_or "external" PNone offer in
  if truthy external then d ← dict_method "get" external; Ok (dget_or "id" (PStr offer_id) d)
  else Ok (PStr offer_id).

Definition offer_details (account : string) (offer_id : string) (name : string) : EM World pyval :=
  try_catch
    (data ← ask account "getOffer" [("id", PStr offer_id)];
     offer ← lift (dict_method "get" data);
     ean ← lift (ean_in data);
     found ← product_ean account ean offer;
     sku ← lift (offer_sku offer_id offer);
     mret (PDict [("ean", found.2); ("sku", sku); ("name", dget_or "name" (PStr "") offer); ("product_id", found.1)]))
    (fun _ => mret (plain_details offer_id name)).

Fixpoint fetch_product_details (account : string) (offers : list (string * string)) (acc : list (string * pyval))
  : EM World (list (string * pyval)) :=
  match offers with
  | [] => mret acc
  | (offer_id, name) :: offers' =>
      d ← offer_details account offer_id name; fetch_product_details account offers' (dset offer_id d acc)
  end.

(** [_process_event]. *)
Definition process_event (account : string) (e : order_event) : EM World unit :=
  match ev_checkout e with
  | None => mret tt
  | Some ck =>
      details ← fetch_product_details account (ck_offers ck) [];
      order ← lift (map_checkout mappers ck account details);
      let name := default ("order." ++ py_lower (ev_type e)) (dget (ev_type e) ALLEGRO_EVENT_TYPE_MAP) in
      publish_event "allegro" name orders_topic account order
  end.

Definition processable (events : list order_event) : list order_event :=
  List.filter (fun e => existsb (String.eqb (ev_type e)) PROCESSABLE_EVENT_TYPES) events.

(** [_scrape_account]; [get_order_events] sends no [from] for an empty id. *)
Definition scrape_allegro (account : string) : EM World unit :=
  w ← get_st;
  let from := default "" (last_mark account "last_event_id" w) in
  raw ← ask account "getOrderEvents" (if String.eqb from "" then [] else [("from", PStr from)]);
  events ← lift (allegro_events mappers raw);
  match events with
  | [] => mret tt
  | e :: _ =>
      _ ← for_each (process_event account) (deduplicate_events (processable events));
      save_mark Allegro account "last_event_id" (ev_id (List.last events e))
  end.

(** ** Shopify *)

(** The loop over a page of orders; [seen] grows. *)
Fixpoint publish_unseen (account : string) (orders : list (string * pyval)) (seen : list string)
  : EM World (list string) :=
  match orders with
  | [] => mret seen
  | (order_id, o) :: orders' =>
      if existsb (String.eqb order_id) seen then publish_unseen account orders' seen
      else
        order ← lift (map_shopify mappers o account);
        _ ← publish_event "shopify" "order.created" orders_topic account order;
        publish_unseen account orders' (order_id :: seen)
  end.

(** [_fetch_new_orders] and [_fetch_updated_orders]. *)
Definition fetch_new_orders (account : string) (since_id : option string) (seen : list string) : EM World (list string) :=
  raw ← ask account "getOrders" ([("status", PStr "any"); ("limit", PInt 250)]
          ++ match since_id with Some i => [("since_id", PStr i)] | None => [] end)%list;
  orders ← lift (shopify_orders mappers raw);
  match orders with
  | [] => mret seen
  | o :: _ =>
      seen' ← publish_unseen account orders seen;
      _ ← save_mark Shopify account "last_order_id" (List.last orders o).1;
      mret seen'
  end.

Definition fetch_updated_orders (account updated_since : string) (seen : list string) : EM World (list string) :=
  raw ← ask account "getOrders" [("status", PStr "any"); ("limit", PInt 250); ("updated_at_min", PStr updated_since)];
  orders ← lift (shopify_orders mappers raw);
  publish_unseen account orders seen.

Definition set_scrape_time (account : string) (t : Z) (w : World) : World :=
  MkWorld (marks w) (dset account t (scrape_times w)) (statuses w) (kafka w) (trace w).

(** [_scrape_account]. *)
Definition scrape_shopify (account : string) : EM World unit :=
  w ← get_st;
  let since_id := match last_mark account "last_order_id" w with
                  | Some i => if String.eqb i "" then None else Some i | None => None end in
  let last_scrape := dget account (scrape_times w) in
  seen ← match since_id with Some i => fetch_new_orders account (Some i) [] | None => mret [] end;
  seen ← match last_scrape with
         | Some t => fetch_updated_orders account
                       (iso_time mappers (t - (scraping_interval_seconds settings + 60))) seen
         | None => mret seen
         end;
  _ ← match since_id, last_scrape with
      | None, None => fetch_new_orders account None seen
      | _, _ => mret seen
      end;
  w ← get_st;
  modify (set_scrape_time account (now (trace w))).

(** ** WooCommerce *)

(** The loop over the orders: the newest [date_modified]. *)
Fixpoint publish_woo (account : string) (orders : list pyval) (newest : option Z) : EM World (option Z) :=
  match orders with
  | [] => mret newest
  | raw :: orders' =>
      parsed ← lift (woo_order mappers raw);
      let (modified, o) := (parsed : option Z * pyval) in
      order ← lift (map_woo mappers o account);
      let newest' := match modified, newest with
                     | Some m, None => Some m
                     | Some m, Some n => if (n <? m)%Z then Some m else Some n
                     | None, n => n
                     end in
      _ ← publish orders_topic (it_dump order) (it_external_id order);
      publish_woo account orders' newest'
  end.

Definition scrape_woocommerce (account : string) : EM World unit :=
  w ← get_st;
  let last := default "" (last_mark account "orders" w) in
  let modified_after := if String.eqb last "" then time_text (trace w) (-86400) else last in
  raw ← ask account "listOrders" [("per_page", PInt (default_per_page settings)); ("page", PInt 1);
          ("modified_after", PStr modified_after)];
  orders ← lift (as_iter raw);
  newest ← publish_woo account orders None;
  match newest with
  | Some t => save_mark WooCommerce account "orders" (iso_time mappers t)
  | None => mret tt
  end.

(** ** IdoSell *)

(** The loop over the pages of a search, with the publication of one item. *)
Fixpoint scrape_pages (fuel : nat) (account operation : string) (params : dict) (each : pyval -> EM World unit)
    (page : Z) : EM World unit :=
  match fuel with
  | O => raise out_of_fuel
  | S fuel' =>
      data ← ask account operation (params ++ [("page", PInt page); ("limit", PInt (results_limit settings))])%list;
      d ← lift (dict_method "get" data);
      results ← lift (as_iter (dget_or "results" (PList []) d));
      if bool_decide (results = []) then mret tt
      else
        _ ← for_each each results;
        last ← lift (py_order OpGe (PInt (page + 1)) (dget_or "resultsNumberPage" (PInt 1) d));
        if (last : bool) then mret tt else scrape_pages fuel' account operation params each (page + 1)
  end.

Definition optional_param (k : string) (v : option string) : dict :=
  [(k, match v with Some s => PStr s | None => PNone end)].

Definition idosell_order (account : string) (v : pyval) : EM World unit :=
  order ← lift (map_idosell_order mappers v account);
  publish orders_topic (it_dump order) (it_external_id order).
Definition idosell_product (v : pyval) : EM World unit :=
  product ← lift (map_idosell_product mappers v);
  publish (kafka_topic_products_out settings) (it_dump product) (it_external_id product).

Definition scrape_idosell_orders (fuel : nat) (account now_str : string) : EM World unit :=
  w ← get_st;
  _ ← scrape_pages fuel account "searchOrders"
        (optional_param "date_begin" (last_mark account "orders" w)
         ++ [("date_end", PStr now_str); ("date_type", PStr "modified")])%list (idosell_order account) 0;
  save_mark IdoSell account "orders" now_str.

Definition scrape_idosell_products (fuel : nat) (account now_str : string) : EM World unit :=
  w ← get_st;
  _ ← scrape_pages fuel account "searchProducts" (optional_param "modified_after" (last_mark account "products" w))
        idosell_product 0;
  save_mark IdoSell account "products" now_str.

Definition scrape_idosell (fuel : nat) (account : string) : EM World unit :=
  w ← get_st;
  let now_str := time_text (trace w) 0 in
  _ ← (if scrape_orders settings then scrape_idosell_orders fuel account now_str else mret tt);
  if scrape_products settings then scrape_idosell_products fuel account now_str else mret tt.

(** ** Shoper *)

(** [{">=": last, "<": now_str}] on a field, when there is a last time. *)
Definition since (field : string) (last : option string) (now_str : string) : dict :=
  match last with
  | Some l => if String.eqb l "" then [] else [(field, PDict [(">=", PStr l); ("<", PStr now_str)])]
  | None => []
  end.

Definition shoper_id (k : string) (v : pyval) : res string :=
  d ← dict_method "get" v; Ok (py_str (dget_or k PNone d)).

Definition products_of (oid : string) (products : list pyval) : res (list pyval) :=
  foldR (fun acc p => k ← shoper_id "order_id" p; Ok (if String.eqb k oid then acc ++ [p] else acc)%list) [] products.

Definition shoper_order (account : string) (products : list pyval) (o : pyval) : EM World unit :=
  oid ← lift (shoper_id "order_id" o);
  mine ← lift (products_of oid products);
  order ← lift (map_shoper_order mappers o mine account);
  publish orders_topic (it_dump order) (it_external_id order).

Definition scrape_shoper_orders (account now_str : string) : EM World unit :=
  w ← get_st;
  raw ← ask account "orders" [("filters", PDict (since "status_date" (last_mark account "orders" w) now_str))];
  orders ← lift (as_iter raw);
  if bool_decide (orders = []) then save_mark Shoper account "orders" now_str
  else
    ids ← lift (mapR (shoper_id "order_id") orders);
    raw ← ask account "order-products" [("filters", PDict [("order_id", PDict [("IN", PList (map PStr ids))])])];
    products ← lift (as_iter raw);
    _ ← for_each (shoper_order account products) orders;
    save_mark Shoper account "orders" now_str.

Definition shoper_product (p : pyval) : EM World unit :=
  product ← lift (map_shoper_product mappers p);
  publish (kafka_topic_products_out settings) (it_dump product) (it_external_id product).

Definition scrape_shoper_products (account now_str : string) : EM World unit :=
  w ← get_st;
  raw ← ask account "products" [("filters", PDict (since "add_date" (last_mark account "products" w) now_str))];
  products ← lift (as_iter raw);
  _ ← for_each shoper_product products;
  save_mark Shoper account "products" now_str.

Definition shoper_user (u : pyval) : EM World unit :=
  w ← get_st;
  if kafka w then
    d ← lift (dict_method "get" u);
    publish (kafka_topic_users_out settings) u (py_str (dget_or "user_id" (PStr "") d))
  else mret tt.

Definition scrape_shoper_users (account now_str : string) : EM World unit :=
  w ← get_st;
  raw ← ask account "users" [("filters", PDict (("active", PDict [("=", PStr "1")])
          :: since "date_add" (last_mark account "users" w) now_str))];
  users ← lift (as_iter raw);
  _ ← for_each shoper_user users;
  save_mark Shoper account "users" now_str.

Definition scrape_shoper (account : string) : EM World unit :=
  w ← get_st;
  let now_str := time_text (trace w) 0 in
  _ ← (if scrape_orders settings then scrape_shoper_orders account now_str else mret tt);
  _ ← (if scrape_products settings then scrape_shoper_products account now_str else mret tt);
  if scrape_users settings then scrape_shoper_users account now_str else mret tt.

(** ** BaseLinker *)

Definition set_statuses (account : string) (defs : list (pyval * pyval)) (w : World) : World :=
  MkWorld (marks w) (scrape_times w) (dset account defs (statuses w)) (kafka w) (trace w).

(** [{s["id"]: s["name"] for s in statuses}]. *)
Definition status_def (s : pyval) : res (pyval * pyval) :=
  match s with
  | PDict d => match dget "id" d, dget "name" d with
               | Some i, Some n => Ok (i, n)
               | None, _ => Raise (KeyError "id")
               | _, None => Raise (KeyError "name")
               end
  | v => Raise (TypeError ("'" ++ type_name v ++ "' object is not subscriptable"))
  end.

(** [_get_status_defs]. *)
Definition get_status_defs (account : string) : EM World (list (pyval * pyval)) :=
  w ← get_st;
  match dget account (statuses w) with
  | Some defs => mret defs
  | None =>
      resp ← ask account "getOrderStatusList" [];
      l ← lift (items_of "statuses" resp);
      defs ← lift (mapR status_def l);
      _ ← modify (set_statuses account defs);
      mret defs
  end.

(** The orders the journal names, and the newest log. *)
Definition journal_step (acc : list pyval * pyval) (entry : pyval) : res (list pyval * pyval) :=
  d ← dict_method "get" entry;
  let log_id := dget_or "log_id" (PInt 0) d in
  let object_id := dget_or "object_id" (dget_or "order_id" (PInt 0) d) d in
  newer ← py_order OpGt log_id acc.2;
  Ok (if truthy object_id then (acc.1 ++ [object_id])%list else acc.1, if (newer : bool) then log_id else acc.2).

Definition journal_orders (last_log_id : Z) (logs : list pyval) : res (list pyval * pyval) :=
  foldR journal_step ([], PInt last_log_id) logs.

Definition baselinker_order (account : string) (order_ids : list pyval) (defs : list (pyval * pyval)) (od : pyval)
  : EM World unit :=
  d ← lift (dict_method "get" od);
  named ← lift (py_in (dget_or "order_id" PNone d) (PList order_ids));
  if (named : bool) then
    order ← lift (map_baselinker mappers od account defs);
    publish_event "baselinker" "order.created" orders_topic account order
  else mret tt.

(** [_scrape_orders]. *)
Definition scrape_baselinker (account : string) : EM World unit :=
  if negb (scrape_orders settings) then mret tt else
  w ← get_st;
  last_log_id ← lift (match last_mark account "journal_log_id" w with
                      | Some s => if String.eqb s "" then Ok 0%Z else py_int (PStr s)
                      | None => Ok 0%Z
                      end);
  journal ← try_catch (j ← ask account "getJournalList" [("last_log_id", PInt last_log_id)]; mret (Some j))
              (fun _ => mret None);
  match journal with
  | None => mret tt
  | Some j =>
      logs ← lift (items_of "logs" j);
      if bool_decide (logs = []) then mret tt
      else
        found ← lift (journal_orders last_log_id logs);
        if bool_decide (found.1 = []) then save_mark BaseLinker account "journal_log_id" (py_str found.2)
        else
          defs ← get_status_defs account;
          resp ← ask account "getOrders" [("get_unconfirmed_orders", PBool false)];
          orders ← lift (items_of "orders" resp);
          _ ← for_each (baselinker_order account found.1 defs) orders;
          save_mark BaseLinker account "journal_log_id" (py_str found.2)
  end.

(** ** Amazon *)

(** [max] by the order of Python's texts, as the loops compute it. *)
Definition later (field : string) (v : pyval) (latest : string) : res string :=
  d ← dict_method "get" v;
  let t := dget_or field (PStr "") d in
  newer ← py_order OpGt t (PStr latest);
  Ok (if (newer : bool) then py_str t else latest).

Definition amazon_items (account : string) (order_id : pyval) : EM World pyval :=
  try_catch
    (resp ← ask account "getOrderItems" [("order_id", order_id)];
     d ← lift (dict_method "get" resp);
     mret (dget_or "OrderItems" (PList []) d))
    (fun _ => mret (PList [])).

Fixpoint publish_amazon (account : string) (orders : list pyval) (latest : string) : EM World string :=
  match orders with
  | [] => mret latest
  | o :: orders' =>
      d ← lift (dict_method "get" o);
      order_items ← amazon_items account (dget_or "AmazonOrderId" (PStr "") d);
      order ← lift (map_amazon mappers o order_items account);
      _ ← publish orders_topic (it_dump order) (it_external_id order);
      latest' ← lift (later "LastUpdateDate" o latest);
      publish_amazon account orders' latest'
  end.

Definition updated_since (account : string) (w : World) : string :=
  let last := default "" (last_mark account "orders_last_updated" w) in
  if String.eqb last "" then time_text (trace w) (-86400) else last.

Definition scrape_amazon (account : string) : EM World unit :=
  if negb (scrape_orders settings) then mret tt else
  w ← get_st;
  let last_updated := updated_since account w in
  resp ← try_catch (r ← ask account "getOrders" [("MaxResultsPerPage", PInt 100); ("LastUpdatedAfter", PStr last_updated)];
                    mret (Some r))
           (fun _ => mret None);
  match resp with
  | None => mret tt
  | Some r =>
      orders ← lift (items_of "Orders" r);
      if bool_decide (orders = []) then mret tt
      else latest ← publish_amazon account orders last_updated;
           save_mark Amazon account "orders_last_updated" latest
  end.

(** ** Apilo *)

Fixpoint publish_apilo (account : string) (orders : list pyval) (latest : string) : EM World string :=
  match orders with
  | [] => mret latest
  | o :: orders' =>
      order ← lift (map_apilo mappers o account);
      _ ← publish orders_topic (it_dump order) (it_external_id order);
      latest' ← lift (later "updatedAt" o latest);
      publish_apilo account orders' latest'
  end.

Definition scrape_apilo (account : string) : EM World unit :=
  if negb (scrape_orders settings) then mret tt else
  w ← get_st;
  let last_updated := updated_since account w in
  resp ← try_catch (r ← ask account "getOrders" [("limit", PInt 200); ("offset", PInt 0);
                          ("updatedAfter", PStr last_updated); ("sort", PStr "updatedAtAsc")];
                    mret (Some r))
           (fun _ => mret None);
  match resp with
  | None => mret tt
  | Some r =>
      orders ← lift (items_of "orders" r);
      if bool_decide (orders = []) then mret tt
      else latest ← publish_apilo account orders last_updated;
           save_mark Apilo account "orders_last_updated" latest
  end.

(** ** Cycles *)

(** [_scrape_account] of each connector, and the loop of [_scrape_all_accounts]. *)
Definition scrape_account (fuel : nat) (c : connector) (account : string) : EM World unit :=
  match c with
  | Allegro => scrape_allegro account
  | Shopify => scrape_shopify account
  | WooCommerce => scrape_woocommerce account
  | IdoSell => scrape_idosell fuel account
  | Shoper => scrape_shoper account
  | BaseLinker => scrape_baselinker account
  | Amazon => scrape_amazon account
  | Apilo => scrape_apilo account
  end.

Definition begin_account (c : connector) (account : string) : EM World unit := modify (log (Began c account)).

Definition scrape_all_accounts (fuel : nat) (c : connector) (accounts : list string) : EM World unit :=
  for_each (fun a => _ ← begin_account c a; try_catch (scrape_account fuel c a) (fun _ => mret tt)) accounts.
End scrapers.

(** ** What a mark promises

    An obligation is a topic and the items that fulfil it; it is met by a message Kafka
    took, with the key of such an item. *)

Definition obligation : Type := string * (item -> Prop).

Fixpoint recent (t : list entry) : list entry :=
  match t with
  | [] => []
  | Began _ _ :: _ => []
  | e :: t' => e :: recent t'
  end.

Definition met (t : list entry) (o : obligation) : Prop :=
  exists i v, o.2 i /\ Published o.1 v (it_external_id i) true ∈ t.

Section promises.
Context (settings : Settings) (mappers : Mappers) (c : connector).

Definition orders_as (account : string) (map_item : pyval -> item -> Prop) (answer : res (list pyval)) : list obligation :=
  match answer with
  | Ok l => map (fun v => (kafka_topic_orders_out settings, map_item v)) l
  | Raise _ => []
  end.
Definition products_as (map_item : pyval -> item -> Prop) (answer : res (list pyval)) : list obligation :=
  match answer with
  | Ok l => map (fun v => (kafka_topic_products_out settings, map_item v)) l
  | Raise _ => []
  end.

(** The order of Shopify of an id, in one of its answers. *)
Definition shopify_order (account order_id : string) (i : item) : Prop :=
  exists raw orders o, shopify_orders mappers raw = Ok orders /\ (order_id, o) ∈ orders /\
    map_shopify mappers o account = Ok i.

Definition allegro_order (account : string) (e : order_event) (i : item) : Prop :=
  exists ck details, ev_checkout e = Some ck /\ map_checkout mappers ck account details = Ok i.

(** The message of a user of Shoper. *)
Definition user_message (u : pyval) (i : item) : Prop :=
  exists d, u = PDict d /\ it_external_id i = py_str (dget_or "user_id" (PStr "") d).

(** What an answer obliges a scraper to publish before it moves a mark. *)
Definition wanted (account operation : string) (answer : pyval) : list obligation :=
  match c, operation with
  | Allegro, "getOrderEvents" =>
      match allegro_events mappers answer with
      | Ok events => map (fun e => (kafka_topic_orders_out settings, allegro_order account e))
                       (deduplicate_events (processable events))
      | Raise _ => []
      end
  | Shopify, "getOrders" =>
      match shopify_orders mappers answer with
      | Ok orders => map (fun o : string * pyval => (kafka_topic_orders_out settings, shopify_order account o.1)) orders
      | Raise _ => []
      end
  | WooCommerce, "listOrders" =>
      orders_as account (fun raw i => exists m o, woo_order mappers raw = Ok (m, o) /\ map_woo mappers o account = Ok i)
        (as_iter answer)
  | IdoSell, "searchOrders" =>
      orders_as account (fun v i => map_idosell_order mappers v account = Ok i) (items_of "results" answer)
  | IdoSell, "searchProducts" =>
      products_as (fun v i => map_idosell_product mappers v = Ok i) (items_of "results" answer)
  | Shoper, "orders" =>
      orders_as account (fun v i => exists products, map_shoper_order mappers v products account = Ok i) (as_iter answer)
  | Shoper, "products" => products_as (fun v i => map_shoper_product mappers v = Ok i) (as_iter answer)
  | Shoper, "users" =>
      match as_iter answer with
      | Ok l => map (fun u => (kafka_topic_users_out settings, user_message u)) l
      | Raise _ => []
      end
  | Amazon, "getOrders" =>
      orders_as account (fun v i => exists items, map_amazon mappers v items account = Ok i) (items_of "Orders" answer)
  | Apilo, "getOrders" =>
      orders_as account (fun v i => map_apilo mappers v account = Ok i) (items_of "orders" answer)
  | BaseLinker, "getJournalList" =>
      match (logs ← items_of "logs" answer; journal_orders 0 logs) with
      | Ok (ids, _) => map (fun oid => (kafka_topic_orders_out settings, fun i => it_external_id i = py_str oid)) ids
      | Raise _ => []
      end
  | _, _ => []
  end.

(** Everything the answers of this scrape oblige to is published, up to what is [owed]. *)
Definition settled (owed : list obligation) (t : list entry) : Prop :=
  forall a op ps answer o, Asked a op ps (Ok answer) ∈ recent t -> o ∈ wanted a op answer ->
    met (recent t) o \/ o ∈ owed.

(** Whenever a mark was moved, everything was published. *)
Fixpoint kept (t : list entry) : Prop :=
  match t with
  | [] => True
  | Marked _ _ _ _ :: t' => settled [] t' /\ kept t'
  | _ :: t' => kept t'
  end.

(** ** Triples

    [triple O m O']: with [O] owed at the start, [m] keeps the promises; [O'] is owed when
    it returns.  An exception moves no mark. *)

Definition owing (owed : list obligation) (w : World) : Prop :=
  kafka w = true /\ kept (trace w) /\ settled owed (trace w).
Definition fine (w : World) : Prop := kafka w = true /\ kept (trace w).

Definition triple {A} (owed : list obligation) (m : EM World A) (owed' : A -> list obligation) : Prop :=
  forall w, owing owed w -> match m w with
                            | (Ok a, w') => owing (owed' a) w'
                            | (Raise _, w') => fine w'
                            end.

Lemma owing_fine owed w : owing owed w -> fine w.
Proof. by intros (? & ? & _). Qed.

Lemma met_mono e t o : met t o -> met (e :: t) o.
Proof. intros (i & v & Hi & Hp). exists i, v. split; [done|by right]. Qed.

Lemma settled_weaken owed owed' t : (forall o, o ∈ owed -> o ∈ owed') -> settled owed t -> settled owed' t.
Proof. intros Hs Ht a op ps answer o Ha Ho. destruct (Ht a op ps answer o Ha Ho); [by left|right; by apply Hs]. Qed.

Lemma owing_weaken owed owed' w : (forall o, o ∈ owed -> o ∈ owed') -> owing owed w -> owing owed' w.
Proof. intros Hs (? & ? & ?). repeat split; [done|done|by eapply settled_weaken]. Qed.

Lemma triple_ret {A} owed (a : A) owed' : (forall o, o ∈ owed -> o ∈ owed' a) -> triple owed (mret a) owed'.
Proof. intros Hs w Hw. by apply (owing_weaken owed). Qed.

Lemma triple_lift {A} owed (m : res A) : triple owed (lift m) (fun _ => owed).
Proof. intros w Hw. unfold lift. destruct m; [done|by eapply owing_fine]. Qed.

Lemma triple_bind {A B} owed owed' owed'' (m : EM World A) (k : A -> EM World B) :
  triple owed m owed' -> (forall a, triple (owed' a) (k a) owed'') -> triple owed (m ≫= k) owed''.
Proof.
  intros Hm Hk w Hw. specialize (Hm w Hw). unfold mbind, EM_bind. destruct (m w) as [[a|e] w']; [|done].
  by apply Hk.
Qed.

(** Steps whose result matters to what follows. *)
Lemma triple_lift_bind {A B} owed (m : res A) (k : A -> EM World B) owed' :
  (forall a, m = Ok a -> triple owed (k a) owed') -> triple owed (lift m ≫= k) owed'.
Proof.
  intros Hk w Hw. unfold mbind, EM_bind, lift. destruct m as [a|e]; [by apply Hk|by eapply owing_fine].
Qed.

Lemma triple_get {B} owed (k : World -> EM World B) owed' :
  (forall w, triple owed (k w) owed') -> triple owed (get_st ≫= k) owed'.
Proof. intros Hk w Hw. by apply Hk. Qed.

(** Operations that neither ask nor move marks. *)
Lemma triple_preserves {A} owed (m : EM World A) : preserves (owing owed) m -> triple owed m (fun _ => owed).
Proof.
  intros Hm w Hw. specialize (Hm w Hw). destruct (m w) as [[a|e] w']; [done|by eapply owing_fine].
Qed.

Lemma owing_log owed e w :
  match e with Published _ _ _ _ => True | Asked a op _ (Ok answer) => wanted a op answer = [] | Asked _ _ _ _ => True
  | _ => False end ->
  owing owed w -> owing owed (log e w).
Proof.
  intros He (Hk & Ht & Hs). split; [done|]. split; [by destruct e|].
  intros a op ps answer o Ha Ho. destruct e as [| a' op' ps' answer' | |]; [done| | |done].
  - cbn in Ha. apply elem_of_cons in Ha as [Heq|Ha].
    + injection Heq as <- <- <- <-. rewrite He in Ho. by apply elem_of_nil in Ho.
    + destruct (Hs a op ps answer o Ha Ho); [left; by apply met_mono|by right].
  - cbn in Ha. apply elem_of_cons in Ha as [Heq|Ha]; [done|].
    destruct (Hs a op ps answer o Ha Ho); [left; by apply met_mono|by right].
Qed.
End promises.

Section rules.
Context (settings : Settings) (mappers : Mappers).
Context (shop : list entry -> string -> string -> dict -> res pyval).
Context (broker : list entry -> string -> pyval -> string -> bool).
Context (now : list entry -> Z) (time_text : list entry -> Z -> string).
Context (c : connector).

Abbreviation triple := (triple settings mappers c).
Abbreviation owing := (owing settings mappers c).
Abbreviation wanted := (wanted settings mappers c).
Abbreviation ask := (ask shop).
Abbreviation publish := (publish broker).
Abbreviation publish_event := (publish_event broker time_text).

Lemma triple_ask {B} owed account op ps (k : pyval -> EM World B) owed' :
  (forall answer, triple (wanted account op answer ++ owed)%list (k answer) owed') ->
  triple owed (ask account op ps ≫= k) owed'.
Proof.
  intros Hk w Hw. unfold Scrapers.ask. unfold mbind, EM_bind, get_st, modify, lift.
  destruct (shop (trace w) account op ps) as [answer|e] eqn:Es.
  - apply Hk. destruct Hw as (Hkf & Ht & Hs). split; [done|]. split; [done|].
    intros a op' ps' answer' o Ha Ho. cbn in Ha. apply elem_of_cons in Ha as [Heq|Ha].
    + injection Heq as -> -> -> ->. right. apply elem_of_app. by left.
    + destruct (Hs a op' ps' answer' o Ha Ho); [left; by apply met_mono|right]. apply elem_of_app. by right.
  - apply (owing_fine settings mappers c owed). by apply owing_log.
Qed.

Lemma preserves_ask owed account op ps :
  (forall answer, wanted account op answer = []) -> preserves (owing owed) (ask account op ps).
Proof.
  intros Hn w Hw. unfold Scrapers.ask, mbind, EM_bind, get_st, modify, lift.
  destruct (shop (trace w) account op ps) as [answer|e]; apply owing_log; done.
Qed.

(** An exception of the request is answered by nothing. *)
Lemma triple_try_ask {B} owed account op ps (k : option pyval -> EM World B) owed' :
  triple owed (k None) owed' ->
  (forall answer, triple (wanted account op answer ++ owed)%list (k (Some answer)) owed') ->
  triple owed (try_catch (r ← ask account op ps; mret (Some r)) (fun _ => mret None) ≫= k) owed'.
Proof.
  intros Hn Hk w Hw.
  pose proof (triple_ask owed account op ps (fun a => mret (Some a))
    (fun o => match o with Some answer => (wanted account op answer ++ owed)%list | None => owed end)) as Ht.
  unfold mbind at 1, EM_bind at 1, try_catch.
  assert (Hrun : match (r ← ask account op ps; mret (Some r)) w with
                 | (Ok o, w') => owing (match o with Some answer => (wanted account op answer ++ owed)%list | None => owed end) w'
                                 /\ o <> None
                 | (Raise _, w') => owing owed w' end).
  { unfold Scrapers.ask, mbind, EM_bind, get_st, modify, lift.
    destruct (shop (trace w) account op ps) as [answer|e] eqn:Es; [|by apply owing_log].
    split; [|done]. specialize (Ht (fun answer => triple_ret _ _ _ _ _ _ (fun o Ho => Ho)) w Hw).
    unfold Scrapers.ask, mbind, EM_bind, get_st, modify, lift in Ht. by rewrite Es in Ht. }
  destruct ((r ← ask account op ps; mret (Some r)) w) as [[[answer|]|e] w'].
  - apply Hk, Hrun.
  - by destruct Hrun.
  - by apply Hn.
Qed.

Lemma owing_paid owed o v i w :
  o.2 i -> owing (o :: owed) w -> owing owed (log (Published o.1 v (it_external_id i) true) w).
Proof.
  intros Hi (Hk & Ht & Hs). split; [done|]. split; [done|].
  intros a op ps answer o' Ha Ho. cbn in Ha. apply elem_of_cons in Ha as [?|Ha]; [done|].
  destruct (Hs a op ps answer o' Ha Ho) as [?|[->|?]%elem_of_cons]; [left; by apply met_mono| |by right].
  left. exists i, v. split; [done|left].
Qed.

(** Publishing pays what it is for. *)
Lemma triple_publish owed topic (Q : item -> Prop) v i :
  Q i -> triple ((topic, Q) :: owed) (publish topic v (it_external_id i)) (fun _ => owed).
Proof.
  intros Hi w Hw. unfold Scrapers.publish, mbind, EM_bind, get_st, modify, mret, EM_ret, Effects.raise.
  pose proof Hw as (Hk & Ht & _). rewrite Hk.
  destruct (broker (trace w) topic v (it_external_id i)); [|by split].
  by apply (owing_paid owed (topic, Q)).
Qed.

Lemma triple_publish_event owed name event topic account (Q : item -> Prop) i :
  Q i -> triple ((topic, Q) :: owed) (publish_event name event topic account i) (fun _ => owed).
Proof.
  intros Hi w Hw. pose proof Hw as (Hk & _). unfold Scrapers.publish_event.
  unfold mbind at 1, EM_bind at 1, get_st. rewrite Hk. unfold envelope.
  unfold mbind at 1 2, EM_bind at 1 2, get_st, mret, EM_ret. by apply (triple_publish owed topic Q).
Qed.

Lemma triple_seq owed (m k : EM World unit) :
  triple owed m (fun _ => []) -> triple [] k (fun _ => []) -> triple owed (m ≫= fun _ => k) (fun _ => []).
Proof. intros Hm Hk. apply (triple_bind _ _ _ _ (fun _ => [])); [exact Hm|by intros []]. Qed.

Lemma triple_skip : triple [] (mret ()) (fun _ => []).
Proof. by apply triple_ret. Qed.

(** A loop pays for its elements one by one. *)
Lemma triple_for_each {A} owed (ob : A -> obligation) (f : A -> EM World unit) l :
  (forall x owed', x ∈ l -> triple (ob x :: owed') (f x) (fun _ => owed')) ->
  triple (map ob l ++ owed)%list (for_each f l) (fun _ => owed).
Proof.
  induction l as [|x l IH]; intros Hf; cbn [map for_each app].
  - by apply triple_ret.
  - eapply triple_bind; [apply Hf; left|]. intros []. apply IH. intros y owed' Hy. apply Hf. by right.
Qed.

Lemma triple_save_mark c' account entity value : triple [] (save_mark c' account entity value) (fun _ => []).
Proof.
  intros w (Hk & Ht & Hs). unfold save_mark, modify. split; [done|]. split; [done|].
  intros a op ps answer o Ha Ho. cbn in Ha. apply elem_of_cons in Ha as [?|Ha]; [done|].
  destruct (Hs a op ps answer o Ha Ho); [left; by apply met_mono|by right].
Qed.

Lemma triple_modify owed f :
  (forall w, kafka (f w) = kafka w /\ trace (f w) = trace w) -> triple owed (modify f) (fun _ => owed).
Proof. intros Hf w (Hk & Ht & Hs). destruct (Hf w) as [H1 H2]. unfold modify. split; rewrite ?H1, ?H2; done. Qed.
End rules.

Section keeping.
Context (settings : Settings) (mappers : Mappers).
Context (shop : list entry -> string -> string -> dict -> res pyval).
Context (broker : list entry -> string -> pyval -> string -> bool).
Context (now : list entry -> Z) (time_text : list entry -> Z -> string).

Abbreviation triple := (triple settings mappers).
Abbreviation owing := (owing settings mappers).

(** *** Amazon and Apilo *)

Lemma triple_amazon account orders latest :
  triple Amazon (orders_as settings account (fun v i => exists items, map_amazon mappers v items account = Ok i) (Ok orders))
    (publish_amazon settings mappers shop broker account orders latest) (fun _ => []).
Proof.
  revert latest. cbn [orders_as]. induction orders as [|o orders IH]; intros latest; cbn [publish_amazon map].
  { by apply triple_ret. }
  apply triple_lift_bind. intros d _. eapply triple_bind.
  - apply triple_preserves. unfold amazon_items. preserve. by apply preserves_ask.
  - intros items. apply triple_lift_bind. intros order Horder.
    eapply triple_bind; [apply triple_publish; by exists items|].
    intros []. apply triple_lift_bind. intros latest' _. apply IH.
Qed.

Lemma triple_scrape_amazon account :
  triple Amazon [] (scrape_amazon settings mappers shop broker time_text account) (fun _ => []).
Proof.
  unfold scrape_amazon. destruct (scrape_orders settings); [|by apply triple_ret].
  apply triple_get. intros w. apply triple_try_ask; [by apply triple_ret|]. intros answer.
  apply triple_lift_bind. intros orders Hl. cbn [wanted]. rewrite Hl, app_nil_r.
  case_bool_decide as He; [subst; by apply triple_ret|].
  eapply triple_bind; [apply triple_amazon|]. intros latest. apply triple_save_mark.
Qed.

Lemma triple_apilo account orders latest :
  triple Apilo (orders_as settings account (fun v i => map_apilo mappers v account = Ok i) (Ok orders))
    (publish_apilo settings mappers broker account orders latest) (fun _ => []).
Proof.
  revert latest. cbn [orders_as]. induction orders as [|o orders IH]; intros latest; cbn [publish_apilo map].
  { by apply triple_ret. }
  apply triple_lift_bind. intros order Horder. eapply triple_bind; [by apply triple_publish|].
  intros []. apply triple_lift_bind. intros latest' _. apply IH.
Qed.

Lemma triple_scrape_apilo account :
  triple Apilo [] (scrape_apilo settings mappers shop broker time_text account) (fun _ => []).
Proof.
  unfold scrape_apilo. destruct (scrape_orders settings); [|by apply triple_ret].
  apply triple_get. intros w. apply triple_try_ask; [by apply triple_ret|]. intros answer.
  apply triple_lift_bind. intros orders Hl. cbn [wanted]. rewrite Hl, app_nil_r.
  case_bool_decide as He; [subst; by apply triple_ret|].
  eapply triple_bind; [apply triple_apilo|]. intros latest. apply triple_save_mark.
Qed.

(** *** WooCommerce *)

Lemma triple_woo account orders newest :
  triple WooCommerce (orders_as settings account
      (fun raw i => exists m o, woo_order mappers raw = Ok (m, o) /\ map_woo mappers o account = Ok i) (Ok orders))
    (publish_woo settings mappers broker account orders newest) (fun _ => []).
Proof.
  revert newest. cbn [orders_as]. induction orders as [|raw orders IH]; intros newest; cbn [publish_woo map].
  { by apply triple_ret. }
  apply triple_lift_bind. intros [m o] Hparsed. apply triple_lift_bind. intros order Horder. cbv zeta.
  eapply triple_bind; [apply triple_publish; by exists m, o|]. intros []. apply IH.
Qed.

Lemma triple_scrape_woocommerce account :
  triple WooCommerce [] (scrape_woocommerce settings mappers shop broker time_text account) (fun _ => []).
Proof.
  unfold scrape_woocommerce. apply triple_get. intros w. cbv zeta. apply triple_ask. intros answer.
  apply triple_lift_bind. intros orders Hl. cbn [wanted]. rewrite Hl, app_nil_r.
  eapply triple_bind; [apply triple_woo|]. intros [t|]; [apply triple_save_mark|by apply triple_ret].
Qed.

(** *** IdoSell *)

(** A search whose answers oblige to what [each] pays. *)
Lemma triple_pages fuel account operation params (ob : pyval -> obligation) each page :
  (forall answer results, items_of "results" answer = Ok results ->
     wanted settings mappers IdoSell account operation answer = map ob results) ->
  (forall x owed, triple IdoSell (ob x :: owed) (each x) (fun _ => owed)) ->
  triple IdoSell [] (scrape_pages settings shop fuel account operation params each page) (fun _ => []).
Proof.
  intros Hw He. revert page. induction fuel as [|fuel IH]; intros page; cbn [scrape_pages].
  { intros w Hk. by apply (owing_fine settings mappers IdoSell []). }
  apply triple_ask. intros answer. apply triple_lift_bind. intros d Hd. apply triple_lift_bind. intros results Hr.
  assert (Hi : items_of "results" answer = Ok results).
  { unfold items_of. rewrite Hd. exact Hr. }
  rewrite (Hw _ _ Hi). case_bool_decide as Hnil; [subst; by apply triple_ret|].
  eapply triple_bind; [apply triple_for_each; intros x owed _; apply He|]. intros [].
  apply triple_lift_bind. intros [] _; [by apply triple_ret|apply IH].
Qed.

Lemma triple_scrape_idosell fuel account :
  triple IdoSell [] (scrape_idosell settings mappers shop broker time_text fuel account) (fun _ => []).
Proof.
  unfold scrape_idosell. apply triple_get. intros w. cbv zeta. apply triple_seq.
  - destruct (scrape_orders settings); [|apply triple_skip].
    unfold scrape_idosell_orders. apply triple_get. intros w'. apply triple_seq; [|apply triple_save_mark].
    apply (triple_pages _ _ _ _ (fun v => (kafka_topic_orders_out settings,
             fun i => map_idosell_order mappers v account = Ok i))).
    + intros answer results Hr. cbn [wanted]. by rewrite Hr.
    + intros x owed. unfold idosell_order. apply triple_lift_bind. intros order Ho. by apply triple_publish.
  - destruct (scrape_products settings); [|apply triple_skip].
    unfold scrape_idosell_products. apply triple_get. intros w'. apply triple_seq; [|apply triple_save_mark].
    apply (triple_pages _ _ _ _ (fun v => (kafka_topic_products_out settings,
             fun i => map_idosell_product mappers v = Ok i))).
    + intros answer results Hr. cbn [wanted]. by rewrite Hr.
    + intros x owed. unfold idosell_product. apply triple_lift_bind. intros order Ho. by apply triple_publish.
Qed.

(** *** Shoper *)

Lemma triple_scrape_shoper account :
  triple Shoper [] (scrape_shoper settings mappers shop broker time_text account) (fun _ => []).
Proof.
  unfold scrape_shoper. apply triple_get. intros w. cbv zeta. apply triple_seq; [|apply triple_seq].
  - destruct (scrape_orders settings); [|apply triple_skip].
    unfold scrape_shoper_orders. apply triple_get. intros w'. apply triple_ask. intros answer.
    apply triple_lift_bind. intros orders Ho. cbn [wanted]. rewrite Ho.
    case_bool_decide as Hn; [subst; apply triple_save_mark|].
    apply triple_lift_bind. intros ids _. apply triple_ask. intros answer'. cbn [wanted app].
    apply triple_lift_bind. intros products _. apply triple_seq; [|apply triple_save_mark].
    apply triple_for_each. intros o owed _. unfold shoper_order.
    apply triple_lift_bind. intros oid _. apply triple_lift_bind. intros mine _. apply triple_lift_bind.
    intros order Horder. apply triple_publish. by exists mine.
  - destruct (scrape_products settings); [|apply triple_skip].
    unfold scrape_shoper_products. apply triple_get. intros w'. apply triple_ask. intros answer.
    apply triple_lift_bind. intros products Ho. cbn [wanted]. rewrite Ho.
    apply triple_seq; [|apply triple_save_mark].
    apply triple_for_each. intros p owed _. unfold shoper_product.
    apply triple_lift_bind. intros product Hp. by apply triple_publish.
  - destruct (scrape_users settings); [|apply triple_skip].
    unfold scrape_shoper_users. apply triple_get. intros w'. apply triple_ask. intros answer.
    apply triple_lift_bind. intros users Hu. cbn [wanted]. rewrite Hu.
    apply triple_seq; [|apply triple_save_mark]. apply triple_for_each. intros u owed _.
    intros w'' Hw. unfold shoper_user, mbind at 1, EM_bind at 1, get_st. pose proof Hw as (Hk & _). rewrite Hk.
    clear Hk. revert w'' Hw. apply triple_lift_bind. intros d Hd.
    change (py_str (dget_or "user_id" (PStr "") d)) with (it_external_id (Item (py_str (dget_or "user_id" (PStr "") d)) u)).
    apply triple_publish. exists d. split; [|done]. destruct u; try discriminate Hd. by injection Hd as ->.
Qed.

(** *** Allegro *)

(** Each event kept stands for a checkout form. *)
Lemma deduplicated_checkout e events : e ∈ deduplicate_events events -> exists ck, ev_checkout e = Some ck.
Proof.
  unfold deduplicate_events.
  enough (Hall : forall acc, Forall (fun kv : string * order_event => exists ck, ev_checkout kv.2 = Some ck) acc ->
    Forall (fun kv : string * order_event => exists ck, ev_checkout kv.2 = Some ck)
      (fold_left (fun seen e => match ev_checkout e with
                                | Some ck => if String.eqb (ck_id ck) "" then seen else dset (ck_id ck) e seen
                                | None => seen
                                end) events acc)).
  { intros He. apply list_elem_of_In, in_map_iff in He as ([k e'] & <- & Hin).
    by apply (proj1 (Forall_forall _ _) (Hall [] (List.Forall_nil _)) (k, e')). }
  induction events as [|e' events IH]; intros acc Hacc; [done|]. cbn [fold_left]. apply IH.
  destruct (ev_checkout e') as [ck|] eqn:Ec; [|done]. destruct (String.eqb (ck_id ck) ""); [done|].
  apply Forall_forall. intros [k v] Hin. apply list_elem_of_In, elem_of_dset in Hin as [[= -> ->]|Hin]; [by exists ck|].
  by apply (proj1 (Forall_forall _ _) Hacc (k, v)), list_elem_of_In.
Qed.

Lemma triple_process account e owed :
  (exists ck, ev_checkout e = Some ck) ->
  triple Allegro ((kafka_topic_orders_out settings, allegro_order mappers account e) :: owed)
    (process_event settings mappers shop broker time_text account e) (fun _ => owed).
Proof.
  intros [ck Ec]. unfold process_event. rewrite Ec. eapply triple_bind.
  - apply triple_preserves. set (owes := _ :: owed). generalize (@nil (string * pyval)).
    induction (ck_offers ck) as [|[offer_id name] offers IH]; intros acc; cbn [fetch_product_details];
      [apply preserves_ret|].
    apply preserves_bind; [|intros ?; apply IH]. unfold offer_details, product_ean. preserve; by apply preserves_ask.
  - intros details. apply triple_lift_bind. intros order Ho. apply triple_publish_event. by exists ck, details.
Qed.

Lemma triple_scrape_allegro account :
  triple Allegro [] (scrape_allegro settings mappers shop broker time_text account) (fun _ => []).
Proof.
  unfold scrape_allegro. apply triple_get. intros w. cbv zeta. apply triple_ask. intros answer.
  apply triple_lift_bind. intros events He. cbn [wanted]. rewrite He.
  destruct events as [|e events]; [apply triple_skip|].
  apply triple_seq; [|apply triple_save_mark]. apply triple_for_each. intros e' owed Hin.
  apply triple_process. by apply deduplicated_checkout in Hin.
Qed.

(** *** Shopify *)

Definition shopify_due (account order_id : string) : obligation :=
  (kafka_topic_orders_out settings, shopify_order mappers account order_id).

(** Orders of ids already seen in this scrape were published. *)
Definition owing_seen (account : string) (owed : list obligation) (seen : list string) (w : World) : Prop :=
  owing Shopify owed w /\ Forall (fun i => met (recent (trace w)) (shopify_due account i)) seen.

Definition seen_triple (account : string) (owed : list obligation) (seen : list string) (m : EM World (list string))
    (owed' : list obligation) : Prop :=
  forall w, owing_seen account owed seen w -> match m w with
                                              | (Ok seen', w') => owing_seen account owed' seen' w'
                                              | (Raise _, w') => fine settings mappers Shopify w'
                                              end.

Lemma owing_met c owed o w : met (recent (trace w)) o -> owing c (o :: owed) w -> owing c owed w.
Proof.
  intros Hm (Hk & Ht & Hs). split; [done|]. split; [done|]. intros a op ps answer o' Ha Ho.
  destruct (Hs a op ps answer o' Ha Ho) as [?|[->|?]%elem_of_cons]; [by left|by left|by right].
Qed.

Lemma seen_log account e seen w :
  match e with Began _ _ => False | _ => True end ->
  Forall (fun i => met (recent (trace w)) (shopify_due account i)) seen ->
  Forall (fun i => met (recent (e :: trace w)) (shopify_due account i)) seen.
Proof.
  intros He Hall. apply Forall_forall. intros i Hi. pose proof (proj1 (Forall_forall _ _) Hall i Hi) as Hm.
  destruct e; [done|..]; cbn [recent]; by apply met_mono.
Qed.

Lemma unseen_spec account raw all orders seen owed :
  shopify_orders mappers raw = Ok all -> (forall o, o ∈ orders -> o ∈ all) ->
  seen_triple account (map (fun o : string * pyval => shopify_due account o.1) orders ++ owed)%list seen
    (publish_unseen settings mappers broker time_text account orders seen) owed.
Proof.
  intros Hraw. revert seen. induction orders as [|[order_id o] orders IH]; intros seen Hin w [Hw Hseen];
    cbn [publish_unseen map app] in *; [by split|].
  assert (Hin' : forall o, o ∈ orders -> o ∈ all) by (intros ? ?; apply Hin; by right).
  destruct (existsb (String.eqb order_id) seen) eqn:Es.
  - apply existsb_exists in Es as (i & Hi & ->%String.eqb_eq). apply IH; [done|]. split; [|done].
    apply (owing_met Shopify _ (shopify_due account i)); [|done]. by apply (proj1 (Forall_forall _ _) Hseen).
  - unfold mbind at 1, EM_bind at 1, lift. destruct (map_shopify mappers o account) as [order|e] eqn:Em;
      [|by eapply owing_fine].
    assert (Hdue : (shopify_due account order_id).2 order).
    { exists raw, all, o. split; [done|]. split; [|done]. apply Hin. left. }
    pose proof Hw as (Hk & _). unfold publish_event, envelope, publish.
    unfold mbind, EM_bind, get_st, mret, EM_ret, modify, Effects.raise. rewrite !Hk.
    set (v := PDict _). unfold orders_topic.
    destruct (broker (trace w) (kafka_topic_orders_out settings) v (it_external_id order)); [|destruct Hw as (? & ? & _); by split].
    apply IH; [done|]. set (e := Published _ _ _ _). split.
    + by apply (owing_paid settings mappers Shopify _ (shopify_due account order_id)).
    + apply Forall_cons_iff. split; [|by apply (seen_log account e)]. exists order, v. split; [done|left].
Qed.

Lemma seen_ask account op ps seen (k : pyval -> EM World (list string)) :
  (forall answer, seen_triple account (wanted settings mappers Shopify account op answer) seen (k answer) []) ->
  seen_triple account [] seen (ask shop account op ps ≫= k) [].
Proof.
  intros Hk w [Hw Hseen]. unfold ask, mbind, EM_bind, get_st, modify, lift.
  destruct (shop (trace w) account op ps) as [answer|e] eqn:Es.
  - apply Hk. split; [|by apply seen_log]. destruct Hw as (Hkf & Ht & Hs). split; [done|]. split; [done|].
    intros a op' ps' answer' o Ha Ho. cbn in Ha. apply elem_of_cons in Ha as [Heq|Ha].
    + injection Heq as -> -> -> ->. by right.
    + destruct (Hs a op' ps' answer' o Ha Ho) as [?|Hn]; [left; by apply met_mono|by apply elem_of_nil in Hn].
  - apply (owing_fine settings mappers Shopify []). by apply owing_log.
Qed.

Lemma fetch_new_spec account since_id seen :
  seen_triple account [] seen (fetch_new_orders settings mappers shop broker time_text account since_id seen) [].
Proof.
  unfold fetch_new_orders. apply seen_ask. intros answer w Hw. unfold mbind at 1, EM_bind at 1, lift.
  destruct (shopify_orders mappers answer) as [orders|e] eqn:Eo; [|by eapply owing_fine, Hw].
  cbn [wanted] in Hw. rewrite Eo in Hw. destruct orders as [|o orders]; [exact Hw|].
  pose proof (unseen_spec account answer (o :: orders) (o :: orders) seen [] Eo (fun _ H => H)) as Hu.
  rewrite app_nil_r in Hu. specialize (Hu w Hw). unfold mbind at 1, EM_bind at 1.
  destruct (publish_unseen settings mappers broker time_text account (o :: orders) seen w) as [[seen'|e] w']; [|done].
  destruct Hu as [Hw' Hs']. unfold mbind, EM_bind, mret, EM_ret.
  pose proof (triple_save_mark settings mappers Shopify Shopify account "last_order_id" (List.last (o :: orders) o).1 w' Hw') as Hm.
  unfold save_mark, modify in *. split; [exact Hm|]. by apply (seen_log account (Marked _ _ _ _)).
Qed.

Lemma fetch_updated_spec account updated seen :
  seen_triple account [] seen (fetch_updated_orders settings mappers shop broker time_text account updated seen) [].
Proof.
  unfold fetch_updated_orders. apply seen_ask. intros answer w Hw. unfold mbind at 1, EM_bind at 1, lift.
  destruct (shopify_orders mappers answer) as [orders|e] eqn:Eo; [|by eapply owing_fine, Hw].
  cbn [wanted] in Hw. rewrite Eo in Hw.
  pose proof (unseen_spec account answer orders orders seen [] Eo (fun _ H => H)) as Hu.
  rewrite app_nil_r in Hu. by apply Hu.
Qed.

Definition seen_end (account : string) (seen : list string) (m : EM World unit) : Prop :=
  forall w, owing_seen account [] seen w -> match m w with
                                            | (Ok _, w') => owing Shopify [] w'
                                            | (Raise _, w') => fine settings mappers Shopify w'
                                            end.

Lemma seen_bind account seen (m : EM World (list string)) (k : list string -> EM World unit) :
  seen_triple account [] seen m [] -> (forall s, seen_end account s (k s)) -> seen_end account seen (m ≫= k).
Proof.
  intros Hm Hk w Hw. specialize (Hm w Hw). unfold mbind, EM_bind. destruct (m w) as [[s|e] w']; [|done]. by apply Hk.
Qed.

Lemma triple_scrape_shopify account :
  triple Shopify [] (scrape_shopify settings mappers shop broker now time_text account) (fun _ => []).
Proof.
  unfold scrape_shopify. apply triple_get. intros w. cbv zeta.
  set (since_id := match last_mark account "last_order_id" w with Some i => _ | None => None end).
  assert (Hret : forall s, seen_triple account [] s (mret s) []) by (intros s w' Hw'; exact Hw').
  assert (Hall : forall m, seen_end account [] m -> triple Shopify [] m (fun _ => [])).
  { intros m Hm w' Hw'. apply Hm. split; [done|constructor]. }
  apply Hall. apply seen_bind; [destruct since_id; [apply fetch_new_spec|apply Hret]|]. intros s.
  apply seen_bind; [destruct (dget account (scrape_times w)); [apply fetch_updated_spec|apply Hret]|]. intros s'.
  apply seen_bind.
  { destruct since_id, (dget account (scrape_times w)); (apply Hret || apply fetch_new_spec). }
  intros s'' w' [Hw' _]. by apply (triple_modify settings mappers Shopify []).
Qed.
End keeping.

(** ** The properties *)

(** What the scraper of a connector did to a world without marks, by cycles over its
    accounts, however many pages a scrape may ask for. *)
Definition cycles (settings : Settings) (mappers : Mappers) (shop : list entry -> string -> string -> dict -> res pyval)
    (broker : list entry -> string -> pyval -> string -> bool) (now : list entry -> Z)
    (time_text : list entry -> Z -> string) (fuel : nat) (c : connector) (rounds : list (list string)) (w : World) : World :=
  (for_each (scrape_all_accounts settings mappers shop broker now time_text fuel c) rounds w).2.

Lemma scrape_keeps settings mappers shop broker now time_text fuel c account :
  c <> BaseLinker ->
  triple settings mappers c [] (scrape_account settings mappers shop broker now time_text fuel c account) (fun _ => []).
Proof.
  intros Hc. destruct c; cbn [scrape_account].
  - apply triple_scrape_allegro.
  - apply triple_scrape_shopify.
  - apply triple_scrape_woocommerce.
  - apply triple_scrape_idosell.
  - apply triple_scrape_shoper.
  - done.
  - apply triple_scrape_amazon.
  - apply triple_scrape_apilo.
Qed.


(** The number of pages only matters when it is too small. *)
Lemma pages_more_fuel settings shop fuel more account operation params each page w :
  (scrape_pages settings shop fuel account operation params each page w).1 <> Raise out_of_fuel ->
  scrape_pages settings shop (fuel + more) account operation params each page w =
    scrape_pages settings shop fuel account operation params each page w.
Proof.
  revert page w. induction fuel as [|fuel IH]; intros page w; [done|]. cbn [plus scrape_pages].
  unfold mbind, EM_bind. destruct (ask _ _ _ _ w) as [[data|e] w1]; [|done]. unfold lift.
  destruct (dict_method "get" data) as [d|e]; [|done].
  destruct (as_iter (dget_or "results" (PList []) d)) as [results|e]; [|done].
  case_bool_decide; [done|]. destruct (for_each each results w1) as [[[]|e] w2]; [|done].
  destruct (py_order OpGe (PInt (page + 1)) (dget_or "resultsNumberPage" (PInt 1) d)) as [[]|e]; [done| |done].
  apply IH.
Qed.

(** *** Concrete shops *)

(** Items are dicts with an [id]; one that is [bad] cannot be mapped. *)
Definition plain_item (v : pyval) : res item :=
  d ← dict_method "get" v;
  if dhas "bad" d then Raise (ValueError "could not convert string to float: 'n/a'")
  else Ok (Item (py_str (dget_or "id" PNone d)) v).

Definition plain_mappers : Mappers :=
  MkMappers (fun _ => Ok []) (fun ck _ _ => plain_item (ck_value ck)) (fun _ => Ok []) (fun v _ => plain_item v)
    (fun v => Ok (None, v)) (fun v _ => plain_item v) str_of_Z (fun v _ => plain_item v) plain_item
    (fun v _ _ => plain_item v) plain_item (fun v _ _ => plain_item v) (fun v _ _ => plain_item v) (fun v _ => plain_item v).

Definition all_settings : Settings := MkSettings "orders" "products" "users" 60 100 100 true true true.

Definition an_order (id : Z) (more : dict) : pyval := PDict (("id", PInt id) :: ("order_id", PInt id) :: more).

Definition a_run (shop : string -> res pyval) (c : connector) (n : nat) : World :=
  cycles all_settings plain_mappers (fun _ _ op _ => shop op) (fun _ _ _ _ => true) (fun _ => 0%Z) (fun _ _ => "2026-01-01")
    5 c (repeat ["a"] n) (MkWorld [] [] [] true []).

Definition published (w : World) : list string :=
  flat_map (fun e => match e with Published _ _ key true => [key] | _ => [] end) (trace w).

Definition apilo_shop (orders : list pyval) (op : string) : res pyval := Ok (PDict [("orders", PList orders)]).


(** One order that cannot be mapped holds up its account for good: what is before it in
    the page is published again in every cycle, what is after it never. *)
Example bad_order_blocks_account :
  let w := a_run (apilo_shop [an_order 1 []; an_order 2 [("bad", PBool true)]; an_order 3 []]) Apilo 4 in
  published w = ["1"; "1"; "1"; "1"] /\ last_mark "a" "orders_last_updated" w = None.
Proof. by vm_compute. Qed.

(** BaseLinker's scraper looks for the orders of the journal on the first page of all
    orders, and moves the mark whether they are there or not. *)
Definition baselinker_shop (op : string) : res pyval :=
  Ok (PDict (if String.eqb op "getJournalList" then [("logs", PList [PDict [("log_id", PInt 5); ("order_id", PInt 900)]])]
             else if String.eqb op "getOrders" then [("orders", PList [an_order 1 []])]
             else [("statuses", PList [])])).

Example baselinker_skips_orders :
  let w := a_run baselinker_shop BaseLinker 1 in
  published w = [] /\ last_mark "a" "journal_log_id" w = Some "5".
Proof. by vm_compute. Qed.

(** With more pages than the fuel: the code goes on as long as the shop says so. *)
Example endless_pages :
  let w := a_run (fun _ => Ok (PDict [("results", PList [an_order 1 []]); ("resultsNumberPage", PInt 100)])) IdoSell 1 in
  published w = ["1"; "1"; "1"; "1"; "1"] /\ last_mark "a" "orders" w = None.
Proof. by vm_compute. Qed.

(** The first scrape of Shopify stores the id of the last order of the page: with the
    newest orders first, as its API answers without [since_id], that is the oldest one. *)
Example shopify_first_mark :
  let m := MkMappers (allegro_events plain_mappers) (map_checkout plain_mappers)
             (fun raw => Ok [("9", raw); ("4", raw)]) (fun v _ => Ok (Item "o" v)) (woo_order plain_mappers)
             (map_woo plain_mappers) str_of_Z (map_idosell_order plain_mappers) (map_idosell_product plain_mappers)
             (map_shoper_order plain_mappers) (map_shoper_product plain_mappers) (map_baselinker plain_mappers)
             (map_amazon plain_mappers) (map_apilo plain_mappers) in
  last_mark "a" "last_order_id" (cycles all_settings m (fun _ _ _ _ => Ok (PDict [])) (fun _ _ _ _ => true) (fun _ => 0%Z)
    (fun _ _ => "") 5 Shopify [["a"]] (MkWorld [] [] [] true [])) = Some "4".
Proof. by vm_compute. Qed.
