(* ===== verification/SdkApp.v ===== *)
(** The application of a connector built with the SDK
    ([sdk/python/pinquark_connector_sdk/app.py], [decorators.py], [health.py]): the methods a
    connector declares, the routes made of them, the rate limiter in front of the actions,
    signed webhooks, the trigger loops, health checks and the generated manifest.

    The connector's own methods are functions that change its state [W] and can raise; the
    body of a request is read by [json_loads], digests are [hmac_hex].  Tokens are exact
    fractions.  Names of actions and webhooks hold no braces. *)

From Stdlib Require Import QArith Qminmax Lqa.
From S2P Require Import Prelude PyText PyFloat PyValue PyNumber Effects Accounts.

Local Open Scope string_scope.

(** ** [_TokenBucket] *)

Record token_bucket := TokenBucket {
  tb_rate : Q;
  tb_burst : Z;
  tb_tokens : Q;
  tb_last_refill : Q
}.

Definition new_bucket (now : Q) (rate : Q) (burst : Z) : token_bucket :=
  TokenBucket rate burst (inject_Z burst) now.

Definition refill (now : Q) (b : token_bucket) : Q :=
  Qmin (inject_Z (tb_burst b)) (tb_tokens b + (now - tb_last_refill b) * tb_rate b)%Q.
Definition allow (now : Q) (b : token_bucket) : bool * token_bucket :=
  let tokens := refill now b in
  if Qle_bool 1 tokens then (true, TokenBucket (tb_rate b) (tb_burst b) (tokens - 1)%Q now)
  else (false, TokenBucket (tb_rate b) (tb_burst b) tokens now).

(** [_parse_rate_spec]: requests for each second, and the burst. *)
Definition rate_divisors : list (string * positive) :=
  [("s", 1); ("sec", 1); ("second", 1); ("seconds", 1); ("m", 60); ("min", 60); ("minute", 60); ("minutes", 60);
   ("h", 3600); ("hr", 3600); ("hour", 3600); ("hours", 3600)]%positive.
Definition parse_rate_spec (spec : string) : res (Q * Z) :=
  match split_char "/" (py_strip spec) with
  | [count_text; unit_text] =>
      count ← py_int (PStr (py_strip count_text));
      let divisor := default 60%positive (dget (py_lower (py_strip unit_text)) rate_divisors) in
      Ok (count # divisor, count)
  | _ => Ok (10%Q, 10%Z)
  end.

(** ** Declarations ([decorators.py]) *)

(** A schema is a dict, another value, or a pydantic model with its JSON schema. *)
Inductive schema_source := ModelSchema (json_schema : pyval) | PlainSchema (v : pyval).

Record ActionMeta := MkActionMeta {
  am_name : string;
  am_input_schema : schema_source;
  am_output_schema : schema_source;
  am_dynamic_schema : bool
}.
Record TriggerMeta := MkTriggerMeta { tm_name : string; tm_interval_seconds : Z }.
Record WebhookMeta := MkWebhookMeta {
  wm_name : string;
  wm_topic : option string;
  wm_signature_header : option string;
  wm_signature_algorithm : string
}.

(** What a method returns: a value, a pair of a value and an int, or a response. *)
Record http_response := HttpResponse {
  hr_status : Z;
  hr_body : pyval;
  hr_headers : list (string * string)
}.
Inductive method_result := Value (v : pyval) | ValueWithStatus (v : pyval) (status : Z) | RawResponse (r : http_response).

(** [Config]. *)
Record connector_config := ConnectorConfig {
  required_credentials : list string;
  rate_limits : list (string * string);
  oauth2_config : dict;
  port : Z
}.
Definition default_config : connector_config := ConnectorConfig [] [] [] 8000.
(** [_resolve_config]: the fields a subclass sets replace the defaults. *)
Record config_class := ConfigClass {
  cc_required_credentials : option (list string);
  cc_rate_limits : option (list (string * string));
  cc_oauth2 : option dict;
  cc_port : option Z
}.
Definition resolve_config (own : option config_class) : connector_config :=
  match own with
  | None => default_config
  | Some c => ConnectorConfig (default [] (cc_required_credentials c)) (default [] (cc_rate_limits c))
                (default [] (cc_oauth2 c)) (default 8000%Z (cc_port c))
  end.

(** ** Rate limiting in front of the actions *)

Definition replace_char (old new : ascii) (s : string) : string :=
  str_map (fun c => if Ascii.eqb c old then new else c) s.
Definition action_path (name : string) : string := "/actions/" ++ replace_char "." "/" name.
Definition schema_path (name : string) : string := "/schema/" ++ replace_char "." "/" name.

(** [_register_rate_limiting]: the buckets when the application is made. *)
Definition add_bucket (now : Q) (buckets : list (string * token_bucket)) (limit : string * string)
  : res (list (string * token_bucket)) :=
  if String.eqb limit.1 "default" then Ok buckets
  else spec ← parse_rate_spec limit.2;
       Ok (dset limit.1 (new_bucket now spec.1 spec.2) buckets).
Definition make_buckets (now : Q) (limits : list (string * string)) : res (list (string * token_bucket)) :=
  first ← match dget "default" limits with
          | None => Ok []
          | Some text => spec ← parse_rate_spec text;
                         Ok [("__default__", new_bucket now spec.1 spec.2)]
          end;
  foldR (add_bucket now) first limits.

(** The key of a path, when the middleware looks at it. *)
Definition action_key (path : string) : option string :=
  match str_find "/actions/" path with
  | None => None
  | Some n => Some (replace_char "/" "." (str_drop (n + 9) path))
  end.
(** The name of the bucket a key takes its tokens from. *)
Definition bucket_of (buckets : list (string * token_bucket)) (key : string) : option string :=
  if dhas key buckets then Some key
  else if dhas "__default__" buckets then Some "__default__" else None.

(** [_RateLimitMiddleware.dispatch]: whether the request goes on. *)
Definition rate_limit (now : Q) (path : string) (buckets : list (string * token_bucket))
  : bool * list (string * token_bucket) :=
  match key ← action_key path; name ← bucket_of buckets key; b ← dget name buckets; Some (name, b) with
  | None => (true, buckets)
  | Some (name, b) => let '(ok, b') := allow now b in (ok, dset name b' buckets)
  end.
Definition too_many_requests : http_response :=
  HttpResponse 429 (PDict [("error", PStr "Rate limit exceeded")]) [("Retry-After", "1")].

(** ** Responses *)

(** What [json.dumps] refuses: floats that are not numbers of JSON. *)
Fixpoint json_compliant (v : pyval) : bool :=
  match v with
  | PFloat f => is_finite f
  | PList l => forallb json_compliant l
  | PDict d => forallb (fun kv => json_compliant kv.2) d
  | _ => true
  end.
Definition json_reply (status : Z) (v : pyval) : res http_response :=
  if json_compliant v then Ok (HttpResponse status v [])
  else Raise (ValueError "Out of range float values are not JSON compliant").

(** [_build_action_response]. *)
Definition build_action_response (result : method_result) : res http_response :=
  match result with
  | RawResponse r => Ok r
  | ValueWithStatus v status => json_reply status v
  | Value v =>
      let status := match v with
                    | PDict d => match dget "status_code" d with
                                 | Some (PInt n) => n
                                 | Some (PBool b) => bool_Z b
                                 | _ => 200%Z
                                 end
                    | _ => 200%Z
                    end in
      json_reply status v
  end.

(** [_schema_to_fields]. *)
Definition set_of (v : pyval) : res (list pyval) :=
  items ← as_iter v;
  mapR (fun x => match x with PList _ | PDict _ => Raise (unhashable x) | _ => Ok x end) items.
Definition field_entry (name label type : pyval) (required : bool) (description : pyval) : pyval :=
  PDict [("field", name); ("label", label); ("type", type); ("required", PBool required); ("description", description)].
Definition field_in (name : string) (required : list pyval) : bool := existsb (py_eqb (PStr name)) required.

Definition property_type (field_schema : dict) : res pyval :=
  let field_type := dget_or "type" PNone field_schema in
  if truthy field_type then Ok field_type
  else match dget_or "anyOf" PNone field_schema with
       | PList (first :: _) => d ← as_dict first; Ok (dget_or "type" (PStr "string") d)
       | _ => Ok field_type
       end.
Definition property_fields (required : list pyval) (properties : dict) : res (list pyval) :=
  fields ← mapR (fun kv =>
    match kv.2 with
    | PDict field_schema =>
        field_type ← property_type field_schema;
        Ok [field_entry (PStr kv.1) (dget_or "title" (PStr kv.1) field_schema) (py_or field_type (PStr "string"))
              (field_in kv.1 required) (dget_or "description" PNone field_schema)]
    | _ => Ok []
    end) properties;
  Ok (List.concat fields).
Definition listed_fields (items : list pyval) : list pyval :=
  List.concat (map (fun item =>
    match item with
    | PDict d =>
        let name := dget_or "field" PNone d in
        if truthy name then
          [field_entry name (dget_or "label" name d) (dget_or "type" (PStr "string") d)
             (truthy (dget_or "required" (PBool false) d)) (dget_or "description" PNone d)]
        else []
    | _ => []
    end) items).

Definition schema_to_fields (schema : schema_source) : res (list pyval) :=
  match (match schema with ModelSchema v | PlainSchema v => v end) with
  | PDict d =>
      required ← set_of (dget_or "required" (PList []) d);
      match dget_or "properties" PNone d, dget_or "fields" PNone d with
      | PDict properties, _ => property_fields required properties
      | _, PList items => Ok (listed_fields items)
      | _, _ =>
          if forallb (fun kv => is_str kv.2) d then
            Ok (map (fun kv => field_entry (PStr kv.1) (PStr kv.1) kv.2 (field_in kv.1 required) PNone) d)
          else Ok []
      end
  | _ => Ok []
  end.

(** ** The application *)

(** The parameters of a trigger method. *)
Inductive param_kind := PositionalOnly | PositionalOrKeyword | VarPositional | KeywordOnly | VarKeyword.
Definition method_accepts_since (signature : list (string * param_kind)) : bool :=
  existsb (fun p => match p.2 with
                    | VarKeyword => true
                    | PositionalOrKeyword | KeywordOnly => String.eqb p.1 "since"
                    | _ => false
                    end) signature.

Section app.
Context {W : Type}.

Definition action_method : Type := pyval -> EM W method_result.
Definition webhook_method : Type := pyval -> EM W pyval.
(** A trigger is called with [since] or without it. *)
Record trigger_method := TriggerMethod {
  tr_signature : list (string * param_kind);
  tr_call : option (option Z) -> EM W pyval
}.

Inductive decorated :=
  | DecoratedAction (meta : ActionMeta) (method : action_method)
  | DecoratedTrigger (meta : TriggerMeta) (method : trigger_method)
  | DecoratedWebhook (meta : WebhookMeta) (method : webhook_method).

Record connector_app := ConnectorApp {
  app_name : string;
  app_category : string;
  app_version : string;
  app_display_name : string;
  app_description : string;
  app_config : connector_config;
  app_actions : list (string * (ActionMeta * action_method));
  app_triggers : list (string * (TriggerMeta * trigger_method));
  app_webhooks : list (string * (WebhookMeta * webhook_method));
  app_test_connection : option (EM W pyval);
  app_readiness_checks : list (string * EM W unit)
}.

(** [_discover_decorated_methods]: the attributes in the order of [dir]. *)
Definition discover_one (app : connector_app) (attr : string * decorated) : connector_app :=
  if starts_with "_" attr.1 then app
  else
    let '(ConnectorApp n c v dn ds cfg actions triggers webhooks tc rc) := app in
    match attr.2 with
    | DecoratedAction meta m => ConnectorApp n c v dn ds cfg (dset (am_name meta) (meta, m) actions) triggers webhooks tc rc
    | DecoratedTrigger meta m => ConnectorApp n c v dn ds cfg actions (dset (tm_name meta) (meta, m) triggers) webhooks tc rc
    | DecoratedWebhook meta m => ConnectorApp n c v dn ds cfg actions triggers (dset (wm_name meta) (meta, m) webhooks) tc rc
    end.
Definition discover_decorated_methods (app : connector_app) (attrs : list (string * decorated)) : connector_app :=
  List.fold_left discover_one attrs app.

(** What a running application keeps. *)
Record app_state := AppState {
  as_buckets : list (string * token_bucket);
  as_accounts : account_store;
  as_world : W
}.
Definition set_buckets (b : list (string * token_bucket)) (s : app_state) : app_state :=
  AppState b (as_accounts s) (as_world s).
Definition set_accounts (a : account_store) (s : app_state) : app_state := AppState (as_buckets s) a (as_world s).
Definition set_world (w : W) (s : app_state) : app_state := AppState (as_buckets s) (as_accounts s) w.

Record http_request := HttpRequest {
  rq_method : string;
  rq_path : string;
  rq_headers : list (string * string);
  rq_body : string;
  rq_time : Q;
  rq_uuid : string
}.

Variable json_loads : string -> res pyval.
Variable hmac_hex : string -> string -> string -> string.
Variable environ : string -> option string.
(** The routes of the documentation, the metrics and OAuth2. *)
Variable other_routes : http_request -> EM app_state http_response.
Variable app : connector_app.
Variable start_time : Q.

Definition in_world {A} (m : EM W A) : EM app_state A := within as_world set_world m.

(** ** Actions and schemas *)

Definition error_reply (status : Z) (message : string) : http_response :=
  HttpResponse status (PDict [("error", PStr message)]) [].

(** [action_handler]: the body is read outside the [try]. *)
Definition action_handler (method : action_method) (req : http_request) : EM app_state http_response :=
  payload ← lift (json_loads (rq_body req));
  try_catch
    (result ← in_world (method payload); lift (build_action_response result))
    (fun e => mret (error_reply 500 (exn_str e))).

Definition schema_handler (name : string) (meta : ActionMeta) : res http_response :=
  input ← schema_to_fields (am_input_schema meta);
  output ← schema_to_fields (am_output_schema meta);
  json_reply 200 (PDict [("connector_name", PStr (app_name app)); ("action", PStr name);
                         ("input_fields", PList input); ("output_fields", PList output)]).

(** ** Webhooks *)

Definition webhook_env_key (name : string) : string :=
  "WEBHOOK_SECRET_" ++ replace_char "-" "_" (replace_char "." "_" (py_upper name)).

(** The first account with a secret. *)
Fixpoint account_secret (accounts : account_store) : option pyval :=
  match accounts with
  | [] => None
  | (_, acc) :: rest =>
      let secret := py_or (dget_or "webhook_secret" PNone acc) (dget_or "signing_secret" PNone acc) in
      if truthy secret then Some secret else account_secret rest
  end.
(** [_get_webhook_secret]. *)
Definition get_webhook_secret (name : string) (accounts : account_store) : option pyval :=
  match environ (webhook_env_key name) with
  | Some (String _ _ as secret) => Some (PStr secret)
  | _ => account_secret accounts
  end.

(** The algorithm of a name; an unknown one is SHA-256. *)
Definition hash_algorithm (name : string) : string :=
  if existsb (String.eqb name) ["hmac-sha256"; "hmac-sha1"; "hmac-sha512"] then name else "hmac-sha256".
Definition without_prefix (signature : string) : string :=
  if starts_with "sha256=" signature then str_drop 7 signature
  else if starts_with "sha1=" signature then str_drop 5 signature
  else if starts_with "sha512=" signature then str_drop 7 signature
  else signature.

Definition lower_keys (headers : list (string * string)) : list (string * string) :=
  map (fun kv => (py_lower kv.1, kv.2)) headers.
(** [_verify_webhook_signature]. *)
Definition verify_webhook_signature (body : string) (headers : list (string * string)) (meta : WebhookMeta)
    (name : string) (accounts : account_store) : res bool :=
  match wm_signature_header meta with
  | None | Some "" => Ok true
  | Some header =>
      match dget (py_lower header) (lower_keys headers) with
      | None | Some "" => Ok false
      | Some provided =>
          match get_webhook_secret name accounts with
          | None => Ok false
          | Some secret_value =>
              secret ← str_method "encode" secret_value;
              compare_digest (hmac_hex (hash_algorithm (wm_signature_algorithm meta)) secret body)
                (without_prefix provided)
          end
      end
  end.

Definition not_acknowledged (status : Z) (error : string) : http_response :=
  HttpResponse status (PDict [("acknowledged", PBool false); ("error", PStr error)]) [].
(** [webhook_handler]: only [ValueError]s of the parser are answered with 400. *)
Definition webhook_handler (name : string) (meta : WebhookMeta) (method : webhook_method) (req : http_request)
  : EM app_state http_response :=
  s ← get_st;
  signed ← lift (verify_webhook_signature (rq_body req) (rq_headers req) meta name (as_accounts s));
  if negb signed then mret (not_acknowledged 401 "Invalid webhook signature")
  else
    match json_loads (rq_body req) with
    | Raise (ValueError _) => mret (not_acknowledged 400 "Invalid JSON payload")
    | Raise e => raise e
    | Ok payload =>
        try_catch
          (result ← in_world (method payload);
           lift (json_reply 200 (PDict [("acknowledged", PBool true); ("data", result)])))
          (fun e => mret (not_acknowledged 500 (exn_str e)))
    end.

(** ** Health ([health.py]) *)

Definition round1 (x : Q) : Q := (round_half_even (Qnum x * 10) (Zpos (Qden x)) # 10)%Q.
Record probe := Probe { pr_status : string; pr_checks : list (string * string) }.

Definition upstream_check (test : EM W pyval) : EM W (bool * string) :=
  try_catch (ok ← test; mret (truthy ok, if truthy ok then "ok" else "unreachable"))
            (fun e => mret (false, "error: " ++ exn_str e)).
(** [liveness]. *)
Definition liveness : EM W probe :=
  match app_test_connection app with
  | None => mret (Probe "healthy" [])
  | Some test =>
      r ← upstream_check test;
      mret (Probe (if (r : bool * string).1 then "healthy" else "degraded") [("upstream_api", r.2)])
  end.
(** [readiness]. *)
Fixpoint run_checks (checks : list (string * EM W unit)) (results : list (string * string)) (all_ok : bool)
  : EM W (bool * list (string * string)) :=
  match checks with
  | [] => mret (all_ok, results)
  | (name, check) :: rest =>
      r ← try_catch (check ≫= fun _ => mret (true, "ok"))
                    (fun e => mret (false, "error: " ++ exn_str e));
      run_checks rest (dset name (r : bool * string).2 results) (all_ok && r.1)
  end.
Definition readiness : EM W probe :=
  first ← match app_test_connection app with
          | Some test =>
              if dhas "upstream_api" (app_readiness_checks app) then mret (true, [])
              else r ← upstream_check test; mret ((r : bool * string).1, [("upstream_api", r.2)])
          | None => mret (true, [])
          end;
  r ← run_checks (app_readiness_checks app) (first : bool * list (string * string)).2 first.1;
  mret (Probe (if (r : bool * list (string * string)).1 then "ready" else "not_ready") r.2).

Definition checks_value (p : probe) : pyval := PDict (map (fun kv => (kv.1, PStr kv.2)) (pr_checks p)).
(** [/health] and [/readiness]; the uptime in tenths of seconds. *)
Definition health_reply (req : http_request) (p : probe) : http_response :=
  HttpResponse 200 (PDict [("status", PStr (pr_status p)); ("version", PStr (app_version app));
    ("uptime_seconds", PInt (Qnum (round1 (rq_time req - start_time)%Q)));
    ("connector", PStr (app_name app)); ("checks", checks_value p)]) [].
Definition readiness_reply (p : probe) : http_response :=
  HttpResponse 200 (PDict [("status", PStr (pr_status p)); ("version", PStr (app_version app));
    ("checks", checks_value p)]) [].

(** ** Requests *)

Definition action_at (path : string) : option (string * (ActionMeta * action_method)) :=
  List.find (fun a => String.eqb path (action_path a.1)) (app_actions app).
Definition schema_at (path : string) : option (string * (ActionMeta * action_method)) :=
  List.find (fun a => am_dynamic_schema a.2.1 && String.eqb path (schema_path a.1)) (app_actions app).
Definition webhook_at (path : string) : option (string * (WebhookMeta * webhook_method)) :=
  List.find (fun a => String.eqb path ("/webhooks/" ++ a.1)) (app_webhooks app).

Definition method_not_allowed : http_response :=
  HttpResponse 405 (PDict [("detail", PStr "Method Not Allowed")]) [].
(** A route of one method. *)
Definition only (method : string) (req : http_request) (m : EM app_state http_response) : EM app_state http_response :=
  if String.eqb (rq_method req) method then m else mret method_not_allowed.

(** The routes in the order they are registered. *)
Definition route (req : http_request) : EM app_state http_response :=
  let path := rq_path req in
  if String.eqb path "/health" then only "GET" req (p ← in_world liveness; mret (health_reply req p))
  else if String.eqb path "/readiness" then only "GET" req (p ← in_world readiness; mret (readiness_reply p))
  else
    match action_at path with
    | Some (_, (_, method)) => only "POST" req (action_handler method req)
    | None =>
        match schema_at path with
        | Some (name, (meta, _)) => only "GET" req (lift (schema_handler name meta))
        | None =>
            match webhook_at path with
            | Some (name, (meta, method)) => only "POST" req (webhook_handler name meta method req)
            | None => other_routes req
            end
        end
    end.

(** [trace_middleware]. *)
Definition trace_id (req : http_request) : string :=
  match dget "x-trace-id" (lower_keys (rq_headers req)) with
  | Some (String _ _ as id) => id
  | _ => rq_uuid req
  end.
Definition traced (req : http_request) : EM app_state http_response :=
  response ← route req;
  mret (HttpResponse (hr_status response) (hr_body response) (dset "X-Trace-Id" (trace_id req) (hr_headers response))).

(** The limiter is the outermost middleware; without limits there is none. *)
Definition serve (req : http_request) : EM app_state http_response :=
  s ← get_st;
  let '(goes_on, buckets) := rate_limit (rq_time req) (rq_path req) (as_buckets s) in
  _ ← modify (set_buckets buckets);
  if goes_on then traced req else mret too_many_requests.

(** The requests of a run, with the answers. *)
Fixpoint serve_all (reqs : list http_request) (s : app_state)
  : list (http_request * res http_response) * app_state :=
  match reqs with
  | [] => ([], s)
  | req :: rest =>
      let '(r, s1) := serve req s in
      let '(rs, s2) := serve_all rest s1 in
      ((req, r) :: rs, s2)
  end.

(** ** Triggers *)

Inductive trigger_log := TriggerEmitted (event_count : Z) | TriggerError (error : string).

(** [len(events)]. *)
Definition py_len (v : pyval) : res Z :=
  match v with
  | PList l => Ok (Z.of_nat (List.length l))
  | PDict d => Ok (Z.of_nat (List.length d))
  | PStr s => Ok (Z.of_nat (String.length s))
  | _ => Raise (TypeError ("object of type '" ++ type_name v ++ "' has no len()"))
  end.

(** One round of [_run_trigger_loop]: the events are counted and logged. *)
Definition trigger_round (method : trigger_method) (last_run_at : option Z) : EM W (list trigger_log) :=
  try_catch
    (events ← tr_call method (if method_accepts_since (tr_signature method) then Some last_run_at else None);
     if truthy events then n ← lift (py_len events); mret [TriggerEmitted n] else mret [])
    (fun e => mret [TriggerError (exn_str e)]).

(** The rounds until the task is cancelled, by the times they start at. *)
Fixpoint run_trigger_loop (method : trigger_method) (last_run_at : option Z) (starts : list Z)
  : EM W (list trigger_log) :=
  match starts with
  | [] => mret []
  | started_at :: rest =>
      log ← trigger_round method last_run_at;
      more ← run_trigger_loop method (Some started_at) rest;
      mret (log ++ more)%list
  end.

(** ** The manifest *)

Definition optional_text (o : option string) : pyval := match o with Some s => PStr s | None => PNone end.
Definition manifest_routes : dict :=
  map (fun a => (a.1, PDict [("method", PStr "POST"); ("path", PStr (action_path a.1))])) (app_actions app).
Definition manifest_events : list pyval :=
  (map (fun t => PStr t.1) (app_triggers app)
   ++ List.concat (map (fun w => match wm_topic w.2.1 with
                                 | None | Some "" => []
                                 | Some topic => [PStr topic]
                                 end) (app_webhooks app)))%list.
Definition generate_manifest : dict :=
  let capabilities := PList (map (fun a => PStr a.1) (app_actions app)) in
  let cfg := app_config app in
  ([("name", PStr (app_name app)); ("category", PStr (app_category app)); ("version", PStr (app_version app));
    ("display_name", PStr (app_display_name app)); ("description", PStr (app_description app));
    ("interface", PStr (app_category app)); ("service_name", PStr ("connector-" ++ app_name app));
    ("capabilities", capabilities); ("events", PList manifest_events); ("actions", capabilities);
    ("action_routes", PDict manifest_routes);
    ("config_schema", PDict [("required", PList (map PStr (required_credentials cfg)))]);
    ("health_endpoint", PStr "/health"); ("docs_url", PStr "/docs")]
   ++ match rate_limits cfg with [] => [] | l => [("rate_limits", PDict (map (fun kv => (kv.1, PStr kv.2)) l))] end
   ++ match oauth2_config cfg with [] => [] | d => [("oauth2", PDict d)] end
   ++ match app_webhooks app with
      | [] => []
      | l => [("webhooks", PDict (map (fun w => (w.1, PDict
                [("topic", optional_text (wm_topic w.2.1));
                 ("signature_header", optional_text (wm_signature_header w.2.1));
                 ("signature_algorithm", PStr (wm_signature_algorithm w.2.1))])) l))]
      end)%list.
End app.
#[global] Arguments connector_app : clear implicits.
#[global] Arguments app_state : clear implicits.
#[global] Arguments decorated : clear implicits.

(** ** Paths and names *)

Lemma replace_back name :
  has_no "/" name = true -> replace_char "/" "." (replace_char "." "/" name) = name.
Proof.
  unfold replace_char. induction name as [|c name IH]; cbn; [done|]. intros [Hc H]%andb_prop.
  rewrite IH by done. f_equal. destruct (Ascii.eqb_spec c "."); [by subst|].
  by destruct (Ascii.eqb c "/").
Qed.

Lemma action_key_path name : has_no "/" name = true -> action_key (action_path name) = Some name.
Proof.
  intros H. unfold action_key, action_path. rewrite <-(replace_back name H) at 2.
  by destruct name.
Qed.

Lemma action_path_inj a b :
  has_no "/" a = true -> has_no "/" b = true -> action_path a = action_path b -> a = b.
Proof. intros Ha%action_key_path Hb%action_key_path E. congruence. Qed.

(** ** Buckets *)

Local Open Scope Q_scope.

(** A bucket that has given [n] tokens since it had [start]. *)
Definition bucket_ok (b : token_bucket) : Prop := 0 <= tb_tokens b /\ 0 <= inject_Z (tb_burst b) /\ 0 <= tb_rate b.

Lemma allow_spends now b ok b' :
  bucket_ok b -> tb_last_refill b <= now -> allow now b = (ok, b') ->
  bucket_ok b' /\ tb_last_refill b' = now /\ tb_rate b' = tb_rate b /\ tb_burst b' = tb_burst b /\
  (if ok then 1 else 0) + tb_tokens b' <= tb_tokens b + (now - tb_last_refill b) * tb_rate b.
Proof.
  intros (Ht & Hb & Hr) Hnow. unfold allow.
  assert (Hle : refill now b <= tb_tokens b + (now - tb_last_refill b) * tb_rate b) by apply Q.le_min_r.
  assert (Hpos : 0 <= refill now b).
  { unfold refill. apply Q.min_glb; [done|].
    assert (0 <= (now - tb_last_refill b) * tb_rate b) by (apply Qmult_le_0_compat; lra). lra. }
  destruct (Qle_bool 1 (refill now b)) eqn:E; intros [= <- <-]; unfold bucket_ok; cbn.
  - apply Qle_bool_iff in E. split_and!; try done; lra.
  - split_and!; try done; lra.
Qed.

Section buckets.
Context {V : Type}.
Implicit Types d : list (string * V).

Lemma dhas_dset_present k k' v d : dhas k' d = true -> dhas k (dset k' v d) = dhas k d.
Proof.
  intros H. unfold dhas in *. rewrite dget_dset. destruct (String.eqb_spec k k'); [subst|done].
  by destruct (dget k' d).
Qed.
End buckets.

Lemma bucket_of_present buckets key name :
  bucket_of buckets key = Some name -> exists b, dget name buckets = Some b.
Proof.
  unfold bucket_of, dhas. destruct (dget key buckets) eqn:E; [intros [= <-]; eauto|].
  destruct (dget "__default__" buckets) eqn:E'; [intros [= <-]; eauto|done].
Qed.

Lemma bucket_of_dset buckets k b key :
  dhas k buckets = true -> bucket_of (dset k b buckets) key = bucket_of buckets key.
Proof. intros H. unfold bucket_of. by rewrite !dhas_dset_present. Qed.

(** The bucket a request takes a token from. *)
Definition draws_from (buckets : list (string * token_bucket)) (path : string) : option string :=
  key ← action_key path; bucket_of buckets key.

Lemma rate_limit_step now path buckets k b ok buckets' :
  dget k buckets = Some b -> bucket_ok b -> tb_last_refill b <= now ->
  rate_limit now path buckets = (ok, buckets') ->
  (forall p, draws_from buckets' p = draws_from buckets p) /\
  exists b', dget k buckets' = Some b' /\ bucket_ok b' /\ tb_last_refill b' <= now /\ tb_rate b' = tb_rate b /\
  (if ok then if decide (draws_from buckets path = Some k) then 1 else 0 else 0) + tb_tokens b'
  <= tb_tokens b + (tb_last_refill b' - tb_last_refill b) * tb_rate b.
Proof.
  intros Hb Hok Hnow. unfold rate_limit, draws_from.
  assert (Hsame : forall n : Q, n = 0 -> n + tb_tokens b <= tb_tokens b + (tb_last_refill b - tb_last_refill b) * tb_rate b)
    by (intros n ->; lra).
  destruct (action_key path) as [key|]; cbn; [|intros [= <- <-]; split; [done|exists b; split_and!; try done; by apply Hsame]].
  destruct (bucket_of buckets key) as [name|] eqn:En; cbn;
    [|intros [= <- <-]; split; [done|exists b; split_and!; try done; by apply Hsame]].
  destruct (bucket_of_present _ _ _ En) as [c Ec]. rewrite Ec. cbn.
  destruct (allow now c) as [a c'] eqn:Ea. intros [= <- <-].
  assert (Hin : dhas name buckets = true) by (unfold dhas; by rewrite Ec).
  split; [intros p; destruct (action_key p); cbn; [by apply bucket_of_dset|done]|].
  rewrite dget_dset. destruct (String.eqb_spec k name) as [->|Hne].
  - assert (c = b) as -> by congruence.
    destruct (allow_spends now b a c' Hok Hnow Ea) as (H1 & H2 & H3 & H4 & H5).
    exists c'. rewrite decide_True by done. rewrite H2. split_and!; try done.
    apply Qle_refl.
  - exists b. rewrite decide_False by congruence. split_and!; try done. apply Hsame. by destruct a.
Qed.

(** The counts of what [p] holds of, as fractions. *)
Definition counted {A} (p : A -> bool) (l : list A) : Q := inject_Z (Z.of_nat (List.length (List.filter p l))).

Lemma counted_cons {A} (p : A -> bool) x l : counted p (x :: l) == (if p x then 1 else 0) + counted p l.
Proof.
  unfold counted. cbn. destruct (p x); cbn [List.length]; [|ring].
  rewrite Nat2Z.inj_succ, <-Z.add_1_l, inject_Z_plus. ring.
Qed.

Lemma incl_filter_length {A} (p q : A -> bool) (l : list A) :
  (forall x, p x = true -> q x = true) -> (List.length (List.filter p l) <= List.length (List.filter q l))%nat.
Proof.
  intros H. induction l as [|x l IH]; cbn; [done|].
  destruct (p x) eqn:E; [rewrite (H x E); cbn; lia|]. destruct (q x); cbn; lia.
Qed.

(** Requests one after the other from a time on, and the time of the last. *)
Fixpoint ordered_from (t : Q) (reqs : list http_request) : Prop :=
  match reqs with [] => True | r :: rest => t <= rq_time r /\ ordered_from (rq_time r) rest end.
Fixpoint last_time (t : Q) (reqs : list http_request) : Q :=
  match reqs with [] => t | r :: rest => last_time (rq_time r) rest end.

Lemma ordered_last t reqs : ordered_from t reqs -> t <= last_time t reqs.
Proof.
  revert t. induction reqs as [|r rest IH]; cbn; intros t; [intros _; apply Qle_refl|].
  intros [H Hr]. eapply Qle_trans; [exact H|by apply IH].
Qed.

(** The answer of the limiter. *)
Definition limited (r : res http_response) : bool :=
  match r with Ok h => bool_decide (hr_status h = 429%Z) | Raise _ => false end.

(** The bucket of an action with a limit of its own. *)
Lemma add_bucket_ne now buckets limit buckets' k :
  add_bucket now buckets limit = Ok buckets' -> k <> limit.1 -> dget k buckets' = dget k buckets.
Proof.
  unfold add_bucket. destruct (String.eqb limit.1 "default"); [by intros [= <-]|].
  intros (spec & _ & [= <-])%bind_Ok_inv Hk. by apply dget_dset_ne.
Qed.

Lemma add_buckets_ne now limits : forall buckets buckets' k,
  foldR (add_bucket now) buckets limits = Ok buckets' -> k ∉ dkeys limits -> dget k buckets' = dget k buckets.
Proof.
  induction limits as [|limit limits IH]; intros buckets buckets' k; cbn; [by intros [= <-]|].
  intros (b1 & H1 & H2)%bind_Ok_inv [Hk Hks]%not_elem_of_cons.
  rewrite (IH _ _ _ H2 Hks). by apply (add_bucket_ne now _ limit).
Qed.

Lemma make_buckets_own now limits buckets name text rate burst :
  NoDup (dkeys limits) -> make_buckets now limits = Ok buckets -> name <> "default"%string ->
  dget name limits = Some text -> parse_rate_spec text = Ok (rate, burst) ->
  dget name buckets = Some (new_bucket now rate burst).
Proof.
  unfold make_buckets. intros Hnd (first & _ & H)%bind_Ok_inv Hname Hget Hspec. revert first H.
  induction limits as [|[k t] limits IH]; intros first; cbn; [done|].
  intros (b1 & H1 & H2)%bind_Ok_inv. cbn in Hnd, Hget. apply list.NoDup_cons in Hnd as [Hk Hnd].
  destruct (String.eqb_spec name k) as [->|Hne]; [|by apply (IH Hnd Hget b1)].
  injection Hget as ->. rewrite (add_buckets_ne _ _ _ _ _ H2 Hk). revert H1. unfold add_bucket. cbn.
  destruct (String.eqb_spec k "default"); [done|]. rewrite Hspec. intros [= <-]. apply dget_dset_eq.
Qed.

Lemma parse_rate_nonneg text rate burst :
  parse_rate_spec text = Ok (rate, burst) -> (0 <= burst)%Z -> 0 <= rate.
Proof.
  unfold parse_rate_spec. destruct (split_char "/" (py_strip text)) as [|a [|b [|c l]]];
    try (intros [= <- <-] _; discriminate).
  intros (n & _ & [= <- <-])%bind_Ok_inv Hn. unfold Qle. cbn. lia.
Qed.

Section served.
Context {W : Type}.
Variable json_loads : string -> res pyval.
Variable hmac_hex : string -> string -> string -> string.
Variable environ : string -> option string.
Variable other_routes : http_request -> EM (app_state W) http_response.
Hypothesis other_keeps : forall b req, preserves (fun s => as_buckets s = b) (other_routes req).
Variable app : connector_app W.
Variable start_time : Q.

Abbreviation route := (route json_loads hmac_hex environ other_routes app start_time).
Abbreviation serve := (serve json_loads hmac_hex environ other_routes app start_time).
Abbreviation serve_all := (serve_all json_loads hmac_hex environ other_routes app start_time).

Lemma in_world_keeps {A} b (m : EM W A) : preserves (fun s => as_buckets s = b) (in_world m).
Proof.
  apply preserves_within with (Q := fun _ => True); [done|by intros s t Hs _|by intros s _].
Qed.
#[local] Hint Resolve in_world_keeps other_keeps : effects.

Lemma route_keeps b req : preserves (fun s => as_buckets s = b) (route req).
Proof.
  unfold SdkApp.route, only, action_handler, webhook_handler. preserve.
Qed.

Lemma serve_step req s r s' :
  serve req s = (r, s') ->
  as_buckets s' = (rate_limit (rq_time req) (rq_path req) (as_buckets s)).2 /\
  (limited r = false -> (rate_limit (rq_time req) (rq_path req) (as_buckets s)).1 = true).
Proof.
  unfold SdkApp.serve. rewrite (bind_run get_st _ s s s eq_refl).
  destruct (rate_limit _ _ _) as [ok buckets]. rewrite (bind_run (modify _) _ s tt _ eq_refl).
  destruct ok; [|by intros [= <- <-]].
  intros H. split; [|done]. cbn.
  assert (Hk : preserves (fun s => as_buckets s = buckets) (traced json_loads hmac_hex environ other_routes app start_time req)).
  { apply preserves_bind; [apply route_keeps|]. intros a. apply preserves_ret. }
  specialize (Hk (set_buckets buckets s) eq_refl). by rewrite H in Hk.
Qed.

(** Requests that take from the bucket [k] and are let through. *)
Definition took (buckets : list (string * token_bucket)) (k : string) (e : http_request * res http_response) : bool :=
  bool_decide (draws_from buckets (rq_path e.1) = Some k) && negb (limited e.2).

Lemma bucket_bound k reqs : forall t s b,
  dget k (as_buckets s) = Some b -> bucket_ok b -> tb_last_refill b <= t -> ordered_from t reqs ->
  counted (took (as_buckets s) k) (serve_all reqs s).1
  <= tb_tokens b + (last_time t reqs - tb_last_refill b) * tb_rate b.
Proof.
  induction reqs as [|req reqs IH]; intros t s b Hb Hok Hbt Hord.
  - destruct Hok as (H1 & _ & H2). cbn. change (counted _ _) with 0.
    assert (0 <= (t - tb_last_refill b) * tb_rate b) by (apply Qmult_le_0_compat; lra). lra.
  - destruct Hord as [Ht Hord]. cbn.
    destruct (serve req s) as [r s1] eqn:E. destruct (serve_step _ _ _ _ E) as [E1 Hlim].
    destruct (rate_limit (rq_time req) (rq_path req) (as_buckets s)) as [ok buckets] eqn:Er. cbn in E1, Hlim. subst buckets.
    destruct (rate_limit_step _ _ _ k b ok _ Hb Hok (Qle_trans _ _ _ Hbt Ht) Er) as [Hd (b' & Hb' & Hok' & Hl' & Hr' & Hcount)].
    specialize (IH (rq_time req) s1 b' Hb' Hok' Hl' Hord).
    destruct (serve_all reqs s1) as [rs s2]. cbn in *. rewrite counted_cons, Hr' in *.
    assert (Hsame : counted (took (as_buckets s) k) rs = counted (took (as_buckets s1) k) rs).
    { unfold counted. do 3 f_equal. apply List.filter_ext. intros e. unfold took. by rewrite Hd. }
    rewrite Hsame.
    assert (Htook : (if took (as_buckets s) k (req, r) then 1 else 0)
                    <= (if ok then if decide (draws_from (as_buckets s) (rq_path req) = Some k) then 1 else 0 else 0)).
    { unfold took. cbn. destruct (limited r); [rewrite andb_false_r|rewrite Hlim, andb_true_r by done].
      - destruct ok; [case_decide; discriminate|discriminate].
      - rewrite bool_decide_decide. case_decide; discriminate. }
    lra.
Qed.

(** C36: a connector lets through, of the requests for an action with a limit of its own, never more than the
    limit's burst and its rate for the time since the start allow, whatever requests for other paths come between. *)
Theorem actions_within_rate now limits name text rate burst reqs s :
  NoDup (dkeys limits) -> make_buckets now limits = Ok (as_buckets s) ->
  has_no "/" name = true -> name <> "default"%string -> dget name limits = Some text ->
  parse_rate_spec text = Ok (rate, burst) -> (0 <= burst)%Z -> ordered_from now reqs ->
  counted (fun e => String.eqb (rq_path e.1) (action_path name) && negb (limited e.2)) (serve_all reqs s).1
  <= inject_Z burst + (last_time now reqs - now) * rate.
Proof.
  intros Hnd Hmake Hslash Hname Hget Hspec Hburst Hord.
  pose proof (make_buckets_own _ _ _ _ _ _ _ Hnd Hmake Hname Hget Hspec) as Hb.
  pose proof (parse_rate_nonneg _ _ _ Hspec Hburst) as Hrate.
  assert (Hok : bucket_ok (new_bucket now rate burst)) by (unfold bucket_ok, Qle; cbn; split_and!; try lia; exact Hrate).
  eapply Qle_trans; [|apply (bucket_bound name reqs now s _ Hb Hok (Qle_refl _) Hord)].
  unfold counted. rewrite <-Zle_Qle. apply inj_le, incl_filter_length. intros e.
  unfold took, draws_from. destruct (String.eqb_spec (rq_path e.1) (action_path name)) as [->|]; [|done].
  rewrite action_key_path by done. cbn. unfold bucket_of, dhas. rewrite Hb. by rewrite bool_decide_eq_true_2.
Qed.

Local Open Scope string_scope.

Lemma route_webhook req name meta method :
  rq_path req = "/webhooks/" ++ name -> has_no "/" name = true -> webhook_at app (rq_path req) = Some (name, (meta, method)) ->
  route req = only "POST" req (webhook_handler json_loads hmac_hex environ name meta method req).
Proof.
  intros Hp Hn Hat. unfold SdkApp.route. rewrite Hat, Hp.
  assert (Ha : action_at app ("/webhooks/" ++ name) = None).
  { unfold action_at. induction (app_actions app) as [|a l IH]; [done|]. cbn [List.find]. by rewrite IH. }
  assert (Hs : schema_at app ("/webhooks/" ++ name) = None).
  { unfold schema_at. induction (app_actions app) as [|a l IH]; [done|]. cbn [List.find].
    by destruct (am_dynamic_schema _); cbn [andb]; rewrite IH. }
  by rewrite Ha, Hs.
Qed.

(** A webhook with a signature header changes nothing unless the request is signed with the webhook's secret. *)
Theorem unsigned_webhook_is_inert req name meta (method : webhook_method) header (s : app_state W) r s' :
  wm_signature_header meta = Some header -> header <> "" ->
  webhook_handler json_loads hmac_hex environ name meta method req s = (r, s') -> s' <> s ->
  exists provided secret,
    dget (py_lower header) (lower_keys (rq_headers req)) = Some provided /\
    get_webhook_secret environ name (as_accounts s) = Some (PStr secret) /\
    hmac_hex (hash_algorithm (wm_signature_algorithm meta)) secret (rq_body req) = without_prefix provided.
Proof.
  intros Hh Hne. unfold webhook_handler. rewrite (bind_run get_st _ s s s eq_refl).
  destruct (verify_webhook_signature _ _ _ _ _ _ _) as [[|]|e] eqn:E.
  2: { rewrite (bind_run (lift (Ok false)) _ s false s eq_refl). by intros [= <- <-]. }
  2: { by intros [= <- <-]. }
  intros _ _. revert E. unfold verify_webhook_signature. rewrite Hh. destruct header as [|c h]; [done|].
  destruct (dget _ _) as [[|p provided]|]; [done| |done].
  destruct (get_webhook_secret _ _ _) as [secret|]; [|done].
  intros (key & Hkey & H)%bind_Ok_inv. destruct secret; try discriminate Hkey. injection Hkey as ->.
  exists (String p provided), key. split_and!; [done|done|]. by apply compare_digest_equal.
Qed.

(** The routes of the manifest are the routes of the application, one for each action. *)
Theorem manifest_routes_are_served name meta method req :
  NoDup (dkeys (app_actions app)) -> Forall (fun a => has_no "/" a.1 = true) (app_actions app) ->
  (name, (meta, method)) ∈ app_actions app ->
  rq_method req = "POST" -> rq_path req = action_path name ->
  dget name (manifest_routes app) = Some (PDict [("method", PStr "POST"); ("path", PStr (action_path name))]) /\
  route req = action_handler json_loads method req.
Proof.
  intros Hnd Hall Hin Hm Hp. split.
  { unfold manifest_routes. revert Hnd Hin. clear. induction (app_actions app) as [|[k a] l IH]; cbn; [by intros _ ?%not_elem_of_nil|].
    intros [Hk Hnd]%list.NoDup_cons Hin. apply elem_of_cons in Hin as [[= <- <-]|Hin]; [by rewrite String.eqb_refl|].
    destruct (String.eqb_spec name k) as [->|]; [|by apply IH]. destruct Hk. apply elem_of_dkeys. eauto. }
  unfold SdkApp.route. rewrite Hp. cbn [action_path].
  assert (Ha : action_at app (action_path name) = Some (name, (meta, method))).
  { unfold action_at. revert Hnd Hall Hin. induction (app_actions app) as [|[k a] l IH]; [by intros _ _ ?%not_elem_of_nil|].
    cbn [List.find fst]. intros [Hk Hnd]%list.NoDup_cons [Hh Hall]%Forall_cons_iff Hin.
    destruct (String.eqb_spec (action_path name) (action_path k)) as [E|E].
    - apply elem_of_cons in Hin as [[= <- <-]|Hin]; [done|]. exfalso. apply Hk.
      assert (Hname : has_no "/" name = true).
      { apply (proj1 (Forall_forall _ _) Hall (name, (meta, method))). by apply list_elem_of_In. }
      rewrite <-(action_path_inj _ _ Hname Hh E). apply elem_of_dkeys. eauto.
    - apply elem_of_cons in Hin as [Hin|Hin]; [injection Hin as <- <-; done|by apply IH]. }
  rewrite Ha. unfold only. by rewrite Hm.
Qed.

(** The probes answer whatever the connector's checks do. *)
Lemma upstream_check_answers test (w : W) : exists b text w', upstream_check test w = (Ok (b, text), w').
Proof.
  unfold upstream_check, try_catch. destruct ((test ≫= _) w) as [[[b t]|e] w'] eqn:E; eauto.
Qed.

Lemma run_checks_answers checks : forall results ok (w : W),
  exists r w', run_checks checks results ok w = (Ok r, w').
Proof.
  induction checks as [|[name check] checks IH]; intros results ok w; cbn; [by eexists _, _|].
  unfold mbind, EM_bind, try_catch. destruct (check w) as [[u|e] w']; cbn; apply IH.
Qed.

Theorem probes_answer (w : W) :
  (exists p w', liveness app w = (Ok p, w')) /\ (exists p w', readiness app w = (Ok p, w')).
Proof.
  split.
  - unfold liveness. destruct (app_test_connection app) as [test|]; [|by eexists _, _].
    destruct (upstream_check_answers test w) as (b & t & w' & E).
    rewrite (bind_run _ _ _ _ _ E). by eexists _, _.
  - unfold readiness.
    lazymatch goal with |- context [?m ≫= _] => assert (Hfirst : exists r w', m w = (Ok r, w')) end.
    { destruct (app_test_connection app) as [test|]; [|by eexists _, _].
      destruct (dhas _ _); [by eexists _, _|].
      destruct (upstream_check_answers test w) as (b & t & w' & E).
      rewrite (bind_run _ _ _ _ _ E). by eexists _, _. }
    destruct Hfirst as (r1 & w1 & E1). cbn beta in *. rewrite (bind_run _ _ _ _ _ E1).
    destruct (run_checks_answers (app_readiness_checks app) r1.2 r1.1 w1) as (r2 & w2 & E2).
    rewrite (bind_run _ _ _ _ _ E2). by eexists _, _.
Qed.
End served.

(** ** Examples *)

Local Open Scope string_scope.

(** A connector whose state counts the calls of its methods. *)
Definition demo_action : action_method := fun payload n => (Ok (Value (PDict [("status_code", PBool true)])), (n + 1)%Z).
Definition demo_hook : webhook_method (W := Z) := fun payload n => (Ok payload, (n + 1)%Z).
Definition demo_meta (name : string) : ActionMeta := MkActionMeta name (PlainSchema PNone) (PlainSchema PNone) false.
Definition demo_hook_meta : WebhookMeta := MkWebhookMeta "paid" (Some "order.paid") (Some "X-Sign") "hmac-sha256".
Definition demo_limits : list (string * string) := [("order.create", "2/minute"); ("default", "10/day")].
Definition demo_app : connector_app Z :=
  discover_decorated_methods
    (ConnectorApp "demo" "shop" "1.0.0" "Demo" "" (ConnectorConfig [] demo_limits [] 8000) [] [] [] None [])
    [("create", DecoratedAction (demo_meta "order.create") demo_action);
     ("_hidden", DecoratedAction (demo_meta "order.hidden") demo_action);
     ("paid", DecoratedWebhook demo_hook_meta demo_hook)].
Definition demo_loads (body : string) : res pyval := Ok (PStr body).
Definition demo_hmac (algorithm key body : string) : string := key ++ "/" ++ body.
Definition demo_other (req : http_request) : EM (app_state Z) http_response := mret (HttpResponse 404 PNone []).
Definition demo_serve_all := serve_all demo_loads demo_hmac (fun _ => None) demo_other demo_app 0%Q.
Definition demo_state : app_state Z :=
  AppState (match make_buckets 0%Q demo_limits with Ok b => b | Raise _ => [] end)
    [("first", [("webhook_secret", PStr "s1")]); ("second", [("webhook_secret", PStr "s2")])] 0%Z.
Definition post (path signature : string) (t : Q) : http_request :=
  HttpRequest "POST" path [("x-sign", signature)] "{}" t "uuid".
Definition demo_requests : list http_request :=
  [post "/actions/order/create" "" 0; post "/actions/order/create" "" 1; post "/actions/order/create" "" 2;
   post "/actions/order/create" "" 31].

Lemma actions_within_rate_witness :
  (counted (fun e => String.eqb (rq_path e.1) (action_path "order.create") && negb (limited e.2))
     (demo_serve_all demo_requests demo_state).1
   <= inject_Z 2 + (last_time 0 demo_requests - 0) * (2 # 60))%Q.
Proof.
  apply (actions_within_rate demo_loads demo_hmac (fun _ => None) demo_other
           ltac:(intros b req s H; exact H) demo_app 0 0 demo_limits "order.create" "2/minute" (2 # 60) 2 demo_requests demo_state).
  - by_deciding.
  - vm_compute. reflexivity.
  - reflexivity.
  - discriminate.
  - reflexivity.
  - vm_compute. reflexivity.
  - lia.
  - vm_compute. repeat split; discriminate.
Defined.

(** Three of the four requests pass, and the flag in their answer is taken for a status. *)
Example demo_requests_served :
  map (fun e => match e.2 with Ok h => hr_status h | Raise _ => 0%Z end) (demo_serve_all demo_requests demo_state).1
  = [1; 1; 429; 1]%Z /\ as_world (demo_serve_all demo_requests demo_state).2 = 3%Z.
Proof. by vm_compute. Qed.

(** A unit the limiter does not know counts as a minute. *)
Example unknown_unit_is_a_minute : parse_rate_spec "10/day" = Ok (10 # 60, 10%Z).
Proof. reflexivity. Qed.

(** With two accounts only the events signed with the first one's secret are accepted. *)
Example only_the_first_secret :
  map (fun e => match e.2 with Ok h => hr_status h | Raise _ => 0%Z end)
    (demo_serve_all [post "/webhooks/paid" "sha256=s1/{}" 0; post "/webhooks/paid" "s2/{}" 0] demo_state).1
  = [200; 401]%Z.
Proof. by vm_compute. Qed.

(** A trigger that fails in its second round: the third asks from the second's start. *)
Definition flaky_trigger : trigger_method (W := list (option Z)) :=
  TriggerMethod [("since", PositionalOrKeyword)] (fun since asked =>
    let since := default None since in
    (match asked with [_] => Raise (OtherError "down") | _ => Ok (PList [PNone]) end, (asked ++ [since])%list)).
Example failed_window_is_lost :
  run_trigger_loop flaky_trigger None [60; 120; 180]%Z []
  = (Ok [TriggerEmitted 1; TriggerError "down"; TriggerEmitted 1], [None; Some 60; Some 120]%Z).
Proof. reflexivity. Qed.
