(* ===== verification/SdkOAuth.v ===== *)
(** The OAuth2 tokens of a connector built with the SDK
    ([sdk/python/pinquark_connector_sdk/auth.py] and the [/oauth2] routes of [app.py]).

    The provider, the clock and the callbacks that load and save tokens act on a world [W];
    times are floats, as [time.time] gives them. *)

From Stdlib Require Import SpecFloat.
From S2P Require Import Prelude PyText PyFloat PyValue Effects OAuth.

Local Open Scope string_scope.

Record TokenData := MkTokenData {
  td_access_token : string;
  td_refresh_token : option string;
  td_token_type : string;
  td_expires_at : option pyfloat;
  td_scope : option string;
  td_raw : dict
}.

Definition optional_value (o : option string) : pyval := match o with Some s => PStr s | None => PNone end.
(** [model_dump]. *)
Definition model_dump (t : TokenData) : pyval :=
  PDict [("access_token", PStr (td_access_token t)); ("refresh_token", optional_value (td_refresh_token t));
         ("token_type", PStr (td_token_type t));
         ("expires_at", match td_expires_at t with Some f => PFloat f | None => PNone end);
         ("scope", optional_value (td_scope t)); ("raw", PDict (td_raw t))].

(** The provider's answer: its status and its JSON. *)
Record provider_answer := ProviderAnswer { pa_status : Z; pa_json : res pyval }.

(** The fields of [TokenData] are texts; anything else is a validation error. *)
Definition validation_error (field : string) : pyexn := ValueError ("validation error for TokenData: " ++ field).
Definition text_of (field : string) (v : pyval) : res string :=
  match v with PStr s => Ok s | _ => Raise (validation_error field) end.
Definition optional_text_of (field : string) (v : pyval) : res (option string) :=
  match v with PNone => Ok None | PStr s => Ok (Some s) | _ => Raise (validation_error field) end.

Definition expires_at_of (now : pyfloat) (data : dict) : res (option pyfloat) :=
  match dget "expires_in" data, dget "expires_at" data with
  | Some v, _ => n ← py_int v; f ← float_of_Z n; Ok (Some (fadd now f))
  | None, Some v => f ← py_float v; Ok (Some f)
  | None, None => Ok None
  end.
(** [_parse_token_response]. *)
Definition parse_token_response (now : pyfloat) (response : pyval) : res TokenData :=
  match response with
  | PDict data =>
      expires_at ← expires_at_of now data;
      access_value ← match dget "access_token" data with Some v => Ok v | None => Raise (KeyError "access_token") end;
      access ← text_of "access_token" access_value;
      refresh ← optional_text_of "refresh_token" (dget_or "refresh_token" PNone data);
      token_type ← text_of "token_type" (dget_or "token_type" (PStr "Bearer") data);
      scope ← optional_text_of "scope" (dget_or "scope" PNone data);
      Ok (MkTokenData access refresh token_type expires_at scope data)
  | _ => Raise (TypeError "the token response is not an object")
  end.

(** The settings of [OAuth2Manager]. *)
Record oauth2_settings := OAuth2Settings {
  os_client_id : string;
  os_client_secret : string;
  os_authorize_url : string;
  os_token_url : string;
  os_redirect_uri : string;
  os_scopes : list string
}.

Definition get_authorization_url (c : oauth2_settings) (state : option string) : string :=
  os_authorize_url c ++ "?" ++ urlencode
    ([("client_id", PStr (os_client_id c)); ("redirect_uri", PStr (os_redirect_uri c)); ("response_type", PStr "code")]
     ++ match os_scopes c with [] => [] | l => [("scope", PStr (str_join " " l))] end
     ++ match state with None | Some "" => [] | Some s => [("state", PStr s)] end)%list.

Section manager.
Context {W : Type}.

Record manager_state := ManagerState { ms_tokens : list (string * TokenData); ms_world : W }.
Definition set_ms_tokens (l : list (string * TokenData)) (s : manager_state) : manager_state := ManagerState l (ms_world s).
Definition set_ms_world (w : W) (s : manager_state) : manager_state := ManagerState (ms_tokens s) w.

Variable settings : oauth2_settings.
Variable clock : W -> pyfloat.
(** A form posted to the token URL. *)
Variable post_form : list (string * string) -> EM W provider_answer.
Variable on_token_save : option (string -> TokenData -> EM W unit).
Variable on_token_load : option (string -> EM W (option TokenData)).

Definition in_outer {A} (m : EM W A) : EM manager_state A := within ms_world set_ms_world m.

(** [raise_for_status] accepts 2xx. *)
Definition token_request (form : list (string * string)) : EM manager_state TokenData :=
  answer ← in_outer (post_form form);
  if (200 <=? pa_status answer)%Z && (pa_status answer <? 300)%Z then
    data ← lift (pa_json answer);
    s ← get_st;
    lift (parse_token_response (clock (ms_world s)) data)
  else raise (OtherError "HTTPStatusError").

Definition store_token (account : string) (token : TokenData) : EM manager_state unit :=
  _ ← modify (fun s => set_ms_tokens (dset account token (ms_tokens s)) s);
  match on_token_save with Some save => in_outer (save account token) | None => mret tt end.

Definition exchange_code (code account : string) : EM manager_state TokenData :=
  token ← token_request [("grant_type", "authorization_code"); ("code", code); ("redirect_uri", os_redirect_uri settings);
                         ("client_id", os_client_id settings); ("client_secret", os_client_secret settings)];
  _ ← store_token account token;
  mret token.

Definition get_token (account : string) : EM manager_state (option TokenData) :=
  s ← get_st;
  match dget account (ms_tokens s) with
  | Some t => mret (Some t)
  | None =>
      match on_token_load with
      | None => mret None
      | Some load =>
          loaded ← in_outer (load account);
          match loaded with
          | None => mret None
          | Some t => _ ← modify (fun s => set_ms_tokens (dset account t (ms_tokens s)) s); mret (Some t)
          end
      end
  end.

(** A refresh without a new refresh token keeps the old one. *)
Definition keep_refresh_token (refresh : string) (t : TokenData) : TokenData :=
  match td_refresh_token t with
  | Some _ => t
  | None => MkTokenData (td_access_token t) (Some refresh) (td_token_type t) (td_expires_at t) (td_scope t) (td_raw t)
  end.
Definition refresh_token (account : string) : EM manager_state TokenData :=
  current ← get_token account;
  match t ← current; td_refresh_token t with
  | None => raise (ValueError ("No refresh token available for account '" ++ account ++ "'"))
  | Some refresh =>
      token ← token_request [("grant_type", "refresh_token"); ("refresh_token", refresh);
                             ("client_id", os_client_id settings); ("client_secret", os_client_secret settings)];
      let token := keep_refresh_token refresh token in
      _ ← store_token account token;
      mret token
  end.

(** A token is renewed in the last minute of its life. *)
Definition float_60 : pyfloat := match float_of_Z 60 with Ok f => f | Raise _ => S754_nan end.
Definition due (now : pyfloat) (t : TokenData) : bool :=
  match td_expires_at t with
  | None => false
  | Some e => cmp_holds OpGe (num_cmp (PFloat now) (PFloat (fsub e float_60)))
  end.
Definition get_valid_token (account : string) : EM manager_state string :=
  current ← get_token account;
  match current with
  | None => raise (ValueError ("No token stored for account '" ++ account ++ "'"))
  | Some t =>
      s ← get_st;
      if due (clock (ms_world s)) t then token ← refresh_token account; mret (td_access_token token)
      else mret (td_access_token t)
  end.

(** ** The routes *)

(** [str(payload.get(k, default)).strip()]. *)
Definition stripped (k : string) (fallback : pyval) (payload : dict) : string := py_strip (py_str (dget_or k fallback payload)).
Definition account_of (payload : dict) : string :=
  match stripped "account" (PStr "default") payload with "" => "default" | a => a end.
Definition oauth2_authorize (state : option string) : pyval :=
  PDict [("authorization_url", PStr (get_authorization_url settings state))].
Definition oauth2_callback (payload : dict) : EM manager_state pyval :=
  match stripped "code" (PStr "") payload with
  | "" => mret (PDict [("error", PStr "Missing authorization code")])
  | code => token ← exchange_code code (account_of payload); mret (model_dump token)
  end.
Definition oauth2_refresh (payload : dict) : EM manager_state pyval :=
  token ← refresh_token (account_of payload); mret (model_dump token).

(** ** Facts *)

(** The accounts that can renew their token. *)
Definition renewable (account : string) (s : manager_state) : Prop :=
  exists t r, dget account (ms_tokens s) = Some t /\ td_refresh_token t = Some r.

Lemma get_token_known account s t :
  dget account (ms_tokens s) = Some t -> get_token account s = (Ok (Some t), s).
Proof. intros H. unfold get_token. rewrite (bind_run get_st _ s s s eq_refl). by rewrite H. Qed.

Lemma in_outer_keeps {A} l (m : EM W A) : preserves (fun s => ms_tokens s = l) (in_outer m).
Proof. apply preserves_within with (Q := fun _ => True); [done|by intros s t H _|by intros s _]. Qed.

Lemma store_token_stores account token s :
  ms_tokens (store_token account token s).2 = dset account token (ms_tokens s).
Proof.
  unfold store_token. rewrite (bind_run (modify _) _ s tt _ eq_refl).
  destruct on_token_save; [by apply in_outer_keeps|done].
Qed.

Lemma token_request_keeps l form : preserves (fun s => ms_tokens s = l) (token_request form).
Proof.
  unfold token_request. preserve. by apply in_outer_keeps.
Qed.

(** A known account that can renew its token stays able to, however the refresh ends; a
    refresh that succeeds stores what it returns, with a refresh token. *)
Theorem refresh_stays_renewable account other s r s' :
  dhas account (ms_tokens s) = true -> refresh_token account s = (r, s') -> renewable other s ->
  renewable other s' /\ (forall t, r = Ok t -> dget account (ms_tokens s') = Some t /\ renewable account s').
Proof.
  intros Hin E Hren. unfold dhas in Hin. destruct (dget account (ms_tokens s)) as [t|] eqn:Et; [|done]. revert E.
  unfold refresh_token. rewrite (bind_run _ _ _ _ _ (get_token_known _ _ _ Et)). cbn.
  destruct (td_refresh_token t) as [refresh|] eqn:Er; [|by intros [= <- <-]].
  unfold mbind at 1, EM_bind at 1. destruct (token_request _ s) as [[token|e] s1] eqn:Eq.
  all: assert (E1 : ms_tokens s1 = ms_tokens s)
         by (pose proof (token_request_keeps (ms_tokens s) [("grant_type", "refresh_token"); ("refresh_token", refresh);
                ("client_id", os_client_id settings); ("client_secret", os_client_secret settings)] s eq_refl) as Hk;
             by rewrite Eq in Hk).
  2: { intros [= <- <-]. split; [|done]. unfold renewable. by rewrite E1. }
  set (kept := keep_refresh_token refresh token). cbn. unfold mbind, EM_bind.
  assert (Hkept : exists r, td_refresh_token kept = Some r).
  { unfold kept, keep_refresh_token. destruct (td_refresh_token token) eqn:?; eauto. }
  destruct (store_token account kept s1) as [res s2] eqn:Es. pose proof (store_token_stores account kept s1) as E2.
  rewrite Es, E1 in E2. cbn in E2. intros E.
  assert (s' = s2) as -> by (by destruct res; injection E).
  destruct Hkept as [k Hk]. split.
  - destruct Hren as (t0 & r0 & H0 & H1). unfold renewable. rewrite E2, dget_dset.
    destruct (String.eqb_spec other account); eauto.
  - intros t0 ->. destruct res; [|done]. injection E as <-. unfold renewable. rewrite E2, dget_dset_eq. eauto.
Qed.

(** The token given out is not about to expire, or has just been fetched. *)
Theorem valid_token_fresh account s access s' t :
  dget account (ms_tokens s) = Some t -> get_valid_token account s = (Ok access, s') ->
  if due (clock (ms_world s)) t then exists t', refresh_token account s = (Ok t', s') /\ access = td_access_token t'
  else access = td_access_token t /\ s' = s.
Proof.
  intros Et. unfold get_valid_token. rewrite (bind_run _ _ _ _ _ (get_token_known _ _ _ Et)).
  rewrite (bind_run get_st _ s s s eq_refl). destruct (due _ t).
  - intros H. em_ok. eauto.
  - by intros [= <- <-].
Qed.
End manager.
