(* ===== verification/Legacy.v ===== *)
(** The bridge that gives an existing connector the [/actions] endpoints of the SDK
    ([sdk/python/pinquark_connector_sdk/legacy.py]): a request for an action becomes a
    request for the route [connector.yaml] names.

    The existing application is a function of the forwarded request. *)

From S2P Require Import Prelude PyText PyValue Json Base64 Effects SdkApp.

Local Open Scope string_scope.

(** ** The routes of a manifest *)

Definition load_manifest (data : pyval) : res dict :=
  match data with
  | PDict d => Ok d
  | v => if truthy v then Raise (ValueError "Invalid connector manifest") else Ok []
  end.

Definition proxied_routes (existing_paths : list string) (manifest : dict) : res (list (string * (string * pyval))) :=
  routes ← dict_method "items" (py_or (dget_or "action_routes" PNone manifest) (PDict []));
  Ok (map (fun r => (action_path r.1, r))
        (List.filter (fun r => negb (existsb (String.eqb (action_path r.1)) existing_paths)) routes)).

(** ** [_build_request] *)

(** The segments [{name}] of a path, without the braces. *)
Definition placeholder (segment : string) : option string :=
  if starts_with "{" segment && ends_with "}" segment then Some (str_slice segment 1 (Some (-1)%Z)) else None.
Definition placeholders (path : string) : list string :=
  omap placeholder (split_char "/" path).

(** [body.pop(placeholder)] and the replacement of the placeholder by [str(value)]. *)
Definition fill_placeholder (path : string) (st : string * dict) (name : string) : res (string * dict) :=
  let '(filled, body) := st in
  match dget_or name PNone body with
  | PNone => Raise (ValueError ("Missing path parameter '" ++ name ++ "' for route " ++ filled))
  | value => Ok (py_replace filled ("{" ++ name ++ "}") (py_str value), ddel name body)
  end.

(** A field for the query moves from the body. *)
Definition move_to_query (st : dict * dict) (field : pyval) : res (dict * dict) :=
  let '(query, body) := st in
  match field with
  | PStr name => match dget name body with
                 | Some value => Ok (dset name value query, ddel name body)
                 | None => Ok (query, body)
                 end
  | PList _ | PDict _ => Raise (unhashable field)
  | _ => Ok (query, body)
  end.

Definition build_request (route : dict) (payload : dict) : res (string * dict * dict) :=
  path_value ← match dget "path" route with Some v => Ok v | None => Raise (KeyError "path") end;
  path ← str_method "split" path_value;
  filled ← foldR (fill_placeholder path) (path, payload) (placeholders path);
  fields ← as_iter (dget_or "query_from_payload" (PList []) route);
  moved ← foldR move_to_query ([], filled.2) fields;
  Ok (filled.1, moved.1, moved.2).

(** ** [_extract_multipart] *)

Definition form_value (v : pyval) : string :=
  match v with PList _ | PDict _ => json_text true false v | _ => py_str v end.
Definition extract_multipart (body : dict) : res ((string * string) * list (string * string)) :=
  let remaining := omap (fun kv => if negb (String.eqb kv.1 "file") && negb (is_none kv.2)
                                   then Some (kv.1, form_value kv.2) else None) body in
  match dget_or "file" PNone body with
  | PNone => Raise (ValueError "Multipart action requires 'file' in payload")
  | PStr text => content ← b64decode text; Ok (("upload.bin", content), remaining)
  | PDict d =>
      match dget "content_base64" d with
      | Some (PStr text) =>
          content ← b64decode text;
          Ok ((py_str (py_or (dget_or "filename" PNone d) (PStr "upload.bin")), content), remaining)
      | _ => Raise (ValueError "Unsupported multipart file payload")
      end
  | _ => Raise (ValueError "Unsupported multipart file payload")
  end.

(** ** The proxy *)

Record forwarded := Forwarded {
  fw_method : string;
  fw_path : string;
  fw_query : option dict;
  fw_json : option dict;
  fw_file : option (string * string);
  fw_form : list (string * string)
}.
Record legacy_reply := LegacyReply { lr_status : Z; lr_content_type : string; lr_content : string; lr_json : res pyval }.

(** What goes to the existing application; a GET has no body. *)
Definition forward (route : dict) (payload : dict) : res forwarded :=
  let method := py_upper (py_str (dget_or "method" (PStr "POST") route)) in
  request ← build_request route payload;
  let '(path, query, body) := request in
  let params := match query with [] => None | _ => Some query end in
  if truthy (dget_or "multipart" PNone route) then
    parts ← extract_multipart body;
    Ok (Forwarded method path params None (Some parts.1) parts.2)
  else Ok (Forwarded method path params (if String.eqb method "GET" then None else Some body) None []).

(** [_copy_response]: JSON is parsed and written again. *)
Inductive copied := JsonCopy (status : Z) (v : pyval) (content_type : string) | RawCopy (status : Z) (content : string) (content_type : option string).
Definition copy_response (r : legacy_reply) : res copied :=
  match lr_content_type r with
  | "" => Ok (RawCopy (lr_status r) (lr_content r) None)
  | t => if str_contains "application/json" t then v ← lr_json r; Ok (JsonCopy (lr_status r) v t)
         else Ok (RawCopy (lr_status r) (lr_content r) (Some t))
  end.

Definition action_proxy {W} (legacy_app : forwarded -> EM W legacy_reply) (route : dict) (payload : pyval) : EM W copied :=
  body ← lift (match payload with
               | PDict d => Ok d
               | PList [] | PStr "" => Ok []
               | _ => Raise (TypeError "cannot convert the payload to a dict")
               end);
  request ← lift (forward route body);
  reply ← legacy_app request;
  lift (copy_response reply).

(** ** Facts *)

Definition is_name (k : string) (v : pyval) : bool := match v with PStr s => String.eqb s k | _ => false end.

Lemma fill_keeps path names : forall filled body filled' body',
  NoDup (dkeys body) -> foldR (fill_placeholder path) (filled, body) names = Ok (filled', body') ->
  NoDup (dkeys body') /\
  (forall k, dget k body' = if existsb (String.eqb k) names then None else dget k body) /\
  Forall (fun k => exists v, dget k body = Some v /\ v <> PNone) names.
Proof.
  induction names as [|n names IH]; intros filled body filled' body' Hnd; [cbn; by intros [= <- <-]|].
  intros ([f1 b1] & H1 & H2)%bind_Ok_inv. unfold fill_placeholder, dget_or in H1.
  destruct (dget n body) as [v|] eqn:Ev; [|done].
  assert (H1' : v <> PNone /\ b1 = ddel n body) by (destruct v; try done; by injection H1 as <- <-).
  destruct H1' as [Hv ->].
  destruct (IH _ _ _ _ (NoDup_dkeys_ddel n body Hnd) H2) as (Hnd' & Hget & Hall). split_and!; [done| |].
  - intros k. rewrite Hget. cbn. destruct (String.eqb_spec k n) as [->|Hne]; cbn.
    + rewrite dget_ddel_eq by done. by destruct (existsb _ _).
    + by rewrite dget_ddel_ne.
  - apply Forall_cons_iff. split; [eauto|]. apply Forall_forall. intros k Hk.
    destruct (proj1 (Forall_forall _ _) Hall k Hk) as (w & Hw & Hn). exists w. split; [|done].
    rewrite <-Hw. symmetry. apply dget_ddel_ne. intros ->. by rewrite dget_ddel_eq in Hw.
Qed.

Lemma move_keeps fields : forall query body query' body',
  NoDup (dkeys body) -> foldR move_to_query (query, body) fields = Ok (query', body') ->
  (forall k, dget k body' = if existsb (is_name k) fields then None else dget k body) /\
  (forall k, dget k query' = if existsb (is_name k) fields then match dget k body with Some v => Some v | None => dget k query end
                             else dget k query).
Proof.
  induction fields as [|f fields IH]; intros query body query' body' Hnd; [cbn; by intros [= <- <-]|].
  intros ([q1 b1] & H1 & H2)%bind_Ok_inv.
  assert (Hstep : (q1 = query /\ b1 = body /\ (forall k, is_name k f = true -> dget k body = None)) \/
                  exists n v, f = PStr n /\ dget n body = Some v /\ q1 = dset n v query /\ b1 = ddel n body).
  { unfold move_to_query in H1. destruct f; try discriminate H1.
    1-4: left; injection H1 as <- <-; split_and!; done.
    destruct (dget s body) as [v|] eqn:E; injection H1 as <- <-; [right; by exists s, v|].
    left. split_and!; [done|done|]. by intros k <-%String.eqb_eq. }
  destruct Hstep as [(-> & -> & Hnone)|(n & v & -> & Hv & -> & ->)].
  - destruct (IH _ _ _ _ Hnd H2) as [Hb Hq]. cbn. split; intros k; rewrite ?Hb, ?Hq; destruct (is_name k f) eqn:E; cbn; try done.
    + rewrite (Hnone k E). by destruct (existsb _ _).
    + rewrite (Hnone k E). by destruct (existsb _ _).
  - destruct (IH _ _ _ _ (NoDup_dkeys_ddel n body Hnd) H2) as [Hb Hq]. cbn.
    split; intros k; rewrite ?Hb, ?Hq; destruct (String.eqb_spec n k) as [<-|Hne]; cbn.
    + rewrite dget_ddel_eq by done. by destruct (existsb _ _).
    + by rewrite dget_ddel_ne by done.
    + rewrite dget_ddel_eq, dget_dset_eq, Hv by done. by destruct (existsb _ _).
    + by rewrite dget_ddel_ne, dget_dset_ne by done.
Qed.

(** The payload of an action is divided between the path, the query and the body: a field the path names goes only
    there, a field listed for the query goes only there, and the rest is the body. *)
Theorem payload_is_divided route payload path query body :
  NoDup (dkeys payload) -> build_request route payload = Ok (path, query, body) ->
  exists template fields, dget "path" route = Some (PStr template) /\
    as_iter (dget_or "query_from_payload" (PList []) route) = Ok fields /\
    Forall (fun k => exists v, dget k payload = Some v /\ v <> PNone) (placeholders template) /\
    forall k, (dget k query, dget k body) =
      if existsb (String.eqb k) (placeholders template) then (None, None)
      else if existsb (is_name k) fields then (dget k payload, None) else (None, dget k payload).
Proof.
  intros Hnd. unfold build_request. intros (path_value & Hp & H)%bind_Ok_inv.
  destruct (dget "path" route) as [pv|]; [|done]. injection Hp as ->.
  apply bind_Ok_inv in H as (template & Ht & H). destruct path_value; try discriminate Ht. injection Ht as ->.
  apply bind_Ok_inv in H as ([filled b1] & Hf & H). apply bind_Ok_inv in H as (fields & Hfields & H).
  apply bind_Ok_inv in H as ([q b] & Hm & H). injection H as -> -> ->. exists template, fields.
  destruct (fill_keeps _ _ _ _ _ _ Hnd Hf) as (Hnd1 & Hb1 & Hall).
  destruct (move_keeps _ _ _ _ _ Hnd1 Hm) as [Hb Hq]. split_and!; [done|done|done|].
  intros k. rewrite Hb, Hq. cbn. rewrite Hb1. destruct (existsb (String.eqb k) _); destruct (existsb (is_name k) _); try done.
  by destruct (dget k payload).
Qed.

(** ** Examples *)

(** Values are put into the path as they are, and filled in again when they look like a placeholder. *)
Definition demo_route : dict := [("method", PStr "GET"); ("path", PStr "/orders/{id}/lines/{line}"); ("query_from_payload", PList [PStr "lang"])].
Example build_request_example :
  build_request demo_route [("id", PInt 7); ("line", PStr "2"); ("lang", PStr "pl"); ("x", PNone)]
  = Ok ("/orders/7/lines/2", [("lang", PStr "pl")], [("x", PNone)]).
Proof. by vm_compute. Qed.
Example values_reach_the_path :
  build_request demo_route [("id", PStr "{line}"); ("line", PStr "../../../accounts?x=")]
  = Ok ("/orders/../../../accounts?x=/lines/../../../accounts?x=", [], []).
Proof. by vm_compute. Qed.
(** The same placeholder twice is missing the second time. *)
Example placeholder_twice :
  build_request [("path", PStr "/a/{id}/b/{id}")] [("id", PInt 7)]
  = Raise (ValueError "Missing path parameter 'id' for route /a/7/b/7").
Proof. by vm_compute. Qed.
