(* ===== verification/HttpRoutes.v ===== *)
(** The routes of the connectors' HTTP interfaces: which route answers a request, and what
    the declared parameters of a route accept.

    A route is chosen as Starlette does it: the first, in the order of registration, whose
    path matches and whose method is the request's; paths are compared part by part, after
    decoding.  The parameters are those FastAPI declares: texts, integers with bounds, flags,
    repeated texts, and bodies described field by field. *)

From S2P Require Import Prelude PyText PyFloat PyValue Effects.

Local Open Scope string_scope.

(** ** Requests and routes *)

Record request := MkRequest {
  rq_method : string;
  rq_path : string;
  rq_query : list (string * string);
  rq_headers : list (string * string);
  rq_body : option pyval;
  rq_file : option (string * string);
  rq_uuid : string;
  rq_params : list (string * string)
}.

(** A part of a template: a text, a parameter, or a parameter that takes the rest of the path. *)
Inductive segment := Lit (text : string) | Param (name : string) | Rest (name : string).

(** A template such as [/orders/{order_id}] or [/files/{name:path}]. *)
Definition segment_of (part : string) : segment :=
  if starts_with "{" part && ends_with "}" part then
    if ends_with ":path}" part then Rest (str_slice part 1 (Some (-6)%Z)) else Param (str_slice part 1 (Some (-1)%Z))
  else Lit part.
Definition template_of (path : string) : list segment := map segment_of (split_char "/" path).

Definition segment_matches (t : segment) (part : string) : bool :=
  match t with Lit text => String.eqb text part | Param _ => negb (String.eqb part "") | Rest _ => true end.
Fixpoint template_matches (t : list segment) (parts : list string) : bool :=
  match t, parts with
  | [], [] => true
  | Rest _ :: _, _ :: _ => true
  | s :: t', p :: parts' => segment_matches s p && template_matches t' parts'
  | _, _ => false
  end.
Fixpoint path_params (t : list segment) (parts : list string) : list (string * string) :=
  match t, parts with
  | Rest name :: _, _ :: _ => [(name, str_join "/" parts)]
  | Param name :: t', p :: parts' => (name, p) :: path_params t' parts'
  | Lit _ :: t', _ :: parts' => path_params t' parts'
  | _, _ => []
  end.

Section routes.
Context {World : Type}.

Record route := Route {
  rt_method : string;
  rt_path : string;
  rt_name : string;
  rt_status : Z;
  rt_handler : request -> EM World pyval
}.

Definition path_matches (path : string) (r : route) : bool :=
  template_matches (template_of (rt_path r)) (split_char "/" path).
Definition answers (method path : string) (r : route) : bool :=
  String.eqb (rt_method r) method && path_matches path r.

(** The position of the route that answers. *)
Fixpoint select (method path : string) (routes : list route) : option nat :=
  match routes with
  | [] => None
  | r :: rest => if answers method path r then Some O else S <$> select method path rest
  end.

Definition with_params (r : route) (req : request) : request :=
  MkRequest (rq_method req) (rq_path req) (rq_query req) (rq_headers req) (rq_body req) (rq_file req) (rq_uuid req)
    (path_params (template_of (rt_path r)) (split_char "/" (rq_path req))).

(** The status and the content of the answer; an error is an [HTTPException] or another exception. *)
Definition respond (routes : list route) (req : request) : EM World (Z * pyval) :=
  match List.find (answers (rq_method req) (rq_path req)) routes with
  | Some r => v ← rt_handler r (with_params r req); mret (rt_status r, v)
  | None =>
      if existsb (path_matches (rq_path req)) routes then http_error 405 "Method Not Allowed"
      else http_error 404 "Not Found"
  end.

(** ** Routes that never answer *)

(** Every path [u] matches [t] matches as well. *)
Definition segment_covers (t u : segment) : bool :=
  match t, u with
  | Lit a, Lit b => String.eqb a b
  | Param _, Lit b => negb (String.eqb b "")
  | Param _, Param _ => true
  | Rest _, _ => true
  | Lit _, Param _ | _, Rest _ => false
  end.
Fixpoint covers (t u : list segment) : bool :=
  match t, u with
  | [], [] => true
  | Rest _ :: _, _ :: _ => true
  | a :: t', b :: u' => segment_covers a b && covers t' u'
  | _, _ => false
  end.
Definition shadows (e r : route) : bool :=
  String.eqb (rt_method e) (rt_method r) && covers (template_of (rt_path e)) (template_of (rt_path r)).
(** The names of the routes an earlier one shadows. *)
Fixpoint shadowed (before routes : list route) : list string :=
  match routes with
  | [] => []
  | r :: rest => (if existsb (fun e => shadows e r) before then [rt_name r] else []) ++ shadowed (before ++ [r]) rest
  end%list.

Lemma covers_matches t : forall u parts, covers t u = true -> template_matches u parts = true -> template_matches t parts = true.
Proof.
  induction t as [|a t IH]; intros [|b u] [|p parts]; try (by destruct a); try (by destruct b); try done.
  destruct a as [a|a|a]; [..|done]; cbn [covers]; intros [Hc Hcs]%andb_prop; destruct b as [b|b|b]; try done;
    cbn [template_matches]; intros [Hm Hms]%andb_prop; rewrite (IH u parts Hcs Hms), andb_true_r; cbn in *.
  - apply String.eqb_eq in Hc. by subst.
  - apply String.eqb_eq in Hm. by subst.
  - done.
Qed.

(** A path of the template, with a part of its own for every parameter and nothing for the rest of the path. *)
Definition sample : string := "0".
Definition sample_part (s : segment) : string := match s with Lit text => text | Param _ => sample | Rest _ => "" end.
Definition sample_path (r : route) : string := str_join "/" (map sample_part (template_of (rt_path r))).
(** The template starts with a slash, its texts are neither empty nor the sample, and the rest of the path comes last. *)
Fixpoint plain_segments (t : list segment) : bool :=
  match t with
  | [] => true
  | Lit text :: t' => negb (String.eqb text sample) && negb (String.eqb text "") && has_no "/" text && plain_segments t'
  | Param _ :: t' => plain_segments t'
  | Rest _ :: t' => match t' with [] => true | _ => false end
  end.
Definition plain_template (t : list segment) : bool :=
  match t with Lit "" :: t' => plain_segments t' | _ => false end.

Lemma sample_segments t : forall u, plain_segments t = true -> plain_segments u = true ->
  template_matches t (map sample_part u) = covers t u.
Proof.
  induction t as [|a t IH]; intros [|b u] Ht Hu; try (by destruct a); try (by destruct b); try done.
  assert (Hrec : forall t' u', plain_segments t' = true -> plain_segments u' = true -> t' = t -> u' = u ->
            template_matches t (map sample_part u) = covers t u) by (intros t' u' H1 H2 -> ->; by apply IH).
  destruct a as [a|a|a]; [..|done]; cbn [plain_segments] in Ht; destruct b as [b|b|b]; cbn [plain_segments] in Hu;
    repeat match goal with H : _ && _ = true |- _ => apply andb_prop in H as [? H] end;
    cbn [map sample_part template_matches covers segment_matches segment_covers].
  - by rewrite (Hrec t u).
  - rewrite andb_false_l. by destruct (String.eqb_spec a sample).
  - rewrite andb_false_l. by destruct (String.eqb_spec a "").
  - by rewrite (Hrec t u).
  - by rewrite (Hrec t u).
  - by rewrite andb_false_l.
Qed.

Lemma sample_matches t u : plain_template t = true -> plain_template u = true -> template_matches t (map sample_part u) = covers t u.
Proof.
  unfold plain_template. destruct t as [|[[|]| |] t]; try done. destruct u as [|[[|]| |] u]; try done.
  intros Ht Hu. cbn. by apply sample_segments.
Qed.

Lemma plain_parts t : plain_template t = true -> Forall (fun x => has_no "/" x = true) (map sample_part t).
Proof.
  assert (Hgen : forall t, plain_segments t = true -> Forall (fun x => has_no "/" x = true) (map sample_part t)).
  { clear. induction t as [|[a|a|a] t IH]; cbn [plain_segments map sample_part]; [by constructor|..].
    - intros [[_ Ha]%andb_prop Ht]%andb_prop. constructor; auto.
    - intros Ht. constructor; auto.
    - destruct t; [|done]. intros _. by repeat constructor. }
  unfold plain_template. destruct t as [|[[|]| |] t]; try done. intros Ht. constructor; [done|by apply Hgen].
Qed.

Lemma covers_refl t : covers t t = true.
Proof.
  induction t as [|[a|a|a] t IH]; cbn; [done| |done..]. by rewrite String.eqb_refl.
Qed.

Lemma select_app method path before rest :
  existsb (answers method path) before = false ->
  select method path (before ++ rest) = (fun n => List.length before + n)%nat <$> select method path rest.
Proof.
  induction before as [|e before IH]; cbn; [by destruct (select _ _ rest)|].
  intros [-> H]%orb_false_elim. rewrite IH by done. by destruct (select _ _ rest).
Qed.

Lemma select_before method path before rest :
  existsb (answers method path) before = true -> exists n, select method path (before ++ rest) = Some n /\ (n < List.length before)%nat.
Proof.
  induction before as [|e before IH]; cbn; [done|]. destruct (answers method path e); cbn; [intros _; exists O; split; [done|lia]|].
  intros (n & -> & Hn)%IH. exists (S n). split; [done|lia].
Qed.

(** A route of a table answers some request exactly when no earlier route shadows it. *)
Theorem reachable_unless_shadowed before r after :
  Forall (fun e => plain_template (template_of (rt_path e)) = true) (before ++ r :: after)%list ->
  (exists path, select (rt_method r) path (before ++ r :: after)%list = Some (List.length before)) <->
  existsb (fun e => shadows e r) before = false.
Proof.
  intros Hplain. split.
  - intros (path & Hsel). apply not_true_is_false. intros (e & He & Hs)%existsb_exists.
    apply andb_prop in Hs as [Hm Hc]. apply String.eqb_eq in Hm.
    destruct (existsb (answers (rt_method r) path) before) eqn:E.
    + destruct (select_before _ _ _ (r :: after) E) as (n & Hn & Hlt). rewrite Hn in Hsel. injection Hsel as ->. lia.
    + rewrite select_app in Hsel by done. cbn in Hsel. destruct (answers (rt_method r) path r) eqn:Er.
      * assert (answers (rt_method r) path e = true).
        { unfold answers in *. apply andb_prop in Er as [_ Er]. rewrite Hm, String.eqb_refl. by apply (covers_matches _ _ _ Hc). }
        rewrite (proj2 (existsb_exists _ _)) in E by eauto. done.
      * destruct (select _ _ after); cbn in Hsel; [injection Hsel as Hsel; lia|done].
  - intros Hs. exists (sample_path r).
    assert (Hr : plain_template (template_of (rt_path r)) = true).
    { apply (proj1 (Forall_forall _ _) Hplain r). apply in_app_iff. right. by left. }
    assert (Hparts : split_char "/" (sample_path r) = map sample_part (template_of (rt_path r))).
    { unfold sample_path. apply split_join; [by destruct (template_of (rt_path r))|by apply plain_parts]. }
    assert (Hans : forall e, plain_template (template_of (rt_path e)) = true ->
      answers (rt_method r) (sample_path r) e = shadows e r).
    { intros e He. unfold answers, shadows, path_matches. rewrite Hparts, sample_matches by done. done. }
    assert (Hbefore : existsb (answers (rt_method r) (sample_path r)) before = false).
    { rewrite <-Hs. clear Hs. induction before as [|e before IH]; cbn; [done|].
      cbn in Hplain. apply Forall_cons_iff in Hplain as [He Hplain]. rewrite Hans by done. by rewrite IH. }
    rewrite select_app by done. cbn. rewrite Hans by done. unfold shadows. rewrite String.eqb_refl.
    rewrite covers_refl. cbn. f_equal. lia.
Qed.

Lemma shadowed_app pre before rest : shadowed pre (before ++ rest)%list = (shadowed pre before ++ shadowed (pre ++ before) rest)%list.
Proof.
  revert pre. induction before as [|e before IH]; intros pre; cbn; [by rewrite app_nil_r|].
  rewrite IH, <-!app_assoc. done.
Qed.

Lemma shadowed_names pre l n : In n (shadowed pre l) -> In n (map rt_name l).
Proof.
  revert pre. induction l as [|e l IH]; intros pre; cbn; [done|]. intros [H|H]%in_app_iff; [|right; by apply (IH (pre ++ [e])%list)].
  destruct (existsb _ pre); [|done]. by destruct H as [H|[]]; left.
Qed.

(** In a table with distinct names the shadowed names are those of the routes that never answer. *)
Theorem reachable_names before r after :
  Forall (fun e => plain_template (template_of (rt_path e)) = true) (before ++ r :: after)%list ->
  NoDup (map rt_name (before ++ r :: after)%list) ->
  (exists path, select (rt_method r) path (before ++ r :: after)%list = Some (List.length before)) <->
  ~ In (rt_name r) (shadowed [] (before ++ r :: after)%list).
Proof.
  intros Hplain Hnd. rewrite reachable_unless_shadowed by done. rewrite shadowed_app. cbn [shadowed app].
  rewrite map_app in Hnd. cbn [map] in Hnd. apply list.NoDup_app in Hnd as (_ & Hdisj & Hnd). apply list.NoDup_cons in Hnd as [Hafter _].
  rewrite !in_app_iff. split.
  - intros -> [H|[[]|H]].
    + apply shadowed_names in H. apply (Hdisj (rt_name r)); [by apply list_elem_of_In|left].
    + apply Hafter. apply shadowed_names in H. by apply list_elem_of_In.
  - intros H. destruct (existsb (fun e => shadows e r) before); [|done]. destruct H. right. left. by left.
Qed.


Lemma find_before {A} (p : A -> bool) l x :
  List.find p l = Some x -> exists before after, l = (before ++ x :: after)%list /\ existsb p before = false /\ p x = true.
Proof.
  induction l as [|y l IH]; cbn; [done|]. destruct (p y) eqn:E.
  - intros [= ->]. by exists [], l.
  - intros (b & a & -> & Hb & Hx)%IH. exists (y :: b), a. cbn. by rewrite E.
Qed.

(** In a table with distinct names the route that answers is not one of those another shadows. *)
Lemma answering_unshadowed method path routes r :
  NoDup (map rt_name routes) -> List.find (answers method path) routes = Some r -> ~ In (rt_name r) (shadowed [] routes).
Proof.
  intros Hnd (before & after & -> & Hb & Hr)%find_before.
  rewrite map_app in Hnd. cbn [map] in Hnd. apply list.NoDup_app in Hnd as (_ & Hdisj & Hnd). apply list.NoDup_cons in Hnd as [Hafter _].
  rewrite shadowed_app. cbn [shadowed app]. rewrite !in_app_iff. intros [H|[H|H]].
  - apply shadowed_names in H. apply (Hdisj (rt_name r)); [by apply list_elem_of_In|left].
  - destruct (existsb (fun e => shadows e r) before) eqn:E; [|done]. apply existsb_exists in E as (e & He & [Hm Hc]%andb_prop).
    assert (answers method path e = true); [|by apply not_true_iff_false in Hb; destruct Hb; apply existsb_exists; eauto].
    apply andb_prop in Hr as [Hrm Hrp]. apply String.eqb_eq in Hm, Hrm. unfold answers. rewrite Hm, Hrm, String.eqb_refl.
    by apply (covers_matches _ _ _ Hc).
  - apply Hafter. apply shadowed_names in H. by apply list_elem_of_In.
Qed.
End routes.
#[global] Arguments route : clear implicits.

(** ** Declared parameters *)

Definition unprocessable {A} : res A := Raise (http_exception 422 "Unprocessable Entity").

(** A parameter of the path is always there: the route's template names it. *)
Definition path_param (name : string) (r : request) : string := default "" (dget name (rq_params r)).
Definition path_int (name : string) (r : request) : res Z :=
  match parse_int (path_param name r) with Some n => Ok n | None => unprocessable end.

(** Of a repeated parameter the last counts, unless a list is declared. *)
Definition query_values (name : string) (r : request) : list string :=
  map snd (List.filter (fun kv => String.eqb kv.1 name) (rq_query r)).
Definition query_value (name : string) (r : request) : option string := head (rev (query_values name r)).

Definition text_param (name : string) (r : request) : res string :=
  match query_value name r with Some s => Ok s | None => unprocessable end.
Definition text_param_or (name fallback : string) (r : request) : string := default fallback (query_value name r).
Definition in_bounds (lo hi : option Z) (n : Z) : bool :=
  match lo with Some l => (l <=? n)%Z | None => true end && match hi with Some h => (n <=? h)%Z | None => true end.
Definition optional_int (name : string) (lo hi : option Z) (r : request) : res (option Z) :=
  match query_value name r with
  | None => Ok None
  | Some s => match parse_int s with
              | Some n => if in_bounds lo hi n then Ok (Some n) else unprocessable
              | None => unprocessable
              end
  end.
Definition int_param (name : string) (fallback : Z) (lo hi : option Z) (r : request) : res Z :=
  n ← optional_int name lo hi r; Ok (default fallback n).

(** pydantic's flags. *)
Definition flag_of_text (s : string) : option bool :=
  let t := py_lower s in
  if existsb (String.eqb t) ["1"; "true"; "t"; "yes"; "y"; "on"] then Some true
  else if existsb (String.eqb t) ["0"; "false"; "f"; "no"; "n"; "off"] then Some false else None.
Definition optional_flag (name : string) (r : request) : res (option bool) :=
  match query_value name r with
  | None => Ok None
  | Some s => match flag_of_text s with Some b => Ok (Some b) | None => unprocessable end
  end.
Definition flag_param (name : string) (fallback : bool) (r : request) : res bool :=
  b ← optional_flag name r; Ok (default fallback b).

(** ** Bodies *)

(** The type of a field; [KAny] takes everything.  A field of a model has its name, the keys it is
    read from, its type and its default. *)
#[warnings="-register-all"]
Inductive kind :=
  | KAny | KText | KTextMin (n : nat) | KInt | KIntMin (n : Z) | KFloat | KFlag | KObject | KDate
  | KOneOf (values : list string) | KList (k : kind) | KOptional (k : kind)
  | KModel (fields : list (string * list string * kind * option pyval)).

Definition field : Type := string * list string * kind * option pyval.

Definition int_of (v : pyval) : res Z :=
  match v with
  | PInt n => Ok n
  | PBool b => Ok (bool_Z b)
  | PStr s => match parse_int s with Some n => Ok n | None => unprocessable end
  | PFloat f => match Z_of_float f with
                | Ok n => if num_eqb (PInt n) v then Ok n else unprocessable
                | Raise _ => unprocessable
                end
  | _ => unprocessable
  end.
Definition flag_of (v : pyval) : res bool :=
  match v with
  | PBool b => Ok b
  | PInt 0 => Ok false
  | PInt 1 => Ok true
  | PStr s => match flag_of_text s with Some b => Ok b | None => unprocessable end
  | _ => unprocessable
  end.

(** The value under the first of the keys that is there. *)
Definition first_key (keys : list string) (d : dict) : option pyval :=
  head (omap (fun k => dget k d) keys).

Section models.
(** A date as pydantic reads it from a text, written in ISO format. *)
Variable datetime_text : string -> option string.

(** What a value of a field becomes; a missing field takes its default. *)
Fixpoint validate (k : kind) (v : pyval) : res pyval :=
  match k with
  | KAny => Ok v
  | KText => if is_str v then Ok v else unprocessable
  | KTextMin n => match v with PStr s => if (n <=? String.length s)%nat then Ok v else unprocessable | _ => unprocessable end
  | KInt => n ← int_of v; Ok (PInt n)
  | KIntMin lo => n ← int_of v; if (lo <=? n)%Z then Ok (PInt n) else unprocessable
  | KFloat => match py_float v with Ok f => Ok (PFloat f) | Raise _ => unprocessable end
  | KFlag => b ← flag_of v; Ok (PBool b)
  | KObject => if is_dict v then Ok v else unprocessable
  | KDate => match v with
             | PStr _ | PInt _ | PFloat _ =>
                 match datetime_text (py_str v) with Some t => Ok (PStr t) | None => unprocessable end
             | _ => unprocessable
             end
  | KOneOf values => match v with PStr s => if existsb (String.eqb s) values then Ok v else unprocessable | _ => unprocessable end
  | KList k => match v with PList l => items ← mapR (validate k) l; Ok (PList items) | _ => unprocessable end
  | KOptional k => match v with PNone => Ok PNone | _ => validate k v end
  | KModel fields =>
      match v with
      | PDict d => filled ← (fix go (fields : list (string * list string * kind * option pyval)) : res dict :=
                       match fields with
                       | [] => Ok []
                       | (name, keys, k, missing) :: rest =>
                           x ← match first_key keys d, missing with
                               | Some x, _ => validate k x
                               | None, Some x => Ok x
                               | None, None => unprocessable
                               end;
                           others ← go rest;
                           Ok ((name, x) :: others)
                       end) fields;
                   Ok (PDict filled)
      | _ => unprocessable
      end
  end.

Definition date_param (name : string) (r : request) : res (option string) :=
  match query_value name r with
  | None => Ok None
  | Some s => match datetime_text s with Some t => Ok (Some t) | None => unprocessable end
  end.

Definition object_body (r : request) : res dict :=
  match rq_body r with Some (PDict d) => Ok d | _ => unprocessable end.
(** The fields of a model, each with its validated value or its default. *)
Definition model_body (fields : list field) (r : request) : res dict :=
  match rq_body r with
  | Some v => x ← validate (KModel fields) v; match x with PDict d => Ok d | _ => unprocessable end
  | None => unprocessable
  end.
End models.

Definition of_body (name : string) (body : dict) : pyval := dget_or name PNone body.

Definition text_in (name : string) (body : dict) : string := match of_body name body with PStr s => s | _ => "" end.
Definition needed (name : string) (k : kind) : field := (name, [name], k, None).
Definition optional (name : string) (k : kind) : field := (name, [name], KOptional k, Some PNone).
Definition with_default (name : string) (k : kind) (v : pyval) : field := (name, [name], k, Some v).
(** A field with an alias, read first. *)
Definition alias_default (name alias : string) (k : kind) (v : pyval) : field := (name, [alias; name], k, Some v).
Definition alias_optional (name alias : string) (k : kind) : field := (name, [alias; name], KOptional k, Some PNone).

(** [if x: d[k] = x]. *)
Definition given (k : string) (v : pyval) : dict := if truthy v then [(k, v)] else [].
Definition given_text (k : string) (o : option string) : dict := match o with None | Some "" => [] | Some s => [(k, PStr s)] end.
Definition given_texts (k : string) (l : list string) : dict := match l with [] => [] | _ => [(k, PList (map PStr l))] end.
(** [{k: v for k, v in d.items() if v is not None}]. *)
Definition strip_none (d : dict) : dict := List.filter (fun kv => negb (is_none kv.2)) d.
Definition text_or_none (o : option string) : pyval := match o with Some s => PStr s | None => PNone end.
Definition int_or_none (o : option Z) : pyval := match o with Some n => PInt n | None => PNone end.
Definition flag_or_none (o : option bool) : pyval := match o with Some b => PBool b | None => PNone end.
