(* ===== verification/AllegroMapper.v ===== *)
(** Allegro's orders and the orders of the platform
    ([integrators/ecommerce/allegro/v1.0.0/src/allegro]: the models of [schemas.py] and
    [mapper.py]; [shared/python/pinquark_common/schemas/ecommerce.py]).

    A model is a description of its fields; an instance is the dict of its validated
    fields, as [model_dump] gives it. *)

From S2P Require Import Prelude PyText PyFloat PyValue Effects HttpRoutes.

Local Open Scope string_scope.

(** ** Allegro's models *)

Definition text_default (name : string) : field := with_default name KText (PStr "").
Definition alias_text (name alias : string) : field := alias_default name alias KText (PStr "").
Definition alias_country : field := alias_default "country_code" "countryCode" KText (PStr "PL").

Definition AllegroPrice : kind := KModel [needed "amount" KText; with_default "currency" KText (PStr "PLN")].
Definition AllegroBuyerAddress : kind :=
  KModel [text_default "street"; text_default "city"; alias_text "post_code" "postCode"; alias_country].
Definition AllegroBuyer : kind :=
  KModel [needed "id" KText; text_default "email"; text_default "login"; alias_text "first_name" "firstName";
          alias_text "last_name" "lastName"; alias_optional "company_name" "companyName" KText;
          with_default "guest" KFlag (PBool false); alias_text "phone_number" "phoneNumber";
          optional "address" AllegroBuyerAddress].
Definition AllegroDeliveryAddress : kind :=
  KModel [alias_text "first_name" "firstName"; alias_text "last_name" "lastName"; text_default "street";
          text_default "city"; alias_text "zip_code" "zipCode"; alias_country;
          alias_text "company_name" "companyName"; alias_text "phone_number" "phoneNumber"].
Definition AllegroDelivery : kind :=
  KModel [optional "address" AllegroDeliveryAddress; optional "method" KObject; optional "cost" AllegroPrice;
          alias_optional "pickup_point" "pickupPoint" KObject].
Definition AllegroInvoiceAddress : kind :=
  KModel [text_default "street"; text_default "city"; alias_text "zip_code" "zipCode"; alias_country;
          optional "company" KObject; alias_optional "natural_person" "naturalPerson" KObject].
Definition AllegroInvoice : kind :=
  KModel [with_default "required" KFlag (PBool false); optional "address" AllegroInvoiceAddress].
Definition AllegroPayment : kind :=
  KModel [optional "id" KText; text_default "type"; alias_optional "paid_amount" "paidAmount" AllegroPrice].
Definition AllegroOfferRef : kind := KModel [needed "id" KText; text_default "name"; optional "external" KObject].
Definition AllegroLineItem : kind :=
  KModel [needed "id" KText; needed "offer" AllegroOfferRef; with_default "quantity" KInt (PInt 1);
          alias_optional "original_price" "originalPrice" AllegroPrice; optional "price" AllegroPrice;
          alias_optional "bought_at" "boughtAt" KDate].
Definition AllegroSummary : kind := KModel [alias_optional "total_to_pay" "totalToPay" AllegroPrice].
Definition FulfillmentStatus : list string :=
  ["NEW"; "PROCESSING"; "READY_FOR_SHIPMENT"; "READY_FOR_PICKUP"; "SENT"; "PICKED_UP"; "CANCELLED"; "SUSPENDED"].
Definition AllegroFulfillment : kind :=
  KModel [optional "status" (KOneOf FulfillmentStatus); alias_optional "shipment_summary" "shipmentSummary" KObject].
Definition CheckoutFormStatus : list string := ["BOUGHT"; "FILLED_IN"; "READY_FOR_PROCESSING"; "CANCELLED"].
Definition AllegroCheckoutForm : kind :=
  KModel [needed "id" KText; with_default "status" (KOneOf CheckoutFormStatus) (PStr "BOUGHT");
          optional "buyer" AllegroBuyer; optional "payment" AllegroPayment; optional "fulfillment" AllegroFulfillment;
          optional "delivery" AllegroDelivery; optional "invoice" AllegroInvoice;
          alias_default "line_items" "lineItems" (KList AllegroLineItem) (PList []);
          optional "summary" AllegroSummary; alias_optional "updated_at" "updatedAt" KDate].

(** ** The statuses *)

Definition OrderStatus : list string :=
  ["NEW"; "PROCESSING"; "READY_FOR_SHIPMENT"; "SHIPPED"; "DELIVERED"; "CANCELLED"; "RETURNED"].
Definition ALLEGRO_STATUS_TO_ORDER_STATUS : list (string * string) :=
  [("READY_FOR_PROCESSING", "NEW"); ("CANCELLED", "CANCELLED"); ("BOUGHT", "NEW"); ("FILLED_IN", "NEW")].
Definition ORDER_STATUS_TO_FULFILLMENT : list (string * string) :=
  [("NEW", "NEW"); ("PROCESSING", "PROCESSING"); ("READY_FOR_SHIPMENT", "READY_FOR_SHIPMENT"); ("SHIPPED", "SENT");
   ("DELIVERED", "PICKED_UP"); ("CANCELLED", "CANCELLED")].
Definition order_status_to_fulfillment (status : string) : res string :=
  match dget status ORDER_STATUS_TO_FULFILLMENT with
  | Some f => Ok f
  | None => Raise (ValueError ("Cannot map OrderStatus." ++ status ++ " to Allegro FulfillmentStatus"))
  end.

(** ** [map_checkout_to_order] *)

Definition invalid_order {A} (name : string) : res A := Raise (ValueError ("validation error for Order: " ++ name)).
(** A text field of the order. *)
Definition order_text (name : string) (v : pyval) : res pyval := if is_str v then Ok v else invalid_order name.

Definition map_address (delivery : pyval) : pyval :=
  match delivery with
  | PDict d =>
      match of_body "address" d with
      | PDict a =>
          PDict [("first_name", of_body "first_name" a); ("last_name", of_body "last_name" a);
                 ("company_name", of_body "company_name" a); ("street", of_body "street" a);
                 ("building_number", PStr ""); ("apartment_number", PStr ""); ("city", of_body "city" a);
                 ("postal_code", of_body "zip_code" a); ("country_code", of_body "country_code" a);
                 ("phone", of_body "phone_number" a); ("email", PStr "")]
      | _ => PNone
      end
  | _ => PNone
  end.
Definition map_buyer (buyer : pyval) : pyval :=
  match buyer with
  | PDict b =>
      PDict [("external_id", of_body "id" b); ("login", of_body "login" b); ("email", of_body "email" b);
             ("first_name", of_body "first_name" b); ("last_name", of_body "last_name" b);
             ("company_name", py_or (of_body "company_name" b) (PStr "")); ("is_guest", of_body "guest" b);
             ("address", PNone)]
  | _ => PNone
  end.
(** The amount and the currency of an optional price. *)
Definition map_price (price : pyval) : res (pyfloat * pyval) :=
  match price with
  | PDict p => amount ← py_float (of_body "amount" p); Ok (amount, of_body "currency" p)
  | _ => Ok (SpecFloat.S754_zero false, PStr "PLN")
  end.
Definition map_line (product_details : list (string * dict)) (line : pyval) : res pyval :=
  item ← as_dict line;
  offer ← as_dict (of_body "offer" item);
  offer_id ← as_str (of_body "id" offer);
  let details := default [] (dget offer_id product_details) in
  product ← order_text "product_id" (dget_or "product_id" (PStr "") details);
  sku ← order_text "sku" (dget_or "sku" (PStr offer_id) details);
  ean ← order_text "ean" (dget_or "ean" (PStr "") details);
  name ← order_text "name" (py_or (of_body "name" offer) (dget_or "name" (PStr "") details));
  quantity ← py_float (of_body "quantity" item);
  price ← map_price (of_body "price" item);
  Ok (PDict [("external_id", of_body "id" item); ("offer_id", PStr offer_id); ("product_id", product); ("sku", sku);
             ("ean", ean); ("name", name); ("quantity", PFloat quantity); ("unit", PStr "szt.");
             ("unit_price", PFloat (price : pyfloat * pyval).1); ("currency", price.2); ("tax_rate", PNone)]).
Definition delivery_method_of (delivery : pyval) : res pyval :=
  match delivery with
  | PDict d => match of_body "method" d with
               | PDict ((_ :: _) as m) => order_text "delivery_method" (dget_or "name" (PStr "") m)
               | _ => Ok (PStr "")
               end
  | _ => Ok (PStr "")
  end.
Definition total_of (summary : pyval) : res (pyfloat * pyval) :=
  match summary with PDict s => map_price (of_body "total_to_pay" s) | _ => map_price PNone end.

Definition map_checkout_to_order (checkout : dict) (account_name : string) (product_details : list (string * dict)) : res dict :=
  let delivery := of_body "delivery" checkout in
  items ← as_iter (of_body "line_items" checkout);
  lines ← mapR (map_line product_details) items;
  total ← total_of (of_body "summary" checkout);
  let allegro_status := match of_body "status" checkout with PStr s => s | _ => "" end in
  method ← delivery_method_of delivery;
  Ok [("external_id", of_body "id" checkout); ("account_name", PStr account_name);
      ("status", PStr (default "NEW" (dget allegro_status ALLEGRO_STATUS_TO_ORDER_STATUS)));
      ("buyer", map_buyer (of_body "buyer" checkout)); ("delivery_address", map_address delivery);
      ("invoice_address", PNone); ("lines", PList lines); ("total_amount", PFloat (total : pyfloat * pyval).1);
      ("currency", total.2);
      ("payment_type", match of_body "payment" checkout with PDict p => of_body "type" p | _ => PStr "" end);
      ("delivery_method", method); ("created_at", PNone); ("updated_at", of_body "updated_at" checkout);
      ("notes", PStr ""); ("raw_data", PDict checkout)].

Section order.
Variable datetime_text : string -> option string.

(** [AllegroCheckoutForm.model_validate] and the mapping without product details. *)
Definition order_of (checkout_data : pyval) (account_name : string) : res pyval :=
  checkout ← validate datetime_text AllegroCheckoutForm checkout_data;
  c ← as_dict checkout;
  order ← map_checkout_to_order c account_name [];
  Ok (PDict order).
End order.

(** ** Facts *)

(** Every status of the platform but RETURNED has a fulfillment status of Allegro's. *)
Lemma fulfillment_known status f :
  order_status_to_fulfillment status = Ok f -> In f FulfillmentStatus /\ status <> "RETURNED".
Proof.
  unfold order_status_to_fulfillment. destruct (dget status ORDER_STATUS_TO_FULFILLMENT) as [g|] eqn:E; [|done].
  intros [= ->]. split; [|by intros ->].
  apply dget_Some_in, list_elem_of_In in E. cbn in E. destruct_or! E; injection E as <- <-; cbn; tauto.
Qed.

(** The lines of an order are the items of the checkout form, in order and with their ids. *)
Lemma mapR_Forall2 {A B} (f : A -> res B) l ys : mapR f l = Ok ys -> Forall2 (fun x y => f x = Ok y) l ys.
Proof.
  revert ys. induction l as [|x l IH]; intros ys; cbn; [by intros [= <-]|].
  intros (y & Hy & H)%bind_Ok_inv. apply bind_Ok_inv in H as (ys' & Hys & [= <-]). constructor; auto.
Qed.

Theorem lines_follow_items checkout account details order :
  map_checkout_to_order checkout account details = Ok order ->
  exists items lines, as_iter (of_body "line_items" checkout) = Ok items /\ dget "lines" order = Some (PList lines) /\
    dget "external_id" order = Some (of_body "id" checkout) /\
    Forall2 (fun item line => exists d o, as_dict item = Ok d /\ line = PDict o /\
                 dget "external_id" o = Some (of_body "id" d)) items lines.
Proof.
  unfold map_checkout_to_order. intros (items & Hi & H)%bind_Ok_inv. apply bind_Ok_inv in H as (lines & Hl & H).
  apply bind_Ok_inv in H as (total & _ & H). apply bind_Ok_inv in H as (method & _ & [= <-]).
  exists items, lines. split_and!; [done..|]. apply mapR_Forall2 in Hl. eapply Forall2_impl; [|exact Hl].
  intros item line H. cbn beta in H. unfold map_line in H. apply bind_Ok_inv in H as (d & Hd & H). exists d.
  repeat (let x := fresh in apply bind_Ok_inv in H as (x & _ & H)). injection H as <-. eexists. split_and!; done.
Qed.

Example mapped_order :
  order_of (fun t => Some t)
    (PDict [("id", PStr "f1"); ("status", PStr "READY_FOR_PROCESSING");
            ("lineItems", PList [PDict [("id", PStr "l1"); ("offer", PDict [("id", PStr "o1"); ("name", PStr "Cup")]);
                                        ("quantity", PInt 2); ("price", PDict [("amount", PStr "12.50")])]])]) "shop"
  = Ok (PDict [("external_id", PStr "f1"); ("account_name", PStr "shop"); ("status", PStr "NEW"); ("buyer", PNone);
     ("delivery_address", PNone); ("invoice_address", PNone);
     ("lines", PList [PDict [("external_id", PStr "l1"); ("offer_id", PStr "o1"); ("product_id", PStr ""); ("sku", PStr "o1");
        ("ean", PStr ""); ("name", PStr "Cup"); ("quantity", PFloat (SpecFloat.S754_finite false 4503599627370496 (-51)));
        ("unit", PStr "szt."); ("unit_price", PFloat (SpecFloat.S754_finite false 7036874417766400 (-49)));
        ("currency", PStr "PLN"); ("tax_rate", PNone)]]);
     ("total_amount", PFloat (SpecFloat.S754_zero false)); ("currency", PStr "PLN"); ("payment_type", PStr "");
     ("delivery_method", PStr ""); ("created_at", PNone); ("updated_at", PNone); ("notes", PStr "");
     ("raw_data", match validate (fun t => Some t) AllegroCheckoutForm
                    (PDict [("id", PStr "f1"); ("status", PStr "READY_FOR_PROCESSING");
            ("lineItems", PList [PDict [("id", PStr "l1"); ("offer", PDict [("id", PStr "o1"); ("name", PStr "Cup")]);
                                        ("quantity", PInt 2); ("price", PDict [("amount", PStr "12.50")])]])]) with Ok v => v | Raise _ => PNone end)]).
Proof. by vm_compute. Qed.
