(* ===== verification/AllegroAuth.v ===== *)
(** Accounts, tokens and requests of the Allegro connector
    ([integrators/ecommerce/allegro/v1.0.0/src]: [services/account_manager.py],
    [models/database.py], [allegro/auth.py], and the retry loops of [allegro/client.py]).

    The world keeps the accounts, the tokens in memory and in the database, the clock in
    seconds and the exchanges with Allegro, newest first; Allegro's answers and the time
    they take are functions of the exchanges.  The device flow is given fuel: a wait of
    [n] seconds with intervals of at least one second ends within [n] rounds. *)

From S2P Require Import Prelude PyText PyFloat PyValue Json Base64 Vault Effects.

Local Open Scope string_scope.

(** ** Data *)

Record AllegroAccountConfig := MkAccount {
  ac_name : string;
  ac_client_id : string;
  ac_client_secret : string;
  ac_api_url : string;
  ac_auth_url : string;
  ac_environment : string
}.

Record AllegroTokenResponse := MkToken {
  at_access_token : string;
  at_refresh_token : string;
  at_expires_in : Z;
  at_token_type : string
}.

Record AllegroDeviceCodeResponse := MkDeviceCode {
  dc_user_code : string;
  dc_device_code : string;
  dc_expires_in : Z;
  dc_interval : Z;
  dc_verification_uri : string;
  dc_verification_uri_complete : string
}.

(** pydantic's texts and numbers: a number may be written as a text, a flag or a whole float. *)
Definition text_value (field : string) (v : option pyval) (missing : option string) : res string :=
  match v, missing with
  | Some (PStr s), _ => Ok s
  | None, Some s => Ok s
  | _, _ => Raise (ValueError ("validation error: " ++ field))
  end.
Definition int_value (field : string) (v : option pyval) (missing : option Z) : res Z :=
  let invalid := Raise (ValueError ("validation error: " ++ field)) in
  match v, missing with
  | Some (PInt n), _ => Ok n
  | Some (PBool b), _ => Ok (bool_Z b)
  | Some (PStr s), _ => match parse_int s with Some n => Ok n | None => invalid end
  | Some (PFloat f), _ =>
      match Z_of_float f with
      | Ok n => if num_eqb (PInt n) (PFloat f) then Ok n else invalid
      | Raise _ => invalid
      end
  | None, Some n => Ok n
  | _, _ => invalid
  end.
Definition object_value (v : pyval) : res dict :=
  match v with PDict d => Ok d | _ => Raise (ValueError "validation error: not an object") end.

Definition token_of (v : pyval) : res AllegroTokenResponse :=
  d ← object_value v;
  access ← text_value "access_token" (dget "access_token" d) None;
  refresh ← text_value "refresh_token" (dget "refresh_token" d) None;
  expires ← int_value "expires_in" (dget "expires_in" d) None;
  type ← text_value "token_type" (dget "token_type" d) (Some "Bearer");
  Ok (MkToken access refresh expires type).
Definition token_dump (t : AllegroTokenResponse) : pyval :=
  PDict [("access_token", PStr (at_access_token t)); ("refresh_token", PStr (at_refresh_token t));
         ("expires_in", PInt (at_expires_in t)); ("token_type", PStr (at_token_type t))].

Definition device_code_of (v : pyval) : res AllegroDeviceCodeResponse :=
  d ← object_value v;
  user ← text_value "user_code" (dget "user_code" d) None;
  device ← text_value "device_code" (dget "device_code" d) None;
  expires ← int_value "expires_in" (dget "expires_in" d) None;
  interval ← int_value "interval" (dget "interval" d) (Some 5%Z);
  uri ← text_value "verification_uri" (dget "verification_uri" d) (Some "");
  complete ← text_value "verification_uri_complete" (dget "verification_uri_complete" d) (Some "");
  Ok (MkDeviceCode user device expires interval uri complete).

(** What is sent: a request to the API with its bearer token, or a form to the
    authorization server. *)
Inductive outgoing :=
  | ApiRequest (api_url method path token accept content_type : string) (params json : option dict) (content : option string)
  | AuthRequest (url : string) (basic : option (string * string)) (form : list (string * string)).

Record http_answer := Answer { an_status : Z; an_retry_after : option string; an_json : res pyval; an_text : string }.
Inductive exchange := Exchanged (o : outgoing) (r : res http_answer) | Waited (seconds : Z).

Record World := MkWorld {
  accounts : list (string * AllegroAccountConfig);
  tokens : list (string * AllegroTokenResponse);
  expiry : list (string * Z);
  pending : list (string * AllegroDeviceCodeResponse);
  oauth_tokens : list (string * string);
  nonces : nat;
  now : Z;
  sent : list exchange
}.

Definition set_accounts (a : list (string * AllegroAccountConfig)) (w : World) : World :=
  MkWorld a (tokens w) (expiry w) (pending w) (oauth_tokens w) (nonces w) (now w) (sent w).
Definition set_tokens (t : list (string * AllegroTokenResponse)) (e : list (string * Z)) (w : World) : World :=
  MkWorld (accounts w) t e (pending w) (oauth_tokens w) (nonces w) (now w) (sent w).
Definition set_pending (p : list (string * AllegroDeviceCodeResponse)) (w : World) : World :=
  MkWorld (accounts w) (tokens w) (expiry w) p (oauth_tokens w) (nonces w) (now w) (sent w).
Definition set_rows (rows : list (string * string)) (n : nat) (w : World) : World :=
  MkWorld (accounts w) (tokens w) (expiry w) (pending w) rows n (now w) (sent w).
Definition record (e : exchange) (seconds : Z) (w : World) : World :=
  MkWorld (accounts w) (tokens w) (expiry w) (pending w) (oauth_tokens w) (nonces w) (now w + seconds) (e :: sent w).

(** ** [AccountManager] *)

Definition get_account (name : string) (w : World) : option AllegroAccountConfig := dget name (accounts w).
Definition list_accounts (w : World) : list AllegroAccountConfig := map snd (accounts w).
Definition add_account (a : AllegroAccountConfig) : EM World unit :=
  modify (fun w => set_accounts (dset (ac_name a) a (accounts w)) w).
Definition remove_account (name : string) : EM World bool := fun w =>
  (Ok (dhas name (accounts w)), set_accounts (ddel name (accounts w)) w).

(** The accounts of the file, or of the environment until a number has no name. *)
Definition account_default (k fallback : string) (d : dict) : res string := text_value k (dget k d) (Some fallback).
Definition account_of (v : pyval) : res AllegroAccountConfig :=
  d ← object_value v;
  name ← text_value "name" (dget "name" d) None;
  id ← text_value "client_id" (dget "client_id" d) None;
  secret ← text_value "client_secret" (dget "client_secret" d) None;
  api ← account_default "api_url" "https://api.allegro.pl" d;
  auth ← account_default "auth_url" "https://allegro.pl/auth/oauth" d;
  environment ← account_default "environment" "production" d;
  Ok (MkAccount name id secret api auth environment).
Fixpoint add_accounts (entries : list pyval) : EM World unit :=
  match entries with
  | [] => mret tt
  | v :: rest => a ← lift (account_of v); _ ← add_account a; add_accounts rest
  end.
Definition load_from_yaml (file : pyval) : EM World unit :=
  entries ← lift (d ← as_dict file; as_iter (dget_or "accounts" (PList []) d));
  add_accounts entries.

Fixpoint load_from_env (fuel : nat) (getenv : string -> option string) (idx : nat) : EM World unit :=
  match fuel with
  | O => raise (OtherError "out of fuel")
  | S fuel =>
      let key k := "ALLEGRO_ACCOUNT_" ++ str_of_Z (Z.of_nat idx) ++ "_" ++ k in
      let env k fallback := default fallback (getenv (key k)) in
      match getenv (key "NAME") with
      | None | Some "" => mret tt
      | Some name =>
          _ ← add_account (MkAccount name (env "CLIENT_ID" "") (env "CLIENT_SECRET" "")
                (env "API_URL" "https://api.allegro.pl") (env "AUTH_URL" "https://allegro.pl/auth/oauth")
                (env "ENVIRONMENT" "production"));
          load_from_env fuel getenv (S idx)
      end
  end.

Section allegro.
Context `{Cipher}.
(** Allegro: its answer to a request after some exchanges, and the seconds it takes. *)
Variable answer : list exchange -> outgoing -> res http_answer.
Variable latency : list exchange -> outgoing -> Z.
(** [isoformat] and [fromisoformat] of a time stamp. *)
Variable isoformat : Z -> string.
Variable fromisoformat : string -> res Z.
(** [settings.encryption_key], [settings.max_retries]. *)
Variable encryption_key : string.
Variable max_retries : nat.

Definition send (o : outgoing) : EM World http_answer := fun w =>
  let r := answer (sent w) o in (r, record (Exchanged o r) (latency (sent w) o) w).
(** [asyncio.sleep]: a negative time is none. *)
Definition sleep (seconds : Z) : EM World unit := modify (record (Waited seconds) (Z.max 0 seconds)).
Definition raise_for_status (r : http_answer) : EM World unit :=
  if (200 <=? an_status r)%Z && (an_status r <? 300)%Z then mret tt
  else raise (named "HTTPStatusError" (str_of_Z (an_status r))).

(** ** [TokenStore] *)

Definition save_token (account : string) (data : pyval) : EM World unit :=
  w ← get_st;
  let raw := json_text true false data in
  stored ← lift (if String.eqb encryption_key "" then Ok raw else encrypt_value (nonces w) raw encryption_key);
  modify (fun w => set_rows (dset account stored (oauth_tokens w)) (S (nonces w)) w).
Definition delete_token (account : string) : EM World unit :=
  modify (fun w => set_rows (ddel account (oauth_tokens w)) (nonces w) w).
(** A row that cannot be read is passed over. *)
Definition read_row (stored : string) : res pyval :=
  raw ← (if String.eqb encryption_key "" then Ok stored else decrypt_value stored encryption_key);
  json_loads raw.
Definition load_all_tokens (rows : list (string * string)) : list (string * pyval) :=
  omap (fun row => match read_row row.2 with Ok v => Some (row.1, v) | Raise _ => None end) rows.

(** ** [AllegroAuthManager] *)

(** [datetime + timedelta]: within the years 1 to 9999. *)
Definition date_at (t : Z) : res Z :=
  if (-62135596800 <=? t)%Z && (t <? 253402300800)%Z then Ok t else Raise (OverflowError "date value out of range").

Definition restored (v : pyval) : res (AllegroTokenResponse * Z) :=
  d ← (match v with PDict d => Ok d | _ => Raise (TypeError "the row is not an object") end);
  tv ← (match dget "token" d with Some t => Ok t | None => Raise (KeyError "token") end);
  t ← token_of tv;
  ev ← (match dget "expires_at" d with Some e => Ok e | None => Raise (KeyError "expires_at") end);
  text ← as_str ev;
  e ← fromisoformat text;
  Ok (t, e).
(** [initialize]: what the database holds becomes what the manager knows. *)
Fixpoint restore (rows : list (string * pyval)) : EM World unit :=
  match rows with
  | [] => mret tt
  | (account, v) :: rest =>
      te ← lift (restored v);
      _ ← modify (fun w => set_tokens (dset account (te : AllegroTokenResponse * Z).1 (tokens w)) (dset account te.2 (expiry w)) w);
      restore rest
  end.
Definition initialize : EM World unit :=
  w ← get_st; restore (load_all_tokens (oauth_tokens w)).

Definition is_authenticated (account : string) (w : World) : bool := dhas account (tokens w).
Definition is_token_expired (account : string) (w : World) : bool :=
  match dget account (expiry w) with None => true | Some e => (e <=? now w)%Z end.

Definition token_row (t : AllegroTokenResponse) (expires_at : Z) : pyval :=
  PDict [("token", token_dump t); ("expires_at", PStr (isoformat expires_at))].
Definition auth_store_token (account : string) (t : AllegroTokenResponse) : EM World unit :=
  w ← get_st;
  expires_at ← lift (date_at (now w + at_expires_in t));
  _ ← modify (fun w => set_tokens (dset account t (tokens w)) (dset account expires_at (expiry w)) w);
  save_token account (token_row t expires_at).

(** A refresh Allegro answers with 401 forgets the account's tokens. *)
Definition auth_refresh_token (account client_id client_secret auth_url : string) : EM World AllegroTokenResponse :=
  w ← get_st;
  match dget account (tokens w) with
  | None => raise (named "RuntimeError" ("No token to refresh for account '" ++ account ++ "'"))
  | Some current =>
      r ← send (AuthRequest (auth_url ++ "/token") (Some (client_id, client_secret))
                  [("grant_type", "refresh_token"); ("refresh_token", at_refresh_token current)]);
      if (an_status r =? 401)%Z then
        _ ← modify (fun w => set_tokens (ddel account (tokens w)) (ddel account (expiry w)) w);
        _ ← delete_token account;
        raise (named "PermissionError" ("Refresh token invalid for account '" ++ account
                 ++ "'. Re-authenticate via device flow."))
      else
        _ ← raise_for_status r;
        v ← lift (an_json r);
        token ← lift (token_of v);
        _ ← auth_store_token account token;
        mret token
  end.

Definition get_access_token (account client_id client_secret auth_url : string) : EM World string :=
  w ← get_st;
  match dget account (tokens w) with
  | Some t =>
      if is_token_expired account w then
        t' ← auth_refresh_token account client_id client_secret auth_url; mret (at_access_token t')
      else mret (at_access_token t)
  | None => raise (named "RuntimeError" ("Account '" ++ account ++ "' not authenticated. Call POST /auth/"
                    ++ account ++ "/device-code to start device flow."))
  end.

Definition start_device_flow (account client_id auth_url : string) : EM World AllegroDeviceCodeResponse :=
  r ← send (AuthRequest (auth_url ++ "/device") None [("client_id", client_id)]);
  _ ← raise_for_status r;
  v ← lift (an_json r);
  code ← lift (device_code_of v);
  _ ← modify (fun w => set_pending (dset account code (pending w)) w);
  mret code.

Definition drop_pending (account : string) : EM World unit :=
  modify (fun w => set_pending (ddel account (pending w)) w).

(** The loop of [poll_for_token]. *)
Fixpoint poll_loop (fuel : nat) (account client_id client_secret url device_code : string) (start interval max_wait : Z)
  : EM World AllegroTokenResponse :=
  match fuel with
  | O => raise (OtherError "out of fuel")
  | S fuel =>
      w ← get_st;
      if (now w - start <? max_wait)%Z then
        _ ← sleep interval;
        r ← send (AuthRequest url (Some (client_id, client_secret))
                    [("grant_type", "urn:ietf:params:oauth:grant-type:device_code"); ("device_code", device_code)]);
        if (an_status r =? 200)%Z then
          v ← lift (an_json r);
          token ← lift (token_of v);
          _ ← auth_store_token account token;
          _ ← drop_pending account;
          mret token
        else
          body ← lift (v ← an_json r; as_dict v);
          let error := dget_or "error" (PStr "") body in
          if py_eqb error (PStr "slow_down") then
            poll_loop fuel account client_id client_secret url device_code start (interval + 1) max_wait
          else if py_eqb error (PStr "authorization_pending") then
            poll_loop fuel account client_id client_secret url device_code start interval max_wait
          else if py_eqb error (PStr "access_denied") then
            _ ← drop_pending account;
            raise (named "PermissionError" ("User denied access for account '" ++ account ++ "'"))
          else raise (named "RuntimeError" ("Unexpected auth error: " ++ py_str error ++ " — " ++ an_text r))
      else
        _ ← drop_pending account;
        raise (named "TimeoutError" ("Device flow timed out for account '" ++ account ++ "'"))
  end.
Definition poll_for_token (fuel : nat) (account client_id client_secret auth_url : string) (max_wait : Z)
  : EM World AllegroTokenResponse :=
  w ← get_st;
  match dget account (pending w) with
  | None => raise (named "RuntimeError" ("No pending device flow for account '" ++ account ++ "'"))
  | Some code => poll_loop fuel account client_id client_secret (auth_url ++ "/token") (dc_device_code code)
                   (now w) (dc_interval code) max_wait
  end.

(** [get_status]. *)
Definition text_or_null (o : option string) : pyval := match o with Some s => PStr s | None => PNone end.
Definition get_status (account : string) (w : World) : pyval :=
  let waiting := dget account (pending w) in
  PDict [("account_name", PStr account);
         ("authenticated", PBool (is_authenticated account w && negb (is_token_expired account w)));
         ("token_expires_at", text_or_null (isoformat <$> dget account (expiry w)));
         ("verification_uri", text_or_null (dc_verification_uri_complete <$> waiting));
         ("user_code", text_or_null (dc_user_code <$> waiting))].

(** ** [AllegroClient.request] *)

Definition ALLEGRO_CONTENT_TYPE : string := "application/vnd.allegro.public.v1+json".

(** [int(response.headers.get("Retry-After", "5"))]. *)
Definition retry_after (r : http_answer) : res Z := py_int (PStr (default "5" (an_retry_after r))).

(** One of the attempts, when [tries] are left: what to send for a token, and what to do with the answer. *)
Fixpoint attempts {A} (tries : nat) (account client_id client_secret auth_url : string) (request : string -> outgoing)
    (use : http_answer -> EM World A) (failure : pyexn) : EM World A :=
  match tries with
  | O => raise failure
  | S tries =>
      token ← get_access_token account client_id client_secret auth_url;
      r ← send (request token);
      if (an_status r =? 401)%Z then
        _ ← try_catch (_ ← auth_refresh_token account client_id client_secret auth_url; mret tt)
                      (fun e => match tries with O => raise e | S _ => mret tt end);
        attempts tries account client_id client_secret auth_url request use failure
      else if (an_status r =? 429)%Z then
        seconds ← lift (retry_after r);
        _ ← sleep seconds;
        attempts tries account client_id client_secret auth_url request use failure
      else use r
  end.

Definition api_error (message : string) : pyexn := named "AllegroApiError" ("Allegro API 401: " ++ message).
Definition api_request (a : AllegroAccountConfig) (method path : string) (params json : option dict) : EM World http_answer :=
  attempts max_retries (ac_name a) (ac_client_id a) (ac_client_secret a) (ac_auth_url a)
    (fun token => ApiRequest (ac_api_url a) method path token ALLEGRO_CONTENT_TYPE ALLEGRO_CONTENT_TYPE params json None)
    mret (api_error ("Failed after " ++ str_of_Z (Z.of_nat max_retries) ++ " auth retries")).

(** A request whose answer must be a success, and its JSON. *)
Definition api_json (a : AllegroAccountConfig) (method path : string) (params json : option dict) : EM World pyval :=
  r ← api_request a method path params json;
  _ ← raise_for_status r;
  lift (an_json r).
Definition api_done (a : AllegroAccountConfig) (method path : string) (params json : option dict) : EM World unit :=
  r ← api_request a method path params json;
  raise_for_status r.
End allegro.

(** ** Attempts *)

Definition is_api_request (e : exchange) : bool := match e with Exchanged (ApiRequest _ _ _ _ _ _ _ _ _) _ => true | _ => false end.
Definition api_requests (w : World) : nat := List.length (List.filter is_api_request (sent w)).

Section facts.
Context `{Cipher}.
Variable answer : list exchange -> outgoing -> res http_answer.
Variable latency : list exchange -> outgoing -> Z.
Variable isoformat : Z -> string.
Variable fromisoformat : string -> res Z.
Variable encryption_key : string.

Abbreviation attempts := (attempts answer latency isoformat encryption_key).
Abbreviation get_access_token := (get_access_token answer latency isoformat encryption_key).
Abbreviation auth_refresh_token := (auth_refresh_token answer latency isoformat encryption_key).
Abbreviation auth_store_token := (auth_store_token isoformat encryption_key).

(** [m] sends at most [n] requests to the API. *)
Definition sends_at_most {A} (n : nat) (m : EM World A) : Prop := forall w, (api_requests (m w).2 <= api_requests w + n)%nat.

Lemma sends_bind {A B} n k (m : EM World A) (f : A -> EM World B) :
  sends_at_most n m -> (forall a, sends_at_most k (f a)) -> sends_at_most (n + k) (m ≫= f).
Proof.
  intros Hm Hf w. specialize (Hm w). unfold mbind, EM_bind.
  destruct (m w) as [[a|e] w']; cbn in *; [|lia]. specialize (Hf a w'). lia.
Qed.
Lemma sends_keep {A} n (m : EM World A) : (forall b, preserves (fun w => api_requests w = b) m) -> sends_at_most n m.
Proof. intros Hm w. rewrite (Hm (api_requests w) w eq_refl). lia. Qed.

Lemma send_auth_keeps b url basic form : preserves (fun w => api_requests w = b) (send answer latency (AuthRequest url basic form)).
Proof. by intros w Hw. Qed.
Lemma raise_for_status_keeps P r : preserves P (raise_for_status r).
Proof. unfold raise_for_status. preserve. Qed.
#[local] Hint Resolve raise_for_status_keeps send_auth_keeps : effects.
#[local] Hint Extern 3 (preserves _ (modify _)) => apply preserves_modify; by intros ? ? : effects.

Lemma save_token_keeps b account data : preserves (fun w => api_requests w = b) (save_token encryption_key account data).
Proof. unfold save_token. preserve. Qed.
Lemma auth_store_keeps b account t : preserves (fun w => api_requests w = b) (auth_store_token account t).
Proof. unfold AllegroAuth.auth_store_token. preserve. apply save_token_keeps. Qed.
Lemma auth_refresh_keeps b account id secret url : preserves (fun w => api_requests w = b) (auth_refresh_token account id secret url).
Proof. unfold AllegroAuth.auth_refresh_token, delete_token. preserve. apply auth_store_keeps. Qed.
Lemma get_access_keeps b account id secret url : preserves (fun w => api_requests w = b) (get_access_token account id secret url).
Proof. unfold AllegroAuth.get_access_token. preserve. apply auth_refresh_keeps. Qed.

(** However Allegro answers, a call sends its request at most [tries] times. *)
Theorem attempts_bounded {A} tries account id secret url request (use : http_answer -> EM World A) failure :
  (forall r b, preserves (fun w => api_requests w = b) (use r)) ->
  sends_at_most tries (attempts tries account id secret url request use failure).
Proof.
  intros Huse. induction tries as [|tries IH]; cbn [AllegroAuth.attempts]; [by intros w; cbn; lia|].
  change (S tries) with (0 + (1 + tries))%nat.
  apply sends_bind; [apply sends_keep; intros b; apply get_access_keeps|]. intros token.
  apply sends_bind.
  { intros w. unfold send, api_requests, record. cbn. destruct (request token); cbn; lia. }
  intros r. destruct (an_status r =? 401)%Z.
  { apply (sends_bind 0); [|done]. apply sends_keep. intros b. preserve; apply auth_refresh_keeps. }
  destruct (an_status r =? 429)%Z.
  - apply (sends_bind 0); [apply sends_keep; intros b; auto with effects|]. intros seconds.
    apply (sends_bind 0); [|done]. apply sends_keep. intros b. by intros w.
  - apply sends_keep. intros b. apply Huse.
Qed.

(** ** The database mirrors the memory *)

Hypothesis key_ok : encryption_key = "" \/ is_ok (get_key encryption_key) = true.
Hypothesis dates_read_back : forall t, fromisoformat (isoformat t) = Ok t.

Definition read_back (stored : string) : res (AllegroTokenResponse * Z) :=
  v ← read_row encryption_key stored; restored fromisoformat v.
Definition mirrored (w : World) : Prop :=
  NoDup (dkeys (tokens w)) /\ NoDup (dkeys (expiry w)) /\ NoDup (dkeys (oauth_tokens w)) /\
  forall k, match dget k (tokens w), dget k (expiry w), dget k (oauth_tokens w) with
            | Some t, Some e, Some stored => read_back stored = Ok (t, e)
            | None, None, None => True
            | _, _, _ => False
            end.

Lemma mirrored_set account t e stored w n :
  mirrored w -> read_back stored = Ok (t, e) ->
  mirrored (set_rows (dset account stored (oauth_tokens w)) n
              (set_tokens (dset account t (tokens w)) (dset account e (expiry w)) w)).
Proof.
  intros (H1 & H2 & H3 & Hk) Hr. split_and!; cbn; [by apply NoDup_dkeys_dset..|].
  intros k. rewrite !dget_dset. destruct (String.eqb k account); [done|apply Hk].
Qed.

Lemma mirrored_delete account w n :
  mirrored w ->
  mirrored (set_rows (ddel account (oauth_tokens w)) n
              (set_tokens (ddel account (tokens w)) (ddel account (expiry w)) w)).
Proof.
  intros (H1 & H2 & H3 & Hk). split_and!; cbn; [by apply NoDup_dkeys_ddel..|].
  intros k. destruct (String.eqb_spec k account) as [->|Hne].
  - by rewrite !dget_ddel_eq.
  - rewrite !dget_ddel_ne by done. apply Hk.
Qed.

Lemma token_of_dump t : token_of (token_dump t) = Ok t.
Proof. by destruct t. Qed.

Lemma saved_reads_back t e n stored :
  (if String.eqb encryption_key "" then Ok (json_text true false (token_row isoformat t e))
   else encrypt_value n (json_text true false (token_row isoformat t e)) encryption_key)
  = Ok stored -> read_back stored = Ok (t, e).
Proof.
  pose proof (loads_dumps true (token_row isoformat t e) ltac:(by cbn) ltac:(done)) as Hj. revert Hj.
  generalize (json_text true false (token_row isoformat t e)). intros raw Hj H1. unfold read_back, read_row.
  assert (Hraw : (if String.eqb encryption_key "" then Ok stored else decrypt_value stored encryption_key)
                 = Ok raw).
  { destruct (String.eqb encryption_key ""); [by injection H1 as ->|by apply decrypt_encrypt_value in H1]. }
  rewrite Hraw. cbn [mbind res_bind]. rewrite Hj. unfold restored, token_row.
  cbn [dget String.eqb Ascii.eqb Bool.eqb mbind res_bind]. rewrite token_of_dump. cbn. by rewrite dates_read_back.
Qed.

Lemma encryption_works n raw :
  exists stored, (if String.eqb encryption_key "" then Ok raw else encrypt_value n raw encryption_key) = Ok stored.
Proof.
  destruct (String.eqb_spec encryption_key ""); [eauto|]. destruct key_ok as [|Hk]; [done|].
  unfold encrypt_value. destruct (get_key encryption_key); [eauto|done].
Qed.

Lemma auth_store_mirrored account t : preserves mirrored (auth_store_token account t).
Proof.
  intros w Hw. unfold AllegroAuth.auth_store_token. rewrite (bind_run get_st _ w w w eq_refl).
  destruct (date_at (now w + at_expires_in t)) as [e|]; [|done].
  rewrite (bind_run (lift (Ok e)) _ w e w eq_refl), (bind_run (modify _) _ w tt _ eq_refl).
  unfold save_token. rewrite (bind_run get_st _ _ _ _ eq_refl).
  destruct (encryption_works (nonces w) (json_text true false (token_row isoformat t e))) as [stored Hs].
  cbn [nonces set_tokens]. rewrite Hs, (bind_run (lift (Ok stored)) _ _ stored _ eq_refl). exact (mirrored_set account t e stored w (S (nonces w)) Hw (saved_reads_back _ _ _ _ Hs)).
Qed.

Lemma mirrored_same w w' :
  tokens w' = tokens w -> expiry w' = expiry w -> oauth_tokens w' = oauth_tokens w -> mirrored w -> mirrored w'.
Proof. unfold mirrored. by intros -> -> ->. Qed.
#[local] Hint Extern 3 (preserves mirrored (modify _)) => apply preserves_modify; intros ?; by apply mirrored_same : effects.
#[local] Hint Extern 3 (preserves mirrored (send _ _ _)) => intros ?; by apply mirrored_same : effects.
#[local] Hint Extern 3 (preserves mirrored (sleep _)) => intros ?; by apply mirrored_same : effects.
#[local] Hint Resolve auth_store_mirrored : effects.

Lemma auth_refresh_mirrored account id secret url : preserves mirrored (auth_refresh_token account id secret url).
Proof.
  unfold AllegroAuth.auth_refresh_token. apply preserves_bind; [auto with effects|]. intros w.
  destruct (dget account (tokens w)) as [current|]; [|auto with effects].
  apply preserves_bind; [auto with effects|]. intros r. destruct (an_status r =? 401)%Z; [|preserve].
  intros w' Hw. unfold delete_token. rewrite (bind_run (modify _) _ w' tt _ eq_refl), (bind_run (modify _) _ _ tt _ eq_refl).
  exact (mirrored_delete account w' (nonces w') Hw).
Qed.
#[local] Hint Resolve auth_refresh_mirrored : effects.
Lemma get_access_mirrored account id secret url : preserves mirrored (get_access_token account id secret url).
Proof. unfold AllegroAuth.get_access_token. preserve. Qed.
#[local] Hint Resolve get_access_mirrored : effects.
Lemma attempts_mirrored {A} tries account id secret url request (use : http_answer -> EM World A) failure :
  (forall r, preserves mirrored (use r)) -> preserves mirrored (attempts tries account id secret url request use failure).
Proof.
  intros Huse. induction tries as [|tries IH]; cbn [AllegroAuth.attempts]; preserve; auto.
Qed.
Lemma poll_mirrored fuel account id secret url code start interval max_wait :
  preserves mirrored (poll_loop answer latency isoformat encryption_key fuel account id secret url code start interval max_wait).
Proof.
  revert interval. induction fuel as [|fuel IH]; intros interval; cbn [poll_loop]; unfold drop_pending; preserve; auto.
Qed.

(** The operations of the connector on accounts and tokens. *)
Inductive operation :=
  | OpAddAccount (a : AllegroAccountConfig)
  | OpRemoveAccount (name : string)
  | OpStartDeviceFlow (account client_id auth_url : string)
  | OpPollForToken (fuel : nat) (account client_id client_secret auth_url : string) (max_wait : Z)
  | OpRefresh (account client_id client_secret auth_url : string)
  | OpRequest (tries : nat) (a : AllegroAccountConfig) (method path : string) (params json : option dict).
Definition perform (o : operation) : EM World unit :=
  match o with
  | OpAddAccount a => add_account a
  | OpRemoveAccount name => _ ← remove_account name; mret tt
  | OpStartDeviceFlow account id url => _ ← start_device_flow answer latency account id url; mret tt
  | OpPollForToken fuel account id secret url max_wait =>
      _ ← poll_for_token answer latency isoformat encryption_key fuel account id secret url max_wait; mret tt
  | OpRefresh account id secret url => _ ← auth_refresh_token account id secret url; mret tt
  | OpRequest tries a method path params json =>
      _ ← api_request answer latency isoformat encryption_key tries a method path params json; mret tt
  end.
(** What a run leaves: operations that raise do not stop the connector. *)
Definition perform_all (ops : list operation) (w : World) : World := List.fold_left (fun w o => (perform o w).2) ops w.

Lemma perform_mirrored o : preserves mirrored (perform o).
Proof.
  destruct o; unfold perform, add_account, remove_account, start_device_flow, poll_for_token, api_request; preserve.
  - intros w. by apply mirrored_same.
  - apply poll_mirrored.
  - apply attempts_mirrored. intros r. apply preserves_ret.
Qed.

Lemma perform_all_mirrored ops w : mirrored w -> mirrored (perform_all ops w).
Proof.
  unfold perform_all. revert w. induction ops as [|o ops IH]; intros w Hw; cbn; [done|]. apply IH. by apply perform_mirrored.
Qed.

(** A new process finds the rows and nothing in memory. *)
Definition restarted (w : World) : World := MkWorld [] [] [] [] (oauth_tokens w) (nonces w) (now w) [].

Definition read_as {A} (f : AllegroTokenResponse * Z -> A) (rows : list (string * string)) (k : string) (otherwise : option A) : option A :=
  match dget k rows with
  | Some stored => match read_back stored with Ok te => Some (f te) | Raise _ => None end
  | None => otherwise
  end.

Lemma restore_rows rows : forall w0,
  NoDup (dkeys rows) -> Forall (fun row => is_ok (read_back row.2) = true) rows ->
  exists w1, restore fromisoformat (load_all_tokens encryption_key rows) w0 = (Ok tt, w1) /\
    (forall k, dget k (tokens w1) = read_as fst rows k (dget k (tokens w0))) /\
    (forall k, dget k (expiry w1) = read_as snd rows k (dget k (expiry w0))).
Proof.
  induction rows as [|[account stored] rows IH]; intros w0; [cbn; by exists w0|].
  intros [Hn Hnd]%list.NoDup_cons [Hr Hrows]%Forall_cons_iff. cbn [snd] in Hr.
  destruct (read_back stored) as [[t e]|] eqn:E; [|done]. pose proof E as E0. unfold read_back in E.
  apply bind_Ok_inv in E as (v & Hv & Hte). unfold load_all_tokens. cbn [omap list_omap fst snd]. rewrite Hv.
  cbn [restore]. rewrite Hte, (bind_run (lift (Ok (t, e))) _ w0 (t, e) w0 eq_refl), (bind_run (modify _) _ w0 tt _ eq_refl).
  destruct (IH (set_tokens (dset account t (tokens w0)) (dset account e (expiry w0)) w0) Hnd Hrows) as (w1 & Hw1 & Ht & He).
  exists w1. split; [exact Hw1|].
  split; intros k; rewrite ?Ht, ?He; unfold read_as; cbn [dget tokens expiry set_tokens]; destruct (String.eqb_spec k account) as [->|Hne].
  1,3: apply dget_None in Hn; cbn in Hn; rewrite Hn, E0; apply dget_dset_eq.
  all: destruct (dget k rows); [done|by apply dget_dset_ne].
Qed.

(** C5: after any operations on accounts and tokens, whatever Allegro answers, a restart finds exactly the tokens and
    expiry times the connector had, and no others. *)
Theorem restart_restores ops w :
  mirrored w ->
  exists w', initialize fromisoformat encryption_key (restarted (perform_all ops w)) = (Ok tt, w') /\
    forall k, dget k (tokens w') = dget k (tokens (perform_all ops w)) /\
              dget k (expiry w') = dget k (expiry (perform_all ops w)).
Proof.
  intros Hw%(perform_all_mirrored ops). revert Hw. generalize (perform_all ops w). clear w. intros w (_ & _ & Hnd & Hk).
  assert (Hrows : Forall (fun row => is_ok (read_back row.2) = true) (oauth_tokens w)).
  { apply Forall_forall. intros [k stored] Hin. specialize (Hk k).
    rewrite (dget_in_NoDup (oauth_tokens w) k stored) in Hk by (done || by apply list_elem_of_In).
    destruct (dget k (tokens w)), (dget k (expiry w)); try done. cbn. by rewrite Hk. }
  destruct (restore_rows (oauth_tokens w) (restarted w) Hnd Hrows) as (w' & Hi & Ht & He).
  exists w'. split.
  { unfold initialize. by rewrite (bind_run get_st _ _ _ _ eq_refl). }
  intros k. rewrite Ht, He. unfold read_as. specialize (Hk k).
  destruct (dget k (oauth_tokens w)) as [stored|].
  - destruct (dget k (tokens w)), (dget k (expiry w)); try done. by rewrite Hk.
  - by destruct (dget k (tokens w)), (dget k (expiry w)).
Qed.

(** Nothing is sent for an account without a token. *)
Lemma unauthenticated_sends_nothing tries a method path params json w :
  is_authenticated (ac_name a) w = false ->
  exists e, api_request answer latency isoformat encryption_key tries a method path params json w = (Raise e, w).
Proof.
  unfold is_authenticated, dhas, api_request. intros Ha. destruct (dget (ac_name a) (tokens w)) eqn:E; [done|].
  destruct tries as [|tries]; [by eexists|]. cbn [AllegroAuth.attempts]. unfold AllegroAuth.get_access_token.
  unfold mbind, EM_bind at 1, get_st. cbn. rewrite E. by eexists.
Qed.

(** ** The device flow ends *)

Hypothesis latency_nonneg : forall h o, (0 <= latency h o)%Z.

Lemma bind_cong {S A B} (m : EM S A) (k k' : A -> EM S B) s :
  (forall a s', m s = (Ok a, s') -> k a s' = k' a s') -> (m ≫= k) s = (m ≫= k') s.
Proof. intros Hk. unfold mbind, EM_bind. destruct (m s) as [[a|e] s']; [by apply Hk|done]. Qed.

Lemma poll_more_fuel extra account id secret url code start max_wait : forall fuel interval w,
  (1 <= interval)%Z -> (max_wait - (now w - start) < Z.of_nat fuel)%Z -> (0 < fuel)%nat ->
  poll_loop answer latency isoformat encryption_key (fuel + extra) account id secret url code start interval max_wait w
  = poll_loop answer latency isoformat encryption_key fuel account id secret url code start interval max_wait w.
Proof.
  induction fuel as [|fuel IH]; intros interval w Hi Hf Hpos; [lia|]. cbn [Nat.add poll_loop].
  rewrite !(bind_run get_st _ w w w eq_refl). destruct (now w - start <? max_wait)%Z eqn:E; [|done]. apply Z.ltb_lt in E.
  apply bind_cong. intros u w1 Hs. injection Hs as <- <-. apply bind_cong. intros r w2 Hs.
  assert (Hnow : (now w + 1 <= now w2)%Z).
  { unfold send in Hs. apply (f_equal snd) in Hs. cbn [snd] in Hs. rewrite <-Hs. cbn. pose proof (latency_nonneg (sent (record (Waited interval) (Z.max 0 interval) w))
      (AuthRequest url (Some (id, secret)) [("grant_type", "urn:ietf:params:oauth:grant-type:device_code"); ("device_code", code)])) as Hl.
    cbn in Hl. lia. }
  destruct (an_status r =? 200)%Z; [done|]. apply bind_cong. intros body w3 Hl. apply lift_returned in Hl as [_ ->].
  destruct (py_eqb _ _); [apply IH; lia|]. destruct (py_eqb _ _); [apply IH; lia|done].
Qed.

(** With intervals of at least a second the loop has ended after [max_wait + 1] rounds: more fuel changes nothing. *)
Theorem device_flow_ends extra account id secret url max_wait w :
  (0 <= max_wait)%Z -> (forall code, dget account (pending w) = Some code -> (1 <= dc_interval code)%Z) ->
  let fuel := S (Z.to_nat max_wait) in
  poll_for_token answer latency isoformat encryption_key (fuel + extra) account id secret url max_wait w
  = poll_for_token answer latency isoformat encryption_key fuel account id secret url max_wait w.
Proof.
  intros Hw Hi fuel. unfold poll_for_token. rewrite !(bind_run get_st _ w w w eq_refl).
  destruct (dget account (pending w)) as [code|]; [|done]. apply poll_more_fuel; [by apply Hi|lia|lia].
Qed.
End facts.

(** ** Examples *)

Definition demo_account : AllegroAccountConfig := MkAccount "shop" "id" "secret" "https://api" "https://auth" "sandbox".
Definition token_json (access refresh : string) : res pyval :=
  Ok (PDict [("access_token", PStr access); ("refresh_token", PStr refresh); ("expires_in", PStr "3600")]).
Definition code_json : res pyval :=
  Ok (PDict [("user_code", PStr "U"); ("device_code", PStr "D"); ("expires_in", PInt 600); ("interval", PInt 5)]).
Definition pending_json : res pyval := Ok (PDict [("error", PStr "authorization_pending")]).
(** Allegro: the user authorizes after three polls, the first access token is refused. *)
Definition demo_answer (h : list exchange) (o : outgoing) : res http_answer :=
  match o with
  | AuthRequest _ None _ => Ok (Answer 200 None code_json "")
  | AuthRequest _ _ (("grant_type", "refresh_token") :: _) => Ok (Answer 200 None (token_json "a2" "r2") "")
  | AuthRequest _ _ _ => if (List.length h <? 6)%nat then Ok (Answer 400 None pending_json "") else Ok (Answer 200 None (token_json "a1" "r1") "")
  | ApiRequest _ _ _ "a1" _ _ _ _ _ => Ok (Answer 401 None (Ok PNone) "")
  | ApiRequest _ _ _ _ _ _ _ _ _ => Ok (Answer 200 None (Ok (PStr "me")) "")
  end.
Definition demo_isoformat (t : Z) : string := str_of_Z t.
Definition demo_fromisoformat (s : string) : res Z := match parse_int s with Some n => Ok n | None => Raise (ValueError s) end.
Definition demo_operations : list operation :=
  [OpAddAccount demo_account; OpStartDeviceFlow "shop" "id" "https://auth"; OpPollForToken 10 "shop" "id" "secret" "https://auth" 300;
   OpRequest 3 demo_account "GET" "me" None None; OpStartDeviceFlow "other" "id" "https://auth"].
Definition new_world : World := MkWorld [] [] [] [] [] 0 1000000 [].
Definition demo_run : World := perform_all demo_answer (fun _ _ => 1%Z) demo_isoformat "" demo_operations new_world.

Example demo_run_ends :
  (map snd (tokens demo_run), expiry demo_run, api_requests demo_run)
  = ([MkToken "a2" "r2" 3600 "Bearer"], [("shop", 1003621%Z)], 2%nat).
Proof. by vm_compute. Qed.

Lemma restart_restores_witness :
  exists w', initialize demo_fromisoformat "" (restarted demo_run) = (Ok tt, w') /\
    forall k, dget k (tokens w') = dget k (tokens demo_run) /\ dget k (expiry w') = dget k (expiry demo_run).
Proof.
  unfold demo_run.
  apply (restart_restores demo_answer (fun _ _ => 1%Z) demo_isoformat demo_fromisoformat "") with (ops := demo_operations) (w := new_world).
  - by left.
  - intros t. unfold demo_fromisoformat, demo_isoformat. by rewrite parse_int_str_of_Z.
  - split_and!; try by_deciding. done.
Defined.

(** An account without an encryption key keeps its tokens in the database as they are. *)
Example tokens_in_the_clear :
  map snd (oauth_tokens (save_token "" "shop" (token_dump (MkToken "a" "r" 1 "Bearer")) new_world).2)
  = [json_text true false (token_dump (MkToken "a" "r" 1 "Bearer"))].
Proof. reflexivity. Qed.

(** Three answers of 429 end as an error about authorization. *)
Definition busy (h : list exchange) (o : outgoing) : res http_answer := Ok (Answer 429 (Some "1") (Ok PNone) "").
Example busy_reads_as_unauthorized :
  (api_request busy (fun _ _ => 1%Z) demo_isoformat "" 3 demo_account "GET" "me" None None
     (set_tokens [("shop", MkToken "a" "r" 1 "Bearer")] [("shop", 2000000%Z)] new_world)).1
  = Raise (named "AllegroApiError" "Allegro API 401: Failed after 3 auth retries").
Proof. by vm_compute. Qed.
