(* ===== verification/AllegroIntegration.v ===== *)
(** The operations of the Allegro connector on orders, stock, products and invoices
    ([integrators/ecommerce/allegro/v1.0.0/src/allegro]: the named calls of [client.py], and
    [integration.py]). *)

From S2P Require Import Prelude PyText PyFloat PyValue Json Base64 Vault Effects HttpRoutes AllegroMapper AllegroAuth.

Local Open Scope string_scope.

Section integration.
Context `{Cipher}.
Variable answer : list exchange -> outgoing -> res http_answer.
Variable latency : list exchange -> outgoing -> Z.
Variable isoformat : Z -> string.
Variable encryption_key : string.
Variable max_retries : nat.
Variable datetime_text : string -> option string.

Definition client_json : AllegroAccountConfig -> string -> string -> option dict -> option dict -> EM World pyval :=
  api_json answer latency isoformat encryption_key max_retries.
Definition client_done : AllegroAccountConfig -> string -> string -> option dict -> option dict -> EM World unit :=
  api_done answer latency isoformat encryption_key max_retries.

(** ** The named calls of the client *)

Definition get_order_events (from_event_id : option string) (a : AllegroAccountConfig) : EM World pyval :=
  client_json a "GET" "order/events" (Some (given_text "from" from_event_id)) None.
Definition get_checkout_form (id : string) (a : AllegroAccountConfig) : EM World pyval :=
  client_json a "GET" ("order/checkout-forms/" ++ id) None None.
Definition update_fulfillment_status (id status : string) (a : AllegroAccountConfig) : EM World unit :=
  client_done a "PUT" ("order/checkout-forms/" ++ id ++ "/fulfillment") None (Some [("status", PStr status)]).
Definition get_offer (id : string) (a : AllegroAccountConfig) : EM World pyval :=
  client_json a "GET" ("sale/offers/" ++ id) None None.
Definition client_get_product (id : string) (a : AllegroAccountConfig) : EM World pyval :=
  client_json a "GET" ("sale/products/" ++ id) None None.
Definition search_offers (phrase : string) (limit offset : Z) (category_id : option string) (sort : string)
    (a : AllegroAccountConfig) : EM World pyval :=
  client_json a "GET" "offers/listing"
    (Some ([("phrase", PStr phrase); ("limit", PInt (Z.min limit 60)); ("offset", PInt offset); ("sort", PStr sort)]
           ++ given_text "category.id" category_id)%list) None.
(** The offer's id takes the place of the command's, and nothing says which offers the command is for. *)
Definition update_offer_stock (offer_id : string) (stock : Z) (a : AllegroAccountConfig) : EM World unit :=
  client_done a "PUT" ("sale/offer-quantity-change-commands/" ++ offer_id) None
    (Some [("modification", PDict [("changeType", PStr "FIXED"); ("value", PInt stock)])]).
Definition create_invoice_metadata (id invoice_number filename : string) (a : AllegroAccountConfig) : EM World pyval :=
  client_json a "POST" ("order/checkout-forms/" ++ id ++ "/invoices") None
    (Some [("invoiceNumber", PStr invoice_number); ("file", PDict [("name", PStr filename)])]).
Definition upload_invoice_file (id invoice_id content : string) (a : AllegroAccountConfig) : EM World unit :=
  attempts answer latency isoformat encryption_key max_retries (ac_name a) (ac_client_id a) (ac_client_secret a) (ac_auth_url a)
    (fun token => ApiRequest (ac_api_url a) "PUT" ("order/checkout-forms/" ++ id ++ "/invoices/" ++ invoice_id ++ "/file")
                    token "" "application/pdf" None None (Some content))
    raise_for_status
    (api_error ("Invoice file upload failed after " ++ str_of_Z (Z.of_nat max_retries) ++ " retries")).
Definition client_get_order_invoices (id : string) (a : AllegroAccountConfig) : EM World pyval :=
  client_json a "GET" ("order/checkout-forms/" ++ id ++ "/invoices") None None.

(** ** [AllegroIntegration] *)

Definition known_account (account : string) : EM World AllegroAccountConfig :=
  w ← get_st;
  match get_account account w with
  | Some a => mret a
  | None => raise (ValueError ("Account '" ++ account ++ "' not found"))
  end.

Definition fetch_orders (account : string) (since : option string) (page page_size : Z) : EM World pyval :=
  a ← known_account account;
  v ← client_json a "GET" "order/checkout-forms"
        (Some ([("offset", PInt ((page - 1) * page_size)); ("limit", PInt page_size)] ++ given_text "updatedAt.gte" since)%list) None;
  lift (data ← as_dict v;
        forms ← as_iter (dget_or "checkoutForms" (PList []) data);
        orders ← mapR (fun c => order_of datetime_text c account) forms;
        let count := dget_or "count" (PInt (Z.of_nat (List.length orders))) data in
        more ← py_order OpLt (PInt (page * page_size)) count;
        total ← int_of count;
        Ok (PDict [("orders", PList orders); ("page", PInt page); ("total", PInt total);
                   ("has_next", PBool more)])).
Definition get_order (account order_id : string) : EM World pyval :=
  a ← known_account account;
  v ← get_checkout_form order_id a;
  lift (order_of datetime_text v account).
Definition update_order_status (account order_id status : string) : EM World unit :=
  a ← known_account account;
  f ← lift (order_status_to_fulfillment status);
  update_fulfillment_status order_id f a.

(** What has come of the stock items so far: successes, and the failures with their errors. *)
Definition sync_item (a : AllegroAccountConfig) (acc : Z * list pyval) (item : dict) : EM World (Z * list pyval) :=
  let sku := of_body "sku" item in
  try_catch
    (id ← lift (as_str (py_or (of_body "product_id" item) sku));
     quantity ← lift (py_int (of_body "quantity" item));
     _ ← update_offer_stock id quantity a;
     mret (acc.1 + 1, acc.2)%Z)
    (fun e => mret (acc.1, acc.2 ++ [PDict [("sku", sku); ("error", PStr (exn_str e))]])%list).
Fixpoint sync_items (a : AllegroAccountConfig) (items : list dict) (acc : Z * list pyval) : EM World (Z * list pyval) :=
  match items with
  | [] => mret acc
  | item :: rest => acc' ← sync_item a acc item; sync_items a rest acc'
  end.
Definition sync_status (succeeded failed : Z) : string :=
  if (failed =? 0)%Z then "success" else if (0 <? succeeded)%Z then "partial" else "failed".
Definition sync_stock (account : string) (items : list dict) : EM World dict :=
  a ← known_account account;
  r ← sync_items a items (0%Z, []);
  let failed := Z.of_nat (List.length (r : Z * list pyval).2) in
  mret [("status", PStr (sync_status r.1 failed)); ("total", PInt (Z.of_nat (List.length items)));
        ("succeeded", PInt r.1); ("failed", PInt failed); ("errors", PList r.2)].

(** A product: the fields the connectors fill, with the defaults of the others. *)
Definition product (external_id sku ean name : pyval) (price : pyfloat) (currency : pyval) (attributes : dict) : res pyval :=
  id ← order_text "external_id" external_id; s ← order_text "sku" sku; e ← order_text "ean" ean; n ← order_text "name" name;
  c ← order_text "currency" currency;
  Ok (PDict [("external_id", id); ("sku", s); ("ean", e); ("name", n); ("description", PStr ""); ("unit", PStr "szt.");
             ("price", PFloat price); ("currency", c); ("stock_quantity", PFloat (SpecFloat.S754_zero false));
             ("attributes", PDict attributes)]).
Definition zero : pyfloat := SpecFloat.S754_zero false.

Definition EAN_PARAMETER_ID : string := "225693".
(** [values[0]] of the parameter's values, or else of its labels. *)
Definition first_value (k : string) (d : dict) : res (option pyval) :=
  let v := dget_or k (PList []) d in
  if truthy v then
    match v with
    | PList (x :: _) => Ok (Some x)
    | PStr (String c _) => Ok (Some (PStr (str1 c)))
    | PDict _ => Raise (KeyError "0")
    | _ => Raise (TypeError ("'" ++ type_name v ++ "' object is not subscriptable"))
    end
  else Ok None.
Fixpoint extract_ean_from_parameters (parameters : list pyval) : res pyval :=
  match parameters with
  | [] => Ok (PStr "")
  | p :: rest =>
      d ← as_dict p;
      if py_eqb (dget_or "id" PNone d) (PStr EAN_PARAMETER_ID) then
        v ← first_value "values" d;
        match v with
        | Some x => Ok x
        | None => l ← first_value "valuesLabels" d;
                  match l with Some x => Ok x | None => extract_ean_from_parameters rest end
        end
      else extract_ean_from_parameters rest
  end.
Definition get_product (account product_id : string) : EM World pyval :=
  a ← known_account account;
  v ← get_offer product_id a;
  lift (offer ← as_dict v;
        parameters ← as_iter (dget_or "parameters" (PList []) offer);
        ean ← extract_ean_from_parameters parameters;
        id ← match dget "id" offer with Some x => Ok x | None => Raise (KeyError "id") end;
        let external := dget_or "external" PNone offer in
        sku ← (if truthy external then d ← as_dict external; Ok (dget_or "id" (PStr "") d) else Ok (PStr ""));
        product id sku ean (dget_or "name" (PStr "") offer) zero (PStr "PLN") []).

Definition upload_invoice (account order_id content filename invoice_number : string) : EM World dict :=
  a ← known_account account;
  meta ← create_invoice_metadata order_id (if String.eqb invoice_number "" then filename else invoice_number) filename a;
  invoice_id ← lift (match meta with
                     | PDict d => match dget "id" d with Some x => Ok x | None => Raise (KeyError "id") end
                     | _ => Raise (TypeError "the metadata is not an object")
                     end);
  _ ← upload_invoice_file order_id (py_str invoice_id) content a;
  mret [("invoice_id", invoice_id); ("filename", PStr filename)].
Definition get_order_invoices (account order_id : string) : EM World pyval :=
  a ← known_account account; client_get_order_invoices order_id a.

(** A listed offer as a product. *)
Definition listed_product (offer : pyval) : res pyval :=
  o ← as_dict offer;
  mode ← as_dict (dget_or "sellingMode" (PDict []) o);
  price ← as_dict (dget_or "price" (PDict []) mode);
  amount ← py_float (dget_or "amount" (PInt 0) price);
  product (dget_or "id" (PStr "") o) (PStr "") (PStr "") (dget_or "name" (PStr "") o) amount
    (dget_or "currency" (PStr "PLN") price) [("url", dget_or "url" (PStr "") o); ("source", PStr "allegro")].
Definition offers_of (k : string) (items : dict) : res (list pyval) :=
  match dget_or k (PList []) items with PList l => Ok l | v => Raise (TypeError ("can only concatenate list (not " ++ type_name v ++ ") to list")) end.
Definition search_products (account query : string) (page page_size : Z) : EM World pyval :=
  a ← known_account account;
  let offset := ((page - 1) * page_size)%Z in
  v ← search_offers query page_size offset None "price_asc" a;
  lift (data ← as_dict v;
        items ← as_dict (dget_or "items" (PDict []) data);
        promoted ← offers_of "promoted" items;
        regular ← offers_of "regular" items;
        products ← mapR listed_product (promoted ++ regular)%list;
        meta ← as_dict (dget_or "searchMeta" (PDict []) data);
        let count := dget_or "totalCount" (PInt (Z.of_nat (List.length products))) meta in
        more ← py_order OpLt (PInt (offset + page_size)) count;
        total ← int_of count;
        Ok (PDict [("products", PList products); ("page", PInt page); ("total", PInt total);
                   ("has_next", PBool more); ("source", PStr "allegro")])).

(** ** Facts *)

Lemma sync_items_total a items : forall acc w r w',
  sync_items a items acc w = (Ok r, w') ->
  (r.1 + Z.of_nat (List.length r.2) = acc.1 + Z.of_nat (List.length acc.2) + Z.of_nat (List.length items))%Z.
Proof.
  induction items as [|item items IH]; intros acc w r w'; cbn [sync_items]; [intros [= <- _]; cbn; lia|].
  intros (acc' & w1 & Hitem & Hrest)%bind_returned. apply IH in Hrest. rewrite Hrest. cbn [List.length].
  assert (Hone : (acc'.1 + Z.of_nat (List.length acc'.2) = acc.1 + Z.of_nat (List.length acc.2) + 1)%Z); [|lia].
  unfold sync_item in Hitem. apply try_returned in Hitem as [Hitem|(e & w2 & _ & Hitem)].
  - em_ok. cbn. lia.
  - injection Hitem as <- _. cbn. rewrite length_app. cbn. lia.
Qed.

(** Every stock item is counted once, as a success or with its error. *)
Theorem stock_sync_complete account items w d w' :
  sync_stock account items w = (Ok d, w') ->
  exists succeeded errors, dget "succeeded" d = Some (PInt succeeded) /\ dget "errors" d = Some (PList errors) /\
    dget "total" d = Some (PInt (Z.of_nat (List.length items))) /\
    (succeeded + Z.of_nat (List.length errors) = Z.of_nat (List.length items))%Z.
Proof.
  unfold sync_stock. intros (a & w1 & _ & H1)%bind_returned. apply bind_returned in H1 as (r & w2 & Hr & [= <- _]).
  apply sync_items_total in Hr. exists r.1, r.2. split_and!; [done..|]. cbn in Hr. lia.
Qed.
End integration.
