(* ===== verification/AllegroRoutes.v ===== *)
(** The HTTP interface of the Allegro connector
    ([integrators/ecommerce/allegro/v1.0.0/src/api/routes.py]): its routes in the order they are
    registered, and for each the checks and the request it makes of Allegro.

    A handler is given the request with the parameters of its path.  The health checks are a
    parameter, and so is what pydantic reads as a date.  The device flow is polled for 300
    seconds. *)

From S2P Require Import Prelude PyText PyFloat PyValue Json Base64 Vault Effects HttpRoutes AllegroMapper AllegroAuth AllegroIntegration.

Local Open Scope string_scope.
Local Open Scope Z_scope.

Abbreviation handler := (request -> EM World pyval).

(** ** The bodies *)

Definition StockItem : kind :=
  KModel [needed "sku" KText; text_default "ean"; text_default "product_id"; needed "quantity" KFloat; text_default "warehouse_id"].
Definition AccountCreateRequest : list field :=
  [needed "name" KText; needed "client_id" KText; needed "client_secret" KText;
   with_default "api_url" KText (PStr "https://api.allegro.pl");
     with_default "auth_url" KText (PStr "https://allegro.pl/auth/oauth");
       with_default "environment" KText (PStr "production")].
Definition UpdateStatusRequest : list field :=
  [needed "status" (KOneOf OrderStatus)].
Definition TrackingRequest : list field :=
  [needed "carrier_id" KText; needed "tracking_number" KText; optional "line_items" (KList KObject)].
Definition BillingUploadRequest : list field :=
  [needed "url" KText].
Definition InvoiceUploadJsonRequest : list field :=
  [needed "invoice_base64" KText; with_default "filename" KText (PStr "invoice.pdf");
   with_default "invoice_number" KText (PStr "")].
Definition OfferCreateRequest : list field :=
  [optional "product_id" KText; needed "name" KText; optional "category_id" KText;
   optional "parameters" (KList KObject); optional "description" KObject; optional "images" (KList KText);
     needed "selling_mode" KObject; optional "stock" KObject; optional "delivery" KObject;
       optional "location" KObject; optional "external" KObject; optional "publication" KObject;
         optional "after_sales_services" KObject].
Definition OfferPublishRequest : list field :=
  [needed "offer_criteria" (KList KObject); needed "publication" KObject].
Definition OfferBatchPriceRequest : list field :=
  [needed "offer_criteria" (KList KObject); needed "modification" KObject].
Definition OfferBatchQuantityRequest : list field :=
  [needed "offer_criteria" (KList KObject); needed "modification" KObject].
Definition OfferBatchModifyRequest : list field :=
  [needed "offer_criteria" (KList KObject); needed "modification" KObject].
Definition StockSyncRequest : list field :=
  [needed "items" (KList StockItem)].
Definition ProductProposeRequest : list field :=
  [needed "name" KText; needed "category_id" KText; optional "parameters" (KList KObject);
   optional "images" (KList KText); optional "description" KObject].
Definition ImageUploadRequest : list field :=
  [needed "url" KText].
Definition AttachmentCreateRequest : list field :=
  [needed "type" KText; needed "filename" KText].
Definition TagRequest : list field :=
  [needed "name" KText; with_default "hidden" KFlag (PBool false)].
Definition TagAssignRequest : list field :=
  [needed "tag_ids" (KList KText)].
Definition RefundRequest : list field :=
  [needed "payment_id" KText; needed "reason_code" KText; optional "line_items" (KList KObject);
   optional "delivery" KObject; optional "overpaid" KObject; optional "additional_services" KObject;
     optional "surcharges" KObject].
Definition ReturnRejectRequest : list field :=
  [needed "rejection_reason" KText].
Definition MessageSendRequest : list field :=
  [needed "recipient_login" KText; needed "text" KText; optional "offer_id" KText; optional "order_id" KText;
   optional "attachments" (KList KObject)].

(** ** Checks *)

(** [re.match(r"^[a-zA-Z0-9_-]{1,128}$")]: the [$] also matches before a final line feed. *)
Definition is_id_char (c : ascii) : bool := is_alnum c || Ascii.eqb c "_" || Ascii.eqb c "-".
Definition plain_id (value : string) : bool :=
  str_forall is_id_char value && (1 <=? String.length value)%nat && (String.length value <=? 128)%nat.
Definition without_line_feed (value : string) : string :=
  if ends_with (str1 "010") value then str_take (String.length value - 1) value else value.
Definition safe_id (value : string) : bool := plain_id value || plain_id (without_line_feed value).
Definition validate_path_id (value name : string) : res string :=
  if safe_id value then Ok value else Raise (http_exception 400 ("Invalid " ++ name ++ " format")).

(** [if x: d[k] = v], and the list of what [f] makes of each element. *)
Definition if_given (x : pyval) (k : string) (v : pyval) : dict := if truthy x then [(k, v)] else [].
Definition map_list (f : pyval -> pyval) (v : pyval) : pyval := match v with PList l => PList (map f l) | _ => PList [] end.

Definition MAX_INVOICE_SIZE : Z := 8 * 1024 * 1024.

Section allegro.
Context `{Cipher}.
Variable answer : list exchange -> outgoing -> res http_answer.
Variable latency : list exchange -> outgoing -> Z.
Variable isoformat : Z -> string.
Variable encryption_key : string.
Variable max_retries : nat.
Variable datetime_text : string -> option string.
(** Whether the checks pass, and their report. *)
Variable health_check : EM World (bool * pyval).

Definition require_auth (account_name : string) : EM World unit :=
  w ← get_st;
  if is_authenticated account_name w then mret tt
  else http_error 401 ("Account '" ++ account_name ++ "' not authenticated. Use POST /auth/" ++ account_name ++ "/device-code first.").
Definition find_account (account_name : string) : EM World AllegroAccountConfig :=
  w ← get_st;
  match get_account account_name w with
  | Some a => mret a
  | None => http_error 404 ("Account '" ++ account_name ++ "' not found")
  end.

(** [_proxy_get], [_proxy_post] and [_proxy_request]. *)
Definition proxy_get (path account_name : string) (params : option dict) : EM World pyval :=
  a ← find_account account_name;
  client_json answer latency isoformat encryption_key max_retries a "GET" path params None.
Definition proxy_post (path account_name : string) (json : option dict) : EM World pyval :=
  a ← find_account account_name;
  client_json answer latency isoformat encryption_key max_retries a "POST" path None json.
Definition proxy_request (method path account_name : string) (json : option dict) : EM World pyval :=
  a ← find_account account_name;
  r ← api_request answer latency isoformat encryption_key max_retries a method path None json;
  if (an_status r =? 204)%Z then mret (PDict [("status", PStr "success")])
  else
    _ ← raise_for_status r;
    match an_json r with
    | Ok v => mret v
    | Raise (ValueError _) | Raise (KeyError _) =>
        mret (PDict [("status", PStr "success"); ("status_code", PInt (an_status r))])
    | Raise e => raise e
    end.

(** ** Health, authorization, accounts *)

Definition health : handler := fun r => h ← health_check; mret (h : bool * pyval).2.
Definition readiness : handler := fun r =>
  h ← health_check;
  if (h : bool * pyval).1 then mret h.2 else http_error 503 "unhealthy".

Definition start_device_flow : handler := fun r =>
  a ← find_account (path_param "account_name" r);
  code ← AllegroAuth.start_device_flow answer latency (ac_name a) (ac_client_id a) (ac_auth_url a);
  mret (PDict [("user_code", PStr (dc_user_code code)); ("verification_uri", PStr (dc_verification_uri code));
               ("verification_uri_complete", PStr (dc_verification_uri_complete code));
               ("expires_in", PInt (dc_expires_in code));
               ("message", PStr ("Go to " ++ dc_verification_uri_complete code ++ " and enter code " ++ dc_user_code code))]).
Definition poll_for_token : handler := fun r =>
  a ← find_account (path_param "account_name" r);
  try_catch
    (token ← AllegroAuth.poll_for_token answer latency isoformat encryption_key 301 (ac_name a) (ac_client_id a)
               (ac_client_secret a) (ac_auth_url a) 300;
     mret (PDict [("status", PStr "authenticated"); ("expires_in", PInt (at_expires_in token))]))
    (fun e => if is_named "TimeoutError" e then http_error 408 "Device flow timed out. Start again."
              else if is_named "PermissionError" e then http_error 403 (named_text "PermissionError" e)
              else raise e).
Definition auth_status : handler := fun r => gets (get_status isoformat (path_param "account_name" r)).
Definition all_auth_statuses : handler := fun r =>
  gets (fun w => PList (map (fun a => get_status isoformat (ac_name a) w) (AllegroAuth.list_accounts w))).

Definition list_accounts : handler := fun r =>
  gets (fun w => PList (map (fun a => PDict [("name", PStr (ac_name a)); ("environment", PStr (ac_environment a));
                                             ("api_url", PStr (ac_api_url a))]) (AllegroAuth.list_accounts w))).
Definition add_account : handler := fun r =>
  body ← lift (model_body datetime_text AccountCreateRequest r);
  a ← lift (account_of (PDict body));
  _ ← AllegroAuth.add_account a;
  mret (PDict [("status", PStr "created"); ("name", PStr (ac_name a))]).
Definition remove_account : handler := fun r =>
  let account_name := path_param "account_name" r in
  removed ← AllegroAuth.remove_account account_name;
  if (removed : bool) then mret (PDict [("status", PStr "removed")])
  else http_error 404 ("Account '" ++ account_name ++ "' not found").

(** ** Orders, stock and products *)

Definition list_orders : handler := fun r =>
  account_name ← lift (text_param "account_name" r);
  since ← lift (date_param datetime_text "since" r);
  page ← lift (int_param "page" 1 (Some 1) None r);
  page_size ← lift (int_param "page_size" 50 (Some 1) (Some 100) r);
  _ ← require_auth account_name;
  fetch_orders answer latency isoformat encryption_key max_retries datetime_text account_name since page page_size.
Definition get_order : handler := fun r =>
  let order_id := path_param "order_id" r in
  account_name ← lift (text_param "account_name" r);
  _ ← lift (validate_path_id order_id "order_id");
  _ ← require_auth account_name;
  AllegroIntegration.get_order answer latency isoformat encryption_key max_retries datetime_text account_name order_id.
Definition update_order_status : handler := fun r =>
  let order_id := path_param "order_id" r in
  body ← lift (model_body datetime_text UpdateStatusRequest r);
  account_name ← lift (text_param "account_name" r);
  _ ← lift (validate_path_id order_id "order_id");
  _ ← require_auth account_name;
  status ← lift (as_str (of_body "status" body));
  _ ← AllegroIntegration.update_order_status answer latency isoformat encryption_key max_retries account_name order_id status;
  mret (PDict [("status", PStr "updated"); ("order_id", PStr order_id); ("new_status", PStr status)]).

Definition uploaded (order_id : string) (result : dict) : pyval :=
  PDict (dmerge [("status", PStr "uploaded"); ("order_id", PStr order_id)] result).
Definition upload_invoice_multipart : handler := fun r =>
  let order_id := path_param "order_id" r in
  account_name ← lift (text_param "account_name" r);
  let invoice_number := text_param_or "invoice_number" "" r in
  file ← lift (match rq_file r with Some f => Ok f | None => unprocessable end);
  _ ← lift (validate_path_id order_id "order_id");
  _ ← require_auth account_name;
  if MAX_INVOICE_SIZE <? Z.of_nat (String.length (file : string * string).2) then http_error 413 "Invoice file exceeds 8 MB limit"
  else
    let filename := if String.eqb file.1 "" then "invoice.pdf" else file.1 in
    result ← upload_invoice answer latency isoformat encryption_key max_retries account_name order_id file.2 filename invoice_number;
    mret (uploaded order_id result).
Definition upload_invoice_json : handler := fun r =>
  let order_id := path_param "order_id" r in
  body ← lift (model_body datetime_text InvoiceUploadJsonRequest r);
  account_name ← lift (text_param "account_name" r);
  _ ← lift (validate_path_id order_id "order_id");
  _ ← require_auth account_name;
  encoded ← lift (as_str (of_body "invoice_base64" body));
  contents ← lift (match b64decode encoded with
                   | Ok c => Ok c
                   | Raise e => Raise (http_exception 400 ("Invalid base64: " ++ exn_str e))
                   end);
  if MAX_INVOICE_SIZE <? Z.of_nat (String.length contents) then http_error 413 "Invoice file exceeds 8 MB limit"
  else
    filename ← lift (as_str (of_body "filename" body));
    invoice_number ← lift (as_str (of_body "invoice_number" body));
    result ← upload_invoice answer latency isoformat encryption_key max_retries account_name order_id contents filename invoice_number;
    mret (uploaded order_id result).
Definition get_order_invoices : handler := fun r =>
  let order_id := path_param "order_id" r in
  account_name ← lift (text_param "account_name" r);
  _ ← lift (validate_path_id order_id "order_id");
  _ ← require_auth account_name;
  AllegroIntegration.get_order_invoices answer latency isoformat encryption_key max_retries account_name order_id.

Definition sync_stock : handler := fun r =>
  body ← lift (model_body datetime_text StockSyncRequest r);
  account_name ← lift (text_param "account_name" r);
  _ ← require_auth account_name;
  items ← lift (l ← as_iter (of_body "items" body); mapR as_dict l);
  result ← AllegroIntegration.sync_stock answer latency isoformat encryption_key max_retries account_name items;
  mret (PDict result).
Definition search_products : handler := fun r =>
  let query := text_param_or "query" "" r in
  account_name ← lift (text_param "account_name" r);
  page ← lift (int_param "page" 1 (Some 1) None r);
  page_size ← lift (int_param "page_size" 50 (Some 1) (Some 60) r);
  _ ← require_auth account_name;
  AllegroIntegration.search_products answer latency isoformat encryption_key max_retries account_name query page page_size.
Definition get_product : handler := fun r =>
  let product_id := path_param "product_id" r in
  account_name ← lift (text_param "account_name" r);
  _ ← lift (validate_path_id product_id "product_id");
  _ ← require_auth account_name;
  AllegroIntegration.get_product answer latency isoformat encryption_key max_retries account_name product_id.

(** ** Requests passed on to Allegro *)

Definition get_order_events : handler := fun r =>
  account_name ← lift (text_param "account_name" r);
  let from_event_id := query_value "from" r in
  let type_ := query_values "type" r in
  limit ← lift (int_param "limit" 100 (Some 1) (Some 1000) r);
  _ ← require_auth account_name;
  let params := ([("limit", PInt limit)] ++ given_text "from" from_event_id ++ given_texts "type" type_)%list in
  proxy_get "order/events" account_name (Some params).
Definition get_order_event_stats : handler := fun r =>
  account_name ← lift (text_param "account_name" r);
  _ ← require_auth account_name;
  proxy_get "order/event-stats" account_name None.
Definition add_tracking_number : handler := fun r =>
  let order_id := path_param "order_id" r in
  body ← lift (model_body datetime_text TrackingRequest r);
  account_name ← lift (text_param "account_name" r);
  _ ← lift (validate_path_id order_id "order_id");
  _ ← require_auth account_name;
  let payload := ([("carrierId", of_body "carrier_id" body); ("waybill", of_body "tracking_number" body)]
    ++ given "lineItems" (of_body "line_items" body))%list in
  proxy_post ("order/checkout-forms/" ++ order_id ++ "/shipments") account_name (Some payload).
Definition get_tracking_numbers : handler := fun r =>
  let order_id := path_param "order_id" r in
  account_name ← lift (text_param "account_name" r);
  _ ← lift (validate_path_id order_id "order_id");
  _ ← require_auth account_name;
  proxy_get ("order/checkout-forms/" ++ order_id ++ "/shipments") account_name None.
Definition get_carriers : handler := fun r =>
  account_name ← lift (text_param "account_name" r);
  _ ← require_auth account_name;
  proxy_get "order/carriers" account_name None.
Definition get_tracking_history : handler := fun r =>
  let order_id := path_param "order_id" r in
  account_name ← lift (text_param "account_name" r);
  waybill ← lift (text_param "waybill" r);
  carrier_id ← lift (text_param "carrier_id" r);
  _ ← lift (validate_path_id order_id "order_id");
  _ ← lift (validate_path_id carrier_id "carrier_id");
  _ ← require_auth account_name;
  proxy_get ("order/carriers/" ++ carrier_id ++ "/tracking") account_name (Some [("waybill", PStr waybill)]).
Definition upload_billing_document : handler := fun r =>
  let order_id := path_param "order_id" r in
  body ← lift (model_body datetime_text BillingUploadRequest r);
  account_name ← lift (text_param "account_name" r);
  _ ← lift (validate_path_id order_id "order_id");
  _ ← require_auth account_name;
  proxy_post ("order/checkout-forms/" ++ order_id ++ "/billing") account_name (Some [("url", of_body "url" body)]).
Definition list_offers : handler := fun r =>
  account_name ← lift (text_param "account_name" r);
  let publication_status := query_value "publication.status" r in
  let selling_mode_format := query_value "selling_mode.format" r in
  let name := query_value "name" r in
  let category_id := query_value "category.id" r in
  let external_id := query_value "external.id" r in
  let sort := query_value "sort" r in
  limit ← lift (int_param "limit" 20 (Some 1) (Some 1000) r);
  offset ← lift (int_param "offset" 0 (Some 0) None r);
  _ ← require_auth account_name;
  let params := ([("limit", PInt limit); ("offset", PInt offset)]
    ++ given_text "publication.status" publication_status ++ given_text "sellingMode.format" selling_mode_format
      ++ given_text "name" name ++ given_text "category.id" category_id ++ given_text "external.id" external_id
        ++ given_text "sort" sort)%list in
  proxy_get "sale/offers" account_name (Some params).
Definition get_offer : handler := fun r =>
  let offer_id := path_param "offer_id" r in
  account_name ← lift (text_param "account_name" r);
  _ ← lift (validate_path_id offer_id "offer_id");
  _ ← require_auth account_name;
  proxy_get ("sale/product-offers/" ++ offer_id) account_name None.
Definition create_offer : handler := fun r =>
  body ← lift (model_body datetime_text OfferCreateRequest r);
  account_name ← lift (text_param "account_name" r);
  _ ← require_auth account_name;
  let payload := ([("name", of_body "name" body); ("sellingMode", of_body "selling_mode" body)]
    ++ if_given (of_body "product_id" body) "product" (PDict [("id", of_body "product_id" body)])
      ++ if_given (of_body "category_id" body) "category" (PDict [("id", of_body "category_id" body)])
        ++ given "parameters" (of_body "parameters" body) ++ given "description" (of_body "description" body)
          ++ if_given (of_body "images" body) "images" (map_list (fun u => PDict [("url", u)]) (of_body "images" body))
            ++ given "stock" (of_body "stock" body) ++ given "delivery" (of_body "delivery" body)
              ++ given "location" (of_body "location" body) ++ given "external" (of_body "external" body)
                ++ given "publication" (of_body "publication" body)
                  ++ given "afterSalesServices" (of_body "after_sales_services" body))%list in
  proxy_post "sale/product-offers" account_name (Some payload).
Definition edit_offer : handler := fun r =>
  let offer_id := path_param "offer_id" r in
  body ← lift (object_body r);
  account_name ← lift (text_param "account_name" r);
  _ ← lift (validate_path_id offer_id "offer_id");
  _ ← require_auth account_name;
  proxy_request "PATCH" ("sale/product-offers/" ++ offer_id) account_name (Some body).
Definition delete_draft_offer : handler := fun r =>
  let offer_id := path_param "offer_id" r in
  account_name ← lift (text_param "account_name" r);
  _ ← lift (validate_path_id offer_id "offer_id");
  _ ← require_auth account_name;
  proxy_request "DELETE" ("sale/offers/" ++ offer_id) account_name None.
Definition get_offer_events : handler := fun r =>
  account_name ← lift (text_param "account_name" r);
  let from_event_id := query_value "from" r in
  let type_ := query_values "type" r in
  limit ← lift (int_param "limit" 100 (Some 1) (Some 1000) r);
  _ ← require_auth account_name;
  let params := ([("limit", PInt limit)] ++ given_text "from" from_event_id ++ given_texts "type" type_)%list in
  proxy_get "sale/offer-events" account_name (Some params).
Definition batch_publish_offers : handler := fun r =>
  body ← lift (model_body datetime_text OfferPublishRequest r);
  account_name ← lift (text_param "account_name" r);
  _ ← require_auth account_name;
  let cmd_id := rq_uuid r in
  let payload := [("offerCriteria", of_body "offer_criteria" body); ("publication", of_body "publication" body)] in
  proxy_request "PUT" ("sale/offer-publication-commands/" ++ cmd_id) account_name (Some payload).
Definition batch_price_change : handler := fun r =>
  body ← lift (model_body datetime_text OfferBatchPriceRequest r);
  account_name ← lift (text_param "account_name" r);
  _ ← require_auth account_name;
  let cmd_id := rq_uuid r in
  let payload := [("offerCriteria", of_body "offer_criteria" body); ("modification", of_body "modification" body)] in
  proxy_request "PUT" ("sale/offer-price-change-commands/" ++ cmd_id) account_name (Some payload).
Definition batch_quantity_change : handler := fun r =>
  body ← lift (model_body datetime_text OfferBatchQuantityRequest r);
  account_name ← lift (text_param "account_name" r);
  _ ← require_auth account_name;
  let cmd_id := rq_uuid r in
  let payload := [("offerCriteria", of_body "offer_criteria" body); ("modification", of_body "modification" body)] in
  proxy_request "PUT" ("sale/offer-quantity-change-commands/" ++ cmd_id) account_name (Some payload).
Definition batch_modify_offers : handler := fun r =>
  body ← lift (model_body datetime_text OfferBatchModifyRequest r);
  account_name ← lift (text_param "account_name" r);
  _ ← require_auth account_name;
  let cmd_id := rq_uuid r in
  let payload := [("offerCriteria", of_body "offer_criteria" body); ("modification", of_body "modification" body)] in
  proxy_request "PUT" ("sale/offer-modification-commands/" ++ cmd_id) account_name (Some payload).
Definition get_offer_promo : handler := fun r =>
  let offer_id := path_param "offer_id" r in
  account_name ← lift (text_param "account_name" r);
  _ ← lift (validate_path_id offer_id "offer_id");
  _ ← require_auth account_name;
  proxy_get ("sale/offers/" ++ offer_id ++ "/promo-options") account_name None.
Definition get_offer_rating : handler := fun r =>
  let offer_id := path_param "offer_id" r in
  account_name ← lift (text_param "account_name" r);
  _ ← lift (validate_path_id offer_id "offer_id");
  _ ← require_auth account_name;
  proxy_get ("sale/offers/" ++ offer_id ++ "/rating") account_name None.
Definition get_product_params : handler := fun r =>
  let product_id := path_param "product_id" r in
  account_name ← lift (text_param "account_name" r);
  _ ← lift (validate_path_id product_id "product_id");
  _ ← require_auth account_name;
  proxy_get ("sale/products/" ++ product_id) account_name None.
Definition propose_product : handler := fun r =>
  body ← lift (model_body datetime_text ProductProposeRequest r);
  account_name ← lift (text_param "account_name" r);
  _ ← require_auth account_name;
  let payload := ([("name", of_body "name" body); ("category", PDict [("id", of_body "category_id" body)])]
    ++ given "parameters" (of_body "parameters" body)
      ++ if_given (of_body "images" body) "images" (map_list (fun u => PDict [("url", u)]) (of_body "images" body))
        ++ given "description" (of_body "description" body))%list in
  proxy_post "sale/products" account_name (Some payload).
Definition list_categories : handler := fun r =>
  account_name ← lift (text_param "account_name" r);
  let parent_id := query_value "parent_id" r in
  _ ← require_auth account_name;
  let params := ([] ++ given_text "parent.id" parent_id)%list in
  proxy_get "sale/categories" account_name (Some params).
Definition get_category : handler := fun r =>
  let category_id := path_param "category_id" r in
  account_name ← lift (text_param "account_name" r);
  _ ← lift (validate_path_id category_id "category_id");
  _ ← require_auth account_name;
  proxy_get ("sale/categories/" ++ category_id) account_name None.
Definition get_category_params : handler := fun r =>
  let category_id := path_param "category_id" r in
  account_name ← lift (text_param "account_name" r);
  _ ← lift (validate_path_id category_id "category_id");
  _ ← require_auth account_name;
  proxy_get ("sale/categories/" ++ category_id ++ "/parameters") account_name None.
Definition get_category_suggestions : handler := fun r =>
  name ← lift (text_param "name" r);
  account_name ← lift (text_param "account_name" r);
  _ ← require_auth account_name;
  proxy_get "sale/matching-categories" account_name (Some [("name", PStr name)]).
Definition get_category_events : handler := fun r =>
  account_name ← lift (text_param "account_name" r);
  let from_event_id := query_value "from" r in
  let type_ := query_values "type" r in
  limit ← lift (int_param "limit" 100 (Some 1) (Some 1000) r);
  _ ← require_auth account_name;
  let params := ([("limit", PInt limit)] ++ given_text "from" from_event_id ++ given_texts "type" type_)%list in
  proxy_get "sale/category-events" account_name (Some params).
Definition upload_image : handler := fun r =>
  body ← lift (model_body datetime_text ImageUploadRequest r);
  account_name ← lift (text_param "account_name" r);
  _ ← require_auth account_name;
  proxy_post "sale/images" account_name (Some [("url", of_body "url" body)]).
Definition create_attachment : handler := fun r =>
  body ← lift (model_body datetime_text AttachmentCreateRequest r);
  account_name ← lift (text_param "account_name" r);
  _ ← require_auth account_name;
  proxy_post "sale/offer-attachments" account_name (Some ([("type", of_body "type" body);
    ("file", PDict [("name", of_body "filename" body)])])).
Definition list_variant_sets : handler := fun r =>
  account_name ← lift (text_param "account_name" r);
  limit ← lift (int_param "limit" 10 (Some 1) (Some 100) r);
  offset ← lift (int_param "offset" 0 (Some 0) None r);
  _ ← require_auth account_name;
  proxy_get "sale/offer-variants" account_name (Some [("limit", PInt limit); ("offset", PInt offset)]).
Definition get_variant_set : handler := fun r =>
  let set_id := path_param "set_id" r in
  account_name ← lift (text_param "account_name" r);
  _ ← lift (validate_path_id set_id "set_id");
  _ ← require_auth account_name;
  proxy_get ("sale/offer-variants/" ++ set_id) account_name None.
Definition create_variant_set : handler := fun r =>
  body ← lift (object_body r);
  account_name ← lift (text_param "account_name" r);
  _ ← require_auth account_name;
  proxy_post "sale/offer-variants" account_name (Some body).
Definition update_variant_set : handler := fun r =>
  let set_id := path_param "set_id" r in
  body ← lift (object_body r);
  account_name ← lift (text_param "account_name" r);
  _ ← lift (validate_path_id set_id "set_id");
  _ ← require_auth account_name;
  proxy_request "PUT" ("sale/offer-variants/" ++ set_id) account_name (Some body).
Definition delete_variant_set : handler := fun r =>
  let set_id := path_param "set_id" r in
  account_name ← lift (text_param "account_name" r);
  _ ← lift (validate_path_id set_id "set_id");
  _ ← require_auth account_name;
  proxy_request "DELETE" ("sale/offer-variants/" ++ set_id) account_name None.
Definition list_tags : handler := fun r =>
  account_name ← lift (text_param "account_name" r);
  _ ← require_auth account_name;
  proxy_get "sale/offer-tags" account_name None.
Definition create_tag : handler := fun r =>
  body ← lift (model_body datetime_text TagRequest r);
  account_name ← lift (text_param "account_name" r);
  _ ← require_auth account_name;
  proxy_post "sale/offer-tags" account_name (Some [("name", of_body "name" body); ("hidden", of_body "hidden" body)]).
Definition update_tag : handler := fun r =>
  let tag_id := path_param "tag_id" r in
  body ← lift (model_body datetime_text TagRequest r);
  account_name ← lift (text_param "account_name" r);
  _ ← lift (validate_path_id tag_id "tag_id");
  _ ← require_auth account_name;
  proxy_request "PUT" ("sale/offer-tags/" ++ tag_id) account_name (Some [("name", of_body "name" body);
    ("hidden", of_body "hidden" body)]).
Definition delete_tag : handler := fun r =>
  let tag_id := path_param "tag_id" r in
  account_name ← lift (text_param "account_name" r);
  _ ← lift (validate_path_id tag_id "tag_id");
  _ ← require_auth account_name;
  proxy_request "DELETE" ("sale/offer-tags/" ++ tag_id) account_name None.
Definition assign_tags : handler := fun r =>
  let offer_id := path_param "offer_id" r in
  body ← lift (model_body datetime_text TagAssignRequest r);
  account_name ← lift (text_param "account_name" r);
  _ ← lift (validate_path_id offer_id "offer_id");
  _ ← require_auth account_name;
  proxy_post ("sale/offers/" ++ offer_id ++ "/tags") account_name
    (Some ([("tags", map_list (fun t => PDict [("id", t)]) (of_body "tag_ids" body))])).
Definition list_promotions : handler := fun r =>
  account_name ← lift (text_param "account_name" r);
  limit ← lift (int_param "limit" 20 (Some 1) None r);
  offset ← lift (int_param "offset" 0 (Some 0) None r);
  _ ← require_auth account_name;
  proxy_get "sale/loyalty/promotions" account_name (Some [("limit", PInt limit); ("offset", PInt offset)]).
Definition get_promotion : handler := fun r =>
  let promotion_id := path_param "promotion_id" r in
  account_name ← lift (text_param "account_name" r);
  _ ← lift (validate_path_id promotion_id "promotion_id");
  _ ← require_auth account_name;
  proxy_get ("sale/loyalty/promotions/" ++ promotion_id) account_name None.
Definition create_promotion : handler := fun r =>
  body ← lift (object_body r);
  account_name ← lift (text_param "account_name" r);
  _ ← require_auth account_name;
  proxy_post "sale/loyalty/promotions" account_name (Some body).
Definition update_promotion : handler := fun r =>
  let promotion_id := path_param "promotion_id" r in
  body ← lift (object_body r);
  account_name ← lift (text_param "account_name" r);
  _ ← lift (validate_path_id promotion_id "promotion_id");
  _ ← require_auth account_name;
  proxy_request "PUT" ("sale/loyalty/promotions/" ++ promotion_id) account_name (Some body).
Definition delete_promotion : handler := fun r =>
  let promotion_id := path_param "promotion_id" r in
  account_name ← lift (text_param "account_name" r);
  _ ← lift (validate_path_id promotion_id "promotion_id");
  _ ← require_auth account_name;
  proxy_request "DELETE" ("sale/loyalty/promotions/" ++ promotion_id) account_name None.
Definition list_turnover_discounts : handler := fun r =>
  account_name ← lift (text_param "account_name" r);
  _ ← require_auth account_name;
  proxy_get "sale/loyalty/turnover-discount" account_name None.
Definition create_turnover_discount : handler := fun r =>
  let marketplace_id := path_param "marketplace_id" r in
  body ← lift (object_body r);
  account_name ← lift (text_param "account_name" r);
  _ ← lift (validate_path_id marketplace_id "marketplace_id");
  _ ← require_auth account_name;
  proxy_request "PUT" ("sale/loyalty/turnover-discount/" ++ marketplace_id) account_name (Some body).
Definition deactivate_turnover_discount : handler := fun r =>
  let marketplace_id := path_param "marketplace_id" r in
  account_name ← lift (text_param "account_name" r);
  _ ← lift (validate_path_id marketplace_id "marketplace_id");
  _ ← require_auth account_name;
  proxy_request "DELETE" ("sale/loyalty/turnover-discount/" ++ marketplace_id) account_name None.
Definition list_bundles : handler := fun r =>
  account_name ← lift (text_param "account_name" r);
  limit ← lift (int_param "limit" 20 (Some 1) None r);
  offset ← lift (int_param "offset" 0 (Some 0) None r);
  _ ← require_auth account_name;
  proxy_get "sale/bundles" account_name (Some [("limit", PInt limit); ("offset", PInt offset)]).
Definition get_bundle : handler := fun r =>
  let bundle_id := path_param "bundle_id" r in
  account_name ← lift (text_param "account_name" r);
  _ ← lift (validate_path_id bundle_id "bundle_id");
  _ ← require_auth account_name;
  proxy_get ("sale/bundles/" ++ bundle_id) account_name None.
Definition create_bundle : handler := fun r =>
  body ← lift (object_body r);
  account_name ← lift (text_param "account_name" r);
  _ ← require_auth account_name;
  proxy_post "sale/bundles" account_name (Some body).
Definition delete_bundle : handler := fun r =>
  let bundle_id := path_param "bundle_id" r in
  account_name ← lift (text_param "account_name" r);
  _ ← lift (validate_path_id bundle_id "bundle_id");
  _ ← require_auth account_name;
  proxy_request "DELETE" ("sale/bundles/" ++ bundle_id) account_name None.
Definition payment_history : handler := fun r =>
  account_name ← lift (text_param "account_name" r);
  let wallet_type := query_value "wallet_type" r in
  let payment_id := query_value "payment_id" r in
  let type_ := query_value "type" r in
  occurred_at_gte ← lift (date_param datetime_text "occurred_at.gte" r);
  occurred_at_lte ← lift (date_param datetime_text "occurred_at.lte" r);
  limit ← lift (int_param "limit" 50 (Some 1) (Some 100) r);
  offset ← lift (int_param "offset" 0 (Some 0) None r);
  _ ← require_auth account_name;
  let params := ([("limit", PInt limit); ("offset", PInt offset)] ++ given_text "wallet.type" wallet_type
    ++ given_text "payment.id" payment_id ++ given_text "type" type_ ++ given_text "occurredAt.gte" occurred_at_gte
      ++ given_text "occurredAt.lte" occurred_at_lte)%list in
  proxy_get "payments/payment-operations" account_name (Some params).
Definition list_refunds : handler := fun r =>
  account_name ← lift (text_param "account_name" r);
  limit ← lift (int_param "limit" 50 (Some 1) None r);
  offset ← lift (int_param "offset" 0 (Some 0) None r);
  _ ← require_auth account_name;
  proxy_get "payments/refunds" account_name (Some [("limit", PInt limit); ("offset", PInt offset)]).
Definition initiate_refund : handler := fun r =>
  body ← lift (model_body datetime_text RefundRequest r);
  account_name ← lift (text_param "account_name" r);
  _ ← require_auth account_name;
  let payload := ([("payment", PDict [("id", of_body "payment_id" body)]); ("reason", of_body "reason_code" body)]
    ++ given "lineItems" (of_body "line_items" body) ++ given "delivery" (of_body "delivery" body)
      ++ given "overpaid" (of_body "overpaid" body)
        ++ given "additionalServices" (of_body "additional_services" body)
          ++ given "surcharges" (of_body "surcharges" body))%list in
  proxy_post "payments/refunds" account_name (Some payload).
Definition create_shipment : handler := fun r =>
  body ← lift (object_body r);
  account_name ← lift (text_param "account_name" r);
  _ ← require_auth account_name;
  proxy_post "shipment-management/shipments/create-commands" account_name (Some body).
Definition get_shipment : handler := fun r =>
  let shipment_id := path_param "shipment_id" r in
  account_name ← lift (text_param "account_name" r);
  _ ← lift (validate_path_id shipment_id "shipment_id");
  _ ← require_auth account_name;
  proxy_get ("shipment-management/shipments/" ++ shipment_id) account_name None.
Definition cancel_shipment : handler := fun r =>
  let shipment_id := path_param "shipment_id" r in
  account_name ← lift (text_param "account_name" r);
  _ ← lift (validate_path_id shipment_id "shipment_id");
  _ ← require_auth account_name;
  proxy_post "shipment-management/shipments/cancel-commands" account_name (Some [("shipmentId", PStr shipment_id)]).
Definition get_shipment_labels : handler := fun r =>
  body ← lift (object_body r);
  account_name ← lift (text_param "account_name" r);
  _ ← require_auth account_name;
  proxy_post "shipment-management/shipments/labels" account_name (Some body).
Definition get_shipment_protocol : handler := fun r =>
  body ← lift (object_body r);
  account_name ← lift (text_param "account_name" r);
  _ ← require_auth account_name;
  proxy_post "shipment-management/shipments/protocol" account_name (Some body).
Definition get_delivery_services : handler := fun r =>
  account_name ← lift (text_param "account_name" r);
  _ ← require_auth account_name;
  proxy_get "shipment-management/delivery-services" account_name None.
Definition request_pickup : handler := fun r =>
  body ← lift (object_body r);
  account_name ← lift (text_param "account_name" r);
  _ ← require_auth account_name;
  proxy_post "shipment-management/pickups/create-commands" account_name (Some body).
Definition get_pickup_proposals : handler := fun r =>
  body ← lift (object_body r);
  account_name ← lift (text_param "account_name" r);
  _ ← require_auth account_name;
  proxy_post "shipment-management/pickups/proposals" account_name (Some body).
Definition get_pickup_points : handler := fun r =>
  account_name ← lift (text_param "account_name" r);
  _ ← require_auth account_name;
  proxy_get "order/carriers/ALLEGRO/drop-off-points" account_name None.
Definition list_returns : handler := fun r =>
  account_name ← lift (text_param "account_name" r);
  let buyer_login := query_value "buyer_login" r in
  let status := query_value "status" r in
  created_at_gte ← lift (date_param datetime_text "created_at.gte" r);
  created_at_lte ← lift (date_param datetime_text "created_at.lte" r);
  limit ← lift (int_param "limit" 25 (Some 1) None r);
  offset ← lift (int_param "offset" 0 (Some 0) None r);
  _ ← require_auth account_name;
  let params := ([("limit", PInt limit); ("offset", PInt offset)] ++ given_text "buyerLogin" buyer_login
    ++ given_text "status" status ++ given_text "createdAt.gte" created_at_gte
      ++ given_text "createdAt.lte" created_at_lte)%list in
  proxy_get "order/customer-returns" account_name (Some params).
Definition get_return : handler := fun r =>
  let return_id := path_param "return_id" r in
  account_name ← lift (text_param "account_name" r);
  _ ← lift (validate_path_id return_id "return_id");
  _ ← require_auth account_name;
  proxy_get ("order/customer-returns/" ++ return_id) account_name None.
Definition reject_return : handler := fun r =>
  let return_id := path_param "return_id" r in
  body ← lift (model_body datetime_text ReturnRejectRequest r);
  account_name ← lift (text_param "account_name" r);
  _ ← lift (validate_path_id return_id "return_id");
  _ ← require_auth account_name;
  proxy_post ("order/customer-returns/" ++ return_id ++ "/rejection") account_name
    (Some [("rejectionReason", of_body "rejection_reason" body)]).
Definition list_delivery_methods : handler := fun r =>
  account_name ← lift (text_param "account_name" r);
  _ ← require_auth account_name;
  proxy_get "sale/delivery-methods" account_name None.
Definition get_delivery_settings : handler := fun r =>
  account_name ← lift (text_param "account_name" r);
  _ ← require_auth account_name;
  proxy_get "sale/delivery-settings" account_name None.
Definition update_delivery_settings : handler := fun r =>
  body ← lift (object_body r);
  account_name ← lift (text_param "account_name" r);
  _ ← require_auth account_name;
  proxy_request "PUT" "sale/delivery-settings" account_name (Some body).
Definition list_shipping_rates : handler := fun r =>
  account_name ← lift (text_param "account_name" r);
  _ ← require_auth account_name;
  proxy_get "sale/shipping-rates" account_name None.
Definition get_shipping_rates : handler := fun r =>
  let rates_id := path_param "rates_id" r in
  account_name ← lift (text_param "account_name" r);
  _ ← lift (validate_path_id rates_id "rates_id");
  _ ← require_auth account_name;
  proxy_get ("sale/shipping-rates/" ++ rates_id) account_name None.
Definition create_shipping_rates : handler := fun r =>
  body ← lift (object_body r);
  account_name ← lift (text_param "account_name" r);
  _ ← require_auth account_name;
  proxy_post "sale/shipping-rates" account_name (Some body).
Definition update_shipping_rates : handler := fun r =>
  let rates_id := path_param "rates_id" r in
  body ← lift (object_body r);
  account_name ← lift (text_param "account_name" r);
  _ ← lift (validate_path_id rates_id "rates_id");
  _ ← require_auth account_name;
  proxy_request "PUT" ("sale/shipping-rates/" ++ rates_id) account_name (Some body).
Definition list_warranties : handler := fun r =>
  account_name ← lift (text_param "account_name" r);
  _ ← require_auth account_name;
  proxy_get "after-sales-service-conditions/warranties" account_name None.
Definition get_warranty : handler := fun r =>
  let warranty_id := path_param "warranty_id" r in
  account_name ← lift (text_param "account_name" r);
  _ ← lift (validate_path_id warranty_id "warranty_id");
  _ ← require_auth account_name;
  proxy_get ("after-sales-service-conditions/warranties/" ++ warranty_id) account_name None.
Definition create_warranty : handler := fun r =>
  body ← lift (object_body r);
  account_name ← lift (text_param "account_name" r);
  _ ← require_auth account_name;
  proxy_post "after-sales-service-conditions/warranties" account_name (Some body).
Definition update_warranty : handler := fun r =>
  let warranty_id := path_param "warranty_id" r in
  body ← lift (object_body r);
  account_name ← lift (text_param "account_name" r);
  _ ← lift (validate_path_id warranty_id "warranty_id");
  _ ← require_auth account_name;
  proxy_request "PUT" ("after-sales-service-conditions/warranties/" ++ warranty_id) account_name (Some body).
Definition list_return_policies : handler := fun r =>
  account_name ← lift (text_param "account_name" r);
  _ ← require_auth account_name;
  proxy_get "after-sales-service-conditions/return-policies" account_name None.
Definition get_return_policy : handler := fun r =>
  let policy_id := path_param "policy_id" r in
  account_name ← lift (text_param "account_name" r);
  _ ← lift (validate_path_id policy_id "policy_id");
  _ ← require_auth account_name;
  proxy_get ("after-sales-service-conditions/return-policies/" ++ policy_id) account_name None.
Definition create_return_policy : handler := fun r =>
  body ← lift (object_body r);
  account_name ← lift (text_param "account_name" r);
  _ ← require_auth account_name;
  proxy_post "after-sales-service-conditions/return-policies" account_name (Some body).
Definition update_return_policy : handler := fun r =>
  let policy_id := path_param "policy_id" r in
  body ← lift (object_body r);
  account_name ← lift (text_param "account_name" r);
  _ ← lift (validate_path_id policy_id "policy_id");
  _ ← require_auth account_name;
  proxy_request "PUT" ("after-sales-service-conditions/return-policies/" ++ policy_id) account_name (Some body).
Definition delete_return_policy : handler := fun r =>
  let policy_id := path_param "policy_id" r in
  account_name ← lift (text_param "account_name" r);
  _ ← lift (validate_path_id policy_id "policy_id");
  _ ← require_auth account_name;
  proxy_request "DELETE" ("after-sales-service-conditions/return-policies/" ++ policy_id) account_name None.
Definition list_message_threads : handler := fun r =>
  account_name ← lift (text_param "account_name" r);
  limit ← lift (int_param "limit" 20 (Some 1) None r);
  offset ← lift (int_param "offset" 0 (Some 0) None r);
  _ ← require_auth account_name;
  proxy_get "messaging/threads" account_name (Some [("limit", PInt limit); ("offset", PInt offset)]).
Definition get_message_thread : handler := fun r =>
  let thread_id := path_param "thread_id" r in
  account_name ← lift (text_param "account_name" r);
  _ ← lift (validate_path_id thread_id "thread_id");
  _ ← require_auth account_name;
  proxy_get ("messaging/threads/" ++ thread_id) account_name None.
Definition list_thread_messages : handler := fun r =>
  let thread_id := path_param "thread_id" r in
  account_name ← lift (text_param "account_name" r);
  limit ← lift (int_param "limit" 20 (Some 1) None r);
  offset ← lift (int_param "offset" 0 (Some 0) None r);
  _ ← lift (validate_path_id thread_id "thread_id");
  _ ← require_auth account_name;
  proxy_get ("messaging/threads/" ++ thread_id ++ "/messages") account_name (Some [("limit", PInt limit);
    ("offset", PInt offset)]).
Definition send_message : handler := fun r =>
  body ← lift (model_body datetime_text MessageSendRequest r);
  account_name ← lift (text_param "account_name" r);
  _ ← require_auth account_name;
  let payload := ([("recipient", PDict [("login", of_body "recipient_login" body)]); ("text", of_body "text" body)]
    ++ if_given (of_body "offer_id" body) "offer" (PDict [("id", of_body "offer_id" body)])
      ++ if_given (of_body "order_id" body) "order" (PDict [("id", of_body "order_id" body)])
        ++ given "attachments" (of_body "attachments" body))%list in
  proxy_post "messaging/messages" account_name (Some payload).
Definition mark_thread_read : handler := fun r =>
  let thread_id := path_param "thread_id" r in
  account_name ← lift (text_param "account_name" r);
  _ ← lift (validate_path_id thread_id "thread_id");
  _ ← require_auth account_name;
  proxy_request "PUT" ("messaging/threads/" ++ thread_id ++ "/read") account_name (Some [("read", PBool true)]).
Definition list_billing_types : handler := fun r =>
  account_name ← lift (text_param "account_name" r);
  _ ← require_auth account_name;
  proxy_get "billing/billing-types" account_name None.
Definition list_billing_entries : handler := fun r =>
  account_name ← lift (text_param "account_name" r);
  let type_id := query_value "type.id" r in
  occurred_at_gte ← lift (date_param datetime_text "occurred_at.gte" r);
  occurred_at_lte ← lift (date_param datetime_text "occurred_at.lte" r);
  limit ← lift (int_param "limit" 100 (Some 1) None r);
  offset ← lift (int_param "offset" 0 (Some 0) None r);
  _ ← require_auth account_name;
  let params := ([("limit", PInt limit); ("offset", PInt offset)] ++ given_text "type.id" type_id
    ++ given_text "occurredAt.gte" occurred_at_gte ++ given_text "occurredAt.lte" occurred_at_lte)%list in
  proxy_get "billing/billing-entries" account_name (Some params).
Definition get_user_info : handler := fun r =>
  account_name ← lift (text_param "account_name" r);
  _ ← require_auth account_name;
  proxy_get "me" account_name None.
Definition get_user_ratings : handler := fun r =>
  account_name ← lift (text_param "account_name" r);
  limit ← lift (int_param "limit" 20 (Some 1) None r);
  offset ← lift (int_param "offset" 0 (Some 0) None r);
  _ ← require_auth account_name;
  proxy_get "sale/user-ratings" account_name (Some [("limit", PInt limit); ("offset", PInt offset)]).
Definition get_sales_quality : handler := fun r =>
  account_name ← lift (text_param "account_name" r);
  _ ← require_auth account_name;
  proxy_get "sale/quality" account_name None.
Definition list_commission_refunds : handler := fun r =>
  account_name ← lift (text_param "account_name" r);
  limit ← lift (int_param "limit" 25 (Some 1) None r);
  offset ← lift (int_param "offset" 0 (Some 0) None r);
  _ ← require_auth account_name;
  proxy_get "order/refund-claims" account_name (Some [("limit", PInt limit); ("offset", PInt offset)]).
Definition get_commission_refund : handler := fun r =>
  let refund_id := path_param "refund_id" r in
  account_name ← lift (text_param "account_name" r);
  _ ← lift (validate_path_id refund_id "refund_id");
  _ ← require_auth account_name;
  proxy_get ("order/refund-claims/" ++ refund_id) account_name None.
Definition create_commission_refund : handler := fun r =>
  body ← lift (object_body r);
  account_name ← lift (text_param "account_name" r);
  _ ← require_auth account_name;
  proxy_post "order/refund-claims" account_name (Some body).
Definition cancel_commission_refund : handler := fun r =>
  let refund_id := path_param "refund_id" r in
  account_name ← lift (text_param "account_name" r);
  _ ← lift (validate_path_id refund_id "refund_id");
  _ ← require_auth account_name;
  proxy_request "DELETE" ("order/refund-claims/" ++ refund_id) account_name None.
Definition list_additional_service_groups : handler := fun r =>
  account_name ← lift (text_param "account_name" r);
  _ ← require_auth account_name;
  proxy_get "sale/offer-additional-services/groups" account_name None.
Definition get_additional_service_group : handler := fun r =>
  let group_id := path_param "group_id" r in
  account_name ← lift (text_param "account_name" r);
  _ ← lift (validate_path_id group_id "group_id");
  _ ← require_auth account_name;
  proxy_get ("sale/offer-additional-services/groups/" ++ group_id) account_name None.
Definition create_additional_service_group : handler := fun r =>
  body ← lift (object_body r);
  account_name ← lift (text_param "account_name" r);
  _ ← require_auth account_name;
  proxy_post "sale/offer-additional-services/groups" account_name (Some body).
Definition update_additional_service_group : handler := fun r =>
  let group_id := path_param "group_id" r in
  body ← lift (object_body r);
  account_name ← lift (text_param "account_name" r);
  _ ← lift (validate_path_id group_id "group_id");
  _ ← require_auth account_name;
  proxy_request "PUT" ("sale/offer-additional-services/groups/" ++ group_id) account_name (Some body).
Definition get_additional_service_definitions : handler := fun r =>
  account_name ← lift (text_param "account_name" r);
  let category_id := query_value "category_id" r in
  _ ← require_auth account_name;
  let params := ([] ++ given_text "category.id" category_id)%list in
  proxy_get "sale/offer-additional-services/definitions" account_name (Some params).
Definition list_size_tables : handler := fun r =>
  account_name ← lift (text_param "account_name" r);
  _ ← require_auth account_name;
  proxy_get "sale/size-tables" account_name None.
Definition get_size_table : handler := fun r =>
  let table_id := path_param "table_id" r in
  account_name ← lift (text_param "account_name" r);
  _ ← lift (validate_path_id table_id "table_id");
  _ ← require_auth account_name;
  proxy_get ("sale/size-tables/" ++ table_id) account_name None.
Definition create_size_table : handler := fun r =>
  body ← lift (object_body r);
  account_name ← lift (text_param "account_name" r);
  _ ← require_auth account_name;
  proxy_post "sale/size-tables" account_name (Some body).
Definition update_size_table : handler := fun r =>
  let table_id := path_param "table_id" r in
  body ← lift (object_body r);
  account_name ← lift (text_param "account_name" r);
  _ ← lift (validate_path_id table_id "table_id");
  _ ← require_auth account_name;
  proxy_request "PUT" ("sale/size-tables/" ++ table_id) account_name (Some body).
Definition list_points_of_service : handler := fun r =>
  account_name ← lift (text_param "account_name" r);
  _ ← require_auth account_name;
  proxy_get "points-of-service" account_name None.
Definition get_point_of_service : handler := fun r =>
  let point_id := path_param "point_id" r in
  account_name ← lift (text_param "account_name" r);
  _ ← lift (validate_path_id point_id "point_id");
  _ ← require_auth account_name;
  proxy_get ("points-of-service/" ++ point_id) account_name None.
Definition create_point_of_service : handler := fun r =>
  body ← lift (object_body r);
  account_name ← lift (text_param "account_name" r);
  _ ← require_auth account_name;
  proxy_post "points-of-service" account_name (Some body).
Definition update_point_of_service : handler := fun r =>
  let point_id := path_param "point_id" r in
  body ← lift (object_body r);
  account_name ← lift (text_param "account_name" r);
  _ ← lift (validate_path_id point_id "point_id");
  _ ← require_auth account_name;
  proxy_request "PUT" ("points-of-service/" ++ point_id) account_name (Some body).
Definition delete_point_of_service : handler := fun r =>
  let point_id := path_param "point_id" r in
  account_name ← lift (text_param "account_name" r);
  _ ← lift (validate_path_id point_id "point_id");
  _ ← require_auth account_name;
  proxy_request "DELETE" ("points-of-service/" ++ point_id) account_name None.
Definition list_contacts : handler := fun r =>
  account_name ← lift (text_param "account_name" r);
  _ ← require_auth account_name;
  proxy_get "sale/offer-contacts" account_name None.
Definition get_contact : handler := fun r =>
  let contact_id := path_param "contact_id" r in
  account_name ← lift (text_param "account_name" r);
  _ ← lift (validate_path_id contact_id "contact_id");
  _ ← require_auth account_name;
  proxy_get ("sale/offer-contacts/" ++ contact_id) account_name None.
Definition create_contact : handler := fun r =>
  body ← lift (object_body r);
  account_name ← lift (text_param "account_name" r);
  _ ← require_auth account_name;
  proxy_post "sale/offer-contacts" account_name (Some body).
Definition update_contact : handler := fun r =>
  let contact_id := path_param "contact_id" r in
  body ← lift (object_body r);
  account_name ← lift (text_param "account_name" r);
  _ ← lift (validate_path_id contact_id "contact_id");
  _ ← require_auth account_name;
  proxy_request "PUT" ("sale/offer-contacts/" ++ contact_id) account_name (Some body).
Definition get_offer_quotes : handler := fun r =>
  account_name ← lift (text_param "account_name" r);
  _ ← require_auth account_name;
  proxy_get "pricing/offer-quotes" account_name None.
Definition calculate_fee : handler := fun r =>
  body ← lift (object_body r);
  account_name ← lift (text_param "account_name" r);
  _ ← require_auth account_name;
  proxy_post "pricing/offer-fee-preview" account_name (Some body).
Definition get_tax_settings : handler := fun r =>
  let category_id := path_param "category_id" r in
  account_name ← lift (text_param "account_name" r);
  _ ← lift (validate_path_id category_id "category_id");
  _ ← require_auth account_name;
  proxy_get "sale/tax-settings" account_name (Some [("category.id", PStr category_id)]).
Definition list_badge_campaigns : handler := fun r =>
  account_name ← lift (text_param "account_name" r);
  _ ← require_auth account_name;
  proxy_get "sale/badges/campaigns" account_name None.
Definition list_badges : handler := fun r =>
  account_name ← lift (text_param "account_name" r);
  let offer_id := query_value "offer_id" r in
  let campaign_id := query_value "campaign_id" r in
  _ ← require_auth account_name;
  let params := ([] ++ given_text "offer.id" offer_id ++ given_text "campaign.id" campaign_id)%list in
  proxy_get "sale/badges" account_name (Some params).
Definition apply_badge : handler := fun r =>
  body ← lift (object_body r);
  account_name ← lift (text_param "account_name" r);
  _ ← require_auth account_name;
  proxy_post "sale/badges" account_name (Some body).
Definition get_compatible_products : handler := fun r =>
  let offer_id := path_param "offer_id" r in
  account_name ← lift (text_param "account_name" r);
  _ ← lift (validate_path_id offer_id "offer_id");
  _ ← require_auth account_name;
  proxy_get ("sale/offers/" ++ offer_id ++ "/compatibility-list") account_name None.
Definition get_compatibility_groups : handler := fun r =>
  let category_id := path_param "category_id" r in
  account_name ← lift (text_param "account_name" r);
  _ ← lift (validate_path_id category_id "category_id");
  _ ← require_auth account_name;
  proxy_get ("sale/compatibility-list/supported-categories/" ++ category_id) account_name None.
Definition get_compatibility_suggestions : handler := fun r =>
  let offer_id := path_param "offer_id" r in
  account_name ← lift (text_param "account_name" r);
  _ ← require_auth account_name;
  proxy_get "sale/compatibility-list/suggestions" account_name (Some [("offer.id", PStr offer_id)]).
Definition get_compatibility_categories : handler := fun r =>
  account_name ← lift (text_param "account_name" r);
  _ ← require_auth account_name;
  proxy_get "sale/compatibility-list/supported-categories" account_name None.
Definition get_fulfillment_stock : handler := fun r =>
  account_name ← lift (text_param "account_name" r);
  _ ← require_auth account_name;
  proxy_get "fulfillment/stock" account_name None.
Definition get_fulfillment_parcels : handler := fun r =>
  account_name ← lift (text_param "account_name" r);
  _ ← require_auth account_name;
  proxy_get "fulfillment/shipments" account_name None.
Definition get_fulfillment_products : handler := fun r =>
  account_name ← lift (text_param "account_name" r);
  _ ← require_auth account_name;
  proxy_get "fulfillment/products" account_name None.
Definition list_advance_ship_notices : handler := fun r =>
  account_name ← lift (text_param "account_name" r);
  _ ← require_auth account_name;
  proxy_get "fulfillment/advance-ship-notices" account_name None.
Definition get_advance_ship_notice : handler := fun r =>
  let asn_id := path_param "asn_id" r in
  account_name ← lift (text_param "account_name" r);
  _ ← lift (validate_path_id asn_id "asn_id");
  _ ← require_auth account_name;
  proxy_get ("fulfillment/advance-ship-notices/" ++ asn_id) account_name None.
Definition create_advance_ship_notice : handler := fun r =>
  body ← lift (object_body r);
  account_name ← lift (text_param "account_name" r);
  _ ← require_auth account_name;
  proxy_post "fulfillment/advance-ship-notices" account_name (Some body).
Definition list_disputes : handler := fun r =>
  account_name ← lift (text_param "account_name" r);
  limit ← lift (int_param "limit" 25 (Some 1) None r);
  offset ← lift (int_param "offset" 0 (Some 0) None r);
  _ ← require_auth account_name;
  proxy_get "sale/disputes" account_name (Some [("limit", PInt limit); ("offset", PInt offset)]).
Definition get_dispute : handler := fun r =>
  let dispute_id := path_param "dispute_id" r in
  account_name ← lift (text_param "account_name" r);
  _ ← lift (validate_path_id dispute_id "dispute_id");
  _ ← require_auth account_name;
  proxy_get ("sale/disputes/" ++ dispute_id) account_name None.
Definition get_dispute_messages : handler := fun r =>
  let dispute_id := path_param "dispute_id" r in
  account_name ← lift (text_param "account_name" r);
  _ ← lift (validate_path_id dispute_id "dispute_id");
  _ ← require_auth account_name;
  proxy_get ("sale/disputes/" ++ dispute_id ++ "/messages") account_name None.

(** ** The table, in the order of registration *)

Definition allegro_routes : list (route World) :=
  [Route "GET" "/health" "health" 200 health;
   Route "GET" "/readiness" "readiness" 200 readiness;
   Route "POST" "/auth/{account_name}/device-code" "start_device_flow" 200 start_device_flow;
   Route "POST" "/auth/{account_name}/poll-token" "poll_for_token" 200 poll_for_token;
   Route "GET" "/auth/{account_name}/status" "auth_status" 200 auth_status;
   Route "GET" "/auth/status" "all_auth_statuses" 200 all_auth_statuses;
   Route "GET" "/accounts" "list_accounts" 200 list_accounts;
   Route "POST" "/accounts" "add_account" 201 add_account;
   Route "DELETE" "/accounts/{account_name}" "remove_account" 200 remove_account;
   Route "GET" "/orders" "list_orders" 200 list_orders;
   Route "GET" "/orders/{order_id}" "get_order" 200 get_order;
   Route "PUT" "/orders/{order_id}/status" "update_order_status" 200 update_order_status;
   Route "GET" "/orders/events" "get_order_events" 200 get_order_events;
   Route "GET" "/orders/event-stats" "get_order_event_stats" 200 get_order_event_stats;
   Route "POST" "/orders/{order_id}/tracking" "add_tracking_number" 200 add_tracking_number;
   Route "GET" "/orders/{order_id}/tracking" "get_tracking_numbers" 200 get_tracking_numbers;
   Route "GET" "/orders/carriers" "get_carriers" 200 get_carriers;
   Route "GET" "/orders/{order_id}/tracking-history" "get_tracking_history" 200 get_tracking_history;
   Route "POST" "/orders/{order_id}/billing" "upload_billing_document" 200 upload_billing_document;
   Route "PUT" "/orders/{order_id}/invoice" "upload_invoice_multipart" 200 upload_invoice_multipart;
   Route "POST" "/orders/{order_id}/invoice" "upload_invoice_json" 200 upload_invoice_json;
   Route "GET" "/orders/{order_id}/invoices" "get_order_invoices" 200 get_order_invoices;
   Route "GET" "/offers" "list_offers" 200 list_offers;
   Route "GET" "/offers/{offer_id}" "get_offer" 200 get_offer;
   Route "POST" "/offers" "create_offer" 201 create_offer;
   Route "PATCH" "/offers/{offer_id}" "edit_offer" 200 edit_offer;
   Route "DELETE" "/offers/{offer_id}/draft" "delete_draft_offer" 200 delete_draft_offer;
   Route "GET" "/offers/events" "get_offer_events" 200 get_offer_events;
   Route "PUT" "/offers/batch/publish" "batch_publish_offers" 200 batch_publish_offers;
   Route "PUT" "/offers/batch/price" "batch_price_change" 200 batch_price_change;
   Route "PUT" "/offers/batch/quantity" "batch_quantity_change" 200 batch_quantity_change;
   Route "PUT" "/offers/batch/modify" "batch_modify_offers" 200 batch_modify_offers;
   Route "GET" "/offers/{offer_id}/promo" "get_offer_promo" 200 get_offer_promo;
   Route "GET" "/offers/{offer_id}/rating" "get_offer_rating" 200 get_offer_rating;
   Route "POST" "/stock/sync" "sync_stock" 200 sync_stock;
   Route "GET" "/products/search" "search_products" 200 search_products;
   Route "GET" "/products/{product_id}" "get_product" 200 get_product;
   Route "GET" "/products/{product_id}/params" "get_product_params" 200 get_product_params;
   Route "POST" "/products/propose" "propose_product" 201 propose_product;
   Route "GET" "/categories" "list_categories" 200 list_categories;
   Route "GET" "/categories/{category_id}" "get_category" 200 get_category;
   Route "GET" "/categories/{category_id}/params" "get_category_params" 200 get_category_params;
   Route "GET" "/categories/suggestions" "get_category_suggestions" 200 get_category_suggestions;
   Route "GET" "/categories/events" "get_category_events" 200 get_category_events;
   Route "POST" "/images" "upload_image" 201 upload_image;
   Route "POST" "/attachments" "create_attachment" 201 create_attachment;
   Route "GET" "/variants" "list_variant_sets" 200 list_variant_sets;
   Route "GET" "/variants/{set_id}" "get_variant_set" 200 get_variant_set;
   Route "POST" "/variants" "create_variant_set" 201 create_variant_set;
   Route "PUT" "/variants/{set_id}" "update_variant_set" 200 update_variant_set;
   Route "DELETE" "/variants/{set_id}" "delete_variant_set" 200 delete_variant_set;
   Route "GET" "/tags" "list_tags" 200 list_tags;
   Route "POST" "/tags" "create_tag" 201 create_tag;
   Route "PUT" "/tags/{tag_id}" "update_tag" 200 update_tag;
   Route "DELETE" "/tags/{tag_id}" "delete_tag" 200 delete_tag;
   Route "POST" "/offers/{offer_id}/tags" "assign_tags" 200 assign_tags;
   Route "GET" "/promotions" "list_promotions" 200 list_promotions;
   Route "GET" "/promotions/{promotion_id}" "get_promotion" 200 get_promotion;
   Route "POST" "/promotions" "create_promotion" 201 create_promotion;
   Route "PUT" "/promotions/{promotion_id}" "update_promotion" 200 update_promotion;
   Route "DELETE" "/promotions/{promotion_id}" "delete_promotion" 200 delete_promotion;
   Route "GET" "/turnover-discounts" "list_turnover_discounts" 200 list_turnover_discounts;
   Route "PUT" "/turnover-discounts/{marketplace_id}" "create_turnover_discount" 200 create_turnover_discount;
   Route "DELETE" "/turnover-discounts/{marketplace_id}" "deactivate_turnover_discount" 200 deactivate_turnover_discount;
   Route "GET" "/bundles" "list_bundles" 200 list_bundles;
   Route "GET" "/bundles/{bundle_id}" "get_bundle" 200 get_bundle;
   Route "POST" "/bundles" "create_bundle" 201 create_bundle;
   Route "DELETE" "/bundles/{bundle_id}" "delete_bundle" 200 delete_bundle;
   Route "GET" "/payments/history" "payment_history" 200 payment_history;
   Route "GET" "/payments/refunds" "list_refunds" 200 list_refunds;
   Route "POST" "/payments/refunds" "initiate_refund" 201 initiate_refund;
   Route "POST" "/shipments" "create_shipment" 201 create_shipment;
   Route "GET" "/shipments/{shipment_id}" "get_shipment" 200 get_shipment;
   Route "POST" "/shipments/{shipment_id}/cancel" "cancel_shipment" 200 cancel_shipment;
   Route "POST" "/shipments/labels" "get_shipment_labels" 200 get_shipment_labels;
   Route "POST" "/shipments/protocol" "get_shipment_protocol" 200 get_shipment_protocol;
   Route "GET" "/shipments/services" "get_delivery_services" 200 get_delivery_services;
   Route "POST" "/shipments/pickup-request" "request_pickup" 200 request_pickup;
   Route "POST" "/shipments/pickup-proposals" "get_pickup_proposals" 200 get_pickup_proposals;
   Route "GET" "/pickup-points" "get_pickup_points" 200 get_pickup_points;
   Route "GET" "/returns" "list_returns" 200 list_returns;
   Route "GET" "/returns/{return_id}" "get_return" 200 get_return;
   Route "POST" "/returns/{return_id}/reject" "reject_return" 200 reject_return;
   Route "GET" "/delivery/methods" "list_delivery_methods" 200 list_delivery_methods;
   Route "GET" "/delivery/settings" "get_delivery_settings" 200 get_delivery_settings;
   Route "PUT" "/delivery/settings" "update_delivery_settings" 200 update_delivery_settings;
   Route "GET" "/delivery/shipping-rates" "list_shipping_rates" 200 list_shipping_rates;
   Route "GET" "/delivery/shipping-rates/{rates_id}" "get_shipping_rates" 200 get_shipping_rates;
   Route "POST" "/delivery/shipping-rates" "create_shipping_rates" 201 create_shipping_rates;
   Route "PUT" "/delivery/shipping-rates/{rates_id}" "update_shipping_rates" 200 update_shipping_rates;
   Route "GET" "/warranties" "list_warranties" 200 list_warranties;
   Route "GET" "/warranties/{warranty_id}" "get_warranty" 200 get_warranty;
   Route "POST" "/warranties" "create_warranty" 201 create_warranty;
   Route "PUT" "/warranties/{warranty_id}" "update_warranty" 200 update_warranty;
   Route "GET" "/return-policies" "list_return_policies" 200 list_return_policies;
   Route "GET" "/return-policies/{policy_id}" "get_return_policy" 200 get_return_policy;
   Route "POST" "/return-policies" "create_return_policy" 201 create_return_policy;
   Route "PUT" "/return-policies/{policy_id}" "update_return_policy" 200 update_return_policy;
   Route "DELETE" "/return-policies/{policy_id}" "delete_return_policy" 200 delete_return_policy;
   Route "GET" "/messages/threads" "list_message_threads" 200 list_message_threads;
   Route "GET" "/messages/threads/{thread_id}" "get_message_thread" 200 get_message_thread;
   Route "GET" "/messages/threads/{thread_id}/messages" "list_thread_messages" 200 list_thread_messages;
   Route "POST" "/messages" "send_message" 201 send_message;
   Route "PUT" "/messages/threads/{thread_id}/read" "mark_thread_read" 200 mark_thread_read;
   Route "GET" "/billing/types" "list_billing_types" 200 list_billing_types;
   Route "GET" "/billing/entries" "list_billing_entries" 200 list_billing_entries;
   Route "GET" "/user/info" "get_user_info" 200 get_user_info;
   Route "GET" "/user/ratings" "get_user_ratings" 200 get_user_ratings;
   Route "GET" "/user/sales-quality" "get_sales_quality" 200 get_sales_quality;
   Route "GET" "/commission-refunds" "list_commission_refunds" 200 list_commission_refunds;
   Route "GET" "/commission-refunds/{refund_id}" "get_commission_refund" 200 get_commission_refund;
   Route "POST" "/commission-refunds" "create_commission_refund" 201 create_commission_refund;
   Route "DELETE" "/commission-refunds/{refund_id}" "cancel_commission_refund" 200 cancel_commission_refund;
   Route "GET" "/additional-services/groups" "list_additional_service_groups" 200 list_additional_service_groups;
   Route "GET" "/additional-services/groups/{group_id}" "get_additional_service_group" 200 get_additional_service_group;
   Route "POST" "/additional-services/groups" "create_additional_service_group" 201 create_additional_service_group;
   Route "PUT" "/additional-services/groups/{group_id}" "update_additional_service_group" 200 update_additional_service_group;
   Route "GET" "/additional-services/definitions" "get_additional_service_definitions" 200 get_additional_service_definitions;
   Route "GET" "/size-tables" "list_size_tables" 200 list_size_tables;
   Route "GET" "/size-tables/{table_id}" "get_size_table" 200 get_size_table;
   Route "POST" "/size-tables" "create_size_table" 201 create_size_table;
   Route "PUT" "/size-tables/{table_id}" "update_size_table" 200 update_size_table;
   Route "GET" "/points-of-service" "list_points_of_service" 200 list_points_of_service;
   Route "GET" "/points-of-service/{point_id}" "get_point_of_service" 200 get_point_of_service;
   Route "POST" "/points-of-service" "create_point_of_service" 201 create_point_of_service;
   Route "PUT" "/points-of-service/{point_id}" "update_point_of_service" 200 update_point_of_service;
   Route "DELETE" "/points-of-service/{point_id}" "delete_point_of_service" 200 delete_point_of_service;
   Route "GET" "/contacts" "list_contacts" 200 list_contacts;
   Route "GET" "/contacts/{contact_id}" "get_contact" 200 get_contact;
   Route "POST" "/contacts" "create_contact" 201 create_contact;
   Route "PUT" "/contacts/{contact_id}" "update_contact" 200 update_contact;
   Route "GET" "/pricing/offer-quotes" "get_offer_quotes" 200 get_offer_quotes;
   Route "POST" "/pricing/fee-calculate" "calculate_fee" 200 calculate_fee;
   Route "GET" "/tax/settings/{category_id}" "get_tax_settings" 200 get_tax_settings;
   Route "GET" "/badges/campaigns" "list_badge_campaigns" 200 list_badge_campaigns;
   Route "GET" "/badges" "list_badges" 200 list_badges;
   Route "POST" "/badges" "apply_badge" 201 apply_badge;
   Route "GET" "/compatibility/products/{offer_id}" "get_compatible_products" 200 get_compatible_products;
   Route "GET" "/compatibility/groups/{category_id}" "get_compatibility_groups" 200 get_compatibility_groups;
   Route "GET" "/compatibility/suggestions/{offer_id}" "get_compatibility_suggestions" 200 get_compatibility_suggestions;
   Route "GET" "/compatibility/categories" "get_compatibility_categories" 200 get_compatibility_categories;
   Route "GET" "/fulfillment/stock" "get_fulfillment_stock" 200 get_fulfillment_stock;
   Route "GET" "/fulfillment/parcels" "get_fulfillment_parcels" 200 get_fulfillment_parcels;
   Route "GET" "/fulfillment/products" "get_fulfillment_products" 200 get_fulfillment_products;
   Route "GET" "/fulfillment/advance-ship-notices" "list_advance_ship_notices" 200 list_advance_ship_notices;
   Route "GET" "/fulfillment/advance-ship-notices/{asn_id}" "get_advance_ship_notice" 200 get_advance_ship_notice;
   Route "POST" "/fulfillment/advance-ship-notices" "create_advance_ship_notice" 201 create_advance_ship_notice;
   Route "GET" "/disputes" "list_disputes" 200 list_disputes;
   Route "GET" "/disputes/{dispute_id}" "get_dispute" 200 get_dispute;
   Route "GET" "/disputes/{dispute_id}/messages" "get_dispute_messages" 200 get_dispute_messages].

(** ** Which routes answer *)

Lemma allegro_table : Forall (fun e => plain_template (template_of (rt_path e)) = true) allegro_routes /\ NoDup (map rt_name allegro_routes).
Proof.
  split; [|by_deciding].
  apply Forall_forall. apply (proj1 (forallb_forall (fun e => plain_template (template_of (rt_path e))) allegro_routes)).
  by vm_compute.
Qed.

(** All routes of the connector answer some request except seven, which an earlier route with a parameter in the
    same place shadows. *)
Theorem allegro_reachable before r after :
  allegro_routes = (before ++ r :: after)%list ->
  (exists path, select (rt_method r) path allegro_routes = Some (List.length before)) <->
  ~ In (rt_name r) ["get_order_events"; "get_order_event_stats"; "get_carriers"; "get_offer_events";
                    "get_category_suggestions"; "get_category_events"; "get_delivery_services"].
Proof.
  intros E. destruct allegro_table as [Hplain Hnd].
  assert (Hs : shadowed [] allegro_routes = ["get_order_events"; "get_order_event_stats"; "get_carriers"; "get_offer_events";
                    "get_category_suggestions"; "get_category_events"; "get_delivery_services"]) by by vm_compute.
  rewrite <-Hs, E in *. by apply reachable_names.
Qed.

(** ** What is sent to Allegro *)

(** A part of a path: identifier characters, at least one; [$] lets a line feed follow them. *)
Definition name_part (p : string) : bool := str_forall is_id_char p && negb (String.eqb p "").
Definition safe_part (p : string) : bool := name_part p || name_part (without_line_feed p).
(** A path of such parts: no query, escape, dot, host, nor an empty part. *)
Definition safe_path (path : string) : Prop := forallb safe_part (split_char "/" path) = true.
Definition safe_exchange (e : exchange) : Prop :=
  match e with Exchanged (ApiRequest _ _ path _ _ _ _ _ _) _ => safe_path path | _ => True end.
Definition safe_sent (w : World) : Prop := Forall safe_exchange (sent w).

Lemma str_take_drop n s : (str_take n s ++ str_drop n s)%string = s.
Proof. revert s. induction n as [|n IH]; intros [|c s]; cbn; try done. by rewrite IH. Qed.

Lemma plain_name value : plain_id value = true -> name_part value = true.
Proof. unfold plain_id, name_part. destruct value; [done|]. by intros [[-> _]%andb_prop _]%andb_prop. Qed.
Lemma name_no_slash value : str_forall is_id_char value = true -> has_no "/" value = true.
Proof.
  apply str_forall_impl. intros c Hc. destruct (Ascii.eqb_spec c "/") as [->|]; [by vm_compute in Hc|done].
Qed.
Lemma part_no_slash p : safe_part p = true -> has_no "/" p = true.
Proof.
  unfold safe_part, name_part. intros [[Hc _]%andb_prop|[Hc _]%andb_prop]%orb_prop; [by apply name_no_slash|].
  unfold without_line_feed in Hc. destruct (ends_with (str1 "010") p) eqn:Ev; [|by apply name_no_slash].
  unfold ends_with in Ev. apply andb_prop in Ev as [Hle Ev]. apply String.eqb_eq in Ev.
  change (String.length (str1 "010")) with 1%nat in Ev. apply name_no_slash in Hc. unfold has_no in *.
  rewrite <-(str_take_drop (String.length p - 1) p), str_forall_app, Hc, Ev. done.
Qed.
Lemma safe_of_part p : safe_part p = true -> safe_path p.
Proof. intros Hp. unfold safe_path. rewrite split_char_alone by by apply part_no_slash. cbn. by rewrite Hp. Qed.
Lemma validated_safe value name x : validate_path_id value name = Ok x -> safe_path value.
Proof.
  unfold validate_path_id. destruct (safe_id value) eqn:E; [intros _|done]. apply safe_of_part. unfold safe_part.
  apply orb_prop in E as [E|E]; apply plain_name in E; rewrite E; [done|apply orb_true_r].
Qed.
Lemma split_char_at c s t : split_char c (s ++ String c t) = (split_char c s ++ split_char c t)%list.
Proof.
  induction s as [|a s IH]; cbn; [by rewrite Ascii.eqb_refl|]. destruct (Ascii.eqb a c); [by rewrite IH|].
  rewrite IH. pose proof (split_char_nonempty c s). by destruct (split_char c s).
Qed.
Lemma safe_suffix p q : safe_path p -> safe_path q -> safe_path (p ++ String "/" q).
Proof. unfold safe_path. intros Hp Hq. rewrite split_char_at, forallb_app. by rewrite Hp, Hq. Qed.
(** After a constant text that ends in a slash. *)
Lemma safe_prefix p q : ends_with "/" p = true -> safe_path (str_take (String.length p - 1) p) -> safe_path q -> safe_path (p ++ q).
Proof.
  intros He Hp Hq. unfold ends_with in He. apply andb_prop in He as [_ He]. apply String.eqb_eq in He.
  change (String.length "/") with 1%nat in He. rewrite <-(str_take_drop (String.length p - 1) p), He, <-str_app_assoc.
  by apply safe_suffix.
Qed.

Lemma send_safe o : (forall r, safe_exchange (Exchanged o r)) -> preserves safe_sent (send answer latency o).
Proof. intros Ho w Hw. unfold send, safe_sent, record. cbn. apply Forall_cons_iff. by split. Qed.
Lemma sent_same (m : World -> World) : (forall w, sent (m w) = sent w) -> preserves safe_sent (modify m).
Proof. intros Hm. apply preserves_modify. intros w Hw. unfold safe_sent. by rewrite Hm. Qed.
Lemma sleep_safe seconds : preserves safe_sent (sleep seconds).
Proof. apply preserves_modify. intros w Hw. unfold safe_sent, record. cbn. apply Forall_cons_iff. by split. Qed.
#[local] Hint Resolve sleep_safe raise_for_status_keeps : effects.
#[local] Hint Extern 3 (preserves safe_sent (modify _)) => by apply sent_same : effects.
#[local] Hint Extern 3 (preserves safe_sent (send _ _ (AuthRequest _ _ _))) => by apply send_safe : effects.

Lemma auth_refresh_safe account id secret url :
  preserves safe_sent (auth_refresh_token answer latency isoformat encryption_key account id secret url).
Proof. unfold auth_refresh_token, auth_store_token, save_token, delete_token. preserve. Qed.
#[local] Hint Resolve auth_refresh_safe : effects.
Lemma attempts_safe {A} tries account id secret url request (use : http_answer -> EM World A) failure :
  (forall token r, safe_exchange (Exchanged (request token) r)) -> (forall r, preserves safe_sent (use r)) ->
  preserves safe_sent (attempts answer latency isoformat encryption_key tries account id secret url request use failure).
Proof.
  intros Hreq Huse. induction tries as [|tries IH]; cbn [attempts]; [auto with effects|].
  apply preserves_bind; [unfold get_access_token; preserve|]. intros token.
  apply preserves_bind; [by apply send_safe|]. intros r. preserve; auto.
Qed.
Lemma api_request_safe a method path params json :
  safe_path path -> preserves safe_sent (api_request answer latency isoformat encryption_key max_retries a method path params json).
Proof. intros Hp. apply attempts_safe; [done|auto with effects]. Qed.
Lemma client_json_safe a method path params json :
  safe_path path -> preserves safe_sent (client_json answer latency isoformat encryption_key max_retries a method path params json).
Proof. intros Hp. unfold client_json, api_json. apply preserves_bind; [by apply api_request_safe|]. intros r. preserve. Qed.
Lemma client_done_safe a method path params json :
  safe_path path -> preserves safe_sent (client_done answer latency isoformat encryption_key max_retries a method path params json).
Proof. intros Hp. unfold client_done, api_done. apply preserves_bind; [by apply api_request_safe|]. intros r. auto with effects. Qed.
Lemma find_account_safe name : preserves safe_sent (find_account name).
Proof. unfold find_account. preserve. Qed.
Lemma known_account_safe name : preserves safe_sent (known_account name).
Proof. unfold known_account. preserve. Qed.
Lemma require_auth_safe name : preserves safe_sent (require_auth name).
Proof. unfold require_auth. preserve. Qed.
#[local] Hint Resolve find_account_safe known_account_safe require_auth_safe : effects.
Lemma proxy_get_safe path account params : safe_path path -> preserves safe_sent (proxy_get path account params).
Proof. intros Hp. unfold proxy_get. apply preserves_bind; [auto with effects|]. intros a. by apply client_json_safe. Qed.
Lemma proxy_post_safe path account json : safe_path path -> preserves safe_sent (proxy_post path account json).
Proof. intros Hp. unfold proxy_post. apply preserves_bind; [auto with effects|]. intros a. by apply client_json_safe. Qed.
Lemma proxy_request_safe method path account json : safe_path path -> preserves safe_sent (proxy_request method path account json).
Proof.
  intros Hp. unfold proxy_request. apply preserves_bind; [auto with effects|]. intros a.
  apply preserves_bind; [by apply api_request_safe|]. intros r. preserve.
Qed.

(** The paths of the handlers: constant texts, validated identifiers and the fresh one. *)
Ltac path_safe :=
  first [reflexivity | assumption | eapply validated_safe; eassumption
        | apply safe_suffix; path_safe | apply safe_prefix; [reflexivity|reflexivity|path_safe]].
Ltac handler_safe :=
  repeat match goal with
         | |- preserves _ (lift _ ≫= _) => apply preserves_lift_ok; intros ? ?
         | |- preserves _ (_ ≫= _) =>
             apply preserves_bind;
             [first [solve [auto with effects] | apply client_json_safe; path_safe | apply client_done_safe; path_safe]|intros ?]
         | |- preserves _ (proxy_get _ _ _) => apply proxy_get_safe; path_safe
         | |- preserves _ (proxy_post _ _ _) => apply proxy_post_safe; path_safe
         | |- preserves _ (proxy_request _ _ _ _) => apply proxy_request_safe; path_safe
         | |- preserves _ (client_json _ _ _ _ _ _ _ _ _ _) => apply client_json_safe; path_safe
         | |- preserves _ (let x := _ in _) => cbv zeta
         end.

(** The routes that put more than identifiers of the request into a path: the identifier of a stock item, and that of
    an invoice, which Allegro gives. *)
Definition unchecked_routes : list string := ["sync_stock"; "upload_invoice_multipart"; "upload_invoice_json"].

Lemma poll_loop_safe fuel account id secret url code start interval max_wait :
  preserves safe_sent (poll_loop answer latency isoformat encryption_key fuel account id secret url code start interval max_wait).
Proof.
  revert interval. induction fuel as [|fuel IH]; intros interval; cbn [poll_loop]; unfold drop_pending, auth_store_token, save_token; preserve; auto.
Qed.

Hypothesis health_safe : preserves safe_sent health_check.
#[local] Hint Resolve poll_loop_safe health_safe : effects.

Lemma start_device_flow_safe account id url : preserves safe_sent (AllegroAuth.start_device_flow answer latency account id url).
Proof. unfold AllegroAuth.start_device_flow. preserve. Qed.
Lemma poll_for_token_safe fuel account id secret url max_wait :
  preserves safe_sent (AllegroAuth.poll_for_token answer latency isoformat encryption_key fuel account id secret url max_wait).
Proof. unfold AllegroAuth.poll_for_token. preserve. Qed.
Lemma add_account_safe a : preserves safe_sent (AllegroAuth.add_account a).
Proof. unfold AllegroAuth.add_account. auto with effects. Qed.
Lemma remove_account_safe name : preserves safe_sent (AllegroAuth.remove_account name).
Proof. by intros w Hw. Qed.
#[local] Hint Resolve start_device_flow_safe poll_for_token_safe add_account_safe remove_account_safe : effects.

Lemma update_status_safe account order_id status :
  safe_path order_id ->
  preserves safe_sent (AllegroIntegration.update_order_status answer latency isoformat encryption_key max_retries account order_id status).
Proof. intros Hid. unfold AllegroIntegration.update_order_status, update_fulfillment_status. handler_safe. apply client_done_safe. path_safe. Qed.

Lemma handlers_safe req :
  name_part (rq_uuid req) = true ->
  Forall (fun r => In (rt_name r) unchecked_routes \/ preserves safe_sent (rt_handler r req)) allegro_routes.
Proof.
  intros Hid. assert (safe_path (rq_uuid req)) as Hu by (apply safe_of_part; unfold safe_part; by rewrite Hid).
  unfold allegro_routes.
  repeat (refine (proj2 (Forall_cons_iff _ _ _) (conj _ _))); [..|refine (Forall_nil _)].
  all: try (left; cbn [rt_name]; solve [unfold unchecked_routes; cbn; tauto]).
  all: right; cbn [rt_handler]; try (lazymatch goal with |- preserves _ (?h _) => unfold h end).
  all: try solve [handler_safe].
  all: handler_safe; cbv zeta.
  all: try solve [preserve].
  all: unfold fetch_orders, AllegroIntegration.get_order, get_checkout_form, AllegroIntegration.get_order_invoices, client_get_order_invoices,
    AllegroIntegration.search_products, search_offers, AllegroIntegration.get_product, AllegroIntegration.get_offer.
  all: try solve [handler_safe; preserve].
  apply preserves_bind; [|auto with effects]. apply update_status_safe. by eapply validated_safe.
Qed.

(** C4: Whatever a request holds, the paths it makes the connector ask of Allegro are parts between slashes, each of
    identifier characters, at least one, perhaps followed by one line feed, which the pattern's [$] lets through: so
    there is no query, escape, dot, host or empty part.  Left out are the three routes that put other texts into a path. *)
Theorem allegro_paths_safe req :
  name_part (rq_uuid req) = true ->
  (forall r, List.find (answers (rq_method req) (rq_path req)) allegro_routes = Some r -> ~ In (rt_name r) unchecked_routes) ->
  preserves safe_sent (respond allegro_routes req).
Proof.
  intros Hu Hr. unfold respond. destruct (List.find _ allegro_routes) as [r|] eqn:E; [|auto with effects].
  apply preserves_bind; [|auto with effects]. apply List.find_some in E as [Hin _].
  pose proof (proj1 (Forall_forall _ _) (handlers_safe (with_params r req) Hu) r Hin) as [H1|H1]; [|done].
  by destruct (Hr r eq_refl).
Qed.
End allegro.

(** ** Examples *)

Definition demo_api (h : list exchange) (o : outgoing) : res http_answer :=
  Ok (Answer 200 None (Ok (PDict [("id", PStr "i1")])) "").
Definition demo_world : World :=
  set_tokens [("shop", MkToken "a" "r" 1 "Bearer")] [("shop", 2000000%Z)] (set_accounts [("shop", demo_account)] new_world).
Definition demo_table : list (route World) :=
  allegro_routes demo_api (fun _ _ => 1%Z) demo_isoformat "" 3 (fun t => Some t) (mret (true, PStr "healthy")).
Definition demo_request (method path : string) (query : list (string * string)) (body : option pyval) : request :=
  MkRequest method path (("account_name", "shop") :: query) [] body None "c0ffee" [].
(** The methods and paths of the requests sent, oldest first. *)
Definition sent_paths (req : request) : list (string * string) :=
  omap (fun e => match e with Exchanged (ApiRequest _ method path _ _ _ _ _ _) _ => Some (method, path) | _ => None end)
    (rev (sent (respond demo_table req demo_world).2)).

(** The request for the order events asks for the order called events. *)
Example order_events_unreachable :
  sent_paths (demo_request "GET" "/orders/events" [("limit", "5")] None) = [("GET", "order/checkout-forms/events")].
Proof. by vm_compute. Qed.
Example tracking_is_added :
  sent_paths (demo_request "POST" "/orders/o1/tracking" []
                (Some (PDict [("carrier_id", PStr "DPD"); ("tracking_number", PStr "1")])))
  = [("POST", "order/checkout-forms/o1/shipments")].
Proof. by vm_compute. Qed.
(** The identifier of a stock item reaches the path as it is. *)
Example stock_identifier_unchecked :
  sent_paths (demo_request "POST" "/stock/sync" []
                (Some (PDict [("items", PList [PDict [("sku", PStr "../offers/7?x="); ("quantity", PInt 1)]])])))
  = [("PUT", "sale/offer-quantity-change-commands/../offers/7?x=")].
Proof. by vm_compute. Qed.
(** An identifier may end in one line feed. *)
Example line_feed_accepted :
  validate_path_id ("o1" ++ str1 "010") "order_id" = Ok ("o1" ++ str1 "010")
  /\ safe_part ("o1" ++ str1 "010") = true /\ safe_part ("o1" ++ str1 "010" ++ str1 "010") = false /\ safe_part ".." = false.
Proof. by vm_compute. Qed.

Definition demo_route : route World := nth 18 demo_table (Route "" "" "" 200 (fun _ => mret PNone)).
Lemma allegro_reachable_witness :
  exists path, select (rt_method demo_route) path demo_table = Some (List.length (firstn 18 demo_table)).
Proof.
  refine (proj2 (allegro_reachable demo_api (fun _ _ => 1%Z) demo_isoformat "" 3 (fun t => Some t) (mret (true, PStr "healthy"))
    (firstn 18 demo_table) demo_route (skipn 19 demo_table) _) _).
  - exact (eq_sym (firstn_skipn_middle 18 demo_table eq_refl)).
  - vm_compute. intuition discriminate.
Defined.

Lemma allegro_paths_safe_witness :
  safe_sent (respond demo_table (demo_request "GET" "/orders/o1/tracking" [] None) demo_world).2.
Proof.
  refine (allegro_paths_safe demo_api (fun _ _ => 1%Z) demo_isoformat "" 3 (fun t => Some t) (mret (true, PStr "healthy"))
    _ (demo_request "GET" "/orders/o1/tracking" [] None) _ _ demo_world _).
  - by intros w.
  - reflexivity.
  - intros r E. vm_compute in E. injection E as <-. vm_compute. intuition discriminate.
  - apply Forall_nil.
Defined.
