(* ===== verification/GatewayRoutes.v ===== *)
(** The routes of the platform ([platform/api/gateway.py]) and who may call them: the table of
    the endpoints in the order they are registered, each with the check of the caller its
    declaration or its first statement makes.

    What the endpoints do is a parameter here; the other files model it.  So is what FastAPI
    checks of the declared parameters of an endpoint, after the dependencies that identify the
    caller.  The middlewares, and the routes of the documentation FastAPI adds, are left out. *)

From S2P Require Import Prelude PyText PyValue Effects Vault Webhooks Auth Tenants HttpRoutes.

Local Open Scope string_scope.

(** ** The table *)

(** Who is asked for: nobody, a tenant by its key or also by a credential token, a connector by
    the internal secret, the administrator by a dependency or inside the endpoint. *)
Inductive guard := Public | WithKey | WithKeyOrToken | Internal | Admin | AdminInside.
#[export] Instance guard_eq_dec : EqDecision guard.
Proof. solve_decision. Defined.

Definition gateway_table : list (guard * string * string * string) :=
  [(Public, "GET", "/metrics", "metrics_endpoint");
   (Public, "GET", "/health", "health_check");
   (Public, "GET", "/readiness", "readiness_check");
   (WithKey, "GET", "/api/v1/me", "get_current_user");
   (Public, "GET", "/api/v1/connectors", "list_connectors");
   (Public, "GET", "/api/v1/connectors/{name}/openapi", "get_connector_openapi");
   (WithKey, "GET", "/api/v1/connectors/{name}/schema/{action:path}", "get_connector_action_schema");
   (WithKey, "GET", "/api/v1/connectors/{name}/onpremise-agent", "download_onpremise_agent");
   (Public, "GET", "/api/v1/connectors/health", "get_all_connector_health");
   (Public, "GET", "/api/v1/connectors/{name}/health", "get_connector_health");
   (WithKey, "GET", "/api/v1/oauth2/{connector}/authorize", "oauth2_authorize");
   (Public, "GET", "/api/v1/oauth2/callback", "oauth2_callback");
   (WithKey, "POST", "/api/v1/oauth2/{connector}/refresh", "oauth2_manual_refresh");
   (WithKey, "GET", "/api/v1/oauth2/{connector}/status", "oauth2_token_status");
   (WithKey, "DELETE", "/api/v1/oauth2/{connector}", "oauth2_revoke");
   (Public, "POST", "/api/v1/webhooks/{connector_name}/{event_type}", "receive_webhook");
   (WithKey, "POST", "/api/v1/webhooks/{webhook_id}/replay", "replay_webhook");
   (WithKey, "GET", "/api/v1/webhooks", "list_webhook_events");
   (WithKey, "GET", "/api/v1/audit-log", "list_audit_entries");
   (WithKey, "GET", "/api/v1/workflows/{workflow_id}/versions", "list_workflow_versions");
   (WithKey, "GET", "/api/v1/workflows/{workflow_id}/versions/{version}", "get_workflow_version_detail");
   (WithKey, "POST", "/api/v1/workflows/{workflow_id}/rollback", "rollback_workflow_version");
   (Public, "GET", "/api/v1/connectors/{category}/{name}", "get_connector");
   (AdminInside, "GET", "/api/v1/tenants", "list_tenants");
   (AdminInside, "POST", "/api/v1/tenants", "create_tenant");
   (AdminInside, "POST", "/api/v1/tenants/{tenant_id}/api-keys", "create_api_key");
   (WithKey, "POST", "/api/v1/connector-instances", "activate_connector");
   (WithKey, "GET", "/api/v1/connector-instances", "list_connector_instances");
   (WithKey, "DELETE", "/api/v1/connector-instances/{instance_id}", "deactivate_connector");
   (WithKey, "GET", "/api/v1/credentials", "list_credentials");
   (WithKey, "POST", "/api/v1/credentials", "store_credentials");
   (WithKey, "GET", "/api/v1/credentials/{connector_name}", "get_credentials");
   (WithKey, "GET", "/api/v1/credentials/{connector_name}/names", "list_credential_names");
   (WithKey, "DELETE", "/api/v1/credentials/{connector_name}", "delete_credentials");
   (WithKey, "POST", "/api/v1/credentials/{connector_name}/validate", "validate_credentials");
   (WithKey, "POST", "/api/v1/connectors/{connector_name}/generate-test-data", "connector_generate_test_data");
   (WithKey, "POST", "/api/v1/credentials/{connector_name}/token/regenerate", "regenerate_credential_token");
   (WithKey, "POST", "/api/v1/credentials/resolve-token", "resolve_credential_token");
   (WithKey, "POST", "/api/v1/flows", "create_flow");
   (WithKey, "GET", "/api/v1/flows", "list_flows");
   (WithKey, "DELETE", "/api/v1/flows/{flow_id}", "delete_flow");
   (WithKey, "PATCH", "/api/v1/flows/{flow_id}", "update_flow");
   (WithKey, "POST", "/api/v1/events", "trigger_event");
   (Internal, "POST", "/internal/events", "internal_trigger_event");
   (Internal, "GET", "/internal/connector-credentials/{connector_name}", "internal_get_connector_credentials");
   (Internal, "GET", "/internal/connector/{connector_name}/poller/status", "internal_connector_poller_status");
   (Internal, "POST", "/internal/connector/{connector_name}/poller/reset", "internal_connector_poller_reset");
   (Internal, "POST", "/internal/connector/{connector_name}/poller/poll-now", "internal_connector_poller_poll_now");
   (Internal, "GET", "/internal/connector/{connector_name}/poller/diagnose", "internal_connector_poller_diagnose");
   (WithKey, "GET", "/api/v1/flow-executions", "list_flow_executions");
   (WithKey, "GET", "/api/v1/flow-executions/{execution_id}", "get_flow_execution_detail");
   (WithKey, "POST", "/api/v1/workflows/ai-generate", "ai_generate_workflow");
   (WithKey, "POST", "/api/v1/ai/field-mappings/suggest", "ai_suggest_field_mappings");
   (WithKey, "POST", "/api/v1/ai/explain-error", "ai_explain_error");
   (WithKey, "POST", "/api/v1/workflows", "create_workflow");
   (WithKey, "GET", "/api/v1/workflows", "list_workflows");
   (WithKey, "GET", "/api/v1/workflows/{workflow_id}", "get_workflow");
   (WithKey, "PATCH", "/api/v1/workflows/{workflow_id}", "update_workflow");
   (WithKey, "DELETE", "/api/v1/workflows/{workflow_id}", "delete_workflow");
   (WithKey, "POST", "/api/v1/workflows/{workflow_id}/test", "test_workflow");
   (WithKey, "POST", "/api/v1/workflows/{workflow_id}/execute", "execute_workflow");
   (WithKeyOrToken, "GET", "/api/v1/workflows/{workflow_id}/call", "call_workflow_get");
   (WithKey, "POST", "/api/v1/workflows/{workflow_id}/toggle", "toggle_workflow");
   (WithKey, "GET", "/api/v1/workflows/{workflow_id}/sync-stats", "get_sync_stats");
   (WithKey, "GET", "/api/v1/workflows/{workflow_id}/sync-failed", "get_sync_failed");
   (WithKey, "POST", "/api/v1/workflows/{workflow_id}/sync-retry", "retry_failed_syncs");
   (WithKey, "POST", "/api/v1/workflows/{workflow_id}/sync-clear", "clear_sync_ledger");
   (WithKey, "GET", "/api/v1/workflow-executions", "list_workflow_executions");
   (WithKey, "GET", "/api/v1/workflow-executions/{execution_id}", "get_workflow_execution_detail");
   (WithKey, "POST", "/api/v1/workflows/{workflow_id}/executions/{execution_id}/rerun", "rerun_workflow_execution");
   (WithKey, "GET", "/api/v1/workflows/{workflow_id}/executions/diff", "diff_workflow_executions");
   (WithKey, "GET", "/api/v1/workflow-schedules", "list_workflow_schedules");
   (Admin, "POST", "/api/verification/run", "verification_run_all");
   (Admin, "POST", "/api/verification/run/{connector_name}", "verification_run_single");
   (Admin, "GET", "/api/verification/scheduler", "verification_scheduler_status");
   (Admin, "PUT", "/api/verification/scheduler", "verification_scheduler_update");
   (Admin, "GET", "/api/verification/runs", "verification_list_runs");
   (Admin, "GET", "/api/verification/runs/{run_id}", "verification_get_run");
   (Admin, "GET", "/api/verification/errors", "verification_list_errors");
   (Admin, "GET", "/api/verification/reports/latest", "verification_latest_reports");
   (Public, "POST", "/api/v1/demo/register", "demo_register");
   (Public, "POST", "/api/v1/demo/validate-key", "demo_validate_key")].

(** What anyone may call. *)
Definition public_endpoints : list string :=
  ["metrics_endpoint"; "health_check"; "readiness_check"; "list_connectors"; "get_connector_openapi";
   "get_all_connector_health"; "get_connector_health"; "oauth2_callback"; "receive_webhook";
   "get_connector"; "demo_register"; "demo_validate_key"].

Section gateway.
Variable hash_api_key : string -> string.
Variable enforced : bool.
Variables admin_secret internal_secret : string.
Context {World : Type}.
(** What authentication reads of the database. *)
Variable db : World -> auth_state.
(** FastAPI's checks of the parameters of an endpoint, and the endpoints themselves. *)
Variable validated : string -> request -> res unit.
Variable endpoint : string -> option Tenant -> request -> EM World pyval.

(** ** The checks *)

Definition header (name : string) (req : request) : option string := dget name (rq_headers req).
Definition identify (m : EM auth_state Tenant) : EM World (option Tenant) := fun w => (Some <$> (m (db w)).1, w).

(** [get_current_tenant] and [get_current_tenant_or_token]. *)
Definition get_current_tenant (req : request) : EM World (option Tenant) :=
  identify (resolve_tenant hash_api_key (header "x-api-key" req)).
Definition current_tenant_or_token (req : request) : EM World (option Tenant) :=
  identify (get_current_tenant_or_token hash_api_key enforced (header "x-api-key" req) (header "x-credential-token" req)
              (dget "token" (rq_query req))).

Definition guarded (g : guard) (name : string) (req : request) : EM World pyval :=
  match g with
  | Public => _ ← lift (validated name req); endpoint name None req
  | WithKey => t ← get_current_tenant req; _ ← lift (validated name req); endpoint name t req
  | WithKeyOrToken => t ← current_tenant_or_token req; _ ← lift (validated name req); endpoint name t req
  | Internal =>
      _ ← require_internal_secret internal_secret (header "x-internal-secret" req);
      _ ← lift (validated name req); endpoint name None req
  | Admin =>
      _ ← require_admin_secret admin_secret (header "x-admin-secret" req);
      _ ← lift (validated name req); endpoint name None req
  | AdminInside =>
      _ ← lift (validated name req);
      _ ← require_admin_secret admin_secret (header "x-admin-secret" req); endpoint name None req
  end.

Definition route_of (row : guard * string * string * string) : route World :=
  let '(g, method, path, name) := row in Route method path name 200 (guarded g name).
Definition gateway_routes : list (route World) := map route_of gateway_table.

(** ** Which endpoints answer *)

Lemma gateway_plain :
  Forall (fun e => plain_template (template_of (rt_path e)) = true) gateway_routes /\ NoDup (map rt_name gateway_routes).
Proof.
  split; [|by_deciding].
  apply Forall_forall. apply (proj1 (forallb_forall (fun e => plain_template (template_of (rt_path e))) gateway_routes)).
  by vm_compute.
Qed.

(** Every endpoint of the platform answers some request, except the replay of webhooks: the endpoint that receives
    webhooks, registered before it, answers every request for a replay. *)
Theorem gateway_reachable before r after :
  gateway_routes = (before ++ r :: after)%list ->
  (exists path, select (rt_method r) path gateway_routes = Some (List.length before)) <-> rt_name r <> "replay_webhook".
Proof.
  intros E. destruct gateway_plain as [Hplain Hnd].
  assert (Hs : shadowed [] gateway_routes = ["replay_webhook"]) by by vm_compute.
  transitivity (~ In (rt_name r) ["replay_webhook"]); [|cbn; intuition congruence].
  rewrite <-Hs, E in *. by apply reachable_names.
Qed.

(** ** Who may call them *)

(** The request shows no active key or token of a tenant and no secret. *)
Definition unauthenticated (req : request) (s : auth_state) : Prop :=
  (forall key k, header "x-api-key" req = Some key -> k ∈ as_keys s -> ak_hash k = hash_api_key key -> ak_active k = false)
  /\ (forall token t, py_strip (default "" (header "x-credential-token" req)) = token
                      \/ py_strip (default "" (dget "token" (rq_query req))) = token ->
        t ∈ as_tokens s -> ct_token t = token -> ct_active t = false)
  /\ (internal_secret <> "" -> header "x-internal-secret" req <> Some internal_secret)
  /\ (admin_secret <> "" -> header "x-admin-secret" req <> Some admin_secret).

(** An error of the checks: not authenticated, forbidden, a secret that is not ASCII, or FastAPI's
    complaint about a parameter. *)
Definition denied (name : string) (req : request) (e : pyexn) : Prop :=
  (exists detail, e = http_exception 401 detail \/ e = http_exception 403 detail \/ e = TypeError detail)
  \/ validated name req = Raise e.

Lemma none_found {A} (p : A -> bool) l : (forall x, In x l -> p x = false) -> List.filter p l = [].
Proof. induction l as [|x l IH]; cbn; [done|]. intros Hp. rewrite (Hp x) by auto. apply IH. auto. Qed.

Lemma key_refused key s :
  (forall k, key = Some (k : string) -> forall r, r ∈ as_keys s -> ak_hash r = hash_api_key k -> ak_active r = false) ->
  exists detail, (resolve_tenant hash_api_key key s).1 = Raise (http_exception 401 detail).
Proof.
  intros Hk. unfold resolve_tenant. destruct key as [[|c key]|]; [by eexists| |by eexists].
  unfold get_st, lift, mbind, EM_bind.
  rewrite none_found; [by eexists|]. intros r Hr%list_elem_of_In.
  destruct (String.eqb_spec (ak_hash r) (hash_api_key (String c key))) as [E|]; [|done]. cbn. by eapply Hk.
Qed.

Lemma token_refused token s :
  (forall r, r ∈ as_tokens s -> ct_token r = token -> ct_active r = false) ->
  exists detail, (resolve_tenant_by_token enforced token s).1 = Raise (http_exception 401 detail).
Proof.
  intros Ht. unfold resolve_tenant_by_token, get_st, lift, mbind, EM_bind, visible.
  rewrite none_found; [by eexists|]. intros r [Hr _]%filter_In.
  destruct (String.eqb_spec (ct_token r) token) as [E|]; [|done]. cbn. apply Ht; [by apply list_elem_of_In|done].
Qed.

Lemma secret_refused {A} (secret detail1 detail2 : string) provided (k : unit -> EM World A) w :
  (secret <> "" -> provided <> Some secret) ->
  exists e, (((if String.eqb secret "" then http_error 403 detail1
     else same ← Effects.lift (compare_digest (default "" provided) secret);
          if (same : bool) then mret tt else http_error 403 detail2) : EM World unit) ≫= k) w = (Raise e, w)
    /\ exists detail, e = http_exception 403 detail \/ e = TypeError detail.
Proof.
  intros Hs. unfold mbind, EM_bind, Effects.lift. destruct (String.eqb_spec secret "") as [|Hne]; [by eauto 6|].
  destruct (compare_digest (default "" provided) secret) as [[]|e] eqn:E; [|by eauto 6|].
  - apply compare_digest_equal in E. destruct (Hs Hne). destruct provided; cbn in E; [by subst|by subst].
  - unfold compare_digest in E. destruct (_ && _); [done|]. injection E as <-. eauto 6.
Qed.

Lemma identify_refused {A} (m : EM auth_state Tenant) (k : option Tenant -> EM World A) w detail :
  (m (db w)).1 = Raise (http_exception 401 detail) -> (identify m ≫= k) w = (Raise (http_exception 401 detail), w).
Proof. intros E. unfold identify, mbind, EM_bind. by rewrite E. Qed.

Lemma guard_denies g name req w :
  g <> Public -> unauthenticated req (db w) -> exists e, guarded g name req w = (Raise e, w) /\ denied name req e.
Proof.
  intros Hg (Hkey & Htok & Hint & Hadm). unfold denied.
  assert (Hk : exists detail, (resolve_tenant hash_api_key (header "x-api-key" req) (db w)).1 = Raise (http_exception 401 detail)).
  { apply key_refused. intros k E r. by apply (Hkey k r E). }
  destruct g; [done|..]; cbn [guarded].
  - destruct Hk as (d & Hk). unfold get_current_tenant. rewrite (identify_refused _ _ _ _ Hk). eauto 6.
  - unfold current_tenant_or_token. assert (Hm : exists detail, (get_current_tenant_or_token hash_api_key enforced (header "x-api-key" req)
      (header "x-credential-token" req) (dget "token" (rq_query req)) (db w)).1 = Raise (http_exception 401 detail)).
    { unfold get_current_tenant_or_token. destruct (header "x-api-key" req) as [[|c k]|]; [|done|].
      all: destruct (String.eqb _ ""); [by eexists|]; apply token_refused; intros r Hr Er; eapply Htok; [|done..];
        destruct (String.eqb (py_strip _) ""); auto. }
    destruct Hm as (d & Hm). rewrite (identify_refused _ _ _ _ Hm). eauto 6.
  - unfold require_internal_secret. edestruct (secret_refused (A := pyval)) as (e & He & d & Hd); [exact Hint|].
    exists e. split; [exact He|]. destruct Hd; eauto 6.
  - unfold require_admin_secret. edestruct (secret_refused (A := pyval)) as (e & He & d & Hd); [exact Hadm|].
    exists e. split; [exact He|]. destruct Hd; eauto 6.
  - destruct (validated name req) as [[]|e] eqn:Ev; [|by exists e; eauto].
    unfold require_admin_secret. edestruct (secret_refused (A := pyval)) as (e & He & d & Hd); [exact Hadm|].
    exists e. split; [exact He|]. destruct Hd; eauto 6.
Qed.

(** A check of the caller changes nothing. *)
Lemma guarded_preserves (P : World -> Prop) g name req :
  (forall t, preserves P (endpoint name t req)) -> preserves P (guarded g name req).
Proof.
  intros Hp. assert (Hid : forall m, preserves P (identify m)) by (intros m w Hw; exact Hw).
  destruct g; cbn [guarded]; unfold get_current_tenant, current_tenant_or_token, require_internal_secret, require_admin_secret;
    repeat first [apply Hp | progress preserve].
Qed.

(** C1: A request that shows no active key or token and no secret runs no endpoint but the public ones: it is answered with
    an error and changes nothing. *)
Theorem endpoints_are_guarded req w :
  unauthenticated req (db w) ->
  (exists e, respond gateway_routes req w = (Raise e, w)) \/
  (exists r, List.find (answers (rq_method req) (rq_path req)) gateway_routes = Some r /\ In (rt_name r) public_endpoints).
Proof.
  intros Hu. unfold respond. destruct (List.find _ gateway_routes) as [r|] eqn:E.
  - apply List.find_some in E as [Hin _]. apply in_map_iff in Hin as (row & <- & Hrow).
    destruct row as [[[g method] path] name]. destruct (decide (g = Public)) as [->|Hg].
    + right. eexists. split; [done|]. cbn [route_of rt_name].
      assert (Hp : forallb (fun row => match row with (Public, _, _, n) => existsb (String.eqb n) public_endpoints | _ => true end) gateway_table = true)
        by by vm_compute.
      pose proof (proj1 (forallb_forall _ _) Hp _ Hrow) as Hn. cbv beta iota in Hn. apply existsb_exists in Hn as (x & Hx & ->%String.eqb_eq). done.
    + left. destruct (guard_denies g name (with_params (route_of (g, method, path, name)) req) w Hg Hu) as (e & He & _).
      exists e. unfold mbind, EM_bind. change (rt_handler (route_of (g, method, path, name))) with (guarded g name). by rewrite He.
  - left. destruct (existsb _ _); by eexists.
Qed.
End gateway.

(** ** Examples *)

(** Endpoints that record their names. *)
Definition demo_auth : auth_state :=
  AuthState new_transaction [MkTenant "t1" "acme" true] [MkApiKey "h:pk" "t1" true] [].
Definition demo_endpoint (name : string) (t : option Tenant) (req : request) : EM (list string) pyval :=
  _ ← modify (cons name); mret (PStr name).
Definition demo_gateway : list (route (list string)) :=
  gateway_routes (fun k => "h:" ++ k) true "admin" "internal" (fun _ => demo_auth) (fun _ _ => Ok tt) demo_endpoint.
Definition demo_call (method path : string) (headers : list (string * string)) : res (Z * pyval) * list string :=
  respond demo_gateway (MkRequest method path [] headers None None "" []) [].

(** The replay of a webhook is taken for a webhook, of a connector named by the identifier. *)
Example replay_is_ingested :
  (demo_call "POST" "/api/v1/webhooks/7d0f/replay" [("x-api-key", "pk")]).2 = ["receive_webhook"].
Proof. by vm_compute. Qed.
Example rest_of_the_path :
  (demo_call "GET" "/api/v1/connectors/dhl/schema/shipment/create" [("x-api-key", "pk")]).2 = ["get_connector_action_schema"].
Proof. by vm_compute. Qed.

Definition demo_gateway_route : route (list string) :=
  nth 18 demo_gateway (Route "" "" "" 200 (fun _ => mret PNone)).
Lemma gateway_reachable_witness :
  exists path, select (rt_method demo_gateway_route) path demo_gateway = Some (List.length (firstn 18 demo_gateway)).
Proof.
  refine (proj2 (gateway_reachable (fun k => "h:" ++ k) true "admin" "internal" (fun _ => demo_auth) (fun _ _ => Ok tt) demo_endpoint
    (firstn 18 demo_gateway) demo_gateway_route (skipn 19 demo_gateway) _) _).
  - exact (eq_sym (firstn_skipn_middle 18 demo_gateway eq_refl)).
  - vm_compute. discriminate.
Defined.

Definition demo_stranger : request := MkRequest "GET" "/api/v1/workflows" [] [("x-api-key", "guess")] None None "" [].
Lemma endpoints_are_guarded_witness :
  (exists e, respond demo_gateway demo_stranger [] = (Raise e, [])) \/
  (exists r, List.find (answers (rq_method demo_stranger) (rq_path demo_stranger)) demo_gateway = Some r
             /\ In (rt_name r) public_endpoints).
Proof.
  refine (endpoints_are_guarded (fun k => "h:" ++ k) true "admin" "internal" (fun _ => demo_auth) (fun _ _ => Ok tt) demo_endpoint
    demo_stranger [] _).
  split_and!.
  - intros key k [= <-] Hk. apply list_elem_of_singleton in Hk as ->. done.
  - intros token t _ Ht. by apply elem_of_nil in Ht.
  - done.
  - done.
Defined.
