(* ===== verification/WebhooksApi.v ===== *)
(** The webhook endpoints of the platform ([platform/api/gateway.py]: [receive_webhook],
    [replay_webhook], [list_webhook_events]) behind the routes of [GatewayRoutes], with the
    ingestion of [Webhooks] and the background tasks that process what was accepted.

    The platform takes a request, runs a background task, waits or restarts; tasks run in any
    order, and a restart loses those that have not run.  The other endpoints do not touch the
    webhooks and do nothing here. *)

From S2P Require Import Prelude PyText PyValue Effects Base64 Registry Vault Webhooks Auth Tenants HttpRoutes GatewayRoutes.

Local Open Scope string_scope.

(** The service and its tables, the tasks, the rows authentication reads and the instances. *)
Record webhook_api (store : Type) := MkWebhookApi {
  wa_service : WebhookState store;
  wa_tasks : list nat;
  wa_auth : auth_state;
  wa_instances : list instance_ref
}.
Arguments MkWebhookApi {store}. Arguments wa_service {store}. Arguments wa_tasks {store}.
Arguments wa_auth {store}. Arguments wa_instances {store}.

Section api.
Context `{Cipher} {store : Type} `{KeyValue store string}.
Variables (raw_key : string) (reg : registry).
Variable hmac_hex : string -> string -> string -> string.
Variable json_loads : string -> res pyval.
Variable process_event_fn : list WebhookEvent -> WebhookEvent -> res (Z * Z).
Variable hash_api_key : string -> string.
Variable enforced : bool.
Variables admin_secret internal_secret : string.
(** The identifiers and the times of receipt the database draws, and ISO 8601. *)
Variable event_uuid : nat -> string.
Variable received_at : nat -> pyval.
Variable isoformat : Z -> string.
Abbreviation W := (EM (webhook_api store)).

Definition set_service (s : WebhookState store) (w : webhook_api store) : webhook_api store :=
  MkWebhookApi s (wa_tasks w) (wa_auth w) (wa_instances w).
Definition set_tasks (tasks : list nat) (w : webhook_api store) : webhook_api store :=
  MkWebhookApi (wa_service w) tasks (wa_auth w) (wa_instances w).

(** A transaction of the service: an exception undoes what the database holds, not what Redis does. *)
Definition undone (before after : WebhookState store) : WebhookState store :=
  MkWebhookState (ws_vault before) (ws_events before) (ws_next before) (ws_redis after) (ws_now after) (ws_calls after).
Definition in_service {A} (m : EM (WebhookState store) A) : W A := within wa_service set_service (atomic undone m).

(** ** Receiving *)

Definition text_or_null (o : option string) : pyval := match o with Some s => PStr s | None => PNone end.
Definition ingest_answer (r : ingest_result) : pyval :=
  PDict match r with
        | Rejected reason => [("status", PStr "rejected"); ("reason", PStr reason)]
        | Duplicate x => [("status", PStr "duplicate"); ("external_id", PStr x)]
        | Accepted id x => [("status", PStr "accepted"); ("webhook_id", PStr (event_uuid id)); ("external_id", text_or_null x)]
        end.

(** [raw]: the bytes of the body. *)
Definition receive_webhook (raw : string) (req : request) : W pyval :=
  let connector := path_param "connector_name" req in
  let event := path_param "event_type" req in
  w ← get_st;
  caller ← lift (resolve_webhook_tenant hash_api_key (as_keys (wa_auth w)) (wa_instances w) connector (rq_headers req));
  match caller with
  | None => http_error 400 "Cannot determine tenant for this webhook"
  | Some (tenant_id, is_authenticated) =>
      result ← in_service (ingest_webhook raw_key reg hmac_hex json_loads connector event raw (rq_headers req)
                             tenant_id (negb is_authenticated));
      _ ← (match result with
           | Accepted id _ => modify (fun w => set_tasks (wa_tasks w ++ [id])%list w)
           | _ => mret tt
           end);
      mret (ingest_answer result)
  end.

(** ** Replaying and listing *)

(** The transaction of a tenant sees, of the events, those of the tenant. *)
Definition visible_events (t : option Tenant) (events : list WebhookEvent) : list WebhookEvent :=
  visible enforced we_tenant (Session (tn_id <$> t) false) events.

Definition replay_answer (r : replay_result) : pyval :=
  PDict match r with
        | NotFound => [("status", PStr "not_found")]
        | Replayed (flows, workflows) =>
            [("status", PStr "replayed");
             ("result", PDict [("flows_triggered", PInt flows); ("workflows_triggered", PInt workflows)])]
        | ReplayFailed error => [("status", PStr "replay_failed"); ("error", PStr error)]
        end.
Definition replay_endpoint (t : option Tenant) (req : request) : W pyval :=
  match parse_uuid (path_param "webhook_id" req) with
  | None => lift unprocessable
  | Some webhook_id =>
      w ← get_st;
      match List.find (fun e => String.eqb (event_uuid (we_id e)) webhook_id) (visible_events t (ws_events (wa_service w))) with
      | None => mret (replay_answer NotFound)
      | Some e => r ← in_service (replay_webhook process_event_fn (we_id e)); mret (replay_answer r)
      end
  end.

Definition event_row (e : WebhookEvent) : pyval :=
  PDict [("id", PStr (event_uuid (we_id e))); ("connector_name", PStr (we_connector e)); ("event_type", PStr (we_type e));
         ("external_id", text_or_null (we_external_id e));
         ("signature_valid", match we_signature_valid e with Some b => PBool b | None => PNone end);
         ("processing_status", PStr (we_status e)); ("error", text_or_null (we_error e));
         ("retry_count", PInt (we_retry_count e)); ("received_at", received_at (we_id e));
         ("processed_at", text_or_null (isoformat <$> we_processed_at e))].
(** A filter that is given and not empty. *)
Definition given_filter (name : string) (field : WebhookEvent -> string) (req : request) (e : WebhookEvent) : bool :=
  match query_value name req with
  | Some (String _ _ as v) => String.eqb (field e) v
  | _ => true
  end.
(** The newest first; the database refuses a negative limit or offset. *)
Definition list_webhook_events (t : option Tenant) (req : request) : W pyval :=
  limit ← lift (int_param "limit" 50 None (Some 200%Z) req);
  offset ← lift (int_param "offset" 0 None None req);
  if ((limit <? 0) || (offset <? 0))%Z then raise (OtherError "DBAPIError: LIMIT or OFFSET must not be negative")
  else
    w ← get_st;
    let mine := List.filter (fun e => String.eqb (we_tenant e) (from_option tn_id "" t)
                  && given_filter "connector_name" we_connector req e && given_filter "event_type" we_type req e
                  && given_filter "status" we_status req e) (visible_events t (ws_events (wa_service w))) in
    mret (PList (map event_row (take (Z.to_nat limit) (drop (Z.to_nat offset) (rev mine))))).

(** ** The platform *)

Definition webhook_endpoint (raw : string) (name : string) (t : option Tenant) (req : request) : W pyval :=
  if String.eqb name "receive_webhook" then receive_webhook raw req
  else if String.eqb name "replay_webhook" then replay_endpoint t req
  else if String.eqb name "list_webhook_events" then list_webhook_events t req
  else mret PNone.
Definition webhook_routes (raw : string) : list (route (webhook_api store)) :=
  gateway_routes hash_api_key enforced admin_secret internal_secret wa_auth (fun _ _ => Ok tt) (webhook_endpoint raw).

(** A background task: [process_webhook_async], in a session of its own. *)
Definition run_task (n : nat) : W unit := fun w =>
  match wa_tasks w !! n with
  | None => (Ok tt, w)
  | Some id =>
      within wa_service set_service (process_webhook_async process_event_fn id)
        (set_tasks (base.delete n (wa_tasks w)) w)
  end.

Inductive step := Request (req : request) (raw : string) | RunTask (n : nat) | Wait (seconds : Z) | Restart.
Definition later (seconds : Z) (s : WebhookState store) : WebhookState store :=
  MkWebhookState (ws_vault s) (ws_events s) (ws_next s) (ws_redis s) (ws_now s + Z.max 0 seconds) (ws_calls s).
Definition perform (w : webhook_api store) (s : step) : webhook_api store :=
  match s with
  | Request req raw => (respond (webhook_routes raw) req w).2
  | RunTask n => (run_task n w).2
  | Wait seconds => set_service (later seconds (wa_service w)) w
  | Restart => set_tasks [] w
  end.
Definition perform_all (steps : list step) (w : webhook_api store) : webhook_api store := List.fold_left perform steps w.

(** ** Facts *)

(** What an event may have become: an event is processed once, and no failure is retried. *)
Definition outcome (e : WebhookEvent) : Prop :=
  (we_status e, we_retry_count e) ∈ [("received", 0%Z); ("processed", 0%Z); ("failed", 1%Z)].

Record consistent (tasks : list nat) (s : WebhookState store) : Prop := {
  co_ids : NoDup (map we_id (ws_events s));
  co_old : forall e, e ∈ ws_events s -> (we_id e < ws_next s)%nat /\ outcome e;
  co_tasks : NoDup tasks;
  co_pending : forall id, id ∈ tasks -> exists e, e ∈ ws_events s /\ we_id e = id /\ we_status e = "received";
  co_calls : NoDup (map we_id (ws_calls s));
  co_called : forall c, c ∈ ws_calls s ->
    exists e, e ∈ ws_events s /\ we_id e = we_id c /\ we_status e <> "received"
}.
Definition sound (w : webhook_api store) : Prop := consistent (wa_tasks w) (wa_service w).

(** The fields the invariant speaks of. *)
Definition same_events (s s' : WebhookState store) : Prop :=
  ws_events s' = ws_events s /\ ws_next s' = ws_next s /\ ws_calls s' = ws_calls s.
Lemma consistent_same tasks s s' : same_events s s' -> consistent tasks s -> consistent tasks s'.
Proof. intros (He & Hn & Hc) []. constructor; rewrite ?He, ?Hn, ?Hc; done. Qed.

(** What an accepted webhook adds. *)
Definition received_as (id : nat) (s s' : WebhookState store) : Prop :=
  exists e, we_id e = id /\ we_status e = "received" /\ we_retry_count e = 0%Z /\ id = ws_next s
    /\ ws_events s' = (ws_events s ++ [e])%list /\ ws_next s' = S (ws_next s) /\ ws_calls s' = ws_calls s.

Lemma check_signature_keeps s0 connector event body headers tenant req :
  preserves (same_events s0) (check_signature raw_key reg hmac_hex connector event body headers tenant req).
Proof.
  unfold check_signature, verify. destruct (get_webhook_config _ _ _); [|destruct req; apply preserves_ret].
  apply preserves_bind; [|intros [[]|]; apply preserves_ret].
  destruct (negb _); [apply preserves_ret|]. destruct (get_header _ _); [|apply preserves_ret].
  apply preserves_bind; [by apply (preserves_within _ _ _ (fun _ => True))|].
  intros [[]|]; [apply preserves_ret| |apply preserves_ret]. apply preserves_bind; [apply preserves_lift|].
  intros ?. apply preserves_ret.
Qed.

Lemma ingest_adds connector event body headers tenant req s :
  let '(r, s') := ingest_webhook raw_key reg hmac_hex json_loads connector event body headers tenant req s in
  match r with
  | Ok (Accepted id _) => received_as id s s'
  | _ => same_events s s'
  end.
Proof.
  unfold ingest_webhook. destruct (json_loads body) as [payload|]; [|done].
  unfold mbind at 1, EM_bind at 1.
  pose proof (check_signature_keeps s connector event body headers tenant req s) as Hk.
  destruct (check_signature _ _ _ _ _ _ _ _ _ s) as [[[sig|reason]|e] s1]; [..|by apply Hk|by apply Hk].
  destruct (Hk (conj eq_refl (conj eq_refl eq_refl))) as (He & Hn & Hc). cbn in He, Hn, Hc.
  unfold lift, mbind, EM_bind. destruct (extract_external_id headers payload) as [x|e]; [|done].
  assert (Hadd : forall r2, received_as (ws_next s1) s
    (MkWebhookState (ws_vault s1) (ws_events s1 ++ [MkWebhookEvent (ws_next s1) tenant connector event x payload headers sig "received" None 0 None])%list
       (S (ws_next s1)) r2 (ws_now s1) (ws_calls s1))).
  { intros r2. refine (ex_intro _ (MkWebhookEvent _ _ _ _ _ _ _ _ _ _ _ _) _). cbn. split_and!; [| | | |by rewrite He| |]; done || congruence. }
  destruct (given_id x) as [y|]; [|apply Hadd]. unfold check_dedup, gets. destruct (kv_exists _ _ _); [done|].
  apply (Hadd (kv_set (dedup_key connector event y) "1" (ws_now s1 + DEDUP_TTL) (ws_redis s1))).
Qed.

Lemma consistent_received tasks s s' id : received_as id s s' -> consistent tasks s -> consistent (tasks ++ [id]) s'.
Proof.
  intros (e & Hid & Hst & Hre & -> & He & Hn & Hc) [Hids Hold Htasks Hpend Hcalls Hcalled].
  assert (Hnew : forall x, x ∈ ws_events s -> we_id x <> ws_next s) by (intros x [Hx _]%Hold; lia).
  constructor; rewrite ?He, ?Hn, ?Hc.
  - rewrite map_app. apply list.NoDup_app. split_and!; [done| |by repeat constructor; apply not_elem_of_nil].
    intros i (x & -> & Hx)%list_elem_of_fmap Hi%list_elem_of_singleton. apply (Hnew x Hx). by rewrite Hi, Hid.
  - intros x [Hx| ->%list_elem_of_singleton]%elem_of_app; [apply Hold in Hx as [? ?]; split; [lia|done]|].
    split; [lia|]. unfold outcome. rewrite Hst, Hre. left.
  - apply list.NoDup_app. split_and!; [done| |by repeat constructor; apply not_elem_of_nil].
    intros i Hi ->%list_elem_of_singleton. destruct (Hpend _ Hi) as (x & Hx & Hxi & _). by apply (Hnew x).
  - intros i [Hi| ->%list_elem_of_singleton]%elem_of_app.
    + destruct (Hpend i Hi) as (x & Hx & Hxi & Hxs). exists x. split; [|done]. by apply elem_of_app; left.
    + exists e. split; [|done]. apply elem_of_app. right. by left.
  - done.
  - intros c (x & Hx & ?)%Hcalled. exists x. split; [|done]. by apply elem_of_app; left.
Qed.

Lemma receive_sound raw req : preserves sound (receive_webhook raw req).
Proof.
  unfold receive_webhook. apply preserves_bind; [apply preserves_get|]. intros w0.
  apply preserves_lift_ok. intros [[tenant authenticated]|] _; [|apply preserves_http_error].
  intros w Hw. unfold in_service, within, atomic, mbind, EM_bind.
  pose proof (ingest_adds (path_param "connector_name" req) (path_param "event_type" req) raw (rq_headers req) tenant
                (negb authenticated) (wa_service w)) as Hi.
  destruct (ingest_webhook _ _ _ _ _ _ _ _ _ _ _) as [[[reason|x|id x]|e] s']; cbn.
  1-2: by apply (consistent_same _ (wa_service w)).
  - by apply (consistent_received _ (wa_service w)).
  - apply (consistent_same _ (wa_service w)); [|done]. destruct Hi as (_ & _ & Hc). by repeat split.
Qed.

(** A task: its event is processed or failed, and was given to the engines. *)
Lemma process_once id e (s : WebhookState store) :
  List.find (has_key we_id id) (ws_events s) = Some e -> we_retry_count e = 0%Z ->
  exists f, (forall x, we_id (f x) = we_id x)
    /\ (forall x, we_retry_count x = 0%Z -> outcome (f x) /\ we_status (f x) <> "received")
    /\ let s' := (process_webhook_async process_event_fn id s).2 in
       ws_events s' = update_rows (has_key we_id id) f (ws_events s) /\ ws_next s' = ws_next s
       /\ ws_calls s' = (ws_calls s ++ [e])%list.
Proof.
  intros Hf Hz. unfold process_webhook_async, find_event, on_event, call_engines, try_catch, gets, modify, mbind, EM_bind, mret, EM_ret.
  rewrite Hf. cbn [ws_calls set_ws_events].
  assert (Hid : forall st x, has_key we_id id x = true -> has_key we_id id (set_we_status st x) = true) by done.
  destruct (process_event_fn (ws_calls s) e) as [r|exc]; cbn [ws_events ws_next ws_calls set_ws_events snd].
  - exists (fun x => set_we_processed (ws_now s) 0 (set_we_status "processing" x)). split; [done|]. split.
    + intros x Hx. split; [|done]. unfold outcome. cbn. rewrite Hx. right. left.
    + split; [|done]. by rewrite update_rows_compose by apply Hid.
  - exists (fun x => set_we_failed (failure_status e) (str_take 2000 (exn_str exc)) (set_we_status "processing" x)). split; [done|].
    assert (Hfs : failure_status e = "failed") by (unfold failure_status; by rewrite Hz). split.
    + intros x Hx. rewrite Hfs. split; [|done]. unfold outcome. cbn. rewrite Hx. right. right. left.
    + split; [|done]. by rewrite update_rows_compose by apply Hid.
Qed.

Lemma run_task_sound n : preserves sound (run_task n).
Proof.
  intros w Hw. unfold run_task. destruct (wa_tasks w !! n) as [id|] eqn:En; [|done].
  destruct Hw as [Hids Hold Htasks Hpend Hcalls Hcalled].
  pose proof (list_elem_of_lookup_2 _ _ _ En) as Hin. destruct (Hpend id Hin) as (e & He & <- & Hst).
  assert (Hz : we_retry_count e = 0%Z).
  { destruct (Hold e He) as [_ Ho]. unfold outcome in Ho. rewrite Hst in Ho.
    apply list_elem_of_In in Ho. destruct Ho as [Ho|[Ho|[Ho|[]]]]; by injection Ho. }
  assert (Hfind : List.find (has_key we_id (we_id e)) (ws_events (wa_service w)) = Some e) by (by apply find_key_unique).
  destruct (process_once _ _ _ Hfind Hz) as (f & Hfid & Hout & Hev & Hnext & Hcs).
  assert (Hperm : base.delete n (wa_tasks w) ++ [we_id e] ≡ₚ wa_tasks w).
  { symmetry. etrans; [exact (delete_Permutation _ _ _ En)|]. apply (Permutation_app_comm [_]). }
  assert (Hnd : NoDup (base.delete n (wa_tasks w) ++ [we_id e])) by (by rewrite Hperm).
  unfold within, sound. cbn [wa_service set_service set_tasks snd wa_tasks].
  destruct (process_webhook_async process_event_fn (we_id e) (wa_service w)) as [r s']. cbn [snd] in *.
  apply list.NoDup_app in Hnd as (Hnd & Hne & _).
  assert (Hrow : forall x, x ∈ ws_events s' -> exists y, y ∈ ws_events (wa_service w) /\ we_id x = we_id y
                  /\ (we_id y <> we_id e /\ x = y \/ y = e /\ x = f e)).
  { intros x Hx. rewrite Hev in Hx. apply list_elem_of_fmap in Hx as (y & -> & Hy). exists y. destruct (has_key _ _ y) eqn:Ey.
    - apply (has_key_true we_id) in Ey. rewrite Hfid. split_and!; [done..|]. right.
      pose proof (find_key_unique _ _ _ Hids Hy) as Hfy. rewrite Ey, Hfind in Hfy. by injection Hfy as ->.
    - split_and!; [done..|]. left. split; [|done]. intros E. by rewrite (proj2 (has_key_true _ _ _) E) in Ey. }
  assert (Hkept : forall y, y ∈ ws_events (wa_service w) -> exists x, x ∈ ws_events s' /\ we_id x = we_id y
                  /\ (we_id y <> we_id e /\ x = y \/ we_id y = we_id e /\ we_status x <> "received")).
  { intros y Hy. rewrite Hev. exists (if has_key we_id (we_id e) y then f y else y). split.
    - apply list_elem_of_fmap. by exists y.
    - destruct (has_key _ _ y) eqn:Ey.
      + apply (has_key_true we_id) in Ey. split; [apply Hfid|]. right. split; [done|]. apply Hout.
        pose proof (find_key_unique _ _ _ Hids Hy) as Hfy. rewrite Ey, Hfind in Hfy. by injection Hfy as ->.
      + split; [done|]. left. split; [|done]. intros E. by rewrite (proj2 (has_key_true _ _ _) E) in Ey. }
  change (consistent (base.delete n (wa_tasks w)) s'). constructor.
  - by rewrite Hev, map_key_update.
  - intros x (y & Hy & Hxy & Hor)%Hrow. rewrite Hxy, Hnext. split; [by apply Hold|].
    destruct Hor as [[_ ->]|[-> ->]]; [by apply Hold|by apply Hout].
  - done.
  - intros i Hi. destruct (Hpend i) as (y & Hy & Hyi & Hys).
    { rewrite <-Hperm. apply elem_of_app. by left. }
    destruct (Hkept y Hy) as (x & Hx & Hxy & [[_ ->]|[E _]]); [by exists y|].
    destruct (Hne i Hi). rewrite <-Hyi, E. left.
  - rewrite Hcs, map_app. apply list.NoDup_app. split_and!; [done| |apply NoDup_singleton].
    intros i (c & -> & Hc)%list_elem_of_fmap Hi%list_elem_of_singleton. destruct (Hcalled c Hc) as (y & Hy & Hyc & Hys).
    rewrite Hi in Hyc. pose proof (find_key_unique _ _ _ Hids Hy) as Hfy. rewrite Hyc, Hfind in Hfy. injection Hfy as ->. done.
  - intros c Hc. rewrite Hcs in Hc. apply elem_of_app in Hc as [Hc| ->%list_elem_of_singleton].
    + destruct (Hcalled c Hc) as (y & Hy & Hyc & Hys). destruct (Hkept y Hy) as (x & Hx & Hxy & Hor).
      exists x. rewrite Hxy. split_and!; [done..|]. destruct Hor as [[_ ->]|[_ ?]]; done.
    + destruct (Hkept e He) as (x & Hx & Hxy & [[? _]|[_ ?]]); [done|]. by exists x.
Qed.

(** The endpoint of the replay is never reached. *)
Lemma request_sound raw req : preserves sound (respond (webhook_routes raw) req).
Proof.
  unfold respond. destruct (List.find _ (webhook_routes raw)) as [r|] eqn:E; [|destruct (existsb _ _); apply preserves_http_error].
  assert (Hnd : NoDup (map rt_name (webhook_routes raw))) by apply gateway_plain.
  pose proof (answering_unshadowed _ _ _ _ Hnd E) as Hr. apply List.find_some in E as [Hin _].
  apply in_map_iff in Hin as ([[[g method] path] name] & <- & _).
  apply preserves_bind; [|intros v; apply preserves_ret].
  apply guarded_preserves. intros t. unfold webhook_endpoint.
  destruct (String.eqb name "receive_webhook"); [apply receive_sound|].
  destruct (String.eqb_spec name "replay_webhook") as [->|_].
  { destruct Hr. vm_compute. by left. }
  destruct (String.eqb name "list_webhook_events"); [|apply preserves_ret].
  unfold list_webhook_events. apply preserves_lift_ok. intros limit _. apply preserves_lift_ok. intros offset _.
  destruct (_ || _); [apply preserves_raise|]. apply preserves_bind; [apply preserves_get|]. intros w0. apply preserves_ret.
Qed.

Lemma perform_sound s w : sound w -> sound (perform w s).
Proof.
  destruct s as [req raw|n|seconds|]; cbn [perform].
  - apply request_sound.
  - apply run_task_sound.
  - by apply consistent_same.
  - intros [Hids Hold _ _ Hcalls Hcalled]. constructor; [done..|by constructor| |done|done].
    by intros id Hid%elem_of_nil.
Qed.
Lemma perform_all_sound steps w : sound w -> sound (perform_all steps w).
Proof. revert w. induction steps as [|s steps IH]; intros w Hw; [done|]. apply IH. by apply perform_sound. Qed.

Definition no_webhooks (w : webhook_api store) : Prop :=
  ws_events (wa_service w) = [] /\ ws_calls (wa_service w) = [] /\ wa_tasks w = [].
Lemma no_webhooks_sound w : no_webhooks w -> sound w.
Proof.
  intros (He & Hc & Ht). unfold sound. rewrite Ht. constructor; rewrite ?He, ?Hc; try by constructor.
  all: by intros x Hx%elem_of_nil.
Qed.

(** C2: Whatever is asked of the platform, whenever the tasks run and however often it restarts, every webhook is received,
    processed or failed: the engines get each at most once, a failure is final, and there are no dead letters. *)
Theorem webhooks_run_at_most_once steps w :
  no_webhooks w ->
  let s := wa_service (perform_all steps w) in
  Forall (fun e => we_status e <> "dead_letter" /\ (we_retry_count e <= 1)%Z) (ws_events s)
  /\ NoDup (map we_id (ws_calls s))
  /\ forall c, c ∈ ws_calls s ->
       exists e, e ∈ ws_events s /\ we_id e = we_id c /\ (we_status e = "processed" \/ we_status e = "failed").
Proof.
  intros Hw s. destruct (perform_all_sound steps w (no_webhooks_sound w Hw)) as [_ Hold _ _ Hcalls Hcalled].
  assert (Hout : forall e, e ∈ ws_events s -> outcome e) by (intros e He; by apply Hold). split_and!; [|done|].
  - apply Forall_forall. intros e He%list_elem_of_In. apply Hout in He. apply list_elem_of_In in He.
    destruct He as [[= <- <-]|[[= <- <-]|[[= <- <-]|[]]]]; done.
  - intros c Hc. destruct (Hcalled c Hc) as (e & He & Hid & Hst). exists e. split_and!; [done..|].
    apply Hout in He. apply list_elem_of_In in He. destruct He as [[= E _]|[[= <- _]|[[= <- _]|[]]]]; [congruence|by left|by right].
Qed.

(** Without a restart, what was accepted is processed: once the tasks have run none is left, and the event of each is
    processed or failed. *)
Theorem accepted_are_processed w :
  sound w ->
  let w' := perform_all (repeat (RunTask 0) (List.length (wa_tasks w))) w in
  wa_tasks w' = [] /\ forall id, id ∈ wa_tasks w -> exists e, e ∈ ws_events (wa_service w') /\ we_id e = id /\ we_status e <> "received".
Proof.
  intros Hw w'. assert (Hrun : forall tasks w, wa_tasks w = tasks -> sound w ->
    let w' := perform_all (repeat (RunTask 0) (List.length tasks)) w in
    wa_tasks w' = [] /\ (forall c, c ∈ ws_calls (wa_service w) -> c ∈ ws_calls (wa_service w'))
    /\ forall id, id ∈ tasks -> exists c, c ∈ ws_calls (wa_service w') /\ we_id c = id).
  { clear. induction tasks as [|id tasks IH]; intros w Ht Hw; cbn [List.length repeat perform_all List.fold_left].
    { cbn. rewrite Ht. split_and!; [done..|by intros id Hid%elem_of_nil]. }
    pose proof (run_task_sound 0 w Hw) as Hs. cbn [perform]. unfold run_task in *. rewrite Ht in *.
    destruct (co_pending _ _ Hw id) as (e & He & Hid & Hst); [rewrite Ht; left|].
    assert (Hf : List.find (has_key we_id id) (ws_events (wa_service w)) = Some e)
      by (rewrite <-Hid; apply find_key_unique; [apply Hw|done]).
    assert (Hz : we_retry_count e = 0%Z).
    { destruct (co_old _ _ Hw e He) as [_ Ho]. apply list_elem_of_In in Ho. rewrite Hst in Ho.
      destruct Ho as [Ho|[Ho|[Ho|[]]]]; by injection Ho. }
    destruct (process_once id e _ Hf Hz) as (f & _ & _ & _ & _ & Hc). cbn [lookup list_lookup] in *.
    unfold within in *. cbn [wa_service set_tasks] in *.
    destruct (process_webhook_async _ id (wa_service w)) as [x s']. cbn [snd] in *.
    destruct (IH (set_service s' (set_tasks (base.delete 0%nat (id :: tasks)) w)) eq_refl Hs) as (H1 & H2 & H3).
    split_and!; [exact H1| |].
    - intros c Hin. apply H2. cbn. rewrite Hc. apply elem_of_app. by left.
    - intros i [->|Hi]%elem_of_cons; [|by apply H3]. exists e. split; [|done]. apply H2. cbn. rewrite Hc.
      apply elem_of_app. right. left. }
  destruct (Hrun _ w eq_refl Hw) as (H1 & _ & H3). split; [exact H1|]. intros id Hid.
  destruct (H3 id Hid) as (c & Hc & <-). apply (co_called _ _ (perform_all_sound _ w Hw) c Hc).
Qed.
End api.

(** ** Examples *)

Definition demo_uuid (n : nat) : string := "00000000-0000-0000-0000-00000000000" ++ str_of_Z (Z.of_nat n).
Definition demo_api : webhook_api (gmap string (string * Z)) :=
  MkWebhookApi demo_webhooks [] (AuthState new_transaction [MkTenant "t1" "acme" true] [Webhooks.MkApiKey "h:pk" "t1" true] [])
    [InstanceRef "t1" "allegro" true].
Definition demo_perform (engines : list WebhookEvent -> WebhookEvent -> res (Z * Z)) : list step -> webhook_api _ -> webhook_api _ :=
  perform_all "key" signed_registry demo_hmac demo_loads engines (fun k => "h:" ++ k) true "admin" "internal" demo_uuid
    (fun _ => PNone) str_of_Z.
Definition post (path : string) (headers : list (string * string)) : step :=
  Request (MkRequest "POST" path [] headers None None "" []) "{}".
Definition order_bought : step := post "/api/v1/webhooks/allegro/order.bought" demo_headers.
(** The connector, the event, the status and the failures of every event. *)
Definition rows (w : webhook_api (gmap string (string * Z))) : list (string * string * string * Z) :=
  map (fun e => (we_connector e, we_type e, we_status e, we_retry_count e)) (ws_events (wa_service w)).

Example order_processed :
  rows (demo_perform (fun _ _ => Ok (1, 0)%Z) [order_bought; RunTask 0] demo_api) = [("allegro", "order.bought", "processed", 0%Z)].
Proof. by vm_compute. Qed.
(** The platform forgets an accepted webhook that a restart overtakes, and the sender's retry is a duplicate. *)
Example restart_loses_the_task :
  rows (demo_perform (fun _ _ => Ok (1, 0)%Z) [order_bought; Restart; order_bought; RunTask 0] demo_api)
  = [("allegro", "order.bought", "received", 0%Z)].
Proof. by vm_compute. Qed.
(** A tenant that asks for a replay gets a new event, of a connector named by the identifier. *)
Example replay_is_a_webhook :
  rows (demo_perform failing_engines
    [order_bought; RunTask 0; post ("/api/v1/webhooks/" ++ demo_uuid 0 ++ "/replay") [("x-api-key", "pk")]] demo_api)
  = [("allegro", "order.bought", "failed", 1%Z); (demo_uuid 0, "replay", "received", 0%Z)].
Proof. by vm_compute. Qed.

Lemma webhooks_run_at_most_once_witness :
  Forall (fun e => we_status e <> "dead_letter" /\ (we_retry_count e <= 1)%Z)
    (ws_events (wa_service (demo_perform failing_engines [order_bought; RunTask 0] demo_api))).
Proof.
  refine (proj1 (webhooks_run_at_most_once "key" signed_registry demo_hmac demo_loads failing_engines (fun k => "h:" ++ k) true
    "admin" "internal" demo_uuid (fun _ => PNone) str_of_Z [order_bought; RunTask 0] demo_api _)).
  by repeat split.
Defined.

Definition one_task : webhook_api (gmap string (string * Z)) := demo_perform failing_engines [order_bought] demo_api.
Lemma accepted_are_processed_witness :
  wa_tasks (demo_perform failing_engines (repeat (RunTask 0) (List.length (wa_tasks one_task))) one_task) = [].
Proof.
  refine (proj1 (accepted_are_processed "key" signed_registry demo_hmac demo_loads failing_engines (fun k => "h:" ++ k) true
    "admin" "internal" demo_uuid (fun _ => PNone) str_of_Z one_task _)).
  unfold one_task, demo_perform. apply perform_all_sound, no_webhooks_sound. by repeat split.
Defined.
