(* ===== verification/AiApi.v ===== *)
(** The endpoints that ask a language model ([platform/api/gateway.py]: [_call_gemini],
    [_call_opus], [_parse_ai_response], [_call_ai_json] and the three [ai_] endpoints).

    The providers are a parameter, whose answer may depend on the requests made before; the
    texts of the three prompts are parameters too.  JSON is read by [Json]. *)

From stdpp Require Import pretty.
From S2P Require Import Prelude PyText PyFloat PyValue Json Effects Auth HttpRoutes.

Local Open Scope string_scope.

(** ** [json.dumps(v, indent=2)] *)

Definition newline : string := str1 "010".
Fixpoint spaces (n : nat) : string := match n with O => "" | S n => "  " ++ spaces n end.
Fixpoint json_indent (level : nat) (v : pyval) : string :=
  let inner := newline ++ spaces (S level) in
  match v with
  | PList [] => "[]"
  | PDict [] => "{}"
  | PList l => "[" ++ inner ++ str_join ("," ++ inner) (map (json_indent (S level)) l) ++ newline ++ spaces level ++ "]"
  | PDict d =>
      "{" ++ inner ++ str_join ("," ++ inner) (map (fun kv => json_string true kv.1 ++ ": " ++ json_indent (S level) kv.2) d)
      ++ newline ++ spaces level ++ "}"
  | _ => json_text true false v
  end.
Definition dumps (v : pyval) : string := json_indent 0 v.

(** ** The answer of a model *)

Definition fence : string := "```".
(** [re.search] for the first fenced block, without the white space around its text: the mark
    [json] may follow the opening fence. *)
Definition fenced_block (raw : string) : option string :=
  match str_find fence raw with
  | None => None
  | Some i =>
      let rest := str_drop (i + 3) raw in
      let rest := if starts_with "json" rest then str_drop 4 rest else rest in
      match str_find fence rest with
      | None => None
      | Some j => Some (py_strip (str_take j rest))
      end
  end.
(** The block, else the text, else the text as a message. *)
Definition parse_ai_text (raw : string) : pyval :=
  let whole := match json_loads (py_strip raw) with
               | Ok v => v
               | Raise _ => PDict [("message", PStr (py_strip raw))]
               end in
  match fenced_block raw with
  | None => whole
  | Some block => match json_loads block with Ok v => v | Raise _ => whole end
  end.
Definition parse_ai_response (raw : pyval) : res pyval := s ← as_str raw; Ok (parse_ai_text s).

(** ** The providers *)

Record ai_call := AiCall {
  ai_url : string;
  ai_params : list (string * string);
  ai_headers : list (string * string);
  ai_body : pyval
}.
Record ai_answer := AiAnswer { aa_status : Z; aa_json : res pyval }.

Definition GEMINI_URL : string := "https://generativelanguage.googleapis.com/v1beta/models/gemini-2.5-flash:generateContent".
Definition CLAUDE_URL : string := "https://api.anthropic.com/v1/messages".

Section ai.
Variable provider : list ai_call -> ai_call -> res ai_answer.
Variables workflow_prompt mapping_prompt error_prompt : string.
(** The calls made so far. *)
Abbreviation AI := (EM (list ai_call)).

Definition ask (c : ai_call) : AI pyval := fun calls =>
  ((r ← provider calls c;
    if (200 <=? aa_status r)%Z && (aa_status r <? 300)%Z then aa_json r
    else Raise (OtherError ("HTTPStatusError: " ++ str_of_Z (aa_status r)))),
   (calls ++ [c])%list).

(** [v.get(k, default)], and the first element of a list. *)
Definition get_of (k : string) (default : pyval) (v : pyval) : res pyval := d ← as_dict v; Ok (dget_or k default d).
Definition first_of (v : pyval) : res pyval :=
  match v with
  | PList (x :: _) => Ok x
  | PStr (String c _) => Ok (PStr (str1 c))
  | PDict _ => Raise (KeyError "0")
  | _ => Raise (TypeError "not subscriptable")
  end.

Definition gemini_message (m : string * string) : pyval :=
  PDict [("role", PStr (if String.eqb m.1 "user" then "user" else "model")); ("parts", PList [PDict [("text", PStr m.2)]])].
(** The text of the first part of the first candidate. *)
Definition gemini_text (data : pyval) : res pyval :=
  let nothing := Ok (PStr ("{" ++ json_string true "message" ++ ": " ++ json_string true "No response from Gemini" ++ "}")) in
  candidates ← get_of "candidates" (PList []) data;
  if truthy candidates then
    c ← first_of candidates;
    content ← get_of "content" (PDict []) c;
    parts ← get_of "parts" (PList []) content;
    if truthy parts then p ← first_of parts; get_of "text" (PStr "") p else nothing
  else nothing.
Definition call_gemini (api_key : string) (messages : list (string * string)) (system_prompt : string) : AI pyval :=
  data ← ask (AiCall GEMINI_URL [("key", api_key)] []
    (PDict [("system_instruction", PDict [("parts", PList [PDict [("text", PStr system_prompt)]])]);
            ("contents", PList (map gemini_message messages));
            ("generationConfig", PDict [("temperature", PFloat (SpecFloat.S754_finite false 5404319552844595 (-54)));
                                        ("maxOutputTokens", PInt 8192)])]));
  lift (gemini_text data).

(** The text of the first block that is a text. *)
Fixpoint text_block (blocks : list pyval) : res pyval :=
  match blocks with
  | [] => Ok (PStr ("{" ++ json_string true "message" ++ ": " ++ json_string true "No response from Claude" ++ "}"))
  | b :: rest => d ← as_dict b;
                 if py_eqb (dget_or "type" PNone d) (PStr "text") then Ok (dget_or "text" (PStr "") d) else text_block rest
  end.
Definition call_opus (api_key : string) (messages : list (string * string)) (system_prompt : string) : AI pyval :=
  data ← ask (AiCall CLAUDE_URL []
    [("x-api-key", api_key); ("anthropic-version", "2023-06-01"); ("content-type", "application/json")]
    (PDict [("model", PStr "claude-opus-4-20250514"); ("max_tokens", PInt 8192); ("system", PStr system_prompt);
            ("messages", PList (map (fun m => PDict [("role", PStr m.1); ("content", PStr m.2)]) messages))]));
  lift (blocks ← get_of "content" (PList []) data; l ← as_iter blocks; text_block l).

Definition call_model (model api_key : string) (messages : list (string * string)) (system_prompt : string) : AI pyval :=
  if String.eqb model "opus" then call_opus api_key messages system_prompt else call_gemini api_key messages system_prompt.
Definition call_ai_json (model api_key system_prompt : string) (user_payload : dict) : AI pyval :=
  raw ← call_model model api_key [("user", dumps (PDict user_payload))] system_prompt;
  lift (parse_ai_response raw).

(** Any failure of the call is a 502 that does not tell its cause. *)
Definition or_bad_gateway {A} (m : AI A) : AI A :=
  try_catch m (fun e => http_error 502
    (match e with
     | OtherError s => if starts_with "HTTPStatusError" s then "AI API error: upstream service returned an error"
                       else "AI API error: upstream service unavailable"
     | _ => "AI API error: upstream service unavailable"
     end)).

(** A response model: a value it refuses is a [ValueError]. *)
Definition response (fields : list field) (d : dict) : res pyval :=
  match validate (fun _ => None) (KModel fields) (PDict d) with
  | Ok v => Ok v
  | Raise _ => Raise (ValueError "validation error")
  end.

(** ** [ai_generate_workflow] *)

Definition AiModel : kind := KOneOf ["gemini"; "opus"].
Definition AiChatMessage : kind := KModel [with_default "role" (KOneOf ["user"; "assistant"]) (PStr "user"); needed "content" KText].
Definition WorkflowAiGenerateRequest : list field :=
  [needed "prompt" KText; with_default "model" AiModel (PStr "gemini"); needed "api_key" KText;
   with_default "conversation" (KList AiChatMessage) (PList []); with_default "current_nodes" (KList KObject) (PList []);
   with_default "current_edges" (KList KObject) (PList []); with_default "connectors" (KList KObject) (PList [])].
Definition WorkflowAiGenerateResponse : list field :=
  [needed "message" KText; optional "nodes" (KList KObject); optional "edges" (KList KObject); optional "name" KText;
   optional "description" KText].

Definition body_text (k : string) (body : dict) : string := match of_body k body with PStr s => s | _ => "" end.
Definition connector_line (c : dict) : string :=
  let text k := py_str (dget_or k (PStr "") c) in
  "- **" ++ py_str (dget_or "display_name" (dget_or "name" (PStr "") c) c) ++ "** (" ++ text "name" ++ "): category="
  ++ text "category" ++ ", events=" ++ py_str (dget_or "events" (PList []) c) ++ ", actions="
  ++ py_str (dget_or "actions" (PList []) c).
Definition dicts_of (v : pyval) : list dict :=
  match v with PList l => omap (fun x => match x with PDict d => Some d | _ => None end) l | _ => [] end.
Definition connector_context (connectors : list dict) : string :=
  match connectors with
  | [] => ""
  | _ => newline ++ newline ++ "## Available Connectors" ++ newline ++ str_join newline (map connector_line connectors)
  end.
Definition current_state (nodes edges : pyval) : string :=
  if truthy nodes then
    newline ++ newline ++ "## Current Workflow State" ++ newline ++ "Nodes: " ++ dumps nodes ++ newline ++ "Edges: " ++ dumps edges
  else "".
Definition conversation_of (body : dict) : list (string * string) :=
  (map (fun d => (body_text "role" d, body_text "content" d)) (dicts_of (of_body "conversation" body))
   ++ [("user", body_text "prompt" body)])%list.

Definition ai_generate_workflow (t : Tenant) (req : request) : AI pyval :=
  body ← lift (model_body (fun _ => None) WorkflowAiGenerateRequest req);
  let system_prompt := workflow_prompt ++ connector_context (dicts_of (of_body "connectors" body))
                       ++ current_state (of_body "current_nodes" body) (of_body "current_edges" body) in
  raw ← or_bad_gateway (call_model (body_text "model" body) (body_text "api_key" body) (conversation_of body) system_prompt);
  lift (parsed ← parse_ai_response raw;
        d ← as_dict parsed;
        response WorkflowAiGenerateResponse
          [("message", dget_or "message" (PStr "") d); ("nodes", dget_or "nodes" PNone d); ("edges", dget_or "edges" PNone d);
           ("name", dget_or "name" PNone d); ("description", dget_or "description" PNone d)]).

(** ** [ai_suggest_field_mappings] *)

Definition AiFieldMappingSuggestRequest : list field :=
  [with_default "model" AiModel (PStr "gemini"); needed "api_key" KText; optional "prompt" KText;
   with_default "source_fields" (KList KObject) (PList []); with_default "destination_fields" (KList KObject) (PList []);
   with_default "existing_mappings" (KList KObject) (PList [])].

(** The suggestions with both ends. *)
Definition sanitized (mappings : pyval) : list pyval :=
  match mappings with
  | PList l => omap (fun x => match x with
                              | PDict d => if truthy (dget_or "from" PNone d) && truthy (dget_or "to" PNone d)
                                           then Some (PDict [("from", dget_or "from" (PStr "") d); ("to", dget_or "to" (PStr "") d)])
                                           else None
                              | _ => None
                              end) l
  | _ => []
  end.
Definition ai_suggest_field_mappings (t : Tenant) (req : request) : AI pyval :=
  body ← lift (model_body (fun _ => None) AiFieldMappingSuggestRequest req);
  parsed ← or_bad_gateway (call_ai_json (body_text "model" body) (body_text "api_key" body) mapping_prompt
    [("prompt", PStr (body_text "prompt" body)); ("source_fields", of_body "source_fields" body);
     ("destination_fields", of_body "destination_fields" body); ("existing_mappings", of_body "existing_mappings" body);
     ("tenant_id", PStr (tn_id t))]);
  d ← lift (as_dict parsed);
  mret (PDict [("message", PStr (py_str (dget_or "message" (PStr "AI mapping suggestions generated.") d)));
               ("mappings", PList (sanitized (dget_or "mappings" (PList []) d)))]).

(** ** [ai_explain_error] *)

Definition AiExplainErrorRequest : list field :=
  [with_default "model" AiModel (PStr "gemini"); needed "api_key" KText; optional "workflow_name" KText;
   optional "node_label" KText; optional "node_type" KText; needed "error" KText;
   with_default "trigger_data" KObject (PDict []); with_default "node_results" (KList KObject) (PList [])].

Definition texts_of (k : string) (d : dict) : res (list pyval) :=
  l ← as_iter (dget_or k (PList []) d); Ok (map (fun x => PStr (py_str x)) (List.filter truthy l)).
Definition explain_payload (t : Tenant) (body : dict) : dict :=
  [("tenant_id", PStr (tn_id t)); ("workflow_name", of_body "workflow_name" body); ("node_label", of_body "node_label" body);
   ("node_type", of_body "node_type" body); ("error", of_body "error" body); ("trigger_data", of_body "trigger_data" body);
   ("node_results", of_body "node_results" body)].
Definition ai_explain_error (t : Tenant) (req : request) : AI pyval :=
  body ← lift (model_body (fun _ => None) AiExplainErrorRequest req);
  parsed ← or_bad_gateway (call_ai_json (body_text "model" body) (body_text "api_key" body) error_prompt (explain_payload t body));
  d ← lift (as_dict parsed);
  causes ← lift (texts_of "likely_causes" d);
  fixes ← lift (texts_of "suggested_fixes" d);
  mret (PDict [("summary", PStr (py_str (dget_or "summary" (PStr "No explanation generated.") d)));
               ("likely_causes", PList causes); ("suggested_fixes", PList fixes)]).
End ai.

(** ** Facts *)

Definition backtick : ascii := "`".

Lemma str_find_skip c p s t : has_no c s = true ->
  str_find (String c p) (s ++ t) = (fun n => String.length s + n)%nat <$> str_find (String c p) t.
Proof.
  induction s as [|a s IH]; cbn [String.append String.length]; [by destruct (str_find _ t)|].
  unfold has_no. cbn [str_forall]. intros [Ha Hs]%andb_prop. cbn [str_find].
  assert (E : starts_with (String c p) (String a (s ++ t)) = false).
  { cbn. rewrite Ascii.eqb_sym. by destruct (Ascii.eqb a c). }
  rewrite E, IH by exact Hs. by destruct (str_find _ t).
Qed.

Lemma last_of p s : s <> "" -> str_forall p s = true -> exists t c, s = (t ++ str1 c)%string /\ p c = true.
Proof.
  induction s as [|a s IH]; [done|]. intros _ [Ha Hs]%andb_prop. destruct s as [|b s]; [by exists "", a|].
  destruct (IH ltac:(done) Hs) as (t & c & E & Hc). exists (String a t), c. by rewrite E.
Qed.

(** The ends of the text of a value. *)
Lemma text_ends v : no_float v = true ->
  (exists c t, json_text true false v = String c t /\ is_space c = false)
  /\ (exists t c, json_text true false v = (t ++ str1 c)%string /\ is_space c = false).
Proof.
  intros Hv. split.
  - destruct v as [|[]|n|f|s|l|d]; try done; try (eexists _, _; by split).
    destruct (int_head n) as (c & t & E & Hc). exists c, t. split; [exact E|]. destruct Hc as [Hc| ->]; [by apply is_digit_not_space|done].
  - destruct v as [|[]|n|f|s|l|d]; try done.
    + by exists "nul", "l"%char.
    + by exists "tru", "e"%char.
    + by exists "fals", "e"%char.
    + destruct (last_of (fun c => negb (is_space c)) (str_of_Z n)) as (t & c & E & Hc).
      * destruct (int_head n) as (c & t & E & _). by rewrite E.
      * unfold str_of_Z. assert (Hd : forall x : N, str_forall (fun c => negb (is_space c)) (pretty x) = true).
        { intros x. eapply str_forall_impl; [|apply pretty_N_digits]. intros c Hc. by rewrite is_digit_not_space. }
        destruct n as [|x|x]; [done|apply (Hd (Npos x))|]. exact (Hd (Npos x)).
      * exists t, c. split; [exact E|]. by destruct (is_space c).
    + exists (String dquote (json_escape true s)), dquote. split; [|done]. by unfold json_text, json_string.
    + eexists ("[" ++ _)%string, "]"%char. split; [|done]. cbn [json_text]. by rewrite <-str_app_assoc.
    + eexists ("{" ++ _)%string, "}"%char. split; [|done]. rewrite json_text_dict. by rewrite <-str_app_assoc.
Qed.

Lemma strip_lines s :
  (exists c t, s = String c t /\ is_space c = false) -> (exists t c, s = (t ++ str1 c)%string /\ is_space c = false) ->
  py_strip s = s /\ py_strip (newline ++ s ++ newline) = s.
Proof.
  intros (c & t & E & Hc) (t' & c' & E' & Hc').
  assert (Hl : forall x, lstrip_by is_space (s ++ x) = (s ++ x)%string) by (intros x; rewrite E; cbn; by rewrite Hc).
  assert (Hr : lstrip_by is_space (str_rev s) = str_rev s).
  { rewrite E', str_rev_app_distr. cbn. by rewrite Hc'. }
  split; unfold py_strip, rstrip_by.
  - pose proof (Hl "") as Hl0. rewrite str_app_nil_r in Hl0. by rewrite Hl0, Hr, str_rev_involutive.
  - change (newline ++ s ++ newline)%string with (String "010" (s ++ newline)). cbn [lstrip_by]. change (is_space "010") with true. cbn [lstrip_by].
    rewrite Hl, str_rev_app_distr. change (str_rev newline ++ str_rev s)%string with (String "010" (str_rev s)).
    cbn [lstrip_by]. change (is_space "010") with true. cbv iota. by rewrite Hr, str_rev_involutive.
Qed.

(** What a model wraps in a fenced block as JSON is what the platform reads, whatever the model says before and after. *)
Theorem fenced_answer_read before v after :
  wf_val v = true -> no_float v = true -> has_no backtick before = true -> has_no backtick (json_text true false v) = true ->
  parse_ai_text (before ++ fence ++ "json" ++ newline ++ json_text true false v ++ newline ++ fence ++ after) = v.
Proof.
  intros Hwf Hnf Hb Ht. destruct (text_ends v Hnf) as [Hhead Hlast].
  destruct (strip_lines _ Hhead Hlast) as [_ Hs]. unfold parse_ai_text.
  set (t := json_text true false v) in *.
  assert (E : fenced_block (before ++ fence ++ "json" ++ newline ++ t ++ newline ++ fence ++ after) = Some t).
  { unfold fenced_block. change fence with (String backtick "``") at 1. rewrite str_find_skip by exact Hb.
    change (str_find (String backtick "``") (fence ++ "json" ++ newline ++ t ++ newline ++ fence ++ after)) with (Some O). cbn [fmap option_fmap option_map].
    assert (Hd : str_drop (String.length before + 0 + 3) (before ++ fence ++ "json" ++ newline ++ t ++ newline ++ fence ++ after)
                 = ("json" ++ newline ++ t ++ newline ++ fence ++ after)%string).
    { etrans; [|apply (str_drop_app (before ++ fence))]. by rewrite str_app_length, (str_app_assoc before fence), Nat.add_0_r. }
    rewrite Hd. change (starts_with "json" ("json" ++ newline ++ t ++ newline ++ fence ++ after)) with true.
    change (str_drop 4 ("json" ++ newline ++ t ++ newline ++ fence ++ after)) with (newline ++ t ++ newline ++ fence ++ after)%string.
    cbv iota zeta. replace (newline ++ t ++ newline ++ fence ++ after)%string with ((newline ++ t ++ newline) ++ fence ++ after)%string
      by (by rewrite <-!str_app_assoc).
    change fence with (String backtick "``") at 1. rewrite str_find_skip by (rewrite !has_no_app, Ht; done).
    change (str_find (String backtick "``") (fence ++ after)) with (Some O). cbn [fmap option_fmap option_map].
    rewrite Nat.add_0_r, str_take_app. by rewrite Hs. }
  rewrite E. unfold t. by rewrite loads_dumps.
Qed.

(** Every suggestion has both ends. *)
Lemma suggestions_have_ends mappings x :
  In x (sanitized mappings) -> exists f t, x = PDict [("from", f); ("to", t)] /\ truthy f = true /\ truthy t = true.
Proof.
  destruct mappings as [| | | | |l|]; try done. cbn [sanitized]. intros Hin%list_elem_of_In. apply list_elem_of_omap in Hin as (y & Hy & Hx).
  destruct y as [| | | | | |d]; try done. destruct (truthy (dget_or "from" PNone d)) eqn:Ef; [|done].
  destruct (truthy (dget_or "to" PNone d)) eqn:Et; [|done]. injection Hx as <-.
  unfold dget_or in *. destruct (dget "from" d); [|done]. destruct (dget "to" d); [|done]. eauto.
Qed.

Section calls.
Variable provider : list ai_call -> ai_call -> res ai_answer.
Abbreviation AI := (EM (list ai_call)).

(** A request of one of the two providers, with the key where the provider expects it. *)
Definition to_provider (key : string) (c : ai_call) : Prop :=
  (ai_url c = GEMINI_URL /\ ai_params c = [("key", key)] /\ ai_headers c = [])
  \/ (ai_url c = CLAUDE_URL /\ ai_params c = [] /\ dget "x-api-key" (ai_headers c) = Some key).
Definition asks_once {A} (key : string) (m : AI A) : Prop := forall calls, exists extra,
  (m calls).2 = (calls ++ extra)%list /\ (List.length extra <= 1)%nat /\ Forall (to_provider key) extra.
Definition asks_nothing {A} (m : AI A) : Prop := forall calls, (m calls).2 = calls.

Lemma asks_then {A B} key (m : AI A) (k : A -> AI B) : asks_once key m -> (forall a, asks_nothing (k a)) -> asks_once key (m ≫= k).
Proof.
  intros Hm Hk calls. destruct (Hm calls) as (extra & E & H). exists extra. split; [|done].
  unfold mbind, EM_bind. destruct (m calls) as [[a|e] c]; [|done]. rewrite (Hk a). exact E.
Qed.
Lemma asks_after {A B} key (r : res A) (k : A -> AI B) : (forall a, asks_once key (k a)) -> asks_once key (lift r ≫= k).
Proof.
  intros Hk calls. unfold lift, mbind, EM_bind. destruct r as [a|e]; [apply Hk|]. exists []. rewrite app_nil_r. split; [done|]. split; [cbn; lia|done].
Qed.
Lemma asks_or_fails {A} key (m : AI A) : asks_once key m -> asks_once key (or_bad_gateway m).
Proof.
  intros Hm calls. destruct (Hm calls) as (extra & E & H). exists extra. split; [|done].
  unfold or_bad_gateway, try_catch. destruct (m calls) as [[a|e] c]; [done|]. exact E.
Qed.
Lemma model_asks_once model key messages prompt : asks_once key (call_model provider model key messages prompt).
Proof.
  unfold call_model. destruct (String.eqb model "opus"); apply asks_then; try (intros v calls; done); intros calls;
    eexists [_]; cbn [ask snd]; (split; [reflexivity|]); (split; [cbn; lia|]); constructor; try done; [by right; split_and!|by left].
Qed.

(** Whatever the request, an endpoint asks a model at most once, and the caller's key goes to the provider the caller chose
    and nowhere else. *)
Theorem keys_go_to_the_provider p1 p2 p3 t req body key :
  (model_body (fun _ => None) WorkflowAiGenerateRequest req = Ok body -> body_text "api_key" body = key ->
   asks_once key (ai_generate_workflow provider p1 t req))
  /\ (model_body (fun _ => None) AiFieldMappingSuggestRequest req = Ok body -> body_text "api_key" body = key ->
   asks_once key (ai_suggest_field_mappings provider p2 t req))
  /\ (model_body (fun _ => None) AiExplainErrorRequest req = Ok body -> body_text "api_key" body = key ->
   asks_once key (ai_explain_error provider p3 t req)).
Proof.
  split_and!; intros Hb Hk; [unfold ai_generate_workflow|unfold ai_suggest_field_mappings|unfold ai_explain_error];
    rewrite Hb; match goal with |- asks_once _ (_ ≫= ?k) => change (asks_once key (k body)) end; cbv beta zeta; rewrite Hk.
  - apply asks_then; [apply asks_or_fails, model_asks_once|]. by intros a calls.
  - apply asks_then; [apply asks_or_fails, asks_then; [apply model_asks_once|by intros a calls]|].
    intros a calls. unfold lift, mbind, EM_bind. by destruct (as_dict a).
  - apply asks_then; [apply asks_or_fails, asks_then; [apply model_asks_once|by intros a calls]|].
    intros a calls. unfold lift, mbind, EM_bind. destruct (as_dict a) as [d|]; [|done].
    destruct (texts_of "likely_causes" d); [|done]. by destruct (texts_of "suggested_fixes" d).
Qed.
End calls.

(** ** Examples *)

Definition says (s : string) : list ai_call -> ai_call -> res ai_answer := fun _ _ =>
  Ok (AiAnswer 200 (Ok (PDict [("candidates", PList [PDict [("content", PDict [("parts", PList [PDict [("text", PStr s)]])])]])]))).
Definition ai_request (body : dict) : request := MkRequest "POST" "/api/v1/ai/explain-error" [] [] (Some (PDict body)) None "" [].
Definition acme : Tenant := MkTenant "t1" "acme" true.

Example fences_and_plain_text :
  map parse_ai_text ["Sure:" ++ newline ++ fence ++ "json" ++ newline ++ "[1]" ++ fence; "  [1] "; "Which shop?"; fence ++ "oops" ++ fence]
  = [PList [PInt 1]; PList [PInt 1]; PDict [("message", PStr "Which shop?")]; PDict [("message", PStr (fence ++ "oops" ++ fence))]].
Proof. by vm_compute. Qed.
Example indented :
  dumps (PDict [("a", PList [PInt 1]); ("b", PDict [])]) =
  ("{" ++ newline ++ "  " ++ json_string true "a" ++ ": [" ++ newline ++ "    1" ++ newline ++ "  ]," ++ newline ++ "  "
   ++ json_string true "b" ++ ": {}" ++ newline ++ "}")%string.
Proof. by vm_compute. Qed.
(** The personal data of the trigger reach the provider as they are. *)
Example explanation_tells_personal_data :
  let calls := (ai_explain_error (says "") "explain" acme
    (ai_request [("api_key", PStr "k"); ("error", PStr "boom"); ("trigger_data", PDict [("email", PStr "jan@example.com")])]) []).2 in
  map (fun c => str_contains "jan@example.com" (json_text true false (ai_body c))) calls = [true].
Proof. by vm_compute. Qed.
(** An answer that is JSON but no object is an error of the platform, not of the provider. *)
Example answer_is_a_list :
  (ai_explain_error (says "[1]") "explain" acme (ai_request [("api_key", PStr "k"); ("error", PStr "boom")]) []).1
  = Raise (AttributeError "'list' object has no attribute 'get'").
Proof. by vm_compute. Qed.
Example causes_as_one_text :
  (ai_explain_error (says ("{" ++ json_string true "likely_causes" ++ ": " ++ json_string true "no" ++ "}")) "explain" acme
     (ai_request [("api_key", PStr "k"); ("error", PStr "boom")]) []).1
  = Ok (PDict [("summary", PStr "No explanation generated."); ("likely_causes", PList [PStr "n"; PStr "o"]); ("suggested_fixes", PList [])]).
Proof. by vm_compute. Qed.

Lemma fenced_answer_read_witness :
  parse_ai_text ("Here:" ++ fence ++ "json" ++ newline ++ json_text true false (PDict [("message", PStr "ok")]) ++ newline ++ fence ++ "Bye")
  = PDict [("message", PStr "ok")].
Proof. apply (fenced_answer_read "Here:" (PDict [("message", PStr "ok")]) "Bye"); by vm_compute. Defined.
