(* ===== verification/GatewayEndpoints.v ===== *)
(** Endpoints of the platform that stand alone ([platform/api/gateway.py]): the OAuth2 token of a
    set of credentials, the list of the credentials, requests passed on to connectors and to the
    verification agent, the on-premise package, the health of the platform, and what becomes of
    an exception no endpoint handles.

    The services asked and the file system are parameters.  An endpoint commits when it answers;
    an exception undoes what it wrote. *)

From S2P Require Import Prelude PyText PyFloat PyValue Json Effects Registry Dispatcher Vault OAuth Auth.

Local Open Scope string_scope.

(** ** OAuth2 tokens *)

Section tokens.
Context `{Cipher} `{FormatLib} {store : Type} `{KeyValue store string}.
Variables (raw_key : string) (reg : registry).
Variable provider : list token_request -> token_request -> res TokenResponse.
Variable isoformat : Z -> string.
Abbreviation OA := (EM (OAuthState store)).

(** The rows of before; what was sent and what Redis holds stay. *)
Definition undo_tokens (before after : OAuthState store) : OAuthState store :=
  MkOAuthState (oa_vault before) (oa_tokens before) (oa_next before) (oa_redis after) (oa_now after) (oa_sent after).

Definition text_or_null (o : option string) : pyval := match o with Some s => PStr s | None => PNone end.
Definition oauth2_manual_refresh (tenant connector name : string) : OA pyval :=
  atomic undo_tokens
   (status ← get_token_status tenant connector name;
    match status with
    | None => http_error 404 "No OAuth2 token found for this connector"
    | Some _ =>
        found ← find_token tenant connector name;
        match found with
        | None => http_error 404 "No OAuth2 token found"
        | Some token =>
            match from_option manifest_oauth2 [] (hd_error (get_by_name reg connector)) with
            | [] => http_error 400 "No OAuth2 config for connector"
            | config =>
                creds ← within oa_vault set_oa_vault (retrieve_all raw_key tenant connector name);
                refreshed ← value_error_as 400 (refresh_token raw_key provider token (merged_config config creds));
                mret (PDict [("status", PStr "refreshed"); ("connector", PStr connector);
                             ("expires_at", text_or_null (isoformat <$> o_expires_at refreshed));
                             ("refresh_count", PInt (o_refresh_count refreshed))])
            end
        end
    end).

Definition oauth2_token_status (tenant connector name : string) : OA (option (string * option Z * Z * option string)) :=
  get_token_status tenant connector name.

Definition oauth2_revoke (tenant connector name : string) : OA pyval :=
  atomic undo_tokens
   (revoked ← revoke_token tenant connector name;
    if (revoked : bool) then mret (PDict [("status", PStr "revoked"); ("connector", PStr connector)])
    else http_error 404 "No OAuth2 token found").
End tokens.

(** ** The credentials of a tenant *)

Definition text_lt (a b : string) : bool := match String.compare a b with Lt => true | _ => false end.

Section listing.
Variable reg : registry.
(** The time a set was last changed, and the order of the groups, which the database chooses. *)
Variable updated_at : string -> string -> pyval.
Variable arrange : list (string * string) -> list (string * string).

Definition set_keys (connector name : string) (rows : list Credential) : list string :=
  map cr_key (List.filter (fun r => String.eqb (cr_connector r) connector && String.eqb (cr_name r) name) rows).
(** Of the tokens of a set, and of the manifests of a connector, the last counts. *)
Definition token_of_set (connector name : string) (tokens : list CredentialToken) : pyval :=
  match hd_error (rev (List.filter (fun t => String.eqb (ct_connector t) connector && String.eqb (ct_name t) name) tokens)) with
  | Some t => PStr (ct_token t)
  | None => PNone
  end.
Definition credential_row (rows : list Credential) (tokens : list CredentialToken) (set : string * string) : pyval :=
  let connector := hd_error (rev (get_by_name reg set.1)) in
  PDict [("connector_name", PStr set.1); ("credential_name", PStr set.2);
         ("display_name", PStr (from_option m_display_name set.1 connector));
         ("category", PStr (from_option m_category "" connector));
         ("keys", PList (map PStr (stable_sort text_lt (set_keys set.1 set.2 rows))));
         ("updated_at", updated_at set.1 set.2); ("token", token_of_set set.1 set.2 tokens)].
Definition list_credentials (t : Tenant) (v : VaultDB) : pyval :=
  let rows := List.filter (fun r => String.eqb (cr_tenant r) (tn_id t)) (credentials v) in
  let tokens := List.filter (fun k => String.eqb (ct_tenant k) (tn_id t)) (credential_tokens v) in
  PList (map (credential_row rows tokens) (arrange (remove_dups (map (fun r => (cr_connector r, cr_name r)) rows)))).
End listing.

(** ** Requests passed on *)

Record upstream_call := Upstream {
  up_method : string;
  up_url : string;
  up_json : option pyval;
  up_params : list (string * string)
}.
(** An answer, [httpx.ConnectError], or another [httpx.HTTPError]. *)
Inductive upstream_reply :=
  | Reply (status : Z) (json : res pyval) (text : string)
  | Unreachable (message : string)
  | Broken (message : string).

Section proxies.
Variable reg : registry.
Variable upstream : list upstream_call -> upstream_call -> upstream_reply.
Variable verification_agent_url : string.
Abbreviation U := (EM (list upstream_call)).

Definition forward (c : upstream_call) : U upstream_reply := fun calls => (Ok (upstream calls c), (calls ++ [c])%list).
Definition is_success (status : Z) : bool := (200 <=? status)%Z && (status <? 300)%Z.
Definition unhandled {A} (name message : string) : U A := raise (OtherError (name ++ ": " ++ message)).

(** [spec["servers"] = servers]. *)
Definition with_servers (m : ConnectorManifest) (spec : pyval) : res pyval :=
  match spec with
  | PDict d =>
      Ok (PDict (dset "servers" (PList [PDict [("url", PStr (base_url m));
                   ("description", PStr (m_display_name m ++ " v" ++ m_version m))]]) d))
  | _ => Raise (TypeError "object does not support item assignment")
  end.
Definition get_connector_openapi (name : string) (version : option string) : U pyval :=
  match get_by_name_version reg name version with
  | None => http_error 404 ("Connector '" ++ name ++ "' not found")
  | Some m =>
      let unreachable := http_error 503 ("Connector '" ++ name ++ "' is not reachable") in
      r ← forward (Upstream "GET" (base_url m ++ "/openapi.json") None []);
      match r with
      | Reply status json _ => if is_success status then lift (spec ← json; with_servers m spec) else unreachable
      | Unreachable _ => unreachable
      | Broken message => unhandled "HTTPError" message
      end
  end.

Definition connector_generate_test_data (connector : string) : U pyval :=
  base ← lift (resolve_service_url connector (Some reg) None);
  r ← forward (Upstream "POST" (base ++ "/generate-test-data") None []);
  match r with
  | Reply status json text => if (400 <=? status)%Z then http_error status (str_take 500 text) else lift json
  | Unreachable message | Broken message => http_error 502 ("Cannot reach connector: " ++ message)
  end.

(** [_proxy_verification] and the endpoints of the verification agent. *)
Definition proxy_verification (method path : string) (body : option pyval) (params : list (string * string)) : U pyval :=
  r ← forward (Upstream method (verification_agent_url ++ path) body params);
  match r with
  | Reply status json text => if is_success status then lift json else http_error status (str_take 500 text)
  | Unreachable _ => http_error 503 "Verification agent is not reachable"
  | Broken message => unhandled "HTTPError" message
  end.
Definition verification_run_all : U pyval := proxy_verification "POST" "/run" None [].
(** A parameter that is given and not empty. *)
Definition given_query (k : string) (o : option string) : list (string * string) :=
  match o with None | Some EmptyString => [] | Some s => [(k, s)] end.
Definition verification_run_single (connector : string) (version : option string) : U pyval :=
  proxy_verification "POST" ("/run/" ++ connector) None (given_query "version" version).
Definition verification_scheduler_status : U pyval := proxy_verification "GET" "/scheduler/status" None [].
Definition verification_scheduler_update (body : dict) : U pyval := proxy_verification "PUT" "/scheduler" (Some (PDict body)) [].
Definition page_query (page page_size : Z) : list (string * string) :=
  [("page", str_of_Z page); ("page_size", str_of_Z page_size)].
Definition verification_list_runs (page page_size : Z) : U pyval :=
  proxy_verification "GET" "/runs" None (page_query page page_size).
Definition verification_get_run (run_id : string) : U pyval := proxy_verification "GET" ("/runs/" ++ run_id) None [].
Definition verification_list_errors (connector date_from date_to : option string) (page page_size : Z) : U pyval :=
  proxy_verification "GET" "/errors" None
    (page_query page page_size ++ given_query "connector_name" connector ++ given_query "date_from" date_from
     ++ given_query "date_to" date_to)%list.
Definition verification_latest_reports : U pyval := proxy_verification "GET" "/reports/latest" None [].
End proxies.

(** ** The on-premise package *)

(** A path of the file system, by its parts. *)
Definition fs_path : Type := list string.

Section package.
Variable reg : registry.
(** The [source_directory] of a connector with an on-premise agent. *)
Variable source_directory : ConnectorManifest -> option string.
(** [Path(...)] and [resolve()], the directory of the connectors, and the files below a directory,
    by their paths from it. *)
Variable path_of : string -> fs_path.
Variable is_absolute : string -> bool.
Variable resolve : fs_path -> fs_path.
Variable discovery_parent : fs_path.
Variable is_dir : fs_path -> bool.
Variable files_below : fs_path -> list fs_path.

Definition skip_exact : list string := [".pyc"; "__pycache__"; ".git"; ".env"].
Definition should_skip (path : fs_path) : bool :=
  existsb (fun part => existsb (String.eqb part) skip_exact || ends_with ".egg-info" part) path.
Fixpoint is_below (base path : fs_path) : bool :=
  match base, path with
  | [], _ => true
  | b :: base', p :: path' => String.eqb b p && is_below base' path'
  | _, [] => false
  end.
(** [sorted(paths)]: by their parts. *)
Fixpoint path_lt (a b : fs_path) : bool :=
  match a, b with
  | _, [] => false
  | [], _ => true
  | x :: a', y :: b' => text_lt x y || (String.eqb x y && path_lt a' b')
  end.

(** The name of the package and, for every file in it, its name there and where it is read. *)
Definition download_onpremise_agent (name : string) (version : option string) : res (string * list (fs_path * fs_path)) :=
  match get_by_name reg name with
  | [] => Raise (http_exception 404 ("Connector '" ++ name ++ "' not found"))
  | first :: _ as connectors =>
      manifest ← (match version with
                  | None | Some EmptyString => Ok first
                  | Some v => match List.find (fun c => String.eqb (m_version c) v) connectors with
                              | Some m => Ok m
                              | None => Raise (http_exception 404 ("Connector '" ++ name ++ "' version '" ++ v ++ "' not found"))
                              end
                  end);
      match source_directory manifest with
      | None => Raise (http_exception 404 ("Connector '" ++ name ++ "' does not have an on-premise agent"))
      | Some EmptyString => Raise (http_exception 404 "On-premise agent source directory not configured")
      | Some source_dir =>
          let agent_path := resolve (if is_absolute source_dir then path_of source_dir
                                     else (discovery_parent ++ path_of source_dir)%list) in
          if negb (is_below (resolve discovery_parent) agent_path) then Raise (http_exception 403 "Access denied")
          else if negb (is_dir agent_path) then Raise (http_exception 404 "On-premise agent files not found on server")
          else
            let files := List.filter (fun p => negb (should_skip p)) (stable_sort path_lt (files_below agent_path)) in
            Ok (name ++ "-onpremise-agent-v" ++ m_version manifest ++ ".zip",
                map (fun p => (p, (agent_path ++ p)%list)) files)
      end
  end.

Lemma is_below_app base path : is_below base path = true -> exists rest, path = (base ++ rest)%list.
Proof.
  revert path. induction base as [|b base IH]; intros path; [by exists path|]. destruct path as [|p path]; [done|]. cbn.
  intros [->%String.eqb_eq (rest & ->)%IH]%andb_prop. by exists rest.
Qed.

(** Whatever a manifest says, the package holds only files below the directory of the repository, under their paths from the
    agent's directory, and none with a part that is skipped. *)
Theorem package_stays_inside name version zip files :
  download_onpremise_agent name version = Ok (zip, files) ->
  Forall (fun f => should_skip f.1 = false /\ exists rest, f.2 = (resolve discovery_parent ++ rest)%list) files.
Proof.
  unfold download_onpremise_agent. destruct (get_by_name reg name) as [|first connectors]; [done|].
  intros (m & _ & Hd)%bind_Ok_inv. destruct (source_directory m) as [[|c s]|]; [done| |done].
  cbv zeta in Hd. set (agent_path := resolve (if is_absolute (String c s) then _ else _)) in *.
  destruct (is_below (resolve discovery_parent) agent_path) eqn:Eb; [|done].
  destruct (is_dir agent_path); [|done]. cbn [negb] in Hd. injection Hd as _ <-.
  destruct (is_below_app _ _ Eb) as (rest & Er).
  apply Forall_forall. intros f (p & <- & [_ Hp]%filter_In)%in_map_iff. cbn. split; [by apply negb_true_iff|].
  exists (rest ++ p)%list. by rewrite Er, app_assoc.
Qed.
End package.

(** ** Health, and what no endpoint handles *)

Section platform.
Variables (app_version app_env admin_secret : string).

Definition check_text (ok : bool) : pyval := PStr (if ok then "ok" else "error").
(** [uptime]: rounded to one decimal. *)
Definition health_check (redis_ok db_ok : bool) (uptime : pyfloat) : pyval :=
  PDict [("status", PStr (if redis_ok && db_ok then "healthy" else "degraded")); ("version", PStr app_version);
         ("uptime_seconds", PFloat uptime);
         ("checks", PDict [("database", check_text db_ok); ("redis", check_text redis_ok); ("registry", PStr "ok")])].
Definition readiness_check (redis_ok db_ok : bool) (reg : registry) : Z * pyval :=
  (if redis_ok && db_ok then 200%Z else 503%Z,
   PDict [("status", PStr (if redis_ok && db_ok then "ready" else "not_ready"));
          ("checks", PDict [("database", check_text db_ok); ("redis", check_text redis_ok);
                            ("connectors", PStr (str_of_Z (Z.of_nat (List.length (get_all reg))) ++ " discovered"))])]).

Definition error_body (code message : string) : pyval :=
  PDict [("error", PDict [("code", PStr code); ("message", PStr message)])].
(** What an endpoint or a dependency of it raises: an [HTTPException], a request FastAPI refuses, or
    another exception, with the names of its classes from [type(exc)] to [Exception] and [str(exc)]. *)
Inductive exception :=
  | HTTPException (status_code : Z) (detail : pyval)
  | RequestValidationError (errors : pyval)
  | Unexpected (mro : list string) (text : string).
(** [f"{type(exc).__name__}: {exc}"]. *)
Definition exception_detail (mro : list string) (text : string) : string := hd "" mro ++ ": " ++ text.
Definition shows_detail (provided : option string) : bool :=
  negb (String.eqb app_env "production")
  || (negb (String.eqb admin_secret "") && String.eqb (default "" provided) admin_secret).
Definition global_exception_handler (provided : option string) (mro : list string) (text : string) : Z * pyval :=
  (500%Z, error_body "INTERNAL_ERROR" (if shows_detail provided then exception_detail mro text else "An internal error occurred")).

Definition safe_patterns : list string := ["must be"; "invalid"; "required"; "expected"; "cannot"; "missing"].
Definition value_error_handler (msg : string) : Z * pyval :=
  (400%Z, error_body "INVALID_INPUT"
    (if String.eqb app_env "production" && negb (existsb (fun p => str_contains p (py_lower msg)) safe_patterns)
     then "Invalid input provided" else msg)).
Definition is_value_error (mro : list string) : bool := existsb (String.eqb "ValueError") mro.
(** The handler is looked up along the classes of the exception; [HTTPException] and refused requests
    have FastAPI's. *)
Definition error_answer (provided : option string) (e : exception) : Z * pyval :=
  match e with
  | HTTPException status_code detail => (status_code, PDict [("detail", detail)])
  | RequestValidationError errors => (422%Z, PDict [("detail", errors)])
  | Unexpected mro text => if is_value_error mro then value_error_handler text else global_exception_handler provided mro text
  end.

(** C3: In production, to a caller without the secret of the administrator, an exception that is neither an
    [HTTPException] nor a refused request is answered by one of two fixed texts, chosen by whether a
    [ValueError] is among its classes ([JSONDecodeError], pydantic's [ValidationError]), so that two such
    exceptions cannot be told apart; the one exception is a [ValueError] whose text holds one of six
    words, which is told. *)
Theorem production_hides_failures provided mro text :
  app_env = "production" -> (admin_secret <> "" -> provided <> Some admin_secret) ->
  (~ In "ValueError" mro ->
   error_answer provided (Unexpected mro text) = (500%Z, error_body "INTERNAL_ERROR" "An internal error occurred"))
  /\ (In "ValueError" mro -> (forall p, In p safe_patterns -> str_contains p (py_lower text) = false) ->
      error_answer provided (Unexpected mro text) = (400%Z, error_body "INVALID_INPUT" "Invalid input provided"))
  /\ (In "ValueError" mro -> (exists p, In p safe_patterns /\ str_contains p (py_lower text) = true) ->
      error_answer provided (Unexpected mro text) = (400%Z, error_body "INVALID_INPUT" text)).
Proof.
  intros Henv Hs. assert (Hd : shows_detail provided = false).
  { unfold shows_detail. rewrite Henv. cbn [negb orb String.eqb]. destruct (String.eqb_spec admin_secret ""); [done|].
    destruct (String.eqb_spec (default "" provided) admin_secret) as [E|]; [|done].
    destruct (Hs n). destruct provided; cbn in E; by subst. }
  assert (Hv : is_value_error mro = true <-> In "ValueError" mro).
  { unfold is_value_error. rewrite existsb_exists. split; [|intros Hin; by exists "ValueError"].
    by intros (x & Hin & <-%String.eqb_eq). }
  cbn [error_answer]. split_and!; [intros Hn|intros Hin Hp|intros Hin (p & Hp & Hc)].
  - destruct (is_value_error mro); [by destruct Hn; apply Hv|]. unfold global_exception_handler. by rewrite Hd.
  - apply Hv in Hin as ->. unfold value_error_handler. rewrite Henv. destruct (existsb _ safe_patterns) eqn:E; [|done].
    apply existsb_exists in E as (p & Hp' & Hc). by rewrite Hp in Hc.
  - apply Hv in Hin as ->. unfold value_error_handler.
    rewrite (proj2 (existsb_exists _ _)) by (exists p; by split). by rewrite andb_false_r.
Qed.
End platform.

(** ** Examples *)

Definition demo_files (p : fs_path) : list fs_path := [["main.py"]; [".env"]; ["__pycache__"; "x.pyc"]; ["lib"; "x.pyc"]].
Definition demo_package (source_dir : string) : res (string * list (fs_path * fs_path)) :=
  download_onpremise_agent (discover [(Webhooks.demo_manifest [])]) (fun _ => Some source_dir)
    (fun s => split_char "/" s) (starts_with "/") (List.filter (fun p => negb (String.eqb p ""))) ["srv"; "repo"] (fun _ => true) demo_files
    (m_name (Webhooks.demo_manifest [])) None.

(** Compiled files are left out only under their directory: [.pyc] is compared with whole parts. *)
Example compiled_files_are_packed :
  (fun r : string * list (fs_path * fs_path) => map fst r.2) <$> demo_package "agent" = Ok [["lib"; "x.pyc"]; ["main.py"]].
Proof. by vm_compute. Qed.
Example directory_outside : demo_package "/etc" = Raise (http_exception 403 "Access denied").
Proof. by vm_compute. Qed.

Lemma package_stays_inside_witness :
  exists zip files, demo_package "agent" = Ok (zip, files) /\ Forall (fun f => should_skip f.1 = false) files.
Proof.
  destruct (demo_package "agent") as [[zip files]|e] eqn:E; [|by vm_compute in E].
  exists zip, files. split; [done|]. unfold demo_package in E. apply package_stays_inside in E.
  eapply Forall_impl; [|exact E]. by intros f [H _].
Defined.

Lemma production_hides_failures_witness :
  error_answer "production" "admin" None (Unexpected ["KeyError"; "LookupError"; "Exception"] "'secret'")
    = (500%Z, error_body "INTERNAL_ERROR" "An internal error occurred")
  /\ error_answer "production" "admin" None (Unexpected ["JSONDecodeError"; "ValueError"; "Exception"] "Extra data: line 1")
    = (400%Z, error_body "INVALID_INPUT" "Invalid input provided").
Proof.
  split.
  - refine (proj1 (production_hides_failures "production" "admin" None ["KeyError"; "LookupError"; "Exception"] "'secret'" eq_refl _) _);
      [done|]. intros H. repeat destruct H as [H|H]; done.
  - refine (proj1 (proj2 (production_hides_failures "production" "admin" None ["JSONDecodeError"; "ValueError"; "Exception"]
      "Extra data: line 1" eq_refl _)) _ _); [done|by right; left|].
    intros p Hp. repeat destruct Hp as [<-|Hp]; by vm_compute.
Defined.
(** The words that make an error of the input fit to be told are those of many errors that are not. *)
Example parser_error_is_told :
  error_answer "production" "admin" None (Unexpected ["ValueError"; "Exception"] "invalid literal for int() with base 10: 'secret'")
  = (400%Z, error_body "INVALID_INPUT" "invalid literal for int() with base 10: 'secret'").
Proof. by vm_compute. Qed.
