(* ===== verification/BaseMapper.v ===== *)
(** The mapper of the shared library ([shared/python/pinquark_common/mapping/base.py]): a document
    is mapped by the rules of a profile.

    The mapper puts objects of the profile and of the source into its result and later writes into
    what it finds there, so objects are modelled with their identity: a heap of dicts and lists, in
    which a value is an immutable one or the place of an object.  Patterns, dates and decimals are
    those of the library [TextLib] and of parameters; functions registered by the caller too, which
    are taken to read the value they are given and to return a new one.  A registered function that
    kept, changed or returned an object of the profile or the source is outside of the model. *)

From Stdlib Require Import SpecFloat.
From S2P Require Import Prelude PyText PyFloat PyValue Paths Context Transforms Effects.

Local Open Scope string_scope.

(** ** Objects *)

(** [Atom]: no list and no dict. *)
Inductive hval := Atom (v : pyval) | Ref (l : nat).
Inductive object := HDict (d : list (string * hval)) | HList (items : list hval).
Abbreviation heap := (list object).

Definition new (o : object) (h : heap) : hval * heap := (Ref (List.length h), (h ++ [o])%list).

(** What [f] makes of each item, in order. *)
Section thread.
Context {A B : Type} (f : A -> heap -> B * heap).
Fixpoint thread (l : list A) (h : heap) : list B * heap :=
  match l with
  | [] => ([], h)
  | x :: l' => let '(y, h) := f x h in let '(ys, h) := thread l' h in (y :: ys, h)
  end.
End thread.

(** A fresh copy of a value. *)
Fixpoint alloc (v : pyval) (h : heap) : hval * heap :=
  match v with
  | PList l => let '(items, h) := thread alloc l h in new (HList items) h
  | PDict d =>
      let '(fields, h) := thread (fun kv h => let '(x, h) := alloc kv.2 h in ((kv.1, x), h)) d h in
      new (HDict fields) h
  | _ => (Atom v, h)
  end.

(** The value at a place; the fuel bounds the depth. *)
Fixpoint read_go (fuel : nat) (h : heap) (v : hval) : pyval :=
  match v, fuel with
  | Atom x, _ => x
  | Ref _, O => PNone
  | Ref l, S fuel =>
      match h !! l with
      | Some (HDict d) => PDict (map (fun kv => (kv.1, read_go fuel h kv.2)) d)
      | Some (HList items) => PList (map (read_go fuel h) items)
      | None => PNone
      end
  end.
Definition read (h : heap) (v : hval) : pyval := read_go (S (List.length h)) h v.

Definition as_object (h : heap) (v : hval) : option object := match v with Ref l => h !! l | Atom _ => None end.
Definition is_none_val (v : hval) : bool := match v with Atom PNone => true | _ => false end.

(** ** [_get_nested] *)

Definition array_key (part : string) : option string :=
  if ends_with "[]" part then Some (str_take (String.length part - 2) part) else None.

(** A part with [[]] gives the list itself at the end of a path, and else a new list of what the rest
    of the path gives for each element. *)
Fixpoint get_parts (parts : list string) (current : hval) (h : heap) : hval * heap :=
  match parts with
  | [] => (current, h)
  | part :: rest =>
      match as_object h current with
      | Some (HDict d) =>
          match array_key part with
          | Some key =>
              match dget key d with
              | Some (Ref l) =>
                  match h !! l with
                  | Some (HList items) =>
                      if String.eqb (str_join "." rest) "" then (Ref l, h)
                      else
                        let '(found, h) := thread (get_parts rest) items h in
                        new (HList found) h
                  | _ => (Atom PNone, h)
                  end
              | _ => (Atom PNone, h)
              end
          | None => match dget part d with Some v => get_parts rest v h | None => (Atom PNone, h) end
          end
      | _ => (Atom PNone, h)
      end
  end.
Definition get_nested (data : hval) (path : string) (h : heap) : hval * heap := get_parts (split_char "." path) data h.

(** ** [_set_nested] *)

Definition set_key (l : nat) (k : string) (v : hval) (h : heap) : heap :=
  match h !! l with Some (HDict d) => <[l := HDict (dset k v d)]> h | _ => h end.
Definition key_of (l : nat) (k : string) (h : heap) : option hval :=
  match h !! l with Some (HDict d) => dget k d | _ => None end.
(** [if k not in current: current[k] = o]. *)
Definition ensure_key (l : nat) (k : string) (o : object) (h : heap) : heap :=
  match key_of l k h with
  | Some _ => h
  | None => let '(v, h) := new o h in set_key l k v h
  end.
(** [current[k].extend(value)] or [.append(value)]. *)
Definition add_items (l : nat) (k : string) (value : hval) (h : heap) : res heap :=
  let items := match as_object h value with Some (HList xs) => xs | _ => [value] end in
  match key_of l k h with
  | Some (Ref a) => match h !! a with
                    | Some (HList xs) => Ok (<[a := HList (xs ++ items)%list]> h)
                    | _ => Raise (AttributeError "'dict' object has no attribute 'append'")
                    end
  | _ => Raise (AttributeError "object has no attribute 'append'")
  end.

(** The dict at a part on the way: a new one where there is none. *)
Definition step_into (l : nat) (part : string) (h : heap) : nat * heap :=
  let fresh := let '(v, h) := new (HDict []) h in (List.length h - 1, set_key l part v h)%nat in
  match key_of l part h with
  | Some (Ref a) => match h !! a with Some (HDict _) => (a, h) | _ => fresh end
  | _ => fresh
  end.

(** A part with [[]] on the way ends the write: the value is dropped. *)
Fixpoint set_parts (parts : list string) (l : nat) (value : hval) (h : heap) : res heap :=
  match parts with
  | [] => Ok h
  | [final] =>
      match array_key final with
      | Some key => add_items l key value (ensure_key l key (HList []) h)
      | None => Ok (set_key l final value h)
      end
  | part :: rest =>
      match array_key part with
      | Some key => Ok (ensure_key l key (HList []) h)
      | None => let '(l', h) := step_into l part h in set_parts rest l' value h
      end
  end.
Definition set_nested (data : nat) (path : string) (value : hval) (h : heap) : res heap :=
  set_parts (split_char "." path) data value h.

(** ** Profiles *)

Inductive TransformType :=
  | NONE | STRING | INTEGER | DECIMAL | DATE | DATETIME | BOOLEAN | UPPERCASE | LOWERCASE | STRIP | MAP_VALUE | TEMPLATE
  | CUSTOM | REGEX_EXTRACT | REGEX_REPLACE | COALESCE | JOIN | SUBSTRING | DATE_FORMAT | MATH | PREPEND | APPEND
  | LOOKUP | SPLIT | REPLACE | TRIM.

(** Default values, like static ones, are objects of the profile. *)
#[warnings="-register-all"]
Inductive FieldMapping := MkFieldMapping {
  source_field : string;
  source_fields : list string;
  target_field : string;
  transform : TransformType;
  default_value : hval;
  required : bool;
  value_map : list (string * string);
  template : string;
  custom_transform_name : string;
  regex_pattern : string;
  regex_group : Z;
  regex_replacement : string;
  separator : string;
  input_format : string;
  output_format : string;
  math_operation : string;
  math_operand : pyfloat;
  prepend_value : string;
  append_value : string;
  substring_start : Z;
  substring_end : option Z;
  extra_transforms : list FieldMapping
}.
Record MappingProfile := MkMappingProfile {
  profile_id : string;
  field_mappings : list FieldMapping;
  static_values : list (string * hval)
}.

Section mapper.
Variable lib : TextLib.
(** [Decimal(s)] unless it is no number; [date.fromisoformat], [datetime.fromisoformat]; [s.format(value=v)]. *)
Variable as_decimal : string -> option pyval.
Variables as_date as_datetime : string -> res pyval.
Variable format_value : string -> pyval -> res string.
(** The functions registered, by their names. *)
Variable custom : string -> option (pyval -> res pyval).
Abbreviation HM := (EM heap).

Definition text_or (s fallback : string) : string := if String.eqb s "" then fallback else s.
Definition texts (values : list pyval) : list string := omap (fun v => if is_none v then None else Some (py_str v)) values.

Fixpoint fill (tpl : string) (i : nat) (values : list pyval) : string :=
  match values with
  | [] => tpl
  | v :: rest => fill (py_replace tpl ("{{" ++ str_of_Z (Z.of_nat i) ++ "}}") (str_or_empty v)) (S i) rest
  end.
Definition math (op : string) (operand : pyfloat) (value : pyval) : res pyval :=
  on ← try_float value;
  match on with
  | None => Ok value
  | Some n =>
      Ok (if String.eqb op "add" then PFloat (fadd n operand)
          else if String.eqb op "sub" then PFloat (fsub n operand)
          else if String.eqb op "mul" then PFloat (fmul n operand)
          else if String.eqb op "div" then (if num_eqb (PFloat operand) (PInt 0) then value else PFloat (fdiv n operand))
          else value)
  end.

(** What a transform gives: one of the objects it was given, or a new value. *)
Inductive outcome := Same (v : hval) | Fresh (v : pyval).

Definition apply_transform (fm : FieldMapping) (objects : list hval) (values : list pyval) : res outcome :=
  let object := hd (Atom PNone) objects in
  let value := hd PNone values in
  let text := py_str value in
  let on f := Ok (Fresh (match value with PNone => PNone | _ => PStr (f text) end)) in
  match transform fm with
  | NONE => Ok (match objects with [v] => Same v | _ => Fresh (PStr (str_join " " (texts values))) end)
  | STRING => Ok (Fresh (PStr text))
  | INTEGER => n ← py_int value; Ok (Fresh (PInt n))
  | DECIMAL => Ok (match as_decimal text with Some v => Fresh v | None => Same (default_value fm) end)
  | DATE => v ← as_date (str_take 10 text); Ok (Fresh v)
  | DATETIME => v ← as_datetime text; Ok (Fresh v)
  | BOOLEAN =>
      Ok (Fresh (match value with
                 | PBool b => PBool b
                 | _ => PBool (existsb (String.eqb (py_lower text)) ["true"; "1"; "yes"; "tak"])
                 end))
  | UPPERCASE => Ok (Fresh (PStr (py_upper text)))
  | LOWERCASE => Ok (Fresh (PStr (py_lower text)))
  | STRIP | TRIM => Ok (Fresh (PStr (py_strip text)))
  | MAP_VALUE | LOOKUP => Ok (match dget text (value_map fm) with Some s => Fresh (PStr s) | None => Same (default_value fm) end)
  | TEMPLATE =>
      let tpl := fill (template fm) 0 values in
      catch (s ← format_value tpl value; Ok (Fresh (PStr s))) is_key_or_index_error (Ok (Fresh (PStr tpl)))
  | CUSTOM =>
      match custom (custom_transform_name fm) with
      | None => Raise (OtherError ("MappingError: Custom transform '" ++ custom_transform_name fm ++ "' not registered"))
      | Some f => v ← f value; Ok (Fresh v)
      end
  | REGEX_EXTRACT =>
      if is_none value || String.eqb (regex_pattern fm) "" then Ok (Same object)
      else match rx_match lib (regex_pattern fm) text with
           | RxError => Raise (OtherError "re.error")
           | RxNoMatch => Ok (Fresh PNone)
           | RxMatch group =>
               Ok (Fresh (match group (PInt (regex_group fm)) with Some g => g | None => default PNone (group (PInt 0)) end))
           end
  | REGEX_REPLACE =>
      if is_none value || String.eqb (regex_pattern fm) "" then Ok (Same object)
      else r ← rx_sub lib (regex_pattern fm) (PStr (regex_replacement fm)) text;
           match r with Some s => Ok (Fresh (PStr s)) | None => Raise (OtherError "re.error") end
  | COALESCE => Ok (Same (match List.find (fun v => negb (is_none_val v)) objects with Some v => v | None => default_value fm end))
  | JOIN => Ok (Fresh (PStr (str_join (text_or (separator fm) " ") (texts values))))
  | SUBSTRING => Ok (Fresh (PStr (str_slice (str_or_empty value) (substring_start fm) (substring_end fm))))
  | DATE_FORMAT =>
      catch (s ← reformat_date lib text (PStr (text_or (input_format fm) "%Y-%m-%d")) (PStr (text_or (output_format fm) "%d.%m.%Y"));
             Ok (Fresh (PStr s)))
        is_value_or_type_error (Ok (Same object))
  | MATH =>
      match math (text_or (math_operation fm) "add") (math_operand fm) value with
      | Ok (PFloat f) => Ok (Fresh (PFloat f))
      | Ok _ => Ok (Same object)
      | Raise e => Raise e
      end
  | PREPEND => on (fun s => prepend_value fm ++ s)
  | APPEND => on (fun s => s ++ append_value fm)
  | SPLIT =>
      match value with
      | PNone => Ok (Fresh (PList []))
      | _ => parts ← py_split text (text_or (separator fm) ","); Ok (Fresh (PList (map PStr parts)))
      end
  | REPLACE => on (fun s => py_replace s (regex_pattern fm) (regex_replacement fm))
  end.

(** ** [map] *)

(** Steps that make objects and raise nothing. *)
Definition making {A} (f : heap -> A * heap) : HM A := fun h => let '(a, h) := f h in (Ok a, h).

(** The sources of a rule. *)
Definition resolve_sources (fm : FieldMapping) (source : hval) : HM (list hval) :=
  making (thread (get_nested source)
    match source_fields fm with
    | [] => if String.eqb (source_field fm) "" then [] else [source_field fm]
    | fields => fields
    end).

Definition transformed (fm : FieldMapping) (objects : list hval) : HM hval :=
  h ← get_st;
  made ← lift (apply_transform fm objects (map (read h) objects));
  match made with Same v => mret v | Fresh v => making (alloc v) end.
Fixpoint run_extra (extras : list FieldMapping) (v : hval) : HM hval :=
  match extras with
  | [] => mret v
  | fm :: rest => v ← transformed fm [v]; run_extra rest v
  end.
Definition put (result : nat) (path : string) (v : hval) : HM unit := fun h =>
  match set_nested result path v h with Ok h' => (Ok tt, h') | Raise e => (Raise e, h) end.

Definition missing_label (fm : FieldMapping) : string :=
  match source_fields fm with [] => source_field fm | l => str_join ", " l end.
Definition map_field (profile : MappingProfile) (source : hval) (result : nat) (fm : FieldMapping) : HM unit :=
  resolved ← resolve_sources fm source;
  if forallb is_none_val resolved then
    if required fm then
      raise (OtherError ("MappingError: Required field(s) '" ++ missing_label fm ++ "' missing (profile=" ++ profile_id profile ++ ")"))
    else if is_none_val (default_value fm) then mret tt else put result (target_field fm) (default_value fm)
  else
    v ← transformed fm resolved;
    v ← run_extra (extra_transforms fm) v;
    put result (target_field fm) v.

Definition map_document (profile : MappingProfile) (source : hval) : HM nat := fun h =>
  let result := List.length h in
  (_ ← for_each (fun kv => put result kv.1 kv.2) (static_values profile);
   _ ← for_each (map_field profile source result) (field_mappings profile);
   mret result) (h ++ [HDict []])%list.
Fixpoint map_list (profile : MappingProfile) (items : list hval) : HM (list nat) :=
  match items with
  | [] => mret []
  | x :: rest => y ← map_document profile x; ys ← map_list profile rest; mret (y :: ys)
  end.
End mapper.

(** ** Which objects a mapping writes to

    A profile is tidy when no path it writes has a part with [[]], and none lies below another: then
    everything on the way to a target is a dict the mapper made for the document. *)

Fixpoint below (p q : list string) : bool :=
  match p, q with
  | [], _ :: _ => true
  | x :: p, y :: q => String.eqb x y && below p q
  | _, [] => false
  end.
Definition written (profile : MappingProfile) : list (list string) :=
  map (split_char ".") (map fst (static_values profile) ++ map target_field (field_mappings profile))%list.
Definition tidy_paths (paths : list (list string)) : bool :=
  forallb (fun q => forallb (fun part => negb (ends_with "[]" part)) q && forallb (fun p => negb (below p q)) paths) paths.
Definition tidy (profile : MappingProfile) : bool := tidy_paths (written profile).

Lemma below_app p k r : below p (p ++ k :: r)%list = true.
Proof. induction p as [|x p IH]; [done|]. cbn. by rewrite String.eqb_refl. Qed.

(** Writes at the places from [length base] on; [own] says which of them are dicts of the result, and
    at which path. *)
Section ownership.
Context (base : heap) (paths : list (list string)) (Htidy : tidy_paths paths = true).
Abbreviation owners := (nat -> option (list string)).

Definition on_the_way (p : list string) : bool := existsb (below p) paths.
Definition owned_dict (own : owners) (h : heap) (l : nat) (p : list string) : Prop :=
  List.length base <= l /\ exists d, h !! l = Some (HDict d) /\
    forall k v, dget k d = Some v -> on_the_way (p ++ [k])%list = true -> exists a, v = Ref a /\ own a = Some (p ++ [k])%list.
Record sound (own : owners) (h : heap) : Prop := {
  base_kept : take (List.length base) h = base;
  own_dicts : forall l p, own l = Some p -> owned_dict own h l p }.
Definition grows (own own' : owners) : Prop := forall l p, own l = Some p -> own' l = Some p.

Lemma sound_length own h : sound own h -> List.length base <= List.length h.
Proof. intros [Hk _]. apply (f_equal List.length) in Hk. rewrite length_take in Hk. lia. Qed.

Lemma sound_app own h ext : sound own h -> sound own (h ++ ext)%list.
Proof.
  intros Hs. pose proof (sound_length _ _ Hs) as Hl. destruct Hs as [Hk Ho]. split.
  - rewrite take_app_le; [done|lia].
  - intros l p (Hb & d & Hd & Hrest)%Ho. split; [done|]. exists d. split; [by apply lookup_app_l_Some|done].
Qed.

Lemma set_key_dict l k v h d : h !! l = Some (HDict d) -> set_key l k v h = <[l := HDict (dset k v d)]> h.
Proof. unfold set_key. by intros ->. Qed.

(** A write of [v] under the key [k] of a dict of the result. *)
Lemma set_key_sound own h l p k v :
  sound own h -> own l = Some p ->
  (on_the_way (p ++ [k])%list = true -> exists a, v = Ref a /\ own a = Some (p ++ [k])%list) -> sound own (set_key l k v h).
Proof.
  intros Hs Hl Hv. pose proof (own_dicts _ _ Hs l p Hl) as (Hb & d & Hd & _).
  rewrite (set_key_dict _ _ _ _ _ Hd). split.
  - rewrite take_insert_ge; [apply Hs|lia].
  - intros l' p' Hl'. pose proof (own_dicts _ _ Hs l' p' Hl') as (Hb' & d' & Hd' & Hrest).
    split; [done|]. destruct (decide (l = l')) as [<-|Hne].
    + replace d' with d in * by congruence. replace p' with p in * by congruence.
      exists (dset k v d). split; [by apply list_lookup_insert_eq, (lookup_lt_Some _ _ _ Hd)|].
      intros k' v'. rewrite dget_dset. destruct (String.eqb_spec k' k) as [->|]; [intros [= <-]; exact Hv|by apply Hrest].
    + exists d'. by rewrite list_lookup_insert_ne.
Qed.

Lemma step_into_sound own h l p k :
  sound own h -> own l = Some p -> on_the_way (p ++ [k])%list = true ->
  exists own', let '(a, h') := step_into l k h in
    sound own' h' /\ grows own own' /\ own' a = Some (p ++ [k])%list.
Proof.
  intros Hs Hl Hway. pose proof (own_dicts _ _ Hs l p Hl) as (Hb & d & Hd & Hrest).
  unfold step_into, key_of. rewrite Hd. destruct (dget k d) as [v|] eqn:Hk.
  - destruct (Hrest k v Hk Hway) as (a & -> & Ha).
    pose proof (own_dicts _ _ Hs a _ Ha) as (_ & da & Hda & _). rewrite Hda. exists own. split; [done|]. by split; [intros ?|].
  - pose (own' := fun l' => if decide (l' = List.length h) then Some (p ++ [k])%list else own l').
    assert (grows own own') as Hg.
    { intros l' p' H'. unfold own'. case_decide as E; [|done].
      pose proof (own_dicts _ _ Hs l' p' H') as (_ & d' & Hd'%lookup_lt_Some & _). lia. }
    exists own'. cbn [new]. rewrite length_app, Nat.add_sub.
    assert (own' (List.length h) = Some (p ++ [k])%list) as Hnew by (unfold own'; by case_decide).
    split; [|done]. apply (set_key_sound _ _ _ p); [|by apply Hg|intros _; by eexists].
    pose proof (sound_app own h [HDict []] Hs) as Hs'. split; [apply Hs'|].
    intros l' p' H'. unfold own' in H'. case_decide as E.
    + injection H' as <-. subst l'. split; [by apply sound_length in Hs|].
      exists []. by rewrite lookup_app_r, Nat.sub_diag by lia.
    + destruct (own_dicts _ _ Hs' l' p' H') as (Hb' & d' & Hd' & Hr'). split; [done|]. exists d'. split; [done|].
      intros k' v' Hk' Hw'. destruct (Hr' k' v' Hk' Hw') as (a & -> & Ha). exists a. auto.
Qed.

Lemma undotted_parts q part : q ∈ paths -> part ∈ q -> array_key part = None.
Proof.
  intros Hq Hp. unfold tidy_paths in Htidy. rewrite forallb_forall in Htidy.
  apply list_elem_of_In, Htidy, andb_prop in Hq as [Hq _]. rewrite forallb_forall in Hq.
  apply list_elem_of_In, Hq, negb_true_iff in Hp. unfold array_key. by rewrite Hp.
Qed.
Lemma target_off_the_way q : q ∈ paths -> on_the_way q = false.
Proof.
  intros Hq. unfold on_the_way. apply not_true_is_false. intros (r & Hr & Hb)%existsb_exists.
  unfold tidy_paths in Htidy. rewrite forallb_forall in Htidy.
  apply Htidy, andb_prop in Hr as [_ Hr]. rewrite forallb_forall in Hr.
  apply list_elem_of_In, Hr in Hq. by rewrite Hb in Hq.
Qed.

Lemma set_parts_sound parts : forall own h l p v,
  sound own h -> own l = Some p -> (p ++ parts)%list ∈ paths ->
  exists own' h', set_parts parts l v h = Ok h' /\ sound own' h' /\ grows own own'.
Proof.
  induction parts as [|part rest IH]; intros own h l p v Hs Hl Hin.
  - exists own, h. split; [done|]. by split; [|intros ?].
  - assert (array_key part = None) as Hplain by (apply (undotted_parts _ _ Hin), elem_of_app; right; left).
    destruct rest as [|next rest]; cbn [set_parts]; rewrite Hplain.
    + exists own, (set_key l part v h). split; [done|]. split; [|by intros ?].
      apply (set_key_sound _ _ _ p); [done|done|]. by rewrite (target_off_the_way _ Hin).
    + assert (on_the_way (p ++ [part])%list = true) as Hway.
      { apply existsb_exists. exists (p ++ part :: next :: rest)%list. split; [by apply list_elem_of_In|].
        replace (p ++ part :: next :: rest)%list with ((p ++ [part]) ++ next :: rest)%list by by rewrite <- app_assoc.
        apply below_app. }
      destruct (step_into_sound own h l p part Hs Hl Hway) as (own1 & H1).
      destruct (step_into l part h) as [a h1]. destruct H1 as (Hs1 & Hg1 & Ha).
      destruct (IH own1 h1 a (p ++ [part])%list v Hs1 Ha) as (own2 & h2 & E & Hs2 & Hg2); [by rewrite <- app_assoc|].
      exists own2, h2. split; [exact E|]. split; [done|]. intros l' p' H'. auto.
Qed.
End ownership.

Section isolation.
Context (lib : TextLib) (as_decimal : string -> option pyval) (as_date as_datetime : string -> res pyval).
Context (format_value : string -> pyval -> res string) (custom : string -> option (pyval -> res pyval)).
Context (base : heap) (profile : MappingProfile) (result : nat).

(** Only dicts the mapper made were written to since [base]. *)
Definition confined (h : heap) : Prop := exists own, sound base (written profile) own h /\ own result = Some [].

Lemma confined_app h ext : confined h -> confined (h ++ ext)%list.
Proof. intros (own & Hs & Hr). exists own. split; [by apply sound_app|done]. Qed.

(** Reading and creating values only appends to the heap. *)
Definition appends (h h' : heap) : Prop := exists ext, h' = (h ++ ext)%list.
#[local] Instance appends_preorder : PreOrder appends.
Proof.
  split; [intros h; exists []; by rewrite app_nil_r|].
  intros h1 h2 h3 [e1 ->] [e2 ->]. exists (e1 ++ e2)%list. by rewrite app_assoc.
Qed.
Lemma confined_appends h h' : appends h h' -> confined h -> confined h'.
Proof. intros [ext ->]. apply confined_app. Qed.

Lemma thread_appends {A B} (f : A -> heap -> B * heap) l :
  Forall (fun x => forall h, appends h (f x h).2) l -> forall h, appends h (thread f l h).2.
Proof.
  induction 1 as [|x l Hx _ IH]; intros h; [reflexivity|]. cbn. specialize (Hx h).
  destruct (f x h) as [y h1]. specialize (IH h1). destruct (thread f l h1) as [ys h2]. by transitivity h1.
Qed.
Lemma then_new_appends {A} (o : A -> object) (m : A * heap) h : appends h m.2 -> appends h (let '(a, h) := m in new (o a) h).2.
Proof. destruct m as [a h1]. cbn. intros H. transitivity h1; [done|]. by exists [o a]. Qed.

Lemma alloc_appends v : forall h, appends h (alloc v h).2.
Proof.
  induction v as [ | | | | |l IH|d IH] using pyval_nested_ind; intros h; try reflexivity; cbn [alloc].
  - by apply (then_new_appends HList), thread_appends.
  - apply (then_new_appends HDict), thread_appends. eapply Forall_impl; [|exact IH]. intros [k x] Hx h'. cbn in *.
    specialize (Hx h'). by destruct (alloc x h').
Qed.
Lemma get_parts_appends parts : forall v h, appends h (get_parts parts v h).2.
Proof.
  induction parts as [|part rest IH]; intros v h; [reflexivity|]. cbn [get_parts].
  destruct (as_object h v) as [[d|items]|]; try reflexivity.
  destruct (array_key part) as [key|]; [|by destruct (dget part d)].
  destruct (dget key d) as [[x|l]|]; try reflexivity. destruct (h !! l) as [[d'|items]|]; try reflexivity.
  destruct (String.eqb _ _); [reflexivity|]. apply (then_new_appends HList), thread_appends. by apply Forall_true.
Qed.

Lemma confined_making {A} (f : heap -> A * heap) : (forall h, appends h (f h).2) -> preserves confined (making f).
Proof. intros Hf h Hh. unfold making. specialize (Hf h). destruct (f h) as [a h']. by apply (confined_appends h). Qed.
#[local] Hint Resolve confined_making alloc_appends : effects.

Lemma resolve_confined fm source : preserves confined (resolve_sources fm source).
Proof. apply confined_making. intros h. apply thread_appends, Forall_true. intros p h'. apply get_parts_appends. Qed.
Lemma transformed_confined fm objects :
  preserves confined (transformed lib as_decimal as_date as_datetime format_value custom fm objects).
Proof. unfold transformed. preserve. Qed.
#[local] Hint Resolve resolve_confined transformed_confined : effects.
Lemma run_extra_confined extras : forall v,
  preserves confined (run_extra lib as_decimal as_date as_datetime format_value custom extras v).
Proof. induction extras as [|fm rest IH]; intros v; cbn [run_extra]; preserve. Qed.

Context (Htidy : tidy profile = true).
Lemma put_confined path v : split_char "." path ∈ written profile -> preserves confined (put result path v).
Proof.
  intros Hin h (own & Hs & Hr). unfold put, set_nested.
  destruct (set_parts_sound base _ Htidy (split_char "." path) own h result [] v Hs Hr Hin) as (own' & h' & -> & Hs' & Hg).
  exists own'. auto.
Qed.
Lemma map_field_confined source fm :
  fm ∈ field_mappings profile ->
  preserves confined (map_field lib as_decimal as_date as_datetime format_value custom profile source result fm).
Proof.
  intros Hin. assert (split_char "." (target_field fm) ∈ written profile) as Ht.
  { unfold written. rewrite map_app. apply elem_of_app. right. apply list_elem_of_In, in_map, in_map, list_elem_of_In, Hin. }
  unfold map_field. preserve; first [by apply put_confined|by apply run_extra_confined].
Qed.

Lemma statics_confined : preserves confined (for_each (fun kv => put result kv.1 kv.2) (static_values profile)).
Proof.
  apply preserves_for. intros kv Hin. apply put_confined. unfold written. rewrite map_app. apply elem_of_app. left.
  by apply list_elem_of_In, in_map, in_map, list_elem_of_In.
Qed.
End isolation.

Lemma confined_start base profile : confined base profile (List.length base) (base ++ [HDict []])%list.
Proof.
  exists (fun l => if decide (l = List.length base) then Some [] else None). split; [|by case_decide]. split.
  - by rewrite take_app_length.
  - intros l p H. case_decide as E; [|done]. injection H as <-. subst l. split; [done|].
    exists []. by rewrite lookup_app_r, Nat.sub_diag by lia.
Qed.

Section batches.
Context (lib : TextLib) (as_decimal : string -> option pyval) (as_date as_datetime : string -> res pyval).
Context (format_value : string -> pyval -> res string) (custom : string -> option (pyval -> res pyval)).
Abbreviation map_one := (map_document lib as_decimal as_date as_datetime format_value custom).
Abbreviation map_all := (map_list lib as_decimal as_date as_datetime format_value custom).

Lemma map_document_keeps profile source : forall h, tidy profile = true -> h `prefix_of` (map_one profile source h).2.
Proof.
  intros h Ht. assert (confined h profile (List.length h) (map_one profile source h).2) as (own & [Hk _] & _).
  - unfold map_document. apply preserves_bind; [by apply statics_confined| |apply confined_start].
    intros _. preserve. by apply map_field_confined.
  - rewrite <- Hk at 1. apply prefix_take.
Qed.

Lemma map_list_keeps profile sources : tidy profile = true -> forall h0, preserves (fun h => h0 `prefix_of` h) (map_all profile sources).
Proof.
  intros Ht h0. induction sources as [|x rest IH]; cbn [map_list]; preserve.
  intros h Hh. transitivity h; [done|]. by apply map_document_keeps.
Qed.

(** C9: a tidy profile maps each document on its own: whatever the documents and the rules, and with or
    without an exception, mapping a batch changes no object there was before (no default or static value
    of the profile, no source document), and the rest of a batch changes no document already made. *)
Theorem tidy_batches_are_isolated profile sources h :
  tidy profile = true ->
  h `prefix_of` (map_all profile sources h).2 /\
  forall first rest results h1, sources = (first ++ rest)%list -> map_all profile first h = (Ok results, h1) ->
    h1 `prefix_of` (map_all profile sources h).2.
Proof.
  intros Ht. split; [by apply (map_list_keeps profile sources Ht h)|].
  intros first rest results h1 ->. revert h results. induction first as [|x first IH]; intros h results E.
  - injection E as _ <-. by apply (map_list_keeps profile rest Ht h).
  - cbn [map_list app] in *. apply bind_returned in E as (r & h2 & E1 & E).
    apply bind_returned in E as (rs & h3 & E2 & E). injection E as _ <-.
    rewrite (bind_run _ _ _ _ _ E1). specialize (IH h2 rs E2). unfold mbind, EM_bind.
    by destruct (map_all profile (first ++ rest)%list h2) as [[rs'|e] h4].
Qed.
End batches.

(** ** Demonstrations *)

Definition rule (source target : string) (t : TransformType) : FieldMapping :=
  {| source_field := source; source_fields := []; target_field := target; transform := t; default_value := Atom PNone;
     required := false; value_map := [("SENT", "shipped")]; template := ""; custom_transform_name := ""; regex_pattern := "";
     regex_group := 0; regex_replacement := ""; separator := ""; input_format := ""; output_format := "";
     math_operation := ""; math_operand := S754_zero false; prepend_value := "no. "; append_value := "";
     substring_start := 0; substring_end := None; extra_transforms := [] |}.
Definition no_format (s : string) (v : pyval) : res string := Raise (KeyError "'x'").
Definition run_batch (profile : MappingProfile) (docs : list pyval) (h : heap) : res (list pyval) * heap :=
  let '(sources, h) := thread alloc docs h in
  let '(r, h) := map_list no_lib (fun _ => None) (fun s => Ok (PStr s)) (fun s => Ok (PStr s)) no_format (fun _ => None) profile sources h in
  (map (fun l => read h (Ref l)) <$> r, h).

(** The default of each document is one dict of the profile. *)
Definition defaults : heap := [HDict [("country", Atom (PStr "PL"))]].
Definition order_profile (rules : list FieldMapping) (statics : list (string * hval)) : MappingProfile :=
  {| profile_id := "orders"; field_mappings := rules; static_values := statics |}.

Definition tidy_profile : MappingProfile :=
  order_profile [rule "id" "head.number" PREPEND; rule "state" "head.status" MAP_VALUE; rule "lines[].sku" "skus" NONE]
    [("address", Ref 0)].
Definition first_order : pyval :=
  PDict [("id", PInt 7); ("state", PStr "SENT"); ("lines", PList [PDict [("sku", PStr "A")]; PDict []]); ("city", PStr "Krakow")].
Definition second_order : pyval := PDict [("id", PInt 8); ("state", PStr "LOST")].

Example tidy_batch :
  (run_batch tidy_profile [first_order; second_order] defaults).1
  = Ok [PDict [("address", PDict [("country", PStr "PL")]);
               ("head", PDict [("number", PStr "no. 7"); ("status", PStr "shipped")]);
               ("skus", PList [PStr "A"; PNone])];
        PDict [("address", PDict [("country", PStr "PL")]); ("head", PDict [("number", PStr "no. 8"); ("status", PNone)])]].
Proof. vm_compute. reflexivity. Qed.

(** A target below a static value: the static value is the profile's own dict, so the city of the first
    document stays in it, and the second document, which has no city, shows it too. *)
Definition leaking_profile : MappingProfile := order_profile [rule "city" "address.city" NONE] [("address", Ref 0)].
Example untidy_batch_leaks :
  tidy leaking_profile = false /\
  (run_batch leaking_profile [first_order; second_order] defaults).1
  = Ok [PDict [("address", PDict [("country", PStr "PL"); ("city", PStr "Krakow")])];
        PDict [("address", PDict [("country", PStr "PL"); ("city", PStr "Krakow")])]].
Proof. split; vm_compute; reflexivity. Qed.

(** A target below a value taken from the source: the source document is changed. *)
Example untidy_rule_changes_the_source :
  let h := (alloc (PDict [("a", PDict [("x", PInt 1)]); ("b", PInt 2)]) []).2 in
  let profile := order_profile [rule "a" "out" NONE; rule "b" "out.y" NONE] [] in
  let h' := (map_list no_lib (fun _ => None) (fun s => Ok (PStr s)) (fun s => Ok (PStr s)) no_format (fun _ => None)
               profile [Ref 1] h).2 in
  read h' (Ref 1) = PDict [("a", PDict [("x", PInt 1); ("y", PInt 2)]); ("b", PInt 2)].
Proof. vm_compute. reflexivity. Qed.

(** The names of [line_items[].offer.name] are read, and lost on the way to [positions[].article.name]. *)
Example names_of_positions_are_lost :
  (run_batch (order_profile [rule "line_items[].offer.name" "positions[].article.name" NONE] [])
     [PDict [("line_items", PList [PDict [("offer", PDict [("name", PStr "Mug")])]])]] []).1
  = Ok [PDict [("positions", PList [])]].
Proof. vm_compute. reflexivity. Qed.

Lemma tidy_batches_are_isolated_witness :
  let h := (thread alloc [first_order] defaults).2 in
  tidy tidy_profile = true /\
  h `prefix_of` (map_list no_lib (fun _ => None) (fun s => Ok (PStr s)) (fun s => Ok (PStr s)) no_format (fun _ => None)
                   tidy_profile [Ref 4; Ref 4] h).2.
Proof.
  split; [vm_compute; reflexivity|].
  exact (proj1 (tidy_batches_are_isolated no_lib (fun _ => None) (fun s => Ok (PStr s)) (fun s => Ok (PStr s)) no_format
                  (fun _ => None) tidy_profile [Ref 4; Ref 4] (thread alloc [first_order] defaults).2 eq_refl)).
Defined.
