(* ===== verification/PosixPath.v ===== *)
(** Python's [pathlib.PurePosixPath] and [os.path.normpath], on which the file connectors decide
    what a client may reach, and [fnmatch.fnmatch] on POSIX, for names of ASCII. *)

From S2P Require Import Prelude PyText.

Local Open Scope string_scope.

(** A path: [""], ["/"] or ["//"], and its parts, without the empty ones and the dots. *)
Record purepath := MkPath { anchor : string; parts : list string }.

#[export] Instance purepath_dec : EqDecision purepath.
Proof. solve_decision. Defined.

(** Exactly two leading slashes are kept. *)
Definition anchor_of (s : string) : string :=
  match s with
  | String "/" (String "/" (String "/" _)) => "/"
  | String "/" (String "/" _) => "//"
  | String "/" _ => "/"
  | _ => ""
  end.
Definition is_part (s : string) : bool := negb (String.eqb s "" || String.eqb s ".").
Definition pure_path (s : string) : purepath := MkPath (anchor_of s) (List.filter is_part (split_char "/" s)).

(** [str(p)]. *)
Definition path_text (p : purepath) : string :=
  match anchor p, parts p with
  | "", [] => "."
  | a, l => a ++ str_join "/" l
  end.
(** [a / b]: an absolute path replaces what is before it. *)
Definition path_join (a b : purepath) : purepath :=
  if String.eqb (anchor b) "" then MkPath (anchor a) (parts a ++ parts b)%list else b.
Definition path_name (p : purepath) : string := List.last (parts p) "".
Definition path_parent (p : purepath) : purepath := MkPath (anchor p) (removelast (parts p)).

(** [p.relative_to(base)] raises [ValueError] unless this holds. *)
Definition is_relative_to (p base : purepath) : bool :=
  String.eqb (anchor p) (anchor base) && bool_decide (parts base `prefix_of` parts p).

(** [os.path.normpath]: the parts so far, the last one first. *)
Definition normal_step (rooted : bool) (done : list string) (part : string) : list string :=
  if negb (is_part part) then done
  else if negb (String.eqb part "..") then part :: done
  else match done with
       | [] => if rooted then [] else [part]
       | last :: rest => if String.eqb last ".." then part :: done else rest
       end.
Definition normal_parts (rooted : bool) (l : list string) : list string := rev (fold_left (normal_step rooted) l []).
Definition normpath (s : string) : string :=
  path_text (MkPath (anchor_of s) (normal_parts (negb (String.eqb (anchor_of s) "")) (split_char "/" s))).

Example normal_paths :
  map normpath ["/data/../etc"; "//data//x/."; "///x"; "a/b/../../../c"; ""; "/.."; "a/.."]
  = ["/etc"; "//data/x"; "/x"; "../c"; "."; "/"; "."].
Proof. reflexivity. Qed.

(** ** Texts and paths *)

(** What [pure_path] gives. *)
Definition good_part (s : string) : Prop := is_part s = true /\ has_no "/" s = true.
Definition good_path (p : purepath) : Prop :=
  (anchor p = "" \/ anchor p = "/" \/ anchor p = "//") /\ Forall good_part (parts p).

Lemma good_part_head s : good_part s -> exists c t, s = String c t /\ c <> "/"%char.
Proof.
  intros [Hp Hs]. destruct s as [|c t]; [done|]. exists c, t. split; [done|]. intros ->. by cbn in Hs.
Qed.

Lemma pure_path_good s : good_path (pure_path s).
Proof.
  split.
  - cbn. destruct s as [|c s]; [by left|]. unfold anchor_of. repeat (case_match; auto).
  - cbn. apply Forall_forall. intros w Hw. apply filter_In in Hw as [Hw Hp].
    split; [done|]. pose proof (split_char_parts "/" s) as Hf. rewrite Forall_forall in Hf.
    by apply Hf.
Qed.

Lemma filter_good l : Forall good_part l -> List.filter is_part l = l.
Proof. induction 1 as [|s l [Hp _] _ IH]; [done|]. cbn. by rewrite Hp, IH. Qed.

Lemma split_joined l : Forall good_part l -> List.filter is_part (split_char "/" (str_join "/" l)) = l.
Proof.
  intros Hl. destruct l as [|s l]; [done|]. change "/" with (str1 "/"). rewrite split_join; [|done|].
  - by apply filter_good.
  - eapply List.Forall_impl; [|exact Hl]. by intros w [_ Hw].
Qed.

Definition slashed (s : string) : Prop := exists t, s = String "/" t.
Lemma joined_head l : Forall good_part l -> ~ slashed (str_join "/" l).
Proof.
  intros Hl [t Ht]. destruct Hl as [|s l Hs Hl]; [done|]. apply good_part_head in Hs as (c & r & -> & Hc).
  destruct l; cbn in Ht; congruence.
Qed.
Lemma anchor_of_app (a : string) s :
  (a = "" \/ a = "/" \/ a = "//") -> ~ slashed s -> anchor_of (a ++ s) = a.
Proof.
  intros Ha Hs. assert (forall c t, s = String c t -> c <> "/"%char) as Hc by (intros c t -> ->; apply Hs; by exists t).
  destruct s as [|c t]; [by destruct Ha as [->|[->| ->]]|]. specialize (Hc c t eq_refl).
  destruct Ha as [->|[->| ->]]; cbn [String.append anchor_of]; repeat (case_match; try done); congruence.
Qed.
Lemma kept_parts (a : string) s :
  (a = "" \/ a = "/" \/ a = "//") -> List.filter is_part (split_char "/" (a ++ s)) = List.filter is_part (split_char "/" s).
Proof. by intros [->|[->| ->]]. Qed.

(** Printing and reading a path. *)
Lemma pure_path_text p : good_path p -> pure_path (path_text p) = p.
Proof.
  destruct p as [a l]. intros [Ha Hl]. cbn in Ha, Hl.
  destruct (decide (a = "" /\ l = [])) as [[-> ->]|Hne]; [done|].
  replace (path_text (MkPath a l)) with (a ++ str_join "/" l)%string.
  - unfold pure_path. rewrite anchor_of_app, kept_parts, split_joined by (done || by apply joined_head). done.
  - unfold path_text. cbn [anchor parts]. destruct a; [|done]. destruct l; [by destruct Hne|done].
Qed.

(** ** Normal paths *)

Lemma normal_step_good rooted acc part :
  has_no "/" part = true -> Forall good_part acc -> Forall good_part (normal_step rooted acc part).
Proof.
  intros Hs Hd. unfold normal_step. destruct (is_part part) eqn:Hp; [|done]. cbn [negb].
  destruct (String.eqb_spec part "..") as [->|]; cbn [negb]; [|by constructor].
  destruct Hd as [|x l Hx Hl]; [by destruct rooted; repeat constructor|]. destruct (String.eqb x ".."); [constructor; [done|by constructor]|done].
Qed.
Lemma fold_normal_good rooted l : forall acc,
  Forall (fun w => has_no "/" w = true) l -> Forall good_part acc -> Forall good_part (fold_left (normal_step rooted) l acc).
Proof.
  induction l as [|x l IH]; intros acc Hl Hd; [done|]. apply Forall_cons_1 in Hl as [Hx Hl]. cbn. apply IH; [done|].
  by apply normal_step_good.
Qed.
Lemma anchor_of_cases s : anchor_of s = "" \/ anchor_of s = "/" \/ anchor_of s = "//".
Proof. apply (pure_path_good s). Qed.

Lemma pure_normpath s :
  pure_path (normpath s) = MkPath (anchor_of s) (normal_parts (negb (String.eqb (anchor_of s) "")) (split_char "/" s)).
Proof.
  apply pure_path_text. split; [apply anchor_of_cases|]. cbn. apply Forall_rev.
  apply fold_normal_good; [apply split_char_parts|constructor].
Qed.

(** Parents, where they remain, come first; a rooted path has none. *)
Definition parents_first (rooted : bool) (acc : list string) : Prop :=
  exists n plain, acc = (plain ++ (repeat ".." n))%list /\ (".." ∉ plain) /\ (rooted = true -> n = 0).

Lemma normal_step_parents rooted acc part : parents_first rooted acc -> parents_first rooted (normal_step rooted acc part).
Proof.
  intros (n & plain & -> & Hp & Hr). unfold normal_step. destruct (is_part part); cbn [negb]; [|by exists n, plain].
  destruct (String.eqb_spec part "..") as [->|Hne]; cbn [negb].
  - destruct plain as [|x plain].
    + cbn [app]. destruct n as [|n]; cbn [repeat].
      * destruct rooted; [by exists 0, []|]. exists 1, []. split_and!; [done|by apply not_elem_of_nil|done].
      * destruct rooted; [by specialize (Hr eq_refl)|]. exists (S (S n)), []. split_and!; [done|by apply not_elem_of_nil|done].
    + apply not_elem_of_cons in Hp as [Hx Hp]. cbn [app]. destruct (String.eqb_spec x ".."); [by subst|]. by exists n, plain.
  - exists n, (part :: plain). split_and!; [done| |done]. apply not_elem_of_cons. split; [congruence|done].
Qed.
Lemma normal_parts_parents rooted l : exists n plain,
  normal_parts rooted l = ((repeat ".." n) ++ plain)%list /\ (".." ∉ plain) /\ (rooted = true -> n = 0).
Proof.
  assert (parents_first rooted (fold_left (normal_step rooted) l [])) as (n & plain & E & Hp & Hr).
  { assert (parents_first rooted []) as H0 by (exists 0, []; split_and!; [done|apply not_elem_of_nil|done]).
    revert H0. generalize (@nil string) as d. induction l as [|x l IH]; intros d Hd; [exact Hd|].
    cbn. by apply IH, normal_step_parents. }
  exists n, (rev plain). unfold normal_parts. rewrite E, rev_app_distr, rev_repeat. split_and!; [done| |done].
  intros Hin%list_elem_of_In. apply in_rev, list_elem_of_In in Hin. by apply Hp.
Qed.

(** A normal path below a base: nothing after the base goes up, if the base has an anchor or ends in a
    name. *)
Definition firm_base (base : purepath) : bool :=
  negb (String.eqb (anchor base) "") || match rev (parts base) with [] => false | x :: _ => negb (String.eqb x "..") end.

Lemma relative_parts p base : is_relative_to p base = true ->
  anchor p = anchor base /\ exists rest, parts p = (parts base ++ rest)%list.
Proof.
  unfold is_relative_to. intros [Ha Hp]%andb_prop. apply String.eqb_eq in Ha. apply bool_decide_eq_true in Hp as [rest Hr]. eauto.
Qed.

Lemma normal_below s base :
  firm_base base = true -> is_relative_to (pure_path (normpath s)) base = true ->
  exists rest, pure_path (normpath s) = MkPath (anchor base) (parts base ++ rest)%list /\ ".." ∉ rest.
Proof.
  intros Hf Hr. apply relative_parts in Hr as [Ha (rest & Hr)]. exists rest.
  rewrite pure_normpath in *. cbn [anchor parts] in *. split; [by rewrite Hr, Ha|].
  rewrite Ha in Hr. unfold firm_base in Hf.
  destruct (normal_parts_parents (negb (String.eqb (anchor base) "")) (split_char "/" s)) as (n & plain & E & Hp & Hn).
  rewrite E in Hr. destruct (String.eqb (anchor base) ""); cbn [negb orb] in *.
  - destruct (rev (parts base)) as [|x l] eqn:Eb; [done|]. apply negb_true_iff, String.eqb_neq in Hf.
    assert (parts base = rev l ++ [x])%list as Hb by (by rewrite <- (rev_involutive (parts base)), Eb).
    assert (n <= List.length (rev l)) as Hle.
    { destruct (decide (n <= List.length (rev l))) as [|Hgt]; [done|]. destruct Hf.
      assert (((rev l ++ [x]) ++ rest)%list !! List.length (rev l) = Some x) as Hx.
      { rewrite <- app_assoc. by apply list_lookup_middle. }
      rewrite <- Hb, <- Hr, lookup_app_l in Hx by (rewrite repeat_length; lia).
      apply list_elem_of_lookup_2, list_elem_of_In, repeat_spec in Hx. exact Hx. }
    intros Hin. apply Hp. replace rest with (drop (List.length (parts base)) (parts base ++ rest)%list) in Hin
      by apply drop_app_length.
    rewrite <- Hr, drop_app_ge in Hin by (rewrite repeat_length, Hb, length_app; lia).
    rewrite <- (take_drop (List.length (parts base) - List.length (repeat ".." n)) plain). apply elem_of_app. by right.
  - rewrite (Hn eq_refl) in Hr. cbn [repeat app] in Hr. intros Hin. apply Hp. rewrite Hr. apply elem_of_app. by right.
Qed.

(** ** [fnmatch.fnmatch]

    A pattern is read into tokens, which are matched against the whole name. *)

Inductive token :=
  | Star
  | AnyChar
  | OneOf (negated : bool) (ranges : list (ascii * ascii))
  | Char (c : ascii).

(** What is between the brackets of a set, and what follows it: a bracket closes the set unless it comes
    first. *)
Fixpoint set_body (first : bool) (s : string) : option (string * string) :=
  match s with
  | EmptyString => None
  | String c s' =>
      if Ascii.eqb c "]" && negb first then Some (EmptyString, s')
      else match set_body false s' with Some (body, rest) => Some (String c body, rest) | None => None end
  end.

(** The ranges of a set: a dash between two characters makes one; a single character is a range of its own. *)
Fixpoint set_ranges (s : string) : list (ascii * ascii) :=
  match s with
  | String a (String "-" (String b s')) => (a, b) :: set_ranges s'
  | String a s' => (a, a) :: set_ranges s'
  | EmptyString => []
  end.
Definition set_token (body : string) : token :=
  match body with
  | String "!" body => OneOf true (set_ranges body)
  | _ => OneOf false (set_ranges body)
  end.

Fixpoint tokens (fuel : nat) (s : string) : list token :=
  match fuel, s with
  | S fuel, String c s' =>
      if Ascii.eqb c "*" then Star :: tokens fuel s'
      else if Ascii.eqb c "?" then AnyChar :: tokens fuel s'
      else if Ascii.eqb c "[" then
        let '(mark, body) := match s' with String "!" t => ("!", t) | _ => ("", s') end in
        match set_body true body with
        | Some (inside, rest) => set_token (mark ++ inside) :: tokens fuel rest
        | None => Char c :: tokens fuel s'
        end
      else Char c :: tokens fuel s'
  | _, _ => []
  end.

Definition in_range (c : ascii) (r : ascii * ascii) : bool := Ascii.leb r.1 c && Ascii.leb c r.2.
Definition takes (t : token) (c : ascii) : bool :=
  match t with
  | Star => false
  | AnyChar => true
  | OneOf negated ranges => xorb negated (existsb (in_range c) ranges)
  | Char d => Ascii.eqb c d
  end.

(** The suffixes of a text, the text first. *)
Fixpoint suffixes (s : string) : list string :=
  s :: match s with EmptyString => [] | String _ s' => suffixes s' end.
Fixpoint matches (ts : list token) (s : string) : bool :=
  match ts with
  | [] => String.eqb s ""
  | Star :: ts' => existsb (matches ts') (suffixes s)
  | t :: ts' => match s with String c s' => takes t c && matches ts' s' | EmptyString => false end
  end.
Definition fnmatch (name pattern : string) : bool := matches (tokens (String.length pattern) pattern) name.

Example patterns :
  map (fun p => fnmatch "order-17.csv" p) ["*.csv"; "order-??.csv"; "order-[0-9][!0-6].csv"; "*"; "[a-n]*"; "order*.xml"; ""; "order-17.csv*"; "[]o]*[.]csv"]
  = [true; true; true; true; false; false; false; true; true].
Proof. reflexivity. Qed.

(** Every name is matched by a star, and a pattern without the special characters matches itself only. *)
Lemma star_matches name : fnmatch name "*" = true.
Proof. cbn. induction name as [|c s IH]; [done|]. cbn. by rewrite IH. Qed.

Definition plain_char (c : ascii) : bool := negb (existsb (Ascii.eqb c) ["*"; "?"; "["]%char).
Lemma plain_pattern name pattern : str_forall plain_char pattern = true -> fnmatch name pattern = String.eqb name pattern.
Proof.
  unfold fnmatch. revert name. induction pattern as [|c p IH]; intros name; [done|]. cbn [str_forall].
  intros [Hc Hp]%andb_prop. cbn [String.length tokens]. unfold plain_char in Hc. apply negb_true_iff in Hc.
  cbn in Hc. apply orb_false_iff in Hc as [H1 Hc]. apply orb_false_iff in Hc as [H2 Hc]. apply orb_false_iff in Hc as [H3 _].
  rewrite H1, H2, H3. cbn [matches takes]. destruct name as [|d name]; [done|]. rewrite IH by done.
  cbn. by destruct (Ascii.eqb d c).
Qed.
