(* ===== verification/FilePollers.v ===== *)
(** What the connectors of file stores share ([integrators/other/ftp-sftp] and [integrators/other/s3]):
    accounts read from the environment, the store of the files known ([models/database.py]) and the
    announcement of new files ([ftp_client/poller.py], [s3_client/poller.py]).

    The state holds the files known by account and what was sent, newest first; Kafka and the clock
    are functions of what was sent. *)

From S2P Require Import Prelude PyText PyValue Effects WmsPoller.

Local Open Scope string_scope.

(** ** Accounts in the environment *)

Section environment.
(** [os.getenv]; the name of the variable that holds the name of the [i]-th account. *)
Context (env : list (string * string)) (name_key : nat -> string).

Definition getenv (key fallback : string) : string := default fallback (dget key env).
Definition is_set (key : string) : bool := match dget key env with None | Some "" => false | Some _ => true end.
(** The positions read, from [idx] to the first whose name is not set. *)
Fixpoint env_positions (fuel idx : nat) : list nat :=
  match fuel with
  | O => []
  | S fuel => if is_set (name_key idx) then idx :: env_positions fuel (S idx) else []
  end.
Definition account_positions : list nat := env_positions (S (List.length env)) 0.

Lemma env_positions_seq fuel : forall idx, exists n,
  env_positions fuel idx = seq idx n /\ n <= fuel /\ (n < fuel -> is_set (name_key (idx + n)) = false).
Proof.
  induction fuel as [|fuel IH]; intros idx; cbn [env_positions]; [exists 0; split_and!; [done|lia|lia]|].
  destruct (is_set (name_key idx)) eqn:E; [|exists 0; rewrite Nat.add_0_r; split_and!; [done|lia|done]].
  destruct (IH (S idx)) as (n & -> & Hn & Hs). exists (S n). cbn [seq]. split_and!; [done|lia|].
  intros Hlt. rewrite Nat.add_succ_r. apply Hs. lia.
Qed.
Lemma is_set_key key : is_set key = true -> key ∈ dkeys env.
Proof.
  unfold is_set. destruct (dget key env) as [v|] eqn:E; [|done]. intros _.
  destruct (decide (key ∈ dkeys env)) as [|Hn]; [done|]. apply dget_None in Hn. congruence.
Qed.

(** The reading ends at the first position that is not set: the positions read are [0 .. n-1], all of
    them set, and [n] is not. *)
Lemma all_positions_read : (forall i j, name_key i = name_key j -> i = j) -> exists n,
  account_positions = seq 0 n /\ (forall i, i < n -> is_set (name_key i) = true) /\ is_set (name_key n) = false.
Proof.
  intros Hinj. unfold account_positions. destruct (env_positions_seq (S (List.length env)) 0) as (n & E & Hn & Hs).
  assert (forall fuel idx i, i ∈ env_positions fuel idx -> is_set (name_key i) = true) as Hset.
  { induction fuel as [|fuel IH]; intros idx i; cbn [env_positions]; [by intros Hi%not_elem_of_nil|].
    destruct (is_set (name_key idx)) eqn:Ei; [|by intros Hi%not_elem_of_nil]. intros [->|Hi]%elem_of_cons; eauto. }
  assert (forall i, i < n -> is_set (name_key i) = true) as Hall.
  { intros i Hi. apply (Hset (S (List.length env)) 0). rewrite E. apply elem_of_seq. lia. }
  exists n. split; [done|]. split; [done|]. apply Hs.
  destruct (decide (n < S (List.length env))) as [|Hge]; [done|]. exfalso.
  assert (List.NoDup (map name_key (seq 0 n))) as Hnd by (apply Finite.Injective_map_NoDup; [exact Hinj|apply List.seq_NoDup]).
  assert (incl (map name_key (seq 0 n)) (dkeys env)) as Hincl.
  { intros k (i & <- & Hi)%in_map_iff. apply list_elem_of_In, is_set_key, Hall. apply in_seq in Hi. lia. }
  pose proof (NoDup_incl_length Hnd Hincl) as Hlen. rewrite length_map, length_seq in Hlen.
  unfold dkeys in Hlen. rewrite length_map in Hlen. lia.
Qed.
End environment.

(** [[await f(x) for x in l]]. *)
Fixpoint map_each {S A B} (f : A -> EM S B) (l : list A) : EM S (list B) :=
  match l with
  | [] => mret []
  | x :: rest => y ← f x; ys ← map_each f rest; mret (y :: ys)
  end.
Lemma preserves_map_each {S A B} (P : S -> Prop) (f : A -> EM S B) l :
  (forall x, x ∈ l -> preserves P (f x)) -> preserves P (map_each f l).
Proof.
  induction l as [|x l IH]; intros Hf; cbn [map_each]; [auto with effects|].
  apply preserves_bind; [apply Hf; left|]. intros y.
  apply preserves_bind; [apply IH; intros z Hz; apply Hf; by right|auto with effects].
Qed.

(** ** The files known, and what was announced *)

Inductive event :=
  | KafkaSend (file key topic : string) (envelope : pyval) (ok : bool)
  | Detected (file : string)
  | PlatformPost (url : string) (headers : list (string * string)) (body : pyval).

Record feed := MkFeed { known_files : list (string * list string); events : list event }.
Definition new_feed : feed := MkFeed [] [].
Definition log_event (e : event) (f : feed) : feed := MkFeed (known_files f) (e :: events f).

(** [json.loads] of the row, as a set. *)
Definition get_known_files (account_name : string) (f : feed) : list string := default [] (dget account_name (known_files f)).
Definition update_known_files (account_name : string) (file_paths : list string) (f : feed) : feed :=
  MkFeed (dset account_name (stable_sort String.ltb (remove_dups file_paths)) (known_files f)) (events f).

(** What differs: the names, the files and their data. *)
Record feed_settings := MkFeedSettings {
  fs_connector : string;
  fs_event : string;
  fs_topic : string;
  fs_kafka : bool;
  fs_notify : bool;
  fs_api_url : string;
  fs_internal_secret : string;
  fs_api_key : string
}.

Definition event_headers (settings : feed_settings) : list (string * string) :=
  if negb (String.eqb (fs_internal_secret settings) "") then [("X-Internal-Secret", fs_internal_secret settings)]
  else if negb (String.eqb (fs_api_key settings) "") then [("X-API-Key", fs_api_key settings)] else [].

Section pollers.
Context {item : Type} (settings : feed_settings) (path_of : item -> string).
(** The data of an event of an account, at a time. *)
Variable data_of : string -> string -> item -> dict.
Variable now : list event -> string.
Variable broker : list event -> string -> pyval -> string -> bool.

(** Whatever becomes of the notification, its failure is logged only. *)
Definition notify_platform (data : dict) : EM feed unit :=
  if fs_notify settings && negb (String.eqb (fs_api_url settings) "") then
    modify (log_event (PlatformPost (fs_api_url settings ++ "/internal/events") (event_headers settings)
      (PDict [("connector_name", PStr (fs_connector settings)); ("event", PStr (fs_event settings)); ("data", PDict data)])))
  else mret tt.

(** [_emit_file_event], [_emit_object_event]. *)
Definition emit_event (account_name : string) (i : item) : EM feed unit :=
  f ← get_st;
  let data := data_of account_name (now (events f)) i in
  _ ← (if fs_kafka settings then
         let envelope := wrap_event (fs_connector settings) (fs_event settings) (PDict data) (PStr account_name) (now (events f)) in
         let ok := broker (events f) (fs_topic settings) envelope account_name in
         _ ← modify (log_event (KafkaSend (path_of i) account_name (fs_topic settings) envelope ok));
         if ok then mret tt else raise (OtherError "KafkaError")
       else modify (log_event (Detected (path_of i))));
  notify_platform data.

(** [_poll_account], once the files are listed; [S3.emit_new_objects] is the same of the objects of a bucket. *)
Definition poll_items (account_name : string) (items : list item) : EM feed unit :=
  known_now ← gets (get_known_files account_name);
  let new_items := List.filter (fun i => negb (existsb (String.eqb (path_of i)) known_now)) items in
  _ ← for_each (emit_event account_name) new_items;
  modify (update_known_files account_name (map path_of items)).

(** ** What the polls of an account announce *)

(** The files announced: taken by Kafka, or detected when there is no Kafka. *)
Definition announcement (e : event) : list string :=
  match e with KafkaSend file _ _ _ true | Detected file => [file] | _ => [] end.
Definition announced_in (l : list event) : list string := flat_map announcement (rev l).
(** The events of [f'] that [f] has not. *)
Definition since (f f' : feed) : list event := take (List.length (events f') - List.length (events f)) (events f').

Record poll_record := MkPollRecord { pr_files : list string; pr_completed : bool; pr_announced : list string }.
Definition poll_once (account_name : string) (items : list item) (f : feed) : poll_record * feed :=
  let '(r, f') := poll_items account_name items f in
  (MkPollRecord (map path_of items) (match r with Ok _ => true | Raise _ => false end) (announced_in (since f f')), f').
(** The polls of an account, each with what was listed; the newest record first. *)
Fixpoint run_polls (account_name : string) (listings : list (list item)) (done : list poll_record) (f : feed) : list poll_record * feed :=
  match listings with
  | [] => (done, f)
  | items :: rest => let '(r, f') := poll_once account_name items f in run_polls account_name rest (r :: done) f'
  end.

(** A file is due unless the last completed poll listed it. *)
Definition due (history : list poll_record) (file : string) : bool :=
  match List.find pr_completed history with
  | None => true
  | Some r => negb (existsb (String.eqb file) (pr_files r))
  end.

(** What a step adds to the events, and announces. *)
Definition sends (r : res unit) (f f' : feed) (planned : list string) : Prop := exists sent,
  events f' = (sent ++ events f)%list /\ known_files f' = known_files f /\
  match r with
  | Ok _ => announced_in sent = planned
  | Raise _ => exists file rest, planned = (announced_in sent ++ file :: rest)%list
  end.

Lemma announced_app a b : announced_in (a ++ b)%list = (announced_in b ++ announced_in a)%list.
Proof. unfold announced_in. by rewrite rev_app_distr, flat_map_app. Qed.

Lemma notify_sends data f : exists e f', notify_platform data f = (Ok tt, f') /\
  events f' = (e ++ events f)%list /\ known_files f' = known_files f /\ announced_in e = [].
Proof.
  unfold notify_platform. destruct (fs_notify settings && _); [eexists [_], _|eexists [], _]; (split; [reflexivity|done]).
Qed.

Lemma emit_sends account_name i f :
  sends (emit_event account_name i f).1 f (emit_event account_name i f).2 [path_of i].
Proof.
  unfold emit_event. rewrite (bind_run get_st _ f f f) by done. cbv zeta.
  destruct (fs_kafka settings).
  - destruct (broker _ _ _ _).
    + edestruct notify_sends as (e & f' & En & He & Hk & Ha). unfold mbind, EM_bind, modify, mret, EM_ret.
      rewrite En. exists (e ++ [KafkaSend (path_of i) account_name (fs_topic settings)
        (wrap_event (fs_connector settings) (fs_event settings) (PDict (data_of account_name (now (events f)) i))
          (PStr account_name) (now (events f))) true])%list.
      cbn [fst snd]. rewrite He, Hk, announced_app, Ha. split_and!; [by rewrite <- app_assoc|done|done].
    + eexists [_]. split_and!; [reflexivity|done|]. by exists (path_of i), [].
  - edestruct notify_sends as (e & f' & En & He & Hk & Ha). unfold mbind, EM_bind, modify.
    rewrite En. exists (e ++ [Detected (path_of i)])%list.
    cbn [fst snd]. rewrite He, Hk, announced_app, Ha. split_and!; [by rewrite <- app_assoc|done|done].
Qed.

Lemma for_each_sends account_name : forall items f,
  sends (for_each (emit_event account_name) items f).1 f (for_each (emit_event account_name) items f).2 (map path_of items).
Proof.
  induction items as [|i items IH]; intros f; [by exists []|].
  cbn [for_each map]. unfold mbind, EM_bind. pose proof (emit_sends account_name i f) as (e & He & Hk & Hr).
  destruct (emit_event account_name i f) as [[[]|x] f1]; cbn [fst snd] in *.
  - destruct (IH f1) as (e' & He' & Hk' & Hr'). exists (e' ++ e)%list. rewrite announced_app, Hr.
    split_and!; [by rewrite He', He, app_assoc|congruence|].
    destruct (for_each _ items f1).1 as [[]|x]; [by rewrite Hr'|]. destruct Hr' as (file & rest & ->). by exists file, rest.
  - exists e. split_and!; [done|done|]. destruct Hr as (file & rest & Hr). destruct (announced_in e) as [|y l].
    + injection Hr as <- <-. by exists (path_of i), (map path_of items).
    + by destruct l.
Qed.

Lemma map_filter_path (p : string -> bool) (items : list item) :
  map path_of (List.filter (fun i => p (path_of i)) items) = List.filter p (map path_of items).
Proof. induction items as [|i items IH]; [done|]. cbn. destruct (p (path_of i)); cbn; by rewrite IH. Qed.

Lemma since_app f f' sent : events f' = (sent ++ events f)%list -> since f f' = sent.
Proof. intros E. unfold since. rewrite E, length_app, Nat.add_sub. apply take_app_length. Qed.

(** One poll: what is announced follows the files known, and what is known then. *)
Lemma poll_once_announces account_name items f :
  let '(r, f') := poll_once account_name items f in
  let fresh := List.filter (fun p => negb (existsb (String.eqb p) (get_known_files account_name f))) (map path_of items) in
  pr_files r = map path_of items /\
  if pr_completed r
  then pr_announced r = fresh /\ get_known_files account_name f' = stable_sort String.ltb (remove_dups (map path_of items))
  else get_known_files account_name f' = get_known_files account_name f /\
       exists file rest, fresh = (pr_announced r ++ file :: rest)%list.
Proof.
  unfold poll_once, poll_items. unfold mbind at 1, EM_bind at 1, gets at 1.
  unfold mbind, EM_bind. set (new_items := List.filter _ items).
  pose proof (for_each_sends account_name new_items f) as (sent & He & Hk & Hr).
  assert (map path_of new_items = List.filter (fun p => negb (existsb (String.eqb p) (get_known_files account_name f))) (map path_of items)) as Hn
    by exact (map_filter_path (fun p => negb (existsb (String.eqb p) (get_known_files account_name f))) items).
  destruct (for_each (emit_event account_name) new_items f) as [[[]|x] f1]; cbn [fst snd pr_files pr_completed pr_announced] in *.
  - split; [done|]. split; [rewrite (since_app f _ sent) by done; by rewrite Hr, Hn|].
    unfold get_known_files, update_known_files. cbn. by rewrite dget_dset_eq.
  - split; [done|]. unfold get_known_files at 1. rewrite Hk. split; [done|].
    rewrite (since_app f _ sent) by done. by rewrite <- Hn.
Qed.

(** A poll is as announced by the records before it. *)
Definition announces_due (r : poll_record) (history : list poll_record) : Prop :=
  let fresh := List.filter (due history) (pr_files r) in
  if pr_completed r then pr_announced r = fresh
  else exists file rest, fresh = (pr_announced r ++ file :: rest)%list.
Fixpoint all_due (records : list poll_record) : Prop :=
  match records with [] => True | r :: history => announces_due r history /\ all_due history end.

(** The files known are those of the last completed poll. *)
Definition known_matches (history : list poll_record) (known : list string) : Prop :=
  forall file, negb (existsb (String.eqb file) known) = due history file.

Lemma filter_ext_eq {A} (p q : A -> bool) l : (forall x, p x = q x) -> List.filter p l = List.filter q l.
Proof. intros H. induction l as [|x l IH]; [done|]. cbn. by rewrite H, IH. Qed.

Lemma existsb_sorted file l : existsb (String.eqb file) (stable_sort String.ltb (remove_dups l)) = existsb (String.eqb file) l.
Proof.
  apply eq_true_iff_eq. rewrite !existsb_exists.
  split; intros (x & Hx & E); exists x; (split; [|done]); apply list_elem_of_In; apply list_elem_of_In in Hx.
  - by rewrite stable_sort_perm, elem_of_remove_dups in Hx.
  - by rewrite stable_sort_perm, elem_of_remove_dups.
Qed.

Lemma poll_once_due account_name items history f :
  known_matches history (get_known_files account_name f) ->
  let '(r, f') := poll_once account_name items f in
  announces_due r history /\ known_matches (r :: history) (get_known_files account_name f').
Proof.
  intros Hm. pose proof (poll_once_announces account_name items f) as Hp.
  destruct (poll_once account_name items f) as [r f']. destruct Hp as [Hf Hp]. unfold announces_due.
  rewrite Hf, <- (filter_ext_eq _ _ _ Hm). destruct (pr_completed r) eqn:Ec.
  - destruct Hp as [-> Hk]. split; [done|]. intros file. rewrite Hk, existsb_sorted.
    unfold due. cbn [List.find]. by rewrite Ec, Hf.
  - destruct Hp as [Hk Hp]. split; [done|]. rewrite Hk. intros file. rewrite Hm. unfold due. cbn [List.find]. by rewrite Ec.
Qed.

Lemma run_polls_due account_name : forall listings history f,
  known_matches history (get_known_files account_name f) -> all_due history ->
  all_due (run_polls account_name listings history f).1.
Proof.
  induction listings as [|items rest IH]; intros history f Hm Hd; [done|]. cbn [run_polls].
  pose proof (poll_once_due account_name items history f Hm) as Hp.
  destruct (poll_once account_name items f) as [r f']. destruct Hp as [Hr Hm']. by apply IH.
Qed.

(** C39: Whatever the listings and whatever Kafka refuses, from a new store on: a poll that completes announces
    exactly the files it lists that the last completed poll did not list, in the order of the listing; one
    that Kafka stops announces a proper prefix of them, and the rest stays due. *)
Theorem polls_announce_what_is_due account_name listings :
  all_due (run_polls account_name listings [] new_feed).1.
Proof. by apply run_polls_due. Qed.
End pollers.

(** ** Demonstrations *)

Definition demo_feed : feed_settings :=
  {| fs_connector := "ftp-sftp"; fs_event := "file.new"; fs_topic := "files"; fs_kafka := true; fs_notify := true;
     fs_api_url := "http://platform:8080"; fs_internal_secret := ""; fs_api_key := "k" |}.
(** Kafka refuses the second message it is sent. *)
Definition second_refused (l : list event) (topic : string) (envelope : pyval) (key : string) : bool :=
  negb (Nat.eqb (List.length (List.filter (fun e => match e with KafkaSend _ _ _ _ _ => true | _ => false end) l)) 1).
Definition demo_polls (listings : list (list string)) : list (list string * bool * list string) :=
  map (fun r => (pr_files r, pr_completed r, pr_announced r))
    (rev (run_polls demo_feed (fun p => p) (fun account time p => [("path", PStr p)]) (fun _ => "t") second_refused "a" listings [] new_feed).1).

(** The files of a poll that Kafka stopped are announced again; a file that was away is new again. *)
Example announced_again :
  demo_polls [["a"; "b"]; ["a"; "b"]; ["b"]; ["a"; "b"]]
  = [(["a"; "b"], false, ["a"]); (["a"; "b"], true, ["a"; "b"]); (["b"], true, []); (["a"; "b"], true, ["a"])].
Proof. reflexivity. Qed.
