(* ===== verification/FtpSftp.v ===== *)
(** The connector of FTP and SFTP servers ([integrators/other/ftp-sftp/v1.0.0/src]): accounts, the client
    ([ftp_client/client.py]), the facade ([ftp_client/integration.py]), the routes ([api/routes.py]) and the
    poller ([ftp_client/poller.py]).

    A server is given by functions of the calls sent so far; names are texts of ASCII, and the times of
    files are the texts that pydantic prints. *)

From S2P Require Import Prelude PyText PyValue Json Base64 Effects HttpRoutes PosixPath FilePollers.

Local Open Scope string_scope.

(** ** Accounts *)

Record FtpAccountConfig := MkFtpAccount {
  fa_name : string;
  fa_host : string;
  fa_protocol : string;
  fa_port : Z;
  fa_username : string;
  fa_password : string;
  fa_private_key : string;
  fa_passive_mode : bool;
  fa_base_path : string;
  fa_environment : string
}.
Definition is_sftp (a : FtpAccountConfig) : bool := String.eqb (fa_protocol a) "sftp".
Definition effective_port (a : FtpAccountConfig) : Z :=
  if (0 <? fa_port a)%Z then fa_port a else if is_sftp a then 22 else 21.

(** [_load_from_env]. *)
Definition env_name (idx : nat) (field : string) : string := "FTP_ACCOUNT_" ++ str_of_Z (Z.of_nat idx) ++ "_" ++ field.
Definition account_of_env (env : list (string * string)) (idx : nat) : res FtpAccountConfig :=
  let var field fallback := getenv env (env_name idx field) fallback in
  port ← match parse_int (var "PORT" "0") with
         | Some n => Ok n
         | None => Raise (ValueError "invalid literal for int() with base 10")
         end;
  Ok (MkFtpAccount (var "NAME" "") (var "HOST" "") (var "PROTOCOL" "sftp") port (var "USERNAME" "") (var "PASSWORD" "")
        (var "PRIVATE_KEY" "") (existsb (String.eqb (py_lower (var "PASSIVE_MODE" "true"))) ["true"; "1"; "yes"])
        (var "BASE_PATH" "/") (var "ENVIRONMENT" "production")).

Abbreviation account_table := (list (string * FtpAccountConfig)).
Definition register (a : FtpAccountConfig) (t : account_table) : account_table := dset (fa_name a) a t.
Definition load_from_env (env : list (string * string)) (t : account_table) : res account_table :=
  foldR (fun t idx => a ← account_of_env env idx; Ok (register a t)) t (account_positions env (fun i => env_name i "NAME")).
(** The accounts of the file, as pydantic makes them, or the environment when there is no file. *)
Definition load_from_yaml (file : option (list (res FtpAccountConfig))) (env : list (string * string)) (t : account_table) : res account_table :=
  match file with
  | None => load_from_env env t
  | Some entries => foldR (fun t entry => a ← entry; Ok (register a t)) t entries
  end.

(** ** Files *)

Record FileInfo := MkFileInfo {
  fi_filename : string;
  fi_path : string;
  fi_size : Z;
  fi_is_directory : bool;
  fi_modified_at : option string;
  fi_permissions : option string
}.
Definition file_dump (f : FileInfo) : pyval :=
  PDict [("filename", PStr (fi_filename f)); ("path", PStr (fi_path f)); ("size", PInt (fi_size f));
         ("is_directory", PBool (fi_is_directory f)); ("modified_at", text_or_none (fi_modified_at f));
         ("permissions", text_or_none (fi_permissions f))].

(** What a server tells about an entry. *)
Inductive remote_entry :=
  | FtpEntry (path : string) (facts : list (string * string))
  | SftpEntry (filename : string) (permissions size mtime : option Z).

(** The digits of [oct(n)]. *)
Fixpoint octal (fuel : nat) (n : Z) : string :=
  match fuel with
  | O => ""
  | S fuel => (if (n <? 8)%Z then "" else octal fuel (n / 8)) ++ str_of_Z (n mod 8)
  end.
Definition permission_text (n : Z) : string := str_slice ("0o" ++ octal 22 n) (-3) None.
(** [stat.S_ISDIR]. *)
Definition is_dir_mode (n : Z) : bool := (Z.land n 61440 =? 16384)%Z.

Inductive ftp_call :=
  | ListDir (path : string)
  | StoreFile (path data : string)
  | ReadFile (path : string)
  | RemoveFile (path : string)
  | RenameFile (source destination : string)
  | MakeDir (path : string)
  | WorkingDirectory.

(** [clients] are the accounts the clients were made with. *)
Record World := MkWorld {
  accounts : account_table;
  clients : account_table;
  feed_of : feed;
  calls : list (FtpAccountConfig * ftp_call)
}.
Definition set_accounts (t : account_table) (w : World) : World := MkWorld t (clients w) (feed_of w) (calls w).
Definition set_clients (t : account_table) (w : World) : World := MkWorld (accounts w) t (feed_of w) (calls w).
Definition set_feed (f : feed) (w : World) : World := MkWorld (accounts w) (clients w) f (calls w).
Definition log_call (a : FtpAccountConfig) (c : ftp_call) (w : World) : World :=
  MkWorld (accounts w) (clients w) (feed_of w) ((a, c) :: calls w).
Abbreviation past := (list (FtpAccountConfig * ftp_call)).

Section connector.
(** The file of known hosts, if there is one; whether a connection succeeds; what a server answers. *)
Variable known_hosts : option string.
Variable connection : past -> FtpAccountConfig -> res unit.
Variable entries_of : past -> FtpAccountConfig -> string -> res (list remote_entry).
Variable content_of : past -> FtpAccountConfig -> string -> res string.
Variable outcome : past -> FtpAccountConfig -> ftp_call -> res unit.
Variable current_directory : past -> FtpAccountConfig -> res string.
(** A time of FTP or SFTP as a text; an FTP time may be malformed. *)
Variable ftp_time : string -> option string.
Variable sftp_time : Z -> string.
Abbreviation FM := (EM World).

(** ** The client *)

(** [_resolve_path]. *)
Definition resolve_path (a : FtpAccountConfig) (remote_path : string) : res string :=
  let base := pure_path (fa_base_path a) in
  let combined := path_join base (pure_path remote_path) in
  let resolved := pure_path (normpath (path_text combined)) in
  if is_relative_to resolved base then Ok (path_text resolved)
  else Raise (ValueError ("Path escapes base directory: " ++ remote_path)).

(** [_ftp_connect], [_sftp_connect]. *)
Definition connect (a : FtpAccountConfig) : FM unit :=
  w ← get_st;
  if is_sftp a && negb (bool_decide (is_Some known_hosts)) then
    raise (named "ConnectionError" "SFTP connection refused: no known_hosts file found. Set SFTP_KNOWN_HOSTS env var or populate ~/.ssh/known_hosts.")
  else lift (connection (calls w) a).

Definition asking {A} (a : FtpAccountConfig) (c : ftp_call) (answer : past -> res A) : FM A :=
  w ← get_st; _ ← modify (log_call a c); lift (answer (calls w)).
Definition perform (a : FtpAccountConfig) (c : ftp_call) : FM unit := asking a c (fun h => outcome h a c).

Definition hidden (name : string) : bool := String.eqb name "." || String.eqb name "..".
Definition below_dir (resolved name : string) : string := path_text (path_join (pure_path resolved) (pure_path name)).
Definition file_of (resolved : string) (e : remote_entry) : res (option FileInfo) :=
  match e with
  | FtpEntry path facts =>
      let name := path_name (pure_path path) in
      if hidden name then Ok None
      else
        size ← match dget "size" facts with
               | None => Ok 0%Z
               | Some s => match parse_int s with Some n => Ok n | None => Raise (ValueError "invalid literal for int() with base 10") end
               end;
        Ok (Some (MkFileInfo name (below_dir resolved name) size (bool_decide (dget "type" facts = Some "dir"))
                    (match dget "modify" facts with None | Some "" => None | Some s => ftp_time s end) None))
  | SftpEntry name permissions size mtime =>
      if hidden name then Ok None
      else
        let mode := match permissions with Some 0%Z => None | p => p end in
        Ok (Some (MkFileInfo name (below_dir resolved name) (default 0%Z size)
                    (match mode with Some p => is_dir_mode p | None => false end)
                    (sftp_time <$> mtime) (permission_text <$> mode)))
  end.
Definition client_list_files (a : FtpAccountConfig) (remote_path : string) : FM (list FileInfo) :=
  resolved ← lift (resolve_path a remote_path);
  _ ← connect a;
  entries ← asking a (ListDir resolved) (fun h => entries_of h a resolved);
  files ← lift (mapR (file_of resolved) entries);
  mret (omap id files).

(** Making a directory: what the server says against it is ignored. *)
Definition server_error (a : FtpAccountConfig) (e : pyexn) : bool := is_named (if is_sftp a then "SFTPError" else "StatusCodeError") e.
Definition ensure_dir (a : FtpAccountConfig) (path : string) : FM unit :=
  try_catch (perform a (MakeDir path)) (fun e => if server_error a e then mret tt else raise e).

Definition client_upload (a : FtpAccountConfig) (remote_path data : string) : FM Z :=
  resolved ← lift (resolve_path a remote_path);
  _ ← connect a;
  _ ← ensure_dir a (path_text (path_parent (pure_path resolved)));
  _ ← perform a (StoreFile resolved data);
  mret (Z.of_nat (String.length data)).
Definition client_download (a : FtpAccountConfig) (remote_path : string) : FM string :=
  resolved ← lift (resolve_path a remote_path);
  _ ← connect a;
  asking a (ReadFile resolved) (fun h => content_of h a resolved).
Definition client_delete (a : FtpAccountConfig) (remote_path : string) : FM unit :=
  resolved ← lift (resolve_path a remote_path); _ ← connect a; perform a (RemoveFile resolved).
Definition client_move (a : FtpAccountConfig) (source destination : string) : FM unit :=
  src ← lift (resolve_path a source);
  dst ← lift (resolve_path a destination);
  _ ← connect a; perform a (RenameFile src dst).
Definition client_mkdir (a : FtpAccountConfig) (remote_path : string) : FM unit :=
  resolved ← lift (resolve_path a remote_path); _ ← connect a; ensure_dir a resolved.
Definition client_test (a : FtpAccountConfig) : FM dict :=
  _ ← connect a;
  cwd ← asking a WorkingDirectory (fun h => current_directory h a);
  mret [("status", PStr "connected"); ("protocol", PStr (if is_sftp a then "sftp" else "ftp")); ("host", PStr (fa_host a));
        ("port", PInt (effective_port a)); ("server_banner", PStr ""); ("current_directory", PStr cwd)].

(** ** The facade *)

Definition get_account (name : string) (w : World) : option FtpAccountConfig := dget name (accounts w).
(** A client is kept with the account it was made for. *)
Definition get_client (account_name : string) : FM FtpAccountConfig :=
  w ← get_st;
  match dget account_name (clients w) with
  | Some a => mret a
  | None =>
      match get_account account_name w with
      | None => raise (ValueError ("Account '" ++ account_name ++ "' not found"))
      | Some a => _ ← modify (set_clients (dset account_name a (clients w))); mret a
      end
  end.
Definition remove_client (account_name : string) (w : World) : World := set_clients (ddel account_name (clients w)) w.

Definition test_connection (account_name : string) : FM dict := a ← get_client account_name; client_test a.
Definition list_files (account_name remote_path : string) (pattern : option string) : FM (list FileInfo) :=
  a ← get_client account_name;
  files ← client_list_files a remote_path;
  mret (match pattern with
        | None | Some "" => files
        | Some p => List.filter (fun f => fnmatch (fi_filename f) p) files
        end).

Definition FileExistsError (message : string) : pyexn := named "FileExistsError" message.
Definition remote_full (remote_path filename : string) : string := rstrip_by (Ascii.eqb "/") remote_path ++ "/" ++ filename.
Definition upload_file (account_name remote_path filename content_base64 : string) (overwrite : bool) : FM Z :=
  a ← get_client account_name;
  data ← lift (b64decode content_base64);
  _ ← (if overwrite then mret tt else
         existing ← client_list_files a remote_path;
         if existsb (fun f => String.eqb (fi_filename f) filename) existing then
           raise (FileExistsError ("File '" ++ filename ++ "' already exists at '" ++ remote_path ++ "'. Set overwrite=true to replace."))
         else mret tt);
  client_upload a (remote_full remote_path filename) data.
Definition download_file (account_name remote_path : string) : FM dict :=
  a ← get_client account_name;
  data ← client_download a remote_path;
  mret [("filename", PStr (path_name (pure_path remote_path))); ("remote_path", PStr remote_path);
        ("content_base64", PStr (b64encode data)); ("size", PInt (Z.of_nat (String.length data)))].
Definition delete_file (account_name remote_path : string) : FM unit := a ← get_client account_name; client_delete a remote_path.
Definition move_file (account_name source destination : string) : FM unit := a ← get_client account_name; client_move a source destination.
Definition create_directory (account_name remote_path : string) : FM unit := a ← get_client account_name; client_mkdir a remote_path.

(** ** The routes *)

Abbreviation handler := (request -> EM World pyval).
(** Whether the checks pass, and their report. *)
Variable health_check : World -> bool * pyval.
Variable datetime_text : string -> option string.

Definition account_missing (name : string) : string := "Account '" ++ name ++ "' not found. Add it via POST /accounts.".
Definition require_account (account_name : string) : FM unit :=
  w ← get_st;
  match get_account account_name w with Some _ => mret tt | None => http_error 404 (account_missing account_name) end.

Definition health : handler := fun _ => gets (fun w => (health_check w).2).
Definition readiness : handler := fun _ =>
  w ← get_st; if (health_check w).1 then mret (health_check w).2 else http_error 503 "unhealthy".

Definition test_account : handler := fun r =>
  let account_name := path_param "account_name" r in
  _ ← require_account account_name;
  try_catch (d ← test_connection account_name; mret (PDict d))
    (fun e => http_error 502 ("Connection test failed: " ++ exn_str e)).
Definition account_status (a : FtpAccountConfig) : FM pyval :=
  try_catch
    (d ← test_connection (fa_name a);
     mret (PDict [("name", PStr (fa_name a)); ("status", dget_or "status" PNone d); ("protocol", dget_or "protocol" PNone d)]))
    (fun _ => mret (PDict [("name", PStr (fa_name a)); ("status", PStr "disconnected"); ("protocol", PStr (fa_protocol a))])).
Definition all_auth_statuses : handler := fun _ =>
  w ← get_st; l ← map_each account_status (map snd (accounts w)); mret (PList l).

Definition AccountCreateRequest : list field :=
  [needed "name" KText; needed "host" KText; with_default "protocol" KText (PStr "sftp"); with_default "port" KInt (PInt 0);
   with_default "username" KText (PStr ""); with_default "password" KText (PStr ""); with_default "private_key" KText (PStr "");
   with_default "passive_mode" KFlag (PBool true); with_default "base_path" KText (PStr "/");
   with_default "environment" KText (PStr "production")].
Definition account_of_body (body : dict) : FtpAccountConfig :=
  MkFtpAccount (text_in "name" body) (text_in "host" body) (text_in "protocol" body)
    (match of_body "port" body with PInt n => n | _ => 0 end) (text_in "username" body) (text_in "password" body)
    (text_in "private_key" body) (truthy (of_body "passive_mode" body)) (text_in "base_path" body) (text_in "environment" body).
Definition list_accounts : handler := fun _ =>
  gets (fun w => PList (map (fun a => PDict [("name", PStr (fa_name a)); ("host", PStr (fa_host a)); ("protocol", PStr (fa_protocol a));
                                             ("port", PStr (str_of_Z (effective_port a))); ("environment", PStr (fa_environment a))])
                            (map snd (accounts w)))).
Definition add_account : handler := fun r =>
  body ← lift (model_body datetime_text AccountCreateRequest r);
  let a := account_of_body body in
  _ ← modify (fun w => set_accounts (register a (accounts w)) w);
  mret (PDict [("status", PStr "created"); ("name", PStr (fa_name a))]).
Definition remove_account : handler := fun r =>
  let account_name := path_param "account_name" r in
  w ← get_st;
  if dhas account_name (accounts w) then
    _ ← modify (fun w => remove_client account_name (set_accounts (ddel account_name (accounts w)) w));
    mret (PDict [("status", PStr "removed")])
  else http_error 404 ("Account '" ++ account_name ++ "' not found").

(** What a request declares is read before the handler runs. *)
Definition FileUploadRequest : list field :=
  [needed "remote_path" KText; needed "filename" KText; needed "content_base64" KText; with_default "overwrite" KFlag (PBool false)].
Definition path_request : list field := [needed "remote_path" KText].
Definition FileMoveRequest : list field := [needed "source_path" KText; needed "destination_path" KText].

Definition get_files : handler := fun r =>
  account_name ← lift (text_param "account_name" r);
  _ ← require_account account_name;
  files ← list_files account_name (text_param_or "remote_path" "/" r) (Some (text_param_or "pattern" "" r));
  mret (PList (map file_dump files)).
Definition post_upload : handler := fun r =>
  account_name ← lift (text_param "account_name" r);
  body ← lift (model_body datetime_text FileUploadRequest r);
  _ ← require_account account_name;
  size ← try_catch
    (upload_file account_name (text_in "remote_path" body) (text_in "filename" body) (text_in "content_base64" body)
       (truthy (of_body "overwrite" body)))
    (fun e => if is_named "FileExistsError" e then http_error 409 (named_text "FileExistsError" e) else raise e);
  mret (PDict [("status", PStr "uploaded"); ("remote_path", of_body "remote_path" body); ("filename", of_body "filename" body);
               ("size", PInt size)]).
Definition get_download : handler := fun r =>
  account_name ← lift (text_param "account_name" r);
  remote_path ← lift (text_param "remote_path" r);
  _ ← require_account account_name;
  d ← download_file account_name remote_path; mret (PDict d).
Definition delete_files : handler := fun r =>
  account_name ← lift (text_param "account_name" r);
  body ← lift (model_body datetime_text path_request r);
  _ ← require_account account_name;
  _ ← delete_file account_name (text_in "remote_path" body);
  mret (PDict [("status", PStr "deleted"); ("remote_path", of_body "remote_path" body)]).
Definition post_move : handler := fun r =>
  account_name ← lift (text_param "account_name" r);
  body ← lift (model_body datetime_text FileMoveRequest r);
  _ ← require_account account_name;
  _ ← move_file account_name (text_in "source_path" body) (text_in "destination_path" body);
  mret (PDict [("status", PStr "moved"); ("source_path", of_body "source_path" body); ("destination_path", of_body "destination_path" body)]).
Definition post_directory : handler := fun r =>
  account_name ← lift (text_param "account_name" r);
  body ← lift (model_body datetime_text path_request r);
  _ ← require_account account_name;
  _ ← create_directory account_name (text_in "remote_path" body);
  mret (PDict [("status", PStr "created"); ("remote_path", of_body "remote_path" body)]).
Definition get_directories : handler := fun r =>
  account_name ← lift (text_param "account_name" r);
  _ ← require_account account_name;
  entries ← list_files account_name (text_param_or "remote_path" "/" r) None;
  mret (PList (map file_dump (List.filter fi_is_directory entries))).

Definition ftp_routes : list (route World) :=
  [Route "GET" "/health" "health" 200 health; Route "GET" "/readiness" "readiness" 200 readiness;
   Route "POST" "/auth/{account_name}/test" "test_connection" 200 test_account;
   Route "GET" "/auth/status" "all_auth_statuses" 200 all_auth_statuses;
   Route "GET" "/accounts" "list_accounts" 200 list_accounts; Route "POST" "/accounts" "add_account" 201 add_account;
   Route "DELETE" "/accounts/{account_name}" "remove_account" 200 remove_account;
   Route "GET" "/files" "list_files" 200 get_files; Route "POST" "/files/upload" "upload_file" 200 post_upload;
   Route "GET" "/files/download" "download_file" 200 get_download; Route "DELETE" "/files" "delete_file" 200 delete_files;
   Route "POST" "/files/move" "move_file" 200 post_move; Route "POST" "/directories" "create_directory" 200 post_directory;
   Route "GET" "/directories" "list_directories" 200 get_directories].

(** ** The poller *)

Variable polling_path : string.
Variable settings : feed_settings.
Variable now : list event -> string.
Variable broker : list event -> string -> pyval -> string -> bool.

Definition file_event (account_name time : string) (f : FileInfo) : dict :=
  [("filename", PStr (fi_filename f)); ("path", PStr (fi_path f)); ("size", PInt (fi_size f));
   ("modified_at", text_or_none (fi_modified_at f)); ("account_name", PStr account_name); ("detected_at", PStr time)].
Definition on_feed {A} (m : EM feed A) : FM A := within feed_of set_feed m.
(** [_poll_account], with a client of its own. *)
Definition poll_account (account_name : string) : FM unit :=
  w ← get_st;
  match get_account account_name w with
  | None => mret tt
  | Some a =>
      files ← client_list_files a polling_path;
      on_feed (poll_items settings fi_path file_event now broker account_name (List.filter (fun f => negb (fi_is_directory f)) files))
  end.
(** [_poll_all_accounts]: the failure of an account is logged. *)
Definition poll_all_accounts : FM unit :=
  w ← get_st;
  for_each (fun a => try_catch (poll_account (fa_name a)) (fun _ => mret tt)) (map snd (accounts w)).
End connector.

(** ** What a client may reach *)

(** Below the base of an account, or the base itself; nothing goes up. *)
Definition inside (a : FtpAccountConfig) (p : string) : Prop := exists rest,
  pure_path p = MkPath (anchor (pure_path (fa_base_path a))) (parts (pure_path (fa_base_path a)) ++ rest)%list /\ ".." ∉ rest.
(** The directory a file is put into may be the one that holds the base, if the file is the base itself. *)
Definition call_inside (a : FtpAccountConfig) (c : ftp_call) : Prop :=
  match c with
  | ListDir p | StoreFile p _ | ReadFile p | RemoveFile p => inside a p
  | RenameFile p q => inside a p /\ inside a q
  | MakeDir p => inside a p \/ p = path_text (path_parent (pure_path (fa_base_path a)))
  | WorkingDirectory => True
  end.
(** A base that is an absolute path or ends in a name: not ["."] or [".."]. *)
Definition firm (a : FtpAccountConfig) : Prop := firm_base (pure_path (fa_base_path a)) = true.

Lemma path_parent_good p : good_path p -> good_path (path_parent p).
Proof.
  destruct p as [an l]. intros [Ha Hl]. split; [done|]. cbn in *. revert Hl. induction 1 as [|x l Hx Hl IH]; [done|].
  cbn. destruct l; by constructor.
Qed.

Lemma resolve_inside a remote_path p :
  firm a -> resolve_path a remote_path = Ok p -> inside a p.
Proof.
  intros Hf E. unfold resolve_path in E. destruct (is_relative_to _ _) eqn:Er; [|done]. injection E as <-.
  destruct (normal_below _ _ Hf Er) as (rest & Hp & Hn). exists rest. split; [|done].
  rewrite pure_path_text by apply pure_path_good. exact Hp.
Qed.

Lemma parent_inside a p : inside a p -> call_inside a (MakeDir (path_text (path_parent (pure_path p)))).
Proof.
  intros (rest & Hp & Hn). cbn [call_inside].
  assert (pure_path (path_text (path_parent (pure_path p))) = path_parent (pure_path p)) as Ht
    by apply pure_path_text, path_parent_good, pure_path_good.
  destruct rest as [|x rest].
  - right. f_equal. rewrite Hp, app_nil_r. unfold path_parent. done.
  - left. exists (removelast (x :: rest)). unfold inside. rewrite Ht, Hp. unfold path_parent. cbn [anchor parts].
    rewrite removelast_app by done. split; [done|]. intros Hin. apply Hn.
    rewrite (app_removelast_last (l := x :: rest) "") by done. apply elem_of_app. by left.
Qed.

Section containment.
Context (known_hosts : option string) (connection : past -> FtpAccountConfig -> res unit).
Context (entries_of : past -> FtpAccountConfig -> string -> res (list remote_entry)).
Context (content_of : past -> FtpAccountConfig -> string -> res string).
Context (outcome : past -> FtpAccountConfig -> ftp_call -> res unit).
Context (current_directory : past -> FtpAccountConfig -> res string).
Context (ftp_time : string -> option string) (sftp_time : Z -> string).
Context (health_check : World -> bool * pyval) (datetime_text : string -> option string).
Context (polling_path : string) (settings : feed_settings) (now : list event -> string).
Context (broker : list event -> string -> pyval -> string -> bool).

(** Every call sent stays below the base of its account, and is sent over SFTP only where the hosts are known. *)
Definition call_safe (ac : FtpAccountConfig * ftp_call) : Prop :=
  (firm ac.1 -> call_inside ac.1 ac.2) /\ (is_sftp ac.1 = true -> is_Some known_hosts).
Definition calls_safe (w : World) : Prop := Forall call_safe (calls w).
Abbreviation connect_to := (connect known_hosts connection).

Lemma after_connect {A} a (k : EM World A) :
  ((is_sftp a = true -> is_Some known_hosts) -> preserves calls_safe k) -> preserves calls_safe (_ ← connect_to a; k).
Proof.
  intros Hk. unfold connect. intros w Hw. unfold mbind, EM_bind, get_st.
  destruct (is_sftp a && negb (bool_decide (is_Some known_hosts))) eqn:E; [exact Hw|].
  unfold lift. destruct (connection (calls w) a); [|exact Hw]. apply Hk; [|exact Hw].
  intros Hs. rewrite Hs in E. by apply negb_false_iff, bool_decide_eq_true in E.
Qed.
Lemma asking_safe {A} a c (answer : past -> res A) :
  call_safe (a, c) -> preserves calls_safe (asking a c answer).
Proof. intros Hc. unfold asking. preserve. apply preserves_modify. intros w Hw. by constructor. Qed.
Lemma ensure_dir_safe a p : call_safe (a, MakeDir p) -> preserves calls_safe (ensure_dir outcome a p).
Proof. intros Hc. unfold ensure_dir, perform. preserve. by apply asking_safe. Qed.

Lemma preserves_modify_calls f : (forall w, calls (f w) = calls w) -> preserves calls_safe (modify f).
Proof. intros Hf. apply preserves_modify. intros w. unfold calls_safe. by rewrite Hf. Qed.
#[local] Hint Resolve asking_safe ensure_dir_safe : effects.
#[local] Hint Extern 1 (preserves calls_safe (modify _)) => apply preserves_modify_calls; reflexivity : effects.

(** The steps of the client, each after its paths are resolved. *)
Ltac resolved H := apply preserves_lift_ok; intros ? H.
Ltac connected := apply after_connect; intros ?Hk.
Ltac in_base := split; [intros ?Hf; cbn [fst snd call_inside]; eauto using resolve_inside|done].

Lemma client_list_safe a remote_path :
  preserves calls_safe (client_list_files known_hosts connection entries_of ftp_time sftp_time a remote_path).
Proof. unfold client_list_files. resolved Hr. connected. apply preserves_bind; [apply asking_safe; in_base|intros ?; preserve]. Qed.
Lemma client_upload_safe a remote_path data :
  preserves calls_safe (client_upload known_hosts connection outcome a remote_path data).
Proof.
  unfold client_upload. resolved Hr. connected. apply preserves_bind.
  - apply ensure_dir_safe. split; [|done]. intros Hf. apply parent_inside. by eapply resolve_inside.
  - intros _. apply preserves_bind; [apply asking_safe; in_base|intros _; auto with effects].
Qed.
Lemma client_download_safe a remote_path : preserves calls_safe (client_download known_hosts connection content_of a remote_path).
Proof. unfold client_download. resolved Hr. connected. apply asking_safe. in_base. Qed.
Lemma client_delete_safe a remote_path : preserves calls_safe (client_delete known_hosts connection outcome a remote_path).
Proof. unfold client_delete. resolved Hr. connected. apply asking_safe. in_base. Qed.
Lemma client_move_safe a source destination : preserves calls_safe (client_move known_hosts connection outcome a source destination).
Proof. unfold client_move. resolved Hs. resolved Hd. connected. apply asking_safe. in_base. Qed.
Lemma client_mkdir_safe a remote_path : preserves calls_safe (client_mkdir known_hosts connection outcome a remote_path).
Proof.
  unfold client_mkdir. resolved Hr. connected. apply ensure_dir_safe. split; [|done]. intros Hf. left. by eapply resolve_inside.
Qed.
Lemma client_test_safe a : preserves calls_safe (client_test known_hosts connection current_directory a).
Proof. unfold client_test. connected. apply preserves_bind; [by apply asking_safe|intros ?; auto with effects]. Qed.
#[local] Hint Resolve client_list_safe client_upload_safe client_download_safe client_delete_safe client_move_safe
  client_mkdir_safe client_test_safe : effects.

Lemma get_client_safe name : preserves calls_safe (get_client name).
Proof. unfold get_client. preserve. Qed.
Lemma require_account_safe name : preserves calls_safe (require_account name).
Proof. unfold require_account. preserve. Qed.
#[local] Hint Resolve get_client_safe require_account_safe : effects.
Lemma account_status_safe a : preserves calls_safe (account_status known_hosts connection current_directory a).
Proof. unfold account_status, test_connection. preserve. Qed.

Abbreviation routes := (ftp_routes known_hosts connection entries_of content_of outcome current_directory ftp_time sftp_time
  health_check datetime_text).

Lemma routes_safe req : Forall (fun r => preserves calls_safe (rt_handler r req)) routes.
Proof.
  unfold ftp_routes. repeat (apply List.Forall_cons; [cbn [rt_handler]|]); [..|apply List.Forall_nil].
  all: try (lazymatch goal with |- preserves _ (?h _) => unfold h end).
  all: unfold health, readiness, test_account, all_auth_statuses, list_accounts, add_account, remove_account, get_files, post_upload,
    get_download, delete_files, post_move, post_directory, get_directories, test_connection, list_files, upload_file, download_file,
    delete_file, move_file, create_directory.
  all: cbv zeta; try solve [preserve].
  preserve. apply preserves_map_each. intros ? _. apply account_status_safe.
Qed.

Lemma within_feed_safe {A} (m : EM feed A) : preserves calls_safe (on_feed m).
Proof. intros w Hw. unfold on_feed, within. by destruct (m (feed_of w)). Qed.
Lemma poll_account_safe name :
  preserves calls_safe (poll_account known_hosts connection entries_of ftp_time sftp_time polling_path settings now broker name).
Proof. unfold poll_account. preserve. apply within_feed_safe. Qed.

(** A request, or a cycle of the poller. *)
Inductive step := Request (req : request) | PollCycle.
Definition run_step (s : step) : EM World unit :=
  try_catch
    match s with
    | Request req => _ ← respond routes req; mret tt
    | PollCycle => poll_all_accounts known_hosts connection entries_of ftp_time sftp_time polling_path settings now broker
    end (fun _ => mret tt).
Definition run_steps (steps : list step) : EM World unit := for_each run_step steps.

(** C6: Of an account whose base is absolute or ends in a name (not ["."] or [".."]), whatever is requested and polled
    and whatever the servers answer, the paths given to the FTP libraries are the base or below it, with nothing
    going up, except that a file uploaded onto the base itself also makes the directory that holds the base.
    Of any account nothing is asked over SFTP unless there is a file of known hosts. *)
Theorem ftp_calls_stay_in_base steps w a c :
  calls w = [] -> (a, c) ∈ calls (run_steps steps w).2 ->
  (firm a -> call_inside a c) /\ (is_sftp a = true -> is_Some known_hosts).
Proof.
  intros Hw Hin. assert (calls_safe (run_steps steps w).2) as Hs.
  - apply (preserves_for calls_safe run_step steps); [|unfold calls_safe; rewrite Hw; apply List.Forall_nil]. intros s _. unfold run_step.
    apply preserves_try; [|auto with effects]. destruct s as [req|].
    + apply preserves_bind; [|auto with effects]. unfold respond.
      destruct (List.find _ routes) as [r|] eqn:E; [|auto with effects].
      apply preserves_bind; [|auto with effects]. apply List.find_some in E as [Hr _].
      exact (proj1 (List.Forall_forall _ _) (routes_safe (with_params r req)) r Hr).
    + unfold poll_all_accounts. preserve. apply poll_account_safe.
  - apply (proj1 (List.Forall_forall _ _) Hs (a, c)). by apply list_elem_of_In.
Qed.
End containment.

(** ** Demonstrations *)

Definition demo_ftp (name base_path : string) : FtpAccountConfig := MkFtpAccount name "ftp.example.com" "ftp" 0 "u" "p" "" true base_path "production".
Definition no_health (w : World) : bool * pyval := (true, PStr "healthy").
Definition demo_steps (base_path : string) : list step -> EM World unit :=
  run_steps None (fun _ _ => Ok tt)
    (fun _ _ p => Ok [FtpEntry "x.csv" [("type", "file"); ("size", "3")]; FtpEntry "in" [("type", "dir")]])
    (fun _ _ _ => Ok "abc") (fun _ _ c => match c with MakeDir _ => Raise (named "StatusCodeError" "550") | _ => Ok tt end) (fun _ _ => Ok "/")
    (fun t => Some t) (fun _ => "t") no_health (fun t => Some t) "/" demo_feed (fun _ => "t") (fun _ _ _ _ => true).
Definition world_of (base_path : string) : World := MkWorld [("a", demo_ftp "a" base_path)] [] new_feed [].
Definition ask_files (method path : string) (query : list (string * string)) (body : dict) : step :=
  Request (MkRequest method path (("account_name", "a") :: query) [] (Some (PDict body)) None "" []).
(** The calls sent, oldest first. *)
Definition calls_of (base_path : string) (steps : list step) : list ftp_call :=
  rev (map snd (calls (demo_steps base_path steps (world_of base_path)).2)).

Example contained_calls :
  calls_of "/data" [ask_files "GET" "/files" [("remote_path", "in/../x/")] []; ask_files "GET" "/files/download" [("remote_path", "../etc/passwd")] [];
                    ask_files "GET" "/files/download" [("remote_path", "/data/./x.csv")] [];
                    ask_files "POST" "/files/upload" [] [("remote_path", PStr "/data"); ("filename", PStr "in/y.csv"); ("content_base64", PStr "YWJj"); ("overwrite", PBool true)]]
  = [ListDir "/data/x"; ReadFile "/data/x.csv"; MakeDir "/data/in"; StoreFile "/data/in/y.csv" "abc"].
Proof. vm_compute. reflexivity. Qed.

(** A base of ["."] is no base: what goes up is read. *)
Example relative_base_escapes :
  calls_of "." [ask_files "GET" "/files/download" [("remote_path", "../../etc/passwd")] []] = [ReadFile "../../etc/passwd"].
Proof. vm_compute. reflexivity. Qed.

(** The default path of listings and of the poller, ["/"], is outside any other base: the files of such an account are never announced. *)
Example default_path_refused :
  resolve_path (demo_ftp "a" "/data") "/" = Raise (ValueError "Path escapes base directory: /")
  /\ calls_of "/data" [PollCycle; ask_files "GET" "/files" [] []] = []
  /\ calls_of "/" [PollCycle] = [ListDir "/"].
Proof. split_and!; vm_compute; reflexivity. Qed.

(** Without [overwrite] a file is refused by its name only: spelt differently, it replaces the one there is. *)
Example upload_replaces_a_listed_file :
  let upload filename := ask_files "POST" "/files/upload" [] [("remote_path", PStr "/data"); ("filename", PStr filename); ("content_base64", PStr "YWJj")] in
  calls_of "/data" [upload "x.csv"] = [ListDir "/data"]
  /\ calls_of "/data" [upload "./x.csv"] = [ListDir "/data"; MakeDir "/data"; StoreFile "/data/x.csv" "abc"].
Proof. split; vm_compute; reflexivity. Qed.

(** A client outlives the account it was made for: registering an account again, with another base, leaves the old one in use. *)
Example replaced_account_keeps_its_client :
  let again := Request (MkRequest "POST" "/accounts" [] [] (Some (PDict [("name", PStr "a"); ("host", PStr "h"); ("protocol", PStr "ftp"); ("base_path", PStr "/new")])) None "" []) in
  let read p := ask_files "GET" "/files/download" [("remote_path", p)] [] in
  calls_of "/data" [read "x"; again; read "x"] = [ReadFile "/data/x"; ReadFile "/data/x"].
Proof. vm_compute. reflexivity. Qed.

(** A directory is reported as created also when the server refuses to make it. *)
Example refused_directory_reported :
  (respond (ftp_routes None (fun _ _ => Ok tt) (fun _ _ _ => Ok []) (fun _ _ _ => Ok "") (fun _ _ _ => Raise (named "StatusCodeError" "550")) (fun _ _ => Ok "/")
     (fun t => Some t) (fun _ => "t") no_health (fun t => Some t))
     (MkRequest "POST" "/directories" [("account_name", "a")] [] (Some (PDict [("remote_path", PStr "/data/new")])) None "" []) (world_of "/data")).1
  = Ok (200%Z, PDict [("status", PStr "created"); ("remote_path", PStr "/data/new")]).
Proof. vm_compute. reflexivity. Qed.

Lemma ftp_calls_stay_in_base_witness :
  firm (demo_ftp "a" "/data") /\ call_inside (demo_ftp "a" "/data") (ReadFile "/data/x").
Proof.
  pose (steps := [ask_files "GET" "/files/download" [("remote_path", "x")] []]).
  split; [reflexivity|].
  refine (proj1 (ftp_calls_stay_in_base None (fun _ _ => Ok tt)
    (fun _ _ p => Ok [FtpEntry "x.csv" [("type", "file"); ("size", "3")]; FtpEntry "in" [("type", "dir")]])
    (fun _ _ _ => Ok "abc") (fun _ _ c => match c with MakeDir _ => Raise (named "StatusCodeError" "550") | _ => Ok tt end) (fun _ _ => Ok "/")
    (fun t => Some t) (fun _ => "t") no_health (fun t => Some t) "/" demo_feed (fun _ => "t") (fun _ _ _ _ => true)
    steps (world_of "/data") (demo_ftp "a" "/data") (ReadFile "/data/x") eq_refl _) eq_refl).
  apply list_elem_of_In. vm_compute. auto.
Defined.
