(* ===== verification/S3.v ===== *)
(** The connector of S3 stores ([integrators/other/s3/v1.0.0/src]): accounts, the checks of names
    ([s3_client/validators.py]), the client ([s3_client/client.py]), the facade with its events
    ([s3_client/integration.py]), the routes ([api/routes.py]) and the poller ([s3_client/poller.py]).

    A store is given by functions of the calls sent so far; names are texts of ASCII. *)

From S2P Require Import Prelude PyText PyValue Json Base64 Effects HttpRoutes FilePollers.

Local Open Scope string_scope.

(** ** Names *)

Definition S3ValidationError (message : string) : pyexn := ValueError message.
Definition is_bucket_end (c : ascii) : bool := ("a" <=? c)%char && (c <=? "z")%char || is_digit c.
Definition is_bucket_char (c : ascii) : bool := is_bucket_end c || Ascii.eqb c "." || Ascii.eqb c "-".
Definition last_char (s : string) : string := str_slice s (-1) None.
(** The pattern, with nothing after it. *)
Definition plain_bucket (s : string) : bool :=
  (3 <=? String.length s)%nat && (String.length s <=? 63)%nat && str_forall is_bucket_char s
  && str_forall is_bucket_end (str_take 1 s) && str_forall is_bucket_end (last_char s).
(** The dollar of the pattern also matches before a line feed that ends the text. *)
Definition bucket_pattern (s : string) : bool :=
  plain_bucket s || (String.eqb (last_char s) (str1 "010") && plain_bucket (str_take (String.length s - 1) s)).
Definition validate_bucket_name (bucket : string) : res unit :=
  if String.eqb bucket "" then Raise (S3ValidationError "Bucket name cannot be empty")
  else if negb (bucket_pattern bucket) then
    Raise (S3ValidationError ("Invalid bucket name '" ++ bucket ++ "'. Must be 3-63 characters, lowercase letters, numbers, dots, and hyphens only."))
  else if str_contains ".." bucket then Raise (S3ValidationError "Bucket name cannot contain consecutive dots")
  else Ok tt.
Definition KEY_MAX_LENGTH : nat := 1024.
Definition validate_object_key (key : string) : res unit :=
  if String.eqb key "" then Raise (S3ValidationError "Object key cannot be empty")
  else if (KEY_MAX_LENGTH <? String.length key)%nat then
    Raise (S3ValidationError "Object key exceeds maximum length of 1024")
  else Ok tt.

(** ** Accounts *)

Record S3AccountConfig := MkS3Account {
  sa_name : string;
  sa_key_id : string;
  sa_secret : string;
  sa_region : string;
  sa_endpoint_url : string;
  sa_default_bucket : string;
  sa_use_path_style : bool;
  sa_environment : string;
  sa_polling_enabled : option bool;
  sa_polling_bucket : string;
  sa_polling_prefix : string;
  sa_polling_interval : option Z
}.

(** [_load_from_env]. *)
Definition s3_env_name (idx : nat) (field : string) : string := "S3_ACCOUNT_" ++ str_of_Z (Z.of_nat idx) ++ "_" ++ field.
Definition yes_text (s : string) : bool := existsb (String.eqb (py_lower s)) ["true"; "1"; "yes"].
Definition s3_account_of_env (env : list (string * string)) (idx : nat) : res S3AccountConfig :=
  let var field fallback := getenv env (s3_env_name idx field) fallback in
  let raw field := match dget (s3_env_name idx field) env with Some "" => None | o => o end in
  interval ← match raw "POLLING_INTERVAL_SECONDS" with
             | None => Ok None
             | Some s => match parse_int s with
                         | Some n => Ok (Some n)
                         | None => Raise (ValueError "invalid literal for int() with base 10")
                         end
             end;
  Ok (MkS3Account (var "NAME" "") (var "AWS_ACCESS_KEY_ID" "") (var "AWS_SECRET_ACCESS_KEY" "") (var "REGION" "us-east-1")
        (var "ENDPOINT_URL" "") (var "DEFAULT_BUCKET" "") (yes_text (var "USE_PATH_STYLE" "false")) (var "ENVIRONMENT" "production")
        (yes_text <$> raw "POLLING_ENABLED") (var "POLLING_BUCKET" "") (var "POLLING_PREFIX" "") interval).
Abbreviation account_table := (list (string * S3AccountConfig)).
Definition s3_register (a : S3AccountConfig) (t : account_table) : account_table := dset (sa_name a) a t.
Definition s3_load_from_env (env : list (string * string)) (t : account_table) : res account_table :=
  foldR (fun t idx => a ← s3_account_of_env env idx; Ok (s3_register a t)) t (account_positions env (fun i => s3_env_name i "NAME")).
Definition s3_load_from_yaml (file : option (list (res S3AccountConfig))) (env : list (string * string)) (t : account_table) : res account_table :=
  match file with
  | None => s3_load_from_env env t
  | Some entries => foldR (fun t entry => a ← entry; Ok (s3_register a t)) t entries
  end.

(** ** The store *)

Record ObjectInfo := MkObjectInfo {
  ob_key : string;
  ob_size : Z;
  ob_last_modified : option string;
  ob_etag : string;
  ob_storage_class : string
}.
Inductive s3_call :=
  | ListBuckets
  | CreateBucket (bucket : string) (location : option string)
  | DeleteBucket (bucket : string)
  | ListObjects (bucket prefix : string) (max_keys : Z)
  | PutObject (bucket key data content_type : string)
  | GetObject (bucket key : string)
  | DeleteObject (bucket key : string)
  | CopyObject (source_bucket source_key bucket key : string)
  | Presign (put : bool) (bucket key : string) (expires_in : Z).

Record World := MkWorld {
  accounts : account_table;
  clients : account_table;
  feed_of : feed;
  calls : list (S3AccountConfig * s3_call)
}.
Definition set_accounts (t : account_table) (w : World) : World := MkWorld t (clients w) (feed_of w) (calls w).
Definition set_clients (t : account_table) (w : World) : World := MkWorld (accounts w) t (feed_of w) (calls w).
Definition set_feed (f : feed) (w : World) : World := MkWorld (accounts w) (clients w) f (calls w).
Definition log_call (a : S3AccountConfig) (c : s3_call) (w : World) : World :=
  MkWorld (accounts w) (clients w) (feed_of w) ((a, c) :: calls w).
Abbreviation past := (list (S3AccountConfig * s3_call)).

Record S3Settings := MkS3Settings {
  st_feed : feed_settings;
  topic_uploaded : string;
  topic_deleted : string;
  st_polling_bucket : string;
  st_polling_prefix : string;
  st_polling_interval : Z
}.

Section connector.
Variable settings : S3Settings.
(** What a store answers: names and dates of buckets; objects; the tag of an object put; content and type; a link. *)
Variable buckets_of : past -> S3AccountConfig -> res (list (string * option string)).
Variable objects_of : past -> S3AccountConfig -> string -> string -> Z -> res (list ObjectInfo).
Variable etag_of : past -> S3AccountConfig -> s3_call -> res string.
Variable content_of : past -> S3AccountConfig -> string -> string -> res (string * string).
Variable link_of : past -> S3AccountConfig -> s3_call -> res string.
Variable outcome : past -> S3AccountConfig -> s3_call -> res unit.
Variable now : list event -> string.
Variable broker : list event -> string -> pyval -> string -> bool.
Abbreviation SM := (EM World).

Definition asking {A} (a : S3AccountConfig) (c : s3_call) (answer : past -> res A) : SM A :=
  w ← get_st; _ ← modify (log_call a c); lift (answer (calls w)).
Definition perform (a : S3AccountConfig) (c : s3_call) : SM unit := asking a c (fun h => outcome h a c).
Definition on_feed {A} (m : EM feed A) : SM A := within feed_of set_feed m.

(** ** The facade, with the calls of the client *)

Definition get_account (name : string) (w : World) : option S3AccountConfig := dget name (accounts w).
Definition get_client (account_name : string) : SM S3AccountConfig :=
  w ← get_st;
  match dget account_name (clients w) with
  | Some a => mret a
  | None =>
      match get_account account_name w with
      | None => raise (ValueError ("Account '" ++ account_name ++ "' not found"))
      | Some a => _ ← modify (set_clients (dset account_name a (clients w))); mret a
      end
  end.
Definition remove_client (account_name : string) (w : World) : World := set_clients (ddel account_name (clients w)) w.

Definition resolve_bucket (account_name bucket : string) : SM string :=
  w ← get_st;
  if negb (String.eqb bucket "") then mret bucket
  else match get_account account_name w with
       | Some a => if String.eqb (sa_default_bucket a) ""
                   then raise (ValueError "No bucket specified and no default_bucket configured for this account")
                   else mret (sa_default_bucket a)
       | None => raise (ValueError "No bucket specified and no default_bucket configured for this account")
       end.

(** [_emit_event]: Kafka's refusal is not caught. *)
Definition settings_for (event topic : string) : feed_settings :=
  let s := st_feed settings in
  MkFeedSettings (fs_connector s) event topic (fs_kafka s) (fs_notify s) (fs_api_url s) (fs_internal_secret s) (fs_api_key s).
Definition emit (event topic key : string) (data : dict) (account_name : string) : EM feed unit :=
  f ← get_st;
  _ ← (if fs_kafka (st_feed settings) then
         let envelope := WmsPoller.wrap_event (fs_connector (st_feed settings)) event (PDict data) (PStr account_name) (now (events f)) in
         let ok := broker (events f) topic envelope account_name in
         _ ← modify (log_event (KafkaSend key account_name topic envelope ok));
         if ok then mret tt else raise (OtherError "KafkaError")
       else mret tt);
  notify_platform (settings_for event topic) data.

Definition list_buckets (account_name : string) : SM (list (string * option string)) :=
  a ← get_client account_name; asking a ListBuckets (fun h => buckets_of h a).
(** [S3Client.test_connection]: an error of the store becomes a [ConnectionError]. *)
Definition test_connection (account_name : string) : SM dict :=
  a ← get_client account_name;
  buckets ← try_catch (asking a ListBuckets (fun h => buckets_of h a))
    (fun e => if is_named "ClientError" e then raise (named "ConnectionError" ("S3 connection failed: " ++ named_text "ClientError" e)) else raise e);
  mret [("status", PStr "connected"); ("region", PStr (sa_region a)); ("endpoint", PStr (sa_endpoint_url a));
        ("buckets_accessible", PInt (Z.of_nat (List.length buckets)))].

Definition or_region (region : string) (a : S3AccountConfig) : string := if String.eqb region "" then sa_region a else region.
Definition create_bucket (account_name bucket region : string) : SM string :=
  _ ← lift (validate_bucket_name bucket);
  a ← get_client account_name;
  let effective := or_region region a in
  _ ← perform a (CreateBucket bucket (if String.eqb effective "" || String.eqb effective "us-east-1" then None else Some effective));
  mret effective.
Definition delete_bucket (account_name bucket : string) : SM unit :=
  _ ← lift (validate_bucket_name bucket); a ← get_client account_name; perform a (DeleteBucket bucket).
Definition list_objects (account_name bucket prefix : string) (max_keys : Z) : SM (string * list ObjectInfo) :=
  bucket ← resolve_bucket account_name bucket;
  _ ← lift (validate_bucket_name bucket);
  a ← get_client account_name;
  objects ← asking a (ListObjects bucket prefix max_keys) (fun h => objects_of h a bucket prefix max_keys);
  mret (bucket, objects).

Definition object_event (key bucket account_name time : string) : dict :=
  [("key", PStr key); ("bucket", PStr bucket); ("account_name", PStr account_name); ("timestamp", PStr time)].
Definition upload_object (account_name bucket key content_base64 content_type : string) : SM dict :=
  bucket ← resolve_bucket account_name bucket;
  _ ← lift (validate_bucket_name bucket);
  _ ← lift (validate_object_key key);
  a ← get_client account_name;
  data ← lift (b64decode content_base64);
  etag ← asking a (PutObject bucket key data content_type) (fun h => etag_of h a (PutObject bucket key data content_type));
  let size := PInt (Z.of_nat (String.length data)) in
  w ← get_st;
  _ ← on_feed (emit "object.uploaded" (topic_uploaded settings) key
         [("key", PStr key); ("bucket", PStr bucket); ("size", size); ("content_type", PStr content_type); ("etag", PStr etag);
          ("account_name", PStr account_name); ("timestamp", PStr (now (events (feed_of w))))] account_name);
  mret [("status", PStr "uploaded"); ("bucket", PStr bucket); ("key", PStr key); ("size", size); ("etag", PStr etag)].
Definition download_object (account_name bucket key : string) : SM dict :=
  bucket ← resolve_bucket account_name bucket;
  _ ← lift (validate_bucket_name bucket);
  _ ← lift (validate_object_key key);
  a ← get_client account_name;
  found ← asking a (GetObject bucket key) (fun h => content_of h a bucket key);
  mret [("key", PStr key); ("bucket", PStr bucket); ("content_base64", PStr (b64encode (found : string * string).1));
        ("size", PInt (Z.of_nat (String.length found.1))); ("content_type", PStr found.2)].
Definition delete_object (account_name bucket key : string) : SM dict :=
  bucket ← resolve_bucket account_name bucket;
  _ ← lift (validate_bucket_name bucket);
  _ ← lift (validate_object_key key);
  a ← get_client account_name;
  _ ← perform a (DeleteObject bucket key);
  w ← get_st;
  _ ← on_feed (emit "object.deleted" (topic_deleted settings) key (object_event key bucket account_name (now (events (feed_of w)))) account_name);
  mret [("status", PStr "deleted"); ("bucket", PStr bucket); ("key", PStr key)].
Definition copy_object (account_name source_bucket source_key bucket key : string) : SM unit :=
  _ ← lift (validate_bucket_name source_bucket);
  _ ← lift (validate_bucket_name bucket);
  _ ← lift (validate_object_key source_key);
  _ ← lift (validate_object_key key);
  a ← get_client account_name;
  perform a (CopyObject source_bucket source_key bucket key).
Definition generate_presigned_url (account_name bucket key : string) (expires_in : Z) (http_method : string) : SM dict :=
  bucket ← resolve_bucket account_name bucket;
  _ ← lift (validate_bucket_name bucket);
  _ ← lift (validate_object_key key);
  a ← get_client account_name;
  let c := Presign (negb (String.eqb (py_upper http_method) "GET")) bucket key expires_in in
  url ← asking a c (fun h => link_of h a c);
  mret [("url", PStr url); ("bucket", PStr bucket); ("key", PStr key); ("expires_in", PInt expires_in); ("method", PStr http_method)].

(** ** The routes *)

Abbreviation handler := (request -> EM World pyval).
Variable health_check : World -> bool * pyval.
Variable datetime_text : string -> option string.

Definition account_missing (name : string) : string := "Account '" ++ name ++ "' not found. Add it via POST /accounts.".
Definition require_account (account_name : string) : SM unit :=
  w ← get_st;
  match get_account account_name w with Some _ => mret tt | None => http_error 404 (account_missing account_name) end.
(** [except _CLIENT_ERRORS]: the errors of names and of Base64 are [ValueError]s. *)
Definition client_errors {A} (m : SM A) : SM A :=
  try_catch m (fun e => match e with ValueError _ => http_error 400 "Request failed" | _ => raise e end).

Definition health : handler := fun _ => gets (fun w => (health_check w).2).
Definition readiness : handler := fun _ =>
  w ← get_st; if (health_check w).1 then mret (health_check w).2 else http_error 503 "Service unavailable".
Definition test_account : handler := fun r =>
  let account_name := path_param "account_name" r in
  _ ← require_account account_name;
  try_catch (d ← test_connection account_name; mret (PDict d)) (fun _ => http_error 502 "Connection test failed").
Definition account_status (a : S3AccountConfig) : SM pyval :=
  try_catch
    (d ← test_connection (sa_name a);
     mret (PDict [("name", PStr (sa_name a)); ("status", dget_or "status" PNone d); ("region", dget_or "region" PNone d)]))
    (fun _ => mret (PDict [("name", PStr (sa_name a)); ("status", PStr "disconnected"); ("region", PStr (sa_region a))])).
Definition all_auth_statuses : handler := fun _ =>
  w ← get_st; l ← map_each account_status (map snd (accounts w)); mret (PList l).

Definition AccountCreateRequest : list field :=
  [needed "name" KText; needed "aws_access_key_id" KText; needed "aws_secret_access_key" KText;
   with_default "region" KText (PStr "us-east-1"); with_default "endpoint_url" KText (PStr ""); with_default "default_bucket" KText (PStr "");
   with_default "use_path_style" KFlag (PBool false); with_default "environment" KText (PStr "production");
   optional "polling_enabled" KFlag; with_default "polling_bucket" KText (PStr ""); with_default "polling_prefix" KText (PStr "");
   optional "polling_interval_seconds" KInt].
(** [_normalize_account]. *)
Definition normalized_endpoint (url : string) : string :=
  if negb (String.eqb url "") && negb (starts_with "http://" url || starts_with "https://" url) then "https://" ++ url else url.
Definition account_of_body (name : string) (body : dict) : S3AccountConfig :=
  MkS3Account name (text_in "aws_access_key_id" body) (text_in "aws_secret_access_key" body) (text_in "region" body)
    (normalized_endpoint (text_in "endpoint_url" body)) (text_in "default_bucket" body) (truthy (of_body "use_path_style" body))
    (text_in "environment" body) (match of_body "polling_enabled" body with PBool b => Some b | _ => None end)
    (text_in "polling_bucket" body) (text_in "polling_prefix" body)
    (match of_body "polling_interval_seconds" body with PInt n => Some n | _ => None end).
Definition account_row (a : S3AccountConfig) : pyval :=
  PDict [("name", PStr (sa_name a)); ("region", PStr (sa_region a));
         ("endpoint", PStr (if String.eqb (sa_endpoint_url a) "" then "aws" else sa_endpoint_url a));
         ("default_bucket", PStr (sa_default_bucket a)); ("environment", PStr (sa_environment a))].
Definition list_accounts : handler := fun _ => gets (fun w => PList (map (fun na => account_row na.2) (accounts w))).
Definition add_account : handler := fun r =>
  body ← lift (model_body datetime_text AccountCreateRequest r);
  let a := account_of_body (text_in "name" body) body in
  _ ← modify (fun w => set_accounts (s3_register a (accounts w)) w);
  mret (PDict [("status", PStr "created"); ("name", PStr (sa_name a))]).
Definition update_account : handler := fun r =>
  let account_name := path_param "account_name" r in
  body ← lift (model_body datetime_text AccountCreateRequest r);
  w ← get_st;
  if dhas account_name (accounts w) then
    _ ← modify (fun w => let w := remove_client account_name w in
                         set_accounts (s3_register (account_of_body account_name body) (ddel account_name (accounts w))) w);
    mret (PDict [("status", PStr "updated"); ("name", PStr account_name)])
  else http_error 404 ("Account '" ++ account_name ++ "' not found").
Definition remove_account : handler := fun r =>
  let account_name := path_param "account_name" r in
  w ← get_st;
  if dhas account_name (accounts w) then
    _ ← modify (fun w => remove_client account_name (set_accounts (ddel account_name (accounts w)) w));
    mret (PDict [("status", PStr "removed")])
  else http_error 404 ("Account '" ++ account_name ++ "' not found").

Definition object_dump (bucket : string) (o : ObjectInfo) : pyval :=
  PDict [("key", PStr (ob_key o)); ("bucket", PStr bucket); ("size", PInt (ob_size o)); ("last_modified", text_or_none (ob_last_modified o));
         ("etag", PStr (ob_etag o)); ("storage_class", PStr (ob_storage_class o)); ("content_type", PStr "")].
Definition ObjectUploadRequest : list field :=
  [needed "bucket" KText; needed "key" KText; needed "content_base64" KText; with_default "content_type" KText (PStr "application/octet-stream")].
Definition ObjectDeleteRequest : list field := [needed "bucket" KText; needed "key" KText].
Definition ObjectCopyRequest : list field :=
  [needed "source_bucket" KText; needed "source_key" KText; needed "destination_bucket" KText; needed "destination_key" KText].
Definition PresignRequest : list field :=
  [needed "bucket" KText; needed "key" KText; with_default "expires_in" KInt (PInt 3600); with_default "method" (KOneOf ["GET"; "PUT"]) (PStr "GET")].
Definition BucketCreateRequest : list field := [needed "bucket" KText; with_default "region" KText (PStr "")].

Definition get_objects : handler := fun r =>
  account_name ← lift (text_param "account_name" r);
  max_keys ← lift (int_param "max_keys" 1000 (Some 1%Z) (Some 10000%Z) r);
  _ ← require_account account_name;
  found ← client_errors (list_objects account_name (text_param_or "bucket" "" r) (text_param_or "prefix" "" r) max_keys);
  mret (PList (map (object_dump (found : string * list ObjectInfo).1) found.2)).
Definition with_body (fields : list field) (run : string -> dict -> SM pyval) : handler := fun r =>
  account_name ← lift (text_param "account_name" r);
  body ← lift (model_body datetime_text fields r);
  _ ← require_account account_name;
  client_errors (run account_name body).
Definition post_upload : handler := with_body ObjectUploadRequest (fun account_name body =>
  d ← upload_object account_name (text_in "bucket" body) (text_in "key" body) (text_in "content_base64" body) (text_in "content_type" body);
  mret (PDict d)).
Definition get_download : handler := fun r =>
  account_name ← lift (text_param "account_name" r);
  key ← lift (text_param "key" r);
  _ ← require_account account_name;
  client_errors (d ← download_object account_name (text_param_or "bucket" "" r) key; mret (PDict d)).
Definition delete_objects : handler := with_body ObjectDeleteRequest (fun account_name body =>
  d ← delete_object account_name (text_in "bucket" body) (text_in "key" body); mret (PDict d)).
Definition post_copy : handler := with_body ObjectCopyRequest (fun account_name body =>
  _ ← copy_object account_name (text_in "source_bucket" body) (text_in "source_key" body) (text_in "destination_bucket" body) (text_in "destination_key" body);
  mret (PDict (("status", PStr "copied") :: body))).
Definition post_presign : handler := with_body PresignRequest (fun account_name body =>
  d ← generate_presigned_url account_name (text_in "bucket" body) (text_in "key" body)
        (match of_body "expires_in" body with PInt n => n | _ => 0 end) (text_in "method" body);
  mret (PDict d)).
Definition get_buckets : handler := fun r =>
  account_name ← lift (text_param "account_name" r);
  _ ← require_account account_name;
  l ← list_buckets account_name;
  mret (PList (map (fun b => PDict [("name", PStr b.1); ("creation_date", text_or_none b.2)]) l)).
Definition post_bucket : handler := with_body BucketCreateRequest (fun account_name body =>
  region ← create_bucket account_name (text_in "bucket" body) (text_in "region" body);
  mret (PDict [("status", PStr "created"); ("bucket", of_body "bucket" body); ("region", PStr region)])).
Definition remove_bucket : handler := fun r =>
  account_name ← lift (text_param "account_name" r);
  _ ← require_account account_name;
  _ ← client_errors (delete_bucket account_name (path_param "bucket" r));
  mret (PDict [("status", PStr "deleted"); ("bucket", PStr (path_param "bucket" r))]).

Definition s3_routes : list (route World) :=
  [Route "GET" "/health" "health" 200 health; Route "GET" "/readiness" "readiness" 200 readiness;
   Route "POST" "/auth/{account_name}/test" "test_connection" 200 test_account;
   Route "GET" "/auth/{account_name}/test" "test_connection" 200 test_account;
   Route "GET" "/auth/status" "all_auth_statuses" 200 all_auth_statuses;
   Route "GET" "/accounts" "list_accounts" 200 list_accounts; Route "POST" "/accounts" "add_account" 201 add_account;
   Route "PUT" "/accounts/{account_name}" "update_account" 200 update_account;
   Route "DELETE" "/accounts/{account_name}" "remove_account" 200 remove_account;
   Route "GET" "/objects" "list_objects" 200 get_objects; Route "POST" "/objects/upload" "upload_object" 200 post_upload;
   Route "GET" "/objects/download" "download_object" 200 get_download; Route "DELETE" "/objects" "delete_object" 200 delete_objects;
   Route "POST" "/objects/copy" "copy_object" 200 post_copy; Route "POST" "/objects/presign" "generate_presigned_url" 200 post_presign;
   Route "GET" "/buckets" "list_buckets" 200 get_buckets; Route "POST" "/buckets" "create_bucket" 200 post_bucket;
   Route "DELETE" "/buckets/{bucket}" "delete_bucket" 200 remove_bucket].

(** ** The poller *)

(** [_effective_interval]. *)
Definition effective_interval (w : World) : Z :=
  fold_left Z.min (omap (fun na => sa_polling_interval na.2) (accounts w)) (st_polling_interval settings).

Definition first_text (a b c : string) : string :=
  if negb (String.eqb a "") then a else if negb (String.eqb b "") then b else c.
Definition new_object_event (bucket account_name time : string) (o : ObjectInfo) : dict :=
  [("key", PStr (ob_key o)); ("bucket", PStr bucket); ("size", PInt (ob_size o)); ("last_modified", text_or_none (ob_last_modified o));
   ("etag", PStr (ob_etag o)); ("account_name", PStr account_name); ("detected_at", PStr time)].
(** The objects listed, as in [FilePollers.poll_items]: the new ones are announced, then all are known. *)
Definition emit_new_objects (account_name bucket : string) (objects : list ObjectInfo) : EM feed unit :=
  poll_items (st_feed settings) ob_key (new_object_event bucket) now broker account_name objects.
Definition poll_account (account_name : string) : SM unit :=
  w ← get_st;
  match get_account account_name w with
  | None => mret tt
  | Some a =>
      let bucket := first_text (sa_polling_bucket a) (st_polling_bucket settings) (sa_default_bucket a) in
      let prefix := first_text (sa_polling_prefix a) (st_polling_prefix settings) "" in
      if String.eqb bucket "" then mret tt
      else
        objects ← asking a (ListObjects bucket prefix 1000) (fun h => objects_of h a bucket prefix 1000);
        on_feed (emit_new_objects account_name bucket objects)
  end.
Definition poll_all_accounts : SM unit :=
  w ← get_st;
  for_each (fun a => if default true (sa_polling_enabled a) then try_catch (poll_account (sa_name a)) (fun _ => mret tt) else mret tt)
    (map snd (accounts w)).
End connector.

(** ** The names in the calls *)

Definition good_bucket (b : string) : Prop := validate_bucket_name b = Ok tt.
Definition good_key (k : string) : Prop := validate_object_key k = Ok tt.
Definition names_checked (c : s3_call) : Prop :=
  match c with
  | ListBuckets => True
  | CreateBucket b _ | DeleteBucket b | ListObjects b _ _ => good_bucket b
  | PutObject b k _ _ | GetObject b k | DeleteObject b k | Presign _ b k _ => good_bucket b /\ good_key k
  | CopyObject b k b' k' => (good_bucket b /\ good_key k) /\ good_bucket b' /\ good_key k'
  end.

Section names.
Context (settings : S3Settings) (buckets_of : past -> S3AccountConfig -> res (list (string * option string))).
Context (objects_of : past -> S3AccountConfig -> string -> string -> Z -> res (list ObjectInfo)).
Context (etag_of : past -> S3AccountConfig -> s3_call -> res string).
Context (content_of : past -> S3AccountConfig -> string -> string -> res (string * string)).
Context (link_of : past -> S3AccountConfig -> s3_call -> res string) (outcome : past -> S3AccountConfig -> s3_call -> res unit).
Context (now : list event -> string) (broker : list event -> string -> pyval -> string -> bool).
Context (health_check : World -> bool * pyval) (datetime_text : string -> option string).
Definition calls_checked (w : World) : Prop := Forall (fun ac => names_checked ac.2) (calls w).

Lemma modify_checked f : (forall w, calls (f w) = calls w) -> preserves calls_checked (modify f).
Proof. intros Hf. apply preserves_modify. intros w. unfold calls_checked. by rewrite Hf. Qed.
#[local] Hint Extern 1 (preserves calls_checked (modify _)) => apply modify_checked; reflexivity : effects.
Lemma asking_checked {A} a c (answer : past -> res A) : names_checked c -> preserves calls_checked (asking a c answer).
Proof. intros Hc. unfold asking. preserve. apply preserves_modify. intros w Hw. by constructor. Qed.
Lemma perform_checked a c : names_checked c -> preserves calls_checked (perform outcome a c).
Proof. apply asking_checked. Qed.
Lemma feed_checked {A} (m : EM feed A) : preserves calls_checked (on_feed m).
Proof. intros w Hw. unfold on_feed, within. by destruct (m (feed_of w)). Qed.
Lemma get_client_checked name : preserves calls_checked (get_client name).
Proof. unfold get_client. preserve. Qed.
Lemma resolve_bucket_checked name bucket : preserves calls_checked (resolve_bucket name bucket).
Proof. unfold resolve_bucket. preserve. Qed.
Lemma require_account_checked name : preserves calls_checked (require_account name).
Proof. unfold require_account. preserve. Qed.
Lemma client_errors_checked {A} (m : EM World A) : preserves calls_checked m -> preserves calls_checked (client_errors m).
Proof. intros Hm. unfold client_errors. preserve. Qed.
#[local] Hint Resolve feed_checked get_client_checked resolve_bucket_checked require_account_checked : effects.

(** A check, and what follows it. *)
Lemma after_bucket {A} b (k : EM World A) : (good_bucket b -> preserves calls_checked k) ->
  preserves calls_checked (_ ← lift (validate_bucket_name b); k).
Proof. intros Hk. apply preserves_lift_ok. intros [] Hb. by apply Hk. Qed.
Lemma after_key {A} b (k : EM World A) : (good_key b -> preserves calls_checked k) ->
  preserves calls_checked (_ ← lift (validate_object_key b); k).
Proof. intros Hk. apply preserves_lift_ok. intros [] Hb. by apply Hk. Qed.
Ltac checked :=
  repeat first
    [ apply after_bucket; intros ? | apply after_key; intros ?
    | apply asking_checked; done | apply perform_checked; done | apply client_errors_checked
    | apply preserves_bind; [|intros ?] | apply preserves_try; [|intros ?]
    | match goal with |- preserves _ (match ?x with _ => _ end) => destruct x eqn:? end
    | solve [auto with effects] ].

Abbreviation routes := (s3_routes settings buckets_of objects_of etag_of content_of link_of outcome now broker health_check datetime_text).
Lemma test_connection_checked name : preserves calls_checked (test_connection buckets_of name).
Proof. unfold test_connection. checked. Qed.
Lemma account_status_checked a : preserves calls_checked (account_status buckets_of a).
Proof. unfold account_status. apply preserves_try; [|auto with effects]. apply preserves_bind; [apply test_connection_checked|auto with effects]. Qed.

Lemma routes_checked req : Forall (fun r => preserves calls_checked (rt_handler r req)) routes.
Proof.
  unfold s3_routes. repeat (apply List.Forall_cons; [cbn [rt_handler]|]); [..|apply List.Forall_nil].
  all: unfold health, readiness, test_account, all_auth_statuses, list_accounts, add_account, update_account, remove_account, get_objects,
    post_upload, get_download, delete_objects, post_copy, post_presign, get_buckets, post_bucket, remove_bucket, with_body,
    list_buckets, create_bucket, delete_bucket, list_objects, upload_object, download_object, delete_object, copy_object,
    generate_presigned_url; cbv zeta beta.
  all: try solve [checked].
  all: checked; first [apply test_connection_checked|apply preserves_map_each; intros ? _; apply account_status_checked].
Qed.

(** Whatever is requested and whatever the stores answer, every call names buckets and keys that pass the
    checks of the connector. *)
Theorem s3_names_are_checked reqs w a c :
  calls w = [] ->
  (a, c) ∈ calls (for_each (fun req => try_catch (_ ← respond routes req; mret tt) (fun _ => mret tt)) reqs w).2 -> names_checked c.
Proof.
  intros Hw Hin.
  assert (calls_checked (for_each (fun req => try_catch (_ ← respond routes req; mret tt) (fun _ => mret tt)) reqs w).2) as Hs.
  - apply (preserves_for calls_checked _ reqs); [|unfold calls_checked; rewrite Hw; apply List.Forall_nil]. intros req _.
    apply preserves_try; [|auto with effects]. apply preserves_bind; [|auto with effects]. unfold respond.
    destruct (List.find _ routes) as [r|] eqn:E; [|auto with effects].
    apply preserves_bind; [|auto with effects]. apply List.find_some in E as [Hr _].
    exact (proj1 (List.Forall_forall _ _) (routes_checked (with_params r req)) r Hr).
  - apply (proj1 (List.Forall_forall _ _) Hs (a, c)). by apply list_elem_of_In.
Qed.
End names.

(** ** Demonstrations *)

Definition demo_s3 : S3AccountConfig := MkS3Account "a" "id" "secret" "eu-west-1" "" "files" false "production" None "" "" None.
Definition demo_s3_settings (kafka : bool) : S3Settings :=
  MkS3Settings (MkFeedSettings "s3" "object.new" "new" kafka true "http://platform:8080" "secret" "") "uploaded" "deleted" "" "" 300.
Definition s3_world : World := MkWorld [("a", demo_s3)] [] new_feed [].
(** A store that lists its keys in order, the first [max_keys] of them. *)
Definition store_of (keys : list string) (h : past) (a : S3AccountConfig) (bucket prefix : string) (max_keys : Z) : res (list ObjectInfo) :=
  Ok (map (fun k => MkObjectInfo k 1 None "" "") (take (Z.to_nat max_keys) (List.filter (starts_with prefix) keys))).
Definition demo_routes (kafka : bool) : list (route World) :=
  s3_routes (demo_s3_settings kafka) (fun _ _ => Ok [("files", None)]) (store_of ["a"; "b"]) (fun _ _ _ => Ok "etag") (fun _ _ _ _ => Ok ("abc", "text/plain"))
    (fun _ _ _ => Ok "https://link") (fun _ _ _ => Ok tt) (fun _ => "t") (fun _ _ _ _ => false) (fun _ => (true, PStr "healthy")) (fun t => Some t).
Definition s3_request (http_method path : string) (body : dict) : request :=
  MkRequest http_method path [("account_name", "a")] [] (Some (PDict body)) None "" [].

Example bucket_names :
  map (fun b => match validate_bucket_name b with Ok _ => true | Raise _ => false end)
    ["files"; "my.bucket-1"; "ab"; "-ab"; "a..b"; "Files"; "files" ++ str1 "010"; "files" ++ str1 "010" ++ str1 "010"; ""]
  = [true; true; false; false; false; false; true; false; false].
Proof. vm_compute. reflexivity. Qed.

(** An upload that Kafka refuses is answered with an error after the object is stored. *)
Example refused_upload_is_stored :
  let '(r, w) := respond (demo_routes true) (s3_request "POST" "/objects/upload" [("bucket", PStr ""); ("key", PStr "x"); ("content_base64", PStr "YWJj")]) s3_world in
  r = Raise (OtherError "KafkaError") /\ map snd (calls w) = [PutObject "files" "x" "abc" "application/octet-stream"].
Proof. vm_compute. auto. Qed.
Example upload_without_kafka :
  (respond (demo_routes false) (s3_request "POST" "/objects/upload" [("bucket", PStr ""); ("key", PStr "x"); ("content_base64", PStr "YWJj")]) s3_world).1
  = Ok (200%Z, PDict [("status", PStr "uploaded"); ("bucket", PStr "files"); ("key", PStr "x"); ("size", PInt 3); ("etag", PStr "etag")]).
Proof. vm_compute. reflexivity. Qed.
Example content_must_be_base64 :
  (respond (demo_routes false) (s3_request "POST" "/objects/upload" [("bucket", PStr ""); ("key", PStr "x"); ("content_base64", PStr "YWJ")]) s3_world).1
  = Raise (http_exception 400 "Request failed").
Proof. vm_compute. reflexivity. Qed.

(** The poller reads the first page of a listing only, a thousand keys at most (here a store with pages of two): an object
    after it is never announced, and a new object before pushes a known one out, which is announced again when it is back. *)
Definition paged (size : Z) (keys : list string) (h : past) (a : S3AccountConfig) (bucket prefix : string) (max_keys : Z) : res (list ObjectInfo) :=
  store_of keys h a bucket prefix (Z.min size max_keys).
Definition poll_s3 (keys : list string) : EM World unit :=
  poll_account (MkS3Settings demo_feed "" "" "" "" 300) (paged 2 keys) (fun _ => "t") (fun _ _ _ _ => true) "a".
Definition announced_by (l : list (list string)) : list string :=
  announced_in (events (feed_of (for_each poll_s3 l s3_world).2)).
Example only_the_first_page :
  announced_by [["b"; "c"; "z"]; ["b"; "c"; "z"]] = ["b"; "c"] /\ announced_by [["b"; "c"]; ["a"; "b"; "c"]; ["b"; "c"]] = ["b"; "c"; "a"; "c"].
Proof. split; vm_compute; reflexivity. Qed.

Lemma s3_names_are_checked_witness : names_checked (DeleteObject "files" "x").
Proof.
  pose (req := s3_request "DELETE" "/objects" [("bucket", PStr "files"); ("key", PStr "x")]).
  refine (s3_names_are_checked (demo_s3_settings false) (fun _ _ => Ok [("files", None)]) (store_of ["a"; "b"]) (fun _ _ _ => Ok "etag")
    (fun _ _ _ _ => Ok ("abc", "text/plain")) (fun _ _ _ => Ok "https://link") (fun _ _ _ => Ok tt) (fun _ => "t") (fun _ _ _ _ => false)
    (fun _ => (true, PStr "healthy")) (fun t => Some t) [req] s3_world demo_s3 (DeleteObject "files" "x") eq_refl _).
  apply list_elem_of_In. vm_compute. auto.
Defined.
