(* ===== verification/Slack.v ===== *)
(** The connector of Slack ([integrators/other/slack/v1.0.0/src]): the client with its retries
    ([slack_client/client.py]), the facade ([slack_client/integration.py]), the poller of channels
    ([slack_client/poller.py]) with its store ([models/database.py]), accounts and routes.

    Slack and Kafka are functions of what happened before, which the world keeps, newest first. *)

From S2P Require Import Prelude PyText PyValue Base64 Effects HttpRoutes FilePollers.

Local Open Scope string_scope.

(** ** The world *)

Record SlackAccountConfig := MkSlackAccount {
  sl_name : string;
  sl_bot_token : string;
  sl_app_token : string;
  sl_default_channel : string;
  sl_environment : string
}.
Inductive payload :=
  | NoPayload
  | Params (params : dict)
  | Json (json : dict)
  | Upload (data : dict) (filename content : string).
Record slack_answer := MkAnswer { an_status : Z; an_retry_after : option string; an_json : res pyval }.

(** [BackedOff n] stands for a wait of the backoff factor times [2^n]. *)
Inductive entry :=
  | Called (token api_method : string) (p : payload)
  | RetryAfter (seconds : Z)
  | BackedOff (attempt : nat)
  | Published (channel ts : string) (envelope : pyval) (ok : bool)
  | Polled (channel ts : string).
(** [clients] and [poll_clients] hold the tokens of the clients of the facade and of the poller. *)
Record World := MkWorld {
  accounts : list (string * SlackAccountConfig);
  clients : list (string * string);
  poll_clients : list (string * string);
  user_cache : list (string * string);
  marks : gmap (string * string) string;
  log : list entry
}.
Definition record (e : entry) (w : World) : World :=
  MkWorld (accounts w) (clients w) (poll_clients w) (user_cache w) (marks w) (e :: log w).
Definition set_accounts (l : list (string * SlackAccountConfig)) (w : World) : World :=
  MkWorld l (clients w) (poll_clients w) (user_cache w) (marks w) (log w).
Definition set_clients (l : list (string * string)) (w : World) : World :=
  MkWorld (accounts w) l (poll_clients w) (user_cache w) (marks w) (log w).
Definition set_poll_clients (l : list (string * string)) (w : World) : World :=
  MkWorld (accounts w) (clients w) l (user_cache w) (marks w) (log w).
Definition set_user_cache (l : list (string * string)) (w : World) : World :=
  MkWorld (accounts w) (clients w) (poll_clients w) l (marks w) (log w).
(** [save_timestamp], [get_timestamp]. *)
Definition save_timestamp (account entity timestamp : string) (w : World) : World :=
  MkWorld (accounts w) (clients w) (poll_clients w) (user_cache w) (<[(account, entity) := timestamp]> (marks w)) (log w).
Definition get_timestamp (account entity : string) (w : World) : option string := marks w !! (account, entity).

(** ** Accounts *)

Definition slack_env_name (idx : nat) (field : string) : string := "SLACK_ACCOUNT_" ++ str_of_Z (Z.of_nat idx) ++ "_" ++ field.
Definition slack_account_of_env (env : list (string * string)) (idx : nat) : SlackAccountConfig :=
  let var field fallback := getenv env (slack_env_name idx field) fallback in
  MkSlackAccount (var "NAME" "") (var "BOT_TOKEN" "") (var "APP_TOKEN" "") (var "DEFAULT_CHANNEL" "general") (var "ENVIRONMENT" "production").
Definition slack_register (a : SlackAccountConfig) (l : list (string * SlackAccountConfig)) : list (string * SlackAccountConfig) :=
  dset (sl_name a) a l.
Definition slack_load_from_env (env : list (string * string)) (l : list (string * SlackAccountConfig)) : list (string * SlackAccountConfig) :=
  fold_left (fun l idx => slack_register (slack_account_of_env env idx) l) (account_positions env (fun i => slack_env_name i "NAME")) l.
Definition slack_load_from_yaml (file : option (list (res SlackAccountConfig))) (env : list (string * string))
    (l : list (string * SlackAccountConfig)) : res (list (string * SlackAccountConfig)) :=
  match file with
  | None => Ok (slack_load_from_env env l)
  | Some entries => foldR (fun l entry => a ← entry; Ok (slack_register a l)) l entries
  end.

(** ** The client *)

Definition SlackApiError (api_method error : string) : pyexn := named "SlackApiError" ("Slack API " ++ api_method ++ ": " ++ error).

Section connector.
Variable slack : list entry -> string -> string -> payload -> res slack_answer.
Variable max_retries : nat.
Variable kafka : bool.
Variable topic : string.
Variable now : list entry -> string.
Variable broker : list entry -> string -> pyval -> string -> bool.
Abbreviation SM := (EM World).

Definition http_post (token api_method : string) (p : payload) : SM slack_answer :=
  w ← get_st; _ ← modify (record (Called token api_method p)); lift (slack (log w) token api_method p).

(** [_call], from an attempt on; [n] attempts are left. *)
Fixpoint attempts (n attempt : nat) (token api_method : string) (p : payload) : SM dict :=
  match n with
  | O => raise (SlackApiError api_method ("Failed after " ++ str_of_Z (Z.of_nat max_retries) ++ " retries"))
  | S n =>
      response ← http_post token api_method p;
      if (an_status response =? 429)%Z then
        seconds ← lift match parse_int (default "5" (an_retry_after response)) with
                       | Some s => Ok s
                       | None => Raise (ValueError "invalid literal for int() with base 10")
                       end;
        _ ← modify (record (RetryAfter seconds));
        attempts n (S attempt) token api_method p
      else
        v ← lift (an_json response);
        data ← lift (dict_method "get" v);
        if truthy (dget_or "ok" (PBool false) data) then mret data
        else
          let error := dget_or "error" (PStr "unknown_error") data in
          if py_eqb error (PStr "ratelimited") then _ ← modify (record (BackedOff attempt)); attempts n (S attempt) token api_method p
          else raise (SlackApiError api_method (py_str error))
  end.
Definition call (token api_method : string) (p : payload) : SM dict := attempts max_retries 0 token api_method p.

Definition auth_test (token : string) : SM dict := call token "auth.test" NoPayload.
Definition conversations_list (token types : string) (limit : Z) : SM dict :=
  call token "conversations.list" (Params [("types", PStr types); ("limit", PInt limit); ("exclude_archived", PBool true)]).
Definition nonempty_text (k v : string) : dict := if String.eqb v "" then [] else [(k, PStr v)].
Definition conversations_history (token channel : string) (limit : Z) (oldest latest : string) : SM dict :=
  call token "conversations.history"
    (Params ([("channel", PStr channel); ("limit", PInt limit)] ++ nonempty_text "oldest" oldest ++ nonempty_text "latest" latest)%list).
Definition chat_post_message (token channel text thread_ts : string) (blocks : list pyval) (unfurl_links unfurl_media : bool) : SM dict :=
  call token "chat.postMessage"
    (Json ([("channel", PStr channel); ("text", PStr text); ("unfurl_links", PBool unfurl_links); ("unfurl_media", PBool unfurl_media)]
           ++ nonempty_text "thread_ts" thread_ts ++ match blocks with [] => [] | _ => [("blocks", PList blocks)] end)%list).
Definition reactions_add (token channel timestamp name : string) : SM dict :=
  call token "reactions.add" (Json [("channel", PStr channel); ("timestamp", PStr timestamp); ("name", PStr name)]).
Definition users_info (token user_id : string) : SM dict := call token "users.info" (Params [("user", PStr user_id)]).
(** Files are not sent again. *)
Definition files_upload_v2 (token : string) (channels : list string) (filename content_base64 title initial_comment : string) : SM dict :=
  content ← lift (b64decode content_base64);
  let data := ([("filename", PStr filename); ("channels", PStr (str_join "," channels))]
               ++ nonempty_text "title" title ++ nonempty_text "initial_comment" initial_comment)%list in
  response ← http_post token "files.upload" (Upload data filename content);
  v ← lift (an_json response);
  result ← lift (dict_method "get" v);
  if truthy (dget_or "ok" PNone result) then mret result
  else raise (SlackApiError "files.upload" (py_str (dget_or "error" (PStr "unknown") result))).

(** ** Models *)

Variable datetime_text : string -> option string.
Definition texts_with (names : list string) : list field := map (fun n => with_default n KText (PStr "")) names.
Definition flags_with (names : list string) : list field := map (fun n => with_default n KFlag (PBool false)) names.
Definition objects_with (names : list string) : list field := map (fun n => with_default n (KList KObject) (PList [])) names.
Definition SlackMessage : list field :=
  (texts_with ["channel_id"; "channel_name"; "user_id"; "user_name"; "text"; "ts"; "thread_ts"] ++ [with_default "reply_count" KInt (PInt 0)]
   ++ texts_with ["bot_id"] ++ objects_with ["attachments"; "blocks"; "files"] ++ texts_with ["account_name"])%list.
Definition SlackChannel : list field :=
  ([needed "id" KText] ++ texts_with ["name"]
   ++ flags_with ["is_channel"; "is_private"; "is_im"; "is_mpim"; "is_archived"; "is_member"] ++ [with_default "num_members" KInt (PInt 0);
      with_default "topic" KObject (PDict []); with_default "purpose" KObject (PDict [])])%list.
(** pydantic's [ValidationError] is a [ValueError]. *)
Definition model_of (fields : list field) (d : dict) : res pyval :=
  match validate datetime_text (KModel fields) (PDict d) with Ok v => Ok v | Raise _ => Raise (ValueError "validation error") end.

(** ** The poller *)

Definition channel_entity (channel_id : string) : string := "channel:" ++ channel_id.
(** [last_ts and ts <= last_ts], negated. *)
Definition above (last_ts : option string) (ts : string) : bool :=
  match last_ts with None | Some "" => true | Some m => negb (String.leb ts m) end.
Definition newer (a b : string) : string := if String.ltb a b then b else a.

Definition polled_message (account_name channel_id channel_name : string) (msg : dict) : res pyval :=
  let field name := dget_or name (PStr "") msg in
  model_of SlackMessage
    [("channel_id", PStr channel_id); ("channel_name", PStr channel_name); ("user_id", field "user"); ("text", field "text");
     ("ts", field "ts"); ("thread_ts", field "thread_ts"); ("bot_id", field "bot_id"); ("files", dget_or "files" (PList []) msg);
     ("account_name", PStr account_name)].
Definition publish_message (account_name channel_id channel_name ts : string) (msg : dict) : SM unit :=
  message ← lift (polled_message account_name channel_id channel_name msg);
  w ← get_st;
  if kafka then
    let envelope := WmsPoller.wrap_event "slack" "message.received" message (PStr account_name) (now (log w)) in
    let ok := broker (log w) topic envelope (channel_id ++ ":" ++ ts) in
    _ ← modify (record (Published channel_id ts envelope ok));
    if ok then mret tt else raise (OtherError "KafkaError")
  else modify (record (Polled channel_id ts)).

(** The messages, oldest first; the newest timestamp so far. *)
Fixpoint publish_messages (account_name channel_id channel_name : string) (last_ts : option string) (msgs : list pyval) (newest : string) : SM string :=
  match msgs with
  | [] => mret newest
  | m :: rest =>
      msg ← lift (dict_method "get" m);
      ts ← lift (as_str (dget_or "ts" (PStr "") msg));
      if above last_ts ts then
        _ ← publish_message account_name channel_id channel_name ts msg;
        publish_messages account_name channel_id channel_name last_ts rest (newer newest ts)
      else publish_messages account_name channel_id channel_name last_ts rest newest
  end.
(** What the poller does with the messages of a channel, the newest first. *)
Definition handle_history (account_name channel_id channel_name : string) (raw_messages : list pyval) : SM unit :=
  w ← get_st;
  let last_ts := get_timestamp account_name (channel_entity channel_id) w in
  match raw_messages with
  | [] => mret tt
  | _ =>
      newest ← publish_messages account_name channel_id channel_name last_ts (rev raw_messages) (default "" last_ts);
      if negb (String.eqb newest "") && negb (bool_decide (last_ts = Some newest))
      then modify (save_timestamp account_name (channel_entity channel_id) newest) else mret tt
  end.
Definition poll_channel (account_name token : string) (ch : dict) : SM unit :=
  channel_id ← lift match dget "id" ch with Some (PStr s) => Ok s | Some _ => Raise (TypeError "channel") | None => Raise (KeyError "'id'") end;
  w ← get_st;
  let last_ts := get_timestamp account_name (channel_entity channel_id) w in
  history ← conversations_history token channel_id 20 (default "" last_ts) "";
  raw ← lift (as_iter (dget_or "messages" (PList []) history));
  handle_history account_name channel_id (text_in "name" ch) raw.
Definition poll_account (account_name token : string) : SM unit :=
  channels_data ← conversations_list token "public_channel,private_channel" 100;
  channels ← lift (as_iter (dget_or "channels" (PList []) channels_data));
  found ← lift (mapR (dict_method "get") channels);
  for_each (poll_channel account_name token) (List.filter (fun ch => truthy (dget_or "is_member" (PBool false) ch)) found).
(** A client of the poller keeps the token it was made with. *)
Definition poll_client (a : SlackAccountConfig) : SM string :=
  w ← get_st;
  match dget (sl_name a) (poll_clients w) with
  | Some token => mret token
  | None => _ ← modify (set_poll_clients (dset (sl_name a) (sl_bot_token a) (poll_clients w))); mret (sl_bot_token a)
  end.
Definition poll_all_accounts : SM unit :=
  w ← get_st;
  for_each (fun na => try_catch (token ← poll_client na.2; poll_account (sl_name na.2) token) (fun _ => mret tt)) (accounts w).

(** ** The facade *)

Definition get_account (name : string) (w : World) : option SlackAccountConfig := dget name (accounts w).
Definition get_client (account_name : string) : SM string :=
  w ← get_st;
  match dget account_name (clients w) with
  | Some token => mret token
  | None =>
      match get_account account_name w with
      | None => raise (ValueError ("Account '" ++ account_name ++ "' not found"))
      | Some a => _ ← modify (set_clients (dset account_name (sl_bot_token a) (clients w))); mret (sl_bot_token a)
      end
  end.
(** [except (httpx.HTTPError, ValueError, KeyError)]. *)
Definition caught (e : pyexn) : bool :=
  match e with ValueError _ | KeyError _ => true | _ => is_named "HTTPError" e end.

Definition AuthStatusResponse : list field :=
  ([needed "account_name" KText; with_default "authenticated" KFlag (PBool false)] ++ texts_with ["bot_user_id"; "team_name"; "team_id"])%list.
Definition get_auth_status (account_name : string) : SM pyval :=
  try_catch
    (token ← get_client account_name;
     data ← auth_test token;
     let field name := dget_or name (PStr "") data in
     lift (model_of AuthStatusResponse
       [("account_name", PStr account_name); ("authenticated", PBool true); ("bot_user_id", field "user_id"); ("team_name", field "team");
        ("team_id", field "team_id")]))
    (fun e => if caught e then lift (model_of AuthStatusResponse [("account_name", PStr account_name)]) else raise e).
Definition list_channels (account_name types : string) (limit : Z) : SM (list pyval) :=
  token ← get_client account_name;
  data ← conversations_list token types limit;
  channels ← lift (as_iter (dget_or "channels" (PList []) data));
  lift (mapR (fun ch => d ← as_dict ch; model_of SlackChannel d) channels).

(** The real name of a user, or the name; what cannot be found is not cached. *)
Definition user_name (data : dict) : res pyval :=
  user ← dict_method "get" (dget_or "user" (PDict []) data);
  Ok (py_or (dget_or "real_name" (PStr "") user) (dget_or "name" (PStr "") user)).
Definition resolve_user_name (account_name user_id : string) : SM pyval :=
  if String.eqb user_id "" then mret (PStr "")
  else
    let cache_key := account_name ++ ":" ++ user_id in
    w ← get_st;
    match dget cache_key (user_cache w) with
    | Some name => mret (PStr name)
    | None =>
        try_catch
          (token ← get_client account_name;
           data ← users_info token user_id;
           name ← lift (user_name data);
           _ ← match name with PStr n => modify (fun w => set_user_cache (dset cache_key n (user_cache w)) w) | _ => mret tt end;
           mret name)
          (fun e => if caught e then mret (PStr "") else raise e)
    end.
Definition history_message (account_name channel : string) (m : pyval) : SM pyval :=
  msg ← lift (dict_method "get" m);
  let field name := dget_or name (PStr "") msg in
  user ← lift (as_str (field "user"));
  name ← resolve_user_name account_name user;
  lift (model_of SlackMessage
    [("channel_id", PStr channel); ("user_id", PStr user); ("user_name", name); ("text", field "text"); ("ts", field "ts");
     ("thread_ts", field "thread_ts"); ("reply_count", dget_or "reply_count" (PInt 0) msg); ("bot_id", field "bot_id");
     ("attachments", dget_or "attachments" (PList []) msg); ("blocks", dget_or "blocks" (PList []) msg);
     ("files", dget_or "files" (PList []) msg); ("account_name", PStr account_name)]).
Definition get_channel_history (account_name channel : string) (limit : Z) (oldest latest : string) : SM pyval :=
  token ← get_client account_name;
  data ← conversations_history token channel limit oldest latest;
  raw ← lift (as_iter (dget_or "messages" (PList []) data));
  messages ← map_each (history_message account_name channel) raw;
  mret (PDict [("messages", PList messages); ("total", PInt (Z.of_nat (List.length messages)));
               ("has_more", dget_or "has_more" (PBool false) data); ("channel_id", PStr channel)]).
Definition send_message (account_name channel text thread_ts : string) (blocks : list pyval) (unfurl_links unfurl_media : bool) : SM pyval :=
  token ← get_client account_name;
  data ← chat_post_message token channel text thread_ts blocks unfurl_links unfurl_media;
  mret (PDict [("ok", PBool true); ("channel", dget_or "channel" (PStr "") data); ("ts", dget_or "ts" (PStr "") data);
               ("message_text", PStr text); ("account_name", PStr account_name)]).
Definition add_reaction (account_name channel timestamp name : string) : SM pyval :=
  token ← get_client account_name;
  _ ← reactions_add token channel timestamp name;
  mret (PDict [("ok", PBool true); ("channel", PStr channel); ("reaction", PStr name)]).
Definition upload_file (account_name : string) (channels : list string) (filename content_base64 title initial_comment : string) : SM pyval :=
  token ← get_client account_name;
  data ← files_upload_v2 token channels filename content_base64 title initial_comment;
  file ← lift (dict_method "get" (dget_or "file" (PDict []) data));
  mret (PDict [("ok", PBool true); ("file_id", dget_or "id" (PStr "") file); ("file_url", dget_or "permalink" (PStr "") file)]).

(** ** The routes *)

Abbreviation handler := (request -> EM World pyval).
Variable health_check : World -> bool * pyval.
Definition require_account (account_name : string) : SM unit :=
  w ← get_st;
  match get_account account_name w with
  | Some _ => mret tt
  | None => http_error 404 ("Account '" ++ account_name ++ "' not found. Add it via POST /accounts.")
  end.
Definition health : handler := fun _ => gets (fun w => (health_check w).2).
Definition readiness : handler := fun _ =>
  w ← get_st; if (health_check w).1 then mret (health_check w).2 else http_error 503 "unhealthy".
Definition auth_status : handler := fun r =>
  let account_name := path_param "account_name" r in _ ← require_account account_name; get_auth_status account_name.
Definition all_auth_statuses : handler := fun _ =>
  w ← get_st; l ← map_each (fun na => get_auth_status (sl_name na.2)) (accounts w); mret (PList l).
Definition test_connection : handler := fun r =>
  let account_name := path_param "account_name" r in
  _ ← require_account account_name;
  status ← get_auth_status account_name;
  d ← lift (as_dict status);
  if truthy (of_body "authenticated" d) then
    mret (PDict [("status", PStr "connected"); ("team", of_body "team_name" d); ("bot_user_id", of_body "bot_user_id" d)])
  else http_error 502 "Connection test failed — check bot_token".

Definition AccountCreateRequest : list field :=
  [needed "name" KText; needed "bot_token" KText; with_default "app_token" KText (PStr ""); with_default "default_channel" KText (PStr "general");
   with_default "environment" KText (PStr "production")].
Definition list_accounts : handler := fun _ =>
  gets (fun w => PList (map (fun na => PDict [("name", PStr (sl_name na.2)); ("environment", PStr (sl_environment na.2));
                                              ("default_channel", PStr (sl_default_channel na.2))]) (accounts w))).
Definition add_account : handler := fun r =>
  body ← lift (model_body datetime_text AccountCreateRequest r);
  let a := MkSlackAccount (text_in "name" body) (text_in "bot_token" body) (text_in "app_token" body) (text_in "default_channel" body)
             (text_in "environment" body) in
  _ ← modify (fun w => set_accounts (slack_register a (accounts w)) w);
  mret (PDict [("status", PStr "created"); ("name", PStr (sl_name a))]).
(** The clients of the account stay. *)
Definition remove_account : handler := fun r =>
  let account_name := path_param "account_name" r in
  w ← get_st;
  if dhas account_name (accounts w) then
    _ ← modify (fun w => set_accounts (ddel account_name (accounts w)) w); mret (PDict [("status", PStr "removed")])
  else http_error 404 ("Account '" ++ account_name ++ "' not found").

Definition get_channels : handler := fun r =>
  account_name ← lift (text_param "account_name" r);
  limit ← lift (int_param "limit" 200 (Some 1%Z) (Some 1000%Z) r);
  _ ← require_account account_name;
  l ← list_channels account_name (text_param_or "types" "public_channel,private_channel" r) limit; mret (PList l).
Definition get_messages : handler := fun r =>
  account_name ← lift (text_param "account_name" r);
  channel ← lift (text_param "channel" r);
  limit ← lift (int_param "limit" 50 (Some 1%Z) (Some 1000%Z) r);
  _ ← require_account account_name;
  get_channel_history account_name channel limit (text_param_or "oldest" "" r) (text_param_or "latest" "" r).
Definition SendMessageRequest : list field :=
  [needed "channel" KText; needed "text" KText; with_default "thread_ts" KText (PStr ""); with_default "blocks" (KList KObject) (PList []);
   with_default "unfurl_links" KFlag (PBool true); with_default "unfurl_media" KFlag (PBool true)].
Definition AddReactionRequest : list field := [needed "channel" KText; needed "timestamp" KText; needed "name" KText].
Definition FileUploadRequest : list field :=
  [needed "channels" (KList KText); needed "filename" KText; needed "content_base64" KText; with_default "title" KText (PStr "");
   with_default "initial_comment" KText (PStr "")].
Definition with_body (fields : list field) (run : string -> dict -> SM pyval) : handler := fun r =>
  account_name ← lift (text_param "account_name" r);
  body ← lift (model_body datetime_text fields r);
  _ ← require_account account_name;
  run account_name body.
Definition items_in (name : string) (body : dict) : list pyval := match of_body name body with PList l => l | _ => [] end.
Definition post_message : handler := with_body SendMessageRequest (fun account_name body =>
  send_message account_name (text_in "channel" body) (text_in "text" body) (text_in "thread_ts" body) (items_in "blocks" body)
    (truthy (of_body "unfurl_links" body)) (truthy (of_body "unfurl_media" body))).
Definition post_reaction : handler := with_body AddReactionRequest (fun account_name body =>
  add_reaction account_name (text_in "channel" body) (text_in "timestamp" body) (text_in "name" body)).
Definition post_file : handler := with_body FileUploadRequest (fun account_name body =>
  upload_file account_name (map py_str (items_in "channels" body)) (text_in "filename" body) (text_in "content_base64" body)
    (text_in "title" body) (text_in "initial_comment" body)).
Definition slack_routes : list (route World) :=
  [Route "GET" "/health" "health" 200 health; Route "GET" "/readiness" "readiness" 200 readiness;
   Route "GET" "/auth/{account_name}/status" "auth_status" 200 auth_status;
   Route "GET" "/auth/status" "all_auth_statuses" 200 all_auth_statuses;
   Route "POST" "/auth/{account_name}/test" "test_connection" 200 test_connection;
   Route "GET" "/accounts" "list_accounts" 200 list_accounts; Route "POST" "/accounts" "add_account" 201 add_account;
   Route "DELETE" "/accounts/{account_name}" "remove_account" 200 remove_account;
   Route "GET" "/channels" "list_channels" 200 get_channels; Route "GET" "/messages" "get_channel_messages" 200 get_messages;
   Route "POST" "/messages/send" "send_message" 200 post_message; Route "POST" "/reactions/add" "add_reaction" 200 post_reaction;
   Route "POST" "/files/upload" "upload_file" 200 post_file].
End connector.

(** ** The order of timestamps *)

Lemma compare_lt_trans a : forall b c, String.compare a b = Lt -> String.compare b c = Lt -> String.compare a c = Lt.
Proof.
  assert (forall x y z, Ascii.compare x y = Lt -> Ascii.compare y z = Lt -> Ascii.compare x z = Lt) as Htrans.
  { intros x y z. unfold Ascii.compare. rewrite !N.compare_lt_iff. lia. }
  induction a as [|x a IH]; intros [|y b] [|z c]; cbn; try done.
  destruct (Ascii.compare x y) eqn:E1, (Ascii.compare y z) eqn:E2; try done; intros H1 H2;
    repeat match goal with H : Ascii.compare _ _ = Eq |- _ => apply Ascii.compare_eq_iff in H; subst end.
  - replace (Ascii.compare z z) with Eq by (symmetry; unfold Ascii.compare; apply N.compare_refl). by apply (IH b).
  - by rewrite E2.
  - by rewrite E1.
  - by rewrite (Htrans _ _ _ E1 E2).
Qed.
Lemma ltb_compare a b : String.ltb a b = true <-> String.compare a b = Lt.
Proof. unfold String.ltb. by destruct (String.compare a b). Qed.
Lemma ltb_trans a b c : String.ltb a b = true -> String.ltb b c = true -> String.ltb a c = true.
Proof. rewrite !ltb_compare. apply compare_lt_trans. Qed.
Lemma negb_leb a b : negb (String.leb a b) = String.ltb b a.
Proof. unfold String.leb, String.ltb. rewrite (String.compare_antisym b a). by destruct (String.compare a b). Qed.
Lemma ltb_newer a b t : String.ltb (newer a b) t = String.ltb a t && String.ltb b t.
Proof.
  unfold newer. destruct (String.ltb a b) eqn:E.
  - destruct (String.ltb b t) eqn:Eb; [|by rewrite andb_false_r]. by rewrite (ltb_trans _ _ _ E Eb).
  - destruct (String.ltb a t) eqn:Ea; [|done]. cbn. symmetry. destruct (String.compare b a) eqn:Ec.
    + apply String.compare_eq_iff in Ec. by subst.
    + apply (ltb_trans b a t); [by apply ltb_compare|done].
    + rewrite String.compare_antisym in Ec. apply not_true_iff_false in E. destruct E. apply ltb_compare.
      by destruct (String.compare a b).
Qed.

(** ** What the polls of the channels publish *)

(** The messages of a channel, each with its timestamp. *)
Definition ts_of (m : pyval) : res string := msg ← dict_method "get" m; as_str (dget_or "ts" (PStr "") msg).
Definition has_ts (m : pyval) : Prop := exists t, ts_of m = Ok t /\ t <> "".
Definition ts_text (m : pyval) : string := match ts_of m with Ok t => t | Raise _ => "" end.
Definition published_ts (e : entry) : list string :=
  match e with Published _ ts _ true | Polled _ ts => [ts] | _ => [] end.
Definition published_in (l : list entry) : list string := flat_map published_ts (rev l).

Record channel_poll := MkChannelPoll {
  cp_account : string;
  cp_channel : string;
  cp_listed : list string;
  cp_completed : bool;
  cp_published : list string
}.
(** Newer than everything the completed polls of the channel published. *)
Definition unread (history : list channel_poll) (account channel ts : string) : bool :=
  forallb (fun r => negb (String.eqb (cp_account r) account && String.eqb (cp_channel r) channel && cp_completed r)
                    || forallb (fun t => String.ltb t ts) (cp_published r)) history.

Section published.
Context (kafka : bool) (topic : string) (now : list entry -> string) (broker : list entry -> string -> pyval -> string -> bool).
Context (datetime_text : string -> option string).
Abbreviation publish := (publish_messages kafka topic now broker datetime_text).
Abbreviation handle := (handle_history kafka topic now broker datetime_text).

Definition poll_once (p : string * string * string * list pyval) (w : World) : channel_poll * World :=
  let '(account, channel, name, raw) := p in
  let '(r, w') := handle account channel name raw w in
  (MkChannelPoll account channel (map ts_text (rev raw)) (match r with Ok _ => true | Raise _ => false end)
     (published_in (take (List.length (log w') - List.length (log w)) (log w'))), w').
Fixpoint run_polls (polls : list (string * string * string * list pyval)) (history : list channel_poll) (w : World) : list channel_poll * World :=
  match polls with
  | [] => (history, w)
  | p :: rest => let '(r, w') := poll_once p w in run_polls rest (r :: history) w'
  end.

Lemma published_app a b : published_in (a ++ b)%list = (published_in b ++ published_in a)%list.
Proof. unfold published_in. by rewrite rev_app_distr, flat_map_app. Qed.

(** What a step adds to the log; it leaves the marks. *)
Definition adds {A} (m : EM World A) (w : World) (post : res A -> list string -> Prop) : Prop := exists sent,
  log (m w).2 = (sent ++ log w)%list /\ marks (m w).2 = marks w /\ post (m w).1 (published_in sent).

Lemma publish_message_adds account channel name ts msg w :
  adds (publish_message kafka topic now broker datetime_text account channel name ts msg) w
    (fun r l => match r with Ok _ => l = [ts] | Raise _ => l = [] end).
Proof.
  unfold adds, publish_message. unfold mbind, EM_bind, lift.
  destruct (polled_message _ _ _ _ _) as [message|e]; [|by exists []].
  unfold get_st. destruct kafka; [|by exists [Polled channel ts]].
  unfold modify. cbv beta zeta. match goal with |- context [broker ?a ?b ?c ?d] => destruct (broker a b c d) end; (eexists [Published _ _ _ _]; split_and!; reflexivity).
Qed.

Lemma publish_adds account channel name last msgs : forall newest w,
  Forall has_ts msgs ->
  adds (publish account channel name last msgs newest) w (fun r l =>
    let due := List.filter (above last) (map ts_text msgs) in
    match r with
    | Ok n => l = due /\ forall t, String.ltb n t = String.ltb newest t && forallb (fun x => String.ltb x t) due
    | Raise _ => exists t rest, due = (l ++ t :: rest)%list
    end).
Proof.
  induction msgs as [|m msgs IH]; intros newest w Hm.
  - exists []. split_and!; [done|done|]. split; [done|]. intros t. by rewrite andb_true_r.
  - apply Forall_cons_1 in Hm as [(t & Ht & _) Hm]. cbn [publish_messages map List.filter].
    unfold ts_of in Ht. replace (ts_text m) with t by (unfold ts_text, ts_of; by rewrite Ht).
    destruct (dict_method "get" m) as [msg|] eqn:Em; [|done]. cbn [mbind res_bind] in Ht.
    unfold mbind at 1, EM_bind at 1, lift at 1. unfold mbind at 1, EM_bind at 1, lift at 1. rewrite Ht.
    destruct (above last t) eqn:Ea; [|by apply IH].
    destruct (publish_message_adds account channel name t msg w) as (s1 & Hl1 & Hk1 & Hp1).
    unfold adds, mbind, EM_bind.
    destruct (publish_message _ _ _ _ _ _ _ _ _ _ w) as [[[]|e] w1]; cbn [fst snd] in *.
    + destruct (IH (newer newest t) w1 Hm) as (s2 & Hl2 & Hk2 & Hp2). exists (s2 ++ s1)%list. rewrite published_app, Hp1.
      split_and!; [by rewrite Hl2, Hl1, app_assoc|congruence|].
      destruct (publish account channel name last msgs (newer newest t) w1).1 as [n|e].
      * destruct Hp2 as [-> Hn]. split; [done|]. intros x. cbn [forallb]. by rewrite Hn, ltb_newer, andb_assoc.
      * destruct Hp2 as (t' & rest & ->). by exists t', rest.
    + exists s1. split_and!; [done|done|]. rewrite Hp1. by eexists _, _.
Qed.

(** What the marks know of the polls so far. *)
Definition marks_match (history : list channel_poll) (w : World) : Prop := forall account channel t,
  t <> "" -> above (get_timestamp account (channel_entity channel) w) t = unread history account channel t.
Definition announces_unread (history : list channel_poll) (r : channel_poll) : Prop :=
  let due := List.filter (unread history (cp_account r) (cp_channel r)) (cp_listed r) in
  if cp_completed r then cp_published r = due else exists t rest, due = (cp_published r ++ t :: rest)%list.
Fixpoint all_unread (records : list channel_poll) : Prop :=
  match records with [] => True | r :: history => announces_unread history r /\ all_unread history end.

Lemma filter_ext_in {A} (p q : A -> bool) l : (forall x, x ∈ l -> p x = q x) -> List.filter p l = List.filter q l.
Proof.
  induction l as [|x l IH]; intros H; [done|]. cbn. rewrite (H x) by left. rewrite IH; [done|]. intros y Hy. apply H. by right.
Qed.
Lemma above_empty last t : t <> "" -> above last t = String.ltb (default "" last) t.
Proof.
  intros Ht. destruct t as [|c t]; [done|]. destruct last as [[|d m]|]; cbn [above default]; [done|apply negb_leb|done].
Qed.

Lemma handle_adds account channel name raw w :
  Forall has_ts raw ->
  let last := get_timestamp account (channel_entity channel) w in
  let due := List.filter (above last) (map ts_text (rev raw)) in
  exists sent, log (handle account channel name raw w).2 = (sent ++ log w)%list /\
  match (handle account channel name raw w).1 with
  | Ok _ => published_in sent = due /\ exists n, (forall t, String.ltb n t = String.ltb (default "" last) t && forallb (fun x => String.ltb x t) due)
              /\ marks (handle account channel name raw w).2 =
                 if negb (String.eqb n "") && negb (bool_decide (last = Some n)) then <[(account, channel_entity channel) := n]> (marks w) else marks w
  | Raise _ => marks (handle account channel name raw w).2 = marks w /\ exists t rest, due = (published_in sent ++ t :: rest)%list
  end.
Proof.
  intros Hraw last due. unfold handle_history. rewrite (bind_run get_st _ w w w) by done. cbv zeta. fold last.
  destruct raw as [|m raw].
  - exists []. split; [done|]. split; [done|]. exists (default "" last). split; [intros t; by rewrite andb_true_r|].
    destruct (negb _ && _) eqn:E; [|done]. destruct last as [m|]; cbn [default] in E; [|done].
    by rewrite bool_decide_eq_true_2, andb_false_r in E.
  - destruct (publish_adds account channel name last (rev (m :: raw)) (default "" last) w) as (sent & Hl & Hk & Hp);
      [by apply Forall_rev|]. exists sent. fold due in Hp. unfold mbind, EM_bind.
    destruct (publish account channel name last (rev (m :: raw)) (default "" last) w) as [[n|e] w1]; cbn [fst snd] in *; [|done].
    destruct Hp as [Hp Hn]. destruct (negb (String.eqb n "") && _) eqn:E; cbn [modify mret EM_ret fst snd].
    + split; [done|]. split; [done|]. exists n. split; [done|]. rewrite E. unfold save_timestamp. cbn. by rewrite Hk.
    + split; [done|]. split; [done|]. exists n. split; [done|]. by rewrite E, Hk.
Qed.

Lemma unread_cons r history account channel t :
  unread (r :: history) account channel t =
  (negb (String.eqb (cp_account r) account && String.eqb (cp_channel r) channel && cp_completed r)
   || forallb (fun x => String.ltb x t) (cp_published r)) && unread history account channel t.
Proof. done. Qed.

Lemma poll_once_unread p history w :
  Forall has_ts p.2 -> marks_match history w ->
  let '(r, w') := poll_once p w in announces_unread history r /\ marks_match (r :: history) w'.
Proof.
  destruct p as [[[account channel] name] raw]. intros Hraw Hm. cbn [snd] in Hraw. unfold poll_once.
  pose proof (handle_adds account channel name raw w Hraw) as (sent & Hl & Hr).
  set (last := get_timestamp account (channel_entity channel) w) in *.
  assert (List.filter (above last) (map ts_text (rev raw)) = List.filter (unread history account channel) (map ts_text (rev raw))) as Hdue.
  { apply filter_ext_in. intros t Ht. apply Hm. apply list_elem_of_In, in_map_iff in Ht as (m & <- & Hin).
    apply in_rev in Hin. rewrite List.Forall_forall in Hraw. destruct (Hraw m Hin) as (t & Ht & Hne). unfold ts_text. by rewrite Ht. }
  rewrite Hdue in Hr. destruct (handle account channel name raw w) as [r w1]. cbn [fst snd] in *.
  assert (take (List.length (log w1) - List.length (log w)) (log w1) = sent) as ->
    by (rewrite Hl, length_app, Nat.add_sub; apply take_app_length).
  destruct r as [[]|e].
  - destruct Hr as [Hp (n & Hn & Hk)]. split; [exact Hp|]. intros a c t Ht. rewrite unread_cons. cbn [cp_account cp_channel cp_completed cp_published].
    rewrite Hp, <- (Hm a c t Ht). unfold get_timestamp in *. rewrite Hk.
    destruct (decide (account = a /\ channel = c)) as [[<- <-]|Hne].
    + rewrite !String.eqb_refl. cbn [andb negb orb]. fold last. rewrite (above_empty last t Ht), (andb_comm (forallb _ _)), <- (Hn t).
      destruct (negb (String.eqb n "") && _) eqn:E.
      * rewrite lookup_insert_eq. by rewrite above_empty.
      * fold last. rewrite above_empty by done. apply andb_false_iff in E as [E|E]; apply negb_false_iff in E.
        -- apply String.eqb_eq in E. subst n. destruct t as [|ch t]; [done|]. specialize (Hn (String ch t)).
           change (String.ltb "" (String ch t)) with true in Hn |- *. symmetry in Hn. by apply andb_prop in Hn as [Hn _].
        -- apply bool_decide_eq_true in E. by rewrite E.
    + destruct (negb (String.eqb n "") && _); [rewrite lookup_insert_ne by (intros [= ? ?]; by destruct Hne)|];
        destruct (String.eqb_spec account a), (String.eqb_spec channel c); try done; subst; by destruct Hne.
  - destruct Hr as [Hk (t & rest & Hd)]. split; [by exists t, rest|]. intros a c x Hx. rewrite unread_cons.
    cbn [cp_completed]. rewrite andb_false_r. unfold get_timestamp. rewrite Hk. by apply Hm.
Qed.

(** C38: Whatever the channels list, from a new store on and whatever Kafka refuses: a poll of a channel that
    completes publishes exactly the messages listed that are newer than everything the completed polls of that
    channel published, the oldest first; one that is stopped publishes a proper prefix of them. *)
Theorem polls_publish_unread polls accounts clients poll_clients cache log :
  Forall (fun p => Forall has_ts p.2) polls ->
  all_unread (run_polls polls [] (MkWorld accounts clients poll_clients cache ∅ log)).1.
Proof.
  intros Hp. assert (marks_match [] (MkWorld accounts clients poll_clients cache ∅ log)) as Hm.
  { intros a c t _. unfold get_timestamp. cbn [marks]. by rewrite lookup_empty. }
  assert (all_unread []) as Hd by done. revert Hm Hd.
  generalize (@nil channel_poll) as history, (MkWorld accounts clients poll_clients cache ∅ log) as w.
  induction Hp as [|p polls Hx _ IH]; intros history w Hm Hd; [done|]. cbn [run_polls].
  pose proof (poll_once_unread p history w Hx Hm) as Hr. destruct (poll_once p w) as [r w']. destruct Hr as [Hr Hm'].
  by apply IH.
Qed.
End published.

(** ** How often the client asks *)

Definition requests (l : list entry) : nat := List.length (List.filter (fun e => match e with Called _ _ _ => true | _ => false end) l).

(** A call is sent as often as configured at most, and is sent again only after a wait. *)
Lemma slack_attempts_bounded slack max_retries token api_method p n : forall attempt w,
  exists sent, log (attempts slack max_retries n attempt token api_method p w).2 = (sent ++ log w)%list /\ requests sent <= n.
Proof.
  induction n as [|n IH]; intros attempt w; [exists []; split; [done|cbn; lia]|]. cbn [attempts].
  assert (forall e w', log w' = (e :: Called token api_method p :: log w)%list -> (match e with Called _ _ _ => false | _ => true end) = true ->
    exists sent, log (attempts slack max_retries n (S attempt) token api_method p w').2 = (sent ++ log w)%list /\ requests sent <= S n) as Hagain.
  { intros e w' Hw He. destruct (IH (S attempt) w') as (sent & Hl & Hn). exists (sent ++ [e; Called token api_method p])%list.
    rewrite Hl, Hw, <- app_assoc. split; [done|]. unfold requests in *. rewrite List.filter_app, length_app. destruct e; [discriminate He|..]; cbn; lia. }
  assert (exists sent, (Called token api_method p :: log w)%list = (sent ++ log w)%list /\ requests sent <= S n) as Hone
    by (exists [Called token api_method p]; split; [done|cbn; lia]).
  unfold http_post, mbind, EM_bind, get_st, modify, lift, raise. cbn [fst snd].
  destruct (slack _ token api_method p) as [response|e]; [|exact Hone].
  destruct (an_status response =? 429)%Z.
  - destruct (parse_int _) as [s|]; [|exact Hone]. by apply (Hagain (RetryAfter s)).
  - destruct (an_json response) as [v|e]; [|exact Hone]. destruct (dict_method "get" v) as [data|e]; [|exact Hone].
    destruct (truthy _); [exact Hone|]. destruct (py_eqb _ _); [by apply (Hagain (BackedOff attempt))|exact Hone].
Qed.

(** ** Demonstrations *)

Definition answer_of (d : dict) : res slack_answer := Ok (MkAnswer 200 None (Ok (PDict (("ok", PBool true) :: d)))).
Definition message_at (n : nat) : pyval := PDict [("ts", PStr ("1700." ++ str_of_Z (Z.of_nat (100 + n)))); ("text", PStr "hi"); ("user", PStr "U1")].
(** Slack with one channel: of the messages there are when it is asked, the newest [limit] after [oldest]. *)
Definition slack_with (there : list entry -> nat) (h : list entry) (token api_method : string) (p : payload) : res slack_answer :=
  if String.eqb api_method "conversations.list" then
    answer_of [("channels", PList [PDict [("id", PStr "C1"); ("name", PStr "general"); ("is_member", PBool true)]; PDict [("id", PStr "C2")]])]
  else if String.eqb api_method "conversations.history" then
    match p with
    | Params d =>
        let after := match dget "oldest" d with Some (PStr o) => Some o | _ => None end in
        let limit := match dget "limit" d with Some (PInt n) => Z.to_nat n | _ => 100 end in
        answer_of [("messages", PList (take limit (rev (List.filter (fun m => above after (ts_text m)) (map message_at (seq 0 (there h)))))))]
    | _ => answer_of []
    end
  else Ok (MkAnswer 200 None (Ok (PDict [("ok", PBool false); ("error", PStr "invalid_auth")]))).
Definition one_account : World := MkWorld [("a", MkSlackAccount "a" "xoxb" "" "general" "production")] [] [] [] ∅ [].
Definition cycle (there : list entry -> nat) : EM World unit :=
  poll_all_accounts (slack_with there) 3 true "topic" (fun _ => "t") (fun _ _ _ _ => true) (fun t => Some t).
Definition asked_before (h : list entry) : nat := List.length (List.filter (fun e => match e with Called _ "conversations.list" _ => true | _ => false end) h).

Definition published_by (there : list entry -> nat) (cycles : nat) : list string :=
  published_in (log (for_each (fun _ => cycle there) (repeat tt cycles) one_account).2).
Example new_messages_published :
  published_by (fun h => if Nat.leb (asked_before h) 1 then 2 else 4) 3 = ["1700.100"; "1700.101"; "1700.102"; "1700.103"].
Proof. vm_compute. reflexivity. Qed.

(** Only the twenty newest messages are asked for, and what is beyond them is never read: of 25 messages between
    two polls, five are lost. *)
Example messages_are_lost :
  let published := published_by (fun h => if Nat.leb (asked_before h) 1 then 1 else 26) 3 in
  List.length published = 21%nat /\ existsb (String.eqb "1700.105") published = false /\ existsb (String.eqb "1700.106") published = true.
Proof. vm_compute. auto. Qed.

Definition demo_slack_routes : list (route World) :=
  slack_routes (slack_with (fun _ => 1)) 3 (fun t => Some t) (fun _ => (true, PStr "healthy")).
Definition slack_request (http_method path : string) (query : list (string * string)) (body : dict) : request :=
  MkRequest http_method path query [] (Some (PDict body)) None "" [].
(** Slack refuses the token: the test of the account raises, since the error of the client is none of those that
    [get_auth_status] catches, where an answer 502 was meant; one such account and no status is given at all. *)
Example refused_token_raises :
  (respond demo_slack_routes (slack_request "POST" "/auth/a/test" [] []) one_account).1 = Raise (SlackApiError "auth.test" "invalid_auth")
  /\ (respond demo_slack_routes (slack_request "GET" "/auth/status" [] []) one_account).1 = Raise (SlackApiError "auth.test" "invalid_auth").
Proof. split; vm_compute; reflexivity. Qed.
(** A user Slack does not know makes the whole history fail. *)
Example unknown_user_hides_the_history :
  (respond demo_slack_routes (slack_request "GET" "/messages" [("account_name", "a"); ("channel", "C1")] []) one_account).1
  = Raise (SlackApiError "users.info" "invalid_auth").
Proof. vm_compute. reflexivity. Qed.
(** An account removed and added with a new token is still served with the old one. *)
Example removed_account_keeps_its_token :
  let send := slack_request "GET" "/channels" [("account_name", "a")] [] in
  let steps := [send; slack_request "DELETE" "/accounts/a" [] []; slack_request "POST" "/accounts" [] [("name", PStr "a"); ("bot_token", PStr "new")]; send] in
  omap (fun e => match e with Called token _ _ => Some token | _ => None end)
    (log (for_each (fun r => _ ← respond demo_slack_routes r; mret tt) steps one_account).2) = ["xoxb"; "xoxb"].
Proof. vm_compute. reflexivity. Qed.
(** Three answers 429 and the call fails. *)
Example rate_limited_call :
  let '(r, w) := call (fun _ _ _ _ => Ok (MkAnswer 429 (Some "2") (Ok PNone))) 3 "xoxb" "auth.test" NoPayload one_account in
  r = Raise (SlackApiError "auth.test" "Failed after 3 retries") /\ requests (log w) = 3%nat.
Proof. vm_compute. auto. Qed.

Lemma polls_publish_unread_witness :
  let polls := [("a", "C1", "general", [message_at 2; message_at 1]); ("a", "C1", "general", [message_at 3; message_at 2])] in
  all_unread (run_polls true "topic" (fun _ => "t") (fun _ _ _ _ => true) (fun t => Some t) polls [] (MkWorld [] [] [] [] ∅ [])).1.
Proof.
  refine (polls_publish_unread true "topic" (fun _ => "t") (fun _ _ _ _ => true) (fun t => Some t)
    [("a", "C1", "general", [message_at 2; message_at 1]); ("a", "C1", "general", [message_at 3; message_at 2])] [] [] [] [] [] _).
  repeat (apply List.Forall_cons || apply List.Forall_nil); (eexists; split; [vm_compute; reflexivity|discriminate]).
Defined.
