(* ===== verification/VerificationChecks.v ===== *)
(** The checks of the verification agent ([platform/verification-agent/src/checks]): the check
    results ([common.py]), the infrastructure checks ([base.py]), the detection of newer APIs
    ([api_version.py]) and the checks of credentials ([auth.py]), on the manifests the agent reads
    ([discovery.py]).

    A connector is a function of the requests sent before, newest first; the time an exchange took
    is one of the requests up to it.  The text fields of a manifest hold texts. *)

From S2P Require Import Prelude PyText PyValue Effects Regex Registry.

Local Open Scope string_scope.

(** ** Manifests and targets *)

Record ApiVersionCheck := MkVersionCheck {
  current_api_version : string;
  check_url : string;
  check_type : string;
  version_field : string;
  api_docs_url : string
}.
Record Manifest := MkManifest {
  mf_name : string;
  mf_category : string;
  mf_version : string;
  mf_interface : string;
  mf_capabilities : pyval;
  mf_actions : pyval;
  mf_health_endpoint : string;
  mf_docs_url : string;
  mf_service_name : string;
  mf_credential_provisioning : pyval;
  mf_api_version_check : option ApiVersionCheck
}.
(** [getattr(manifest, "credential_validation", None)]: the manifest of the agent has no such field. *)
Definition credential_validation (m : Manifest) : pyval := PNone.

Record Target := MkTarget {
  tg_manifest : Manifest;
  tg_base_url : string;
  tg_tenant_id : option string;
  tg_credentials : option (list (string * string))
}.
(** [target.credentials or {}]. *)
Definition creds_of (t : Target) : list (string * string) := default [] (tg_credentials t).
Definition text_or (k fallback : string) (d : list (string * string)) : string := default fallback (dget k d).
(** [not target.credentials]. *)
Definition no_credentials (t : Target) : bool := match creds_of t with [] => true | _ => false end.

(** ** Requests *)

Record request := Req {
  rq_method : string;
  rq_url : string;
  rq_params : option dict;
  rq_json : option pyval;
  rq_files : option (string * (string * string * string));
  rq_follow : bool
}.
Definition GET (url : string) : request := Req "GET" url None None None false.
Record response := MkResponse { status_code : Z; resp_text : string; resp_json : res pyval }.

Definition ConnectError (m : string) : pyexn := named "ConnectError" m.
Definition TimeoutException (m : string) : pyexn := named "TimeoutException" m.
(** [str(exc)]. *)
Definition error_text (e : pyexn) : string :=
  if is_named "ConnectError" e then named_text "ConnectError" e
  else if is_named "TimeoutException" e then named_text "TimeoutException" e else exn_str e.

(** ** Results of checks *)

Definition nonempty_entry (k v : string) : dict := if String.eqb v "" then [] else [(k, PStr v)].
(** An [error] or [suggestion] left out is the empty text. *)
Definition result (name status : string) (ms : Z) (error suggestion : string) : pyval :=
  PDict ([("name", PStr name); ("status", PStr status); ("response_time_ms", PInt ms)]
         ++ nonempty_entry "error" error ++ nonempty_entry "suggestion" suggestion)%list.
(** The results written out in [auth.py]. *)
Definition plain_result (name status : string) (ms : Z) (more : dict) : pyval :=
  PDict ([("name", PStr name); ("status", PStr status); ("response_time_ms", PInt ms)] ++ more)%list.
Definition http_text (status : Z) : string := "HTTP " ++ str_of_Z status.

Section checks.
Variable connector : list request -> request -> res response.
Variable elapsed : list request -> Z.
Abbreviation CM := (EM (list request)).

Definition exchange (rq : request) : CM response :=
  trace ← get_st; _ ← modify (cons rq); lift (connector trace rq).
(** [int((time.monotonic() - start) * 1000)]. *)
Definition ms_spent : CM Z := gets elapsed.

Definition get_check (url name : string) (params : option dict) : CM pyval :=
  try_catch
    (r ← exchange (Req "GET" url params None None false);
     ms ← ms_spent;
     mret (if (status_code r =? 200)%Z then result name "PASS" ms "" ""
           else if (status_code r =? 404)%Z then result name "SKIP" ms "Endpoint not found (404)" ""
           else result name "FAIL" ms (http_text (status_code r) ++ ": " ++ str_take 200 (resp_text r)) ""))
    (fun e => ms ← ms_spent; mret (result name "FAIL" ms (error_text e) "")).

Definition req_check (rq : request) (name : string) (accept_statuses : list Z) : CM (pyval * option response) :=
  try_catch
    (r ← exchange rq;
     ms ← ms_spent;
     mret (if existsb (Z.eqb (status_code r)) accept_statuses then (result name "PASS" ms "" "", Some r)
           else if (status_code r =? 404)%Z then (result name "SKIP" ms "Endpoint not found (404)" "", Some r)
           else (result name "FAIL" ms (http_text (status_code r) ++ ": " ++ str_take 200 (resp_text r)) "", Some r)))
    (fun e => ms ← ms_spent; mret (result name "FAIL" ms (error_text e) "", None)).

(** ** Tier 1 *)

Definition check_health (t : Target) : CM pyval :=
  try_catch
    (r ← exchange (GET (tg_base_url t ++ mf_health_endpoint (tg_manifest t)));
     ms ← ms_spent;
     if (status_code r =? 200)%Z then
       v ← lift (resp_json r);
       data ← lift (dict_method "get" v);
       let status := dget_or "status" PNone data in
       mret (if py_eqb status (PStr "healthy") then result "health" "PASS" ms "" ""
             else result "health" "FAIL" ms ("Unhealthy: " ++ py_str status) "")
     else mret (result "health" "FAIL" ms (http_text (status_code r)) ""))
    (fun e =>
       ms ← ms_spent;
       mret (if is_named "ConnectError" e then
               result "health" "FAIL" ms "Connection refused — container not running"
                 ("Check if " ++ mf_name (tg_manifest t) ++ " container is deployed and healthy")
             else if is_named "TimeoutException" e then result "health" "FAIL" ms "Timeout" ""
             else result "health" "FAIL" ms (error_text e) "")).

Definition check_readiness (t : Target) : CM pyval :=
  try_catch
    (r ← exchange (GET (tg_base_url t ++ "/readiness"));
     ms ← ms_spent;
     mret (if (status_code r =? 200)%Z then result "readiness" "PASS" ms "" ""
           else result "readiness" "FAIL" ms (http_text (status_code r)) ""))
    (fun e =>
       ms ← ms_spent;
       mret (if is_named "ConnectError" e then result "readiness" "FAIL" ms "Connection refused" ""
             else result "readiness" "FAIL" ms (error_text e) "")).

Definition check_docs (t : Target) : CM pyval :=
  try_catch
    (r ← exchange (GET (tg_base_url t ++ mf_docs_url (tg_manifest t)));
     ms ← ms_spent;
     mret (if (status_code r =? 200)%Z then result "docs_endpoint" "PASS" ms "" ""
           else result "docs_endpoint" "FAIL" ms (http_text (status_code r)) ""))
    (fun e => ms ← ms_spent; mret (result "docs_endpoint" "FAIL" ms (error_text e) "")).

Definition run_tier1 (t : Target) : CM (list pyval) :=
  health ← check_health t; readiness ← check_readiness t; docs ← check_docs t; mret [health; readiness; docs].

(** ** Newer versions of the API *)

(** [_extract_field]: along [path], on a value that need not be an object. *)
Fixpoint extract_parts (parts : list string) (current : pyval) : option pyval :=
  match parts with
  | [] => Some current
  | part :: rest =>
      match current with
      | PDict d => extract_parts rest (dget_or part PNone d)
      | _ => None
      end
  end.
Definition extract_field (data : pyval) (path : string) : option string :=
  match extract_parts (split_char "." path) data with
  | None | Some PNone => None
  | Some v => Some (py_str v)
  end.

Definition normalize_version (v : string) : list Z :=
  map (fun digits => default 0%Z (parse_int digits)) (re_findall (plus is_digit) v).
Definition is_newer (remote current : string) : bool :=
  tuple_lt (normalize_version current) (normalize_version remote).

(** [_VERSION_RE.findall(text)[0]]: the prefix [v], [version] of the expression is optional and
    outside of its group, so that the group of the first match starts at the first digit. *)
Definition version_group : re :=
  seq [plus is_digit; RRep (seq [lit "."; plus is_digit]) 0 (Some 3) true].
Definition first_version (text : string) : option string := hd_error (re_findall version_group text).

(** A match of the expression of a manifest: [m.group(0)], [m.group(1)] and [m.lastindex]. *)
Record re_found := MkFound { group0 : string; group1 : option string; lastindex : option nat }.
Variable search_pattern : string -> string -> res (option re_found).

(** The version found and the error, either of which may be missing. *)
Definition check_spec (default_field : string) (what : string) (avc : ApiVersionCheck) : CM (option string * string) :=
  r ← exchange (Req "GET" (check_url avc) None None None true);
  if negb (status_code r =? 200)%Z then mret (None, http_text (status_code r) ++ what)
  else match resp_json r with
       | Raise _ => mret (None, "Response is not valid JSON")
       | Ok data =>
           mret (extract_field data (if String.eqb (version_field avc) "" then default_field else version_field avc), "")
       end.
Definition check_openapi : ApiVersionCheck -> CM (option string * string) :=
  check_spec "info.version" " fetching OpenAPI spec".
Definition check_json : ApiVersionCheck -> CM (option string * string) := check_spec "" "".
Definition check_html (avc : ApiVersionCheck) : CM (option string * string) :=
  r ← exchange (Req "GET" (check_url avc) None None None true);
  if negb (status_code r =? 200)%Z then mret (None, http_text (status_code r))
  else
    m ← (if String.eqb (version_field avc) "" then mret None
         else lift (search_pattern (version_field avc) (resp_text r)));
    mret match m with
         | Some f => (match lastindex f with Some _ => group1 f | None => Some (group0 f) end, "")
         | None => match first_version (resp_text r) with
                   | Some version => (Some version, "")
                   | None => (None, "No version pattern found in HTML")
                   end
         end.
Definition checker (kind : string) : ApiVersionCheck -> CM (option string * string) :=
  if String.eqb kind "json" then check_json else if String.eqb kind "html" then check_html else check_openapi.

Definition check_api_version (t : Target) : CM (option pyval) :=
  match mf_api_version_check (tg_manifest t) with
  | None => mret None
  | Some avc =>
      if String.eqb (check_url avc) "" then mret None
      else
        try_catch
          (found ← checker (check_type avc) avc;
           ms ← ms_spent;
           let current := current_api_version avc in
           mret (Some
             (if negb (String.eqb found.2 "") then
                result "api_version_check" "SKIP" ms ("Could not fetch remote version: " ++ found.2) ""
              else match found.1 with
                   | None => result "api_version_check" "SKIP" ms "Remote version not found" ""
                   | Some remote =>
                       if is_newer remote current then
                         plain_result "api_version_check" "WARN" ms
                           [("current_api_version", PStr current); ("latest_api_version", PStr remote);
                            ("docs_url", PStr (if String.eqb (api_docs_url avc) "" then check_url avc else api_docs_url avc));
                            ("error", PStr ("Newer API version available: " ++ remote ++ " (current: " ++ current ++ ")"));
                            ("suggestion", PStr ("Update connector to API version " ++ remote))]
                       else
                         plain_result "api_version_check" "PASS" ms
                           [("current_api_version", PStr current); ("latest_api_version", PStr remote)]
                   end)))
          (fun e =>
             ms ← ms_spent;
             mret (Some (result "api_version_check" "SKIP" ms ("Version check failed: " ++ error_text e) "")))
  end.

(** ** Tier 2 *)

(** A check of [auth.py]: what it raises is a failure. *)
Definition auth_check (name url : string) (on_200 : response -> Z -> res pyval) : CM pyval :=
  try_catch
    (r ← exchange (GET url);
     ms ← ms_spent;
     if (status_code r =? 200)%Z then lift (on_200 r ms)
     else mret (plain_result name "FAIL" ms [("error", PStr (http_text (status_code r)))]))
    (fun e => ms ← ms_spent; mret (plain_result name "FAIL" ms [("error", PStr (error_text e))])).

Definition check_connection_status (t : Target) (account_name : string) : CM pyval :=
  auth_check "connection_status" (tg_base_url t ++ "/connection/" ++ account_name ++ "/status")
    (fun r ms =>
       v ← resp_json r; data ← dict_method "get" v;
       let connected := dget_or "connected" (PBool (py_eqb (dget_or "status" PNone data) (PStr "success"))) data in
       Ok (if truthy connected then plain_result "connection_status" "PASS" ms []
           else plain_result "connection_status" "FAIL" ms
                  [("error", dget_or "error" (PStr "Not connected") data);
                   ("suggestion", PStr ("Check credentials for " ++ mf_name (tg_manifest t)))])).
Definition check_auth_status (t : Target) (account_name : string) : CM pyval :=
  auth_check "auth_status" (tg_base_url t ++ "/auth/" ++ account_name ++ "/status")
    (fun r ms =>
       v ← resp_json r; data ← dict_method "get" v;
       Ok (if truthy (dget_or "authenticated" (PBool false) data) then plain_result "auth_status" "PASS" ms []
           else plain_result "auth_status" "FAIL" ms [("error", PStr "Not authenticated")])).

(** [for acc in existing: if acc.get("name") == account_name: return True]. *)
Fixpoint has_account (account_name : string) (existing : list pyval) : res bool :=
  match existing with
  | [] => Ok false
  | acc :: rest =>
      d ← dict_method "get" acc;
      if py_eqb (dget_or "name" PNone d) (PStr account_name) then Ok true else has_account account_name rest
  end.
Definition text_dict (l : list (string * string)) : dict := map (fun kv => (kv.1, PStr kv.2)) l.
Definition ensure_account (t : Target) (account_name : string) : CM bool :=
  if no_credentials t then mret false
  else
    try_catch
      (r ← exchange (GET (tg_base_url t ++ "/accounts"));
       present ← (if (status_code r =? 200)%Z then
                    v ← lift (resp_json r); existing ← lift (as_iter v); lift (has_account account_name existing)
                  else mret false);
       if (present : bool) then mret true
       else
         r ← exchange (Req "POST" (tg_base_url t ++ "/accounts") None
                         (Some (PDict (dmerge [("name", PStr account_name)] (text_dict (creds_of t))))) None false);
         mret (status_code r <? 300)%Z)
      (fun _ => mret false).

(** [x or {}]. *)
Definition or_empty (v : pyval) : pyval := py_or v (PDict []).
(** [validation.get("validate_endpoint", "")] of the manifest. *)
Definition validate_endpoint (m : Manifest) : res pyval :=
  validation ← dict_method "get" (or_empty (credential_validation m));
  Ok (dget_or "validate_endpoint" (PStr "") validation).
Definition check_manifest_validate_endpoint (t : Target) (account_name : string) : CM pyval :=
  template ← lift (validate_endpoint (tg_manifest t));
  if negb (truthy template) then
    mret (plain_result "manifest_validation" "SKIP" 0 [("error", PStr "No validate_endpoint in manifest")])
  else
    endpoint ← lift (str_method "replace" template);
    auth_check "manifest_validation" (tg_base_url t ++ py_replace endpoint "{account_name}" account_name)
      (fun _ ms => Ok (plain_result "manifest_validation" "PASS" ms [])).

Definition run_tier2 (t : Target) : CM (list pyval) :=
  if no_credentials t || match tg_tenant_id t with None | Some "" => true | _ => false end then
    mret [plain_result "auth_validation" "SKIP" 0 [("error", PStr "No credentials configured")]]
  else
    let account_name := text_or "account_name" "verification-agent" (creds_of t) in
    provisioning ← lift (dict_method "get" (or_empty (mf_credential_provisioning (tg_manifest t))));
    let has_account_provisioning := py_eqb (dget_or "mode" PNone provisioning) (PStr "account") in
    template ← lift (validate_endpoint (tg_manifest t));
    ok ← (if has_account_provisioning then ensure_account t account_name else mret true);
    if negb ok then
      mret [plain_result "account_provisioning" "FAIL" 0 [("error", PStr "Failed to provision account on connector")]]
    else if truthy template then
      c ← check_manifest_validate_endpoint t account_name; mret [c]
    else if has_account_provisioning then
      auth ← check_auth_status t account_name; conn ← check_connection_status t account_name; mret [auth; conn]
    else
      conn ← check_connection_status t account_name; mret [conn].
End checks.

(** ** What is returned *)

Section returns.
Context {S : Type}.
(** What [m] returns, when it returns, is in [Q]. *)
Definition returns {A} (Q : A -> Prop) (m : EM S A) : Prop := forall s a s', m s = (Ok a, s') -> Q a.

Lemma returns_ret {A} (Q : A -> Prop) a : Q a -> returns Q (mret a).
Proof. by intros Ha s b s' [= <- _]. Qed.
Lemma returns_bind {A B} (R : A -> Prop) (Q : B -> Prop) (m : EM S A) (k : A -> EM S B) :
  returns R m -> (forall a, R a -> returns Q (k a)) -> returns Q (m ≫= k).
Proof. intros Hm Hk s b s' (a & s1 & E1 & E2)%bind_returned. exact (Hk a (Hm _ _ _ E1) _ _ _ E2). Qed.
Lemma returns_any {A B} (Q : B -> Prop) (m : EM S A) (k : A -> EM S B) :
  (forall a, returns Q (k a)) -> returns Q (m ≫= k).
Proof. intros Hk. by apply (returns_bind (fun _ => True)). Qed.
Lemma returns_try {A} (Q : A -> Prop) (m : EM S A) h :
  returns Q m -> (forall e, returns Q (h e)) -> returns Q (try_catch m h).
Proof. intros Hm Hh s a s' [E|(e & s1 & _ & E)]%try_returned; [exact (Hm _ _ _ E)|exact (Hh e _ _ _ E)]. Qed.
Lemma returns_if {A} (Q : A -> Prop) (b : bool) (m1 m2 : EM S A) :
  returns Q m1 -> returns Q m2 -> returns Q (if b then m1 else m2).
Proof. by destruct b. Qed.
Lemma returns_lift {A} (Q : A -> Prop) (m : res A) : (forall a, m = Ok a -> Q a) -> returns Q (lift m).
Proof. intros Hm s a s' [E _]%lift_returned. by apply Hm. Qed.
End returns.

(** The results of checks that reports can count. *)
Definition statuses : list string := ["PASS"; "FAIL"; "SKIP"; "WARN"].
Definition is_check (c : pyval) : bool :=
  match c with
  | PDict d =>
      match dget "name" d, dget "status" d, dget_or "response_time_ms" (PInt 0) d with
      | Some (PStr _), Some (PStr s), PInt _ => existsb (String.eqb s) statuses
      | _, _, _ => false
      end
  | _ => false
  end.
Abbreviation Check := (fun c => is_check c = true).
Abbreviation Checks := (Forall (fun c => is_check c = true)).

Lemma result_check name status ms error suggestion :
  existsb (String.eqb status) statuses = true -> Check (result name status ms error suggestion).
Proof. exact id. Qed.
Lemma plain_check name status ms more :
  existsb (String.eqb status) statuses = true -> Check (plain_result name status ms more).
Proof. exact id. Qed.

(** The checks of a script: what each part returns, and that it is a check. *)
Ltac checked :=
  repeat match goal with
  | |- returns _ (mret _) => apply returns_ret
  | |- returns _ (try_catch _ _) => apply returns_try; [|intros ?]
  | |- returns _ (if _ then _ else _) => apply returns_if
  | |- returns _ (match ?x with _ => _ end) => destruct x
  | |- returns _ (_ ≫= _) => first [progress eauto with checks | apply returns_any; intros ?]
  | |- is_check (if ?b then _ else _) = true => destruct b
  | |- is_check (match ?x with _ => _ end) = true => destruct x
  | |- is_check _ = true => reflexivity
  | |- Forall _ _ => constructor
  | |- _ => progress auto with checks
  end.
Create HintDb checks.

Section facts.
Variable connector : list request -> request -> res response.
Variable elapsed : list request -> Z.
Variable search_pattern : string -> string -> res (option re_found).

Lemma get_check_returns url name params : returns Check (get_check connector elapsed url name params).
Proof. unfold get_check. checked. Qed.
Lemma req_check_returns rq name accept : returns (fun p => Check p.1) (req_check connector elapsed rq name accept).
Proof. unfold req_check. checked; intros; repeat case_match; reflexivity. Qed.
Lemma tier1_returns t : returns Checks (run_tier1 connector elapsed t).
Proof.
  assert (returns Check (check_health connector elapsed t)) as H1 by (unfold check_health; checked).
  assert (returns Check (check_readiness connector elapsed t)) as H2 by (unfold check_readiness; checked).
  assert (returns Check (check_docs connector elapsed t)) as H3 by (unfold check_docs; checked).
  unfold run_tier1. eapply returns_bind; [exact H1|intros c1 Hc1].
  eapply returns_bind; [exact H2|intros c2 Hc2]. eapply returns_bind; [exact H3|intros c3 Hc3].
  apply returns_ret. by repeat constructor.
Qed.
Lemma api_version_returns t :
  returns (fun o => match o with Some c => Check c | None => True end) (check_api_version connector elapsed search_pattern t).
Proof. unfold check_api_version. checked; repeat case_match; done. Qed.
Lemma auth_check_returns name url on_200 :
  (forall r ms c, on_200 r ms = Ok c -> Check c) -> returns Check (auth_check connector elapsed name url on_200).
Proof.
  intros H. unfold auth_check. checked. apply returns_lift. intros c E. exact (H _ _ _ E).
Qed.
Lemma connection_status_returns t a : returns Check (check_connection_status connector elapsed t a).
Proof. apply auth_check_returns. intros r ms c E. cbv beta zeta in E. bind_ok. by case_match. Qed.
Lemma auth_status_returns t a : returns Check (check_auth_status connector elapsed t a).
Proof. apply auth_check_returns. intros r ms c E. cbn beta in E. bind_ok. by case_match. Qed.
Lemma tier2_returns t : returns Checks (run_tier2 connector elapsed t).
Proof.
  unfold run_tier2. apply returns_if; [apply returns_ret; by repeat constructor|].
  apply returns_any; intros provisioning. apply returns_any; intros template. apply returns_any; intros ok.
  apply returns_if; [apply returns_ret; by repeat constructor|].
  apply returns_if.
  - apply (returns_bind Check); [|intros c Hc; apply returns_ret; by repeat constructor].
    unfold check_manifest_validate_endpoint. apply returns_any; intros template'.
    apply returns_if; [by apply returns_ret|]. apply returns_any; intros endpoint.
    apply auth_check_returns. by intros r ms c [= <-].
  - apply returns_if.
    + eapply returns_bind; [apply auth_status_returns|intros c1 H1].
      eapply returns_bind; [apply connection_status_returns|intros c2 H2]. apply returns_ret. by repeat constructor.
    + eapply returns_bind; [apply connection_status_returns|intros c Hc]. apply returns_ret. by repeat constructor.
Qed.
End facts.
#[export] Hint Resolve get_check_returns : checks.
