(* ===== verification/VerificationSuites.v ===== *)
(** The functional checks of the verification agent: the dispatcher ([checks/functional.py]) and
    the scripts per connector and per category ([checks/ecommerce], [checks/other],
    [checks/courier], [checks/wms], [checks/erp]).

    A script is a sequence of requests to the connector, with the branches it takes on their
    answers; what it raises ends it. *)

From S2P Require Import Prelude PyText PyFloat PyValue Base64 Effects VerificationChecks.

Local Open Scope string_scope.

(** [v[0]]. *)
Definition first_item (v : pyval) : res pyval :=
  match v with
  | PList (x :: _) => Ok x
  | PList [] => Raise (IndexError "list index out of range")
  | PStr (String c _) => Ok (PStr (str1 c))
  | PStr EmptyString => Raise (IndexError "string index out of range")
  | PDict _ => Raise (KeyError "0")
  | _ => Raise (TypeError ("'" ++ type_name v ++ "' object is not subscriptable"))
  end.
(** [except (ValueError, KeyError, TypeError, IndexError)]. *)
Definition lookup_error (e : pyexn) : bool :=
  match e with ValueError _ | KeyError _ | TypeError _ | IndexError _ => true | _ => false end.
Definition ok_200 (r : response) : bool := (status_code r =? 200)%Z.
Definition ok_200_201 (r : response) : bool := (status_code r =? 200)%Z || (status_code r =? 201)%Z.

(** [_extract_first_id] of [allegro.py]. *)
Definition allegro_first_id (resp : option response) (list_key id_key : string) : res (option string) :=
  match resp with
  | None => Ok None
  | Some r =>
      if negb (ok_200 r) then Ok None
      else
        catch
          (data ← resp_json r;
           items ← match data with
                   | PList _ => Ok data
                   | _ => d ← dict_method "get" data; Ok (dget_or list_key (PList []) d)
                   end;
           if truthy items then
             item ← first_item items; d ← dict_method "get" item;
             Ok (Some (py_str (dget_or id_key (PStr "") d)))
           else Ok None)
          lookup_error (Ok None)
  end.
(** [_extract_first_id] and [_extract_first_id_from_list] of [woocommerce.py]. *)
Definition woo_first_id (resp : option response) (list_key : string) : res pyval :=
  match resp with
  | None => Ok PNone
  | Some r =>
      if negb (ok_200 r) then Ok PNone
      else
        catch
          (data ← resp_json r;
           let items := match data with
                        | PDict d => dget list_key d
                        | PList _ => Some data
                        | _ => None
                        end in
           match items with
           | None => Ok PNone
           | Some items =>
               if truthy items then
                 item ← first_item items; d ← dict_method "get" item;
                 Ok (py_or (dget_or "id" PNone d) (dget_or "order_id" PNone d))
               else Ok PNone
           end)
          lookup_error (Ok PNone)
  end.
Definition woo_first_id_from_list (resp : option response) : res pyval :=
  match resp with
  | None => Ok PNone
  | Some r =>
      if negb (ok_200 r) then Ok PNone
      else
        catch
          (data ← resp_json r;
           match data with
           | PList (item :: _) => d ← dict_method "get" item; Ok (dget_or "id" PNone d)
           | _ => Ok PNone
           end)
          lookup_error (Ok PNone)
  end.
(** The ids of [_extract_doc_ids] of [skanuj_fakture.py], and the first of them. *)
Definition document_ids (resp : option response) : pyval :=
  match resp with
  | None => PList []
  | Some r =>
      if negb (ok_200_201 r) then PList []
      else match (v ← resp_json r;
                  data ← dict_method "get" v;
                  Ok (py_or (dget_or "documentIdList" PNone data)
                        (py_or (dget_or "documentsIdList" PNone data)
                           (py_or (dget_or "documents_id_list" PNone data) (PList []))))) with
           | Ok ids => ids
           | Raise _ => PList []
           end
  end.
Definition first_document_id (resp : option response) : pyval :=
  let ids := document_ids resp in
  if truthy ids then match first_item ids with Ok id => id | Raise _ => PNone end else PNone.

Definition PDF_STUB : string :=
  let nl := str1 (chr 10) in
  "%PDF-1.0" ++ nl ++ "1 0 obj<</Pages 2 0 R>>endobj" ++ nl ++ "2 0 obj<</Kids[3 0 R]/Count 1>>endobj" ++ nl
  ++ "3 0 obj<</MediaBox[0 0 612 792]>>endobj" ++ nl ++ "trailer<</Root 1 0 R>>" ++ nl ++ "%%EOF".

Definition skipped (error name : string) : pyval := result name "SKIP" 0 error "".

Section suites.
Variable connector : list request -> request -> res response.
Variable elapsed : list request -> Z.
Abbreviation CM := (EM (list request)).

(** [results.append(await check)], for each check. *)
Fixpoint collect (checks : list (CM pyval)) : CM (list pyval) :=
  match checks with
  | [] => mret []
  | c :: rest => x ← c; xs ← collect rest; mret (x :: xs)
  end.
Definition get_ (url name : string) (params : dict) : CM pyval := get_check connector elapsed url name (Some params).
Definition get_bare (url name : string) : CM pyval := get_check connector elapsed url name None.
(** [chk, _ = await req_check(...)]. *)
Definition req_ (rq : request) (name : string) (accept_statuses : list Z) : CM pyval :=
  p ← req_check connector elapsed rq name accept_statuses; mret p.1.
Definition with_params (meth url : string) (params : dict) : request := Req meth url (Some params) None None false.
Definition with_json (meth url : string) (json : pyval) : request := Req meth url None (Some json) None false.
Definition with_both (meth url : string) (params : dict) (json : pyval) : request := Req meth url (Some params) (Some json) None false.
Definition account_of (t : Target) : string := text_or "account_name" "verification-agent" (creds_of t).
Definition account_params (t : Target) : dict := [("account_name", PStr (account_of t))].
Definition in_list (what : string) (l : pyval) : CM bool := lift (py_in (PStr what) l).
Definition when (b : bool) (l : list (CM pyval)) : list (CM pyval) := if b then l else [].

(** ** Fallbacks per category *)

Definition generic_ecommerce (t : Target) : CM (list pyval) :=
  let base := tg_base_url t in
  orders ← in_list "order.fetch" (mf_actions (tg_manifest t));
  l1 ← collect (when orders [get_ (base ++ "/orders") "list_orders" (account_params t ++ [("per_page", PStr "1")])%list]);
  products ← in_list "product.search" (mf_actions (tg_manifest t));
  l2 ← collect (when products [get_ (base ++ "/products/search") "search_products"
                    (account_params t ++ [("query", PStr "test"); ("page", PStr "1"); ("page_size", PStr "1")])%list]);
  mret (l1 ++ l2)%list.

(** [other/generic.py] and [other/account_based.py] have one text. *)
Definition generic_other (t : Target) : CM (list pyval) :=
  let base := tg_base_url t in
  let name := mf_name (tg_manifest t) in
  collect ([get_bare (base ++ "/accounts") "list_accounts"]
    ++ (if String.eqb name "email-client" then [get_ (base ++ "/folders") "list_folders" (account_params t)]
        else if String.eqb name "ftp-sftp" then
          [get_ (base ++ "/files") "list_files" (account_params t ++ [("remote_path", PStr "/")])%list]
        else []))%list.

Definition generic_courier (t : Target) : CM (list pyval) :=
  let base := tg_base_url t in
  points ← in_list "get_pickup_points" (mf_capabilities (tg_manifest t));
  l1 ← collect (when points [get_bare (base ++ "/pickup-points") "list_pickup_points"]);
  rates ← in_list "get_rates" (mf_capabilities (tg_manifest t));
  rates ← (if (rates : bool) then mret true else in_list "rates.get" (mf_actions (tg_manifest t)));
  l2 ← collect (when rates [get_bare (base ++ "/rates") "rates_endpoint"]);
  mret (l1 ++ l2)%list.

(** ** Allegro *)

Section allegro.
Variable t : Target.
Definition al_get (path name : string) (more : dict) : CM pyval :=
  get_ (tg_base_url t ++ path) name (account_params t ++ more)%list.
Definition page (limit : Z) : dict := [("limit", PInt limit); ("offset", PInt 0)].
Definition allegro_account : list (CM pyval) :=
  let base := tg_base_url t in
  [get_bare (base ++ "/health") "health"; get_bare (base ++ "/readiness") "readiness"; get_bare (base ++ "/docs") "docs_endpoint";
   get_bare (base ++ "/accounts") "list_accounts";
   req_ (GET (base ++ "/auth/" ++ account_of t ++ "/status")) "auth_status" [200%Z; 401%Z; 404%Z]].
Definition allegro_orders : list (CM pyval) :=
  [al_get "/orders" "list_orders" [("page", PInt 1); ("page_size", PInt 5)];
   al_get "/orders/events" "order_events" [("limit", PInt 5)];
   al_get "/orders/event-stats" "order_event_stats" [];
   al_get "/orders/carriers" "order_carriers" [];
   al_get "/offers" "list_offers" (page 5)].
Definition allegro_offer : CM (list pyval) :=
  p ← req_check connector elapsed (with_params "GET" (tg_base_url t ++ "/offers") (account_params t ++ page 1)%list)
        "list_offers_for_id" [200%Z; 401%Z];
  offer_id ← lift (allegro_first_id p.2 "offers" "id");
  match offer_id with
  | None | Some "" => mret (map (skipped "No offers found to test") ["get_offer"; "offer_rating"; "offer_promo"])
  | Some id =>
      collect [al_get ("/offers/" ++ id) "get_offer" []; al_get ("/offers/" ++ id ++ "/rating") "offer_rating" [];
               al_get ("/offers/" ++ id ++ "/promo") "offer_promo" []]
  end.
Definition allegro_catalogue : list (CM pyval) :=
  [al_get "/offers/events" "offer_events" [("limit", PInt 5)];
   al_get "/products/search" "search_products" [("query", PStr "test"); ("page", PInt 1); ("page_size", PInt 5)];
   al_get "/categories" "list_categories" [];
   al_get "/stock/sync" "stock_sync_options" [];
   al_get "/variants" "list_variants" [];
   al_get "/tags" "list_tags" [];
   al_get "/promotions" "list_promotions" (page 5);
   al_get "/turnover-discounts" "list_turnover_discounts" [];
   al_get "/bundles" "list_bundles" (page 5);
   al_get "/payments/history" "payment_history" (page 5);
   al_get "/payments/refunds" "payment_refunds" (page 5);
   al_get "/shipments/services" "shipment_services" []].
Definition allegro_service : list (CM pyval) :=
  [al_get "/returns" "list_returns" (page 5);
   al_get "/delivery/methods" "delivery_methods" [];
   al_get "/delivery/settings" "delivery_settings" [];
   al_get "/delivery/shipping-rates" "shipping_rates" [];
   al_get "/warranties" "list_warranties" [];
   al_get "/return-policies" "list_return_policies" [];
   al_get "/messages/threads" "list_message_threads" (page 5);
   al_get "/billing/types" "billing_types" [];
   al_get "/billing/entries" "billing_entries" (page 5);
   al_get "/user/info" "user_info" [];
   al_get "/user/ratings" "user_ratings" (page 5);
   al_get "/user/sales-quality" "sales_quality" [];
   al_get "/commission-refunds" "commission_refunds" (page 5)].
Definition allegro_extras : list (CM pyval) :=
  [al_get "/additional-services/groups" "additional_service_groups" [];
   al_get "/additional-services/definitions" "additional_service_defs" [];
   al_get "/size-tables" "list_size_tables" [];
   al_get "/points-of-service" "list_points_of_service" [];
   al_get "/contacts" "list_contacts" [];
   al_get "/pricing/offer-quotes" "pricing_quotes" [];
   al_get "/badges/campaigns" "badge_campaigns" [];
   al_get "/badges" "list_badges" [];
   al_get "/compatibility/categories" "compat_categories" [];
   al_get "/fulfillment/stock" "fulfillment_stock" [];
   al_get "/fulfillment/products" "fulfillment_products" [];
   al_get "/fulfillment/advance-ship-notices" "fulfillment_asn_list" []].
Definition allegro_run : CM (list pyval) :=
  l1 ← collect (allegro_account ++ allegro_orders)%list;
  l2 ← allegro_offer;
  l3 ← collect (allegro_catalogue ++ allegro_service ++ allegro_extras)%list;
  mret (l1 ++ l2 ++ l3)%list.
End allegro.

(** ** WooCommerce *)

Section woocommerce.
Variable t : Target.
Definition wc_get (path name : string) (more : dict) : CM pyval :=
  get_ (tg_base_url t ++ path) name (account_params t ++ more)%list.
Definition wc_req (meth path name : string) (more : dict) (accept_statuses : list Z) : CM pyval :=
  req_ (with_params meth (tg_base_url t ++ path) (account_params t ++ more)%list) name accept_statuses.
Definition wc_list (path name : string) : CM pyval := wc_req "GET" path name [] [200%Z; 401%Z].
Definition wc_write (meth path name : string) (json : pyval) : CM pyval :=
  req_ (with_both meth (tg_base_url t ++ path) (account_params t) json) name [200%Z; 401%Z; 404%Z; 422%Z].
Definition wc_account : list (CM pyval) :=
  let base := tg_base_url t in
  [get_bare (base ++ "/health") "health"; get_bare (base ++ "/readiness") "readiness"; get_bare (base ++ "/docs") "docs";
   get_bare (base ++ "/accounts") "list_accounts";
   get_bare (base ++ "/auth/status") "all_auth_statuses";
   get_bare (base ++ "/auth/" ++ account_of t ++ "/status") "auth_status";
   req_ (GET (base ++ "/connection/" ++ account_of t ++ "/status")) "connection_status" [200%Z; 201%Z]].
(** A listing, with what it answered. *)
Definition wc_listing (path name : string) (more : dict) : CM (pyval * option response) :=
  req_check connector elapsed (with_params "GET" (tg_base_url t ++ path) (account_params t ++ more)%list) name [200%Z; 401%Z].
Definition wc_orders : CM (list pyval) :=
  p ← wc_listing "/orders" "list_orders" [("page", PInt 1); ("page_size", PInt 5)];
  order_id ← lift (woo_first_id p.2 "orders");
  l ← (if truthy order_id then
         let id := py_str order_id in
         collect [wc_get ("/orders/" ++ id) "get_order" []; wc_get ("/orders/" ++ id ++ "/notes") "list_order_notes" [];
                  wc_get ("/orders/" ++ id ++ "/refunds") "list_order_refunds" []]
       else mret (map (skipped "No orders found") ["get_order"; "list_order_notes"; "list_order_refunds"]));
  last ← wc_write "PUT" "/orders/99999999/status" "update_order_status_dummy" (PDict [("status", PStr "processing")]);
  mret (p.1 :: l ++ [last])%list.
Definition wc_products : CM (list pyval) :=
  p ← wc_listing "/products" "list_products" [("page", PInt 1); ("per_page", PInt 5)];
  product_id ← lift (woo_first_id_from_list p.2);
  l ← (if truthy product_id then
         let id := py_str product_id in
         collect [wc_get ("/products/" ++ id) "get_product" []; wc_get ("/products/" ++ id ++ "/variations") "list_variations" []]
       else mret (map (skipped "No products found") ["get_product"; "list_variations"]));
  rest ← collect [wc_get "/products/search" "search_products" [("query", PStr "test")];
                  wc_list "/products/categories" "list_product_categories"; wc_list "/products/tags" "list_product_tags";
                  wc_list "/products/attributes" "list_product_attributes"; wc_list "/products/reviews" "list_product_reviews";
                  wc_list "/products/shipping_classes" "list_shipping_classes"];
  mret (p.1 :: l ++ rest)%list.
Definition wc_customers : CM (list pyval) :=
  p ← wc_listing "/customers" "list_customers" [("page", PInt 1); ("per_page", PInt 5)];
  customer_id ← lift (woo_first_id_from_list p.2);
  l ← (if truthy customer_id then
         let id := py_str customer_id in
         collect [wc_get ("/customers/" ++ id) "get_customer" [];
                  wc_get ("/customers/" ++ id ++ "/downloads") "list_customer_downloads" []]
       else mret (map (skipped "No customers found") ["get_customer"; "list_customer_downloads"]));
  mret (p.1 :: l).
Definition wc_reports : list (CM pyval) :=
  [wc_list "/coupons" "list_coupons"; wc_list "/taxes" "list_tax_rates"; wc_list "/taxes/classes" "list_tax_classes";
   wc_list "/reports" "list_reports"; wc_list "/reports/sales" "sales_report"; wc_list "/reports/top_sellers" "top_sellers_report";
   wc_list "/reports/orders/totals" "orders_totals"; wc_list "/reports/products/totals" "products_totals"].
Definition wc_shop : list (CM pyval) :=
  [wc_list "/webhooks" "list_webhooks"; wc_list "/settings" "list_settings_groups";
   wc_list "/payment_gateways" "list_payment_gateways"; wc_list "/shipping/zones" "list_shipping_zones";
   wc_list "/shipping_methods" "list_shipping_methods"; wc_list "/system_status" "get_system_status";
   wc_list "/system_status/tools" "list_system_status_tools";
   wc_write "POST" "/stock/sync" "stock_sync_dummy"
     (PDict [("items", PList [PDict [("sku", PStr "VERIFICATION_TEST_SKU"); ("quantity", PInt 0)]])])].
Definition woocommerce_run : CM (list pyval) :=
  l1 ← collect wc_account; l2 ← wc_orders; l3 ← wc_products; l4 ← wc_customers; l5 ← collect (wc_reports ++ wc_shop)%list;
  mret (l1 ++ l2 ++ l3 ++ l4 ++ l5)%list.
End woocommerce.

(** ** Pinquark WMS *)

Section wms.
Variable t : Target.
Definition wms_credentials : dict :=
  let creds := creds_of t in
  [("credentials", PDict [("api_url", PStr (text_or "api_url" "" creds)); ("username", PStr (text_or "username" "" creds));
                          ("password", PStr (text_or "password" "" creds))])].
Definition has_creds : bool :=
  negb (String.eqb (text_or "api_url" "" (creds_of t)) "") && negb (String.eqb (text_or "username" "" (creds_of t)) "").
Definition wms_post (path name : string) (more : dict) (accept_statuses : list Z) : CM pyval :=
  req_ (with_json "POST" (tg_base_url t ++ path) (PDict (wms_credentials ++ more)%list)) name accept_statuses.
Definition wms_read (path name : string) : CM pyval := wms_post path name [] [200%Z; 401%Z].
(** The calls of a section, or its checks skipped without credentials. *)
Definition wms_section (names : list string) (calls : list (CM pyval)) : list (CM pyval) :=
  if has_creds then calls else map (fun name => mret (skipped "No credentials available" name)) names.
Definition nonexistent : dict := [("command", PDict [("uniqueCode", PStr "VER_TEST_NONEXISTENT")])].
Definition wms_articles : list (CM pyval) :=
  wms_section ["get_articles"; "get_articles_delete_commands"; "create_article_dummy"; "delete_article_dummy"]
    [wms_read "/articles/get" "get_articles"; wms_read "/articles/get-delete-commands" "get_articles_delete_commands";
     wms_post "/articles/create" "create_article_dummy"
       [("article", PDict [("erpId", PInt 999999); ("name", PStr "VERIFICATION_TEST_ARTICLE"); ("symbol", PStr "VER_TEST"); ("source", PStr "ERP")])]
       [200%Z; 401%Z; 422%Z];
     wms_post "/articles/delete" "delete_article_dummy" nonexistent [200%Z; 401%Z; 404%Z; 422%Z]].
Definition wms_documents : list (CM pyval) :=
  wms_section ["get_documents"; "get_documents_delete_commands"; "create_document_dummy"; "delete_document_dummy"]
    [wms_read "/documents/get" "get_documents"; wms_read "/documents/get-delete-commands" "get_documents_delete_commands";
     wms_post "/documents/create" "create_document_dummy"
       [("document", PDict [("erpId", PInt 999999); ("documentType", PStr "PZ"); ("source", PStr "ERP"); ("symbol", PStr "VER/TEST/001")])]
       [200%Z; 401%Z; 422%Z];
     wms_post "/documents/delete" "delete_document_dummy" nonexistent [200%Z; 401%Z; 404%Z; 422%Z]].
Definition wms_rest : list (CM pyval) :=
  (wms_section ["get_positions"; "get_positions_delete_commands"]
     [wms_read "/positions/get" "get_positions"; wms_read "/positions/get-delete-commands" "get_positions_delete_commands"]
   ++ wms_section ["get_contractors"; "get_contractors_delete_commands"; "create_contractor_dummy"]
        [wms_read "/contractors/get" "get_contractors"; wms_read "/contractors/get-delete-commands" "get_contractors_delete_commands";
         wms_post "/contractors/create" "create_contractor_dummy"
           [("contractor", PDict [("erpId", PInt 999999); ("name", PStr "VERIFICATION_TEST_CONTRACTOR"); ("symbol", PStr "VER_TEST"); ("source", PStr "ERP")])]
           [200%Z; 401%Z; 422%Z]]
   ++ wms_section ["get_feedbacks"; "get_errors"]
        [wms_read "/feedbacks/get" "get_feedbacks"; wms_read "/errors/get" "get_errors"])%list.
Definition pinquark_wms_run : CM (list pyval) :=
  let base := tg_base_url t in
  collect
    ([get_bare (base ++ "/health") "health"; get_bare (base ++ "/readiness") "readiness"; get_bare (base ++ "/docs") "docs_endpoint"]
     ++ wms_section ["auth_sign_in"] [wms_read "/auth/sign-in" "auth_sign_in"]
     ++ [get_bare (base ++ "/poller/status") "poller_status"]
     ++ wms_articles
     ++ wms_section ["get_article_batches"] [wms_read "/article-batches/get" "get_article_batches"]
     ++ wms_documents ++ wms_rest)%list.
End wms.

(** ** InsERT nexo *)

(** The accounts of the answer. *)
Definition nexo_accounts (resp : option response) : res pyval :=
  match resp with
  | Some r =>
      if ok_200 r then
        v ← resp_json r; data ← dict_method "get" v; Ok (dget_or "accounts" (PList []) data)
      else Ok (PList [])
  | None => Ok (PList [])
  end.
Definition insert_nexo_run (t : Target) : CM (list pyval) :=
  let base := tg_base_url t in
  let get path name params := req_ (Req "GET" (base ++ path) params None None false) name [200%Z; 201%Z] in
  p ← req_check connector elapsed (GET (base ++ "/accounts")) "list_accounts" [200%Z; 201%Z];
  accounts ← lift (nexo_accounts p.2);
  if negb (truthy accounts) then
    mret [p.1; skipped "No agent accounts configured — skipping agent tests" "agent_connectivity"]
  else
    account_name ← lift (item ← first_item accounts; d ← dict_method "get" item; Ok (py_str (dget_or "name" (PStr "") d)));
    let agent := "/agents/" ++ account_name in
    q ← req_check connector elapsed (GET (base ++ agent ++ "/health")) "agent_health" [200%Z; 201%Z];
    if match q.2 with Some r => (status_code r =? 502)%Z | None => false end then
      mret [p.1; q.1; skipped "On-premise agent unreachable (502) — skipping agent tests" "agent_tests"]
    else
      let five := Some [("page", PInt 1); ("page_size", PInt 5)] in
      rest ← collect [get (agent ++ "/connection/status") "agent_connection_status" None;
                      get (agent ++ "/contractors") "list_contractors" five; get (agent ++ "/products") "list_products" five;
                      get (agent ++ "/documents/sales") "list_sales_documents" five; get (agent ++ "/orders") "list_orders" five;
                      get (agent ++ "/stock") "get_stock_levels" None];
      mret (p.1 :: q.1 :: rest).

(** ** SkanujFakture *)

Section skanuj.
Variable t : Target.
Definition companies_url : string := tg_base_url t ++ "/companies".
Definition sk_req (meth path name : string) (more : dict) (json : option pyval) (accept_statuses : list Z) : CM pyval :=
  req_ (Req meth (companies_url ++ path) (Some (account_params t ++ more)%list) json None false) name accept_statuses.
Definition upload (path name filename : string) (more : dict) : CM (pyval * option response) :=
  req_check connector elapsed
    (Req "POST" (companies_url ++ path) (Some (account_params t ++ more)%list) None
       (Some ("file", (filename, PDF_STUB, "application/pdf"))) false)
    name [200%Z; 201%Z].
Definition deleted_ids (ids : list pyval) : pyval := PDict [("checkDocumentIds", PList ids)].
(** The id of the first company. *)
Definition first_company (resp : option response) : res pyval :=
  match resp with
  | Some r =>
      if ok_200 r then
        companies ← resp_json r;
        match companies with
        | PList (first :: _) =>
            first ← dict_method "get" first;
            nested ← dict_method "get" (dget_or "company" (PDict []) first);
            Ok (py_or (dget_or "id" PNone nested) (py_or (dget_or "companyId" PNone first) (dget_or "id" PNone first)))
        | _ => Ok PNone
        end
      else Ok PNone
  | None => Ok PNone
  end.
Definition crud_cycle_v1 (cid : string) : CM (list pyval) :=
  p ← upload ("/" ++ cid ++ "/documents") "upload_document" "verification_test.pdf"
        [("single_document", PStr "true"); ("sale", PStr "false")];
  let uploaded_doc_id := first_document_id p.2 in
  if truthy uploaded_doc_id then
    let doc := "/" ++ cid ++ "/documents/" ++ py_str uploaded_doc_id in
    l ← collect
      [get_ (companies_url ++ doc ++ "/file") "get_document_file" (account_params t);
       sk_req "GET" (doc ++ "/image") "get_document_image" [] None [200%Z; 406%Z];
       sk_req "PUT" doc "update_document" [] (Some (PDict [("data", PDict [("notes", PStr "verification-agent test")])])) [200%Z; 201%Z];
       sk_req "PUT" (doc ++ "/attributes") "edit_attributes" [] (Some (PDict [("attributes", PList [])])) [200%Z; 201%Z];
       sk_req "DELETE" (doc ++ "/attributes") "delete_attributes" [] None [200%Z; 201%Z];
       sk_req "GET" (doc ++ "/ksef-xml") "get_ksef_xml" [] None [200%Z; 404%Z];
       sk_req "GET" (doc ++ "/ksef-qr") "get_ksef_qr" [] None [200%Z; 404%Z];
       sk_req "DELETE" ("/" ++ cid ++ "/documents") "delete_documents_cleanup" [] (Some (deleted_ids [uploaded_doc_id])) [200%Z; 201%Z]];
    mret (p.1 :: l)
  else
    mret (p.1 :: map (skipped "No uploaded document ID — upload may have failed")
      ["get_document_file"; "get_document_image"; "update_document"; "edit_attributes"; "delete_attributes"; "get_ksef_xml";
       "get_ksef_qr"; "delete_documents_cleanup"]).
Definition upload_v2_cycle (cid : string) : CM (list pyval) :=
  p ← upload ("/" ++ cid ++ "/documents/v2") "upload_document_v2" "verification_v2.pdf"
        [("single_document", PStr "true"); ("invoice", PStr "PURCHASE")];
  let v2_ids := document_ids p.2 in
  l ← collect (when (truthy v2_ids)
        [sk_req "DELETE" ("/" ++ cid ++ "/documents") "delete_v2_cleanup" [] (Some (PDict [("checkDocumentIds", v2_ids)])) [200%Z; 201%Z]]);
  mret (p.1 :: l).
Definition skanuj_fakture_run : CM (list pyval) :=
  accounts ← get_bare (tg_base_url t ++ "/accounts") "list_accounts";
  p ← req_check connector elapsed (with_params "GET" companies_url (account_params t)) "list_companies" [200%Z; 201%Z];
  company_id ← lift (first_company p.2);
  if negb (truthy company_id) then
    mret [accounts; p.1; result "company_resolution" "FAIL" 0 "No company found — cannot test document endpoints" ""]
  else
    let cid := py_str company_id in
    let get path name more := get_ (companies_url ++ "/" ++ cid ++ path) name (account_params t ++ more)%list in
    l ← collect
      ([get "/entities" "list_company_entities" []; sk_req "GET" ("/" ++ cid ++ "/documents") "list_documents" [] None [200%Z; 201%Z];
        get "/documents/simple" "list_documents_simple" []]
       ++ map (fun dict_type => get "/dictionaries" ("list_dictionaries_" ++ dict_type)%string [("type", PStr dict_type)])
            ["COST_TYPE"; "COST_CENTER"; "ATTRIBUTE"])%list;
    v1 ← crud_cycle_v1 cid;
    v2 ← upload_v2_cycle cid;
    add ← sk_req "POST" ("/" ++ cid ++ "/dictionaries") "add_dictionary_item" [("type", PStr "ATTRIBUTE")]
            (Some (PDict [("items", PList [PDict [("name", PStr "VerificationAgentTest")]])])) [200%Z; 201%Z];
    mret (accounts :: p.1 :: l ++ v1 ++ v2 ++ [add])%list.
End skanuj.

(** ** S3 *)

Section s3.
Variable t : Target.
Definition test_bucket : string := text_or "default_bucket" "" (creds_of t).
Definition test_key : string := "verification-agent/test-" ++ account_of t ++ ".txt".
Definition copy_key : string := "verification-agent/test-" ++ account_of t ++ "-copy.txt".
Definition object_ (bucket key : string) : dict := [("bucket", PStr bucket); ("key", PStr key)].
Definition s3_post (path name : string) (json : dict) : CM pyval :=
  req_ (with_both "POST" (tg_base_url t ++ path) (account_params t) (PDict json)) name [200%Z; 201%Z].
Definition s3_delete (name key : string) : CM pyval :=
  req_ (with_both "DELETE" (tg_base_url t ++ "/objects") (account_params t) (PDict (object_ test_bucket key))) name [200%Z; 201%Z].
Definition s3_write : CM (list pyval) :=
  p ← req_check connector elapsed
        (with_both "POST" (tg_base_url t ++ "/objects/upload") (account_params t)
           (PDict (object_ test_bucket test_key
                   ++ [("content_base64", PStr (b64encode "verification-agent-test-file")); ("content_type", PStr "text/plain")])%list))
        "upload_object" [200%Z; 201%Z];
  l ← collect (when (match p.2 with Some r => ok_200_201 r | None => false end)
        [get_ (tg_base_url t ++ "/objects/download") "download_object" (account_params t ++ object_ test_bucket test_key)%list;
         s3_post "/objects/presign" "presign_object" (object_ test_bucket test_key ++ [("expires_in", PInt 60); ("method", PStr "GET")])%list;
         s3_post "/objects/copy" "copy_object"
           [("source_bucket", PStr test_bucket); ("source_key", PStr test_key);
            ("destination_bucket", PStr test_bucket); ("destination_key", PStr copy_key)];
         s3_delete "delete_object_copy_cleanup" copy_key; s3_delete "delete_object_cleanup" test_key]);
  mret (p.1 :: l).
Definition s3_run : CM (list pyval) :=
  let base := tg_base_url t in
  let missing := String.eqb test_bucket "" in
  l1 ← collect
    [get_bare (base ++ "/accounts") "list_accounts"; get_ (base ++ "/buckets") "list_buckets" (account_params t);
     (if missing then mret (skipped "No default_bucket configured — cannot list objects without explicit bucket" "list_objects")
      else get_ (base ++ "/objects") "list_objects"
             (account_params t ++ [("bucket", PStr test_bucket); ("prefix", PStr ""); ("max_keys", PStr "10")])%list)];
  l2 ← (if missing then mret [skipped "No default_bucket configured — skipping write tests" "upload_object"] else s3_write);
  conn ← req_ (Req "POST" (base ++ "/auth/" ++ account_of t ++ "/test") None None None false) "connection_test" [200%Z; 404%Z; 502%Z];
  mret (l1 ++ l2 ++ [conn])%list.
End s3.

(** ** DHL Express *)

(** [_future_date()]: in three days, at 14:00. *)
Variable future_date : list request -> string.

Section dhl.
Variable t : Target.
Definition dhl_get (path name : string) (params : option dict) (accept_statuses : list Z) : CM pyval :=
  req_ (Req "GET" (tg_base_url t ++ path) params None None false) name accept_statuses.
Definition dhl_post (path name : string) (json : dict) (accept_statuses : list Z) : CM pyval :=
  req_ (with_json "POST" (tg_base_url t ++ path) (PDict json)) name accept_statuses.
Definition DUMMY_TRACKING : string := "1234567890".
Definition warsaw : dict := [("countryCode", PStr "PL"); ("postalCode", PStr "00-001"); ("cityName", PStr "Warszawa")].
Definition dhl_reads : list (CM pyval) :=
  [dhl_get "/address-validate" "address_validate" (Some (warsaw ++ [("type", PStr "delivery")])%list) [200%Z; 401%Z];
   dhl_get "/points" "service_points" (Some (warsaw ++ [("maxResults", PStr "5")])%list) [200%Z; 401%Z];
   dhl_get ("/shipments/" ++ DUMMY_TRACKING ++ "/status") "get_tracking_status" None [200%Z; 400%Z; 401%Z; 404%Z]].
Definition rate_payload (date : string) : dict :=
  [("shipper_postal_code", PStr "00-001"); ("shipper_city", PStr "Warszawa"); ("shipper_country_code", PStr "PL");
   ("receiver_postal_code", PStr "10115"); ("receiver_city", PStr "Berlin"); ("receiver_country_code", PStr "DE");
   ("planned_shipping_date", PStr date); ("unit_of_measurement", PStr "metric"); ("is_customs_declarable", PBool false);
   ("weight", PFloat (float_of_ratio false 3 2)); ("length", PInt 30); ("width", PInt 20); ("height", PInt 15)].
Definition dhl_rates : CM (list pyval) :=
  date ← gets future_date;
  let payload := rate_payload date in
  l ← collect [dhl_post "/rates" "get_rates" payload [200%Z; 400%Z; 401%Z];
               dhl_post "/rates/standardized" "get_rates_standardized" payload [200%Z; 400%Z; 401%Z]];
  date ← gets future_date;
  products ← dhl_get "/products" "get_products"
    (Some [("originCountryCode", PStr "PL"); ("originPostalCode", PStr "00-001"); ("receiverCountryCode", PStr "DE");
           ("receiverPostalCode", PStr "10115"); ("weight", PStr "1.5"); ("plannedShippingDate", PStr date);
           ("isCustomsDeclarable", PStr "false"); ("unitOfMeasurement", PStr "metric")]) [200%Z; 401%Z];
  mret (l ++ [products])%list.
Definition dhl_papers : list (CM pyval) :=
  [dhl_get ("/shipments/" ++ DUMMY_TRACKING ++ "/label") "get_label" None [200%Z; 400%Z; 401%Z; 404%Z];
   dhl_get ("/shipments/" ++ DUMMY_TRACKING ++ "/documents") "get_documents" (Some [("typeCode", PStr "label")])
     [200%Z; 400%Z; 401%Z; 404%Z]].
Definition box : (string * pyval) := ("dimensions", PDict [("length", PInt 30); ("width", PInt 20); ("height", PInt 15)]).
Definition one : pyval := PFloat (float_of_ratio false 1 1).
Definition landed_payload : dict :=
  [("accounts", PList [PDict [("typeCode", PStr "shipper"); ("number", PStr "123456789")]]);
   ("productCode", PStr "P"); ("unitOfMeasurement", PStr "metric"); ("currencyCode", PStr "EUR");
   ("isCustomsDeclarable", PBool true); ("isDTPRequested", PBool false); ("isInsuranceRequested", PBool false);
   ("shipmentPurpose", PStr "commercial");
   ("packages", PList [PDict [("weight", one); box]]);
   ("items", PList [PDict [("number", PInt 1); ("name", PStr "Test Item"); ("quantity", PInt 1); ("quantityType", PStr "pcs");
                           ("unitPrice", PFloat (float_of_ratio false 50 1)); ("unitPriceCurrencyCode", PStr "EUR");
                           ("weight", PDict [("netValue", one); ("grossValue", one)])]]);
   ("shipperAddress", PDict [("postalCode", PStr "00-001"); ("cityName", PStr "Warszawa"); ("countryCode", PStr "PL")]);
   ("receiverAddress", PDict [("postalCode", PStr "10115"); ("cityName", PStr "Berlin"); ("countryCode", PStr "DE")])].
Definition shipper_address : pyval :=
  PDict [("postal_code", PStr "00-001"); ("city_name", PStr "Warszawa"); ("country_code", PStr "PL"); ("address_line1", PStr "Testowa 1")].
Definition shipper_account : pyval := PList [PDict [("type_code", PStr "shipper"); ("number", PStr "123456789")]].
Definition shipment_payload (date : string) : dict :=
  [("planned_shipping_date", PStr date); ("pickup", PDict [("is_requested", PBool false)]); ("product_code", PStr "N");
   ("accounts", shipper_account);
   ("customer_details", PDict
     [("shipper_details", PDict
        [("postal_address", shipper_address);
         ("contact_information", PDict [("company_name", PStr "Test Shipper"); ("full_name", PStr "Test User");
                                        ("phone", PStr "+48123456789"); ("email", PStr "test@example.com")])]);
      ("receiver_details", PDict
        [("postal_address", PDict [("postal_code", PStr "10115"); ("city_name", PStr "Berlin"); ("country_code", PStr "DE");
                                   ("address_line1", PStr "Teststr. 1")]);
         ("contact_information", PDict [("company_name", PStr "Test Receiver"); ("full_name", PStr "Test Empfanger");
                                        ("phone", PStr "+491234567890"); ("email", PStr "test@example.de")])])]);
   ("content", PDict
     [("packages", PList [PDict [("weight", PFloat (float_of_ratio false 3 2)); box]]); ("is_customs_declarable", PBool false);
      ("description", PStr "Verification test"); ("incoterm_code", PStr "DAP"); ("unit_of_measurement", PStr "metric")])].
Definition pickup_payload (date : string) : dict :=
  [("planned_pickup_date_and_time", PStr date); ("close_time", PStr "18:00"); ("location", PStr "reception");
   ("special_instructions", PList [PDict [("value", PStr "Verification test")]]); ("accounts", shipper_account);
   ("customer_details", PDict
     [("shipper_details", PDict
        [("postal_address", shipper_address);
         ("contact_information", PDict [("company_name", PStr "Test Company"); ("full_name", PStr "Test User");
                                        ("phone", PStr "+48123456789")])])])].
Definition dhl_express_run : CM (list pyval) :=
  l1 ← collect dhl_reads;
  l2 ← dhl_rates;
  l3 ← collect (dhl_papers ++ [dhl_post "/landed-cost" "get_landed_cost" landed_payload [200%Z; 400%Z; 401%Z; 422%Z]])%list;
  date ← gets future_date;
  ship ← dhl_post "/shipments" "create_shipment" (shipment_payload date) [200%Z; 201%Z; 400%Z; 422%Z];
  date ← gets future_date;
  pickup ← dhl_post "/pickups" "create_pickup" (pickup_payload date) [200%Z; 201%Z; 400%Z; 422%Z];
  mret (l1 ++ l2 ++ l3 ++ [ship; pickup])%list.
End dhl.

(** ** KSeF

    This script has a signature and a result of its own: the checks are accumulated in the entry
    [checks] of a dictionary, with the entry [passed].  A check is a dictionary under construction
    when something is raised. *)

Section ksef.
Variables (base_url : string) (credentials : option (list (string * string))).
Abbreviation KM := (EM (dict * list request)).
Definition sent (rq : request) : KM response := within snd (fun trace s => (s.1, trace)) (exchange connector rq).
Definition put (k : string) (v : pyval) : KM unit := modify (fun s => (dset k v s.1, s.2)).
Definition post (path : string) (params : option dict) (json : option dict) : request :=
  Req "POST" (base_url ++ path) params (PDict <$> json) None false.
(** A check: what its body does to a new dictionary, the exception it ends with, the clean-up, and
    the result on the results so far. *)
Definition ksef_check (name : string) (body : KM unit) (finally : KM unit) (results : bool * list pyval) : CM (bool * list pyval) :=
  fun trace =>
    let whole := _ ← try_catch body (fun e => put "error" (PStr (error_text e))); finally in
    let '(r, (check, trace')) := whole ([("name", PStr name); ("passed", PBool false)], trace) in
    match r with
    | Raise e => (Raise e, trace')
    | Ok _ => (Ok (truthy (dget_or "passed" PNone check) && results.1, results.2 ++ [PDict check])%list, trace')
    end.
Definition ok_status (r : response) : pyval := PBool (ok_200 r).
(** [with contextlib.suppress(Exception): await client.delete(...)]. *)
Definition delete_account (account_name : string) : KM unit :=
  try_catch (_ ← sent (Req "DELETE" (base_url ++ "/accounts/" ++ account_name) None None None false); mret tt) (fun _ => mret tt).
Definition ksef_health : bool * list pyval -> CM (bool * list pyval) :=
  ksef_check "health_endpoint"
    (resp ← sent (GET (base_url ++ "/health"));
     _ ← put "status_code" (PInt (status_code resp));
     _ ← put "passed" (ok_status resp);
     if ok_200 resp then data ← lift (resp_json resp); put "response" data else mret tt) (mret tt).
Definition ksef_endpoint (name path : string) : bool * list pyval -> CM (bool * list pyval) :=
  ksef_check name
    (resp ← sent (GET (base_url ++ path));
     _ ← put "status_code" (PInt (status_code resp));
     put "passed" (ok_status resp)) (mret tt).
Definition new_account (account_name : string) : dict :=
  let creds := default [] credentials in
  [("name", PStr account_name); ("nip", PStr (text_or "nip" "" creds)); ("ksef_token", PStr (text_or "ksef_token" "" creds));
   ("environment", PStr (text_or "environment" "demo" creds))].
Definition ksef_authentication : bool * list pyval -> CM (bool * list pyval) :=
  let account_name := "verification-test" in
  ksef_check "authentication"
    (create_resp ← sent (post "/accounts" None (Some (new_account account_name)));
     _ ← put "account_created" (PBool (status_code create_resp =? 201)%Z);
     auth_resp ← sent (post "/auth/token" None (Some [("account_name", PStr account_name)]));
     _ ← put "auth_status_code" (PInt (status_code auth_resp));
     _ ← put "passed" (ok_status auth_resp);
     if ok_200 auth_resp then
       v ← lift (resp_json auth_resp);
       data ← lift (dict_method "get" v);
       _ ← put "has_access_token" (PBool (truthy (dget_or "access_token" PNone data)));
       put "has_refresh_token" (PBool (truthy (dget_or "refresh_token" PNone data)))
     else mret tt) (delete_account account_name).
Definition ksef_functional : bool * list pyval -> CM (bool * list pyval) :=
  let account_name := "verification-functional" in
  let account := [("account_name", PStr account_name)] in
  ksef_check "functional_smoke_test"
    (_ ← sent (post "/accounts" None (Some (new_account account_name)));
     session_resp ← sent (post "/sessions" None
       (Some (account ++ [("session_type", PStr "online"); ("form_code", PStr "FA3")])%list));
     _ ← put "session_status_code" (PInt (status_code session_resp));
     if ok_200 session_resp then
       v ← lift (resp_json session_resp);
       session_data ← lift (dict_method "get" v);
       let ref_number := dget_or "reference_number" (PStr "") session_data in
       _ ← put "session_opened" (PBool (truthy ref_number));
       _ ← (if truthy ref_number then
              let session := "/sessions/" ++ py_str ref_number in
              status_resp ← sent (Req "GET" (base_url ++ session) (Some account) None None false);
              _ ← put "session_status_check" (ok_status status_resp);
              close_resp ← sent (post (session ++ "/close") (Some account) None);
              put "session_closed" (ok_status close_resp)
            else mret tt);
       put "passed" (PBool true)
     else mret tt) (delete_account account_name).
Definition ksef_run (tier : Z) : CM pyval :=
  let with_credentials := match credentials with Some (_ :: _) => true | _ => false end in
  r ← (if (1 <=? tier)%Z then
         r ← ksef_health (true, []); r ← ksef_endpoint "readiness_endpoint" "/readiness" r; ksef_endpoint "docs_endpoint" "/docs" r
       else mret (true, []));
  r ← (if (2 <=? tier)%Z && with_credentials then ksef_authentication r else mret r);
  r ← (if (3 <=? tier)%Z && with_credentials then ksef_functional r else mret r);
  mret (PDict [("connector", PStr "ksef"); ("tier", PInt tier); ("checks", PList r.2); ("passed", PBool r.1)]).
End ksef.

(** ** The dispatcher *)

(** The text of the client object. *)
Variable client_text : string.

Definition underscored (s : string) : string := str_map (fun c => if Ascii.eqb c "-" then "_"%char else c) s.
(** The modules of the package, by name. *)
Definition test_modules : list (string * (Target -> CM pyval)) :=
  let list_of (run : Target -> CM (list pyval)) t := l ← run t; mret (PList l) in
  [("src.checks.ecommerce.allegro", list_of allegro_run);
   ("src.checks.ecommerce.woocommerce", list_of woocommerce_run);
   ("src.checks.ecommerce.generic", list_of generic_ecommerce);
   ("src.checks.other.skanuj_fakture", list_of skanuj_fakture_run);
   (* [run(client, target)]: the client is taken for the base URL and the target for the
      credentials, which tier 1, the default, does not read. *)
   ("src.checks.other.ksef", fun _ => ksef_run client_text None 1);
   ("src.checks.other.s3", list_of s3_run);
   ("src.checks.other.generic", list_of generic_other);
   ("src.checks.other.account_based", list_of generic_other);
   ("src.checks.courier.dhl_express", list_of dhl_express_run);
   ("src.checks.courier.generic", list_of generic_courier);
   ("src.checks.wms.pinquark_wms", list_of pinquark_wms_run);
   ("src.checks.erp.insert_nexo", list_of insert_nexo_run)].
Definition module_candidates (name interface category : string) : list string :=
  let of_category module := "src.checks." ++ underscored category ++ "." ++ module in
  of_category (underscored name)
  :: (if String.eqb interface category then [] else ["src.checks.other." ++ underscored interface])
  ++ [of_category (underscored interface); of_category "generic"].
(** The first candidate that can be imported. *)
Definition resolved_module (name interface category : string) : option string :=
  List.find (fun m => dhas m test_modules) (module_candidates name interface category).
Definition resolve_test_module (name interface category : string) : option (Target -> CM pyval) :=
  match resolved_module name interface category with Some m => dget m test_modules | None => None end.
Definition run_tier3 (t : Target) : CM pyval :=
  if no_credentials t then mret (PList [skipped "No credentials — skipping functional tests" "functional_tests"])
  else
    let m := tg_manifest t in
    match resolve_test_module (mf_name m) (mf_interface m) (mf_category m) with
    | Some run => run t
    | None =>
        mret (PList [skipped ("No functional tests defined for category=" ++ mf_category m ++ " interface=" ++ mf_interface m)
                       "functional_smoke"])
    end.
End suites.

(** ** What the scripts return

    Every script but that of KSeF returns check results, whatever the connector answers. *)

Section facts.
Variable connector : list request -> request -> res response.
Variable elapsed : list request -> Z.
Variable future_date : list request -> string.

Lemma collect_returns l : Forall (returns Check) l -> returns Checks (collect l).
Proof.
  induction 1 as [|c l Hc Hl IH]; cbn [collect]; [by apply returns_ret|].
  apply (returns_bind Check); [exact Hc|intros x Hx]. eapply returns_bind; [exact IH|intros xs Hxs].
  apply returns_ret. by constructor.
Qed.
Lemma get_returns url name params : returns Check (get_ connector elapsed url name params).
Proof. apply get_check_returns. Qed.
Lemma get_bare_returns url name : returns Check (get_bare connector elapsed url name).
Proof. apply get_check_returns. Qed.
Lemma req_returns rq name accept : returns Check (req_ connector elapsed rq name accept).
Proof.
  unfold req_. eapply returns_bind; [apply req_check_returns|]. intros p Hp. by apply returns_ret.
Qed.
Lemma when_returns b l : Forall (returns Check) l -> Forall (returns Check) (when b l).
Proof. by destruct b. Qed.
Lemma skipped_checks error names : Checks (map (skipped error) names).
Proof. induction names; by constructor. Qed.
End facts.
#[export] Hint Resolve get_returns get_bare_returns req_returns : checks.

(** The checks of the parts of a script, up to their composition. *)
Ltac parts :=
  repeat match goal with
  | |- Forall (returns _) (if _ then _ else _) => case_match
  | |- Forall (returns _) (when _ _) => apply when_returns
  | |- Forall (returns _) (_ ++ _)%list => apply Forall_app; split
  | |- Forall (returns _) (_ :: _) => constructor
  | |- Forall (returns _) [] => constructor
  | |- Forall (returns _) (map _ _) => cbn [map]
  | |- returns _ (if _ then _ else _) => apply returns_if
  | |- returns _ (mret (skipped _ _)) => by apply returns_ret
  | |- returns _ _ => first [apply get_returns | apply get_bare_returns | apply req_returns]
  end.
(** The first part of a sequence, by the type of what it returns; look-ups are not checks. *)
Ltac part :=
  lazymatch goal with
  | |- returns _ (lift _ ≫= _) => apply returns_any; intros ?
  | |- returns _ (gets _ ≫= _) => apply returns_any; intros ?
  | |- returns _ (in_list _ _ ≫= _) => apply returns_any; intros ?
  | |- returns _ (mbind (M := EM _) (A := list pyval) _ _) => apply (returns_bind Checks); [|intros ? ?]
  | |- returns _ (mbind (M := EM _) (A := pyval * option response) _ _) =>
      apply (returns_bind (fun p => Check p.1)); [|intros ? ?]
  | |- returns _ (mbind (M := EM _) (A := pyval) _ _) => apply (returns_bind Check); [|intros ? ?]
  | |- returns _ (mbind (M := EM _) _ _) => apply returns_any; intros ?
  end.
Ltac script :=
  cbv zeta;
  repeat match goal with
  | |- returns _ (_ ≫= _) => part
  | |- returns _ (collect _) => apply collect_returns; parts
  | |- returns _ (req_check _ _ _ _ _) => apply req_check_returns
  | |- returns _ (get_bare _ _ _ _) => apply get_bare_returns
  | |- returns _ (req_ _ _ _ _ _) => apply req_returns
  | |- returns _ (mret _) => apply returns_ret
  | |- returns _ (if _ then _ else _) => apply returns_if
  | |- returns _ (match ?x with _ => _ end) => destruct x
  | |- Forall _ (map (skipped _) _) => apply skipped_checks
  | |- Forall _ (_ ++ _)%list => apply Forall_app; split
  | |- Forall _ (_ :: _) => constructor
  | |- Forall _ [] => constructor
  | |- is_check _ = true => first [assumption | reflexivity]
  | |- Forall _ _ => assumption
  end.

Section suite_facts.
Variable connector : list request -> request -> res response.
Variable elapsed : list request -> Z.
Variable future_date : list request -> string.
Variable client_text : string.

Lemma generic_returns t :
  returns Checks (generic_ecommerce connector elapsed t) /\ returns Checks (generic_other connector elapsed t)
  /\ returns Checks (generic_courier connector elapsed t).
Proof. split_and!; [unfold generic_ecommerce|unfold generic_other|unfold generic_courier]; script. Qed.
Lemma allegro_returns t : returns Checks (allegro_run connector elapsed t).
Proof. unfold allegro_run, allegro_offer, allegro_account, allegro_orders, allegro_catalogue, allegro_service, allegro_extras. script. Qed.
Lemma woocommerce_returns t : returns Checks (woocommerce_run connector elapsed t).
Proof. unfold woocommerce_run, wc_account, wc_reports, wc_shop, wc_orders, wc_write, wc_products, wc_customers, wc_listing. script. Qed.
Lemma wms_returns t : returns Checks (pinquark_wms_run connector elapsed t).
Proof.
  assert (forall names calls, Forall (returns Check) calls -> Forall (returns Check) (wms_section t names calls)) as Hs.
  { intros names calls Hc. unfold wms_section. case_match; [done|]. clear. induction names; cbn; constructor; [|done].
    by apply returns_ret. }
  unfold pinquark_wms_run, wms_articles, wms_documents, wms_rest. cbv zeta. apply collect_returns.
  repeat first [apply Forall_app; split | apply Hs | progress parts].
Qed.
Lemma nexo_returns t : returns Checks (insert_nexo_run connector elapsed t).
Proof. unfold insert_nexo_run. script. Qed.
Lemma skanuj_returns t : returns Checks (skanuj_fakture_run connector elapsed t).
Proof. unfold skanuj_fakture_run, crud_cycle_v1, upload_v2_cycle, upload, sk_req. script. Qed.
Lemma s3_returns t : returns Checks (s3_run connector elapsed t).
Proof. unfold s3_run, s3_write. script. Qed.
Lemma dhl_returns t : returns Checks (dhl_express_run connector elapsed future_date t).
Proof. unfold dhl_express_run, dhl_reads, dhl_papers, dhl_rates, dhl_get, dhl_post. script. Qed.

(** The name of the module of a target. *)
Abbreviation module_of t :=
  (resolved_module connector elapsed future_date client_text (mf_name (tg_manifest t)) (mf_interface (tg_manifest t))
     (mf_category (tg_manifest t))).
Abbreviation CheckList := (fun v => exists l, v = PList l /\ Checks l).

Lemma list_of_returns (run : EM (list request) (list pyval)) :
  returns Checks run -> returns CheckList (l ← run; mret (PList l)).
Proof. intros H. eapply returns_bind; [exact H|]. intros l Hl. apply returns_ret. by exists l. Qed.
Lemma modules_return m run t :
  dget m (test_modules connector elapsed future_date client_text) = Some run -> m <> "src.checks.other.ksef" ->
  returns CheckList (run t).
Proof.
  intros E Hm. pose proof (generic_returns t) as (G1 & G2 & G3). unfold test_modules in E. cbn [dget] in E.
  repeat match type of E with
         | (if String.eqb m ?n then _ else _) = _ => destruct (String.eqb_spec m n) as [->|_]
         end; simplify_eq; try (by destruct Hm); apply list_of_returns;
    eauto using allegro_returns, woocommerce_returns, wms_returns, nexo_returns, skanuj_returns, s3_returns, dhl_returns.
Qed.
(** Whatever the connector answers, the functional checks of a connector that is not resolved to the
    script of KSeF are check results. *)
Lemma tier3_returns t :
  module_of t <> Some "src.checks.other.ksef" ->
  returns CheckList (run_tier3 connector elapsed future_date client_text t).
Proof.
  intros Hm. unfold run_tier3. apply returns_if; [apply returns_ret; eexists; split; [done|by constructor]|].
  unfold resolve_test_module. destruct (module_of t) as [m|] eqn:E.
  - apply List.find_some in E as [_ E]. unfold dhas in E.
    destruct (dget m _) as [run|] eqn:Er; [|done]. apply (modules_return m); [done|congruence].
  - apply returns_ret. eexists; split; [done|by constructor].
Qed.

(** ** What is cleaned up

    A check sends one request and returns, whatever the connector answers. *)
Definition sends {A} (rqs : list request) (m : EM (list request) A) : Prop :=
  forall s, exists a, m s = (Ok a, List.rev rqs ++ s)%list.

(** An exchange and its clock, in a check that turns exceptions into a result. *)
Lemma try_sends {A} rq (k : response -> Z -> A) (h : pyexn -> Z -> A) :
  sends [rq] (try_catch (r ← exchange connector rq; ms ← ms_spent elapsed; mret (k r ms))
                        (fun e => ms ← ms_spent elapsed; mret (h e ms))).
Proof.
  intros s. unfold try_catch, exchange, ms_spent. unfold mbind, EM_bind, get_st, modify, lift, gets, mret, EM_ret.
  destruct (connector s rq) as [r|e]; by eexists.
Qed.
Lemma get_sends url name params : sends [Req "GET" url params None None false] (get_check connector elapsed url name params).
Proof. exact (try_sends _ (fun r ms => _) (fun e ms => _)). Qed.
Lemma req_check_sends rq name accept : sends [rq] (req_check connector elapsed rq name accept).
Proof. exact (try_sends _ (fun r ms => _) (fun e ms => _)). Qed.
Lemma sends_then {A B} l1 l2 (m : EM (list request) A) (k : A -> EM (list request) B) :
  sends l1 m -> (forall a, sends l2 (k a)) -> sends (l1 ++ l2) (m ≫= k).
Proof.
  intros Hm Hk s. destruct (Hm s) as [a E]. destruct (Hk a (List.rev l1 ++ s)%list) as [b E2]. exists b.
  rewrite (bind_run m k _ _ _ E), E2. by rewrite List.rev_app_distr, app_assoc.
Qed.
Lemma sends_ret {A} (a : A) : sends [] (mret a).
Proof. intros s. by exists a. Qed.
Lemma req_sends rq name accept : sends [rq] (req_ connector elapsed rq name accept).
Proof. apply (sends_then [rq] []); [apply req_check_sends|]. intros p. apply sends_ret. Qed.
Lemma collect_sends rqs checks : Forall2 (fun rq c => sends [rq] c) rqs checks -> sends rqs (collect checks).
Proof.
  induction 1 as [|rq c rqs checks Hc _ IH]; [apply sends_ret|]. apply (sends_then [rq] rqs); [apply Hc|].
  intros y s. destruct (IH s) as [ys E]. exists (y :: ys). by rewrite (bind_run _ _ _ _ _ E).
Qed.
Ltac sent_in_order :=
  repeat match goal with
         | |- Forall2 _ [] _ => constructor
         | |- Forall2 _ (_ :: _) _ => constructor
         | |- sends _ (get_ _ _ _ _ _) => apply get_sends
         | |- sends _ (req_ _ _ _ _ _) => apply req_sends
         end.

(** The requests that follow an upload to S3 the connector accepted: the last two delete what the
    check wrote. *)
Definition s3_object_requests (t : Target) : list request :=
  let on path json := with_both "POST" (tg_base_url t ++ path) (account_params t) (PDict json) in
  let delete key := with_both "DELETE" (tg_base_url t ++ "/objects") (account_params t) (PDict (object_ (test_bucket t) key)) in
  [Req "GET" (tg_base_url t ++ "/objects/download") (Some (account_params t ++ object_ (test_bucket t) (test_key t))%list) None None false;
   on "/objects/presign" (object_ (test_bucket t) (test_key t) ++ [("expires_in", PInt 60); ("method", PStr "GET")])%list;
   on "/objects/copy"
     [("source_bucket", PStr (test_bucket t)); ("source_key", PStr (test_key t));
      ("destination_bucket", PStr (test_bucket t)); ("destination_key", PStr (copy_key t))];
   delete (copy_key t); delete (test_key t)].
Definition s3_upload (t : Target) : request :=
  with_both "POST" (tg_base_url t ++ "/objects/upload") (account_params t)
    (PDict (object_ (test_bucket t) (test_key t)
            ++ [("content_base64", PStr (b64encode "verification-agent-test-file")); ("content_type", PStr "text/plain")])%list).
(** [client.request] was answered with 200 or 201. *)
Definition accepted (s : list request) (rq : request) : bool :=
  match connector s rq with Ok r => ok_200_201 r | Raise _ => false end.

Lemma uploaded rq name s :
  exists c o, req_check connector elapsed rq name [200%Z; 201%Z] s = (Ok (c, o), rq :: s)
  /\ (match o with Some r => ok_200_201 r | None => false end) = accepted s rq.
Proof.
  unfold req_check, try_catch, exchange, ms_spent, accepted.
  unfold mbind, EM_bind, get_st, modify, lift, gets, mret, EM_ret.
  destruct (connector s rq) as [r|e]; [|by do 2 eexists].
  destruct (existsb _ _); [by do 2 eexists|]. destruct (status_code r =? 404)%Z; by do 2 eexists.
Qed.

(** The check of writing to S3 never raises; when the connector accepted its test file, it goes
    on to delete the copy and the file, whatever the connector answers to what is between; when not,
    it sends nothing else. *)
Theorem s3_test_objects_removed t s :
  exists l, s3_write connector elapsed t s =
    (Ok l, List.rev (s3_upload t :: if accepted s (s3_upload t) then s3_object_requests t else []) ++ s)%list.
Proof.
  unfold s3_write. fold (s3_upload t).
  destruct (uploaded (s3_upload t) "upload_object" s) as (c & o & E & Ho). rewrite (bind_run _ _ _ _ _ E). cbn [snd].
  rewrite Ho. destruct (accepted s (s3_upload t)); [|by eexists].
  assert (sends (s3_object_requests t) (collect (when true
      [get_ connector elapsed (tg_base_url t ++ "/objects/download") "download_object" (account_params t ++ object_ (test_bucket t) (test_key t))%list;
       s3_post connector elapsed t "/objects/presign" "presign_object" (object_ (test_bucket t) (test_key t) ++ [("expires_in", PInt 60); ("method", PStr "GET")])%list;
       s3_post connector elapsed t "/objects/copy" "copy_object"
           [("source_bucket", PStr (test_bucket t)); ("source_key", PStr (test_key t));
            ("destination_bucket", PStr (test_bucket t)); ("destination_key", PStr (copy_key t))];
       s3_delete connector elapsed t "delete_object_copy_cleanup" (copy_key t); s3_delete connector elapsed t "delete_object_cleanup" (test_key t)]))) as H.
  { apply collect_sends. unfold s3_post, s3_delete, s3_object_requests. cbv zeta. cbn [when]. sent_in_order. }
  destruct (H (s3_upload t :: s)) as [l El]. eexists. rewrite (bind_run _ _ _ _ _ El). cbn. done.
Qed.
End suite_facts.
