(* ===== verification/VerificationAgent.v ===== *)
(** The verification agent ([platform/verification-agent/src]): discovery of what to verify
    ([discovery.py]), credentials ([credential_vault.py]), reports ([reporter.py]), a run
    ([runner.py]), the scheduler ([main.py]) and the routes ([api/routes.py]).

    A run is one transaction: its reports carry the time it began.  The lock that keeps runs apart
    is a step relation of the tasks of the event loop. *)

From S2P Require Import Prelude PyText PyValue Base64 Effects Vault FilePollers VerificationChecks VerificationSuites.

Local Open Scope string_scope.

(** ** Discovery *)

Definition text_entry (k default_ : string) (d : dict) : res string :=
  match dget k d with
  | None => Ok default_
  | Some (PStr s) => Ok s
  | Some v => Raise (TypeError ("expected str, got " ++ type_name v))
  end.
Definition required (k : string) (d : dict) : res pyval := match dget k d with Some v => Ok v | None => Raise (KeyError k) end.
Definition read_version_check (v : pyval) : res (option ApiVersionCheck) :=
  match v with
  | PDict ((_ :: _) as d) =>
      url ← text_entry "check_url" "" d; kind ← text_entry "check_type" "openapi" d;
      field ← text_entry "version_field" "info.version" d; docs ← text_entry "docs_url" "" d;
      Ok (Some (MkVersionCheck (py_str (dget_or "current_api_version" (PStr "") d)) url kind field docs))
  | _ => Ok None
  end.
(** A [connector.yaml] that was parsed. *)
Definition read_manifest (v : pyval) : res Manifest :=
  data ← dict_method "get" v;
  avc ← read_version_check (dget_or "api_version_check" PNone data);
  name ← required "name" data; name ← as_str name;
  category ← required "category" data; category ← as_str category;
  version ← required "version" data;
  interface ← text_entry "interface" "generic" data;
  health ← text_entry "health_endpoint" "/health" data;
  docs ← text_entry "docs_url" "/docs" data;
  service ← text_entry "service_name" "" data;
  Ok (MkManifest name category (py_str version) interface (dget_or "capabilities" (PList []) data)
        (dget_or "actions" (PList []) data) health docs service (dget_or "credential_provisioning" (PDict []) data) avc).
(** The files found below the path, if it exists; a file that cannot be read or parsed is [Raise]. *)
Definition discover_manifests (files : option (list (res pyval))) : list Manifest :=
  omap (fun file => match (v ← file; read_manifest v) with Ok m => Some m | Raise _ => None end) (default [] files).

Definition resolved_service_name (m : Manifest) : string :=
  if String.eqb (mf_service_name m) "" then "connector-" ++ mf_name m else mf_service_name m.
Definition resolve_service_url (port : Z) (m : Manifest) (version_count : nat) : string :=
  let base := resolved_service_name m in
  let service :=
    if (1 <? version_count)%nat && negb (String.eqb (mf_version m) "") then
      let suffix := "-v" ++ hd "" (split_char "." (mf_version m)) in
      if ends_with suffix base then base else base ++ suffix
    else base in
  "http://" ++ service ++ ":" ++ str_of_Z port.

Record ConnectorInstance := MkInstance { ci_tenant : string; ci_name : string; ci_version : string; ci_enabled : bool }.

(** [d.setdefault(key, []).append(x)], for each [x]. *)
Definition group_by {A} (key : A -> string) (l : list A) : list (string * list A) :=
  fold_left (fun groups x => dset (key x) (default [] (dget (key x) groups) ++ [x])%list groups) l [].

Section discovery.
Variable port : Z.
Definition target_for (m : Manifest) (version_count : nat) (tenant : option string) : Target :=
  MkTarget m (resolve_service_url port m version_count) tenant None.
Definition of_version (name version : string) (i : ConnectorInstance) : bool :=
  String.eqb (ci_name i) name && String.eqb (ci_version i) version.
(** The targets of the versions of a connector. *)
Definition connector_targets (instances : list ConnectorInstance) (name : string) (found : list Manifest) : list Target :=
  let versions := stable_sort (fun a b => text_lt (mf_version a) (mf_version b)) found in
  let count := List.length versions in
  let installed m := List.filter (of_version name (mf_version m)) instances in
  if existsb (fun m => match installed m with [] => false | _ => true end) versions then
    List.concat (map (fun m => map (fun i => target_for m count (Some (ci_tenant i))) (installed m)) versions)
  else
    match List.filter (fun i => String.eqb (ci_name i) name) instances with
    | [] => map (fun m => target_for m count None) versions
    | named =>
        let version_map := dict_of (map (fun m => (mf_version m, m)) versions) in
        omap (fun i => (fun m => target_for m count (Some (ci_tenant i))) <$> dget (ci_version i) version_map) named
    end.
Definition discover_targets (manifests : list Manifest) (rows : list ConnectorInstance) : list Target :=
  let instances := List.filter ci_enabled rows in
  List.concat (map (fun g => connector_targets instances g.1 g.2) (group_by mf_name manifests)).
End discovery.

(** ** Credentials *)

Section credentials.
Context `{Cipher}.
(** [_decrypt] and [retrieve_all]: what cannot be decrypted is left out. *)
Definition agent_decrypt (raw_key ciphertext : string) : res string :=
  raw ← urlsafe_b64decode ciphertext; aes_decrypt raw_key (str_take 12 raw) (str_drop 12 raw).
Definition agent_retrieve_all (raw_key tenant connector name : string) (rows : list Credential) : list (string * string) :=
  fold_left (fun decrypted c =>
    match agent_decrypt raw_key (cr_value c) with Ok value => dset (cr_key c) value decrypted | Raise _ => decrypted end)
    (List.filter (in_set tenant connector name) rows) [].
(** [SELECT DISTINCT]: the names in the order the database gives them. *)
Definition agent_credential_names (arrange : list string -> list string) (tenant connector : string)
    (rows : list Credential) : list string :=
  arrange (remove_dups (map cr_name
    (List.filter (fun c => String.eqb (cr_tenant c) tenant && String.eqb (cr_connector c) connector) rows))).
Definition with_credentials (arrange : list string -> list string) (raw_key : string) (rows : list Credential) (t : Target) : Target :=
  match tg_tenant_id t with
  | None => t
  | Some tenant =>
      let connector := mf_name (tg_manifest t) in
      let cred_name := hd "default" (agent_credential_names arrange tenant connector rows) in
      match agent_retrieve_all raw_key tenant connector cred_name rows with
      | [] => t
      | creds => MkTarget (tg_manifest t) (tg_base_url t) (tg_tenant_id t)
                   (Some (dset "account_name" (py_replace cred_name " " "-") creds))
      end
  end.
End credentials.

(** ** Reports and settings *)

Record VerificationReport := MkReport {
  vr_id : nat;
  vr_run_id : string;
  vr_name : string;
  vr_version : string;
  vr_category : string;
  vr_tenant : option string;
  vr_status : string;
  vr_checks : list pyval;
  vr_summary : dict;
  vr_created_at : Z
}.
Record VerificationSettings := MkSettings {
  st_enabled : bool;
  st_interval_days : Z;
  st_last_run_at : option Z;
  st_next_run_at : option Z
}.
(** [trace]: the requests sent to connectors, newest first. *)
Record AgentDb := MkAgentDb {
  reports : list VerificationReport;
  settings_rows : list VerificationSettings;
  trace : list request
}.
Definition set_reports (l : list VerificationReport) (w : AgentDb) : AgentDb := MkAgentDb l (settings_rows w) (trace w).
Definition set_settings (l : list VerificationSettings) (w : AgentDb) : AgentDb := MkAgentDb (reports w) l (trace w).
Definition set_trace (l : list request) (w : AgentDb) : AgentDb := MkAgentDb (reports w) (settings_rows w) l.

(** [c[k]] for a text [k]. *)
Definition item_of (k : string) (v : pyval) : res pyval :=
  match v with
  | PDict d => match dget k d with Some x => Ok x | None => Raise (KeyError k) end
  | PStr _ => Raise (TypeError "string indices must be integers, not 'str'")
  | PList _ => Raise (TypeError "list indices must be integers or slices, not str")
  | _ => Raise (TypeError ("'" ++ type_name v ++ "' object is not subscriptable"))
  end.
Definition status_is (s : string) (c : pyval) : res bool := v ← item_of "status" c; Ok (py_eqb v (PStr s)).
(** [sum(1 for c in checks if c["status"] == s)]. *)
Definition count_status (s : string) (checks : list pyval) : res Z :=
  bs ← mapR (status_is s) checks; Ok (Z.of_nat (List.length (List.filter id bs))).
Definition time_of (c : pyval) : res Z :=
  d ← dict_method "get" c;
  match as_Z (dget_or "response_time_ms" (PInt 0) d) with
  | Some n => Ok n
  | None => Raise (TypeError "unsupported operand type(s) for +")
  end.
Definition report_status (passed failed skipped warned total : Z) : string :=
  if (0 <? failed)%Z && (0 <? passed)%Z then "PARTIAL"
  else if (0 <? failed)%Z then "FAIL"
  else if (skipped =? total)%Z then "SKIP"
  else if (0 <? warned)%Z then "WARN" else "PASS".
Section saving.
(** The columns of type [JSONB]: the database stores a value or raises.  It refuses texts with
    U+0000 or lone surrogates, and numbers that JSON does not have. *)
Variable jsonb : pyval -> res unit.
Definition save_report (run_id : string) (now : Z) (t : Target) (checks : list pyval) : EM AgentDb VerificationReport :=
  let m := tg_manifest t in
  passed ← lift (count_status "PASS" checks); failed ← lift (count_status "FAIL" checks);
  skipped ← lift (count_status "SKIP" checks); warned ← lift (count_status "WARN" checks);
  times ← lift (mapR time_of checks);
  let total := Z.of_nat (List.length checks) in
  w ← get_st;
  let report := MkReport (List.length (reports w)) run_id (mf_name m) (mf_version m) (mf_category m) (tg_tenant_id t)
    (report_status passed failed skipped warned total) checks
    [("total", PInt total); ("passed", PInt passed); ("failed", PInt failed); ("skipped", PInt skipped); ("warned", PInt warned);
     ("duration_ms", PInt (foldr Z.add 0%Z times))] now in
  _ ← lift (varchar 100 (mf_name m)); _ ← lift (varchar 20 (mf_version m)); _ ← lift (varchar 50 (mf_category m));
  _ ← lift (jsonb (PList checks)); _ ← lift (jsonb (PDict (vr_summary report)));
  _ ← modify (set_reports (reports w ++ [report])%list);
  mret report.
End saving.

Definition update_last_run (now : Z) (next_run_at : option Z) : EM AgentDb unit :=
  w ← get_st;
  row ← lift (scalar_one_or_none (settings_rows w));
  match row with
  | Some r =>
      modify (set_settings [MkSettings (st_enabled r) (st_interval_days r) (Some now)
                              match next_run_at with Some n => Some n | None => st_next_run_at r end])
  | None => modify (set_settings [MkSettings true 7 (Some now) next_run_at])
  end.
Definition ensure_settings : EM AgentDb VerificationSettings :=
  w ← get_st;
  row ← lift (scalar_one_or_none (settings_rows w));
  match row with
  | Some r => mret r
  | None => let r := MkSettings true 7 None None in _ ← modify (set_settings [r]); mret r
  end.

(** ** A run *)

Record Settings := MkConfig {
  encryption_key : string;
  verification_interval_days : Z;
  discovery_files : option (list (res pyval));
  default_connector_port : Z
}.
Record report_line := MkLine { ln_connector : string; ln_status : string; ln_summary : dict }.
Inductive run_answer :=
  | AlreadyRunning
  | NoTargets (run_id : string)
  | RunError (run_id error : string)
  | Completed (run_id : string) (connectors_tested passed failed skipped : Z) (lines : list report_line).

(** [any(p(c) for c in l)]. *)
Fixpoint anyR {A} (p : A -> res bool) (l : list A) : res bool :=
  match l with
  | [] => Ok false
  | c :: rest => b ← p c; if (b : bool) then Ok true else anyR p rest
  end.
(** [timedelta(days=1)], in the unit of the clock. *)
Definition day : Z := 86400.

Section runner.
Context `{Cipher}.
Variable jsonb : pyval -> res unit.
Variable connector : list request -> request -> res response.
Variable elapsed : list request -> Z.
Variable search_pattern : string -> string -> res (option re_found).
Variable future_date : list request -> string.
Variable client_text : string.
Variable arrange_names : list string -> list string.
Variable cfg : Settings.
Variable instances : list ConnectorInstance.
Variable credential_rows : list Credential.

Definition healthy_check (c : pyval) : res bool :=
  name ← item_of "name" c; if py_eqb name (PStr "health") then status_is "PASS" c else Ok false.
Definition passing_check (c : pyval) : res bool :=
  d ← dict_method "get" c; Ok (py_eqb (dget_or "status" PNone d) (PStr "PASS")).
Definition verify_single (t : Target) : EM (list request) (list pyval) :=
  tier1 ← run_tier1 connector elapsed t;
  version_check ← check_api_version connector elapsed search_pattern t;
  let checks := (tier1 ++ match version_check with Some c => [c] | None => [] end)%list in
  health_ok ← lift (anyR healthy_check tier1);
  if negb health_ok then mret checks
  else
    tier2 ← run_tier2 connector elapsed t;
    auth_ok ← lift (anyR passing_check tier2);
    if (auth_ok : bool) then
      tier3 ← run_tier3 connector elapsed future_date client_text t;
      tier3 ← lift (as_iter tier3);
      mret (checks ++ tier2 ++ tier3)%list
    else mret (checks ++ tier2)%list.

Definition vault : option string :=
  if String.eqb (encryption_key cfg) "" then None
  else match vault_init (encryption_key cfg) with Ok raw_key => Some raw_key | Raise _ => None end.
Definition matches (filter : option string) (value : string) : bool :=
  match filter with Some f => String.eqb f "" || String.eqb value f | None => true end.
(** What a run verifies, with the credentials. *)
Definition run_targets (connector_filter version_filter : option string) : list Target :=
  let found := discover_targets (default_connector_port cfg) (discover_manifests (discovery_files cfg)) instances in
  let chosen := List.filter (fun t => matches connector_filter (mf_name (tg_manifest t))
                                      && matches version_filter (mf_version (tg_manifest t))) found in
  match vault with
  | Some raw_key => map (with_credentials arrange_names raw_key credential_rows) chosen
  | None => chosen
  end.
Definition runner_failed (e : pyexn) : list pyval :=
  [PDict [("name", PStr "runner"); ("status", PStr "FAIL"); ("error", PStr (error_text e))]].
Definition verify_target (run_id : string) (began : Z) (t : Target) : EM AgentDb report_line :=
  checks ← within trace set_trace (try_catch (verify_single t) (fun e => mret (runner_failed e)));
  report ← save_report jsonb run_id began t checks;
  let m := tg_manifest t in
  mret (MkLine (mf_category m ++ "/" ++ mf_name m ++ "/" ++ mf_version m) (vr_status report) (vr_summary report)).
(** An exception rolls the tables back; what was sent stays sent. *)
Definition rolled_back (before after : AgentDb) : AgentDb := set_trace (trace after) before.
Definition count_lines (p : string -> bool) (lines : list report_line) : Z :=
  Z.of_nat (List.length (List.filter (fun l => p (ln_status l)) lines)).
(** [run_verification] once it holds the lock; [began] and [now] are the clock at the start and at
    the end of the transaction. *)
Definition run_verification (connector_filter version_filter : option string) (run_id : string) (began now : Z)
    : EM AgentDb run_answer :=
  try_catch
    (match run_targets connector_filter version_filter with
     | [] => mret (NoTargets run_id)
     | targets =>
         lines ← atomic rolled_back
           (lines ← map_each (verify_target run_id began) targets;
            _ ← update_last_run now (Some (now + verification_interval_days cfg * day)%Z);
            mret lines);
         mret (Completed run_id (Z.of_nat (List.length lines))
                 (count_lines (String.eqb "PASS") lines)
                 (count_lines (fun s => String.eqb "FAIL" s || String.eqb "PARTIAL" s) lines)
                 (count_lines (String.eqb "SKIP") lines) lines)
     end)
    (fun e => mret (RunError run_id (error_text e))).
End runner.

(** ** The lock, the tasks and the scheduler

    The event loop runs a task up to its next suspension: between the test of the lock and its
    acquisition there is none, while a task created by a route starts later. *)

Record task := MkTask { tk_run_id : string; tk_scheduled : bool; tk_connector : option string; tk_version : option string }.
Inductive outcome := Ran (answer : run_answer) | Skipped.
Record agent := MkAgent {
  pending : list task;
  holder : option task;
  outcomes : list (string * outcome);
  db : AgentDb
}.
Definition is_running (a : agent) : bool := match holder a with Some _ => true | None => false end.

Record run_response := MkRun { rr_run_id : string; rr_status : string }.
(** [POST /run] and [POST /run/{connector_name}]. *)
Definition trigger_run (run_id : string) (connector version : option string) (a : agent) : res run_response * agent :=
  if is_running a then (Raise (http_exception 409 "A verification run is already in progress"), a)
  else (Ok (MkRun run_id "started"),
        MkAgent (pending a ++ [MkTask run_id false connector version])%list (holder a) (outcomes a) (db a)).
(** A tick of the scheduler: [_scheduled_run] begins by reading the settings. *)
Definition tick (run_id : string) (a : agent) : agent :=
  MkAgent (pending a ++ [MkTask run_id true None None])%list (holder a) (outcomes a) (db a).
(** [srow and not srow.enabled]. *)
Definition disabled (rows : list VerificationSettings) : res bool :=
  row ← scalar_one_or_none rows; Ok match row with Some r => negb (st_enabled r) | None => false end.
Definition ended (k : task) (o : outcome) (pending_left : list task) (a : agent) : agent :=
  MkAgent pending_left (holder a) ((tk_run_id k, o) :: outcomes a) (db a).
(** A task runs until it holds the lock, or ends. *)
Definition start_task (k : task) (rest : list task) (a : agent) : agent :=
  let begin := if is_running a then ended k (Ran AlreadyRunning) rest a else MkAgent rest (Some k) (outcomes a) (db a) in
  if tk_scheduled k then
    match disabled (settings_rows (db a)) with
    | Ok false => if is_running a then ended k Skipped rest a else begin
    | _ => ended k Skipped rest a
    end
  else begin.

Section tasks.
(** What a run does to the database once it holds the lock. *)
Variable perform : task -> EM AgentDb run_answer.
Definition finish_task (a : agent) : agent :=
  match holder a with
  | None => a
  | Some k =>
      let '(r, w) := perform k (db a) in
      MkAgent (pending a) None
        ((tk_run_id k, Ran match r with Ok answer => answer | Raise e => RunError (tk_run_id k) (error_text e) end) :: outcomes a) w
  end.

(** A step, with the identifiers of the runs it began or promised. *)
Inductive agent_step : agent -> list string -> agent -> Prop :=
  | step_trigger run_id connector version a r a' :
      trigger_run run_id connector version a = (Ok r, a') -> agent_step a [rr_run_id r] a'
  | step_tick run_id a : agent_step a [run_id] (tick run_id a)
  | step_start l1 k l2 a : pending a = (l1 ++ k :: l2)%list -> agent_step a [] (start_task k (l1 ++ l2)%list a)
  | step_finish a : agent_step a [] (finish_task a).
Inductive reaches (w : AgentDb) : list string -> agent -> Prop :=
  | reaches_idle : reaches w [] (MkAgent [] None [] w)
  | reaches_step ids a new a' : reaches w ids a -> agent_step a new a' -> reaches w (new ++ ids)%list a'.
End tasks.

(** The live job: the days between two ticks. *)
Record live := MkLive { job_interval : Z; tables : AgentDb }.
Definition on_tables {A} : EM AgentDb A -> EM live A := within tables (fun w l => MkLive (job_interval l) w).
Definition live_rollback (before after : live) : live := MkLive (job_interval after) (tables before).
(** [_init_scheduler]. *)
Definition init_scheduler : EM live unit :=
  row ← on_tables ensure_settings; modify (fun l => MkLive (st_interval_days row) (tables l)).

Section api.
Variable isoformat : Z -> string.
Variable fromisoformat : string -> res Z.
Definition time_or_null (t : option Z) : pyval := match t with Some t => PStr (isoformat t) | None => PNone end.

Definition get_scheduler_status (running : bool) : EM live pyval :=
  row ← on_tables ensure_settings;
  mret (PDict [("enabled", PBool (st_enabled row)); ("interval_days", PInt (st_interval_days row));
               ("last_run", time_or_null (st_last_run_at row)); ("next_run", time_or_null (st_next_run_at row));
               ("currently_running", PBool running)]).
(** [SchedulerUpdate]. *)
Record SchedulerUpdate := MkUpdate { su_enabled : option bool; su_interval_days : option Z }.
Definition update_scheduler (body : SchedulerUpdate) : EM live pyval :=
  atomic live_rollback
    (row ← on_tables ensure_settings;
     let row := MkSettings (default (st_enabled row) (su_enabled body)) (st_interval_days row) (st_last_run_at row) (st_next_run_at row) in
     row ← match su_interval_days body with
           | Some days =>
               if (days <? 1)%Z then http_error 400 "interval_days must be >= 1"
               else mret (MkSettings (st_enabled row) days (st_last_run_at row) (st_next_run_at row))
           | None => mret row
           end;
     _ ← on_tables (modify (set_settings [row]));
     _ ← match su_interval_days body with
         | Some _ => modify (fun l => MkLive (st_interval_days row) (tables l))
         | None => mret tt
         end;
     mret (PDict [("enabled", PBool (st_enabled row)); ("interval_days", PInt (st_interval_days row));
                  ("last_run", time_or_null (st_last_run_at row)); ("next_run", time_or_null (st_next_run_at row))])).

(** ** Listings

    [ORDER BY] leaves open the order of what it finds equal. *)

Variable newest : list VerificationReport -> list VerificationReport.
Variable newest_runs : list (string * Z) -> list (string * Z).
Variable by_name : list VerificationReport -> list VerificationReport.

Definition page_of {A} (page page_size : Z) (l : list A) : list A :=
  take (Z.to_nat page_size) (drop (Z.to_nat ((page - 1) * page_size)) l).
Definition in_summary (k : string) (r : VerificationReport) : Z := default 0%Z (as_Z (dget_or k (PInt 0) (vr_summary r))).
Definition sum_of (k : string) (l : list VerificationReport) : Z := foldr Z.add 0%Z (map (in_summary k) l).
(** The runs with the time of their first report. *)
Definition run_times (l : list VerificationReport) : list (string * Z) :=
  map (fun g => (g.1, foldr Z.min (hd 0%Z (map vr_created_at g.2)) (map vr_created_at g.2))) (group_by vr_run_id l).
Definition report_entry (r : VerificationReport) : pyval :=
  PDict [("connector_name", PStr (vr_name r)); ("connector_version", PStr (vr_version r)); ("connector_category", PStr (vr_category r));
         ("status", PStr (vr_status r)); ("summary", PDict (vr_summary r)); ("created_at", PStr (isoformat (vr_created_at r)))].
Record run_entry := MkRunEntry {
  re_run_id : string; re_created_at : string; re_total : Z; re_passed : Z; re_failed : Z; re_skipped : Z; re_duration : Z;
  re_connectors : list pyval
}.
Definition entry_of_run (g : string * list VerificationReport) : run_entry :=
  MkRunEntry g.1 (isoformat (hd 0%Z (map vr_created_at g.2))) (Z.of_nat (List.length g.2))
    (sum_of "passed" g.2) (sum_of "failed" g.2) (sum_of "skipped" g.2) (sum_of "duration_ms" g.2) (map report_entry g.2).
Definition list_runs (page page_size : Z) (l : list VerificationReport) : Z * list run_entry :=
  let ids := map fst (page_of page page_size (newest_runs (run_times l))) in
  let found := newest (List.filter (fun r => existsb (String.eqb (vr_run_id r)) ids) l) in
  (Z.of_nat (List.length (group_by vr_run_id l)), map entry_of_run (group_by vr_run_id found)).

Record run_details := MkDetails {
  rd_run_id : string; rd_created_at : string; rd_tested : Z; rd_passed : Z; rd_failed : Z; rd_skipped : Z; rd_duration : Z;
  rd_connectors : list VerificationReport
}.
Definition get_run (run_id : string) (l : list VerificationReport) : res run_details :=
  match parse_uuid run_id with
  | None => Raise (http_exception 400 "Invalid run_id format")
  | Some rid =>
      match by_name (List.filter (fun r => String.eqb (vr_run_id r) rid) l) with
      | [] => Raise (http_exception 404 "Run not found")
      | first :: _ as found =>
          Ok (MkDetails run_id (isoformat (vr_created_at first)) (Z.of_nat (List.length found))
                (sum_of "passed" found) (sum_of "failed" found) (sum_of "skipped" found) (sum_of "duration_ms" found) found)
      end
  end.

Record error_query := MkErrorQuery { eq_connector : option string; eq_from : option string; eq_to : option string; eq_page : Z; eq_page_size : Z }.
Definition nonempty (o : option string) : option string := match o with Some "" => None | _ => o end.
(** A bound of the query, read. *)
Definition bound_of (o : option string) : res (option Z) :=
  match nonempty o with Some s => t ← fromisoformat s; Ok (Some t) | None => Ok None end.
Definition in_bounds (q : error_query) (lo hi : option Z) (r : VerificationReport) : bool :=
  existsb (String.eqb (vr_status r)) ["FAIL"; "PARTIAL"]
  && match nonempty (eq_connector q) with Some n => String.eqb (vr_name r) n | None => true end
  && match lo with Some t => (t <=? vr_created_at r)%Z | None => true end
  && match hi with Some t => (vr_created_at r <=? t)%Z | None => true end.
Definition error_entry (r : VerificationReport) (d : dict) : res pyval :=
  name ← required "name" d;
  Ok (PDict [("connector_name", PStr (vr_name r)); ("connector_version", PStr (vr_version r)); ("connector_category", PStr (vr_category r));
             ("check_name", name); ("error", dget_or "error" (PStr "") d); ("suggestion", dget_or "suggestion" PNone d);
             ("response_time_ms", dget_or "response_time_ms" (PInt 0) d); ("run_id", PStr (vr_run_id r));
             ("created_at", PStr (isoformat (vr_created_at r)))]).
(** The failed checks of a report. *)
Definition errors_of (r : VerificationReport) : res (list pyval) :=
  found ← mapR (fun c => d ← dict_method "get" c;
                         if py_eqb (dget_or "status" PNone d) (PStr "FAIL") then e ← error_entry r d; Ok [e] else Ok []) (vr_checks r);
  Ok (List.concat found).
Definition list_errors (q : error_query) (l : list VerificationReport) : res (Z * list pyval) :=
  lo ← bound_of (eq_from q); hi ← bound_of (eq_to q);
  let found := List.filter (in_bounds q lo hi) l in
  errors ← mapR errors_of (page_of (eq_page q) (eq_page_size q) (newest found));
  Ok (Z.of_nat (List.length found), List.concat errors).

(** [latest_reports]: the report of the latest time, of each active version. *)
Definition same_version (name version : string) (r : VerificationReport) : bool :=
  String.eqb (vr_name r) name && String.eqb (vr_version r) version.
Definition latest_time (l : list VerificationReport) (r : VerificationReport) : bool :=
  forallb (fun x => (vr_created_at x <=? vr_created_at r)%Z) (List.filter (same_version (vr_name r) (vr_version r)) l).
Definition latest_report (name version : string) (l : list VerificationReport) : option VerificationReport :=
  List.find (same_version name version) (by_name (List.filter (latest_time l) l)).
(** [max(..., key=created_at)]: the first of the greatest. *)
Definition most_recent (l : list VerificationReport) : option VerificationReport :=
  match l with
  | [] => None
  | r :: rest => Some (fold_left (fun best x => if (vr_created_at best <? vr_created_at x)%Z then x else best) rest r)
  end.
Inductive latest_entry := Verified (r : VerificationReport) | NotRun (m : Manifest).
Definition version_key (m : Manifest) : string * string := (mf_name m, mf_version m).
Definition key_lt (a b : string * string) : bool := text_lt a.1 b.1 || (String.eqb a.1 b.1 && text_lt a.2 b.2).
(** [active_versions]: the last manifest of a name and version counts, in the sorted order of the keys. *)
Fixpoint active_versions (manifests : list Manifest) : list Manifest :=
  match manifests with
  | [] => []
  | m :: rest =>
      let l := active_versions rest in
      if existsb (fun x => bool_decide (version_key x = version_key m)) l then l else m :: l
  end.
Definition latest_reports (manifests : list Manifest) (l : list VerificationReport) : option VerificationReport * list latest_entry :=
  let active := stable_sort (fun a b => key_lt (version_key a) (version_key b)) (active_versions manifests) in
  let reported := List.filter (fun r => existsb (fun m => same_version (mf_name m) (mf_version m) r) active)
                    (by_name (List.filter (latest_time l) l)) in
  let first_of r := match latest_report (vr_name r) (vr_version r) l with Some x => bool_decide (vr_id x = vr_id r) | None => false end in
  (most_recent (List.filter first_of reported),
   map (fun m => match latest_report (mf_name m) (mf_version m) l with Some r => Verified r | None => NotRun m end) active).
End api.

(** ** A run and its reports *)

Section run_facts.
Context `{Cipher}.
Variable jsonb : pyval -> res unit.
(** The numbers of a summary are stored. *)
Hypothesis jsonb_summary : forall total passed failed skipped warned ms,
  jsonb (PDict [("total", PInt total); ("passed", PInt passed); ("failed", PInt failed); ("skipped", PInt skipped);
                ("warned", PInt warned); ("duration_ms", PInt ms)]) = Ok tt.
Variable connector : list request -> request -> res response.
Variable elapsed : list request -> Z.
Variable search_pattern : string -> string -> res (option re_found).
Variable future_date : list request -> string.
Variable client_text : string.
Variable arrange_names : list string -> list string.
Variable cfg : Settings.
Variable instances : list ConnectorInstance.
Variable credential_rows : list Credential.

(** The script of KSeF is not the one a target is resolved to. *)
Definition not_ksef (t : Target) : Prop :=
  let m := tg_manifest t in
  resolved_module connector elapsed future_date client_text (mf_name m) (mf_interface m) (mf_category m)
  <> Some "src.checks.other.ksef".
(** The columns of a report hold the texts of a manifest. *)
Definition fits (t : Target) : bool :=
  let m := tg_manifest t in
  is_ok (varchar 100 (mf_name m)) && is_ok (varchar 20 (mf_version m)) && is_ok (varchar 50 (mf_category m)).

Lemma verify_single_returns t :
  not_ksef t -> returns Checks (verify_single connector elapsed search_pattern future_date client_text t).
Proof.
  intros Hk. unfold verify_single. eapply returns_bind; [apply tier1_returns|intros tier1 H1].
  eapply returns_bind; [apply api_version_returns|intros version Hv].
  assert (Checks (tier1 ++ match version with Some c => [c] | None => [] end)%list) as Hc.
  { apply Forall_app; split; [done|]. destruct version; by repeat constructor. }
  cbv zeta. apply returns_any; intros health_ok. apply returns_if; [by apply returns_ret|].
  eapply returns_bind; [apply tier2_returns|intros tier2 H2]. apply returns_any; intros auth_ok.
  apply returns_if; [|apply returns_ret; by apply Forall_app].
  eapply returns_bind; [by apply tier3_returns|]. intros v (l & -> & Hl).
  apply (returns_bind Checks); [apply returns_lift; by intros a [= <-]|]. intros l' Hl'.
  apply returns_ret. apply Forall_app; split; [done|]. by apply Forall_app.
Qed.

(** The status of a report and its counts. *)
Definition has_status (s : string) (c : pyval) : bool :=
  match c with PDict d => match dget "status" d with Some v => py_eqb v (PStr s) | None => false end | _ => false end.
Definition tally (s : string) (checks : list pyval) : Z := Z.of_nat (List.length (List.filter (has_status s) checks)).
Definition status_of (checks : list pyval) : string :=
  report_status (tally "PASS" checks) (tally "FAIL" checks) (tally "SKIP" checks) (tally "WARN" checks)
    (Z.of_nat (List.length checks)).

Lemma count_status_checks s checks : Checks checks -> count_status s checks = Ok (tally s checks).
Proof.
  intros Hc. unfold count_status. rewrite (mapR_Ok _ (has_status s)).
  - cbn. unfold tally. do 2 f_equal. clear Hc. induction checks as [|c checks IH]; cbn; [done|].
    destruct (has_status s c); cbn; by rewrite IH.
  - intros c Hin. rewrite List.Forall_forall in Hc. apply list_elem_of_In, Hc in Hin. destruct c; try done. cbn in *.
    destruct (dget "name" _) as [[]|]; try done. by destruct (dget "status" _) as [v|].
Qed.
Lemma times_checks checks : Checks checks -> is_ok (mapR time_of checks) = true.
Proof.
  induction 1 as [|c checks Hc _ IH]; cbn; [done|]. destruct c; try done. cbn in *.
  destruct (dget "name" _) as [[]|]; try done. destruct (dget "status" _) as [[]|]; try done.
  destruct (dget_or _ _ _); try done. cbn. by destruct (mapR time_of checks).
Qed.

(** A row of the reports, of a target. *)
Record reports_on (run_id : string) (began : Z) (t : Target) (r : VerificationReport) : Prop := {
  on_run : vr_run_id r = run_id;
  on_connector : (vr_category r, vr_name r, vr_version r)
    = (mf_category (tg_manifest t), mf_name (tg_manifest t), mf_version (tg_manifest t));
  on_tenant : vr_tenant r = tg_tenant_id t;
  on_time : vr_created_at r = began;
  on_checks : Checks (vr_checks r);
  on_status : vr_status r = status_of (vr_checks r)
}.
Definition line_of (r : VerificationReport) : report_line :=
  MkLine (vr_category r ++ "/" ++ vr_name r ++ "/" ++ vr_version r) (vr_status r) (vr_summary r).

(** The checks of a target: what its verification returns, or its failure. *)
Definition checked (t : Target) : EM (list request) (list pyval) :=
  try_catch (verify_single connector elapsed search_pattern future_date client_text t) (fun e => mret (runner_failed e)).
Definition checked_as (t : Target) (checks : list pyval) : Prop := exists tr tr', checked t tr = (Ok checks, tr').

Lemma checked_returns t tr : not_ksef t -> exists checks tr', checked t tr = (Ok checks, tr') /\ Checks checks.
Proof.
  intros Hk. unfold checked, try_catch. destruct (verify_single _ _ _ _ _ t tr) as [[checks|e] tr'] eqn:E.
  - exists checks, tr'. split; [done|]. exact (verify_single_returns t Hk _ _ _ E).
  - exists (runner_failed e), tr'. split; [done|]. by repeat constructor.
Qed.

(** A report is stored, unless its checks are no JSON of the database. *)
Lemma save_report_ok run_id began t checks w :
  Checks checks -> fits t = true ->
  match jsonb (PList checks) with
  | Ok _ => exists r, save_report jsonb run_id began t checks w = (Ok r, set_reports (reports w ++ [r])%list w)
                      /\ reports_on run_id began t r /\ vr_checks r = checks
  | Raise e => save_report jsonb run_id began t checks w = (Raise e, w)
  end.
Proof.
  intros Hc Hf. unfold save_report. rewrite !(count_status_checks _ checks Hc). cbv zeta.
  pose proof (times_checks checks Hc) as Ht. destruct (mapR time_of checks) as [times|]; [|done].
  unfold fits in Hf. apply andb_true_iff in Hf as [[H1 H2]%andb_true_iff H3].
  destruct (varchar 100 _) as [[]|] eqn:E1; [|done]. destruct (varchar 20 _) as [[]|] eqn:E2; [|done].
  destruct (varchar 50 _) as [[]|] eqn:E3; [|done]. unfold mbind, EM_bind, lift, get_st, modify, mret, EM_ret.
  cbn [vr_summary]. rewrite jsonb_summary.
  destruct (jsonb (PList checks)); [|done]. eexists. split; [reflexivity|]. split; [by constructor|done].
Qed.

Abbreviation verify := (verify_target jsonb connector elapsed search_pattern future_date client_text).
Lemma verify_target_ok run_id began t w :
  not_ksef t -> fits t = true ->
  (exists r tr, verify run_id began t w = (Ok (line_of r), MkAgentDb (reports w ++ [r])%list (settings_rows w) tr)
     /\ reports_on run_id began t r /\ checked_as t (vr_checks r))
  \/ (exists checks e w', checked_as t checks /\ jsonb (PList checks) = Raise e /\ verify run_id began t w = (Raise e, w')).
Proof.
  intros Hk Hf. destruct (checked_returns t (trace w) Hk) as (checks & tr & E & Hc).
  pose proof (save_report_ok run_id began t checks (set_trace tr w) Hc Hf) as Hs.
  unfold verify_target, within. unfold mbind at 1 3, EM_bind at 1 3. fold (checked t). rewrite E.
  destruct (jsonb (PList checks)) as [[]|e] eqn:Ej.
  - left. destruct Hs as (r & Er & Hr & Hrc). exists r, tr. rewrite (bind_run _ _ _ _ _ Er).
    split; [|split; [done|rewrite Hrc; by eexists _, _]]. destruct Hr as [_ [= <- <- <-] _ _ _ _]. done.
  - right. exists checks, e. eexists. split; [by eexists _, _|]. split; [done|]. unfold mbind, EM_bind. by rewrite Hs.
Qed.

Lemma verify_all_ok run_id began ts w :
  Forall (fun t => not_ksef t /\ fits t = true) ts ->
  (exists rows tr, map_each (verify run_id began) ts w
    = (Ok (map line_of rows), MkAgentDb (reports w ++ rows)%list (settings_rows w) tr)
    /\ Forall2 (fun t r => reports_on run_id began t r /\ checked_as t (vr_checks r)) ts rows)
  \/ (exists t checks e w', t ∈ ts /\ checked_as t checks /\ jsonb (PList checks) = Raise e
      /\ map_each (verify run_id began) ts w = (Raise e, w')).
Proof.
  intros Hts. revert w. induction Hts as [|t ts [Hk Hf] _ IH]; intros w.
  - left. exists [], (trace w). rewrite app_nil_r. by destruct w.
  - cbn [map_each]. destruct (verify_target_ok run_id began t w Hk Hf) as [(r & tr1 & E1 & Hr)|(checks & e & w' & Hc & Hj & E1)].
    + rewrite (bind_run _ _ _ _ _ E1).
      destruct (IH (MkAgentDb (reports w ++ [r])%list (settings_rows w) tr1)) as [(rows & tr & E2 & Hrows)|(t2 & checks & e & w' & Ht & Hc & Hj & E2)].
      * left. rewrite (bind_run _ _ _ _ _ E2). exists (r :: rows), tr. cbn [reports settings_rows map]. rewrite <-app_assoc.
        by split; [|constructor].
      * right. exists t2, checks, e, w'. split_and!; [by right|done|done|]. unfold mbind, EM_bind. by rewrite E2.
    + right. exists t, checks, e, w'. split_and!; [by left|done|done|]. unfold mbind, EM_bind. by rewrite E1.
Qed.

(** The settings after a run. *)
Definition after_run (now : Z) (rows : list VerificationSettings) : list VerificationSettings :=
  let r := hd (MkSettings true 7 None None) rows in
  [MkSettings (st_enabled r) (st_interval_days r) (Some now) (Some (now + verification_interval_days cfg * day)%Z)].
Lemma update_last_run_ok now w :
  (List.length (settings_rows w) <= 1)%nat ->
  update_last_run now (Some (now + verification_interval_days cfg * day)%Z) w
  = (Ok tt, set_settings (after_run now (settings_rows w)) w).
Proof.
  intros Hl. unfold update_last_run, mbind, EM_bind, get_st, lift, scalar_one_or_none, modify.
  destruct w as [rs [|r [|r2 l]] tr]; cbn in *; [done|done|lia].
Qed.

Abbreviation run := (run_verification jsonb connector elapsed search_pattern future_date client_text arrange_names cfg instances credential_rows).
Abbreviation targets := (run_targets arrange_names cfg instances credential_rows).

(** C37: A run of targets whose names fit the columns, none of them resolved to the script of KSeF, over
    at most one row of settings, ends in one of two ways, whatever the connectors answer.  It completes: it
    stores one report per target, in order, of the checks made and the status they determine, and answers their
    number.  Or the checks of a target hold what the database does not take as JSON: then it ends with
    that error, and the tables are as they were. *)
Theorem runs_complete cf vf run_id began now w :
  Forall (fun t => not_ksef t /\ fits t = true) (targets cf vf) -> targets cf vf <> [] ->
  (List.length (settings_rows w) <= 1)%nat ->
  (exists rows passed failed skipped w',
    run cf vf run_id began now w
    = (Ok (Completed run_id (Z.of_nat (List.length (targets cf vf))) passed failed skipped (map line_of rows)), w')
    /\ reports w' = (reports w ++ rows)%list /\ settings_rows w' = after_run now (settings_rows w)
    /\ Forall2 (fun t r => reports_on run_id began t r /\ checked_as t (vr_checks r)) (targets cf vf) rows)
  \/ (exists t checks e w', t ∈ targets cf vf /\ checked_as t checks /\ jsonb (PList checks) = Raise e
      /\ run cf vf run_id began now w = (Ok (RunError run_id (error_text e)), w')
      /\ reports w' = reports w /\ settings_rows w' = settings_rows w).
Proof.
  intros Hts Hne Hset. unfold run_verification, try_catch.
  destruct (verify_all_ok run_id began _ w Hts) as [(rows & tr & E & Hrows)|(t & checks & e & w' & Ht & Hc & Hj & E)].
  - left. set (w1 := MkAgentDb _ _ tr) in E. assert (Hset1 : (List.length (settings_rows w1) <= 1)%nat) by exact Hset.
    pose proof (update_last_run_ok now w1 Hset1) as E2.
    exists rows. do 3 eexists. exists (set_settings (after_run now (settings_rows w)) w1).
    split; [|split_and!; [done|done|exact Hrows]]. apply Forall2_length in Hrows.
    destruct (targets cf vf) as [|t ts] eqn:Et; [done|]. unfold mbind at 1, EM_bind at 1, atomic.
    rewrite (bind_run _ _ _ _ _ E), (bind_run _ _ _ _ _ E2). unfold mret, EM_ret.
    rewrite length_map, Hrows. reflexivity.
  - right. exists t, checks, e, (rolled_back w w'). split_and!; [done|done|done| |done|done].
    destruct (targets cf vf) as [|t' ts] eqn:Et; [done|]. unfold mbind at 1, EM_bind at 1, atomic.
    unfold mbind at 1, EM_bind at 1. by rewrite E.
Qed.

(** A run that does not complete leaves the tables as they were. *)
Theorem failed_runs_keep_tables cf vf run_id began now w :
  exists answer w', run cf vf run_id began now w = (Ok answer, w')
  /\ match answer with
     | Completed _ _ _ _ _ _ => True
     | _ => reports w' = reports w /\ settings_rows w' = settings_rows w
     end.
Proof.
  unfold run_verification, try_catch. destruct (targets cf vf) as [|t ts]; [by do 2 eexists|].
  unfold mbind at 1, EM_bind at 1, atomic.
  destruct ((map_each _ _ ≫= _) w) as [[lines|e] w1]; by do 2 eexists.
Qed.
End run_facts.

(** ** What is discovered *)

Section discovery_facts.
Variable port : Z.

Lemma group_of {A} (key : A -> string) (l : list A) k :
  dget k (group_by key l) = match List.filter (fun x => String.eqb (key x) k) l with [] => None | xs => Some xs end.
Proof.
  unfold group_by.
  assert (forall groups,
    dget k (fold_left (fun groups x => dset (key x) (default [] (dget (key x) groups) ++ [x])%list groups) l groups)
    = match List.filter (fun x => String.eqb (key x) k) l with
      | [] => dget k groups
      | xs => Some (default [] (dget k groups) ++ xs)%list
      end) as Hg.
  { induction l as [|x l IH]; intros groups; [done|]. cbn [fold_left List.filter]. rewrite IH, dget_dset, String.eqb_sym.
    destruct (String.eqb_spec (key x) k) as [->|_]; [|done].
    destruct (List.filter _ l); cbn; [done|]. by rewrite <-app_assoc. }
  by rewrite Hg.
Qed.
Lemma group_keys {A} (key : A -> string) (l : list A) : NoDup (dkeys (group_by key l)).
Proof.
  unfold group_by. assert (forall groups, NoDup (dkeys groups) -> NoDup (dkeys
    (fold_left (fun groups x => dset (key x) (default [] (dget (key x) groups) ++ [x])%list groups) l groups))) as Hg.
  { induction l as [|x l IH]; intros groups Hn; [done|]. cbn. apply IH. by apply NoDup_dkeys_dset. }
  apply Hg. constructor.
Qed.

Lemma elem_concat_map {A B} (f : A -> list B) l y : y ∈ List.concat (map f l) <-> exists x, x ∈ l /\ y ∈ f x.
Proof.
  rewrite !list_elem_of_In, in_concat. setoid_rewrite in_map_iff. setoid_rewrite list_elem_of_In. split.
  - intros (ys & (x & <- & Hx) & Hy). by exists x.
  - intros (x & Hx & Hy). by exists (f x); split; [exists x|].
Qed.
Lemma elem_filter {A} (p : A -> bool) l x : x ∈ List.filter p l <-> x ∈ l /\ p x = true.
Proof. rewrite !list_elem_of_In. apply filter_In. Qed.
Lemma empty_filter {A} (p : A -> bool) l : List.filter p l = [] <-> forall x, x ∈ l -> p x = false.
Proof.
  split.
  - intros E x Hx. destruct (p x) eqn:Ep; [|done]. assert (x ∈ List.filter p l) as Hin by by apply elem_filter.
    rewrite E in Hin. by apply not_elem_of_nil in Hin.
  - intros Hl. destruct (List.filter p l) as [|x xs] eqn:E; [done|].
    assert (x ∈ List.filter p l) as [Hx Ep]%elem_filter by (rewrite E; left). by rewrite (Hl x Hx) in Ep.
Qed.
Lemma dict_of_absent {V} (l : list (string * V)) k : k ∉ map fst l -> dget k (dict_of l) = None.
Proof.
  intros Hk. destruct (dget k (dict_of l)) as [v|] eqn:E; [|done]. apply dget_Some_in, elem_of_dict_of in E.
  destruct Hk. apply list_elem_of_In, in_map_iff. exists (k, v). by rewrite <-list_elem_of_In.
Qed.
Lemma dget_unique {V} (d : list (string * V)) k v : NoDup (dkeys d) -> (k, v) ∈ d -> dget k d = Some v.
Proof.
  unfold dkeys. induction d as [|[k' v'] d IH]; cbn; [by intros _ ?%not_elem_of_nil|].
  intros [Hn Hd]%list.NoDup_cons [[= -> ->]|Hin]%elem_of_cons; [by rewrite String.eqb_refl|].
  destruct (String.eqb_spec k k') as [->|_]; [|by apply IH]. destruct Hn. apply list_elem_of_In, in_map_iff.
  exists (k', v). by rewrite <-list_elem_of_In.
Qed.

(** The versions of a connector, with an instance or without any. *)
Definition verifies (instances : list ConnectorInstance) (found : list Manifest) (name : string) (m : Manifest) (t : Target) : Prop :=
  (exists i, i ∈ instances /\ of_version name (mf_version m) i = true
             /\ t = target_for port m (List.length found) (Some (ci_tenant i)))
  \/ ((forall i, i ∈ instances -> String.eqb (ci_name i) name = false) /\ t = target_for port m (List.length found) None).

Lemma connector_targets_exact instances name found t :
  t ∈ connector_targets port instances name found <-> exists m, m ∈ found /\ verifies instances found name m t.
Proof.
  unfold connector_targets. set (versions := stable_sort _ found).
  assert (Hp : versions ≡ₚ found) by apply stable_sort_perm.
  assert (Hin : forall m, m ∈ versions <-> m ∈ found) by (intros m; by rewrite Hp).
  rewrite (Permutation_length Hp). cbv zeta. unfold verifies.
  destruct (existsb _ versions) eqn:Ex.
  - apply existsb_exists in Ex as (m0 & Hm0 & E0). destruct (List.filter _ instances) as [|i0 l0] eqn:Ei; [done|].
    assert (i0 ∈ List.filter (of_version name (mf_version m0)) instances) as [Hi0 Hv0]%elem_filter by (rewrite Ei; left).
    rewrite elem_concat_map. split.
    + intros (m & Hm & Ht). apply list_elem_of_In, in_map_iff in Ht as (i & <- & Hi).
      apply list_elem_of_In, elem_filter in Hi as [Hi Hv]. exists m. split; [by apply Hin|left; by exists i].
    + intros (m & Hm & [(i & Hi & Hv & ->)|[Hno _]]).
      * exists m. split; [by apply Hin|]. apply list_elem_of_In, in_map_iff. exists i. split; [done|].
        by apply list_elem_of_In, elem_filter.
      * unfold of_version in Hv0. by rewrite (Hno i0 Hi0) in Hv0.
  - assert (Hnone : forall m i, m ∈ found -> i ∈ instances -> of_version name (mf_version m) i = false).
    { intros m i Hm Hi. destruct (of_version name (mf_version m) i) eqn:Hv; [|done].
      rewrite <-Ex. symmetry. apply existsb_exists. exists m. split; [by apply list_elem_of_In, Hin|].
      assert (i ∈ List.filter (of_version name (mf_version m)) instances) as Hf by by apply elem_filter.
      destruct (List.filter _ instances); [by apply not_elem_of_nil in Hf|done]. }
    destruct (List.filter (fun i => String.eqb (ci_name i) name) instances) as [|i0 l0] eqn:En.
    + rewrite empty_filter in En. split.
      * intros Ht. apply list_elem_of_In, in_map_iff in Ht as (m & <- & Hm). exists m.
        split; [by apply Hin, list_elem_of_In|by right].
      * intros (m & Hm & [(i & Hi & Hv & ->)|[_ ->]]); [by rewrite Hnone in Hv|].
        apply list_elem_of_In, in_map_iff. exists m. split; [done|by apply list_elem_of_In, Hin].
    + rewrite <-En. split.
      * intros Ht. apply list_elem_of_omap in Ht as (i & Hi & E). apply elem_filter in Hi as [Hi Hname].
        rewrite dict_of_absent in E; [done|]. intros Hv. rewrite map_map in Hv.
        apply list_elem_of_In, in_map_iff in Hv as (m & Hv & Hm). cbn in Hv.
        assert (of_version name (mf_version m) i = false) as Hf by (apply Hnone; [by apply Hin, list_elem_of_In|done]).
        unfold of_version in Hf. by rewrite Hname, Hv, String.eqb_refl in Hf.
      * intros (m & Hm & [(i & Hi & Hv & ->)|[Hno _]]); [by rewrite Hnone in Hv|].
        assert (i0 ∈ List.filter (fun i => String.eqb (ci_name i) name) instances) as [Hi0 He]%elem_filter by (rewrite En; left).
        by rewrite (Hno i0 Hi0) in He.
Qed.

(** C40: The targets are exactly these: each manifest for each enabled instance of its name and version,
    and each manifest, without a tenant, of a connector that has no enabled instance at all.  An
    instance of a version without a manifest gives none, and hides the connector from the checks. *)
Theorem targets_exact manifests rows t :
  t ∈ discover_targets port manifests rows <->
  exists m, m ∈ manifests
    /\ verifies (List.filter ci_enabled rows) (List.filter (fun x => String.eqb (mf_name x) (mf_name m)) manifests) (mf_name m) m t.
Proof.
  unfold discover_targets. cbv zeta. rewrite elem_concat_map. split.
  - intros ([name found] & Hg & (m & Hm & Hv)%connector_targets_exact). cbn [fst snd] in *.
    assert (dget name (group_by mf_name manifests) = Some found) as E.
    { by apply dget_unique; [apply group_keys|]. }
    rewrite group_of in E. destruct (List.filter _ manifests) as [|x xs] eqn:Ef; [done|]. injection E as <-.
    rewrite <-Ef in Hm. apply elem_filter in Hm as [Hm He]. apply String.eqb_eq in He. exists m. split; [done|].
    by rewrite He, Ef.
  - intros (m & Hm & Hv). exists (mf_name m, List.filter (fun x => String.eqb (mf_name x) (mf_name m)) manifests). split.
    + apply dget_Some_in. rewrite group_of.
      assert (m ∈ List.filter (fun x => String.eqb (mf_name x) (mf_name m)) manifests) as Hf
        by (apply elem_filter; by rewrite String.eqb_refl).
      by destruct (List.filter _ manifests); [apply not_elem_of_nil in Hf|].
    + apply connector_targets_exact. exists m. split; [|done]. apply elem_filter. by rewrite String.eqb_refl.
Qed.
End discovery_facts.

(** ** Tasks and the scheduler *)

(** The runs of which an agent knows: waiting for the loop, running, ended. *)
Definition known_runs (a : agent) : list string :=
  (map tk_run_id (pending a) ++ match holder a with Some k => [tk_run_id k] | None => [] end ++ map fst (outcomes a))%list.

Lemma ended_runs k o l1 l2 a :
  pending a = (l1 ++ k :: l2)%list -> known_runs (ended k o (l1 ++ l2)%list a) ≡ₚ known_runs a.
Proof.
  intros E. unfold known_runs, ended. cbn [pending holder outcomes map fst]. rewrite E, !map_app. cbn [map].
  destruct (holder a) as [h|]; solve_Permutation.
Qed.
Lemma start_runs k l1 l2 a :
  pending a = (l1 ++ k :: l2)%list -> known_runs (start_task k (l1 ++ l2)%list a) ≡ₚ known_runs a.
Proof.
  intros E. unfold start_task. cbv zeta.
  assert (holder a = None -> known_runs (MkAgent (l1 ++ l2)%list (Some k) (outcomes a) (db a)) ≡ₚ known_runs a) as Hfree.
  { intros Hh. unfold known_runs. rewrite Hh, E. cbn [pending holder outcomes]. rewrite !map_app. cbn [map]. solve_Permutation. }
  unfold is_running. destruct (tk_scheduled k); [destruct (disabled _) as [[]|]|];
    try (by apply ended_runs); destruct (holder a); first [by apply ended_runs|by apply Hfree].
Qed.

(** Every run that was promised by an answer [started], or began by a tick, is waiting, runs or ended
    in one way, and no other run is: nothing is lost or run twice. *)
Theorem runs_are_accounted perform w ids a : reaches perform w ids a -> ids ≡ₚ known_runs a.
Proof.
  induction 1 as [|ids a new a' _ IH Hs]; [done|]. rewrite IH. clear IH. destruct Hs as [rid c v a r a' E|rid a|l1 k l2 a E|a].
  - unfold trigger_run in E. destruct (is_running a); [done|]. injection E as <- <-. unfold known_runs.
    cbn [pending holder outcomes rr_run_id]. rewrite map_app. cbn [map tk_run_id]. solve_Permutation.
  - unfold known_runs, tick. cbn [pending holder outcomes]. rewrite map_app. cbn [map tk_run_id]. solve_Permutation.
  - by rewrite start_runs.
  - unfold finish_task. destruct (holder a) as [k|] eqn:Eh; [|done]. destruct (perform k (db a)) as [r w'].
    unfold known_runs. rewrite Eh. cbn [pending holder outcomes map fst]. done.
Qed.

(** The live job has the interval of the row. *)
Definition scheduled_as_stored (l : live) : Prop :=
  exists r, settings_rows (tables l) = [r] /\ job_interval l = st_interval_days r.

Section scheduler.
Variable isoformat : Z -> string.
Lemma init_scheduler_stored l :
  (List.length (settings_rows (tables l)) <= 1)%nat -> scheduled_as_stored (init_scheduler l).2.
Proof. destruct l as [j [rs [|r [|r2 rows]] tr]]; intros Hl; [by eexists|by exists r|cbn in Hl; lia]. Qed.

(** Whatever is asked of the endpoint, the live job keeps the interval of the stored row, and a refused
    update changes nothing. *)
Theorem updates_keep_schedule body l :
  scheduled_as_stored l ->
  scheduled_as_stored (update_scheduler isoformat body l).2
  /\ (is_ok (update_scheduler isoformat body l).1 = false -> (update_scheduler isoformat body l).2 = l).
Proof.
  destruct l as [j [rs rows tr]]. intros (r & Hr & Hj). cbn in Hr, Hj. subst rows j. unfold update_scheduler, atomic.
  destruct body as [enabled [days|]]; cbn.
  - destruct (days <? 1)%Z; cbn; split; try done; by eexists.
  - split; [by eexists|done].
Qed.
End scheduler.

(** ** Examples *)

(** A connector that is up, and whose accounts are connected. *)
Definition up : list request -> request -> res response := fun _ rq =>
  Ok (MkResponse 200 ""
        (Ok (if ends_with "/accounts" (rq_url rq) then PList []
             else PDict [("status", PStr "healthy"); ("connected", PBool true); ("authenticated", PBool true)]))).
Definition no_time : list request -> Z := fun _ => 5%Z.
Definition no_pattern : string -> string -> res (option re_found) := fun _ _ => Ok None.
Definition demo_yaml (name category : string) (more : dict) : res pyval :=
  Ok (PDict ([("name", PStr name); ("category", PStr category); ("version", PStr "1.0.0"); ("interface", PStr category)] ++ more)%list).
Definition demo_files : list (res pyval) :=
  [demo_yaml "dhl" "courier" [("capabilities", PList [PStr "get_pickup_points"])];
   demo_yaml "ksef" "other" [("credential_provisioning", PDict [("mode", PStr "account")])]].
Definition demo_config (files : list (res pyval)) : Settings :=
  MkConfig "MDEyMzQ1Njc4OTAxMjM0NTY3ODkwMTIzNDU2Nzg5MDE=" 7 (Some files) 8000.
Definition secret (connector : string) : Credential :=
  MkCredential "t1" connector "default" "token" (urlsafe_b64encode ("nonce-------" ++ "sealed:abc")).
(** A database that refuses texts with U+0000. *)
Fixpoint nul_free (v : pyval) : bool :=
  match v with
  | PStr s => str_forall (fun c => negb (code c =? 0)%Z) s
  | PList l => forallb nul_free l
  | PDict d => forallb (fun kv => str_forall (fun c => negb (code c =? 0)%Z) kv.1 && nul_free kv.2) d
  | _ => true
  end.
Definition demo_jsonb (v : pyval) : res unit :=
  if nul_free v then Ok tt else Raise (OtherError "unsupported Unicode escape sequence").
Definition demo_run (files : list (res pyval)) : EM AgentDb run_answer :=
  run_verification demo_jsonb up no_time no_pattern (fun _ => "2026-01-04T14:00:00GMT+01:00") "<httpx.AsyncClient object>" id (demo_config files)
    [MkInstance "t1" "dhl" "1.0.0" true; MkInstance "t1" "ksef" "1.0.0" true] [secret "dhl"; secret "ksef"] None None "run-1" 100 160.
Definition empty_db : AgentDb := MkAgentDb [] [] [].

Lemma runs_complete_witness :
  (List.length (settings_rows empty_db) <= 1)%nat
  /\ exists rows passed failed skipped w',
       demo_run [demo_yaml "dhl" "courier" [("capabilities", PList [PStr "get_pickup_points"])]] empty_db
       = (Ok (Completed "run-1" 1 passed failed skipped (map line_of rows)), w')
       /\ reports w' = rows /\ List.length rows = 1%nat.
Proof.
  split; [cbn; lia|].
  destruct (runs_complete demo_jsonb (fun _ _ _ _ _ _ => eq_refl) up no_time no_pattern (fun _ => "2026-01-04T14:00:00GMT+01:00")
    "<httpx.AsyncClient object>" id
    (demo_config [demo_yaml "dhl" "courier" [("capabilities", PList [PStr "get_pickup_points"])]])
    [MkInstance "t1" "dhl" "1.0.0" true; MkInstance "t1" "ksef" "1.0.0" true] [secret "dhl"; secret "ksef"] None None "run-1" 100 160 empty_db)
    as [(rows & passed & failed & skipped & w' & E & Hr & _ & H2)|(t & checks & e & w' & _ & _ & _ & E & _)].
  - apply List.Forall_forall. intros t Ht. vm_compute in Ht. destruct Ht as [<-|[]]. split; [by vm_compute|reflexivity].
  - by vm_compute.
  - cbn. lia.
  - exists rows, passed, failed, skipped, w'. split; [exact E|]. split; [exact Hr|].
    apply Forall2_length in H2. by rewrite <-H2.
  - apply (f_equal fst) in E. vm_compute in E. discriminate E.
Defined.

(** A connector whose health is a text with U+0000: the text is quoted in its checks, which the database
    does not take, and the reports of every connector are rolled back. *)
Example quoted_nul_ends_the_run :
  let sick : list request -> request -> res response := fun tr rq =>
    if str_contains "dhl" (rq_url rq) && ends_with "/health" (rq_url rq)
    then Ok (MkResponse 200 "" (Ok (PDict [("status", PStr (String "000" EmptyString))]))) else up tr rq in
  let '(r, w) := run_verification demo_jsonb sick no_time no_pattern (fun _ => "") "" id
    (demo_config [demo_yaml "ups" "courier" []; demo_yaml "dhl" "courier" []]) [] [] None None "run-1" 100 160 empty_db in
  r = Ok (RunError "run-1" "unsupported Unicode escape sequence") /\ reports w = [] /\ settings_rows w = [].
Proof. vm_compute. by split_and!. Qed.

(** The script of KSeF takes a base URL, credentials and a tier, and answers a dictionary: given the
    client and the target, its keys become the checks of the report, on which the count of statuses
    raises.  The whole run fails, and the report of the other connector is rolled back. *)
Example ksef_ends_the_run :
  let '(r, w) := demo_run demo_files empty_db in
  r = Ok (RunError "run-1" "string indices must be integers, not 'str'") /\ reports w = []
  /\ match (demo_run [hd (Raise (KeyError "")) demo_files] empty_db).1 with
     | Ok (Completed _ tested passed _ _ _) => tested = 1%Z /\ passed = 1%Z
     | _ => False
     end.
Proof. vm_compute. by split_and!. Qed.

(** A report of warnings is counted by the run as neither passed, failed nor skipped. *)
Example warnings_are_not_counted :
  let lines := [MkLine "courier/dhl/1.0.0" "WARN" []] in
  status_of [result "health" "PASS" 1 "" ""; plain_result "api_version_check" "WARN" 1 []] = "WARN"
  /\ (count_lines (String.eqb "PASS") lines + count_lines (fun s => String.eqb "FAIL" s || String.eqb "PARTIAL" s) lines
      + count_lines (String.eqb "SKIP") lines)%Z = 0%Z.
Proof. by vm_compute. Qed.

(** A version with another number of parts is newer than itself, and the parts are compared without
    regard to what separates them. *)
Example trailing_zero_is_newer :
  is_newer "3.2.0" "3.2" = true /\ is_newer "v2" "2" = false /\ is_newer "2024-07" "2024-4" = true /\ is_newer "1.0-rc2" "1.0" = true.
Proof. by vm_compute. Qed.

(** Two requests before the loop starts the first task are both answered [started]; the second run
    never happens. *)
Example second_trigger_is_dropped :
  let a0 := MkAgent [] None [] empty_db in
  let '(r1, a1) := trigger_run "run-1" None None a0 in
  let '(r2, a2) := trigger_run "run-2" (Some "dhl") None a1 in
  let a3 := start_task (MkTask "run-1" false None None) [MkTask "run-2" false (Some "dhl") None] a2 in
  let a4 := start_task (MkTask "run-2" false (Some "dhl") None) [] a3 in
  r1 = Ok (MkRun "run-1" "started") /\ r2 = Ok (MkRun "run-2" "started") /\ outcomes a4 = [("run-2", Ran AlreadyRunning)].
Proof. by vm_compute. Qed.

(** The next run a row announces is computed from the configuration, not from the interval that is set. *)
Example announced_run_ignores_interval :
  let l := (update_scheduler (fun _ => "") (MkUpdate None (Some 1%Z)) (MkLive 7 (MkAgentDb [] [MkSettings true 7 None None] []))).2 in
  let w := (demo_run [hd (Raise (KeyError "")) demo_files] (tables l)).2 in
  job_interval l = 1%Z
  /\ map st_interval_days (settings_rows w) = [1%Z] /\ map st_next_run_at (settings_rows w) = [Some (160 + 7 * day)%Z].
Proof. by vm_compute. Qed.

(** An instance of a version without a manifest hides the connector. *)
Example unknown_version_hides_connector :
  let found := discover_manifests (Some demo_files) in
  map (fun t => (mf_name (tg_manifest t), tg_tenant_id t)) (discover_targets 8000 found [MkInstance "t1" "dhl" "0.9.0" true])
  = [("ksef", None)]
  /\ map (fun t => mf_name (tg_manifest t)) (discover_targets 8000 found []) = ["dhl"; "ksef"].
Proof. by vm_compute. Qed.

(** No manifest names an endpoint for the validation of credentials: the field is not read. *)
Example validate_endpoint_is_never_called m : validate_endpoint m = Ok (PStr "").
Proof. reflexivity. Qed.

(** A connector without an interface of its own is given the script of the category [other]. *)
Example default_interface_takes_other :
  resolved_module up no_time (fun _ => "") "" "ups" "generic" "courier" = Some "src.checks.other.generic"
  /\ resolved_module up no_time (fun _ => "") "" "ups" "courier" "courier" = Some "src.checks.courier.generic".
Proof. by vm_compute. Qed.
Lemma updates_keep_schedule_witness :
  let l := MkLive 7 (MkAgentDb [] [MkSettings true 7 None None] []) in
  scheduled_as_stored (update_scheduler (fun _ => "") (MkUpdate None (Some 1%Z)) l).2
  /\ (update_scheduler (fun _ => "") (MkUpdate (Some false) (Some 0%Z)) l).2 = l.
Proof.
  cbv zeta. split.
  - apply (updates_keep_schedule (fun _ => "") (MkUpdate None (Some 1%Z)) (MkLive 7 (MkAgentDb [] [MkSettings true 7 None None] []))).
    by eexists.
  - apply (updates_keep_schedule (fun _ => "") (MkUpdate (Some false) (Some 0%Z)) (MkLive 7 (MkAgentDb [] [MkSettings true 7 None None] []))).
    + by eexists.
    + reflexivity.
Defined.
